(* ===== verification/_CoqProject ===== *)
-Q . S2P
Prelude.v
Bytes.v
Midl.v
MidlSort.v
Page.v
PageSpec.v
NodeOps.v
NodeDel.v
Cmp.v
NodeSearch.v
Cursor.v
PageList.v
Tree.v
CursorPath.v
CursorSim.v
PageAlloc.v
FreeDb.v
PageSplit.v
Leaf2.v
UpdateKey.v
Cow.v
Touch.v
TouchInv.v
TouchSteps.v
CursorTouch.v
LeafItems.v
Put.v
Split.v
PutInv.v
PutFind.v
PutLeaf.v
PutCorrect.v
Forest.v
Grow.v
SplitSteps.v
SplitSizes.v
SplitPlug.v
SplitInv.v
SplitLeaf.v
PutSplit.v
Merge.v
RingBuffer.v
SplArith.v
SplVector.v
SplRandom.v
SplBitRev.v
SplFft.v
SplFilter.v
SplResample.v
SplBy2.v
Spl48.v
Spl22.v
SplSqrt.v
SplLpc.v
SplQmf.v
