(* ===== verification/Prelude.v ===== *)
(** * Verification of the C storage and signal-processing code of Telegram for iOS

    The repository is an iOS application in Objective-C, Swift and C++.  Its
    C code is a set of self-contained components that the application embeds.
    This development models the ones that carry state and algorithms of their
    own: the LMDB storage engine ([src/LegacyDatabase]) and the fixed-point
    signal processing of the voice call stack
    ([src/submodules/libtgvoip/webrtc_dsp/webrtc/common_audio]).

    ** Conventions

    Integers are [Z]; [uwrap] and [swrap] (with the abbreviations [u16],
    [u32], [u64], [s16], [s32]) are the conversions to an unsigned and a two's
    complement type of a width.  Where the C code computes in [int], overflow
    is undefined and [int_add], [int_mul] and [int_shl] give [None].  Arrays are lists: [aget] and
    [aset] (cells), [bread] and [bwrite] (ranges) give [None] outside of the
    array; [zn], [zset], [slice] and [splice] are their total versions for
    specifications.  So [None] as the result of a function always means
    undefined behaviour, a failed assertion or (never, by the theorems) too
    little fuel; error codes are part of the result.  Memory allocation is a
    parameter: [mem_ok] tells whether it succeeds and [junk] is the contents
    of fresh memory.  Structures are records with the C field names.  Loops
    that are not structural take fuel; the fuel is a bound the code itself
    has (the number of elements left, the 32 cells of the cursor stack, the
    bits of a word), and the theorems prove that the result is [Some].

    ** Files

    - [Prelude]: machine integers, arrays, bit masks, permutations of lists,
      the tactic [closed] for closed side conditions.
    - [Bytes]: byte blocks, little-endian integers, and [upd m o bs m'], "only
      the range at [o] changed, to [bs]", with the rules to compose stores.
      The tactic [mstep] performs one store of a sequence.

    LMDB ID lists ([midl.c], [midl.h]):
    - [Midl]: [MDB_IDL] (a counted, descending list in a heap block) and
      [MDB_ID2L] (page number and pointer, ascending): search, growth,
      appending, merging, insertion.  The theorems give the list each
      function leaves, and that it stays inside its block; the exception is
      [mdb_midl_shrink], whose block is proved one cell too short.
    - [MidlSort]: [mdb_midl_sort], a quicksort with an explicit stack and an
      insertion sort for short ranges: it returns, sorts, permutes, and its
      stack of [ISTACK_LEN] cells is large enough.

    LMDB pages ([mdb.c], [lmdb.h]):
    - [Page]: the layout of a page and [mdb_node_add], [mdb_node_del],
      [mdb_page_copy], page initialisation, as byte operations.
    - [PageSpec]: the invariant [page_wf] of a page of nodes and the abstract
      content [p_nodes], the list of its nodes in slot order.
    - [NodeOps], [NodeDel]: adding a node (leaf, overflow, branch; page full)
      and deleting one refine insertion into and deletion from that list, and
      keep the invariant; copying a page keeps all of its contents.
    - [Cmp]: the five key comparators; the class [KeyOrder] says what a search
      needs of a comparator, and each comparator has an instance.
    - [NodeSearch]: binary search of a page, proved against [KeyOrder].
    - [Cursor]: the cursor (a stack of pages and indices) and the read path
      on databases without duplicates: page search, siblings, next, previous,
      first, last, set, [mdb_get], [mdb_cursor_get].
    - [PageList]: where a transaction finds a page ([mdb_page_get]), its dirty,
      loose and freed pages, [mdb_ovpage_free], [mdb_find_oldest].
    - [Tree]: [tree], the well-formed B+trees and their items; [mdb_get] is the
      lookup of a key among the items.
    - [CursorPath]: the stack of a cursor as a path of the tree, and what the
      descents and the sibling moves do to it.
    - [CursorSim]: the abstract cursor, a position in the list of items; a
      simulation shows that every sequence of [mdb_cursor_get] calls gives
      what the abstract cursor gives, that the stack stays a path of the
      tree, and that a scan visits every item once, in order.
    - [PageAlloc]: [mdb_page_alloc]: loose pages, the free list with the
      records of the free-page database, the end of the map; it reads records
      through the class [FreeReader].
    - [FreeDb]: the cursors of [Cursor] implement [FreeReader]; a page is free
      once, handed out once, and not before every reader has left it.
    - [PageSplit]: what [mdb_page_split] does to a page of nodes, its new
      right sibling and its parent; the two pages hold the old nodes and the
      new one in order, where the code looks at the sizes of the nodes; where
      it splits by their number it can fail, with a page that shows it.
    - [Leaf2]: pages of fixed-size keys: adding, deleting and splitting.
    - [UpdateKey]: a new key for a node of a branch page.
    - [Cow]: copies of a page, the page numbers a tree uses, and a tree with
      a hole on a path: replacing the pages of the path by copies keeps the
      items.
    - [Touch]: copy-on-write: [mdb_page_malloc], [mdb_page_unspill],
      [mdb_page_touch] and [mdb_cursor_touch] on a store of blocks of memory
      and pages of the file.  [TouchInv]: the invariant of a write transaction
      and one page replaced; [TouchSteps]: what replaces a page;
      [CursorTouch]: all pages of a path become writable, the tree keeps its
      items and every page number stays accounted for.
    - [Put]: writing an item, [mdb_put] and [mdb_cursor_put], with new pages,
      the root of an empty database and overflow pages, on the same store.
      [LeafItems]: the items of a leaf when a node is added, deleted or
      overwritten; [PutInv]: a leaf written in place keeps the invariant of
      [TouchInv]; [PutFind]: where the lookup of a write leaves the cursor;
      [PutLeaf]: the write to the leaf, which changes the items as
      [put_items] says.  [PutCorrect]: [mdb_put] from one state of the
      transaction to the next, its errors, and that [mdb_get] reads back what
      it wrote.
    - [Split]: the whole [mdb_page_split] on that store: the new sibling, the
      new root, a parent that is split in turn, the cursors; and [mdb_put] with
      it.  It is run on a small database, where every item is found after
      splits of leaves, branch pages and the root, and where the cursor of a
      write ends on a stack that is not a path of the tree.
    - The proof of a put that splits: [Forest] (a level of the tree as a list
      of pages with their separators, a page replaced by two), [Grow] (pages
      added to a tree: the invariant of the transaction), [SplitSteps] (the
      steps of [Split] on the store), [SplitSizes] (sizes of keys with which
      the halves of a page fit), [SplitPlug] (the separator in the parent),
      [SplitInv] (by induction on the path, [mdb_page_split] gives a tree in
      which the page is two), [SplitLeaf] (the two leaves and their items) and
      [PutSplit] ([mdb_put] with its splits: the items, the height, every page
      accounted for, every error).
    - [Merge]: what [mdb_page_merge] does to the two pages and their parent;
      when [mdb_rebalance] merges, the pages fit together.

    Signal processing ([common_audio]):
    - [RingBuffer] ([ring_buffer.c]): a bounded queue of elements; any sequence
      of reads, writes and moves behaves as on a list.
    - [SplArith] ([spl_inl.h], [spl_inl.c], [spl_sqrt_floor.c],
      [division_operations.c]): leading zeros, saturation, normalisation,
      integer square root, divisions.
    - [SplVector] ([min_max_operations.c], [copy_set_operations.c],
      [vector_scaling_operations.c], [ilbc_specific_functions.c],
      [get_scaling_square.c], [energy.c], [dot_product_with_scale.c],
      [cross_correlation.c], [auto_correlation.c]): vectors, and the scaling
      that keeps sums of products from overflowing (with its exception).
    - [SplRandom] ([randomization_functions.c], [get_hanning_window.c]): the
      generator's full period, tables indexed in range.
    - [SplBitRev] ([complex_bit_reverse.c]): table and loop are the same
      bit-reversal permutation.
    - [SplFft] ([complex_fft.c], [complex_fft_tables.h], [real_fft.c]): the
      in-place transforms are the recursive decimation in time, in exact
      arithmetic; the forward one keeps magnitudes, the inverse one scales by
      the data, and neither overflows.
    - [SplFilter] ([downsample_fast.c], [filter_ma_fast_q12.c],
      [filter_ar_fast_q12.c], [filter_ar.c]): filters as convolutions and
      difference equations; the wrong state [WebRtcSpl_FilterAR] saves.
    - [SplResample] ([resample_by_2.c]) and [SplQmf]
      ([splitting_filter_impl.c]): all-pass filter chains, proved stable: no
      input makes their 32-bit state overflow, so they compute what exact
      arithmetic computes.

    - [SplBy2] ([resample_by_2_internal.c]) and [Spl48]
      ([resample_fractional.c], [resample_48khz.c]): the same with 31-bit
      samples, stable up to a level and overflowing at full scale; the
      fractional filters work in place; the 48 kHz resamplers are composed of
      them.
    - [Spl22] ([resample.c]): the 22 kHz resamplers; filters whose blocks write
      from both ends work in place at a distance.
    - [SplSqrt] ([spl_sqrt.c], [sqrt_of_one_minus_x_squared.c]): the square root
      by a polynomial, its error and that it does not overflow.
    - [SplLpc] ([levinson_durbin.c], [auto_corr_to_refl_coef.c],
      [lpc_to_refl_coef.c], [refl_coef_to_lpc.c]): linear prediction; the
      step-up recursion with two arrays, and bounded reflection coefficients.

    ** How the parts meet

    The cursor code calls the page search, the page search calls the
    comparators; [NodeSearch], [Tree] and [CursorSim] are proved for
    every comparator with a [KeyOrder].  [Cursor] takes the pages from a parameter
    [get], which stands for the memory behind [mdb_page_get]; [PageList] has
    [mdb_page_get] itself on the lists of [Midl].  In [Touch] the pages are those
    that [mdb_page_get] finds in the store, and new ones come from
    [mdb_page_alloc], which reads the free-page database there.  [mdb_put]
    ([Put]) is a lookup with the cursor of [Cursor], [mdb_cursor_touch] of
    [Touch] and the node operations of [Page], all on that store; its theorem
    is composed of theirs, on the items of [Tree].  [SplQmf] and [SplResample]
    share the stability of a first-order section, [SplFilter] and [SplVector]
    the saturation of [SplArith].

    ** Bounds

    [mdb_page_search_root] has fuel 33 and [mdb_cursor_sibling] 32 because the
    cursor stack has 32 cells; the theorems ask for trees of height below 32.
    [mdb_page_alloc] needs one more than the records of the free-page database.
    Pages are at most [MAX_PAGESIZE] (32768) bytes.  The filters' theorems ask
    for coefficients whose magnitudes add up to at most 65535 (32767 for
    [WebRtcSpl_FilterAR]), which is what 32 bits hold.

    ** Not modelled

    Of [mdb.c]: sorted duplicates (sub-cursors), deleting with a cursor,
    rebalancing on the store (only the merge of two pages), saving the free
    list, commit, copy-on-write in a map that is written, environments,
    locking and I/O.  [mdb_put] stops, with the state, where it calls
    [mdb_page_spill] to write pages out.  [PutCorrect] stops at the call of
    [mdb_page_split] and holds for all sizes; [PutSplit] goes through the split,
    for keys and values whose sizes are bounded so that every half of a page
    fits (without a bound, [PageSplit] shows a page that the code cannot
    split).  The theorems of [mdb_put] are about databases that are not empty,
    values that fit in a page, the flags 0 and [MDB_NOOVERWRITE], and trees of
    height below 31; the split of a leaf whose new value is on overflow pages,
    and [MDB_APPEND], are modelled and have no theorem on the store.  The other
    cursors of the transaction are modelled; that they stay on their items is
    not proved for a write, and the cursor of the write need not stay on its path.  Of
    [common_audio]: assembly and NEON variants, and [spl_init.c], which only
    sets function pointers.  The other C code of the repository is a copy
    of a third-party library that the application only calls (SQLite, lz4,
    Ogg, Opus, floating-point audio processing) or drawing code; the
    application itself is Objective-C, Swift and C++. *)
From Stdlib Require Import ZArith Lia.
From stdpp Require Import base numbers option list.
Open Scope Z_scope.

(** ** Machine integers *)

(** [uwrap w x]: the value of [x] stored in an unsigned [w]-bit object. *)
Definition uwrap (w x : Z) : Z := x mod 2 ^ w.

(** [swrap w x]: the value of [x] stored in a two's complement [w]-bit object. *)
Definition swrap (w x : Z) : Z := (x + 2 ^ (w - 1)) mod 2 ^ w - 2 ^ (w - 1).

Abbreviation u8 := (uwrap 8).
Abbreviation u16 := (uwrap 16).
Abbreviation u32 := (uwrap 32).
Abbreviation u64 := (uwrap 64).
Abbreviation s8 := (swrap 8).
Abbreviation s16 := (swrap 16).
Abbreviation s32 := (swrap 32).
Abbreviation s64 := (swrap 64).

Lemma uwrap_small (w x : Z) : 0 <= x < 2 ^ w -> uwrap w x = x.
Proof. apply Z.mod_small. Qed.

Lemma uwrap_range (w x : Z) : 0 <= w -> 0 <= uwrap w x < 2 ^ w.
Proof. intros. apply Z.mod_pos_bound. apply Z.pow_pos_nonneg; lia. Qed.

Lemma swrap_small (w x : Z) :
  0 < w -> - 2 ^ (w - 1) <= x < 2 ^ (w - 1) -> swrap w x = x.
Proof.
  intros Hw Hx. unfold swrap.
  assert (2 ^ w = 2 * 2 ^ (w - 1)) as Hp.
  { rewrite <- Z.pow_succ_r by lia. f_equal. lia. }
  rewrite Z.mod_small by lia. lia.
Qed.

Lemma swrap_range (w x : Z) :
  0 < w -> - 2 ^ (w - 1) <= swrap w x < 2 ^ (w - 1).
Proof.
  intros Hw. unfold swrap.
  assert (2 ^ w = 2 * 2 ^ (w - 1)) as Hp.
  { rewrite <- Z.pow_succ_r by lia. f_equal. lia. }
  pose proof (Z.mod_pos_bound (x + 2 ^ (w - 1)) (2 ^ w)). 
  assert (0 < 2 ^ (w - 1)) by (apply Z.pow_pos_nonneg; lia). lia.
Qed.

(** ** Arrays

    A C array is a list; an access outside of it is undefined behaviour and
    gives [None].  [zn] and [zset] are the total versions used in
    specifications and proofs. *)

Definition zlen {A} (l : list A) : Z := Z.of_nat (length l).

Definition aget {A} (l : list A) (i : Z) : option A :=
  if 0 <=? i then l !! Z.to_nat i else None.

Definition zset {A} (l : list A) (i : Z) (x : A) : list A :=
  <[Z.to_nat i := x]> l.

Definition aset {A} (l : list A) (i : Z) (x : A) : option (list A) :=
  if (0 <=? i) && (i <? zlen l) then Some (zset l i x) else None.

Definition zn {A} `{Inhabited A} (l : list A) (i : Z) : A :=
  if 0 <=? i then l !!! Z.to_nat i else inhabitant.

Section arrays.
Context {A : Type}.
Implicit Types (l : list A) (i j : Z) (x : A).

Lemma zlen_nonneg l : 0 <= zlen l.
Proof. unfold zlen. lia. Qed.

Lemma zlen_nil : zlen (@nil A) = 0.
Proof. reflexivity. Qed.

Lemma zlen_cons x l : zlen (x :: l) = 1 + zlen l.
Proof. unfold zlen. simpl. lia. Qed.

Lemma zlen_app l1 l2 : zlen (l1 ++ l2) = zlen l1 + zlen l2.
Proof. unfold zlen. rewrite length_app. lia. Qed.

Lemma zlen_zset l i x : zlen (zset l i x) = zlen l.
Proof. unfold zlen, zset. by rewrite length_insert. Qed.

Lemma zlen_take l n : 0 <= n <= zlen l -> zlen (take (Z.to_nat n) l) = n.
Proof. unfold zlen. intros. rewrite length_take. lia. Qed.

Lemma zlen_drop l n : 0 <= n <= zlen l -> zlen (drop (Z.to_nat n) l) = zlen l - n.
Proof. unfold zlen. intros. rewrite length_drop. lia. Qed.

Lemma aset_in l i x : 0 <= i < zlen l -> aset l i x = Some (zset l i x).
Proof.
  intros. unfold aset. 
  by rewrite (proj2 (Z.leb_le _ _)), (proj2 (Z.ltb_lt _ _)) by lia.
Qed.

Lemma aset_Some l l' i x : aset l i x = Some l' <-> 0 <= i < zlen l /\ l' = zset l i x.
Proof.
  unfold aset. destruct (Z.leb_spec 0 i), (Z.ltb_spec i (zlen l)); cbn;
    intuition (try congruence; lia).
Qed.

Lemma aset_None l i x : aset l i x = None <-> ~ 0 <= i < zlen l.
Proof.
  unfold aset. destruct (Z.leb_spec 0 i), (Z.ltb_spec i (zlen l)); cbn;
    intuition (try congruence; lia).
Qed.

Lemma aget_lt l i x : aget l i = Some x -> 0 <= i < zlen l.
Proof.
  unfold aget, zlen. destruct (Z.leb_spec 0 i); [|done].
  intros ?%lookup_lt_Some. lia.
Qed.

Context `{Inhabited A}.

Lemma aget_in l i : 0 <= i < zlen l -> aget l i = Some (zn l i).
Proof.
  intros. unfold aget, zn. rewrite (proj2 (Z.leb_le _ _)) by lia.
  apply list_lookup_lookup_total_lt. unfold zlen in *. lia.
Qed.

Lemma aget_zn l i x : aget l i = Some x -> zn l i = x.
Proof.
  intros Hg. pose proof (aget_lt _ _ _ Hg). rewrite aget_in in Hg by done. congruence.
Qed.

Lemma zn_zset_eq l i x : 0 <= i < zlen l -> zn (zset l i x) i = x.
Proof.
  intros. apply aget_zn. unfold aget, zset. rewrite (proj2 (Z.leb_le _ _)) by lia.
  apply list_lookup_insert_eq. unfold zlen in *. lia.
Qed.

Lemma zn_zset_ne l i j x : 0 <= i -> i <> j -> zn (zset l i x) j = zn l j.
Proof.
  intros. unfold zn, zset. destruct (Z.leb_spec 0 j); [|done].
  rewrite !list_lookup_total_alt, list_lookup_insert_ne by lia. done.
Qed.

Lemma zset_id l i : 0 <= i < zlen l -> zset l i (zn l i) = l.
Proof.
  intros Hi. apply list_insert_id. pose proof (aget_in l i Hi) as Hg.
  unfold aget in Hg. by rewrite (proj2 (Z.leb_le _ _)) in Hg by lia.
Qed.

Lemma zset_zset_eq l i x y : zset (zset l i x) i y = zset l i y.
Proof. apply list_insert_insert_eq. Qed.

Lemma zset_zset_ne l i j x y :
  0 <= i -> 0 <= j -> i <> j -> zset (zset l i x) j y = zset (zset l j y) i x.
Proof. intros. unfold zset. rewrite list_insert_insert_ne by lia. done. Qed.

Lemma zn_app_l l1 l2 i : i < zlen l1 -> zn (l1 ++ l2) i = zn l1 i.
Proof.
  intros. unfold zn, zlen in *. destruct (Z.leb_spec 0 i); [|done].
  apply lookup_total_app_l. lia.
Qed.

Lemma zn_app_r l1 l2 i : zlen l1 <= i -> zn (l1 ++ l2) i = zn l2 (i - zlen l1).
Proof.
  intros. unfold zn, zlen in *.
  rewrite !(proj2 (Z.leb_le _ _)) by lia.
  rewrite lookup_total_app_r by lia. f_equal. lia.
Qed.

Lemma zn_take l n i : i < n -> zn (take (Z.to_nat n) l) i = zn l i.
Proof.
  intros. unfold zn. destruct (Z.leb_spec 0 i); [|done].
  rewrite !list_lookup_total_alt, lookup_take_lt by lia. done.
Qed.

Lemma zn_drop l n i : 0 <= n -> 0 <= i -> zn (drop (Z.to_nat n) l) i = zn l (n + i).
Proof.
  intros. unfold zn. rewrite !(proj2 (Z.leb_le _ _)) by lia.
  rewrite !list_lookup_total_alt, lookup_drop. do 2 f_equal. lia.
Qed.

Lemma zlist_eq l1 l2 :
  zlen l1 = zlen l2 -> (forall i, 0 <= i < zlen l1 -> zn l1 i = zn l2 i) -> l1 = l2.
Proof.
  intros Hlen Heq. apply list_eq. intros i. unfold zlen in *.
  destruct (decide (i < length l1)%nat) as [Hi|Hi].
  - specialize (Heq (Z.of_nat i)). unfold zn in Heq.
    rewrite (proj2 (Z.leb_le _ _)), Nat2Z.id in Heq by lia.
    rewrite !list_lookup_lookup_total_lt by lia. f_equal. apply Heq. lia.
  - rewrite !lookup_ge_None_2; [done|lia..].
Qed.

Lemma zn_elem l i : 0 <= i < zlen l -> zn l i ∈ l.
Proof.
  intros Hi. apply list_elem_of_lookup. exists (Z.to_nat i).
  pose proof (aget_in l i Hi) as Hg. unfold aget in Hg.
  by rewrite (proj2 (Z.leb_le _ _)) in Hg by lia.
Qed.

Lemma elem_zn l x : x ∈ l -> exists i, 0 <= i < zlen l /\ zn l i = x.
Proof.
  intros [i Hi]%list_elem_of_lookup. exists (Z.of_nat i).
  pose proof (lookup_lt_Some _ _ _ Hi). split; [unfold zlen; lia|].
  apply aget_zn. unfold aget. rewrite (proj2 (Z.leb_le _ _)), Nat2Z.id by lia. done.
Qed.
End arrays.

Lemma zn_fmap {A B} `{Inhabited A} `{Inhabited B} (f : A -> B) (l : list A) (k : Z) : 0 <= k < zlen l ->
  zn (f <$> l) k = f (zn l k).
Proof.
  intros Hk. apply aget_zn. pose proof (aget_in l k Hk) as E. unfold aget in *.
  destruct (0 <=? k); [|done]. by rewrite list_lookup_fmap, E.
Qed.

(** The automation of array programs: [arr] rewrites lengths, reads and
    writes whose side conditions are linear arithmetic. *)
Create Rewrite HintDb arr.
#[export] Hint Rewrite @zlen_nil @zlen_cons @zlen_app @zlen_zset : arr.
#[export] Hint Rewrite @zlen_take @zlen_drop using (autorewrite with arr; lia) : arr.

Ltac zlia := autorewrite with arr in *; lia.
Ltac arr_side := autorewrite with arr; lia.
Ltac arr_step :=
  match goal with
  | |- context [aget ?l ?i] => rewrite (aget_in l i) by arr_side
  | |- context [aset ?l ?i ?x] => rewrite (aset_in l i x) by arr_side
  | |- context [zn (zset ?l ?i ?x) ?i] => rewrite (zn_zset_eq l i x) by arr_side
  | |- context [zn (zset ?l ?i ?x) ?j] =>
      first [ rewrite (zn_zset_ne l i j x) by arr_side
            | replace j with i by arr_side; rewrite (zn_zset_eq l i x) by arr_side ]
  | |- context [uwrap ?w ?x] => rewrite (uwrap_small w x) by arr_side
  | |- context [swrap ?w ?x] => rewrite (swrap_small w x) by arr_side
  end; cbn [mbind option_bind fst snd].
Ltac arr := repeat (autorewrite with arr; arr_step); autorewrite with arr.

(** ** Alignment masks: [x & -2^k] on a [w]-bit unsigned integer. *)
Lemma land_mask (w k x : Z) :
  0 <= k <= w -> 0 <= x < 2 ^ w -> Z.land x (2 ^ w - 2 ^ k) = x / 2 ^ k * 2 ^ k.
Proof.
  intros Hk Hx. rewrite <- Z.shiftl_mul_pow2, <- Z.shiftr_div_pow2 by lia.
  replace (2 ^ w - 2 ^ k) with (Z.shiftl (Z.ones (w - k)) k).
  - apply Z.bits_inj'. intros i Hi. rewrite Z.land_spec, !Z.shiftl_spec by lia.
    destruct (Z.ltb_spec i k).
    + rewrite !(Z.testbit_neg_r _ (i - k)) by lia. apply andb_false_r.
    + rewrite Z.shiftr_spec by lia. replace (i - k + k) with i by lia.
      destruct (Z.ltb_spec i w).
      * rewrite Z.ones_spec_low by lia. apply andb_true_r.
      * rewrite Z.ones_spec_high, andb_false_r by lia. symmetry.
        rewrite <- (Z.mod_small x (2 ^ w)) by lia. apply Z.mod_pow2_bits_high. lia.
  - rewrite Z.shiftl_mul_pow2, Z.ones_equiv by lia.
    assert (2 ^ w = 2 ^ (w - k) * 2 ^ k) as Hp
      by (rewrite <- Z.pow_add_r by lia; f_equal; lia).
    lia.
Qed.

(** Disjoint bit fields. *)
Lemma lor_shift (lo hi k : Z) :
  0 <= k -> 0 <= lo < 2 ^ k -> Z.lor lo (Z.shiftl hi k) = lo + 2 ^ k * hi.
Proof.
  intros Hk Hlo.
  assert (Z.land lo (Z.shiftl hi k) = 0) as Hd.
  { apply Z.bits_inj'. intros i Hi. rewrite Z.land_spec, Z.bits_0.
    destruct (Z.ltb_spec i k).
    - rewrite Z.shiftl_spec_low, andb_false_r by lia. done.
    - rewrite <- (Z.mod_small lo (2 ^ k)), Z.mod_pow2_bits_high by lia. done. }
  rewrite <- Z.lxor_lor, <- Z.add_nocarry_lxor by done.
  rewrite Z.shiftl_mul_pow2 by lia. lia.
Qed.

(** ** Permutations by stores *)

Lemma zset_perm {A} `{Inhabited A} (l : list A) (i : Z) (x : A) :
  0 <= i < zlen l -> Permutation (zn l i :: zset l i x) (x :: l).
Proof.
  intros Hi. unfold zset, zlen in *.
  assert (l !! Z.to_nat i = Some (zn l i)) as Hl.
  { pose proof (aget_in l i Hi) as Hg. unfold aget in Hg.
    by rewrite (proj2 (Z.leb_le _ _)) in Hg by lia. }
  rewrite insert_take_drop by lia. rewrite <- (take_drop_middle l _ _ Hl) at 4.
  rewrite <- !Permutation_middle. constructor.
Qed.

Lemma zswap_perm {A} `{Inhabited A} (l : list A) (i j : Z) :
  0 <= i < zlen l -> 0 <= j < zlen l ->
  Permutation (zset (zset l i (zn l j)) j (zn l i)) l.
Proof.
  intros Hi Hj. destruct (Z.eq_dec i j) as [->|Hne].
  { rewrite zset_zset_eq, zset_id by done. done. }
  apply (Permutation_cons_inv (a := zn l j)).
  pose proof (zset_perm (zset l i (zn l j)) j (zn l i)) as Hp.
  rewrite zlen_zset, zn_zset_ne in Hp by lia. rewrite Hp by lia.
  apply zset_perm. done.
Qed.

(** Addition of two [int]s: overflow is undefined. *)
Definition int_add (x y : Z) : option Z :=
  if (- 2 ^ 31 <=? x + y) && (x + y <? 2 ^ 31) then Some (x + y) else None.

Lemma int_add_in (x y : Z) : - 2 ^ 31 <= x + y < 2 ^ 31 -> int_add x y = Some (x + y).
Proof.
  intros. unfold int_add.
  by rewrite (proj2 (Z.leb_le _ _)), (proj2 (Z.ltb_lt _ _)) by lia.
Qed.

(** Multiplication, and [x << n]. *)
Definition int_mul (x y : Z) : option Z :=
  if (- 2 ^ 31 <=? x * y) && (x * y <? 2 ^ 31) then Some (x * y) else None.
Definition int_shl (x n : Z) : option Z := int_mul x (2 ^ n).

Lemma int_mul_in (x y : Z) : - 2 ^ 31 <= x * y < 2 ^ 31 -> int_mul x y = Some (x * y).
Proof. intros [H1 H2]. unfold int_mul. by rewrite (proj2 (Z.leb_le _ _)), (proj2 (Z.ltb_lt _ _)). Qed.

(** Closed side conditions of the witnesses. *)
Ltac closed := vm_compute; intuition congruence.
