(* ===== verification/Bytes.v ===== *)
(** * Byte-addressed memory

    A memory block is a list of byte values.  [bread] and [bwrite] are
    bounds-checked ([None] is an access outside of the block); [slice] and
    [splice] are the total functions they compute when in bounds.  Multi-byte
    integers are little-endian, as on the targets of the application. *)
From S2P Require Import Prelude.
From Stdlib Require Import ZArith Lia.
From stdpp Require Import base numbers option list.
Open Scope Z_scope.

Definition slice (m : list Z) (o n : Z) : list Z := take (Z.to_nat n) (drop (Z.to_nat o) m).

Definition splice (m : list Z) (o : Z) (bs : list Z) : list Z :=
  take (Z.to_nat o) m ++ bs ++ drop (Z.to_nat (o + zlen bs)) m.

Definition bread (m : list Z) (o n : Z) : option (list Z) :=
  if (0 <=? o) && (0 <=? n) && (o + n <=? zlen m) then Some (slice m o n) else None.

Definition bwrite (m : list Z) (o : Z) (bs : list Z) : option (list Z) :=
  if (0 <=? o) && (o + zlen bs <=? zlen m) then Some (splice m o bs) else None.

(** [memmove(m + d, m + s, n)] within one block. *)
Definition bmove (m : list Z) (d s n : Z) : option (list Z) :=
  bs ← bread m s n; bwrite m d bs.

(** Little-endian integers. *)
Fixpoint le_val (bs : list Z) : Z :=
  match bs with [] => 0 | b :: bs => b + 256 * le_val bs end.

Fixpoint le_bytes (n : nat) (x : Z) : list Z :=
  match n with O => [] | S n => x mod 256 :: le_bytes n (x / 256) end.

Definition get16 (m : list Z) (o : Z) : option Z := bs ← bread m o 2; Some (le_val bs).
Definition get64 (m : list Z) (o : Z) : option Z := bs ← bread m o 8; Some (le_val bs).
Definition set16 (m : list Z) (o x : Z) : option (list Z) := bwrite m o (le_bytes 2 x).
Definition set64 (m : list Z) (o x : Z) : option (list Z) := bwrite m o (le_bytes 8 x).

(** The value [get16] reads, in specifications. *)
Definition g16 (m : list Z) (o : Z) : Z := le_val (slice m o 2).

Definition is_byte (b : Z) : Prop := 0 <= b < 256.

(** ** Lemmas *)

Lemma zlen_le_bytes (n : nat) (x : Z) : zlen (le_bytes n x) = Z.of_nat n.
Proof. revert x. induction n; intros; cbn [le_bytes]; rewrite ?zlen_cons, ?IHn; [done|lia]. Qed.
#[export] Hint Rewrite zlen_le_bytes : arr.

Lemma le_val_bytes (n : nat) (x : Z) : le_val (le_bytes n x) = x mod 2 ^ (8 * Z.of_nat n).
Proof.
  revert x. induction n as [|n IH]; intros x; cbn [le_bytes le_val].
  - by rewrite Z.mod_1_r.
  - rewrite IH. replace (8 * Z.of_nat (S n)) with (8 + 8 * Z.of_nat n) by lia.
    rewrite Z.pow_add_r by lia. change (2 ^ 8) with 256.
    rewrite Z.rem_mul_r; [lia..|]. apply Z.pow_pos_nonneg; lia.
Qed.

Lemma le_bytes_val (bs : list Z) : Forall is_byte bs -> le_bytes (length bs) (le_val bs) = bs.
Proof.
  induction 1 as [|b bs Hb _ IH]; cbn [le_bytes le_val length]; [done|]. unfold is_byte in Hb.
  rewrite (Z.mul_comm 256), Z.mod_add, Z.mod_small by lia.
  rewrite Z.div_add, Z.div_small, Z.add_0_l, IH by lia. done.
Qed.

Lemma le_val_range (bs : list Z) : Forall is_byte bs -> 0 <= le_val bs < 2 ^ (8 * zlen bs).
Proof.
  induction 1 as [|b bs Hb _ IH]; cbn [le_val]; [vm_compute; intuition congruence|]. unfold is_byte in Hb.
  rewrite zlen_cons. replace (8 * (1 + zlen bs)) with (8 + 8 * zlen bs) by lia.
  pose proof (zlen_nonneg bs). rewrite Z.pow_add_r by lia. lia.
Qed.

Lemma le_bytes_byte (n : nat) (x : Z) : Forall is_byte (le_bytes n x).
Proof.
  revert x. induction n; intros; cbn [le_bytes]; constructor; auto.
  apply Z.mod_pos_bound. lia.
Qed.

Section Mem.
Implicit Types (m bs : list Z) (o n i : Z).

Lemma zlen_slice m o n : 0 <= o -> 0 <= n -> o + n <= zlen m -> zlen (slice m o n) = n.
Proof. intros. unfold slice. rewrite zlen_take; rewrite ?zlen_drop; lia. Qed.

Lemma zn_slice m o n i : 0 <= o -> 0 <= i < n -> zn (slice m o n) i = zn m (o + i).
Proof. intros. unfold slice. rewrite zn_take, zn_drop by lia. done. Qed.

Lemma zlen_splice m o bs : 0 <= o -> o + zlen bs <= zlen m -> zlen (splice m o bs) = zlen m.
Proof.
  intros. pose proof (zlen_nonneg bs). unfold splice.
  rewrite !zlen_app, zlen_take, zlen_drop by lia. lia.
Qed.

Lemma zn_splice m o bs i :
  0 <= o -> o + zlen bs <= zlen m -> 
  zn (splice m o bs) i =
    if (o <=? i) && (i <? o + zlen bs) then zn bs (i - o) else zn m i.
Proof.
  intros. pose proof (zlen_nonneg bs). unfold splice.
  destruct (Z.leb_spec o i); cbn [andb]; [destruct (Z.ltb_spec i (o + zlen bs))|].
  - rewrite zn_app_r by (rewrite zlen_take; lia). rewrite zlen_take by lia.
    apply zn_app_l. lia.
  - rewrite zn_app_r by (rewrite zlen_take; lia). rewrite zlen_take by lia.
    rewrite zn_app_r by lia. rewrite zn_drop by lia. f_equal. lia.
  - rewrite zn_app_l by (rewrite zlen_take; lia). apply zn_take. lia.
Qed.

Lemma bread_in m o n : 0 <= o -> 0 <= n -> o + n <= zlen m -> bread m o n = Some (slice m o n).
Proof.
  intros. unfold bread. by rewrite !(proj2 (Z.leb_le _ _)) by lia.
Qed.

Lemma bwrite_in m o bs : 0 <= o -> o + zlen bs <= zlen m -> bwrite m o bs = Some (splice m o bs).
Proof.
  intros. unfold bwrite. by rewrite !(proj2 (Z.leb_le _ _)) by lia.
Qed.

Lemma slice_app m o n1 n2 :
  0 <= o -> 0 <= n1 -> 0 <= n2 -> o + n1 + n2 <= zlen m ->
  slice m o (n1 + n2) = slice m o n1 ++ slice m (o + n1) n2.
Proof.
  intros. apply zlist_eq.
  - rewrite zlen_app, !zlen_slice by lia. lia.
  - intros i Hi. rewrite zlen_slice in Hi by lia. rewrite zn_slice by lia.
    destruct (Z.ltb_spec i n1).
    + rewrite zn_app_l by (rewrite zlen_slice; lia). by rewrite zn_slice by lia.
    + rewrite zn_app_r by (rewrite zlen_slice; lia). rewrite zlen_slice, zn_slice by lia.
      f_equal. lia.
Qed.

Lemma slice_all bs : slice bs 0 (zlen bs) = bs.
Proof. unfold slice, zlen. rewrite Nat2Z.id. cbn. by rewrite firstn_all. Qed.

Lemma slice_full m n : n = zlen m -> slice m 0 n = m.
Proof. intros ->. apply slice_all. Qed.

Lemma slice_splice_eq m o bs :
  0 <= o -> o + zlen bs <= zlen m -> slice (splice m o bs) o (zlen bs) = bs.
Proof.
  intros. pose proof (zlen_nonneg bs). apply zlist_eq.
  - rewrite zlen_slice; rewrite ?zlen_splice; lia.
  - intros i Hi. rewrite zlen_slice in Hi; rewrite ?zlen_splice; try lia.
    rewrite zn_slice, zn_splice by lia.
    rewrite (proj2 (Z.leb_le _ _)), (proj2 (Z.ltb_lt _ _)) by lia. cbn. f_equal. lia.
Qed.

Lemma slice_splice_ne m o bs o' n :
  0 <= o -> o + zlen bs <= zlen m -> 0 <= o' -> 0 <= n -> o' + n <= zlen m ->
  o' + n <= o \/ o + zlen bs <= o' -> slice (splice m o bs) o' n = slice m o' n.
Proof.
  intros. apply zlist_eq.
  - rewrite !zlen_slice; rewrite ?zlen_splice; lia.
  - intros i Hi. rewrite zlen_slice in Hi; rewrite ?zlen_splice; try lia.
    rewrite !zn_slice, zn_splice by lia.
    destruct (Z.leb_spec o (o' + i)), (Z.ltb_spec (o' + i) (o + zlen bs)); cbn; lia.
Qed.

Lemma slice_ext m m' o o' n :
  0 <= o -> 0 <= o' -> 0 <= n -> o + n <= zlen m -> o' + n <= zlen m' ->
  (forall i, 0 <= i < n -> zn m (o + i) = zn m' (o' + i)) -> slice m o n = slice m' o' n.
Proof.
  intros. apply zlist_eq; [by rewrite !zlen_slice by lia|].
  intros i Hi. rewrite zlen_slice in Hi by lia. rewrite !zn_slice by lia. auto.
Qed.

Lemma slice_slice m o n o' n' :
  0 <= o -> 0 <= n -> o + n <= zlen m -> 0 <= o' -> 0 <= n' -> o' + n' <= n ->
  slice (slice m o n) o' n' = slice m (o + o') n'.
Proof.
  intros. apply slice_ext; rewrite ?zlen_slice; try lia.
  intros i Hi. rewrite zn_slice by lia. f_equal. lia.
Qed.

Lemma slice_app_l bs1 bs2 n : 0 <= n <= zlen bs1 -> slice (bs1 ++ bs2) 0 n = slice bs1 0 n.
Proof.
  intros. pose proof (zlen_nonneg bs2). apply slice_ext; rewrite ?zlen_app; try lia.
  intros i Hi. apply zn_app_l. lia.
Qed.

Lemma slice_app_r bs1 bs2 o n :
  zlen bs1 <= o -> 0 <= n -> o + n <= zlen bs1 + zlen bs2 ->
  slice (bs1 ++ bs2) o n = slice bs2 (o - zlen bs1) n.
Proof.
  intros. pose proof (zlen_nonneg bs1). apply slice_ext; rewrite ?zlen_app; try lia.
  intros i Hi. rewrite zn_app_r by lia. f_equal. lia.
Qed.

(** Moving a segment keeps its bytes. *)
Lemma slice_bmove m d s n :
  0 <= d -> 0 <= s -> 0 <= n -> d + n <= zlen m -> s + n <= zlen m ->
  exists m', bmove m d s n = Some m' /\ zlen m' = zlen m /\
    (forall i, d <= i < d + n -> zn m' i = zn m (i - d + s)) /\
    (forall i, i < d \/ d + n <= i -> zn m' i = zn m i).
Proof.
  intros. unfold bmove. rewrite bread_in by lia. cbn [mbind option_bind].
  assert (zlen (slice m s n) = n) as Hl by (apply zlen_slice; lia).
  rewrite bwrite_in by lia. eexists. split; [reflexivity|].
  split; [apply zlen_splice; lia|]. split; intros i Hi; rewrite zn_splice, Hl by lia.
  - rewrite (proj2 (Z.leb_le _ _)), (proj2 (Z.ltb_lt _ _)) by lia. cbn.
    rewrite zn_slice by lia. f_equal. lia.
  - destruct (Z.leb_spec d i), (Z.ltb_spec i (d + n)); cbn; lia.
Qed.

Lemma get16_in m o : 0 <= o -> o + 2 <= zlen m -> get16 m o = Some (g16 m o).
Proof. intros. unfold get16. rewrite bread_in by lia. done. Qed.

Lemma set16_in m o x : 0 <= o -> o + 2 <= zlen m -> set16 m o x = Some (splice m o (le_bytes 2 x)).
Proof. intros. apply bwrite_in; arr; lia. Qed.

Lemma g16_set_eq m o x :
  0 <= o -> o + 2 <= zlen m -> g16 (splice m o (le_bytes 2 x)) o = u16 x.
Proof.
  intros. unfold g16. pose proof (slice_splice_eq m o (le_bytes 2 x)) as E.
  rewrite zlen_le_bytes in E. change (Z.of_nat 2) with 2 in E.
  rewrite E by lia. apply le_val_bytes.
Qed.

Lemma g16_set_ne m o o' bs :
  0 <= o -> o + zlen bs <= zlen m -> 0 <= o' -> o' + 2 <= zlen m ->
  o' + 2 <= o \/ o + zlen bs <= o' -> g16 (splice m o bs) o' = g16 m o'.
Proof. intros. unfold g16. by rewrite slice_splice_ne by lia. Qed.

Lemma g16_ext m m' o : 
  0 <= o -> o + 2 <= zlen m -> zlen m' = zlen m ->
  (forall i, o <= i < o + 2 -> zn m' i = zn m i) -> g16 m' o = g16 m o.
Proof. intros. unfold g16. f_equal. apply slice_ext; try lia. intros. apply H2. lia. Qed.

Lemma splice_bytes m o bs :
  Forall is_byte m -> Forall is_byte bs -> Forall is_byte (splice m o bs).
Proof.
  intros Hm Hb. unfold splice. rewrite !Forall_app.
  split; [by apply Forall_take|]. split; [done|by apply Forall_drop].
Qed.

Lemma slice_bytes m o n : Forall is_byte m -> Forall is_byte (slice m o n).
Proof. intros. by apply Forall_take, Forall_drop. Qed.

Lemma g16_range m o :
  Forall is_byte m -> 0 <= o -> o + 2 <= zlen m -> 0 <= g16 m o < 65536.
Proof.
  intros. unfold g16. pose proof (le_val_range (slice m o 2)) as Hr.
  rewrite zlen_slice in Hr by lia. apply Hr. by apply slice_bytes.
Qed.
End Mem.

(** ** Stores as relations

    [upd m o bs m']: [m'] is [m] after the bytes [bs] were stored at [o]. *)
Record upd (m : list Z) (o : Z) (bs : list Z) (m' : list Z) : Prop := {
  u_lo : 0 <= o;
  u_hi : o + zlen bs <= zlen m;
  u_len : zlen m' = zlen m;
  u_new : slice m' o (zlen bs) = bs;
  u_old : forall i, i < o \/ o + zlen bs <= i -> zn m' i = zn m i;
  u_bytes : Forall is_byte m -> Forall is_byte bs -> Forall is_byte m'
}.

Lemma bwrite_upd (m : list Z) (o : Z) (bs : list Z) :
  0 <= o -> o + zlen bs <= zlen m -> exists m', bwrite m o bs = Some m' /\ upd m o bs m'.
Proof.
  intros Ho Hl. exists (splice m o bs). split; [by apply bwrite_in|]. split; auto.
  - by apply zlen_splice.
  - by apply slice_splice_eq.
  - intros i Hi. rewrite zn_splice by lia.
    destruct (Z.leb_spec o i), (Z.ltb_spec i (o + zlen bs)); cbn; lia.
  - apply splice_bytes.
Qed.

Lemma set16_upd (m : list Z) (o x : Z) :
  0 <= o -> o + 2 <= zlen m -> exists m', set16 m o x = Some m' /\ upd m o (le_bytes 2 x) m'.
Proof. intros. apply bwrite_upd; arr; lia. Qed.

Lemma upd_slice_ne (m m' : list Z) (o : Z) (bs : list Z) (o' n : Z) :
  upd m o bs m' -> 0 <= o' -> 0 <= n -> o' + n <= zlen m ->
  o' + n <= o \/ o + zlen bs <= o' -> slice m' o' n = slice m o' n.
Proof.
  intros [? ? Hl _ Ho _] ????. apply slice_ext; try lia. intros i Hi. apply Ho. lia.
Qed.

Lemma upd_g16_ne (m m' : list Z) (o : Z) (bs : list Z) (o' : Z) :
  upd m o bs m' -> 0 <= o' -> o' + 2 <= zlen m ->
  o' + 2 <= o \/ o + zlen bs <= o' -> g16 m' o' = g16 m o'.
Proof. intros Hu ???. unfold g16. by rewrite (upd_slice_ne m m' o bs) by (auto; lia). Qed.

Lemma upd_g16_eq (m m' : list Z) (o x : Z) :
  upd m o (le_bytes 2 x) m' -> g16 m' o = u16 x.
Proof.
  intros [_ _ _ Hn _ _]. rewrite zlen_le_bytes in Hn. unfold g16.
  change (Z.of_nat 2) with 2 in Hn. rewrite Hn. apply le_val_bytes.
Qed.

(** [mstep] performs the first store of a monadic sequence. *)
Ltac mstep m' Hu :=
  lazymatch goal with
  | |- context [set16 ?m ?o ?x] =>
      destruct (set16_upd m o x) as (m' & -> & Hu); [arr_side..|]
  | |- context [bwrite ?m ?o ?bs] =>
      destruct (bwrite_upd m o bs) as (m' & -> & Hu); [arr_side..|]
  end; cbn [mbind option_bind].

(** Stores that meet: the second ends inside or at the start of the first. *)
Lemma upd_pre (m m1 m2 : list Z) (o o1 : Z) (b b1 b2 : list Z) :
  upd m o1 (b1 ++ b2) m1 -> upd m1 o b m2 -> Forall is_byte b1 ->
  o + zlen b = o1 + zlen b1 -> o <= o1 -> upd m o (b ++ b2) m2.
Proof.
  intros [H1 H2 H3 H4 H5 H6] [G1 G2 G3 G4 G5 G6] Hb1 He Hle.
  rewrite zlen_app in *. pose proof (zlen_nonneg b). pose proof (zlen_nonneg b1).
  pose proof (zlen_nonneg b2). split; rewrite ?zlen_app; try lia.
  - rewrite slice_app, G4 by lia. f_equal.
    transitivity (slice m1 (o + zlen b) (zlen b2)).
    + apply slice_ext; try lia. intros i Hi. apply G5. lia.
    + rewrite slice_app in H4 by lia. replace (o + zlen b) with (o1 + zlen b1) by lia.
      apply app_inj_1 in H4 as [_ ?]; [done|].
      assert (zlen (slice m1 o1 (zlen b1)) = zlen b1) as E by (apply zlen_slice; lia).
      unfold zlen in *. lia.
  - intros i Hi. rewrite G5, H5 by lia. done.
  - rewrite !Forall_app in *. intuition.
Qed.

Lemma upd_post (m m1 m2 : list Z) (o o1 : Z) (b1 b2 : list Z) :
  upd m o b1 m1 -> upd m1 o1 b2 m2 -> o1 = o + zlen b1 -> upd m o (b1 ++ b2) m2.
Proof.
  intros [H1 H2 H3 H4 H5 H6] [G1 G2 G3 G4 G5 G6] ->.
  pose proof (zlen_nonneg b1). pose proof (zlen_nonneg b2). split; rewrite ?zlen_app; try lia.
  - rewrite slice_app, G4 by lia. f_equal. rewrite <- H4 at 2.
    apply slice_ext; try lia. intros i Hi. apply G5. lia.
  - intros i Hi. rewrite G5, H5 by lia. done.
  - rewrite !Forall_app. intuition.
Qed.

Lemma upd_nil (m : list Z) (o : Z) : 0 <= o <= zlen m -> upd m o [] m.
Proof. intros. split; arr; try lia; auto. Qed.

(** Arrays filled from left to right. *)
Lemma aset_upd (m : list Z) (o x : Z) : 0 <= o < zlen m -> exists m', aset m o x = Some m' /\ upd m o [x] m'.
Proof.
  intros Ho. exists (zset m o x). split; [by apply aset_in|]. change (zlen [x]) with 1 in *.
  split; change (zlen [x]) with 1; try lia.
  - apply zlen_zset.
  - apply zlist_eq; rewrite ?zlen_slice by (rewrite ?zlen_zset; lia); [done|].
    intros i Hi. rewrite zn_slice by lia. assert (i = 0) as -> by lia.
    rewrite Z.add_0_r, zn_zset_eq by lia. done.
  - intros i Hi. apply zn_zset_ne; lia.
  - intros Hm Hx. apply Forall_insert; [done|]. by inversion Hx.
Qed.

Lemma upd_cons (m m1 m2 : list Z) (o x : Z) (xs : list Z) :
  upd m o [x] m1 -> upd m1 (o + 1) xs m2 -> upd m o (x :: xs) m2.
Proof. intros H1 H2. apply (upd_post m m1 m2 o (o + 1) [x] xs); auto. Qed.

Lemma fmap_seqZ_S {A} (f : Z -> A) (m : Z) (n : nat) :
  f <$> seqZ m (Z.of_nat (S n)) = f m :: ((fun k => f (k + 1)) <$> seqZ m (Z.of_nat n)).
Proof.
  rewrite seqZ_cons by lia. rewrite fmap_cons. f_equal. unfold Z.succ, Z.pred.
  replace (Z.of_nat (S n) + -1) with (Z.of_nat n) by lia. replace (m + 1) with (1 + m) by lia.
  rewrite <- fmap_add_seqZ, <- list_fmap_compose. apply list_fmap_ext. intros j k _.
  unfold compose. f_equal. lia.
Qed.

(** ** Little-endian integers in pieces *)

Lemma le_bytes_app (n k : nat) (x : Z) :
  le_bytes (n + k) x = le_bytes n x ++ le_bytes k (Z.shiftr x (8 * Z.of_nat n)).
Proof.
  revert x. induction n as [|n IH]; intros x; [done|]. cbn [Nat.add le_bytes app].
  rewrite IH. do 3 f_equal. rewrite !Z.shiftr_div_pow2 by lia.
  replace (8 * Z.of_nat (S n)) with (8 + 8 * Z.of_nat n) by lia.
  rewrite Z.pow_add_r, Z.div_div by lia. done.
Qed.

Lemma le_bytes_land16 (x : Z) : le_bytes 2 (Z.land x 0xffff) = le_bytes 2 x.
Proof.
  change 0xffff with (Z.ones 16). rewrite Z.land_ones by lia. cbn [le_bytes].
  change (2 ^ 16) with (256 * 256). rewrite Z.rem_mul_r by lia.
  rewrite (Z.mul_comm 256 ((x / 256) mod 256)), Z.mod_add, Z.div_add by lia.
  rewrite (Z.div_small (x mod 256)) by (apply Z.mod_pos_bound; lia).
  rewrite Z.add_0_l, !Z.mod_mod by lia. done.
Qed.
