(* ===== verification/Midl.v ===== *)
(** * ID lists of the LMDB storage engine ([src/LegacyDatabase/midl.c])

    An [MDB_IDL] points at cell 0 of a heap block whose cell -1 holds the
    allocated length, whose cell 0 counts the IDs and whose cells 1.. hold
    them in descending order.  The block is a [midl] record: [alloclen] is
    cell -1 and [cells] are cells 0.. up to the end of the block, so that a
    read or write past the block gives [None].  The contents of freshly
    allocated cells is the argument [junk] and the outcome of the one
    allocation a function may make is the argument [mem_ok]. *)
From S2P Require Import Prelude.
From Stdlib Require Import ZArith Lia.
From stdpp Require Import base numbers option list.
Open Scope Z_scope.

Definition MDB_IDL_LOGN : Z := 16.
Definition MDB_IDL_DB_SIZE : Z := Z.shiftl 1 MDB_IDL_LOGN.
Definition MDB_IDL_UM_SIZE : Z := Z.shiftl 1 (MDB_IDL_LOGN + 1).
Definition MDB_IDL_DB_MAX : Z := MDB_IDL_DB_SIZE - 1.
Definition MDB_IDL_UM_MAX : Z := MDB_IDL_UM_SIZE - 1.
Definition ENOMEM : Z := 12.

(** [CMP]: three-way comparison. *)
Definition CMP (x y : Z) : Z := if x <? y then -1 else if y <? x then 1 else 0.

Record midl := Midl { alloclen : Z; cells : list Z }.

(** The IDs of a list: cells 1 .. cells[0]. *)
Definition midl_ids (m : list Z) : list Z := take (Z.to_nat (zn m 0)) (drop 1 m).

(** Descending order on the cells [lo..hi]. *)
Definition desc (m : list Z) (lo hi : Z) : Prop :=
  forall i j, lo <= i -> i < j -> j <= hi -> zn m j < zn m i.

(** ** The binary search shared by mdb_midl_search and mdb_mid2l_search

    Both functions have the same loop and differ in the comparison of cell
    [cursor] with the ID, [cmp_at cursor]. *)

Fixpoint search_loop (cmp_at : Z -> option Z) (fuel : nat) (base cursor val n : Z)
  : option (Z * Z) :=
  if 0 <? n then
    match fuel with
    | O => None
    | S fuel =>
      let pivot := Z.shiftr n 1 in
      let cursor := u32 (base + pivot + 1) in
      val ← cmp_at cursor;
      if val <? 0 then search_loop cmp_at fuel base cursor val pivot
      else if 0 <? val then
        search_loop cmp_at fuel cursor cursor val (u32 (n - (pivot + 1)))
      else Some (cursor, val)
    end
  else Some (cursor, val).

Definition mdb_midl_search (ids : list Z) (id : Z) : option Z :=
  c0 ← aget ids 0;
  let n := u32 c0 in
  '(cursor, val) ← search_loop (fun c => x ← aget ids c; Some (CMP x id))
                               (Z.to_nat n) 0 1 0 n;
  Some (if 0 <? val then u32 (cursor + 1) else cursor).

(** ** Allocation: mdb_midl_alloc, mdb_midl_shrink, mdb_midl_grow, mdb_midl_need *)

Section Alloc.
(** The contents of cells [malloc] or [realloc] did not initialise. *)
Variable junk : nat -> Z.

(** The cells of a block after [realloc] to [n] cells. *)
Definition realloc (l : list Z) (n : Z) : list Z :=
  let n := Z.to_nat n in
  take n l ++ (junk <$> seq (length l) (n - length l)).

Definition mdb_midl_alloc (mem_ok : bool) (num : Z) : option midl :=
  if mem_ok then
    c ← aset (realloc [] (num + 1)) 0 0;
    Some (Midl num c)
  else None.

(** The block of [UM_MAX + 1] cells loses its first one to [alloclen]. *)
Definition mdb_midl_shrink (mem_ok : bool) (idp : midl) : Z * midl :=
  if (MDB_IDL_UM_MAX <? alloclen idp) && mem_ok then
    (1, Midl MDB_IDL_UM_MAX (realloc (cells idp) (MDB_IDL_UM_MAX + 1 - 1)))
  else (0, idp).

Definition mdb_midl_grow (mem_ok : bool) (idp : midl) (num : Z) : Z * midl :=
  if mem_ok then
    (0, Midl (u64 (alloclen idp + num))
             (realloc (cells idp) (u64 (alloclen idp + num + 2) - 1)))
  else (ENOMEM, idp).

Definition mdb_midl_need (mem_ok : bool) (idp : midl) (num : Z) : option (Z * midl) :=
  c0 ← aget (cells idp) 0;
  let num := u32 (num + c0) in
  if alloclen idp <? num then
    let num := Z.land (u32 (num + num / 4 + (256 + 2))) (u32 (-256)) in
    if mem_ok then Some (0, Midl (u32 (num - 2)) (realloc (cells idp) (num - 1)))
    else Some (ENOMEM, idp)
  else Some (0, idp).

(** ** Appending *)

Definition mdb_midl_append (mem_ok : bool) (idp : midl) (id : Z) : option (Z * midl) :=
  c0 ← aget (cells idp) 0;
  let '(rc, idp) :=
    if alloclen idp <=? c0 then mdb_midl_grow mem_ok idp MDB_IDL_UM_MAX else (0, idp) in
  if rc =? 0 then
    let len := u64 (c0 + 1) in
    ids ← aset (cells idp) 0 len;
    ids ← aset ids len id;
    Some (0, Midl (alloclen idp) ids)
  else Some (ENOMEM, idp).

(** [memcpy(&dst[at], &src[from], n * sizeof(MDB_ID))], cell by cell. *)
Fixpoint copy_cells (n : nat) (dst : list Z) (at_ : Z) (src : list Z) (from : Z)
  : option (list Z) :=
  match n with
  | O => Some dst
  | S n => x ← aget src from;
           dst ← aset dst at_ x;
           copy_cells n dst (at_ + 1) src (from + 1)
  end.

Definition mdb_midl_append_list (mem_ok : bool) (idp : midl) (app : list Z)
  : option (Z * midl) :=
  c0 ← aget (cells idp) 0;
  a0 ← aget app 0;
  let '(rc, idp) :=
    if alloclen idp <=? u64 (c0 + a0) then mdb_midl_grow mem_ok idp (s32 a0) else (0, idp) in
  if rc =? 0 then
    ids ← copy_cells (Z.to_nat a0) (cells idp) (c0 + 1) app 1;
    ids ← aset ids 0 (u64 (c0 + a0));
    Some (0, Midl (alloclen idp) ids)
  else Some (ENOMEM, idp).

(** [while (n) ids[n--] = id++], with [ids] already advanced by [len]. *)
Fixpoint append_range_loop (n : nat) (ids : list Z) (len id : Z) : option (list Z) :=
  match n with
  | O => Some ids
  | S n' => ids ← aset ids (len + Z.of_nat n) id;
            append_range_loop n' ids len (u64 (id + 1))
  end.

Definition mdb_midl_append_range (mem_ok : bool) (idp : midl) (id n : Z)
  : option (Z * midl) :=
  len ← aget (cells idp) 0;
  let '(rc, idp) :=
    if alloclen idp <? u64 (len + n)
    then mdb_midl_grow mem_ok idp (s32 (Z.lor n MDB_IDL_UM_MAX)) else (0, idp) in
  if rc =? 0 then
    ids ← aset (cells idp) 0 (u64 (len + n));
    ids ← append_range_loop (Z.to_nat n) ids len id;
    Some (0, Midl (alloclen idp) ids)
  else Some (ENOMEM, idp).
End Alloc.

(** [mdb_midl_xappend] ([midl.h]): append without a check of the room. *)
Definition mdb_midl_xappend (ids : list Z) (id : Z) : option (list Z) :=
  c0 ← aget ids 0;
  let xlen := u64 (c0 + 1) in
  ids ← aset ids 0 xlen;
  aset ids xlen id.

(** ** mdb_midl_xmerge *)

(** [for (; old_id < merge_id; old_id = idl[--j]) idl[k--] = old_id]. *)
Fixpoint xmerge_inner (fuel : nat) (idl : list Z) (old_id merge_id j k : Z)
  : option (list Z * Z * Z * Z) :=
  if old_id <? merge_id then
    match fuel with
    | O => None
    | S fuel =>
      idl ← aset idl k old_id;
      let k := u64 (k - 1) in
      let j := u64 (j - 1) in
      old_id ← aget idl j;
      xmerge_inner fuel idl old_id merge_id j k
    end
  else Some (idl, old_id, j, k).

Fixpoint xmerge_outer (i : nat) (idl merge : list Z) (old_id j k : Z) : option (list Z) :=
  match i with
  | O => Some idl
  | S i' =>
    merge_id ← aget merge (Z.of_nat i);
    '(idl, old_id, j, k) ← xmerge_inner (S (length idl)) idl old_id merge_id j k;
    idl ← aset idl k merge_id;
    xmerge_outer i' idl merge old_id j (u64 (k - 1))
  end.

Definition mdb_midl_xmerge (idl merge : list Z) : option (list Z) :=
  i ← aget merge 0;
  j ← aget idl 0;
  let k := u64 (i + j) in
  let total := k in
  idl ← aset idl 0 (u64 (-1));
  old_id ← aget idl j;
  idl ← xmerge_outer (Z.to_nat i) idl merge old_id j k;
  aset idl 0 total.

(** ** ID2 lists: pairs of an ID and a pointer, ascending by ID *)

Record MDB_ID2 := ID2 { mid : Z; mptr : Z }.
#[export] Instance ID2_inhabited : Inhabited MDB_ID2 := populate (ID2 0 0).

Definition mdb_mid2l_search (ids : list MDB_ID2) (id : Z) : option Z :=
  c0 ← aget ids 0;
  let n := u32 (mid c0) in
  '(cursor, val) ← search_loop (fun c => x ← aget ids c; Some (CMP id (mid x)))
                               (Z.to_nat n) 0 1 0 n;
  Some (if 0 <? val then u32 (cursor + 1) else cursor).

(** [for (i = ids[0].mid; i > x; i--) ids[i] = ids[i-1]]. *)
Fixpoint mid2l_shift (fuel : nat) (ids : list MDB_ID2) (i x : Z) : option (list MDB_ID2) :=
  if x <? i then
    match fuel with
    | O => None
    | S fuel => e ← aget ids (i - 1);
                ids ← aset ids i e;
                mid2l_shift fuel ids (i - 1) x
    end
  else Some ids.

Definition set_mid (ids : list MDB_ID2) (n : Z) : option (list MDB_ID2) :=
  c0 ← aget ids 0;
  aset ids 0 (ID2 n (mptr c0)).

Definition mdb_mid2l_insert (ids : list MDB_ID2) (id : MDB_ID2) : option (Z * list MDB_ID2) :=
  x ← mdb_mid2l_search ids (mid id);
  if x <? 1 then Some (-2, ids)
  else
    c0 ← aget ids 0;
    dup ← (if x <=? mid c0 then e ← aget ids x; Some (mid e =? mid id) else Some false);
    if dup : bool then Some (-1, ids)
    else if MDB_IDL_UM_MAX <=? mid c0 then Some (-2, ids)
    else
      let n := u64 (mid c0 + 1) in
      ids ← set_mid ids n;
      ids ← mid2l_shift (Z.to_nat (u32 n)) ids (u32 n) x;
      ids ← aset ids x id;
      Some (0, ids).

Definition mdb_mid2l_append (ids : list MDB_ID2) (id : MDB_ID2) : option (Z * list MDB_ID2) :=
  c0 ← aget ids 0;
  if MDB_IDL_UM_MAX <=? mid c0 then Some (-2, ids)
  else
    let n := u64 (mid c0 + 1) in
    ids ← set_mid ids n;
    ids ← aset ids n id;
    Some (0, ids).

(** * Correctness *)

Lemma CMP_spec (x y : Z) :
  (CMP x y < 0 <-> x < y) /\ (CMP x y = 0 <-> x = y) /\ (0 < CMP x y <-> y < x).
Proof. unfold CMP. destruct (Z.ltb_spec x y), (Z.ltb_spec y x); lia. Qed.

Section Search.
(** [v i] is the comparison of cell [i]; it is positive up to the answer
    and negative after it. *)
Variables (cmp_at : Z -> option Z) (v : Z -> Z) (N : Z).
Hypothesis Hcmp : forall i, 1 <= i <= N -> cmp_at i = Some (v i).
Hypothesis Hmono : forall i j, 1 <= i -> i < j -> j <= N ->
  (v i <= 0 -> v j < 0) /\ (0 <= v j -> 0 < v i).
Hypothesis HN : 0 <= N < 2 ^ 32 - 1.

Definition search_post (x : Z) : Prop :=
  1 <= x <= N + 1 /\ (forall i, 1 <= i < x -> 0 < v i) /\
  (forall i, x <= i <= N -> v i <= 0).

Lemma search_loop_ok (fuel : nat) (base cursor val n : Z) :
  0 <= base -> 0 <= n <= Z.of_nat fuel -> base + n <= N ->
  (forall i, 1 <= i <= base -> 0 < v i) ->
  (forall i, base + n < i <= N -> v i < 0) ->
  (val < 0 -> cursor = base + n + 1) -> (0 < val -> cursor = base) ->
  (val = 0 -> n = 0 -> cursor = base + 1) ->
  exists c w, search_loop cmp_at fuel base cursor val n = Some (c, w) /\
    0 <= c <= N + 1 /\ search_post (if 0 <? w then c + 1 else c).
Proof.
  revert base cursor val n.
  induction fuel as [|fuel IH]; intros base cursor val n Hb Hn Hbn Hlo Hhi Hneg Hpos Hz.
  all: cbn [search_loop]; destruct (Z.ltb_spec 0 n); try lia.
  1,3: exists cursor, val; split; [done|]; split; [lia|]; unfold search_post;
    assert (n = 0) as -> by lia; 
    assert ((if 0 <? val then cursor + 1 else cursor) = base + 1) as ->
      by (destruct (Z.ltb_spec 0 val); lia);
    split; [lia|]; split; intros i Hi; [apply Hlo; lia|].
  1,2: assert (v i < 0) by (apply Hhi; lia); lia.
  rewrite Z.shiftr_div_pow2 by lia. change (2 ^ 1) with 2.
  set (p := n / 2).
  assert (0 <= p < n) by (subst p; split; [apply Z.div_pos|apply Z.div_lt]; lia).
  rewrite (uwrap_small 32 (base + p + 1)) by lia.
  rewrite Hcmp by lia. cbn [mbind option_bind].
  set (c := base + p + 1) in *.
  destruct (Z.ltb_spec (v c) 0).
  - apply IH; try lia; auto. intros i Hi.
    destruct (Z.eq_dec i c) as [->|]; [done|].
    apply (Hmono c i); lia.
  - destruct (Z.ltb_spec 0 (v c)).
    + rewrite (uwrap_small 32 (n - (p + 1))) by lia.
      apply IH; try lia.
      * intros i Hi. destruct (Z.eq_dec i c) as [->|]; [done|]. apply (Hmono i c); lia.
      * intros i Hi. apply Hhi. lia.
    + assert (v c = 0) as Hc0 by lia. exists c, (v c). split; [done|]. split; [lia|].
      unfold search_post. rewrite Hc0. cbn. split; [lia|]. split; intros i Hi.
      * apply (Hmono i c); lia.
      * destruct (Z.eq_dec i c) as [->|]; [lia|].
        assert (v i < 0) by (apply (Hmono c i); lia). lia.
Qed.

Lemma search_ok :
  exists c w, search_loop cmp_at (Z.to_nat N) 0 1 0 N = Some (c, w) /\
    0 <= c <= N + 1 /\ search_post (if 0 <? w then c + 1 else c).
Proof. apply search_loop_ok; lia. Qed.
End Search.

Lemma mdb_midl_search_ok (ids : list Z) (id : Z) :
  0 <= zn ids 0 < 2 ^ 32 - 1 -> zn ids 0 < zlen ids -> desc ids 1 (zn ids 0) ->
  exists x, mdb_midl_search ids id = Some x /\ 1 <= x <= zn ids 0 + 1 /\
    (forall i, 1 <= i < x -> id < zn ids i) /\
    (forall i, x <= i <= zn ids 0 -> zn ids i <= id).
Proof.
  intros Hn Hlen Hd. unfold mdb_midl_search. arr.
  destruct (search_ok (fun c => x ← aget ids c; Some (CMP x id))
              (fun i => CMP (zn ids i) id) (zn ids 0)) as (c & w & -> & Hc & Hx & Hlo & Hhi).
  - intros i Hi. by arr.
  - intros i j Hi Hij Hj. pose proof (Hd i j Hi Hij Hj).
    pose proof (CMP_spec (zn ids i) id). pose proof (CMP_spec (zn ids j) id). lia.
  - lia.
  - cbn [mbind option_bind]. exists (if 0 <? w then c + 1 else c).
    split; [destruct (Z.ltb_spec 0 w); [rewrite uwrap_small by lia|]; done|].
    split; [exact Hx|]. split; intros i Hi.
    + apply CMP_spec, Hlo, Hi.
    + pose proof (CMP_spec (zn ids i) id). specialize (Hhi i Hi). cbv beta in Hhi. lia.
Qed.

(** C25: [mdb_midl_search] on a strictly descending list of fewer than
    [2^32 - 1] IDs stays inside the list and returns the first position whose
    ID is not greater than [id], or one past the end. *)
Theorem mdb_midl_search_correct (ids : list Z) (id : Z) :
  0 <= zn ids 0 < 2 ^ 32 - 1 -> zn ids 0 < zlen ids -> desc ids 1 (zn ids 0) ->
  exists x, mdb_midl_search ids id = Some x /\ 1 <= x <= zn ids 0 + 1 /\
    (forall i, 1 <= i < x -> id < zn ids i) /\
    (forall i, x <= i <= zn ids 0 -> zn ids i <= id).
Proof. apply mdb_midl_search_ok. Qed.

(** ** Well-formed lists *)

Lemma UM_MAX_val : MDB_IDL_UM_MAX = 131071.
Proof. reflexivity. Qed.

(** The block of a list holds cell 0 and [alloclen] IDs, and is small enough
    for its size in bytes to be a [size_t]. *)
Definition midl_wf (m : midl) : Prop :=
  zlen (cells m) = alloclen m + 1 /\ 0 <= zn (cells m) 0 <= alloclen m /\
  alloclen m < 2 ^ 60.

Lemma zlen_realloc junk (l : list Z) (n : Z) : 0 <= n -> zlen (realloc junk l n) = n.
Proof.
  intros. unfold realloc, zlen.
  rewrite length_app, length_take, length_fmap, length_seq. lia.
Qed.

Lemma zn_realloc junk (l : list Z) (n i : Z) :
  i < zlen l -> i < n -> zn (realloc junk l n) i = zn l i.
Proof.
  intros. unfold realloc. destruct (Z.ltb_spec i 0).
  { unfold zn. by rewrite (proj2 (Z.leb_gt _ _)) by lia. }
  rewrite zn_app_l.
  - apply zn_take. lia.
  - unfold zlen in *. rewrite length_take. lia.
Qed.

Lemma zlen_midl_ids (m : list Z) : 0 <= zn m 0 < zlen m -> zlen (midl_ids m) = zn m 0.
Proof. intros. unfold midl_ids, zlen in *. rewrite length_take, length_drop. lia. Qed.

Lemma zn_midl_ids (m : list Z) (i : Z) :
  0 <= i < zn m 0 -> zn (midl_ids m) i = zn m (i + 1).
Proof.
  intros. unfold midl_ids. rewrite zn_take by lia.
  change 1%nat with (Z.to_nat 1). rewrite zn_drop by lia. f_equal. lia.
Qed.

(** Two cell arrays hold lists [l] and [l ++ ext]. *)
Lemma midl_ids_app (m m' ext : list Z) :
  0 <= zn m 0 < zlen m -> zn m' 0 = zn m 0 + zlen ext -> zn m' 0 < zlen m' ->
  (forall i, 1 <= i <= zn m 0 -> zn m' i = zn m i) ->
  (forall i, 0 <= i < zlen ext -> zn m' (zn m 0 + 1 + i) = zn ext i) ->
  midl_ids m' = midl_ids m ++ ext.
Proof.
  intros Hm H0 Hlen Hold Hnew. pose proof (zlen_nonneg ext).
  apply zlist_eq.
  - rewrite zlen_app, !zlen_midl_ids by lia. lia.
  - intros i Hi. rewrite zlen_midl_ids in Hi by lia. rewrite zn_midl_ids by lia.
    destruct (Z.ltb_spec i (zn m 0)).
    + rewrite zn_app_l by (rewrite zlen_midl_ids; lia). rewrite zn_midl_ids by lia.
      apply Hold. lia.
    + rewrite zn_app_r by (rewrite zlen_midl_ids; lia). rewrite zlen_midl_ids by lia.
      rewrite <- Hnew by lia. f_equal. lia.
Qed.

(** What growing by [num] gives: room, and the old cells. *)
Lemma mdb_midl_grow_ok junk (m : midl) (num : Z) :
  midl_wf m -> 0 <= num -> alloclen m + num < 2 ^ 60 ->
  exists m', mdb_midl_grow junk true m num = (0, m') /\ alloclen m' = alloclen m + num /\
    zlen (cells m') = alloclen m + num + 1 /\
    (forall i, i <= alloclen m -> zn (cells m') i = zn (cells m) i).
Proof.
  intros (Hlen & Hc & Hb) Hn Hsum. eexists. unfold mdb_midl_grow. split; [reflexivity|].
  cbn [alloclen cells]. rewrite !uwrap_small by lia. split; [done|].
  rewrite zlen_realloc by lia. split; [lia|]. intros i Hi. apply zn_realloc; lia.
Qed.

(** The list that [append]-like functions write to: the old one when there is
    room, the grown one otherwise. *)
Lemma room_or_grow junk (m : midl) (num : Z) (full ok : bool) (need : Z) :
  midl_wf m -> 0 <= num -> alloclen m + num < 2 ^ 60 ->
  (full = false -> zn (cells m) 0 + need <= alloclen m) -> need <= num ->
  (full = true -> ok = true) ->
  exists m', (if full then mdb_midl_grow junk ok m num else (0, m)) = (0, m') /\
    zlen (cells m') = alloclen m' + 1 /\ alloclen m' < 2 ^ 60 /\
    zn (cells m) 0 + need <= alloclen m' /\
    (forall i, i <= zn (cells m) 0 -> zn (cells m') i = zn (cells m) i).
Proof.
  intros Hwf Hn Hsum Hroom Hneed Hok. pose proof Hwf as (Hlen & Hc & Hb).
  destruct full; [rewrite (Hok eq_refl)|].
  - destruct (mdb_midl_grow_ok junk m num Hwf Hn Hsum) as (m' & -> & Ha & Hl & Ho).
    exists m'. split; [done|]. rewrite Hl, Ha. split; [lia|]. split; [lia|].
    split; [lia|]. intros i Hi. apply Ho. lia.
  - exists m. split; [done|]. repeat split; auto; lia.
Qed.

(** [mdb_midl_append] adds the ID at the end of the list and keeps it well
    formed, growing the block when it is full; when the block is full and no
    memory is left it reports [ENOMEM] and leaves the list as it was. *)
Lemma mdb_midl_append_correct junk (ok : bool) (m : midl) (id : Z) :
  midl_wf m -> alloclen m + MDB_IDL_UM_MAX < 2 ^ 60 ->
  (ok = true \/ zn (cells m) 0 < alloclen m ->
     exists m', mdb_midl_append junk ok m id = Some (0, m') /\ midl_wf m' /\
       midl_ids (cells m') = midl_ids (cells m) ++ [id]) /\
  (ok = false -> zn (cells m) 0 = alloclen m ->
     mdb_midl_append junk ok m id = Some (ENOMEM, m)).
Proof.
  intros Hwf Hb. pose proof Hwf as (Hlen & Hc & Hb'). unfold mdb_midl_append.
  rewrite aget_in by lia. cbn [mbind option_bind]. split.
  - intros Hok. pose proof UM_MAX_val.
    destruct (room_or_grow junk m MDB_IDL_UM_MAX (alloclen m <=? zn (cells m) 0) ok 1)
      as (m' & -> & Hl' & Hb1 & Hr' & Ho'); try done; try lia.
    { intros ?%Z.leb_le. destruct Hok; [done|lia]. }
    cbn [Z.eqb]. arr. eexists. split; [reflexivity|]. cbn [cells alloclen]. split.
    + repeat split; cbn [cells alloclen]; arr; lia.
    + apply midl_ids_app; arr; try lia.
      * intros i Hi. arr. apply Ho'. lia.
      * intros i Hi. autorewrite with arr in Hi. assert (i = 0) as -> by lia. by arr.
  - intros -> ->. rewrite Z.leb_refl. done.
Qed.

Lemma copy_cells_ok (n : nat) (dst src : list Z) (at_ from : Z) :
  0 <= at_ -> at_ + Z.of_nat n <= zlen dst -> 0 <= from -> from + Z.of_nat n <= zlen src ->
  exists dst', copy_cells n dst at_ src from = Some dst' /\ zlen dst' = zlen dst /\
    (forall i, at_ <= i < at_ + Z.of_nat n -> zn dst' i = zn src (from + (i - at_))) /\
    (forall i, i < at_ \/ at_ + Z.of_nat n <= i -> zn dst' i = zn dst i).
Proof.
  revert dst at_ from. induction n as [|n IH]; intros dst at_ from ????; cbn [copy_cells].
  - exists dst. repeat split; auto. intros; lia.
  - arr. destruct (IH (zset dst at_ (zn src from)) (at_ + 1) (from + 1))
      as (dst' & -> & Hl & Hin & Hout); try zlia.
    exists dst'. split; [done|]. rewrite Hl. split; [by arr|]. split; intros i Hi.
    + destruct (Z.eq_dec i at_) as [->|].
      * rewrite Hout by lia. arr. f_equal. lia.
      * rewrite Hin by lia. f_equal. lia.
    + rewrite Hout by lia. by arr.
Qed.

(** [mdb_midl_append_list] appends all IDs of [app], without writing past
    the block and keeping the list well formed. *)
Lemma mdb_midl_append_list_correct junk (ok : bool) (m : midl) (app : list Z) :
  midl_wf m -> 0 <= zn app 0 < 2 ^ 31 -> zn app 0 < zlen app ->
  alloclen m + zn app 0 < 2 ^ 60 ->
  (ok = true \/ zn (cells m) 0 + zn app 0 < alloclen m ->
     exists m', mdb_midl_append_list junk ok m app = Some (0, m') /\ midl_wf m' /\
       midl_ids (cells m') = midl_ids (cells m) ++ midl_ids app) /\
  (ok = false -> alloclen m <= zn (cells m) 0 + zn app 0 ->
     mdb_midl_append_list junk ok m app = Some (ENOMEM, m)).
Proof.
  intros Hwf Ha Hal Hb. pose proof Hwf as (Hlen & Hc & Hb'). unfold mdb_midl_append_list.
  arr. split.
  - intros Hok.
    destruct (room_or_grow junk m (zn app 0)
                (alloclen m <=? zn (cells m) 0 + zn app 0) ok (zn app 0))
      as (m' & -> & Hl' & Hb1 & Hr' & Ho'); try done; try lia.
    { intros ?%Z.leb_le. destruct Hok; [done|lia]. }
    cbn [Z.eqb].
    destruct (copy_cells_ok (Z.to_nat (zn app 0)) (cells m') app (zn (cells m) 0 + 1) 1)
      as (d & -> & Hd & Hin & Hout); try lia.
    cbn [mbind option_bind]. arr. eexists. split; [reflexivity|]. split.
    + repeat split; cbn [cells alloclen]; arr; lia.
    + cbn [cells]. apply midl_ids_app; rewrite ?zlen_midl_ids by lia; arr; try lia.
      * intros i Hi. arr. rewrite Hout by lia. apply Ho'. lia.
      * intros i Hi. arr. rewrite Hin by lia. rewrite zn_midl_ids by lia. f_equal. lia.
  - intros -> Hfull. rewrite (proj2 (Z.leb_le _ _)) by lia. done.
Qed.

Lemma append_range_loop_ok (n : nat) (ids : list Z) (len id : Z) :
  0 <= len -> len + Z.of_nat n < zlen ids -> 0 <= id -> id + Z.of_nat n <= 2 ^ 64 ->
  exists ids', append_range_loop n ids len id = Some ids' /\ zlen ids' = zlen ids /\
    (forall k, 1 <= k <= Z.of_nat n -> zn ids' (len + k) = id + (Z.of_nat n - k)) /\
    (forall i, i <= len \/ len + Z.of_nat n < i -> zn ids' i = zn ids i).
Proof.
  revert ids id. induction n as [|n IH]; intros ids id ????; cbn [append_range_loop].
  - exists ids. repeat split; auto. intros; lia.
  - rewrite aset_in by lia. cbn [mbind option_bind].
    destruct (Z.eq_dec (Z.of_nat n) 0) as [Hn|Hn].
    + assert (n = O) as -> by lia. cbn [append_range_loop]. eexists. split; [done|].
      split; [by arr|]. split; [intros k Hk; replace k with 1 by lia; arr; lia|].
      intros i Hi. by arr.
    + rewrite (uwrap_small 64 (id + 1)) by lia.
      destruct (IH (zset ids (len + Z.of_nat (S n)) id) (id + 1))
        as (ids' & -> & Hl & Hin & Hout); try zlia.
      exists ids'. split; [done|]. rewrite Hl. split; [by arr|]. split.
      * intros k Hk. destruct (Z.eq_dec k (Z.of_nat (S n))) as [->|].
        -- rewrite Hout by lia. arr. lia.
        -- rewrite Hin by lia. lia.
      * intros i Hi. rewrite Hout by lia. by arr.
Qed.

Lemma mdb_midl_append_range_ok junk (ok : bool) (m : midl) (id n : Z) :
  midl_wf m -> 0 <= id -> 0 <= n < 2 ^ 31 -> id + n <= 2 ^ 64 ->
  alloclen m < 2 ^ 59 -> (ok = true \/ zn (cells m) 0 + n <= alloclen m) ->
  exists m', mdb_midl_append_range junk ok m id n = Some (0, m') /\ midl_wf m' /\
    midl_ids (cells m') = midl_ids (cells m) ++ reverse (seqZ id n).
Proof.
  intros Hwf Hid Hn Hidn Hb Hok. pose proof Hwf as (Hlen & Hc & Hb').
  unfold mdb_midl_append_range. arr.
  assert (n <= Z.lor n MDB_IDL_UM_MAX < 2 ^ 31) as Hlor.
  { pose proof UM_MAX_val as HUM. rewrite HUM. split.
    - apply Z.ldiff_le; [apply Z.lor_nonneg; lia|].
      apply Z.bits_inj'. intros i Hi. rewrite Z.ldiff_spec, Z.lor_spec, Z.bits_0.
      by destruct (Z.testbit n i).
    - apply Z.log2_lt_cancel. change (Z.log2 (2 ^ 31)) with 31.
      rewrite Z.log2_lor by lia.
      destruct (Z.eq_dec n 0) as [->|]; [reflexivity|].
      apply Z.max_lub_lt; [apply Z.log2_lt_pow2; lia|vm_compute; reflexivity]. }
  rewrite (swrap_small 32) by lia.
  destruct (room_or_grow junk m (Z.lor n MDB_IDL_UM_MAX)
              (alloclen m <? zn (cells m) 0 + n) ok n)
    as (m' & -> & Hl' & Hb1 & Hr' & Ho'); try done; try lia.
  { intros ?%Z.ltb_lt. destruct Hok; [done|lia]. }
  cbn [Z.eqb]. arr.
  destruct (append_range_loop_ok (Z.to_nat n) (zset (cells m') 0 (zn (cells m) 0 + n))
              (zn (cells m) 0) id) as (d & -> & Hd & Hin & Hout); try zlia.
  cbn [mbind option_bind]. eexists. split; [reflexivity|].
  autorewrite with arr in Hd.
  assert (zn d 0 = zn (cells m) 0 + n) as Hd0 by (rewrite Hout by lia; by arr).
  split.
  - repeat split; cbn [cells alloclen]; lia.
  - assert (zlen (reverse (seqZ id n)) = n) as Hrl.
    { unfold zlen. rewrite length_reverse, length_seqZ. lia. }
    cbn [cells]. apply midl_ids_app; rewrite ?Hrl; try lia.
    + intros i Hi. rewrite Hout by lia. arr. apply Ho'. lia.
    + intros i Hi. replace (zn (cells m) 0 + 1 + i) with (zn (cells m) 0 + (i + 1)) by lia.
      rewrite Hin by lia. symmetry. apply aget_zn. unfold aget.
      rewrite (proj2 (Z.leb_le _ _)) by lia.
      rewrite reverse_lookup by (rewrite length_seqZ; lia).
      rewrite lookup_seqZ_lt by (rewrite length_seqZ; lia).
      f_equal. rewrite length_seqZ. lia.
Qed.

(** [mdb_midl_append_range] appends the IDs [id .. id + n - 1] in
    descending order, within the block. *)
Lemma mdb_midl_append_range_correct junk (ok : bool) (m : midl) (id n : Z) :
  midl_wf m -> 0 <= id -> 0 <= n < 2 ^ 31 -> id + n <= 2 ^ 64 ->
  alloclen m < 2 ^ 59 -> (ok = true \/ zn (cells m) 0 + n <= alloclen m) ->
  exists m', mdb_midl_append_range junk ok m id n = Some (0, m') /\ midl_wf m' /\
    midl_ids (cells m') = midl_ids (cells m) ++ reverse (seqZ id n).
Proof. apply mdb_midl_append_range_ok. Qed.

(** [mdb_midl_need] makes room for [num] more IDs and keeps the list. *)
Lemma mdb_midl_need_correct junk (m : midl) (num : Z) :
  midl_wf m -> 0 <= num -> zn (cells m) 0 + num < 2 ^ 31 ->
  exists m', mdb_midl_need junk true m num = Some (0, m') /\ midl_wf m' /\
    zn (cells m) 0 + num <= alloclen m' /\ midl_ids (cells m') = midl_ids (cells m).
Proof.
  intros Hwf Hnum Hs. pose proof Hwf as (Hlen & Hc & Hb). unfold mdb_midl_need. arr.
  set (n := num + zn (cells m) 0).
  assert (0 <= n / 4) by (apply Z.div_pos; lia). pose proof (Z.mul_div_le n 4).
  rewrite (uwrap_small 32 (n + _ + _)) by lia.
  change (u32 (-256)) with (2 ^ 32 - 2 ^ 8). rewrite land_mask by lia.
  set (x := n + n / 4 + (256 + 2)).
  pose proof (Z.div_mod x (2 ^ 8)). pose proof (Z.mod_pos_bound x (2 ^ 8)).
  destruct (Z.ltb_spec (alloclen m) n).
  - rewrite uwrap_small by lia. eexists. split; [reflexivity|].
    assert (forall i, i <= zn (cells m) 0 ->
      zn (realloc junk (cells m) (x / 2 ^ 8 * 2 ^ 8 - 1)) i = zn (cells m) i) as Hold.
    { intros i Hi. apply zn_realloc; lia. }
    repeat split; cbn [cells alloclen]; rewrite ?zlen_realloc, ?Hold by lia; try lia.
    rewrite (midl_ids_app (cells m) _ []), app_nil_r;
      rewrite ?zlen_realloc, ?Hold by lia; try zlia; try done.
    intros i Hi. apply Hold. lia.
  - exists m. repeat split; auto; lia.
Qed.

(** C26: the block [mdb_midl_shrink] leaves is one cell shorter than its
    recorded length: appending the ID number [MDB_IDL_UM_MAX] to it writes
    past the end of the block. *)
Theorem mdb_midl_shrink_too_short junk (m : midl) (ok : bool) (id : Z) :
  midl_wf m -> MDB_IDL_UM_MAX < alloclen m -> zn (cells m) 0 = MDB_IDL_UM_MAX - 1 ->
  exists m', mdb_midl_shrink junk true m = (1, m') /\
    alloclen m' = MDB_IDL_UM_MAX /\ zlen (cells m') = alloclen m' /\
    midl_ids (cells m') = midl_ids (cells m) /\
    mdb_midl_append junk ok m' id = None.
Proof.
  intros (Hlen & Hc & Hb) Hbig H0. pose proof UM_MAX_val. unfold mdb_midl_shrink.
  rewrite (proj2 (Z.ltb_lt _ _)) by lia. cbn [andb].
  eexists. split; [reflexivity|]. cbn [alloclen cells].
  set (c := realloc _ _ _).
  assert (zlen c = MDB_IDL_UM_MAX) as Hl by (unfold c; rewrite zlen_realloc; lia).
  assert (forall i, i <= zn (cells m) 0 -> zn c i = zn (cells m) i) as Hold
    by (intros i Hi; apply zn_realloc; lia).
  split; [done|]. split; [done|]. split.
  - rewrite (midl_ids_app (cells m) c []), app_nil_r; rewrite ?Hold by lia; try zlia; try done.
    intros i Hi. apply Hold. lia.
  - unfold mdb_midl_append. cbn [cells alloclen].
    rewrite aget_in, Hold by lia. cbn [mbind option_bind].
    rewrite (proj2 (Z.leb_gt _ _)) by lia. cbn [Z.eqb cells].
    rewrite uwrap_small by lia. rewrite aset_in by lia. cbn [mbind option_bind].
    rewrite (proj2 (aset_None _ _ _)); [done|]. arr. lia.
Qed.

(** ** mdb_midl_xmerge *)

Definition desc_le (l : list Z) : Prop :=
  forall i j, 0 <= i -> i < j -> j < zlen l -> zn l j <= zn l i.

Lemma desc_le_cons (x : Z) (l : list Z) :
  desc_le l -> (forall y, y ∈ l -> y <= x) -> desc_le (x :: l).
Proof.
  intros Hl Hx i j Hi Hij Hj. rewrite zlen_cons in Hj.
  assert (forall k, 0 < k -> zn (x :: l) k = zn l (k - 1)) as Hk.
  { intros k Hk. change (x :: l) with ([x] ++ l). rewrite zn_app_r by zlia. f_equal. }
  rewrite (Hk j) by lia. destruct (Z.eq_dec i 0) as [->|].
  - apply Hx, zn_elem. lia.
  - rewrite Hk by lia. apply Hl; lia.
Qed.

Section Xmerge.
(** [A] and [B] are the IDs of the two lists before the call. *)
Variables (A B : list Z).
Hypothesis HA : desc_le A.
Hypothesis HB : desc_le B.
Hypothesis HAr : forall x, x ∈ A -> 0 <= x < 2 ^ 64.
Hypothesis HBr : forall x, x ∈ B -> 0 <= x < 2 ^ 64.

(** The value [old_id] has for [j]: cell 0 is the delimiter. *)
Definition oldv (j : Z) : Z := if j =? 0 then 2 ^ 64 - 1 else zn A (j - 1).

(** [i] IDs of [B] and [j] of [A] are left; the others are merged in [R],
    stored from cell [i + j + 1] on. *)
Record xinv (idl : list Z) (i j : Z) (R : list Z) : Prop := {
  xi_i : 0 <= i <= zlen B;
  xi_j : 0 <= j <= zlen A;
  xi_len : zlen A + zlen B < zlen idl;
  xi_big : zlen idl <= 2 ^ 60;
  xi_R : zlen R = zlen A + zlen B - i - j;
  xi_0 : zn idl 0 = 2 ^ 64 - 1;
  xi_A : forall t, 0 <= t < j -> zn idl (t + 1) = zn A t;
  xi_cells : forall t, 0 <= t < zlen R -> zn idl (i + j + 1 + t) = zn R t;
  xi_perm : Permutation R (drop (Z.to_nat j) A ++ drop (Z.to_nat i) B);
  xi_desc : desc_le R;
  xi_leA : forall r, r ∈ R -> 0 < j -> r <= zn A (j - 1);
  xi_leB : forall r, r ∈ R -> 0 < i -> r <= zn B (i - 1)
}.

Lemma drop_step (l : list Z) (j : Z) :
  0 < j <= zlen l -> drop (Z.to_nat (j - 1)) l = zn l (j - 1) :: drop (Z.to_nat j) l.
Proof.
  intros Hj. replace (Z.to_nat j) with (S (Z.to_nat (j - 1))) by lia.
  apply drop_S. pose proof (aget_in l (j - 1) ltac:(lia)) as Hg. unfold aget in Hg.
  by rewrite (proj2 (Z.leb_le _ _)) in Hg by lia.
Qed.

(** Writing the next ID [x], the largest so far, in front of [R]. *)
Lemma xcells_push (idl R : list Z) (k x : Z) :
  0 < k < zlen idl -> (forall t, 0 <= t < zlen R -> zn idl (k + 1 + t) = zn R t) ->
  forall t, 0 <= t < zlen (x :: R) -> zn (zset idl k x) (k - 1 + 1 + t) = zn (x :: R) t.
Proof.
  intros Hk Hc t Ht. autorewrite with arr in Ht.
  destruct (Z.eq_dec t 0) as [->|].
  - replace (k - 1 + 1 + 0) with k by lia. arr. done.
  - arr. change (x :: R) with ([x] ++ R). rewrite zn_app_r by zlia.
    change (zlen [x]) with 1. rewrite <- Hc by lia. f_equal. lia.
Qed.

Lemma xinv_takeA (idl : list Z) (i j : Z) (R : list Z) :
  xinv idl i j R -> 0 < i -> 0 < j -> zn A (j - 1) <= zn B (i - 1) ->
  xinv (zset idl (i + j) (zn A (j - 1))) i (j - 1) (zn A (j - 1) :: R).
Proof.
  intros [Hi Hj Hl Hb HR H0 HcA Hc Hp Hd HlA HlB] Hip Hjp Hle. split; try zlia.
  - by arr.
  - intros t Ht. arr. apply HcA. lia.
  - replace (i + (j - 1)) with (i + j - 1) by lia. apply xcells_push; auto. lia.
  - rewrite drop_step by lia. cbn [app]. by constructor.
  - apply desc_le_cons; auto.
  - intros r [->|Hr]%elem_of_cons Hj'; [apply HA; lia|].
    etransitivity; [apply HlA; auto; lia|apply HA; lia].
  - intros r [->|Hr]%elem_of_cons Hi'; auto.
Qed.

Lemma xinv_takeB (idl : list Z) (i j : Z) (R : list Z) :
  xinv idl i j R -> 0 < i -> (0 < j -> zn B (i - 1) <= zn A (j - 1)) ->
  xinv (zset idl (i + j) (zn B (i - 1))) (i - 1) j (zn B (i - 1) :: R).
Proof.
  intros [Hi Hj Hl Hb HR H0 HcA Hc Hp Hd HlA HlB] Hip Hle. split; try zlia.
  - by arr.
  - intros t Ht. arr. apply HcA. lia.
  - replace (i - 1 + j) with (i + j - 1) by lia. apply xcells_push; auto. lia.
  - rewrite drop_step by lia. etransitivity; [by constructor|].
    rewrite Permutation_middle. done.
  - apply desc_le_cons; auto.
  - intros r [->|Hr]%elem_of_cons Hj'; auto.
  - intros r [->|Hr]%elem_of_cons Hi'; [apply HB; lia|].
    etransitivity; [apply HlB; auto; lia|apply HB; lia].
Qed.

Lemma xmerge_inner_ok (fuel : nat) (idl : list Z) (i j : Z) (R : list Z) :
  xinv idl i j R -> 0 < i -> j < Z.of_nat fuel ->
  exists idl' j' R', xmerge_inner fuel idl (oldv j) (zn B (i - 1)) j (i + j)
      = Some (idl', oldv j', j', i + j') /\
    zlen idl' = zlen idl /\ xinv idl' i j' R' /\
    (0 < j' -> zn B (i - 1) <= zn A (j' - 1)).
Proof.
  revert idl j R. induction fuel as [|fuel IH]; intros idl j R Hx Hi Hf;
    pose proof Hx as [??????????]; [lia|].
  cbn [xmerge_inner]. destruct (Z.eq_dec j 0) as [->|Hj0].
  - assert (zn B (i - 1) < 2 ^ 64) by (apply HBr, zn_elem; lia).
    change (oldv 0) with (2 ^ 64 - 1).
    rewrite (proj2 (Z.ltb_ge _ _)) by lia. exists idl, 0, R. repeat split; auto; lia.
  - assert (oldv j = zn A (j - 1)) as Hold
      by (unfold oldv; by rewrite (proj2 (Z.eqb_neq j 0))).
    rewrite Hold. destruct (Z.ltb_spec (zn A (j - 1)) (zn B (i - 1))).
    + rewrite aset_in by lia. cbn [mbind option_bind].
      rewrite !uwrap_small by lia.
      assert (xinv (zset idl (i + j) (zn A (j - 1))) i (j - 1) (zn A (j - 1) :: R)) as Hx'
        by (apply xinv_takeA; auto; lia).
      rewrite aget_in by zlia. cbn [mbind option_bind].
      replace (zn (zset idl (i + j) (zn A (j - 1))) (j - 1)) with (oldv (j - 1)).
      2:{ unfold oldv. pose proof (xi_0 _ _ _ _ Hx') as H0'.
          pose proof (xi_A _ _ _ _ Hx' (j - 1 - 1)) as HA'.
          destruct (Z.eqb_spec (j - 1) 0) as [E|].
          - rewrite E in H0' |- *. done.
          - rewrite <- HA' by lia. f_equal. lia. }
      replace (i + j - 1) with (i + (j - 1)) by lia.
      destruct (IH _ _ _ Hx') as (idl' & j' & R' & -> & Hl' & Hx'' & Hle); try lia.
      exists idl', j', R'. rewrite Hl', zlen_zset. auto.
    + exists idl, j, R. rewrite Hold. auto.
Qed.

Lemma xmerge_outer_ok (i : nat) (idl merge : list Z) (j : Z) (R : list Z) :
  xinv idl (Z.of_nat i) j R -> zlen B < zlen merge ->
  (forall t, 0 <= t < zlen B -> zn merge (t + 1) = zn B t) ->
  exists idl' j' R', xmerge_outer i idl merge (oldv j) j (Z.of_nat i + j) = Some idl' /\
    zlen idl' = zlen idl /\ xinv idl' 0 j' R'.
Proof.
  intros Hx Hm Hmc. revert idl j R Hx. induction i as [|i IH]; intros idl j R Hx;
    pose proof Hx as [??????????]; cbn [xmerge_outer].
  - exists idl, j, R. auto.
  - rewrite aget_in by lia. cbn [mbind option_bind].
    replace (zn merge (Z.of_nat (S i))) with (zn B (Z.of_nat (S i) - 1)).
    2:{ rewrite <- Hmc by lia. f_equal. lia. }
    destruct (xmerge_inner_ok (S (length idl)) idl (Z.of_nat (S i)) j R)
      as (idl' & j' & R' & -> & Hl' & Hx' & Hle); auto; try (unfold zlen in *; lia).
    pose proof Hx' as [??????????]. cbn [mbind option_bind].
    rewrite aset_in by lia. cbn [mbind option_bind]. rewrite uwrap_small by lia.
    replace (Z.of_nat (S i) + j' - 1) with (Z.of_nat i + j') by lia.
    destruct (IH (zset idl' (Z.of_nat (S i) + j') (zn B (Z.of_nat (S i) - 1))) j'
                (zn B (Z.of_nat (S i) - 1) :: R')) as (idl'' & j'' & R'' & -> & Hl'' & ?).
    { replace (Z.of_nat i) with (Z.of_nat (S i) - 1) by lia. apply xinv_takeB; auto. lia. }
    exists idl'', j'', R''. rewrite Hl'', zlen_zset. auto.
Qed.
End Xmerge.

Lemma mdb_midl_xmerge_ok (idl merge : list Z) :
  0 <= zn idl 0 -> 0 <= zn merge 0 < zlen merge ->
  zn idl 0 + zn merge 0 < zlen idl -> zlen idl <= 2 ^ 60 ->
  desc_le (midl_ids idl) -> desc_le (midl_ids merge) ->
  Forall (fun x => 0 <= x < 2 ^ 64) (midl_ids idl) ->
  Forall (fun x => 0 <= x < 2 ^ 64) (midl_ids merge) ->
  exists idl', mdb_midl_xmerge idl merge = Some idl' /\ zlen idl' = zlen idl /\
    Permutation (midl_ids idl') (midl_ids idl ++ midl_ids merge) /\
    desc_le (midl_ids idl') /\ zn idl' 0 = zn idl 0 + zn merge 0.
Proof.
  intros Hj Hi Hroom Hbig HdA HdB HrA HrB. unfold mdb_midl_xmerge. arr.
  change (u64 (-1)) with (2 ^ 64 - 1).
  set (A := midl_ids idl) in *. set (B := midl_ids merge) in *.
  set (idl0 := zset idl 0 (2 ^ 64 - 1)).
  assert (zlen A = zn idl 0) as HlA by (apply zlen_midl_ids; lia).
  assert (zlen B = zn merge 0) as HlB by (apply zlen_midl_ids; lia).
  assert (xinv A B idl0 (zn merge 0) (zn idl 0) []) as Hx.
  { split; unfold idl0; try zlia; try (by intros ? ?%not_elem_of_nil).
    - by arr.
    - intros t Ht. arr. symmetry. apply zn_midl_ids. lia.
    - rewrite !drop_ge; [done|unfold zlen in *; lia..].
    - intros ???. rewrite zlen_nil. lia. }
  assert (zn idl0 (zn idl 0) = oldv A (zn idl 0)) as ->.
  { unfold oldv, idl0. destruct (Z.eqb_spec (zn idl 0) 0) as [->|]; [by arr|]. arr.
    unfold A. rewrite zn_midl_ids by lia. f_equal. lia. }
  replace (zn merge 0 + zn idl 0) with (Z.of_nat (Z.to_nat (zn merge 0)) + zn idl 0) by lia.
  destruct (xmerge_outer_ok A B HdA HdB (proj1 (Forall_forall _ _) HrB)
              (Z.to_nat (zn merge 0)) idl0 merge (zn idl 0) [])
    as (idl' & j' & R & -> & Hl' & Hx').
  - by rewrite Z2Nat.id by lia.
  - lia.
  - intros t Ht. symmetry. apply zn_midl_ids. lia.
  - cbn [mbind option_bind]. unfold idl0 in Hl'. rewrite zlen_zset in Hl'.
    destruct Hx' as [_ Hj' _ _ HRl _ HcA Hc Hp HdR HleA _].
    rewrite aset_in by lia. eexists. split; [reflexivity|]. split; [by arr|].
    rewrite Z2Nat.id by lia.
    assert (midl_ids (zset idl' 0 (zn merge 0 + zn idl 0))
            = take (Z.to_nat j') A ++ R) as ->.
    { apply zlist_eq; rewrite zlen_midl_ids by (arr; lia); arr; [lia|].
      intros i Hi'. rewrite zn_midl_ids by (arr; lia). arr.
      destruct (Z.ltb_spec i j').
      - rewrite zn_app_l by zlia. rewrite zn_take by lia. apply HcA. lia.
      - rewrite zn_app_r by zlia. arr. rewrite <- Hc by lia. f_equal. lia. }
    split; [|split; [|rewrite zn_zset_eq by lia; lia]].
    + rewrite Hp, drop_0, app_assoc, take_drop. done.
    + intros a b Ha Hab Hb. autorewrite with arr in Hb.
      destruct (Z.ltb_spec b j'); [|destruct (Z.ltb_spec a j')].
      * rewrite !zn_app_l, !zn_take by zlia. apply HdA; lia.
      * rewrite (zn_app_r _ _ b), (zn_app_l _ _ a), zn_take by zlia. arr.
        transitivity (zn A (j' - 1)); [apply HleA; [apply zn_elem|]; lia|].
        destruct (Z.eq_dec a (j' - 1)) as [->|]; [lia|apply HdA; lia].
      * rewrite !zn_app_r by zlia. arr. apply HdR; lia.
Qed.

(** [mdb_midl_xmerge] of two descending lists, the first with room for
    both, never leaves the block and leaves the descending merge of the two:
    a permutation of all their IDs. *)
Lemma mdb_midl_xmerge_correct (idl merge : list Z) :
  0 <= zn idl 0 -> 0 <= zn merge 0 < zlen merge ->
  zn idl 0 + zn merge 0 < zlen idl -> zlen idl < 2 ^ 60 ->
  desc_le (midl_ids idl) -> desc_le (midl_ids merge) ->
  Forall (fun x => 0 <= x < 2 ^ 64) (midl_ids idl) ->
  Forall (fun x => 0 <= x < 2 ^ 64) (midl_ids merge) ->
  exists idl', mdb_midl_xmerge idl merge = Some idl' /\ zlen idl' = zlen idl /\
    Permutation (midl_ids idl') (midl_ids idl ++ midl_ids merge) /\
    desc_le (midl_ids idl').
Proof.
  intros. destruct (mdb_midl_xmerge_ok idl merge) as (idl' & ? & ? & ? & ? & _); auto; [lia|]. by exists idl'.
Qed.

(** ** ID2 lists *)

Definition id2_count (m : list MDB_ID2) : Z := mid (zn m 0).
Definition id2_list (m : list MDB_ID2) : list MDB_ID2 :=
  take (Z.to_nat (id2_count m)) (drop 1 m).

Definition asc2 (m : list MDB_ID2) : Prop :=
  forall i j, 1 <= i -> i < j -> j <= id2_count m -> mid (zn m i) < mid (zn m j).

(** A dirty list: an array of [MDB_IDL_UM_SIZE] cells, ascending by ID. *)
Definition id2_wf (m : list MDB_ID2) : Prop :=
  zlen m = MDB_IDL_UM_SIZE /\ 0 <= id2_count m <= MDB_IDL_UM_MAX /\ asc2 m.

Lemma UM_SIZE_val : MDB_IDL_UM_SIZE = 131072.
Proof. reflexivity. Qed.

(** Positions found by [mdb_mid2l_search]: the first one whose ID is not
    smaller than [id]. *)
Lemma mdb_mid2l_search_ok (ids : list MDB_ID2) (id : Z) :
  id2_wf ids ->
  exists x, mdb_mid2l_search ids id = Some x /\ 1 <= x <= id2_count ids + 1 /\
    (forall i, 1 <= i < x -> mid (zn ids i) < id) /\
    (forall i, x <= i <= id2_count ids -> id <= mid (zn ids i)).
Proof.
  intros (Hl & Hn & Hd). pose proof UM_SIZE_val. pose proof UM_MAX_val.
  unfold mdb_mid2l_search. rewrite aget_in by lia. cbn [mbind option_bind].
  fold (id2_count ids). rewrite uwrap_small by lia.
  destruct (search_ok (fun c => x ← aget ids c; Some (CMP id (mid x)))
              (fun i => CMP id (mid (zn ids i))) (id2_count ids))
    as (c & w & -> & Hc & Hx & Hlo & Hhi).
  - intros i Hi. rewrite aget_in by lia. done.
  - intros i j Hi Hij Hj. pose proof (Hd i j Hi Hij Hj).
    pose proof (CMP_spec id (mid (zn ids i))). pose proof (CMP_spec id (mid (zn ids j))). lia.
  - lia.
  - cbn [mbind option_bind]. exists (if 0 <? w then c + 1 else c).
    split; [destruct (Z.ltb_spec 0 w); [rewrite uwrap_small by lia|]; done|].
    split; [exact Hx|]. split; intros i Hi.
    + apply CMP_spec, Hlo, Hi.
    + pose proof (CMP_spec id (mid (zn ids i))). specialize (Hhi i Hi). cbv beta in Hhi. lia.
Qed.

(** [mid2l_shift] moves the cells [x .. i-1] up by one. *)
Lemma mid2l_shift_ok (fuel : nat) (ids : list MDB_ID2) (i x : Z) :
  0 <= x -> i < zlen ids -> i - x <= Z.of_nat fuel ->
  exists ids', mid2l_shift fuel ids i x = Some ids' /\ zlen ids' = zlen ids /\
    (forall t, x < t <= i -> zn ids' t = zn ids (t - 1)) /\
    (forall t, t <= x \/ i < t -> zn ids' t = zn ids t).
Proof.
  revert ids i. induction fuel as [|fuel IH]; intros ids i Hx Hi Hf; cbn [mid2l_shift];
    destruct (Z.ltb_spec x i); try lia;
    try (exists ids; repeat split; auto; intros; lia).
  rewrite aget_in by lia. cbn [mbind option_bind]. rewrite aset_in by lia.
  cbn [mbind option_bind].
  destruct (IH (zset ids i (zn ids (i - 1))) (i - 1)) as (ids' & -> & Hl & Hin & Hout);
    try zlia.
  exists ids'. split; [done|]. rewrite Hl, zlen_zset. split; [done|]. split; intros t Ht.
  - destruct (Z.eq_dec t i) as [->|].
    + rewrite Hout by lia. by arr.
    + rewrite Hin by lia. arr. done.
  - rewrite Hout by lia. by arr.
Qed.

(** Inserting a cell at position [x] of the list. *)
Lemma id2_list_insert (m m' : list MDB_ID2) (x : Z) (e : MDB_ID2) :
  1 <= x <= id2_count m + 1 -> id2_count m + 1 < zlen m -> zlen m' = zlen m ->
  id2_count m' = id2_count m + 1 ->
  (forall t, 1 <= t < x -> zn m' t = zn m t) -> zn m' x = e ->
  (forall t, x < t <= id2_count m + 1 -> zn m' t = zn m (t - 1)) ->
  id2_list m' = take (Z.to_nat (x - 1)) (id2_list m) ++ e :: drop (Z.to_nat (x - 1)) (id2_list m).
Proof.
  intros Hx Hn Hl Hc Hlo Hxe Hhi. unfold id2_list. rewrite Hc.
  change 1%nat with (Z.to_nat 1).
  apply zlist_eq; [zlia|]. intros i Hi. autorewrite with arr in Hi.
  rewrite zn_take, zn_drop by lia.
  destruct (Z.ltb_spec i (x - 1)); [|destruct (Z.eq_dec i (x - 1)) as [->|]].
  - rewrite zn_app_l, !zn_take, zn_drop by zlia. apply Hlo. lia.
  - rewrite zn_app_r by zlia. arr. rewrite Z.sub_diag.
    replace (1 + (x - 1)) with x by lia. done.
  - rewrite zn_app_r by zlia. arr.
    match goal with |- _ = zn (e :: ?l) ?k =>
      change (e :: l) with ([e] ++ l); rewrite (zn_app_r [e] l k) by zlia end.
    arr. rewrite zn_drop, zn_take, zn_drop by lia. rewrite Hhi by lia. f_equal. lia.
Qed.

Lemma elem_of_id2_list (m : list MDB_ID2) (e : MDB_ID2) :
  id2_wf m -> e ∈ id2_list m <-> exists i, 1 <= i <= id2_count m /\ zn m i = e.
Proof.
  intros (Hl & Hn & Hd). pose proof UM_SIZE_val. pose proof UM_MAX_val.
  unfold id2_list. change 1%nat with (Z.to_nat 1). split.
  - intros (i & Hi & He)%elem_zn. autorewrite with arr in Hi.
    rewrite zn_take, zn_drop in He by lia. exists (1 + i). split; [lia|done].
  - intros (i & Hi & <-). replace i with (1 + (i - 1)) by lia.
    rewrite <- (zn_drop m 1 (i - 1)), <- (zn_take _ (id2_count m)) by lia.
    apply zn_elem. zlia.
Qed.

(** The list stays ascending when [e] goes between smaller and larger IDs. *)
Lemma asc2_insert (m m' : list MDB_ID2) (x : Z) (e : MDB_ID2) :
  asc2 m -> 1 <= x <= id2_count m + 1 -> id2_count m' = id2_count m + 1 ->
  (forall t, 1 <= t < x -> zn m' t = zn m t) -> zn m' x = e ->
  (forall t, x < t <= id2_count m + 1 -> zn m' t = zn m (t - 1)) ->
  (forall t, 1 <= t < x -> mid (zn m t) < mid e) ->
  (forall t, x <= t <= id2_count m -> mid e < mid (zn m t)) -> asc2 m'.
Proof.
  intros Hd Hx Hc Elo Ex Ehi Hlo Hhi i j Hi Hij Hj. rewrite Hc in Hj.
  destruct (Z.lt_trichotomy i x) as [?|[->|?]], (Z.lt_trichotomy j x) as [?|[->|?]];
    try lia.
  - rewrite !Elo by lia. apply Hd; lia.
  - rewrite Ex, Elo by lia. apply Hlo. lia.
  - rewrite (Elo i), (Ehi j) by lia. pose proof (Hlo i). pose proof (Hhi (j - 1)). lia.
  - rewrite Ex, Ehi by lia. apply Hhi. lia.
  - rewrite !Ehi by lia. apply Hd; lia.
Qed.

(** The stores of [mdb_mid2l_insert]: count, shift, new cell. *)
Lemma mid2l_stores_ok (ids : list MDB_ID2) (id : MDB_ID2) (x : Z) :
  id2_wf ids -> 1 <= x <= id2_count ids + 1 -> id2_count ids < MDB_IDL_UM_MAX ->
  exists ids', (ids1 ← set_mid ids (id2_count ids + 1);
      ids2 ← mid2l_shift (Z.to_nat (id2_count ids + 1)) ids1 (id2_count ids + 1) x;
      ids3 ← aset ids2 x id; Some (0, ids3)) = Some (0, ids') /\
    zlen ids' = zlen ids /\ id2_count ids' = id2_count ids + 1 /\
    (forall t, 1 <= t < x -> zn ids' t = zn ids t) /\ zn ids' x = id /\
    (forall t, x < t <= id2_count ids + 1 -> zn ids' t = zn ids (t - 1)).
Proof.
  intros (Hl & Hn & Hd) Hx Hc. pose proof UM_SIZE_val. pose proof UM_MAX_val.
  unfold set_mid. rewrite aget_in by lia. cbn [mbind option_bind].
  rewrite aset_in by lia. cbn [mbind option_bind].
  set (ids1 := zset ids 0 (ID2 (id2_count ids + 1) (mptr (zn ids 0)))).
  destruct (mid2l_shift_ok (Z.to_nat (id2_count ids + 1)) ids1 (id2_count ids + 1) x)
    as (ids2 & -> & Hl2 & Hin & Hout); try (unfold ids1; zlia).
  unfold ids1 in Hl2; autorewrite with arr in Hl2.
  assert (forall t, 1 <= t -> zn ids1 t = zn ids t) as H1 by (intros; unfold ids1; by arr).
  cbn [mbind option_bind]. rewrite aset_in by lia. cbn [mbind option_bind].
  eexists. split; [reflexivity|]. split; [by rewrite zlen_zset|].
  split; [|split; [|split]].
  - unfold id2_count at 1. rewrite zn_zset_ne, Hout by lia. unfold ids1. by arr.
  - intros. arr. rewrite Hout, H1; [done|lia..].
  - by arr.
  - intros. arr. rewrite Hin, H1; [done|lia..].
Qed.

Lemma mdb_mid2l_insert_ok (ids : list MDB_ID2) (id : MDB_ID2) :
  id2_wf ids ->
  ((exists e, e ∈ id2_list ids /\ mid e = mid id) ->
     mdb_mid2l_insert ids id = Some (-1, ids)) /\
  ((forall e, e ∈ id2_list ids -> mid e <> mid id) ->
     (id2_count ids = MDB_IDL_UM_MAX -> mdb_mid2l_insert ids id = Some (-2, ids)) /\
     (id2_count ids < MDB_IDL_UM_MAX ->
        exists ids', mdb_mid2l_insert ids id = Some (0, ids') /\ id2_wf ids' /\
          Permutation (id2_list ids') (id :: id2_list ids))).
Proof.
  intros Hwf. pose proof Hwf as (Hl & Hn & Hd).
  pose proof UM_SIZE_val. pose proof UM_MAX_val.
  destruct (mdb_mid2l_search_ok ids (mid id) Hwf) as (x & Hs & Hx & Hlo & Hhi).
  unfold mdb_mid2l_insert. rewrite Hs. cbn [mbind option_bind].
  rewrite (proj2 (Z.ltb_ge _ _)) by lia. rewrite (aget_in ids 0) by lia. cbn [mbind option_bind].
  fold (id2_count ids). split.
  - intros (e & (i & Hi & <-)%elem_of_id2_list & He); [|done].
    assert (i = x) as ->.
    { destruct (Z.lt_trichotomy i x) as [Hlt|[?|Hgt]]; [|done|].
      - pose proof (Hlo i). lia.
      - pose proof (Hhi x). pose proof (Hd x i). lia. }
    rewrite (proj2 (Z.leb_le x (id2_count ids))) by lia. rewrite (aget_in ids x) by lia.
    cbn [mbind option_bind]. by rewrite (proj2 (Z.eqb_eq _ _)) by done.
  - intros Hno.
    assert (forall t, x <= t <= id2_count ids -> mid (zn ids t) <> mid id) as Hne
      by (intros t Ht; apply Hno, elem_of_id2_list; [done|]; exists t; split; [lia|done]).
    assert ((if x <=? id2_count ids then e ← aget ids x; Some (mid e =? mid id)
             else Some false) = Some false) as ->.
    { destruct (Z.leb_spec x (id2_count ids)); [|done]. rewrite aget_in by lia.
      cbn [mbind option_bind]. rewrite (proj2 (Z.eqb_neq _ _)); [done|]. apply Hne. lia. }
    cbn [mbind option_bind]. split; intros Hc.
    + rewrite (proj2 (Z.leb_le _ _)) by lia. done.
    + rewrite (proj2 (Z.leb_gt _ _)) by lia.
      rewrite (uwrap_small 64), (uwrap_small 32) by lia.
      destruct (mid2l_stores_ok ids id x) as (ids' & -> & Hl' & Hc' & Elo & Ex & Ehi); auto.
      exists ids'. split; [done|]. split; [split; [lia|split; [lia|]]|].
      * eapply asc2_insert; eauto. intros t Ht. pose proof (Hhi t Ht).
        pose proof (Hne t Ht). lia.
      * rewrite (id2_list_insert ids ids' x id); auto; try zlia.
        rewrite <- Permutation_middle, take_drop. done.
Qed.

(** C27: [mdb_mid2l_insert] on a dirty list refuses an ID that is present (-1)
    or a full list (-2) and leaves the list alone; otherwise it stays inside
    the array and adds exactly the new pair, keeping the list well formed. *)
Theorem mdb_mid2l_insert_correct (ids : list MDB_ID2) (id : MDB_ID2) :
  id2_wf ids ->
  ((exists e, e ∈ id2_list ids /\ mid e = mid id) ->
     mdb_mid2l_insert ids id = Some (-1, ids)) /\
  ((forall e, e ∈ id2_list ids -> mid e <> mid id) ->
     (id2_count ids = MDB_IDL_UM_MAX -> mdb_mid2l_insert ids id = Some (-2, ids)) /\
     (id2_count ids < MDB_IDL_UM_MAX ->
        exists ids', mdb_mid2l_insert ids id = Some (0, ids') /\ id2_wf ids' /\
          Permutation (id2_list ids') (id :: id2_list ids))).
Proof. apply mdb_mid2l_insert_ok. Qed.

(** * Witnesses: the hypotheses of the theorems hold on concrete lists *)

Lemma mdb_midl_search_witness :
  exists x, mdb_midl_search [3; 9; 5; 2] 5 = Some x /\ 1 <= x <= 4.
Proof.
  destruct (mdb_midl_search_correct [3; 9; 5; 2] 5) as (x & Hx & Hr & _).
  - closed.
  - reflexivity.
  - intros i j Hi Hij Hj. change (zn [3; 9; 5; 2] 0) with 3 in Hj.
    assert (i = 1 \/ i = 2) as [-> | ->] by lia;
      assert (j = 2 \/ j = 3) as [-> | ->] by lia; first [lia|reflexivity].
  - exists x. split; [exact Hx|exact Hr].
Defined.

Lemma midl_wf_small : midl_wf (Midl 4 [2; 9; 5; 0; 0]).
Proof. repeat split; vm_compute; congruence. Qed.

Lemma mdb_midl_append_witness :
  exists m', mdb_midl_append (fun _ => 0) true (Midl 4 [2; 9; 5; 0; 0]) 3 = Some (0, m') /\
    midl_wf m' /\ midl_ids (cells m') = [9; 5; 3].
Proof.
  apply (mdb_midl_append_correct (fun _ => 0) true (Midl 4 [2; 9; 5; 0; 0]) 3).
  - exact midl_wf_small.
  - reflexivity.
  - left. reflexivity.
Defined.

Lemma mdb_midl_append_list_witness :
  exists m', mdb_midl_append_list (fun _ => 0) true (Midl 4 [2; 9; 5; 0; 0]) [2; 4; 3]
      = Some (0, m') /\ midl_wf m' /\ midl_ids (cells m') = [9; 5; 4; 3].
Proof.
  apply (mdb_midl_append_list_correct (fun _ => 0) true (Midl 4 [2; 9; 5; 0; 0]) [2; 4; 3]).
  - exact midl_wf_small.
  - closed.
  - reflexivity.
  - reflexivity.
  - left. reflexivity.
Defined.

Lemma mdb_midl_append_range_witness :
  exists m', mdb_midl_append_range (fun _ => 0) true (Midl 4 [2; 9; 5; 0; 0]) 2 3
      = Some (0, m') /\ midl_wf m' /\ midl_ids (cells m') = [9; 5; 4; 3; 2].
Proof.
  apply (mdb_midl_append_range_correct (fun _ => 0) true (Midl 4 [2; 9; 5; 0; 0]) 2 3).
  - exact midl_wf_small.
  - lia.
  - lia.
  - lia.
  - reflexivity.
  - left. reflexivity.
Defined.

Lemma mdb_midl_need_witness :
  exists m', mdb_midl_need (fun _ => 0) true (Midl 4 [2; 9; 5; 0; 0]) 3 = Some (0, m') /\
    midl_wf m' /\ 5 <= alloclen m' /\ midl_ids (cells m') = [9; 5].
Proof.
  apply (mdb_midl_need_correct (fun _ => 0) (Midl 4 [2; 9; 5; 0; 0]) 3).
  - exact midl_wf_small.
  - lia.
  - reflexivity.
Defined.

(** A list that has grown to 131072 IDs, 131070 of them in use. *)
Definition grown : midl :=
  Midl 131072 (131070 :: replicate (Z.to_nat 131072) 0).

Lemma grown_wf : midl_wf grown.
Proof.
  unfold midl_wf, grown. cbn [cells alloclen]. rewrite zlen_cons.
  unfold zlen. rewrite length_replicate.
  change (zn (131070 :: replicate (Z.to_nat 131072) 0) 0) with 131070. lia.
Qed.

Lemma mdb_midl_shrink_witness :
  exists m', mdb_midl_shrink (fun _ => 0) true grown = (1, m') /\
    mdb_midl_append (fun _ => 0) true m' 7 = None.
Proof.
  destruct (mdb_midl_shrink_too_short (fun _ => 0) grown true 7)
    as (m' & H1 & _ & _ & _ & H2).
  - exact grown_wf.
  - reflexivity.
  - reflexivity.
  - exists m'. split; [exact H1|exact H2].
Defined.

Lemma mdb_midl_xmerge_witness :
  exists idl', mdb_midl_xmerge [2; 9; 3; 0; 0] [2; 7; 5] = Some idl' /\
    Permutation (midl_ids idl') [9; 3; 7; 5] /\ desc_le (midl_ids idl').
Proof.
  destruct (mdb_midl_xmerge_correct [2; 9; 3; 0; 0] [2; 7; 5]) as (idl' & H1 & _ & H2 & H3).
  1-4: vm_compute; intuition congruence.
  1-2: intros i j Hi Hij Hj; change (zlen _) with 2 in Hj;
       assert (i = 0) as -> by lia; assert (j = 1) as -> by lia; vm_compute; congruence.
  1-2: repeat constructor; vm_compute; congruence.
  exists idl'. split; [exact H1|]. split; [exact H2|exact H3].
Defined.

(** An empty dirty list. *)
Definition no_dirty : list MDB_ID2 := replicate (Z.to_nat 131072) (ID2 0 0).

Lemma no_dirty_wf : id2_wf no_dirty.
Proof.
  unfold id2_wf, no_dirty. split.
  - unfold zlen. rewrite length_replicate. rewrite UM_SIZE_val; lia.
  - assert (id2_count (replicate (Z.to_nat 131072) (ID2 0 0)) = 0) as Hc
      by reflexivity.
    split; [rewrite Hc; pose proof UM_MAX_val; lia|]. intros i j. rewrite Hc. lia.
Qed.

Lemma mdb_mid2l_insert_witness :
  exists ids', mdb_mid2l_insert no_dirty (ID2 5 1) = Some (0, ids') /\ id2_wf ids'.
Proof.
  destruct (mdb_mid2l_insert_correct no_dirty (ID2 5 1)) as [_ H].
  - exact no_dirty_wf.
  - assert (forall e, e ∈ id2_list no_dirty -> mid e <> mid (ID2 5 1)) as Hno.
    { intros e He. change (id2_list no_dirty) with (@nil MDB_ID2) in He.
      by apply not_elem_of_nil in He. }
    destruct (proj2 (H Hno)) as (ids' & H1 & H2 & _); [reflexivity|].
    exists ids'. split; [exact H1|exact H2].
Defined.
