(* ===== verification/MidlSort.v ===== *)
(** * Sorting of ID lists: [mdb_midl_sort] ([src/LegacyDatabase/midl.c])

    An iterative quicksort with median of three and an explicit stack of 64
    [int]s, which finishes ranges of at most 8 cells by insertion sort.  The
    theorem shows that it sorts in descending order, that every access to the
    list and to the stack is in bounds and that the loop ends. *)
From S2P Require Import Prelude.
From S2P Require Import Midl.
From Stdlib Require Import ZArith Lia.
From stdpp Require Import base numbers option list.
Open Scope Z_scope.

Definition SMALL : Z := 8.
(** [sizeof(int) * CHAR_BIT * 2] *)
Definition ISTACK_LEN : nat := 64.

(** [MIDL_SWAP(ids[a], ids[b])] *)
Definition MIDL_SWAP (ids : list Z) (a b : Z) : option (list Z) :=
  itmp ← aget ids a;
  y ← aget ids b;
  ids ← aset ids a y;
  aset ids b itmp.

(** [for (i=j-1; i>=1; i--) { if (ids[i] >= a) break; ids[i+1] = ids[i]; }] *)
Fixpoint ins_inner (fuel : nat) (ids : list Z) (a i : Z) : option (list Z * Z) :=
  if 1 <=? i then
    match fuel with
    | O => None
    | S fuel =>
      c ← aget ids i;
      if a <=? c then Some (ids, i)
      else ids ← aset ids (i + 1) c; ins_inner fuel ids a (i - 1)
    end
  else Some (ids, i).

(** [for (j=l+1; j<=ir; j++) { a = ids[j]; ...; ids[i+1] = a; }] *)
Fixpoint ins_outer (fuel : nat) (ids : list Z) (j ir : Z) : option (list Z) :=
  if j <=? ir then
    match fuel with
    | O => None
    | S fuel =>
      a ← aget ids j;
      '(ids, i) ← ins_inner (length ids) ids a (j - 1);
      ids ← aset ids (i + 1) a;
      ins_outer fuel ids (j + 1) ir
    end
  else Some ids.

(** [do i++; while (ids[i] > a);] *)
Fixpoint scan_up (fuel : nat) (ids : list Z) (a i : Z) : option Z :=
  match fuel with
  | O => None
  | S fuel => let i := i + 1 in
              c ← aget ids i;
              if a <? c then scan_up fuel ids a i else Some i
  end.

(** [do j--; while (ids[j] < a);] *)
Fixpoint scan_down (fuel : nat) (ids : list Z) (a j : Z) : option Z :=
  match fuel with
  | O => None
  | S fuel => let j := j - 1 in
              c ← aget ids j;
              if c <? a then scan_down fuel ids a j else Some j
  end.

(** [for(;;) { scan up; scan down; if (j < i) break; MIDL_SWAP(ids[i],ids[j]); }] *)
Fixpoint part_loop (fuel : nat) (ids : list Z) (a i j : Z) : option (list Z * Z * Z) :=
  match fuel with
  | O => None
  | S fuel =>
    i ← scan_up (length ids) ids a i;
    j ← scan_down (length ids) ids a j;
    if j <? i then Some (ids, i, j)
    else ids ← MIDL_SWAP ids i j; part_loop fuel ids a i j
  end.

(** Median of left, centre, right to [l+1]; then the partition of [l..ir]:
    the cells, [i] and [j]. *)
Definition median3 (ids : list Z) (l ir : Z) : option (list Z) :=
  k ← int_add l ir;
  let k := Z.shiftr k 1 in
  ids ← MIDL_SWAP ids k (l + 1);
  x ← aget ids l; y ← aget ids ir;
  ids ← (if x <? y then MIDL_SWAP ids l ir else Some ids);
  x ← aget ids (l + 1); y ← aget ids ir;
  ids ← (if x <? y then MIDL_SWAP ids (l + 1) ir else Some ids);
  x ← aget ids l; y ← aget ids (l + 1);
  if x <? y then MIDL_SWAP ids l (l + 1) else Some ids.

Definition partition (ids : list Z) (l ir : Z) : option (list Z * Z * Z) :=
  ids ← median3 ids l ir;
  a ← aget ids (l + 1);
  '(ids, i, j) ← part_loop (length ids) ids a (l + 1) ir;
  c ← aget ids j;
  ids ← aset ids (l + 1) c;
  ids ← aset ids j a;
  Some (ids, i, j).

(** The variables of the main loop; [istack] grows by two cells per range. *)
Record sort_state := SortState {
  ss_ids : list Z; ss_l : Z; ss_ir : Z; ss_istack : list Z; ss_jstack : Z }.

(** One iteration: the list when the loop is left, the new state otherwise. *)
Definition sort_step (s : sort_state) : option (list Z + sort_state) :=
  let '(SortState ids l ir istack jstack) := s in
  if ir - l <? SMALL then
    ids ← ins_outer (length ids) ids (l + 1) ir;
    if jstack =? 0 then Some (inl ids)
    else
      ir ← aget istack jstack;
      l ← aget istack (jstack - 1);
      Some (inr (SortState ids l ir istack (jstack - 2)))
  else
    '(ids, i, j) ← partition ids l ir;
    let jstack := jstack + 2 in
    if j - l <=? ir - i + 1 then
      istack ← aset istack jstack ir;
      istack ← aset istack (jstack - 1) i;
      Some (inr (SortState ids l (j - 1) istack jstack))
    else
      istack ← aset istack jstack (j - 1);
      istack ← aset istack (jstack - 1) l;
      Some (inr (SortState ids i ir istack jstack)).

Fixpoint sort_loop (fuel : nat) (s : sort_state) : option (list Z) :=
  match fuel with
  | O => None
  | S fuel => r ← sort_step s;
              match r with
              | inl ids => Some ids
              | inr s => sort_loop fuel s
              end
  end.

Definition mdb_midl_sort (ids : list Z) : option (list Z) :=
  c0 ← aget ids 0;
  let ir := s32 c0 in
  sort_loop (2 * Z.to_nat ir + 2) (SortState ids 1 ir (replicate ISTACK_LEN 0) 0).

Example sort_example :
  mdb_midl_sort [12; 3; 9; 1; 7; 9; 4; 11; 2; 8; 10; 5; 6; 99]
  = Some [12; 11; 10; 9; 9; 8; 7; 6; 5; 4; 3; 2; 1; 99].
Proof. reflexivity. Qed.

(** * Correctness *)

(** [m'] is [m] with the cells [l..r] rearranged. *)
Record within (l r : Z) (m m' : list Z) : Prop := {
  w_len : zlen m' = zlen m;
  w_out : forall i, ~ l <= i <= r -> zn m' i = zn m i;
  w_in : forall j, l <= j <= r -> exists k, l <= k <= r /\ zn m' j = zn m k;
  w_perm : Permutation m' m
}.

Definition sorted_rng (m : list Z) (l r : Z) : Prop :=
  forall p q, l <= p -> p < q -> q <= r -> zn m q <= zn m p.

Lemma within_refl l r m : within l r m m.
Proof. split; eauto. Qed.

Lemma within_trans l r m1 m2 m3 : within l r m1 m2 -> within l r m2 m3 -> within l r m1 m3.
Proof.
  intros [L1 O1 I1 P1] [L2 O2 I2 P2]. split.
  - congruence.
  - intros i Hi. rewrite O2, O1; auto.
  - intros j Hj. destruct (I2 j Hj) as (k & Hk & E). destruct (I1 k Hk) as (k' & Hk' & E').
    exists k'. split; [done|congruence].
  - by etransitivity.
Qed.

Lemma within_mono l r l' r' m m' : within l r m m' -> l' <= l -> r <= r' -> within l' r' m m'.
Proof.
  intros [L O I P] Hl Hr. split; auto.
  - intros i Hi. apply O. lia.
  - intros j Hj. destruct (decide (l <= j <= r)) as [H|H].
    + destruct (I j H) as (k & Hk & E). exists k. split; [lia|done].
    + exists j. split; [lia|]. apply O. lia.
Qed.

Lemma within_swap l r m a b :
  0 <= l -> r < zlen m -> l <= a <= r -> l <= b <= r ->
  within l r m (zset (zset m a (zn m b)) b (zn m a)).
Proof.
  intros Hl Hr Ha Hb. split.
  - by arr.
  - intros i Hi. by arr.
  - intros j Hj. destruct (Z.eq_dec j b) as [->|]; [exists a; split; [lia|by arr]|].
    destruct (Z.eq_dec j a) as [->|]; [exists b; split; [lia|by arr]|].
    exists j. split; [lia|by arr].
  - apply zswap_perm; lia.
Qed.

Lemma MIDL_SWAP_in m a b :
  0 <= a < zlen m -> 0 <= b < zlen m ->
  MIDL_SWAP m a b = Some (zset (zset m a (zn m b)) b (zn m a)).
Proof. intros. unfold MIDL_SWAP. by arr. Qed.

(** ** Insertion sort *)

(** The cell [i + 1] is a hole that [a] will fill. *)
Record hole (m0 : list Z) (l j a : Z) (ids : list Z) (i : Z) : Prop := {
  h_i : l - 1 <= i < j;
  h_within : within l j m0 (zset ids (i + 1) a);
  h_sorted : forall p q, l <= p -> p < q -> q <= j -> p <> i + 1 -> q <> i + 1 ->
             zn ids q <= zn ids p;
  h_above : forall p, i + 1 < p <= j -> zn ids p <= a
}.

Lemma hole_step (m0 : list Z) (l j a : Z) (ids : list Z) (i : Z) :
  1 <= l -> j < zlen m0 -> l <= i -> hole m0 l j a ids i -> zn ids i < a ->
  hole m0 l j a (zset ids (i + 1) (zn ids i)) (i - 1).
Proof.
  intros Hl Hj Hi [Hii Hw Hs Ha] Hlt.
  assert (zlen ids = zlen m0) as Hlen by (rewrite <- (w_len _ _ _ _ Hw); by arr).
  split.
  - lia.
  - replace (i - 1 + 1) with i by lia. eapply within_trans; [exact Hw|].
    pose proof (within_swap l j (zset ids (i + 1) a) (i + 1) i) as H.
    rewrite zlen_zset, zn_zset_eq, zn_zset_ne, zset_zset_eq in H by lia.
    apply H; lia.
  - replace (i - 1 + 1) with i by lia. intros p q Hp Hpq Hq Hpi Hqi.
    destruct (Z.eq_dec p (i + 1)) as [->|]; [|destruct (Z.eq_dec q (i + 1)) as [->|]]; arr.
    + apply Hs; lia.
    + apply Hs; lia.
    + apply Hs; lia.
  - replace (i - 1 + 1) with i by lia. intros p Hp.
    destruct (Z.eq_dec p (i + 1)) as [->|]; arr; [lia|]. apply Ha. lia.
Qed.

Lemma ins_inner_ok (fuel : nat) (m0 : list Z) (l j a : Z) (ids : list Z) (i : Z) :
  1 <= l -> j < zlen m0 -> hole m0 l j a ids i -> i < Z.of_nat fuel ->
  (l = 1 \/ a <= zn m0 (l - 1)) ->
  exists ids' i', ins_inner fuel ids a i = Some (ids', i') /\ hole m0 l j a ids' i' /\
    (l <= i' -> a <= zn ids' i').
Proof.
  revert ids i. induction fuel as [|fuel IH]; intros ids i Hl Hj Hh Hf Hlo;
    pose proof Hh as [Hii Hw Hs Ha]; cbn [ins_inner].
  { assert (l = 1 /\ i = 0) as [-> ->] by lia. cbn. exists ids, 0. split; [done|]. split; [done|lia]. }
  assert (zlen ids = zlen m0) as Hlen by (rewrite <- (w_len _ _ _ _ Hw); by arr).
  destruct (Z.leb_spec 1 i); [|exists ids, i; split; [done|]; split; [done|lia]].
  rewrite aget_in by lia. cbn [mbind option_bind].
  destruct (Z.leb_spec a (zn ids i)); [exists ids, i; auto|].
  destruct (decide (l <= i)) as [Hi|Hi].
  - rewrite aset_in by lia. cbn [mbind option_bind]. apply IH; auto; [|lia].
    apply hole_step; auto.
  - assert (i = l - 1) as -> by lia.
    assert (zn ids (l - 1) = zn m0 (l - 1)).
    { rewrite <- (w_out _ _ _ _ Hw) by lia. by arr. }
    lia.
Qed.

Lemma hole_fill (m0 : list Z) (l j a : Z) (ids : list Z) (i : Z) :
  1 <= l -> j < zlen m0 -> hole m0 l j a ids i -> (l <= i -> a <= zn ids i) ->
  sorted_rng (zset ids (i + 1) a) l j.
Proof.
  intros Hl Hj [Hii Hw Hs Ha] Hia p q Hp Hpq Hq.
  assert (zlen ids = zlen m0) as Hlen by (rewrite <- (w_len _ _ _ _ Hw); by arr).
  destruct (Z.eq_dec q (i + 1)) as [->|]; [|destruct (Z.eq_dec p (i + 1)) as [->|]]; arr.
  - transitivity (zn ids i); [apply Hia; lia|].
    destruct (Z.eq_dec p i) as [->|]; [lia|apply Hs; lia].
  - apply Ha. lia.
  - apply Hs; lia.
Qed.

Lemma ins_outer_ok (fuel : nat) (ids : list Z) (l j ir : Z) :
  1 <= l -> ir < zlen ids -> l <= j -> ir - j < Z.of_nat fuel ->
  (forall p, l <= p <= ir -> l = 1 \/ zn ids p <= zn ids (l - 1)) ->
  sorted_rng ids l (j - 1) ->
  exists ids', ins_outer fuel ids j ir = Some ids' /\ within l ir ids ids' /\
    (l - 1 <= ir -> sorted_rng ids' l ir).
Proof.
  revert ids j. induction fuel as [|fuel IH]; intros ids j Hl Hir Hj Hf Hlo Hs;
    cbn [ins_outer]; destruct (Z.leb_spec j ir); try lia;
    try (exists ids; split; [done|]; split; [apply within_refl|]; intros _ p q ???;
         apply Hs; lia).
  rewrite aget_in by lia. cbn [mbind option_bind].
  destruct (ins_inner_ok (length ids) ids l j (zn ids j) ids (j - 1))
    as (ids1 & i & -> & Hh & Hi); auto; try lia; try (unfold zlen in *; lia).
  { split; try lia.
    - replace (j - 1 + 1) with j by lia. rewrite zset_id by lia. apply within_refl.
    - intros p q ?????. apply Hs; lia. }
  pose proof Hh as [Hii Hw _ _].
  assert (zlen ids1 = zlen ids) as Hlen by (rewrite <- (w_len _ _ _ _ Hw); by arr).
  cbn [mbind option_bind]. rewrite aset_in by lia. cbn [mbind option_bind].
  set (ids2 := zset ids1 (i + 1) (zn ids j)) in *.
  assert (within l ir ids ids2) as Hw2 by (eapply within_mono; [exact Hw|lia..]).
  destruct (IH ids2 (j + 1)) as (ids3 & -> & Hw3 & Hs3); auto; try lia.
  - unfold ids2. zlia.
  - intros p Hp. destruct (w_in _ _ _ _ Hw2 p Hp) as (k & Hk & ->).
    rewrite (w_out _ _ _ _ Hw2 (l - 1)) by lia. auto.
  - replace (j + 1 - 1) with j by lia. apply (hole_fill ids); auto. lia.
  - exists ids3. split; [done|]. split; [by eapply within_trans|]. auto.
Qed.

(** ** Partition *)

(** The scans stop at the first cell past [i] (before [j]) that is not
    strictly on its side; [stop] is one such cell. *)
Lemma scan_up_ok (fuel : nat) (ids : list Z) (a i stop : Z) :
  0 <= i < stop -> stop < zlen ids -> zn ids stop <= a -> stop - i <= Z.of_nat fuel ->
  exists i', scan_up fuel ids a i = Some i' /\ i < i' <= stop /\ zn ids i' <= a /\
    (forall p, i < p < i' -> a < zn ids p).
Proof.
  revert i. induction fuel as [|fuel IH]; intros i Hi Hs Ha Hf; [lia|].
  cbn [scan_up]. rewrite aget_in by lia. cbn [mbind option_bind].
  destruct (Z.ltb_spec a (zn ids (i + 1))).
  - assert (i + 1 <> stop) by (intros <-; lia).
    destruct (IH (i + 1)) as (i' & -> & Hi' & Hle & Hb); try lia.
    exists i'. split; [done|]. split; [lia|]. split; [done|].
    intros p Hp. destruct (Z.eq_dec p (i + 1)) as [->|]; [done|apply Hb; lia].
  - exists (i + 1). split; [done|]. split; [lia|]. split; [lia|]. intros; lia.
Qed.

Lemma scan_down_ok (fuel : nat) (ids : list Z) (a j stop : Z) :
  0 <= stop < j -> j <= zlen ids -> a <= zn ids stop -> j - stop <= Z.of_nat fuel ->
  exists j', scan_down fuel ids a j = Some j' /\ stop <= j' < j /\ a <= zn ids j' /\
    (forall p, j' < p < j -> zn ids p < a).
Proof.
  revert j. induction fuel as [|fuel IH]; intros j Hj Hs Ha Hf; [lia|].
  cbn [scan_down]. rewrite aget_in by lia. cbn [mbind option_bind].
  destruct (Z.ltb_spec (zn ids (j - 1)) a).
  - assert (j - 1 <> stop) by (intros <-; lia).
    destruct (IH (j - 1)) as (j' & -> & Hj' & Hle & Hb); try lia.
    exists j'. split; [done|]. split; [lia|]. split; [done|].
    intros p Hp. destruct (Z.eq_dec p (j - 1)) as [->|]; [done|apply Hb; lia].
  - exists (j - 1). split; [done|]. split; [lia|]. split; [lia|]. intros; lia.
Qed.

(** The invariant of the partition of [l..ir] around [a]. *)
Record pinv (l ir a : Z) (ids : list Z) (i j : Z) : Prop := {
  p_bounds : l + 1 <= i <= j /\ j <= ir;
  p_eq : i = j -> l + 1 < i /\ j < ir;
  p_left : forall p, l <= p <= i -> a <= zn ids p;
  p_right : forall p, j <= p <= ir -> zn ids p <= a;
  p_pivot : zn ids (l + 1) = a
}.

(** What the partition leaves. *)
Record pdone (l ir a : Z) (ids : list Z) (i j : Z) : Prop := {
  d_bounds : l + 1 <= j < i /\ i <= ir;
  d_left : forall p, l <= p < i -> a <= zn ids p;
  d_right : forall p, j < p <= ir -> zn ids p <= a;
  d_pivot : zn ids (l + 1) = a
}.

Lemma part_loop_ok (fuel : nat) (l ir a : Z) (ids : list Z) (i j : Z) :
  1 <= l -> ir < zlen ids -> pinv l ir a ids i j -> j - i < Z.of_nat fuel ->
  exists ids' i' j', part_loop fuel ids a i j = Some (ids', i', j') /\
    within (l + 2) (ir - 1) ids ids' /\ pdone l ir a ids' i' j'.
Proof.
  revert ids i j. induction fuel as [|fuel IH]; intros ids i j Hl Hir [Hb He HL HR Hp] Hf; [lia|].
  cbn [part_loop].
  destruct (scan_up_ok (length ids) ids a i (Z.max (i + 1) j)) as (i' & -> & Hi & Hia & Hiu);
    try lia; [apply HR; lia|unfold zlen in *; lia|].
  destruct (scan_down_ok (length ids) ids a j (Z.min (j - 1) i)) as (j' & E & Hj & Hja & Hjd);
    try lia; [apply HL; lia|unfold zlen in *; lia|].
  cbn [mbind option_bind]. rewrite E. cbn [mbind option_bind].
  destruct (Z.ltb_spec j' i').
  - exists ids, i', j'. split; [done|]. split; [apply within_refl|]. split; auto; try lia.
    + intros p Hpp. destruct (decide (p <= i)); [apply HL; lia|].
      assert (a < zn ids p) by (apply Hiu; lia). lia.
    + intros p Hpp. destruct (decide (j <= p)); [apply HR; lia|].
      assert (zn ids p < a) by (apply Hjd; lia). lia.
  - rewrite MIDL_SWAP_in by lia. cbn [mbind option_bind].
    set (ids1 := zset _ _ _).
    assert (forall p, p <> i' -> p <> j' -> zn ids1 p = zn ids p) as Hout
      by (intros; unfold ids1; by arr).
    assert (a <= zn ids1 i') as Hi1.
    { unfold ids1. destruct (Z.eq_dec i' j') as [->|]; arr; lia. }
    assert (zn ids1 j' <= a) as Hj1 by (unfold ids1; arr; lia).
    assert (within (l + 2) (ir - 1) ids ids1) as Hw by (apply within_swap; lia).
    destruct (IH ids1 i' j') as (ids2 & i2 & j2 & -> & Hw2 & Hd); try lia.
    + rewrite (w_len _ _ _ _ Hw). lia.
    + split; try lia.
      * intros p Hpp. destruct (Z.eq_dec p i') as [->|]; [done|]. rewrite Hout by lia.
        destruct (decide (p <= i)); [apply HL; lia|].
        assert (a < zn ids p) by (apply Hiu; lia). lia.
      * intros p Hpp. destruct (Z.eq_dec p j') as [->|]; [done|]. rewrite Hout by lia.
        destruct (decide (j <= p)); [apply HR; lia|].
        assert (zn ids p < a) by (apply Hjd; lia). lia.
      * rewrite Hout by lia. done.
    + exists ids2, i2, j2. split; [done|]. split; [by eapply within_trans|done].
Qed.

(** A conditional swap of two cells. *)
Lemma cswap_ok (l r : Z) (m : list Z) (a b : Z) :
  0 <= l -> r < zlen m -> l <= a <= r -> l <= b <= r -> a <> b ->
  exists m', (if zn m a <? zn m b then MIDL_SWAP m a b else Some m) = Some m' /\
    within l r m m' /\ zn m' a = Z.max (zn m a) (zn m b) /\
    zn m' b = Z.min (zn m a) (zn m b) /\
    (forall p, p <> a -> p <> b -> zn m' p = zn m p).
Proof.
  intros Hl Hr Ha Hb Hne. destruct (Z.ltb_spec (zn m a) (zn m b)).
  - rewrite MIDL_SWAP_in by lia. eexists. split; [reflexivity|].
    split; [apply within_swap; lia|]. split; [arr; lia|]. split; [arr; lia|].
    intros. by arr.
  - exists m. split; [done|]. split; [apply within_refl|]. split; [lia|]. split; [lia|done].
Qed.

Lemma median3_ok (ids : list Z) (l ir : Z) :
  1 <= l -> ir < zlen ids -> SMALL <= ir - l -> l + ir < 2 ^ 31 ->
  exists ids', median3 ids l ir = Some ids' /\ within l ir ids ids' /\
    zn ids' (l + 1) <= zn ids' l /\ zn ids' ir <= zn ids' (l + 1).
Proof.
  unfold SMALL. intros Hl Hir Hs Hov. unfold median3. rewrite int_add_in by lia.
  cbn [mbind option_bind]. rewrite Z.shiftr_div_pow2 by lia. change (2 ^ 1) with 2.
  assert (l <= (l + ir) / 2 <= ir) as Hk
    by (split; [apply Z.div_le_lower_bound|apply Z.div_le_upper_bound]; lia).
  rewrite MIDL_SWAP_in by lia. cbn [mbind option_bind]. set (m1 := zset _ _ _).
  assert (within l ir ids m1) as W1 by (apply within_swap; lia).
  assert (zlen m1 = zlen ids) as L1 by apply W1.
  rewrite !(aget_in m1) by lia. cbn [mbind option_bind].
  destruct (cswap_ok l ir m1 l ir) as (m2 & -> & W2 & A2 & B2 & O2); try lia.
  assert (zlen m2 = zlen ids) as L2 by (rewrite <- L1; apply W2).
  cbn [mbind option_bind]. rewrite !(aget_in m2) by lia. cbn [mbind option_bind].
  destruct (cswap_ok l ir m2 (l + 1) ir) as (m3 & -> & W3 & A3 & B3 & O3); try lia.
  assert (zlen m3 = zlen ids) as L3 by (rewrite <- L2; apply W3).
  cbn [mbind option_bind]. rewrite !(aget_in m3) by lia. cbn [mbind option_bind].
  destruct (cswap_ok l ir m3 l (l + 1)) as (m4 & -> & W4 & A4 & B4 & O4); try lia.
  exists m4. split; [done|].
  split; [eapply within_trans; [|exact W4]; eapply within_trans; [|exact W3];
          by eapply within_trans|].
  rewrite A4, B4, (O4 ir), B3, A3, (O3 l), A2, B2 by lia. lia.
Qed.

(** The two ranges a partition leaves and the cells between them. *)
Record parted (l ir : Z) (ids : list Z) (i j : Z) : Prop := {
  pt_bounds : l + 1 <= j < i /\ i <= ir;
  pt_order : forall p q, l <= p -> p < q -> q <= ir -> ~ (q < j) -> ~ (i <= p) ->
             zn ids q <= zn ids p
}.

Lemma partition_ok (ids : list Z) (l ir : Z) :
  1 <= l -> ir < zlen ids -> SMALL <= ir - l -> l + ir < 2 ^ 31 ->
  exists ids' i j, partition ids l ir = Some (ids', i, j) /\
    within l ir ids ids' /\ parted l ir ids' i j.
Proof.
  intros Hl Hir Hs Hov. unfold partition.
  destruct (median3_ok ids l ir) as (m1 & -> & W1 & M1 & M2); auto.
  unfold SMALL in Hs. assert (zlen m1 = zlen ids) as L1 by apply W1.
  cbn [mbind option_bind]. rewrite aget_in by lia. cbn [mbind option_bind].
  set (a := zn m1 (l + 1)) in *.
  destruct (part_loop_ok (length m1) l ir a m1 (l + 1) ir) as (m2 & i & j & -> & W2 & [D L R P]);
    try lia; [|unfold zlen in *; lia|].
  { split; try lia.
    - intros p Hp. destruct (Z.eq_dec p l) as [->|]; [lia|]. replace p with (l + 1) by lia.
      unfold a. lia.
    - intros p Hp. replace p with ir by lia. lia. }
  assert (zlen m2 = zlen ids) as L2 by (rewrite <- L1; apply W2).
  cbn [mbind option_bind]. rewrite aget_in by lia. cbn [mbind option_bind].
  rewrite aset_in by lia. cbn [mbind option_bind]. rewrite aset_in by zlia.
  cbn [mbind option_bind].
  set (m3 := zset (zset m2 (l + 1) (zn m2 j)) j a).
  exists m3, i, j. split; [done|]. split.
  - eapply within_trans; [exact W1|].
    eapply within_trans; [eapply within_mono; [exact W2|lia..]|].
    unfold m3. rewrite <- P. apply within_swap; lia.
  - assert (forall p, l <= p < i -> a <= zn m3 p) as L3.
    { intros p Hp. unfold m3. destruct (Z.eq_dec p j) as [->|]; [arr; lia|].
      destruct (Z.eq_dec p (l + 1)) as [->|]; arr; apply L; lia. }
    assert (forall p, j <= p <= ir -> zn m3 p <= a) as R3.
    { intros p Hp. unfold m3. destruct (Z.eq_dec p j) as [->|]; arr; [lia|apply R; lia]. }
    split; [lia|]. intros p q Hp Hpq Hq Hnj Hni.
    transitivity a; [apply R3; lia|apply L3; lia].
Qed.

(** ** The main loop *)

(** A range of cells still to be sorted. *)
Definition rng_ok (N : Z) (x : Z * Z) : Prop := 1 <= fst x /\ snd x <= N /\ fst x - 1 <= snd x.
Definition rng_size (x : Z * Z) : Z := snd x - fst x + 1.
Definition disj (x y : Z * Z) : Prop := snd x < fst y \/ snd y < fst x.

(** The cells are in order, except within one of the ranges [P]. *)
Definition order (N : Z) (P : list (Z * Z)) (ids : list Z) : Prop :=
  forall p q, 1 <= p -> p < q -> q <= N ->
    (exists x, x ∈ P /\ fst x <= p /\ q <= snd x) \/ zn ids q <= zn ids p.

Lemma order_within (N : Z) (x : Z * Z) (P : list (Z * Z)) (ids ids' : list Z) :
  rng_ok N x -> (forall y, y ∈ P -> disj x y) ->
  order N (x :: P) ids -> within (fst x) (snd x) ids ids' -> order N (x :: P) ids'.
Proof.
  intros (H1 & H2 & H3) Hd Ho [_ O I _] p q Hp Hpq Hq.
  destruct (decide (fst x <= p /\ q <= snd x)) as [Hin|Hin].
  { left. exists x. split; [left|lia]. }
  assert (forall k, 1 <= k <= N -> exists k', zn ids' k = zn ids k' /\
            ((fst x <= k <= snd x /\ fst x <= k' <= snd x) \/
             (~ fst x <= k <= snd x /\ k' = k))) as Hpre.
  { intros k Hk. destruct (decide (fst x <= k <= snd x)) as [Hkx|Hkx].
    - destruct (I k Hkx) as (k' & ? & E). exists k'. split; [done|]. left. lia.
    - exists k. split; [by apply O|]. right. lia. }
  destruct (Hpre p) as (p' & Ep & Hp'); [lia|]. destruct (Hpre q) as (q' & Eq & Hq'); [lia|].
  destruct (Ho p' q') as [(y & [->|Hy]%elem_of_cons & Hy1 & Hy2)|Hle]; try lia.
  - pose proof (Hd y Hy) as Hdy. unfold disj in Hdy.
    left. exists y. split; [by right|]. lia.
Qed.

Record sinv (N : Z) (m0 : list Z) (s : sort_state) (stk : list (Z * Z)) : Prop := {
  s_perm : Permutation (ss_ids s) m0;
  s_zero : zn (ss_ids s) 0 = N;
  s_len : N < zlen (ss_ids s);
  s_cur : rng_ok N (ss_l s, ss_ir s);
  s_stk : Forall (rng_ok N) stk;
  s_disj : forall y, y ∈ stk -> disj (ss_l s, ss_ir s) y;
  s_disj2 : forall e e' x y, stk !! e = Some x -> stk !! e' = Some y -> e <> e' -> disj x y;
  s_order : order N ((ss_l s, ss_ir s) :: stk) (ss_ids s);
  s_depth : rng_size (ss_l s, ss_ir s) * 2 ^ zlen stk <= N;
  s_depth2 : forall e x, stk !! e = Some x -> rng_size x * 2 ^ Z.of_nat e <= N;
  s_ilen : zlen (ss_istack s) = 64;
  s_j : ss_jstack s = 2 * zlen stk;
  s_room : zlen stk <= 30;
  s_cells : forall e x, stk !! e = Some x ->
      zn (ss_istack s) (2 * Z.of_nat e + 1) = fst x /\
      zn (ss_istack s) (2 * Z.of_nat e + 2) = snd x
}.

(** The work left; it decreases with every iteration. *)
Definition weight (x : Z * Z) : Z := 2 * rng_size x + 1.
Definition work (cur : Z * Z) (stk : list (Z * Z)) : Z :=
  weight cur + foldr (fun x w => weight x + w) 0 stk.

Lemma work_snoc cur stk x :
  work cur (stk ++ [x]) = work cur stk + weight x.
Proof. unfold work. induction stk as [|y stk IH]; cbn in *; lia. Qed.

(** Pushing the range [y] and going on with [x], after the current range was
    split into the two. *)
Lemma sinv_push (N : Z) (m0 ids istack : list Z) (l ir jstack : Z) (stk : list (Z * Z))
    (ids' : list Z) (x y : Z * Z) :
  N < 2 ^ 30 -> sinv N m0 (SortState ids l ir istack jstack) stk ->
  within l ir ids ids' -> SMALL <= ir - l ->
  (forall z, z = x \/ z = y -> l <= fst z /\ snd z <= ir /\ fst z <= snd z) ->
  disj x y -> rng_size x + rng_size y <= ir - l -> rng_size x <= rng_size y ->
  order N (x :: y :: stk) ids' ->
  exists istack', (i1 ← aset istack (jstack + 2) (snd y); aset i1 (jstack + 2 - 1) (fst y))
      = Some istack' /\
    sinv N m0 (SortState ids' (fst x) (snd x) istack' (jstack + 2)) (stk ++ [y]) /\
    work x (stk ++ [y]) < work (l, ir) stk.
Proof.
  intros HN [Hp H0 Hl Hc Hs Hd Hd2 Ho Hdep Hdep2 Hil Hj Hroom Hcell] Hw Hsm Hxy Hdxy Hsz Hle Ho'.
  cbn [ss_ids ss_l ss_ir ss_istack ss_jstack] in *. unfold SMALL, rng_ok, rng_size in *.
  cbn [fst snd] in *. pose proof (zlen_nonneg stk).
  assert (zlen stk < 30) as Hd30.
  { apply (Z.pow_lt_mono_r_iff 2); [lia..|].
    assert (9 * 2 ^ zlen stk <= (ir - l + 1) * 2 ^ zlen stk)
      by (apply Z.mul_le_mono_nonneg_r; lia). lia. }
  pose proof (Hxy x (or_introl eq_refl)). pose proof (Hxy y (or_intror eq_refl)).
  assert (0 < 2 ^ zlen stk) as Hpow by (apply Z.pow_pos_nonneg; lia).
  rewrite aset_in by lia. cbn [mbind option_bind]. rewrite aset_in by zlia.
  eexists. split; [reflexivity|]. split.
  - split; cbn [ss_ids ss_l ss_ir ss_istack ss_jstack]; rewrite <- ?surjective_pairing.
    + rewrite (w_perm _ _ _ _ Hw). done.
    + rewrite (w_out _ _ _ _ Hw) by lia. done.
    + rewrite (w_len _ _ _ _ Hw). done.
    + unfold rng_ok. lia.
    + apply Forall_app. split; [exact Hs|]. constructor; [|done]. unfold rng_ok. lia.
    + intros z [Hz|Hz%list_elem_of_singleton]%elem_of_app; [|by subst z].
      pose proof (Hd z Hz). unfold disj in *. cbn [fst snd] in *. lia.
    + intros e e' a b [Ha|(Ha1 & Ha2)]%lookup_app_Some [Hb|(Hb1 & Hb2)]%lookup_app_Some Hne.
      * eauto.
      * apply list_lookup_singleton_Some in Hb2 as [_ <-].
        pose proof (Hd a (list_elem_of_lookup_2 _ _ _ Ha)). unfold disj in *. cbn [fst snd] in *. lia.
      * apply list_lookup_singleton_Some in Ha2 as [_ <-].
        pose proof (Hd b (list_elem_of_lookup_2 _ _ _ Hb)). unfold disj in *. cbn [fst snd] in *. lia.
      * apply list_lookup_singleton_Some in Ha2 as [? _], Hb2 as [? _]. lia.
    + intros p q ? ? ?. destruct (Ho' p q) as [(z & Hz & Hzr)|Hle']; auto.
      left. exists z. split; [|done]. rewrite !elem_of_cons in Hz.
      rewrite elem_of_cons, elem_of_app, list_elem_of_singleton. tauto.
    + unfold rng_size. rewrite zlen_app, zlen_cons, zlen_nil.
      replace (zlen stk + (1 + 0)) with (Z.succ (zlen stk)) by lia.
      rewrite Z.pow_succ_r by lia.
      assert ((2 * (snd x - fst x + 1)) * 2 ^ zlen stk <= (ir - l + 1) * 2 ^ zlen stk)
        by (apply Z.mul_le_mono_nonneg_r; lia). lia.
    + intros e z [Hz|(Hz1 & Hz2)]%lookup_app_Some; [eauto|].
      apply list_lookup_singleton_Some in Hz2 as [He <-].
      replace (Z.of_nat e) with (zlen stk) by (unfold zlen; lia). unfold rng_size.
      assert ((snd y - fst y + 1) * 2 ^ zlen stk <= (ir - l + 1) * 2 ^ zlen stk)
        by (apply Z.mul_le_mono_nonneg_r; lia). lia.
    + zlia.
    + zlia.
    + zlia.
    + intros e z [Hz|(Hz1 & Hz2)]%lookup_app_Some.
      * pose proof (lookup_lt_Some _ _ _ Hz). unfold zlen in *. 
        rewrite !zn_zset_ne by lia. eauto.
      * apply list_lookup_singleton_Some in Hz2 as [He <-].
        assert (Z.of_nat e = zlen stk) by (unfold zlen; lia).
        replace (2 * Z.of_nat e + 1) with (jstack + 2 - 1) by lia.
        replace (2 * Z.of_nat e + 2) with (jstack + 2) by lia. arr. done.
  - rewrite work_snoc. unfold work, weight, rng_size. cbn [fst snd]. lia.
Qed.

(** A partitioned range is in order except within its two parts. *)
Lemma order_parted (N : Z) (l ir i j : Z) (stk : list (Z * Z)) (ids : list Z) :
  order N ((l, ir) :: stk) ids -> parted l ir ids i j ->
  order N ((l, j - 1) :: (i, ir) :: stk) ids.
Proof.
  intros Ho [Hb Hp] p q H1 H2 H3.
  destruct (Ho p q) as [(z & [->|Hz]%elem_of_cons & Hz1 & Hz2)|]; auto; cbn [fst snd] in *.
  - destruct (decide (q < j)); [left; exists (l, j - 1); split; [left|cbn; lia]|].
    destruct (decide (i <= p)); [left; exists (i, ir); split; [right; left|cbn; lia]|].
    right. apply Hp; lia.
  - left. exists z. split; [by do 2 right|lia].
Qed.

(** A sorted range needs no exception. *)
Lemma order_sorted (N : Z) (x : Z * Z) (stk : list (Z * Z)) (ids : list Z) :
  order N (x :: stk) ids -> sorted_rng ids (fst x) (snd x) -> order N stk ids.
Proof.
  intros Ho Hs p q H1 H2 H3.
  destruct (Ho p q) as [(z & [->|Hz]%elem_of_cons & Hz1 & Hz2)|]; eauto.
Qed.

(** Popping the top of the stack after the current range was sorted. *)
Lemma sinv_pop (N : Z) (m0 ids istack : list Z) (l ir jstack : Z) (stk : list (Z * Z))
    (x : Z * Z) (ids' : list Z) :
  sinv N m0 (SortState ids l ir istack jstack) (stk ++ [x]) ->
  within l ir ids ids' -> sorted_rng ids' l ir ->
  sinv N m0 (SortState ids' (fst x) (snd x) istack (jstack - 2)) stk /\
  work x stk < work (l, ir) (stk ++ [x]).
Proof.
  intros [Hp H0 Hl Hc Hs Hd Hd2 Ho Hdep Hdep2 Hil Hj Hroom Hcell] Hw Hsr.
  cbn [ss_ids ss_l ss_ir ss_istack ss_jstack] in *.
  apply Forall_app in Hs as [Hs Hx]. apply Forall_cons_1 in Hx as [Hx _].
  assert (forall e y, stk !! e = Some y -> (stk ++ [x]) !! e = Some y) as Hlk
    by (intros; by apply lookup_app_l_Some).
  assert ((stk ++ [x]) !! length stk = Some x) as Hlast
    by (by rewrite lookup_app_r, Nat.sub_diag by lia).
  pose proof Hc as (Hc1 & Hc2 & Hc3). cbn [fst snd] in *.
  split; [split; cbn [ss_ids ss_l ss_ir ss_istack ss_jstack];
          rewrite <- ?surjective_pairing|]; auto.
  - by rewrite (w_perm _ _ _ _ Hw).
  - rewrite (w_out _ _ _ _ Hw) by lia. done.
  - by rewrite (w_len _ _ _ _ Hw).
  - intros y [e He]%list_elem_of_lookup. pose proof (lookup_lt_Some _ _ _ He).
    apply (Hd2 (length stk) e); auto. lia.
  - intros e e' y z Hy Hz. apply Hd2; auto.
  - assert (order N (stk ++ [x]) ids') as Ho'.
    { apply (order_sorted N (l, ir)); [|done]. by apply (order_within N (l, ir) _ ids). }
    intros p q ???. destruct (Ho' p q) as [(z & Hz & ?)|]; auto.
    left. exists z. split; [|done]. apply elem_of_app in Hz as [?|Hz]; [by right|].
    apply list_elem_of_singleton in Hz as ->. by left.
  - apply (Hdep2 (length stk)). done.
  - rewrite Hj, zlen_app, zlen_cons, zlen_nil. lia.
  - rewrite zlen_app, zlen_cons, zlen_nil in Hroom. lia.
  - rewrite work_snoc. unfold work, weight, rng_size. cbn [fst snd]. lia.
Qed.

Lemma sort_step_ok (N : Z) (m0 : list Z) (s : sort_state) (stk : list (Z * Z)) :
  N < 2 ^ 30 -> sinv N m0 s stk ->
  (exists ids', sort_step s = Some (inl ids') /\ Permutation ids' m0 /\
     zn ids' 0 = N /\ sorted_rng ids' 1 N) \/
  (exists s' stk', sort_step s = Some (inr s') /\ sinv N m0 s' stk' /\
     work (ss_l s', ss_ir s') stk' < work (ss_l s, ss_ir s) stk).
Proof.
  intros HN Hinv. pose proof Hinv as [Hp H0 Hl (Hc1 & Hc2 & Hc3) Hs Hd Hd2 Ho Hdep Hdep2 Hil Hj Hroom Hcell].
  destruct s as [ids l ir istack jstack]. cbn [ss_ids ss_l ss_ir ss_istack ss_jstack fst snd] in *.
  unfold sort_step. destruct (Z.ltb_spec (ir - l) SMALL) as [Hsm|Hsm]; unfold SMALL in Hsm.
  - destruct (ins_outer_ok (length ids) ids l (l + 1) ir) as (ids' & -> & Hw & Hsr);
      try lia; try (unfold zlen in *; lia).
    { intros p Hpr. destruct (Z.eq_dec l 1) as [->|]; [by left|right].
      destruct (Ho (l - 1) p) as [(z & [->|Hz]%elem_of_cons & Hz1 & Hz2)|]; cbn [fst snd] in *; try lia.
      pose proof (Hd z Hz) as Hdz. unfold disj in Hdz. cbn [fst snd] in *. lia. }
    { intros p q ???. lia. }
    cbn [mbind option_bind]. destruct stk as [|x stk _] using rev_ind.
    + left. assert (jstack = 0) as -> by (rewrite Hj; reflexivity). cbn [Z.eqb]. exists ids'. split; [done|].
      split; [by rewrite (w_perm _ _ _ _ Hw)|].
      split; [rewrite (w_out _ _ _ _ Hw) by lia; done|].
      assert (order N [] ids') as Ho'.
      { apply (order_sorted N (l, ir)); [|apply Hsr; lia].
        apply (order_within N (l, ir) _ ids); auto. by split. }
      intros p q ???. destruct (Ho' p q) as [(z & Hz & _)|]; auto.
      by apply not_elem_of_nil in Hz.
    + right. pose proof (zlen_nonneg stk).
      rewrite zlen_app, zlen_cons, zlen_nil in Hj, Hdep.
      rewrite (proj2 (Z.eqb_neq _ _)) by lia.
      destruct (Hcell (length stk) x) as [Hcl Hcr].
      { by rewrite lookup_app_r, Nat.sub_diag by lia. }
      destruct (sinv_pop N m0 ids istack l ir jstack stk x ids') as [Hpop Hwk]; auto.
      pose proof (s_j _ _ _ _ Hpop) as Hj'. cbn [ss_jstack] in Hj'. pose proof (s_room _ _ _ _ Hpop).
      rewrite !aget_in by lia. cbn [mbind option_bind].
      exists (SortState ids' (fst x) (snd x) istack (jstack - 2)), stk.
      replace (2 * Z.of_nat (length stk) + 1) with (jstack - 1) in Hcl by (unfold zlen in *; lia).
      replace (2 * Z.of_nat (length stk) + 2) with jstack in Hcr by (unfold zlen in *; lia).
      rewrite Hcl, Hcr. split; [done|]. split; [done|].
      cbn [ss_l ss_ir]. by rewrite <- surjective_pairing.
  - right. destruct (partition_ok ids l ir) as (ids' & i & j & -> & Hw & Hpt);
      [lia|lia|unfold SMALL; lia|lia|].
    pose proof Hpt as [Hb _]. cbn [mbind option_bind].
    assert (order N ((l, j - 1) :: (i, ir) :: stk) ids') as Ho'.
    { apply order_parted; [|done]. apply (order_within N (l, ir) _ ids); auto. by split. }
    destruct (Z.leb_spec (j - l) (ir - i + 1)).
    + destruct (sinv_push N m0 ids istack l ir jstack stk ids' (l, j - 1) (i, ir))
        as (istack' & E & Hs' & Hwk); auto; unfold SMALL, rng_size, disj; cbn [fst snd]; try lia.
      { intros z [-> | ->]; cbn [fst snd]; lia. }
      cbn [fst snd] in *. destruct (aset istack (jstack + 2) ir) as [i1|]; [|done].
      cbn [mbind option_bind] in E |- *. rewrite E. cbn [mbind option_bind].
      do 2 eexists. split; [reflexivity|]. split; [exact Hs'|exact Hwk].
    + destruct (sinv_push N m0 ids istack l ir jstack stk ids' (i, ir) (l, j - 1))
        as (istack' & E & Hs' & Hwk); auto; unfold SMALL, rng_size, disj; cbn [fst snd]; try lia.
      { intros z [-> | ->]; cbn [fst snd]; lia. }
      { intros p q ???. destruct (Ho' p q) as [(z & Hz & ?)|]; auto. left. exists z.
        split; [|done]. rewrite !elem_of_cons in *. tauto. }
      cbn [fst snd] in *. destruct (aset istack (jstack + 2) (j - 1)) as [i1|]; [|done].
      cbn [mbind option_bind] in E |- *. rewrite E. cbn [mbind option_bind].
      do 2 eexists. split; [reflexivity|]. split; [exact Hs'|exact Hwk].
Qed.

Lemma sort_loop_ok (fuel : nat) (N : Z) (m0 : list Z) (s : sort_state) (stk : list (Z * Z)) :
  N < 2 ^ 30 -> sinv N m0 s stk -> work (ss_l s, ss_ir s) stk <= Z.of_nat fuel ->
  exists ids', sort_loop fuel s = Some ids' /\ Permutation ids' m0 /\
    zn ids' 0 = N /\ sorted_rng ids' 1 N.
Proof.
  intros HN. revert s stk. induction fuel as [|fuel IH]; intros s stk Hs Hf.
  - exfalso. destruct Hs as [_ _ _ (_ & _ & Hc) Hst _ _ _ _ _ _ _ _ _].
    assert (0 <= foldr (fun x w => weight x + w) 0 stk).
    { clear Hf. induction Hst as [|x stk (_ & _ & Hx) _ IH']; cbn [foldr]; [lia|].
      assert (1 <= weight x) by (unfold weight, rng_size; lia). lia. }
    assert (1 <= weight (ss_l s, ss_ir s)) by (unfold weight, rng_size; cbn [fst snd] in *; lia).
    unfold work in Hf. lia.
  - cbn [sort_loop].
    destruct (sort_step_ok N m0 s stk HN Hs) as [(ids' & -> & H)|(s' & stk' & -> & Hs' & Hw)].
    + exists ids'. auto.
    + cbn [mbind option_bind]. apply (IH s' stk'); [done|lia].
Qed.

(** C14: [mdb_midl_sort] of a list of fewer than [2^30] IDs returns: all its
    accesses to the list and to its 64-cell stack are in bounds, no [int]
    addition overflows, the loop ends, and the IDs are the old ones in
    descending order. *)
Theorem mdb_midl_sort_correct (ids : list Z) :
  0 <= zn ids 0 < 2 ^ 30 -> zn ids 0 < zlen ids ->
  exists ids', mdb_midl_sort ids = Some ids' /\ zn ids' 0 = zn ids 0 /\
    Permutation ids' ids /\ sorted_rng ids' 1 (zn ids 0).
Proof.
  intros Hn Hlen. unfold mdb_midl_sort. rewrite aget_in by lia. cbn [mbind option_bind].
  rewrite swrap_small by lia. set (N := zn ids 0) in *.
  destruct (sort_loop_ok (2 * Z.to_nat N + 2) N ids
              (SortState ids 1 N (replicate ISTACK_LEN 0) 0) [])
    as (ids' & -> & Hp & H0 & Hs); [lia| | |exists ids'; auto].
  - split; cbn [ss_ids ss_l ss_ir ss_istack ss_jstack]; auto; try done.
    + split; cbn [fst snd]; lia.
    + intros y Hy. by apply not_elem_of_nil in Hy.
    + intros p q ???. left. exists (1, N). split; [left|cbn [fst snd]; lia].
    + unfold rng_size. cbn [fst snd]. change (2 ^ zlen []) with 1. lia.
  - unfold work, weight, rng_size. cbn. lia.
Qed.

Lemma mdb_midl_sort_witness :
  exists ids', mdb_midl_sort [3; 2; 9; 5] = Some ids' /\ Permutation ids' [3; 2; 9; 5] /\
    sorted_rng ids' 1 3.
Proof.
  destruct (mdb_midl_sort_correct [3; 2; 9; 5]) as (ids' & H1 & _ & H2 & H3).
  - closed.
  - reflexivity.
  - exists ids'. split; [exact H1|]. split; [exact H2|exact H3].
Defined.
