(* ===== verification/Page.v ===== *)
(** * Pages and nodes of the LMDB storage engine ([src/LegacyDatabase/mdb.c])

    A page is a block of bytes laid out as [MDB_page] on a little-endian
    64-bit target: page number at 0, [mp_pad] at 8, [mp_flags] at 10,
    [mp_lower] at 12, [mp_upper] at 14 and the array [mp_ptrs] of 16-bit node
    offsets from 16 on; the nodes fill the page from its end down to
    [mp_upper].  A node is laid out as [MDB_node]: [mn_lo], [mn_hi],
    [mn_flags], [mn_ksize] at 0, 2, 4, 6, then the key and the data.  Every
    access is bounds-checked; [None] is an access outside of the page or a
    failed assertion. *)
From S2P Require Import Prelude.
From S2P Require Import Bytes.
From Stdlib Require Import ZArith Lia.
From stdpp Require Import base numbers option list.
Open Scope Z_scope.

(** ** Constants and macros *)

Definition PAGEHDRSZ : Z := 16.
Definition NODESIZE : Z := 8.
Definition P_BRANCH : Z := 0x01.
Definition P_LEAF : Z := 0x02.
Definition P_OVERFLOW : Z := 0x04.
Definition P_DIRTY : Z := 0x10.
Definition P_LEAF2 : Z := 0x20.
Definition P_SUBP : Z := 0x40.
Definition F_BIGDATA : Z := 0x01.
Definition F_SUBDATA : Z := 0x02.
Definition F_DUPDATA : Z := 0x04.
Definition MDB_RESERVE : Z := 0x10000.
Definition MDB_PAGE_FULL : Z := -30786.
Definition MAX_PAGESIZE : Z := 0x8000.

Definition F_ISSET (w f : Z) : bool := Z.land w f =? f.

(** [EVEN(n)]: [(n + 1U) & -2], with -2 sign-extended. *)
Definition EVEN (n : Z) : Z := Z.land (n + 1) (-2).

(** An [MDB_val]: a size and the bytes its pointer refers to. *)
Record MDB_val := Val { mv_size : Z; mv_data : list Z }.
#[export] Instance MDB_val_inhabited : Inhabited MDB_val := populate (Val 0 []).

Definition mp_flags (mp : list Z) : option Z := get16 mp 10.
Definition mp_lower (mp : list Z) : option Z := get16 mp 12.
Definition mp_upper (mp : list Z) : option Z := get16 mp 14.
Definition mp_ptr (mp : list Z) (i : Z) : option Z := get16 mp (PAGEHDRSZ + 2 * i).
Definition set_lower (mp : list Z) (x : Z) : option (list Z) := set16 mp 12 x.
Definition set_upper (mp : list Z) (x : Z) : option (list Z) := set16 mp 14 x.
Definition set_ptr (mp : list Z) (i x : Z) : option (list Z) := set16 mp (PAGEHDRSZ + 2 * i) x.

Definition IS_LEAF (mp : list Z) : option bool := f ← mp_flags mp; Some (F_ISSET f P_LEAF).
Definition IS_LEAF2 (mp : list Z) : option bool := f ← mp_flags mp; Some (F_ISSET f P_LEAF2).
Definition IS_BRANCH (mp : list Z) : option bool := f ← mp_flags mp; Some (F_ISSET f P_BRANCH).

Definition NUMKEYS (mp : list Z) : option Z :=
  lower ← mp_lower mp; Some (Z.shiftr (u32 (lower - PAGEHDRSZ)) 1).

Definition SIZELEFT (mp : list Z) : option Z :=
  upper ← mp_upper mp; lower ← mp_lower mp; Some (u16 (upper - lower)).

Definition OVPAGES (size psize : Z) : Z := (PAGEHDRSZ - 1 + size) / psize + 1.

(** [NODEDSZ], [NODEPGNO], [SETDSZ] and [SETPGNO] of the node at offset [o]. *)
Definition NODEDSZ (mp : list Z) (o : Z) : option Z :=
  lo ← get16 mp o; hi ← get16 mp (o + 2); Some (Z.lor lo (Z.shiftl hi 16)).

Definition NODEPGNO (mp : list Z) (o : Z) : option Z :=
  lo ← get16 mp o; hi ← get16 mp (o + 2); fl ← get16 mp (o + 4);
  Some (Z.lor (Z.lor lo (Z.shiftl hi 16)) (Z.shiftl fl 32)).

Definition SETDSZ (mp : list Z) (o size : Z) : option (list Z) :=
  mp ← set16 mp o (Z.land size 0xffff);
  set16 mp (o + 2) (Z.shiftr size 16).

Definition SETPGNO (mp : list Z) (o pgno : Z) : option (list Z) :=
  mp ← set16 mp o (Z.land pgno 0xffff);
  mp ← set16 mp (o + 2) (Z.shiftr pgno 16);
  set16 mp (o + 4) (Z.shiftr pgno 32).

(** Key of the node at offset [o]. *)
Definition NODEKSZ (mp : list Z) (o : Z) : option Z := get16 mp (o + 6).
Definition NODEKEY (mp : list Z) (o : Z) : option (list Z) :=
  ks ← NODEKSZ mp o; bread mp (o + NODESIZE) ks.

Definition LEAFSIZE (k d : MDB_val) : Z := NODESIZE + mv_size k + mv_size d.
Definition INDXSIZE (k : option MDB_val) : Z :=
  NODESIZE + match k with None => 0 | Some k => mv_size k end.

(** ** mdb_leaf_size, mdb_branch_size *)

Definition mdb_leaf_size (me_nodemax : Z) (key data : MDB_val) : Z :=
  let sz := LEAFSIZE key data in
  let sz := if me_nodemax <? sz then sz - (mv_size data - 8) else sz in
  EVEN (sz + 2).

Definition mdb_branch_size (key : option MDB_val) : Z := INDXSIZE key + 2.

(** ** mdb_page_new: the header of a freshly allocated page *)

Definition init_page (np : list Z) (flags me_psize : Z) : option (list Z) :=
  np ← set16 np 10 (Z.lor flags P_DIRTY);
  np ← set_lower np PAGEHDRSZ;
  set_upper np me_psize.

(** ** mdb_page_copy *)

Definition mdb_page_copy (dst src : list Z) (psize : Z) : option (list Z) :=
  upper ← mp_upper src;
  lower ← mp_lower src;
  let unused := Z.land (u16 (upper - lower)) (u16 (-8)) in
  leaf2 ← IS_LEAF2 src;
  if negb (unused =? 0) && negb leaf2 then
    let upper := Z.land upper (u16 (-8)) in
    b1 ← bread src 0 (Z.land (lower + 7) (-8));
    dst ← bwrite dst 0 b1;
    b2 ← bread src upper (psize - upper);
    bwrite dst upper b2
  else
    b ← bread src 0 (psize - unused);
    bwrite dst 0 b.

(** ** mdb_node_add *)

(** [for (i = NUMKEYS(mp); i > indx; i--) mp->mp_ptrs[i] = mp->mp_ptrs[i - 1]] *)
Fixpoint ptrs_up (fuel : nat) (mp : list Z) (i indx : Z) : option (list Z) :=
  if indx <? i then
    match fuel with
    | O => None
    | S fuel => p ← mp_ptr mp (i - 1);
                mp ← set_ptr mp i p;
                ptrs_up fuel mp (i - 1) indx
    end
  else Some mp.

(** The page and, when the data went to an overflow page, that page; or an
    error and whether the transaction is marked as failed. *)
Inductive add_result :=
  | AddOk (mp : list Z) (ofp : option (Z * list Z))
  | AddFail (rc : Z) (txn_error : bool).

(** What the first half decides: the size of the node, its flags and the
    overflow page. *)
Inductive add_plan :=
  | PlanNode (node_size flags : Z) (ofp : option (Z * list Z))
  | PlanFail (rc : Z) (txn_error : bool).

Section NodeAdd.
(** [mc->mc_db->md_pad], the environment's [me_nodemax] and [me_psize], and
    [mdb_page_new(mc, P_OVERFLOW, n)]: an error or the number and the bytes of
    the new page. *)
Variables (md_pad me_nodemax me_psize : Z).
Variable page_new : Z -> Z + (Z * list Z).

Definition add_size (room : Z) (leaf : bool) (key data : option MDB_val) (flags : Z)
  : option add_plan :=
  let node_size := NODESIZE + match key with None => 0 | Some k => mv_size k end in
  let finish node_size :=
    let node_size := EVEN node_size in
    if room <? node_size then PlanFail MDB_PAGE_FULL true
    else PlanNode node_size flags None in
  if leaf then
    d ← data;
    if F_ISSET flags F_BIGDATA then Some (finish (node_size + 8))
    else if me_nodemax <? node_size + mv_size d then
      let ovpages := OVPAGES (mv_size d) me_psize in
      let node_size := EVEN (node_size + 8) in
      if room <? node_size then Some (PlanFail MDB_PAGE_FULL true)
      else Some (match page_new ovpages with
                 | inl rc => PlanFail rc false
                 | inr ofp => PlanNode node_size (Z.lor flags F_BIGDATA) (Some ofp)
                 end)
    else Some (finish (node_size + mv_size d))
  else Some (finish node_size).

(** The data of a leaf node, stored at offset [dp] of the page. *)
Definition write_data (mp : list Z) (dp : Z) (d : MDB_val) (flags : Z)
    (ofp : option (Z * list Z)) : option add_result :=
  match ofp with
  | None =>
    if F_ISSET flags F_BIGDATA then
      bs ← bread (mv_data d) 0 8; mp ← bwrite mp dp bs; Some (AddOk mp None)
    else if F_ISSET flags MDB_RESERVE then Some (AddOk mp None)
    else bs ← bread (mv_data d) 0 (mv_size d); mp ← bwrite mp dp bs; Some (AddOk mp None)
  | Some (ofpgno, ofpage) =>
    mp ← set64 mp dp ofpgno;
    if F_ISSET flags MDB_RESERVE then Some (AddOk mp (Some (ofpgno, ofpage)))
    else bs ← bread (mv_data d) 0 (mv_size d);
         ofpage ← bwrite ofpage PAGEHDRSZ bs;
         Some (AddOk mp (Some (ofpgno, ofpage)))
  end.

(** Header, key and data of the node at offset [o]. *)
Definition write_node (mp : list Z) (o : Z) (leaf : bool) (key data : option MDB_val)
    (pgno flags : Z) (ofp : option (Z * list Z)) : option add_result :=
  mp ← set16 mp (o + 6) (match key with None => 0 | Some k => mv_size k end);
  mp ← set16 mp (o + 4) flags;
  mp ← (if leaf then d ← data; SETDSZ mp o (mv_size d) else SETPGNO mp o pgno);
  mp ← match key with
       | None => Some mp
       | Some k => bs ← bread (mv_data k) 0 (mv_size k); bwrite mp (o + NODESIZE) bs
       end;
  if leaf then
    k ← key; d ← data;
    write_data mp (o + NODESIZE + mv_size k) d flags ofp
  else Some (AddOk mp None).

Definition mdb_node_add (mp : list Z) (indx : Z) (key data : option MDB_val)
    (pgno flags : Z) : option add_result :=
  upper ← mp_upper mp;
  lower ← mp_lower mp;
  if upper <? lower then None
  else
  leaf2 ← IS_LEAF2 mp;
  if leaf2 : bool then
    let ksize := md_pad in
    let ptr := PAGEHDRSZ + indx * ksize in
    numkeys ← NUMKEYS mp;
    let dif := numkeys - indx in
    mp ← (if 0 <? dif then bmove mp (ptr + ksize) ptr (dif * ksize) else Some mp);
    k ← key;
    bs ← bread (mv_data k) 0 ksize;
    mp ← bwrite mp ptr bs;
    mp ← set_lower mp (lower + 2);
    mp ← set_upper mp (upper - (ksize - 2));
    Some (AddOk mp None)
  else
  left ← SIZELEFT mp;
  let room := left - 2 in
  leaf ← IS_LEAF mp;
  plan ← add_size room leaf key data flags;
  match plan with
  | PlanFail rc e => Some (AddFail rc e)
  | PlanNode node_size flags ofp =>
    numkeys ← NUMKEYS mp;
    mp ← ptrs_up (Z.to_nat numkeys) mp numkeys indx;
    let ofs := u16 (upper - node_size) in
    if ofs <? lower + 2 then None
    else
    mp ← set_ptr mp indx ofs;
    mp ← set_upper mp ofs;
    mp ← set_lower mp (lower + 2);
    o ← mp_ptr mp indx;
    write_node mp o leaf key data pgno flags ofp
  end.
End NodeAdd.

(** ** mdb_node_del *)

(** [for (i = j = 0; i < numkeys; i++) ...]: the pointers after [indx] move
    down one slot and those to nodes below [ptr] grow by [sz]. *)
Fixpoint ptrs_del (fuel : nat) (mp : list Z) (i j numkeys indx ptr sz : Z) : option (list Z) :=
  if i <? numkeys then
    match fuel with
    | O => None
    | S fuel =>
      if negb (i =? indx) then
        p ← mp_ptr mp i;
        mp ← set_ptr mp j p;
        p ← mp_ptr mp i;
        mp ← (if p <? ptr then q ← mp_ptr mp j; set_ptr mp j (q + sz) else Some mp);
        ptrs_del fuel mp (i + 1) (j + 1) numkeys indx ptr sz
      else ptrs_del fuel mp (i + 1) j numkeys indx ptr sz
    end
  else Some mp.

(** The size of the node at offset [o]. *)
Definition node_size_at (mp : list Z) (leaf : bool) (o : Z) : option Z :=
  ks ← NODEKSZ mp o;
  let sz := NODESIZE + ks in
  sz ← (if leaf then
          fl ← get16 mp (o + 4);
          if F_ISSET fl F_BIGDATA then Some (sz + 8) else d ← NODEDSZ mp o; Some (sz + d)
        else Some sz);
  Some (u32 (EVEN sz)).

Definition mdb_node_del (mp : list Z) (indx ksize : Z) : option (list Z) :=
  numkeys ← NUMKEYS mp;
  lower ← mp_lower mp;
  upper ← mp_upper mp;
  if numkeys <=? indx then None
  else
  leaf2 ← IS_LEAF2 mp;
  if leaf2 : bool then
    let x := numkeys - 1 - indx in
    let base := PAGEHDRSZ + indx * ksize in
    mp ← (if negb (x =? 0) then bmove mp base (base + ksize) (x * ksize) else Some mp);
    mp ← set_lower mp (lower - 2);
    set_upper mp (upper + (ksize - 2))
  else
  leaf ← IS_LEAF mp;
  ptr ← mp_ptr mp indx;
  sz ← node_size_at mp leaf ptr;
  mp ← ptrs_del (Z.to_nat numkeys) mp 0 0 numkeys indx ptr sz;
  mp ← bmove mp (upper + sz) upper (ptr - upper);
  mp ← set_lower mp (lower - 2);
  set_upper mp (upper + sz).
