(* ===== verification/PageSpec.v ===== *)
(** * Well-formed pages and what node insertion and deletion do to them

    The abstract content of a page is the list of its node images.  The
    theorems show that [mdb_node_add] inserts an image into that list,
    [mdb_node_del] deletes one, and both keep the page well formed: nodes
    inside the page, disjoint, and filling exactly the part above
    [mp_upper]. *)
From S2P Require Import Prelude.
From S2P Require Import Bytes.
From S2P Require Import Page.
From Stdlib Require Import ZArith Lia.
From stdpp Require Import base numbers option list.
Open Scope Z_scope.

(** ** The fields of a page *)

Definition p_flags (m : list Z) : Z := g16 m 10.
Definition p_lower (m : list Z) : Z := g16 m 12.
Definition p_upper (m : list Z) : Z := g16 m 14.
Definition p_ptr (m : list Z) (k : Z) : Z := g16 m (16 + 2 * k).
Definition p_num (m : list Z) : Z := (p_lower m - 16) / 2.
Definition p_leaf (m : list Z) : bool := F_ISSET (p_flags m) P_LEAF.
Definition p_leaf2 (m : list Z) : bool := F_ISSET (p_flags m) P_LEAF2.

(** Size of a node from its header [h] (the 8 bytes at its start). *)
Definition hdr_size (leaf : bool) (h : list Z) : Z :=
  EVEN (8 + g16 h 6 +
        if leaf then if F_ISSET (g16 h 4) F_BIGDATA then 8
                     else g16 h 0 + 65536 * g16 h 2 else 0).

Definition n_size (m : list Z) (o : Z) : Z := hdr_size (p_leaf m) (slice m o 8).

(** The node images, in key order. *)
Definition n_image (m : list Z) (k : Z) : list Z := slice m (p_ptr m k) (n_size m (p_ptr m k)).
Definition p_nodes (m : list Z) : list (list Z) := n_image m <$> seqZ 0 (p_num m).

Fixpoint sumZ (l : list Z) : Z := match l with [] => 0 | x :: l => x + sumZ l end.

Record page_wf (m : list Z) : Prop := {
  wf_bytes : Forall is_byte m;
  wf_psize : 16 <= zlen m <= MAX_PAGESIZE;
  wf_lower : p_lower m = 16 + 2 * p_num m;
  wf_num : 0 <= p_num m;
  wf_upper : p_lower m <= p_upper m <= zlen m;
  wf_leaf2 : p_leaf2 m = false;
  wf_in : forall k, 0 <= k < p_num m ->
      p_upper m <= p_ptr m k /\ p_ptr m k + n_size m (p_ptr m k) <= zlen m;
  wf_disj : forall k k', 0 <= k < p_num m -> 0 <= k' < p_num m -> k <> k' ->
      p_ptr m k + n_size m (p_ptr m k) <= p_ptr m k' \/
      p_ptr m k' + n_size m (p_ptr m k') <= p_ptr m k;
  wf_full : sumZ (zlen <$> p_nodes m) = zlen m - p_upper m
}.

(** ** Arithmetic of sizes *)

Lemma EVEN_eq (n : Z) : EVEN n = 2 * ((n + 1) / 2).
Proof.
  unfold EVEN. change (-2) with (Z.lnot (Z.ones 1)).
  rewrite <- Z.ldiff_land, Z.ldiff_ones_r, Z.shiftl_mul_pow2, Z.shiftr_div_pow2 by lia.
  change (2 ^ 1) with 2. lia.
Qed.

Lemma EVEN_bounds (n : Z) : n <= EVEN n <= n + 1.
Proof.
  rewrite EVEN_eq. pose proof (Z.div_mod (n + 1) 2). pose proof (Z.mod_pos_bound (n + 1) 2). lia.
Qed.

(** ** Reading the fields *)

Lemma n_size_pos_bytes (m : list Z) (o : Z) : Forall is_byte m -> 8 <= n_size m o.
Proof.
  intros Hb. unfold n_size, hdr_size. set (h := slice m o 8).
  assert (forall o, 0 <= g16 h o) as Hg.
  { intros o'. unfold g16. apply le_val_range. by apply slice_bytes, slice_bytes. }
  pose proof (Hg 0). pose proof (Hg 2). pose proof (Hg 6).
  match goal with |- _ <= EVEN ?x => pose proof (EVEN_bounds x) end.
  destruct (p_leaf m); [destruct (F_ISSET _ _)|]; lia.
Qed.

Section Fields.
Variable m : list Z.
Hypothesis Hwf : page_wf m.

Lemma wf_ptr_in (k : Z) : 0 <= k < p_num m -> 16 + 2 * k + 2 <= p_lower m.
Proof. intros. rewrite (wf_lower _ Hwf). lia. Qed.

Lemma n_size_pos (o : Z) : 8 <= n_size m o.
Proof. apply n_size_pos_bytes, Hwf. Qed.

Lemma NUMKEYS_ok : NUMKEYS m = Some (p_num m).
Proof.
  destruct Hwf as [Hb Hs Hl Hn Hu]. unfold NUMKEYS, mp_lower, MAX_PAGESIZE, PAGEHDRSZ in *.
  rewrite get16_in by lia. cbn [mbind option_bind]. fold (p_lower m).
  rewrite uwrap_small by lia. rewrite Z.shiftr_div_pow2 by lia. done.
Qed.

Lemma SIZELEFT_ok : SIZELEFT m = Some (p_upper m - p_lower m).
Proof.
  destruct Hwf as [Hb Hs Hl Hn Hu]. unfold SIZELEFT, mp_lower, mp_upper, MAX_PAGESIZE in *.
  rewrite !get16_in by lia. cbn [mbind option_bind]. fold (p_lower m) (p_upper m).
  by rewrite uwrap_small by lia.
Qed.

Lemma mp_lower_ok : mp_lower m = Some (p_lower m).
Proof. destruct Hwf as [Hb Hs]. unfold mp_lower. rewrite get16_in by lia. done. Qed.

Lemma mp_upper_ok : mp_upper m = Some (p_upper m).
Proof. destruct Hwf as [Hb Hs]. unfold mp_upper. rewrite get16_in by lia. done. Qed.

Lemma IS_LEAF_ok : IS_LEAF m = Some (p_leaf m).
Proof. destruct Hwf as [Hb Hs]. unfold IS_LEAF, mp_flags. rewrite get16_in by lia. done. Qed.

Lemma IS_LEAF2_ok : IS_LEAF2 m = Some false.
Proof.
  destruct Hwf as [Hb Hs]. unfold IS_LEAF2, mp_flags. rewrite get16_in by lia.
  cbn [mbind option_bind]. f_equal. apply Hwf.
Qed.

Lemma mp_ptr_ok (k : Z) : 0 <= k < p_num m -> mp_ptr m k = Some (p_ptr m k).
Proof.
  intros Hk. pose proof (wf_ptr_in k Hk). pose proof (wf_upper _ Hwf).
  unfold mp_ptr, PAGEHDRSZ. rewrite get16_in by lia. done.
Qed.

Lemma g16_slice (o n o' : Z) :
  0 <= o -> 0 <= n -> o + n <= zlen m -> 0 <= o' -> o' + 2 <= n ->
  g16 (slice m o n) o' = g16 m (o + o').
Proof. intros. unfold g16. by rewrite slice_slice by lia. Qed.

Lemma node_size_at_ok (o : Z) :
  0 <= o -> o + n_size m o <= zlen m ->
  node_size_at m (p_leaf m) o = Some (n_size m o).
Proof.
  intros Ho Hsz. pose proof (wf_bytes _ Hwf) as Hb. pose proof (wf_psize _ Hwf) as Hp.
  pose proof (n_size_pos o). unfold MAX_PAGESIZE in Hp.
  unfold node_size_at, NODEKSZ, NODEDSZ, NODESIZE.
  rewrite !get16_in by lia. cbn [mbind option_bind].
  assert (n_size m o = u32 (n_size m o)) as -> by (by rewrite uwrap_small by lia).
  unfold n_size, hdr_size. rewrite !g16_slice by lia.
  pose proof (g16_range m (o + 0) Hb). rewrite Z.add_0_r in *.
  destruct (p_leaf m); [destruct (F_ISSET (g16 m (o + 4)) F_BIGDATA)|];
    cbn [mbind option_bind]; do 3 f_equal; try lia.
  rewrite lor_shift by lia. lia.
Qed.
End Fields.

(** ** Insertion of a node image: the effect, and that it is enough *)

#[export] Instance list_inhabited' {A} : Inhabited (list A) := populate [].

Lemma zlen_p_nodes (m : list Z) : 0 <= p_num m -> zlen (p_nodes m) = p_num m.
Proof. intros. unfold p_nodes, zlen. rewrite length_fmap, length_seqZ. lia. Qed.

Lemma zn_p_nodes (m : list Z) (k : Z) : 0 <= k < p_num m -> zn (p_nodes m) k = n_image m k.
Proof.
  intros. apply aget_zn. unfold aget, p_nodes. rewrite (proj2 (Z.leb_le _ _)) by lia.
  rewrite list_lookup_fmap, lookup_seqZ_lt by lia. cbn. do 2 f_equal. lia.
Qed.

Lemma sumZ_app (l1 l2 : list Z) : sumZ (l1 ++ l2) = sumZ l1 + sumZ l2.
Proof. induction l1; cbn; lia. Qed.

Record page_ins (m m' : list Z) (indx ofs : Z) : Prop := {
  pi_indx : 0 <= indx <= p_num m;
  pi_len : zlen m' = zlen m;
  pi_bytes : Forall is_byte m';
  pi_head : forall i, i < 12 -> zn m' i = zn m i;
  pi_lower : p_lower m' = p_lower m + 2;
  pi_upper : p_upper m' = ofs;
  pi_ofs : p_lower m + 2 <= ofs <= zlen m;
  pi_lo : forall k, 0 <= k < indx -> p_ptr m' k = p_ptr m k;
  pi_ptr : p_ptr m' indx = ofs;
  pi_hi : forall k, indx < k <= p_num m -> p_ptr m' k = p_ptr m (k - 1);
  pi_heap : forall i, p_upper m <= i -> zn m' i = zn m i;
  pi_size : ofs + n_size m' ofs = p_upper m
}.

Section Insertion.
Variables (m m' : list Z) (indx ofs : Z).
Hypothesis Hwf : page_wf m.
Hypothesis Hins : page_ins m m' indx ofs.

Lemma ins_flags : p_flags m' = p_flags m.
Proof.
  unfold p_flags. apply g16_ext; try lia.
  - pose proof (wf_psize _ Hwf). lia.
  - apply Hins.
  - intros i Hi. apply (pi_head _ _ _ _ Hins). lia.
Qed.

Lemma ins_num : p_num m' = p_num m + 1.
Proof.
  unfold p_num at 1. rewrite (pi_lower _ _ _ _ Hins), (wf_lower _ Hwf).
  replace (16 + 2 * p_num m + 2 - 16) with ((p_num m + 1) * 2) by lia. apply Z.div_mul. lia.
Qed.

(** An old node keeps its image and its size. *)
Lemma ins_old (k : Z) : 0 <= k < p_num m ->
  n_size m' (p_ptr m k) = n_size m (p_ptr m k) /\
  slice m' (p_ptr m k) (n_size m (p_ptr m k)) = n_image m k.
Proof.
  intros Hk. destruct (wf_in _ Hwf k Hk) as [Hlo Hhi].
  pose proof (wf_upper _ Hwf). pose proof (wf_num _ Hwf). pose proof (wf_lower _ Hwf).
  pose proof (n_size_pos m Hwf (p_ptr m k)).
  split.
  - unfold n_size, p_leaf. rewrite ins_flags. f_equal.
    apply slice_ext; try lia; rewrite ?(pi_len _ _ _ _ Hins); try lia.
    intros i Hi. apply (pi_heap _ _ _ _ Hins). lia.
  - apply slice_ext; try lia; rewrite ?(pi_len _ _ _ _ Hins); try lia.
    intros i Hi. apply (pi_heap _ _ _ _ Hins). lia.
Qed.

(** The node that slot [k] of the new page refers to. *)
Lemma ins_slot (k : Z) : 0 <= k < p_num m' ->
  (k = indx /\ p_ptr m' k = ofs) \/
  (exists j, k <> indx /\ 0 <= j < p_num m /\ p_ptr m' k = p_ptr m j /\
             j = if k <? indx then k else k - 1).
Proof.
  pose proof (pi_indx _ _ _ _ Hins). rewrite ins_num. intros Hk.
  destruct (Z.lt_trichotomy k indx) as [Hlt|[->|Hgt]].
  - right. exists k. rewrite (proj2 (Z.ltb_lt _ _)) by lia. split_and!; try lia.
    apply (pi_lo _ _ _ _ Hins). lia.
  - left. split; [done|]. apply (pi_ptr _ _ _ _ Hins).
  - right. exists (k - 1). rewrite (proj2 (Z.ltb_ge _ _)) by lia. split_and!; try lia.
    apply (pi_hi _ _ _ _ Hins). lia.
Qed.

Definition ins_image : list Z := slice m' ofs (n_size m' ofs).

Lemma ins_nodes :
  p_nodes m' = take (Z.to_nat indx) (p_nodes m) ++ [ins_image] ++ drop (Z.to_nat indx) (p_nodes m).
Proof.
  pose proof (pi_indx _ _ _ _ Hins). pose proof (wf_num _ Hwf). pose proof ins_num.
  pose proof (zlen_p_nodes m ltac:(lia)) as Hl.
  apply zlist_eq.
  - arr. rewrite !zlen_p_nodes by lia. lia.
  - intros k Hk. rewrite zlen_p_nodes in Hk by lia. rewrite zn_p_nodes by lia.
    unfold n_image. destruct (ins_slot k Hk) as [[-> ->]|(j & Hne & Hj & -> & Hjk)].
    + rewrite zn_app_r by zlia. arr. by rewrite Z.sub_diag.
    + destruct (ins_old j Hj) as [-> ->]. destruct (Z.ltb_spec k indx) as [Hlt|Hge]; subst j.
      * rewrite zn_app_l, zn_take, zn_p_nodes by zlia. done.
      * rewrite zn_app_r by zlia. rewrite zn_app_r by zlia.
        arr. rewrite zn_drop, zn_p_nodes by lia. f_equal. lia.
Qed.

Lemma ins_bounds (k : Z) : 0 <= k < p_num m ->
  p_upper m <= p_ptr m k /\ p_ptr m k + n_size m' (p_ptr m k) <= zlen m.
Proof. intros Hk. destruct (ins_old k Hk) as [-> _]. by apply (wf_in _ Hwf). Qed.

Lemma ins_wf : page_wf m'.
Proof.
  pose proof ins_num as Hn. pose proof (wf_num _ Hwf). pose proof (wf_upper _ Hwf).
  pose proof (pi_size _ _ _ _ Hins) as Hsz. pose proof (pi_ofs _ _ _ _ Hins).
  pose proof (pi_len _ _ _ _ Hins) as Hlen. pose proof (pi_upper _ _ _ _ Hins) as Hup.
  pose proof (pi_lower _ _ _ _ Hins) as Hlow. pose proof (wf_lower _ Hwf).
  assert (8 <= n_size m' ofs) by (apply n_size_pos_bytes, Hins).
  assert (forall k, 0 <= k < p_num m' ->
    (k = indx /\ p_ptr m' k = ofs) \/
    exists j, k <> indx /\ 0 <= j < p_num m /\ p_ptr m' k = p_ptr m j /\
      j = (if k <? indx then k else k - 1) /\ p_upper m <= p_ptr m j /\
      p_ptr m j + n_size m' (p_ptr m j) <= zlen m) as Hslot.
  { intros k Hk. destruct (ins_slot k Hk) as [|(j & ? & Hj & ?)]; [by left|right].
    pose proof (ins_bounds j Hj). exists j. intuition. }
  split; try (rewrite ?Hlen; lia).
  - apply Hins.
  - rewrite Hlen. apply Hwf.
  - unfold p_leaf2. rewrite ins_flags. apply Hwf.
  - intros k Hk. destruct (Hslot k Hk) as [[-> ->]|(j & ? & Hj & -> & _ & ?)]; lia.
  - intros k k' Hk Hk' Hne.
    destruct (Hslot k Hk) as [[-> ->]|(j & ? & Hj & -> & Hjk & ?)],
      (Hslot k' Hk') as [[-> ->]|(j' & ? & Hj' & -> & Hjk' & ?)]; try lia.
    destruct (ins_old j Hj) as [-> _], (ins_old j' Hj') as [-> _]. apply (wf_disj _ Hwf); [done..|].
    destruct (Z.ltb_spec k indx), (Z.ltb_spec k' indx); lia.
  - rewrite ins_nodes, !fmap_app, !sumZ_app. cbn [fmap list_fmap sumZ].
    pose proof (wf_full _ Hwf) as Hf. rewrite <- (take_drop (Z.to_nat indx) (p_nodes m)) in Hf.
    rewrite fmap_app, sumZ_app in Hf. unfold ins_image at 1.
    rewrite zlen_slice by lia. lia.
Qed.
End Insertion.

(** ** A decision procedure for concrete pages *)

Definition page_wfb (m : list Z) : bool :=
  let ks := seqZ 0 (p_num m) in
  forallb (fun b => (0 <=? b) && (b <? 256)) m &&
  ((16 <=? zlen m) && (zlen m <=? MAX_PAGESIZE)) &&
  (p_lower m =? 16 + 2 * p_num m) && (0 <=? p_num m) &&
  ((p_lower m <=? p_upper m) && (p_upper m <=? zlen m)) && negb (p_leaf2 m) &&
  forallb (fun k => (p_upper m <=? p_ptr m k) &&
                    (p_ptr m k + n_size m (p_ptr m k) <=? zlen m)) ks &&
  forallb (fun k => forallb (fun k' => (k =? k') ||
      (p_ptr m k + n_size m (p_ptr m k) <=? p_ptr m k') ||
      (p_ptr m k' + n_size m (p_ptr m k') <=? p_ptr m k)) ks) ks &&
  (sumZ (zlen <$> p_nodes m) =? zlen m - p_upper m).

Lemma forallb_seqZ (f : Z -> bool) (n k : Z) :
  forallb f (seqZ 0 n) = true -> 0 <= k < n -> f k = true.
Proof.
  intros Hf Hk. rewrite forallb_forall in Hf. apply Hf, list_elem_of_In, elem_of_seqZ. lia.
Qed.

Lemma page_wfb_sound (m : list Z) : page_wfb m = true -> page_wf m.
Proof.
  unfold page_wfb. rewrite !andb_true_iff, !Z.leb_le, !Z.eqb_eq, negb_true_iff.
  intros ((((((((Hb & Hs) & Hl) & Hn) & Hu) & H2) & Hin) & Hd) & Hsum). split; auto.
  - apply Forall_forall. intros x Hx. rewrite forallb_forall in Hb.
    specialize (Hb x (proj1 (list_elem_of_In _ _) Hx)). unfold is_byte. lia.
  - intros k Hk. pose proof (forallb_seqZ _ _ _ Hin Hk) as Hb'. cbv beta in Hb'. lia.
  - intros k k' Hk Hk' Hne. 
    pose proof (forallb_seqZ _ _ _ (forallb_seqZ _ _ _ Hd Hk) Hk') as Hb'. cbv beta in Hb'. lia.
Qed.

(** A well-formed 64-byte leaf page with the nodes [5 -> 6 7] and [9 -> 10]. *)
Definition leaf64 : list Z :=
  [1;0;0;0;0;0;0;0; 0;0; 2;0; 20;0; 42;0; 42;0; 54;0] ++ replicate 22 0 ++
  [2;0; 0;0; 0;0; 1;0; 5; 6;7; 0] ++ [1;0; 0;0; 0;0; 1;0; 9; 10].
