(* ===== verification/NodeOps.v ===== *)
(** * Node insertion and deletion refine list insertion and deletion

    Correctness of [mdb_node_add], [mdb_node_del] and [mdb_page_copy]
    ([src/LegacyDatabase/mdb.c]) on the abstract content of a page, the list
    of its node images. *)
From S2P Require Import Prelude.
From S2P Require Import Bytes.
From S2P Require Import Page.
From S2P Require Import PageSpec.
From Stdlib Require Import ZArith Lia.
From stdpp Require Import base numbers option list.
Open Scope Z_scope.

(** ** Moving the pointers up *)

Lemma ptrs_up_ok (fuel : nat) (m : list Z) (i indx : Z) :
  0 <= indx <= i -> 16 + 2 * i + 2 <= zlen m -> Forall is_byte m -> i - indx <= Z.of_nat fuel ->
  exists m', ptrs_up fuel m i indx = Some m' /\ zlen m' = zlen m /\ Forall is_byte m' /\
    (forall k, indx < k <= i -> p_ptr m' k = p_ptr m (k - 1)) /\
    (forall x, x < 16 + 2 * indx + 2 \/ 16 + 2 * i + 2 <= x -> zn m' x = zn m x).
Proof.
  revert m i. induction fuel as [|fuel IH]; intros m i Hi Hl Hb Hf; cbn [ptrs_up];
    destruct (Z.ltb_spec indx i); try lia;
    [exists m; split_and!; auto; lia| |exists m; split_and!; auto; lia].
  unfold mp_ptr, set_ptr, PAGEHDRSZ. rewrite get16_in by lia. cbn [mbind option_bind].
  mstep m1 U1. pose proof U1 as [_ _ L1 _ O1 B1]. rewrite zlen_le_bytes in O1.
  assert (Forall is_byte m1) as Hb1 by (apply B1; auto using le_bytes_byte).
  destruct (IH m1 (i - 1)) as (m' & -> & L2 & B2 & P2 & O2); try lia; auto.
  exists m'. split_and!; auto; try lia.
  - intros k Hk. destruct (decide (k = i)) as [->|].
    + transitivity (p_ptr m1 i).
      * unfold p_ptr. apply g16_ext; try lia. intros; apply O2; lia.
      * unfold p_ptr. rewrite (upd_g16_eq _ _ _ _ U1). apply uwrap_small, g16_range; auto; lia.
    + rewrite P2 by lia. unfold p_ptr. apply g16_ext; try lia. intros; apply O1; lia.
  - intros x Hx. rewrite O2, O1 by lia. done.
Qed.

(** ** Opening a slot: everything up to the node's own bytes *)

Record page_slot (m m' : list Z) (indx ofs : Z) : Prop := {
  ps_len : zlen m' = zlen m;
  ps_bytes : Forall is_byte m';
  ps_lower : p_lower m' = p_lower m + 2;
  ps_upper : p_upper m' = ofs;
  ps_head : forall i, i < 12 -> zn m' i = zn m i;
  ps_lo : forall k, 0 <= k < indx -> p_ptr m' k = p_ptr m k;
  ps_ptr : p_ptr m' indx = ofs;
  ps_hi : forall k, indx < k <= p_num m -> p_ptr m' k = p_ptr m (k - 1);
  ps_heap : forall i, p_lower m + 2 <= i -> zn m' i = zn m i
}.

Definition open_slot (m : list Z) (indx ofs : Z) : option (list Z) :=
  m1 ← ptrs_up (Z.to_nat (p_num m)) m (p_num m) indx;
  m2 ← set_ptr m1 indx ofs;
  m3 ← set_upper m2 ofs;
  set_lower m3 (p_lower m + 2).

Lemma open_slot_ok (m : list Z) (indx ofs : Z) :
  page_wf m -> 0 <= indx <= p_num m -> p_lower m + 2 <= ofs <= p_upper m ->
  exists m', open_slot m indx ofs = Some m' /\ page_slot m m' indx ofs.
Proof.
  intros Hwf Hi Ho. destruct Hwf as [Hb Hs Hl Hn Hu _ _ _ _]. unfold open_slot, MAX_PAGESIZE in *.
  destruct (ptrs_up_ok (Z.to_nat (p_num m)) m (p_num m) indx)
    as (m1 & -> & L1 & B1 & P1 & O1); auto; try lia.
  cbn [mbind option_bind]. unfold set_ptr, set_upper, set_lower, PAGEHDRSZ.
  mstep m2 U2. pose proof U2 as [_ _ L2 _ O2 B2].
  mstep m3 U3. pose proof U3 as [_ _ L3 _ O3 B3].
  destruct (set16_upd m3 12 (p_lower m + 2)) as (m4 & -> & U4); try lia.
  pose proof U4 as [_ _ L4 _ O4 B4]. rewrite zlen_le_bytes in O2, O3, O4.
  exists m4. split; [done|]. split; try lia.
  - eauto 6 using le_bytes_byte.
  - unfold p_lower at 1. rewrite (upd_g16_eq _ _ _ _ U4). apply uwrap_small. lia.
  - unfold p_upper. rewrite (upd_g16_ne _ _ _ _ 14 U4) by zlia.
    rewrite (upd_g16_eq _ _ _ _ U3). apply uwrap_small. lia.
  - intros i H. rewrite O4, O3, O2, O1 by lia. done.
  - intros k H. unfold p_ptr. apply g16_ext; try lia.
    intros i H'. rewrite O4, O3, O2, O1 by lia. done.
  - unfold p_ptr. rewrite (upd_g16_ne _ _ _ _ _ U4), (upd_g16_ne _ _ _ _ _ U3) by zlia.
    rewrite (upd_g16_eq _ _ _ _ U2). apply uwrap_small. lia.
  - intros k H. rewrite <- P1 by lia. unfold p_ptr. apply g16_ext; try lia.
    intros i H'. rewrite O4, O3, O2 by lia. done.
  - intros i H. rewrite O4, O3, O2, O1 by lia. done.
Qed.

(** Writing the node's bytes completes the insertion. *)
Lemma slot_ins (m m1 m' bs : list Z) (indx ofs : Z) :
  page_wf m -> 0 <= indx <= p_num m -> p_lower m + 2 <= ofs ->
  page_slot m m1 indx ofs -> upd m1 ofs bs m' -> Forall is_byte bs -> 8 <= zlen bs ->
  ofs + zlen bs <= p_upper m -> n_size m' ofs = p_upper m - ofs -> page_ins m m' indx ofs.
Proof.
  intros Hwf Hi Ho [] [H1 H2 H3 H4 H5 H6] Hbs H8 Hle Hsz.
  pose proof (wf_upper _ Hwf). pose proof (wf_lower _ Hwf).
  assert (forall o, 0 <= o -> o + 2 <= ofs -> g16 m' o = g16 m1 o) as Hg.
  { intros o Ho1 Ho2. apply g16_ext; try lia. intros; apply H5; lia. }
  split; auto; try lia.
  - intros. rewrite H5 by lia. auto.
  - unfold p_lower. rewrite Hg by lia. done.
  - unfold p_upper. rewrite Hg by lia. done.
  - intros k Hk. unfold p_ptr. rewrite Hg by lia. by apply ps_lo0.
  - unfold p_ptr. rewrite Hg by lia. done.
  - intros k Hk. unfold p_ptr. rewrite Hg by lia. by apply ps_hi0.
  - intros i Hi'. rewrite H5 by lia. apply ps_heap0. lia.
Qed.

(** ** The bytes of a node *)

Definition val_ok (v : MDB_val) : Prop := mv_size v = zlen (mv_data v) /\ Forall is_byte (mv_data v).

(** Header, key and payload of a node, as laid out in memory. *)
Definition node_hdr (lohi : list Z) (fl ks : Z) : list Z := lohi ++ le_bytes 2 fl ++ le_bytes 2 ks.

Definition leaf_node (key : MDB_val) (dsz fl : Z) (payload : list Z) : list Z :=
  node_hdr (le_bytes 4 dsz) fl (mv_size key) ++ mv_data key ++ payload.

Definition branch_node (key : option MDB_val) (pgno : Z) : list Z :=
  le_bytes 6 pgno ++ le_bytes 2 (match key with None => 0 | Some k => mv_size k end) ++
  match key with None => [] | Some k => mv_data k end.

Lemma bread_val (v : MDB_val) : val_ok v -> bread (mv_data v) 0 (mv_size v) = Some (mv_data v).
Proof.
  intros [-> _]. pose proof (zlen_nonneg (mv_data v)). rewrite bread_in by lia. by rewrite slice_all.
Qed.

Lemma SETDSZ_ok (m : list Z) (o x : Z) : 0 <= o -> o + 4 <= zlen m ->
  exists m', SETDSZ m o x = Some m' /\ upd m o (le_bytes 4 x) m'.
Proof.
  intros. unfold SETDSZ. mstep m1 U1. pose proof (u_len _ _ _ _ U1).
  destruct (set16_upd m1 (o + 2) (Z.shiftr x 16)) as (m2 & -> & U2); try lia.
  exists m2. split; [done|]. rewrite (le_bytes_app 2 2), <- (le_bytes_land16 x).
  eapply upd_post; [exact U1|exact U2|]. arr. lia.
Qed.

Lemma SETPGNO_ok (m : list Z) (o x : Z) : 0 <= o -> o + 6 <= zlen m ->
  exists m', SETPGNO m o x = Some m' /\ upd m o (le_bytes 6 x) m'.
Proof.
  intros. destruct (SETDSZ_ok m o x) as (m1 & E1 & U1); try lia.
  unfold SETPGNO, SETDSZ in *. destruct (set16 m o (Z.land x 65535)); [|done].
  cbn [mbind option_bind] in *. rewrite E1. cbn [mbind option_bind].
  pose proof (u_len _ _ _ _ U1).
  destruct (set16_upd m1 (o + 4) (Z.shiftr x 32)) as (m2 & -> & U2); try lia.
  exists m2. split; [done|]. rewrite (le_bytes_app 4 2).
  eapply upd_post; [exact U1|exact U2|]. arr. lia.
Qed.

Lemma app_nil_upd (m m' : list Z) (o : Z) (b : list Z) : upd m o b m' -> upd m o ([] ++ b) m'.
Proof. done. Qed.

(** The header and the key of a node. *)
Lemma write_head (m : list Z) (o ks fl : Z) (lohi : list Z) (set : list Z -> option (list Z)) :
  (zlen lohi = 4 \/ zlen lohi = 6) -> 0 <= o -> o + 8 <= zlen m ->
  (forall m1, zlen m1 = zlen m -> exists m2, set m1 = Some m2 /\ upd m1 o lohi m2) ->
  exists m1 m2 m3, set16 m (o + 6) ks = Some m1 /\ set16 m1 (o + 4) fl = Some m2 /\
    set m2 = Some m3 /\
    upd m o (if zlen lohi =? 4 then node_hdr lohi fl ks else lohi ++ le_bytes 2 ks) m3.
Proof.
  intros Hl Ho Hm Hset.
  destruct (set16_upd m (o + 6) ks) as (m1 & E1 & U1); try lia.
  pose proof (u_len _ _ _ _ U1).
  destruct (set16_upd m1 (o + 4) fl) as (m2 & E2 & U2); try lia.
  pose proof (u_len _ _ _ _ U2). destruct (Hset m2) as (m3 & E3 & U3); [lia|].
  exists m1, m2, m3. split_and!; auto.
  assert (upd m (o + 4) (le_bytes 2 fl ++ le_bytes 2 ks) m2) as U12.
  { eapply (upd_pre _ _ _ _ (o + 6) _ []); [exact U1|exact U2|constructor|arr; lia|lia]. }
  destruct Hl as [Hl|Hl]; rewrite Hl.
  - eapply (upd_pre _ _ _ _ (o + 4) _ []); [exact U12|exact U3|constructor|arr; lia|lia].
  - eapply (upd_pre _ _ _ _ (o + 4)); [exact U12|exact U3|apply le_bytes_byte|arr; lia|lia].
Qed.

(** The whole node: a branch node, and a leaf node up to its data. *)
Lemma write_branch (m : list Z) (o : Z) (key data : option MDB_val) (pgno fl : Z) ofp :
  (forall k, key = Some k -> val_ok k) -> 0 <= o -> o + zlen (branch_node key pgno) <= zlen m ->
  exists m', write_node m o false key data pgno fl ofp = Some (AddOk m' None) /\
             upd m o (branch_node key pgno) m'.
Proof.
  intros Hk Ho Hm. unfold write_node, branch_node in *. autorewrite with arr in Hm.
  pose proof (zlen_nonneg match key with None => [] | Some k => mv_data k end).
  destruct (write_head m o (match key with None => 0 | Some k => mv_size k end) fl
              (le_bytes 6 pgno) (fun m => SETPGNO m o pgno))
    as (m1 & m2 & m3 & -> & E2 & E3 & U); try (arr; lia).
  { intros m1 ?. apply SETPGNO_ok; lia. }
  cbn [mbind option_bind]. rewrite E2. cbn [mbind option_bind]. rewrite E3. cbn [mbind option_bind].
  rewrite zlen_le_bytes in U. cbn [Z.of_nat Pos.of_succ_nat Pos.succ Z.eqb Pos.eqb] in U.
  pose proof (u_len _ _ _ _ U). destruct key as [k|]; cbn [mbind option_bind].
  - rewrite (bread_val k) by auto. cbn [mbind option_bind]. unfold NODESIZE. mstep m4 U4.
    exists m4. split; [done|]. rewrite app_assoc.
    eapply upd_post; [exact U|exact U4|]. arr. lia.
  - exists m3. split; [done|]. by rewrite app_nil_r.
Qed.

Lemma write_leaf (m : list Z) (o : Z) (key d : MDB_val) (pgno fl : Z) ofp :
  val_ok key -> 0 <= o -> o + 8 + mv_size key <= zlen m ->
  exists m', write_node m o true (Some key) (Some d) pgno fl ofp =
             write_data m' (o + 8 + mv_size key) d fl ofp /\
             upd m o (node_hdr (le_bytes 4 (mv_size d)) fl (mv_size key) ++ mv_data key) m'.
Proof.
  intros Hk Ho Hm. pose proof Hk as [Hks _]. pose proof (zlen_nonneg (mv_data key)).
  unfold write_node.
  destruct (write_head m o (mv_size key) fl (le_bytes 4 (mv_size d))
     (fun m => SETDSZ m o (mv_size d))) as (m1 & m2 & m3 & -> & E2 & E3 & U); try (arr; lia).
  { intros m1 ?. apply SETDSZ_ok; lia. }
  cbn [mbind option_bind]. rewrite E2. cbn [mbind option_bind]. rewrite E3. cbn [mbind option_bind].
  rewrite zlen_le_bytes in U. cbn [Z.of_nat Pos.of_succ_nat Pos.succ Z.eqb Pos.eqb] in U.
  pose proof (u_len _ _ _ _ U). rewrite (bread_val key) by auto. cbn [mbind option_bind].
  unfold NODESIZE. mstep m4 U4. exists m4. split; [done|].
  eapply upd_post; [exact U|exact U4|]. unfold node_hdr. arr. lia.
Qed.

(** ** The size a node's header states *)

Lemma g16_hdr (a b c d : Z) :
  let h := (le_bytes 2 a ++ le_bytes 2 b) ++ le_bytes 2 c ++ le_bytes 2 d in
  g16 h 0 = u16 a /\ g16 h 2 = u16 b /\ g16 h 4 = u16 c /\ g16 h 6 = u16 d.
Proof. split_and!; apply (le_val_bytes 2). Qed.

Lemma land_mod_low (x w k : Z) : 0 <= k < w -> Z.land (x mod 2 ^ w) (2 ^ k) = Z.land x (2 ^ k).
Proof.
  intros. apply Z.bits_inj'. intros i Hi. rewrite !Z.land_spec, Z.pow2_bits_eqb by lia.
  destruct (Z.eqb_spec k i) as [->|]; [|by rewrite !andb_false_r].
  by rewrite Z.mod_pow2_bits_low by lia.
Qed.

Lemma BIGDATA_u16 (fl : Z) : F_ISSET (u16 fl) F_BIGDATA = F_ISSET fl F_BIGDATA.
Proof.
  unfold F_ISSET, uwrap, F_BIGDATA. change 1 with (2 ^ 0) at 1. by rewrite (land_mod_low fl 16 0) by lia.
Qed.

Lemma hdr_size_leaf (dsz fl ks : Z) :
  0 <= dsz < 2 ^ 32 -> 0 <= ks < 65536 ->
  hdr_size true (node_hdr (le_bytes 4 dsz) fl ks) =
  EVEN (8 + ks + if F_ISSET fl F_BIGDATA then 8 else dsz).
Proof.
  intros Hd Hk. unfold hdr_size, node_hdr. rewrite (le_bytes_app 2 2).
  destruct (g16_hdr dsz (Z.shiftr dsz (8 * Z.of_nat 2)) fl ks) as (-> & -> & -> & ->).
  rewrite BIGDATA_u16. rewrite (uwrap_small 16 ks) by lia.
  do 2 f_equal. destruct (F_ISSET fl F_BIGDATA); [done|].
  rewrite Z.shiftr_div_pow2 by lia. change (8 * Z.of_nat 2) with 16.
  rewrite (uwrap_small 16 (dsz / 2 ^ 16)).
  - unfold uwrap. rewrite (Z.div_mod dsz (2 ^ 16)) at 3 by lia. lia.
  - split; [apply Z.div_pos; lia|]. apply Z.div_lt_upper_bound; lia.
Qed.

Lemma hdr_size_branch (pgno ks : Z) :
  0 <= ks < 65536 -> hdr_size false (le_bytes 6 pgno ++ le_bytes 2 ks) = EVEN (8 + ks).
Proof.
  intros Hk. unfold hdr_size. change 6%nat with (2 + (2 + 2))%nat.
  rewrite (le_bytes_app 2), (le_bytes_app 2 2), app_assoc, <- app_assoc.
  match goal with |- context [g16 ((le_bytes 2 ?a ++ le_bytes 2 ?b) ++ le_bytes 2 ?c ++ _) 6] =>
    destruct (g16_hdr a b c ks) as (_ & _ & _ & ->) end.
  rewrite uwrap_small by lia. f_equal. lia.
Qed.

(** ** mdb_node_add, before and after the node's bytes are written *)

Section Add.
Variables (md_pad me_nodemax me_psize : Z) (page_new : Z -> Z + (Z * list Z)).
Let node_add := mdb_node_add md_pad me_nodemax me_psize page_new.
Let plan := add_size me_nodemax me_psize page_new.
Variables (m : list Z) (indx : Z) (key data : option MDB_val) (pgno flags : Z).
Hypothesis Hwf : page_wf m.
Hypothesis Hindx : 0 <= indx <= p_num m.
Let room := p_upper m - p_lower m - 2.

Lemma node_add_plan :
  node_add m indx key data pgno flags =
  (pl ← plan room (p_leaf m) key data flags;
   match pl with
   | PlanFail rc e => Some (AddFail rc e)
   | PlanNode node_size flags ofp =>
     let ofs := u16 (p_upper m - node_size) in
     mp ← ptrs_up (Z.to_nat (p_num m)) m (p_num m) indx;
     if ofs <? p_lower m + 2 then None
     else
     mp ← set_ptr mp indx ofs;
     mp ← set_upper mp ofs;
     mp ← set_lower mp (p_lower m + 2);
     o ← mp_ptr mp indx;
     write_node mp o (p_leaf m) key data pgno flags ofp
   end).
Proof.
  unfold node_add, mdb_node_add. pose proof (wf_upper _ Hwf).
  rewrite (mp_upper_ok m), (mp_lower_ok m), (IS_LEAF2_ok m), (SIZELEFT_ok m),
    (IS_LEAF_ok m), (NUMKEYS_ok m) by done.
  cbn [mbind option_bind]. rewrite (proj2 (Z.ltb_ge _ _)) by lia. done.
Qed.

Lemma node_add_fail (rc : Z) (e : bool) :
  plan room (p_leaf m) key data flags = Some (PlanFail rc e) ->
  node_add m indx key data pgno flags = Some (AddFail rc e).
Proof. intros Hp. rewrite node_add_plan, Hp. done. Qed.

Lemma node_add_open (sz fl : Z) (ofp : option (Z * list Z)) :
  plan room (p_leaf m) key data flags = Some (PlanNode sz fl ofp) -> 0 <= sz <= room ->
  exists m1, page_slot m m1 indx (p_upper m - sz) /\
    node_add m indx key data pgno flags =
    write_node m1 (p_upper m - sz) (p_leaf m) key data pgno fl ofp.
Proof.
  intros Hp Hsz. rewrite node_add_plan, Hp. cbn [mbind option_bind]. unfold room in Hsz.
  pose proof (wf_upper _ Hwf). pose proof (wf_lower _ Hwf). pose proof (wf_num _ Hwf).
  pose proof (wf_psize _ Hwf). unfold MAX_PAGESIZE in *.
  rewrite uwrap_small by lia. cbv zeta.
  destruct (open_slot_ok m indx (p_upper m - sz)) as (m1 & E & S); auto; try lia.
  exists m1. split; [done|]. unfold open_slot in E.
  destruct (ptrs_up _ _ _ _) as [m2|]; [|done]. cbn [mbind option_bind] in *.
  rewrite (proj2 (Z.ltb_ge _ _)) by lia.
  destruct (set_ptr m2 _ _) as [m3|]; [|done]. cbn [mbind option_bind] in *.
  destruct (set_upper m3 _) as [m4|]; [|done]. cbn [mbind option_bind] in *.
  rewrite E. cbn [mbind option_bind].
  assert (mp_ptr m1 indx = Some (p_upper m - sz)) as ->; [|done].
  rewrite <- (ps_ptr _ _ _ _ S). unfold mp_ptr, PAGEHDRSZ. rewrite get16_in; [done|lia|].
  rewrite (ps_len _ _ _ _ S). lia.
Qed.

(** The inserted image is the encoded node and at most one byte of padding;
    it is just below the old nodes, and the free space that is left and the
    old nodes are not written. *)
Record inserted (bs : list Z) (m' : list Z) : Prop := {
  in_wf : page_wf m';
  in_head : slice m' 0 12 = slice m 0 12;
  in_nodes : exists pad, zlen pad = EVEN (zlen bs) - zlen bs /\
    p_nodes m' = take (Z.to_nat indx) (p_nodes m) ++ [bs ++ pad] ++ drop (Z.to_nat indx) (p_nodes m);
  in_len : zlen m' = zlen m;
  in_lower : p_lower m' = p_lower m + 2;
  in_upper : p_upper m' = p_upper m - EVEN (zlen bs);
  in_ptr : p_ptr m' indx = p_upper m';
  in_kept : forall i, p_lower m' <= i < p_upper m' \/ p_upper m <= i -> zn m' i = zn m i
}.

Lemma node_add_close (m1 m' bs : list Z) :
  let sz := EVEN (zlen bs) in
  0 <= sz <= room -> page_slot m m1 indx (p_upper m - sz) ->
  upd m1 (p_upper m - sz) bs m' -> Forall is_byte bs -> 8 <= zlen bs ->
  hdr_size (p_leaf m) (slice bs 0 8) = sz -> inserted bs m'.
Proof.
  intros sz Hsz S U Hb H8 Hh. unfold room in Hsz. pose proof (EVEN_bounds (zlen bs)) as He.
  fold sz in He. pose proof U as [U1 U2 U3 U4 U5 U6]. pose proof (wf_upper _ Hwf).
  pose proof (wf_lower _ Hwf). pose proof (wf_psize _ Hwf). pose proof (ps_len _ _ _ _ S).
  assert (n_size m' (p_upper m - sz) = sz) as Hn.
  { rewrite <- Hh at 2. unfold n_size. f_equal.
    - unfold p_leaf, p_flags. f_equal. apply g16_ext; try lia.
      intros i Hi. rewrite U5 by lia. apply S. lia.
    - transitivity (slice (slice m' (p_upper m - sz) (zlen bs)) 0 8); [|by rewrite U4].
      rewrite slice_slice by lia. by rewrite Z.add_0_r. }
  assert (page_ins m m' indx (p_upper m - sz)) as HI.
  { apply (slot_ins m m1 m' bs); auto; lia. }
  pose proof HI as [_ Hlen _ Hhead Hlow Hup _ _ Hptr _ Hheap _]. split; auto; try lia.
  - by apply (ins_wf m m' indx (p_upper m - sz)).
  - apply slice_ext; try lia. intros i Hi. apply Hhead. lia.
  - exists (slice m' (p_upper m - sz + zlen bs) (sz - zlen bs)).
    rewrite zlen_slice by lia. split; [done|].
    rewrite (ins_nodes m m' indx (p_upper m - sz)) by done. unfold ins_image.
    rewrite Hn. replace sz with (zlen bs + (sz - zlen bs)) at 2 by lia.
    rewrite slice_app, U4 by lia. done.
  - intros i [Hi|Hi]; [|by apply Hheap]. rewrite Hlow, Hup in Hi. rewrite U5 by lia.
    apply (ps_heap _ _ _ _ S). lia.
Qed.
End Add.

(** ** mdb_node_add *)

Lemma leaf_node_len (key : MDB_val) (dsz fl : Z) (payload : list Z) :
  zlen (leaf_node key dsz fl payload) = 8 + zlen (mv_data key) + zlen payload.
Proof. unfold leaf_node, node_hdr. arr. lia. Qed.

Lemma leaf_node_hdr (key : MDB_val) (dsz fl : Z) (payload : list Z) :
  slice (leaf_node key dsz fl payload) 0 8 = node_hdr (le_bytes 4 dsz) fl (mv_size key).
Proof.
  unfold leaf_node. set (h := node_hdr _ _ _).
  assert (zlen h = 8) as Hh by (unfold h, node_hdr; arr; lia).
  rewrite slice_app_l by lia. rewrite <- Hh. apply slice_all.
Qed.

Lemma leaf_node_bytes (key : MDB_val) (dsz fl : Z) (payload : list Z) :
  val_ok key -> Forall is_byte payload -> Forall is_byte (leaf_node key dsz fl payload).
Proof. intros [_ ?] ?. unfold leaf_node, node_hdr. rewrite !Forall_app. auto 8 using le_bytes_byte. Qed.

(** The in-page bytes of a new leaf node's data. *)
Definition in_page (flags : Z) (d : MDB_val) : list Z :=
  if F_ISSET flags F_BIGDATA then slice (mv_data d) 0 8 else mv_data d.

Lemma node_add_leaf_ok (md_pad me_nodemax me_psize : Z) (page_new : Z -> Z + (Z * list Z))
    (m : list Z) (indx : Z) (key d : MDB_val) (pgno flags : Z) :
  let need := 8 + mv_size key + zlen (in_page flags d) in
  page_wf m -> p_leaf m = true -> 0 <= indx <= p_num m ->
  val_ok key -> mv_size key < 65536 -> Forall is_byte (mv_data d) -> 0 <= mv_size d < 2 ^ 32 ->
  (if F_ISSET flags F_BIGDATA then 8 <= zlen (mv_data d)
   else mv_size d = zlen (mv_data d) /\ need <= me_nodemax) ->
  F_ISSET flags MDB_RESERVE = false -> EVEN need + 2 <= p_upper m - p_lower m ->
  exists m',
    mdb_node_add md_pad me_nodemax me_psize page_new m indx (Some key) (Some d) pgno flags =
      Some (AddOk m' None) /\
    inserted m indx (leaf_node key (mv_size d) flags (in_page flags d)) m'.
Proof.
  intros need Hwf Hleaf Hi Hk Hk16 Hd Hd32 Hfl Hres Hroom.
  pose proof (zlen_nonneg (in_page flags d)). pose proof Hk as [Hks _].
  pose proof (zlen_nonneg (mv_data key)). pose proof (EVEN_bounds need).
  pose proof (leaf_node_len key (mv_size d) flags (in_page flags d)) as Hlen.
  replace (8 + zlen (mv_data key) + zlen (in_page flags d)) with need in Hlen by lia.
  assert (zlen (in_page flags d) = if F_ISSET flags F_BIGDATA then 8 else mv_size d) as Hpl.
  { unfold in_page in *. destruct (F_ISSET flags F_BIGDATA); [|lia]. apply zlen_slice; lia. }
  destruct (node_add_open md_pad me_nodemax me_psize page_new m indx (Some key) (Some d) pgno flags
    Hwf Hi (EVEN need) flags None) as (m1 & S & ->); try lia.
  { unfold add_size, NODESIZE. rewrite Hleaf. cbn [mbind option_bind]. unfold need in *.
    destruct (F_ISSET flags F_BIGDATA); rewrite Hpl in *.
    - by rewrite (proj2 (Z.ltb_ge _ _)) by lia.
    - by rewrite !(proj2 (Z.ltb_ge _ _)) by lia. }
  rewrite Hleaf. pose proof (ps_len _ _ _ _ S). pose proof (wf_upper _ Hwf). pose proof (wf_lower _ Hwf).
  pose proof (wf_num _ Hwf).
  destruct (write_leaf m1 (p_upper m - EVEN need) key d pgno flags None)
    as (m2 & -> & U); auto; try lia. pose proof (u_len _ _ _ _ U).
  destruct (bwrite_upd m2 (p_upper m - EVEN need + 8 + mv_size key) (in_page flags d))
    as (m3 & E3 & U3); try lia.
  exists m3. split.
  - unfold write_data. unfold in_page in *. destruct (F_ISSET flags F_BIGDATA).
    + rewrite bread_in by lia. cbn [mbind option_bind]. by rewrite E3.
    + rewrite Hres, (bread_val d) by (split; tauto). cbn [mbind option_bind]. by rewrite E3.
  - assert (Forall is_byte (in_page flags d)).
    { unfold in_page. destruct (F_ISSET flags F_BIGDATA); [by apply slice_bytes|done]. }
    apply (node_add_close m indx Hwf Hi m1); rewrite ?Hlen; auto using leaf_node_bytes; try lia.
    + unfold leaf_node. rewrite app_assoc. eapply upd_post; [exact U|exact U3|].
      unfold node_hdr. arr. lia.
    + rewrite Hleaf, leaf_node_hdr, hdr_size_leaf by lia. f_equal. lia.
Qed.

(** C12: adding a node to a leaf page whose data fits in the page (or is
    already on an overflow page, flag [F_BIGDATA]) succeeds and inserts, at
    the given index of the page's node list, exactly the node with that key,
    data and flags; the page stays well formed and its page number, pad and
    flags are kept. *)
Theorem mdb_node_add_leaf (md_pad me_nodemax me_psize : Z) (page_new : Z -> Z + (Z * list Z))
    (m : list Z) (indx : Z) (key d : MDB_val) (pgno flags : Z) :
  let need := 8 + mv_size key + zlen (in_page flags d) in
  page_wf m -> p_leaf m = true -> 0 <= indx <= p_num m ->
  val_ok key -> mv_size key < 65536 -> Forall is_byte (mv_data d) -> 0 <= mv_size d < 2 ^ 32 ->
  (if F_ISSET flags F_BIGDATA then 8 <= zlen (mv_data d)
   else mv_size d = zlen (mv_data d) /\ need <= me_nodemax) ->
  F_ISSET flags MDB_RESERVE = false -> EVEN need + 2 <= p_upper m - p_lower m ->
  exists m',
    mdb_node_add md_pad me_nodemax me_psize page_new m indx (Some key) (Some d) pgno flags =
      Some (AddOk m' None) /\
    inserted m indx (leaf_node key (mv_size d) flags (in_page flags d)) m'.
Proof. exact (node_add_leaf_ok md_pad me_nodemax me_psize page_new m indx key d pgno flags). Qed.

Lemma node_add_overflow_ok (md_pad me_nodemax me_psize : Z) (page_new : Z -> Z + (Z * list Z))
    (m : list Z) (indx : Z) (key d : MDB_val) (pgno flags ofpgno : Z) (ofpage : list Z) :
  let need := 16 + mv_size key in
  let fl := Z.lor flags F_BIGDATA in
  page_wf m -> p_leaf m = true -> 0 <= indx <= p_num m ->
  val_ok key -> mv_size key < 65536 -> val_ok d -> mv_size d < 2 ^ 32 ->
  F_ISSET flags F_BIGDATA = false -> F_ISSET fl MDB_RESERVE = false ->
  me_nodemax < 8 + mv_size key + mv_size d -> EVEN need + 2 <= p_upper m - p_lower m ->
  page_new (OVPAGES (mv_size d) me_psize) = inr (ofpgno, ofpage) ->
  16 + mv_size d <= zlen ofpage ->
  exists m' ofpage',
    mdb_node_add md_pad me_nodemax me_psize page_new m indx (Some key) (Some d) pgno flags =
      Some (AddOk m' (Some (ofpgno, ofpage'))) /\
    inserted m indx (leaf_node key (mv_size d) fl (le_bytes 8 ofpgno)) m' /\
    upd ofpage 16 (mv_data d) ofpage'.
Proof.
  intros need fl Hwf Hleaf Hi Hk Hk16 Hd Hd32 Hfl Hres Hbig Hroom Hnew Hof.
  pose proof Hk as [Hks _]. pose proof Hd as [Hds _]. pose proof (zlen_nonneg (mv_data d)).
  pose proof (zlen_nonneg (mv_data key)). pose proof (EVEN_bounds need).
  pose proof (leaf_node_len key (mv_size d) fl (le_bytes 8 ofpgno)) as Hlen.
  rewrite zlen_le_bytes in Hlen.
  replace (8 + zlen (mv_data key) + Z.of_nat 8) with need in Hlen by lia.
  assert (F_ISSET fl F_BIGDATA = true) as Hfl'.
  { unfold fl, F_ISSET. rewrite Z.land_lor_distr_l. apply Z.eqb_eq.
    apply Z.bits_inj'. intros n Hn. rewrite !Z.lor_spec, !Z.land_spec.
    destruct (Z.testbit flags n), (Z.testbit F_BIGDATA n); done. }
  destruct (node_add_open md_pad me_nodemax me_psize page_new m indx (Some key) (Some d) pgno flags
    Hwf Hi (EVEN need) fl (Some (ofpgno, ofpage))) as (m1 & S & ->); try lia.
  { unfold add_size, NODESIZE. rewrite Hleaf, Hfl. cbn [mbind option_bind].
    replace (8 + mv_size key + 8) with need by lia.
    rewrite (proj2 (Z.ltb_lt _ _)), (proj2 (Z.ltb_ge _ _)), Hnew by lia. done. }
  rewrite Hleaf. pose proof (ps_len _ _ _ _ S). pose proof (wf_upper _ Hwf).
  pose proof (wf_lower _ Hwf). pose proof (wf_num _ Hwf).
  destruct (write_leaf m1 (p_upper m - EVEN need) key d pgno fl (Some (ofpgno, ofpage)))
    as (m2 & -> & U); auto; try lia. pose proof (u_len _ _ _ _ U).
  unfold write_data, set64, PAGEHDRSZ. mstep m3 U3. rewrite Hres, (bread_val d) by done.
  cbn [mbind option_bind]. mstep of' Uo. exists m3, of'. split; [done|]. split; [|done].
  apply (node_add_close m indx Hwf Hi m1);
    rewrite ?Hlen; auto using leaf_node_bytes, le_bytes_byte; try lia.
  - unfold leaf_node. rewrite app_assoc. eapply upd_post; [exact U|exact U3|].
    unfold node_hdr. arr. lia.
  - rewrite Hleaf, leaf_node_hdr, hdr_size_leaf, Hfl' by lia. f_equal. lia.
Qed.

(** Data too large for the page goes to the overflow page obtained from
    the allocator: the page gets a node with flag [F_BIGDATA], the full data
    size and the overflow page number as payload, and the data is copied
    after the header of the overflow page, whose header is kept. *)
Lemma mdb_node_add_overflow (md_pad me_nodemax me_psize : Z) (page_new : Z -> Z + (Z * list Z))
    (m : list Z) (indx : Z) (key d : MDB_val) (pgno flags ofpgno : Z) (ofpage : list Z) :
  let need := 16 + mv_size key in
  let fl := Z.lor flags F_BIGDATA in
  page_wf m -> p_leaf m = true -> 0 <= indx <= p_num m ->
  val_ok key -> mv_size key < 65536 -> val_ok d -> mv_size d < 2 ^ 32 ->
  F_ISSET flags F_BIGDATA = false -> F_ISSET fl MDB_RESERVE = false ->
  me_nodemax < 8 + mv_size key + mv_size d -> EVEN need + 2 <= p_upper m - p_lower m ->
  page_new (OVPAGES (mv_size d) me_psize) = inr (ofpgno, ofpage) ->
  16 + mv_size d <= zlen ofpage ->
  exists m' ofpage',
    mdb_node_add md_pad me_nodemax me_psize page_new m indx (Some key) (Some d) pgno flags =
      Some (AddOk m' (Some (ofpgno, ofpage'))) /\
    inserted m indx (leaf_node key (mv_size d) fl (le_bytes 8 ofpgno)) m' /\
    upd ofpage 16 (mv_data d) ofpage'.
Proof. exact (node_add_overflow_ok md_pad me_nodemax me_psize page_new m indx key d pgno flags ofpgno ofpage). Qed.

Lemma node_add_branch_ok (md_pad me_nodemax me_psize : Z) (page_new : Z -> Z + (Z * list Z))
    (m : list Z) (indx : Z) (key data : option MDB_val) (pgno flags : Z) :
  page_wf m -> p_leaf m = false -> 0 <= indx <= p_num m ->
  (forall k, key = Some k -> val_ok k /\ mv_size k < 65536) ->
  EVEN (INDXSIZE key) + 2 <= p_upper m - p_lower m ->
  exists m',
    mdb_node_add md_pad me_nodemax me_psize page_new m indx key data pgno flags =
      Some (AddOk m' None) /\
    inserted m indx (branch_node key pgno) m'.
Proof.
  intros Hwf Hleaf Hi Hk Hroom.
  assert (zlen (branch_node key pgno) = INDXSIZE key /\ 0 <= INDXSIZE key - 8 < 65536 /\
          Forall is_byte (branch_node key pgno)) as (Hlen & Hks & Hb).
  { unfold branch_node, INDXSIZE, NODESIZE. arr. rewrite !Forall_app.
    destruct key as [k|]; [|arr; auto using le_bytes_byte with lia].
    destruct (Hk k eq_refl) as [[-> ?] ?]. pose proof (zlen_nonneg (mv_data k)).
    split_and!; auto using le_bytes_byte; lia. }
  pose proof (EVEN_bounds (INDXSIZE key)).
  destruct (node_add_open md_pad me_nodemax me_psize page_new m indx key data pgno flags
    Hwf Hi (EVEN (INDXSIZE key)) flags None) as (m1 & S & ->); try lia.
  { unfold add_size. rewrite Hleaf. fold (INDXSIZE key).
    by rewrite (proj2 (Z.ltb_ge _ _)) by lia. }
  rewrite Hleaf. pose proof (ps_len _ _ _ _ S). pose proof (wf_upper _ Hwf).
  pose proof (wf_lower _ Hwf). pose proof (wf_num _ Hwf).
  destruct (write_branch m1 (p_upper m - EVEN (INDXSIZE key)) key data pgno flags None)
    as (m2 & -> & U); try lia; [intros k Hk'; by apply Hk|].
  exists m2. split; [done|].
  apply (node_add_close m indx Hwf Hi m1); rewrite ?Hlen; auto; try lia.
  rewrite Hleaf. unfold branch_node. rewrite app_assoc, slice_app_l by zlia.
  set (h := le_bytes 6 _ ++ le_bytes 2 _).
  replace 8 with (zlen h) by (unfold h; arr; lia). rewrite slice_all.
  unfold h. rewrite hdr_size_branch; [f_equal; unfold INDXSIZE, NODESIZE; lia|].
  unfold INDXSIZE, NODESIZE in Hks. lia.
Qed.

(** Adding a node to a branch page inserts the node with that key (none
    for the leftmost child) and child page number. *)
Lemma mdb_node_add_branch (md_pad me_nodemax me_psize : Z) (page_new : Z -> Z + (Z * list Z))
    (m : list Z) (indx : Z) (key data : option MDB_val) (pgno flags : Z) :
  page_wf m -> p_leaf m = false -> 0 <= indx <= p_num m ->
  (forall k, key = Some k -> val_ok k /\ mv_size k < 65536) ->
  EVEN (INDXSIZE key) + 2 <= p_upper m - p_lower m ->
  exists m',
    mdb_node_add md_pad me_nodemax me_psize page_new m indx key data pgno flags =
      Some (AddOk m' None) /\
    inserted m indx (branch_node key pgno) m'.
Proof. exact (node_add_branch_ok md_pad me_nodemax me_psize page_new m indx key data pgno flags). Qed.

(** Bytes a node needs in the page. *)
Definition add_need (me_nodemax : Z) (leaf : bool) (key : option MDB_val) (d : MDB_val) (flags : Z) : Z :=
  EVEN (INDXSIZE key +
    if leaf then
      if F_ISSET flags F_BIGDATA || (me_nodemax <? INDXSIZE key + mv_size d) then 8 else mv_size d
    else 0).

(** A node that does not fit in the page's free space is refused with
    [MDB_PAGE_FULL], the transaction is marked as failed, and no overflow
    page is requested (the result does not depend on the allocator). *)
Lemma mdb_node_add_full (md_pad me_nodemax me_psize : Z) (page_new : Z -> Z + (Z * list Z))
    (m : list Z) (indx : Z) (key : option MDB_val) (d : MDB_val) (pgno flags : Z) :
  page_wf m -> 0 <= indx <= p_num m ->
  p_upper m - p_lower m < add_need me_nodemax (p_leaf m) key d flags + 2 ->
  mdb_node_add md_pad me_nodemax me_psize page_new m indx key (Some d) pgno flags =
    Some (AddFail MDB_PAGE_FULL true).
Proof.
  intros Hwf Hi Hroom. apply node_add_fail; auto. unfold add_size, add_need in *.
  fold (INDXSIZE key). cbn [mbind option_bind].
  destruct (p_leaf m); [destruct (F_ISSET flags F_BIGDATA); cbn [orb] in Hroom;
    [|destruct (Z.ltb_spec me_nodemax (INDXSIZE key + mv_size d))]|];
    rewrite ?Z.add_0_r in Hroom; by rewrite (proj2 (Z.ltb_lt _ _)) by lia.
Qed.

(** ** Witnesses *)

Lemma leaf64_wf : page_wf leaf64.
Proof. apply page_wfb_sound. vm_compute. reflexivity. Qed.

Lemma val_ok_dec (v : MDB_val) :
  (mv_size v =? zlen (mv_data v)) && forallb (fun b => (0 <=? b) && (b <? 256)) (mv_data v) = true ->
  val_ok v.
Proof.
  rewrite andb_true_iff, Z.eqb_eq, forallb_forall. intros [Hs Hb]. split; [done|].
  apply Forall_forall. intros x Hx. specialize (Hb x (proj1 (list_elem_of_In _ _) Hx)).
  unfold is_byte. lia.
Qed.

Definition no_page (n : Z) : Z + (Z * list Z) := inl 12.
Definition one_page (n : Z) : Z + (Z * list Z) := inr (7, replicate 64 0).

Lemma mdb_node_add_leaf_witness : exists m',
  mdb_node_add 0 30 64 no_page leaf64 1 (Some (Val 1 [8])) (Some (Val 2 [1; 2])) 0 0 = Some (AddOk m' None) /\
  inserted leaf64 1 (leaf_node (Val 1 [8]) 2 0 [1; 2]) m'.
Proof.
  apply (mdb_node_add_leaf 0 30 64 no_page leaf64 1 (Val 1 [8]) (Val 2 [1; 2]) 0 0);
    try closed; [apply leaf64_wf|apply val_ok_dec; reflexivity|].
  repeat constructor; closed.
Defined.

Lemma mdb_node_add_overflow_witness : exists m' ofpage',
  mdb_node_add 0 12 64 one_page leaf64 2 (Some (Val 1 [11])) (Some (Val 5 [1; 2; 3; 4; 5])) 0 0 =
    Some (AddOk m' (Some (7, ofpage'))) /\
  inserted leaf64 2 (leaf_node (Val 1 [11]) 5 (Z.lor 0 F_BIGDATA) (le_bytes 8 7)) m' /\
  upd (replicate 64 0) 16 [1; 2; 3; 4; 5] ofpage'.
Proof.
  apply (mdb_node_add_overflow 0 12 64 one_page leaf64 2 (Val 1 [11]) (Val 5 [1; 2; 3; 4; 5]) 0 0 7
    (replicate 64 0)); try closed; [apply leaf64_wf|apply val_ok_dec; reflexivity..].
Defined.

(** An empty 64-byte branch page. *)
Definition branch64 : list Z :=
  [1;0;0;0;0;0;0;0; 0;0; 1;0; 16;0; 64;0] ++ replicate 48 0.

Lemma mdb_node_add_branch_witness : exists m',
  mdb_node_add 0 30 64 no_page branch64 0 None None 0x123456789abc 0 = Some (AddOk m' None) /\
  inserted branch64 0 (branch_node None 0x123456789abc) m'.
Proof.
  apply (mdb_node_add_branch 0 30 64 no_page branch64 0 None None 0x123456789abc 0); try closed.
  apply page_wfb_sound. vm_compute. reflexivity.
Defined.

Lemma mdb_node_add_full_witness :
  mdb_node_add 0 30 64 no_page leaf64 0 (Some (Val 1 [8])) (Some (Val 20 (replicate 20 3))) 0 0 =
  Some (AddFail MDB_PAGE_FULL true).
Proof.
  apply (mdb_node_add_full 0 30 64 no_page leaf64 0 (Some (Val 1 [8])) (Val 20 (replicate 20 3)) 0 0);
    try closed. apply leaf64_wf.
Defined.
