(* ===== verification/NodeDel.v ===== *)
(** * Node deletion refines list deletion

    [mdb_node_del] and [mdb_page_copy] of [src/LegacyDatabase/mdb.c] on the
    abstract content of a page. *)
From S2P Require Import Prelude.
From S2P Require Import Bytes.
From S2P Require Import Page.
From S2P Require Import PageSpec.
From S2P Require Import NodeOps.
From Stdlib Require Import ZArith Lia.
From stdpp Require Import base numbers option list.
Open Scope Z_scope.

(** ** The pointers *)

Definition adj (ptr sz p : Z) : Z := if p <? ptr then p + sz else p.
Definition skip (indx k : Z) : Z := if k <? indx then k else k + 1.

Lemma adj_store (m : list Z) (i j ptr sz : Z) :
  0 <= j <= i -> 16 + 2 * i + 2 <= zlen m -> Forall is_byte m -> exists m',
  (p ← mp_ptr m i; mp ← set_ptr m j p; p ← mp_ptr mp i;
   if p <? ptr then q ← mp_ptr mp j; set_ptr mp j (q + sz) else Some mp) = Some m' /\
  zlen m' = zlen m /\ Forall is_byte m' /\ p_ptr m' j = u16 (adj ptr sz (p_ptr m i)) /\
  (forall x, x < 16 + 2 * j \/ 16 + 2 * j + 2 <= x -> zn m' x = zn m x).
Proof.
  intros Hj Hl Hb. unfold mp_ptr, set_ptr, PAGEHDRSZ. rewrite get16_in by lia.
  cbn [mbind option_bind]. fold (p_ptr m i). pose proof (g16_range m (16 + 2 * i) Hb) as Hr.
  fold (p_ptr m i) in Hr.
  mstep m1 U1. pose proof U1 as [_ _ L1 _ O1 B1]. rewrite zlen_le_bytes in O1.
  assert (Forall is_byte m1) as Hb1 by (apply B1; auto using le_bytes_byte).
  assert (g16 m1 (16 + 2 * j) = p_ptr m i) as Ej.
  { rewrite (upd_g16_eq _ _ _ _ U1). apply uwrap_small. lia. }
  assert (g16 m1 (16 + 2 * i) = p_ptr m i) as Ei.
  { destruct (decide (i = j)) as [->|]; [done|]. apply g16_ext; try lia. intros; apply O1; lia. }
  rewrite (get16_in m1 (16 + 2 * i)) by lia. cbn [mbind option_bind]. rewrite Ei. unfold adj.
  destruct (Z.ltb_spec (p_ptr m i) ptr).
  - rewrite get16_in by lia. cbn [mbind option_bind]. rewrite Ej.
    destruct (set16_upd m1 (16 + 2 * j) (p_ptr m i + sz)) as (m2 & -> & U2); try lia.
    pose proof U2 as [_ _ L2 _ O2 B2]. rewrite zlen_le_bytes in O2.
    exists m2. split_and!; auto using le_bytes_byte; try lia.
    + unfold p_ptr at 1. apply (upd_g16_eq _ _ _ _ U2).
    + intros. rewrite O2, O1 by lia. done.
  - exists m1. split_and!; auto; try lia.
    unfold p_ptr at 1. by rewrite Ej, uwrap_small by lia.
Qed.

Lemma ptrs_del_ok (fuel : nat) (m : list Z) (i j n indx ptr sz : Z) :
  0 <= indx < n -> (i <= indx /\ j = i \/ indx < i /\ j = i - 1) -> 0 <= i <= n ->
  16 + 2 * n <= zlen m -> Forall is_byte m -> n - i <= Z.of_nat fuel ->
  exists m', ptrs_del fuel m i j n indx ptr sz = Some m' /\ zlen m' = zlen m /\ Forall is_byte m' /\
    (forall k, j <= k < n - 1 -> p_ptr m' k = u16 (adj ptr sz (p_ptr m (skip indx k)))) /\
    (forall x, x < 16 + 2 * j \/ 16 + 2 * n <= x -> zn m' x = zn m x).
Proof.
  intros Hx. revert m i j. induction fuel as [|fuel IH]; intros m i j Hj Hi Hl Hb Hf; cbn [ptrs_del];
    destruct (Z.ltb_spec i n); try lia;
    [exists m; split_and!; auto; lia| |exists m; split_and!; auto; lia].
  destruct (Z.eqb_spec i indx) as [->|Hne]; cbn [negb].
  { destruct (IH m (indx + 1) j) as (m' & -> & ?); auto; try lia. by exists m'. }
  destruct (adj_store m i j ptr sz) as (m1 & E & L1 & B1 & P1 & O1); auto; try lia.
  destruct (mp_ptr m i) as [p|]; [|done]. cbn [mbind option_bind] in *.
  destruct (set_ptr m j p) as [m2|]; [|done]. cbn [mbind option_bind] in *.
  destruct (mp_ptr m2 i) as [p'|]; [|done]. cbn [mbind option_bind] in *.
  rewrite E. cbn [mbind option_bind].
  destruct (IH m1 (i + 1) (j + 1)) as (m' & -> & L2 & B2 & P2 & O2); auto; try lia.
  exists m'. split_and!; auto; try lia.
  - intros k Hk. destruct (decide (k = j)) as [->|].
    + transitivity (p_ptr m1 j); [unfold p_ptr; apply g16_ext; try lia; intros; apply O2; lia|].
      rewrite P1. do 3 f_equal. unfold skip. destruct (Z.ltb_spec j indx); lia.
    + rewrite P2 by lia. do 2 f_equal. unfold p_ptr, skip.
      destruct (Z.ltb_spec k indx); apply g16_ext; try lia; intros; apply O1; lia.
  - intros x Hx'. rewrite O2, O1 by lia. done.
Qed.

(** ** The effect of a deletion, and that it is enough *)

Record page_del (m m' : list Z) (indx : Z) : Prop := {
  pd_indx : 0 <= indx < p_num m;
  pd_len : zlen m' = zlen m;
  pd_bytes : Forall is_byte m';
  pd_head : forall i, i < 12 -> zn m' i = zn m i;
  pd_lower : p_lower m' = p_lower m - 2;
  pd_upper : p_upper m' = p_upper m + n_size m (p_ptr m indx);
  pd_ptr : forall k, 0 <= k < p_num m - 1 ->
    p_ptr m' k = adj (p_ptr m indx) (n_size m (p_ptr m indx)) (p_ptr m (skip indx k));
  pd_moved : forall x,
    p_upper m + n_size m (p_ptr m indx) <= x < p_ptr m indx + n_size m (p_ptr m indx) ->
    zn m' x = zn m (x - n_size m (p_ptr m indx));
  pd_kept : forall x, p_ptr m indx + n_size m (p_ptr m indx) <= x -> zn m' x = zn m x
}.

Section Deletion.
Variables (m m' : list Z) (indx : Z).
Hypothesis Hwf : page_wf m.
Hypothesis Hdel : page_del m m' indx.
Let ptr := p_ptr m indx.
Let sz := n_size m ptr.

Lemma del_flags : p_flags m' = p_flags m.
Proof.
  unfold p_flags. pose proof (wf_psize _ Hwf). apply g16_ext; try lia; [apply Hdel|].
  intros i Hi. apply (pd_head _ _ _ Hdel). lia.
Qed.

Lemma del_num : p_num m' = p_num m - 1.
Proof.
  unfold p_num at 1. rewrite (pd_lower _ _ _ Hdel), (wf_lower _ Hwf).
  replace (16 + 2 * p_num m - 2 - 16) with ((p_num m - 1) * 2) by lia. apply Z.div_mul. lia.
Qed.

(** A node that stays keeps its size and image. *)
Lemma del_old (k : Z) : 0 <= k < p_num m -> k <> indx ->
  n_size m' (adj ptr sz (p_ptr m k)) = n_size m (p_ptr m k) /\
  slice m' (adj ptr sz (p_ptr m k)) (n_size m (p_ptr m k)) = n_image m k /\
  p_upper m + sz <= adj ptr sz (p_ptr m k) /\
  adj ptr sz (p_ptr m k) + n_size m (p_ptr m k) <= zlen m.
Proof.
  intros Hk Hne. pose proof (pd_indx _ _ _ Hdel) as Hi. destruct (wf_in _ Hwf k Hk) as [Hlo Hhi].
  destruct (wf_in _ Hwf indx Hi) as [Hlo' Hhi']. fold ptr sz in Hlo', Hhi'.
  pose proof (wf_disj _ Hwf k indx Hk Hi Hne) as Hd. fold ptr sz in Hd.
  pose proof (n_size_pos m Hwf (p_ptr m k)). pose proof (n_size_pos m Hwf ptr) as Hsz. fold sz in Hsz.
  pose proof (wf_upper _ Hwf). pose proof (wf_lower _ Hwf). pose proof (wf_num _ Hwf).
  pose proof (pd_len _ _ _ Hdel). pose proof (pd_moved _ _ _ Hdel) as Hm. fold ptr sz in Hm.
  pose proof (pd_kept _ _ _ Hdel) as Hkp. fold ptr sz in Hkp.
  assert (forall n, 0 <= n <= n_size m (p_ptr m k) ->
    slice m' (adj ptr sz (p_ptr m k)) n = slice m (p_ptr m k) n) as Hsl.
  { intros n Hn. unfold adj. destruct (Z.ltb_spec (p_ptr m k) ptr); apply slice_ext; try lia.
    - intros i Hi'. rewrite Hm by lia. f_equal. lia.
    - intros i Hi'. apply Hkp. lia. }
  split_and!.
  - unfold n_size, p_leaf. rewrite del_flags, Hsl by lia. done.
  - apply Hsl. lia.
  - unfold adj. destruct (Z.ltb_spec (p_ptr m k) ptr); lia.
  - unfold adj. destruct (Z.ltb_spec (p_ptr m k) ptr); lia.
Qed.

Lemma del_slot (k : Z) : 0 <= k < p_num m' ->
  0 <= skip indx k < p_num m /\ skip indx k <> indx /\
  p_ptr m' k = adj ptr sz (p_ptr m (skip indx k)).
Proof.
  rewrite del_num. intros Hk. rewrite (pd_ptr _ _ _ Hdel) by done. pose proof (pd_indx _ _ _ Hdel).
  split_and!; auto; unfold skip; destruct (Z.ltb_spec k indx); lia.
Qed.

Lemma del_nodes :
  p_nodes m' = take (Z.to_nat indx) (p_nodes m) ++ drop (Z.to_nat (indx + 1)) (p_nodes m).
Proof.
  pose proof (pd_indx _ _ _ Hdel). pose proof del_num.
  pose proof (zlen_p_nodes m ltac:(lia)) as Hl. apply zlist_eq.
  - arr. rewrite !zlen_p_nodes by lia. lia.
  - intros k Hk. rewrite zlen_p_nodes in Hk by lia. rewrite zn_p_nodes by lia.
    unfold n_image. destruct (del_slot k Hk) as (Hs & Hne & ->).
    destruct (del_old _ Hs Hne) as (-> & -> & _). unfold skip in *.
    destruct (Z.ltb_spec k indx).
    + rewrite zn_app_l, zn_take, zn_p_nodes by zlia. done.
    + rewrite zn_app_r by zlia. arr. rewrite zn_drop, zn_p_nodes by lia. f_equal. lia.
Qed.

Lemma del_wf : page_wf m'.
Proof.
  pose proof (pd_indx _ _ _ Hdel) as Hi. pose proof del_num. pose proof (pd_len _ _ _ Hdel) as Hlen.
  pose proof (pd_lower _ _ _ Hdel). pose proof (pd_upper _ _ _ Hdel) as Hu. fold ptr sz in Hu.
  pose proof (wf_lower _ Hwf). pose proof (wf_upper _ Hwf).
  destruct (wf_in _ Hwf indx Hi) as [Hlo Hhi]. fold ptr sz in Hlo, Hhi.
  pose proof (n_size_pos m Hwf ptr) as Hsz. fold sz in Hsz.
  split; try (rewrite ?Hlen; lia).
  - apply Hdel.
  - rewrite Hlen. apply Hwf.
  - unfold p_leaf2. rewrite del_flags. apply Hwf.
  - intros k Hk. destruct (del_slot k Hk) as (Hs & Hne & ->).
    destruct (del_old _ Hs Hne) as (-> & _ & ? & ?). lia.
  - intros k k' Hk Hk' Hne. destruct (del_slot k Hk) as (Hs & Hns & ->).
    destruct (del_slot k' Hk') as (Hs' & Hns' & ->).
    destruct (del_old _ Hs Hns) as (-> & _), (del_old _ Hs' Hns') as (-> & _).
    assert (skip indx k <> skip indx k') as Hneq
      by (unfold skip; destruct (Z.ltb_spec k indx), (Z.ltb_spec k' indx); lia).
    pose proof (wf_disj _ Hwf _ _ Hs Hs' Hneq).
    pose proof (wf_disj _ Hwf _ _ Hs Hi Hns) as Hd. pose proof (wf_disj _ Hwf _ _ Hs' Hi Hns') as Hd'.
    fold ptr sz in Hd, Hd'. pose proof (n_size_pos m Hwf (p_ptr m (skip indx k))).
    pose proof (n_size_pos m Hwf (p_ptr m (skip indx k'))). unfold adj.
    destruct (Z.ltb_spec (p_ptr m (skip indx k)) ptr), (Z.ltb_spec (p_ptr m (skip indx k')) ptr); lia.
  - rewrite del_nodes, fmap_app, sumZ_app. pose proof (wf_full _ Hwf) as Hf.
    rewrite <- (take_drop (Z.to_nat indx) (p_nodes m)), fmap_app, sumZ_app in Hf.
    assert (p_nodes m !! Z.to_nat indx = Some (n_image m indx)) as Hg.
    { rewrite <- zn_p_nodes by done. pose proof (aget_in (p_nodes m) indx) as Ha.
      rewrite zlen_p_nodes in Ha by lia. unfold aget in Ha.
      rewrite (proj2 (Z.leb_le _ _)) in Ha by lia. by apply Ha. }
    rewrite (drop_S _ _ _ Hg) in Hf. cbn [fmap list_fmap sumZ] in Hf.
    replace (Z.to_nat (indx + 1)) with (S (Z.to_nat indx)) by lia.
    unfold n_image at 1 in Hf. rewrite zlen_slice in Hf by (fold ptr sz; lia).
    fold ptr sz in Hf. rewrite Hu, Hlen. lia.
Qed.
End Deletion.

Lemma node_del_effect (m : list Z) (indx ksize : Z) :
  page_wf m -> 0 <= indx < p_num m ->
  exists m', mdb_node_del m indx ksize = Some m' /\ page_del m m' indx.
Proof.
  intros Hwf Hi. unfold mdb_node_del.
  pose proof (wf_upper _ Hwf). pose proof (wf_lower _ Hwf). pose proof (wf_psize _ Hwf).
  pose proof (wf_in _ Hwf indx Hi) as [Hlo Hhi]. unfold MAX_PAGESIZE in *.
  pose proof (n_size_pos m Hwf (p_ptr m indx)) as Hsz.
  rewrite (NUMKEYS_ok m), (mp_lower_ok m), (mp_upper_ok m), (IS_LEAF2_ok m), (IS_LEAF_ok m),
    (mp_ptr_ok m) by done.
  cbn [mbind option_bind]. rewrite (proj2 (Z.leb_gt _ _)) by lia.
  rewrite (node_size_at_ok m Hwf) by lia. cbn [mbind option_bind].
  set (ptr := p_ptr m indx) in *. set (sz := n_size m ptr) in *.
  destruct (ptrs_del_ok (Z.to_nat (p_num m)) m 0 0 (p_num m) indx ptr sz)
    as (m1 & -> & L1 & B1 & P1 & O1); try lia; [apply Hwf|]. cbn [mbind option_bind].
  destruct (slice_bmove m1 (p_upper m + sz) (p_upper m) (ptr - p_upper m))
    as (m2 & Em2 & L2 & M2 & O2); try lia. rewrite Em2. cbn [mbind option_bind].
  assert (Forall is_byte m2) as B2.
  { unfold bmove in Em2. rewrite bread_in in Em2 by lia. cbn [mbind option_bind] in Em2.
    unfold bwrite in Em2. destruct (_ && _); [|done]. injection Em2 as <-.
    apply splice_bytes; [done|]. by apply slice_bytes. }
  unfold set_lower, set_upper. mstep m3 U3. pose proof U3 as [_ _ L3 _ O3 B3].
  destruct (set16_upd m3 14 (p_upper m + sz)) as (m4 & -> & U4); try lia.
  pose proof U4 as [_ _ L4 _ O4 B4]. rewrite zlen_le_bytes in O3, O4.
  exists m4. split; [done|]. split; fold ptr sz; try lia.
  - auto using le_bytes_byte.
  - intros i H'. rewrite O4, O3, O2, O1 by lia. done.
  - unfold p_lower at 1. rewrite (upd_g16_ne _ _ _ _ _ U4), (upd_g16_eq _ _ _ _ U3) by zlia.
    apply uwrap_small. lia.
  - unfold p_upper at 1. rewrite (upd_g16_eq _ _ _ _ U4). apply uwrap_small. lia.
  - intros k Hk. transitivity (p_ptr m1 k).
    { unfold p_ptr. apply g16_ext; try lia. intros. rewrite O4, O3, O2 by lia. done. }
    rewrite P1 by lia. apply uwrap_small. unfold adj.
    assert (0 <= skip indx k < p_num m) as Hs by (unfold skip; destruct (Z.ltb_spec k indx); lia).
    pose proof (wf_in _ Hwf _ Hs). pose proof (n_size_pos m Hwf (p_ptr m (skip indx k))).
    destruct (Z.ltb_spec (p_ptr m (skip indx k)) ptr); lia.
  - intros x Hx. rewrite O4, O3, M2, O1 by lia. f_equal. lia.
  - intros x Hx. rewrite O4, O3, O2, O1 by lia. done.
Qed.

(** C13: deleting the node at an index of a page removes exactly that node
    from the page's node list: the other nodes keep their bytes and order,
    though they are moved and their offsets adjusted; the page stays well
    formed, so that its free space grows by the size of the node. *)
Theorem mdb_node_del_correct (m : list Z) (indx ksize : Z) :
  page_wf m -> 0 <= indx < p_num m ->
  exists m', mdb_node_del m indx ksize = Some m' /\ page_wf m' /\
    slice m' 0 12 = slice m 0 12 /\
    p_nodes m' = take (Z.to_nat indx) (p_nodes m) ++ drop (Z.to_nat (indx + 1)) (p_nodes m).
Proof.
  intros Hwf Hi. destruct (node_del_effect m indx ksize Hwf Hi) as (m' & E & D).
  exists m'. split_and!; auto.
  - by apply (del_wf m m' indx).
  - pose proof (wf_psize _ Hwf). pose proof (pd_len _ _ _ D).
    apply slice_ext; try lia. intros i Hi'. apply D. lia.
  - by apply del_nodes.
Qed.

(** ** mdb_page_copy *)

Lemma zn_upd (m m' bs : list Z) (o i : Z) :
  upd m o bs m' -> zn m' i = if (o <=? i) && (i <? o + zlen bs) then zn bs (i - o) else zn m i.
Proof.
  intros [H1 H2 H3 H4 H5 _]. destruct (Z.leb_spec o i), (Z.ltb_spec i (o + zlen bs)); cbn [andb];
    try (apply H5; lia).
  rewrite <- H4 at 1. rewrite zn_slice by lia. f_equal. lia.
Qed.

Lemma land_neg8 (x : Z) : 0 <= x < 65536 -> Z.land x (u16 (-8)) = x / 8 * 8.
Proof. intros. apply (land_mask 16 3); lia. Qed.

Lemma land_m8 (x : Z) : Z.land x (-8) = x / 8 * 8.
Proof.
  change (-8) with (Z.lnot (Z.ones 3)). rewrite <- Z.ldiff_land, Z.ldiff_ones_r by lia.
  rewrite Z.shiftl_mul_pow2, Z.shiftr_div_pow2 by lia. done.
Qed.

(** Copying a page into a block of the same size succeeds and the copy
    has every byte of the source outside of its free space: the header and
    pointers below [mp_lower] and the nodes from [mp_upper] on. *)
Lemma mdb_page_copy_correct (dst src : list Z) :
  page_wf src -> zlen dst = zlen src ->
  exists dst', mdb_page_copy dst src (zlen src) = Some dst' /\ zlen dst' = zlen src /\
    forall i, 0 <= i < p_lower src \/ p_upper src <= i < zlen src -> zn dst' i = zn src i.
Proof.
  intros Hwf Hl. pose proof (wf_upper _ Hwf). pose proof (wf_lower _ Hwf).
  pose proof (wf_psize _ Hwf). pose proof (wf_num _ Hwf). unfold MAX_PAGESIZE in *.
  unfold mdb_page_copy. rewrite (mp_lower_ok src), (mp_upper_ok src), (IS_LEAF2_ok src) by done.
  cbn [mbind option_bind]. rewrite (uwrap_small 16 (p_upper src - p_lower src)) by lia.
  rewrite !land_neg8, land_m8 by lia.
  destruct (Z.eqb_spec ((p_upper src - p_lower src) / 8 * 8) 0) as [E|E]; cbn [negb andb].
  - rewrite E, Z.sub_0_r, bread_in by lia. cbn [mbind option_bind]. rewrite slice_all.
    destruct (bwrite_upd dst 0 src) as (d & -> & U); try lia.
    exists d. split; [done|]. split; [rewrite (u_len _ _ _ _ U); lia|]. intros i Hi.
    rewrite (zn_upd _ _ _ _ _ U), (proj2 (Z.leb_le _ _)), (proj2 (Z.ltb_lt _ _)) by lia.
    cbn [andb]. f_equal. lia.
  - set (a := (p_lower src + 7) / 8 * 8). set (b := p_upper src / 8 * 8).
    assert (p_lower src <= a /\ a <= b /\ b <= p_upper src) as (Ha & Hab & Hb).
    { unfold a, b. pose proof (Z.div_mod (p_lower src + 7) 8). pose proof (Z.mod_pos_bound (p_lower src + 7) 8).
      pose proof (Z.div_mod (p_upper src) 8). pose proof (Z.mod_pos_bound (p_upper src) 8).
      pose proof (Z.div_mod (p_upper src - p_lower src) 8).
      pose proof (Z.mod_pos_bound (p_upper src - p_lower src) 8). lia. }
    rewrite (bread_in src 0 a) by lia. cbn [mbind option_bind].
    pose proof (zlen_slice src 0 a). pose proof (zlen_slice src b (zlen src - b)).
    mstep d1 U1. pose proof (u_len _ _ _ _ U1). rewrite (bread_in src b) by lia.
    cbn [mbind option_bind].
    destruct (bwrite_upd d1 b (slice src b (zlen src - b))) as (d2 & -> & U2); try lia.
    exists d2. split; [done|]. split; [rewrite (u_len _ _ _ _ U2); lia|]. intros i Hi.
    rewrite (zn_upd _ _ _ _ _ U2), (zn_upd _ _ _ _ _ U1).
    destruct (Z.leb_spec b i), (Z.ltb_spec i (b + zlen (slice src b (zlen src - b)))),
      (Z.leb_spec 0 i), (Z.ltb_spec i (0 + zlen (slice src 0 a))); cbn [andb]; try lia;
      rewrite zn_slice by lia; f_equal; lia.
Qed.

(** ** A fresh page *)

(** A page initialised by [mdb_page_new] is well formed, has no node, the
    requested flags and [P_DIRTY], and all of its space free. *)
Lemma init_page_wf (np : list Z) (flags : Z) :
  Forall is_byte np -> 16 <= zlen np <= MAX_PAGESIZE -> 0 <= flags < 65536 ->
  F_ISSET (Z.lor flags P_DIRTY) P_LEAF2 = false ->
  exists m, init_page np flags (zlen np) = Some m /\ page_wf m /\ p_nodes m = [] /\
    p_flags m = Z.lor flags P_DIRTY /\ p_upper m - p_lower m = zlen np - PAGEHDRSZ.
Proof.
  intros Hb Hl Hf Hf2. unfold init_page, set_lower, set_upper, PAGEHDRSZ, MAX_PAGESIZE in *.
  mstep m1 U1. pose proof (u_len _ _ _ _ U1). mstep m2 U2. pose proof (u_len _ _ _ _ U2).
  destruct (set16_upd m2 14 (zlen np)) as (m3 & -> & U3); try lia. pose proof (u_len _ _ _ _ U3).
  assert (0 <= Z.lor flags P_DIRTY < 65536) as Hr.
  { split; [apply Z.lor_nonneg; unfold P_DIRTY; lia|]. apply Z.log2_lt_cancel. rewrite Z.log2_lor by (unfold P_DIRTY; lia).
    assert (Z.log2 flags < 16).
    { destruct (decide (flags = 0)) as [->|]; [done|]. apply Z.log2_lt_pow2; lia. }
    change (Z.log2 P_DIRTY) with 4. change (Z.log2 65536) with 16. lia. }
  assert (p_flags m3 = Z.lor flags P_DIRTY) as Hfl.
  { unfold p_flags. rewrite (upd_g16_ne _ _ _ _ _ U3), (upd_g16_ne _ _ _ _ _ U2),
      (upd_g16_eq _ _ _ _ U1) by zlia. apply uwrap_small. lia. }
  assert (p_lower m3 = 16) as Hlo.
  { unfold p_lower. rewrite (upd_g16_ne _ _ _ _ _ U3), (upd_g16_eq _ _ _ _ U2) by zlia. done. }
  assert (p_upper m3 = zlen np) as Hup.
  { unfold p_upper. rewrite (upd_g16_eq _ _ _ _ U3). apply uwrap_small. lia. }
  assert (p_num m3 = 0) as Hn by (unfold p_num; by rewrite Hlo).
  assert (p_nodes m3 = []) as Hnil by (unfold p_nodes; by rewrite Hn).
  exists m3. split; [done|]. split; [|split_and!; auto; lia].
  split; try (unfold MAX_PAGESIZE; lia).
  - apply U3; [apply U2; [apply U1; [done|]|]|]; apply le_bytes_byte.
  - unfold p_leaf2. by rewrite Hfl.
  - rewrite Hnil, Hup. cbn. lia.
Qed.

(** ** Witnesses *)

Lemma mdb_node_del_witness : exists m', mdb_node_del leaf64 1 0 = Some m' /\ page_wf m' /\
  slice m' 0 12 = slice leaf64 0 12 /\
  p_nodes m' = take (Z.to_nat 1) (p_nodes leaf64) ++ drop (Z.to_nat (1 + 1)) (p_nodes leaf64).
Proof. apply (mdb_node_del_correct leaf64 1 0); [apply leaf64_wf|closed]. Defined.

Lemma mdb_page_copy_witness : exists dst', mdb_page_copy (replicate 64 170) leaf64 64 = Some dst' /\
  zlen dst' = 64 /\
  forall i, 0 <= i < p_lower leaf64 \/ p_upper leaf64 <= i < 64 -> zn dst' i = zn leaf64 i.
Proof. apply (mdb_page_copy_correct (replicate 64 170) leaf64); [apply leaf64_wf|closed]. Defined.

Lemma init_page_witness : exists m, init_page (replicate 64 170) P_LEAF 64 = Some m /\ page_wf m /\
  p_nodes m = [] /\ p_flags m = Z.lor P_LEAF P_DIRTY /\ p_upper m - p_lower m = 64 - PAGEHDRSZ.
Proof.
  apply (init_page_wf (replicate 64 170) P_LEAF); try closed.
  apply Forall_replicate. closed.
Defined.
