(* ===== verification/Cmp.v ===== *)
(** * Key comparison functions of LMDB ([src/LegacyDatabase/mdb.c])

    The five comparators, the selection of the default ones, and the
    interface [KeyOrder] (a total order on the keys of a database) that the
    search procedures rely on, with an instance for every comparator. *)
From S2P Require Import Prelude.
From S2P Require Import Bytes.
From S2P Require Import Page.
From S2P Require Import PageSpec.
From S2P Require Import NodeOps.
From Stdlib Require Import ZArith Lia.
From stdpp Require Import base numbers option list.
Open Scope Z_scope.

(** ** The comparators *)

Definition get32 (m : list Z) (o : Z) : option Z := bs ← bread m o 4; Some (le_val bs).

(** [(x < y) ? -1 : x > y] *)
Definition three_way (x y : Z) : Z := if x <? y then -1 else if y <? x then 1 else 0.

Definition mdb_cmp_long (a b : MDB_val) : option Z :=
  x ← get64 (mv_data a) 0; y ← get64 (mv_data b) 0; Some (three_way x y).

Definition mdb_cmp_int (a b : MDB_val) : option Z :=
  x ← get32 (mv_data a) 0; y ← get32 (mv_data b) 0; Some (three_way x y).

(** [do { x = *--u - *--c; } while (!x && u > a->mv_data)], with [u] the
    common offset of both pointers. *)
Fixpoint cint_loop (fuel : nat) (a b : list Z) (u : Z) : option Z :=
  match fuel with
  | O => None
  | S fuel =>
    let u := u - 2 in
    p ← get16 a u; q ← get16 b u;
    let x := p - q in
    if (x =? 0) && (0 <? u) then cint_loop fuel a b u else Some x
  end.

Definition mdb_cmp_cint (a b : MDB_val) : option Z :=
  cint_loop (Z.to_nat (mv_size a)) (mv_data a) (mv_data b) (mv_size a).

(** [memcmp]: the difference of the first bytes that differ. *)
Fixpoint byte_diff (a b : list Z) : Z :=
  match a, b with
  | x :: a, y :: b => if x =? y then byte_diff a b else x - y
  | _, _ => 0
  end.

Definition memcmp (a b : list Z) (n : Z) : option Z :=
  p ← bread a 0 n; q ← bread b 0 n; Some (byte_diff p q).

Definition mdb_cmp_memn (a b : MDB_val) : option Z :=
  let len := u32 (mv_size a) in
  let len_diff := mv_size a - mv_size b in
  let '(len, len_diff) :=
    if 0 <? len_diff then (u32 (mv_size b), 1) else (len, len_diff) in
  diff ← memcmp (mv_data a) (mv_data b) len;
  Some (if negb (diff =? 0) then diff else if len_diff <? 0 then -1 else len_diff).

(** [while (p1 > p1_lim) { diff = *--p1 - *--p2; if (diff) return diff; }] *)
Fixpoint memnr_loop (fuel : nat) (a b : list Z) (p1 p2 p1_lim len_diff : Z) : option Z :=
  if p1_lim <? p1 then
    match fuel with
    | O => None
    | S fuel =>
      x ← aget a (p1 - 1); y ← aget b (p2 - 1);
      let diff := x - y in
      if negb (diff =? 0) then Some diff
      else memnr_loop fuel a b (p1 - 1) (p2 - 1) p1_lim len_diff
    end
  else Some (if len_diff <? 0 then -1 else len_diff).

Definition mdb_cmp_memnr (a b : MDB_val) : option Z :=
  let len_diff := mv_size a - mv_size b in
  let '(p1_lim, len_diff) := if 0 <? len_diff then (len_diff, 1) else (0, len_diff) in
  memnr_loop (Z.to_nat (mv_size a)) (mv_data a) (mv_data b) (mv_size a) (mv_size b) p1_lim len_diff.

(** A comparator as the function pointer [MDB_cmp_func *]; the search code
    tests it for equality with [mdb_cmp_cint]. *)
Inductive MDB_cmp_func :=
  | cmp_long | cmp_int | cmp_cint | cmp_memn | cmp_memnr
  | cmp_user (f : MDB_val -> MDB_val -> option Z).

Definition run_cmp (c : MDB_cmp_func) : MDB_val -> MDB_val -> option Z :=
  match c with
  | cmp_long => mdb_cmp_long
  | cmp_int => mdb_cmp_int
  | cmp_cint => mdb_cmp_cint
  | cmp_memn => mdb_cmp_memn
  | cmp_memnr => mdb_cmp_memnr
  | cmp_user f => f
  end.

Definition MDB_REVERSEKEY : Z := 0x02.
Definition MDB_DUPSORT : Z := 0x04.
Definition MDB_INTEGERKEY : Z := 0x08.
Definition MDB_DUPFIXED : Z := 0x10.
Definition MDB_INTEGERDUP : Z := 0x20.
Definition MDB_REVERSEDUP : Z := 0x40.

(** A C condition: the value is not zero. *)
Definition nz (x : Z) : bool := negb (x =? 0).

(** [md_cmp] and [md_dcmp] of a database with flags [f]. *)
Definition mdb_default_cmp (f : Z) : MDB_cmp_func * option MDB_cmp_func :=
  (if nz (Z.land f MDB_REVERSEKEY) then cmp_memnr
   else if nz (Z.land f MDB_INTEGERKEY) then cmp_cint else cmp_memn,
   if negb (nz (Z.land f MDB_DUPSORT)) then None
   else Some (if nz (Z.land f MDB_INTEGERDUP)
              then if nz (Z.land f MDB_DUPFIXED) then cmp_int else cmp_cint
              else if nz (Z.land f MDB_REVERSEDUP) then cmp_memnr else cmp_memn)).

(** ** The interface: a total order on keys

    [ko_ord a b] is negative, zero or positive as [a] is before, equal to or
    after [b]; only the sign of a comparator's result is meaningful. *)
Class KeyOrder (cmp : MDB_val -> MDB_val -> option Z) (D : MDB_val -> Prop) := {
  ko_ord : MDB_val -> MDB_val -> Z;
  ko_run a b : D a -> D b -> exists r, cmp a b = Some r /\ Z.sgn r = Z.sgn (ko_ord a b);
  ko_eq a b : D a -> D b -> ko_ord a b = 0 <-> a = b;
  ko_anti a b : D a -> D b -> ko_ord a b < 0 <-> 0 < ko_ord b a;
  ko_trans a b c : D a -> D b -> D c -> ko_ord a b < 0 -> ko_ord b c < 0 -> ko_ord a c < 0
}.

(** ** Numeric order *)

Definition num_ord (a b : MDB_val) : Z := le_val (mv_data a) - le_val (mv_data b).

Definition sized (n : Z) (v : MDB_val) : Prop := val_ok v /\ mv_size v = n.

Lemma three_way_sgn (x y : Z) : Z.sgn (three_way x y) = Z.sgn (x - y).
Proof. unfold three_way. destruct (Z.ltb_spec x y), (Z.ltb_spec y x); lia. Qed.

Lemma val_eq (a b : MDB_val) : val_ok a -> val_ok b -> mv_data a = mv_data b -> a = b.
Proof. destruct a, b. intros [H1 _] [H2 _]. cbn in *. congruence. Qed.

Lemma num_ord_eq (n : Z) (a b : MDB_val) : sized n a -> sized n b -> num_ord a b = 0 <-> a = b.
Proof.
  intros [Ha Hsa] [Hb Hsb]. unfold num_ord. split; [|intros ->; lia]. intros H.
  apply val_eq; auto. destruct Ha as [Ha Ba], Hb as [Hb Bb].
  rewrite <- (le_bytes_val (mv_data a)), <- (le_bytes_val (mv_data b)) by done.
  replace (le_val (mv_data a)) with (le_val (mv_data b)) by lia. f_equal. unfold zlen in *. lia.
Qed.

#[export] Instance cmp_long_order : KeyOrder mdb_cmp_long (sized 8).
Proof.
  refine {| ko_ord := num_ord; ko_eq := num_ord_eq 8 |}; try (unfold num_ord; intros; lia).
  intros a b [[Ha _] Hsa] [[Hb _] Hsb]. unfold mdb_cmp_long, get64, num_ord.
  rewrite !bread_in by lia. cbn [mbind option_bind].
  rewrite !slice_full by lia. eexists. split; [done|].
  apply three_way_sgn.
Defined.

#[export] Instance cmp_int_order : KeyOrder mdb_cmp_int (sized 4).
Proof.
  refine {| ko_ord := num_ord; ko_eq := num_ord_eq 4 |}; try (unfold num_ord; intros; lia).
  intros a b [[Ha _] Hsa] [[Hb _] Hsb]. unfold mdb_cmp_int, get32, num_ord.
  rewrite !bread_in by lia. cbn [mbind option_bind].
  rewrite !slice_full by lia. eexists. split; [done|].
  apply three_way_sgn.
Defined.

Lemma le_val_app (l1 l2 : list Z) : le_val (l1 ++ l2) = le_val l1 + 2 ^ (8 * zlen l1) * le_val l2.
Proof.
  induction l1 as [|x l1 IH]; cbn [le_val app].
  - change (2 ^ (8 * zlen (@nil Z))) with 1. lia.
  - rewrite IH, zlen_cons. pose proof (zlen_nonneg l1).
    replace (8 * (1 + zlen l1)) with (8 + 8 * zlen l1) by lia. rewrite Z.pow_add_r by lia. lia.
Qed.

(** The value of the low [u] bytes, split at the top 16-bit word. *)
Lemma le_val_top (m : list Z) (u : Z) :
  2 <= u <= zlen m ->
  le_val (slice m 0 u) = le_val (slice m 0 (u - 2)) + 2 ^ (8 * (u - 2)) * g16 m (u - 2).
Proof.
  intros Hu. replace u with ((u - 2) + 2) at 1 by lia.
  rewrite slice_app, le_val_app, zlen_slice by lia. done.
Qed.

Lemma cint_loop_ok (fuel : nat) (a b : list Z) (u : Z) :
  Forall is_byte a -> Forall is_byte b -> 0 < u -> u mod 2 = 0 -> u <= zlen a -> u <= zlen b ->
  u <= Z.of_nat fuel ->
  exists r, cint_loop fuel a b u = Some r /\
    Z.sgn r = Z.sgn (le_val (slice a 0 u) - le_val (slice b 0 u)).
Proof.
  intros Ba Bb. revert u. induction fuel as [|fuel IH]; intros u Hu He Hla Hlb Hf; [lia|].
  assert (2 <= u) as H2 by (pose proof (Z.div_mod u 2); lia).
  cbn [cint_loop]. rewrite !get16_in by lia. cbn [mbind option_bind].
  pose proof (le_val_range (slice a 0 (u - 2)) (slice_bytes _ _ _ Ba)) as Ra.
  pose proof (le_val_range (slice b 0 (u - 2)) (slice_bytes _ _ _ Bb)) as Rb.
  rewrite zlen_slice in Ra, Rb by lia. rewrite (le_val_top a u), (le_val_top b u) by lia.
  destruct (Z.eqb_spec (g16 a (u - 2) - g16 b (u - 2)) 0) as [E|E]; cbn [andb].
  - replace (g16 a (u - 2)) with (g16 b (u - 2)) by lia. destruct (Z.ltb_spec 0 (u - 2)).
    + destruct (IH (u - 2)) as (r & -> & Hr); try lia.
      { replace (u - 2) with (u + (-1) * 2) by lia. by rewrite Z.mod_add. }
      exists r. split; [done|]. rewrite Hr. f_equal. lia.
    + eexists. split; [done|]. replace (u - 2) with 0 in * by lia.
      change (2 ^ (8 * 0)) with 1 in *. lia.
  - eexists. split; [done|].
    set (P := 2 ^ (8 * (u - 2))) in *. set (x := g16 a (u - 2)) in *. set (y := g16 b (u - 2)) in *.
    destruct (Z.lt_total x y) as [Hxy|[Hxy|Hxy]]; [|lia|]; nia.
Qed.

#[export] Instance cmp_cint_order (n : Z) `{!TCEq (n mod 2) 0} `{!TCEq (0 <? n) true} :
  KeyOrder mdb_cmp_cint (sized n).
Proof.
  rename select (TCEq (n mod 2) 0) into He. rename select (TCEq (0 <? n) true) into Hp.
  apply TCEq_eq in He, Hp.
  refine {| ko_ord := num_ord; ko_eq := num_ord_eq n |}; try (unfold num_ord; intros; lia).
  intros a b [[Ha Ba] Hsa] [[Hb Bb] Hsb]. unfold mdb_cmp_cint, num_ord.
  destruct (cint_loop_ok (Z.to_nat (mv_size a)) (mv_data a) (mv_data b) (mv_size a))
    as (r & -> & Hr); auto; try lia; [congruence|].
  exists r. split; [done|]. by rewrite Hr, !slice_full by lia.
Defined.

(** ** Lexicographic order *)

Fixpoint lexZ (a b : list Z) : Z :=
  match a, b with
  | [], [] => 0
  | [], _ :: _ => -1
  | _ :: _, [] => 1
  | x :: a, y :: b => if x =? y then lexZ a b else x - y
  end.

Lemma lexZ_eq (a b : list Z) : lexZ a b = 0 <-> a = b.
Proof.
  revert b. induction a as [|x a IH]; intros [|y b]; cbn; try done.
  destruct (Z.eqb_spec x y) as [->|Hne].
  - rewrite IH. split; [by intros ->|congruence].
  - split; [lia|congruence].
Qed.

Lemma lexZ_anti (a b : list Z) : lexZ a b < 0 <-> 0 < lexZ b a.
Proof.
  revert b. induction a as [|x a IH]; intros [|y b]; cbn; try lia.
  rewrite (Z.eqb_sym y x). destruct (Z.eqb_spec x y); [apply IH|lia].
Qed.

Lemma lexZ_trans (a b c : list Z) : lexZ a b < 0 -> lexZ b c < 0 -> lexZ a c < 0.
Proof.
  revert b c. induction a as [|x a IH]; intros [|y b] [|z c]; cbn; try lia.
  destruct (Z.eqb_spec x y), (Z.eqb_spec y z), (Z.eqb_spec x z); subst; try lia. apply IH.
Qed.

Definition lex_ord (a b : MDB_val) : Z := lexZ (mv_data a) (mv_data b).
Definition rlex_ord (a b : MDB_val) : Z := lexZ (reverse (mv_data a)) (reverse (mv_data b)).

(** [memcmp] on the common length decides the order unless one is a prefix. *)
Lemma byte_diff_lex (a b : list Z) (n : nat) :
  n = (length a `min` length b)%nat ->
  lexZ a b = if negb (byte_diff (take n a) (take n b) =? 0) then byte_diff (take n a) (take n b)
             else three_way (zlen a) (zlen b).
Proof.
  revert b n. induction a as [|x a IH]; intros [|y b] n Hn; cbn [length Nat.min] in Hn; subst n; try done.
  cbn [take byte_diff lexZ]. destruct (Z.eqb_spec x y) as [->|Hne].
  - rewrite (IH b _ eq_refl). rewrite !zlen_cons. unfold three_way.
    destruct (Z.ltb_spec (zlen a) (zlen b)), (Z.ltb_spec (1 + zlen a) (1 + zlen b)),
      (Z.ltb_spec (zlen b) (zlen a)), (Z.ltb_spec (1 + zlen b) (1 + zlen a)); try lia; done.
  - rewrite (proj2 (Z.eqb_neq _ _)) by lia. done.
Qed.

Definition short (v : MDB_val) : Prop := val_ok v /\ mv_size v < 2 ^ 32.

Lemma mdb_cmp_memn_lex (a b : MDB_val) : short a -> short b ->
  mdb_cmp_memn a b = Some (lex_ord a b).
Proof.
  intros [[Ha _] Hsa] [[Hb _] Hsb]. pose proof (zlen_nonneg (mv_data a)). pose proof (zlen_nonneg (mv_data b)).
  unfold mdb_cmp_memn, lex_ord. rewrite !uwrap_small by lia.
  rewrite (byte_diff_lex _ _ _ eq_refl). unfold three_way.
  destruct (Z.ltb_spec 0 (mv_size a - mv_size b)); cbv beta iota zeta; unfold memcmp;
    rewrite !bread_in by lia; cbn [mbind option_bind]; f_equal; unfold slice; cbn [Z.to_nat drop].
  - replace (length (mv_data a) `min` length (mv_data b))%nat with (Z.to_nat (mv_size b))
      by (unfold zlen in *; lia).
    destruct (negb _); [done|]. cbn [Z.ltb Z.compare].
    by rewrite (proj2 (Z.ltb_ge _ _)), (proj2 (Z.ltb_lt _ _)) by lia.
  - replace (length (mv_data a) `min` length (mv_data b))%nat with (Z.to_nat (mv_size a))
      by (unfold zlen in *; lia).
    destruct (negb _); [done|].
    rewrite (proj2 (Z.ltb_ge (zlen (mv_data b)) _)) by lia.
    destruct (Z.ltb_spec (mv_size a - mv_size b) 0), (Z.ltb_spec (zlen (mv_data a)) (zlen (mv_data b))); lia.
Qed.

#[export] Instance cmp_memn_order : KeyOrder mdb_cmp_memn short.
Proof.
  refine {| ko_ord := lex_ord |}.
  - intros a b Ha Hb. rewrite mdb_cmp_memn_lex by done. eauto.
  - intros a b [Ha _] [Hb _]. unfold lex_ord. rewrite lexZ_eq. split; [by apply val_eq|congruence].
  - intros a b _ _. apply lexZ_anti.
  - intros a b c _ _ _. apply lexZ_trans.
Defined.

(** The byte before offset [p] leads the reversed prefix. *)
Lemma reverse_take_top (m : list Z) (p : Z) : 0 < p <= zlen m ->
  reverse (take (Z.to_nat p) m) = zn m (p - 1) :: reverse (take (Z.to_nat (p - 1)) m).
Proof.
  intros Hp. replace (Z.to_nat p) with (S (Z.to_nat (p - 1))) by lia.
  pose proof (aget_in m (p - 1)) as Hg. unfold aget in Hg.
  rewrite (proj2 (Z.leb_le _ _)) in Hg by lia.
  rewrite (take_S_r _ _ (zn m (p - 1))) by (apply Hg; lia). by rewrite reverse_app.
Qed.

Lemma memnr_loop_ok (fuel : nat) (a b : list Z) (p1 p2 lim len_diff : Z) :
  0 <= lim <= p1 -> p1 <= zlen a -> 0 <= p2 <= zlen b -> p1 - lim <= Z.of_nat fuel ->
  p1 - lim <= p2 ->
  (0 < lim /\ len_diff = 1 /\ p1 - lim = p2 \/ lim = 0 /\ len_diff <= 0 /\ p1 - p2 = len_diff) ->
  memnr_loop fuel a b p1 p2 lim len_diff =
  Some (lexZ (reverse (take (Z.to_nat p1) a)) (reverse (take (Z.to_nat p2) b))).
Proof.
  revert p1 p2. induction fuel as [|fuel IH]; intros p1 p2 H1 H2 H3 H4 H5 H6; cbn [memnr_loop];
    destruct (Z.ltb_spec lim p1); try lia.
  2: { arr. rewrite (reverse_take_top a p1), (reverse_take_top b p2) by lia. cbn [lexZ].
       destruct (Z.eqb_spec (zn a (p1 - 1) - zn b (p2 - 1)) 0) as [E|E]; cbn [negb].
       - rewrite (proj2 (Z.eqb_eq _ _)) by lia. apply IH; lia.
       - by rewrite (proj2 (Z.eqb_neq _ _)) by lia. }
  all: assert (p1 = lim) by lia; subst p1.
  all: destruct H6 as [(Hl & -> & Hp)|(-> & Hl & Hp)].
  all: try (replace p2 with 0 by lia; rewrite (reverse_take_top a lim) by lia; done).
  all: destruct (Z.ltb_spec len_diff 0); [rewrite (reverse_take_top b p2) by lia; done|].
  all: replace p2 with 0 by lia; replace len_diff with 0 by lia; done.
Qed.

Lemma mdb_cmp_memnr_rlex (a b : MDB_val) : val_ok a -> val_ok b ->
  mdb_cmp_memnr a b = Some (rlex_ord a b).
Proof.
  intros [Ha _] [Hb _]. pose proof (zlen_nonneg (mv_data a)). pose proof (zlen_nonneg (mv_data b)).
  unfold mdb_cmp_memnr, rlex_ord. destruct (Z.ltb_spec 0 (mv_size a - mv_size b)); cbv beta iota zeta;
    rewrite memnr_loop_ok by lia; rewrite !take_ge by (unfold zlen in *; lia); done.
Qed.

#[export] Instance cmp_memnr_order : KeyOrder mdb_cmp_memnr val_ok.
Proof.
  refine {| ko_ord := rlex_ord |}.
  - intros a b Ha Hb. rewrite mdb_cmp_memnr_rlex by done. eauto.
  - intros a b Ha Hb. unfold rlex_ord. rewrite lexZ_eq. split; [|congruence].
    intros H. apply val_eq; auto. by apply (inj reverse).
  - intros a b _ _. apply lexZ_anti.
  - intros a b c _ _ _. apply lexZ_trans.
Defined.

(** ** The comparators' contracts *)

(** The order of the keys of a database with flags [f]. *)
Definition spec_ord (f : Z) : MDB_val -> MDB_val -> Z :=
  if nz (Z.land f MDB_REVERSEKEY) then rlex_ord
  else if nz (Z.land f MDB_INTEGERKEY) then num_ord else lex_ord.

(** The default key comparator of a database orders keys as its flags
    document: byte-wise from the end with [MDB_REVERSEKEY], numerically with
    [MDB_INTEGERKEY] (keys of one even size), and lexically otherwise, never
    reading outside of the two keys. *)
Lemma mdb_default_cmp_correct (f : Z) (a b : MDB_val) :
  val_ok a -> val_ok b -> mv_size a < 2 ^ 32 -> mv_size b < 2 ^ 32 ->
  (nz (Z.land f MDB_INTEGERKEY) = true -> mv_size a = mv_size b /\ 0 < mv_size a /\ mv_size a mod 2 = 0) ->
  exists r, run_cmp (fst (mdb_default_cmp f)) a b = Some r /\ Z.sgn r = Z.sgn (spec_ord f a b).
Proof.
  intros Ha Hb Hsa Hsb Hint. unfold mdb_default_cmp, spec_ord. cbn [fst].
  destruct (nz (Z.land f MDB_REVERSEKEY)); [apply (ko_run (KeyOrder := cmp_memnr_order)); done|].
  destruct (nz (Z.land f MDB_INTEGERKEY)); [|by apply (ko_run (KeyOrder := cmp_memn_order))].
  destruct Hint as (He & Hp & H2); [done|]. cbn [run_cmp]. unfold mdb_cmp_cint.
  destruct (cint_loop_ok (Z.to_nat (mv_size a)) (mv_data a) (mv_data b) (mv_size a))
    as (r & -> & Hr); try lia; [apply Ha|apply Hb|destruct Ha; lia|destruct Hb; lia|].
  exists r. split; [done|]. rewrite Hr. unfold num_ord.
  by rewrite !slice_full by (destruct Ha, Hb; lia).
Qed.

Lemma mdb_default_cmp_witness :
  exists r, run_cmp (fst (mdb_default_cmp MDB_INTEGERKEY)) (Val 4 [255; 0; 0; 0]) (Val 4 [0; 1; 0; 0]) = Some r /\
    Z.sgn r = Z.sgn (spec_ord MDB_INTEGERKEY (Val 4 [255; 0; 0; 0]) (Val 4 [0; 1; 0; 0])).
Proof.
  apply (mdb_default_cmp_correct MDB_INTEGERKEY (Val 4 [255; 0; 0; 0]) (Val 4 [0; 1; 0; 0]));
    try closed; apply val_ok_dec; reflexivity.
Defined.
