(* ===== verification/NodeSearch.v ===== *)
(** * Searching a page: [mdb_node_search] ([src/LegacyDatabase/mdb.c])

    The binary search is verified against the interface [KeyOrder]: on a page
    whose keys are in strictly increasing order it finds the first key that
    is not before the one looked for. *)
From S2P Require Import Prelude.
From S2P Require Import Bytes.
From S2P Require Import Page.
From S2P Require Import PageSpec.
From S2P Require Import NodeOps.
From S2P Require Import Cmp.
From Stdlib Require Import ZArith Lia.
From stdpp Require Import base numbers option list.
Open Scope Z_scope.

(** ** The code *)

(** [while (low <= high)]: probes the key given by [nodekey]; the result is
    the last index probed and its comparison. *)
Fixpoint bsearch (fuel : nat) (cmp : MDB_val -> MDB_val -> option Z) (key : MDB_val)
    (nodekey : Z -> option MDB_val) (low high i rc : Z) : option (Z * Z) :=
  if low <=? high then
    match fuel with
    | O => None
    | S fuel =>
      let i := Z.shiftr (low + high) 1 in
      nk ← nodekey i;
      rc ← cmp key nk;
      if rc =? 0 then Some (i, rc)
      else if 0 <? rc then bsearch fuel cmp key nodekey (i + 1) high i rc
      else bsearch fuel cmp key nodekey low (i - 1) i rc
    end
  else Some (i, rc).

(** The key of node [i], and of slot [i] of a LEAF2 page. *)
Definition node_key (mp : list Z) (i : Z) : option MDB_val :=
  o ← mp_ptr mp i; ks ← NODEKSZ mp o; bs ← bread mp (o + NODESIZE) ks; Some (Val ks bs).

Definition LEAF2KEY (mp : list Z) (i ks : Z) : option MDB_val :=
  bs ← bread mp (PAGEHDRSZ + i * ks) ks; Some (Val ks bs).

Definition is_cint (c : MDB_cmp_func) : bool := match c with cmp_cint => true | _ => false end.

(** The comparator used on the page: integer keys of branch pages are aligned. *)
Definition eff_cmp (mp : list Z) (c : MDB_cmp_func) : option MDB_cmp_func :=
  branch ← IS_BRANCH mp;
  if is_cint c && branch then
    o ← mp_ptr mp 1; ks ← NODEKSZ mp o;
    Some (if ks =? 8 then cmp_long else cmp_int)
  else Some c.

(** Result: the node found (its offset in the page), the index stored in
    the cursor, and [*exactp]. *)
Definition mdb_node_search (mp : list Z) (md_cmp : MDB_cmp_func) (md_pad : Z) (key : MDB_val)
  : option (option Z * Z * bool) :=
  nkeys ← NUMKEYS mp;
  leaf ← IS_LEAF mp;
  leaf2 ← IS_LEAF2 mp;
  let low := if leaf : bool then 0 else 1 in
  let high := nkeys - 1 in
  cmp ← eff_cmp mp md_cmp;
  '(i, rc) ← (if leaf2 : bool
              then bsearch (Z.to_nat nkeys) (run_cmp cmp) key (fun i => LEAF2KEY mp i md_pad) low high 0 0
              else bsearch (Z.to_nat nkeys) (run_cmp cmp) key (node_key mp) low high 0 0);
  node ← (if leaf2 : bool then o ← mp_ptr mp 0; Some (Some o)
          else if low <=? high then o ← mp_ptr mp i; Some (Some o)
          else Some None);
  '(i, node) ← (if 0 <? rc then
                  if leaf2 : bool then Some (i + 1, node)
                  else o ← mp_ptr mp (i + 1); Some (i + 1, Some o)
                else Some (i, node));
  Some (if nkeys <=? i then None else node, i, (rc =? 0) && (0 <? nkeys)).

(** ** The binary search *)

Section Search.
Context (cmp : MDB_val -> MDB_val -> option Z) (D : MDB_val -> Prop) {KO : KeyOrder cmp D}.
Variables (key : MDB_val) (keys : Z -> MDB_val) (nodekey : Z -> option MDB_val) (lo n : Z).
Hypothesis Hkey : D key.
Hypothesis Hkeys : forall j, lo <= j < n -> D (keys j) /\ nodekey j = Some (keys j).
Hypothesis Hsorted : forall j j', lo <= j -> j < j' -> j' < n -> ko_ord (keys j) (keys j') < 0.

(** [p] is the position of the key: before it smaller ones, from it on
    greater or equal ones. *)
Definition position (p : Z) : Prop :=
  (forall j, lo <= j < p -> ko_ord (keys j) key < 0) /\
  (forall j, p <= j < n -> lo <= j -> j = p /\ keys j = key \/ ko_ord key (keys j) < 0).

Lemma bsearch_stop (fuel : nat) (low high i rc : Z) :
  high < low -> bsearch fuel cmp key nodekey low high i rc = Some (i, rc).
Proof. intros. destruct fuel; cbn [bsearch]; by rewrite (proj2 (Z.leb_gt _ _)) by lia. Qed.

Lemma bsearch_ok (fuel : nat) (low high i0 rc0 : Z) :
  lo <= low -> low <= high -> high < n -> high - low < Z.of_nat fuel ->
  (forall j, lo <= j < low -> ko_ord (keys j) key < 0) ->
  (forall j, high < j < n -> ko_ord key (keys j) < 0) ->
  exists i rc, bsearch fuel cmp key nodekey low high i0 rc0 = Some (i, rc) /\ lo <= i < n /\
    position (if 0 <? rc then i + 1 else i) /\
    (rc = 0 /\ keys i = key \/
     rc <> 0 /\ forall j, (if 0 <? rc then i + 1 else i) <= j < n -> ko_ord key (keys j) < 0).
Proof.
  revert low high i0 rc0. induction fuel as [|fuel IH]; intros low high i0 rc0 H1 H2 H3 H4 Hlt Hgt; [lia|].
  cbn [bsearch]. rewrite (proj2 (Z.leb_le _ _)) by lia. rewrite Z.shiftr_div_pow2 by lia.
  change (2 ^ 1) with 2. set (i := (low + high) / 2).
  assert (low <= i <= high) as Hi
    by (unfold i; pose proof (Z.div_mod (low + high) 2); pose proof (Z.mod_pos_bound (low + high) 2); lia).
  destruct (Hkeys i ltac:(lia)) as [Di ->]. cbn [mbind option_bind].
  destruct (ko_run key (keys i) Hkey Di) as (rc & -> & Hs). cbn [mbind option_bind].
  pose proof (ko_anti (keys i) key Di Hkey) as Ha. pose proof (ko_eq key (keys i) Hkey Di) as He.
  destruct (Z.eqb_spec rc 0) as [->|Hrc].
  - assert (key = keys i) as Hk by (apply He; lia). exists i, 0. split_and!; auto; try lia.
    change (0 <? 0) with false. split.
    + intros j Hj. rewrite Hk. apply Hsorted; lia.
    + intros j Hj _. destruct (decide (j = i)) as [->|]; [auto|]. right. rewrite Hk. apply Hsorted; lia.
  - assert (forall j, lo <= j < i -> ko_ord (keys i) key < 0 -> ko_ord (keys j) key < 0) as Hdn.
    { intros j Hj Hk. apply (ko_trans _ (keys i)); auto; [apply Hkeys; lia|apply Hsorted; lia]. }
    assert (forall j, i < j < n -> ko_ord key (keys i) < 0 -> ko_ord key (keys j) < 0) as Hup.
    { intros j Hj Hk. apply (ko_trans _ (keys i)); auto; [apply Hkeys; lia|apply Hsorted; lia]. }
    destruct (Z.ltb_spec 0 rc).
    + assert (forall j, lo <= j < i + 1 -> ko_ord (keys j) key < 0) as Hlt'.
      { intros j Hj. destruct (decide (j = i)) as [->|]; [lia|]. apply Hdn; lia. }
      destruct (Z.le_gt_cases (i + 1) high); [apply (IH (i + 1) high i rc); auto; lia|].
      exists i, rc. rewrite bsearch_stop, (proj2 (Z.ltb_lt _ _)) by lia. split_and!; auto; try lia.
      * split; [done|]. intros j Hj _. right. apply Hgt. lia.
      * right. split; [done|]. intros j Hj. apply Hgt. lia.
    + assert (forall j, i - 1 < j < n -> ko_ord key (keys j) < 0) as Hgt'.
      { intros j Hj. destruct (decide (j = i)) as [->|]; [lia|]. apply Hup; lia. }
      destruct (Z.le_gt_cases low (i - 1)); [apply (IH low (i - 1) i rc); auto; lia|].
      exists i, rc. rewrite bsearch_stop, (proj2 (Z.ltb_ge _ _)) by lia. split_and!; auto; try lia.
      * split; [intros; apply Hlt; lia|]. intros j Hj _. right. apply Hgt'. lia.
      * right. split; [done|]. intros j Hj. apply Hgt'. lia.
Qed.
End Search.

(** ** On a page *)

(** The key of node [k] of a well-formed page. *)
Definition n_key (m : list Z) (k : Z) : MDB_val :=
  let ks := g16 m (p_ptr m k + 6) in Val ks (slice m (p_ptr m k + 8) ks).

Lemma n_key_in (m : list Z) (k : Z) : page_wf m -> 0 <= k < p_num m ->
  0 <= p_ptr m k /\ p_ptr m k + 8 + g16 m (p_ptr m k + 6) <= zlen m /\ 0 <= g16 m (p_ptr m k + 6) < 65536.
Proof.
  intros Hwf Hk. destruct (wf_in _ Hwf k Hk) as [Hlo Hhi]. pose proof (n_size_pos m Hwf (p_ptr m k)) as H8.
  pose proof (wf_bytes _ Hwf) as Hb. pose proof (wf_upper _ Hwf). pose proof (wf_lower _ Hwf).
  pose proof (g16_range m (p_ptr m k + 6) Hb). pose proof (g16_range m (p_ptr m k) Hb).
  pose proof (g16_range m (p_ptr m k + 2) Hb).
  assert (p_ptr m k + 8 <= zlen m) by lia. split_and!; try lia. unfold n_size, hdr_size in Hhi. rewrite !(g16_slice m), Z.add_0_r in Hhi by lia.
  match type of Hhi with context [EVEN ?x] => pose proof (EVEN_bounds x) end.
  destruct (p_leaf m); [destruct (F_ISSET _ _)|]; lia.
Qed.

Lemma node_key_ok (m : list Z) (k : Z) : page_wf m -> 0 <= k < p_num m ->
  node_key m k = Some (n_key m k) /\ val_ok (n_key m k) /\ mv_size (n_key m k) < 65536.
Proof.
  intros Hwf Hk. destruct (n_key_in m k Hwf Hk) as (Hp & Hh & Hks). split.
  - unfold node_key, NODEKSZ, NODESIZE. rewrite mp_ptr_ok by done. cbn [mbind option_bind].
    rewrite get16_in by lia. cbn [mbind option_bind]. by rewrite bread_in by lia.
  - unfold n_key. cbn [mv_size]. split; [|lia]. split; cbn [mv_size mv_data].
    + by rewrite zlen_slice by lia.
    + apply slice_bytes, Hwf.
Qed.

(** First index searched: the key of node 0 of a branch page is not used. *)
Definition first_key (m : list Z) : Z := if p_leaf m then 0 else 1.

(** The keys from [first_key] on are increasing. *)
Definition keys_sorted {cmp D} {KO : KeyOrder cmp D} (m : list Z) : Prop :=
  (forall j, first_key m <= j < p_num m -> D (n_key m j)) /\
  (forall j j', first_key m <= j -> j < j' -> j' < p_num m -> ko_ord (n_key m j) (n_key m j') < 0).
Arguments keys_sorted {cmp D} KO m.

Lemma mp_ptr_next (m : list Z) (i : Z) :
  page_wf m -> 0 <= i < p_num m -> exists o, mp_ptr m (i + 1) = Some o /\
    (i + 1 < p_num m -> o = p_ptr m (i + 1)).
Proof.
  intros Hwf Hi. unfold mp_ptr, PAGEHDRSZ. destruct (wf_in _ Hwf i Hi) as [? ?].
  pose proof (n_size_pos m Hwf (p_ptr m i)). pose proof (wf_upper _ Hwf). pose proof (wf_lower _ Hwf).
  rewrite get16_in by lia. eexists. split; [done|]. done.
Qed.

Lemma node_search_ok (m : list Z) (c c' : MDB_cmp_func) (D : MDB_val -> Prop)
    (KO : KeyOrder (run_cmp c') D) (md_pad : Z) (key : MDB_val) :
  page_wf m -> eff_cmp m c = Some c' -> (p_leaf m = true \/ 1 < p_num m) -> D key ->
  keys_sorted KO m ->
  exists p exact,
    mdb_node_search m c md_pad key =
      Some (if p <? p_num m then Some (p_ptr m p) else None, p, exact) /\
    first_key m <= p <= p_num m /\
    (forall j, first_key m <= j < p -> ko_ord (n_key m j) key < 0) /\
    (forall j, p <= j < p_num m -> j = p /\ exact = true \/ ko_ord key (n_key m j) < 0) /\
    (exact = true <-> p < p_num m /\ n_key m p = key).
Proof.
  intros Hwf Hc Hn Hkey [HD Hs]. unfold mdb_node_search.
  rewrite (NUMKEYS_ok m), (IS_LEAF_ok m), (IS_LEAF2_ok m), Hc by done. cbn [mbind option_bind].
  pose proof (wf_num _ Hwf). fold (first_key m).
  assert (0 <= first_key m <= 1) by (unfold first_key; destruct (p_leaf m); lia).
  destruct (Z.leb_spec (first_key m) (p_num m - 1)) as [Hle|Hgt].
  2: { assert (p_leaf m = true) as Hl by (unfold first_key in Hgt; destruct (p_leaf m); [done|lia]).
       unfold first_key in *. rewrite Hl in *. assert (p_num m = 0) as -> by lia.
       exists 0, false. cbn. split_and!; try lia; try done; intros; lia. }
  destruct (bsearch_ok (run_cmp c') D key (n_key m) (node_key m) (first_key m) (p_num m) Hkey
    (fun j Hj => conj (HD j Hj) (proj1 (node_key_ok m j Hwf ltac:(lia)))) Hs
    (Z.to_nat (p_num m)) (first_key m) (p_num m - 1) 0 0) as (i & rc & -> & Hi & Hp & Hx); try lia.
  cbn [mbind option_bind]. rewrite (mp_ptr_ok m Hwf i) by lia. cbn [mbind option_bind].
  destruct (mp_ptr_next m i Hwf ltac:(lia)) as (o & Ho & Ho').
  exists (if 0 <? rc then i + 1 else i), (rc =? 0). destruct Hp as [Hp1 Hp2].
  rewrite (proj2 (Z.ltb_lt 0 (p_num m))), andb_true_r by lia.
  split_and!; auto; try (destruct (0 <? rc); lia).
  - destruct (Z.ltb_spec 0 rc); rewrite ?Ho; cbn [mbind option_bind].
    + destruct (Z.leb_spec (p_num m) (i + 1)), (Z.ltb_spec (i + 1) (p_num m)); try lia; [done|].
      by rewrite Ho'.
    + by rewrite (proj2 (Z.leb_gt _ _)), (proj2 (Z.ltb_lt _ _)) by lia.
  - intros j Hj. destruct Hx as [[-> Hk]|[Hrc Hx]]; [|right; apply Hx; lia].
    change (0 <? 0) with false in *; cbv iota in *. destruct (Hp2 j ltac:(lia) ltac:(lia)) as [[-> _]|]; auto.
  - rewrite Z.eqb_eq. destruct Hx as [[-> Hk]|[Hrc Hx]]; [change (0 <? 0) with false; cbv iota; intuition lia|].
    split; [done|]. intros [Hlt Hk]. specialize (Hx _ (conj (Z.le_refl _) Hlt)). rewrite Hk in Hx.
    pose proof (ko_anti key key Hkey Hkey). lia.
Qed.

(** C16: on a well-formed page with increasing keys, [mdb_node_search] returns
    the position of the first key that is not before the one looked for (the
    leftmost key of a branch page is not compared), the node there or none
    past the end, and reports an exact match exactly when that key is equal. *)
Theorem mdb_node_search_correct (m : list Z) (c c' : MDB_cmp_func) (D : MDB_val -> Prop)
    (KO : KeyOrder (run_cmp c') D) (md_pad : Z) (key : MDB_val) :
  page_wf m -> eff_cmp m c = Some c' -> (p_leaf m = true \/ 1 < p_num m) -> D key ->
  keys_sorted KO m ->
  exists p exact,
    mdb_node_search m c md_pad key =
      Some (if p <? p_num m then Some (p_ptr m p) else None, p, exact) /\
    first_key m <= p <= p_num m /\
    (forall j, first_key m <= j < p -> ko_ord (n_key m j) key < 0) /\
    (forall j, p <= j < p_num m -> j = p /\ exact = true \/ ko_ord key (n_key m j) < 0) /\
    (exact = true <-> p < p_num m /\ n_key m p = key).
Proof. apply node_search_ok. Qed.

Lemma mdb_node_search_witness : exists p exact,
  mdb_node_search leaf64 cmp_memn 0 (Val 1 [7]) =
    Some (if p <? 2 then Some (p_ptr leaf64 p) else None, p, exact) /\
  0 <= p <= 2 /\
  (forall j, 0 <= j < p -> lex_ord (n_key leaf64 j) (Val 1 [7]) < 0) /\
  (forall j, p <= j < 2 -> j = p /\ exact = true \/ lex_ord (Val 1 [7]) (n_key leaf64 j) < 0) /\
  (exact = true <-> p < 2 /\ n_key leaf64 p = Val 1 [7]).
Proof.
  apply (mdb_node_search_correct leaf64 cmp_memn cmp_memn short cmp_memn_order 0 (Val 1 [7]));
    [apply leaf64_wf|reflexivity|left; reflexivity|split; [apply val_ok_dec; reflexivity|closed]|].
  split.
  - intros j Hj. change (first_key leaf64) with 0 in Hj. change (p_num leaf64) with 2 in Hj.
    assert (j = 0 \/ j = 1) as [->| ->] by lia; split; try closed; apply val_ok_dec; reflexivity.
  - intros j j' Hj Hjj Hj'. change (first_key leaf64) with 0 in Hj. change (p_num leaf64) with 2 in Hj'.
    assert (j = 0 /\ j' = 1) as [-> ->] by lia. closed.
Defined.
