(* ===== verification/Cursor.v ===== *)
(** * Cursors: walking the B+tree ([src/LegacyDatabase/mdb.c])

    Page lookup, descent from the root, siblings, and the cursor operations
    on a database without [MDB_DUPSORT] ([mc_xcursor] is [NULL], so following
    it is undefined: [None]).  The pages come from [get], the block of memory
    that [mdb_page_get] finds for a page number (a run of pages for an
    overflow page), or [None] when there is no such page.  [None] as the
    result of an operation is undefined behaviour, a failed assertion or
    exhausted fuel. *)
From S2P Require Import Prelude.
From S2P Require Import Bytes.
From S2P Require Import Page.
From S2P Require Import PageSpec.
From S2P Require Import NodeOps.
From S2P Require Import Cmp.
From S2P Require Import NodeSearch.
From Stdlib Require Import ZArith Lia.
From stdpp Require Import base numbers option list.
Open Scope Z_scope.

Definition CURSOR_STACK : Z := 32.
Definition C_INITIALIZED : Z := 0x01.
Definition C_EOF : Z := 0x02.
Definition C_DEL : Z := 0x08.
Definition MDB_TXN_ERROR : Z := 0x02.
Definition MDB_PS_ROOTONLY : Z := 2.
Definition MDB_PS_FIRST : Z := 4.
Definition MDB_PS_LAST : Z := 8.
Definition MDB_SUCCESS : Z := 0.
Definition EINVAL : Z := 22.
Definition MDB_NOTFOUND : Z := -30798.
Definition MDB_PAGE_NOTFOUND : Z := -30797.
Definition MDB_CORRUPTED : Z := -30796.
Definition MDB_CURSOR_FULL : Z := -30787.
Definition MDB_INCOMPATIBLE : Z := -30784.
Definition MDB_BAD_TXN : Z := -30782.
Definition MDB_BAD_VALSIZE : Z := -30781.
Definition P_INVALID : Z := 2 ^ 64 - 1.

(** A cursor and the flags of its transaction.  An empty block in [mc_pg] is
    a null pointer. *)
Record cursor := Cursor {
  mc_snum : Z;
  mc_top : Z;
  mc_pg : list (list Z);
  mc_ki : list Z;
  mc_flags : Z;
  mt_flags : Z
}.

Definition set_stack (c : cursor) (snum top : Z) : cursor :=
  Cursor snum top (mc_pg c) (mc_ki c) (mc_flags c) (mt_flags c).
Definition set_flags (c : cursor) (f : Z) : cursor :=
  Cursor (mc_snum c) (mc_top c) (mc_pg c) (mc_ki c) f (mt_flags c).
Definition set_txn_error (c : cursor) : cursor :=
  Cursor (mc_snum c) (mc_top c) (mc_pg c) (mc_ki c) (mc_flags c) (Z.lor (mt_flags c) MDB_TXN_ERROR).
(** [mc->mc_ki[mc->mc_top] = i] *)
Definition set_ki (c : cursor) (i : Z) : option cursor :=
  ki ← aset (mc_ki c) (mc_top c) (u16 i);
  Some (Cursor (mc_snum c) (mc_top c) (mc_pg c) ki (mc_flags c) (mt_flags c)).
Definition set_pg (c : cursor) (k : Z) (mp : list Z) : option cursor :=
  pg ← aset (mc_pg c) k mp;
  Some (Cursor (mc_snum c) (mc_top c) pg (mc_ki c) (mc_flags c) (mt_flags c)).
Definition top_ki (c : cursor) : option Z := aget (mc_ki c) (mc_top c).
Definition top_pg (c : cursor) : option (list Z) :=
  mp ← aget (mc_pg c) (mc_top c); match mp with [] => None | _ => Some mp end.
Definition or_flag (c : cursor) (f : Z) : cursor := set_flags c (Z.lor (mc_flags c) f).
Definition clear_flag (c : cursor) (f : Z) : cursor := set_flags c (Z.land (mc_flags c) (Z.lnot f)).

(** ** mdb_cursor_pop, mdb_cursor_push *)

Definition mdb_cursor_pop (c : cursor) : cursor :=
  if nz (mc_snum c) then
    let snum := mc_snum c - 1 in
    set_stack c snum (if nz snum then mc_top c - 1 else mc_top c)
  else c.

Definition mdb_cursor_push (c : cursor) (mp : list Z) : option (Z * cursor) :=
  if CURSOR_STACK <=? mc_snum c then Some (MDB_CURSOR_FULL, set_txn_error c)
  else
    let c := set_stack c (mc_snum c + 1) (mc_snum c) in
    c ← set_pg c (mc_top c) mp;
    c ← set_ki c 0;
    Some (MDB_SUCCESS, c).

(** The offset of the node's data. *)
Definition NODEDATA (mp : list Z) (o : Z) : option Z :=
  ks ← NODEKSZ mp o; Some (o + NODESIZE + ks).

(** What a cursor operation stores through [key] and [data]. *)
Record outcome := Out { o_rc : Z; o_key : option MDB_val; o_data : option MDB_val; o_cur : cursor }.
Definition fail (rc : Z) (c : cursor) : option outcome := Some (Out rc None None c).

Inductive MDB_cursor_op :=
  | MDB_FIRST | MDB_FIRST_DUP | MDB_GET_BOTH | MDB_GET_BOTH_RANGE | MDB_GET_CURRENT
  | MDB_GET_MULTIPLE | MDB_LAST | MDB_LAST_DUP | MDB_NEXT | MDB_NEXT_DUP | MDB_NEXT_MULTIPLE
  | MDB_NEXT_NODUP | MDB_PREV | MDB_PREV_DUP | MDB_PREV_NODUP | MDB_SET | MDB_SET_KEY | MDB_SET_RANGE.

Section Db.
(** The database: [get], comparator, [md_pad], [md_root]. *)
Variable get : Z -> option (list Z).
Variables (md_cmp : MDB_cmp_func) (md_pad md_root : Z).

(** Result of [mdb_page_get]: a page, or [MDB_PAGE_NOTFOUND] with the
    transaction marked as failed. *)
Definition page_get (c : cursor) (pgno : Z) : (list Z) + (Z * cursor) :=
  match get pgno with
  | Some p => inl p
  | None => inr (MDB_PAGE_NOTFOUND, set_txn_error c)
  end.

(** ** mdb_page_search_root *)

(** The child to follow from branch page [mp]. *)
Definition choose_child (c : cursor) (mp : list Z) (key : option MDB_val) (flags nkeys : Z)
  : option (Z * cursor) :=
  if nz (Z.land flags (Z.lor MDB_PS_FIRST MDB_PS_LAST)) then
    Some (if nz (Z.land flags MDB_PS_LAST) then u16 (nkeys - 1) else 0, c)
  else
    k ← key;
    '(node, ki, exact) ← mdb_node_search mp md_cmp md_pad k;
    c ← set_ki c ki;
    match node with
    | None => Some (u16 (nkeys - 1), c)
    | Some _ =>
      i ← top_ki c;
      if exact : bool then Some (i, c) else if i <=? 0 then None else Some (i - 1, c)
    end.

Fixpoint search_root_loop (fuel : nat) (c : cursor) (mp : list Z) (key : option MDB_val) (flags : Z)
  : option (Z * cursor) :=
  branch ← IS_BRANCH mp;
  if branch : bool then
    match fuel with
    | O => None
    | S fuel =>
      nkeys ← NUMKEYS mp;
      if nkeys <=? 1 then None
      else
      '(i, c) ← choose_child c mp key flags nkeys;
      if nkeys <=? i then None
      else
      o ← mp_ptr mp i;
      pgno ← NODEPGNO mp o;
      match page_get c pgno with
      | inr (rc, c) => Some (rc, c)
      | inl mp' =>
        c ← set_ki c i;
        '(rc, c) ← mdb_cursor_push c mp';
        if nz rc then Some (rc, c) else search_root_loop fuel c mp' key flags
      end
    end
  else
    leaf ← IS_LEAF mp;
    if negb leaf then Some (MDB_CORRUPTED, set_txn_error c)
    else Some (MDB_SUCCESS, clear_flag (or_flag c C_INITIALIZED) C_EOF).

(** Each round but the last pushes a page, and the stack has 32 cells. *)
Definition mdb_page_search_root (c : cursor) (key : option MDB_val) (flags : Z) : option (Z * cursor) :=
  mp ← top_pg c; search_root_loop 33 c mp key flags.

Definition mdb_page_search_lowest (c : cursor) : option (Z * cursor) :=
  mp ← top_pg c;
  o ← mp_ptr mp 0;
  pgno ← NODEPGNO mp o;
  match page_get c pgno with
  | inr (rc, c) => Some (rc, c)
  | inl mp' =>
    c ← set_ki c 0;
    '(rc, c) ← mdb_cursor_push c mp';
    if nz rc then Some (rc, c) else mdb_page_search_root c None MDB_PS_FIRST
  end.

(** ** mdb_page_search, for an up-to-date database record and without
    [MDB_PS_MODIFY] *)
Definition mdb_page_search (c : cursor) (key : option MDB_val) (flags : Z) : option (Z * cursor) :=
  if F_ISSET (mt_flags c) MDB_TXN_ERROR then Some (MDB_BAD_TXN, c)
  else if md_root =? P_INVALID then Some (MDB_NOTFOUND, c)
  else if md_root <=? 1 then None
  else
  pg0 ← aget (mc_pg c) 0;
  same ← match pg0 with [] => Some false | _ => p ← get64 pg0 0; Some (p =? md_root) end;
  let finish c :=
    let c := set_stack c 1 0 in
    if nz (Z.land flags MDB_PS_ROOTONLY) then Some (MDB_SUCCESS, c)
    else mdb_page_search_root c key flags in
  if same : bool then finish c
  else match page_get c md_root with
       | inr (rc, c) => Some (rc, c)
       | inl mp => c ← set_pg c 0 mp; finish c
       end.

(** ** mdb_node_read *)
Definition mdb_node_read (c : cursor) (mp : list Z) (o : Z) : option (MDB_val + (Z * cursor)) :=
  fl ← get16 mp (o + 4);
  dsz ← NODEDSZ mp o;
  dp ← NODEDATA mp o;
  if negb (F_ISSET fl F_BIGDATA) then
    bs ← bread mp dp dsz; Some (inl (Val dsz bs))
  else
    pgno ← get64 mp dp;
    match page_get c pgno with
    | inr e => Some (inr e)
    | inl omp => bs ← bread omp PAGEHDRSZ dsz; Some (inl (Val dsz bs))
    end.

(** The key of the node at offset [o]. *)
Definition key_at (mp : list Z) (o : Z) : option MDB_val :=
  ks ← NODEKSZ mp o; bs ← bread mp (o + NODESIZE) ks; Some (Val ks bs).

(** Storing key and data of a leaf node; the data only when the caller wants
    it.  A list of duplicates needs the sub-cursor, which [init1] says is set
    up even if the data is not wanted. *)
Definition read_node (c : cursor) (mp : list Z) (o : Z) (init1 want_key want_data : bool) : option outcome :=
  fl ← get16 mp (o + 4);
  if F_ISSET fl F_DUPDATA && (init1 || want_data) then None
  else
  d ← (if want_data then r ← mdb_node_read c mp o; Some (Some r) else Some None);
  match d with
  | Some (inr (rc, c)) => fail rc c
  | Some (inl v) =>
    k ← (if want_key then k ← key_at mp o; Some (Some k) else Some None);
    Some (Out MDB_SUCCESS k (Some v) c)
  | None =>
    k ← (if want_key then k ← key_at mp o; Some (Some k) else Some None);
    Some (Out MDB_SUCCESS k None c)
  end.

(** ** mdb_cursor_sibling *)
Fixpoint mdb_cursor_sibling (fuel : nat) (c : cursor) (move_right : bool) : option (Z * cursor) :=
  if mc_snum c <? 2 then Some (MDB_NOTFOUND, c)
  else
  match fuel with
  | O => None
  | S fuel =>
    let c := mdb_cursor_pop c in
    mp ← top_pg c;
    nkeys ← NUMKEYS mp;
    ki ← top_ki c;
    '(rc, c) ← (if if move_right then nkeys <=? ki + 1 else ki =? 0 then
                  '(rc, c) ← mdb_cursor_sibling fuel c move_right;
                  Some (rc, if nz rc then set_stack c (mc_snum c + 1) (mc_top c + 1) else c)
                else
                  c ← set_ki c (if move_right then ki + 1 else ki - 1); Some (MDB_SUCCESS, c));
    if nz rc then Some (rc, c)
    else
    mp ← top_pg c;
    branch ← IS_BRANCH mp;
    if negb branch then None
    else
    ki ← top_ki c;
    o ← mp_ptr mp ki;
    pgno ← NODEPGNO mp o;
    match page_get c pgno with
    | inr (rc, c) => Some (rc, clear_flag c (Z.lor C_INITIALIZED C_EOF))
    | inl mp' =>
      '(_, c) ← mdb_cursor_push c mp';
      if move_right then Some (MDB_SUCCESS, c)
      else n ← NUMKEYS mp'; c ← set_ki c (n - 1); Some (MDB_SUCCESS, c)
    end
  end.
Definition sibling (c : cursor) (move_right : bool) := mdb_cursor_sibling 32 c move_right.

(** The current item; [next] tells the code shared by [mdb_cursor_next] and
    [mdb_cursor_prev], which checks the page and sets up the sub-cursor. *)
Definition read_current (next : bool) (c : cursor) (want_data : bool) : option outcome :=
  mp ← top_pg c;
  ki ← top_ki c;
  leaf2 ← IS_LEAF2 mp;
  if leaf2 : bool then
    k ← LEAF2KEY mp ki md_pad; Some (Out MDB_SUCCESS (Some k) None c)
  else
    leaf ← IS_LEAF mp;
    if next && negb leaf then None
    else o ← mp_ptr mp ki; read_node c mp o next true want_data.

(** ** mdb_cursor_next, mdb_cursor_prev *)
Definition mdb_cursor_next (c : cursor) (want_data : bool) : option outcome :=
  if nz (Z.land (mc_flags c) C_EOF) then fail MDB_NOTFOUND c
  else if negb (nz (Z.land (mc_flags c) C_INITIALIZED)) then None
  else
  mp ← top_pg c;
  if nz (Z.land (mc_flags c) C_DEL) then read_current true c want_data
  else
  ki ← top_ki c;
  nkeys ← NUMKEYS mp;
  if nkeys <=? ki + 1 then
    '(rc, c) ← sibling c true;
    if nz rc then fail rc (or_flag c C_EOF) else read_current true c want_data
  else c ← set_ki c (ki + 1); read_current true c want_data.

Definition mdb_cursor_prev (c : cursor) (want_data : bool) : option outcome :=
  if negb (nz (Z.land (mc_flags c) C_INITIALIZED)) then None
  else
  mp ← top_pg c;
  ki ← top_ki c;
  if ki =? 0 then
    '(rc, c) ← sibling c false;
    if nz rc then fail rc c
    else
    mp ← top_pg c;
    n ← NUMKEYS mp;
    c ← set_ki c (n - 1);
    read_current true (clear_flag c C_EOF) want_data
  else c ← set_ki c (ki - 1); read_current true (clear_flag c C_EOF) want_data.

(** ** mdb_cursor_first, mdb_cursor_last *)
Definition mdb_cursor_first (c : cursor) (want_data : bool) : option outcome :=
  '(rc, c) ← (if negb (nz (Z.land (mc_flags c) C_INITIALIZED)) || nz (mc_top c)
              then mdb_page_search c None MDB_PS_FIRST else Some (MDB_SUCCESS, c));
  if nz rc then fail rc c
  else
  mp ← top_pg c;
  leaf ← IS_LEAF mp;
  if negb leaf then None
  else
  c ← set_ki (clear_flag (or_flag c C_INITIALIZED) C_EOF) 0;
  read_current false c want_data.

Definition mdb_cursor_last (c : cursor) (want_data : bool) : option outcome :=
  '(rc, c) ← (if negb (nz (Z.land (mc_flags c) C_EOF)) then
                '(rc, c) ← (if negb (nz (Z.land (mc_flags c) C_INITIALIZED)) || nz (mc_top c)
                            then mdb_page_search c None MDB_PS_LAST else Some (MDB_SUCCESS, c));
                if nz rc then Some (rc, c)
                else mp ← top_pg c; leaf ← IS_LEAF mp; if negb leaf then None else Some (rc, c)
              else Some (MDB_SUCCESS, c));
  if nz rc then fail rc c
  else
  mp ← top_pg c;
  n ← NUMKEYS mp;
  c ← set_ki c (n - 1);
  read_current false (or_flag c (Z.lor C_INITIALIZED C_EOF)) want_data.

(** ** mdb_cursor_set *)

(** Key of slot [i] of the top page. *)
Definition slot_key (mp : list Z) (i : Z) : option MDB_val :=
  fl ← mp_flags mp;
  if nz (Z.land fl P_LEAF2) then LEAF2KEY mp i md_pad else node_key mp i.

(** Label [set1]: the cursor is on the item. *)
Definition set1 (c : cursor) (op : MDB_cursor_op) (want_data : bool) : option outcome :=
  let c := clear_flag (or_flag c C_INITIALIZED) C_EOF in
  let want_key := match op with MDB_SET_RANGE | MDB_SET_KEY => true | _ => false end in
  mp ← top_pg c;
  ki ← top_ki c;
  leaf2 ← IS_LEAF2 mp;
  if leaf2 : bool then
    k ← (if want_key then k ← LEAF2KEY mp ki md_pad; Some (Some k) else Some None);
    Some (Out MDB_SUCCESS k None c)
  else o ← mp_ptr mp ki; read_node c mp o true want_key want_data.

(** Label [set2]: search the top page; [exactp] tells whether the caller
    asked for an exact match. *)
Definition set2 (c : cursor) (key : MDB_val) (op : MDB_cursor_op) (exactp want_data : bool) : option outcome :=
  mp ← top_pg c;
  '(leaf, ki, exact) ← mdb_node_search mp md_cmp md_pad key;
  c ← set_ki c ki;
  if exactp && negb exact then fail MDB_NOTFOUND c
  else
  match leaf with
  | Some _ => set1 c op want_data
  | None =>
    '(rc, c) ← sibling c true;
    if nz rc then fail rc c
    else
    mp ← top_pg c;
    leaf ← IS_LEAF mp;
    if negb leaf then None else set1 c op want_data
  end.

Definition set_search (c : cursor) (key : MDB_val) (op : MDB_cursor_op) (exactp want_data : bool) : option outcome :=
  '(rc, c) ← mdb_page_search c (Some key) 0;
  if nz rc then fail rc c
  else
  mp ← top_pg c;
  leaf ← IS_LEAF mp;
  if negb leaf then None else set2 c key op exactp want_data.

(** [for (i=0; i<mc->mc_top; i++) if (mc_ki[i] < NUMKEYS(mc_pg[i])-1) break;
    i == mc_top] *)
Fixpoint no_right (fuel : nat) (c : cursor) (i : Z) : option bool :=
  if i <? mc_top c then
    match fuel with
    | O => None
    | S fuel =>
      mp ← aget (mc_pg c) i; n ← NUMKEYS mp; ki ← aget (mc_ki c) i;
      if ki <? u32 (n - 1) then Some false else no_right fuel c (i + 1)
    end
  else Some true.

(** The part for an initialised cursor that finds nothing on its page. *)
Definition set_other (c : cursor) (key : MDB_val) (op : MDB_cursor_op) (exactp want_data : bool) : option outcome :=
  if negb (nz (mc_top c)) then
    c ← set_ki c 0;
    match op with
    | MDB_SET_RANGE => if exactp then fail MDB_NOTFOUND c else set1 c op want_data
    | _ => fail MDB_NOTFOUND c
    end
  else set_search c key op exactp want_data.

Definition mdb_cursor_set (c : cursor) (key : MDB_val) (op : MDB_cursor_op) (exactp want_data : bool)
  : option outcome :=
  if mv_size key =? 0 then fail MDB_BAD_VALSIZE c
  else if negb (nz (Z.land (mc_flags c) C_INITIALIZED)) then set_search c key op exactp want_data
  else
  mp ← top_pg c;
  nkeys ← NUMKEYS mp;
  if nkeys =? 0 then c ← set_ki c 0; fail MDB_NOTFOUND c
  else
  nodekey ← slot_key mp 0;
  rc ← run_cmp md_cmp key nodekey;
  if rc =? 0 then c ← set_ki c 0; set1 c op want_data
  else if 0 <? rc then
    let right c :=
      none ← no_right 32 c 0;
      if none : bool then c ← set_ki c nkeys; fail MDB_NOTFOUND c
      else set_other c key op exactp want_data in
    if 1 <? nkeys then
      nodekey ← slot_key mp (nkeys - 1);
      rc ← run_cmp md_cmp key nodekey;
      if rc =? 0 then c ← set_ki c (nkeys - 1); set1 c op want_data
      else if rc <? 0 then
        ki ← top_ki c;
        if ki <? nkeys then
          nodekey ← slot_key mp ki;
          rc ← run_cmp md_cmp key nodekey;
          if rc =? 0 then set1 c op want_data else set2 c key op exactp want_data
        else set2 c key op exactp want_data
      else right c
    else right c
  else set_other c key op exactp want_data.

(** ** mdb_cursor_init, mdb_get *)
Definition mdb_cursor_init (mt_flags : Z) : cursor :=
  Cursor 0 0 (replicate 32 []) (replicate 32 0) 0 mt_flags.

(** The key and the place for the data are values, not pointers that can be
    null, and the database handle is valid and not the one of the free-page
    database: the calls that return [EINVAL] at once are left out. *)
Definition mdb_get (mt_flags : Z) (key : MDB_val) : option outcome :=
  let c := mdb_cursor_init mt_flags in
  if nz (Z.land mt_flags MDB_TXN_ERROR) then fail MDB_BAD_TXN c
  else mdb_cursor_set c key MDB_SET true true.

(** ** mdb_cursor_get *)
Definition mdb_cursor_get (c : cursor) (key : option MDB_val) (want_data : bool) (op : MDB_cursor_op)
  : option outcome :=
  if nz (Z.land (mt_flags c) MDB_TXN_ERROR) then fail MDB_BAD_TXN c
  else
  r ← match op with
      | MDB_GET_CURRENT =>
        if negb (nz (Z.land (mc_flags c) C_INITIALIZED)) then fail EINVAL c
        else
        mp ← top_pg c; nkeys ← NUMKEYS mp; ki ← top_ki c;
        if (nkeys =? 0) || (nkeys <=? ki) then c ← set_ki c nkeys; fail MDB_NOTFOUND c
        else
        leaf2 ← IS_LEAF2 mp;
        if leaf2 : bool then k ← LEAF2KEY mp ki md_pad; Some (Out MDB_SUCCESS (Some k) None c)
        else o ← mp_ptr mp ki; read_node c mp o false true want_data
      | MDB_GET_BOTH | MDB_GET_BOTH_RANGE | MDB_NEXT_MULTIPLE =>
        fail (if want_data then MDB_INCOMPATIBLE else EINVAL) c
      | MDB_GET_MULTIPLE | MDB_FIRST_DUP | MDB_LAST_DUP =>
        fail (if negb want_data || negb (nz (Z.land (mc_flags c) C_INITIALIZED))
              then EINVAL else MDB_INCOMPATIBLE) c
      | MDB_SET | MDB_SET_KEY =>
        match key with None => fail EINVAL c | Some k => mdb_cursor_set c k op true want_data end
      | MDB_SET_RANGE =>
        match key with None => fail EINVAL c | Some k => mdb_cursor_set c k op false want_data end
      | MDB_NEXT | MDB_NEXT_DUP | MDB_NEXT_NODUP =>
        if negb (nz (Z.land (mc_flags c) C_INITIALIZED)) then mdb_cursor_first c want_data
        else mdb_cursor_next c want_data
      | MDB_PREV | MDB_PREV_DUP | MDB_PREV_NODUP =>
        if negb (nz (Z.land (mc_flags c) C_INITIALIZED)) then
          r ← mdb_cursor_last c want_data;
          if nz (o_rc r) then Some r
          else
          ki ← top_ki (o_cur r);
          c ← set_ki (or_flag (o_cur r) C_INITIALIZED) (ki + 1);
          mdb_cursor_prev c want_data
        else mdb_cursor_prev c want_data
      | MDB_FIRST => mdb_cursor_first c want_data
      | MDB_LAST => mdb_cursor_last c want_data
      end;
  let c := o_cur r in
  Some (Out (o_rc r) (o_key r) (o_data r)
    (if nz (Z.land (mc_flags c) C_DEL) then set_flags c (Z.lxor (mc_flags c) C_DEL) else c)).
End Db.
