(* ===== verification/PageList.v ===== *)
(** * Pages of a transaction ([src/LegacyDatabase/mdb.c])

    Where a transaction finds its pages ([mdb_page_get]) and which list a
    page goes to when it is written, given up or freed: the dirty list, the
    loose pages, the freed pages of the transaction ([mt_free_pgs]) and the
    reclaimed free pages of the environment ([me_pghead]).  [None] is an
    access outside of a list or a failed assertion. *)
From S2P Require Import Prelude.
From S2P Require Import Midl.
From S2P Require Import Page.
From S2P Require Import Cmp.
From S2P Require Import Cursor.
From Stdlib Require Import ZArith Lia.
From stdpp Require Import base numbers option list.
Open Scope Z_scope.

Definition MDB_TXN_RDONLY : Z := 0x01.
Definition MDB_WRITEMAP : Z := 0x80000.
Definition P_LOOSE : Z := 0x4000.
Definition FREE_DBI : Z := 0.

(** A page in memory of its own, or in the map. *)
Inductive page_ptr := Heap (p : Z) | Mapped (pgno : Z).

(** The lists of one transaction that [mdb_page_get] looks at. *)
Record txn_pages := TxnPages { mt_spill_pgs : option (list Z); dirty_list : list MDB_ID2 }.

(** ** mdb_page_get *)

Definition spill_search (spill : option (list Z)) (pn : Z) : option (option Z) :=
  match spill with
  | None => Some None
  | Some sl =>
    x ← mdb_midl_search sl pn;
    n ← aget sl 0;
    if x <=? n then y ← aget sl x; Some (if y =? pn then Some x else None) else Some None
  end.

Definition dirty_search (dl : list MDB_ID2) (pgno : Z) : option (option MDB_ID2) :=
  c0 ← aget dl 0;
  if nz (mid c0) then
    x ← mdb_mid2l_search dl pgno;
    if x <=? mid c0 then e ← aget dl x; Some (if mid e =? pgno then Some e else None) else Some None
  else Some None.

(** The loop over the transaction and its ancestors. *)
Fixpoint get_loop (chain : list txn_pages) (pgno level : Z) : option (option (page_ptr * Z)) :=
  match chain with
  | [] => Some None
  | tx2 :: chain =>
    s ← spill_search (mt_spill_pgs tx2) (u64 (Z.shiftl pgno 1));
    match s with
    | Some _ => Some (Some (Mapped pgno, level))
    | None =>
      d ← dirty_search (dirty_list tx2) pgno;
      match d with
      | Some e => Some (Some (Heap (mptr e), level))
      | None => get_loop chain pgno (level + 1)
      end
    end
  end.

(** [chain]: the transaction and its ancestors.  Result: the return code, the
    page with its level, and the transaction's flags. *)
Definition mdb_page_get (mt_flags me_flags : Z) (chain : list txn_pages) (mt_next_pgno pgno : Z)
  : option (Z * option (page_ptr * Z) * Z) :=
  r ← (if negb (nz (Z.lor (Z.land mt_flags MDB_TXN_RDONLY) (Z.land me_flags MDB_WRITEMAP)))
       then get_loop chain pgno 1 else Some None);
  match r with
  | Some p => Some (MDB_SUCCESS, Some p, mt_flags)
  | None =>
    if pgno <? mt_next_pgno then Some (MDB_SUCCESS, Some (Mapped pgno, 0), mt_flags)
    else Some (MDB_PAGE_NOTFOUND, None, Z.lor mt_flags MDB_TXN_ERROR)
  end.

(** ** mdb_page_dirty *)

Definition mdb_page_dirty (me_flags : Z) (dl : list MDB_ID2) (mt_dirty_room : Z) (pgno mp : Z)
  : option (list MDB_ID2 * Z) :=
  '(rc, dl) ← (if nz (Z.land me_flags MDB_WRITEMAP) then mdb_mid2l_append else mdb_mid2l_insert) dl (ID2 pgno mp);
  if negb (rc =? 0) then None else Some (dl, u32 (mt_dirty_room - 1)).

(** ** mdb_find_oldest *)

(** A slot of the reader table: process and transaction. *)
Record MDB_reader := Reader { mr_pid : Z; mr_txnid : Z }.
#[export] Instance reader_inhabited : Inhabited MDB_reader := populate (Reader 0 0).

(** [for (i = numreaders; --i >= 0; )]: from the last reader to the first. *)
Fixpoint oldest_loop (i : nat) (r : list MDB_reader) (oldest : Z) : option Z :=
  match i with
  | O => Some oldest
  | S i =>
    x ← aget r (Z.of_nat i);
    oldest_loop i r (if nz (mr_pid x) then if mr_txnid x <? oldest then mr_txnid x else oldest else oldest)
  end.

(** [readers]: the reader table and its size, or no table. *)
Definition mdb_find_oldest (mt_txnid : Z) (readers : option (list MDB_reader * Z)) : option Z :=
  let oldest := u64 (mt_txnid - 1) in
  match readers with
  | None => Some oldest
  | Some (r, n) => oldest_loop (Z.to_nat n) r oldest
  end.

(** ** mdb_page_loose *)

Section Alloc.
Variable junk : nat -> Z.

(** The state it changes: the list of loose pages and their number, the freed
    pages, the flags of the cursor and the transaction.  The flags of the page
    are part of the result. *)
Record loose_state := Loose {
  mt_loose_pgs : list Z;
  mt_loose_count : Z;
  l_free_pgs : midl;
  l_mc_flags : Z;
  l_mt_flags : Z
}.

Definition mdb_page_loose (mem_ok : bool) (mc_dbi : Z) (has_parent : bool) (dl : list MDB_ID2)
    (pgno mp mp_flags : Z) (st : loose_state) : option (Z * Z * loose_state) :=
  loose ← (if nz (Z.land mp_flags P_DIRTY) && negb (mc_dbi =? FREE_DBI) then
             if has_parent then
               d ← dirty_search dl pgno;
               match d with
               | None => Some (Some false)
               | Some e => if mp =? mptr e then Some (Some true) else Some None
               end
             else Some (Some true)
           else Some (Some false));
  match loose with
  | None =>
    Some (MDB_CORRUPTED, mp_flags,
          Loose (mt_loose_pgs st) (mt_loose_count st) (l_free_pgs st)
            (Z.land (l_mc_flags st) (Z.lnot (Z.lor C_INITIALIZED C_EOF)))
            (Z.lor (l_mt_flags st) MDB_TXN_ERROR))
  | Some true =>
    Some (MDB_SUCCESS, Z.lor mp_flags P_LOOSE,
          Loose (mp :: mt_loose_pgs st) (mt_loose_count st + 1) (l_free_pgs st) (l_mc_flags st) (l_mt_flags st))
  | Some false =>
    '(rc, fp) ← mdb_midl_append junk mem_ok (l_free_pgs st) pgno;
    Some (if nz rc then rc else MDB_SUCCESS, mp_flags,
          Loose (mt_loose_pgs st) (mt_loose_count st) fp (l_mc_flags st) (l_mt_flags st))
  end.

(** ** mdb_ovpage_free *)

(** [x = dl[0].mid--; for (ix = dl[x]; ix.mptr != mp; ix = iy) ...]: the cells
    above the page's move down by one. *)
Fixpoint dirty_remove (fuel : nat) (dl : list MDB_ID2) (x : Z) (ix : MDB_ID2) (mp : Z) : option (list MDB_ID2) :=
  if mptr ix =? mp then Some dl
  else
  match fuel with
  | O => None
  | S fuel =>
    if 1 <? x then
      iy ← aget dl (x - 1);
      dl ← aset dl (x - 1) ix;
      dirty_remove fuel dl (x - 1) iy mp
    else None
  end.

(** [for (i = mop[0]; i && mop[i] < pg; i--) mop[j--] = mop[i];] *)
Fixpoint open_gap (i : nat) (mop : list Z) (j pg : Z) : option (nat * Z * list Z) :=
  match i with
  | O => Some (O, j, mop)
  | S i' =>
    y ← aget mop (Z.of_nat i);
    if y <? pg then mop ← aset mop j y; open_gap i' mop (j - 1) pg
    else Some (i, j, mop)
  end.

(** [while (j > i) mop[j--] = pg++;], [n = j - i] rounds. *)
Fixpoint fill_gap (n : nat) (mop : list Z) (j pg : Z) : option (list Z) :=
  match n with
  | O => Some mop
  | S n => mop ← aset mop j pg; fill_gap n mop (j - 1) (u64 (pg + 1))
  end.

(** Label [release]. *)
Definition release (mop : list Z) (pg ovpages : Z) : option (list Z) :=
  n ← aget mop 0;
  '(i, j, mop) ← open_gap (Z.to_nat (u32 n)) mop (u32 (n + ovpages)) pg;
  mop ← fill_gap (Z.to_nat (j - Z.of_nat i)) mop j pg;
  aset mop 0 (u64 (n + ovpages)).

Record ov_state := Ov {
  me_pghead : option midl;
  ov_spill : option (list Z);
  ov_dirty : list MDB_ID2;
  mt_free_pgs : midl;
  md_overflow_pages : Z
}.

(** What the function does to the lists.  The call of [mdb_dpage_free] after
    the page left the dirty list changes only the blocks of memory and the
    list [me_dpages], which are not part of this state; [ovpage_free] of
    [Put.v] makes it. *)
Definition mdb_ovpage_free (mem_ok : bool) (has_parent : bool) (pg mp mp_flags ovpages : Z) (st : ov_state)
  : option (Z * ov_state) :=
  let is_dirty := nz (Z.land mp_flags P_DIRTY) in
  let free_them :=
    '(rc, fp) ← mdb_midl_append_range junk mem_ok (mt_free_pgs st) pg ovpages;
    if nz rc then Some (rc, Ov (me_pghead st) (ov_spill st) (ov_dirty st) fp (md_overflow_pages st))
    else Some (0, Ov (me_pghead st) (ov_spill st) (ov_dirty st) fp (u64 (md_overflow_pages st - ovpages))) in
  match me_pghead st with
  | None => free_them
  | Some head =>
    if has_parent then free_them
    else
    s ← (if is_dirty then Some None else spill_search (ov_spill st) (u64 (Z.shiftl pg 1)));
    if is_dirty || match s with Some _ => true | None => false end then
      '(rc, head) ← mdb_midl_need junk mem_ok head ovpages;
      if nz rc then Some (rc, Ov (Some head) (ov_spill st) (ov_dirty st) (mt_free_pgs st) (md_overflow_pages st))
      else
      '(spill, dl) ←
        (match s, ov_spill st with
         | Some x, Some sl =>
           n ← aget sl 0;
           sl ← (if x =? n then aset sl 0 (u64 (n - 1))
                 else y ← aget sl x; aset sl x (Z.lor y 1));
           Some (Some sl, ov_dirty st)
         | _, _ =>
           c0 ← aget (ov_dirty st) 0;
           let x := u32 (mid c0) in
           dl ← set_mid (ov_dirty st) (u64 (mid c0 - 1));
           ix ← aget dl x;
           dl ← dirty_remove (Z.to_nat x) dl x ix mp;
           Some (ov_spill st, dl)
         end);
      mop ← release (cells head) pg ovpages;
      Some (0, Ov (Some (Midl (alloclen head) mop)) spill dl (mt_free_pgs st)
                 (u64 (md_overflow_pages st - ovpages)))
    else free_them
  end.
End Alloc.

(** ** Membership in the lists *)

Definition spill_wf (sl : list Z) : Prop :=
  0 <= zn sl 0 < 2 ^ 32 - 1 /\ zn sl 0 < zlen sl /\ desc sl 1 (zn sl 0).

(** The page numbers, doubled, of the spilled pages. *)
Definition spilled (t : txn_pages) : list Z :=
  match mt_spill_pgs t with None => [] | Some sl => midl_ids sl end.

Record txn_wf (t : txn_pages) : Prop := {
  tw_spill : forall sl, mt_spill_pgs t = Some sl -> spill_wf sl;
  tw_dirty : id2_wf (dirty_list t)
}.

Lemma elem_of_midl_ids (m : list Z) (x : Z) : 0 <= zn m 0 < zlen m ->
  x ∈ midl_ids m <-> exists i, 1 <= i <= zn m 0 /\ zn m i = x.
Proof.
  intros Hn. split.
  - intros (i & Hi & <-)%elem_zn. rewrite zlen_midl_ids in Hi by lia. exists (1 + i). split; [lia|].
    rewrite zn_midl_ids by lia. f_equal. lia.
  - intros (i & Hi & <-). replace i with (1 + (i - 1)) by lia.
    assert (zn (midl_ids m) (i - 1) = zn m (1 + (i - 1))) as <- by (rewrite zn_midl_ids by lia; f_equal; lia).
    apply zn_elem. rewrite zlen_midl_ids; lia.
Qed.

Lemma spill_search_ok (t : txn_pages) (pn : Z) : txn_wf t ->
  exists r, spill_search (mt_spill_pgs t) pn = Some r /\ (r = None <-> pn ∉ spilled t).
Proof.
  intros [Hs _]. unfold spill_search, spilled. destruct (mt_spill_pgs t) as [sl|]; cycle 1.
  { exists None. split; [done|]. split; [intros _; apply not_elem_of_nil|done]. }
  destruct (Hs sl eq_refl) as (Hn & Hl & Hd).
  destruct (mdb_midl_search_ok sl pn Hn Hl Hd) as (x & -> & Hx & Hlo & Hhi). cbn [mbind option_bind].
  rewrite (aget_in sl 0) by lia. cbn [mbind option_bind].
  assert (pn ∈ midl_ids sl <-> x <= zn sl 0 /\ zn sl x = pn) as Hin.
  { rewrite elem_of_midl_ids by lia. split.
    - intros (i & Hi & E). assert (x <= i) by (destruct (Z.lt_ge_cases i x); [pose proof (Hlo i); lia|done]).
      split; [lia|]. destruct (decide (x = i)) as [->|]; [done|].
      pose proof (Hd x i). pose proof (Hhi x). lia.
    - intros [? ?]. exists x. split; [lia|done]. }
  destruct (Z.leb_spec x (zn sl 0)).
  - rewrite aget_in by lia. cbn [mbind option_bind]. eexists. split; [done|]. rewrite Hin.
    destruct (Z.eqb_spec (zn sl x) pn); [|split; [intros _ []; done|done]].
    split; [done|]. intros Hno. exfalso. apply Hno. done.
  - exists None. split; [done|]. rewrite Hin. split; [intros _ []; lia|done].
Qed.

Definition is_page (pgno : Z) (e : MDB_ID2) : Prop := mid e = pgno.
#[export] Instance is_page_dec (pgno : Z) (e : MDB_ID2) : Decision (is_page pgno e).
Proof. unfold is_page. apply _. Defined.

(** The entry of a page in the dirty list. *)
Definition find_dirty (dl : list MDB_ID2) (pgno : Z) : option MDB_ID2 :=
  snd <$> list_find (is_page pgno) (id2_list dl).

Lemma find_dirty_spec (dl : list MDB_ID2) (pgno : Z) (r : option MDB_ID2) : id2_wf dl ->
  (forall e, r = Some e -> e ∈ id2_list dl /\ mid e = pgno) ->
  (r = None -> forall e, e ∈ id2_list dl -> mid e <> pgno) -> find_dirty dl pgno = r.
Proof.
  intros Hwf Hs Hn. unfold find_dirty. destruct (list_find (is_page pgno) (id2_list dl)) as [[k e]|] eqn:E.
  - apply list_find_Some in E as (He & Hp & _). apply list_elem_of_lookup_2 in He. cbn.
    destruct r as [e'|]; [|exfalso; by apply (Hn eq_refl e)].
    destruct (Hs e' eq_refl) as [He' Hp']. f_equal.
    apply elem_of_id2_list in He as (i & Hi & <-); [|done].
    apply elem_of_id2_list in He' as (i' & Hi' & <-); [|done].
    destruct Hwf as (_ & _ & Hd). unfold is_page in Hp.
    destruct (Z.lt_trichotomy i i') as [Hlt|[->|Hgt]]; [|done|].
    + pose proof (Hd i i'). lia.
    + pose proof (Hd i' i). lia.
  - apply list_find_None in E. cbn. destruct r as [e'|]; [|done].
    destruct (Hs e' eq_refl) as [He' Hp']. exfalso.
    by apply (proj1 (Forall_forall _ _) E e' He').
Qed.

Lemma dirty_search_ok (dl : list MDB_ID2) (pgno : Z) : id2_wf dl ->
  dirty_search dl pgno = Some (find_dirty dl pgno).
Proof.
  intros Hwf. pose proof Hwf as (Hl & Hn & Hd). pose proof UM_SIZE_val. pose proof UM_MAX_val.
  unfold dirty_search. rewrite aget_in by lia. cbn [mbind option_bind]. fold (id2_count dl).
  unfold nz. destruct (Z.eqb_spec (id2_count dl) 0) as [E0|E0]; cbn [negb].
  { f_equal. symmetry. apply find_dirty_spec; [done|done|]. intros _ e (i & Hi & _)%elem_of_id2_list; [lia|done]. }
  destruct (mdb_mid2l_search_ok dl pgno Hwf) as (x & -> & Hx & Hlo & Hhi). cbn [mbind option_bind].
  destruct (Z.leb_spec x (id2_count dl)); [rewrite aget_in by lia; cbn [mbind option_bind]|];
    f_equal; symmetry; apply find_dirty_spec; try done.
  - intros e. destruct (Z.eqb_spec (mid (zn dl x)) pgno); [|done]. intros [= <-].
    split; [|done]. apply elem_of_id2_list; [done|]. exists x. split; [lia|done].
  - destruct (Z.eqb_spec (mid (zn dl x)) pgno) as [|Hne]; [done|].
    intros _ e (i & Hi & <-)%elem_of_id2_list He; [|done].
    destruct (Z.lt_trichotomy i x) as [Hlt|[->|Hgt]]; [pose proof (Hlo i); lia|done|].
    pose proof (Hd x i). pose proof (Hhi x). lia.
  - intros _ e (i & Hi & <-)%elem_of_id2_list He; [|done]. pose proof (Hlo i). lia.
Qed.

(** ** Where a transaction sees a page *)

Fixpoint find_page (chain : list txn_pages) (pgno level : Z) : option (page_ptr * Z) :=
  match chain with
  | [] => None
  | t :: chain =>
    if decide (2 * pgno ∈ spilled t) then Some (Mapped pgno, level)
    else match find_dirty (dirty_list t) pgno with
         | Some e => Some (Heap (mptr e), level)
         | None => find_page chain pgno (level + 1)
         end
  end.

Lemma get_loop_ok (pgno : Z) (chain : list txn_pages) : 0 <= pgno < 2 ^ 63 -> Forall txn_wf chain ->
  forall level, get_loop chain pgno level = Some (find_page chain pgno level).
Proof.
  intros Hp Hwf. induction Hwf as [|t chain Ht _ IH]; intros level; [done|]. cbn [get_loop find_page].
  rewrite Z.shiftl_mul_pow2, (Z.mul_comm pgno), uwrap_small by lia. change (2 ^ 1) with 2.
  destruct (spill_search_ok t (2 * pgno) Ht) as (r & -> & Hr). cbn [mbind option_bind].
  destruct (decide (2 * pgno ∈ spilled t)) as [Hin|Hin].
  - destruct r as [x|]; [done|]. exfalso. by apply (proj1 Hr eq_refl).
  - rewrite (proj2 Hr Hin), dirty_search_ok by apply Ht. cbn [mbind option_bind].
    destruct (find_dirty (dirty_list t) pgno); [done|apply IH].
Qed.

(** C17: [mdb_page_get] looks a page up from the transaction outwards through
    its ancestors: the innermost transaction that spilled or dirtied the page
    decides, a spilled page comes from the map and a dirty one from memory
    (with the level of that transaction); a page no transaction touched comes
    from the map if it exists, and otherwise the transaction is marked as
    failed. *)
Theorem mdb_page_get_correct (mt_flags me_flags : Z) (chain : list txn_pages) (next pgno : Z) :
  0 <= pgno < 2 ^ 63 -> Forall txn_wf chain ->
  mdb_page_get mt_flags me_flags chain next pgno =
    Some (match (if decide (Z.land mt_flags MDB_TXN_RDONLY = 0 /\ Z.land me_flags MDB_WRITEMAP = 0)
                 then find_page chain pgno 1 else None) with
          | Some p => (MDB_SUCCESS, Some p, mt_flags)
          | None => if decide (pgno < next) then (MDB_SUCCESS, Some (Mapped pgno, 0), mt_flags)
                    else (MDB_PAGE_NOTFOUND, None, Z.lor mt_flags MDB_TXN_ERROR)
          end).
Proof.
  intros Hp Hwf. unfold mdb_page_get, nz. rewrite negb_involutive, get_loop_ok by done.
  assert ((Z.lor (Z.land mt_flags MDB_TXN_RDONLY) (Z.land me_flags MDB_WRITEMAP) =? 0) =
    bool_decide (Z.land mt_flags MDB_TXN_RDONLY = 0 /\ Z.land me_flags MDB_WRITEMAP = 0)) as ->.
  { apply eq_true_iff_eq. rewrite Z.eqb_eq, bool_decide_eq_true. apply Z.lor_eq_0_iff. }
  rewrite <- decide_bool_decide.
  destruct (decide (Z.land mt_flags MDB_TXN_RDONLY = 0 /\ Z.land me_flags MDB_WRITEMAP = 0)) as [H|H];
    [destruct (find_page chain pgno 1) as [p|]; [done|]|];
    cbn [mbind option_bind]; destruct (Z.ltb_spec pgno next), (decide (pgno < next)); done || lia.
Qed.

Definition chain2 : list txn_pages :=
  [TxnPages None no_dirty; TxnPages (Some [2; 14; 6; 0]) no_dirty].

Lemma chain2_wf : Forall txn_wf chain2.
Proof.
  apply Forall_cons. split; [split; [intros sl [=]|exact no_dirty_wf]|].
  apply Forall_cons. split; [split; [|exact no_dirty_wf]|apply Forall_nil; exact I].
  intros sl [= <-]. split; [closed|]. split; [reflexivity|].
  intros i j Hi Hij Hj. change (zn [2; 14; 6; 0] 0) with 2 in Hj.
  assert (i = 1) as -> by lia. by assert (j = 2) as -> by lia.
Qed.

(** Page 3 was spilled by the parent transaction. *)
Lemma mdb_page_get_witness :
  mdb_page_get 0 0 chain2 10 3 =
    Some (match (if decide (Z.land 0 MDB_TXN_RDONLY = 0 /\ Z.land 0 MDB_WRITEMAP = 0)
                 then find_page chain2 3 1 else None) with
          | Some p => (MDB_SUCCESS, Some p, 0)
          | None => if decide (3 < 10) then (MDB_SUCCESS, Some (Mapped 3, 0), 0)
                    else (MDB_PAGE_NOTFOUND, None, Z.lor 0 MDB_TXN_ERROR)
          end).
Proof. apply (mdb_page_get_correct 0 0 chain2 10 3); [lia|apply chain2_wf]. Defined.

Example mdb_page_get_run : mdb_page_get 0 0 chain2 10 3 = Some (MDB_SUCCESS, Some (Mapped 3, 2), 0).
Proof. vm_compute. reflexivity. Qed.

(** A page put on the dirty list is the one the transaction sees. *)
Lemma dirty_then_get (mt_flags me_flags : Z) (t : txn_pages) (chain : list txn_pages) (room next pgno mp : Z) :
  Z.land mt_flags MDB_TXN_RDONLY = 0 -> Z.land me_flags MDB_WRITEMAP = 0 -> txn_wf t ->
  0 <= pgno < 2 ^ 63 -> 2 * pgno ∉ spilled t -> (forall e, e ∈ id2_list (dirty_list t) -> mid e <> pgno) ->
  id2_count (dirty_list t) < MDB_IDL_UM_MAX ->
  exists dl', mdb_page_dirty me_flags (dirty_list t) room pgno mp = Some (dl', u32 (room - 1)) /\
    mdb_page_get mt_flags me_flags (TxnPages (mt_spill_pgs t) dl' :: chain) next pgno =
      Some (MDB_SUCCESS, Some (Heap mp, 1), mt_flags).
Proof.
  intros Hmt Hme Hwf Hp Hsp Hnew Hroom. pose proof Hwf as [Hs Hd].
  destruct (proj2 (mdb_mid2l_insert_ok (dirty_list t) (ID2 pgno mp) Hd) Hnew) as [_ Hins].
  destruct (Hins Hroom) as (dl' & E & Hwf' & Hperm). exists dl'.
  unfold mdb_page_dirty. rewrite Hme. change (nz 0) with false. cbv iota. rewrite E. split; [done|].
  unfold mdb_page_get. rewrite Hmt, Hme. change (negb (nz (Z.lor 0 0))) with true. cbv iota.
  cbn [get_loop mt_spill_pgs dirty_list].
  rewrite Z.shiftl_mul_pow2, (Z.mul_comm pgno), uwrap_small by lia. change (2 ^ 1) with 2.
  destruct (spill_search_ok t (2 * pgno) Hwf) as (r & -> & Hr). cbn [mbind option_bind].
  rewrite (proj2 Hr Hsp), dirty_search_ok by done. cbn [mbind option_bind].
  rewrite (find_dirty_spec dl' pgno (Some (ID2 pgno mp))); [done|done| |done].
  intros e [= <-]. split; [|done]. rewrite Hperm. apply list_elem_of_here.
Qed.

(** ** The oldest snapshot in use *)

Lemma oldest_loop_ok (r : list MDB_reader) (i : nat) : forall oldest, Z.of_nat i <= zlen r ->
  exists m, oldest_loop i r oldest = Some m /\ m <= oldest /\
    (forall k, 0 <= k < Z.of_nat i -> mr_pid (zn r k) <> 0 -> m <= mr_txnid (zn r k)) /\
    (m = oldest \/ exists k, 0 <= k < Z.of_nat i /\ mr_pid (zn r k) <> 0 /\ m = mr_txnid (zn r k)).
Proof.
  induction i as [|i IH]; intros oldest Hi.
  { exists oldest. split_and!; [done|lia|intros; lia|by left]. }
  cbn [oldest_loop]. rewrite aget_in by lia. cbn [mbind option_bind].
  set (x := zn r (Z.of_nat i)). set (o := if nz (mr_pid x) then _ else oldest).
  assert (o <= oldest /\ (mr_pid x <> 0 -> o <= mr_txnid x) /\
          (o = oldest \/ mr_pid x <> 0 /\ o = mr_txnid x)) as (H1 & H2 & H3).
  { unfold o, nz. destruct (Z.eqb_spec (mr_pid x) 0); cbn [negb]; [auto with lia|].
    destruct (Z.ltb_spec (mr_txnid x) oldest); auto with lia. }
  destruct (IH o ltac:(lia)) as (m & -> & Hm & Hall & Hex). exists m. split_and!; [done|lia| |].
  - intros k Hk Hpid. destruct (decide (k = Z.of_nat i)) as [->|]; [specialize (H2 Hpid); fold x; lia|].
    apply Hall; [lia|done].
  - destruct Hex as [->|(k & Hk & Hp & ->)]; [|right; exists k; split; [lia|done]].
    destruct H3 as [->|[Hp ->]]; [by left|]. right. exists (Z.of_nat i). split; [lia|done].
Qed.

(** ** Freeing overflow pages *)

Lemma open_gap_ok (pg ov : Z) (i : nat) : forall (mop : list Z), 1 <= ov -> Z.of_nat i + ov < zlen mop ->
  exists i' mop', open_gap i mop (Z.of_nat i + ov) pg = Some (i', Z.of_nat i' + ov, mop') /\
    (i' <= i)%nat /\ zlen mop' = zlen mop /\
    (forall t, Z.of_nat i' < t <= Z.of_nat i -> zn mop t < pg /\ zn mop' (t + ov) = zn mop t) /\
    (forall t, t <= Z.of_nat i' \/ Z.of_nat i + ov < t -> zn mop' t = zn mop t) /\
    (0 < Z.of_nat i' -> pg <= zn mop (Z.of_nat i')).
Proof.
  induction i as [|i IH]; intros mop Hov Hl.
  { exists O, mop. split_and!; try done; intros; lia. }
  cbn [open_gap]. rewrite aget_in by lia. cbn [mbind option_bind].
  destruct (Z.ltb_spec (zn mop (Z.of_nat (S i))) pg) as [Hlt|Hge].
  - rewrite aset_in by lia. cbn [mbind option_bind].
    replace (Z.of_nat (S i) + ov - 1) with (Z.of_nat i + ov) by lia.
    destruct (IH (zset mop (Z.of_nat (S i) + ov) (zn mop (Z.of_nat (S i)))) Hov) as (i' & mop' & -> & Hi & Hz & H1 & H2 & H3);
      [rewrite zlen_zset; lia|].
    rewrite zlen_zset in Hz. exists i', mop'. split_and!; [done|lia|done| | |].
    + intros t Ht. destruct (decide (t = Z.of_nat (S i))) as [->|].
      * split; [done|]. rewrite H2, zn_zset_eq by lia. done.
      * destruct (H1 t ltac:(lia)) as [Ha Hb]. rewrite zn_zset_ne in Ha, Hb by lia. done.
    + intros t Ht. rewrite H2, zn_zset_ne by lia. done.
    + intros Hp. specialize (H3 Hp). by rewrite zn_zset_ne in H3 by lia.
  - exists (S i), mop. split_and!; try done; intros; try lia.
Qed.

Lemma fill_gap_ok (n : nat) : forall (mop : list Z) (j pg : Z), 0 <= j - Z.of_nat n -> j < zlen mop ->
  0 <= pg -> pg + Z.of_nat n < 2 ^ 64 ->
  exists mop', fill_gap n mop j pg = Some mop' /\ zlen mop' = zlen mop /\
    (forall k, 0 <= k < Z.of_nat n -> zn mop' (j - k) = pg + k) /\
    (forall t, t <= j - Z.of_nat n \/ j < t -> zn mop' t = zn mop t).
Proof.
  induction n as [|n IH]; intros mop j pg Hj Hl Hp Hb.
  { exists mop. split_and!; try done; intros; lia. }
  cbn [fill_gap]. rewrite aset_in by lia. cbn [mbind option_bind]. rewrite uwrap_small by lia.
  destruct (IH (zset mop j pg) (j - 1) (pg + 1)) as (mop' & -> & Hz & H1 & H2); [lia|rewrite zlen_zset; lia|lia..|].
  rewrite zlen_zset in Hz. exists mop'. split_and!; [done|done| |].
  - intros k Hk. destruct (decide (k = 0)) as [->|].
    + rewrite H2, Z.sub_0_r, zn_zset_eq by lia. lia.
    + replace (j - k) with (j - 1 - (k - 1)) by lia. rewrite H1 by lia. lia.
  - intros t Ht. rewrite H2, zn_zset_ne by lia. done.
Qed.

(** The list after [release]: the first [i] cells, the new pages in
    descending order, the other cells. *)
Record released (mop mop' : list Z) (pg ov i : Z) : Prop := {
  r_len : zlen mop' = zlen mop;
  r_i : 0 <= i <= zn mop 0;
  r_count : zn mop' 0 = zn mop 0 + ov;
  r_lo : forall t, 1 <= t <= i -> zn mop' t = zn mop t;
  r_mid : forall t, i < t <= i + ov -> zn mop' t = pg + ov - (t - i);
  r_hi : forall t, i < t <= zn mop 0 -> zn mop t < pg /\ zn mop' (t + ov) = zn mop t;
  r_pg : 0 < i -> pg <= zn mop i
}.

Lemma release_cells (mop : list Z) (pg ov : Z) : 0 <= zn mop 0 -> 1 <= ov -> zn mop 0 + ov < zlen mop ->
  zn mop 0 + ov < 2 ^ 32 -> 0 <= pg -> pg + ov < 2 ^ 64 ->
  exists i mop', release mop pg ov = Some mop' /\ released mop mop' pg ov i.
Proof.
  intros Hn Hov Hl Hb Hp Hpb. unfold release. rewrite aget_in by lia. cbn [mbind option_bind].
  rewrite !(uwrap_small 32) by lia.
  destruct (open_gap_ok pg ov (Z.to_nat (zn mop 0)) mop Hov ltac:(lia)) as (i & m1 & E & Hi & Hz1 & H1 & H2 & H3).
  rewrite Z2Nat.id in * by lia. rewrite E. cbn [mbind option_bind].
  replace (Z.of_nat i + ov - Z.of_nat i) with ov by lia.
  destruct (fill_gap_ok (Z.to_nat ov) m1 (Z.of_nat i + ov) pg) as (m2 & -> & Hz2 & H4 & H5); [lia..|].
  rewrite Z2Nat.id in * by lia. cbn [mbind option_bind]. rewrite aset_in by lia. rewrite uwrap_small by lia.
  eexists (Z.of_nat i), _. split; [done|]. split; rewrite ?zlen_zset, ?zn_zset_eq by lia; try lia.
  - intros t Ht. rewrite zn_zset_ne, H5, H2 by lia. done.
  - intros t Ht. rewrite zn_zset_ne by lia. replace t with (Z.of_nat i + ov - (Z.of_nat i + ov - t)) at 1 by lia.
    rewrite H4 by lia. lia.
  - intros t Ht. destruct (H1 t Ht) as [Ha Hb']. split; [done|]. rewrite zn_zset_ne, H5 by lia. done.
Qed.

Lemma released_desc (mop mop' : list Z) (pg ov i : Z) : released mop mop' pg ov i -> 1 <= ov ->
  desc mop 1 (zn mop 0) ->
  (forall t, 1 <= t <= zn mop 0 -> ~ pg <= zn mop t < pg + ov) -> desc mop' 1 (zn mop' 0).
Proof.
  intros [Hz Hi H0 Hlo Hmid Hhi Hpg] Hov Hd Hdis.
  assert (forall t, 1 <= t <= i -> pg + ov <= zn mop' t) as Blo.
  { intros t Ht. rewrite Hlo by lia. specialize (Hpg ltac:(lia)). pose proof (Hdis t ltac:(lia)).
    destruct (decide (t = i)) as [->|]; [lia|]. pose proof (Hd t i). lia. }
  assert (forall t, i + ov < t <= zn mop 0 + ov -> zn mop' t < pg /\ zn mop' t = zn mop (t - ov)) as Bhi.
  { intros t Ht. replace t with (t - ov + ov) by lia. destruct (Hhi (t - ov)) as [? ->]; [lia|].
    replace (t - ov + ov - ov) with (t - ov) by lia. done. }
  intros a b Ha Hab Hbn. rewrite H0 in Hbn.
  destruct (Z.le_gt_cases b i); [rewrite !Hlo by lia; apply Hd; lia|].
  destruct (Z.le_gt_cases a i).
  - specialize (Blo a ltac:(lia)).
    destruct (Z.le_gt_cases b (i + ov)); [rewrite (Hmid b) by lia|destruct (Bhi b ltac:(lia))]; lia.
  - destruct (Z.le_gt_cases a (i + ov)).
    + rewrite (Hmid a) by lia.
      destruct (Z.le_gt_cases b (i + ov)); [rewrite (Hmid b) by lia|destruct (Bhi b ltac:(lia))]; lia.
    + destruct (Bhi a ltac:(lia)) as [_ ->]. destruct (Bhi b ltac:(lia)) as [_ ->]. apply Hd; lia.
Qed.

Lemma zn_reverse_seqZ (pg ov t : Z) : 0 <= t < ov -> zn (reverse (seqZ pg ov)) t = pg + ov - (t + 1).
Proof.
  intros Ht. apply aget_zn. unfold aget. rewrite (proj2 (Z.leb_le _ _)) by lia.
  rewrite reverse_lookup by (rewrite length_seqZ; lia).
  rewrite lookup_seqZ_lt by (rewrite length_seqZ; lia). f_equal. rewrite length_seqZ. lia.
Qed.

Lemma released_ids (mop mop' : list Z) (pg ov i : Z) : released mop mop' pg ov i -> 1 <= ov ->
  zn mop 0 + ov < zlen mop ->
  midl_ids mop' = take (Z.to_nat i) (midl_ids mop) ++ reverse (seqZ pg ov) ++ drop (Z.to_nat i) (midl_ids mop).
Proof.
  intros [Hz Hi H0 Hlo Hmid Hhi Hpg] Hov Hl.
  assert (zlen (midl_ids mop) = zn mop 0) as Hml by (apply zlen_midl_ids; lia).
  assert (zlen (reverse (seqZ pg ov)) = ov) as Hrl by (unfold zlen; rewrite length_reverse, length_seqZ; lia).
  apply zlist_eq.
  - rewrite !zlen_app, zlen_midl_ids, zlen_take, zlen_drop, Hml, Hrl by lia. lia.
  - intros t Ht. rewrite zlen_midl_ids in Ht by lia. rewrite zn_midl_ids by lia.
    destruct (Z.lt_ge_cases t i).
    { rewrite zn_app_l, zn_take, zn_midl_ids, Hlo by (rewrite ?zlen_take by lia; lia). done. }
    rewrite zn_app_r by (rewrite zlen_take by lia; lia). rewrite zlen_take by lia.
    destruct (Z.lt_ge_cases t (i + ov)).
    + rewrite zn_app_l, Hmid, zn_reverse_seqZ by lia. lia.
    + rewrite zn_app_r, Hrl, zn_drop, zn_midl_ids by lia.
      replace (t + 1) with (t + 1 - ov + ov) by lia. destruct (Hhi (t + 1 - ov)) as [_ ->]; [lia|]. f_equal. lia.
Qed.

(** The dirty list without the entry at position [p]. *)
Lemma dirty_remove_ok (mp p N : Z) (dl0 : list MDB_ID2) : 1 <= p <= N -> N < zlen dl0 ->
  mptr (zn dl0 p) = mp -> (forall t, p < t <= N -> mptr (zn dl0 t) <> mp) ->
  forall (fuel : nat) (dl : list MDB_ID2) (x : Z), p <= x <= N -> x - p <= Z.of_nat fuel -> zlen dl = zlen dl0 ->
  (forall t, t < x -> zn dl t = zn dl0 t) -> (forall t, x <= t < N -> zn dl t = zn dl0 (t + 1)) ->
  exists dl', dirty_remove fuel dl x (zn dl0 x) mp = Some dl' /\ zlen dl' = zlen dl0 /\
    (forall t, t < p -> zn dl' t = zn dl0 t) /\ (forall t, p <= t < N -> zn dl' t = zn dl0 (t + 1)).
Proof.
  intros Hp HN Hmp Hne fuel. induction fuel as [|fuel IH]; intros dl x Hx Hf Hl Hlo Hhi; cbn [dirty_remove].
  - assert (x = p) as -> by lia. rewrite Hmp, Z.eqb_refl. exists dl. auto.
  - destruct (decide (x = p)) as [->|]; [rewrite Hmp, Z.eqb_refl; exists dl; auto|].
    rewrite (proj2 (Z.eqb_neq _ _)) by (apply Hne; lia). rewrite (proj2 (Z.ltb_lt _ _)) by lia.
    rewrite aget_in by lia. cbn [mbind option_bind]. rewrite aset_in by lia. cbn [mbind option_bind].
    rewrite (Hlo (x - 1)) by lia. apply IH; try lia.
    + by rewrite zlen_zset.
    + intros t Ht. rewrite zn_zset_ne by lia. apply Hlo. lia.
    + intros t Ht. destruct (decide (t = x - 1)) as [->|].
      * rewrite zn_zset_eq by lia. f_equal. lia.
      * rewrite zn_zset_ne by lia. apply Hhi. lia.
Qed.

(** Lists with the same IDs have the same cells. *)
Lemma midl_ids_inj (m m' : list Z) : 0 <= zn m 0 < zlen m -> 0 <= zn m' 0 < zlen m' -> midl_ids m' = midl_ids m ->
  zn m' 0 = zn m 0 /\ forall t, 1 <= t <= zn m 0 -> zn m' t = zn m t.
Proof.
  intros Hm Hm' E. assert (zn m' 0 = zn m 0) as E0 by (rewrite <- !zlen_midl_ids by lia; by rewrite E).
  split; [done|]. intros t Ht. replace t with (t - 1 + 1) by lia. rewrite <- !zn_midl_ids by lia. by rewrite E.
Qed.

(** Removing the entry at position [p] of a dirty list. *)
Lemma id2_removed (dl dl' : list MDB_ID2) (p : Z) : id2_wf dl -> 1 <= p <= id2_count dl -> zlen dl' = zlen dl ->
  id2_count dl' = id2_count dl - 1 -> (forall t, 1 <= t < p -> zn dl' t = zn dl t) ->
  (forall t, p <= t < id2_count dl -> zn dl' t = zn dl (t + 1)) ->
  id2_wf dl' /\ Permutation (id2_list dl) (zn dl p :: id2_list dl').
Proof.
  intros (Hl & Hn & Ha) Hp Hz Hc Hlo Hhi. pose proof UM_SIZE_val. pose proof UM_MAX_val. split.
  - split; [lia|]. split; [lia|]. intros i j Hi Hij Hj. rewrite Hc in Hj.
    destruct (Z.lt_ge_cases i p), (Z.lt_ge_cases j p); rewrite ?(Hlo i), ?(Hlo j), ?(Hhi i), ?(Hhi j) by lia;
      apply Ha; lia.
  - rewrite (id2_list_insert dl' dl p (zn dl p)); try lia; try done.
    + by rewrite <- Permutation_middle, take_drop.
    + intros t Ht. symmetry. apply Hlo. lia.
    + intros t Ht. rewrite Hhi by lia. f_equal. lia.
Qed.

(** C32: freeing an overflow page that this transaction dirtied, while the
    environment keeps a list of reclaimed pages: its pages join the reclaimed
    list, which stays sorted and inside its block, and exactly its entry
    leaves the dirty list, which stays sorted; the other lists do not change. *)
Theorem mdb_ovpage_free_dirty junk (head : midl) (st : ov_state) (pg mp mp_flags ov p : Z) :
  me_pghead st = Some head -> midl_wf head -> desc (cells head) 1 (zn (cells head) 0) ->
  (forall x, x ∈ midl_ids (cells head) -> ~ pg <= x < pg + ov) ->
  Z.land mp_flags P_DIRTY <> 0 -> id2_wf (ov_dirty st) -> 1 <= p <= id2_count (ov_dirty st) ->
  mptr (zn (ov_dirty st) p) = mp -> (forall t, p < t <= id2_count (ov_dirty st) -> mptr (zn (ov_dirty st) t) <> mp) ->
  0 <= pg -> 1 <= ov -> pg + ov < 2 ^ 64 -> zn (cells head) 0 + ov < 2 ^ 31 ->
  exists head' dl', mdb_ovpage_free junk true false pg mp mp_flags ov st =
      Some (0, Ov (Some head') (ov_spill st) dl' (mt_free_pgs st) (u64 (md_overflow_pages st - ov))) /\
    midl_wf head' /\ desc (cells head') 1 (zn (cells head') 0) /\
    Permutation (midl_ids (cells head')) (seqZ pg ov ++ midl_ids (cells head)) /\
    id2_wf dl' /\ Permutation (id2_list (ov_dirty st)) (zn (ov_dirty st) p :: id2_list dl').
Proof.
  intros Hh Hwf Hd Hdis Hdirty Hdl Hp Hmp Hne Hpg Hov Hpb Hb. unfold mdb_ovpage_free. rewrite Hh.
  assert (nz (Z.land mp_flags P_DIRTY) = true) as -> by (unfold nz; by rewrite (proj2 (Z.eqb_neq _ _))).
  cbn [mbind option_bind orb].
  destruct (mdb_midl_need_correct junk head ov Hwf ltac:(lia) Hb) as (h1 & -> & Hwf1 & Hroom & Hids).
  cbn [mbind option_bind]. change (nz 0) with false. cbv iota.
  pose proof Hdl as (Hl & Hn & Ha). pose proof UM_SIZE_val. pose proof UM_MAX_val.
  unfold set_mid. rewrite !aget_in by lia. cbn [mbind option_bind]. fold (id2_count (ov_dirty st)).
  set (N := id2_count (ov_dirty st)) in *. rewrite (uwrap_small 32 N), (uwrap_small 64 (N - 1)) by lia.
  rewrite aset_in by lia. cbn [mbind option_bind]. set (dl0 := zset (ov_dirty st) 0 _).
  assert (forall t, 1 <= t -> zn dl0 t = zn (ov_dirty st) t) as Hdl0 by (intros; unfold dl0; by rewrite zn_zset_ne by lia).
  assert (zlen dl0 = zlen (ov_dirty st)) as Hz0 by (unfold dl0; apply zlen_zset).
  rewrite aget_in by lia. cbn [mbind option_bind].
  destruct (dirty_remove_ok mp p N dl0 Hp ltac:(lia)) with (fuel := Z.to_nat N) (dl := dl0) (x := N)
    as (dl' & -> & Hz' & Hlo & Hhi); try lia; try done.
  { by rewrite Hdl0 by lia. }
  { intros t Ht. rewrite Hdl0 by lia. apply Hne. lia. }
  cbn [mbind option_bind].
  destruct (id2_removed (ov_dirty st) dl' p Hdl Hp) as [Hwf' Hperm]; [lia| | | |].
  { unfold id2_count at 1. rewrite Hlo by lia. unfold dl0. rewrite zn_zset_eq by lia. done. }
  { intros t Ht. rewrite Hlo, Hdl0 by lia. done. }
  { intros t Ht. rewrite Hhi, Hdl0 by lia. done. }
  pose proof Hwf as (Hc1 & Hc2 & _). pose proof Hwf1 as (Hd1 & Hd2 & Hd3).
  destruct (midl_ids_inj (cells head) (cells h1)) as [E0 Et]; [lia|lia|done|].
  destruct (release_cells (cells h1) pg ov) as (i & mop & -> & Hrel); [lia..|]. cbn [mbind option_bind].
  exists (Midl (alloclen h1) mop), dl'. cbn [cells alloclen]. pose proof (r_len _ _ _ _ _ Hrel). pose proof (r_count _ _ _ _ _ Hrel).
  split_and!; auto.
  - split_and!; cbn [cells alloclen]; lia.
  - apply (released_desc (cells h1) mop pg ov i Hrel Hov).
    + intros a b Ha' Hab Hb'. rewrite !Et by lia. apply Hd; lia.
    + intros t Ht. rewrite Et by lia. apply Hdis, elem_of_midl_ids; [lia|]. exists t. split; [lia|done].
  - rewrite (released_ids _ _ _ _ _ Hrel), Hids by lia.
    by rewrite reverse_Permutation, !app_assoc, (Permutation_app_comm (take _ _)), <- app_assoc, take_drop.
Qed.

Definition one_dirty : list MDB_ID2 := ID2 1 0 :: ID2 7 70 :: replicate (Z.to_nat 131070) (ID2 0 0).
Definition ov_st : ov_state :=
  Ov (Some (Midl 4 [2; 9; 5; 0; 0])) None one_dirty (Midl 4 [0; 0; 0; 0; 0]) 3.

Lemma one_dirty_wf : id2_wf one_dirty.
Proof.
  split; [|split; [change (id2_count one_dirty) with 1; rewrite UM_MAX_val; lia|]].
  - unfold one_dirty. rewrite !zlen_cons. unfold zlen. rewrite length_replicate, Z2Nat.id by lia. reflexivity.
  - intros i j Hi Hij Hj. change (id2_count one_dirty) with 1 in Hj. lia.
Qed.

Lemma mdb_ovpage_free_witness :
  exists head' dl', mdb_ovpage_free (fun _ => 0) true false 7 70 P_DIRTY 1 ov_st =
      Some (0, Ov (Some head') None dl' (Midl 4 [0; 0; 0; 0; 0]) (u64 (3 - 1))) /\
    midl_wf head' /\ desc (cells head') 1 (zn (cells head') 0) /\
    Permutation (midl_ids (cells head')) (seqZ 7 1 ++ midl_ids [2; 9; 5; 0; 0]) /\
    id2_wf dl' /\ Permutation (id2_list one_dirty) (zn one_dirty 1 :: id2_list dl').
Proof.
  apply (mdb_ovpage_free_dirty (fun _ => 0) (Midl 4 [2; 9; 5; 0; 0]) ov_st 7 70 P_DIRTY 1 1);
    [reflexivity|exact midl_wf_small| | |intros E; discriminate E|exact one_dirty_wf|change (id2_count (ov_dirty ov_st)) with 1; lia
    |reflexivity| |lia|lia|lia|change (zn (cells (Midl 4 [2; 9; 5; 0; 0])) 0) with 2; lia].
  - intros i j Hi Hij Hj. change (zn (cells (Midl 4 [2; 9; 5; 0; 0])) 0) with 2 in Hj.
    assert (i = 1) as -> by lia. by assert (j = 2) as -> by lia.
  - intros x Hx. change (midl_ids (cells (Midl 4 [2; 9; 5; 0; 0]))) with [9; 5] in Hx.
    apply elem_of_cons in Hx as [->|Hx]; [lia|]. apply elem_of_cons in Hx as [->|Hx]; [lia|].
    by apply not_elem_of_nil in Hx.
  - intros t Ht. change (id2_count (ov_dirty ov_st)) with 1 in Ht. lia.
Defined.

(** Page 7 goes between 9 and 5. *)
Example mdb_ovpage_free_run :
  option_map (fun r => (r.1, cells <$> me_pghead r.2, id2_count (ov_dirty r.2)))
    (mdb_ovpage_free (fun _ => 0) true false 7 70 P_DIRTY 1 ov_st) = Some (0, Some [3; 9; 7; 5; 0], 0).
Proof. vm_compute. reflexivity. Qed.
