(* ===== verification/Tree.v ===== *)
(** * The B+tree as a sorted map, and [mdb_get] as its lookup

    [tree h m es]: the page [m] is the root of a well-formed tree of height
    [h] whose items, in key order, are [es].  Searching such a tree with the
    code of [src/LegacyDatabase/mdb.c] is looking a key up in [es]. *)
From S2P Require Import Prelude.
From S2P Require Import Bytes.
From S2P Require Import Page.
From S2P Require Import PageSpec.
From S2P Require Import NodeOps.
From S2P Require Import Cmp.
From S2P Require Import NodeSearch.
From S2P Require Import Cursor.
From Stdlib Require Import ZArith Lia.
From stdpp Require Import base numbers option list.
Open Scope Z_scope.

(** ** Well-formed trees *)

Definition p_branch (m : list Z) : bool := F_ISSET (p_flags m) P_BRANCH.

(** Child page number, data size and flags of node [k]. *)
Definition n_lohi (m : list Z) (k : Z) : Z := g16 m (p_ptr m k) + 2 ^ 16 * g16 m (p_ptr m k + 2).
Definition n_flags (m : list Z) (k : Z) : Z := g16 m (p_ptr m k + 4).
Definition n_pgno (m : list Z) (k : Z) : Z := n_lohi m k + 2 ^ 32 * n_flags m k.

(** Offset of the data of node [k]. *)
Definition n_dofs (m : list Z) (k : Z) : Z := p_ptr m k + 8 + g16 m (p_ptr m k + 6).

Section Tree.
Variable get : Z -> option (list Z).
Context (md_cmp : MDB_cmp_func) (md_pad : Z) (D : MDB_val -> Prop) (ord : MDB_val -> MDB_val -> Z).

(** The data of node [k]: in the page, or on an overflow page. *)
Definition n_data (m : list Z) (k : Z) : option MDB_val :=
  let dsz := n_lohi m k in
  if F_ISSET (n_flags m k) F_BIGDATA then
    p ← get (le_val (slice m (n_dofs m k) 8));
    if 16 + dsz <=? zlen p then Some (Val dsz (slice p 16 dsz)) else None
  else Some (Val dsz (slice m (n_dofs m k) dsz)).

(** The comparator used on page [m] implements the order [ord] on [D]. *)
Definition page_order (m : list Z) : Prop :=
  exists c' (KO : KeyOrder (run_cmp c') D), eff_cmp m md_cmp = Some c' /\
    (forall a b, ko_ord a b = ord a b) /\ keys_sorted KO m.

Definition item (m : list Z) (k : Z) : option (MDB_val * MDB_val) :=
  d ← n_data m k; Some (n_key m k, d).

Definition leaf_tree (m : list Z) (es : list (MDB_val * MDB_val)) : Prop :=
  page_wf m /\ p_leaf m = true /\ p_branch m = false /\ page_order m /\
  zlen es = p_num m /\
  forall k, 0 <= k < p_num m -> F_ISSET (n_flags m k) F_DUPDATA = false /\ item m k = aget es k.

(** Every page but the root holds an item.  Keys under child [k]: from key [k] (the first child has no lower bound)
    to before key [k + 1] (the last child has no upper bound). *)
Definition in_child (m : list Z) (k : Z) (x : MDB_val) : Prop :=
  D x /\ (1 <= k -> ord (n_key m k) x <= 0) /\ (k + 1 < p_num m -> ord x (n_key m (k + 1)) < 0).

Fixpoint tree (h : nat) (m : list Z) (es : list (MDB_val * MDB_val)) : Prop :=
  match h with
  | O => leaf_tree m es
  | S h =>
    page_wf m /\ p_leaf m = false /\ p_branch m = true /\ 1 < p_num m /\ page_order m /\
    exists ess, es = concat ess /\ zlen ess = p_num m /\
      forall k, 0 <= k < p_num m ->
        exists child esk, aget ess k = Some esk /\ get (n_pgno m k) = Some child /\
          child <> [] /\ esk <> [] /\ tree h child esk /\ Forall (fun e => in_child m k e.1) esk
  end.

(** ** Reading the fields of a node *)

Lemma NODEPGNO_ok (m : list Z) (k : Z) : page_wf m -> 0 <= k < p_num m ->
  NODEPGNO m (p_ptr m k) = Some (n_pgno m k).
Proof.
  intros Hwf Hk. destruct (n_key_in m k Hwf Hk) as (Hp & Hh & Hks). pose proof (wf_bytes _ Hwf) as Hb.
  unfold NODEPGNO, n_pgno, n_lohi, n_flags. rewrite !get16_in by lia. cbn [mbind option_bind]. f_equal.
  pose proof (g16_range m (p_ptr m k) Hb). pose proof (g16_range m (p_ptr m k + 2) Hb).
  rewrite (lor_shift _ _ 16), lor_shift by lia. done.
Qed.

Lemma NODEDSZ_ok (m : list Z) (k : Z) : page_wf m -> 0 <= k < p_num m ->
  NODEDSZ m (p_ptr m k) = Some (n_lohi m k) /\ 0 <= n_lohi m k.
Proof.
  intros Hwf Hk. destruct (n_key_in m k Hwf Hk) as (Hp & Hh & Hks). pose proof (wf_bytes _ Hwf) as Hb.
  unfold NODEDSZ, n_lohi. rewrite !get16_in by lia. cbn [mbind option_bind].
  pose proof (g16_range m (p_ptr m k) Hb). pose proof (g16_range m (p_ptr m k + 2) Hb).
  rewrite lor_shift by lia. split; [done|lia].
Qed.

(** The in-page part of a leaf node's data is inside the page. *)
Lemma n_data_in (m : list Z) (k : Z) : page_wf m -> p_leaf m = true -> 0 <= k < p_num m ->
  n_dofs m k + (if F_ISSET (n_flags m k) F_BIGDATA then 8 else n_lohi m k) <= zlen m.
Proof.
  intros Hwf Hl Hk. destruct (n_key_in m k Hwf Hk) as (Hp & Hh & Hks).
  destruct (wf_in _ Hwf k Hk) as [_ Hhi]. unfold n_size, hdr_size in Hhi.
  rewrite Hl, !(g16_slice m), Z.add_0_r in Hhi by lia. unfold n_dofs, n_flags, n_lohi.
  match type of Hhi with context [EVEN ?x] => pose proof (EVEN_bounds x) end.
  destruct (F_ISSET (g16 m (p_ptr m k + 4)) F_BIGDATA); lia.
Qed.

Lemma mdb_node_read_ok (c : cursor) (m : list Z) (k : Z) (d : MDB_val) :
  page_wf m -> p_leaf m = true -> 0 <= k < p_num m -> n_data m k = Some d ->
  mdb_node_read get c m (p_ptr m k) = Some (inl d).
Proof.
  intros Hwf Hl Hk Hd. destruct (n_key_in m k Hwf Hk) as (Hp & Hh & Hks).
  destruct (NODEDSZ_ok m k Hwf Hk) as [Hz Hz0]. pose proof (n_data_in m k Hwf Hl Hk) as Hin.
  unfold mdb_node_read, NODEDATA, NODEKSZ, NODESIZE. rewrite !get16_in, Hz by lia.
  cbn [mbind option_bind]. unfold n_data in Hd. fold (n_flags m k). fold (n_dofs m k).
  assert (0 <= n_dofs m k) by (unfold n_dofs; lia).
  destruct (F_ISSET (n_flags m k) F_BIGDATA); cbn [negb].
  - unfold get64. rewrite bread_in by lia. cbn [mbind option_bind]. unfold page_get.
    destruct (get (le_val (slice m (n_dofs m k) 8))) as [p|]; [|done]. cbn [mbind option_bind] in *.
    destruct (Z.leb_spec (16 + n_lohi m k) (zlen p)); [|done]. injection Hd as <-.
    unfold PAGEHDRSZ. rewrite bread_in by lia. done.
  - rewrite bread_in by lia. injection Hd as <-. done.
Qed.

(** ** Cursors on a page *)

Record on_page (c : cursor) (m : list Z) : Prop := {
  op_pg : zlen (mc_pg c) = 32;
  op_ki : zlen (mc_ki c) = 32;
  op_top : 0 <= mc_top c < 32;
  op_snum : mc_snum c = mc_top c + 1;
  op_page : aget (mc_pg c) (mc_top c) = Some m;
  op_null : m <> []
}.

Lemma top_pg_ok (c : cursor) (m : list Z) : on_page c m -> top_pg c = Some m.
Proof.
  intros []. unfold top_pg. rewrite op_page0. cbn [mbind option_bind]. destruct m; done.
Qed.

Lemma set_ki_ok (c : cursor) (m : list Z) (i : Z) : on_page c m -> 0 <= i < 65536 ->
  exists c', set_ki c i = Some c' /\ on_page c' m /\ top_ki c' = Some i /\
    mc_top c' = mc_top c /\ mc_flags c' = mc_flags c /\ mt_flags c' = mt_flags c /\ mc_pg c' = mc_pg c.
Proof.
  intros [] Hi. unfold set_ki. rewrite aset_in by lia. rewrite uwrap_small by lia.
  cbn [mbind option_bind]. eexists. split; [done|]. split_and!; try done.
  - split; cbn; auto. by rewrite zlen_zset.
  - unfold top_ki. cbn. rewrite aget_in by (rewrite zlen_zset; lia). f_equal. apply zn_zset_eq. lia.
Qed.

Lemma push_ok (c : cursor) (m m' : list Z) : on_page c m -> m' <> [] -> mc_top c < 31 ->
  exists c', mdb_cursor_push c m' = Some (MDB_SUCCESS, c') /\ on_page c' m' /\
    top_ki c' = Some 0 /\
    mc_top c' = mc_top c + 1 /\ mc_flags c' = mc_flags c /\ mt_flags c' = mt_flags c.
Proof.
  intros [] Hn Ht. unfold mdb_cursor_push, CURSOR_STACK. rewrite (proj2 (Z.leb_gt _ _)) by lia.
  unfold set_pg, set_stack. cbn [mc_top mc_pg mc_ki mc_snum mc_flags mt_flags].
  rewrite aset_in by lia. cbn [mbind option_bind]. unfold set_ki.
  cbn [mc_top mc_pg mc_ki mc_snum mc_flags mt_flags]. rewrite aset_in by lia.
  cbn [mbind option_bind]. eexists. split; [done|]. split_and!; try done.
  - split; cbn; auto; rewrite ?zlen_zset; try lia.
    rewrite aget_in by (rewrite zlen_zset; lia). f_equal. apply zn_zset_eq. lia.
  - unfold top_ki. cbn. rewrite aget_in by (rewrite zlen_zset; lia). f_equal. apply zn_zset_eq. lia.
Qed.

Lemma p_num_small (m : list Z) : page_wf m -> 0 <= p_num m < 16384.
Proof.
  intros Hwf. pose proof (wf_upper _ Hwf). pose proof (wf_lower _ Hwf). pose proof (wf_psize _ Hwf).
  pose proof (wf_num _ Hwf). unfold MAX_PAGESIZE in *. lia.
Qed.

(** The child chosen for a key is the one whose range it is in. *)
Lemma choose_child_ok (c : cursor) (m : list Z) (key : MDB_val) :
  page_wf m -> p_leaf m = false -> 1 < p_num m -> page_order m -> D key -> on_page c m ->
  exists i c', choose_child md_cmp md_pad c m (Some key) 0 (p_num m) = Some (i, c') /\
    0 <= i < p_num m /\ in_child m i key /\ on_page c' m /\
    mc_top c' = mc_top c /\ mc_flags c' = mc_flags c /\ mt_flags c' = mt_flags c.
Proof.
  intros Hwf Hl Hn (c1 & KO & Hc & Hord & Hs) Hkey Hon. pose proof (p_num_small m Hwf).
  destruct (node_search_ok m md_cmp c1 D KO md_pad key Hwf Hc (or_intror Hn) Hkey Hs)
    as (p & exact & E & Hp & Hlt & Hge & Hex).
  unfold choose_child. cbn [Z.land nz]. change (nz (Z.land 0 _)) with false. cbv iota.
  cbn [mbind option_bind]. rewrite E. cbn [mbind option_bind].
  unfold first_key in Hp, Hlt. rewrite Hl in Hp, Hlt.
  destruct (set_ki_ok c m p Hon ltac:(lia)) as (c' & -> & Hon' & Hki & ? & ? & ? & ?). cbn [mbind option_bind].
  assert (forall j, 1 <= j < p -> ord (n_key m j) key < 0) as Hlt'.
  { intros j Hj. rewrite <- Hord. auto. }
  destruct (Z.ltb_spec p (p_num m)) as [Hpn|Hpn].
  - rewrite Hki. cbn [mbind option_bind]. destruct exact.
    + exists p, c'. split_and!; auto; try lia. destruct Hex as [Hex _]. destruct (Hex eq_refl) as [_ Hk].
      split; [done|]. rewrite Hk. split.
      * intros _. rewrite <- Hord. pose proof (ko_eq key key Hkey Hkey) as [_ Hz]. rewrite Hz; done.
      * intros Hlt1. rewrite <- Hord. destruct (Hge (p + 1)) as [[? _]|]; try lia; auto.
    + rewrite (proj2 (Z.leb_gt _ _)) by lia. exists (p - 1), c'. split_and!; auto; try lia.
      split; [done|]. split; [intros; apply Z.lt_le_incl, Hlt'; lia|].
      intros _. replace (p - 1 + 1) with p by lia. rewrite <- Hord.
      destruct (Hge p ltac:(lia)) as [[_ ?]|]; done.
  - exists (u16 (p_num m - 1)), c'. rewrite uwrap_small by lia. split_and!; auto; try lia.
    split; [done|]. split; [intros; apply Z.lt_le_incl, Hlt'; lia|lia].
Qed.

(** A key is found under no other child than the one whose range it is in. *)
Lemma in_child_unique (m : list Z) (i k : Z) (x : MDB_val) :
  page_order m -> p_leaf m = false -> 0 <= i < p_num m -> 0 <= k < p_num m ->
  in_child m i x -> in_child m k x -> k = i.
Proof.
  intros (c1 & KO & _ & Hord & HD & Hs) Hl Hi Hk (Dx & Hi1 & Hi2) (_ & Hk1 & Hk2).
  unfold first_key in *. rewrite Hl in *.
  assert (forall a b, 0 <= a -> a < b -> b < p_num m -> 
    ord x (n_key m (a + 1)) < 0 -> ord (n_key m b) x <= 0 -> False) as Hno.
  { intros a b Ha Hab Hb H1 H2. rewrite <- Hord in H1, H2.
    pose proof (HD (a + 1) ltac:(lia)) as D1. pose proof (HD b ltac:(lia)) as D2.
    assert (ko_ord x (n_key m b) < 0) as H3.
    { destruct (decide (b = a + 1)) as [->|]; [done|].
      apply (ko_trans _ (n_key m (a + 1))); auto. apply Hs; lia. }
    pose proof (proj1 (ko_anti _ _ Dx D2) H3). lia. }
  destruct (Z.lt_total k i) as [H|[H|H]]; [exfalso|done|exfalso].
  - apply (Hno k i); lia.
  - apply (Hno i k); lia.
Qed.

(** ** Descent *)

Lemma IS_BRANCH_ok (m : list Z) : page_wf m -> IS_BRANCH m = Some (p_branch m).
Proof.
  intros Hwf. pose proof (wf_psize _ Hwf). unfold IS_BRANCH, mp_flags. by rewrite get16_in by lia.
Qed.

Lemma flags_set_clear (f : Z) :
  nz (Z.land (Z.land (Z.lor f C_INITIALIZED) (Z.lnot C_EOF)) C_INITIALIZED) = true /\
  nz (Z.land (Z.land (Z.lor f C_INITIALIZED) (Z.lnot C_EOF)) C_EOF) = false.
Proof.
  unfold nz. rewrite negb_true_iff, negb_false_iff, Z.eqb_neq, Z.eqb_eq. split.
  - intros H. apply (f_equal (fun x => Z.testbit x 0)) in H.
    rewrite !Z.land_spec, Z.lor_spec, Z.bits_0 in H. cbn in H. by rewrite !orb_true_r in H.
  - rewrite <- Z.land_assoc. cbn [C_EOF Z.lnot Z.pred]. change (Z.land (Z.lnot C_EOF) C_EOF) with 0.
    apply Z.land_0_r.
Qed.

Lemma tree_leaf_of (h : nat) (m : list Z) es : tree h m es -> p_branch m = false -> leaf_tree m es.
Proof. destruct h; [done|]. intros (_ & _ & Hb & _). congruence. Qed.

(** The items of a key are those under the child of its range. *)
Lemma tree_child_items (h : nat) (m : list Z) es (i : Z) (key : MDB_val) :
  tree (S h) m es -> 0 <= i < p_num m -> in_child m i key ->
  exists child esk, get (n_pgno m i) = Some child /\ child <> [] /\ tree h child esk /\
    forall d, (key, d) ∈ es <-> (key, d) ∈ esk.
Proof.
  intros (Hwf & Hl & Hb & Hn & Ho & ess & -> & Hlen & Hch) Hi Hin.
  destruct (Hch i Hi) as (child & esk & Hg & Hget & Hnil & _ & Ht & Hall).
  exists child, esk. split_and!; auto. intros d. rewrite list_elem_of_In, in_concat. split.
  - intros (l & Hl1 & Hl2). apply list_elem_of_In in Hl1. apply elem_zn in Hl1 as (k & Hk & <-).
    rewrite Hlen in Hk. destruct (Hch k Hk) as (ck & ek & Hgk & _ & _ & _ & _ & Hallk).
    rewrite (aget_zn _ _ _ Hgk) in Hl2. apply list_elem_of_In in Hl2.
    pose proof (proj1 (Forall_forall _ _) Hallk _ Hl2) as Hik. cbn in Hik.
    assert (k = i) as -> by (by apply (in_child_unique m i k key)). congruence.
  - intros Hd. exists esk. rewrite <- !list_elem_of_In. split; [|done].
    rewrite <- (aget_zn _ _ _ Hg). apply zn_elem. lia.
Qed.

(** The search ends on the leaf page that holds the key if any does. *)
Lemma search_root_ok (key : MDB_val) (h : nat) : forall (m : list Z) es (c : cursor) (fuel : nat),
  tree h m es -> on_page c m -> D key -> mc_top c + Z.of_nat h < 32 -> (h < fuel)%nat ->
  exists c' m' es', search_root_loop get md_cmp md_pad fuel c m (Some key) 0 = Some (MDB_SUCCESS, c') /\
    on_page c' m' /\ leaf_tree m' es' /\ (forall d, (key, d) ∈ es <-> (key, d) ∈ es') /\
    mt_flags c' = mt_flags c /\
    nz (Z.land (mc_flags c') C_INITIALIZED) = true.
Proof.
  induction h as [|h IH]; intros m es c fuel Ht Hon Hkey Hh Hf; (destruct fuel as [|fuel]; [lia|]);
    cbn [search_root_loop].
  - pose proof Ht as (Hwf & Hl & Hb & _). rewrite IS_BRANCH_ok, Hb, IS_LEAF_ok, Hl by done.
    cbn [mbind option_bind negb]. eexists _, m, es. split; [done|].
    split_and!; try done; [destruct Hon; by split|]. cbn. apply flags_set_clear.
  - pose proof Ht as (Hwf & Hl & Hb & Hn & Ho & _). rewrite IS_BRANCH_ok, Hb, NUMKEYS_ok by done.
    cbn [mbind option_bind]. rewrite (proj2 (Z.leb_gt _ _)) by lia.
    destruct (choose_child_ok c m key Hwf Hl Hn Ho Hkey Hon)
      as (i & c1 & -> & Hi & Hin & Hon1 & Ht1 & Hf1 & Hm1). cbn [mbind option_bind].
    rewrite (proj2 (Z.leb_gt _ _)), mp_ptr_ok by (done || lia). cbn [mbind option_bind].
    rewrite NODEPGNO_ok by done. cbn [mbind option_bind].
    destruct (tree_child_items h m es i key Ht Hi Hin) as (child & esk & Hg & Hnil & Hct & Hits).
    unfold page_get. rewrite Hg. pose proof (p_num_small m Hwf).
    destruct (set_ki_ok c1 m i Hon1 ltac:(lia)) as (c2 & -> & Hon2 & _ & Ht2 & _ & Hm2 & _).
    cbn [mbind option_bind].
    destruct (push_ok c2 m child Hon2 Hnil ltac:(lia)) as (c3 & -> & Hon3 & _ & Ht3 & _ & Hm3).
    cbn [mbind option_bind]. change (nz MDB_SUCCESS) with false. cbv iota.
    destruct (IH child esk c3 fuel Hct Hon3 Hkey ltac:(lia) ltac:(lia))
      as (c' & m' & es' & E & Hon' & Hleaf & Hits' & Hmt & Hfl).
    exists c', m', es'. split_and!; auto; [|congruence].
    intros d. rewrite Hits. apply Hits'.
Qed.

(** An item with the key is where the search of the page ended. *)
Lemma leaf_find (c1 : MDB_cmp_func) (KO : KeyOrder (run_cmp c1) D) (m : list Z) es (key d : MDB_val)
    (p : Z) (exact : bool) :
  (forall k, 0 <= k < p_num m -> F_ISSET (n_flags m k) F_DUPDATA = false /\ item m k = aget es k) ->
  zlen es = p_num m -> D key -> 0 <= p ->
  (forall j, 0 <= j < p -> ko_ord (n_key m j) key < 0) ->
  (forall j, p <= j < p_num m -> j = p /\ exact = true \/ ko_ord key (n_key m j) < 0) ->
  (key, d) ∈ es -> exact = true /\ 0 <= p < p_num m /\ aget es p = Some (key, d).
Proof.
  intros Hits Hlen Hkey Hp Hlt Hge (k & Hk & Hzn)%elem_zn. rewrite Hlen in Hk.
  destruct (Hits k Hk) as [_ Hit].
  rewrite aget_in, Hzn in Hit by lia. unfold item in Hit. destruct (n_data m k); [|done].
  cbn [mbind option_bind] in Hit. injection Hit as Hkk ->.
  pose proof (ko_anti key key Hkey Hkey) as Hirr.
  destruct (Z.lt_ge_cases k p); [specialize (Hlt k ltac:(lia)); rewrite Hkk in Hlt; lia|].
  destruct (Hge k ltac:(lia)) as [[-> ->]|Hg]; [|rewrite Hkk in Hg; lia].
  split_and!; auto; try lia. rewrite aget_in by lia. congruence.
Qed.

(** Searching the leaf. *)
Lemma leaf_lookup (m : list Z) es (c : cursor) (key : MDB_val) :
  leaf_tree m es -> on_page c m -> D key ->
  exists r, set2 get md_cmp md_pad c key MDB_SET true true = Some r /\
    (forall d, (key, d) ∈ es -> o_rc r = MDB_SUCCESS /\ o_data r = Some d) /\
    ((forall d, (key, d) ∉ es) -> o_rc r = MDB_NOTFOUND).
Proof.
  intros (Hwf & Hl & Hb & (c1 & KO & Hc & Hord & Hs) & Hlen & Hits) Hon Hkey.
  pose proof (p_num_small m Hwf).
  destruct (node_search_ok m md_cmp c1 D KO md_pad key Hwf Hc (or_introl Hl) Hkey Hs)
    as (p & exact & E & Hp & Hlt & Hge & Hex).
  unfold first_key in *. rewrite Hl in *.
  unfold set2. rewrite (top_pg_ok c m Hon). cbn [mbind option_bind]. rewrite E. cbn [mbind option_bind].
  destruct (set_ki_ok c m p Hon ltac:(lia)) as (c' & -> & Hon' & Hki & _). cbn [mbind option_bind andb].
  assert (forall d, (key, d) ∈ es -> exact = true /\ 0 <= p < p_num m /\ aget es p = Some (key, d)) as Hfind.
  { intros d Hd. apply (leaf_find c1 KO m es key d p exact); auto; lia. }
  destruct exact; cbn [negb]; cycle 1.
  { eexists. split; [done|]. split; [|done]. intros d Hd. by destruct (Hfind d Hd). }
  destruct Hex as [Hex _]. destruct (Hex eq_refl) as [Hpn Hk].
  rewrite (proj2 (Z.ltb_lt _ _)) by lia. unfold set1.
  assert (on_page (clear_flag (or_flag c' C_INITIALIZED) C_EOF) m) as Hon2 by (destruct Hon'; by split).
  rewrite (top_pg_ok _ m Hon2). cbn [mbind option_bind].
  change (top_ki (clear_flag (or_flag c' C_INITIALIZED) C_EOF)) with (top_ki c').
  rewrite Hki. cbn [mbind option_bind]. rewrite IS_LEAF2_ok, mp_ptr_ok by (done || lia).
  cbn [mbind option_bind]. destruct (Hits p ltac:(lia)) as [Hdup Hit].
  rewrite aget_in in Hit by lia. unfold item in Hit.
  destruct (n_data m p) as [d|] eqn:Hd; [|done]. cbn [mbind option_bind] in Hit.
  destruct (n_key_in m p Hwf ltac:(lia)) as (? & ? & ?).
  unfold read_node. rewrite get16_in by lia. cbn [mbind option_bind]. fold (n_flags m p).
  rewrite Hdup. cbn [andb]. rewrite (mdb_node_read_ok _ m p d) by (done || lia).
  cbn [mbind option_bind]. eexists. split; [done|]. cbn [o_rc o_data]. split.
  - intros d' Hd'. destruct (Hfind d' Hd') as (_ & _ & Hg). rewrite aget_in in Hg by lia.
    split; [done|]. congruence.
  - intros Hno. exfalso. apply (Hno d). rewrite Hk in Hit. injection Hit as Hit. rewrite Hit.
    apply zn_elem. lia.
Qed.

(** A search with a fresh cursor starts on the root page. *)
Lemma page_search_start (root : list Z) (md_root mt : Z) (key : option MDB_val) (flags : Z) :
  get md_root = Some root -> root <> [] -> 1 < md_root < P_INVALID ->
  F_ISSET mt MDB_TXN_ERROR = false -> nz (Z.land flags MDB_PS_ROOTONLY) = false ->
  exists c, on_page c root /\ mc_top c = 0 /\ mc_flags c = 0 /\ mt_flags c = mt /\
    mdb_page_search get md_cmp md_pad md_root (mdb_cursor_init mt) key flags =
      search_root_loop get md_cmp md_pad 33 c root key flags.
Proof.
  intros Hget Hnil Hroot Htxn Hfl. unfold mdb_page_search. cbn [mdb_cursor_init mt_flags mc_pg].
  rewrite Htxn, (proj2 (Z.eqb_neq _ _)), (proj2 (Z.leb_gt _ _)) by lia.
  change (aget (replicate 32 []) 0) with (Some (@nil Z)). cbn [mbind option_bind].
  unfold page_get. rewrite Hget. unfold set_pg. cbn [mdb_cursor_init mc_pg].
  rewrite aset_in by (vm_compute; split; congruence). cbn [mbind option_bind]. rewrite Hfl.
  unfold mdb_page_search_root. set (c := set_stack _ 1 0).
  assert (on_page c root) as Hon by (split; try done; vm_compute; try split; congruence).
  exists c. split_and!; try done. by rewrite (top_pg_ok c root Hon).
Qed.

(** A fresh cursor finds the leaf page of a key. *)
Lemma page_search_ok (root : list Z) (md_root : Z) (h : nat) es (mt : Z) (key : MDB_val) :
  get md_root = Some root -> root <> [] -> 1 < md_root < P_INVALID ->
  tree h root es -> (h < 32)%nat -> D key -> F_ISSET mt MDB_TXN_ERROR = false ->
  exists c' m' es', mdb_page_search get md_cmp md_pad md_root (mdb_cursor_init mt) (Some key) 0 =
      Some (MDB_SUCCESS, c') /\
    on_page c' m' /\ leaf_tree m' es' /\ (forall d, (key, d) ∈ es <-> (key, d) ∈ es').
Proof.
  intros Hget Hnil Hroot Ht Hh Hkey Htxn.
  destruct (page_search_start root md_root mt (Some key) 0) as (c & Hon & Htop & _ & _ & ->); auto.
  destruct (search_root_ok key h root es c 33 Ht Hon Hkey) as (c' & m' & es' & E & ? & ? & ? & _); [lia..|].
  exists c', m', es'. auto.
Qed.

(** A tree's page is not empty memory. *)
Lemma tree_not_nil (h : nat) (m : list Z) es : tree h m es -> m <> [].
Proof.
  intros Ht ->. assert (page_wf []) as Hwf by (destruct h; apply Ht).
  pose proof (wf_psize _ Hwf) as Hz. rewrite zlen_nil in Hz. lia.
Qed.

End Tree.

Lemma get_ok (get : Z -> option (list Z)) (md_cmp : MDB_cmp_func) (md_pad md_root : Z)
    (D : MDB_val -> Prop) (ord : MDB_val -> MDB_val -> Z)
    (root : list Z) (h : nat) (es : list (MDB_val * MDB_val)) (mt : Z) (key : MDB_val) :
  get md_root = Some root -> 1 < md_root < P_INVALID ->
  tree get md_cmp D ord h root es -> (h < 32)%nat -> D key -> 0 < mv_size key ->
  Z.land mt MDB_TXN_ERROR = 0 ->
  exists r, mdb_get get md_cmp md_pad md_root mt key = Some r /\
    (forall d, (key, d) ∈ es -> o_rc r = MDB_SUCCESS /\ o_data r = Some d) /\
    ((forall d, (key, d) ∉ es) -> o_rc r = MDB_NOTFOUND).
Proof.
  intros Hget Hroot Ht Hh Hkey Hsz Htxn.
  pose proof (tree_not_nil _ _ _ _ _ _ _ Ht) as Hnil.
  destruct (page_search_ok get md_cmp md_pad D ord root md_root h es mt key)
    as (c' & m' & es' & E & Hon & Hleaf & Hits); auto.
  { unfold F_ISSET. by rewrite Htxn. }
  destruct (leaf_lookup get md_cmp md_pad D ord m' es' c' key Hleaf Hon Hkey) as (r & Er & Hin & Hout).
  exists r. split.
  - unfold mdb_get, mdb_cursor_set. rewrite Htxn. change (nz 0) with false. cbv iota.
    rewrite (proj2 (Z.eqb_neq _ _)) by lia. cbn [mdb_cursor_init mc_flags].
    change (negb (nz (Z.land 0 C_INITIALIZED))) with true. cbv iota. unfold set_search.
    rewrite E. cbn [mbind option_bind]. change (nz MDB_SUCCESS) with false. cbv iota.
    rewrite (top_pg_ok c' m' Hon). cbn [mbind option_bind]. destruct Hleaf as (Hwf & Hl & _).
    by rewrite IS_LEAF_ok, Hl by done.
  - split.
    + intros d Hd. apply Hin, Hits, Hd.
    + intros Hno. apply Hout. intros d Hd. apply (Hno d), Hits, Hd.
Qed.

(** C10: looking a key up with [mdb_get] in a database whose pages form a
    well-formed tree of items [es] returns the data of the key's item if
    there is one and [MDB_NOTFOUND] otherwise; it always returns (no
    undefined access, failed assertion or endless descent). *)
Theorem mdb_get_correct (get : Z -> option (list Z)) (md_cmp : MDB_cmp_func) (md_pad md_root : Z)
    (D : MDB_val -> Prop) (ord : MDB_val -> MDB_val -> Z)
    (root : list Z) (h : nat) (es : list (MDB_val * MDB_val)) (mt : Z) (key : MDB_val) :
  get md_root = Some root -> 1 < md_root < P_INVALID ->
  tree get md_cmp D ord h root es -> (h < 32)%nat -> D key -> 0 < mv_size key ->
  Z.land mt MDB_TXN_ERROR = 0 ->
  exists r, mdb_get get md_cmp md_pad md_root mt key = Some r /\
    (forall d, (key, d) ∈ es -> o_rc r = MDB_SUCCESS /\ o_data r = Some d) /\
    ((forall d, (key, d) ∉ es) -> o_rc r = MDB_NOTFOUND).
Proof. exact (get_ok get md_cmp md_pad md_root D ord root h es mt key). Qed.

(** ** A concrete database: a root with two leaves, three items *)

Definition leafB64 : list Z :=
  [4;0;0;0;0;0;0;0; 0;0; 2;0; 18;0; 54;0; 54;0] ++ replicate 36 0 ++ [1;0; 0;0; 0;0; 1;0; 20; 77].
Definition root64 : list Z :=
  [2;0;0;0;0;0;0;0; 0;0; 1;0; 20;0; 46;0; 56;0; 46;0] ++ replicate 26 0 ++
  [4;0; 0;0; 0;0; 1;0; 20; 0] ++ [3;0; 0;0; 0;0; 0;0].
Definition db3 (pgno : Z) : option (list Z) :=
  if pgno =? 2 then Some root64 else if pgno =? 3 then Some leaf64
  else if pgno =? 4 then Some leafB64 else None.
Definition items3 : list (MDB_val * MDB_val) :=
  [(Val 1 [5], Val 2 [6; 7]); (Val 1 [9], Val 1 [10]); (Val 1 [20], Val 1 [77])].

Definition shortb (v : MDB_val) : bool :=
  (mv_size v =? zlen (mv_data v)) && forallb (fun b => (0 <=? b) && (b <? 256)) (mv_data v) &&
  (mv_size v <? 2 ^ 32).

Definition memn_sortedb (m : list Z) : bool :=
  let ks := seqZ 0 (p_num m) in
  forallb (fun j => shortb (n_key m j)) ks &&
  forallb (fun j => forallb (fun j' => (j <? first_key m) || (j' <=? j) ||
                             (lex_ord (n_key m j) (n_key m j') <? 0)) ks) ks.

Lemma shortb_sound (v : MDB_val) : shortb v = true -> short v.
Proof.
  unfold shortb, short. rewrite andb_true_iff, Z.ltb_lt. intros [? ?]. split; [|done]. by apply val_ok_dec.
Qed.

Lemma memn_order (m : list Z) : IS_BRANCH m <> None -> memn_sortedb m = true ->
  page_order cmp_memn short lex_ord m.
Proof.
  intros Hb Hs. exists cmp_memn, cmp_memn_order. split; [|split; [done|]].
  - unfold eff_cmp. destruct (IS_BRANCH m); [done|congruence].
  - unfold memn_sortedb in Hs. apply andb_true_iff in Hs as [H1 H2].
    assert (0 <= first_key m) by (unfold first_key; destruct (p_leaf m); lia). split.
    + intros j Hj. apply shortb_sound. apply (forallb_seqZ _ _ j H1). lia.
    + intros j j' Hj Hjj Hj'. pose proof (forallb_seqZ _ _ j' (forallb_seqZ _ _ j H2 ltac:(lia)) ltac:(lia)) as Hx.
      cbv beta in Hx. change (lex_ord (n_key m j) (n_key m j') < 0). lia.
Qed.

(** Bounded case analysis on closed pages. *)
Lemma forall_lt_1 (P : Z -> Prop) : P 0 -> forall k, 0 <= k < 1 -> P k.
Proof. intros. by replace k with 0 by lia. Qed.
Lemma forall_lt_2 (P : Z -> Prop) : P 0 -> P 1 -> forall k, 0 <= k < 2 -> P k.
Proof. intros. destruct (decide (k = 0)) as [->|]; [done|]. by replace k with 1 by lia. Qed.

Lemma tree_leaf64 : tree db3 cmp_memn short lex_ord 0 leaf64 (take 2 items3).
Proof.
  split_and!; try reflexivity; [apply leaf64_wf|apply memn_order; [done|reflexivity]|].
  apply (forall_lt_2 (fun k => F_ISSET (n_flags leaf64 k) F_DUPDATA = false /\
                               item db3 leaf64 k = aget (take 2 items3) k)); split; reflexivity.
Qed.

Lemma tree_leafB64 : tree db3 cmp_memn short lex_ord 0 leafB64 (drop 2 items3).
Proof.
  split_and!; try reflexivity;
    [apply page_wfb_sound; reflexivity|apply memn_order; [done|reflexivity]|].
  apply (forall_lt_1 (fun k => F_ISSET (n_flags leafB64 k) F_DUPDATA = false /\
                               item db3 leafB64 k = aget (drop 2 items3) k)); split; reflexivity.
Qed.

Lemma tree_root64 : tree db3 cmp_memn short lex_ord 1 root64 items3.
Proof.
  split_and!; try reflexivity;
    [apply page_wfb_sound; reflexivity|apply memn_order; [done|reflexivity]|].
  exists [take 2 items3; drop 2 items3]. split_and!; try reflexivity.
  apply (forall_lt_2 (fun k => exists child esk, aget [take 2 items3; drop 2 items3] k = Some esk /\
    db3 (n_pgno root64 k) = Some child /\ child <> [] /\ esk <> [] /\
    tree db3 cmp_memn short lex_ord 0 child esk /\
    Forall (fun e => in_child short lex_ord root64 k e.1) esk)).
  - exists leaf64, (take 2 items3). split_and!; try reflexivity; [done|done|apply tree_leaf64|].
    repeat constructor; try closed; apply shortb_sound; reflexivity.
  - exists leafB64, (drop 2 items3). split_and!; try reflexivity; [done|done|apply tree_leafB64|].
    repeat constructor; try closed; apply shortb_sound; reflexivity.
Qed.

Lemma mdb_get_witness : exists r, mdb_get db3 cmp_memn 0 2 0 (Val 1 [9]) = Some r /\
  (forall d, (Val 1 [9], d) ∈ items3 -> o_rc r = MDB_SUCCESS /\ o_data r = Some d) /\
  ((forall d, (Val 1 [9], d) ∉ items3) -> o_rc r = MDB_NOTFOUND).
Proof.
  apply (mdb_get_correct db3 cmp_memn 0 2 short lex_ord root64 1 items3 0 (Val 1 [9]));
    [reflexivity|closed|apply tree_root64|lia|apply shortb_sound; reflexivity|closed|reflexivity].
Defined.

(** The lookups evaluated. *)
Example mdb_get_hit : option_map (fun r => (o_rc r, o_data r)) (mdb_get db3 cmp_memn 0 2 0 (Val 1 [20]))
  = Some (MDB_SUCCESS, Some (Val 1 [77])).
Proof. reflexivity. Qed.
Example mdb_get_miss : option_map o_rc (mdb_get db3 cmp_memn 0 2 0 (Val 1 [21])) = Some MDB_NOTFOUND.
Proof. reflexivity. Qed.
