(* ===== verification/CursorPath.v ===== *)
(** * The stack of a cursor as a position in the B+tree

    [path]: what the pages and indices on a cursor's stack
    ([src/LegacyDatabase/mdb.c]) say about the items to the left of, under and
    to the right of the page on top.  Moving to a sibling page and descending
    from the root are steps between such positions. *)
From S2P Require Import Prelude.
From S2P Require Import Bytes.
From S2P Require Import Page.
From S2P Require Import PageSpec.
From S2P Require Import NodeOps.
From S2P Require Import Cmp.
From S2P Require Import NodeSearch.
From S2P Require Import Cursor.
From S2P Require Import Tree.
From Stdlib Require Import ZArith Lia.
From stdpp Require Import base numbers option list.
Open Scope Z_scope.

(** ** Frames *)

(** The lowest [l] levels of the stack, and the root page, are the same. *)
Definition same_below (l : Z) (c c' : cursor) : Prop :=
  (forall j, 0 <= j < l ->
     aget (mc_pg c') j = aget (mc_pg c) j /\ aget (mc_ki c') j = aget (mc_ki c) j) /\
  aget (mc_pg c') 0 = aget (mc_pg c) 0.

Lemma aget_zset_ne {A} `{Inhabited A} (l : list A) (i j : Z) (x : A) : 0 <= i -> i <> j ->
  aget (zset l i x) j = aget l j.
Proof.
  intros Hi Hne. destruct (decide (0 <= j < zlen l)) as [Hj|Hj].
  - rewrite !aget_in by (rewrite ?zlen_zset; lia). f_equal. by apply zn_zset_ne.
  - destruct (aget l j) eqn:E; [apply aget_lt in E; lia|].
    destruct (aget (zset l i x) j) eqn:E'; [apply aget_lt in E'; rewrite zlen_zset in E'; lia|done].
Qed.

Lemma set_ki_below (c c' : cursor) (i : Z) : set_ki c i = Some c' -> same_below (mc_top c) c c'.
Proof.
  unfold set_ki. destruct (aset (mc_ki c) (mc_top c) (u16 i)) as [ki|] eqn:E; [|done].
  apply aset_Some in E as [Hi ->]. cbn [mbind option_bind]. intros [= <-]. split; [|done].
  intros j Hj. cbn. split; [done|]. apply aget_zset_ne; lia.
Qed.

Lemma push_below (c c' : cursor) (m : list Z) (rc : Z) : 0 < mc_snum c ->
  mdb_cursor_push c m = Some (rc, c') -> same_below (mc_snum c) c c'.
Proof.
  intros Hs. unfold mdb_cursor_push, set_pg, set_ki. destruct (CURSOR_STACK <=? mc_snum c).
  { intros [= <- <-]. by split. }
  cbn [set_stack mc_top mc_pg mc_ki].
  destruct (aset (mc_pg c) (mc_snum c) m) as [pg|] eqn:E1; [|done]. cbn [mbind option_bind mc_top mc_ki].
  destruct (aset (mc_ki c) (mc_snum c) (u16 0)) as [ki|] eqn:E2; [|done]. cbn [mbind option_bind].
  apply aset_Some in E1 as [? ->]. apply aset_Some in E2 as [? ->].
  intros [= <- <-]. split; cbn [mc_pg mc_ki]; [|apply aget_zset_ne; lia].
  intros j Hj. split; apply aget_zset_ne; lia.
Qed.

Lemma same_stack (c : cursor) (snum top : Z) (l : Z) : same_below l c (set_stack c snum top).
Proof. done. Qed.

Lemma set_stack_back (c : cursor) (s t s' t' : Z) : s' = mc_snum c -> t' = mc_top c ->
  set_stack (set_stack c s t) s' t' = c.
Proof. intros -> ->. by destruct c. Qed.

Lemma pop_on_page (c : cursor) (m m0 : list Z) : on_page c m0 -> 0 < mc_top c ->
  aget (mc_pg c) (mc_top c - 1) = Some m -> m <> [] ->
  mdb_cursor_pop c = set_stack c (mc_top c) (mc_top c - 1) /\ on_page (mdb_cursor_pop c) m.
Proof.
  intros [? ? ? Hs ? ?] Ht Hp Hn. assert (mdb_cursor_pop c = set_stack c (mc_top c) (mc_top c - 1)) as ->.
  { unfold mdb_cursor_pop, nz. rewrite Hs, (proj2 (Z.eqb_neq _ _)) by lia. cbn [negb].
    replace (mc_top c + 1 - 1) with (mc_top c) by lia. by rewrite (proj2 (Z.eqb_neq _ _)) by lia. }
  split; [done|]. split; cbn; auto; lia.
Qed.

Lemma concat_split {A} (ess : list (list A)) (k : Z) (esk : list A) : aget ess k = Some esk ->
  concat ess = concat (take (Z.to_nat k) ess) ++ esk ++ concat (drop (Z.to_nat (k + 1)) ess).
Proof.
  intros E. pose proof (aget_lt _ _ _ E) as Hk. unfold aget in E.
  rewrite (proj2 (Z.leb_le 0 k)) in E by lia. replace (Z.to_nat (k + 1)) with (S (Z.to_nat k)) by lia.
  rewrite <- (take_drop (Z.to_nat k) ess) at 1. rewrite concat_app, (drop_S _ _ _ E). done.
Qed.

Lemma take_next {A} (ess : list (list A)) (k : Z) (esk : list A) : aget ess k = Some esk ->
  concat (take (Z.to_nat (k + 1)) ess) = concat (take (Z.to_nat k) ess) ++ esk.
Proof.
  intros E. pose proof (aget_lt _ _ _ E) as Hk. unfold aget in E.
  rewrite (proj2 (Z.leb_le 0 k)) in E by lia. replace (Z.to_nat (k + 1)) with (S (Z.to_nat k)) by lia.
  rewrite (take_S_r _ _ _ E), concat_app. cbn [concat]. by rewrite app_nil_r.
Qed.

Lemma drop_prev {A} (ess : list (list A)) (k : Z) (esk : list A) : aget ess k = Some esk ->
  concat (drop (Z.to_nat k) ess) = esk ++ concat (drop (Z.to_nat (k + 1)) ess).
Proof.
  intros E. pose proof (aget_lt _ _ _ E) as Hk. unfold aget in E.
  rewrite (proj2 (Z.leb_le 0 k)) in E by lia. rewrite (drop_S _ _ _ E). cbn [concat].
  by replace (Z.to_nat (k + 1)) with (S (Z.to_nat k)) by lia.
Qed.

Section Path.
Variable get : Z -> option (list Z).
Context (md_cmp : MDB_cmp_func) (md_pad md_root : Z) (D : MDB_val -> Prop) (ord : MDB_val -> MDB_val -> Z).
Abbreviation items := (list (MDB_val * MDB_val)).
Abbreviation tree := (tree get md_cmp D ord).
Abbreviation leaf_tree := (leaf_tree get md_cmp D ord).

(** A branch page and the items under each of its children. *)
Record branch_node (h : nat) (m : list Z) (ess : list items) : Prop := {
  bn_wf : page_wf m;
  bn_leaf : p_leaf m = false;
  bn_branch : p_branch m = true;
  bn_num : 1 < p_num m;
  bn_order : page_order md_cmp D ord m;
  bn_len : zlen ess = p_num m;
  bn_child k : 0 <= k < p_num m -> exists child esk, aget ess k = Some esk /\
    get (n_pgno m k) = Some child /\ child <> [] /\ esk <> [] /\ tree h child esk /\
    Forall (fun e => in_child D ord m k e.1) esk
}.

Lemma tree_branch (h : nat) (m : list Z) (es : items) : tree (S h) m es ->
  exists ess, es = concat ess /\ branch_node h m ess.
Proof.
  intros (Hwf & Hl & Hb & Hn & Ho & ess & -> & Hlen & Hch). exists ess. split; [done|]. by split.
Qed.

(** ** The path *)

(** The database: its root page, height and items. *)
Variables (root : list Z) (H : nat) (es0 : items).

(** The page [top] of the cursor at level [l] is the root of a tree of height
    [h] with items [cur]; [lft] and [rgt] are the items before and after. *)
Fixpoint path (l : nat) (c : cursor) (h : nat) (top : list Z) (lft cur rgt : items) : Prop :=
  match l with
  | O => h = H /\ lft = [] /\ rgt = [] /\ cur = es0 /\ aget (mc_pg c) 0 = Some root /\ top = root
  | S l => exists m ki ess lft' rgt', aget (mc_pg c) (Z.of_nat l) = Some m /\ m <> [] /\
      aget (mc_ki c) (Z.of_nat l) = Some ki /\ branch_node h m ess /\ aget ess ki = Some cur /\
      lft = lft' ++ concat (take (Z.to_nat ki) ess) /\
      rgt = concat (drop (Z.to_nat (ki + 1)) ess) ++ rgt' /\ get (n_pgno m ki) = Some top /\
      path l c (S h) m lft' (concat ess) rgt'
  end.

Lemma path_frame (l : nat) (c c' : cursor) : same_below (Z.of_nat l) c c' ->
  forall h top lft cur rgt, path l c h top lft cur rgt -> path l c' h top lft cur rgt.
Proof.
  induction l as [|l IH]; intros [Hs H0] h top lft cur rgt Hp; cbn [path] in *; [by rewrite H0|].
  destruct Hp as (m & ki & ess & lft' & rgt' & Hm & Hnil & Hk & Hb & Hc & -> & -> & Hgt & Hp).
  destruct (Hs (Z.of_nat l) ltac:(lia)) as [E1 E2].
  exists m, ki, ess, lft', rgt'. rewrite E1, E2. split_and!; auto.
  apply IH; [|done]. split; [|done]. intros j Hj. apply Hs. lia.
Qed.

(** The three parts are all the items. *)
Lemma path_items (l : nat) (c : cursor) : forall h top lft cur rgt,
  path l c h top lft cur rgt -> es0 = lft ++ cur ++ rgt.
Proof.
  induction l as [|l IH]; intros h top lft cur rgt Hp.
  - destruct Hp as (_ & -> & -> & -> & _ & _). by rewrite app_nil_r.
  - destruct Hp as (m & ki & ess & lft' & rgt' & _ & _ & _ & _ & Hc & -> & -> & _ & Hp).
    rewrite (IH _ _ _ _ _ Hp), (concat_split _ _ _ Hc), <- !app_assoc. done.
Qed.

Lemma path_height (l : nat) (c : cursor) : forall h top lft cur rgt,
  path l c h top lft cur rgt -> (l + h = H)%nat.
Proof.
  induction l as [|l IH]; intros h top lft cur rgt Hp; [by destruct Hp as (-> & _)|].
  destruct Hp as (m & ki & ess & lft' & rgt' & _ & _ & _ & _ & _ & _ & _ & _ & Hp).
  apply IH in Hp. lia.
Qed.

Lemma path_root (l : nat) (c : cursor) : forall h top lft cur rgt,
  path l c h top lft cur rgt -> aget (mc_pg c) 0 = Some root.
Proof.
  induction l as [|l IH]; intros h top lft cur rgt Hp; [apply Hp|].
  destruct Hp as (m & ki & ess & lft' & rgt' & _ & _ & _ & _ & _ & _ & _ & _ & Hp). eauto.
Qed.

(** A cursor on a page of the tree, at level [mc_top]. *)
Record located (c : cursor) (h : nat) (m : list Z) (lft cur rgt : items) : Prop := {
  loc_page : on_page c m;
  loc_tree : tree h m cur;
  loc_some : cur <> [];
  loc_path : path (Z.to_nat (mc_top c)) c h m lft cur rgt
}.

(** Changing the index on top leaves the path as it is. *)
Lemma located_set_ki (c : cursor) (h : nat) (m : list Z) (lft cur rgt : items) (i : Z) :
  located c h m lft cur rgt -> 0 <= i < 65536 ->
  exists c', set_ki c i = Some c' /\ located c' h m lft cur rgt /\ top_ki c' = Some i /\
    mc_top c' = mc_top c /\ mc_flags c' = mc_flags c /\ mt_flags c' = mt_flags c.
Proof.
  intros [Hon Ht Hne Hp] Hi. destruct (set_ki_ok c m i Hon Hi) as (c' & E & Hon' & Hk & Htop & Hf & Hm & _).
  pose proof (op_top _ _ Hon). exists c'. split_and!; auto. split; auto. rewrite Htop.
  apply (path_frame _ c); [|done]. rewrite Z2Nat.id by lia. by apply set_ki_below in E.
Qed.

Lemma located_flags (c : cursor) (h : nat) (m : list Z) (lft cur rgt : items) (f : Z) :
  located c h m lft cur rgt -> located (set_flags c f) h m lft cur rgt.
Proof.
  intros [[] Ht Hne Hp]. split; [by split|done|done|]. cbn [set_flags mc_top].
  by apply (path_frame _ c).
Qed.

(** ** Going down one level *)

Lemma down_ok (c : cursor) (h : nat) (m : list Z) (lft rgt : items) (ess : list items) (k : Z) :
  located c (S h) m lft (concat ess) rgt -> branch_node h m ess -> (H < 32)%nat ->
  top_ki c = Some k -> 0 <= k < p_num m ->
  exists child esk c', get (n_pgno m k) = Some child /\ aget ess k = Some esk /\
    mdb_cursor_push c child = Some (MDB_SUCCESS, c') /\
    located c' h child (lft ++ concat (take (Z.to_nat k) ess)) esk
      (concat (drop (Z.to_nat (k + 1)) ess) ++ rgt) /\
    Forall (fun e => in_child D ord m k e.1) esk /\
    top_ki c' = Some 0 /\ mc_top c' = mc_top c + 1 /\ mc_flags c' = mc_flags c /\ mt_flags c' = mt_flags c.
Proof.
  intros [Hon _ _ Hp] Hb HH Hki Hk. pose proof (op_top _ _ Hon). pose proof (path_height _ _ _ _ _ _ _ Hp).
  destruct (bn_child _ _ _ Hb k Hk) as (child & esk & Hg & Hget & Hnil & Hne & Htr & Hall).
  destruct (push_ok c m child Hon Hnil ltac:(lia)) as (c' & Hpush & Hon' & Hki' & Htop & Hf & Hmt).
  pose proof (op_snum _ _ Hon) as Hsn.
  pose proof (push_below c c' child _ ltac:(lia) Hpush) as Hbel. rewrite Hsn in Hbel.
  exists child, esk, c'. split_and!; auto. split; auto.
  rewrite Htop. replace (Z.to_nat (mc_top c + 1)) with (S (Z.to_nat (mc_top c))) by lia.
  destruct (proj1 Hbel (mc_top c) ltac:(lia)) as [E1 E2].
  exists m, k, ess, lft, rgt. rewrite !Z2Nat.id, E1, E2 by lia. split_and!; auto; [apply Hon|apply Hon|].
  apply (path_frame _ c); [|done]. split; [|apply Hbel]. intros j Hj. apply Hbel. lia.
Qed.

(** ** mdb_cursor_sibling *)

(** From the items around one page to those around the page next to it. *)
Definition moved (right : bool) (lft cur rgt lft' cur' rgt' : items) : Prop :=
  if right then lft' = lft ++ cur /\ rgt = cur' ++ rgt' else lft = lft' ++ cur' /\ rgt' = cur ++ rgt.

(** The index of the first entry, or of the last. *)
Definition end_index (right : bool) (m : list Z) : Z := if right then 0 else p_num m - 1.

Definition sibling_result (right : bool) (c c' : cursor) (h : nat) (rc : Z) (lft cur rgt : items) : Prop :=
  ((if right then rgt else lft) = [] /\ rc = MDB_NOTFOUND /\ c' = c) \/
  (exists m lft' cur' rgt', rc = MDB_SUCCESS /\ located c' h m lft' cur' rgt' /\
     moved right lft cur rgt lft' cur' rgt' /\ top_ki c' = Some (end_index right m) /\
     mc_top c' = mc_top c /\ mc_flags c' = mc_flags c /\ mt_flags c' = mt_flags c).

Lemma tree_wf (h : nat) (m : list Z) (es : items) : tree h m es -> page_wf m.
Proof. destruct h; intros Ht; apply Ht. Qed.

Lemma leaf_num (m : list Z) (es : items) : leaf_tree m es -> zlen es = p_num m.
Proof. intros (_ & _ & _ & _ & Hl & _). done. Qed.

Lemma zlen_pos {A} (l : list A) : l <> [] -> 0 < zlen l.
Proof. destruct l; [done|]. intros _. rewrite zlen_cons. pose proof (zlen_nonneg l). lia. Qed.

Lemma tree_num (h : nat) (m : list Z) (es : items) : tree h m es -> es <> [] -> 0 < p_num m < 16384.
Proof.
  intros Ht Hne. pose proof (p_num_small m (tree_wf _ _ _ Ht)). destruct h as [|h].
  - rewrite <- (leaf_num m es Ht) in *. pose proof (zlen_pos _ Hne). lia.
  - destruct Ht as (_ & _ & _ & ? & _). lia.
Qed.

(** The end of [mdb_cursor_sibling], once the parent's index is set. *)
Definition sibling_end (right : bool) (c : cursor) : option (Z * cursor) :=
  mp ← top_pg c; branch ← IS_BRANCH mp;
  if negb branch then None
  else ki ← top_ki c; o ← mp_ptr mp ki; pgno ← NODEPGNO mp o;
    match page_get get c pgno with
    | inr (rc, c) => Some (rc, clear_flag c (Z.lor C_INITIALIZED C_EOF))
    | inl mp' =>
      '(_, c) ← mdb_cursor_push c mp';
      if right then Some (MDB_SUCCESS, c)
      else n ← NUMKEYS mp'; c ← set_ki c (n - 1); Some (MDB_SUCCESS, c)
    end.

Lemma sibling_end_ok (right : bool) (c : cursor) (h : nat) (m : list Z) (lft rgt : items)
    (ess : list items) (k : Z) :
  located c (S h) m lft (concat ess) rgt -> branch_node h m ess -> (H < 32)%nat ->
  top_ki c = Some k -> 0 <= k < p_num m ->
  exists child esk c', sibling_end right c = Some (MDB_SUCCESS, c') /\ aget ess k = Some esk /\
    located c' h child (lft ++ concat (take (Z.to_nat k) ess)) esk
      (concat (drop (Z.to_nat (k + 1)) ess) ++ rgt) /\
    top_ki c' = Some (end_index right child) /\
    mc_top c' = mc_top c + 1 /\ mc_flags c' = mc_flags c /\ mt_flags c' = mt_flags c.
Proof.
  intros Hloc Hb HH Hki Hk. pose proof (bn_wf _ _ _ Hb) as Hwf.
  destruct (down_ok c h m lft rgt ess k Hloc Hb HH Hki Hk)
    as (child & esk & c' & Hget & Hg & Hpush & Hloc' & _ & Hki' & Htop & Hf & Hmt).
  pose proof (loc_page _ _ _ _ _ _ Hloc) as Hon.
  unfold sibling_end. rewrite (top_pg_ok c m Hon). cbn [mbind option_bind].
  rewrite IS_BRANCH_ok, (bn_branch _ _ _ Hb) by done.
  cbn [mbind option_bind negb]. rewrite Hki. cbn [mbind option_bind].
  rewrite mp_ptr_ok by (done || lia). cbn [mbind option_bind]. rewrite NODEPGNO_ok by done.
  cbn [mbind option_bind]. unfold page_get. rewrite Hget, Hpush. cbn [mbind option_bind].
  destruct right; [exists child, esk, c'; auto 10|].
  pose proof (loc_tree _ _ _ _ _ _ Hloc') as Htr.
  pose proof (tree_num _ _ _ Htr (loc_some _ _ _ _ _ _ Hloc')) as Hn.
  rewrite NUMKEYS_ok by (by apply tree_wf in Htr). cbn [mbind option_bind].
  destruct (located_set_ki c' h child _ _ _ (p_num child - 1) Hloc' ltac:(lia))
    as (c2 & -> & Hloc2 & Hk2 & Ht2 & Hf2 & Hm2).
  exists child, esk, c2. split_and!; auto; congruence || lia.
Qed.

(** Popping the top page. *)
Lemma located_pop (l : nat) (c : cursor) (h : nat) (m0 : list Z) (lft cur rgt : items) :
  located c h m0 lft cur rgt -> mc_top c = Z.of_nat (S l) ->
  exists m ki ess lft' rgt', located (mdb_cursor_pop c) (S h) m lft' (concat ess) rgt' /\
    mdb_cursor_pop c = set_stack c (mc_top c) (mc_top c - 1) /\
    top_ki (mdb_cursor_pop c) = Some ki /\ branch_node h m ess /\ aget ess ki = Some cur /\
    lft = lft' ++ concat (take (Z.to_nat ki) ess) /\ rgt = concat (drop (Z.to_nat (ki + 1)) ess) ++ rgt'.
Proof.
  intros [Hon _ _ Hp] Ht. rewrite Ht, Nat2Z.id in Hp.
  destruct Hp as (m & ki & ess & lft' & rgt' & Hm & Hnil & Hk & Hb & Hc & -> & -> & Hgt & Hp).
  destruct (pop_on_page c m m0 Hon) as [Epop Hon1];
    [lia|by replace (mc_top c - 1) with (Z.of_nat l) by lia|done|].
  exists m, ki, ess, lft', rgt'. split_and!; auto.
  - split; auto.
    + destruct Hb. split_and!; auto. exists ess. auto.
    + pose proof (aget_lt _ _ _ Hc) as Hki. rewrite (bn_len _ _ _ Hb) in Hki.
      destruct (bn_child _ _ _ Hb ki Hki) as (child & esk & Hg & _ & _ & Hne & _).
      rewrite (concat_split _ _ _ Hg). intros [_ [E _]%app_nil]%app_nil. done.
    + rewrite Epop. cbn [set_stack mc_top]. replace (Z.to_nat (mc_top c - 1)) with l by lia.
      by apply (path_frame _ c).
  - unfold top_ki. rewrite Epop. cbn. by replace (mc_top c - 1) with (Z.of_nat l) by lia.
Qed.

(** Whether the parent has no further child on that side. *)
Definition at_end_of (right : bool) (m : list Z) (ki : Z) : bool :=
  if right then p_num m <=? ki + 1 else ki =? 0.

Lemma sibling_unfold (fuel : nat) (c : cursor) (right : bool) (m : list Z) (ki : Z) :
  2 <= mc_snum c -> page_wf m -> on_page (mdb_cursor_pop c) m -> top_ki (mdb_cursor_pop c) = Some ki ->
  mdb_cursor_sibling get (S fuel) c right =
    ('(rc, c) ← (if at_end_of right m ki then
                  '(rc, c) ← mdb_cursor_sibling get fuel (mdb_cursor_pop c) right;
                  Some (rc, if nz rc then set_stack c (mc_snum c + 1) (mc_top c + 1) else c)
                else
                  c ← set_ki (mdb_cursor_pop c) (if right then ki + 1 else ki - 1); Some (MDB_SUCCESS, c));
     if nz rc then Some (rc, c) else sibling_end right c).
Proof.
  intros Hs Hwf Hon Hki. cbn [mdb_cursor_sibling]. rewrite (proj2 (Z.ltb_ge _ _)) by lia.
  rewrite (top_pg_ok _ m Hon). cbn [mbind option_bind]. rewrite NUMKEYS_ok by done.
  cbn [mbind option_bind]. rewrite Hki. cbn [mbind option_bind]. by destruct right.
Qed.

(** The children next to the current one, in the parent. *)
Lemma sibling_same_parent (right : bool) (h : nat) (m : list Z) (ess : list items) (ki : Z)
    (lft' cur cur' rgt' : items) :
  let ki' := if right then ki + 1 else ki - 1 in
  aget ess ki = Some cur -> aget ess ki' = Some cur' ->
  moved right (lft' ++ concat (take (Z.to_nat ki) ess)) cur (concat (drop (Z.to_nat (ki + 1)) ess) ++ rgt')
    (lft' ++ concat (take (Z.to_nat ki') ess)) cur' (concat (drop (Z.to_nat (ki' + 1)) ess) ++ rgt').
Proof.
  intros ki' E E'. unfold moved, ki' in *. destruct right.
  - rewrite (take_next _ _ _ E), (drop_prev _ _ _ E'), <- !app_assoc. done.
  - pose proof (take_next _ _ _ E') as T. replace (ki - 1 + 1) with ki in * by lia.
    rewrite T, (drop_prev _ _ _ E), <- !app_assoc. done.
Qed.

Lemma at_end_side (right : bool) (h : nat) (m : list Z) (ess : list items) (ki : Z) (cur : items) :
  branch_node h m ess -> aget ess ki = Some cur -> at_end_of right m ki = true ->
  if right then drop (Z.to_nat (ki + 1)) ess = [] else take (Z.to_nat ki) ess = [].
Proof.
  intros Hb Hc. pose proof (bn_len _ _ _ Hb) as Hl. pose proof (aget_lt _ _ _ Hc). unfold at_end_of.
  destruct right; intros He.
  - apply drop_ge. unfold zlen in *. lia.
  - by replace ki with 0 by lia.
Qed.

Lemma end_side_empty (right : bool) (h : nat) (m : list Z) (ess : list items) (ki : Z)
    (lft' cur rgt' : items) :
  branch_node h m ess -> aget ess ki = Some cur -> at_end_of right m ki = true ->
  (if right then rgt' else lft') = [] ->
  (if right then concat (drop (Z.to_nat (ki + 1)) ess) ++ rgt'
   else lft' ++ concat (take (Z.to_nat ki) ess)) = [].
Proof.
  intros Hb Hc Hend Hs. pose proof (at_end_side right h m ess ki cur Hb Hc Hend) as E.
  destruct right; by rewrite E, Hs.
Qed.

(** The first or last child of the page next to the parent. *)
Lemma sibling_other_parent (right : bool) (h : nat) (m m2 : list Z) (ess ess2 : list items) (ki : Z)
    (lft' cur rgt' lft2 rgt2 cur' : items) :
  branch_node h m ess -> aget ess ki = Some cur -> at_end_of right m ki = true ->
  branch_node h m2 ess2 -> moved right lft' (concat ess) rgt' lft2 (concat ess2) rgt2 ->
  aget ess2 (end_index right m2) = Some cur' ->
  moved right (lft' ++ concat (take (Z.to_nat ki) ess)) cur (concat (drop (Z.to_nat (ki + 1)) ess) ++ rgt')
    (lft2 ++ concat (take (Z.to_nat (end_index right m2)) ess2)) cur'
    (concat (drop (Z.to_nat (end_index right m2 + 1)) ess2) ++ rgt2).
Proof.
  intros Hb Hc Hend Hb2 Hmv Hc'. pose proof (at_end_side right h m ess ki cur Hb Hc Hend) as E.
  pose proof (concat_split _ _ _ Hc) as Es. pose proof (concat_split _ _ _ Hc') as Es2.
  unfold moved, end_index in *. destruct right; destruct Hmv as [-> ->].
  - rewrite E in *. rewrite Es, Es2. cbn [concat Z.to_nat take app]. rewrite !app_nil_r, <- !app_assoc. done.
  - rewrite E in *. rewrite Es, Es2. pose proof (bn_len _ _ _ Hb2) as Hl.
    rewrite (drop_ge ess2 (Z.to_nat (_ - 1 + 1))) by (unfold zlen in *; lia).
    cbn [concat]. rewrite !app_nil_r, <- !app_assoc. done.
Qed.

(** [mdb_cursor_sibling]: the next page of the same level on that side, or
    [MDB_NOTFOUND] with the cursor unchanged. *)
Lemma sibling_ok (right : bool) (l : nat) : forall fuel c m0 h lft cur rgt, (l <= fuel)%nat ->
  (H < 32)%nat -> located c h m0 lft cur rgt -> mc_top c = Z.of_nat l ->
  exists rc c', mdb_cursor_sibling get fuel c right = Some (rc, c') /\
    sibling_result right c c' h rc lft cur rgt.
Proof.
  induction l as [|l IH]; intros fuel c m0 h lft cur rgt Hf HH Hloc Ht;
    pose proof (loc_page _ _ _ _ _ _ Hloc) as Hon; pose proof (op_snum _ _ Hon) as Hsn.
  { exists MDB_NOTFOUND, c. split.
    - destruct fuel; cbn [mdb_cursor_sibling]; by rewrite Hsn, Ht.
    - left. pose proof (loc_path _ _ _ _ _ _ Hloc) as Hp. rewrite Ht in Hp. destruct Hp as (_ & -> & -> & _).
      by destruct right. }
  destruct fuel as [|fuel]; [lia|].
  destruct (located_pop l c h m0 lft cur rgt Hloc Ht)
    as (m & ki & ess & lft' & rgt' & Hloc1 & Epop & Hki & Hb & Hc & -> & ->).
  pose proof (loc_page _ _ _ _ _ _ Hloc1) as Hon1. pose proof (p_num_small m (bn_wf _ _ _ Hb)).
  rewrite (sibling_unfold fuel c right m ki) by (done || lia || apply Hb).
  assert (mc_top (mdb_cursor_pop c) = Z.of_nat l) as Ht1 by (rewrite Epop; cbn; lia).
  pose proof (aget_lt _ _ _ Hc) as Hkr. rewrite (bn_len _ _ _ Hb) in Hkr.
  destruct (at_end_of right m ki) eqn:Hend.
  - destruct (IH fuel _ m (S h) lft' (concat ess) rgt' ltac:(lia) HH Hloc1 Ht1) as (rc & c2 & -> & Hres).
    cbn [mbind option_bind]. destruct Hres as
      [(Hs & -> & ->)|(m2 & lft2 & cur2 & rgt2 & -> & Hloc2 & Hmv & Hk2 & Ht2 & Hf2 & Hm2)].
    + change (nz MDB_NOTFOUND) with true. cbv iota. change (nz MDB_NOTFOUND) with true. cbv iota.
      eexists _, _. split; [done|]. left. split_and!; [|done|].
      * by apply (end_side_empty right h m ess ki lft' cur rgt').
      * rewrite Epop. apply set_stack_back; cbn; lia.
    + change (nz MDB_SUCCESS) with false. cbv iota. change (nz MDB_SUCCESS) with false. cbv iota.
      pose proof (loc_tree _ _ _ _ _ _ Hloc2) as Htr2.
      destruct (tree_branch _ _ _ Htr2) as (ess2 & -> & Hb2). pose proof (bn_num _ _ _ Hb2).
      destruct (sibling_end_ok right c2 h m2 lft2 rgt2 ess2 (end_index right m2) Hloc2 Hb2 HH Hk2)
        as (child & esk & c' & E & Hg & Hloc' & Hk' & Ht' & Hf' & Hm').
      { unfold end_index. destruct right; lia. }
      exists MDB_SUCCESS, c'. split; [exact E|]. right. eexists _, _, _, _. split; [done|].
      split; [exact Hloc'|]. split; [by apply (sibling_other_parent right h m m2)|].
      split_and!; [done|lia|rewrite Hf', Hf2, Epop; done|rewrite Hm', Hm2, Epop; done].
  - assert (0 <= (if right then ki + 1 else ki - 1) < p_num m) as Hr
      by (unfold at_end_of in Hend; destruct right; lia).
    destruct (located_set_ki _ (S h) m lft' _ rgt' (if right then ki + 1 else ki - 1) Hloc1 ltac:(lia))
      as (c2 & -> & Hloc2 & Hk2 & Ht2 & Hf2 & Hm2).
    cbn [mbind option_bind]. change (nz MDB_SUCCESS) with false. cbv iota.
    destruct (sibling_end_ok right c2 h m lft' rgt' ess _ Hloc2 Hb HH Hk2 Hr)
      as (child & esk & c' & E & Hg & Hloc' & Hk' & Ht' & Hf' & Hm').
    exists MDB_SUCCESS, c'. split; [exact E|]. right. eexists _, _, _, _. split; [done|].
    split; [exact Hloc'|]. split; [by apply (sibling_same_parent right h m)|].
    split_and!; [done|lia|rewrite Hf', Hf2, Epop; done|rewrite Hm', Hm2, Epop; done].
Qed.

(** ** The order on keys *)

Record order_laws : Prop := {
  ol_eq a b : D a -> D b -> ord a b = 0 <-> a = b;
  ol_anti a b : D a -> D b -> ord a b < 0 <-> 0 < ord b a;
  ol_trans a b c : D a -> D b -> D c -> ord a b < 0 -> ord b c < 0 -> ord a c < 0
}.

Lemma page_order_laws (m : list Z) : page_order md_cmp D ord m -> order_laws.
Proof.
  intros (c1 & KO & _ & Hord & _). split; intros; rewrite <- !Hord in *.
  - by apply ko_eq.
  - by apply ko_anti.
  - by apply (ko_trans a b c).
Qed.

Lemma ol_le_trans (a b c : MDB_val) : order_laws -> D a -> D b -> D c ->
  ord a b < 0 -> ord b c <= 0 -> ord a c < 0.
Proof.
  intros O Da Db Dc Hab Hbc. destruct (decide (ord b c = 0)) as [E|]; [|apply (ol_trans O a b c); auto; lia].
  apply (ol_eq O) in E as <-; done.
Qed.

Lemma ol_le_lt_trans (a b c : MDB_val) : order_laws -> D a -> D b -> D c ->
  ord a b <= 0 -> ord b c < 0 -> ord a c < 0.
Proof.
  intros O Da Db Dc Hab Hbc. destruct (decide (ord a b = 0)) as [E|]; [|apply (ol_trans O a b c); auto; lia].
  apply (ol_eq O) in E as <-; done.
Qed.

(** All keys of a list are before, or all after, a key. *)
Definition all_lt (es : items) (key : MDB_val) : Prop := Forall (fun e => D e.1 /\ ord e.1 key < 0) es.
Definition all_gt (es : items) (key : MDB_val) : Prop := Forall (fun e => D e.1 /\ ord key e.1 < 0) es.

Lemma branch_keys (h : nat) (m : list Z) (ess : list items) : branch_node h m ess ->
  (forall j, 1 <= j < p_num m -> D (n_key m j)) /\
  (forall j j', 1 <= j -> j <= j' -> j' < p_num m -> ord (n_key m j) (n_key m j') <= 0).
Proof.
  intros Hb. pose proof (bn_leaf _ _ _ Hb) as Hl. destruct (bn_order _ _ _ Hb) as (c1 & KO & _ & Hord & HD & Hs).
  unfold first_key in *. rewrite Hl in *. split; [done|]. intros j j' Hj Hjj Hj'. rewrite <- Hord.
  destruct (decide (j = j')) as [<-|]; [|apply Z.lt_le_incl, Hs; lia].
  rewrite (proj2 (ko_eq _ _ (HD j ltac:(lia)) (HD j ltac:(lia)))); done.
Qed.

(** The items under the children before the one whose range a key is in are
    smaller, those under the children after it are greater. *)
Lemma in_child_sides (h : nat) (m : list Z) (ess : list items) (i : Z) (key : MDB_val) :
  branch_node h m ess -> 0 <= i < p_num m -> in_child D ord m i key ->
  all_lt (concat (take (Z.to_nat i) ess)) key /\ all_gt (concat (drop (Z.to_nat (i + 1)) ess)) key.
Proof.
  intros Hb Hi (Dk & Hlo & Hhi). destruct (branch_keys _ _ _ Hb) as [HD Hs].
  pose proof (page_order_laws m (bn_order _ _ _ Hb)) as O. pose proof (bn_len _ _ _ Hb) as Hlen.
  assert (forall k es, ess !! k = Some es -> Z.of_nat k < p_num m /\
            Forall (fun e => in_child D ord m (Z.of_nat k) e.1) es) as Hck.
  { intros k es E. pose proof (lookup_lt_Some _ _ _ E). assert (Z.of_nat k < p_num m) by (unfold zlen in Hlen; lia).
    split; [done|]. destruct (bn_child _ _ _ Hb (Z.of_nat k) ltac:(lia)) as (ch & esk & Hg & _ & _ & _ & _ & Hall).
    unfold aget in Hg. rewrite (proj2 (Z.leb_le 0 _)), Nat2Z.id in Hg by lia. congruence. }
  split; apply Forall_concat, Forall_lookup; intros k es E.
  - apply lookup_take_Some in E as [E Hk]. destruct (Hck k es E) as [Hkn Hall].
    apply (Forall_impl _ _ _ Hall). intros e (De & _ & Hlt). split; [done|].
    apply (ol_le_trans _ (n_key m (Z.of_nat k + 1)) _ O De); [apply HD; lia|done|apply Hlt; lia|].
    destruct (decide (Z.of_nat k + 1 = i)) as [->|]; [apply Hlo; lia|].
    apply Z.lt_le_incl. assert (D (n_key m i)) by (apply HD; lia).
    destruct (decide (ord (n_key m i) key = 0)) as [E0|].
    + apply (ol_eq O) in E0 as <-; try done.
      pose proof (bn_leaf _ _ _ Hb) as Hl. destruct (bn_order _ _ _ Hb) as (c1 & KO & _ & Hord & _ & Hss).
      unfold first_key in *. rewrite Hl in *. rewrite <- Hord. apply Hss; lia.
    + apply (ol_le_lt_trans _ (n_key m i) _ O); try done; [apply HD; lia|apply Hs; lia|specialize (Hlo ltac:(lia)); lia].
  - rewrite lookup_drop in E. destruct (Hck _ es E) as [Hkn Hall].
    apply (Forall_impl _ _ _ Hall). intros e (De & Hge & _). split; [done|].
    set (j := Z.of_nat (Z.to_nat (i + 1) + k)) in *.
    apply (ol_le_trans _ (n_key m (i + 1)) _ O Dk); [apply HD; lia|done|apply Hhi; lia|].
    specialize (Hge ltac:(lia)). pose proof (Hs (i + 1) j ltac:(lia) ltac:(lia) ltac:(lia)) as Hij.
    destruct (decide (ord (n_key m (i + 1)) (n_key m j) = 0)) as [E0|].
    + apply (ol_eq O) in E0 as ->; [done|apply HD; lia..].
    + apply Z.lt_le_incl, (ol_le_trans _ (n_key m j) _ O); [apply HD; lia|apply HD; lia|done|lia|done].
Qed.

(** ** Descending from the root *)

(** What a descent looks for, as [mdb_page_search] is told. *)
Inductive target := ToFirst | ToLast | ToKey (key : MDB_val).

Definition target_key (t : target) : option MDB_val :=
  match t with ToKey k => Some k | _ => None end.
Definition target_flags (t : target) : Z :=
  match t with ToFirst => MDB_PS_FIRST | ToLast => MDB_PS_LAST | ToKey _ => 0 end.

(** Where it ends. *)
Definition reached (t : target) (lft rgt : items) : Prop :=
  match t with
  | ToFirst => lft = []
  | ToLast => rgt = []
  | ToKey k => all_lt lft k /\ all_gt rgt k
  end.

Definition target_ok (t : target) : Prop := match t with ToKey k => D k | _ => True end.

(** Every level of the path is the one whose range the key is in. *)
Definition within (c : cursor) (key : MDB_val) : Prop := forall j m ki, 0 <= j < mc_top c ->
  aget (mc_pg c) j = Some m -> aget (mc_ki c) j = Some ki -> in_child D ord m ki key.
Definition bounded (t : target) (c : cursor) : Prop := match t with ToKey k => within c k | _ => True end.

Lemma bounded_below (t : target) (c c' : cursor) : same_below (mc_top c) c c' -> mc_top c' = mc_top c -> bounded t c -> bounded t c'.
Proof.
  intros [Hs _] Ht. destruct t as [| |k]; cbn [bounded]; auto. intros Hw j m ki Hj Hm Hk. rewrite Ht in Hj.
  destruct (Hs j Hj) as [E1 E2]. rewrite E1 in Hm. rewrite E2 in Hk. by apply (Hw j).
Qed.

Lemma bounded_push (t : target) (c c' : cursor) (m child : list Z) (i : Z) : on_page c m -> top_ki c = Some i ->
  match t with ToKey k => in_child D ord m i k | _ => True end -> bounded t c ->
  mdb_cursor_push c child = Some (MDB_SUCCESS, c') -> mc_top c' = mc_top c + 1 -> bounded t c'.
Proof.
  intros Hon Hi Hin Hb Hp Ht. destruct t as [| |k]; cbn [bounded] in *; auto. pose proof (op_snum _ _ Hon) as Hsn.
  pose proof (op_top _ _ Hon). pose proof (push_below c c' child _ ltac:(lia) Hp) as [Hbel _]. rewrite Hsn in Hbel.
  intros j m1 ki Hj Hm Hk. destruct (Hbel j ltac:(lia)) as [E1 E2]. rewrite E1 in Hm. rewrite E2 in Hk.
  destruct (decide (j = mc_top c)) as [->|]; [|apply (Hb j); auto; lia].
  pose proof (op_page _ _ Hon). unfold top_ki in Hi. congruence.
Qed.

Lemma choose_ok (t : target) (c : cursor) (h : nat) (m : list Z) (lft rgt : items) (ess : list items) :
  located c (S h) m lft (concat ess) rgt -> branch_node h m ess -> target_ok t -> reached t lft rgt ->
  exists i c', choose_child md_cmp md_pad c m (target_key t) (target_flags t) (p_num m) = Some (i, c') /\
    0 <= i < p_num m /\ located c' (S h) m lft (concat ess) rgt /\
    mc_top c' = mc_top c /\ mc_flags c' = mc_flags c /\ mt_flags c' = mt_flags c /\
    reached t (lft ++ concat (take (Z.to_nat i) ess)) (concat (drop (Z.to_nat (i + 1)) ess) ++ rgt) /\
    same_below (mc_top c) c c' /\ match t with ToKey k => in_child D ord m i k | _ => True end.
Proof.
  intros Hloc Hb Hok Hr. pose proof (bn_num _ _ _ Hb). pose proof (p_num_small m (bn_wf _ _ _ Hb)).
  destruct t as [| |k]; cbn [target_key target_flags reached target_ok] in *.
  - exists 0, c. subst lft. split_and!; auto; try lia; by split.
  - exists (p_num m - 1), c. unfold choose_child.
    change (nz (Z.land MDB_PS_LAST (Z.lor MDB_PS_FIRST MDB_PS_LAST))) with true.
    change (nz (Z.land MDB_PS_LAST MDB_PS_LAST)) with true. cbv iota.
    rewrite uwrap_small by lia. subst rgt. split_and!; auto; try lia; try by split.
    rewrite drop_ge; [done|]. pose proof (bn_len _ _ _ Hb). unfold zlen in *. lia.
  - pose proof (loc_page _ _ _ _ _ _ Hloc) as Hon.
    destruct (choose_child_ok md_cmp md_pad D ord c m k) as (i & c' & E & Hi & Hin & Hon' & Ht & Hf & Hm);
      auto; try apply Hb.
    (* the index on top may have changed *)
    assert (same_below (mc_top c) c c') as Hbel.
    { pose proof E as E'. unfold choose_child in E'. change (nz (Z.land 0 _)) with false in E'. cbv iota in E'.
      cbn [mbind option_bind] in E'.
      destruct (mdb_node_search m md_cmp md_pad k) as [[[node ki] ex]|]; [|done]. cbn [mbind option_bind] in E'.
      destruct (set_ki c ki) as [c1|] eqn:Es; [|done]. cbn [mbind option_bind] in E'.
      pose proof (set_ki_below _ _ _ Es) as Hbel.
      assert (c1 = c') as <-; [|done].
      destruct node; [|by injection E']. destruct (top_ki c1) as [j|]; [|done]. cbn [mbind option_bind] in E'.
      destruct ex; [by injection E'|]. destruct (j <=? 0); [done|by injection E']. }
    destruct Hr as [Hr1 Hr2]. exists i, c'. split_and!; auto; try lia.
    + destruct Hloc as [_ Htr Hne Hp]. split; auto. rewrite Ht. pose proof (op_top _ _ Hon).
      apply (path_frame _ c); [|done]. by rewrite Z2Nat.id by lia.
    + destruct (in_child_sides h m ess i k Hb Hi Hin) as [Hx _]. by apply Forall_app.
    + destruct (in_child_sides h m ess i k Hb Hi Hin) as [_ Hx]. by apply Forall_app.
Qed.

(** The descent ends on the leaf it looks for, initialised and not at the
    end. *)
Lemma descend_ok (t : target) (h : nat) : forall (m : list Z) (c : cursor) (fuel : nat) (lft cur rgt : items),
  located c h m lft cur rgt -> (H < 32)%nat -> (h < fuel)%nat -> target_ok t -> reached t lft rgt -> bounded t c ->
  exists c' m' lft' cur' rgt',
    search_root_loop get md_cmp md_pad fuel c m (target_key t) (target_flags t) = Some (MDB_SUCCESS, c') /\
    located c' 0 m' lft' cur' rgt' /\ reached t lft' rgt' /\ mt_flags c' = mt_flags c /\
    mc_flags c' = Z.land (Z.lor (mc_flags c) C_INITIALIZED) (Z.lnot C_EOF) /\ bounded t c'.
Proof.
  induction h as [|h IH]; intros m c fuel lft cur rgt Hloc HH Hf Hok Hr Hbd; (destruct fuel as [|fuel]; [lia|]);
    cbn [search_root_loop]; pose proof (loc_tree _ _ _ _ _ _ Hloc) as Ht.
  - pose proof Ht as (Hwf & Hl & Hb & _). rewrite IS_BRANCH_ok, Hb, IS_LEAF_ok, Hl by done.
    cbn [mbind option_bind negb]. eexists _, m, lft, cur, rgt. split; [done|].
    split_and!; try done; by apply located_flags, located_flags.
  - destruct (tree_branch _ _ _ Ht) as (ess & -> & Hb). pose proof (bn_wf _ _ _ Hb) as Hwf.
    pose proof (bn_num _ _ _ Hb). pose proof (p_num_small m Hwf).
    rewrite IS_BRANCH_ok, (bn_branch _ _ _ Hb), NUMKEYS_ok by done. cbn [mbind option_bind].
    rewrite (proj2 (Z.leb_gt _ _)) by lia.
    destruct (choose_ok t c h m lft rgt ess Hloc Hb Hok Hr) as (i & c1 & -> & Hi & Hloc1 & Ht1 & Hf1 & Hm1 & Hr1 & Hbel & Hin).
    cbn [mbind option_bind]. rewrite (proj2 (Z.leb_gt _ _)), mp_ptr_ok by (done || lia). cbn [mbind option_bind].
    rewrite NODEPGNO_ok by done. cbn [mbind option_bind].
    destruct (located_set_ki c1 (S h) m lft (concat ess) rgt i Hloc1 ltac:(lia))
      as (c2 & Eset & Hloc2 & Hk2 & Ht2 & Hf2 & Hm2).
    destruct (down_ok c2 h m lft rgt ess i Hloc2 Hb HH Hk2 Hi)
      as (child & esk & c3 & Hget & Hg & Hpush & Hloc3 & _ & _ & Ht3 & Hf3 & Hm3).
    unfold page_get. rewrite Hget, Eset. cbn [mbind option_bind]. rewrite Hpush.
    cbn [mbind option_bind]. change (nz MDB_SUCCESS) with false. cbv iota.
    assert (bounded t c3) as Hbd3.
    { apply (bounded_push t c2 c3 m child i); auto; [apply Hloc2|]. apply (bounded_below t c1); [by apply set_ki_below in Eset; auto|done|].
      by apply (bounded_below t c). }
    destruct (IH child c3 fuel _ _ _ Hloc3 HH ltac:(lia) Hok Hr1 Hbd3)
      as (c' & m' & lft' & cur' & rgt' & E & Hloc' & Hr' & Hm' & Hf' & Hbd').
    exists c', m', lft', cur', rgt'. split_and!; auto; congruence.
Qed.

(** ** mdb_page_search *)

(** The database is a non-empty well-formed tree. *)
Record tree_db : Prop := {
  db_root : get md_root = Some root;
  db_pgno : 1 < md_root < P_INVALID;
  db_tree : tree H root es0;
  db_some : es0 <> [];
  db_height : (H < 32)%nat
}.
Hypothesis Hdb : tree_db.

(** A cursor never used, or one that is somewhere in the tree. *)
Definition usable (c : cursor) : Prop :=
  zlen (mc_pg c) = 32 /\ zlen (mc_ki c) = 32 /\
  (aget (mc_pg c) 0 = Some [] \/ aget (mc_pg c) 0 = Some root).

(** Descending from the root page. *)
Lemma from_root_ok (t : target) (c : cursor) : zlen (mc_pg c) = 32 -> zlen (mc_ki c) = 32 ->
  aget (mc_pg c) 0 = Some root -> target_ok t ->
  exists c' m lft cur rgt,
    mdb_page_search_root get md_cmp md_pad (set_stack c 1 0) (target_key t) (target_flags t) =
      Some (MDB_SUCCESS, c') /\
    located c' 0 m lft cur rgt /\ reached t lft rgt /\ mt_flags c' = mt_flags c /\
    mc_flags c' = Z.land (Z.lor (mc_flags c) C_INITIALIZED) (Z.lnot C_EOF) /\ bounded t c'.
Proof.
  destruct Hdb as [Hroot Hpg Htr Hne HH]. intros Hp Hk H0 Hok.
  pose proof (tree_not_nil _ _ _ _ _ _ _ Htr) as Hnil. unfold mdb_page_search_root.
  assert (on_page (set_stack c 1 0) root) as Hon by (split; cbn [set_stack mc_top mc_pg mc_ki mc_snum]; auto; lia).
  rewrite (top_pg_ok _ root Hon). cbn [mbind option_bind].
  apply (descend_ok t H root (set_stack c 1 0) 33 [] es0 []); auto; try lia.
  - split; auto. by split_and!.
  - destruct t; cbn [reached]; auto. split; constructor.
  - destruct t; cbn [bounded]; auto. intros j m ki Hj. cbn [set_stack mc_top] in Hj. lia.
Qed.

Lemma page_search_at (t : target) (c : cursor) : usable c -> target_ok t ->
  Z.land (mt_flags c) MDB_TXN_ERROR = 0 ->
  exists c' m lft cur rgt,
    mdb_page_search get md_cmp md_pad md_root c (target_key t) (target_flags t) = Some (MDB_SUCCESS, c') /\
    located c' 0 m lft cur rgt /\ reached t lft rgt /\ mt_flags c' = mt_flags c /\
    mc_flags c' = Z.land (Z.lor (mc_flags c) C_INITIALIZED) (Z.lnot C_EOF) /\ bounded t c'.
Proof.
  pose proof Hdb as [Hroot Hpg Htr _ _]. intros (Hp & Hk & H0) Hok Htxn.
  pose proof (tree_not_nil _ _ _ _ _ _ _ Htr) as Hnil. pose proof (wf_psize _ (tree_wf _ _ _ Htr)) as Hsz.
  unfold mdb_page_search, F_ISSET. rewrite Htxn. change (0 =? MDB_TXN_ERROR) with false. cbv iota zeta.
  rewrite (proj2 (Z.eqb_neq _ _)), (proj2 (Z.leb_gt _ _)) by lia.
  replace (nz (Z.land (target_flags t) MDB_PS_ROOTONLY)) with false by (by destruct t).
  assert (set_pg c 0 root = Some (Cursor (mc_snum c) (mc_top c) (zset (mc_pg c) 0 root) (mc_ki c)
            (mc_flags c) (mt_flags c))) as Eset by (unfold set_pg; by rewrite aset_in by lia).
  unfold page_get. rewrite Hroot, Eset. cbn [mbind option_bind].
  assert (exists b bs, root = b :: bs) as (b & bs & Er) by (destruct root; eauto; done).
  assert (get64 root 0 = Some (le_val (slice root 0 8))) as E64 by (unfold get64; by rewrite bread_in by lia).
  destruct H0 as [H0|H0]; rewrite H0; cbn [mbind option_bind].
  - apply (from_root_ok t (Cursor _ _ (zset (mc_pg c) 0 root) _ _ _)); cbn [mc_pg mc_ki]; auto;
      [by rewrite zlen_zset|].
    rewrite aget_in by (rewrite zlen_zset; lia). f_equal. apply zn_zset_eq. lia.
  - assert (match root with [] => Some false | _ => p ← get64 root 0; Some (p =? md_root) end =
            Some (le_val (slice root 0 8) =? md_root)) as -> by (rewrite E64; by rewrite Er).
    cbn [mbind option_bind].
    destruct (le_val (slice root 0 8) =? md_root); [by apply from_root_ok|].
    apply (from_root_ok t (Cursor _ _ (zset (mc_pg c) 0 root) _ _ _)); cbn [mc_pg mc_ki]; auto;
      [by rewrite zlen_zset|].
    rewrite aget_in by (rewrite zlen_zset; lia). f_equal. apply zn_zset_eq. lia.
Qed.
End Path.
