(* ===== verification/CursorSim.v ===== *)
(** * Cursors as positions in a sorted list

    An abstract cursor on the list of items of a database, and the proof that
    [mdb_cursor_get] ([src/LegacyDatabase/mdb.c]) refines it: whatever
    sequence of operations a client performs, every call returns, without an
    undefined access, a failed assertion or an endless loop, and returns what
    the abstract cursor allows. *)
From S2P Require Import Prelude.
From S2P Require Import Bytes.
From S2P Require Import Page.
From S2P Require Import PageSpec.
From S2P Require Import NodeOps.
From S2P Require Import Cmp.
From S2P Require Import NodeSearch.
From S2P Require Import Cursor.
From S2P Require Import Tree.
From S2P Require Import CursorPath.
From Stdlib Require Import ZArith Lia Sorted.
From stdpp Require Import base numbers option list sorting.
Open Scope Z_scope.

(** ** The abstract cursor *)

(** Not positioned; on item [i]; after the items before [i] and before item
    [i] (between two pages, or at the end). *)
Inductive apos := Fresh | On (i : nat) | Gap (i : nat).
Record acursor := ACursor { a_pos : apos; a_eof : bool }.

(** Return code, and what is stored through [key] and [data]. *)
Definition result : Type := Z * option MDB_val * option MDB_val.
Definition found (e : MDB_val * MDB_val) : result := (MDB_SUCCESS, Some e.1, Some e.2).
Definition error (rc : Z) : result := (rc, None, None).
Definition missing : result := error MDB_NOTFOUND.

Definition is_next (op : MDB_cursor_op) : bool :=
  match op with MDB_NEXT | MDB_NEXT_DUP | MDB_NEXT_NODUP => true | _ => false end.
Definition is_prev (op : MDB_cursor_op) : bool :=
  match op with MDB_PREV | MDB_PREV_DUP | MDB_PREV_NODUP => true | _ => false end.
Definition is_set (op : MDB_cursor_op) : bool :=
  match op with MDB_SET | MDB_SET_KEY => true | _ => false end.
Definition is_range (op : MDB_cursor_op) : bool :=
  match op with MDB_SET_RANGE => true | _ => false end.
(** The operations of databases with duplicates. *)
Definition is_multi (op : MDB_cursor_op) : bool :=
  match op with MDB_GET_BOTH | MDB_GET_BOTH_RANGE | MDB_NEXT_MULTIPLE => true | _ => false end.
Definition is_dup (op : MDB_cursor_op) : bool :=
  match op with MDB_GET_MULTIPLE | MDB_FIRST_DUP | MDB_LAST_DUP => true | _ => false end.

Definition next_pos (p : apos) : nat := match p with Fresh => 0%nat | On i => S i | Gap i => i end.

Section Spec.
Context (ord : MDB_val -> MDB_val -> Z) (es : list (MDB_val * MDB_val)).

(** The item before the position; before a fresh cursor is the last item. *)
Definition prev_pos (p : apos) : option nat :=
  match p with
  | Fresh => match es with [] => None | _ => Some (length es - 1)%nat end
  | On O | Gap O => None
  | On (S i) | Gap (S i) => Some i
  end.

(** The number of items whose key is before [key]. *)
Definition rank (key : MDB_val) : nat := length (filter (fun e => ord e.1 key < 0) es).

(** Where a search that finds nothing leaves the cursor: at the place of the
    key; whether it still counts as being at the end depends on the pages. *)
Definition missed (a : acursor) (key : MDB_val) (a' : acursor) : Prop :=
  match es with
  | [] => a' = a
  | _ => (a_pos a' = On (rank key) \/ a_pos a' = Gap (rank key)) /\ (a_eof a' = true -> a_eof a = true)
  end.

(** [astep a op key r a']: operation [op] with [key] may return [r] and leave
    the cursor in [a']. *)
Inductive astep (a : acursor) : MDB_cursor_op -> option MDB_val -> result -> acursor -> Prop :=
  | A_first k e : es !! 0%nat = Some e -> astep a MDB_FIRST k (found e) (ACursor (On 0) false)
  | A_first_empty k : es = [] -> astep a MDB_FIRST k missing a
  | A_last k e i : i = (length es - 1)%nat -> es !! i = Some e ->
      astep a MDB_LAST k (found e) (ACursor (On i) true)
  | A_last_empty k : es = [] -> astep a MDB_LAST k missing a
  | A_next op k e i : is_next op = true -> a_eof a = false -> i = next_pos (a_pos a) ->
      es !! i = Some e -> astep a op k (found e) (ACursor (On i) false)
  | A_next_end op k : is_next op = true -> a_eof a = true \/ es !! next_pos (a_pos a) = None ->
      astep a op k missing (match a_pos a with Fresh => a | p => ACursor p true end)
  | A_prev op k e i : is_prev op = true -> prev_pos (a_pos a) = Some i -> es !! i = Some e ->
      astep a op k (found e) (ACursor (On i) false)
  | A_prev_start op k : is_prev op = true -> prev_pos (a_pos a) = None -> astep a op k missing a
  | A_current k i e : a_pos a = On i -> es !! i = Some e -> astep a MDB_GET_CURRENT k (found e) a
  | A_current_gap k i : a_pos a = Gap i -> astep a MDB_GET_CURRENT k missing a
  | A_current_fresh k : a_pos a = Fresh -> astep a MDB_GET_CURRENT k (error EINVAL) a
  | A_set op key d : is_set op = true -> mv_size key <> 0 -> es !! rank key = Some (key, d) ->
      astep a op (Some key) (MDB_SUCCESS, match op with MDB_SET_KEY => Some key | _ => None end, Some d)
        (ACursor (On (rank key)) false)
  | A_set_missed op key a' : is_set op = true -> mv_size key <> 0 -> (forall d, (key, d) ∉ es) ->
      missed a key a' -> astep a op (Some key) missing a'
  | A_range key e : mv_size key <> 0 -> es !! rank key = Some e ->
      astep a MDB_SET_RANGE (Some key) (found e) (ACursor (On (rank key)) false)
  | A_range_missed key a' : mv_size key <> 0 -> es !! rank key = None ->
      missed a key a' -> astep a MDB_SET_RANGE (Some key) missing a'
  | A_no_key op : is_set op || is_range op = true -> astep a op None (error EINVAL) a
  | A_empty_key op key : is_set op || is_range op = true -> mv_size key = 0 ->
      astep a op (Some key) (error MDB_BAD_VALSIZE) a
  | A_multi op k : is_multi op = true -> astep a op k (error MDB_INCOMPATIBLE) a
  | A_dup op k : is_dup op = true ->
      astep a op k (error (match a_pos a with Fresh => EINVAL | _ => MDB_INCOMPATIBLE end)) a.

(** A sequence of operations and what they return. *)
Inductive atrace : acursor -> list (MDB_cursor_op * option MDB_val) -> list result -> Prop :=
  | T_nil a : atrace a [] []
  | T_cons a op k r a' ops rs : astep a op k r a' -> atrace a' ops rs ->
      atrace a ((op, k) :: ops) (r :: rs).
End Spec.

Section Sim.
Variable get : Z -> option (list Z).
Context (md_cmp : MDB_cmp_func) (md_pad md_root : Z) (D : MDB_val -> Prop) (ord : MDB_val -> MDB_val -> Z).
Abbreviation items := (list (MDB_val * MDB_val)).
Abbreviation tree := (tree get md_cmp D ord).
Abbreviation leaf_tree := (leaf_tree get md_cmp D ord).
Abbreviation branch_node := (branch_node get md_cmp D ord).
Abbreviation order_laws := (order_laws D ord).

(** ** The items of a tree are sorted *)

Definition key_lt (x y : MDB_val * MDB_val) : Prop := D x.1 /\ D y.1 /\ ord x.1 y.1 < 0.

Lemma leaf_item (m : list Z) (es : items) (k : Z) (e : MDB_val * MDB_val) :
  leaf_tree m es -> aget es k = Some e ->
  0 <= k < p_num m /\ e.1 = n_key m k /\ n_data get m k = Some e.2 /\
  F_ISSET (n_flags m k) F_DUPDATA = false.
Proof.
  intros (_ & _ & _ & _ & Hlen & Hits) Hg. pose proof (aget_lt _ _ _ Hg) as Hk. rewrite Hlen in Hk.
  destruct (Hits k Hk) as [Hdup Hit]. rewrite Hg in Hit. unfold item in Hit.
  destruct (n_data get m k) as [d|]; [|done]. cbn [mbind option_bind] in Hit. injection Hit as <-. done.
Qed.

Lemma lookup_aget {A} (l : list A) (i : nat) : l !! i = aget l (Z.of_nat i).
Proof. unfold aget. rewrite (proj2 (Z.leb_le 0 _)) by lia. by rewrite Nat2Z.id. Qed.

Lemma sorted_lookup {A} (R : A -> A -> Prop) (l : list A) :
  (forall i j x y, (i < j)%nat -> l !! i = Some x -> l !! j = Some y -> R x y) -> StronglySorted R l.
Proof.
  induction l as [|a l IH]; intros HR; constructor.
  - apply IH. intros i j x y Hij Hx Hy. apply (HR (S i) (S j)); [lia|done|done].
  - apply Forall_lookup. intros i x Hx. apply (HR 0%nat (S i)); [lia|done|done].
Qed.

Lemma elem_concat {A} (ess : list (list A)) (x : A) : x ∈ concat ess <-> exists es, x ∈ es /\ es ∈ ess.
Proof.
  rewrite list_elem_of_In, in_concat. setoid_rewrite list_elem_of_In. firstorder.
Qed.

Lemma sorted_concat {A} (R : A -> A -> Prop) (ess : list (list A)) :
  Forall (StronglySorted R) ess ->
  (forall i j es es', (i < j)%nat -> ess !! i = Some es -> ess !! j = Some es' ->
     forall x y, x ∈ es -> y ∈ es' -> R x y) ->
  StronglySorted R (concat ess).
Proof.
  induction 1 as [|es ess Hs _ IH]; intros HR; cbn [concat]; [constructor|].
  apply StronglySorted_app_2; auto.
  - intros x y Hx (es' & Hy & (j & Hj)%list_elem_of_lookup)%elem_concat.
    by apply (HR 0%nat (S j) es es' ltac:(lia) eq_refl Hj).
  - apply IH. intros i j e e' Hij Hi Hj. by apply (HR (S i) (S j)); [lia|..].
Qed.

(** Two different children of a branch page. *)
Lemma children_lt (h : nat) (m : list Z) (ess : list items) (i j : nat) (es es' : items) x y :
  branch_node h m ess -> (i < j)%nat -> ess !! i = Some es -> ess !! j = Some es' ->
  x ∈ es -> y ∈ es' -> key_lt x y.
Proof.
  intros Hb Hij Hi Hj Hx Hy. pose proof (bn_len _ _ _ _ _ _ _ Hb) as Hlen.
  rewrite lookup_aget in Hi, Hj. pose proof (aget_lt _ _ _ Hi). pose proof (aget_lt _ _ _ Hj).
  destruct (bn_child _ _ _ _ _ _ _ Hb (Z.of_nat i) ltac:(lia)) as (c1 & es1 & E1 & _ & _ & _ & _ & H1).
  destruct (bn_child _ _ _ _ _ _ _ Hb (Z.of_nat j) ltac:(lia)) as (c2 & es2 & E2 & _ & _ & _ & _ & H2).
  assert (es1 = es) as -> by congruence. assert (es2 = es') as -> by congruence.
  pose proof (proj1 (Forall_forall _ _) H1 _ Hx) as Hin.
  destruct (proj1 (Forall_forall _ _) H2 _ Hy) as (Dy & _).
  pose proof (in_child_sides get md_cmp D ord h m ess (Z.of_nat i) x.1 Hb ltac:(lia) Hin) as [_ Hgt].
  split; [apply Hin|split; [done|]].
  apply (proj1 (Forall_forall _ _) Hgt y). apply elem_concat. exists es'. split; [done|].
  apply list_elem_of_lookup. exists (j - S i)%nat. rewrite lookup_drop, lookup_aget.
  by replace (Z.of_nat (Z.to_nat (Z.of_nat i + 1) + (j - S i))) with (Z.of_nat j) by lia.
Qed.

Lemma tree_sorted (h : nat) : forall m es, tree h m es -> StronglySorted key_lt es.
Proof.
  induction h as [|h IH]; intros m es Ht.
  - pose proof Ht as (_ & Hl & _ & (c1 & KO & _ & Hord & HD & Hs) & _).
    unfold first_key in *. rewrite Hl in *. apply sorted_lookup.
    intros i j x y Hij Hx Hy. rewrite lookup_aget in Hx, Hy.
    destruct (leaf_item m es _ x Ht Hx) as (Hi & Ex & _). destruct (leaf_item m es _ y Ht Hy) as (Hj & Ey & _).
    unfold key_lt. rewrite Ex, Ey, <- Hord. split_and!; [apply HD|apply HD|apply Hs]; lia.
  - destruct (tree_branch _ _ _ _ _ _ _ Ht) as (ess & -> & Hb). apply sorted_concat.
    + apply Forall_lookup. intros k es Hk. rewrite lookup_aget in Hk.
      pose proof (aget_lt _ _ _ Hk) as Hr. rewrite (bn_len _ _ _ _ _ _ _ Hb) in Hr.
      destruct (bn_child _ _ _ _ _ _ _ Hb _ Hr) as (child & esk & Hg & _ & _ & _ & Htr & _).
      apply (IH child). congruence.
    + intros i j es es' Hij Hi Hj x y Hx Hy. by apply (children_lt h m ess i j es es').
Qed.

(** ** Reading an item *)

Lemma leaf_read (c : cursor) (m : list Z) (es : items) (k : Z) (e : MDB_val * MDB_val) (init1 wk : bool) :
  leaf_tree m es -> aget es k = Some e ->
  mp_ptr m k = Some (p_ptr m k) /\
  read_node get c m (p_ptr m k) init1 wk true =
    Some (Out MDB_SUCCESS (if wk then Some e.1 else None) (Some e.2) c).
Proof.
  intros Hleaf Hg. pose proof Hleaf as (Hwf & Hl & _).
  destruct (leaf_item m es k e Hleaf Hg) as (Hk & Ek & Hd & Hdup).
  split; [by apply mp_ptr_ok|]. destruct (n_key_in m k Hwf Hk) as (? & ? & ?).
  unfold read_node. rewrite get16_in by lia. cbn [mbind option_bind]. fold (n_flags m k).
  rewrite Hdup. cbn [andb]. rewrite (mdb_node_read_ok _ _ m k e.2) by done. cbn [mbind option_bind].
  destruct wk; [|done].
  unfold key_at, NODEKSZ, NODESIZE. rewrite get16_in by lia. cbn [mbind option_bind].
  rewrite bread_in by lia. cbn [mbind option_bind]. by rewrite Ek.
Qed.

Lemma read_current_at (next : bool) (c : cursor) (m : list Z) (es : items) (k : Z) (e : MDB_val * MDB_val) :
  on_page c m -> leaf_tree m es -> top_ki c = Some k -> aget es k = Some e ->
  read_current get md_pad next c true = Some (Out MDB_SUCCESS (Some e.1) (Some e.2) c).
Proof.
  intros Hon Hleaf Hki Hg. pose proof Hleaf as (Hwf & Hl & _).
  destruct (leaf_read c m es k e next true Hleaf Hg) as [Ep Er].
  unfold read_current. rewrite (top_pg_ok c m Hon). cbn [mbind option_bind]. rewrite Hki.
  cbn [mbind option_bind]. rewrite IS_LEAF2_ok, IS_LEAF_ok, Hl by done. cbn [mbind option_bind negb].
  rewrite andb_false_r, Ep. cbn [mbind option_bind]. exact Er.
Qed.

(** ** The simulation *)

Variables (root : list Z) (H : nat) (es0 : items) (mt : Z).
Abbreviation located := (located get md_cmp D ord root H es0).
Abbreviation tree_db := (tree_db get md_cmp md_root D ord root H es0).
Hypothesis Htxn : Z.land mt MDB_TXN_ERROR = 0.

(** The database has no items and no root page, or is a well-formed tree. *)
Definition db_ok : Prop := (es0 = [] /\ md_root = P_INVALID) \/ tree_db.
Hypothesis Hdb : db_ok.

Definition flags_of (eof : bool) : Z := if eof then Z.lor C_INITIALIZED C_EOF else C_INITIALIZED.

(** The position that index [ki] on a leaf is, after the items [lft]. *)
Definition pos_of (lft cur : items) (ki : Z) : apos :=
  if ki <? zlen cur then On (length lft + Z.to_nat ki) else Gap (length lft + length cur).

Record settled (c : cursor) (a : acursor) (m : list Z) (lft cur rgt : items) (ki : Z) : Prop := {
  se_loc : located c 0 m lft cur rgt;
  se_ki : top_ki c = Some ki;
  se_range : 0 <= ki <= zlen cur;
  se_flags : mc_flags c = flags_of (a_eof a);
  se_mt : mt_flags c = mt;
  se_eof : a_eof a = true -> rgt = [];
  se_pos : a_pos a = pos_of lft cur ki
}.

(** The cursor [c] implements the abstract cursor [a]. *)
Inductive sim : cursor -> acursor -> Prop :=
  | sim_fresh : sim (mdb_cursor_init mt) (ACursor Fresh false)
  | sim_settled c a m lft cur rgt ki : settled c a m lft cur rgt ki -> sim c a.

Definition outcome_result (r : outcome) : result := (o_rc r, o_key r, o_data r).

(** What is shown of an operation: it returns something the abstract cursor
    allows. *)
Definition implements (a : acursor) (op : MDB_cursor_op) (k : option MDB_val) (x : option outcome) : Prop :=
  exists r a', x = Some r /\ astep ord es0 a op k (outcome_result r) a' /\ sim (o_cur r) a'.

Lemma settled_items c a m lft cur rgt ki : settled c a m lft cur rgt ki -> es0 = lft ++ cur ++ rgt.
Proof. intros [Hl _ _ _ _ _ _]. eapply path_items, Hl. Qed.

Lemma located_db c h m lft cur rgt : located c h m lft cur rgt -> tree_db.
Proof.
  intros Hl. destruct Hdb as [[E _]|]; [|done]. exfalso. destruct Hl as [_ _ Hne Hp].
  apply path_items in Hp. rewrite E in Hp. destruct lft; [|done]. by destruct cur.
Qed.

Lemma settled_db c a m lft cur rgt ki : settled c a m lft cur rgt ki -> tree_db.
Proof. intros []. eapply located_db; eauto. Qed.

Lemma lookup_mid (lft cur rgt : items) (ki : Z) (e : MDB_val * MDB_val) : aget cur ki = Some e ->
  (lft ++ cur ++ rgt) !! (length lft + Z.to_nat ki)%nat = Some e.
Proof.
  intros E. pose proof (aget_lt _ _ _ E). unfold aget in E. rewrite (proj2 (Z.leb_le 0 _)) in E by lia.
  rewrite lookup_app_r by lia. replace (length lft + Z.to_nat ki - length lft)%nat with (Z.to_nat ki) by lia.
  by apply lookup_app_l_Some.
Qed.

(** Placing the cursor on an item of its page. *)
Lemma settle_on (c : cursor) (m : list Z) (lft cur rgt : items) (ki : Z) (eof : bool) :
  located c 0 m lft cur rgt -> top_ki c = Some ki -> 0 <= ki < zlen cur -> mc_flags c = flags_of eof ->
  mt_flags c = mt -> (eof = true -> rgt = []) ->
  exists e i, i = (length lft + Z.to_nat ki)%nat /\ aget cur ki = Some e /\ es0 !! i = Some e /\
    settled c (ACursor (On i) eof) m lft cur rgt ki /\
    (forall next, read_current get md_pad next c true = Some (Out MDB_SUCCESS (Some e.1) (Some e.2) c)).
Proof.
  intros Hloc Hki Hk Hf Hm He. pose proof (aget_in cur ki Hk) as E.
  exists (zn cur ki), (length lft + Z.to_nat ki)%nat. split_and!; auto.
  - rewrite (path_items _ _ _ _ _ _ _ _ _ _ _ _ _ _ (loc_path _ _ _ _ _ _ _ _ _ _ _ _ _ Hloc)).
    by apply lookup_mid.
  - split; cbn [a_pos a_eof]; auto; [lia|]. unfold pos_of. by rewrite (proj2 (Z.ltb_lt _ _)) by lia.
  - intros next. apply (read_current_at next c m cur ki); [apply Hloc|apply Hloc|done|done].
Qed.

Lemma top_level (c : cursor) (m : list Z) (lft cur rgt : items) (h : nat) :
  located c h m lft cur rgt -> mc_top c = 0 -> lft = [] /\ rgt = [].
Proof. intros [_ _ _ Hp] E. rewrite E in Hp. destruct Hp as (_ & -> & -> & _). done. Qed.

Lemma located_usable (c : cursor) (h : nat) (m : list Z) (lft cur rgt : items) :
  located c h m lft cur rgt -> usable root c.
Proof.
  intros [Hon _ _ Hp]. split; [apply Hon|split; [apply Hon|]]. right. by eapply path_root.
Qed.

Lemma init_usable : usable root (mdb_cursor_init mt).
Proof. split; [done|split; [done|by left]]. Qed.

(** Flags of an initialised cursor. *)
Lemma init_flag (eof : bool) : nz (Z.land (flags_of eof) C_INITIALIZED) = true.
Proof. by destruct eof. Qed.
Lemma eof_flag (eof : bool) : nz (Z.land (flags_of eof) C_EOF) = eof.
Proof. by destruct eof. Qed.
Lemma del_flag (eof : bool) : nz (Z.land (flags_of eof) C_DEL) = false.
Proof. by destruct eof. Qed.
Lemma flags_searched (eof : bool) :
  Z.land (Z.lor (flags_of eof) C_INITIALIZED) (Z.lnot C_EOF) = flags_of false.
Proof. by destruct eof. Qed.

(** ** mdb_cursor_first, mdb_cursor_last *)

(** Finding the first or last leaf; an initialised cursor in a tree of one
    page is there already. *)
Definition seek (t : target) (c : cursor) : option (Z * cursor) :=
  if negb (nz (Z.land (mc_flags c) C_INITIALIZED)) || nz (mc_top c)
  then mdb_page_search get md_cmp md_pad md_root c (target_key t) (target_flags t) else Some (MDB_SUCCESS, c).

Lemma seek_ok (t : target) (c : cursor) (a : acursor) : sim c a -> tree_db -> t = ToFirst \/ t = ToLast ->
  exists c' m lft cur rgt eof, seek t c = Some (MDB_SUCCESS, c') /\ located c' 0 m lft cur rgt /\
    reached D ord t lft rgt /\ mt_flags c' = mt /\ mc_flags c' = flags_of eof /\ (eof = true -> rgt = []).
Proof.
  intros Hsim Htr Ht. assert (target_ok D t) as Hok by (destruct Ht as [-> | ->]; done).
  unfold seek. destruct Hsim as [|c a m lft cur rgt ki [Hloc Hki Hr Hf Hm He Hp]].
  - destruct (page_search_at get md_cmp md_pad md_root D ord root H es0 Htr t _ init_usable Hok Htxn)
      as (c' & m & lft & cur & rgt & E & Hl & Hre & Hm' & Hf' & _).
    exists c', m, lft, cur, rgt, false. cbn [mdb_cursor_init mc_flags]. rewrite E. split_and!; auto. done.
  - rewrite Hf, init_flag. cbn [negb orb]. unfold nz. destruct (Z.eqb_spec (mc_top c) 0) as [E0|E0]; cbn [negb].
    + destruct (top_level _ _ _ _ _ _ Hloc E0) as [-> ->].
      exists c, m, [], cur, [], (a_eof a). split_and!; auto. destruct Ht as [-> | ->]; done.
    + assert (Z.land (mt_flags c) MDB_TXN_ERROR = 0) as Hx by (by rewrite Hm).
      destruct (page_search_at get md_cmp md_pad md_root D ord root H es0 Htr t c
        (located_usable _ _ _ _ _ _ Hloc) Hok Hx) as (c' & m' & lft' & cur' & rgt' & E & Hl & Hre & Hm' & Hf' & _).
      rewrite E. exists c', m', lft', cur', rgt', false. rewrite Hf, flags_searched in Hf'.
      split_and!; auto; [congruence|done].
Qed.

Lemma leaf_checks (c : cursor) (m : list Z) (lft cur rgt : items) : located c 0 m lft cur rgt ->
  top_pg c = Some m /\ IS_LEAF m = Some true /\ NUMKEYS m = Some (zlen cur) /\ 0 < zlen cur < 16384 /\
  IS_LEAF2 m = Some false.
Proof.
  intros [Hon Ht Hne _]. pose proof Ht as (Hwf & Hl & _). pose proof (tree_num _ _ _ _ _ _ _ Ht Hne).
  rewrite (leaf_num _ _ _ _ _ _ Ht). split_and!; try lia; [by apply top_pg_ok|by rewrite IS_LEAF_ok, Hl|
    by apply NUMKEYS_ok|by apply IS_LEAF2_ok].
Qed.

Lemma cursor_first_found (c : cursor) (a : acursor) : sim c a -> tree_db ->
  exists e c', es0 !! 0%nat = Some e /\ sim c' (ACursor (On 0) false) /\
    mdb_cursor_first get md_cmp md_pad md_root c true = Some (Out MDB_SUCCESS (Some e.1) (Some e.2) c').
Proof.
  intros Hsim Htr. destruct (seek_ok ToFirst c a Hsim Htr (or_introl eq_refl))
    as (c1 & m & lft & cur & rgt & eof & E & Hloc & Hre & Hm & Hf & He).
  unfold mdb_cursor_first.
  change (mdb_page_search get md_cmp md_pad md_root c None MDB_PS_FIRST) with
    (mdb_page_search get md_cmp md_pad md_root c (target_key ToFirst) (target_flags ToFirst)).
  fold (seek ToFirst c). rewrite E. cbn [mbind option_bind]. change (nz MDB_SUCCESS) with false. cbv iota.
  destruct (leaf_checks _ _ _ _ _ Hloc) as (-> & Hl & _ & Hn & _). cbn [mbind option_bind].
  rewrite Hl. cbn [mbind option_bind negb].
  destruct (located_set_ki get md_cmp D ord root H es0 (clear_flag (or_flag c1 C_INITIALIZED) C_EOF) 0 m lft cur rgt 0)
    as (c2 & E2 & Hloc2 & Hk2 & _ & Hf2 & Hm2); [by apply located_flags, located_flags|lia|].
  rewrite E2. cbn [mbind option_bind].
  destruct (settle_on c2 m lft cur rgt 0 false) as (e & i & Ei & _ & Hi & Hs & Hread); auto; try lia; try done.
  { rewrite Hf2. cbn. by rewrite Hf, flags_searched. }
  { by rewrite Hm2. }
  assert (i = 0%nat) as -> by (rewrite Ei, Hre; done).
  exists e, c2. split_and!; auto. by eapply sim_settled.
Qed.

Lemma cursor_last_found (c : cursor) (a : acursor) : sim c a -> tree_db ->
  exists e c' i, i = (length es0 - 1)%nat /\ es0 !! i = Some e /\
    mdb_cursor_last get md_cmp md_pad md_root c true = Some (Out MDB_SUCCESS (Some e.1) (Some e.2) c') /\
    exists m lft cur rgt ki, settled c' (ACursor (On i) true) m lft cur rgt ki.
Proof.
  intros Hsim Htr.
  assert (exists c1 m lft cur eof,
    (if negb (nz (Z.land (mc_flags c) C_EOF)) then
       '(rc, c) ← seek ToLast c;
       if nz rc then Some (rc, c)
       else mp ← top_pg c; leaf ← IS_LEAF mp; if negb leaf then None else Some (rc, c)
     else Some (MDB_SUCCESS, c)) = Some (MDB_SUCCESS, c1) /\ located c1 0 m lft cur [] /\
    mt_flags c1 = mt /\ mc_flags c1 = flags_of eof) as (c1 & m & lft & cur & eof & E & Hloc & Hm & Hf).
  { destruct (nz (Z.land (mc_flags c) C_EOF)) eqn:Heof; cbn [negb].
    - destruct Hsim as [|c a m lft cur rgt ki [Hloc Hki Hr Hf Hm He Hp]]; [done|].
      rewrite Hf, eof_flag in Heof. rewrite (He Heof) in Hloc. exists c, m, lft, cur, (a_eof a). auto.
    - destruct (seek_ok ToLast c a Hsim Htr (or_intror eq_refl))
        as (c1 & m & lft & cur & rgt & eof & -> & Hloc & Hre & Hm & Hf & He).
      cbn [mbind option_bind reached] in *. change (nz MDB_SUCCESS) with false. cbv iota.
      destruct (leaf_checks _ _ _ _ _ Hloc) as (-> & Hl & _). cbn [mbind option_bind]. rewrite Hl.
      exists c1, m, lft, cur, eof. rewrite <- Hre. auto. }
  unfold mdb_cursor_last.
  change (mdb_page_search get md_cmp md_pad md_root c None MDB_PS_LAST) with
    (mdb_page_search get md_cmp md_pad md_root c (target_key ToLast) (target_flags ToLast)).
  fold (seek ToLast c). rewrite E. cbn [mbind option_bind]. change (nz MDB_SUCCESS) with false. cbv iota.
  destruct (leaf_checks _ _ _ _ _ Hloc) as (-> & _ & Hn & Hlen & _). cbn [mbind option_bind]. rewrite Hn.
  cbn [mbind option_bind].
  destruct (located_set_ki get md_cmp D ord root H es0 c1 0 m lft cur [] (zlen cur - 1) Hloc)
    as (c2 & -> & Hloc2 & Hk2 & _ & Hf2 & Hm2); [lia|]. cbn [mbind option_bind].
  destruct (settle_on (or_flag c2 (Z.lor C_INITIALIZED C_EOF)) m lft cur [] (zlen cur - 1) true)
    as (e & i & Ei & _ & Hi & Hs & Hread); auto; try lia.
  { by apply located_flags. }
  { cbn. rewrite Hf2, Hf. by destruct eof. }
  { cbn. congruence. }
  assert (i = (length es0 - 1)%nat) as Hi'.
  { rewrite (settled_items _ _ _ _ _ _ _ Hs), !length_app, Ei. unfold zlen in *. cbn. lia. }
  exists e, (or_flag c2 (Z.lor C_INITIALIZED C_EOF)), i. split_and!; auto. eauto 10.
Qed.

(** ** mdb_cursor_next, mdb_cursor_prev *)

Lemma cursor_next_ok (c : cursor) (a : acursor) (m : list Z) (lft cur rgt : items) (ki : Z) :
  settled c a m lft cur rgt ki -> a_eof a = false ->
  exists r a', mdb_cursor_next get md_pad c true = Some r /\ sim (o_cur r) a' /\
    match es0 !! next_pos (a_pos a) with
    | Some e => outcome_result r = found e /\ a' = ACursor (On (next_pos (a_pos a))) false
    | None => outcome_result r = missing /\ a' = ACursor (a_pos a) true
    end.
Proof.
  intros Hset Heof. pose proof (settled_db _ _ _ _ _ _ _ Hset) as Htr.
  pose proof Hset as [Hloc Hki Hr Hf Hm He Hp]. pose proof (settled_items _ _ _ _ _ _ _ Hset) as Hes.
  destruct (leaf_checks _ _ _ _ _ Hloc) as (Hpg & _ & Hn & Hlen & _).
  unfold mdb_cursor_next. rewrite Hf, eof_flag, init_flag, del_flag, Heof, Hpg, Hki. cbn [negb mbind option_bind].
  rewrite Hn. cbn [mbind option_bind]. destruct (Z.leb_spec (zlen cur) (ki + 1)) as [Hlast|Hmore].
  - (* to the next page *)
    assert (next_pos (a_pos a) = length (lft ++ cur)) as Enext.
    { rewrite Hp. unfold pos_of. rewrite length_app. unfold zlen in *.
      destruct (Z.ltb_spec ki (Z.of_nat (length cur))); cbn [next_pos]; lia. }
    pose proof (op_top _ _ (loc_page _ _ _ _ _ _ _ _ _ _ _ _ _ Hloc)).
    destruct (sibling_ok get md_cmp D ord root H es0 true (Z.to_nat (mc_top c)) 32 c m 0 lft cur rgt)
      as (rc & c1 & E & Hres); auto; try lia; [apply Htr|].
    unfold sibling. rewrite E. cbn [mbind option_bind].
    destruct Hres as [(-> & -> & ->)|(m1 & lft1 & cur1 & rgt1 & -> & Hloc1 & [-> ->] & Hk1 & _ & Hf1 & Hm1)].
    + change (nz MDB_NOTFOUND) with true. cbv iota. eexists _, _. split; [done|]. cbn [o_cur].
      rewrite Hes, app_nil_r, Enext, (lookup_ge_None_2 (lft ++ cur)) by lia. split; [|split; done].
      apply (sim_settled _ _ m lft cur [] ki). split; cbn [a_pos a_eof]; auto.
      * by apply located_flags.
      * cbn. rewrite Hf, Heof. done.
    + change (nz MDB_SUCCESS) with false. cbv iota. cbn [end_index] in Hk1.
      destruct (leaf_checks _ _ _ _ _ Hloc1) as (_ & _ & _ & Hlen1 & _).
      destruct (settle_on c1 m1 (lft ++ cur) cur1 rgt1 0 false) as (e & i & Ei & _ & Hi & Hs & Hread);
        auto; try lia; try congruence.
      assert (i = next_pos (a_pos a)) as <- by (rewrite Enext, Ei; cbn; lia).
      rewrite Hread, Hi. eexists _, _. split; [done|]. cbn [o_cur]. split; [by eapply sim_settled|done].
  - destruct (located_set_ki get md_cmp D ord root H es0 c 0 m lft cur rgt (ki + 1) Hloc)
      as (c2 & -> & Hloc2 & Hk2 & _ & Hf2 & Hm2); [lia|]. cbn [mbind option_bind].
    destruct (settle_on c2 m lft cur rgt (ki + 1) false) as (e & i & Ei & _ & Hi & Hs & Hread);
      auto; try lia; try congruence.
    assert (i = next_pos (a_pos a)) as <-.
    { rewrite Hp. unfold pos_of. rewrite (proj2 (Z.ltb_lt _ _)) by lia. cbn [next_pos]. lia. }
    rewrite Hread, Hi. eexists _, _. split; [done|]. cbn [o_cur]. split; [by eapply sim_settled|done].
Qed.

Lemma cleared_flags (c : cursor) (eof : bool) : mc_flags c = flags_of eof ->
  mc_flags (clear_flag c C_EOF) = flags_of false.
Proof. intros E. cbn. rewrite E. by destruct eof. Qed.

(** One item back, for a cursor at index [ki] of its leaf. *)
Lemma cursor_prev_ok (c : cursor) (m : list Z) (lft cur rgt : items) (ki : Z) (eof : bool) :
  located c 0 m lft cur rgt -> top_ki c = Some ki -> 0 <= ki <= zlen cur -> mc_flags c = flags_of eof ->
  mt_flags c = mt ->
  exists r, mdb_cursor_prev get md_pad c true = Some r /\
    (((length lft + Z.to_nat ki)%nat = O /\ outcome_result r = missing /\ o_cur r = c) \/
     exists e i, (length lft + Z.to_nat ki)%nat = S i /\ es0 !! i = Some e /\ outcome_result r = found e /\
       sim (o_cur r) (ACursor (On i) false)).
Proof.
  intros Hloc Hki Hr Hf Hm. pose proof (located_db _ _ _ _ _ _ Hloc) as Htr.
  destruct (leaf_checks _ _ _ _ _ Hloc) as (Hpg & _ & Hn & Hlen & _).
  unfold mdb_cursor_prev. rewrite Hf, init_flag, Hpg, Hki. cbn [negb mbind option_bind].
  destruct (Z.eqb_spec ki 0) as [->|Hne].
  - pose proof (op_top _ _ (loc_page _ _ _ _ _ _ _ _ _ _ _ _ _ Hloc)).
    destruct (sibling_ok get md_cmp D ord root H es0 false (Z.to_nat (mc_top c)) 32 c m 0 lft cur rgt)
      as (rc & c1 & E & Hres); auto; try lia; [apply Htr|].
    unfold sibling. rewrite E. cbn [mbind option_bind].
    destruct Hres as [(-> & -> & ->)|(m1 & lft1 & cur1 & rgt1 & -> & Hloc1 & [-> ->] & Hk1 & _ & Hf1 & Hm1)].
    + change (nz MDB_NOTFOUND) with true. cbv iota. eexists. split; [done|]. left. done.
    + change (nz MDB_SUCCESS) with false. cbv iota.
      destruct (leaf_checks _ _ _ _ _ Hloc1) as (-> & _ & Hn1 & Hlen1 & _). cbn [mbind option_bind].
      rewrite Hn1. cbn [mbind option_bind].
      destruct (located_set_ki get md_cmp D ord root H es0 c1 0 m1 lft1 cur1 (cur ++ rgt) (zlen cur1 - 1) Hloc1)
        as (c2 & -> & Hloc2 & Hk2 & _ & Hf2 & Hm2); [lia|]. cbn [mbind option_bind].
      destruct (settle_on (clear_flag c2 C_EOF) m1 lft1 cur1 (cur ++ rgt) (zlen cur1 - 1) false)
        as (e & i & Ei & _ & Hi & Hs & Hread); auto; try lia.
      { by apply located_flags. }
      { apply (cleared_flags _ eof). congruence. }
      { cbn. congruence. }
      rewrite Hread. eexists. split; [done|]. right. exists e, i. cbn [o_cur]. split_and!; auto.
      * rewrite length_app, Ei. unfold zlen in *. lia.
      * by eapply sim_settled.
  - destruct (located_set_ki get md_cmp D ord root H es0 c 0 m lft cur rgt (ki - 1) Hloc)
      as (c2 & -> & Hloc2 & Hk2 & _ & Hf2 & Hm2); [lia|]. cbn [mbind option_bind].
    destruct (settle_on (clear_flag c2 C_EOF) m lft cur rgt (ki - 1) false)
      as (e & i & Ei & _ & Hi & Hs & Hread); auto; try lia.
    { by apply located_flags. }
    { apply (cleared_flags _ eof). congruence. }
    { cbn. congruence. }
    rewrite Hread. eexists. split; [done|]. right. exists e, i. cbn [o_cur]. split_and!; auto.
    + lia.
    + by eapply sim_settled.
Qed.

(** ** Searching *)

Lemma rank_split (l1 l2 : items) (key : MDB_val) : all_lt D ord l1 key ->
  Forall (fun e => ~ ord e.1 key < 0) l2 -> rank ord (l1 ++ l2) key = length l1.
Proof.
  intros H1 H2. unfold rank. rewrite filter_app, length_app.
  assert (filter (fun e => ord e.1 key < 0) l1 = l1) as ->.
  { induction H1 as [|e l [_ He] _ IH]; [done|]. rewrite filter_cons_True by done. by rewrite IH. }
  assert (filter (fun e => ord e.1 key < 0) l2 = []) as ->.
  { induction H2 as [|e l He _ IH]; [done|]. by rewrite filter_cons_False. }
  cbn. lia.
Qed.

(** The items before and after a place on the page, compared with a key. *)
Definition split_at (lft cur rgt : items) (p : Z) (key : MDB_val) : Prop :=
  all_lt D ord (lft ++ take (Z.to_nat p) cur) key /\
  Forall (fun e => D e.1 /\ ~ ord e.1 key < 0) (drop (Z.to_nat p) cur ++ rgt).

Lemma split_rank (lft cur rgt : items) (p : Z) (key : MDB_val) :
  split_at lft cur rgt p key -> es0 = lft ++ cur ++ rgt -> 0 <= p <= zlen cur ->
  rank ord es0 key = (length lft + Z.to_nat p)%nat.
Proof.
  intros [H1 H2] -> Hp. rewrite <- (take_drop (Z.to_nat p) cur) at 1. rewrite <- app_assoc, (app_assoc lft).
  rewrite rank_split; [|done|].
  - rewrite length_app, length_take. unfold zlen in *. lia.
  - apply (Forall_impl _ _ _ H2). by intros e [].
Qed.

(** A key found nowhere. *)
Lemma split_absent (lft cur rgt : items) (p : Z) (key : MDB_val) :
  order_laws -> D key -> split_at lft cur rgt p key -> 0 <= p <= zlen cur ->
  (forall e, aget cur p = Some e -> e.1 <> key) ->
  all_gt D ord rgt key ->  Forall (fun e => e.1 = key -> aget cur p = Some e) (drop (Z.to_nat p) cur) ->
  forall d, (key, d) ∉ lft ++ cur ++ rgt.
Proof.
  intros O Dk [H1 H2] Hp Hne Hgt Huniq d Hin. pose proof (ol_eq _ _ O key key Dk Dk) as Hkk.
  rewrite <- (take_drop (Z.to_nat p) cur) in Hin. rewrite <- app_assoc, (app_assoc lft) in Hin.
  rewrite !elem_of_app in Hin. destruct Hin as [Hin|[Hin|Hin]].
  - rewrite <- elem_of_app in Hin. pose proof (proj1 (Forall_forall _ _) H1 _ Hin) as [_ Hx]. cbn in Hx.
    rewrite (proj2 Hkk eq_refl) in Hx. lia.
  - pose proof (proj1 (Forall_forall _ _) Huniq _ Hin eq_refl) as E. by apply (Hne _ E).
  - pose proof (proj1 (Forall_forall _ _) Hgt _ Hin) as [_ Hx]. cbn in Hx.
    rewrite (proj2 Hkk eq_refl) in Hx. lia.
Qed.

(** The search of the leaf page of a key. *)
Lemma leaf_search (m : list Z) (cur lft rgt : items) (key : MDB_val) :
  leaf_tree m cur -> D key -> all_lt D ord lft key -> all_gt D ord rgt key ->
  exists p exact, mdb_node_search m md_cmp md_pad key =
      Some (if p <? p_num m then Some (p_ptr m p) else None, p, exact) /\
    0 <= p <= zlen cur /\ split_at lft cur rgt p key /\
    if exact : bool then exists d, aget cur p = Some (key, d)
    else forall d, (key, d) ∉ lft ++ cur ++ rgt.
Proof.
  intros Hleaf Dk Hlt Hgt. pose proof Hleaf as (Hwf & Hl & _ & Hord0 & Hlen & _).
  pose proof (page_order_laws md_cmp D ord m Hord0) as O. destruct Hord0 as (c1 & KO & Hc & Hord & Hs).
  destruct (node_search_ok m md_cmp c1 D KO md_pad key Hwf Hc (or_introl Hl) Dk Hs)
    as (p & exact & E & Hp & Hltp & Hge & Hex).
  unfold first_key, keys_sorted in *. destruct Hs as [HD Hs]. unfold first_key in *. rewrite Hl in *.
  assert (forall k e, aget cur k = Some e -> p <= k -> e.1 = key \/ ord key e.1 < 0) as Hcase.
  { intros k e Hk Hpk. destruct (leaf_item m cur k e Hleaf Hk) as (Hkr & -> & _).
    rewrite <- Hord. destruct (Hge k ltac:(lia)) as [[-> Hx]|Hx]; [left|by right]. apply Hex in Hx. apply Hx. }
  assert (split_at lft cur rgt p key) as Hsplit.
  { split.
    - apply Forall_app. split; [done|]. apply Forall_lookup. intros i e [Hi Hip]%lookup_take_Some.
      rewrite lookup_aget in Hi. destruct (leaf_item m cur _ e Hleaf Hi) as (Hk & -> & _).
      split; [apply HD; lia|]. rewrite <- Hord. apply Hltp. lia.
    - apply Forall_app. split.
      + apply Forall_lookup. intros i e Hi. rewrite lookup_drop, lookup_aget in Hi.
        destruct (leaf_item m cur _ e Hleaf Hi) as (Hk & Ek & _).
        assert (D e.1) as De by (rewrite Ek; apply HD; lia). split; [done|].
        destruct (Hcase _ e Hi ltac:(lia)) as [-> |Hx]; [rewrite (proj2 (ol_eq _ _ O key key Dk Dk)); [lia|done]|].
        apply (ol_anti _ _ O key e.1 Dk De) in Hx. lia.
      + apply (Forall_impl _ _ _ Hgt). intros e [De Hx]. split; [done|]. apply (ol_anti _ _ O key e.1 Dk De) in Hx. lia. }
  exists p, exact. split_and!; auto; try lia. destruct exact.
  - destruct (proj1 Hex eq_refl) as [Hpn Hk]. pose proof (aget_in cur p ltac:(lia)) as Hg.
    destruct (leaf_item m cur p _ Hleaf Hg) as (_ & Ek & _). exists (zn cur p).2.
    rewrite Hg, <- Hk, <- Ek. by destruct (zn cur p).
  - apply (split_absent lft cur rgt p key O Dk); auto; [lia| |].
    + intros e He Ek. destruct (leaf_item m cur p e Hleaf He) as (Hk & Ee & _).
      assert (false = true) by (apply Hex; split; [lia|congruence]). done.
    + apply Forall_lookup. intros i e Hi Ek. rewrite lookup_drop, lookup_aget in Hi.
      destruct (leaf_item m cur _ e Hleaf Hi) as (Hk & Ee & _).
      destruct (Hge _ ltac:(split; [|apply Hk]; lia)) as [[_ ?]|Hx]; [done|].
      rewrite <- Ee, Ek, Hord, (proj2 (ol_eq _ _ O key key Dk Dk)) in Hx by done. lia.
Qed.

(** ** mdb_cursor_set *)

(** A [MDB_SET], [MDB_SET_KEY] or [MDB_SET_RANGE] of a key. *)
Record set_call (op : MDB_cursor_op) (key : MDB_val) : Prop := {
  sc_op : is_set op || is_range op = true;
  sc_key : D key;
  sc_size : mv_size key <> 0
}.

(** The item is what the operation may return. *)
Definition acceptable (op : MDB_cursor_op) (key : MDB_val) (x : option (MDB_val * MDB_val)) : Prop :=
  is_range op = true \/ (is_set op = true /\ exists d, x = Some (key, d)).

Lemma set1_ok (op : MDB_cursor_op) (key : MDB_val) (a : acursor) (c : cursor) (m : list Z)
    (lft cur rgt : items) (ki : Z) (eof : bool) :
  set_call op key -> located c 0 m lft cur rgt -> top_ki c = Some ki -> 0 <= ki < zlen cur ->
  mc_flags c = flags_of eof -> mt_flags c = mt ->
  split_at lft cur rgt ki key -> acceptable op key (aget cur ki) ->
  implements a op (Some key) (set1 get md_pad c op true).
Proof.
  intros [Hop Dk Hsz] Hloc Hki Hk Hf Hm Hsplit Hacc. unfold set1.
  set (c' := clear_flag (or_flag c C_INITIALIZED) C_EOF).
  assert (located c' 0 m lft cur rgt) as Hloc' by (by apply located_flags, located_flags).
  assert (top_ki c' = Some ki) as Hki' by done.
  destruct (settle_on c' m lft cur rgt ki false) as (e & i & Ei & Hg & Hi & Hs & _); auto; try done.
  { cbn. by rewrite Hf, flags_searched. }
  pose proof (settled_items _ _ _ _ _ _ _ Hs) as Hes.
  rewrite <- (split_rank lft cur rgt ki key Hsplit Hes ltac:(lia)) in Ei.
  destruct (leaf_checks _ _ _ _ _ Hloc') as (-> & _ & _ & _ & Hl2). cbn [mbind option_bind]. rewrite Hki'.
  cbn [mbind option_bind]. rewrite Hl2. cbn [mbind option_bind].
  pose proof (loc_tree _ _ _ _ _ _ _ _ _ _ _ _ _ Hloc') as Hleaf.
  destruct (leaf_read c' m cur ki e true (match op with MDB_SET_RANGE | MDB_SET_KEY => true | _ => false end)
    Hleaf Hg) as [-> Hread]. cbn [mbind option_bind]. rewrite Hread.
  eexists _, (ACursor (On i) false). split; [done|]. cbn [o_cur]. split; [|by eapply sim_settled].
  rewrite Ei in *. destruct Hacc as [Hran|[Hset (d & Hd)]].
  - destruct op; try done. by apply A_range.
  - rewrite Hg in Hd. injection Hd as ->. cbn [fst snd].
    assert (outcome_result (Out MDB_SUCCESS
      (if match op with MDB_SET_RANGE | MDB_SET_KEY => true | _ => false end then Some key else None)
      (Some d) c') = (MDB_SUCCESS, match op with MDB_SET_KEY => Some key | _ => None end, Some d)) as ->
      by (by destruct op).
    by apply A_set.
Qed.

(** The exact match asked for by [mdb_cursor_get]. *)
Definition want_exact (op : MDB_cursor_op) : bool := is_set op.

(** Nothing found; the cursor is left at index [ki] of its page. *)
Lemma set_missed (op : MDB_cursor_op) (key : MDB_val) (a : acursor) (c : cursor) (m : list Z)
    (lft cur rgt : items) (ki : Z) (eof : bool) :
  set_call op key -> located c 0 m lft cur rgt -> top_ki c = Some ki -> 0 <= ki <= zlen cur ->
  mc_flags c = flags_of eof -> mt_flags c = mt -> (eof = true -> rgt = [] /\ a_eof a = true) ->
  split_at lft cur rgt ki key ->
  (if is_set op then forall d, (key, d) ∉ es0 else rgt = [] /\ ki = zlen cur) ->
  implements a op (Some key) (fail MDB_NOTFOUND c).
Proof.
  intros [Hop Dk Hsz] Hloc Hki Hk Hf Hm He Hsplit Hno.
  set (a' := ACursor (pos_of lft cur ki) eof).
  assert (settled c a' m lft cur rgt ki) as Hs by (split; cbn [a' a_pos a_eof]; auto; intros E; apply (He E)).
  pose proof (settled_items _ _ _ _ _ _ _ Hs) as Hes.
  pose proof (split_rank lft cur rgt ki key Hsplit Hes ltac:(lia)) as Hrank.
  assert (missed ord es0 a key a') as Hmiss.
  { unfold missed. destruct es0 as [|e0 es1] eqn:E.
    - exfalso. pose proof (loc_some _ _ _ _ _ _ _ _ _ _ _ _ _ Hloc). destruct lft; [|done]. by destruct cur.
    - split; [|intros Ht; apply (He Ht)]. rewrite Hrank. cbn [a' a_pos]. unfold pos_of.
      destruct (Z.ltb_spec ki (zlen cur)); [by left|right]. do 2 f_equal. unfold zlen in *. lia. }
  exists (Out MDB_NOTFOUND None None c), a'. split; [done|]. split; [|by eapply sim_settled].
  destruct (is_set op) eqn:Hset; [by apply A_set_missed|].
  destruct op; try done. destruct Hno as [-> ->]. apply A_range_missed; [done| |done].
  apply lookup_ge_None_2. rewrite Hrank, Hes, !length_app. unfold zlen. cbn. lia.
Qed.

Lemma set2_ok (op : MDB_cursor_op) (key : MDB_val) (a : acursor) (c : cursor) (m : list Z)
    (lft cur rgt : items) (eof : bool) :
  set_call op key -> located c 0 m lft cur rgt -> mc_flags c = flags_of eof -> mt_flags c = mt ->
  (eof = true -> rgt = [] /\ a_eof a = true) ->
  all_lt D ord lft key -> all_gt D ord rgt key ->
  implements a op (Some key) (set2 get md_cmp md_pad c key op (want_exact op) true).
Proof.
  intros Hcall Hloc Hf Hm He Hlt Hgt. pose proof (sc_key _ _ Hcall) as Dk.
  pose proof (loc_tree _ _ _ _ _ _ _ _ _ _ _ _ _ Hloc) as Hleaf. pose proof Hleaf as (Hwf & _ & _ & _ & Hlen & _).
  pose proof (path_items _ _ _ _ _ _ _ _ _ _ _ _ _ _ (loc_path _ _ _ _ _ _ _ _ _ _ _ _ _ Hloc)) as Hes.
  destruct (leaf_checks _ _ _ _ _ Hloc) as (Hpg & _ & _ & Hlen' & _).
  destruct (leaf_search m cur lft rgt key Hleaf Dk Hlt Hgt) as (p & exact & E & Hp & Hsplit & Hex).
  unfold set2. rewrite Hpg. cbn [mbind option_bind]. rewrite E. cbn [mbind option_bind].
  destruct (located_set_ki get md_cmp D ord root H es0 c 0 m lft cur rgt p Hloc)
    as (c2 & -> & Hloc2 & Hk2 & Ht2 & Hf2 & Hm2); [lia|]. cbn [mbind option_bind].
  rewrite Hf in Hf2. rewrite Hm in Hm2.
  destruct (want_exact op && negb exact) eqn:Hmiss.
  { apply andb_true_iff in Hmiss as [Hset Hn]. destruct exact; [done|].
    apply (set_missed op key a c2 m lft cur rgt p eof); auto.
    unfold want_exact in Hset. rewrite Hset, Hes. done. }
  assert (p < zlen cur -> acceptable op key (aget cur p)) as Hacc.
  { intros Hpl. unfold want_exact, acceptable in *. pose proof (sc_op _ _ Hcall) as Hop.
    destruct (is_set op) eqn:Hset; [right|left; by destruct (is_range op)].
    split; [done|]. destruct exact; [done|]. done. }
  rewrite <- Hlen. destruct (Z.ltb_spec p (zlen cur)) as [Hpl|Hpl].
  { apply (set1_ok op key a c2 m lft cur rgt p eof); auto; lia. }
  assert (p = zlen cur) as -> by lia.
  assert (is_set op = false) as Hran.
  { destruct (is_set op) eqn:Hset; [|done]. destruct exact; [|unfold want_exact in Hmiss; by rewrite Hset in Hmiss].
    destruct Hex as (d & Hd). apply aget_lt in Hd. lia. }
  pose proof (op_top _ _ (loc_page _ _ _ _ _ _ _ _ _ _ _ _ _ Hloc2)).
  pose proof (located_db _ _ _ _ _ _ Hloc) as Htr.
  destruct (sibling_ok get md_cmp D ord root H es0 true (Z.to_nat (mc_top c2)) 32 c2 m 0 lft cur rgt)
    as (rc & c1 & Es & Hres); auto; try lia; [apply Htr|].
  unfold sibling. rewrite Es. cbn [mbind option_bind].
  destruct Hres as [(-> & -> & ->)|(m1 & lft1 & cur1 & rgt1 & -> & Hloc1 & [-> ->] & Hk1 & _ & Hf1 & Hm1)].
  - change (nz MDB_NOTFOUND) with true. cbv iota.
    apply (set_missed op key a c2 m lft cur [] (zlen cur) eof); auto. by rewrite Hran.
  - change (nz MDB_SUCCESS) with false. cbv iota.
    destruct (leaf_checks _ _ _ _ _ Hloc1) as (Hpg1 & Hl1 & _ & Hlen1 & _). rewrite Hpg1. cbn [mbind option_bind].
    rewrite Hl1. cbn [mbind option_bind negb end_index] in *.
    apply (set1_ok op key a c1 m1 (lft ++ cur) cur1 rgt1 0 eof); auto; try lia; try congruence.
    + destruct Hsplit as [Hs1 Hs2].
      rewrite (take_ge cur) in Hs1 by (unfold zlen; lia). rewrite (drop_ge cur) in Hs2 by (unfold zlen; lia).
      split; [by rewrite app_nil_r|done].
    + left. pose proof (sc_op _ _ Hcall) as Hop. by rewrite Hran in Hop.
Qed.

Lemma set_search_ok (op : MDB_cursor_op) (key : MDB_val) (a : acursor) (c : cursor) :
  set_call op key -> tree_db -> usable root c -> mt_flags c = mt ->
  (mc_flags c = 0 \/ exists eof, mc_flags c = flags_of eof) ->
  implements a op (Some key) (set_search get md_cmp md_pad md_root c key op (want_exact op) true).
Proof.
  intros Hcall Htr Hus Hm Hf. unfold set_search.
  assert (Z.land (mt_flags c) MDB_TXN_ERROR = 0) as Hx by (by rewrite Hm).
  destruct (page_search_at get md_cmp md_pad md_root D ord root H es0 Htr (ToKey key) c Hus (sc_key _ _ Hcall) Hx)
    as (c' & m & lft & cur & rgt & E & Hloc & [Hlt Hgt] & Hm' & Hf' & _).
  cbn [target_key target_flags] in E. rewrite E. cbn [mbind option_bind]. change (nz MDB_SUCCESS) with false. cbv iota.
  destruct (leaf_checks _ _ _ _ _ Hloc) as (Hpg & Hl & _). rewrite Hpg. cbn [mbind option_bind].
  rewrite Hl. cbn [mbind option_bind negb].
  apply (set2_ok op key a c' m lft cur rgt false); auto; try congruence; try done.
  rewrite Hf'. destruct Hf as [-> |[eof ->]]; [done|apply flags_searched].
Qed.

(** The levels below the top page. *)
Lemma path_level (l : nat) (c : cursor) : forall h top lft cur rgt,
  path get md_cmp D ord root H es0 l c h top lft cur rgt -> forall j, 0 <= j < Z.of_nat l ->
  exists m ki, aget (mc_pg c) j = Some m /\ page_wf m /\ 1 < p_num m /\ aget (mc_ki c) j = Some ki /\
    0 <= ki < p_num m.
Proof.
  induction l as [|l IH]; intros h top lft cur rgt Hp j Hj; [lia|].
  destruct Hp as (m & ki & ess & lft' & rgt' & Hm & _ & Hk & Hb & Hc & _ & _ & _ & Hp).
  destruct (decide (j = Z.of_nat l)) as [->|]; [|apply (IH _ _ _ _ _ Hp); lia].
  pose proof (aget_lt _ _ _ Hc) as Hr. rewrite (bn_len _ _ _ _ _ _ _ Hb) in Hr.
  exists m, ki. split_and!; auto; apply Hb || lia.
Qed.

(** Each page of the path is the child at the index of the page above it, and
    the path goes down one level of the tree with each page. *)
Lemma path_child (l : nat) (c : cursor) : forall h top lft cur rgt,
  path get md_cmp D ord root H es0 l c h top lft cur rgt -> aget (mc_pg c) (Z.of_nat l) = Some top -> forall j, 0 <= j < Z.of_nat l ->
  exists m ki child, aget (mc_pg c) j = Some m /\ p_branch m = true /\ aget (mc_ki c) j = Some ki /\
    get (n_pgno m ki) = Some child /\ aget (mc_pg c) (j + 1) = Some child.
Proof.
  induction l as [|l IH]; intros h top lft cur rgt Hp Htop j Hj; [lia|].
  destruct Hp as (m & ki & ess & lft' & rgt' & Hm & _ & Hk & Hb & _ & _ & _ & Hgt & Hp).
  destruct (decide (j = Z.of_nat l)) as [->|]; [|apply (IH _ _ _ _ _ Hp Hm); lia].
  exists m, ki, top. split_and!; auto; [apply Hb|]. by replace (Z.of_nat l + 1) with (Z.of_nat (S l)) by lia.
Qed.

Lemma path_depth (l : nat) (c : cursor) : forall h top lft cur rgt,
  path get md_cmp D ord root H es0 l c h top lft cur rgt -> (l + h)%nat = H.
Proof.
  induction l as [|l IH]; intros h top lft cur rgt Hp; [by destruct Hp as [-> _]|].
  destruct Hp as (m & ki & ess & lft' & rgt' & _ & _ & _ & _ & _ & _ & _ & _ & Hp). apply IH in Hp. lia.
Qed.

(** Nothing is to the right when every level is at its last child. *)
Lemma path_last (l : nat) (c : cursor) : forall h top lft cur rgt,
  path get md_cmp D ord root H es0 l c h top lft cur rgt ->
  (forall j m ki, 0 <= j < Z.of_nat l -> aget (mc_pg c) j = Some m -> aget (mc_ki c) j = Some ki ->
     p_num m - 1 <= ki) -> rgt = [].
Proof.
  induction l as [|l IH]; intros h top lft cur rgt Hp Hall; [by destruct Hp as (_ & _ & -> & _)|].
  destruct Hp as (m & ki & ess & lft' & rgt' & Hm & _ & Hk & Hb & Hc & _ & -> & _ & Hp).
  pose proof (Hall (Z.of_nat l) m ki ltac:(lia) Hm Hk) as Hki. pose proof (bn_len _ _ _ _ _ _ _ Hb).
  rewrite (drop_ge ess) by (unfold zlen in *; lia).
  rewrite (IH _ _ _ _ _ Hp); [done|]. intros j m' ki' Hj. apply Hall. lia.
Qed.

Lemma no_right_ok (c : cursor) (h : nat) (top : list Z) (lft cur rgt : items) (fuel : nat) : forall i,
  path get md_cmp D ord root H es0 (Z.to_nat (mc_top c)) c h top lft cur rgt -> 0 <= mc_top c ->
  0 <= i <= mc_top c -> mc_top c - i <= Z.of_nat fuel ->
  (forall j m ki, 0 <= j < i -> aget (mc_pg c) j = Some m -> aget (mc_ki c) j = Some ki -> p_num m - 1 <= ki) ->
  exists b, no_right fuel c i = Some b /\ (b = true -> rgt = []) /\ (b = false -> mc_top c <> 0).
Proof.
  induction fuel as [|fuel IH]; intros i Hp Ht Hi Hf Hall; cbn [no_right];
    (destruct (Z.ltb_spec i (mc_top c)) as [Hlt|]; cycle 1;
     [exists true; split_and!; try done; intros _; apply (path_last _ _ _ _ _ _ _ Hp);
      intros j m ki Hj; apply Hall; lia|]); [lia|].
  destruct (path_level _ _ _ _ _ _ _ Hp i ltac:(lia)) as (m & ki & Hm & Hwf & Hn & Hk & Hkr).
  pose proof (p_num_small m Hwf). rewrite Hm. cbn [mbind option_bind]. rewrite NUMKEYS_ok by done.
  cbn [mbind option_bind]. rewrite Hk. cbn [mbind option_bind]. rewrite uwrap_small by lia.
  destruct (Z.ltb_spec ki (p_num m - 1)); [exists false; split_and!; [done|done|lia]|].
  apply IH; auto; try lia. intros j m' ki' Hj Hm' Hk'.
  destruct (decide (j = i)) as [->|]; [|apply (Hall j); auto; lia].
  assert (m' = m) as -> by congruence. assert (ki' = ki) as -> by congruence. lia.
Qed.

(** Comparing a key with those of a leaf page. *)
Lemma leaf_cmp (m : list Z) (cur : items) (key : MDB_val) (j : Z) (e : MDB_val * MDB_val) :
  leaf_tree m cur -> D key -> aget cur j = Some e ->
  slot_key md_pad m j = Some e.1 /\
  exists r, run_cmp md_cmp key e.1 = Some r /\ Z.sgn r = Z.sgn (ord key e.1).
Proof.
  intros Hleaf Dk Hg. destruct (leaf_item m cur j e Hleaf Hg) as (Hj & -> & _).
  pose proof Hleaf as (Hwf & Hl & Hb & (c1 & KO & Hc & Hord & HD & _) & _). split.
  - pose proof (IS_LEAF2_ok m Hwf) as Hl2. unfold IS_LEAF2 in Hl2. unfold slot_key.
    destruct (mp_flags m) as [fl|]; [|done]. cbn [mbind option_bind] in *. injection Hl2 as Hl2.
    unfold F_ISSET in Hl2. replace (nz (Z.land fl P_LEAF2)) with false.
    + by apply node_key_ok.
    + unfold nz. symmetry. apply negb_false_iff, Z.eqb_eq. apply Z.eqb_neq in Hl2.
      change P_LEAF2 with (2 ^ 5) in *. apply Z.bits_inj'. intros n Hn. rewrite Z.bits_0.
      destruct (Z.testbit (Z.land fl (2 ^ 5)) n) eqn:Hbit; [|done]. exfalso. apply Hl2.
      rewrite Z.land_spec, Z.pow2_bits_eqb in Hbit by lia. apply andb_true_iff in Hbit as [Hbit <-%Z.eqb_eq].
      apply Z.bits_inj'. intros k Hk. rewrite Z.land_spec, Z.pow2_bits_eqb by lia.
      destruct (Z.eqb_spec 5 k) as [<-|]; [by rewrite Hbit|apply andb_false_r].
  - assert (c1 = md_cmp) as ->.
    { unfold eff_cmp in Hc. rewrite IS_BRANCH_ok, Hb in Hc by done. cbn [mbind option_bind] in Hc.
      rewrite andb_false_r in Hc. by injection Hc. }
    rewrite <- Hord. apply ko_run; [done|]. apply HD. unfold first_key. rewrite Hl. lia.
Qed.

(** ** Keys before and after an item *)

Lemma around (i : nat) (e : MDB_val * MDB_val) : tree_db -> es0 !! i = Some e ->
  Forall (fun x => key_lt x e) (take i es0) /\ Forall (fun x => key_lt e x) (drop (S i) es0).
Proof.
  intros Htr Hi. pose proof (tree_sorted _ _ _ (db_tree _ _ _ _ _ _ _ _ Htr)) as Hs.
  rewrite <- (take_drop_middle _ _ _ Hi) in Hs. apply StronglySorted_app in Hs as (Hx & _ & Hs).
  apply StronglySorted_inv in Hs as [_ Hs]. split; [|done].
  apply Forall_forall. intros x Hin. apply Hx; [done|]. left.
Qed.

Lemma key_gt_item (i : nat) (e : MDB_val * MDB_val) (key : MDB_val) : tree_db -> order_laws ->
  es0 !! i = Some e -> D e.1 -> D key -> ord e.1 key < 0 -> all_lt D ord (take (S i) es0) key.
Proof.
  intros Htr O Hi De Dk Hlt. destruct (around i e Htr Hi) as [Hb _].
  rewrite (take_S_r _ _ _ Hi). apply Forall_app. split; [|by repeat constructor].
  apply (Forall_impl _ _ _ Hb). intros x (Dx & _ & Hx). split; [done|]. by apply (ol_trans _ _ O _ e.1).
Qed.

Lemma key_lt_item (i : nat) (e : MDB_val * MDB_val) (key : MDB_val) : tree_db -> order_laws ->
  es0 !! i = Some e -> D e.1 -> D key -> ord key e.1 < 0 -> all_gt D ord (drop i es0) key.
Proof.
  intros Htr O Hi De Dk Hlt. destruct (around i e Htr Hi) as [_ Ha].
  rewrite (drop_S _ _ _ Hi). constructor; [done|].
  apply (Forall_impl _ _ _ Ha). intros x (_ & Dx & Hx). split; [done|]. by apply (ol_trans _ _ O _ e.1).
Qed.

Lemma key_eq_item (i : nat) (e : MDB_val * MDB_val) : tree_db -> es0 !! i = Some e ->
  all_lt D ord (take i es0) e.1 /\ all_gt D ord (drop (S i) es0) e.1.
Proof.
  intros Htr Hi. destruct (around i e Htr Hi) as [Hb Ha].
  split; [apply (Forall_impl _ _ _ Hb)|apply (Forall_impl _ _ _ Ha)]; intros x (? & ? & ?); done.
Qed.

Lemma take_mid (lft cur rgt : items) (p : Z) : 0 <= p <= zlen cur ->
  take (length lft + Z.to_nat p) (lft ++ cur ++ rgt) = lft ++ take (Z.to_nat p) cur /\
  drop (length lft + Z.to_nat p) (lft ++ cur ++ rgt) = drop (Z.to_nat p) cur ++ rgt.
Proof.
  intros Hp. unfold zlen in Hp. rewrite take_app_add, drop_app_add, take_app_le, drop_app_le by lia. done.
Qed.

Lemma all_gt_not_lt (es : items) (key : MDB_val) : order_laws -> D key -> all_gt D ord es key ->
  Forall (fun e => D e.1 /\ ~ ord e.1 key < 0) es.
Proof.
  intros O Dk Hgt. apply (Forall_impl _ _ _ Hgt). intros e [De Hx]. split; [done|].
  apply (ol_anti _ _ O key e.1 Dk De) in Hx. lia.
Qed.

Lemma absent (l1 l2 : items) (key d : MDB_val) : order_laws -> D key -> all_lt D ord l1 key ->
  all_gt D ord l2 key -> (key, d) ∉ l1 ++ l2.
Proof.
  intros O Dk H1 H2 [Hin|Hin]%elem_of_app; pose proof (proj2 (ol_eq _ _ O key key Dk Dk) eq_refl) as E.
  - destruct (proj1 (Forall_forall _ _) H1 _ Hin) as [_ Hx]. cbn in Hx. lia.
  - destruct (proj1 (Forall_forall _ _) H2 _ Hin) as [_ Hx]. cbn in Hx. lia.
Qed.

(** A cursor on a leaf, and a key to look for. *)
Section SetOp.
Context (op : MDB_cursor_op) (key : MDB_val) (c : cursor) (a : acursor) (m : list Z)
  (lft cur rgt : items) (ki : Z).
Hypothesis Hcall : set_call op key.
Hypothesis Hset : settled c a m lft cur rgt ki.

Let Htr : tree_db := settled_db _ _ _ _ _ _ _ Hset.
Let Hes : es0 = lft ++ cur ++ rgt := settled_items _ _ _ _ _ _ _ Hset.
Let Hloc : located c 0 m lft cur rgt := se_loc _ _ _ _ _ _ _ Hset.

Lemma leaf_laws : order_laws.
Proof. pose proof (loc_tree _ _ _ _ _ _ _ _ _ _ _ _ _ Hloc) as (_ & _ & _ & Ho & _). by eapply page_order_laws. Qed.

Lemma leaf_key (j : Z) (e : MDB_val * MDB_val) : aget cur j = Some e ->
  es0 !! (length lft + Z.to_nat j)%nat = Some e /\ D e.1.
Proof.
  intros Hg. split; [rewrite Hes; by apply lookup_mid|].
  pose proof (loc_tree _ _ _ _ _ _ _ _ _ _ _ _ _ Hloc) as Hleaf.
  destruct (leaf_item m cur j e Hleaf Hg) as (Hj & -> & _).
  destruct Hleaf as (_ & Hl & _ & (c1 & KO & _ & _ & HD & _) & _). apply HD. unfold first_key. rewrite Hl. lia.
Qed.

(** The key is that of item [j]: the search is over. *)
Lemma set_hit (j : Z) (e : MDB_val * MDB_val) (c' : cursor) : aget cur j = Some e -> ord key e.1 = 0 ->
  located c' 0 m lft cur rgt -> top_ki c' = Some j -> mc_flags c' = mc_flags c -> mt_flags c' = mt_flags c ->
  implements a op (Some key) (set1 get md_pad c' op true).
Proof.
  intros Hg Heq Hloc' Hki' Hf' Hm'. destruct (leaf_key j e Hg) as [Hi De].
  pose proof leaf_laws as O. pose proof (sc_key _ _ Hcall) as Dk. apply (ol_eq _ _ O) in Heq as ->; try done.
  pose proof (aget_lt _ _ _ Hg). destruct (key_eq_item _ e Htr Hi) as [Hlt Hgt].
  apply (set1_ok op e.1 a c' m lft cur rgt j (a_eof a)); auto.
  - by rewrite Hf', (se_flags _ _ _ _ _ _ _ Hset).
  - by rewrite Hm', (se_mt _ _ _ _ _ _ _ Hset).
  - destruct (take_mid lft cur rgt j ltac:(lia)) as [Et Ed]. rewrite Hes, Et in Hlt. split; [done|].
    rewrite <- Ed, <- Hes, (drop_S _ _ _ Hi). constructor; [|by apply all_gt_not_lt].
    split; [done|]. rewrite (proj2 (ol_eq _ _ O e.1 e.1 Dk Dk) eq_refl). lia.
  - pose proof (sc_op _ _ Hcall) as Hop. unfold acceptable. rewrite Hg.
    destruct (is_set op) eqn:Es; [right|left; by destruct (is_range op)].
    split; [done|]. exists e.2. by destruct e.
Qed.

(** Putting the cursor on item [j] first. *)
Lemma set_hit_at (j : Z) (e : MDB_val * MDB_val) : aget cur j = Some e -> ord key e.1 = 0 ->
  implements a op (Some key) (c ← set_ki c j; set1 get md_pad c op true).
Proof.
  intros Hg Heq. pose proof (aget_lt _ _ _ Hg). destruct (leaf_checks _ _ _ _ _ Hloc) as (_ & _ & _ & Hlen & _).
  destruct (located_set_ki get md_cmp D ord root H es0 c 0 m lft cur rgt j Hloc)
    as (c2 & -> & Hloc2 & Hk2 & _ & Hf2 & Hm2); [lia|]. cbn [mbind option_bind].
  by apply (set_hit j e).
Qed.

Lemma set_again : implements a op (Some key) (set_search get md_cmp md_pad md_root c key op (want_exact op) true).
Proof.
  apply set_search_ok; auto; [by eapply located_usable|apply (se_mt _ _ _ _ _ _ _ Hset)|].
  right. exists (a_eof a). apply (se_flags _ _ _ _ _ _ _ Hset).
Qed.

(** The key is before the first item of the page. *)
Lemma set_before (e : MDB_val * MDB_val) : aget cur 0 = Some e -> ord key e.1 < 0 ->
  implements a op (Some key) (set_other get md_cmp md_pad md_root c key op (want_exact op) true).
Proof.
  intros Hg Hlt. unfold set_other, nz. destruct (Z.eqb_spec (mc_top c) 0) as [E0|]; cbn [negb]; [|apply set_again].
  destruct (top_level _ _ _ _ _ _ Hloc E0) as [El Er]. pose proof leaf_laws as O.
  pose proof (sc_key _ _ Hcall) as Dk. destruct (leaf_key 0 e Hg) as [Hi De].
  pose proof (aget_lt _ _ _ Hg). pose proof (key_lt_item _ e key Htr O Hi De Dk Hlt) as Hgt.
  destruct (located_set_ki get md_cmp D ord root H es0 c 0 m lft cur rgt 0 Hloc)
    as (c2 & -> & Hloc2 & Hk2 & _ & Hf2 & Hm2); [lia|]. cbn [mbind option_bind].
  rewrite (se_flags _ _ _ _ _ _ _ Hset) in Hf2. rewrite (se_mt _ _ _ _ _ _ _ Hset) in Hm2.
  assert (split_at lft cur rgt 0 key) as Hsplit.
  { rewrite El in *. cbn in Hgt. split; [constructor|]. cbn [Z.to_nat drop].
    apply all_gt_not_lt; auto. by rewrite Hes in Hgt. }
  pose proof (sc_op _ _ Hcall) as Hop. destruct (is_set op) eqn:Es.
  - assert (implements a op (Some key) (fail MDB_NOTFOUND c2)); [|by destruct op].
    apply (set_missed op key a c2 m lft cur rgt 0 (a_eof a)); auto; try lia.
    rewrite Es. intros d. rewrite El in Hgt. apply (absent [] es0 key d O Dk); [constructor|exact Hgt].
  - destruct op; try done. apply (set1_ok MDB_SET_RANGE key a c2 m lft cur rgt 0 (a_eof a)); auto; try lia.
    by left.
Qed.

(** The key is after the last item of the page. *)
Lemma set_after (e : MDB_val * MDB_val) : aget cur (zlen cur - 1) = Some e -> ord e.1 key < 0 ->
  implements a op (Some key)
    (none ← no_right 32 c 0;
     if none : bool then c ← set_ki c (zlen cur); fail MDB_NOTFOUND c
     else set_other get md_cmp md_pad md_root c key op (want_exact op) true).
Proof.
  intros Hg Hlt. pose proof (op_top _ _ (loc_page _ _ _ _ _ _ _ _ _ _ _ _ _ Hloc)).
  destruct (no_right_ok c 0 m lft cur rgt 32 0) as (b & -> & Hb1 & Hb2); try lia; [apply Hloc|].
  cbn [mbind option_bind]. destruct b; cycle 1.
  { unfold set_other, nz. rewrite (proj2 (Z.eqb_neq _ _)) by (by apply Hb2). apply set_again. }
  specialize (Hb1 eq_refl). pose proof leaf_laws as O. pose proof (sc_key _ _ Hcall) as Dk.
  destruct (leaf_key _ e Hg) as [Hi De]. pose proof (aget_lt _ _ _ Hg).
  pose proof (key_gt_item _ e key Htr O Hi De Dk Hlt) as Hall.
  replace (S (length lft + Z.to_nat (zlen cur - 1))) with (length lft + Z.to_nat (zlen cur))%nat in Hall by lia.
  destruct (take_mid lft cur rgt (zlen cur) ltac:(lia)) as [Et _].
  rewrite <- Hes in Et. rewrite Et in Hall.
  destruct (leaf_checks _ _ _ _ _ Hloc) as (_ & _ & _ & Hlen & _).
  destruct (located_set_ki get md_cmp D ord root H es0 c 0 m lft cur rgt (zlen cur) Hloc)
    as (c2 & -> & Hloc2 & Hk2 & _ & Hf2 & Hm2); [lia|]. cbn [mbind option_bind].
  rewrite (se_flags _ _ _ _ _ _ _ Hset) in Hf2. rewrite (se_mt _ _ _ _ _ _ _ Hset) in Hm2.
  assert (drop (Z.to_nat (zlen cur)) cur = []) as Ed by (apply drop_ge; unfold zlen; lia).
  apply (set_missed op key a c2 m lft cur rgt (zlen cur) (a_eof a)); auto; try lia.
  - split; [done|]. rewrite Ed, Hb1. constructor.
  - destruct (is_set op); [|done]. intros d. rewrite Hes, app_assoc, Hb1.
    rewrite take_ge in Hall by (unfold zlen; lia). apply (absent _ [] key d O Dk Hall). constructor.
Qed.

(** The key is between the first and the last item of the page. *)
Lemma set_inside (e e' : MDB_val * MDB_val) : aget cur 0 = Some e -> ord e.1 key < 0 ->
  aget cur (zlen cur - 1) = Some e' -> ord key e'.1 < 0 ->
  implements a op (Some key) (set2 get md_cmp md_pad c key op (want_exact op) true).
Proof.
  intros Hg Hlt Hg' Hgt. pose proof leaf_laws as O. pose proof (sc_key _ _ Hcall) as Dk.
  destruct (leaf_key _ e Hg) as [Hi De]. destruct (leaf_key _ e' Hg') as [Hi' De']. pose proof (aget_lt _ _ _ Hg').
  apply (set2_ok op key a c m lft cur rgt (a_eof a)); auto.
  - apply (se_flags _ _ _ _ _ _ _ Hset).
  - apply (se_mt _ _ _ _ _ _ _ Hset).
  - intros E. split; [by apply (se_eof _ _ _ _ _ _ _ Hset)|done].
  - pose proof (key_gt_item _ e key Htr O Hi De Dk Hlt) as Hall.
    replace (S (length lft + Z.to_nat 0)) with (length lft + Z.to_nat 1)%nat in Hall by lia.
    destruct (take_mid lft cur rgt 1 ltac:(lia)) as [Et _]. rewrite <- Hes in Et. rewrite Et in Hall.
    by apply Forall_app in Hall as [? _].
  - pose proof (key_lt_item _ e' key Htr O Hi' De' Dk Hgt) as Hall.
    destruct (take_mid lft cur rgt (zlen cur - 1) ltac:(lia)) as [_ Ed]. rewrite <- Hes in Ed. rewrite Ed in Hall.
    by apply Forall_app in Hall as [_ ?].
Qed.
End SetOp.

Lemma cursor_set_settled (op : MDB_cursor_op) (key : MDB_val) (c : cursor) (a : acursor) (m : list Z)
    (lft cur rgt : items) (ki : Z) : set_call op key -> settled c a m lft cur rgt ki ->
  implements a op (Some key) (mdb_cursor_set get md_cmp md_pad md_root c key op (want_exact op) true).
Proof.
  intros Hcall Hset. pose proof (se_loc _ _ _ _ _ _ _ Hset) as Hloc. pose proof (sc_key _ _ Hcall) as Dk.
  pose proof (loc_tree _ _ _ _ _ _ _ _ _ _ _ _ _ Hloc) as Hleaf.
  pose proof (leaf_laws c a m lft cur rgt ki Hset) as O.
  destruct (leaf_checks _ _ _ _ _ Hloc) as (Hpg & _ & Hn & Hlen & _).
  assert (forall j, 0 <= j < zlen cur -> exists e r, aget cur j = Some e /\ slot_key md_pad m j = Some e.1 /\
    run_cmp md_cmp key e.1 = Some r /\ Z.sgn r = Z.sgn (ord key e.1) /\ (0 < r -> ord e.1 key < 0)) as Hcmp.
  { intros j Hj. pose proof (aget_in cur j Hj) as Hg.
    destruct (leaf_cmp m cur key j _ Hleaf Dk Hg) as (Hs & r & Hr & Hsgn). exists (zn cur j), r.
    split_and!; auto. intros Hpos. destruct (leaf_key _ _ _ _ _ _ _ Hset j _ Hg) as [_ De].
    apply (ol_anti _ _ O _ _ De Dk). lia. }
  unfold mdb_cursor_set. rewrite (proj2 (Z.eqb_neq _ _)) by apply Hcall.
  rewrite (se_flags _ _ _ _ _ _ _ Hset), init_flag, Hpg. cbn [negb mbind option_bind]. rewrite Hn.
  cbn [mbind option_bind]. rewrite (proj2 (Z.eqb_neq _ _)) by lia.
  destruct (Hcmp 0 ltac:(lia)) as (e & r & Hg & -> & Hr & Hsgn & Hpos). cbn [mbind option_bind]. rewrite Hr.
  cbn [mbind option_bind]. destruct (Z.eqb_spec r 0) as [->|Hr0].
  { apply (set_hit_at op key c a m lft cur rgt ki Hcall Hset 0 e Hg). lia. }
  destruct (Z.ltb_spec 0 r) as [Hrp|Hrn]; cycle 1.
  { apply (set_before op key c a m lft cur rgt ki Hcall Hset e Hg). lia. }
  cbv zeta. destruct (Z.ltb_spec 1 (zlen cur)) as [Hmany|Hone]; cycle 1.
  { apply (set_after op key c a m lft cur rgt ki Hcall Hset e); [by replace (zlen cur - 1) with 0 by lia|auto]. }
  destruct (Hcmp (zlen cur - 1) ltac:(lia)) as (e' & r' & Hg' & -> & Hr' & Hsgn' & Hpos'). cbn [mbind option_bind].
  rewrite Hr'. cbn [mbind option_bind]. destruct (Z.eqb_spec r' 0) as [->|Hr0'].
  { apply (set_hit_at op key c a m lft cur rgt ki Hcall Hset _ e' Hg'). lia. }
  destruct (Z.ltb_spec r' 0) as [Hrn'|Hrp']; cycle 1.
  { apply (set_after op key c a m lft cur rgt ki Hcall Hset e' Hg'). apply Hpos'. lia. }
  assert (implements a op (Some key) (set2 get md_cmp md_pad c key op (want_exact op) true)) as Hin.
  { apply (set_inside op key c a m lft cur rgt ki Hcall Hset e e'); auto. lia. }
  rewrite (se_ki _ _ _ _ _ _ _ Hset). cbn [mbind option_bind]. pose proof (se_range _ _ _ _ _ _ _ Hset).
  destruct (Z.ltb_spec ki (zlen cur)); [|done].
  destruct (Hcmp ki ltac:(lia)) as (e2 & r2 & Hg2 & -> & Hr2 & Hsgn2 & _). cbn [mbind option_bind]. rewrite Hr2.
  cbn [mbind option_bind]. destruct (Z.eqb_spec r2 0) as [->|]; [|done].
  apply (set_hit op key c a m lft cur rgt ki Hcall Hset ki e2); auto; [lia|]. apply (se_ki _ _ _ _ _ _ _ Hset).
Qed.

(** ** The empty database *)

Lemma empty_search (c : cursor) (k : option MDB_val) (flags : Z) : md_root = P_INVALID -> mt_flags c = mt ->
  mdb_page_search get md_cmp md_pad md_root c k flags = Some (MDB_NOTFOUND, c).
Proof.
  intros E Hm. unfold mdb_page_search, F_ISSET. rewrite Hm, Htxn. change (0 =? MDB_TXN_ERROR) with false.
  cbv iota. by rewrite E.
Qed.

Lemma sim_empty (c : cursor) (a : acursor) : sim c a -> es0 = [] ->
  c = mdb_cursor_init mt /\ a = ACursor Fresh false.
Proof.
  intros [|c' a' m lft cur rgt ki Hs] E; [done|]. exfalso.
  pose proof (settled_items _ _ _ _ _ _ _ Hs) as Hes. rewrite E in Hes.
  pose proof (loc_some _ _ _ _ _ _ _ _ _ _ _ _ _ (se_loc _ _ _ _ _ _ _ Hs)).
  destruct lft; [|done]. by destruct cur.
Qed.

(** Every kind of operation that looks for an item finds none. *)
Lemma empty_fail (c : cursor) (a : acursor) : md_root = P_INVALID -> sim c a -> es0 = [] ->
  mdb_cursor_first get md_cmp md_pad md_root c true = fail MDB_NOTFOUND c /\
  mdb_cursor_last get md_cmp md_pad md_root c true = fail MDB_NOTFOUND c /\
  forall op key, set_call op key ->
    mdb_cursor_set get md_cmp md_pad md_root c key op (want_exact op) true = fail MDB_NOTFOUND c.
Proof.
  intros Hr Hsim E. destruct (sim_empty c a Hsim E) as [-> ->].
  unfold mdb_cursor_first, mdb_cursor_last, mdb_cursor_set, set_search. cbn [mdb_cursor_init mc_flags].
  rewrite !empty_search by done.
  split_and!; [done|done|]. intros op key [_ _ Hsz].
  by rewrite (proj2 (Z.eqb_neq (mv_size key) 0)), empty_search by done.
Qed.

(** ** Every operation *)

(** [mdb_cursor_get] clears [C_DEL], which is never set here. *)
Lemma sim_no_del (c : cursor) (a : acursor) : sim c a -> nz (Z.land (mc_flags c) C_DEL) = false.
Proof. intros [|c' a' m lft cur rgt ki []]; [done|]. rewrite se_flags0. apply del_flag. Qed.

Lemma sim_mt (c : cursor) (a : acursor) : sim c a -> mt_flags c = mt.
Proof. by intros [|c' a' m lft cur rgt ki []]. Qed.

Lemma implements_intro (a a' : acursor) (op : MDB_cursor_op) (k : option MDB_val) (r : outcome) :
  astep ord es0 a op k (outcome_result r) a' -> sim (o_cur r) a' -> implements a op k (Some r).
Proof. intros H1 H2. by exists r, a'. Qed.

Lemma clear_del (a : acursor) (op : MDB_cursor_op) (k : option MDB_val) (x : option outcome) :
  implements a op k x ->
  implements a op k (r ← x; let c := o_cur r in
    Some (Out (o_rc r) (o_key r) (o_data r)
      (if nz (Z.land (mc_flags c) C_DEL) then set_flags c (Z.lxor (mc_flags c) C_DEL) else c))).
Proof.
  intros (r & a' & -> & Hst & Hsim). cbn [mbind option_bind]. rewrite (sim_no_del _ _ Hsim).
  by apply (implements_intro a a').
Qed.

Lemma initialised (c : cursor) (a : acursor) : sim c a ->
  nz (Z.land (mc_flags c) C_INITIALIZED) = match a_pos a with Fresh => false | _ => true end.
Proof.
  intros [|c' a' m lft cur rgt ki []]; [done|]. rewrite se_flags0, init_flag, se_pos0. unfold pos_of.
  by destruct (ki <? zlen cur).
Qed.

Lemma settled_placed c a m lft cur rgt ki : settled c a m lft cur rgt ki ->
  match a_pos a with Fresh => false | _ => true end = true /\
  match a_pos a with Fresh => a | p => ACursor p true end = ACursor (a_pos a) true.
Proof. intros []. rewrite se_pos0. unfold pos_of. by destruct (ki <? zlen cur). Qed.

Lemma first_implements (c : cursor) (a : acursor) (k : option MDB_val) : sim c a ->
  implements a MDB_FIRST k (mdb_cursor_first get md_cmp md_pad md_root c true).
Proof.
  intros Hsim. destruct Hdb as [[E Hr]|Htr].
  - destruct (empty_fail c a Hr Hsim E) as (-> & _). by apply (implements_intro a a); [apply A_first_empty|].
  - destruct (cursor_first_found c a Hsim Htr) as (e & c' & He & Hsim' & ->).
    eapply implements_intro; [|exact Hsim']. by apply (A_first ord es0 a k e).
Qed.

Lemma last_implements (c : cursor) (a : acursor) (k : option MDB_val) : sim c a ->
  implements a MDB_LAST k (mdb_cursor_last get md_cmp md_pad md_root c true).
Proof.
  intros Hsim. destruct Hdb as [[E Hr]|Htr].
  - destruct (empty_fail c a Hr Hsim E) as (_ & -> & _). by apply (implements_intro a a); [apply A_last_empty|].
  - destruct (cursor_last_found c a Hsim Htr) as (e & c' & i & Hi & He & -> & m & lft & cur & rgt & ki & Hs).
    eapply implements_intro; [|by eapply sim_settled]. by apply (A_last ord es0 a k e).
Qed.

Lemma next_implements (c : cursor) (a : acursor) (op : MDB_cursor_op) (k : option MDB_val) :
  sim c a -> is_next op = true ->
  implements a op k (if negb (nz (Z.land (mc_flags c) C_INITIALIZED))
    then mdb_cursor_first get md_cmp md_pad md_root c true else mdb_cursor_next get md_pad c true).
Proof.
  intros Hsim Hop. rewrite (initialised c a Hsim). destruct Hsim as [|c a m lft cur rgt ki Hs].
  - cbn [a_pos negb]. pose proof sim_fresh as Hsim. destruct Hdb as [[E Hr]|Htr].
    + destruct (empty_fail _ _ Hr Hsim E) as (-> & _). eapply implements_intro; [|exact Hsim].
      apply (A_next_end ord es0 (ACursor Fresh false)); [done|]. right. by rewrite E.
    + destruct (cursor_first_found _ _ Hsim Htr) as (e & c' & He & Hsim' & ->).
      eapply implements_intro; [|exact Hsim']. by apply (A_next ord es0 _ op k e 0).
  - destruct (settled_placed _ _ _ _ _ _ _ Hs) as [-> Hend]. cbn [negb].
    assert (a_eof a = true \/ es0 !! next_pos (a_pos a) = None ->
      astep ord es0 a op k missing (ACursor (a_pos a) true)) as Hstop.
    { intros Hx. rewrite <- Hend. by apply A_next_end. }
    destruct (a_eof a) eqn:He.
    + unfold mdb_cursor_next. rewrite (se_flags _ _ _ _ _ _ _ Hs), eof_flag, He.
      eapply implements_intro; [apply Hstop; by left|]. eapply sim_settled.
      replace (ACursor (a_pos a) true) with a by (destruct a; cbn in *; congruence). exact Hs.
    + destruct (cursor_next_ok c a m lft cur rgt ki Hs He) as (r & a' & -> & Hsim' & Hres).
      destruct (es0 !! next_pos (a_pos a)) as [e|] eqn:Hl; destruct Hres as [Er ->];
        (eapply implements_intro; [rewrite Er|exact Hsim']).
      * by apply (A_next ord es0 a op k e).
      * apply Hstop. by right.
Qed.

Lemma prev_implements (c : cursor) (a : acursor) (op : MDB_cursor_op) (k : option MDB_val) :
  sim c a -> is_prev op = true ->
  implements a op k (if negb (nz (Z.land (mc_flags c) C_INITIALIZED)) then
      r ← mdb_cursor_last get md_cmp md_pad md_root c true;
      if nz (o_rc r) then Some r
      else ki ← top_ki (o_cur r); c ← set_ki (or_flag (o_cur r) C_INITIALIZED) (ki + 1);
        mdb_cursor_prev get md_pad c true
    else mdb_cursor_prev get md_pad c true).
Proof.
  intros Hsim Hop. rewrite (initialised c a Hsim). destruct Hsim as [|c a m lft cur rgt ki Hs].
  - cbn [a_pos negb]. pose proof sim_fresh as Hsim. destruct Hdb as [[E Hr]|Htr].
    + destruct (empty_fail _ _ Hr Hsim E) as (_ & -> & _). unfold fail. cbn [mbind option_bind o_rc].
      eapply implements_intro; [|exact Hsim].
      apply (A_prev_start ord es0 (ACursor Fresh false)); [done|]. cbn [a_pos prev_pos]. by rewrite E.
    + destruct (cursor_last_found _ _ Hsim Htr) as (e & c' & i & Hi & He & -> & m & lft & cur & rgt & ki & Hs).
      cbn [mbind option_bind o_rc o_cur]. change (nz MDB_SUCCESS) with false. cbv iota.
      pose proof Hs as [Hloc Hki Hr Hf Hm Heof Hp]. cbn [a_pos a_eof] in *. rewrite Hki. cbn [mbind option_bind].
      destruct (leaf_checks _ _ _ _ _ Hloc) as (_ & _ & _ & Hlen & _).
      assert (ki < zlen cur /\ i = (length lft + Z.to_nat ki)%nat) as [Hk Hik].
      { unfold pos_of in Hp. destruct (Z.ltb_spec ki (zlen cur)); [|done]. by injection Hp. }
      destruct (located_set_ki get md_cmp D ord root H es0 (or_flag c' C_INITIALIZED) 0 m lft cur rgt (ki + 1))
        as (c2 & -> & Hloc2 & Hk2 & _ & Hf2 & Hm2); [by apply located_flags|lia|]. cbn [mbind option_bind].
      destruct (cursor_prev_ok c2 m lft cur rgt (ki + 1) true) as (r & -> & Hres); auto; try lia.
      { rewrite Hf2. cbn. by rewrite Hf. }
      { rewrite Hm2. exact Hm. }
      destruct Hres as [[E _]|(e2 & i2 & Ei & Hl & Er & Hsim')]; [lia|].
      assert (i2 = i) as -> by lia. eapply implements_intro; [|exact Hsim']. rewrite Er.
      apply (A_prev ord es0 _ op k e2 i); auto. cbn [a_pos prev_pos]. rewrite Hi. by destruct es0.
  - pose proof Hs as [Hloc Hki Hr Hf Hm Heof Hp].
    destruct (settled_placed _ _ _ _ _ _ _ Hs) as [-> _]. cbn [negb].
    destruct (leaf_checks _ _ _ _ _ Hloc) as (_ & _ & _ & Hlen & _).
    destruct (cursor_prev_ok c m lft cur rgt ki (a_eof a)) as (r & -> & Hres); auto.
    assert (prev_pos es0 (a_pos a) = match (length lft + Z.to_nat ki)%nat with O => None | S i => Some i end) as Hpp.
    { rewrite Hp. unfold pos_of. destruct (Z.ltb_spec ki (zlen cur)); [done|]. cbn [prev_pos].
      replace (length lft + length cur)%nat with (length lft + Z.to_nat ki)%nat by (unfold zlen in *; lia). done. }
    destruct Hres as [(E & Er & Ec)|(e & i & Ei & Hl & Er & Hsim')].
    + eapply implements_intro; [rewrite Er; apply (A_prev_start ord es0 a); [done|by rewrite Hpp, E]|].
      rewrite Ec. by eapply sim_settled.
    + eapply implements_intro; [|exact Hsim']. rewrite Er. apply (A_prev ord es0 a op k e i); auto.
      by rewrite Hpp, Ei.
Qed.

Lemma current_implements (c : cursor) (a : acursor) (k : option MDB_val) : sim c a ->
  implements a MDB_GET_CURRENT k
    (if negb (nz (Z.land (mc_flags c) C_INITIALIZED)) then fail EINVAL c
     else
     mp ← top_pg c; nkeys ← NUMKEYS mp; ki ← top_ki c;
     if (nkeys =? 0) || (nkeys <=? ki) then c ← set_ki c nkeys; fail MDB_NOTFOUND c
     else
     leaf2 ← IS_LEAF2 mp;
     if leaf2 : bool then k ← LEAF2KEY mp ki md_pad; Some (Out MDB_SUCCESS (Some k) None c)
     else o ← mp_ptr mp ki; read_node get c mp o false true true).
Proof.
  intros Hsim. rewrite (initialised c a Hsim). destruct Hsim as [|c a m lft cur rgt ki Hs].
  { eapply implements_intro; [by apply A_current_fresh|apply sim_fresh]. }
  destruct (settled_placed _ _ _ _ _ _ _ Hs) as [-> _]. cbn [negb].
  pose proof Hs as [Hloc Hki Hr Hf Hm Heof Hp].
  destruct (leaf_checks _ _ _ _ _ Hloc) as (-> & _ & Hn & Hlen & Hl2). cbn [mbind option_bind].
  rewrite Hn. cbn [mbind option_bind]. rewrite Hki. cbn [mbind option_bind].
  rewrite (proj2 (Z.eqb_neq _ _)) by lia. cbn [orb]. unfold pos_of in Hp.
  destruct (Z.leb_spec (zlen cur) ki) as [Hk|Hk].
  - rewrite (proj2 (Z.ltb_ge _ _)) in Hp by lia. assert (ki = zlen cur) as -> by lia.
    destruct (located_set_ki get md_cmp D ord root H es0 c 0 m lft cur rgt (zlen cur) Hloc)
      as (c2 & -> & Hloc2 & Hk2 & _ & Hf2 & Hm2); [lia|]. cbn [mbind option_bind].
    eapply implements_intro; [by eapply A_current_gap|].
    apply (sim_settled _ _ m lft cur rgt (zlen cur)). cbn [o_cur]. split; auto; try congruence.
    unfold pos_of. by rewrite Z.ltb_irrefl.
  - rewrite (proj2 (Z.ltb_lt _ _)) in Hp by lia. rewrite Hl2. cbn [mbind option_bind].
    destruct (settle_on c m lft cur rgt ki (a_eof a)) as (e & i & Ei & Hg & Hi & Hs' & _); auto; try lia.
    pose proof (loc_tree _ _ _ _ _ _ _ _ _ _ _ _ _ Hloc) as Hleaf.
    destruct (leaf_read c m cur ki e false true Hleaf Hg) as [-> Hread]. cbn [mbind option_bind].
    rewrite Hread. apply (implements_intro a a); [|by eapply sim_settled].
    apply (A_current ord es0 a k i e); [congruence|done].
Qed.

(** A key handed to a search is one the comparator orders. *)
Definition key_ok (op : MDB_cursor_op) (k : option MDB_val) : Prop :=
  is_set op || is_range op = true -> forall key, k = Some key -> D key.

Lemma set_implements (c : cursor) (a : acursor) (op : MDB_cursor_op) (k : option MDB_val) :
  sim c a -> is_set op || is_range op = true -> key_ok op k ->
  implements a op k (match k with
    | None => fail EINVAL c
    | Some key => mdb_cursor_set get md_cmp md_pad md_root c key op (want_exact op) true
    end).
Proof.
  intros Hsim Hop Hk. destruct k as [key|]; cycle 1.
  { by eapply implements_intro; [apply A_no_key|]. }
  destruct (decide (mv_size key = 0)) as [Hz|Hz].
  { unfold mdb_cursor_set. rewrite (proj2 (Z.eqb_eq _ _)) by done.
    by eapply implements_intro; [apply A_empty_key|]. }
  assert (set_call op key) as Hcall by (split; auto; by apply Hk).
  destruct Hdb as [[E Hr]|Htr].
  - destruct (empty_fail c a Hr Hsim E) as (_ & _ & Hset). rewrite (Hset op key Hcall).
    apply (implements_intro a a); [|done].
    assert (missed ord es0 a key a) as Hmiss by (unfold missed; by rewrite E).
    destruct (is_set op) eqn:Es; [apply A_set_missed; auto; intros d; rewrite E; by intros ?%elem_of_nil|].
    destruct op; try done. apply A_range_missed; auto. by rewrite E.
  - destruct Hsim as [|c a m lft cur rgt ki Hs]; [|by eapply cursor_set_settled].
    unfold mdb_cursor_set. rewrite (proj2 (Z.eqb_neq _ _)) by done.
    apply set_search_ok; auto. apply init_usable.
Qed.

Lemma cursor_get_implements (c : cursor) (a : acursor) (op : MDB_cursor_op) (k : option MDB_val) :
  sim c a -> key_ok op k -> implements a op k (mdb_cursor_get get md_cmp md_pad md_root c k true op).
Proof.
  intros Hsim Hk. unfold mdb_cursor_get. rewrite (sim_mt c a Hsim), Htxn. change (nz 0) with false. cbv iota.
  apply clear_del.
  assert (forall rc, astep ord es0 a op k (error rc) a -> implements a op k (fail rc c)) as Herr.
  { intros rc Hst. by eapply implements_intro. }
  assert (forall o, op = o -> is_dup o = true -> implements a o k
    (fail (if negb true || negb (nz (Z.land (mc_flags c) C_INITIALIZED)) then EINVAL else MDB_INCOMPATIBLE) c)) as Hdup.
  { intros o -> Ho. cbn [negb orb]. rewrite (initialised c a Hsim). apply Herr.
    pose proof (A_dup ord es0 a o k Ho) as Hst. by destruct (a_pos a). }
  destruct op.
  - exact (first_implements c a k Hsim).
  - exact (Hdup MDB_FIRST_DUP eq_refl eq_refl).
  - apply Herr. exact (A_multi ord es0 a MDB_GET_BOTH k eq_refl).
  - apply Herr. exact (A_multi ord es0 a MDB_GET_BOTH_RANGE k eq_refl).
  - exact (current_implements c a k Hsim).
  - exact (Hdup MDB_GET_MULTIPLE eq_refl eq_refl).
  - exact (last_implements c a k Hsim).
  - exact (Hdup MDB_LAST_DUP eq_refl eq_refl).
  - exact (next_implements c a MDB_NEXT k Hsim eq_refl).
  - exact (next_implements c a MDB_NEXT_DUP k Hsim eq_refl).
  - apply Herr. exact (A_multi ord es0 a MDB_NEXT_MULTIPLE k eq_refl).
  - exact (next_implements c a MDB_NEXT_NODUP k Hsim eq_refl).
  - exact (prev_implements c a MDB_PREV k Hsim eq_refl).
  - exact (prev_implements c a MDB_PREV_DUP k Hsim eq_refl).
  - exact (prev_implements c a MDB_PREV_NODUP k Hsim eq_refl).
  - exact (set_implements c a MDB_SET k Hsim eq_refl Hk).
  - exact (set_implements c a MDB_SET_KEY k Hsim eq_refl Hk).
  - exact (set_implements c a MDB_SET_RANGE k Hsim eq_refl Hk).
Qed.

(** ** Sequences of operations *)

(** A client's calls of [mdb_cursor_get]: what each returns. *)
Fixpoint run_cursor (ops : list (MDB_cursor_op * option MDB_val)) (c : cursor) : option (list result) :=
  match ops with
  | [] => Some []
  | (op, k) :: ops =>
    r ← mdb_cursor_get get md_cmp md_pad md_root c k true op;
    rs ← run_cursor ops (o_cur r);
    Some (outcome_result r :: rs)
  end.

Definition ops_ok (ops : list (MDB_cursor_op * option MDB_val)) : Prop := Forall (fun o => key_ok o.1 o.2) ops.

Lemma run_implements (ops : list (MDB_cursor_op * option MDB_val)) : ops_ok ops -> forall c a, sim c a ->
  exists rs, run_cursor ops c = Some rs /\ atrace ord es0 a ops rs.
Proof.
  induction 1 as [|[op k] ops Hk _ IH]; intros c a Hsim; cbn [run_cursor]; [exists []; split; [done|constructor]|].
  destruct (cursor_get_implements c a op k Hsim Hk) as (r & a' & -> & Hst & Hsim'). cbn [mbind option_bind].
  destruct (IH _ _ Hsim') as (rs & -> & Htrace). cbn [mbind option_bind].
  eexists. split; [done|]. by econstructor.
Qed.

(** The cursors a client can hold. *)
Inductive reachable : cursor -> Prop :=
  | R_init : reachable (mdb_cursor_init mt)
  | R_step c op k r : reachable c -> key_ok op k ->
      mdb_cursor_get get md_cmp md_pad md_root c k true op = Some r -> reachable (o_cur r).

Lemma reachable_sim (c : cursor) : reachable c -> exists a, sim c a.
Proof.
  induction 1 as [|c op k r _ [a Hsim] Hk E]; [exists (ACursor Fresh false); constructor|].
  destruct (cursor_get_implements c a op k Hsim Hk) as (r' & a' & E' & _ & Hsim').
  assert (r' = r) as -> by congruence. by exists a'.
Qed.

(** The stack of a cursor is a path of the tree: the root page, below each
    branch page the child at its index (the page with the number that node
    has), and a leaf page at the depth of the tree; the indices are inside
    their pages (the one on the leaf may be just after the last item). *)
Record cursor_wf (c : cursor) : Prop := {
  wf_snum : mc_snum c = mc_top c + 1;
  wf_top : 0 <= mc_top c < CURSOR_STACK;
  wf_root : aget (mc_pg c) 0 = Some root;
  wf_flags : mc_flags c = C_INITIALIZED \/ mc_flags c = Z.lor C_INITIALIZED C_EOF;
  wf_branch j : 0 <= j < mc_top c -> exists m ki, aget (mc_pg c) j = Some m /\ page_wf m /\
    aget (mc_ki c) j = Some ki /\ 0 <= ki < p_num m;
  wf_child j : 0 <= j < mc_top c -> exists m ki child, aget (mc_pg c) j = Some m /\ p_branch m = true /\
    aget (mc_ki c) j = Some ki /\ get (n_pgno m ki) = Some child /\ aget (mc_pg c) (j + 1) = Some child;
  wf_height : mc_top c = Z.of_nat H;
  wf_leaf : exists m ki, aget (mc_pg c) (mc_top c) = Some m /\ page_wf m /\ p_leaf m = true /\
    aget (mc_ki c) (mc_top c) = Some ki /\ 0 <= ki <= p_num m
}.

Lemma settled_wf c a m lft cur rgt ki : settled c a m lft cur rgt ki -> cursor_wf c.
Proof.
  intros [Hloc Hki Hr Hf Hm _ _]. pose proof Hloc as [Hon Ht Hne Hp]. pose proof Ht as (Hwf & Hl & _).
  pose proof Hon as [? ? ? ? Hpg ?]. split; auto.
  - by eapply path_root.
  - rewrite Hf. unfold flags_of. destruct (a_eof a); auto.
  - intros j Hj. destruct (path_level _ _ _ _ _ _ _ Hp j ltac:(lia)) as (m' & ki' & ? & ? & _ & ? & ?). eauto 10.
  - intros j Hj. apply (path_child _ _ _ _ _ _ _ Hp); rewrite Z2Nat.id by lia; auto.
  - apply path_depth in Hp. lia.
  - exists m, ki. rewrite <- (leaf_num _ _ _ _ _ _ Ht). auto.
Qed.

(** ** Scans *)

(** The items in order, then [MDB_NOTFOUND] for ever. *)
Fixpoint scan_spec (n : nat) (es : items) : list result :=
  match n, es with
  | O, _ => []
  | S n, e :: es => found e :: scan_spec n es
  | S n, [] => missing :: scan_spec n []
  end.

Lemma atrace_next (n : nat) : forall a rs, atrace ord es0 a (repeat (MDB_NEXT, None) n) rs ->
  rs = scan_spec n (if a_eof a then [] else drop (next_pos (a_pos a)) es0).
Proof.
  induction n as [|n IH]; intros a rs Htr; inversion Htr as [|a0 op k r a' ops rs' Hst Htr' Ea Eo Er]; [done|].
  subst. apply IH in Htr' as ->.
  inversion Hst; subst; try done; cbn [a_eof a_pos next_pos].
  - rewrite H1, (drop_S _ _ _ H3). done.
  - assert ((if a_eof a then [] else drop (next_pos (a_pos a)) es0) = []) as ->.
    { destruct (a_eof a); [done|]. destruct H1 as [|Hn]; [done|]. by apply drop_ge, lookup_ge_None_1. }
    cbn [scan_spec]. do 2 f_equal. destruct (a_pos a) eqn:Hp; cbn [a_eof]; try done. rewrite Hp.
    destruct (a_eof a); [done|]. destruct H1 as [|Hn]; [done|]. by apply drop_ge, lookup_ge_None_1.
Qed.

(** The items before the position, the nearest first. *)
Definition before (p : apos) : items :=
  match p with Fresh => rev es0 | On i | Gap i => rev (take i es0) end.

Lemma atrace_prev (n : nat) : forall a rs, atrace ord es0 a (repeat (MDB_PREV, None) n) rs ->
  rs = scan_spec n (before (a_pos a)).
Proof.
  induction n as [|n IH]; intros a rs Htr; inversion Htr as [|a0 op k r a' ops rs' Hst Htr' Ea Eo Er]; [done|].
  subst. apply IH in Htr' as ->.
  inversion Hst; subst; try done; cbn [a_eof a_pos before].
  - match goal with Hl : es0 !! i = Some e |- _ => pose proof (take_S_r _ _ _ Hl) as Et; pose proof (lookup_lt_Some _ _ _ Hl) end.
    assert (before (a_pos a) = rev (take (S i) es0)) as ->.
    { unfold before. destruct (a_pos a) as [|[|j]|[|j]]; cbn [prev_pos] in *; try congruence.
      destruct es0 as [|e1 es1] eqn:E0; [done|]. rewrite take_ge; [done|].
      match goal with Hx : Some _ = Some i |- _ => injection Hx as <- end. cbn in *. lia. }
    rewrite Et, rev_app_distr. done.
  - assert (before (a_pos a') = []) as ->; [|done].
    unfold before. destruct (a_pos a') as [|[|j]|[|j]]; cbn [prev_pos] in *; try done.
    by destruct es0.
Qed.
End Sim.

(** C9: a cursor refines the abstract cursor on the sorted list of items of
    the database: for every sequence of calls of [mdb_cursor_get], with any
    operations and keys, on an empty or a well-formed database, every call
    returns (no undefined access, failed assertion or endless loop), and the
    return codes, keys and data are ones the abstract cursor allows. *)
Theorem cursor_refines (get : Z -> option (list Z)) (md_cmp : MDB_cmp_func) (md_pad md_root : Z)
    (D : MDB_val -> Prop) (ord : MDB_val -> MDB_val -> Z)
    (root : list Z) (h : nat) (es : list (MDB_val * MDB_val)) (mt : Z)
    (ops : list (MDB_cursor_op * option MDB_val)) :
  db_ok get md_cmp md_root D ord root h es -> Z.land mt MDB_TXN_ERROR = 0 -> ops_ok D ops ->
  exists rs, run_cursor get md_cmp md_pad md_root ops (mdb_cursor_init mt) = Some rs /\
    atrace ord es (ACursor Fresh false) ops rs.
Proof.
  intros Hdb Htxn Hops. apply (run_implements get md_cmp md_pad md_root D ord root h es mt Htxn Hdb ops Hops).
  constructor.
Qed.

Definition ops3 : list (MDB_cursor_op * option MDB_val) :=
  [(MDB_GET_CURRENT, None); (MDB_LAST, None); (MDB_PREV, None); (MDB_SET_RANGE, Some (Val 1 [7]));
   (MDB_SET, Some (Val 1 [10])); (MDB_NEXT, None); (MDB_NEXT, None)].

Lemma db3_ok : db_ok db3 cmp_memn 2 short lex_ord root64 1 items3.
Proof. right. split; [reflexivity|closed|apply tree_root64|done|lia]. Qed.

Lemma cursor_refines_witness :
  exists rs, run_cursor db3 cmp_memn 0 2 ops3 (mdb_cursor_init 0) = Some rs /\
    atrace lex_ord items3 (ACursor Fresh false) ops3 rs.
Proof.
  apply (cursor_refines db3 cmp_memn 0 2 short lex_ord root64 1 items3 0 ops3);
    [apply db3_ok|reflexivity|].
  repeat apply Forall_cons_2; try apply Forall_nil_2; intros Hop key E;
    first [discriminate E|injection E as <-; apply shortb_sound; reflexivity].
Defined.

(** The calls evaluated: a search that ends between two leaves, and the
    steps from there. *)
Example ops3_run : run_cursor db3 cmp_memn 0 2 ops3 (mdb_cursor_init 0) = Some
  [error EINVAL; found (Val 1 [20], Val 1 [77]); found (Val 1 [9], Val 1 [10]); found (Val 1 [9], Val 1 [10]);
   missing; found (Val 1 [20], Val 1 [77]); missing].
Proof. vm_compute. reflexivity. Qed.

(** C28: every cursor a client can reach from a new one by calls of
    [mdb_cursor_get] is new or well formed: its stack is a path of the tree
    from the root to a leaf, each page the child at the index of the page
    above it, within [CURSOR_STACK] levels, each index inside its page. *)
Theorem cursor_invariant (get : Z -> option (list Z)) (md_cmp : MDB_cmp_func) (md_pad md_root : Z)
    (D : MDB_val -> Prop) (ord : MDB_val -> MDB_val -> Z)
    (root : list Z) (h : nat) (es : list (MDB_val * MDB_val)) (mt : Z) (c : cursor) :
  db_ok get md_cmp md_root D ord root h es -> Z.land mt MDB_TXN_ERROR = 0 ->
  reachable get md_cmp md_pad md_root D mt c ->
  c = mdb_cursor_init mt \/ cursor_wf get root h c.
Proof.
  intros Hdb Htxn Hr.
  destruct (reachable_sim get md_cmp md_pad md_root D ord root h es mt Htxn Hdb c Hr)
    as [a [|c' a' m lft cur rgt ki Hs]]; [by left|right]. by eapply settled_wf.
Qed.

Definition moved3 : cursor :=
  match mdb_cursor_get db3 cmp_memn 0 2 (mdb_cursor_init 0) None true MDB_LAST with
  | Some r => o_cur r | None => mdb_cursor_init 0 end.

Lemma cursor_invariant_witness :
  reachable db3 cmp_memn 0 2 short 0 moved3 /\ (moved3 = mdb_cursor_init 0 \/ cursor_wf db3 root64 1 moved3).
Proof.
  assert (reachable db3 cmp_memn 0 2 short 0 moved3) as Hr.
  { destruct (mdb_cursor_get db3 cmp_memn 0 2 (mdb_cursor_init 0) None true MDB_LAST) as [r|] eqn:E;
      [|vm_compute in E; discriminate E].
    unfold moved3. rewrite E. by apply (R_step _ _ _ _ _ _ (mdb_cursor_init 0) MDB_LAST None r); [constructor| |]. }
  split; [exact Hr|].
  apply (cursor_invariant db3 cmp_memn 0 2 short lex_ord root64 1 items3 0 moved3);
    [apply db3_ok|reflexivity|exact Hr].
Defined.

(** C31: scanning a database with a fresh cursor returns every item exactly
    once and then [MDB_NOTFOUND] on every further call: in key order with
    [MDB_NEXT], in the reverse order with [MDB_PREV]. *)
Theorem cursor_scan_correct (get : Z -> option (list Z)) (md_cmp : MDB_cmp_func) (md_pad md_root : Z)
    (D : MDB_val -> Prop) (ord : MDB_val -> MDB_val -> Z)
    (root : list Z) (h : nat) (es : list (MDB_val * MDB_val)) (mt : Z) (n : nat) :
  db_ok get md_cmp md_root D ord root h es -> Z.land mt MDB_TXN_ERROR = 0 ->
  run_cursor get md_cmp md_pad md_root (repeat (MDB_NEXT, None) n) (mdb_cursor_init mt) = Some (scan_spec n es) /\
  run_cursor get md_cmp md_pad md_root (repeat (MDB_PREV, None) n) (mdb_cursor_init mt) =
    Some (scan_spec n (rev es)).
Proof.
  intros Hdb Htxn.
  assert (forall op, is_set op || is_range op = false -> ops_ok D (repeat (op, None) n)) as Hops.
  { intros op Ho. apply Forall_forall. intros x Hx. apply list_elem_of_In, repeat_spec in Hx as ->.
    intros ? key E. done. }
  pose proof (sim_fresh get md_cmp D ord root h es mt) as Hsim.
  split.
  - destruct (run_implements get md_cmp md_pad md_root D ord root h es mt Htxn Hdb _ (Hops MDB_NEXT eq_refl) _ _ Hsim)
      as (rs & -> & Ht). by apply atrace_next in Ht as ->.
  - destruct (run_implements get md_cmp md_pad md_root D ord root h es mt Htxn Hdb _ (Hops MDB_PREV eq_refl) _ _ Hsim)
      as (rs & -> & Ht). by apply atrace_prev in Ht as ->.
Qed.

Lemma cursor_scan_witness :
  run_cursor db3 cmp_memn 0 2 (repeat (MDB_NEXT, None) 5) (mdb_cursor_init 0) = Some (scan_spec 5 items3) /\
  run_cursor db3 cmp_memn 0 2 (repeat (MDB_PREV, None) 5) (mdb_cursor_init 0) = Some (scan_spec 5 (rev items3)).
Proof.
  apply (cursor_scan_correct db3 cmp_memn 0 2 short lex_ord root64 1 items3 0 5); [apply db3_ok|reflexivity].
Defined.

Example scan_db3 : scan_spec 5 items3 =
  [(0, Some (Val 1 [5]), Some (Val 2 [6; 7])); (0, Some (Val 1 [9]), Some (Val 1 [10]));
   (0, Some (Val 1 [20]), Some (Val 1 [77])); (MDB_NOTFOUND, None, None); (MDB_NOTFOUND, None, None)].
Proof. reflexivity. Qed.
