(* ===== verification/PageAlloc.v ===== *)
(** * Allocating pages ([mdb_page_alloc], [src/LegacyDatabase/mdb.c])

    Where a write transaction gets page numbers from: its loose pages, the
    pages freed by old transactions (records of the free-page database, read
    as they are needed and merged into [me_pghead]), or the end of the map.
    The cursor on the free-page database is an interface, [FreeReader], that
    [FreeDb] implements with the cursors of [Cursor].  [None] is an access
    outside of a list, a failed assertion or the overflow of an [int]. *)
From S2P Require Import Prelude.
From S2P Require Import Bytes.
From S2P Require Import Midl.
From S2P Require Import Page.
From S2P Require Import Cmp.
From S2P Require Import Cursor.
From S2P Require Import PageList.
From Stdlib Require Import ZArith Lia Sorted.
From stdpp Require Import base numbers option list sorting.
Open Scope Z_scope.

Definition MDB_TXN_FULL : Z := -30788.
Definition MDB_MAP_FULL : Z := -30792.

(** What [mdb_page_alloc] changes in the transaction and the environment. *)
Record alloc_state := AllocState {
  a_loose_pgs : list Z;
  a_loose_count : Z;
  a_dirty : list MDB_ID2;
  mt_dirty_room : Z;
  a_pghead : option midl;
  me_pglast : Z;
  me_pgoldest : Z;
  mt_next_pgno : Z;
  a_mt_flags : Z
}.

Definition set_head (st : alloc_state) (h : option midl) (pglast : Z) : alloc_state :=
  AllocState (a_loose_pgs st) (a_loose_count st) (a_dirty st) (mt_dirty_room st) h pglast
    (me_pgoldest st) (mt_next_pgno st) (a_mt_flags st).
Definition set_oldest (st : alloc_state) (o : Z) : alloc_state :=
  AllocState (a_loose_pgs st) (a_loose_count st) (a_dirty st) (mt_dirty_room st) (a_pghead st) (me_pglast st)
    o (mt_next_pgno st) (a_mt_flags st).
Definition set_error (st : alloc_state) : alloc_state :=
  AllocState (a_loose_pgs st) (a_loose_count st) (a_dirty st) (mt_dirty_room st) (a_pghead st) (me_pglast st)
    (me_pgoldest st) (mt_next_pgno st) (Z.lor (a_mt_flags st) MDB_TXN_ERROR).

(** A loose page, with the number it has; pages at [np], the first with the
    number [pgno]; or a return code. *)
Inductive page_alloc :=
  | LoosePage (np : Z)
  | NewPages (np pgno : Z)
  | NoPages (rc : Z).

(** How the search for free pages ends: [goto search_done], the end of the
    loop, [goto fail] and [return rc]. *)
Inductive search_end :=
  | SearchDone (i pgno : Z)
  | UseMap
  | SearchFail (rc : Z)
  | SearchReturn (rc : Z).

(** The 8-byte integers of a data item. *)
Definition words (v : MDB_val) : list Z :=
  (fun k => le_val (slice (mv_data v) (8 * k) 8)) <$> seqZ 0 (mv_size v / 8).

Section Alloc.
Variable junk : nat -> Z.

(** ** The free list *)

(** [do { pgno = mop[i]; if (mop[i-n2] == pgno+n2) goto search_done; } while (--i > n2);];
    [k] is [i - n2]. *)
Fixpoint scan_head (k : nat) (mop : list Z) (i n2 : Z) : option (option (Z * Z)) :=
  match k with
  | O => Some None
  | S k =>
    pgno ← aget mop i;
    x ← aget mop (i - n2);
    if x =? u64 (pgno + n2) then Some (Some (i, pgno)) else scan_head k mop (i - 1) n2
  end.

(** [mop_len > n2] and the loop above; [None] as the result when there is no
    list of that length. *)
Definition head_search (h : option midl) (n2 : Z) : option (Z * option (Z * Z)) :=
  match h with
  | None => Some (0, None)
  | Some h =>
    c0 ← aget (cells h) 0;
    let mop_len := u32 c0 in
    r ← (if n2 <? mop_len then scan_head (Z.to_nat (mop_len - n2)) (cells h) mop_len n2 else Some None);
    Some (mop_len, r)
  end.

(** [for (j = i-num; j < mop_len; ) mop[++j] = mop[++i];]; [n] is [mop_len - j]. *)
Fixpoint close_gap (n : nat) (mop : list Z) (j i : Z) : option (list Z) :=
  match n with
  | O => Some mop
  | S n => x ← aget mop (i + 1); mop ← aset mop (j + 1) x; close_gap n mop (j + 1) (i + 1)
  end.

(** [mop[0] = mop_len -= num;] and the loop above. *)
Definition take_pages (h : midl) (mop_len num i : Z) : option midl :=
  let mop_len := u32 (mop_len - num) in
  mop ← aset (cells h) 0 mop_len;
  let j := u32 (i - num) in
  mop ← close_gap (Z.to_nat (mop_len - j)) mop j i;
  Some (Midl (alloclen h) mop).

(** A record of the free-page database goes into [me_pghead]. *)
Definition add_record (mem_ok : bool) (st : alloc_state) (last : Z) (idl : list Z) : option (Z * alloc_state) :=
  i ← aget idl 0;
  let i := u32 i in
  r ← (match a_pghead st with
       | None => match mdb_midl_alloc junk mem_ok i with
                 | Some h => Some (0, Some h) | None => Some (ENOMEM, None) end
       | Some h => '(rc, h) ← mdb_midl_need junk mem_ok h i; Some (rc, Some h)
       end);
  match r with
  | (0, Some h) =>
    mop ← mdb_midl_xmerge (cells h) idl;
    Some (0, set_head st (Some (Midl (alloclen h) mop)) last)
  | (rc, h) => Some (rc, set_head st h (me_pglast st))
  end.

(** ** Reading the free-page database *)

(** The transaction, the readers, and the cursor [m2] on the free-page
    database with what the code does with it: initialise it, get a record's
    key, read the data of the record it is on.  [mem_ok] tells whether memory
    can be had for the record of a transaction. *)
Variables (mt_txnid : Z) (readers : option (list MDB_reader * Z)).
Variable (fcursor : Type) (m2_init : fcursor).
Variable fget : fcursor -> option MDB_val -> MDB_cursor_op -> option (Z * option MDB_val * fcursor).
Variable fread : fcursor -> option (MDB_val + Z).
Variable mem_ok : Z -> bool.

(** [if (oldest <= last) { if (!found_old) { ... } if (oldest <= last) break; }]:
    whether the record of [last] is too recent. *)
Definition too_recent (st : alloc_state) (oldest last : Z) (found_old : bool) : option (bool * Z * bool * alloc_state) :=
  if last <? oldest then Some (false, oldest, found_old, st)
  else if found_old then Some (true, oldest, found_old, st)
  else
    o ← mdb_find_oldest mt_txnid readers;
    Some (o <=? last, o, true, set_oldest st o).

(** The loop; [op], [last], [oldest], [found_old] and [m2] as in the code,
    [first] before the first record. *)
Fixpoint alloc_loop (fuel : nat) (n2 : Z) (st : alloc_state) (first : bool) (m2 : fcursor) (retry oldest last : Z)
    (found_old : bool) : option (search_end * alloc_state) :=
  match fuel with
  | O => None
  | S fuel =>
    '(mop_len, r) ← head_search (a_pghead st) n2;
    match r with
    | Some (i, pgno) => Some (SearchDone i pgno, st)
    | None =>
      let retry := if n2 <? mop_len then retry - 1 else retry in
      if retry <? 0 then Some (UseMap, st)
      else
      let last := if first then me_pglast st else last in
      let oldest := if first then me_pgoldest st else oldest in
      let op := if first then if nz last then MDB_SET_RANGE else MDB_FIRST else MDB_NEXT in
      let last := u64 (last + 1) in
      '(stop, oldest, found_old, st) ← too_recent st oldest last found_old;
      if stop : bool then Some (UseMap, st)
      else
      '(rc, key, m2) ← fget m2 (if first && nz (me_pglast st) then Some (Val 8 (le_bytes 8 last)) else None) op;
      if nz rc then Some (if rc =? MDB_NOTFOUND then UseMap else SearchFail rc, st)
      else
      k ← key;
      bs ← bread (mv_data k) 0 8;
      let last := le_val bs in
      '(stop, oldest, found_old, st) ← too_recent st oldest last found_old;
      if stop : bool then Some (UseMap, st)
      else
      d ← fread m2;
      match d with
      | inr rc => Some (SearchReturn rc, st)
      | inl data =>
        '(rc, st) ← add_record (mem_ok last) st last (words data);
        if nz rc then Some (SearchFail rc, st)
        else alloc_loop fuel n2 st false m2 retry oldest last found_old
      end
    end
  end.

(** ** mdb_page_alloc *)

(** Where the memory is ([me_map] with [MDB_WRITEMAP]), how much of it. *)
Variables (me_flags me_map me_psize me_maxpg : Z).

(** Label [search_done]: [malloc] is the memory of [mdb_page_malloc]. *)
Definition alloc_done (malloc : option Z) (num : Z) (st : alloc_state) (i pgno : Z) : option (page_alloc * alloc_state) :=
  match (if nz (Z.land me_flags MDB_WRITEMAP) then Some (u64 (me_map + me_psize * pgno)) else malloc) with
  | None => Some (NoPages ENOMEM, set_error st)
  | Some np =>
    '(head, next) ← (if nz i then
        h ← a_pghead st;
        c0 ← aget (cells h) 0;
        h ← take_pages h (u32 c0) num i;
        Some (Some h, mt_next_pgno st)
      else Some (a_pghead st, u64 (pgno + num)));
    '(dl, room) ← mdb_page_dirty me_flags (a_dirty st) (mt_dirty_room st) pgno np;
    Some (NewPages np pgno,
          AllocState (a_loose_pgs st) (a_loose_count st) dl room head (me_pglast st) (me_pgoldest st) next (a_mt_flags st))
  end.

Definition alloc_new (fuel : nat) (malloc : option Z) (num : Z) (st : alloc_state) : option (page_alloc * alloc_state) :=
  if 2 ^ 31 <=? num * 60 then None (* [int retry = num * 60] *)
  else if mt_dirty_room st =? 0 then Some (NoPages MDB_TXN_FULL, set_error st)
  else
  '(r, st) ← alloc_loop fuel (num - 1) st true m2_init (num * 60) 0 0 false;
  match r with
  | SearchDone i pgno => alloc_done malloc num st i pgno
  | UseMap =>
    if me_maxpg <=? u64 (mt_next_pgno st + num) then Some (NoPages MDB_MAP_FULL, set_error st)
    else alloc_done malloc num st 0 (mt_next_pgno st)
  | SearchFail rc => Some (NoPages rc, set_error st)
  | SearchReturn rc => Some (NoPages rc, st)
  end.

Definition mdb_page_alloc (fuel : nat) (malloc : option Z) (num : Z) (st : alloc_state) : option (page_alloc * alloc_state) :=
  match a_loose_pgs st with
  | np :: loose =>
    if num =? 1 then
      Some (LoosePage np, AllocState loose (a_loose_count st - 1) (a_dirty st) (mt_dirty_room st) (a_pghead st)
                            (me_pglast st) (me_pgoldest st) (mt_next_pgno st) (a_mt_flags st))
    else alloc_new fuel malloc num st
  | [] => alloc_new fuel malloc num st
  end.
End Alloc.

(** ** Strictly descending lists and runs of page numbers *)

Definition desc_lt (l : list Z) : Prop := forall i j, 0 <= i -> i < j -> j < zlen l -> zn l j < zn l i.

(** The pages [p], ..., [p + n - 1] are all in the list. *)
Definition has_run (l : list Z) (p n : Z) : Prop := forall t, 0 <= t < n -> p + t ∈ l.

Lemma desc_lt_intro (l : list Z) : desc_le l -> NoDup l -> desc_lt l.
Proof.
  intros Hd Hn i j Hi Hij Hj. pose proof (Hd i j Hi Hij Hj). destruct (decide (zn l j = zn l i)) as [E|]; [|lia].
  exfalso. pose proof (aget_in l i ltac:(lia)) as Ei. pose proof (aget_in l j ltac:(lia)) as Ej. unfold aget in *.
  rewrite (proj2 (Z.leb_le 0 i)) in Ei by lia. rewrite (proj2 (Z.leb_le 0 j)) in Ej by lia. rewrite E in Ej.
  pose proof (NoDup_lookup _ _ _ _ Hn Ei Ej). lia.
Qed.

Lemma desc_gap (l : list Z) (i : Z) (n : nat) : desc_lt l -> 0 <= i -> i + Z.of_nat n < zlen l ->
  zn l (i + Z.of_nat n) <= zn l i - Z.of_nat n.
Proof.
  intros Hd Hi. induction n as [|n IH]; intros Hn; [rewrite Z.add_0_r; lia|].
  pose proof (Hd (i + Z.of_nat n) (i + Z.of_nat (S n)) ltac:(lia) ltac:(lia) Hn). lia.
Qed.

(** Between two members as far apart as their indices there is a run. *)
Lemma run_between (l : list Z) (i n t : Z) : desc_lt l -> 0 <= i - n -> i < zlen l -> zn l (i - n) = zn l i + n ->
  0 <= t <= n -> zn l (i - t) = zn l i + t.
Proof.
  intros Hd Hi Hl He Ht. pose proof (desc_gap l (i - n) (Z.to_nat (n - t)) Hd Hi) as H1.
  pose proof (desc_gap l (i - t) (Z.to_nat t) Hd) as H2. rewrite Z2Nat.id in * by lia.
  replace (i - n + (n - t)) with (i - t) in H1 by lia. replace (i - t + t) with i in H2 by lia. lia.
Qed.

(** A run is in the list in one piece. *)
Lemma run_place (l : list Z) (p : Z) (n : nat) : desc_lt l -> has_run l p (Z.of_nat n + 1) ->
  exists i, Z.of_nat n <= i < zlen l /\ zn l i = p /\ zn l (i - Z.of_nat n) = p + Z.of_nat n.
Proof.
  intros Hd. induction n as [|n IH]; intros Hr.
  - destruct (elem_zn l p) as (i & Hi & E); [rewrite <- (Z.add_0_r p); apply Hr; lia|].
    exists i. rewrite Z.sub_0_r, Z.add_0_r. auto.
  - destruct IH as (i & Hi & Ei & En); [intros t Ht; apply Hr; lia|]. exists i.
    destruct (elem_zn l (p + Z.of_nat (S n))) as (j & Hj & Ej); [apply Hr; lia|].
    assert (j = i - Z.of_nat (S n)) as ->; [|split; [|done]; lia].
    set (a := i - Z.of_nat n) in *.
    destruct (Z.lt_trichotomy j a) as [Hlt|[->|Hgt]]; [|lia|pose proof (Hd a j ltac:(lia) Hgt ltac:(lia)); lia].
    destruct (decide (j = a - 1)); [lia|].
    pose proof (Hd j (a - 1) ltac:(lia) ltac:(lia) ltac:(lia)). pose proof (Hd (a - 1) a ltac:(lia) ltac:(lia) ltac:(lia)). lia.
Qed.

(** ** The search of the free list *)

(** The free list [h] holds the page numbers [L]. *)
Record head_list (h : midl) (L : list Z) : Prop := {
  hl_wf : midl_wf h;
  hl_ids : midl_ids (cells h) = L;
  hl_desc : desc_lt L;
  hl_range : Forall (fun x => 0 <= x < 2 ^ 63) L
}.

Lemma hl_zn (h : midl) (L : list Z) (i : Z) : head_list h L -> 1 <= i <= zlen L -> zn (cells h) i = zn L (i - 1).
Proof.
  intros [(Hl & Hc & Hb) <- _ _] Hi. rewrite zlen_midl_ids in Hi by lia. rewrite zn_midl_ids by lia. f_equal. lia.
Qed.

Lemma hl_len (h : midl) (L : list Z) : head_list h L -> zn (cells h) 0 = zlen L.
Proof. intros [(Hl & Hc & Hb) <- _ _]. by rewrite zlen_midl_ids by lia. Qed.

Lemma hl_in (h : midl) (L : list Z) (i : Z) : head_list h L -> 0 <= i < zlen L -> 0 <= zn L i < 2 ^ 63.
Proof. intros [_ _ _ Hr] Hi. apply (proj1 (Forall_forall _ _) Hr), zn_elem. lia. Qed.

Lemma scan_head_ok (h : midl) (L : list Z) (n2 : Z) (k : nat) : head_list h L -> 0 <= n2 < 2 ^ 32 ->
  forall i, i = Z.of_nat k + n2 -> i <= zlen L ->
  exists r, scan_head k (cells h) i n2 = Some r /\
    match r with
    | Some (i', p) => n2 < i' <= i /\ zn L (i' - 1) = p /\ zn L (i' - 1 - n2) = p + n2
    | None => forall i', n2 < i' <= i -> zn L (i' - 1 - n2) <> zn L (i' - 1) + n2
    end.
Proof.
  intros Hh Hn. pose proof (hl_len _ _ Hh) as Hlen. pose proof Hh as [(Hl & Hc & Hb) _ _ _].
  induction k as [|k IH]; intros i -> Hi; cbn [scan_head]; [exists None; split; [done|]; intros; lia|].
  set (i := Z.of_nat (S k) + n2) in *.
  rewrite !aget_in by lia. cbn [mbind option_bind]. rewrite !(hl_zn h L) by (done || lia).
  pose proof (hl_in h L (i - 1) Hh ltac:(lia)). rewrite uwrap_small by lia.
  replace (i - n2 - 1) with (i - 1 - n2) by lia.
  destruct (Z.eqb_spec (zn L (i - 1 - n2)) (zn L (i - 1) + n2)).
  - eexists. split; [done|]. cbn. lia.
  - destruct (IH (i - 1) ltac:(lia) ltac:(lia)) as (r & E & Hr). exists r. split; [done|].
    destruct r as [[i' p]|]; [lia|]. intros i' Hi'. destruct (decide (i' = i)) as [->|]; [done|]. apply Hr. lia.
Qed.

(** The page numbers in [me_pghead]. *)
Definition head_ids (h : option midl) : list Z := match h with None => [] | Some h => midl_ids (cells h) end.
Definition head_ok (h : option midl) : Prop := match h with None => True | Some h => head_list h (midl_ids (cells h)) end.

Lemma head_search_ok (h : option midl) (n2 : Z) : head_ok h -> zlen (head_ids h) < 2 ^ 32 -> 0 <= n2 < 2 ^ 32 ->
  exists mop_len r, head_search h n2 = Some (mop_len, r) /\ mop_len = zlen (head_ids h) /\
    match r with
    | Some (i, p) => exists h', h = Some h' /\ n2 < i <= zlen (head_ids h) /\ zn (head_ids h) (i - 1) = p /\
        zn (head_ids h) (i - 1 - n2) = p + n2
    | None => forall p, ~ has_run (head_ids h) p (n2 + 1)
    end.
Proof.
  intros Hh Hlen Hn. destruct h as [h|]; cbn [head_search head_ids head_ok] in *; cycle 1.
  { exists 0, None. split_and!; auto. intros p Hr. specialize (Hr 0 ltac:(lia)). by apply not_elem_of_nil in Hr. }
  pose proof (hl_len _ _ Hh) as Hc. set (L := midl_ids (cells h)) in *. pose proof Hh as [(Hl & Hz & Hb) _ _ _].
  rewrite aget_in by lia. cbn [mbind option_bind]. rewrite Hc, uwrap_small by (pose proof (zlen_nonneg L); lia).
  assert (forall p, has_run L p (n2 + 1) -> exists i', n2 < i' <= zlen L /\ zn L (i' - 1 - n2) = zn L (i' - 1) + n2) as Hrun.
  { intros p Hr. rewrite <- (Z2Nat.id n2) in Hr by lia. destruct (run_place L p (Z.to_nat n2) (hl_desc _ _ Hh) Hr) as (i & Hi & E1 & E2).
    rewrite Z2Nat.id in * by lia. exists (i + 1). replace (i + 1 - 1) with i by lia. rewrite E1, E2. lia. }
  destruct (Z.ltb_spec n2 (zlen L)).
  - destruct (scan_head_ok h L n2 (Z.to_nat (zlen L - n2)) Hh Hn (zlen L)) as (r & -> & Hr); [lia|lia|].
    cbn [mbind option_bind]. exists (zlen L), r. split_and!; auto. destruct r as [[i p]|].
    + exists h. done.
    + intros p (i' & Hi' & E)%Hrun. by apply (Hr i').
  - exists (zlen L), None. split_and!; auto. intros p (i' & Hi' & E)%Hrun. lia.
Qed.

(** ** Taking a run out of the free list *)

Lemma close_gap_ok (n : nat) : forall (mop : list Z) (j i : Z), 0 <= j < i -> i + Z.of_nat n < zlen mop ->
  exists mop', close_gap n mop j i = Some mop' /\ zlen mop' = zlen mop /\
    (forall t, t <= j \/ j + Z.of_nat n < t -> zn mop' t = zn mop t) /\
    (forall t, j < t <= j + Z.of_nat n -> zn mop' t = zn mop (t + (i - j))).
Proof.
  induction n as [|n IH]; intros mop j i Hj Hi; cbn [close_gap].
  { exists mop. split_and!; auto. intros. lia. }
  rewrite aget_in by lia. cbn [mbind option_bind]. rewrite aset_in by lia. cbn [mbind option_bind].
  destruct (IH (zset mop (j + 1) (zn mop (i + 1))) (j + 1) (i + 1)) as (mop' & -> & Hl & Ho & Hm);
    [lia|rewrite zlen_zset; lia|].
  exists mop'. rewrite zlen_zset in Hl. split_and!; auto.
  - intros t Ht. rewrite Ho by lia. apply zn_zset_ne; lia.
  - intros t Ht. destruct (decide (t = j + 1)) as [->|].
    + rewrite Ho by lia. rewrite zn_zset_eq by lia. f_equal. lia.
    + rewrite Hm by lia. rewrite zn_zset_ne by lia. f_equal. lia.
Qed.

Lemma take_pages_ok (h : midl) (L : list Z) (num i : Z) : head_list h L -> zlen L < 2 ^ 31 -> 1 <= num <= i -> i <= zlen L ->
  zn L (i - 1 - (num - 1)) = zn L (i - 1) + (num - 1) ->
  exists h', take_pages h (zlen L) num i = Some h' /\
    head_list h' (take (Z.to_nat (i - num)) L ++ drop (Z.to_nat i) L) /\
    Permutation L ((take (Z.to_nat (i - num)) L ++ drop (Z.to_nat i) L) ++ seqZ (zn L (i - 1)) num).
Proof.
  intros Hh HL Hn Hi Hrun. pose proof (hl_len _ _ Hh) as Hc. pose proof Hh as [(Hl & Hz & Hb) Hids Hd Hr].
  assert (Permutation L ((take (Z.to_nat (i - num)) L ++ drop (Z.to_nat i) L) ++ seqZ (zn L (i - 1)) num)) as HP.
  { transitivity (take (Z.to_nat (i - num)) L ++ reverse (seqZ (zn L (i - 1)) num) ++ drop (Z.to_nat i) L).
    - match goal with |- Permutation ?a ?b => enough (a = b) as <- by done end. apply zlist_eq.
      + arr. unfold zlen at 2. rewrite length_reverse, length_seqZ. arr. lia.
      + intros t Ht. assert (zlen (reverse (seqZ (zn L (i - 1)) num)) = num) as Hzr
          by (unfold zlen; rewrite length_reverse, length_seqZ; lia).
        destruct (Z.ltb_spec t (i - num)); [by rewrite zn_app_l, zn_take by zlia|].
        rewrite zn_app_r by zlia. rewrite zlen_take by lia. destruct (Z.ltb_spec t i).
        * rewrite zn_app_l, zn_reverse_seqZ by lia.
          replace t with (i - 1 - (i - 1 - t)) at 1 by lia. rewrite (run_between L (i - 1) (num - 1)) by (auto; lia). lia.
        * rewrite zn_app_r, zn_drop by lia. f_equal. lia.
    - rewrite <- app_assoc. apply Permutation_app_head. rewrite Permutation_app_comm. apply Permutation_app_head.
      apply reverse_Permutation. }
  unfold take_pages. rewrite (uwrap_small 32 (zlen L - num)), uwrap_small by lia.
  rewrite aset_in by lia. cbn [mbind option_bind].
  replace (zlen L - num - (i - num)) with (zlen L - i) by lia.
  destruct (close_gap_ok (Z.to_nat (zlen L - i)) (zset (cells h) 0 (zlen L - num)) (i - num) i) as (m' & -> & Hl' & Ho & Hm);
    [lia|rewrite zlen_zset; lia|]. cbn [mbind option_bind]. rewrite zlen_zset in Hl'. rewrite Z2Nat.id in * by lia.
  eexists. split; [done|]. split; [|done].
  assert (zn m' 0 = zlen L - num) as H0 by (rewrite Ho, zn_zset_eq by lia; done).
  split; cbn [cells alloclen].
  - split_and!; cbn [cells alloclen]; lia.
  - apply zlist_eq.
    + rewrite zlen_midl_ids by lia. arr. lia.
    + intros t Ht. rewrite zlen_midl_ids in Ht by lia. rewrite zn_midl_ids by lia.
      destruct (Z.ltb_spec t (i - num)).
      * rewrite zn_app_l, zn_take by zlia. rewrite Ho, zn_zset_ne, (hl_zn h L) by (done || lia). f_equal. lia.
      * rewrite zn_app_r by zlia. arr. rewrite zn_drop by lia. rewrite Hm, zn_zset_ne, (hl_zn h L) by (done || lia). f_equal. lia.
  - intros a b Ha Hab Hb'. revert Hb'. arr. intros Hb'.
    assert (forall t, 0 <= t < zlen L - num -> zn (take (Z.to_nat (i - num)) L ++ drop (Z.to_nat i) L) t =
      zn L (if t <? i - num then t else t + num)) as Hzn.
    { intros t Ht. destruct (Z.ltb_spec t (i - num)); [by rewrite zn_app_l, zn_take by zlia|].
      rewrite zn_app_r by zlia. arr. rewrite zn_drop by lia. f_equal. lia. }
    rewrite !Hzn by lia. apply Hd; destruct (Z.ltb_spec a (i - num)), (Z.ltb_spec b (i - num)); lia.
  - apply Forall_app. split; [by apply Forall_take|by apply Forall_drop].
Qed.

(** ** The interface of the free-page database *)

(** A record: the transaction that freed the pages, and its ID list. *)
Abbreviation free_rec := (Z * list Z)%type.
Definition rec_ids (r : free_rec) : list Z := midl_ids r.2.

(** How many records are of transaction [last] or older. *)
Definition after (recs : list free_rec) (last : Z) : nat := length (filter (fun r => r.1 <= last) recs).

(** A cursor call gives record [n], or [MDB_NOTFOUND] when there is none. *)
Definition yields {C} (at_rec : C -> nat -> Prop) (recs : list free_rec) (x : option (Z * option MDB_val * C)) (n : nat) : Prop :=
  match recs !! n with
  | Some r => exists k bs c, x = Some (MDB_SUCCESS, Some k, c) /\ bread (mv_data k) 0 8 = Some bs /\ le_val bs = r.1 /\ at_rec c n
  | None => exists k c, x = Some (MDB_NOTFOUND, k, c)
  end.

(** What [mdb_page_alloc] relies on: the cursor visits the records in the
    order of their transactions, from the first one or from a given one. *)
Class FreeReader {C} (init : C) (fget : C -> option MDB_val -> MDB_cursor_op -> option (Z * option MDB_val * C))
    (fread : C -> option (MDB_val + Z)) (recs : list free_rec) := {
  at_rec : C -> nat -> Prop;
  fr_first : yields at_rec recs (fget init None MDB_FIRST) 0;
  fr_range last : 0 <= last < 2 ^ 64 - 1 ->
    yields at_rec recs (fget init (Some (Val 8 (le_bytes 8 (last + 1)))) MDB_SET_RANGE) (after recs last);
  fr_next c n : at_rec c n -> yields at_rec recs (fget c None MDB_NEXT) (S n);
  fr_read c n r : at_rec c n -> recs !! n = Some r -> exists d, fread c = Some (inl d) /\ words d = r.2
}.

(** ** Merging a record into the free list *)

Record rec_ok (r : free_rec) : Prop := {
  ro_txnid : 0 < r.1 < 2 ^ 64 - 1;
  ro_count : 0 <= zn r.2 0 < zlen r.2;
  ro_desc : desc_le (rec_ids r)
}.

(** The pages that are free, in the free list and in the records not yet
    read: every page once. *)
Definition free_pages (st : alloc_state) (rest : list free_rec) : list Z :=
  head_ids (a_pghead st) ++ concat (rec_ids <$> rest).

Record avail (st : alloc_state) (rest : list free_rec) : Prop := {
  av_head : head_ok (a_pghead st);
  av_nodup : NoDup (free_pages st rest);
  av_range : Forall (fun x => 0 <= x < 2 ^ 63) (free_pages st rest);
  av_count : zlen (free_pages st rest) < 2 ^ 31
}.

(** Nothing changes but the free list and what goes with it. *)
Record kept (st st' : alloc_state) : Prop := {
  kp_loose : a_loose_pgs st' = a_loose_pgs st;
  kp_count : a_loose_count st' = a_loose_count st;
  kp_dirty : a_dirty st' = a_dirty st;
  kp_room : mt_dirty_room st' = mt_dirty_room st;
  kp_next : mt_next_pgno st' = mt_next_pgno st;
  kp_flags : a_mt_flags st' = a_mt_flags st
}.

#[global] Instance kept_preorder : PreOrder kept.
Proof. split; [by split|]. intros x y z [] []. split; congruence. Qed.

Lemma kept_set_oldest (st : alloc_state) (o : Z) : kept st (set_oldest st o).
Proof. by split. Qed.

Lemma midl_need_any junk (ok : bool) (m : midl) (num : Z) : midl_wf m -> 0 <= num -> zn (cells m) 0 + num < 2 ^ 31 ->
  (exists m', mdb_midl_need junk ok m num = Some (0, m') /\ midl_wf m' /\ zn (cells m) 0 + num <= alloclen m' /\
     midl_ids (cells m') = midl_ids (cells m)) \/
  (ok = false /\ mdb_midl_need junk ok m num = Some (ENOMEM, m)).
Proof.
  intros Hwf Hn Hs. pose proof (mdb_midl_need_correct junk m num Hwf Hn Hs) as Ht. destruct ok; [by left|].
  unfold mdb_midl_need in *. destruct (aget (cells m) 0) as [c0|]; [|by destruct Ht as (? & ? & _)]. cbn [mbind option_bind] in *.
  destruct (alloclen m <? u32 (num + c0)); [by right|by left].
Qed.

Lemma desc_lt_le (l : list Z) : desc_lt l -> desc_le l.
Proof. intros H i j Hi Hij Hj. pose proof (H i j Hi Hij Hj). lia. Qed.

Lemma free_pages_cons (st : alloc_state) (r : free_rec) (rest : list free_rec) :
  free_pages st (r :: rest) = head_ids (a_pghead st) ++ rec_ids r ++ concat (rec_ids <$> rest).
Proof. done. Qed.

(** The list with room for the record. *)
Lemma head_room junk (ok : bool) (st : alloc_state) (n : Z) : head_ok (a_pghead st) -> 0 <= n ->
  zlen (head_ids (a_pghead st)) + n < 2 ^ 31 ->
  (exists h, (match a_pghead st with
       | None => match mdb_midl_alloc junk ok n with Some h => Some (0, Some h) | None => Some (ENOMEM, None) end
       | Some h => '(rc, h) ← mdb_midl_need junk ok h n; Some (rc, Some h)
       end) = Some (0, Some h) /\
     midl_wf h /\ zlen (head_ids (a_pghead st)) + n <= alloclen h /\ midl_ids (cells h) = head_ids (a_pghead st)) \/
  (ok = false /\ (match a_pghead st with
       | None => match mdb_midl_alloc junk ok n with Some h => Some (0, Some h) | None => Some (ENOMEM, None) end
       | Some h => '(rc, h) ← mdb_midl_need junk ok h n; Some (rc, Some h)
       end) = Some (ENOMEM, a_pghead st)).
Proof.
  intros Hh Hn Hs. destruct (a_pghead st) as [h|]; cbn [head_ids head_ok] in *.
  - pose proof (hl_len _ _ Hh) as Hl. pose proof (hl_wf _ _ Hh) as Hwf.
    destruct (midl_need_any junk ok h n Hwf Hn ltac:(lia)) as [(h' & -> & W & R & I)|[-> ->]]; [left|by right].
    exists h'. split_and!; auto. lia.
  - change (zlen []) with 0 in Hs. unfold mdb_midl_alloc. destruct ok; [left|by right].
    assert (zlen (realloc junk [] (n + 1)) = n + 1) as Hz by (apply zlen_realloc; lia).
    rewrite aset_in by lia. cbn [mbind option_bind]. eexists. split; [done|]. cbn [cells alloclen].
    assert (zn (zset (realloc junk [] (n + 1)) 0 0) 0 = 0) as H0 by (by rewrite zn_zset_eq by lia).
    split; [split_and!; cbn [cells alloclen]; rewrite ?zlen_zset, ?H0; lia|]. split; [change (zlen []) with 0; lia|].
    apply zlist_eq; [rewrite zlen_midl_ids; rewrite ?zlen_zset, ?H0; try lia; done|].
    intros i Hi. rewrite zlen_midl_ids in Hi by (rewrite ?zlen_zset, ?H0; lia). lia.
Qed.

Lemma add_record_ok junk (ok : bool) (st : alloc_state) (r : free_rec) (rest : list free_rec) : rec_ok r -> avail st (r :: rest) ->
  (exists st', add_record junk ok st r.1 r.2 = Some (0, st') /\ avail st' rest /\ kept st st' /\
     me_pglast st' = r.1 /\ me_pgoldest st' = me_pgoldest st /\
     Permutation (head_ids (a_pghead st')) (head_ids (a_pghead st) ++ rec_ids r)) \/
  (ok = false /\ exists st', add_record junk ok st r.1 r.2 = Some (ENOMEM, st') /\ a_pghead st' = a_pghead st /\ kept st st' /\
     me_pglast st' = me_pglast st /\ me_pgoldest st' = me_pgoldest st).
Proof.
  intros [Ht Hc Hd] [Hh Hnd Hr Hct]. rewrite free_pages_cons in *.
  assert (zlen (rec_ids r) = zn r.2 0) as Hlr by (apply zlen_midl_ids; lia).
  rewrite !zlen_app in Hct. pose proof (zlen_nonneg (head_ids (a_pghead st))).
  pose proof (zlen_nonneg (concat (rec_ids <$> rest))).
  unfold add_record. rewrite aget_in by lia. cbn [mbind option_bind]. rewrite uwrap_small by lia.
  destruct (head_room junk ok st (zn r.2 0) Hh) as [(h & -> & W & R & I)|[-> ->]]; [lia|lia| |]; cbn [mbind option_bind].
  2: { right. split; [done|]. eexists. split; [done|]. cbn. by split_and!. }
  left. pose proof W as (Hlc & Hz & Hb).
  assert (zn (cells h) 0 = zlen (head_ids (a_pghead st))) as Hzl by (rewrite <- I; symmetry; apply zlen_midl_ids; lia).
  rewrite Forall_app in Hr. destruct Hr as [Hr1 Hr2]. rewrite Forall_app in Hr2. destruct Hr2 as [Hr2 Hr3].
  assert (forall l, Forall (fun x => 0 <= x < 2 ^ 63) l -> Forall (fun x => 0 <= x < 2 ^ 64) l) as H64
    by (intros l Hl; apply (Forall_impl _ _ _ Hl); intros; lia).
  destruct (mdb_midl_xmerge_ok (cells h) r.2) as (m' & -> & Lm & Pm & Dm & Zm); try lia; rewrite ?I; auto.
  { destruct (a_pghead st); [apply desc_lt_le, Hh|]. intros i j ? ? Hj. change (zlen (head_ids None)) with 0 in Hj. lia. }
  rewrite I in Pm. fold (rec_ids r) in Pm. cbn [mbind option_bind]. eexists. split; [done|].
  rewrite app_assoc in Hnd. pose proof Hnd as Hnd'. apply NoDup_app in Hnd' as (Hn1 & Hn2 & Hn3).
  assert (free_pages (set_head st (Some (Midl (alloclen h) m')) r.1) rest ≡ₚ
    head_ids (a_pghead st) ++ rec_ids r ++ concat (rec_ids <$> rest)) as HP.
  { unfold free_pages. cbn [set_head a_pghead head_ids cells]. by rewrite Pm, <- app_assoc. }
  split; [split|split; [by split|split; [done|split; [done|done]]]]; cbn [set_head a_pghead head_ok head_ids cells].
  - split; cbn [cells alloclen]; auto.
    + split_and!; cbn [cells alloclen]; lia.
    + apply desc_lt_intro; [done|]. by rewrite Pm.
    + rewrite Pm, Forall_app. done.
  - by rewrite HP, app_assoc.
  - by rewrite HP, !Forall_app.
  - unfold zlen in *. rewrite HP, !length_app. lia.
Qed.

(** ** The loop *)

Section Loop.
Variables (junk : nat -> Z) (mt_txnid : Z) (readers : option (list MDB_reader * Z)) (fcursor : Type) (m2_init : fcursor).
Variable fget : fcursor -> option MDB_val -> MDB_cursor_op -> option (Z * option MDB_val * fcursor).
Variable fread : fcursor -> option (MDB_val + Z).
Variable mem_ok : Z -> bool.
Variable recs : list free_rec.
Context `{FR : !FreeReader m2_init fget fread recs}.
Hypothesis Hrecs : Forall rec_ok recs.
(** The oldest transaction a reader may still look at. *)
Variable fo : Z.
Hypothesis Hfo : mdb_find_oldest mt_txnid readers = Some fo.
Abbreviation loop := (alloc_loop junk mt_txnid readers fcursor fget fread mem_ok).

(** Records [n], ..., [m - 1] have been read. *)
Definition read_recs (n m : nat) : list free_rec := take (m - n) (drop n recs).

Record progress (st st' : alloc_state) (n m : nat) : Prop := {
  pr_le : (n <= m)%nat;
  pr_kept : kept st st';
  pr_ids : Permutation (head_ids (a_pghead st')) (head_ids (a_pghead st) ++ concat (rec_ids <$> read_recs n m));
  pr_old : Forall (fun r => r.1 < fo) (read_recs n m);
  pr_last : me_pglast st' = match last (read_recs n m) with Some r => r.1 | None => me_pglast st end;
  pr_avail : avail st' (drop m recs);
  pr_oldest : me_pgoldest st' <= fo
}.

Definition search_post (n2 : Z) (st : alloc_state) (e : search_end) : Prop :=
  match e with
  | SearchDone i p => n2 < i <= zlen (head_ids (a_pghead st)) /\ zn (head_ids (a_pghead st)) (i - 1) = p /\
      zn (head_ids (a_pghead st)) (i - 1 - n2) = p + n2
  | UseMap => forall p, ~ has_run (head_ids (a_pghead st)) p (n2 + 1)
  | SearchFail rc => rc = ENOMEM /\ exists t, mem_ok t = false
  | SearchReturn _ => False
  end.

(** Where the cursor is: at the start, or on the record before [n]. *)
Definition placed (st : alloc_state) (first : bool) (m2 : fcursor) (oldest last : Z) (found : bool) (n : nat) : Prop :=
  if first then m2 = m2_init /\ n = after recs (me_pglast st) /\ found = false /\ 0 <= me_pglast st < 2 ^ 64 - 1
  else exists k r, n = S k /\ at_rec m2 k /\ recs !! k = Some r /\ last = r.1 /\ oldest <= fo /\ (found = true -> oldest = fo).

Lemma progress_same (st st' : alloc_state) (n : nat) : kept st st' -> a_pghead st' = a_pghead st -> me_pglast st' = me_pglast st ->
  me_pgoldest st' <= fo -> avail st (drop n recs) -> progress st st' n n.
Proof.
  intros Hk Hh Hl Ho [A1 A2 A3 A4]. split; auto.
  - unfold read_recs. rewrite Nat.sub_diag, Hh. cbn. by rewrite app_nil_r.
  - unfold read_recs. rewrite Nat.sub_diag. constructor.
  - unfold read_recs. by rewrite Nat.sub_diag.
  - unfold free_pages in *. split; unfold free_pages; rewrite Hh; auto.
Qed.

Lemma progress_step (st st1 st' : alloc_state) (n m : nat) (r : free_rec) : recs !! n = Some r -> r.1 < fo -> kept st st1 ->
  Permutation (head_ids (a_pghead st1)) (head_ids (a_pghead st) ++ rec_ids r) -> me_pglast st1 = r.1 ->
  progress st1 st' (S n) m -> progress st st' n m.
Proof.
  intros Hr Ht Hk Hp Hl [P1 P2 P3 P4 P5 P6 P7]. apply lookup_lt_Some in Hr as Hlt.
  assert (read_recs n m = r :: read_recs (S n) m) as E.
  { unfold read_recs. rewrite (drop_S _ _ _ Hr). replace (m - n)%nat with (S (m - S n)) by lia. done. }
  split; rewrite ?E; auto.
  - lia.
  - by transitivity st1.
  - rewrite fmap_cons. cbn [concat]. by rewrite P3, Hp, <- app_assoc.
  - rewrite P5, last_cons. destruct (last _); done.
Qed.

Lemma too_recent_ok (st : alloc_state) (oldest last : Z) (found : bool) : oldest <= fo -> (found = true -> oldest = fo) ->
  me_pgoldest st <= fo ->
  exists stop oldest' found' st', too_recent mt_txnid readers st oldest last found = Some (stop, oldest', found', st') /\
    kept st st' /\ a_pghead st' = a_pghead st /\ me_pglast st' = me_pglast st /\ me_pgoldest st' <= fo /\
    oldest' <= fo /\ (found' = true -> oldest' = fo) /\ (stop = false -> last < fo).
Proof.
  intros Ho Hf Hp. unfold too_recent. destruct (Z.ltb_spec last oldest).
  { exists false, oldest, found, st. split_and!; auto; [reflexivity|lia]. }
  destruct found. { exists true, oldest, true, st. split_and!; auto; [reflexivity|done]. }
  rewrite Hfo. cbn [mbind option_bind]. eexists _, fo, true, (set_oldest st fo). split; [done|].
  split_and!; auto; try done. intros ?%Z.leb_gt. lia.
Qed.

Lemma after_zero : after recs 0 = 0%nat.
Proof.
  unfold after. clear -Hrecs. induction Hrecs as [|r l [Hr _ _] _ IH]; [done|]. rewrite filter_cons_False by lia. apply IH. by inversion Hrecs.
Qed.

Lemma rec_at (n : nat) (r : free_rec) : recs !! n = Some r -> rec_ok r.
Proof. intros Hr. by apply (proj1 (Forall_lookup _ _) Hrecs n). Qed.

(** The call of the cursor gives record [n]. *)
Lemma next_get (st : alloc_state) (first : bool) (m2 : fcursor) (oldest last : Z) (found : bool) (n : nat) :
  placed st first m2 oldest last found n ->
  let l := if first then me_pglast st else last in
  u64 (l + 1) = l + 1 /\
  yields at_rec recs (fget m2 (if first && nz (me_pglast st) then Some (Val 8 (le_bytes 8 (l + 1))) else None)
    (if first then if nz l then MDB_SET_RANGE else MDB_FIRST else MDB_NEXT)) n.
Proof.
  unfold placed. destruct first; cbn [andb].
  - intros (-> & -> & _ & Hl). split; [apply uwrap_small; lia|]. unfold nz.
    destruct (Z.eqb_spec (me_pglast st) 0) as [->|]; cbn [negb]; [rewrite after_zero; apply fr_first|by apply fr_range].
  - intros (k & r & -> & Hk & Hr & -> & _). destruct (rec_at k r Hr). split; [apply uwrap_small; lia|by apply fr_next].
Qed.

Lemma alloc_loop_ok (n2 : Z) (fuel : nat) : 0 <= n2 < 2 ^ 32 ->
  forall st first m2 retry oldest last found n, (length recs - n < fuel)%nat ->
  avail st (drop n recs) -> me_pgoldest st <= fo -> placed st first m2 oldest last found n -> 0 <= retry ->
  exists e st' m, loop fuel n2 st first m2 retry oldest last found = Some (e, st') /\
    progress st st' n m /\ search_post n2 st' e.
Proof.
  intros Hn2. induction fuel as [|fuel IH]; intros st first m2 retry oldest last found n Hf Hav Ho Hpl Hre; [lia|].
  assert (zlen (head_ids (a_pghead st)) < 2 ^ 32) as Hhl.
  { pose proof (av_count _ _ Hav) as Hc. unfold free_pages in Hc. rewrite zlen_app in Hc.
    pose proof (zlen_nonneg (concat (rec_ids <$> drop n recs))). lia. }
  cbn [alloc_loop]. destruct (head_search_ok (a_pghead st) n2 (av_head _ _ Hav) Hhl Hn2) as (mop_len & r & -> & Hml & Hr).
  cbn [mbind option_bind]. destruct r as [[i p]|].
  { exists (SearchDone i p), st, n. split_and!; [done|by apply progress_same|]. destruct Hr as (h' & _ & Hr). done. }
  destruct (_ <? 0) eqn:Hretry.
  { exists UseMap, st, n. split_and!; [done|by apply progress_same|done]. }
  set (retry' := if n2 <? mop_len then retry - 1 else retry) in *. assert (0 <= retry') by lia. clearbody retry'.
  destruct (next_get st first m2 oldest last found n Hpl) as [Hl Hget]. cbv zeta in Hl, Hget.
  set (l := if first then me_pglast st else last) in *. rewrite Hl.
  assert ((if first then me_pgoldest st else oldest) <= fo /\ (found = true -> (if first then me_pgoldest st else oldest) = fo)) as [Ho1 Hf1].
  { unfold placed in Hpl. destruct first; [destruct Hpl as (_ & _ & -> & _); done|].
    destruct Hpl as (k & r & _ & _ & _ & _ & ? & ?). done. }
  destruct (too_recent_ok st _ (l + 1) found Ho1 Hf1 Ho) as (stop & o1 & f1 & st1 & -> & K1 & H1 & L1 & P1 & O1 & F1 & _).
  cbn [mbind option_bind].
  assert (progress st st1 n n) as Hp1 by (by apply progress_same).
  assert (forall p, ~ has_run (head_ids (a_pghead st1)) p (n2 + 1)) as Hno by (by rewrite H1).
  destruct stop; [exists UseMap, st1, n; done|].
  rewrite L1. unfold yields in Hget. destruct (recs !! n) as [r|] eqn:Er.
  2: { destruct Hget as (k & c & ->). cbn [mbind option_bind]. exists UseMap, st1, n. done. }
  destruct Hget as (k & bs & c & -> & Hbs & Hle & Hat). cbn [mbind option_bind]. change (nz MDB_SUCCESS) with false. cbv iota.
  rewrite Hbs. cbn [mbind option_bind]. rewrite Hle.
  destruct (too_recent_ok st1 o1 r.1 f1 O1 F1 P1) as (stop & o2 & f2 & st2 & -> & K2 & H2 & L2 & P2 & O2 & F2 & Hlt).
  cbn [mbind option_bind].
  assert (progress st st2 n n) as Hp2.
  { apply progress_same; auto; [by transitivity st1|congruence|congruence]. }
  destruct stop; [exists UseMap, st2, n; split_and!; [done|done|by unfold search_post; rewrite H2]|]. specialize (Hlt eq_refl).
  destruct (fr_read c n r Hat Er) as (d & -> & Hd). cbn [mbind option_bind]. rewrite Hd.
  assert (avail st2 (r :: drop (S n) recs)) as Hav2.
  { rewrite <- (drop_S _ _ _ Er). apply Hp2. }
  destruct (add_record_ok junk (mem_ok r.1) st2 r (drop (S n) recs) (rec_at n r Er) Hav2)
    as [(st3 & -> & A3 & K3 & L3 & P3 & I3)|(Hmem & st3 & -> & H3 & K3 & L3 & P3)]; cbn [mbind option_bind].
  - change (nz 0) with false. cbv iota. apply lookup_lt_Some in Er as Hlt'.
    destruct (IH st3 false c retry' o2 r.1 f2 (S n)) as (e & st' & m & -> & Hpr & Hpost); auto; [lia|lia| |].
    { exists n, r. done. }
    exists e, st', m. split_and!; auto. apply (progress_step st st3 st' n m r); auto.
    + transitivity st1; [done|]. by transitivity st2.
    + by rewrite I3, H2, H1.
  - change (nz ENOMEM) with true. cbv iota. exists (SearchFail ENOMEM), st3, n. split_and!; [done| |split; [done|by exists r.1]].
    apply progress_same; auto; [transitivity st1; [done|by transitivity st2]|congruence|congruence|lia].
Qed.
End Loop.

(** ** The oldest transaction in use *)

(** Transaction [t] is not after the one before this, nor after that of a
    live reader. *)
Definition old_enough (mt_txnid : Z) (readers : option (list MDB_reader * Z)) (t : Z) : Prop :=
  t <= u64 (mt_txnid - 1) /\
  forall rs n k, readers = Some (rs, n) -> 0 <= k < n -> mr_pid (zn rs k) <> 0 -> t <= mr_txnid (zn rs k).

Definition readers_ok (readers : option (list MDB_reader * Z)) : Prop :=
  forall rs n, readers = Some (rs, n) -> 0 <= n <= zlen rs.

Lemma find_oldest_ok (mt_txnid : Z) (readers : option (list MDB_reader * Z)) : readers_ok readers ->
  exists fo, mdb_find_oldest mt_txnid readers = Some fo /\ forall t, old_enough mt_txnid readers t <-> t <= fo.
Proof.
  intros Hr. unfold mdb_find_oldest. destruct readers as [[rs n]|].
  - specialize (Hr rs n eq_refl). destruct (oldest_loop_ok rs (Z.to_nat n) (u64 (mt_txnid - 1)) ltac:(lia)) as (fo & -> & Hle & Hall & Hex).
    exists fo. split; [done|]. intros t. rewrite Z2Nat.id in * by lia. split.
    + intros [H1 H2]. destruct Hex as [->|(k & Hk & Hp & ->)]; [done|]. by apply (H2 rs n k).
    + intros Ht. split; [lia|]. intros rs' n' k [= <- <-] Hk Hp. specialize (Hall k Hk Hp). lia.
  - exists (u64 (mt_txnid - 1)). split; [done|]. intros t. split; [by intros []|]. intros Ht. split; [done|]. by intros.
Qed.

(** ** Correctness *)

(** What [mdb_page_alloc] may do.  [cs] are the records it has read; in the
    second and third case the pages are new dirty pages. *)
Inductive allocated (me_maxpg num : Z) (malloc : option Z) (mem_ok : Z -> bool) (cs : list free_rec) (st : alloc_state)
  : page_alloc -> alloc_state -> Prop :=
  | Al_loose np rest : num = 1 -> a_loose_pgs st = np :: rest -> cs = [] ->
      allocated me_maxpg num malloc mem_ok cs st (LoosePage np)
        (AllocState rest (a_loose_count st - 1) (a_dirty st) (mt_dirty_room st) (a_pghead st) (me_pglast st)
           (me_pgoldest st) (mt_next_pgno st) (a_mt_flags st))
  | Al_free np pgno st' : malloc = Some np -> mt_next_pgno st' = mt_next_pgno st -> a_mt_flags st' = a_mt_flags st ->
      Permutation (head_ids (a_pghead st) ++ concat (rec_ids <$> cs)) (head_ids (a_pghead st') ++ seqZ pgno num) ->
      Permutation (id2_list (a_dirty st')) (ID2 pgno np :: id2_list (a_dirty st)) -> mt_dirty_room st' = mt_dirty_room st - 1 ->
      allocated me_maxpg num malloc mem_ok cs st (NewPages np pgno) st'
  | Al_map np st' : malloc = Some np -> mt_next_pgno st' = mt_next_pgno st + num -> mt_next_pgno st' < me_maxpg ->
      a_mt_flags st' = a_mt_flags st ->
      Permutation (head_ids (a_pghead st) ++ concat (rec_ids <$> cs)) (head_ids (a_pghead st')) ->
      (forall p, ~ has_run (head_ids (a_pghead st')) p num) ->
      Permutation (id2_list (a_dirty st')) (ID2 (mt_next_pgno st) np :: id2_list (a_dirty st)) ->
      mt_dirty_room st' = mt_dirty_room st - 1 ->
      allocated me_maxpg num malloc mem_ok cs st (NewPages np (mt_next_pgno st)) st'
  | Al_fail rc st' : a_mt_flags st' = Z.lor (a_mt_flags st) MDB_TXN_ERROR ->
      mt_next_pgno st' = mt_next_pgno st -> a_dirty st' = a_dirty st ->
      Permutation (head_ids (a_pghead st) ++ concat (rec_ids <$> cs)) (head_ids (a_pghead st')) ->
      (rc = MDB_TXN_FULL /\ mt_dirty_room st = 0) \/ (rc = ENOMEM /\ (malloc = None \/ exists t, mem_ok t = false)) \/
      (rc = MDB_MAP_FULL /\ me_maxpg <= mt_next_pgno st + num /\ forall p, ~ has_run (head_ids (a_pghead st')) p num) ->
      allocated me_maxpg num malloc mem_ok cs st (NoPages rc) st'.

(** The state [mdb_page_alloc] starts from, and leaves for the next call. *)
Record alloc_inv (readers : option (list MDB_reader * Z)) (mt_txnid : Z) (recs : list free_rec) (st : alloc_state) : Prop := {
  ai_recs : Forall rec_ok recs;
  ai_sorted : StronglySorted Z.lt (recs.*1);
  ai_last : 0 <= me_pglast st < 2 ^ 64 - 1;
  ai_avail : avail st (drop (after recs (me_pglast st)) recs);
  ai_readers : readers_ok readers;
  ai_oldest : old_enough mt_txnid readers (me_pgoldest st);
  ai_next : 0 <= mt_next_pgno st;
  ai_below : Forall (fun x => x < mt_next_pgno st) (free_pages st (drop (after recs (me_pglast st)) recs));
  ai_dirty : id2_wf (a_dirty st);
  ai_room : 0 <= mt_dirty_room st /\ id2_count (a_dirty st) + mt_dirty_room st <= MDB_IDL_UM_MAX;
  ai_fresh e : e ∈ id2_list (a_dirty st) ->
    mid e < mt_next_pgno st /\ mid e ∉ free_pages st (drop (after recs (me_pglast st)) recs)
}.

(** A call for [num] pages, in a map that is not written. *)
Record alloc_input (me_flags num : Z) (readers : option (list MDB_reader * Z)) (mt_txnid : Z) (recs : list free_rec)
    (st : alloc_state) : Prop := {
  ai_inv : alloc_inv readers mt_txnid recs st;
  ai_num : 1 <= num /\ num * 60 < 2 ^ 31;
  ai_space : mt_next_pgno st + num < 2 ^ 63;
  ai_flags : Z.land me_flags MDB_WRITEMAP = 0
}.

(** What a result takes of the room in the dirty list. *)
Definition room_used (r : page_alloc) : Z := match r with NewPages _ _ => 1 | _ => 0 end.

Lemma length_id2_list (m : list MDB_ID2) : id2_wf m -> Z.of_nat (length (id2_list m)) = id2_count m.
Proof.
  intros (Hl & Hc & _). pose proof UM_SIZE_val. pose proof UM_MAX_val. unfold id2_list, zlen in *.
  rewrite length_take, length_drop. lia.
Qed.

Lemma page_dirty_ok (me_flags : Z) (dl : list MDB_ID2) (room pgno np : Z) : Z.land me_flags MDB_WRITEMAP = 0 -> id2_wf dl ->
  (forall e, e ∈ id2_list dl -> mid e <> pgno) -> 0 < room -> id2_count dl + room <= MDB_IDL_UM_MAX ->
  exists dl', mdb_page_dirty me_flags dl room pgno np = Some (dl', room - 1) /\ id2_wf dl' /\
    Permutation (id2_list dl') (ID2 pgno np :: id2_list dl).
Proof.
  intros Hf Hwf Hnew Hr Hc. destruct (proj2 (mdb_mid2l_insert_ok dl (ID2 pgno np) Hwf) Hnew) as [_ Hins].
  destruct (Hins ltac:(lia)) as (dl' & E & Hwf' & Hperm). exists dl'. unfold mdb_page_dirty. rewrite Hf.
  change (nz 0) with false. cbv iota. rewrite E. cbn [mbind option_bind]. change (negb (0 =? 0)) with false. cbv iota.
  pose proof UM_MAX_val. destruct Hwf as (_ & Hcnt & _). rewrite uwrap_small by lia. done.
Qed.

Section Correct.
Variables (junk : nat -> Z) (mt_txnid : Z) (readers : option (list MDB_reader * Z)) (fcursor : Type) (m2_init : fcursor).
Variable fget : fcursor -> option MDB_val -> MDB_cursor_op -> option (Z * option MDB_val * fcursor).
Variable fread : fcursor -> option (MDB_val + Z).
Variable mem_ok : Z -> bool.
Variable recs : list free_rec.
Context `{FR : !FreeReader m2_init fget fread recs}.
Variables (me_flags me_map me_psize me_maxpg num : Z) (malloc : option Z) (st : alloc_state).
Hypothesis Hin : alloc_input me_flags num readers mt_txnid recs st.
Let n0 := after recs (me_pglast st).

Lemma free_pages_read (m : nat) (st' : alloc_state) : (n0 <= m)%nat ->
  Permutation (head_ids (a_pghead st')) (head_ids (a_pghead st) ++ concat (rec_ids <$> read_recs recs n0 m)) ->
  Permutation (free_pages st' (drop m recs)) (free_pages st (drop n0 recs)).
Proof.
  intros Hm Hp. unfold free_pages. rewrite Hp, <- app_assoc, <- concat_app, <- fmap_app. unfold read_recs.
  replace (drop m recs) with (drop (m - n0) (drop n0 recs)) by (rewrite drop_drop; f_equal; lia).
  by rewrite take_drop.
Qed.

Lemma alloc_done_ok (fo : Z) (m : nat) (st1 : alloc_state) (i pgno : Z) : (forall t, old_enough mt_txnid readers t <-> t <= fo) ->
  progress recs fo st st1 n0 m -> 0 < mt_dirty_room st ->
  (i = 0 /\ pgno = mt_next_pgno st /\ (forall p, ~ has_run (head_ids (a_pghead st1)) p num) /\ mt_next_pgno st + num < me_maxpg) \/
  search_post mem_ok (num - 1) st1 (SearchDone i pgno) ->
  exists r st', alloc_done me_flags me_map me_psize malloc num st1 i pgno = Some (r, st') /\
    allocated me_maxpg num malloc mem_ok (read_recs recs n0 m) st r st' /\
    a_loose_pgs st' = a_loose_pgs st1 /\ head_ok (a_pghead st') /\ id2_wf (a_dirty st') /\
    me_pglast st' = me_pglast st1 /\ me_pgoldest st' = me_pgoldest st1 /\
    mt_dirty_room st' = mt_dirty_room st - room_used r.
Proof.
  intros Hfo Hpr Hroom Hcase. destruct Hin as [[_ _ Hlast Hav _ _ Hnx0 Hbel Hd [Hr0 Hr] Hfr] Hnum Hnx Hfl].
  pose proof Hpr as [Hle [K1 K2 K3 K4 K5 K6] Hids _ _ Hav1 _]. pose proof UM_MAX_val. unfold alloc_done. rewrite Hfl. change (nz 0) with false. cbv iota.
  destruct malloc as [np|]; cycle 1.
  { eexists _, _. split; [done|]. cbn [set_error a_pghead a_dirty me_pglast me_pgoldest mt_dirty_room room_used]. rewrite K3, K4, Z.sub_0_r.
    split; [|by split_and!; try apply (av_head _ _ Hav1)].
    apply Al_fail; cbn [set_error a_mt_flags mt_next_pgno a_dirty a_pghead]; auto; try congruence. by symmetry. }
  destruct Hcase as [(-> & -> & Hno & Hmax)|(Hi & Ei & En)].
  - change (nz 0) with false. cbv iota. cbn [mbind option_bind]. rewrite K3, K4.
    destruct (page_dirty_ok me_flags (a_dirty st) (mt_dirty_room st) (mt_next_pgno st) np) as (dl & -> & Hdw & Hp); auto.
    { intros e He. destruct (Hfr e He). lia. }
    cbn [mbind option_bind]. eexists _, _. split; [done|]. cbn [a_pghead a_dirty me_pglast me_pgoldest].
    split; [|by split_and!; try apply (av_head _ _ Hav1)]. rewrite uwrap_small by lia.
    apply Al_map; cbn [a_mt_flags mt_next_pgno a_dirty a_pghead mt_dirty_room]; auto; by symmetry.
  - destruct (a_pghead st1) as [h|] eqn:Eh; [|cbn [head_ids] in Hi; change (zlen []) with 0 in Hi; lia].
    pose proof (av_head _ _ Hav1) as Hh. rewrite Eh in Hh. cbn [head_ok] in Hh. cbn [head_ids] in *.
    set (L := midl_ids (cells h)) in *. pose proof (hl_len _ _ Hh) as Hlen. pose proof (hl_wf _ _ Hh) as (Hcl & Hc0 & Hcb).
    assert (zlen L < 2 ^ 31) as HL.
    { pose proof (av_count _ _ Hav1) as Hc. unfold free_pages in Hc. rewrite Eh in Hc. cbn [head_ids] in Hc. fold L in Hc.
      rewrite zlen_app in Hc. pose proof (zlen_nonneg (concat (rec_ids <$> drop m recs))). lia. }
    unfold nz. rewrite (proj2 (Z.eqb_neq i 0)) by lia. cbn [negb mbind option_bind].
    rewrite aget_in by lia. cbn [mbind option_bind]. rewrite Hlen, uwrap_small by lia.
    destruct (take_pages_ok h L num i Hh HL) as (h' & -> & Hh' & HP); [lia|lia|rewrite En, Ei; lia|]. cbn [mbind option_bind].
    rewrite Ei in HP. pose proof (hl_in h L (i - 1) Hh ltac:(lia)) as Hpg.
    rewrite K3, K4. destruct (page_dirty_ok me_flags (a_dirty st) (mt_dirty_room st) pgno np) as (dl & -> & Hdw & Hp); auto.
    { intros e He Hep. destruct (Hfr e He) as [_ Hf]. apply Hf. fold n0. rewrite <- (free_pages_read m st1 Hle) by (by rewrite Eh).
      unfold free_pages. rewrite Eh, elem_of_app. left. cbn [head_ids]. fold L. rewrite Hep, <- Ei. apply zn_elem. lia. }
    cbn [mbind option_bind]. eexists _, _. split; [done|].
    cbn [a_pghead a_dirty me_pglast me_pgoldest]. split; [|split_and!; try done; cbn [head_ok]; by rewrite (hl_ids _ _ Hh')].
    apply Al_free; cbn [a_mt_flags mt_next_pgno a_dirty a_pghead mt_dirty_room head_ids]; auto.
    rewrite (hl_ids _ _ Hh'), <- HP. by rewrite Hids.
Qed.
End Correct.

Lemma after_le (recs : list free_rec) (l : Z) : (after recs l <= length recs)%nat.
Proof. unfold after. apply length_filter. Qed.

Lemma after_all (recs : list free_rec) (l : Z) : Forall (fun x => l < x) recs.*1 -> after recs l = 0%nat.
Proof.
  unfold after. induction recs as [|r recs IH]; intros H; [done|]. inversion H; subst.
  rewrite filter_cons_False by lia. by apply IH.
Qed.

Lemma after_at (recs : list free_rec) : StronglySorted Z.lt recs.*1 -> forall i r, recs !! i = Some r -> after recs r.1 = S i.
Proof.
  unfold after. induction recs as [|r0 recs IH]; intros Hs i r Hr; [done|]. inversion Hs as [|? ? Hs' Hall]; subst.
  destruct i as [|i]; cbn in Hr.
  - injection Hr as <-. rewrite filter_cons_True by lia. cbn [length]. f_equal. by apply after_all.
  - assert (r0.1 < r.1).
    { apply (proj1 (Forall_forall _ _) Hall), list_elem_of_fmap_2. by eapply list_elem_of_lookup_2. }
    rewrite filter_cons_True by lia. cbn [length]. f_equal. by apply IH.
Qed.

(** The records that are left. *)
Lemma after_read (recs : list free_rec) (l l' : Z) (m : nat) : StronglySorted Z.lt recs.*1 ->
  l' = match last (take m (drop (after recs l) recs)) with Some r => r.1 | None => l end ->
  drop (after recs l') recs = drop m (drop (after recs l) recs).
Proof.
  intros Hs Hl. set (n := after recs l) in *. destruct (last (take m (drop n recs))) as [r|] eqn:E; subst l'.
  - rewrite last_lookup, length_take, length_drop in E. destruct (m `min` (length recs - n))%nat as [|k] eqn:Ek.
    { exfalso. destruct m; [done|]. cbn [pred] in E. rewrite lookup_take_lt, lookup_drop in E by lia. apply lookup_lt_Some in E. lia. }
    cbn [pred] in E. rewrite lookup_take_lt, lookup_drop in E by lia. rewrite (after_at recs Hs _ _ E), drop_drop.
    destruct (decide (m <= length recs - n)%nat); [f_equal; lia|]. rewrite !drop_ge by lia. done.
  - apply last_None in E. fold n. assert (m = 0%nat \/ drop n recs = []) as [-> | ->]; [|done|by rewrite drop_nil].
    destruct m; [by left|right]. by destruct (drop n recs).
Qed.

(** What a call does: the result; every record read is of a transaction that
    no live reader needs; what the next call needs. *)
Record alloc_outcome (me_maxpg num : Z) (malloc : option Z) (mem_ok : Z -> bool) (mt_txnid : Z)
    (readers : option (list MDB_reader * Z)) (cs : list free_rec) (st : alloc_state) (r : page_alloc) (st' : alloc_state) : Prop := {
  ao_result : allocated me_maxpg num malloc mem_ok cs st r st';
  ao_unused : Forall (fun r => old_enough mt_txnid readers (r.1 + 1)) cs;
  ao_last : me_pglast st' = match last cs with Some r => r.1 | None => me_pglast st end;
  ao_loose : match r with LoosePage _ => True | _ => a_loose_pgs st' = a_loose_pgs st end;
  ao_head : head_ok (a_pghead st');
  ao_dirty : id2_wf (a_dirty st');
  ao_oldest : old_enough mt_txnid readers (me_pgoldest st');
  ao_room : mt_dirty_room st' = mt_dirty_room st - room_used r /\ 0 <= mt_dirty_room st'
}.

Section Whole.
Variables (junk : nat -> Z) (mt_txnid : Z) (readers : option (list MDB_reader * Z)) (fcursor : Type) (m2_init : fcursor).
Variable fget : fcursor -> option MDB_val -> MDB_cursor_op -> option (Z * option MDB_val * fcursor).
Variable fread : fcursor -> option (MDB_val + Z).
Variable mem_ok : Z -> bool.
Variable recs : list free_rec.
Context `{FR : !FreeReader m2_init fget fread recs}.
Variables (me_flags me_map me_psize me_maxpg num : Z) (malloc : option Z) (st : alloc_state).
Hypothesis Hin : alloc_input me_flags num readers mt_txnid recs st.

Lemma page_alloc_ok (fuel : nat) : (length recs < fuel)%nat ->
  exists m r st', mdb_page_alloc junk mt_txnid readers fcursor m2_init fget fread mem_ok me_flags me_map me_psize me_maxpg
      fuel malloc num st = Some (r, st') /\
    alloc_outcome me_maxpg num malloc mem_ok mt_txnid readers (take m (drop (after recs (me_pglast st)) recs)) st r st'.
Proof.
  intros Hfuel. pose proof Hin as [[Hrecs _ Hlast Hav Hrd Hold Hnx0 Hbel Hd [Hr0 Hr] Hfr] Hnum Hnx Hfl].
  destruct (find_oldest_ok mt_txnid readers Hrd) as (fo & Efo & Hfo).
  set (n0 := after recs (me_pglast st)) in *.
  assert (exists m r st', alloc_new junk mt_txnid readers fcursor m2_init fget fread mem_ok me_flags me_map me_psize me_maxpg
      fuel malloc num st = Some (r, st') /\
    alloc_outcome me_maxpg num malloc mem_ok mt_txnid readers (take m (drop n0 recs)) st r st') as Hnew.
  { unfold alloc_new. rewrite (proj2 (Z.leb_gt (2 ^ 31) (num * 60))) by lia. cbv iota. destruct (Z.eqb_spec (mt_dirty_room st) 0) as [E0|E0].
    { exists 0%nat, (NoPages MDB_TXN_FULL), (set_error st). split; [done|]. cbn [take]. split; try done; [|apply Hav|cbn [set_error mt_dirty_room room_used]; lia].
      apply Al_fail; auto. cbn [fmap list_fmap concat]. by rewrite app_nil_r. }
    destruct (alloc_loop_ok junk mt_txnid readers fcursor m2_init fget fread mem_ok recs Hrecs fo Efo (num - 1) fuel)
      with (st := st) (first := true) (m2 := m2_init) (retry := num * 60) (oldest := 0) (last := 0) (found := false)
        (n := n0) as (e & st1 & m & -> & Hpr & Hpost); auto; try lia.
    { by apply Hfo. }
    { done. }
    cbn [mbind option_bind]. pose proof Hpr as [Hle [K1 K2 K3 K4 K5 K6] Hids Hcs Hl1 Hav1 Ho1]. exists (m - n0)%nat.
    assert (forall r st', allocated me_maxpg num malloc mem_ok (read_recs recs n0 m) st r st' ->
      a_loose_pgs st' = a_loose_pgs st1 -> head_ok (a_pghead st') -> id2_wf (a_dirty st') ->
      me_pglast st' = me_pglast st1 -> me_pgoldest st' = me_pgoldest st1 ->
      mt_dirty_room st' = mt_dirty_room st - room_used r -> exists r0 st0, Some (r, st') = Some (r0, st0) /\
        alloc_outcome me_maxpg num malloc mem_ok mt_txnid readers (read_recs recs n0 m) st r0 st0) as Hgo.
    { intros r st' Ha Hlo Hho Hdo Hpo Hoo Hro. exists r, st'. split; [done|].
      split; auto; [|congruence|destruct r; [done|congruence..]|by rewrite Hoo, Hfo|destruct r; cbn [room_used] in *; lia].
      apply (Forall_impl _ _ _ Hcs). intros x Hx. apply Hfo. lia. }
    fold (read_recs recs n0 m).
    destruct e as [i pgno| |rc|rc]; cbn [search_post] in Hpost; [| | |done].
    - destruct (alloc_done_ok mt_txnid readers mem_ok recs me_flags me_map me_psize me_maxpg num malloc st Hin fo m st1 i pgno Hfo Hpr)
        as (r & st' & E & Ha & ? & ? & ? & ? & ? & ?); [lia|by right|]. rewrite E. by apply Hgo.
    - rewrite K5, uwrap_small by lia. replace (num - 1 + 1) with num in Hpost by lia.
      destruct (Z.leb_spec me_maxpg (mt_next_pgno st + num)).
      + apply Hgo; cbn [set_error a_pghead a_dirty mt_dirty_room room_used]; try done; [|apply Hav1|by rewrite K3|lia].
        apply Al_fail; cbn [set_error a_mt_flags mt_next_pgno a_dirty a_pghead]; try congruence; [by symmetry|]. by right; right.
      + destruct (alloc_done_ok mt_txnid readers mem_ok recs me_flags me_map me_psize me_maxpg num malloc st Hin fo m st1 0
          (mt_next_pgno st) Hfo Hpr) as (r & st' & E & Ha & ? & ? & ? & ? & ? & ?); [lia|by left|]. rewrite E. by apply Hgo.
    - apply Hgo; cbn [set_error a_pghead a_dirty mt_dirty_room room_used]; try done; [|apply Hav1|by rewrite K3|lia].
      apply Al_fail; cbn [set_error a_mt_flags mt_next_pgno a_dirty a_pghead]; try congruence; [by symmetry|].
      right. left. destruct Hpost as [-> Ht]. split; [done|by right]. }
  unfold mdb_page_alloc. destruct (a_loose_pgs st) as [|np rest] eqn:El; [done|].
  destruct (Z.eqb_spec num 1) as [E1|]; [|done].
  exists 0%nat. eexists _, _. split; [done|]. cbn [take]. split; try done; [by apply Al_loose|apply Hav|cbn [mt_dirty_room room_used]; lia].
Qed.

(** The free pages after the call: as before, without the run handed out. *)
Lemma outcome_free (m : nat) (r : page_alloc) (st' : alloc_state) :
  alloc_outcome me_maxpg num malloc mem_ok mt_txnid readers (take m (drop (after recs (me_pglast st)) recs)) st r st' ->
  Permutation (free_pages st (drop (after recs (me_pglast st)) recs))
    (free_pages st' (drop (after recs (me_pglast st')) recs) ++
     match r with NewPages _ p => if decide (p = mt_next_pgno st) then [] else seqZ p num | _ => [] end).
Proof.
  intros [Ha _ Hl _ _ _ _ _]. pose proof Hin as [[_ Hs _ Hav _ _ Hn0 Hbel _ _ _] [Hnum _] _ _].
  rewrite (after_read recs _ _ m Hs Hl). set (rest := drop (after recs (me_pglast st)) recs) in *.
  assert (forall l, Permutation (head_ids (a_pghead st) ++ concat (rec_ids <$> take m rest)) (head_ids (a_pghead st') ++ l) ->
    Permutation (free_pages st rest) (free_pages st' (drop m rest) ++ l)) as Hgo.
  { intros l Hp. unfold free_pages. rewrite <- (take_drop m rest) at 1. rewrite fmap_app, concat_app, app_assoc, Hp.
    rewrite <- !app_assoc. f_equiv. apply Permutation_app_comm. }
  inversion Ha as [np loose H1 H2 H3|np p st'' H1 H2 H3 Hp H5 H6|np st'' H1 H2 H3 H4 Hp H6 H7 H8|rc st'' H1 H2 H3 Hp]; subst.
  - apply Hgo. rewrite H3. cbn [a_pghead fmap list_fmap concat]. done.
  - destruct (decide (p = mt_next_pgno st)) as [->|]; [|by apply Hgo]. exfalso. apply Hgo in Hp.
    assert (mt_next_pgno st ∈ free_pages st rest) as Hin'.
    { rewrite Hp. apply elem_of_app. right. apply elem_of_seqZ. lia. }
    pose proof (proj1 (Forall_forall _ _) Hbel _ Hin'). cbn in *. lia.
  - rewrite decide_True by done. apply Hgo. by rewrite app_nil_r.
  - apply Hgo. by rewrite app_nil_r.
Qed.

(** New pages are at the end of the map or were free. *)
Lemma outcome_new (m : nat) (np p : Z) (st' : alloc_state) :
  alloc_outcome me_maxpg num malloc mem_ok mt_txnid readers (take m (drop (after recs (me_pglast st)) recs)) st (NewPages np p) st' ->
  malloc = Some np /\ Permutation (id2_list (a_dirty st')) (ID2 p np :: id2_list (a_dirty st)) /\ a_mt_flags st' = a_mt_flags st /\
  (p = mt_next_pgno st /\ mt_next_pgno st' = mt_next_pgno st + num /\ mt_next_pgno st' < me_maxpg \/
   p ∈ free_pages st (drop (after recs (me_pglast st)) recs) /\ mt_next_pgno st' = mt_next_pgno st).
Proof.
  intros [Ha _ _ _ _ _ _ _]. pose proof Hin as [_ [Hnum _] _ _].
  inversion Ha as [|np' p' st'' H1 H2 H3 Hp H5 H6|np' st'' H1 H2 H3 H4 Hp H6 H7 H8|]; subst.
  - split_and!; auto. right. split; [|done]. unfold free_pages. rewrite <- (take_drop m (drop _ recs)) at 1.
    rewrite fmap_app, concat_app, app_assoc, Hp. apply elem_of_app. left. apply elem_of_app. right. apply elem_of_seqZ. lia.
  - split_and!; auto.
Qed.

Lemma page_alloc_inv (m : nat) (r : page_alloc) (st' : alloc_state) :
  alloc_outcome me_maxpg num malloc mem_ok mt_txnid readers (take m (drop (after recs (me_pglast st)) recs)) st r st' ->
  alloc_inv readers mt_txnid recs st'.
Proof.
  intros Ho. pose proof (outcome_free m r st' Ho) as Hfree. destruct Ho as [Ha _ Hl _ Hho Hdo Hoo [Hrm Hrm0]].
  pose proof Hin as [[Hrecs Hs Hlast [_ Hnd Hrg Hct] Hrd Hold Hn0 Hbel Hd [Hr0 Hr] Hfr] [Hnum _] Hsp _].
  set (rest := drop (after recs (me_pglast st)) recs) in *. set (rest' := drop (after recs (me_pglast st')) recs) in *.
  assert (forall x, x ∈ free_pages st' rest' -> x ∈ free_pages st rest) as Hsub.
  { intros x Hx. rewrite Hfree. apply elem_of_app. by left. }
  assert (mt_next_pgno st <= mt_next_pgno st') as Hnx.
  { inversion Ha; subst; cbn [mt_next_pgno]; lia. }
  assert (forall x, x ∈ free_pages st' rest' -> x < mt_next_pgno st) as Hlow.
  { intros x Hx. by apply (proj1 (Forall_forall _ _) Hbel), Hsub. }
  assert (forall e, e ∈ id2_list (a_dirty st) -> mid e < mt_next_pgno st' /\ mid e ∉ free_pages st' rest') as Hold'.
  { intros e He. destruct (Hfr e He) as [H1 H2]. split; [lia|]. by intros H%Hsub. }
  assert (forall np p, Permutation (id2_list (a_dirty st')) (ID2 p np :: id2_list (a_dirty st)) ->
    mt_dirty_room st' = mt_dirty_room st - 1 ->
    0 <= mt_dirty_room st' /\ id2_count (a_dirty st') + mt_dirty_room st' <= MDB_IDL_UM_MAX) as Hroom.
  { intros np p Hp E1. apply Permutation_length in Hp. cbn [length] in Hp.
    pose proof (length_id2_list _ Hdo). pose proof (length_id2_list _ Hd). lia. }
  split; auto; try lia.
  - rewrite Hl. destruct (last (take m rest)) as [x|] eqn:E; [|done]. apply last_Some_elem_of in E.
    assert (Forall rec_ok (take m rest)) as Hx by (by apply Forall_take, Forall_drop).
    pose proof (proj1 (Forall_forall _ _) Hx x E) as [Hx1 _ _]. lia.
  - split; auto.
    + rewrite Hfree in Hnd. by apply NoDup_app in Hnd as [? _].
    + rewrite Hfree in Hrg. by apply Forall_app in Hrg as [? _].
    + pose proof (Permutation_length Hfree) as E. rewrite length_app in E. fold rest'. unfold zlen in *. lia.
  - apply Forall_forall. fold rest'. intros x Hx%Hlow. lia.
  - inversion Ha; subst; cbn [mt_dirty_room a_dirty room_used] in *; try lia; [by eapply Hroom..|].
    split; [done|]. match goal with E : a_dirty _ = a_dirty st |- _ => rewrite E end. lia.
  - assert (forall np p, Permutation (id2_list (a_dirty st')) (ID2 p np :: id2_list (a_dirty st)) ->
      p < mt_next_pgno st' -> p ∉ free_pages st' rest' -> forall e, e ∈ id2_list (a_dirty st') ->
      mid e < mt_next_pgno st' /\ mid e ∉ free_pages st' rest') as Hnew.
    { intros np p Hp H1 H2 e He. rewrite Hp in He. apply elem_of_cons in He as [->|He]; [done|by apply Hold']. }
    inversion Ha as [np loose H1 H2 H3|np p st'' H1 H2 H3 Hp H5 H6|np st'' H1 H2 H3 H4 Hp H6 H7 H8|rc st'' H1 H2 H3 Hp]; subst;
      cbn [a_dirty] in *.
    + by apply Hold'.
    + assert (p ∈ free_pages st rest) as Hpf.
      { unfold free_pages. rewrite <- (take_drop m rest) at 1. rewrite fmap_app, concat_app, app_assoc, Hp.
        apply elem_of_app. left. apply elem_of_app. right. apply elem_of_seqZ. lia. }
      pose proof (proj1 (Forall_forall _ _) Hbel _ Hpf) as Hpn. cbn in Hpn. apply (Hnew np p); [done|lia|].
      intros Hp'. rewrite decide_False in Hfree by lia. rewrite Hfree in Hnd. apply NoDup_app in Hnd as (_ & Hnd & _).
      apply (Hnd p Hp'), elem_of_seqZ. lia.
    + apply (Hnew np (mt_next_pgno st)); [done|lia|]. intros Hp'%Hlow. lia.
    + match goal with E : a_dirty _ = a_dirty st |- _ => rewrite E end. by apply Hold'.
Qed.
End Whole.
