(* ===== verification/FreeDb.v ===== *)
(** * The free-page database

    The records [mdb_page_alloc] ([src/LegacyDatabase/mdb.c]) reads: a B+tree
    whose keys are transaction numbers and whose data are ID lists.  The
    cursors of [Cursor] implement the interface [FreeReader] of [PageAlloc],
    so that page allocation is correct with the code's own cursor. *)
From S2P Require Import Prelude.
From S2P Require Import Bytes.
From S2P Require Import Midl.
From S2P Require Import Page.
From S2P Require Import PageSpec.
From S2P Require Import NodeOps.
From S2P Require Import Cmp.
From S2P Require Import NodeSearch.
From S2P Require Import Cursor.
From S2P Require Import PageList.
From S2P Require Import Tree.
From S2P Require Import CursorPath.
From S2P Require Import CursorSim.
From S2P Require Import PageAlloc.
From Stdlib Require Import ZArith Lia.
From stdpp Require Import base numbers option list.
Open Scope Z_scope.

(** ** The calls of mdb_page_alloc *)

Section Calls.
(** The pages of the map and the root of the free-page database, whose keys
    are [MDB_INTEGERKEY]s. *)
Variables (get : Z -> option (list Z)) (md_root : Z).
Let md_cmp : MDB_cmp_func := fst (mdb_default_cmp MDB_INTEGERKEY).

(** [mdb_cursor_get(&m2, &key, NULL, op)] *)
Definition free_get (m2 : cursor) (key : option MDB_val) (op : MDB_cursor_op) : option (Z * option MDB_val * cursor) :=
  r ← mdb_cursor_get get md_cmp 0 md_root m2 key false op;
  Some (o_rc r, o_key r, o_cur r).

(** [np = m2.mc_pg[m2.mc_top]; leaf = NODEPTR(np, m2.mc_ki[m2.mc_top]);
    rc = mdb_node_read(txn, leaf, &data)] *)
Definition free_read (m2 : cursor) : option (MDB_val + Z) :=
  np ← top_pg m2;
  ki ← top_ki m2;
  leaf ← mp_ptr np ki;
  r ← mdb_node_read get m2 np leaf;
  Some (match r with inl data => inl data | inr (rc, _) => inr rc end).

(** [mdb_page_alloc] with the cursor it uses. *)
Definition page_alloc_db (junk : nat -> Z) (mt_txnid : Z) (readers : option (list MDB_reader * Z)) (mem_ok : Z -> bool)
    (me_flags me_map me_psize me_maxpg : Z) (fuel : nat) (malloc : option Z) (num : Z) (st : alloc_state)
  : option (page_alloc * alloc_state) :=
  mdb_page_alloc junk mt_txnid readers cursor (mdb_cursor_init (a_mt_flags st)) free_get free_read mem_ok
    me_flags me_map me_psize me_maxpg fuel malloc num st.
End Calls.

(** ** A cursor call that does not want the data *)

(** [y] is [x] without the data, when [x] finds an item or nothing. *)
Definition erases (x y : option outcome) : Prop := forall r, x = Some r ->
  o_rc r = MDB_SUCCESS \/ o_rc r = MDB_NOTFOUND -> y = Some (Out (o_rc r) (o_key r) None (o_cur r)).

Lemma erases_fail (rc : Z) (c : cursor) : erases (fail rc c) (fail rc c).
Proof. intros r [= <-] _. done. Qed.

Lemma erases_out (rc : Z) (k d : option MDB_val) (c : cursor) :
  erases (Some (Out rc k d c)) (Some (Out rc k None c)).
Proof. intros r [= <-] _. done. Qed.

Lemma erases_none (y : option outcome) : erases None y.
Proof. intros r [=]. Qed.

Ltac erase :=
  repeat (cbn [mbind option_bind] in *;
    first [ apply erases_fail | apply erases_out | apply erases_none | assumption | progress cbv zeta
      | match goal with
        | |- erases (mbind _ ?a) (mbind _ ?a) => destruct a
        | |- erases (let '(_, _) := ?p in _) _ => destruct p
        | |- erases (if ?b then _ else _) (if ?b then _ else _) => destruct b
        | |- erases (match ?a with Some _ => _ | None => _ end) _ => destruct a
        end ]).

Section Erase.
Variables (get : Z -> option (list Z)) (md_cmp : MDB_cmp_func) (md_pad md_root : Z).

Lemma erase_read_node (c : cursor) (mp : list Z) (o : Z) (init1 wk : bool) :
  erases (read_node get c mp o init1 wk true) (read_node get c mp o init1 wk false).
Proof.
  unfold read_node. destruct (get16 mp (o + 4)) as [fl|]; [|apply erases_none]. cbn [mbind option_bind].
  rewrite orb_true_r, orb_false_r, andb_true_r. destruct (F_ISSET fl F_DUPDATA); [apply erases_none|]. cbn [andb].
  unfold mdb_node_read. destruct (get16 mp (o + 4)); [|apply erases_none]. cbn [mbind option_bind].
  destruct (NODEDSZ mp o); [|apply erases_none]. cbn [mbind option_bind].
  destruct (NODEDATA mp o); [|apply erases_none]. cbn [mbind option_bind].
  assert (forall v : MDB_val, erases
    (k ← (if wk then k ← key_at mp o; Some (Some k) else Some None); Some (Out MDB_SUCCESS k (Some v) c))
    (k ← (if wk then k ← key_at mp o; Some (Some k) else Some None); Some (Out MDB_SUCCESS k None c))) as Hv by (intros v; erase).
  destruct (negb _).
  - destruct (bread mp _ _); [|apply erases_none]. apply Hv.
  - destruct (get64 mp _) as [pg|]; [|apply erases_none]. cbn [mbind option_bind]. unfold page_get.
    destruct (get pg) as [omp|]; cbn [mbind option_bind].
    + destruct (bread omp _ _); [|apply erases_none]. apply Hv.
    + intros r [= <-] [E|E]; discriminate E.
Qed.

Lemma erase_read_current (next : bool) (c : cursor) :
  erases (read_current get md_pad next c true) (read_current get md_pad next c false).
Proof. unfold read_current. erase. apply erase_read_node. Qed.

Lemma erase_set1 (c : cursor) (op : MDB_cursor_op) : erases (set1 get md_pad c op true) (set1 get md_pad c op false).
Proof.
  unfold set1. cbv zeta. set (c' := clear_flag _ _). destruct (top_pg c'); [|apply erases_none]. cbn [mbind option_bind].
  destruct (top_ki c'); [|apply erases_none]. cbn [mbind option_bind].
  destruct (IS_LEAF2 _) as [[|]|]; [| |apply erases_none]; cbn [mbind option_bind].
  - erase.
  - destruct (mp_ptr _ _); [|apply erases_none]. apply erase_read_node.
Qed.

Lemma erase_set2 (c : cursor) (key : MDB_val) (op : MDB_cursor_op) (exactp : bool) :
  erases (set2 get md_cmp md_pad c key op exactp true) (set2 get md_cmp md_pad c key op exactp false).
Proof. unfold set2. erase; apply erase_set1. Qed.

Lemma erase_set_search (c : cursor) (key : MDB_val) (op : MDB_cursor_op) (exactp : bool) :
  erases (set_search get md_cmp md_pad md_root c key op exactp true) (set_search get md_cmp md_pad md_root c key op exactp false).
Proof. unfold set_search. erase. apply erase_set2. Qed.

Lemma erase_first (c : cursor) : erases (mdb_cursor_first get md_cmp md_pad md_root c true)
  (mdb_cursor_first get md_cmp md_pad md_root c false).
Proof. unfold mdb_cursor_first. erase. apply erase_read_current. Qed.

Lemma erase_next (c : cursor) : erases (mdb_cursor_next get md_pad c true) (mdb_cursor_next get md_pad c false).
Proof. unfold mdb_cursor_next. erase; apply erase_read_current. Qed.
End Erase.

Lemma erase_set (get : Z -> option (list Z)) (md_cmp : MDB_cmp_func) (md_pad md_root : Z) (c : cursor) (key : MDB_val)
    (op : MDB_cursor_op) (exactp : bool) :
  erases (mdb_cursor_set get md_cmp md_pad md_root c key op exactp true)
    (mdb_cursor_set get md_cmp md_pad md_root c key op exactp false).
Proof.
  assert (forall c, erases (set_other get md_cmp md_pad md_root c key op exactp true)
    (set_other get md_cmp md_pad md_root c key op exactp false)) as Ho.
  { intros c1. unfold set_other. destruct (negb _); [|apply erase_set_search].
    destruct (set_ki c1 0); [|apply erases_none]. cbn [mbind option_bind].
    destruct op; try apply erases_fail. destruct exactp; [apply erases_fail|apply erase_set1]. }
  unfold mdb_cursor_set. cbv zeta. erase; try apply Ho; try apply erase_set1; try apply erase_set2; try apply erase_set_search.
Qed.

Lemma erase_get (get : Z -> option (list Z)) (md_cmp : MDB_cmp_func) (md_pad md_root : Z) (c : cursor)
    (key : option MDB_val) (op : MDB_cursor_op) : op = MDB_FIRST \/ op = MDB_NEXT \/ op = MDB_SET_RANGE ->
  erases (mdb_cursor_get get md_cmp md_pad md_root c key true op) (mdb_cursor_get get md_cmp md_pad md_root c key false op).
Proof.
  intros Hop. unfold mdb_cursor_get. destruct (nz _); [apply erases_fail|].
  assert (forall x y, erases x y -> erases
    (r ← x; let c := o_cur r in Some (Out (o_rc r) (o_key r) (o_data r)
      (if nz (Z.land (mc_flags c) C_DEL) then set_flags c (Z.lxor (mc_flags c) C_DEL) else c)))
    (r ← y; let c := o_cur r in Some (Out (o_rc r) (o_key r) (o_data r)
      (if nz (Z.land (mc_flags c) C_DEL) then set_flags c (Z.lxor (mc_flags c) C_DEL) else c)))) as Hb.
  { intros x y Hxy r Hr Hrc. destruct x as [x|]; [|done]. cbn [mbind option_bind] in Hr. injection Hr as <-.
    cbn [o_rc] in Hrc. by rewrite (Hxy x eq_refl Hrc). }
  destruct Hop as [-> | [-> | ->]].
  - apply (Hb _ _ (erase_first get md_cmp md_pad md_root c)).
  - destruct (negb _); [apply (Hb _ _ (erase_first get md_cmp md_pad md_root c))|apply (Hb _ _ (erase_next get md_pad c))].
  - destruct key as [k|]; [apply (Hb _ _ (erase_set get md_cmp md_pad md_root c k MDB_SET_RANGE false))|].
    apply (Hb _ _ (erases_fail EINVAL c)).
Qed.

(** ** The records as items of the tree *)

(** An item of the tree is a record: an 8-byte transaction number, and the
    words of its ID list. *)
Record rec_item (r : free_rec) (e : MDB_val * MDB_val) : Prop := {
  ri_key : sized 8 e.1;
  ri_txnid : le_val (mv_data e.1) = r.1;
  ri_ids : words e.2 = r.2
}.

Section Instance_.
Variables (get : Z -> option (list Z)) (md_root : Z) (root : list Z) (h : nat) (es : list (MDB_val * MDB_val)) (mt : Z).
Variable recs : list free_rec.
Let md_cmp : MDB_cmp_func := fst (mdb_default_cmp MDB_INTEGERKEY).
Hypothesis Hdb : db_ok get md_cmp md_root (sized 8) num_ord root h es.
Hypothesis Hmt : Z.land mt MDB_TXN_ERROR = 0.
Hypothesis Hitems : Forall2 rec_item recs es.
Abbreviation sim := (sim get md_cmp (sized 8) num_ord root h es mt).

(** On item [n], not at the end. *)
Definition on_record (c : cursor) (n : nat) : Prop := sim c (ACursor (On n) false).

Lemma rec_lookup (n : nat) : match recs !! n with
  | Some r => exists e, es !! n = Some e /\ rec_item r e
  | None => es !! n = None end.
Proof.
  destruct (recs !! n) as [r|] eqn:Er.
  - destruct (Forall2_lookup_l _ _ _ _ _ Hitems Er) as (e & He & Hi). by exists e.
  - apply lookup_ge_None. apply lookup_ge_None in Er. rewrite <- (Forall2_length _ _ _ Hitems). done.
Qed.

Lemma key_bytes (e : MDB_val * MDB_val) (r : free_rec) : rec_item r e ->
  exists bs, bread (mv_data e.1) 0 8 = Some bs /\ le_val bs = r.1.
Proof.
  intros [[[Hs _] H8] Ht _]. exists (mv_data e.1). rewrite bread_in by lia. split; [|done]. by rewrite slice_full by lia.
Qed.

(** A call that finds item [n], or nothing when there is none. *)
Lemma call_yields (c : cursor) (a : acursor) (key : option MDB_val) (op : MDB_cursor_op) (n : nat) :
  sim c a -> op = MDB_FIRST \/ op = MDB_NEXT \/ op = MDB_SET_RANGE -> key_ok (sized 8) op key ->
  (forall r a', astep num_ord es a op key r a' ->
     match es !! n with
     | Some e => r = found e /\ a' = ACursor (On n) false
     | None => r = missing
     end) ->
  yields on_record recs (free_get get md_root c key op) n.
Proof.
  intros Hs Hop Hk Hst. destruct (cursor_get_implements get md_cmp 0 md_root (sized 8) num_ord root h es mt Hmt Hdb c a op key Hs Hk)
    as (r & a' & Er & Hstep & Hsim). specialize (Hst _ _ Hstep). unfold outcome_result, found, missing, error in Hst.
  pose proof (erase_get get md_cmp 0 md_root c key op Hop r Er) as He. unfold free_get, yields. fold md_cmp.
  pose proof (rec_lookup n) as Hn. destruct (recs !! n) as [x|].
  - destruct Hn as (e & En & Hi). rewrite En in Hst. destruct Hst as [Hst ->]. injection Hst as H1 H2 H3.
    destruct (key_bytes e x Hi) as (bs & Hb & Hv). rewrite He by (by left). cbn [mbind option_bind o_rc o_key o_cur].
    exists e.1, bs, (o_cur r). rewrite H1, H2. done.
  - rewrite Hn in Hst. injection Hst as H1 H2 H3. rewrite He by (by right). cbn [mbind option_bind o_rc o_key o_cur].
    exists (o_key r), (o_cur r). by rewrite H1.
Qed.

(** The place of a transaction number. *)
Lemma rank_after (last : Z) : 0 <= last < 2 ^ 64 - 1 -> rank num_ord es (Val 8 (le_bytes 8 (last + 1))) = after recs last.
Proof.
  intros Hl. unfold rank, after. assert (le_val (le_bytes 8 (last + 1)) = last + 1) as Ev.
  { rewrite le_val_bytes. apply Z.mod_small. change (8 * Z.of_nat 8) with 64. lia. }
  clear -Hitems Ev. induction Hitems as [|r e rs es' [_ Ht _] Hall IH]; [done|]. specialize (IH Hall).
  assert (num_ord e.1 (Val 8 (le_bytes 8 (last + 1))) = r.1 - (last + 1)) as En by (unfold num_ord; cbn [mv_data]; lia).
  destruct (decide (r.1 <= last)).
  - rewrite !filter_cons_True by lia. cbn [length]. by rewrite IH.
  - rewrite !filter_cons_False by lia. done.
Qed.

Lemma read_record (c : cursor) (n : nat) (r : free_rec) : on_record c n -> recs !! n = Some r ->
  exists d, free_read get c = Some (inl d) /\ words d = r.2.
Proof.
  intros Hs Hr. pose proof (rec_lookup n) as Hn. rewrite Hr in Hn. destruct Hn as (e & Ee & [_ _ Hw]).
  inversion Hs as [|? ? m lft cur rgt ki Hset E1 E2]; subst. 
  pose proof (settled_items _ _ _ _ _ _ _ _ _ _ _ _ _ _ _ Hset) as Hes. destruct Hset as [Hloc Hki Hkr _ _ _ Hpos].
  cbn [a_pos] in Hpos. unfold pos_of in Hpos. destruct (Z.ltb_spec ki (zlen cur)); [|done]. injection Hpos as ->.
  pose proof (aget_in cur ki ltac:(lia)) as Hg. pose proof (lookup_mid lft cur rgt ki _ Hg) as Hm.
  rewrite <- Hes, Ee in Hm. injection Hm as ->.
  pose proof (loc_tree _ _ _ _ _ _ _ _ _ _ _ _ _ Hloc) as Hleaf. cbn [tree] in Hleaf.
  destruct (leaf_item get md_cmp (sized 8) num_ord m cur ki _ Hleaf Hg) as (Hk & _ & Hd & _).
  pose proof Hleaf as (Hwf & Hl & _).
  unfold free_read. rewrite (top_pg_ok c m) by apply Hloc. cbn [mbind option_bind]. rewrite Hki. cbn [mbind option_bind].
  rewrite mp_ptr_ok by done. cbn [mbind option_bind]. rewrite (mdb_node_read_ok get c m ki _ Hwf Hl Hk Hd). cbn [mbind option_bind].
  eexists. split; [done|]. done.
Qed.

#[export] Instance free_reader : FreeReader (mdb_cursor_init mt) (free_get get md_root) (free_read get) recs.
Proof.
  refine {| at_rec := on_record |}.
  - apply (call_yields _ (ACursor CursorSim.Fresh false)); [constructor|by left|by intros|].
    intros r a' Hst. inversion Hst; subst; try done; simplify_eq; by simplify_option_eq.
  - intros last Hl. apply (call_yields _ (ACursor CursorSim.Fresh false)); [constructor|by right; right| |].
    + intros _ key E. assert (key = Val 8 (le_bytes 8 (last + 1))) as -> by congruence. split; [split; [reflexivity|apply le_bytes_byte]|done].
    + rewrite <- (rank_after last Hl). intros r a' Hst. inversion Hst; subst; try done; by simplify_option_eq.
  - intros c n Hc. apply (call_yields c (ACursor (On n) false)); [done|by right; left|by intros|].
    intros r a' Hst. inversion Hst; subst; try done; cbn [a_eof a_pos next_pos] in *; simplify_option_eq; try done.
    destruct (es !! S n); intuition congruence.
  - apply read_record.
Qed.
End Instance_.

(** C6: [mdb_page_alloc], reading the free-page database with the code's own
    cursor, always ends, and hands out a loose page, a run of pages from the
    free list or the records read, each of which it takes out of them, or the
    pages at the end of the map when the free list has no such run; on failure
    it marks the transaction and loses no free page.  The records read are the
    next ones after the last one read before, and every one of them is of a
    transaction older than the snapshot of every live reader; the state is
    ready for the next call. *)
Theorem page_alloc_correct (get : Z -> option (list Z)) (md_root : Z) (root : list Z) (h : nat)
    (es : list (MDB_val * MDB_val)) (recs : list free_rec) (junk : nat -> Z) (mt_txnid : Z)
    (readers : option (list MDB_reader * Z)) (mem_ok : Z -> bool) (me_flags me_map me_psize me_maxpg : Z)
    (fuel : nat) (malloc : option Z) (num : Z) (st : alloc_state) :
  db_ok get cmp_cint md_root (sized 8) num_ord root h es -> Z.land (a_mt_flags st) MDB_TXN_ERROR = 0 ->
  Forall2 rec_item recs es -> alloc_input me_flags num readers mt_txnid recs st -> (length recs < fuel)%nat ->
  exists m r st', page_alloc_db get md_root junk mt_txnid readers mem_ok me_flags me_map me_psize me_maxpg
      fuel malloc num st = Some (r, st') /\
    alloc_outcome me_maxpg num malloc mem_ok mt_txnid readers (take m (drop (after recs (me_pglast st)) recs)) st r st' /\
    alloc_inv readers mt_txnid recs st'.
Proof.
  intros Hdb Hmt Hit Hin Hf. pose proof (free_reader get md_root root h es (a_mt_flags st) recs Hdb Hmt Hit) as FR.
  unfold page_alloc_db. destruct (page_alloc_ok junk mt_txnid readers cursor (mdb_cursor_init (a_mt_flags st)) (free_get get md_root) (free_read get)
    mem_ok recs me_flags me_map me_psize me_maxpg num malloc st Hin fuel Hf) as (m & r & st' & E & Ho).
  exists m, r, st'. split; [exact E|]. split; [done|]. by eapply page_alloc_inv.
Qed.

(** A free-page database of one page: transaction 3 freed the pages 11 and
    12, transaction 5 page 9.  Keys and data are words. *)
Definition word_val (l : list Z) : MDB_val := Val (8 * zlen l) (concat (le_bytes 8 <$> l)).
Definition free_recs : list free_rec := [(3, [2; 12; 11]); (5, [1; 9])].
Definition free_items : list (MDB_val * MDB_val) := (fun r => (word_val [r.1], word_val r.2)) <$> free_recs.
Definition free_root : list Z := Eval vm_compute in
  foldl (fun m '(k, d) => match mdb_node_add 0 54 128 (fun _ => inl 0) m (p_num m) (Some k) (Some d) 0 0 with
                          | Some (AddOk m _) => m | _ => [] end)
    (le_bytes 8 2 ++ le_bytes 2 0 ++ le_bytes 2 2 ++ le_bytes 2 16 ++ le_bytes 2 128 ++ replicate 112 0) free_items.
Definition free_map (pgno : Z) : option (list Z) := if pgno =? 2 then Some free_root else None.

(** Nothing allocated yet in transaction 8; the file has 20 pages. *)
Definition alloc0 : alloc_state := AllocState [] 0 no_dirty 100 None 0 0 20 0.

(** An 8-byte value, as a boolean. *)
Definition sized8b (v : MDB_val) : bool :=
  (mv_size v =? zlen (mv_data v)) && forallb (fun b => (0 <=? b) && (b <? 256)) (mv_data v) && (mv_size v =? 8).

Lemma sized8b_sound (v : MDB_val) : sized8b v = true -> sized 8 v.
Proof. intros [H1 H2]%andb_prop. split; [by apply val_ok_dec|lia]. Qed.

Definition cint_sortedb (m : list Z) : bool :=
  let ks := seqZ 0 (p_num m) in
  forallb (fun j => sized8b (n_key m j)) ks &&
  forallb (fun j => forallb (fun j' => (j' <=? j) || (num_ord (n_key m j) (n_key m j') <? 0)) ks) ks.

Lemma cint_order (m : list Z) : p_leaf m = true -> eff_cmp m cmp_cint = Some cmp_cint -> cint_sortedb m = true ->
  page_order cmp_cint (sized 8) num_ord m.
Proof.
  intros Hl He Hs. exists cmp_cint, (cmp_cint_order 8). split; [done|]. split; [done|].
  unfold cint_sortedb in Hs. apply andb_true_iff in Hs as [H1 H2]. unfold keys_sorted, first_key. rewrite Hl. split.
  - intros j Hj. apply sized8b_sound. apply (forallb_seqZ _ _ j H1). lia.
  - intros j j' Hj Hjj Hj'. pose proof (forallb_seqZ _ _ j' (forallb_seqZ _ _ j H2 ltac:(lia)) ltac:(lia)) as Hx.
    cbv beta in Hx. change (num_ord (n_key m j) (n_key m j') < 0). lia.
Qed.

Lemma free_tree : db_ok free_map cmp_cint 2 (sized 8) num_ord free_root 0 free_items.
Proof.
  right. split; [reflexivity|closed| |done|lia].
  split_and!; try reflexivity; [apply page_wfb_sound; reflexivity|by apply cint_order|].
  apply (forall_lt_2 (fun k => F_ISSET (n_flags free_root k) F_DUPDATA = false /\
                               item free_map free_root k = aget free_items k)); split; reflexivity.
Qed.

Lemma free_rec_items : Forall2 rec_item free_recs free_items.
Proof.
  assert (forall r d, sized8b (word_val [r]) = true -> le_val (mv_data (word_val [r])) = r -> words (word_val d) = d ->
    rec_item (r, d) (word_val [r], word_val d)) as Hr.
  { intros r d Hs He Hw. by split; [apply sized8b_sound|..]. }
  change (Forall2 rec_item [(3, [2; 12; 11]); (5, [1; 9])]
    [(word_val [3], word_val [2; 12; 11]); (word_val [5], word_val [1; 9])]).
  apply Forall2_cons_2; [|apply Forall2_cons_2; [|by apply Forall2_nil_2]]; apply Hr; reflexivity.
Qed.

(** A reader of the snapshot of transaction 6. *)
Definition readers6 : option (list MDB_reader * Z) := Some ([Reader 1 6], 1).

Lemma alloc0_free : free_pages alloc0 (drop (after free_recs (me_pglast alloc0)) free_recs) = [12; 11; 9].
Proof. reflexivity. Qed.

Lemma alloc0_input : alloc_input 0 2 readers6 8 free_recs alloc0.
Proof.
  split; [split|..]; rewrite ?alloc0_free; cbn [alloc0 me_pglast mt_next_pgno a_dirty mt_dirty_room me_pgoldest].
  - apply Forall_cons. split; [split|apply Forall_cons; split; [split|by apply Forall_nil]]; try closed.
    + intros i j. change (rec_ids _) with [12; 11]. change (zlen _) with 2. intros. assert (i = 0 /\ j = 1) as [-> ->] by lia. closed.
    + intros i j. change (rec_ids _) with [9]. change (zlen _) with 1. lia.
  - repeat constructor.
  - lia.
  - split; [done|..]; change (free_pages _ _) with [12; 11; 9]; [apply (bool_decide_unpack _); reflexivity| |done].
    repeat constructor; lia.
  - intros rs n [= <- <-]. closed.
  - split; [closed|]. intros rs n k [= <- <-] Hk _. assert (k = 0) as -> by lia. closed.
  - lia.
  - repeat constructor; lia.
  - exact no_dirty_wf.
  - change (id2_count no_dirty) with 0. closed.
  - intros e He. change (id2_list no_dirty) with (@nil MDB_ID2) in He. by apply not_elem_of_nil in He.
  - lia.
  - lia.
  - done.
Qed.

Lemma page_alloc_witness : exists m r st', page_alloc_db free_map 2 (fun _ => 0) 8 readers6 (fun _ => true) 0 0 4096 100 3 (Some 77) 2 alloc0 = Some (r, st') /\
    alloc_outcome 100 2 (Some 77) (fun _ => true) 8 readers6 (take m (drop (after free_recs (me_pglast alloc0)) free_recs))
      alloc0 r st' /\ alloc_inv readers6 8 free_recs st'.
Proof.
  apply (page_alloc_correct free_map 2 free_root 0 free_items free_recs (fun _ => 0) 8 readers6 (fun _ => true) 0 0 4096 100 3
    (Some 77) 2 alloc0); [exact free_tree|reflexivity|exact free_rec_items|exact alloc0_input|apply Nat.ltb_lt; reflexivity].
Defined.

(** It reads the record of transaction 3 and gives its two pages. *)
Example page_alloc_example : option_map (fun x => (x.1, head_ids (a_pghead x.2), me_pglast x.2, mt_next_pgno x.2))
  (page_alloc_db free_map 2 (fun _ => 0) 8 readers6 (fun _ => true) 0 0 4096 100 3 (Some 77) 2 alloc0) =
  Some (NewPages 77 11, [], 3, 20).
Proof. vm_compute. reflexivity. Qed.
