(* ===== verification/PageSplit.v ===== *)
(** * Splitting a page ([mdb_page_split], [src/LegacyDatabase/mdb.c])

    What [mdb_page_split] does to the pages: the choice of the split point,
    the separator key for the parent, the distribution of the old nodes and
    the new one over the old page and its new right sibling, and the insertion
    of the separator into a parent that has room.  A temporary copy of the
    page serves both as the list of the old nodes' offsets and as the left
    page under construction.  Splitting the parent in turn, and the cursors of
    the transaction, are not part of this file. *)
From S2P Require Import Prelude.
From S2P Require Import Bytes.
From S2P Require Import Page.
From S2P Require Import PageSpec.
From S2P Require Import NodeOps.
From S2P Require Import NodeDel.
From S2P Require Import Cmp.
From S2P Require Import NodeSearch.
From S2P Require Import Cursor.
From S2P Require Import Tree.
From Stdlib Require Import ZArith Lia.
From stdpp Require Import base numbers option list.
Open Scope Z_scope.

Definition MDB_MINKEYS : Z := 2.
Definition MDB_APPEND : Z := 0x20000.

(** [env->me_nodemax], from the page size. *)
Definition nodemax (me_psize : Z) : Z := Z.land ((me_psize - PAGEHDRSZ) / MDB_MINKEYS) (-2) - 2.

(** The key and data of a new node, its page number and flags. *)
Record new_node := NewNode {
  nn_key : MDB_val;
  nn_data : option MDB_val;
  nn_pgno : Z;
  nn_flags : Z
}.

(** The two halves of the page, the index of the new node and whether it went
    to the right page; or an error, which marks the transaction as failed. *)
Inductive split_result :=
  | SplitOk (mp rp : list Z) (ki : Z) (side : bool) (ofp : option (Z * list Z))
  | SplitFail (rc : Z).

(** The parent, the two halves, where the page was split, the separator, and
    the place of the new node; a parent that has to be split first; or an
    error. *)
Inductive split_outcome :=
  | Divided (pp mp rp : list Z) (split_indx : Z) (sep : MDB_val) (ki : Z) (side : bool) (ofp : option (Z * list Z))
  | ParentFull (sep : MDB_val)
  | Failed (rc : Z).

Section Split.
Variables (md_pad me_psize : Z).
Variable page_new : Z -> Z + (Z * list Z).
Let me_nodemax := nodemax me_psize.
Let node_add := mdb_node_add md_pad me_nodemax me_psize page_new.

(** ** The copy *)

(** [copy] is the memory of the page from [mdb_page_malloc]. *)
Definition init_copy (copy mp : list Z) : option (list Z) :=
  pgno ← bread mp 0 8;
  copy ← bwrite copy 0 pgno;
  fl ← mp_flags mp;
  copy ← set16 copy 10 fl;
  copy ← set_lower copy PAGEHDRSZ;
  set_upper copy me_psize.

(** [for (i=0, j=0; i<nkeys; i++) { if (i == newindx) copy->mp_ptrs[j++] = 0;
    copy->mp_ptrs[j++] = mp->mp_ptrs[i]; }]; [n] is [nkeys - i]. *)
Fixpoint prepare (n : nat) (copy mp : list Z) (i j newindx : Z) : option (list Z) :=
  match n with
  | O => Some copy
  | S n =>
    '(copy, j) ← (if i =? newindx then copy ← set_ptr copy j 0; Some (copy, j + 1) else Some (copy, j));
    p ← mp_ptr mp i;
    copy ← set_ptr copy j p;
    prepare n copy mp (i + 1) (j + 1) newindx
  end.

(** ** The split point *)

(** The running size after node [i]. *)
Definition add_psize (mp copy : list Z) (leaf : bool) (psize i newindx nsize : Z) : option Z :=
  if i =? newindx then Some (psize + nsize)
  else
  o ← mp_ptr copy i;
  ks ← NODEKSZ mp o;
  let psize := psize + (NODESIZE + ks + 2) in
  psize ← (if leaf then
             fl ← get16 mp (o + 4);
             if F_ISSET fl F_BIGDATA then Some (psize + 8) else d ← NODEDSZ mp o; Some (psize + d)
           else Some psize);
  Some (EVEN psize).

(** [for (; i!=k; i+=j) { ...; if (psize > pmax || i == k-j) { split_indx = i + (j<0); break; } }] *)
Fixpoint split_loop (fuel : nat) (mp copy : list Z) (leaf : bool) (i j k psize newindx nsize pmax split_indx : Z)
  : option Z :=
  if i =? k then Some split_indx
  else
  match fuel with
  | O => None
  | S fuel =>
    psize ← add_psize mp copy leaf psize i newindx nsize;
    if (pmax <? psize) || (i =? k - j) then Some (i + if j <? 0 then 1 else 0)
    else split_loop fuel mp copy leaf (i + j) j k psize newindx nsize pmax split_indx
  end.

Definition find_split (mp copy : list Z) (leaf : bool) (nkeys newindx nsize : Z) : option Z :=
  let pmax := me_psize - PAGEHDRSZ in
  let split_indx := (nkeys + 1) / 2 in
  if (nkeys <? 20) || (pmax / 16 <? nsize) || (nkeys <=? newindx) then
    let '(i, j, k) :=
      if (newindx <=? split_indx) || (nkeys <=? newindx)
      then (0, 1, if nkeys <=? newindx then nkeys else split_indx + 2)
      else (nkeys, -1, split_indx - 1) in
    split_loop (Z.to_nat (nkeys + 2)) mp copy leaf i j k 0 newindx nsize pmax split_indx
  else Some split_indx.

Definition new_size (leaf : bool) (nn : new_node) : option Z :=
  if leaf then d ← nn_data nn; Some (EVEN (mdb_leaf_size me_nodemax (nn_key nn) d))
  else Some (EVEN (mdb_branch_size (Some (nn_key nn)))).

(** The separator for the parent. *)
Definition separator (mp copy : list Z) (newkey : MDB_val) (split_indx newindx : Z) : option MDB_val :=
  if split_indx =? newindx then Some newkey
  else o ← mp_ptr copy split_indx; key_at mp o.

(** ** Moving the nodes *)

(** The data of a leaf node: what [mdb_node_add] reads of it. *)
Definition node_data (mp : list Z) (o : Z) : option MDB_val :=
  fl ← get16 mp (o + 4);
  dsz ← NODEDSZ mp o;
  dp ← NODEDATA mp o;
  bs ← bread mp dp (if F_ISSET fl F_BIGDATA then 8 else dsz);
  Some (Val dsz bs).

(** The node at offset [o] as one to add. *)
Definition old_node (mp : list Z) (leaf : bool) (o : Z) : option new_node :=
  key ← key_at mp o;
  fl ← get16 mp (o + 4);
  if leaf then d ← node_data mp o; Some (NewNode key (Some d) 0 fl)
  else pgno ← NODEPGNO mp o; Some (NewNode key None pgno fl).

(** The first node of a branch page needs no key. *)
Definition drop_key (leaf : bool) (j : Z) (nn : new_node) : new_node :=
  if negb leaf && (j =? 0) then NewNode (Val 0 []) (nn_data nn) (nn_pgno nn) (nn_flags nn) else nn.

(** [do { ... } while (i != split_indx)]: [in_copy] tells that the left page is
    being filled; [ki] is [mc->mc_ki[mc->mc_top]]. *)
Fixpoint move_loop (fuel : nat) (mp : list Z) (leaf : bool) (nn : new_node) (nkeys newindx split_indx : Z)
    (in_copy : bool) (rp copy : list Z) (i j ki : Z) (ofp : option (Z * list Z))
  : option (Z + (list Z * list Z * Z * option (Z * list Z))) :=
  match fuel with
  | O => None
  | S fuel =>
    '(x, ki) ← (if i =? newindx then Some (nn, j)
                else o ← mp_ptr copy i; x ← old_node mp leaf o; Some (x, ki));
    let x := drop_key leaf j x in
    r ← node_add (if in_copy then copy else rp) j (Some (nn_key x)) (nn_data x) (nn_pgno x) (nn_flags x);
    match r with
    | AddFail rc _ => Some (inl rc)
    | AddOk dst o =>
      let '(rp, copy) := if in_copy : bool then (rp, dst) else (dst, copy) in
      let ofp := match o with Some p => Some p | None => ofp end in
      let '(i, j, in_copy) := if i =? nkeys then (0, 0, true) else (i + 1, j + 1, in_copy) in
      if i =? split_indx then Some (inr (rp, copy, ki, ofp))
      else move_loop fuel mp leaf nn nkeys newindx split_indx in_copy rp copy i j ki ofp
    end
  end.

(** [for (i=0; i<nkeys; i++) mp->mp_ptrs[i] = copy->mp_ptrs[i];] *)
Fixpoint copy_ptrs (n : nat) (mp copy : list Z) (i : Z) : option (list Z) :=
  match n with
  | O => Some mp
  | S n => p ← mp_ptr copy i; mp ← set_ptr mp i p; copy_ptrs n mp copy (i + 1)
  end.

(** The left half from the copy back into the page. *)
Definition copy_back (mp copy : list Z) : option (list Z) :=
  nkeys ← NUMKEYS copy;
  mp ← copy_ptrs (Z.to_nat nkeys) mp copy 0;
  lower ← mp_lower copy;
  mp ← set_lower mp lower;
  upper ← mp_upper copy;
  mp ← set_upper mp upper;
  d ← mp_ptr mp (nkeys - 1);
  s ← mp_ptr copy (nkeys - 1);
  bs ← bread copy s (me_psize - upper);
  bwrite mp d bs.

(** ** The split of a page of nodes *)

(** First part: the copy, the split point and the separator. *)
Definition plan_split (mp copy : list Z) (nn : new_node) (newindx : Z) : option (list Z * Z * MDB_val) :=
  nkeys ← NUMKEYS mp;
  leaf ← IS_LEAF mp;
  nsize ← new_size leaf nn;
  copy ← init_copy copy mp;
  copy ← prepare (Z.to_nat nkeys) copy mp 0 0 newindx;
  split_indx ← find_split mp copy leaf nkeys newindx nsize;
  sep ← separator mp copy (nn_key nn) split_indx newindx;
  Some (copy, split_indx, sep).

(** Second part, after the parent has the separator. *)
Definition move_nodes (mp rp copy : list Z) (nn : new_node) (newindx split_indx : Z) : option split_result :=
  nkeys ← NUMKEYS mp;
  leaf ← IS_LEAF mp;
  r ← move_loop (Z.to_nat (nkeys + 1)) mp leaf nn nkeys newindx split_indx false rp copy split_indx 0 newindx None;
  match r with
  | inl rc => Some (SplitFail rc)
  | inr (rp, copy, ki, ofp) =>
    mp ← copy_back mp copy;
    Some (SplitOk mp rp ki (negb (newindx <? split_indx)) ofp)
  end.

(** The separator in the parent [pp], after the child at index [pki]: [None]
    as the page when the parent has to be split first. *)
Definition add_separator (pp : list Z) (pki : Z) (sep : MDB_val) (rpgno : Z) : option (option add_result) :=
  left ← SIZELEFT pp;
  if left <? mdb_branch_size (Some sep) then Some None
  else r ← node_add pp (pki + 1) (Some sep) None rpgno 0; Some (Some r).

(** The whole split of a page of nodes whose parent is [pp]. *)
Definition split_page (mp rp copy pp : list Z) (pki rpgno : Z) (nn : new_node) (newindx : Z)
  : option split_outcome :=
  '(copy, split_indx, sep) ← plan_split mp copy nn newindx;
  r ← add_separator pp pki sep rpgno;
  match r with
  | None => Some (ParentFull sep)
  | Some (AddFail rc _) => Some (Failed rc)
  | Some (AddOk pp _) =>
    r ← move_nodes mp rp copy nn newindx split_indx;
    match r with
    | SplitFail rc => Some (Failed rc)
    | SplitOk mp rp ki side ofp => Some (Divided pp mp rp split_indx sep ki side ofp)
    end
  end.

(** [MDB_APPEND]: only the new node goes to the right page. *)
Definition append_split (mp rp : list Z) (nn : new_node) : option split_result :=
  r ← node_add rp 0 (Some (nn_key nn)) (nn_data nn) (nn_pgno nn) (nn_flags nn);
  match r with
  | AddFail rc _ => Some (SplitFail rc)
  | AddOk rp o => Some (SplitOk mp rp 0 true o)
  end.

(** ** The split of a page of fixed-size keys *)

(** The new key goes to the left page ([x < 0]). *)
Definition leaf2_left (mp rp : list Z) (newkey : MDB_val) (newindx split_indx rsize : Z)
  : option (list Z * list Z * Z * bool * MDB_val) :=
  let ksize := md_pad in
  let split := PAGEHDRSZ + split_indx * ksize in
  let ins := PAGEHDRSZ + newindx * ksize in
  bs ← bread mp split rsize;
  rp ← bwrite rp PAGEHDRSZ bs;
  sep ← bread rp PAGEHDRSZ ksize;
  mp ← bmove mp (ins + ksize) ins ((split_indx - newindx) * ksize);
  bs ← bread (mv_data newkey) 0 ksize;
  mp ← bwrite mp ins bs;
  lo ← mp_lower mp; mp ← set_lower mp (lo + 2);
  up ← mp_upper mp; mp ← set_upper mp (up - (ksize - 2));
  Some (mp, rp, newindx, false, Val ksize sep).

(** The new key goes to the right page, at index [x]. *)
Definition leaf2_right (mp rp : list Z) (newkey : MDB_val) (x split_indx rsize : Z) (sep : list Z)
  : option (list Z * list Z * Z * bool * MDB_val) :=
  let ksize := md_pad in
  let split := PAGEHDRSZ + split_indx * ksize in
  rp ← (if nz x then bs ← bread mp split (x * ksize); bwrite rp PAGEHDRSZ bs else Some rp);
  let ins := PAGEHDRSZ + x * ksize in
  bs ← bread (mv_data newkey) 0 ksize;
  rp ← bwrite rp ins bs;
  bs ← bread mp (split + x * ksize) (rsize - x * ksize);
  rp ← bwrite rp (ins + ksize) bs;
  lo ← mp_lower rp; rp ← set_lower rp (lo + 2);
  up ← mp_upper rp; rp ← set_upper rp (up - (ksize - 2));
  Some (mp, rp, x, true, Val ksize sep).

Definition split_leaf2 (mp rp : list Z) (newkey : MDB_val) (newindx : Z)
  : option (list Z * list Z * Z * bool * MDB_val) :=
  nkeys ← NUMKEYS mp;
  let split_indx := (nkeys + 1) / 2 in
  let x := newindx - split_indx in
  let ksize := md_pad in
  let split := PAGEHDRSZ + split_indx * ksize in
  let rsize := u32 ((nkeys - split_indx) * ksize) in
  let lsize := u32 ((nkeys - split_indx) * 2) in
  lo ← mp_lower mp; mp ← set_lower mp (lo - lsize);
  lo ← mp_lower rp; rp ← set_lower rp (lo + lsize);
  up ← mp_upper mp; mp ← set_upper mp (up + (rsize - lsize));
  up ← mp_upper rp; rp ← set_upper rp (up - (rsize - lsize));
  sep ← (if newindx =? split_indx then bread (mv_data newkey) 0 ksize else bread mp split ksize);
  if x <? 0 then leaf2_left mp rp newkey newindx split_indx rsize
  else leaf2_right mp rp newkey x split_indx rsize sep.
End Split.

(** ** The content of a page, without padding *)

Definition hdr_raw (leaf : bool) (h : list Z) : Z :=
  8 + g16 h 6 + if leaf then if F_ISSET (g16 h 4) F_BIGDATA then 8 else g16 h 0 + 65536 * g16 h 2 else 0.
Definition raw_of (leaf : bool) (img : list Z) : list Z := slice img 0 (hdr_raw leaf img).

(** The encoded nodes of a page, in key order. *)
Definition p_raw (m : list Z) : list (list Z) := raw_of (p_leaf m) <$> p_nodes m.

(** The encoding of a node to add. *)
Definition image (leaf : bool) (nn : new_node) : list Z :=
  if leaf then let d := default (Val 0 []) (nn_data nn) in
    leaf_node (nn_key nn) (mv_size d) (nn_flags nn) (in_page (nn_flags nn) d)
  else branch_node (Some (nn_key nn)) (nn_pgno nn).

(** What [mdb_node_add] needs of a node besides room, for a node that goes
    entirely into the page. *)
Record addable (me_nodemax : Z) (leaf : bool) (nn : new_node) : Prop := {
  ad_key : val_ok (nn_key nn);
  ad_ksize : mv_size (nn_key nn) < 65536;
  ad_max : zlen (image leaf nn) <= me_nodemax;
  ad_data : leaf = true -> exists d, nn_data nn = Some d /\ Forall is_byte (mv_data d) /\
    0 <= mv_size d < 2 ^ 32 /\ F_ISSET (nn_flags nn) MDB_RESERVE = false /\
    if F_ISSET (nn_flags nn) F_BIGDATA then 8 <= zlen (mv_data d) else mv_size d = zlen (mv_data d)
}.

Lemma hdr_raw_slice (leaf : bool) (img : list Z) (n : Z) : 8 <= n <= zlen img ->
  hdr_raw leaf (slice img 0 n) = hdr_raw leaf img.
Proof. intros Hn. unfold hdr_raw. by rewrite !(g16_slice img 0 n) by lia. Qed.

Lemma hdr_raw_app (leaf : bool) (bs pad : list Z) : 8 <= zlen bs ->
  hdr_raw leaf (bs ++ pad) = hdr_raw leaf bs.
Proof.
  intros H8. pose proof (zlen_nonneg pad). rewrite <- (hdr_raw_slice leaf (bs ++ pad) (zlen bs)) by zlia.
  f_equal. rewrite slice_app_l by lia. apply slice_all.
Qed.

Lemma raw_of_app (leaf : bool) (bs pad : list Z) : 8 <= zlen bs -> hdr_raw leaf bs = zlen bs ->
  raw_of leaf (bs ++ pad) = bs.
Proof.
  intros H8 Hr. unfold raw_of. rewrite hdr_raw_app, Hr, slice_app_l by lia. apply slice_all.
Qed.

Lemma EVEN_even (n : Z) : EVEN (2 * n) = 2 * n.
Proof. rewrite EVEN_eq. replace (2 * n + 1) with (1 + n * 2) by lia. by rewrite Z.div_add by lia. Qed.

Lemma EVEN_iff (x : Z) : EVEN x = x <-> exists q, x = 2 * q.
Proof. split; [intros <-; rewrite EVEN_eq; eauto|intros [q ->]; apply EVEN_even]. Qed.

Lemma EVEN_add (a b : Z) : EVEN a = a -> EVEN (a + b) = a + EVEN b.
Proof.
  intros Ha. rewrite EVEN_eq in Ha. rewrite <- Ha. rewrite !EVEN_eq.
  replace (2 * ((a + 1) / 2) + b + 1) with (b + 1 + (a + 1) / 2 * 2) by lia. rewrite Z.div_add by lia. lia.
Qed.

Lemma EVEN_idem (n : Z) : EVEN (EVEN n) = EVEN n.
Proof. rewrite (EVEN_eq n). apply EVEN_even. Qed.

Lemma in_page_len (nn : new_node) (d : MDB_val) :
  (if F_ISSET (nn_flags nn) F_BIGDATA then 8 <= zlen (mv_data d) else mv_size d = zlen (mv_data d)) ->
  zlen (in_page (nn_flags nn) d) = if F_ISSET (nn_flags nn) F_BIGDATA then 8 else mv_size d.
Proof.
  intros Hd. unfold in_page. destruct (F_ISSET _ _); [apply zlen_slice; lia|lia].
Qed.

(** The header of an encoded node states its length. *)
Lemma image_hdr (me_nodemax : Z) (leaf : bool) (nn : new_node) : addable me_nodemax leaf nn ->
  8 <= zlen (image leaf nn) /\ hdr_raw leaf (image leaf nn) = zlen (image leaf nn).
Proof.
  intros [Hk Hk16 _ Hd]. pose proof Hk as [Hks _]. pose proof (zlen_nonneg (mv_data (nn_key nn))).
  destruct leaf; cbn [image].
  - destruct (Hd eq_refl) as (d & -> & Hb & Hsz & _ & Hfl).
    change (default (Val 0 []) (Some d)) with d.
    pose proof (in_page_len nn d Hfl) as Hpl. pose proof (zlen_nonneg (in_page (nn_flags nn) d)).
    rewrite leaf_node_len. split; [lia|].
    pose proof (hdr_raw_slice true (leaf_node (nn_key nn) (mv_size d) (nn_flags nn) (in_page (nn_flags nn) d)) 8) as E.
    rewrite leaf_node_len in E. rewrite <- E by lia. clear E. rewrite leaf_node_hdr. unfold hdr_raw, node_hdr.
    rewrite (le_bytes_app 2 2).
    destruct (g16_hdr (mv_size d) (Z.shiftr (mv_size d) (8 * Z.of_nat 2)) (nn_flags nn) (mv_size (nn_key nn)))
      as (-> & -> & -> & ->).
    rewrite BIGDATA_u16, (uwrap_small 16 (mv_size (nn_key nn))) by lia. rewrite Hpl, Hks.
    destruct (F_ISSET (nn_flags nn) F_BIGDATA); [done|]. f_equal.
    rewrite Z.shiftr_div_pow2 by lia. change (8 * Z.of_nat 2) with 16.
    rewrite (uwrap_small 16 (mv_size d / 2 ^ 16)).
    + unfold uwrap. pose proof (Z.div_mod (mv_size d) (2 ^ 16)). lia.
    + split; [apply Z.div_pos; lia|]. apply Z.div_lt_upper_bound; lia.
  - unfold branch_node. split; [arr; lia|]. rewrite app_assoc.
    set (h := le_bytes 6 _ ++ le_bytes 2 _). assert (zlen h = 8) as Hh by (unfold h; arr; lia).
    rewrite hdr_raw_app by lia. unfold hdr_raw, h. change 6%nat with (2 + (2 + 2))%nat.
    rewrite (le_bytes_app 2), (le_bytes_app 2 2), app_assoc, <- app_assoc.
    match goal with |- context [g16 ((le_bytes 2 ?a ++ le_bytes 2 ?b) ++ le_bytes 2 ?c ++ _) 6] =>
      destruct (g16_hdr a b c (mv_size (nn_key nn))) as (_ & _ & _ & ->) end.
    rewrite (uwrap_small 16) by lia. arr. lia.
Qed.

(** ** Adding a node at the end of a page *)

Lemma wf_flags_leaf (m m' : list Z) : 16 <= zlen m -> zlen m' = zlen m -> slice m' 0 12 = slice m 0 12 ->
  p_flags m' = p_flags m.
Proof.
  intros Hm Hl E. unfold p_flags.
  pose proof (g16_slice m' 0 12 10) as E1. pose proof (g16_slice m 0 12 10) as E2.
  change (0 + 10) with 10 in E1, E2. rewrite <- E1, <- E2 by lia. by rewrite E.
Qed.

Lemma inserted_last (m m' bs : list Z) : page_wf m -> inserted m (p_num m) bs m' -> 8 <= zlen bs ->
  hdr_raw (p_leaf m) bs = zlen bs ->
  p_raw m' = p_raw m ++ [bs] /\ p_num m' = p_num m + 1 /\ p_leaf m' = p_leaf m.
Proof.
  intros Hwf [Hwf' Hhead (pad & _ & Hn) Hlen Hlow Hup Hptr Hkept] H8 Hr.
  assert (p_leaf m' = p_leaf m) as Hl.
  { unfold p_leaf. f_equal. apply wf_flags_leaf; auto. apply Hwf. }
  pose proof (wf_num _ Hwf) as H0. pose proof (zlen_p_nodes m H0) as Hz.
  rewrite take_ge, drop_ge in Hn by (unfold zlen in Hz; lia).
  split_and!; [|unfold p_num; rewrite Hlow|done].
  - unfold p_raw. rewrite Hl, Hn, !fmap_app. cbn [fmap list_fmap]. rewrite raw_of_app by done. done.
  - replace (p_lower m + 2 - 16) with (p_lower m - 16 + 1 * 2) by lia. apply Z.div_add. lia.
Qed.

Section Adding.
Variables (md_pad me_psize : Z) (page_new : Z -> Z + (Z * list Z)).
Let me_nodemax := nodemax me_psize.
Let node_add := mdb_node_add md_pad me_nodemax me_psize page_new.

Lemma add_last (dst : list Z) (nn : new_node) : page_wf dst -> addable me_nodemax (p_leaf dst) nn ->
  EVEN (zlen (image (p_leaf dst) nn)) + 2 <= p_upper dst - p_lower dst ->
  exists dst', node_add dst (p_num dst) (Some (nn_key nn)) (nn_data nn) (nn_pgno nn) (nn_flags nn) =
      Some (AddOk dst' None) /\ inserted dst (p_num dst) (image (p_leaf dst) nn) dst'.
Proof.
  intros Hwf [Hk Hk16 Hmax Hd] Hroom. pose proof (wf_num _ Hwf). pose proof Hk as [Hks _].
  destruct (p_leaf dst) eqn:Hl; cbn [image] in *.
  - destruct (Hd eq_refl) as (d & Ed & Hb & Hsz & Hres & Hfl). rewrite Ed in *.
    change (default (Val 0 []) (Some d)) with d in *. rewrite leaf_node_len, <- Hks in Hroom, Hmax.
    apply (node_add_leaf_ok md_pad me_nodemax me_psize page_new dst (p_num dst) (nn_key nn) d); auto; try lia.
    destruct (F_ISSET (nn_flags nn) F_BIGDATA); [done|]. split; [done|lia].
  - unfold branch_node in Hroom. autorewrite with arr in Hroom.
    apply (node_add_branch_ok md_pad me_nodemax me_psize page_new dst (p_num dst) (Some (nn_key nn))); auto; try lia.
    + intros k [= <-]. done.
    + unfold INDXSIZE, NODESIZE. rewrite Hks.
      replace (8 + zlen (mv_data (nn_key nn))) with (Z.of_nat 6 + (Z.of_nat 2 + zlen (mv_data (nn_key nn)))) by lia. lia.
Qed.
End Adding.

(** ** The nodes of a page as nodes to add *)

(** Node [k] of page [m]. *)
Definition p_node (m : list Z) (k : Z) : new_node :=
  NewNode (n_key m k)
    (if p_leaf m then Some (Val (n_lohi m k)
       (slice m (n_dofs m k) (if F_ISSET (n_flags m k) F_BIGDATA then 8 else n_lohi m k))) else None)
    (if p_leaf m then 0 else n_pgno m k) (n_flags m k).

Lemma old_node_ok (m : list Z) (k : Z) : page_wf m -> 0 <= k < p_num m ->
  old_node m (p_leaf m) (p_ptr m k) = Some (p_node m k).
Proof.
  intros Hwf Hk. destruct (n_key_in m k Hwf Hk) as (Hp & Hh & Hks). pose proof (wf_bytes _ Hwf) as Hb.
  destruct (NODEDSZ_ok m k Hwf Hk) as [Hz Hz0].
  unfold old_node, key_at, NODEKSZ, NODESIZE. rewrite !get16_in by lia. cbn [mbind option_bind].
  rewrite bread_in by lia. cbn [mbind option_bind].
  unfold p_node. destruct (p_leaf m) eqn:Hl; cycle 1.
  { rewrite NODEPGNO_ok by done. done. }
  pose proof (n_data_in m k Hwf Hl Hk) as Hin.
  unfold node_data, NODEDATA, NODEKSZ, NODESIZE. rewrite !get16_in by lia. cbn [mbind option_bind]. rewrite Hz.
  cbn [mbind option_bind]. fold (n_flags m k). fold (n_dofs m k).
  assert (0 <= n_dofs m k) by (unfold n_dofs; lia).
  rewrite bread_in by (destruct (F_ISSET (n_flags m k) F_BIGDATA); lia). done.
Qed.

Lemma le_bytes_g16 (m : list Z) (o : Z) : Forall is_byte m -> 0 <= o -> o + 2 <= zlen m ->
  le_bytes 2 (g16 m o) = slice m o 2.
Proof.
  intros Hb Ho Hl. unfold g16. pose proof (zlen_slice m o 2 Ho ltac:(lia) Hl) as Hz.
  rewrite <- (le_bytes_val (slice m o 2)) at 2 by (by apply slice_bytes).
  do 2 f_equal. unfold zlen in Hz. lia.
Qed.

Lemma le_bytes_pair (n : nat) (a b : Z) : 0 <= a < 65536 ->
  le_bytes (2 + n) (a + 65536 * b) = le_bytes 2 a ++ le_bytes n b.
Proof.
  intros Ha. rewrite le_bytes_app. rewrite Z.shiftr_div_pow2 by lia. change (2 ^ (8 * Z.of_nat 2)) with 65536.
  replace (a + 65536 * b) with (a + b * 65536) by lia. rewrite Z.div_add, (Z.div_small a), Z.add_0_l by lia.
  f_equal. cbn [le_bytes]. replace (a + b * 65536) with (a + b * 256 * 256) by lia.
  rewrite Z.mod_add, Z.div_add by lia. do 2 f_equal. by rewrite Z.mod_add by lia.
Qed.

(** The bytes of node [k] that are not padding. *)
Definition n_raw (m : list Z) (k : Z) : Z := hdr_raw (p_leaf m) (slice m (p_ptr m k) 8).

Lemma n_raw_eq (m : list Z) (k : Z) : page_wf m -> 0 <= k < p_num m ->
  n_raw m k = 8 + g16 m (p_ptr m k + 6) +
    (if p_leaf m then if F_ISSET (n_flags m k) F_BIGDATA then 8 else n_lohi m k else 0) /\
  n_size m (p_ptr m k) = EVEN (n_raw m k) /\ 0 <= p_ptr m k /\ p_ptr m k + n_raw m k <= zlen m /\ 8 <= n_raw m k.
Proof.
  intros Hwf Hk. destruct (n_key_in m k Hwf Hk) as (Hp & Hh & Hks). pose proof (wf_in _ Hwf k Hk) as [_ Hhi].
  destruct (NODEDSZ_ok m k Hwf Hk) as [_ Hz0].
  assert (n_raw m k = 8 + g16 m (p_ptr m k + 6) +
    (if p_leaf m then if F_ISSET (n_flags m k) F_BIGDATA then 8 else n_lohi m k else 0)) as E.
  { unfold n_raw, hdr_raw. rewrite !(g16_slice m (p_ptr m k) 8) by lia. by rewrite Z.add_0_r. }
  assert (n_size m (p_ptr m k) = EVEN (n_raw m k)) as Es by reflexivity.
  pose proof (EVEN_bounds (n_raw m k)). split_and!; auto; try lia.
  rewrite E. destruct (p_leaf m); [destruct (F_ISSET _ _)|]; lia.
Qed.

Lemma raw_image (m : list Z) (k : Z) : page_wf m -> 0 <= k < p_num m ->
  raw_of (p_leaf m) (n_image m k) = slice m (p_ptr m k) (n_raw m k).
Proof.
  intros Hwf Hk. destruct (n_raw_eq m k Hwf Hk) as (_ & Es & Hp & Hin & H8). pose proof (wf_in _ Hwf k Hk) as [_ Hhi].
  pose proof (EVEN_bounds (n_raw m k)). unfold raw_of, n_image. rewrite Es in *.
  assert (hdr_raw (p_leaf m) (slice m (p_ptr m k) (EVEN (n_raw m k))) = n_raw m k) as ->.
  { unfold n_raw at 2. rewrite <- (hdr_raw_slice _ (slice m (p_ptr m k) (EVEN (n_raw m k))) 8)
      by (rewrite zlen_slice by lia; lia).
    by rewrite slice_slice, Z.add_0_r by lia. }
  by rewrite slice_slice, Z.add_0_r by lia.
Qed.

(** Re-encoding a node gives its bytes. *)
Lemma image_node (m : list Z) (k : Z) : page_wf m -> 0 <= k < p_num m ->
  image (p_leaf m) (p_node m k) = slice m (p_ptr m k) (n_raw m k).
Proof.
  intros Hwf Hk. destruct (n_key_in m k Hwf Hk) as (Hp & Hh & Hks). pose proof (wf_bytes _ Hwf) as Hb.
  destruct (n_raw_eq m k Hwf Hk) as (Er & _ & _ & Hin & H8). destruct (NODEDSZ_ok m k Hwf Hk) as [_ Hz0].
  pose proof (g16_range m (p_ptr m k) Hb). pose proof (g16_range m (p_ptr m k + 2) Hb).
  pose proof (g16_range m (p_ptr m k + 4) Hb).
  unfold p_node, image. destruct (p_leaf m) eqn:Hl; cbn [nn_key nn_data nn_flags nn_pgno].
  - pose proof (n_data_in m k Hwf Hl Hk) as Hdi.
    change (default (Val 0 []) (Some ?d)) with d. cbn [mv_size].
    assert (0 <= n_dofs m k) by (unfold n_dofs; lia).
    set (pl := if F_ISSET (n_flags m k) F_BIGDATA then 8 else n_lohi m k) in *.
    assert (0 <= pl) by (unfold pl; destruct (F_ISSET _ _); lia).
    assert (in_page (n_flags m k) (Val (n_lohi m k) (slice m (n_dofs m k) pl)) = slice m (n_dofs m k) pl) as ->.
    { unfold in_page, pl. cbn [mv_data]. destruct (F_ISSET (n_flags m k) F_BIGDATA); [|done].
      by rewrite slice_slice, Z.add_0_r by lia. }
    unfold leaf_node, node_hdr, n_lohi, n_flags. cbn [n_key mv_size mv_data].
    change 4%nat with (2 + 2)%nat. rewrite (le_bytes_pair 2), !le_bytes_g16 by (done || lia).
    rewrite Er. replace (8 + g16 m (p_ptr m k + 6) + pl) with (2 + (2 + (2 + (2 + (g16 m (p_ptr m k + 6) + pl))))) by lia.
    unfold n_dofs. rewrite !slice_app by lia. rewrite <- !app_assoc.
    replace (p_ptr m k + 2 + 2) with (p_ptr m k + 4) by lia. replace (p_ptr m k + 4 + 2) with (p_ptr m k + 6) by lia.
    replace (p_ptr m k + 6 + 2) with (p_ptr m k + 8) by lia. done.
  - unfold branch_node, n_pgno, n_lohi, n_flags. cbn [n_key mv_size mv_data].
    change 6%nat with (2 + (2 + 2))%nat. change (2 ^ 16) with 65536. change (2 ^ 32) with (65536 * 65536).
    replace (g16 m (p_ptr m k) + 65536 * g16 m (p_ptr m k + 2) + 65536 * 65536 * g16 m (p_ptr m k + 4))
      with (g16 m (p_ptr m k) + 65536 * (g16 m (p_ptr m k + 2) + 65536 * g16 m (p_ptr m k + 4))) by lia.
    rewrite (le_bytes_pair (2 + 2)), (le_bytes_pair 2), !le_bytes_g16 by (done || lia).
    rewrite Er, Z.add_0_r. replace (8 + g16 m (p_ptr m k + 6)) with (2 + (2 + (2 + (2 + g16 m (p_ptr m k + 6))))) by lia.
    rewrite !slice_app by lia. rewrite <- !app_assoc.
    replace (p_ptr m k + 2 + 2) with (p_ptr m k + 4) by lia. replace (p_ptr m k + 4 + 2) with (p_ptr m k + 6) by lia.
    replace (p_ptr m k + 6 + 2) with (p_ptr m k + 8) by lia. done.
Qed.

Lemma p_raw_node (m : list Z) : page_wf m -> p_raw m = (fun k => image (p_leaf m) (p_node m k)) <$> seqZ 0 (p_num m).
Proof.
  intros Hwf. unfold p_raw, p_nodes. rewrite <- list_fmap_compose. apply list_fmap_ext. intros i k Hk.
  apply lookup_seqZ in Hk as [-> Hk]. unfold compose. rewrite raw_image, image_node by (done || lia). done.
Qed.

(** Every node is small enough for a page to hold two. *)
Definition nodes_small (me_nodemax : Z) (m : list Z) : Prop := forall k, 0 <= k < p_num m -> n_raw m k <= me_nodemax.

Lemma RESERVE_u16 (fl : Z) : 0 <= fl < 65536 -> F_ISSET fl MDB_RESERVE = false.
Proof.
  intros Hf. unfold F_ISSET, MDB_RESERVE. change 0x10000 with (2 ^ 16). apply Z.eqb_neq. intros E.
  apply (f_equal (fun x => Z.testbit x 16)) in E. rewrite Z.land_spec, Z.pow2_bits_true in E by lia.
  rewrite andb_true_r in E. assert (Z.testbit fl 16 = false) by (apply Z.bits_above_log2; [lia|];
    destruct (decide (fl = 0)) as [->|]; [done|]; apply Z.log2_lt_pow2; lia). congruence.
Qed.

Lemma node_addable (me_nodemax : Z) (m : list Z) (k : Z) : page_wf m -> 0 <= k < p_num m ->
  n_raw m k <= me_nodemax -> addable me_nodemax (p_leaf m) (p_node m k).
Proof.
  intros Hwf Hk Hmax. destruct (n_key_in m k Hwf Hk) as (Hp & Hh & Hks). pose proof (wf_bytes _ Hwf) as Hb.
  destruct (n_raw_eq m k Hwf Hk) as (Er & _ & _ & Hin & H8). destruct (NODEDSZ_ok m k Hwf Hk) as [_ Hz0].
  destruct (node_key_ok m k Hwf Hk) as (_ & Hval & _).
  split; cbn [p_node nn_key nn_data nn_flags]; auto.
  - apply Hks.
  - rewrite image_node, zlen_slice by (done || lia). lia.
  - intros Hl. rewrite Hl in *. eexists. split; [done|]. cbn [mv_data mv_size].
    pose proof (n_data_in m k Hwf Hl Hk). assert (0 <= n_dofs m k) by (unfold n_dofs; lia).
    pose proof (g16_range m (p_ptr m k) Hb). pose proof (g16_range m (p_ptr m k + 2) Hb).
    pose proof (g16_range m (p_ptr m k + 4) Hb).
    split_and!; [by apply slice_bytes|done|unfold n_lohi; lia|apply RESERVE_u16; unfold n_flags; lia|].
    destruct (F_ISSET (n_flags m k) F_BIGDATA); rewrite zlen_slice by lia; lia.
Qed.

(** ** Sums of sizes *)

Lemma sumZ_nonneg (l : list Z) : Forall (fun x => 0 <= x) l -> 0 <= sumZ l.
Proof. induction 1; cbn; lia. Qed.

Lemma sumZ_take_drop (l : list Z) (n : nat) : sumZ (take n l) + sumZ (drop n l) = sumZ l.
Proof. rewrite <- sumZ_app. by rewrite take_drop. Qed.

Lemma sumZ_take_le (l : list Z) (n : nat) : Forall (fun x => 0 <= x) l ->
  0 <= sumZ (take n l) <= sumZ l /\ 0 <= sumZ (drop n l) <= sumZ l.
Proof.
  intros Hl. pose proof (sumZ_take_drop l n).
  pose proof (sumZ_nonneg _ (Forall_take _ n _ Hl)). pose proof (sumZ_nonneg _ (Forall_drop _ n _ Hl)). lia.
Qed.

Lemma sumZ_take_next (l : list Z) (i : Z) : 0 <= i < zlen l ->
  sumZ (take (Z.to_nat (i + 1)) l) = sumZ (take (Z.to_nat i) l) + zn l i.
Proof.
  intros Hi. pose proof (aget_in l i Hi) as E. unfold aget in E. rewrite (proj2 (Z.leb_le 0 i)) in E by lia.
  replace (Z.to_nat (i + 1)) with (S (Z.to_nat i)) by lia. rewrite (take_S_r _ _ _ E), sumZ_app. cbn. lia.
Qed.

Lemma sumZ_drop_next (l : list Z) (i : Z) : 0 <= i < zlen l ->
  sumZ (drop (Z.to_nat i) l) = zn l i + sumZ (drop (Z.to_nat (i + 1)) l).
Proof.
  intros Hi. pose proof (sumZ_take_drop l (Z.to_nat i)). pose proof (sumZ_take_drop l (Z.to_nat (i + 1))).
  pose proof (sumZ_take_next l i Hi). lia.
Qed.

(** ** The search for the split point *)

Section SplitPoint.
(** The sizes of all nodes, the new one in its place, each with its offset. *)
Variables (mp copy : list Z) (leaf : bool) (newindx nsize pmax : Z) (sizes : list Z).
Hypothesis Hstep : forall i psize, 0 <= i < zlen sizes -> EVEN psize = psize ->
  add_psize mp copy leaf psize i newindx nsize = Some (psize + zn sizes i) /\ EVEN (psize + zn sizes i) = psize + zn sizes i.

Lemma split_forward (fuel : nat) : forall i k psize s0, 0 <= i < k -> k <= zlen sizes -> k - i <= Z.of_nat fuel ->
  psize = sumZ (take (Z.to_nat i) sizes) -> EVEN psize = psize -> psize <= pmax ->
  exists s, split_loop fuel mp copy leaf i 1 k psize newindx nsize pmax s0 = Some s /\ i <= s < k /\
    sumZ (take (Z.to_nat s) sizes) <= pmax /\ (pmax < sumZ (take (Z.to_nat (s + 1)) sizes) \/ s = k - 1).
Proof.
  induction fuel as [|fuel IH]; intros i k psize s0 Hi Hk Hf Hp He Hle; [lia|]. cbn [split_loop].
  rewrite (proj2 (Z.eqb_neq _ _)) by lia. destruct (Hstep i psize ltac:(lia) He) as [-> He'].
  cbn [mbind option_bind]. pose proof (sumZ_take_next sizes i ltac:(lia)) as Hn. rewrite <- Hp in Hn.
  destruct (Z.ltb_spec pmax (psize + zn sizes i)); cbn [orb].
  { exists i. cbn. rewrite Z.add_0_r. split_and!; auto; lia. }
  destruct (Z.eqb_spec i (k - 1)) as [->|]; [exists (k - 1); cbn; rewrite Z.add_0_r; split_and!; auto; lia|].
  destruct (IH (i + 1) k (psize + zn sizes i) s0) as (s & E & Hs & ? & ?); try lia; auto.
  exists s. split_and!; auto; lia.
Qed.

Lemma split_backward (fuel : nat) : forall i k psize s0, k < i < zlen sizes -> -1 <= k -> i - k <= Z.of_nat fuel ->
  psize = sumZ (drop (Z.to_nat (i + 1)) sizes) -> EVEN psize = psize -> psize <= pmax ->
  exists s, split_loop fuel mp copy leaf i (-1) k psize newindx nsize pmax s0 = Some s /\ k + 2 <= s <= i + 1 /\
    sumZ (drop (Z.to_nat s) sizes) <= pmax /\ (pmax < sumZ (drop (Z.to_nat (s - 1)) sizes) \/ s = k + 2).
Proof.
  induction fuel as [|fuel IH]; intros i k psize s0 Hi Hk Hf Hp He Hle; [lia|]. cbn [split_loop].
  rewrite (proj2 (Z.eqb_neq _ _)) by lia. destruct (Hstep i psize ltac:(lia) He) as [-> He'].
  cbn [mbind option_bind]. pose proof (sumZ_drop_next sizes i ltac:(lia)) as Hn. rewrite <- Hp in Hn.
  destruct (Z.ltb_spec pmax (psize + zn sizes i)); cbn [orb].
  { exists (i + 1). cbn [Z.ltb Z.compare]. replace (i + 1 - 1) with i by lia. split_and!; auto; lia. }
  destruct (Z.eqb_spec i (k - -1)) as [->|].
  { exists (k + 2). cbn [Z.ltb Z.compare]. replace (k - -1 + 1) with (k + 2) in * by lia. split_and!; auto; lia. }
  destruct (IH (i + -1) k (psize + zn sizes i) s0) as (s & E & Hs & ? & ?); try lia; auto.
  { replace (i + -1 + 1) with i by lia. lia. }
  exists s. split_and!; auto; lia.
Qed.
End SplitPoint.

(** The sizes with the new one inserted. *)
Definition with_new {A} (l : list A) (i : Z) (x : A) : list A :=
  take (Z.to_nat i) l ++ [x] ++ drop (Z.to_nat i) l.

(** Both halves fit in a page. *)
Record fits (pmax : Z) (sizes : list Z) (s : Z) : Prop := {
  fit_range : 0 < s < zlen sizes;
  fit_left : sumZ (take (Z.to_nat s) sizes) <= pmax;
  fit_right : sumZ (drop (Z.to_nat s) sizes) <= pmax
}.

Lemma with_new_sum (old : list Z) (i x : Z) : sumZ (with_new old i x) = sumZ old + x.
Proof.
  unfold with_new. rewrite !sumZ_app. pose proof (sumZ_take_drop old (Z.to_nat i)). cbn. lia.
Qed.

Lemma zlen_with_new {A} `{Inhabited A} (old : list A) (i : Z) (x : A) : 0 <= i <= zlen old ->
  zlen (with_new old i x) = zlen old + 1.
Proof. intros. unfold with_new. arr. lia. Qed.

(** A half without the new node. *)
Lemma with_new_take (old : list Z) (i x s : Z) : 0 <= s <= i -> i <= zlen old ->
  take (Z.to_nat s) (with_new old i x) = take (Z.to_nat s) old.
Proof.
  intros Hs Hi. unfold with_new. rewrite take_app_le by (rewrite length_take; unfold zlen in *; lia).
  rewrite take_take. f_equal. lia.
Qed.

Lemma with_new_drop (old : list Z) (i x s : Z) : 0 <= i < s -> i <= zlen old ->
  drop (Z.to_nat s) (with_new old i x) = drop (Z.to_nat (s - 1)) old.
Proof.
  intros Hs Hi. unfold with_new. rewrite app_assoc, drop_app_ge; rewrite length_app, length_take; cbn [length].
  - rewrite drop_drop. f_equal. unfold zlen in *. lia.
  - unfold zlen in *. lia.
Qed.

(** The condition under which the code looks at the sizes of the nodes. *)
Definition searched (me_psize nkeys newindx nsize : Z) : bool :=
  (nkeys <? 20) || ((me_psize - PAGEHDRSZ) / 16 <? nsize) || (nkeys <=? newindx).

Lemma sumZ_bound (l : list Z) (c : Z) : Forall (fun x => x <= c) l -> sumZ l <= zlen l * c.
Proof. induction 1 as [|x l Hx _ IH]; [done|]. cbn [sumZ]. rewrite zlen_cons. lia. Qed.

Lemma six_cells (n c pmax : Z) : 0 <= n -> 0 <= pmax -> pmax < n * c -> 5 * c <= pmax -> 6 <= n.
Proof. intros. destruct (Z.lt_ge_cases n 6); [|lia]. assert (0 < c) by nia. nia. Qed.

(** With sizes of at most a fifth of a page, both halves have two nodes. *)
Definition middle (pmax : Z) (sizes : list Z) (s : Z) : Prop :=
  forall c, Forall (fun x => x <= c) sizes -> 5 * c <= pmax -> pmax < sumZ sizes -> 2 <= s < zlen sizes - 1.

Lemma middle_left (pmax : Z) (sizes : list Z) (s : Z) : 0 <= pmax ->
  zlen sizes <= 5 \/ 0 <= s < zlen sizes - 1 /\ (pmax < sumZ (take (Z.to_nat (s + 1)) sizes) \/ 2 <= s) -> middle pmax sizes s.
Proof.
  intros Hp [Hs|[Hs Hor]] c Hc H5 Ht; 
    pose proof (sumZ_bound _ _ Hc) as Hb; pose proof (six_cells (zlen sizes) c pmax (zlen_nonneg _) Hp ltac:(lia) H5); [lia|].
  split; [|lia]. destruct Hor as [Hor|]; [|done]. pose proof (sumZ_bound _ _ (Forall_take _ (Z.to_nat (s + 1)) sizes Hc)) as Hb1.
  rewrite zlen_take in Hb1 by lia. pose proof (six_cells (s + 1) c pmax). lia.
Qed.

Lemma middle_right (pmax : Z) (sizes : list Z) (s : Z) : 0 <= pmax ->
  zlen sizes <= 5 \/ 2 <= s <= zlen sizes /\ (pmax < sumZ (drop (Z.to_nat (s - 1)) sizes) \/ s < zlen sizes - 1) -> middle pmax sizes s.
Proof.
  intros Hp [Hs|[Hs Hor]] c Hc H5 Ht; 
    pose proof (sumZ_bound _ _ Hc) as Hb; pose proof (six_cells (zlen sizes) c pmax (zlen_nonneg _) Hp ltac:(lia) H5); [lia|].
  split; [lia|]. destruct Hor as [Hor|]; [|done]. pose proof (sumZ_bound _ _ (Forall_drop _ (Z.to_nat (s - 1)) sizes Hc)) as Hb1.
  rewrite zlen_drop in Hb1 by lia. pose proof (six_cells (zlen sizes - (s - 1)) c pmax). lia.
Qed.

Lemma find_split_fits (me_psize : Z) (mp copy : list Z) (leaf : bool) (newindx nsize : Z) (old : list Z) :
  let pmax := me_psize - PAGEHDRSZ in
  let nkeys := zlen old in
  let sizes := with_new old newindx nsize in
  (forall i psize, 0 <= i < zlen sizes -> EVEN psize = psize ->
     add_psize mp copy leaf psize i newindx nsize = Some (psize + zn sizes i) /\
     EVEN (psize + zn sizes i) = psize + zn sizes i) ->
  2 <= nkeys -> 0 <= newindx <= nkeys -> sumZ old <= pmax -> Forall (fun x => 0 <= x /\ 2 * x <= pmax) sizes ->
  searched me_psize nkeys newindx nsize = true ->
  exists s, find_split me_psize mp copy leaf nkeys newindx nsize = Some s /\ fits pmax sizes s /\ middle pmax sizes s.
Proof.
  intros pmax nkeys sizes Hstep Hn Hi Hold Hsz Hse. pose proof (zlen_with_new old newindx nsize Hi) as Hlen.
  fold sizes nkeys in Hlen. pose proof (with_new_sum old newindx nsize) as Hsum. fold sizes in Hsum.
  assert (Forall (fun x => 0 <= x) sizes) as Hpos by (apply (Forall_impl _ _ _ Hsz); lia).
  assert (forall i, 0 <= i < zlen sizes -> 0 <= zn sizes i /\ 2 * zn sizes i <= pmax) as Hone.
  { intros i Hr. apply (proj1 (Forall_forall _ _) Hsz), zn_elem. lia. }
  assert (Forall (fun x => 0 <= x) old) as Hpold.
  { unfold sizes, with_new in Hpos. rewrite !Forall_app in Hpos. rewrite <- (take_drop (Z.to_nat newindx) old).
    apply Forall_app. tauto. }
  assert (0 <= nsize /\ 2 * nsize <= pmax) as Hns.
  { apply (proj1 (Forall_forall _ _) Hsz). unfold sizes, with_new. rewrite !elem_of_app. right. left. left. }
  assert (forall s, 0 <= s <= zlen sizes -> sumZ (take (Z.to_nat s) sizes) + sumZ (drop (Z.to_nat s) sizes) =
    sumZ old + nsize) as Htot by (intros; rewrite sumZ_take_drop; lia).
  unfold find_split. fold pmax. unfold searched in Hse. fold pmax in Hse. rewrite Hse.
  set (s0 := (nkeys + 1) / 2). assert (1 <= s0 /\ 2 * s0 <= nkeys + 1 /\ s0 < nkeys) as Hs0.
  { unfold s0. pose proof (Z.div_mod (nkeys + 1) 2). pose proof (Z.mod_pos_bound (nkeys + 1) 2). lia. }
  destruct ((newindx <=? s0) || (nkeys <=? newindx)) eqn:Hdir.
  - set (k := if nkeys <=? newindx then nkeys else s0 + 2).
    assert (1 < k <= nkeys + 1) by (unfold k; destruct (nkeys <=? newindx); lia).
    destruct (split_forward mp copy leaf newindx nsize pmax sizes Hstep (Z.to_nat (nkeys + 2)) 0 k 0 s0)
      as (s & -> & Hs & Hl & Hor); try lia; try done.
    pose proof (Hone 0 ltac:(lia)) as H0. pose proof (sumZ_take_next sizes 0 ltac:(lia)) as Ht1.
    change (0 + 1) with 1 in Ht1. change (sumZ (take (Z.to_nat 0) sizes)) with 0 in Ht1.
    assert (s <> 0) by (intros ->; destruct Hor as [Hor|]; [change (0 + 1) with 1 in Hor; rewrite Ht1 in Hor; lia|lia]).
    exists s. split; [done|]. split; cycle 1.
    { apply middle_left; [lia|]. unfold k in *. destruct (Z.leb_spec nkeys newindx); lia. }
    split; [lia|done|]. pose proof (Htot s ltac:(lia)).
    pose proof (sumZ_take_next sizes s ltac:(lia)). pose proof (Hone s ltac:(lia)).
    destruct Hor as [Hor|Hor]; [lia|]. unfold k in Hor. destruct (Z.leb_spec nkeys newindx).
    + (* the last two nodes *)
      subst s. pose proof (Hone nkeys ltac:(lia)). rewrite sumZ_drop_next by lia.
      replace (nkeys - 1 + 1) with nkeys by lia. rewrite sumZ_drop_next by lia.
      rewrite (drop_ge sizes) by (unfold zlen in *; lia). cbn. lia.
    + unfold sizes. rewrite with_new_drop by lia. pose proof (sumZ_take_le old (Z.to_nat (s - 1)) Hpold). lia.
  - apply orb_false_iff in Hdir as [Hd1 Hd2]. apply Z.leb_gt in Hd1, Hd2.
    destruct (split_backward mp copy leaf newindx nsize pmax sizes Hstep (Z.to_nat (nkeys + 2)) nkeys (s0 - 1) 0 s0)
      as (s & -> & Hs & Hr & Hor); try lia; try done.
    { rewrite (drop_ge sizes) by (unfold zlen in *; lia). done. }
    assert (s <> nkeys + 1).
    { intros ->. replace (nkeys + 1 - 1) with nkeys in Hor by lia. pose proof (Hone nkeys ltac:(lia)).
      rewrite sumZ_drop_next in Hor by lia. rewrite (drop_ge sizes) in Hor by (unfold zlen in *; lia).
      cbn in Hor. lia. }
    exists s. split; [done|]. split; cycle 1.
    { apply middle_right; lia. }
    split; [lia| |done]. pose proof (Htot s ltac:(lia)).
    pose proof (sumZ_drop_next sizes (s - 1) ltac:(lia)) as Hd. replace (s - 1 + 1) with s in Hd by lia.
    pose proof (Hone (s - 1) ltac:(lia)). destruct Hor as [Hor|Hor]; [lia|].
    unfold sizes. rewrite with_new_take by lia. pose proof (sumZ_take_le old (Z.to_nat s) Hpold). lia.
Qed.

(** ** The copy of the page *)

(** The old node at place [k] when the new one is at [newindx]. *)
Definition old_slot (newindx k : Z) : Z := if k <? newindx then k else k - 1.

(** The slots that hold offsets of old nodes, up to [j]. *)
Definition slots_ok (mp copy : list Z) (newindx a b : Z) : Prop :=
  forall k, a <= k < b -> k <> newindx -> p_ptr copy k = p_ptr mp (old_slot newindx k).

Lemma set_ptr_upd (m : list Z) (k x : Z) : 0 <= k -> 16 + 2 * k + 2 <= zlen m ->
  exists m', set_ptr m k x = Some m' /\ upd m (16 + 2 * k) (le_bytes 2 x) m' /\ p_ptr m' k = u16 x /\
    (forall k', k' <> k -> 0 <= k' -> 16 + 2 * k' + 2 <= zlen m -> p_ptr m' k' = p_ptr m k').
Proof.
  intros Hk Hl. unfold set_ptr, PAGEHDRSZ. mstep m1 U. exists m1. split_and!; auto.
  - unfold p_ptr. by rewrite (upd_g16_eq _ _ _ _ U).
  - intros k' Hne H0 H1. unfold p_ptr. rewrite (upd_g16_ne _ _ _ _ _ U) by zlia. done.
Qed.

(** Two pages with the same header. *)
Definition same_header (m m' : list Z) : Prop := forall i, i < 16 -> zn m' i = zn m i.

Lemma prepare_ok (mp : list Z) (newindx : Z) (n : nat) : forall copy i j,
  page_wf mp -> 0 <= i -> p_num mp = i + Z.of_nat n -> 0 <= newindx ->
  j = i + (if newindx <? i then 1 else 0) -> 16 + 2 * (p_num mp + 1) <= zlen copy -> Forall is_byte copy ->
  slots_ok mp copy newindx 0 j ->
  exists copy', prepare n copy mp i j newindx = Some copy' /\ zlen copy' = zlen copy /\ Forall is_byte copy' /\
    same_header copy copy' /\ slots_ok mp copy' newindx 0 (p_num mp + if newindx <? p_num mp then 1 else 0).
Proof.
  induction n as [|n IH]; intros copy i j Hwf Hi Hn Hni Hj Hl Hb Hs; cbn [prepare].
  { exists copy. split_and!; auto; [done|]. rewrite Hn. replace (i + Z.of_nat 0) with i by lia. by subst j. }
  assert (exists copy1 j1, (if i =? newindx then copy ← set_ptr copy j 0; Some (copy, j + 1) else Some (copy, j)) =
      Some (copy1, j1) /\ zlen copy1 = zlen copy /\ Forall is_byte copy1 /\ same_header copy copy1 /\
      j1 = i + (if newindx <=? i then 1 else 0) /\ slots_ok mp copy1 newindx 0 j1)
    as (copy1 & j1 & -> & Hl1 & Hb1 & Hh1 & Hj1 & Hs1).
  { destruct (Z.eqb_spec i newindx) as [->|Hne].
    - rewrite (proj2 (Z.ltb_ge _ _)) in Hj by lia. rewrite Z.add_0_r in Hj. subst j.
      destruct (set_ptr_upd copy newindx 0) as (c1 & -> & U & _ & Hp); try lia. cbn [mbind option_bind].
      eexists _, _. split; [done|]. rewrite (proj2 (Z.leb_le _ _)) by lia. split_and!; auto.
      + apply U.
      + apply U; [done|apply le_bytes_byte].
      + intros k Hk. apply (u_old _ _ _ _ U). lia.
      + intros k Hk Hkn. rewrite Hp by lia. apply Hs; lia.
    - exists copy, j. split_and!; auto; [done|]. subst j. destruct (Z.ltb_spec newindx i), (Z.leb_spec newindx i); lia. }
  cbn [mbind option_bind]. rewrite mp_ptr_ok by (done || lia). cbn [mbind option_bind].
  assert (0 <= j1 <= p_num mp) as Hjr by (subst j1; destruct (newindx <=? i); lia).
  destruct (set_ptr_upd copy1 j1 (p_ptr mp i)) as (c2 & -> & U & Hp & Hpo); try lia. cbn [mbind option_bind].
  assert (p_ptr c2 j1 = p_ptr mp i) as Hp'.
  { rewrite Hp. apply uwrap_small. unfold p_ptr. pose proof (wf_bytes _ Hwf) as Hbm.
    pose proof (wf_upper _ Hwf). pose proof (wf_lower _ Hwf). apply g16_range; auto; lia. }
  destruct (IH c2 (i + 1) (j1 + 1)) as (c' & E & Hl' & Hb' & Hh' & Hs'); auto; try lia.
  - subst j1. destruct (Z.leb_spec newindx i), (Z.ltb_spec newindx (i + 1)); lia.
  - rewrite (u_len _ _ _ _ U). lia.
  - apply U; [done|apply le_bytes_byte].
  - intros k Hk Hkn. destruct (decide (k = j1)) as [->|].
    + rewrite Hp'. f_equal. unfold old_slot. subst j1. destruct (Z.leb_spec newindx i).
      * rewrite (proj2 (Z.ltb_ge _ _)) by lia. lia.
      * rewrite (proj2 (Z.ltb_lt _ _)) by lia. lia.
    + rewrite Hpo by lia. apply Hs1; lia.
  - exists c'. split_and!; auto; [rewrite Hl', (u_len _ _ _ _ U); done|].
    intros k Hk. rewrite Hh', (u_old _ _ _ _ U), Hh1 by lia. done.
Qed.

Section Planned.
Variables (me_psize : Z) (mp copy0 : list Z).
Hypothesis Hwf : page_wf mp.
Hypothesis Hpsize : zlen mp = me_psize.
Hypothesis Hcopy : zlen copy0 = me_psize /\ Forall is_byte copy0.

(** The copy as an empty page of the same kind. *)
Record blank (copy : list Z) : Prop := {
  bl_len : zlen copy = me_psize;
  bl_bytes : Forall is_byte copy;
  bl_lower : p_lower copy = 16;
  bl_upper : p_upper copy = me_psize;
  bl_flags : p_flags copy = p_flags mp
}.

Lemma init_copy_ok : exists copy, init_copy me_psize copy0 mp = Some copy /\ blank copy.
Proof.
  destruct Hcopy as [Hl Hb]. pose proof (wf_psize _ Hwf) as Hs. pose proof (wf_bytes _ Hwf) as Hbm.
  unfold MAX_PAGESIZE in Hs. unfold init_copy, mp_flags, set_lower, set_upper, PAGEHDRSZ.
  rewrite bread_in by lia. cbn [mbind option_bind].
  assert (zlen (slice mp 0 8) = 8) as H8 by (apply zlen_slice; lia).
  destruct (bwrite_upd copy0 0 (slice mp 0 8)) as (c1 & -> & U1); try lia. cbn [mbind option_bind].
  pose proof (u_len _ _ _ _ U1). rewrite get16_in by lia. cbn [mbind option_bind].
  mstep c2 U2. pose proof (u_len _ _ _ _ U2). mstep c3 U3. pose proof (u_len _ _ _ _ U3).
  destruct (set16_upd c3 14 me_psize) as (c4 & -> & U4); try lia. pose proof (u_len _ _ _ _ U4).
  exists c4. split; [done|]. split; try lia.
  - repeat (match goal with U : upd _ _ _ ?c |- Forall is_byte ?c => apply U end); auto using le_bytes_byte, slice_bytes.
  - unfold p_lower. rewrite (upd_g16_ne _ _ _ _ _ U4), (upd_g16_eq _ _ _ _ U3) by zlia. done.
  - unfold p_upper. rewrite (upd_g16_eq _ _ _ _ U4). apply uwrap_small. lia.
  - unfold p_flags at 1. rewrite (upd_g16_ne _ _ _ _ _ U4), (upd_g16_ne _ _ _ _ _ U3), (upd_g16_eq _ _ _ _ U2) by zlia.
    apply uwrap_small. apply g16_range; auto; lia.
Qed.

Lemma blank_frame (c c' : list Z) : blank c -> zlen c' = zlen c -> Forall is_byte c' -> same_header c c' -> blank c'.
Proof.
  intros [Hl Hb Hlo Hup Hf] Hl' Hb' Hh. pose proof (wf_psize _ Hwf).
  assert (forall o, 0 <= o -> o + 2 <= 16 -> g16 c' o = g16 c o) as Hg.
  { intros o H0 H1. apply g16_ext; try lia. intros i Hi. apply Hh. lia. }
  split; auto; try lia; unfold p_lower, p_upper, p_flags in *; by rewrite Hg by lia.
Qed.

Lemma blank_wf (c : list Z) : blank c -> page_wf c /\ p_nodes c = [] /\ p_num c = 0 /\ p_leaf c = p_leaf mp.
Proof.
  intros [Hl Hb Hlo Hup Hf]. pose proof (wf_psize _ Hwf) as Hs.
  assert (p_num c = 0) as Hn by (unfold p_num; by rewrite Hlo).
  assert (p_nodes c = []) as Hnil by (unfold p_nodes; by rewrite Hn).
  split_and!; auto; [|unfold p_leaf; by rewrite Hf].
  split; auto; try (unfold MAX_PAGESIZE in *; lia).
  - unfold p_leaf2. rewrite Hf. apply Hwf.
  - rewrite Hnil, Hup, Hl. cbn. lia.
Qed.
End Planned.

(** Room that an encoded node takes, with its offset. *)
Definition cell (img : list Z) : Z := EVEN (zlen img) + 2.

Lemma with_new_fmap {A B} (f : A -> B) (l : list A) (i : Z) (x : A) :
  f <$> with_new l i x = with_new (f <$> l) i (f x).
Proof. unfold with_new. by rewrite !fmap_app, fmap_take, fmap_drop. Qed.

Lemma zlen_fmap {A B} (f : A -> B) (l : list A) : zlen (f <$> l) = zlen l.
Proof. unfold zlen. by rewrite length_fmap. Qed.

Lemma zlen_p_raw (m : list Z) : page_wf m -> zlen (p_raw m) = p_num m.
Proof. intros Hwf. unfold p_raw. rewrite zlen_fmap. apply zlen_p_nodes, Hwf. Qed.

Lemma zn_p_raw (m : list Z) (k : Z) : page_wf m -> 0 <= k < p_num m ->
  zn (p_raw m) k = slice m (p_ptr m k) (n_raw m k) /\ zn (p_raw m) k = image (p_leaf m) (p_node m k) /\
  zlen (zn (p_raw m) k) = n_raw m k.
Proof.
  intros Hwf Hk. destruct (n_raw_eq m k Hwf Hk) as (_ & _ & Hp & Hin & H8).
  assert (zn (p_raw m) k = slice m (p_ptr m k) (n_raw m k)) as E.
  { rewrite <- raw_image by done. pose proof (zn_p_nodes m k Hk) as En. unfold p_raw.
    rewrite zn_fmap; [by rewrite En|]. rewrite (zlen_p_nodes m (wf_num _ Hwf)). lia. }
  split_and!; auto; [by rewrite image_node|]. rewrite E. apply zlen_slice; lia.
Qed.

(** The nodes of a page and their offsets take what is not free. *)
Lemma cells_sum (m : list Z) : page_wf m -> sumZ (cell <$> p_raw m) = zlen m - 16 - (p_upper m - p_lower m).
Proof.
  intros Hwf. pose proof (wf_full _ Hwf) as Hf. pose proof (wf_lower _ Hwf) as Hl. pose proof (wf_num _ Hwf).
  assert (forall l : list (list Z), sumZ (cell <$> l) = sumZ ((fun x => EVEN (zlen x)) <$> l) + 2 * zlen l) as Hc.
  { induction l as [|x l IH]; [done|]. rewrite !fmap_cons, zlen_cons. cbn [sumZ]. rewrite IH. unfold cell. lia. }
  rewrite Hc, zlen_p_raw by done.
  assert ((fun x => EVEN (zlen x)) <$> p_raw m = zlen <$> p_nodes m) as ->; [|lia].
  unfold p_raw, p_nodes. rewrite <- !list_fmap_compose. apply list_fmap_ext. intros i k Hk.
  apply lookup_seqZ in Hk as [-> Hk]. unfold compose. rewrite raw_image by (done || lia).
  destruct (n_raw_eq m (0 + Z.of_nat i) Hwf ltac:(lia)) as (_ & Es & Hp & Hin & H8).
  pose proof (wf_in _ Hwf (0 + Z.of_nat i) ltac:(lia)) as [_ Hhi]. rewrite Es in Hhi.
  pose proof (EVEN_bounds (n_raw m (0 + Z.of_nat i))).
  rewrite zlen_slice by lia. unfold n_image. rewrite Es, zlen_slice by lia. done.
Qed.

Lemma zn_with_new {A} `{Inhabited A} (l : list A) (i k : Z) (x : A) : 0 <= i <= zlen l -> 0 <= k < zlen l + 1 ->
  zn (with_new l i x) k = if k =? i then x else zn l (old_slot i k).
Proof.
  intros Hi Hk. unfold with_new, old_slot. destruct (Z.eqb_spec k i) as [->|Hne].
  - rewrite zn_app_r by zlia. arr. by rewrite Z.sub_diag.
  - destruct (Z.ltb_spec k i).
    + by rewrite zn_app_l, zn_take by zlia.
    + rewrite zn_app_r by zlia. rewrite zn_app_r by zlia. arr. rewrite zn_drop by lia. f_equal. lia.
Qed.

Section Sizes.
Variables (me_psize : Z) (mp copy : list Z) (newindx : Z) (new : list Z).
Hypothesis Hwf : page_wf mp.
Hypothesis Hni : 0 <= newindx <= p_num mp.
Hypothesis Hcopy : zlen copy = zlen mp.
Hypothesis Hslots : slots_ok mp copy newindx 0 (p_num mp + if newindx <? p_num mp then 1 else 0).

Let sizes : list Z := with_new (cell <$> p_raw mp) newindx (cell new).

Lemma slot_read (i : Z) : 0 <= i <= p_num mp -> i <> newindx ->
  mp_ptr copy i = Some (p_ptr mp (old_slot newindx i)) /\ 0 <= old_slot newindx i < p_num mp.
Proof.
  intros Hi Hne. pose proof (wf_upper _ Hwf). pose proof (wf_lower _ Hwf).
  assert (0 <= old_slot newindx i < p_num mp) as Ho by (unfold old_slot; destruct (Z.ltb_spec i newindx); lia).
  split; [|done]. assert (16 + 2 * i + 2 <= zlen copy) as Hin.
  { pose proof (wf_in _ Hwf _ Ho). pose proof (n_size_pos mp Hwf (p_ptr mp (old_slot newindx i))).
    pose proof (wf_upper _ Hwf). lia. }
  unfold mp_ptr, PAGEHDRSZ. rewrite get16_in by lia. f_equal. apply Hslots; [|done].
  destruct (Z.ltb_spec newindx (p_num mp)); lia.
Qed.

Lemma add_psize_ok (i psize : Z) : 0 <= i < zlen sizes -> EVEN psize = psize ->
  add_psize mp copy (p_leaf mp) psize i newindx (cell new) = Some (psize + zn sizes i) /\
  EVEN (psize + zn sizes i) = psize + zn sizes i.
Proof.
  intros Hi He. pose proof (zlen_p_raw mp Hwf) as Hz.
  assert (zlen (cell <$> p_raw mp) = p_num mp) as Hzc by (by rewrite zlen_fmap).
  unfold sizes in *. rewrite zlen_with_new in Hi by lia. rewrite zn_with_new by lia. unfold add_psize.
  assert (forall x, EVEN (psize + cell x) = psize + cell x) as Hev.
  { intros x. unfold cell. rewrite (EVEN_add psize) by done.
    rewrite (EVEN_add (EVEN _)) by apply EVEN_idem. done. }
  destruct (Z.eqb_spec i newindx) as [->|Hne]; [split; [done|apply Hev]|].
  destruct (slot_read i ltac:(lia) Hne) as [-> Ho]. set (k := old_slot newindx i) in *. cbn [mbind option_bind].
  rewrite zn_fmap by lia.
  split; [|apply Hev]. destruct (zn_p_raw mp k Hwf Ho) as (_ & _ & Hlen). unfold cell. rewrite Hlen.
  destruct (n_raw_eq mp k Hwf Ho) as (Er & _ & Hp & Hin & H8). destruct (n_key_in mp k Hwf Ho) as (_ & Hh & Hks).
  destruct (NODEDSZ_ok mp k Hwf Ho) as [Hd _]. unfold NODEKSZ, NODESIZE.
  rewrite (get16_in mp (p_ptr mp k + 6)) by lia. cbn [mbind option_bind]. rewrite Er.
  assert (forall x, EVEN (psize + (8 + g16 mp (p_ptr mp k + 6) + 2) + x) =
                    psize + (EVEN (8 + g16 mp (p_ptr mp k + 6) + x) + 2)) as Hsum.
  { intros x. replace (psize + (8 + g16 mp (p_ptr mp k + 6) + 2) + x) with
      (psize + (2 * 1 + (8 + g16 mp (p_ptr mp k + 6) + x))) by lia.
    rewrite EVEN_add by done. rewrite (EVEN_add (2 * 1)) by apply EVEN_even. lia. }
  destruct (p_leaf mp); cbn [mbind option_bind].
  - rewrite get16_in by lia. cbn [mbind option_bind]. fold (n_flags mp k).
    destruct (F_ISSET (n_flags mp k) F_BIGDATA); cbn [mbind option_bind]; [by rewrite Hsum|].
    rewrite Hd. cbn [mbind option_bind]. by rewrite Hsum.
  - rewrite <- (Hsum 0). by rewrite Z.add_0_r.
Qed.
End Sizes.

Lemma nodemax_half (p x : Z) : x <= nodemax p -> 2 * (EVEN x + 2) <= p - 16.
Proof.
  unfold nodemax, MDB_MINKEYS, PAGEHDRSZ. intros Hx.
  assert (Z.land ((p - 16) / 2) (-2) = 2 * ((p - 16) / 2 / 2)) as E.
  { change (-2) with (Z.lnot (Z.ones 1)). rewrite <- Z.ldiff_land, Z.ldiff_ones_r, Z.shiftl_mul_pow2, Z.shiftr_div_pow2 by lia.
    change (2 ^ 1) with 2. lia. }
  rewrite E in Hx. assert (EVEN x <= 2 * ((p - 16) / 2 / 2) - 2).
  { rewrite EVEN_eq. assert ((x + 1) / 2 < (p - 16) / 2 / 2); [|lia]. apply Z.div_lt_upper_bound; lia. }
  pose proof (Z.mul_div_le ((p - 16) / 2) 2). pose proof (Z.mul_div_le (p - 16) 2). lia.
Qed.

(** The size computed for the new node. *)
Lemma new_size_cell (me_psize : Z) (leaf : bool) (nn : new_node) : addable (nodemax me_psize) leaf nn ->
  F_ISSET (nn_flags nn) F_BIGDATA = false -> new_size me_psize leaf nn = Some (cell (image leaf nn)).
Proof.
  intros [[Hks _] _ Hmax Hd] Hfl. unfold new_size, cell, mdb_leaf_size, mdb_branch_size, LEAFSIZE, INDXSIZE, NODESIZE.
  destruct leaf; cbn [image] in *.
  - destruct (Hd eq_refl) as (d & Ed & _ & _ & _ & Hsz). rewrite Ed in *. rewrite Hfl in Hsz.
    change (default (Val 0 []) (Some d)) with d in *. cbn [mbind option_bind].
    unfold in_page in *. rewrite Hfl, leaf_node_len in *.
    rewrite (proj2 (Z.ltb_ge _ _)) by lia. f_equal.
    rewrite EVEN_idem, Z.add_comm, (EVEN_add 2) by done. rewrite Hks, Hsz. lia.
  - unfold branch_node. rewrite !zlen_app, !zlen_le_bytes. f_equal.
    rewrite Z.add_comm, (EVEN_add 2) by done. rewrite Hks, Z.add_comm.
    replace (Z.of_nat 6 + (Z.of_nat 2 + zlen (mv_data (nn_key nn)))) with (8 + zlen (mv_data (nn_key nn))) by lia. done.
Qed.

(** ** Planning the split *)

Section Plan.
Variables (me_psize : Z) (mp copy0 : list Z) (nn : new_node) (newindx : Z).
Let me_nodemax := nodemax me_psize.
Let leaf := p_leaf mp.
Let nkeys := p_num mp.
Let new := image leaf nn.
Let pmax := me_psize - PAGEHDRSZ.

Record split_input : Prop := {
  si_wf : page_wf mp;
  si_psize : zlen mp = me_psize;
  si_copy : zlen copy0 = me_psize /\ Forall is_byte copy0;
  si_small : nodes_small me_nodemax mp;
  si_new : addable me_nodemax leaf nn;
  si_flags : F_ISSET (nn_flags nn) F_BIGDATA = false;
  si_indx : 0 <= newindx <= nkeys;
  si_full : p_upper mp - p_lower mp < cell new
}.
Hypothesis Hin : split_input.

(** All nodes, the new one in its place. *)
Definition all_node (i : Z) : new_node := if i =? newindx then nn else p_node mp (old_slot newindx i).
Definition all_raw : list (list Z) := with_new (p_raw mp) newindx new.
Definition all_cells : list Z := cell <$> all_raw.

Lemma zlen_all : zlen all_raw = nkeys + 1.
Proof. destruct Hin. unfold all_raw. rewrite zlen_with_new; rewrite zlen_p_raw by done; done. Qed.

Lemma all_image (i : Z) : 0 <= i <= nkeys ->
  zn all_raw i = image leaf (all_node i) /\ addable me_nodemax leaf (all_node i).
Proof.
  intros Hi. destruct Hin. pose proof (zlen_p_raw mp si_wf0) as Hz. unfold all_raw, all_node, nkeys in *.
  rewrite zn_with_new by lia. destruct (Z.eqb_spec i newindx) as [|Hne]; [done|].
  assert (0 <= old_slot newindx i < p_num mp) as Ho by (unfold old_slot; destruct (Z.ltb_spec i newindx); lia).
  destruct (zn_p_raw mp _ si_wf0 Ho) as (_ & E & _). split; [done|]. by apply node_addable; auto.
Qed.

Lemma cells_half : Forall (fun x => 0 <= x /\ 2 * x <= pmax) all_cells.
Proof.
  apply Forall_fmap, Forall_forall. intros x Hx. apply elem_zn in Hx as (i & Hi & <-). rewrite zlen_all in Hi.
  destruct (all_image i ltac:(lia)) as [-> Ha]. unfold compose, cell.
  pose proof (zlen_nonneg (image leaf (all_node i))). pose proof (EVEN_bounds (zlen (image leaf (all_node i)))).
  pose proof (nodemax_half me_psize _ (ad_max _ _ _ Ha)). unfold pmax, PAGEHDRSZ. lia.
Qed.

(** A page that cannot take the node has two nodes at least. *)
Lemma two_keys : 2 <= nkeys.
Proof.
  pose proof Hin as []. pose proof cells_half as Hc. pose proof (cells_sum mp si_wf0) as Hs.
  pose proof (wf_num _ si_wf0). pose proof (zlen_p_raw mp si_wf0) as Hz. unfold nkeys, pmax, PAGEHDRSZ in *.
  assert (0 <= cell new /\ 2 * cell new <= me_psize - 16) as Hn.
  { apply (proj1 (Forall_forall _ _) Hc). unfold all_cells, all_raw. rewrite with_new_fmap. unfold with_new.
    rewrite !elem_of_app. right. left. left. }
  destruct (decide (2 <= p_num mp)); [done|]. exfalso.
  assert (2 * sumZ (cell <$> p_raw mp) <= me_psize - 16); [|lia].
  assert (Forall (fun x => 0 <= x /\ 2 * x <= me_psize - 16) (cell <$> p_raw mp)) as Hp.
  { unfold all_cells, all_raw in Hc. rewrite with_new_fmap in Hc. unfold with_new in Hc. rewrite !Forall_app in Hc.
    rewrite <- (take_drop (Z.to_nat newindx) (cell <$> p_raw mp)). apply Forall_app. tauto. }
  destruct (p_raw mp) as [|x [|y l]]; [cbn; lia| |rewrite !zlen_cons in Hz; pose proof (zlen_nonneg l); lia].
  cbn in Hp |- *. apply Forall_cons in Hp as [? _]. lia.
Qed.

(** The slots of the copy and its page. *)
Lemma plan_copy : exists copy, init_copy me_psize copy0 mp = Some copy /\
  exists copy', prepare (Z.to_nat nkeys) copy mp 0 0 newindx = Some copy' /\ blank me_psize mp copy' /\
    slots_ok mp copy' newindx 0 (nkeys + if newindx <? nkeys then 1 else 0).
Proof.
  pose proof two_keys as H2. pose proof Hin as []. destruct (init_copy_ok me_psize mp copy0) as (c & E & Hb); auto.
  exists c. split; [done|]. pose proof (wf_num _ si_wf0). pose proof (bl_len _ _ _ Hb) as Hl.
  pose proof (wf_upper _ si_wf0). pose proof (wf_lower _ si_wf0). unfold nkeys in *.
  destruct (prepare_ok mp newindx (Z.to_nat (p_num mp)) c 0 0) as (c' & Ep & Hl' & Hb' & Hh & Hs); auto; try lia.
  - rewrite (proj2 (Z.ltb_ge newindx 0)) by lia. done.
  - pose proof (wf_in _ si_wf0 0 ltac:(lia)). pose proof (n_size_pos mp si_wf0 (p_ptr mp 0)). lia.
  - apply Hb.
  - intros k Hk. lia.
  - exists c'. split_and!; auto. by apply (blank_frame me_psize mp si_wf0 si_psize0 c).
Qed.

Lemma plan_split_gen (P : Z -> Prop) : (forall s, P s -> 0 < s <= nkeys) ->
  (forall copy, (forall i psize, 0 <= i < zlen all_cells -> EVEN psize = psize ->
       add_psize mp copy leaf psize i newindx (cell new) = Some (psize + zn all_cells i) /\ EVEN (psize + zn all_cells i) = psize + zn all_cells i) ->
     exists s, find_split me_psize mp copy leaf nkeys newindx (cell new) = Some s /\ P s) ->
  exists copy s, plan_split me_psize mp copy0 nn newindx = Some (copy, s, nn_key (all_node s)) /\ P s /\ blank me_psize mp copy /\
    slots_ok mp copy newindx 0 (nkeys + if newindx <? nkeys then 1 else 0).
Proof.
  intros HP Hfind. pose proof Hin as []. pose proof two_keys as H2. destruct plan_copy as (c & E & c' & Ep & Hb & Hs).
  pose proof (zlen_p_raw mp si_wf0) as Hz. pose proof (wf_upper _ si_wf0). pose proof (bl_len _ _ _ Hb) as Hl.
  destruct (Hfind c') as (s & Ef & Hps).
  - intros i ps Hi He. unfold all_cells, all_raw in *. rewrite with_new_fmap in *. apply (add_psize_ok mp c' newindx new); auto. lia.
  - exists c', s. split_and!; auto. unfold plan_split. rewrite NUMKEYS_ok, IS_LEAF_ok by done. fold leaf nkeys.
    cbn [mbind option_bind]. rewrite new_size_cell by done. fold new. cbn [mbind option_bind]. rewrite E. cbn [mbind option_bind].
    rewrite Ep. cbn [mbind option_bind]. rewrite Ef. cbn [mbind option_bind].
    unfold separator, all_node. destruct (Z.eqb_spec s newindx) as [|Hne]; [done|].
    pose proof (HP s Hps) as Hr.
    destruct (slot_read mp c' newindx) with (i := s) as [-> Ho]; auto; try lia. cbn [mbind option_bind].
    destruct (n_key_in mp _ si_wf0 Ho) as (? & ? & ?). unfold key_at, NODEKSZ, NODESIZE.
    rewrite get16_in by lia. cbn [mbind option_bind]. rewrite bread_in by lia. done.
Qed.

(** The split point, found by the sizes, or by the number of nodes if the
    halves fit then. *)
Lemma plan_split_ok : searched me_psize nkeys newindx (cell new) = true \/ fits pmax all_cells ((nkeys + 1) / 2) ->
  exists copy s, plan_split me_psize mp copy0 nn newindx = Some (copy, s, nn_key (all_node s)) /\
    (fits pmax all_cells s /\ middle pmax all_cells s) /\ blank me_psize mp copy /\
    slots_ok mp copy newindx 0 (nkeys + if newindx <? nkeys then 1 else 0).
Proof.
  intros Hor. pose proof Hin as []. pose proof two_keys as H2. pose proof (cells_sum mp si_wf0) as Hsum. pose proof (wf_upper _ si_wf0).
  pose proof (zlen_p_raw mp si_wf0) as Hz.
  assert (zlen all_cells = nkeys + 1) as Hzc by (unfold all_cells; rewrite zlen_fmap; apply zlen_all).
  apply plan_split_gen.
  - intros s [Hf _]. pose proof (fit_range _ _ _ Hf). lia.
  - intros c Hstep. destruct (searched me_psize nkeys newindx (cell new)) eqn:Hse.
    + pose proof (find_split_fits me_psize mp c leaf newindx (cell new) (cell <$> p_raw mp)) as Hfind. cbv zeta in Hfind.
      rewrite zlen_fmap, Hz in Hfind. unfold all_cells, all_raw in *. rewrite with_new_fmap in *. apply Hfind; auto.
      * unfold PAGEHDRSZ. lia.
      * pose proof cells_half as Hc. unfold all_cells, all_raw in Hc. by rewrite with_new_fmap in Hc.
    + destruct Hor as [Hor|Hor]; [done|]. exists ((nkeys + 1) / 2). unfold find_split. unfold searched in Hse. fold pmax in Hse |- *.
      rewrite Hse. split_and!; auto. rewrite !orb_false_iff in Hse. destruct Hse as [[Hn%Z.ltb_ge _] _].
      pose proof (Z.div_mod (nkeys + 1) 2). pose proof (Z.mod_pos_bound (nkeys + 1) 2). apply middle_left; [|lia].
      pose proof (fit_left _ _ _ Hor). pose proof (sumZ_nonneg (take (Z.to_nat ((nkeys + 1) / 2)) all_cells)) as Hnn.
      etrans; [|done]. apply Hnn, Forall_take. apply (Forall_impl _ _ _ cells_half). lia.
Qed.
End Plan.

(** ** Moving the nodes *)

Lemma drop_key_addable (me_nodemax : Z) (leaf : bool) (j : Z) (nn : new_node) : addable me_nodemax leaf nn ->
  addable me_nodemax leaf (drop_key leaf j nn) /\
  zlen (image leaf (drop_key leaf j nn)) <= zlen (image leaf nn).
Proof.
  intros Ha. unfold drop_key. destruct leaf; cbn [negb andb]; [done|]. destruct (j =? 0); [|done].
  pose proof (image_hdr _ _ _ Ha) as [H8 _]. pose proof (ad_max _ _ _ Ha).
  assert (zlen (image false (NewNode (Val 0 []) (nn_data nn) (nn_pgno nn) (nn_flags nn))) = 8) as E
    by (cbn [image nn_key nn_pgno]; unfold branch_node; cbn [mv_size mv_data]; arr; lia).
  split; [|lia]. split; cbn [nn_key]; [split; [done|constructor]|done|lia|done].
Qed.

Lemma cell_mono (a b : list Z) : zlen a <= zlen b -> cell a <= cell b.
Proof.
  intros Hle. unfold cell. rewrite !EVEN_eq. assert ((zlen a + 1) / 2 <= (zlen b + 1) / 2); [|lia].
  apply Z.div_le_mono; lia.
Qed.

Section Move.
Variables (md_pad me_psize : Z) (page_new : Z -> Z + (Z * list Z)) (mp copy0 : list Z) (nn : new_node) (newindx s : Z).
Let me_nodemax := nodemax me_psize.
Let leaf := p_leaf mp.
Let nkeys := p_num mp.
Let pmax := me_psize - PAGEHDRSZ.
Hypothesis Hin : split_input me_psize mp copy0 nn newindx.
Abbreviation all_node := (all_node mp nn newindx).
Abbreviation all_cells := (all_cells mp nn newindx).
Hypothesis Hfit : fits pmax all_cells s.

(** The image of node [i] when it is put at index [j] of a page. *)
Definition placed (i j : Z) : list Z := image leaf (drop_key leaf j (all_node i)).

Lemma s_range : 0 < s <= nkeys.
Proof.
  destruct Hfit as [Hr _ _]. unfold PageSplit.all_cells in Hr. rewrite zlen_fmap, (zlen_all me_psize _ copy0) in Hr by done.
  unfold nkeys. lia.
Qed.

Lemma cell_at (i : Z) : 0 <= i <= nkeys ->
  zn all_cells i = cell (image leaf (all_node i)) /\ 10 <= zn all_cells i.
Proof.
  intros Hi. destruct (all_image me_psize mp copy0 nn newindx Hin i Hi) as [E Ha].
  unfold PageSplit.all_cells. rewrite zn_fmap by (rewrite (zlen_all me_psize _ copy0) by done; fold nkeys; lia).
  rewrite E. split; [done|]. destruct (image_hdr _ _ _ Ha) as [H8 _]. unfold cell.
  pose proof (EVEN_bounds (zlen (image (p_leaf mp) (all_node i)))). lia.
Qed.

Lemma add_placed (dst : list Z) (i : Z) : page_wf dst -> p_leaf dst = leaf -> 0 <= i <= nkeys ->
  zn all_cells i <= p_upper dst - p_lower dst ->
  let x := drop_key leaf (p_num dst) (all_node i) in
  exists dst', mdb_node_add md_pad me_nodemax me_psize page_new dst (p_num dst) (Some (nn_key x)) (nn_data x)
      (nn_pgno x) (nn_flags x) = Some (AddOk dst' None) /\
    inserted dst (p_num dst) (placed i (p_num dst)) dst' /\
    p_raw dst' = p_raw dst ++ [placed i (p_num dst)] /\ p_num dst' = p_num dst + 1 /\ p_leaf dst' = leaf /\
    p_upper dst - p_lower dst - zn all_cells i <= p_upper dst' - p_lower dst'.
Proof.
  intros Hwf Hl Hi Hroom x. destruct (all_image me_psize mp copy0 nn newindx Hin i Hi) as [_ Ha].
  destruct (cell_at i Hi) as [Hc _].
  destruct (drop_key_addable _ leaf (p_num dst) _ Ha) as [Hx Hxl]. pose proof (cell_mono _ _ Hxl) as Hcm.
  rewrite Hc in Hroom. fold leaf in Hcm. fold x in Hx, Hcm. unfold cell at 1 in Hcm.
  destruct (add_last md_pad me_psize page_new dst x Hwf) as (dst' & E & Hins).
  { by rewrite Hl. }
  { rewrite Hl. lia. }
  rewrite Hl in Hins. exists dst'. split; [done|]. split; [done|].
  destruct (image_hdr _ _ _ Hx) as [H8 Hr].
  destruct (inserted_last dst dst' (image leaf x) Hwf Hins H8) as (Eraw & En & El); [by rewrite Hl|].
  split_and!; auto; [congruence|]. rewrite (in_lower _ _ _ _ Hins), (in_upper _ _ _ _ Hins), Hc. lia.
Qed.

(** The node read in round [i]. *)
Lemma read_node_at (copy : list Z) (i j ki : Z) : zlen copy = zlen mp -> 0 <= i <= nkeys ->
  (i <> newindx -> p_ptr copy i = p_ptr mp (old_slot newindx i)) ->
  (if i =? newindx then Some (nn, j)
   else o ← mp_ptr copy i; x ← old_node mp leaf o; Some (x, ki)) =
  Some (all_node i, if i =? newindx then j else ki).
Proof.
  intros Hl Hi Hp. destruct Hin. unfold PageSplit.all_node. destruct (Z.eqb_spec i newindx) as [|Hne]; [done|].
  pose proof (wf_upper _ si_wf0). pose proof (wf_lower _ si_wf0). unfold nkeys in *.
  assert (0 <= old_slot newindx i < p_num mp) as Ho by (unfold old_slot; destruct (Z.ltb_spec i newindx); lia).
  pose proof (wf_in _ si_wf0 _ Ho). pose proof (n_size_pos mp si_wf0 (p_ptr mp (old_slot newindx i))).
  unfold mp_ptr, PAGEHDRSZ. rewrite get16_in by lia. cbn [mbind option_bind]. fold (p_ptr copy i).
  rewrite (Hp Hne). unfold leaf. rewrite old_node_ok by done. done.
Qed.

(** A list of images put on a page from index 0. *)
Definition placed_from (a n : Z) : list (list Z) := (fun i => placed i (i - a)) <$> seqZ a n.

Lemma placed_from_next (a n : Z) : 0 <= n -> placed_from a (n + 1) = placed_from a n ++ [placed (a + n) n].
Proof.
  intros Hn. unfold placed_from. rewrite seqZ_app by lia. rewrite fmap_app. f_equal.
  rewrite seqZ_cons by lia. change (seqZ (Z.succ (a + n)) (Z.pred 1)) with (@nil Z). rewrite fmap_cons, fmap_nil.
  by replace (a + n - a) with n by lia.
Qed.

(** Filling the left page: the copy has nodes [0..i-1]. *)
Lemma move_left (fuel : nat) : forall copy i ki rp, s - i <= Z.of_nat fuel -> 0 <= i < s ->
  page_wf copy -> p_leaf copy = leaf -> zlen copy = zlen mp -> p_num copy = i -> p_raw copy = placed_from 0 i ->
  slots_ok mp copy newindx i s ->
  sumZ (take (Z.to_nat s) all_cells) - sumZ (take (Z.to_nat i) all_cells) <= p_upper copy - p_lower copy ->
  exists copy', move_loop md_pad me_psize page_new fuel mp leaf nn nkeys newindx s true rp copy i i ki None =
      Some (inr (rp, copy', if (i <=? newindx) && (newindx <? s) then newindx else ki, None)) /\
    page_wf copy' /\ zlen copy' = zlen mp /\ p_raw copy' = placed_from 0 s /\ p_flags copy' = p_flags copy /\
    p_upper copy' = p_ptr copy' (s - 1).
Proof.
  pose proof s_range as Hs.
  induction fuel as [|fuel IH]; intros copy i ki rp Hf Hi Hwf Hl Hlen Hn Hraw Hslots Hfree; [lia|].
  cbn [move_loop]. rewrite (read_node_at copy i i ki) by (try lia; intros; apply Hslots; lia).
  cbn [mbind option_bind].
  assert (zlen all_cells = nkeys + 1) as Hzc.
  { unfold PageSplit.all_cells. rewrite zlen_fmap. by apply (zlen_all me_psize _ copy0). }
  pose proof (sumZ_take_next all_cells i ltac:(lia)) as Hnext.
  assert (forall k, 0 <= k -> i + 1 + k <= s -> 2 * k + sumZ (take (Z.to_nat (i + 1)) all_cells) <=
    sumZ (take (Z.to_nat (i + 1 + k)) all_cells)) as Hgrow.
  { intros k Hk. rewrite <- (Z2Nat.id k) by lia. induction (Z.to_nat k) as [|q IHq]; intros Hq.
    - rewrite Z.add_0_r. lia.
    - replace (i + 1 + Z.of_nat (S q)) with (i + 1 + Z.of_nat q + 1) by lia.
      rewrite (sumZ_take_next all_cells (i + 1 + Z.of_nat q)) by lia. destruct (cell_at (i + 1 + Z.of_nat q) ltac:(lia)) as [_ ?].
      specialize (IHq ltac:(lia)). lia. }
  pose proof (Hgrow (s - i - 1) ltac:(lia) ltac:(lia)) as Hg1. replace (i + 1 + (s - i - 1)) with s in Hg1 by lia.
  destruct (add_placed copy i) as (copy1 & E & Hins & Hraw1 & Hn1 & Hl1 & Hfree1); auto; try lia.
  rewrite Hn in *. cbv zeta. unfold me_nodemax in E. rewrite E. cbn [mbind option_bind].
  pose proof (in_len _ _ _ _ Hins) as Hlen1. pose proof (in_lower _ _ _ _ Hins) as Hlow1.
  pose proof (in_kept _ _ _ _ Hins) as Hkept. pose proof (in_wf _ _ _ _ Hins) as Hwf1.
  pose proof (wf_lower _ Hwf) as Hlow. pose proof (wf_upper _ Hwf1) as Hup1.
  assert (p_flags copy1 = p_flags copy) as Hfl1.
  { apply wf_flags_leaf; [pose proof (wf_psize _ Hwf); lia|done|apply Hins]. }
  assert (p_raw copy1 = placed_from 0 (i + 1)) as Hraw1' by (rewrite placed_from_next, Hraw1, Hraw by lia; done).
  rewrite (proj2 (Z.eqb_neq i nkeys)) by lia. destruct (Z.eqb_spec (i + 1) s) as [Hlast|Hmore].
  - exists copy1. split_and!; auto; try congruence.
    + do 4 f_equal. destruct (Z.eqb_spec i newindx), (Z.leb_spec i newindx), (Z.ltb_spec newindx s); cbn [andb]; lia.
    + rewrite <- Hlast, <- (in_ptr _ _ _ _ Hins). f_equal. lia.
  - destruct (IH copy1 (i + 1) (if i =? newindx then i else ki) rp) as (c' & E' & Hwf' & Hlen' & Hraw' & Hfl' & Hup');
      auto; try lia; try congruence.
    + intros k Hk Hkn. rewrite <- Hslots by lia. unfold p_ptr. apply g16_ext; try lia.
      intros x Hx. apply Hkept. left. lia.
    + exists c'. split_and!; auto; [|congruence]. rewrite E'. do 4 f_equal.
      destruct (Z.eqb_spec i newindx), (Z.leb_spec i newindx), (Z.leb_spec (i + 1) newindx), (Z.ltb_spec newindx s);
        cbn [andb]; lia.
Qed.

(** Filling the right page, then the left one. *)
Lemma move_right (fuel : nat) : forall copy i ki rp, nkeys + 1 - i + s <= Z.of_nat fuel -> s <= i <= nkeys ->
  page_wf rp -> p_leaf rp = leaf -> p_num rp = i - s -> p_raw rp = placed_from s (i - s) ->
  blank me_psize mp copy -> slots_ok mp copy newindx 0 (nkeys + if newindx <? nkeys then 1 else 0) ->
  sumZ (drop (Z.to_nat i) all_cells) <= p_upper rp - p_lower rp ->
  exists rp' copy', move_loop md_pad me_psize page_new fuel mp leaf nn nkeys newindx s false rp copy i (i - s) ki None =
      Some (inr (rp', copy', (if newindx <? s then newindx else if newindx <? i then ki else newindx - s), None)) /\
    page_wf rp' /\ p_raw rp' = placed_from s (nkeys + 1 - s) /\ (slice rp' 0 12 = slice rp 0 12 /\ zlen rp' = zlen rp) /\
    page_wf copy' /\ zlen copy' = zlen mp /\ p_raw copy' = placed_from 0 s /\ p_flags copy' = p_flags mp /\
    p_upper copy' = p_ptr copy' (s - 1).
Proof.
  pose proof s_range as Hs. pose proof (si_psize _ _ _ _ _ Hin) as Hps.
  induction fuel as [|fuel IH]; intros copy i ki rp Hf Hi Hwf Hl Hn Hraw Hb Hslots Hfree; [lia|].
  pose proof (bl_len _ _ _ Hb) as Hlen. pose proof (si_indx _ _ _ _ _ Hin) as Hni. fold nkeys in Hni.
  cbn [move_loop]. rewrite (read_node_at copy i (i - s) ki)
    by (try lia; intros; apply Hslots; destruct (Z.ltb_spec newindx nkeys); lia).
  cbn [mbind option_bind]. cbv zeta.
  assert (zlen all_cells = nkeys + 1) as Hzc.
  { unfold PageSplit.all_cells. rewrite zlen_fmap. by apply (zlen_all me_psize _ copy0). }
  pose proof (sumZ_drop_next all_cells i ltac:(lia)) as Hnext.
  assert (0 <= sumZ (drop (Z.to_nat (i + 1)) all_cells)) as H0.
  { apply sumZ_nonneg, Forall_drop. apply (Forall_impl _ _ _ (cells_half me_psize mp copy0 nn newindx Hin)). lia. }
  destruct (add_placed rp i) as (rp1 & E & Hins & Hraw1 & Hn1 & Hl1 & Hfree1); auto; try lia.
  rewrite Hn in *. unfold me_nodemax in E. rewrite E. cbn [mbind option_bind].
  pose proof (in_wf _ _ _ _ Hins) as Hwf1. pose proof (in_head _ _ _ _ Hins) as Hhd. pose proof (in_len _ _ _ _ Hins) as Hln.
  assert (p_raw rp1 = placed_from s (i - s + 1)) as Hraw1'.
  { rewrite placed_from_next, Hraw1, Hraw by lia. by replace (s + (i - s)) with i by lia. }
  destruct (Z.eqb_spec i nkeys) as [Hlast|Hmore].
  - rewrite (proj2 (Z.eqb_neq 0 s)) by lia. pose proof Hin as [].
    destruct (blank_wf me_psize mp si_wf0 si_psize0 copy Hb) as (Hcwf & Hcn & Hc0 & Hcl).
    destruct (move_left fuel copy 0 (if i =? newindx then i - s else ki) rp1)
      as (copy' & E' & ? & ? & ? & ? & ?); auto; try lia.
    + unfold p_raw. by rewrite Hcn.
    + intros k Hk. apply Hslots. destruct (Z.ltb_spec newindx nkeys); lia.
    + rewrite (bl_lower _ _ _ Hb), (bl_upper _ _ _ Hb). change (sumZ (take (Z.to_nat 0) all_cells)) with 0.
      pose proof (fit_left _ _ _ Hfit). unfold pmax, PAGEHDRSZ in *. lia.
    + exists rp1, copy'. split_and!; auto.
      * rewrite E'. do 4 f_equal.
        destruct (Z.eqb_spec i newindx), (Z.ltb_spec newindx s), (Z.leb_spec 0 newindx), (Z.ltb_spec newindx i);
          cbn [andb]; lia.
      * rewrite Hraw1'. f_equal. lia.
      * rewrite <- (bl_flags _ _ _ Hb). done.
  - rewrite (proj2 (Z.eqb_neq (i + 1) s)) by lia. replace (i - s + 1) with (i + 1 - s) in * by lia.
    destruct (IH copy (i + 1) (if i =? newindx then i - s else ki) rp1)
      as (rp' & copy' & E' & ? & ? & [? ?] & ?); auto; try lia.
    exists rp', copy'. rewrite E'. split_and!; try tauto; [|congruence..].
    do 4 f_equal. destruct (Z.eqb_spec i newindx), (Z.ltb_spec newindx s), (Z.ltb_spec newindx i), (Z.ltb_spec newindx (i + 1));
      lia.
Qed.
End Move.

(** ** Copying the left half back *)

Lemma copy_ptrs_ok (copy : list Z) (n : nat) : forall mp i, 0 <= i -> 16 + 2 * (i + Z.of_nat n) <= zlen mp ->
  zlen copy = zlen mp -> Forall is_byte mp -> Forall is_byte copy ->
  exists mp', copy_ptrs n mp copy i = Some mp' /\ zlen mp' = zlen mp /\ Forall is_byte mp' /\
    (forall k, i <= k < i + Z.of_nat n -> p_ptr mp' k = p_ptr copy k) /\
    (forall x, x < 16 + 2 * i \/ 16 + 2 * (i + Z.of_nat n) <= x -> zn mp' x = zn mp x).
Proof.
  induction n as [|n IH]; intros mp i Hi Hl Hc Hb Hbc; cbn [copy_ptrs].
  { exists mp. split_and!; auto; lia. }
  unfold mp_ptr at 1, PAGEHDRSZ. rewrite get16_in by lia. cbn [mbind option_bind]. fold (p_ptr copy i).
  destruct (set_ptr_upd mp i (p_ptr copy i)) as (m1 & -> & U & Hp & _); try lia. cbn [mbind option_bind].
  pose proof (u_len _ _ _ _ U) as Hl1.
  destruct (IH m1 (i + 1)) as (m' & E & Hl' & Hb' & Hp' & Ho'); auto; try lia.
  { apply U; [done|apply le_bytes_byte]. }
  exists m'. split_and!; auto; try lia.
  - intros k Hk. destruct (decide (k = i)) as [->|]; [|apply Hp'; lia].
    transitivity (p_ptr m1 i); [unfold p_ptr; apply g16_ext; try lia; intros x Hx; apply Ho'; lia|].
    rewrite Hp. apply uwrap_small. unfold p_ptr. apply g16_range; auto; lia.
  - intros x Hx. rewrite Ho', (u_old _ _ _ _ U) by (rewrite ?zlen_le_bytes; lia). done.
Qed.

(** A page with the same header fields, slots and nodes. *)
Lemma same_page (m m' : list Z) : page_wf m -> zlen m' = zlen m -> Forall is_byte m' -> p_flags m' = p_flags m ->
  p_lower m' = p_lower m -> p_upper m' = p_upper m ->
  (forall k, 0 <= k < p_num m -> p_ptr m' k = p_ptr m k) ->
  (forall x, p_upper m <= x < zlen m -> zn m' x = zn m x) -> page_wf m' /\ p_nodes m' = p_nodes m.
Proof.
  intros Hwf Hl Hb Hf Hlo Hup Hp Hx. pose proof (wf_upper _ Hwf). pose proof (wf_lower _ Hwf).
  pose proof (wf_num _ Hwf).
  assert (p_num m' = p_num m) as Hn by (unfold p_num; by rewrite Hlo).
  assert (p_leaf m' = p_leaf m) as Hlf by (unfold p_leaf; by rewrite Hf).
  assert (forall k, 0 <= k < p_num m -> n_size m' (p_ptr m k) = n_size m (p_ptr m k) /\
    slice m' (p_ptr m k) (n_size m (p_ptr m k)) = n_image m k) as Hk.
  { intros k Hk. destruct (wf_in _ Hwf k Hk). pose proof (n_size_pos m Hwf (p_ptr m k)). split.
    - unfold n_size. rewrite Hlf. f_equal. apply slice_ext; try lia. intros i Hi. apply Hx. lia.
    - apply slice_ext; try lia. intros i Hi. apply Hx. lia. }
  assert (p_nodes m' = p_nodes m) as Hnodes.
  { unfold p_nodes. rewrite Hn. apply list_fmap_ext. intros i k E. apply lookup_seqZ in E as [-> Hi].
    unfold n_image at 1. rewrite Hp by lia. destruct (Hk (0 + Z.of_nat i) ltac:(lia)) as [-> ->]. done. }
  split; [|done]. destruct Hwf. split; rewrite ?Hn; auto; try lia.
  - unfold p_leaf2. by rewrite Hf.
  - intros k Hkr. rewrite Hp, Hup, Hl by done. destruct (Hk k Hkr) as [-> _]. auto.
  - intros k k' Hk1 Hk2 Hne. rewrite !Hp by done. destruct (Hk k Hk1) as [-> _], (Hk k' Hk2) as [-> _]. auto.
  - rewrite Hnodes, Hl, Hup. done.
Qed.

Lemma copy_back_ok (me_psize : Z) (mp copy : list Z) : page_wf mp -> page_wf copy -> zlen mp = me_psize ->
  zlen copy = me_psize -> p_flags copy = p_flags mp -> 0 < p_num copy ->
  p_upper copy = p_ptr copy (p_num copy - 1) ->
  exists mp', copy_back me_psize mp copy = Some mp' /\ page_wf mp' /\ p_raw mp' = p_raw copy /\
    slice mp' 0 12 = slice mp 0 12 /\ zlen mp' = zlen mp.
Proof.
  intros Hwf Hwc Hl Hlc Hf Hn Hup. pose proof (wf_upper _ Hwc). pose proof (wf_lower _ Hwc).
  pose proof (wf_bytes _ Hwf). pose proof (wf_bytes _ Hwc) as Hbc. pose proof (wf_psize _ Hwc) as Hps. unfold MAX_PAGESIZE in Hps.
  unfold copy_back. rewrite NUMKEYS_ok, mp_lower_ok, mp_upper_ok by done. cbn [mbind option_bind].
  destruct (copy_ptrs_ok copy (Z.to_nat (p_num copy)) mp 0) as (m1 & -> & Hl1 & Hb1 & Hp1 & Ho1); auto; try lia.
  cbn [mbind option_bind]. unfold set_lower, set_upper. mstep m2 U2. pose proof (u_len _ _ _ _ U2).
  mstep m3 U3. pose proof (u_len _ _ _ _ U3).
  assert (forall k, 0 <= k < p_num copy -> p_ptr m3 k = p_ptr copy k) as Hp3.
  { intros k Hk. rewrite <- Hp1 by lia. unfold p_ptr. rewrite (upd_g16_ne _ _ _ _ _ U3), (upd_g16_ne _ _ _ _ _ U2) by zlia.
    done. }
  unfold mp_ptr, PAGEHDRSZ. rewrite !get16_in by lia. cbn [mbind option_bind].
  fold (p_ptr m3 (p_num copy - 1)) (p_ptr copy (p_num copy - 1)). rewrite Hp3, <- Hup by lia.
  rewrite bread_in by lia. cbn [mbind option_bind].
  assert (zlen (slice copy (p_upper copy) (me_psize - p_upper copy)) = me_psize - p_upper copy) as Hz
    by (apply zlen_slice; lia).
  destruct (bwrite_upd m3 (p_upper copy) (slice copy (p_upper copy) (me_psize - p_upper copy))) as (m4 & -> & U4); try lia.
  pose proof (u_len _ _ _ _ U4). pose proof (u_old _ _ _ _ U4) as Ho4. rewrite Hz in Ho4.
  assert (forall o, 0 <= o -> o + 2 <= p_upper copy -> g16 m4 o = g16 m3 o) as Hg4.
  { intros o Ho0 Ho2. apply g16_ext; try lia. intros x Hx. apply Ho4. lia. }
  assert (slice m4 0 12 = slice mp 0 12) as Hhead.
  { apply slice_ext; try lia. intros x Hx.
    rewrite Ho4, (u_old _ _ _ _ U3), (u_old _ _ _ _ U2), Ho1 by (rewrite ?zlen_le_bytes; lia). done. }
  destruct (same_page copy m4 Hwc) as [Hwf4 Hn4]; try lia.
  - apply U4; [|by apply slice_bytes]. apply U3; [|apply le_bytes_byte]. apply U2; [done|apply le_bytes_byte].
  - rewrite Hf. apply wf_flags_leaf; auto; lia.
  - unfold p_lower at 1. rewrite Hg4, (upd_g16_ne _ _ _ _ _ U3), (upd_g16_eq _ _ _ _ U2) by zlia.
    apply uwrap_small. lia.
  - unfold p_upper at 1. rewrite Hg4, (upd_g16_eq _ _ _ _ U3) by lia. apply uwrap_small. lia.
  - intros k Hk. rewrite <- Hp3 by done. unfold p_ptr. apply Hg4; lia.
  - intros x Hx. replace x with (p_upper copy + (x - p_upper copy)) by lia.
    rewrite <- (zn_slice m4 _ (me_psize - p_upper copy)) by lia. rewrite <- Hz at 1. rewrite (u_new _ _ _ _ U4).
    apply zn_slice; lia.
  - exists m4. split_and!; auto; [|lia]. unfold p_raw. rewrite Hn4. f_equal. unfold p_leaf.
    rewrite (wf_flags_leaf mp m4), Hf; auto; lia.
Qed.

(** ** The split *)

(** The first node of a branch page has no key. *)
Definition unkeyed (leaf : bool) (l : list (list Z)) : list (list Z) :=
  if leaf then l else match l with [] => [] | x :: l => (slice x 0 6 ++ [0; 0]) :: l end.

Lemma placed_unkeyed (me_psize : Z) (mp copy0 : list Z) (nn : new_node) (newindx a n : Z) :
  split_input me_psize mp copy0 nn newindx -> 0 <= a -> 0 <= n -> a + n <= p_num mp + 1 ->
  placed_from mp nn newindx a n =
    unkeyed (p_leaf mp) (take (Z.to_nat n) (drop (Z.to_nat a) (all_raw mp nn newindx))).
Proof.
  intros Hin Ha Hn Han. pose proof (zlen_all me_psize mp copy0 nn newindx Hin) as Hz.
  assert (take (Z.to_nat n) (drop (Z.to_nat a) (all_raw mp nn newindx)) =
          (fun i => image (p_leaf mp) (all_node mp nn newindx i)) <$> seqZ a n) as ->.
  { apply zlist_eq.
    - rewrite zlen_fmap. unfold zlen in *. rewrite length_take, length_drop, length_seqZ. lia.
    - intros k Hk. assert (0 <= k < n) as Hkn by (unfold zlen in *; rewrite length_take, length_drop in Hk; lia).
      rewrite zn_take, zn_drop by lia.
      rewrite zn_fmap by (unfold zlen; rewrite length_seqZ; lia).
      assert (zn (seqZ a n) k = a + k) as ->.
      { apply aget_zn. unfold aget. rewrite (proj2 (Z.leb_le 0 k)) by lia. apply lookup_seqZ. lia. }
      by destruct (all_image me_psize mp copy0 nn newindx Hin (a + k) ltac:(lia)). }
  unfold placed_from, placed, drop_key, unkeyed. destruct (p_leaf mp); cbn [negb andb]; [done|].
  destruct (decide (n = 0)) as [->|]; [done|]. rewrite seqZ_cons by lia. rewrite !fmap_cons. f_equal.
  - rewrite Z.sub_diag. change (0 =? 0) with true. cbv iota. unfold image, branch_node. cbn [nn_key nn_pgno mv_size mv_data].
    rewrite slice_app_l by (rewrite zlen_le_bytes; lia).
    rewrite slice_full by (by rewrite zlen_le_bytes). by rewrite app_nil_r.
  - apply list_fmap_ext. intros i k Hk. apply lookup_seqZ in Hk as [-> Hk].
    by rewrite (proj2 (Z.eqb_neq _ 0)) by lia.
Qed.

Section Result.
Variables (md_pad me_psize : Z) (page_new : Z -> Z + (Z * list Z)) (mp copy0 rp : list Z) (nn : new_node) (newindx : Z).
Hypothesis Hin : split_input me_psize mp copy0 nn newindx.
Hypothesis Hrp : page_wf rp /\ p_nodes rp = [] /\ p_leaf rp = p_leaf mp /\
  me_psize - PAGEHDRSZ <= p_upper rp - p_lower rp.

(** Moving the nodes at a split point where both halves fit. *)
Lemma move_nodes_ok (copy : list Z) (s : Z) :
  fits (me_psize - PAGEHDRSZ) (all_cells mp nn newindx) s -> blank me_psize mp copy ->
  slots_ok mp copy newindx 0 (p_num mp + if newindx <? p_num mp then 1 else 0) ->
  exists mp' rp', move_nodes md_pad me_psize page_new mp rp copy nn newindx s =
      Some (SplitOk mp' rp' (if newindx <? s then newindx else newindx - s) (negb (newindx <? s)) None) /\
    page_wf mp' /\ page_wf rp' /\ slice mp' 0 12 = slice mp 0 12 /\ slice rp' 0 12 = slice rp 0 12 /\
    p_raw mp' = unkeyed (p_leaf mp) (take (Z.to_nat s) (all_raw mp nn newindx)) /\
    p_raw rp' = unkeyed (p_leaf mp) (drop (Z.to_nat s) (all_raw mp nn newindx)) /\ zlen mp' = zlen mp /\ zlen rp' = zlen rp.
Proof.
  intros Hfit Hb Hslots. destruct Hrp as (Hrwf & Hrn & Hrf & Hroom). pose proof Hin as [].
  pose proof (s_range me_psize mp copy0 nn newindx s Hin Hfit) as Hs.
  assert (p_num rp = 0) as Hr0.
  { pose proof (zlen_p_nodes rp (wf_num _ Hrwf)) as Hz. rewrite Hrn in Hz. done. }
  destruct (move_right md_pad me_psize page_new mp copy0 nn newindx s Hin Hfit (Z.to_nat (p_num mp + 1)) copy s newindx rp)
    as (rp' & copy' & E & Hwr & Hraw & [Hhr Hlr] & Hwc & Hlc & Hrawc & Hfc & Hupc); auto; try lia.
  - rewrite Z.sub_diag. unfold p_raw. by rewrite Hrn.
  - pose proof (fit_right _ _ _ Hfit). lia.
  - assert (p_num copy' = s) as Hnc.
    { rewrite <- (zlen_p_raw copy') by done. rewrite Hrawc. unfold placed_from. rewrite zlen_fmap. unfold zlen.
      rewrite length_seqZ. lia. }
    destruct (copy_back_ok me_psize mp copy') as (mp' & Eb & Hwm & Hrm & Hhm & Hlm); auto; try lia; [by rewrite Hnc|].
    exists mp', rp'. split_and!; auto.
    + unfold move_nodes. rewrite NUMKEYS_ok, IS_LEAF_ok by done. cbn [mbind option_bind].
      rewrite Z.sub_diag in E. rewrite E. cbn [mbind option_bind]. rewrite Eb. cbn [mbind option_bind].
      do 3 f_equal. destruct (Z.ltb_spec newindx s); lia.
    + rewrite Hrm, Hrawc. rewrite (placed_unkeyed me_psize mp copy0) by (done || lia). done.
    + rewrite Hraw, (placed_unkeyed me_psize mp copy0) by (done || lia). f_equal. apply take_ge.
      pose proof (zlen_all me_psize mp copy0 nn newindx Hin). unfold zlen in *. rewrite length_drop. lia.
Qed.
End Result.

(** ** The separator in the parent *)

Lemma sumZ_even (l : list Z) : Forall (fun x => EVEN x = x) l -> EVEN (sumZ l) = sumZ l.
Proof. induction 1 as [|x l Hx _ IH]; [done|]. cbn [sumZ]. by rewrite EVEN_add, IH. Qed.

(** The free space of a page of even size is even. *)
Lemma left_even (m : list Z) : page_wf m -> EVEN (zlen m) = zlen m ->
  EVEN (p_upper m - p_lower m) = p_upper m - p_lower m.
Proof.
  intros Hwf He. pose proof (cells_sum m Hwf) as Hs.
  assert (EVEN (sumZ (cell <$> p_raw m)) = sumZ (cell <$> p_raw m)) as Hc.
  { apply sumZ_even, Forall_fmap, Forall_true. intros x. unfold compose, cell.
    rewrite (EVEN_add (EVEN _)) by apply EVEN_idem. done. }
  apply EVEN_iff in He as [q1 He]. apply EVEN_iff in Hc as [q2 Hc]. apply EVEN_iff. exists (q1 - 8 - q2). lia.
Qed.

Lemma add_separator_ok (md_pad me_psize : Z) (page_new : Z -> Z + (Z * list Z)) (pp : list Z) (pki rpgno : Z)
    (sep : MDB_val) : page_wf pp -> zlen pp = me_psize -> EVEN me_psize = me_psize -> p_leaf pp = false ->
  0 <= pki < p_num pp -> val_ok sep -> mv_size sep < 65536 ->
  if p_upper pp - p_lower pp <? mdb_branch_size (Some sep)
  then add_separator md_pad me_psize page_new pp pki sep rpgno = Some None
  else exists pp', add_separator md_pad me_psize page_new pp pki sep rpgno = Some (Some (AddOk pp' None)) /\
    inserted pp (pki + 1) (branch_node (Some sep) rpgno) pp'.
Proof.
  intros Hwf Hl He Hlf Hi Hv Hk. unfold add_separator. rewrite SIZELEFT_ok by done. cbn [mbind option_bind].
  destruct (Z.ltb_spec (p_upper pp - p_lower pp) (mdb_branch_size (Some sep))) as [|Hroom]; [done|].
  destruct (node_add_branch_ok md_pad (nodemax me_psize) me_psize page_new pp (pki + 1) (Some sep) None rpgno 0)
    as (pp' & E & Hins); auto; try lia.
  - intros k [= <-]. done.
  - unfold mdb_branch_size in Hroom. pose proof (left_even pp Hwf) as Hev. rewrite Hl in Hev. specialize (Hev He).
    apply EVEN_iff in Hev as [q Hq]. pose proof (EVEN_bounds (INDXSIZE (Some sep))).
    destruct (proj1 (EVEN_iff _) (EVEN_idem (INDXSIZE (Some sep)))) as [q' Hq']. lia.
  - exists pp'. rewrite E. done.
Qed.

Lemma all_key (me_psize : Z) (mp copy0 : list Z) (nn : new_node) (newindx i : Z) :
  split_input me_psize mp copy0 nn newindx -> 0 <= i <= p_num mp ->
  val_ok (nn_key (all_node mp nn newindx i)) /\ mv_size (nn_key (all_node mp nn newindx i)) < 65536.
Proof.
  intros Hin Hi. destruct (all_image me_psize mp copy0 nn newindx Hin i Hi) as [_ []]. done.
Qed.

(** C11: splitting a full page of nodes, when the code looks at the sizes of
    the nodes to choose the split point, always succeeds: both halves fit in
    their pages, which stay well formed and together hold the old nodes and
    the new one, in order (the first node of a branch page without its key);
    the separator is the key of the first node on the right and is inserted
    into the parent after the page; the cursor's index is that of the new
    node.  A parent without room is reported before any page is changed. *)
Theorem page_split_correct (md_pad me_psize : Z) (page_new : Z -> Z + (Z * list Z))
    (mp copy0 rp pp : list Z) (pki rpgno : Z) (nn : new_node) (newindx : Z) :
  split_input me_psize mp copy0 nn newindx ->
  searched me_psize (p_num mp) newindx (cell (image (p_leaf mp) nn)) = true ->
  page_wf rp /\ p_nodes rp = [] /\ p_leaf rp = p_leaf mp /\ me_psize - PAGEHDRSZ <= p_upper rp - p_lower rp ->
  page_wf pp -> zlen pp = me_psize -> EVEN me_psize = me_psize -> p_leaf pp = false -> 0 <= pki < p_num pp ->
  let all := with_new (p_raw mp) newindx (image (p_leaf mp) nn) in
  exists s, 0 < s <= p_num mp /\
    let sep := nn_key (all_node mp nn newindx s) in
    if p_upper pp - p_lower pp <? mdb_branch_size (Some sep)
    then split_page md_pad me_psize page_new mp rp copy0 pp pki rpgno nn newindx = Some (ParentFull sep)
    else exists pp' mp' rp',
      split_page md_pad me_psize page_new mp rp copy0 pp pki rpgno nn newindx =
        Some (Divided pp' mp' rp' s sep (if newindx <? s then newindx else newindx - s) (negb (newindx <? s)) None) /\
      inserted pp (pki + 1) (branch_node (Some sep) rpgno) pp' /\ page_wf mp' /\ page_wf rp' /\
      slice mp' 0 12 = slice mp 0 12 /\ slice rp' 0 12 = slice rp 0 12 /\
      p_raw mp' = unkeyed (p_leaf mp) (take (Z.to_nat s) all) /\
      p_raw rp' = unkeyed (p_leaf mp) (drop (Z.to_nat s) all).
Proof.
  intros Hin Hse Hrp Hwp Hlp Hev Hlf Hpki all.
  destruct (plan_split_ok me_psize mp copy0 nn newindx Hin (or_introl Hse)) as (copy & s & Ep & [Hfit _] & Hb & Hslots).
  pose proof (s_range me_psize mp copy0 nn newindx s Hin Hfit) as Hs. exists s. split; [done|]. intros sep.
  destruct (all_key me_psize mp copy0 nn newindx s Hin ltac:(lia)) as [Hv Hk].
  pose proof (add_separator_ok md_pad me_psize page_new pp pki rpgno sep Hwp Hlp Hev Hlf Hpki Hv Hk) as Hsep.
  unfold split_page. rewrite Ep. cbn [mbind option_bind]. fold sep.
  destruct (p_upper pp - p_lower pp <? mdb_branch_size (Some sep)); [by rewrite Hsep|].
  destruct Hsep as (pp' & -> & Hins). cbn [mbind option_bind].
  destruct (move_nodes_ok md_pad me_psize page_new mp copy0 rp nn newindx Hin Hrp copy s Hfit Hb Hslots)
    as (mp' & rp' & -> & ? & ? & ? & ? & ? & ? & _).
  exists pp', mp', rp'. split_and!; auto.
Qed.

Definition new22 : new_node := NewNode (Val 1 [7]) (Some (Val 13 (replicate 13 1))) 0 0.
Definition right64 : list Z := [9;0;0;0;0;0;0;0; 0;0; 18;0; 16;0; 64;0] ++ replicate 48 0.

Lemma page_split_witness : exists s, 0 < s <= p_num leaf64 /\
  let sep := nn_key (all_node leaf64 new22 1 s) in
  let all := with_new (p_raw leaf64) 1 (image true new22) in
  if p_upper root64 - p_lower root64 <? mdb_branch_size (Some sep)
  then split_page 0 64 no_page leaf64 right64 (replicate 64 0) root64 0 9 new22 1 = Some (ParentFull sep)
  else exists pp' mp' rp',
    split_page 0 64 no_page leaf64 right64 (replicate 64 0) root64 0 9 new22 1 =
      Some (Divided pp' mp' rp' s sep (if 1 <? s then 1 else 1 - s) (negb (1 <? s)) None) /\
    inserted root64 (0 + 1) (branch_node (Some sep) 9) pp' /\ page_wf mp' /\ page_wf rp' /\
    slice mp' 0 12 = slice leaf64 0 12 /\ slice rp' 0 12 = slice right64 0 12 /\
    p_raw mp' = take (Z.to_nat s) all /\ p_raw rp' = drop (Z.to_nat s) all.
Proof.
  apply (page_split_correct 0 64 no_page leaf64 (replicate 64 0) right64 root64 0 9 new22 1);
    try reflexivity; try closed.
  - split; try closed; try reflexivity.
    + apply leaf64_wf.
    + split; [reflexivity|]. apply Forall_replicate. closed.
    + refine (forall_lt_2 (fun k => n_raw leaf64 k <= nodemax 64) _ _); closed.
    + split; [apply val_ok_dec; reflexivity|closed|closed|]. intros _. eexists.
      split; [reflexivity|]. split; [apply Forall_replicate; closed|closed].
  - split; [apply page_wfb_sound; reflexivity|closed].
  - apply page_wfb_sound. reflexivity.
Defined.

(** ** A page that the split cannot divide *)

(** [n] nodes with one-byte keys [i], [i + 1], ... and data of the given
    lengths, added to a page. *)
Fixpoint fill (n : nat) (i : Z) (m : list Z) (len : Z -> Z) : list Z :=
  match n with
  | O => m
  | S n =>
    match mdb_node_add 0 (nodemax 4096) 4096 no_page m i (Some (Val 1 [i + 1]))
            (Some (Val (len i) (replicate (Z.to_nat (len i)) 0))) 0 0 with
    | Some (AddOk m _) => fill n (i + 1) m len
    | _ => []
    end
  end.

Definition page4096 (pgno flags : Z) : list Z :=
  le_bytes 8 pgno ++ le_bytes 2 0 ++ le_bytes 2 flags ++ le_bytes 2 16 ++ le_bytes 2 4096 ++ replicate 4080 0.

(** Nine nodes of 436 bytes, then eleven of ten bytes: six bytes are free. *)
Definition page20 : list Z := fill 20 0 (page4096 5 18) (fun i => if i <? 9 then 427 else 0).
Definition new248 : new_node := NewNode (Val 1 [0]) (Some (Val 239 (replicate 239 7))) 0 0.

(** A parent with two children. *)
Definition parent4096 : list Z :=
  match mdb_node_add 0 (nodemax 4096) 4096 no_page (page4096 2 17) 0 (Some (Val 0 [])) None 5 0 with
  | Some (AddOk m _) =>
    match mdb_node_add 0 (nodemax 4096) 4096 no_page m 1 (Some (Val 1 [50])) None 6 0 with
    | Some (AddOk m _) => m | _ => [] end
  | _ => [] end.

(** C29: with twenty nodes or more, a small new node and a place before the
    end, the code splits the page in the middle by the number of nodes only.
    There is a well-formed page of 4096 bytes, with nodes of sizes the library
    allows, that cannot be split this way: the left half does not fit, and
    [mdb_page_split] fails with [MDB_PAGE_FULL]. *)
Theorem page_split_by_count_fails :
  split_input 4096 page20 (replicate 4096 0) new248 0 /\
  searched 4096 (p_num page20) 0 (cell (image true new248)) = false /\
  page_wf parent4096 /\ mdb_branch_size (Some (Val 1 [10])) <= p_upper parent4096 - p_lower parent4096 /\
  split_page 0 4096 no_page page20 (page4096 9 18) (replicate 4096 0) parent4096 0 9 new248 0 =
    Some (Failed MDB_PAGE_FULL).
Proof.
  split_and!; [|vm_compute; reflexivity|apply page_wfb_sound; vm_compute; reflexivity|closed|vm_compute; reflexivity].
  split; [apply page_wfb_sound; vm_compute; reflexivity|vm_compute; reflexivity| | | |closed|closed|closed].
  - split; [vm_compute; reflexivity|]. apply Forall_replicate. closed.
  - assert (forallb (fun k => n_raw page20 k <=? nodemax 4096) (seqZ 0 (p_num page20)) = true) as Hf
      by (vm_compute; reflexivity).
    intros k Hk. pose proof (forallb_seqZ _ _ _ Hf Hk) as Hb. cbv beta in Hb. lia.
  - split; [apply val_ok_dec; vm_compute; reflexivity|closed|closed|]. intros _. eexists. split; [reflexivity|].
    split; [apply Forall_replicate; closed|closed].
Qed.
