(* ===== verification/Leaf2.v ===== *)
(** * Pages of fixed-size keys ([LEAF2], [src/LegacyDatabase/mdb.c])

    The pages of the duplicates of a [MDB_DUPFIXED] database hold keys of
    [md_pad] bytes one after the other, without nodes.  [mdb_node_add] and
    [mdb_node_del] insert into and delete from the list of keys, and the split
    of such a page in [mdb_page_split] divides the list with the new key in
    its place. *)
From S2P Require Import Prelude.
From S2P Require Import Bytes.
From S2P Require Import Page.
From S2P Require Import PageSpec.
From S2P Require Import NodeOps.
From S2P Require Import Cmp.
From S2P Require Import PageSplit.
From Stdlib Require Import ZArith Lia.
From stdpp Require Import base numbers option list.
Open Scope Z_scope.

(** [keys] are the bytes of all keys, in order. *)
Record leaf2 (ks : Z) (m keys : list Z) : Prop := {
  l2_bytes : Forall is_byte m;
  l2_psize : 16 <= zlen m <= MAX_PAGESIZE;
  l2_flag : p_leaf2 m = true;
  l2_ksize : 2 <= ks;
  l2_num : 0 <= p_num m;
  l2_lower : p_lower m = 16 + 2 * p_num m;
  l2_upper : p_upper m = zlen m - p_num m * (ks - 2);
  l2_room : 16 + p_num m * ks <= zlen m;
  l2_keys : slice m 16 (p_num m * ks) = keys
}.

(** A page under construction: its length and head are those of [m0], its
    bounds [lo] and [up], and its bytes after the header those of [area]. *)
Record shaped (m0 : list Z) (lo up : Z) (area : Z -> Z) (m : list Z) : Prop := {
  sh_len : zlen m = zlen m0;
  sh_psize : 16 <= zlen m0 <= MAX_PAGESIZE;
  sh_bytes : Forall is_byte m;
  sh_head : forall i, i < 12 -> zn m i = zn m0 i;
  sh_lower : p_lower m = lo;
  sh_upper : p_upper m = up;
  sh_area : forall i, 16 <= i -> zn m i = area i
}.

Section Shape.
Variables (m0 : list Z).

Lemma shaped_start (ks : Z) (keys : list Z) : leaf2 ks m0 keys ->
  shaped m0 (p_lower m0) (p_upper m0) (zn m0) m0.
Proof. intros []. by split. Qed.

Lemma shaped_flags (lo up : Z) (area : Z -> Z) (m : list Z) : shaped m0 lo up area m -> p_flags m = p_flags m0.
Proof.
  intros []. unfold p_flags. apply g16_ext; try lia. intros i Hi. apply sh_head0. lia.
Qed.

Lemma shaped_mp_lower (lo up : Z) (area : Z -> Z) (m : list Z) : shaped m0 lo up area m -> mp_lower m = Some lo.
Proof. intros [] **. unfold mp_lower. rewrite get16_in by lia. by f_equal. Qed.

Lemma shaped_mp_upper (lo up : Z) (area : Z -> Z) (m : list Z) : shaped m0 lo up area m -> mp_upper m = Some up.
Proof. intros [] **. unfold mp_upper. rewrite get16_in by lia. by f_equal. Qed.

Lemma shaped_set_lower (lo up x : Z) (area : Z -> Z) (m : list Z) : shaped m0 lo up area m -> 0 <= x < 65536 ->
  exists m', set_lower m x = Some m' /\ shaped m0 x up area m'.
Proof.
  intros [] Hx. unfold set_lower. mstep m1 U. pose proof (u_len _ _ _ _ U). pose proof (u_old _ _ _ _ U) as Ho.
  rewrite zlen_le_bytes in Ho. exists m1. split; [done|]. split; try lia.
  - apply U; [done|apply le_bytes_byte].
  - intros i Hi. rewrite Ho by lia. auto.
  - unfold p_lower. rewrite (upd_g16_eq _ _ _ _ U). by apply uwrap_small.
  - unfold p_upper. rewrite (upd_g16_ne _ _ _ _ _ U) by zlia. done.
  - intros i Hi. rewrite Ho by lia. auto.
Qed.

Lemma shaped_set_upper (lo up x : Z) (area : Z -> Z) (m : list Z) : shaped m0 lo up area m -> 0 <= x < 65536 ->
  exists m', set_upper m x = Some m' /\ shaped m0 lo x area m'.
Proof.
  intros [] Hx. unfold set_upper. mstep m1 U. pose proof (u_len _ _ _ _ U). pose proof (u_old _ _ _ _ U) as Ho.
  rewrite zlen_le_bytes in Ho. exists m1. split; [done|]. split; try lia.
  - apply U; [done|apply le_bytes_byte].
  - intros i Hi. rewrite Ho by lia. auto.
  - unfold p_lower. rewrite (upd_g16_ne _ _ _ _ _ U) by zlia. done.
  - unfold p_upper. rewrite (upd_g16_eq _ _ _ _ U). by apply uwrap_small.
  - intros i Hi. rewrite Ho by lia. auto.
Qed.

(** The area after [bs] was stored at [o]. *)
Definition stored (area : Z -> Z) (o : Z) (bs : list Z) (i : Z) : Z :=
  if (o <=? i) && (i <? o + zlen bs) then zn bs (i - o) else area i.

Lemma shaped_bwrite (lo up o : Z) (bs : list Z) (area : Z -> Z) (m : list Z) : shaped m0 lo up area m ->
  16 <= o -> o + zlen bs <= zlen m0 -> Forall is_byte bs ->
  exists m', bwrite m o bs = Some m' /\ shaped m0 lo up (stored area o bs) m'.
Proof.
  intros [] Ho Hl Hb. destruct (bwrite_upd m o bs) as (m1 & -> & U); try lia. pose proof (u_len _ _ _ _ U).
  pose proof (u_old _ _ _ _ U) as Hold. pose proof (zlen_nonneg bs). exists m1. split; [done|].
  split; try lia.
  - by apply U.
  - intros i Hi. rewrite Hold by lia. auto.
  - unfold p_lower in *. rewrite (upd_g16_ne _ _ _ _ _ U) by lia. done.
  - unfold p_upper in *. rewrite (upd_g16_ne _ _ _ _ _ U) by lia. done.
  - intros i Hi. unfold stored. destruct (Z.leb_spec o i), (Z.ltb_spec i (o + zlen bs)); cbn [andb];
      try (rewrite Hold by lia; by apply sh_area0).
    rewrite <- (u_new _ _ _ _ U). rewrite zn_slice by lia. f_equal. lia.
Qed.

Lemma shaped_bread (lo up o n : Z) (area : Z -> Z) (m : list Z) : shaped m0 lo up area m ->
  16 <= o -> 0 <= n -> o + n <= zlen m0 ->
  exists bs, bread m o n = Some bs /\ zlen bs = n /\ Forall is_byte bs /\
    forall i, 0 <= i < n -> zn bs i = area (o + i).
Proof.
  intros [] Ho Hn Hl. rewrite bread_in by lia. eexists. split; [done|].
  split; [apply zlen_slice; lia|]. split; [by apply slice_bytes|].
  intros i Hi. rewrite zn_slice by lia. apply sh_area0. lia.
Qed.

(** The finished page. *)
Lemma shaped_leaf2 (ks n : Z) (keys : list Z) (lo up : Z) (area : Z -> Z) (m : list Z) :
  shaped m0 lo up area m -> p_leaf2 m0 = true -> 2 <= ks -> 0 <= n -> lo = 16 + 2 * n ->
  up = zlen m0 - n * (ks - 2) -> 16 + n * ks <= zlen m0 -> zlen keys = n * ks ->
  (forall i, 0 <= i < n * ks -> area (16 + i) = zn keys i) ->
  leaf2 ks m keys /\ p_num m = n.
Proof.
  intros Hsh Hf Hk Hn Hlo Hup Hroom Hz Harea. pose proof (shaped_flags _ _ _ _ Hsh) as Hfl.
  pose proof Hsh as []. assert (0 <= n * ks) by nia.
  assert (p_num m = n) as En.
  { unfold p_num. rewrite sh_lower0, Hlo. replace (16 + 2 * n - 16) with (n * 2) by lia. apply Z.div_mul. lia. }
  split; [|done]. split; rewrite ?En; auto; try lia.
  - unfold p_leaf2 in *. by rewrite Hfl.
  - apply zlist_eq; [rewrite zlen_slice by lia; lia|]. intros i Hi. rewrite zlen_slice in Hi by lia.
    rewrite zn_slice, sh_area0 by lia. by apply Harea.
Qed.
End Shape.

Lemma leaf2_area (ks : Z) (m keys : list Z) (i : Z) : leaf2 ks m keys -> 0 <= i < p_num m * ks ->
  zn m (16 + i) = zn keys i.
Proof. intros [] Hi. rewrite <- l2_keys0. by rewrite zn_slice by lia. Qed.

Lemma leaf2_len (ks : Z) (m keys : list Z) : leaf2 ks m keys -> zlen keys = p_num m * ks.
Proof. intros []. rewrite <- l2_keys0. apply zlen_slice; nia. Qed.

Lemma leaf2_reads (ks : Z) (m keys : list Z) : leaf2 ks m keys ->
  NUMKEYS m = Some (p_num m) /\ mp_lower m = Some (p_lower m) /\ mp_upper m = Some (p_upper m) /\
  IS_LEAF2 m = Some true /\ p_lower m <= p_upper m <= 65535 /\ 16 <= p_lower m.
Proof.
  intros []. unfold MAX_PAGESIZE in *. assert (p_lower m <= p_upper m <= 65535) as Hb by nia.
  unfold NUMKEYS, mp_lower, mp_upper, IS_LEAF2, mp_flags. rewrite !get16_in by lia. cbn [mbind option_bind].
  fold (p_lower m) (p_upper m) (p_flags m). split_and!; auto; try lia.
  - unfold PAGEHDRSZ. rewrite uwrap_small by lia. by rewrite Z.shiftr_div_pow2 by lia.
  - f_equal. apply l2_flag0.
Qed.

(** ** mdb_node_add and mdb_node_del *)

(** The keys with a new one at index [i]; the keys without the one there. *)
Definition key_insert (ks : Z) (keys : list Z) (i : Z) (key : list Z) : list Z :=
  take (Z.to_nat (i * ks)) keys ++ key ++ drop (Z.to_nat (i * ks)) keys.
Definition key_delete (ks : Z) (keys : list Z) (i : Z) : list Z :=
  take (Z.to_nat (i * ks)) keys ++ drop (Z.to_nat ((i + 1) * ks)) keys.

Lemma zn_key_insert (ks : Z) (keys : list Z) (i : Z) (key : list Z) (x : Z) :
  0 <= i * ks <= zlen keys -> 0 <= x < zlen keys + zlen key ->
  zlen (key_insert ks keys i key) = zlen keys + zlen key /\
  zn (key_insert ks keys i key) x =
    if x <? i * ks then zn keys x else if x <? i * ks + zlen key then zn key (x - i * ks) else zn keys (x - zlen key).
Proof.
  intros Hi Hx. unfold key_insert. pose proof (zlen_nonneg key). split; [arr; lia|].
  destruct (Z.ltb_spec x (i * ks)); [by rewrite zn_app_l, zn_take by zlia|].
  rewrite zn_app_r by zlia. rewrite zlen_take by lia. destruct (Z.ltb_spec x (i * ks + zlen key)).
  - by rewrite zn_app_l by lia.
  - rewrite zn_app_r, zn_drop by lia. f_equal. lia.
Qed.

Lemma zn_key_delete (ks : Z) (keys : list Z) (i : Z) (x : Z) :
  0 <= i * ks -> (i + 1) * ks <= zlen keys -> 0 <= ks -> 0 <= x < zlen keys - ks ->
  zlen (key_delete ks keys i) = zlen keys - ks /\
  zn (key_delete ks keys i) x = if x <? i * ks then zn keys x else zn keys (x + ks).
Proof.
  intros Hi Hi1 Hk Hx. unfold key_delete. split; [arr; lia|].
  destruct (Z.ltb_spec x (i * ks)); [by rewrite zn_app_l, zn_take by zlia|].
  rewrite zn_app_r, zlen_take by zlia. rewrite zn_drop by lia. f_equal. lia.
Qed.

(** [bmove] within the keys. *)
Lemma shaped_bmove (m0 : list Z) (lo up d s n : Z) (area : Z -> Z) (m : list Z) : shaped m0 lo up area m ->
  16 <= d -> 16 <= s -> 0 <= n -> d + n <= zlen m0 -> s + n <= zlen m0 ->
  exists m' area', bmove m d s n = Some m' /\ shaped m0 lo up area' m' /\
    forall i, area' i = if (d <=? i) && (i <? d + n) then area (i - d + s) else area i.
Proof.
  intros Hsh Hd Hs Hn Hd' Hs'. destruct (shaped_bread m0 lo up s n area m) as (bs & Eb & Hz & Hb & Hbs); auto.
  destruct (shaped_bwrite m0 lo up d bs area m) as (m' & Em & Hsh'); auto; [lia|].
  exists m', (stored area d bs). unfold bmove. rewrite Eb. cbn [mbind option_bind]. split_and!; auto.
  intros i. unfold stored. rewrite Hz. destruct (Z.leb_spec d i), (Z.ltb_spec i (d + n)); cbn [andb]; auto.
  rewrite Hbs by lia. f_equal. lia.
Qed.

Lemma node_add_leaf2_ok (me_nodemax me_psize : Z) (page_new : Z -> Z + (Z * list Z)) (ks : Z) (m keys : list Z)
    (indx : Z) (key : MDB_val) (data : option MDB_val) (pgno flags : Z) :
  leaf2 ks m keys -> 0 <= indx <= p_num m -> 16 + (p_num m + 1) * ks <= zlen m ->
  ks <= zlen (mv_data key) -> Forall is_byte (mv_data key) ->
  exists m', mdb_node_add ks me_nodemax me_psize page_new m indx (Some key) data pgno flags = Some (AddOk m' None) /\
    leaf2 ks m' (key_insert ks keys indx (slice (mv_data key) 0 ks)) /\ p_num m' = p_num m + 1 /\ zlen m' = zlen m.
Proof.
  intros Hl Hi Hroom Hkl Hkb. destruct (leaf2_reads ks m keys Hl) as (En & Elo & Eup & El2 & Hlu & Hlo16).
  pose proof (leaf2_len ks m keys Hl) as Hz. pose proof Hl as []. unfold MAX_PAGESIZE in *.
  assert (0 <= indx * ks <= p_num m * ks) as Hik by nia.
  unfold mdb_node_add. rewrite Eup, Elo. cbn [mbind option_bind]. rewrite (proj2 (Z.ltb_ge _ _)) by lia.
  rewrite El2. cbn [mbind option_bind]. rewrite En. cbn [mbind option_bind]. unfold PAGEHDRSZ.
  assert (exists m1 area, (if 0 <? p_num m - indx
      then bmove m (16 + indx * ks + ks) (16 + indx * ks) ((p_num m - indx) * ks) else Some m) = Some m1 /\
      shaped m (p_lower m) (p_upper m) area m1 /\
      forall i, 16 <= i < 16 + (p_num m + 1) * ks -> area i =
        if 16 + indx * ks + ks <=? i then zn m (i - ks) else zn m i) as (m1 & area & -> & Hsh & Harea).
  { destruct (Z.ltb_spec 0 (p_num m - indx)).
    - destruct (shaped_bmove m (p_lower m) (p_upper m) (16 + indx * ks + ks) (16 + indx * ks) ((p_num m - indx) * ks)
        (zn m) m (shaped_start m ks keys Hl)) as (m1 & area & E & Hsh & Ha); try nia.
      exists m1, area. split_and!; auto. intros i Hi'. rewrite Ha.
      rewrite (proj2 (Z.ltb_lt i (16 + indx * ks + ks + (p_num m - indx) * ks))) by nia. rewrite andb_true_r.
      destruct (Z.leb_spec (16 + indx * ks + ks) i); [f_equal; lia|done].
    - exists m, (zn m). split; [done|]. split; [by apply (shaped_start m ks keys)|]. intros i Hi'.
      assert (indx = p_num m) as -> by lia. by rewrite (proj2 (Z.leb_gt (16 + p_num m * ks + ks) i)) by lia. }
  cbn [mbind option_bind]. rewrite bread_in by lia. cbn [mbind option_bind].
  assert (zlen (slice (mv_data key) 0 ks) = ks) as Hks by (apply zlen_slice; lia).
  destruct (shaped_bwrite m (p_lower m) (p_upper m) (16 + indx * ks) (slice (mv_data key) 0 ks) area m1 Hsh)
    as (m2 & -> & Hsh2); [lia|lia|by apply slice_bytes|]. cbn [mbind option_bind].
  destruct (shaped_set_lower m _ _ (p_lower m + 2) _ m2 Hsh2) as (m3 & -> & Hsh3); [nia|]. cbn [mbind option_bind].
  destruct (shaped_set_upper m _ _ (p_upper m - (ks - 2)) _ m3 Hsh3) as (m4 & -> & Hsh4); [nia|].
  cbn [mbind option_bind]. exists m4. split; [done|]. cut (leaf2 ks m4 (key_insert ks keys indx (slice (mv_data key) 0 ks)) /\ p_num m4 = p_num m + 1).
  { intros [? ?]. split_and!; auto. apply (sh_len _ _ _ _ _ Hsh4). }
  apply (shaped_leaf2 m ks (p_num m + 1) _ _ _ _ m4 Hsh4); auto; try nia.
  - destruct (zn_key_insert ks keys indx (slice (mv_data key) 0 ks) 0) as [-> _]; lia.
  - intros i Hi'. destruct (zn_key_insert ks keys indx (slice (mv_data key) 0 ks) i) as [_ ->]; try lia.
    unfold stored. rewrite Hks.
    destruct (Z.leb_spec (16 + indx * ks) (16 + i)), (Z.ltb_spec (16 + i) (16 + indx * ks + ks)),
      (Z.ltb_spec i (indx * ks)), (Z.ltb_spec i (indx * ks + ks)); cbn [andb]; try lia.
    + f_equal. lia.
    + rewrite Harea, (proj2 (Z.leb_le _ _)) by lia. replace (16 + i - ks) with (16 + (i - ks)) by lia.
      apply (leaf2_area ks); auto. lia.
    + rewrite Harea, (proj2 (Z.leb_gt _ _)) by lia. apply (leaf2_area ks); auto. lia.
Qed.

Lemma node_del_leaf2_ok (ks : Z) (m keys : list Z) (indx : Z) : leaf2 ks m keys -> 0 <= indx < p_num m ->
  exists m', mdb_node_del m indx ks = Some m' /\ leaf2 ks m' (key_delete ks keys indx) /\ p_num m' = p_num m - 1.
Proof.
  intros Hl Hi. destruct (leaf2_reads ks m keys Hl) as (En & Elo & Eup & El2 & Hlu & Hlo16).
  pose proof (leaf2_len ks m keys Hl) as Hz. pose proof Hl as []. unfold MAX_PAGESIZE in *.
  assert (0 <= indx * ks /\ (indx + 1) * ks <= p_num m * ks) as Hik by nia.
  unfold mdb_node_del. rewrite En, Elo, Eup. cbn [mbind option_bind]. rewrite (proj2 (Z.leb_gt _ _)) by lia.
  rewrite El2. cbn [mbind option_bind]. unfold PAGEHDRSZ.
  assert (exists m1 area, (if negb (p_num m - 1 - indx =? 0)
      then bmove m (16 + indx * ks) (16 + indx * ks + ks) ((p_num m - 1 - indx) * ks) else Some m) = Some m1 /\
      shaped m (p_lower m) (p_upper m) area m1 /\
      forall i, 16 <= i < 16 + (p_num m - 1) * ks -> area i =
        if 16 + indx * ks <=? i then zn m (i + ks) else zn m i) as (m1 & area & -> & Hsh & Harea).
  { destruct (Z.eqb_spec (p_num m - 1 - indx) 0); cbn [negb].
    - exists m, (zn m). split; [done|]. split; [by apply (shaped_start m ks keys)|]. intros i Hi'.
      rewrite (proj2 (Z.leb_gt _ _)) by nia. done.
    - destruct (shaped_bmove m (p_lower m) (p_upper m) (16 + indx * ks) (16 + indx * ks + ks) ((p_num m - 1 - indx) * ks)
        (zn m) m (shaped_start m ks keys Hl)) as (m1 & area & E & Hsh & Ha); try nia.
      exists m1, area. split_and!; auto. intros i Hi'. rewrite Ha.
      rewrite (proj2 (Z.ltb_lt i (16 + indx * ks + (p_num m - 1 - indx) * ks))) by nia. rewrite andb_true_r.
      destruct (Z.leb_spec (16 + indx * ks) i); [f_equal; lia|done]. }
  cbn [mbind option_bind].
  destruct (shaped_set_lower m _ _ (p_lower m - 2) _ m1 Hsh) as (m3 & -> & Hsh3); [nia|]. cbn [mbind option_bind].
  destruct (shaped_set_upper m _ _ (p_upper m + (ks - 2)) _ m3 Hsh3) as (m4 & -> & Hsh4); [nia|].
  exists m4. split; [done|].
  apply (shaped_leaf2 m ks (p_num m - 1) _ _ _ _ m4 Hsh4); auto; try nia.
  - unfold key_delete. arr. nia.
  - intros i Hi'. destruct (zn_key_delete ks keys indx i) as [_ ->]; try nia. rewrite Harea by lia.
    destruct (Z.leb_spec (16 + indx * ks) (16 + i)), (Z.ltb_spec i (indx * ks)); try lia.
    + replace (16 + i + ks) with (16 + (i + ks)) by lia. apply (leaf2_area ks); auto. nia.
    + apply (leaf2_area ks); auto. nia.
Qed.

(** ** The split *)

Section SplitLeaf2.
Variables (ks : Z) (mp rp keys : list Z) (newkey : MDB_val) (newindx : Z).
Hypothesis Hmp : leaf2 ks mp keys.
Hypothesis Hrp : leaf2 ks rp [].
Hypothesis Hsize : zlen rp = zlen mp.
Hypothesis Hnum : 2 <= p_num mp.
Hypothesis Hindx : 0 <= newindx <= p_num mp.
Hypothesis Hkey : ks <= zlen (mv_data newkey).
Hypothesis Hkeyb : Forall is_byte (mv_data newkey).

(** All keys, and how many of them the left page keeps. *)
Let all := key_insert ks keys newindx (slice (mv_data newkey) 0 ks).
Let half := (p_num mp + 1) / 2.
Let kept := if newindx <? half then half + 1 else half.

Lemma half_bounds : 1 <= half < p_num mp /\ p_num mp - half <= half /\
  0 <= half * ks /\ half * ks + ks <= p_num mp * ks /\ 0 <= newindx * ks <= p_num mp * ks.
Proof.
  destruct Hmp. assert (2 * half <= p_num mp + 1 < 2 * half + 2) 
    by (unfold half; pose proof (Z.div_mod (p_num mp + 1) 2 ltac:(lia)); pose proof (Z.mod_pos_bound (p_num mp + 1) 2); lia).
  assert (1 <= half < p_num mp) by lia. split_and!; nia.
Qed.

Lemma all_spec (i : Z) : 0 <= i < (p_num mp + 1) * ks -> zn all i =
  if i <? newindx * ks then zn keys i else if i <? newindx * ks + ks then zn (mv_data newkey) (i - newindx * ks)
  else zn keys (i - ks).
Proof.
  intros Hi. pose proof (leaf2_len ks mp keys Hmp). pose proof half_bounds. destruct Hmp.
  assert (zlen (slice (mv_data newkey) 0 ks) = ks) as Hz by (apply zlen_slice; lia).
  unfold all. destruct (zn_key_insert ks keys newindx (slice (mv_data newkey) 0 ks) i) as [_ ->]; try nia. rewrite Hz.
  destruct (Z.ltb_spec i (newindx * ks)); [done|]. destruct (Z.ltb_spec i (newindx * ks + ks)); [|done].
  by rewrite zn_slice by lia.
Qed.

Lemma all_len : zlen all = (p_num mp + 1) * ks.
Proof.
  pose proof (leaf2_len ks mp keys Hmp). pose proof half_bounds. destruct Hmp.
  assert (zlen (slice (mv_data newkey) 0 ks) = ks) as Hz by (apply zlen_slice; lia).
  unfold all. destruct (zn_key_insert ks keys newindx (slice (mv_data newkey) 0 ks) 0) as [-> _]; lia.
Qed.

Lemma rp_start : p_num rp = 0 /\ p_lower rp = 16 /\ p_upper rp = zlen mp.
Proof. pose proof (leaf2_len ks rp [] Hrp) as Hz. change (zlen []) with 0 in Hz. destruct Hrp. nia. Qed.

(** What the two pages receive. *)
Lemma kept_left (area : Z -> Z) : newindx < half ->
  (forall i, 16 <= i < 16 + (half + 1) * ks -> area i =
    if 16 + newindx * ks + ks <=? i then zn mp (i - ks)
    else if 16 + newindx * ks <=? i then zn (mv_data newkey) (i - (16 + newindx * ks)) else zn mp i) ->
  forall i, 0 <= i < (half + 1) * ks -> area (16 + i) = zn (take (Z.to_nat ((half + 1) * ks)) all) i.
Proof.
  intros Hlt Ha i Hi. pose proof half_bounds. pose proof all_len. destruct Hmp. rewrite Ha, zn_take, all_spec by nia.
  destruct (Z.leb_spec (16 + newindx * ks + ks) (16 + i)), (Z.leb_spec (16 + newindx * ks) (16 + i)),
    (Z.ltb_spec i (newindx * ks)), (Z.ltb_spec i (newindx * ks + ks)); try lia.
  - replace (16 + i - ks) with (16 + (i - ks)) by lia. apply (leaf2_area ks); auto. nia.
  - f_equal. lia.
  - apply (leaf2_area ks); auto. nia.
Qed.

Lemma moved_right (area : Z -> Z) : newindx < half ->
  (forall i, 16 <= i < 16 + (p_num mp - half) * ks -> area i = zn mp (i + half * ks)) ->
  forall i, 0 <= i < (p_num mp - half) * ks -> area (16 + i) = zn (drop (Z.to_nat ((half + 1) * ks)) all) i.
Proof.
  intros Hlt Ha i Hi. pose proof half_bounds. pose proof all_len. destruct Hmp.
  assert (newindx * ks + ks <= half * ks) by nia. rewrite Ha, zn_drop, all_spec by nia.
  rewrite (proj2 (Z.ltb_ge _ (newindx * ks))), (proj2 (Z.ltb_ge _ (newindx * ks + ks))) by nia.
  replace (16 + i + half * ks) with (16 + (half * ks + i)) by lia.
  rewrite (leaf2_area ks _ keys) by (auto; nia). f_equal. lia.
Qed.

Lemma stays_left (i : Z) : half <= newindx -> 0 <= i < half * ks ->
  zn mp (16 + i) = zn (take (Z.to_nat (half * ks)) all) i.
Proof.
  intros Hge Hi. pose proof half_bounds. pose proof all_len. destruct Hmp. assert (half * ks <= newindx * ks) by nia.
  rewrite zn_take, all_spec by lia. rewrite (proj2 (Z.ltb_lt i _)) by lia. apply (leaf2_area ks); auto. lia.
Qed.

Lemma inserted_right (area : Z -> Z) : half <= newindx ->
  (forall i, 16 <= i < 16 + (p_num mp - half + 1) * ks -> area i =
    if 16 + (newindx - half) * ks + ks <=? i then zn mp (i - ks + half * ks)
    else if 16 + (newindx - half) * ks <=? i then zn (mv_data newkey) (i - (16 + (newindx - half) * ks))
    else zn mp (i + half * ks)) ->
  forall i, 0 <= i < (p_num mp - half + 1) * ks -> area (16 + i) = zn (drop (Z.to_nat (half * ks)) all) i.
Proof.
  intros Hge Ha i Hi. pose proof half_bounds. pose proof all_len. destruct Hmp. rewrite Ha, zn_drop, all_spec by nia.
  destruct (Z.leb_spec (16 + (newindx - half) * ks + ks) (16 + i)), (Z.leb_spec (16 + (newindx - half) * ks) (16 + i)),
    (Z.ltb_spec (half * ks + i) (newindx * ks)), (Z.ltb_spec (half * ks + i) (newindx * ks + ks)); try lia.
  - replace (16 + i - ks + half * ks) with (16 + (half * ks + i - ks)) by lia. apply (leaf2_area ks); auto. nia.
  - f_equal. lia.
  - replace (16 + i + half * ks) with (16 + (half * ks + i)) by lia. apply (leaf2_area ks); auto. nia.
Qed.

(** The bounds of the two pages when the keys after the middle have moved. *)
Let lo1 := 16 + 2 * half.
Let up1 := zlen mp - half * (ks - 2).
Let lo2 := 16 + 2 * (p_num mp - half).
Let up2 := zlen mp - (p_num mp - half) * (ks - 2).

(** The two halves of all keys, with the key that separates them. *)
Definition halves (r : list Z * list Z * Z * bool * MDB_val) : Prop :=
  let '(mp', rp', ki, side, sep) := r in
  leaf2 ks mp' (take (Z.to_nat (kept * ks)) all) /\ leaf2 ks rp' (drop (Z.to_nat (kept * ks)) all) /\
  p_num mp' = kept /\ p_num rp' = p_num mp + 1 - kept /\
  sep = Val ks (slice (drop (Z.to_nat (kept * ks)) all) 0 ks) /\
  side = negb (newindx <? half) /\ newindx = ki + if side then kept else 0.

Lemma new_key : bread (mv_data newkey) 0 ks = Some (slice (mv_data newkey) 0 ks) /\
  zlen (slice (mv_data newkey) 0 ks) = ks /\ Forall is_byte (slice (mv_data newkey) 0 ks).
Proof.
  destruct Hmp. split_and!; [apply bread_in; lia|apply zlen_slice; lia|by apply slice_bytes].
Qed.

Lemma first_key (bs K : list Z) : zlen bs = ks -> ks <= zlen K -> (forall i, 0 <= i < ks -> zn bs i = zn K i) ->
  bs = slice K 0 ks.
Proof.
  intros Hb HK Hi. pose proof (zlen_nonneg bs). apply zlist_eq; [rewrite zlen_slice by lia; lia|].
  intros i Hi'. rewrite zn_slice, Hi by lia. done.
Qed.

Lemma leaf2_left_ok (m2 r2 : list Z) : shaped mp lo1 up1 (zn mp) m2 -> shaped rp lo2 up2 (zn rp) r2 ->
  newindx < half -> exists r, leaf2_left ks m2 r2 newkey newindx half ((p_num mp - half) * ks) = Some r /\ halves r.
Proof.
  intros S2 R2 Hlt. pose proof half_bounds as (Hh & Hr & Hhk & Hhk' & Hik). pose proof all_len as Hal.
  destruct new_key as (Ekey & Hks & Hkb'). pose proof Hmp as []. pose proof Hrp as [_ _ Hrf _ _ _ _ _ _].
  unfold MAX_PAGESIZE in *. assert (newindx * ks + ks <= half * ks) by nia.
  assert (ks <= (p_num mp - half) * ks <= half * ks) by nia. assert (2 * half <= half * ks) by nia.
  unfold leaf2_left, PAGEHDRSZ. cbv zeta.
  destruct (shaped_bread mp _ _ (16 + half * ks) ((p_num mp - half) * ks) _ m2 S2) as (bs & -> & Hbz & Hbb & Hbv); [lia..|].
  cbn [mbind option_bind].
  destruct (shaped_bwrite rp _ _ 16 bs _ r2 R2) as (r3 & -> & R3); [lia|lia|done|]. cbn [mbind option_bind].
  destruct (shaped_bread rp _ _ 16 ks _ r3 R3) as (sb & -> & Hsz & Hsb & Hsv); [lia..|]. cbn [mbind option_bind].
  destruct (shaped_bmove mp _ _ (16 + newindx * ks + ks) (16 + newindx * ks) ((half - newindx) * ks) _ m2 S2)
    as (m3 & a3 & -> & S3 & Ha3); [lia..|]. cbn [mbind option_bind]. rewrite Ekey. cbn [mbind option_bind].
  destruct (shaped_bwrite mp _ _ (16 + newindx * ks) (slice (mv_data newkey) 0 ks) _ m3 S3 ltac:(lia) ltac:(lia) Hkb') as (m4 & -> & S4).
  cbn [mbind option_bind]. rewrite (shaped_mp_lower _ _ _ _ _ S4). cbn [mbind option_bind].
  destruct (shaped_set_lower mp _ _ (lo1 + 2) _ m4 S4) as (m5 & -> & S5); [unfold lo1; lia|].
  cbn [mbind option_bind]. rewrite (shaped_mp_upper _ _ _ _ _ S5). cbn [mbind option_bind].
  destruct (shaped_set_upper mp _ _ (up1 - (ks - 2)) _ m5 S5) as (m6 & -> & S6); [unfold up1; lia|]. cbn [mbind option_bind].
  exists (m6, r3, newindx, false, Val ks sb). split; [done|]. unfold halves.
  replace kept with (half + 1) by (unfold kept; by rewrite (proj2 (Z.ltb_lt newindx half))).
  rewrite (proj2 (Z.ltb_lt newindx half)) by lia.
  assert (leaf2 ks m6 (take (Z.to_nat ((half + 1) * ks)) all) /\ p_num m6 = half + 1) as [HL HnL].
  { apply (shaped_leaf2 mp ks _ _ _ _ _ _ S6); auto; try (unfold lo1, up1; lia); [zlia|]. apply kept_left; [lia|].
    intros i Hi. unfold stored. rewrite Hks, Ha3. assert ((half - newindx) * ks = half * ks - newindx * ks) by lia.
    destruct (Z.leb_spec (16 + newindx * ks) i), (Z.ltb_spec i (16 + newindx * ks + ks)),
      (Z.leb_spec (16 + newindx * ks + ks) i), (Z.ltb_spec i (16 + newindx * ks + ks + (half - newindx) * ks));
      cbn [andb]; try lia; [|f_equal; lia|done..].
    by rewrite zn_slice by lia. }
  assert (forall i, 0 <= i < (p_num mp - half) * ks ->
    stored (zn rp) 16 bs (16 + i) = zn (drop (Z.to_nat ((half + 1) * ks)) all) i) as HA.
  { apply moved_right; [lia|]. intros i Hi. unfold stored.
    rewrite Hbz, (proj2 (Z.leb_le _ _)), (proj2 (Z.ltb_lt _ _)) by lia. cbn [andb]. rewrite Hbv by lia. f_equal. lia. }
  assert (leaf2 ks r3 (drop (Z.to_nat ((half + 1) * ks)) all) /\ p_num r3 = p_num mp - half) as [HR HnR].
  { apply (shaped_leaf2 rp ks _ _ _ _ _ _ R3); auto; try (unfold lo2, up2; lia). zlia. }
  split_and!; auto; [lia| |lia]. f_equal. apply first_key; [done|zlia|]. intros i Hi. rewrite Hsv by lia. apply HA. lia.
Qed.

Lemma leaf2_right_ok (m2 r2 sep : list Z) : shaped mp lo1 up1 (zn mp) m2 -> shaped rp lo2 up2 (zn rp) r2 ->
  half <= newindx ->
  sep = (if newindx =? half then slice (mv_data newkey) 0 ks else slice keys (half * ks) ks) ->
  exists r, leaf2_right ks m2 r2 newkey (newindx - half) half ((p_num mp - half) * ks) sep = Some r /\ halves r.
Proof.
  intros S2 R2 Hge Hsep. pose proof half_bounds as (Hh & Hr & Hhk & Hhk' & Hik). pose proof all_len as Hal.
  destruct new_key as (Ekey & Hks & Hkb'). pose proof Hmp as []. pose proof Hrp as [_ _ Hrf _ _ _ _ _ _].
  unfold MAX_PAGESIZE in *. assert (0 <= (newindx - half) * ks <= (p_num mp - half) * ks) by nia.
  assert (ks <= (p_num mp - half) * ks <= half * ks) by nia. assert (2 * half <= half * ks) by nia.
  assert (2 * (p_num mp - half) <= (p_num mp - half) * ks) by nia.
  unfold leaf2_right, PAGEHDRSZ. cbv zeta.
  assert (exists r3 a3, (if nz (newindx - half) then bs ← bread m2 (16 + half * ks) ((newindx - half) * ks); bwrite r2 16 bs
      else Some r2) = Some r3 /\ shaped rp lo2 up2 a3 r3 /\
      forall i, 16 <= i < 16 + (newindx - half) * ks -> a3 i = zn mp (i + half * ks)) as (r3 & a3 & -> & R3 & Ha3).
  { unfold nz. destruct (Z.eqb_spec (newindx - half) 0) as [E|E]; cbn [negb].
    - exists r2, (zn rp). split_and!; auto. rewrite E. lia.
    - destruct (shaped_bread mp _ _ (16 + half * ks) ((newindx - half) * ks) _ m2 S2) as (bs & -> & Hbz & Hbb & Hbv); [lia..|].
      cbn [mbind option_bind]. destruct (shaped_bwrite rp _ _ 16 bs _ r2 R2) as (r3 & -> & R3); [lia|lia|done|].
      exists r3, (stored (zn rp) 16 bs). split_and!; auto. intros i Hi. unfold stored.
      rewrite (proj2 (Z.leb_le _ _)), (proj2 (Z.ltb_lt _ _)) by lia. cbn [andb]. rewrite Hbv by lia. f_equal. lia. }
  cbn [mbind option_bind]. rewrite Ekey. cbn [mbind option_bind].
  destruct (shaped_bwrite rp _ _ (16 + (newindx - half) * ks) (slice (mv_data newkey) 0 ks) _ r3 R3 ltac:(lia) ltac:(lia) Hkb')
    as (r4 & -> & R4). cbn [mbind option_bind].
  destruct (shaped_bread mp _ _ (16 + half * ks + (newindx - half) * ks) ((p_num mp - half) * ks - (newindx - half) * ks) _ m2 S2)
    as (bs & -> & Hbz & Hbb & Hbv); [lia..|]. cbn [mbind option_bind].
  destruct (shaped_bwrite rp _ _ (16 + (newindx - half) * ks + ks) bs _ r4 R4) as (r5 & -> & R5); [lia|lia|done|].
  cbn [mbind option_bind]. rewrite (shaped_mp_lower _ _ _ _ _ R5). cbn [mbind option_bind].
  destruct (shaped_set_lower rp _ _ (lo2 + 2) _ r5 R5) as (r6 & -> & R6); [unfold lo2; lia|].
  cbn [mbind option_bind]. rewrite (shaped_mp_upper _ _ _ _ _ R6). cbn [mbind option_bind].
  destruct (shaped_set_upper rp _ _ (up2 - (ks - 2)) _ r6 R6) as (r7 & -> & R7); [unfold up2; lia|]. cbn [mbind option_bind].
  exists (m2, r7, newindx - half, true, Val ks sep). split; [done|]. unfold halves.
  replace kept with half by (unfold kept; by rewrite (proj2 (Z.ltb_ge newindx half))).
  rewrite (proj2 (Z.ltb_ge newindx half)) by lia.
  assert (leaf2 ks m2 (take (Z.to_nat (half * ks)) all) /\ p_num m2 = half) as [HL HnL].
  { apply (shaped_leaf2 mp ks _ _ _ _ _ _ S2); auto; try (unfold lo1, up1; lia); [zlia|].
    intros i Hi. by apply stays_left. }
  assert (leaf2 ks r7 (drop (Z.to_nat (half * ks)) all) /\ p_num r7 = p_num mp - half + 1) as [HR HnR].
  { apply (shaped_leaf2 rp ks _ _ _ _ _ _ R7); auto; try (unfold lo2, up2; lia); [zlia|].
    apply inserted_right; [lia|]. intros i Hi. unfold stored. rewrite Hks, Hbz.
    destruct (Z.leb_spec (16 + (newindx - half) * ks + ks) i), (Z.leb_spec (16 + (newindx - half) * ks) i); cbn [andb]; try lia.
    - rewrite (proj2 (Z.ltb_lt _ _)) by lia. rewrite Hbv by lia. f_equal. lia.
    - rewrite (proj2 (Z.ltb_lt _ _)) by lia. by rewrite zn_slice by lia.
    - by rewrite Ha3 by lia. }
  split_and!; auto; [lia| |lia]. f_equal. pose proof (leaf2_len ks mp keys Hmp). rewrite Hsep.
  apply first_key; [destruct (newindx =? half); [done|apply zlen_slice; lia]|zlia|]. intros i Hi.
  rewrite zn_drop, all_spec by lia. destruct (Z.eqb_spec newindx half) as [->|].
  - rewrite (proj2 (Z.ltb_ge _ _)), (proj2 (Z.ltb_lt _ _)) by lia. rewrite zn_slice by lia. f_equal. lia.
  - assert (half * ks + ks <= newindx * ks) by nia. rewrite (proj2 (Z.ltb_lt _ _)) by lia. by rewrite zn_slice by lia.
Qed.

Lemma split_leaf2_ok : exists r, split_leaf2 ks mp rp newkey newindx = Some r /\ halves r.
Proof.
  destruct (leaf2_reads ks mp keys Hmp) as (En & _ & _ & _ & Hlu & Hlo16).
  destruct rp_start as (Hn0 & Hlo0 & Hup0). pose proof half_bounds as (Hh & Hr & Hhk & Hhk' & Hik).
  pose proof (leaf2_len ks mp keys Hmp) as Hz. pose proof Hmp as []. unfold MAX_PAGESIZE in *.
  assert (p_num mp <= 32768) by nia. assert (2 * (p_num mp - half) <= (p_num mp - half) * ks) by nia.
  assert (2 * half <= half * ks) by nia.
  pose proof (shaped_start mp ks keys Hmp) as S0. pose proof (shaped_start rp ks [] Hrp) as R0.
  unfold split_leaf2. rewrite En. cbn [mbind option_bind]. cbv zeta. fold half.
  rewrite (uwrap_small 32 ((p_num mp - half) * ks)), (uwrap_small 32 ((p_num mp - half) * 2)) by lia.
  rewrite (shaped_mp_lower _ _ _ _ _ S0). cbn [mbind option_bind].
  destruct (shaped_set_lower mp _ _ (p_lower mp - (p_num mp - half) * 2) _ mp S0) as (m1 & -> & S1); [lia|].
  cbn [mbind option_bind]. rewrite (shaped_mp_lower _ _ _ _ _ R0). cbn [mbind option_bind].
  destruct (shaped_set_lower rp _ _ (p_lower rp + (p_num mp - half) * 2) _ rp R0) as (r1 & -> & R1); [lia|].
  cbn [mbind option_bind]. rewrite (shaped_mp_upper _ _ _ _ _ S1). cbn [mbind option_bind].
  destruct (shaped_set_upper mp _ _ (p_upper mp + ((p_num mp - half) * ks - (p_num mp - half) * 2)) _ m1 S1)
    as (m2 & -> & S2); [lia|].
  cbn [mbind option_bind]. rewrite (shaped_mp_upper _ _ _ _ _ R1). cbn [mbind option_bind].
  destruct (shaped_set_upper rp _ _ (p_upper rp - ((p_num mp - half) * ks - (p_num mp - half) * 2)) _ r1 R1)
    as (r2 & -> & R2); [lia|]. cbn [mbind option_bind].
  replace (p_lower mp - (p_num mp - half) * 2) with lo1 in S2 by (unfold lo1; lia).
  replace (p_upper mp + ((p_num mp - half) * ks - (p_num mp - half) * 2)) with up1 in S2 by (unfold up1; lia).
  replace (p_lower rp + (p_num mp - half) * 2) with lo2 in R2 by (unfold lo2; lia).
  replace (p_upper rp - ((p_num mp - half) * ks - (p_num mp - half) * 2)) with up2 in R2 by (unfold up2; lia).
  destruct (shaped_bread mp _ _ (16 + half * ks) ks _ m2 S2) as (sb & Esb & Hsz & Hsb & Hsv); [lia..|].
  destruct new_key as (Ekey & Hks & _). rewrite Ekey. unfold PAGEHDRSZ. rewrite Esb.
  assert (sb = slice keys (half * ks) ks) as ->.
  { apply zlist_eq; [rewrite zlen_slice; lia|]. intros i Hi. rewrite Hsv, zn_slice by lia.
    replace (16 + half * ks + i) with (16 + (half * ks + i)) by lia. apply (leaf2_area ks); auto. lia. }
  destruct (Z.ltb_spec (newindx - half) 0); destruct (Z.eqb_spec newindx half); cbn [mbind option_bind].
  1,2: apply leaf2_left_ok; auto; lia.
  all: apply leaf2_right_ok; auto; [lia|].
  - by rewrite (proj2 (Z.eqb_eq _ _)).
  - by rewrite (proj2 (Z.eqb_neq _ _)).
Qed.
End SplitLeaf2.

Lemma key_delete_insert (ks : Z) (keys : list Z) (i : Z) (key : list Z) : 0 <= i * ks <= zlen keys -> 0 <= ks ->
  zlen key = ks -> key_delete ks (key_insert ks keys i key) i = keys.
Proof.
  intros Hi Hk Hz. unfold key_delete, key_insert. replace (Z.to_nat ((i + 1) * ks)) with (Z.to_nat (i * ks) + length key)%nat.
  2: { unfold zlen in Hz. rewrite Z.mul_add_distr_r, Z2Nat.inj_add by lia. lia. }
  assert (length (take (Z.to_nat (i * ks)) keys) = Z.to_nat (i * ks)) as Hl by (rewrite length_take; unfold zlen in Hi; lia).
  rewrite take_app_length' by done. rewrite <- drop_drop, (drop_app_length' _ (key ++ _)) by done.
  rewrite drop_app_length. apply take_drop.
Qed.

(** C30: On a page of fixed-size keys with room, [mdb_node_add] puts the first
    [md_pad] bytes of the key between the keys before the index and those
    from it on, and keeps the page consistent; [mdb_node_del] at the same
    index then leaves the keys the page had. *)
Theorem leaf2_add_del (me_nodemax me_psize : Z) (page_new : Z -> Z + (Z * list Z)) (ks : Z) (m keys : list Z)
    (indx : Z) (key : MDB_val) (data : option MDB_val) (pgno flags : Z) :
  leaf2 ks m keys -> 0 <= indx <= p_num m -> 16 + (p_num m + 1) * ks <= zlen m ->
  ks <= zlen (mv_data key) -> Forall is_byte (mv_data key) ->
  exists m' m'', mdb_node_add ks me_nodemax me_psize page_new m indx (Some key) data pgno flags = Some (AddOk m' None) /\
    leaf2 ks m' (key_insert ks keys indx (slice (mv_data key) 0 ks)) /\
    mdb_node_del m' indx ks = Some m'' /\ leaf2 ks m'' keys.
Proof.
  intros Hl Hi Hroom Hk Hb. pose proof (leaf2_len ks m keys Hl) as Hz.
  destruct (node_add_leaf2_ok me_nodemax me_psize page_new ks m keys indx key data pgno flags) as (m' & -> & Hl' & Hn' & _); auto.
  destruct (node_del_leaf2_ok ks m' _ indx Hl') as (m'' & Ed & Hl'' & _); [lia|].
  exists m', m''. split_and!; auto. destruct Hl. rewrite key_delete_insert in Hl''; auto; [nia|lia|apply zlen_slice; lia].
Qed.

(** C22: The split of a page of at least two fixed-size keys puts all keys, with
    the new one at its index, on the old page and the new page to its right,
    in order, both consistent; the separator is the first key of the right
    page, and the cursor ends on the new key. *)
Theorem leaf2_split_correct (ks : Z) (mp rp keys : list Z) (newkey : MDB_val) (newindx : Z) :
  leaf2 ks mp keys -> leaf2 ks rp [] -> zlen rp = zlen mp -> 2 <= p_num mp -> 0 <= newindx <= p_num mp ->
  ks <= zlen (mv_data newkey) -> Forall is_byte (mv_data newkey) ->
  exists mp' rp' ki side sep kl kr, split_leaf2 ks mp rp newkey newindx = Some (mp', rp', ki, side, sep) /\
    leaf2 ks mp' kl /\ leaf2 ks rp' kr /\ kl ++ kr = key_insert ks keys newindx (slice (mv_data newkey) 0 ks) /\
    0 < p_num mp' /\ 0 < p_num rp' /\ Z.abs (p_num mp' - p_num rp') <= 2 /\ sep = Val ks (slice kr 0 ks) /\
    newindx = (ki + if side then p_num mp' else 0) /\ 0 <= ki < p_num (if side then rp' else mp').
Proof.
  intros Hm Hr Hs Hn Hi Hk Hb.
  destruct (split_leaf2_ok ks mp rp keys newkey newindx) as ([[[[mp' rp'] ki] side] sep] & E & Hh); auto.
  destruct Hh as (HL & HR & HnL & HnR & Hsep & Hside & Hki).
  exists mp', rp', ki, side, sep. do 2 eexists. split; [done|]. split; [done|]. split; [done|]. split; [apply take_drop|].
  assert (2 * ((p_num mp + 1) / 2) <= p_num mp + 1 < 2 * ((p_num mp + 1) / 2) + 2) as Hh
    by (pose proof (Z.div_mod (p_num mp + 1) 2 ltac:(lia)); pose proof (Z.mod_pos_bound (p_num mp + 1) 2); lia).
  revert Hh HnL HnR Hsep Hside Hki. set (h := (p_num mp + 1) / 2). clearbody h.
  destruct (Z.ltb_spec newindx h); intros Hh HnL HnR Hsep -> Hki; cbn [negb] in *; split_and!; auto; lia.
Qed.

(** A page of 32 bytes with the two keys of four bytes [k] and [k + 1]. *)
Definition two_keys (k : Z) : list Z :=
  replicate 10 0 ++ [0x22; 0; 20; 0; 28; 0; k; 0; 0; 0; k + 1; 0; 0; 0] ++ replicate 8 0.
Definition no_keys : list Z := replicate 10 0 ++ [0x22; 0; 16; 0; 32; 0] ++ replicate 16 0.

Lemma two_keys_leaf2 : leaf2 4 (two_keys 7) [7; 0; 0; 0; 8; 0; 0; 0].
Proof. split; try (vm_compute; congruence || done); vm_compute; repeat constructor; congruence. Qed.
Lemma no_keys_leaf2 : leaf2 4 no_keys [].
Proof. split; try (vm_compute; congruence || done); vm_compute; repeat constructor; congruence. Qed.

Lemma leaf2_add_del_witness : exists m' m'',
  mdb_node_add 4 0 32 (fun _ => inl 0) (two_keys 7) 1 (Some (Val 4 [9; 0; 0; 0])) None 0 0 = Some (AddOk m' None) /\
  leaf2 4 m' [7; 0; 0; 0; 9; 0; 0; 0; 8; 0; 0; 0] /\ mdb_node_del m' 1 4 = Some m'' /\ leaf2 4 m'' [7; 0; 0; 0; 8; 0; 0; 0].
Proof.
  apply (leaf2_add_del 0 32 (fun _ => inl 0) 4 (two_keys 7) [7; 0; 0; 0; 8; 0; 0; 0] 1 (Val 4 [9; 0; 0; 0]) None 0 0).
  - exact two_keys_leaf2.
  - vm_compute. split; congruence.
  - vm_compute. congruence.
  - vm_compute. congruence.
  - repeat constructor; lia.
Defined.

Lemma leaf2_split_witness : exists mp' rp' ki side sep kl kr,
  split_leaf2 4 (two_keys 7) no_keys (Val 4 [9; 0; 0; 0]) 2 = Some (mp', rp', ki, side, sep) /\
  leaf2 4 mp' kl /\ leaf2 4 rp' kr /\ kl ++ kr = [7; 0; 0; 0; 8; 0; 0; 0; 9; 0; 0; 0] /\
  0 < p_num mp' /\ 0 < p_num rp' /\ Z.abs (p_num mp' - p_num rp') <= 2 /\ sep = Val 4 (slice kr 0 4) /\
  2 = (ki + if side then p_num mp' else 0) /\ 0 <= ki < p_num (if side then rp' else mp').
Proof.
  apply (leaf2_split_correct 4 (two_keys 7) no_keys [7; 0; 0; 0; 8; 0; 0; 0] (Val 4 [9; 0; 0; 0]) 2).
  - exact two_keys_leaf2.
  - exact no_keys_leaf2.
  - reflexivity.
  - vm_compute. congruence.
  - vm_compute. split; congruence.
  - vm_compute. congruence.
  - repeat constructor; lia.
Defined.
