(* ===== verification/UpdateKey.v ===== *)
(** * Replacing the key of a branch node ([mdb_update_key],
    [src/LegacyDatabase/mdb.c])

    The node's data is its page number, so the key can grow or shrink in
    place: the nodes below it in the page are moved.  A page without room for
    a longer key loses the node and has to be split. *)
From S2P Require Import Prelude.
From S2P Require Import Bytes.
From S2P Require Import Page.
From S2P Require Import PageSpec.
From S2P Require Import NodeOps.
From S2P Require Import NodeDel.
From S2P Require Import Cmp.
From S2P Require Import NodeSearch.
From S2P Require Import Cursor.
From S2P Require Import Tree.
From S2P Require Import PageSplit.
From Stdlib Require Import ZArith Lia.
From stdpp Require Import base numbers option list.
Open Scope Z_scope.

(** The page with the new key; or the page without the node, to be split with
    the key and the page number as a new node ([MDB_SPLIT_REPLACE]). *)
Inductive update_result :=
  | Updated (mp : list Z)
  | SplitReplace (mp : list Z) (pgno : Z).

(** [for (i = 0; i < numkeys; i++) if (mp->mp_ptrs[i] <= ptr) mp->mp_ptrs[i] -= delta;];
    [n] is [numkeys - i]. *)
Fixpoint shift_ptrs (n : nat) (mp : list Z) (i ptr delta : Z) : option (list Z) :=
  match n with
  | O => Some mp
  | S n =>
    p ← mp_ptr mp i;
    mp ← (if p <=? ptr then set_ptr mp i (p - delta) else Some mp);
    shift_ptrs n mp (i + 1) ptr delta
  end.

(** The node contents move by [delta]. *)
Definition shift_nodes (mp : list Z) (ptr delta : Z) : option (list Z) :=
  numkeys ← NUMKEYS mp;
  mp ← shift_ptrs (Z.to_nat numkeys) mp 0 ptr delta;
  upper ← mp_upper mp;
  mp ← bmove mp (upper - delta) upper (ptr - upper + NODESIZE);
  set_upper mp (upper - delta).

(** The key of the node at [indx] of the page that has its place. *)
Definition store_key (mp : list Z) (indx : Z) (key : MDB_val) : option (list Z) :=
  node ← mp_ptr mp indx;
  ksize ← NODEKSZ mp node;
  mp ← (if ksize =? mv_size key then Some mp else set16 mp (node + 6) (mv_size key));
  if mv_size key =? 0 then Some mp
  else bs ← bread (mv_data key) 0 (mv_size key); bwrite mp (node + 8) bs.

Definition mdb_update_key (mp : list Z) (indx : Z) (key : MDB_val) : option update_result :=
  ptr ← mp_ptr mp indx;
  oksize ← NODEKSZ mp ptr;
  let delta := EVEN (mv_size key) - EVEN oksize in
  if delta =? 0 then mp ← store_key mp indx key; Some (Updated mp)
  else
  left ← SIZELEFT mp;
  if (0 <? delta) && (left <? delta) then
    pgno ← NODEPGNO mp ptr;
    mp ← mdb_node_del mp indx 0;
    Some (SplitReplace mp pgno)
  else
    mp ← shift_nodes mp ptr delta;
    mp ← store_key mp indx key;
    Some (Updated mp).

(** ** The effect, and that it is enough *)

Definition lowered (ptr delta p : Z) : Z := if p <=? ptr then p - delta else p.

(** [m'] is [m] with the key of the node at [indx] replaced by [key]. *)
Record page_key (m m' : list Z) (indx delta : Z) (key : list Z) : Prop := {
  pk_indx : 0 <= indx < p_num m;
  pk_len : zlen m' = zlen m;
  pk_bytes : Forall is_byte m';
  pk_head : forall i, i < 12 -> zn m' i = zn m i;
  pk_lower : p_lower m' = p_lower m;
  pk_upper : p_upper m' = p_upper m - delta;
  pk_room : p_lower m <= p_upper m - delta;
  pk_delta : EVEN (8 + zlen key) = n_size m (p_ptr m indx) + delta;
  pk_ptr : forall k, 0 <= k < p_num m -> p_ptr m' k = lowered (p_ptr m indx) delta (p_ptr m k);
  pk_moved : forall x, p_upper m - delta <= x < p_ptr m indx - delta + 6 -> zn m' x = zn m (x + delta);
  pk_ksize : g16 m' (p_ptr m indx - delta + 6) = zlen key;
  pk_key : slice m' (p_ptr m indx - delta + 8) (zlen key) = key;
  pk_kept : forall x, p_ptr m indx + n_size m (p_ptr m indx) <= x -> zn m' x = zn m x
}.

(** The first six bytes of a branch node are its page number. *)
Lemma pgno_bytes (m : list Z) (k : Z) : page_wf m -> 0 <= k < p_num m ->
  slice m (p_ptr m k) 6 = le_bytes 6 (n_pgno m k).
Proof.
  intros Hwf Hk. destruct (n_key_in m k Hwf Hk) as (Hp & Hh & Hks). pose proof (wf_bytes _ Hwf) as Hb.
  unfold n_pgno, n_lohi, n_flags. set (ptr := p_ptr m k) in *. change 6%nat with (2 + (2 + 2))%nat. change (2 ^ 16) with 65536.
  change (2 ^ 32) with (65536 * 65536). pose proof (g16_range m ptr Hb). pose proof (g16_range m (ptr + 2) Hb).
  pose proof (g16_range m (ptr + 4) Hb).
  replace (g16 m ptr + 65536 * g16 m (ptr + 2) + 65536 * 65536 * g16 m (ptr + 4))
    with (g16 m ptr + 65536 * (g16 m (ptr + 2) + 65536 * g16 m (ptr + 4))) by lia.
  rewrite (le_bytes_pair (2 + 2)), (le_bytes_pair 2), !le_bytes_g16 by (done || lia).
  replace 6 with (2 + (2 + 2)) at 1 by lia. rewrite !slice_app by lia.
  replace (ptr + 2 + 2) with (ptr + 4) by lia. done.
Qed.

(** So the encoded node determines it. *)
Definition raw_pgno (raw : list Z) : Z := le_val (slice raw 0 6).

Lemma n_pgno_raw (m : list Z) (k : Z) : page_wf m -> 0 <= k < p_num m -> n_pgno m k = raw_pgno (zn (p_raw m) k).
Proof.
  intros Hwf Hk. destruct (zn_p_raw m k Hwf Hk) as (E & _ & _). destruct (n_raw_eq m k Hwf Hk) as (_ & _ & Hp & Hin & H8).
  pose proof (wf_bytes _ Hwf) as Hb. unfold raw_pgno. rewrite E, slice_slice, Z.add_0_r, pgno_bytes, le_val_bytes by (done || lia).
  symmetry. apply Z.mod_small. unfold n_pgno, n_lohi, n_flags.
  pose proof (g16_range m (p_ptr m k) Hb). pose proof (g16_range m (p_ptr m k + 2) Hb).
  pose proof (g16_range m (p_ptr m k + 4) Hb). change (8 * Z.of_nat 6) with 48. change (2 ^ 16) with 65536.
  change (2 ^ 32) with 4294967296. change (2 ^ 48) with (65536 * 4294967296). lia.
Qed.

Section KeyChange.
Variables (m m' : list Z) (indx delta : Z) (key : list Z).
Hypothesis Hwf : page_wf m.
Hypothesis Hleaf : p_leaf m = false.
Hypothesis Hpk : page_key m m' indx delta key.
Let ptr := p_ptr m indx.
Let sz := n_size m ptr.

Lemma pk_flags : p_flags m' = p_flags m.
Proof.
  unfold p_flags. pose proof (wf_psize _ Hwf). apply g16_ext; try lia; [apply Hpk|].
  intros i Hi. apply (pk_head _ _ _ _ _ Hpk). lia.
Qed.

Lemma pk_num : p_num m' = p_num m.
Proof. unfold p_num at 1. by rewrite (pk_lower _ _ _ _ _ Hpk). Qed.

Lemma pk_isleaf : p_leaf m' = false.
Proof. unfold p_leaf. by rewrite pk_flags. Qed.

(** The other nodes. *)
Lemma pk_old (k : Z) : 0 <= k < p_num m -> k <> indx ->
  n_size m' (lowered ptr delta (p_ptr m k)) = n_size m (p_ptr m k) /\
  slice m' (lowered ptr delta (p_ptr m k)) (n_size m (p_ptr m k)) = n_image m k /\
  p_upper m - delta <= lowered ptr delta (p_ptr m k) /\
  lowered ptr delta (p_ptr m k) + n_size m (p_ptr m k) <= zlen m.
Proof.
  intros Hk Hne. pose proof (pk_indx _ _ _ _ _ Hpk) as Hi. destruct (wf_in _ Hwf k Hk) as [Hlo Hhi].
  destruct (wf_in _ Hwf indx Hi) as [Hlo' Hhi']. fold ptr sz in Hlo', Hhi'.
  pose proof (wf_disj _ Hwf k indx Hk Hi Hne) as Hd. fold ptr sz in Hd.
  pose proof (n_size_pos m Hwf (p_ptr m k)). pose proof (n_size_pos m Hwf ptr) as Hsz. fold sz in Hsz.
  pose proof (wf_upper _ Hwf). pose proof (wf_lower _ Hwf). pose proof (wf_num _ Hwf).
  pose proof (pk_len _ _ _ _ _ Hpk). pose proof (pk_moved _ _ _ _ _ Hpk) as Hm. fold ptr in Hm.
  pose proof (pk_kept _ _ _ _ _ Hpk) as Hkp. fold ptr sz in Hkp. pose proof (pk_room _ _ _ _ _ Hpk).
  pose proof (pk_delta _ _ _ _ _ Hpk) as Hdl. fold ptr sz in Hdl. pose proof (EVEN_bounds (8 + zlen key)).
  pose proof (zlen_nonneg key).
  assert (forall n, 0 <= n <= n_size m (p_ptr m k) ->
    slice m' (lowered ptr delta (p_ptr m k)) n = slice m (p_ptr m k) n) as Hsl.
  { intros n Hn. unfold lowered. destruct (Z.leb_spec (p_ptr m k) ptr); apply slice_ext; try lia.
    - intros i Hi'. rewrite Hm by lia. f_equal. lia.
    - intros i Hi'. apply Hkp. lia. }
  split_and!.
  - unfold n_size. rewrite pk_isleaf, Hleaf, Hsl by lia. done.
  - apply Hsl. lia.
  - unfold lowered. destruct (Z.leb_spec (p_ptr m k) ptr); lia.
  - unfold lowered. destruct (Z.leb_spec (p_ptr m k) ptr); lia.
Qed.

(** The node itself. *)
Lemma pk_new : lowered ptr delta ptr = ptr - delta /\ n_size m' (ptr - delta) = sz + delta /\ 8 <= sz + delta /\
  p_upper m - delta <= ptr - delta /\ ptr - delta + (sz + delta) <= zlen m /\
  slice m' (ptr - delta) (8 + zlen key) = slice m ptr 6 ++ le_bytes 2 (zlen key) ++ key.
Proof.
  pose proof (pk_indx _ _ _ _ _ Hpk) as Hi. destruct (wf_in _ Hwf indx Hi) as [Hlo Hhi]. fold ptr sz in Hlo, Hhi.
  pose proof (n_size_pos m Hwf ptr) as Hsz. fold sz in Hsz. pose proof (wf_lower _ Hwf). pose proof (wf_num _ Hwf).
  pose proof (wf_upper _ Hwf). pose proof (pk_len _ _ _ _ _ Hpk) as Hlen. pose proof (pk_room _ _ _ _ _ Hpk).
  pose proof (pk_delta _ _ _ _ _ Hpk) as Hdl. fold ptr sz in Hdl. pose proof (EVEN_bounds (8 + zlen key)).
  pose proof (pk_ksize _ _ _ _ _ Hpk) as Hks. fold ptr in Hks. pose proof (zlen_nonneg key).
  assert (8 <= sz + delta) by lia. split; [unfold lowered; by rewrite Z.leb_refl|].
  split; [|split; [done|split; [lia|split; [lia|]]]].
  - unfold n_size, hdr_size. rewrite pk_isleaf, Z.add_0_r, <- Hdl.
    assert (g16 (slice m' (ptr - delta) 8) 6 = zlen key) as ->; [|done].
    { rewrite <- Hks. unfold g16. rewrite slice_slice by lia. done. }
  - replace (8 + zlen key) with (6 + (2 + zlen key)) by lia. rewrite !slice_app by lia. f_equal; [|f_equal].
    + apply slice_ext; try lia. intros i Hi'. rewrite (pk_moved _ _ _ _ _ Hpk) by (fold ptr; lia). f_equal. lia.
    + rewrite <- Hks. symmetry. apply le_bytes_g16; [apply Hpk|lia|lia].
    + replace (ptr - delta + 6 + 2) with (ptr - delta + 8) by lia. apply Hpk.
Qed.

Lemma pk_slot (k : Z) : 0 <= k < p_num m' -> 0 <= k < p_num m /\ p_ptr m' k = lowered ptr delta (p_ptr m k).
Proof. rewrite pk_num. intros Hk. split; [done|]. by apply Hpk. Qed.

Lemma pk_nodes : p_nodes m' = take (Z.to_nat indx) (p_nodes m) ++ [slice m' (ptr - delta) (sz + delta)] ++
  drop (Z.to_nat (indx + 1)) (p_nodes m).
Proof.
  pose proof (pk_indx _ _ _ _ _ Hpk) as Hi. pose proof pk_num. pose proof (wf_num _ Hwf) as Hn0.
  pose proof (zlen_p_nodes m Hn0) as Hl. destruct pk_new as (El & En & _). apply zlist_eq.
  - arr. rewrite !zlen_p_nodes by lia. lia.
  - intros k Hk. rewrite zlen_p_nodes in Hk by lia. rewrite zn_p_nodes by lia. unfold n_image.
    destruct (pk_slot k Hk) as [Hk' ->]. destruct (decide (k = indx)) as [->|Hne].
    + fold ptr. rewrite El, En. rewrite zn_app_r by zlia. arr. by rewrite Z.sub_diag.
    + destruct (pk_old k Hk' Hne) as (-> & -> & _). destruct (Z.ltb_spec k indx).
      * rewrite zn_app_l, zn_take, zn_p_nodes by zlia. done.
      * rewrite zn_app_r by zlia. rewrite zn_app_r by zlia. arr. rewrite zn_drop, zn_p_nodes by lia. f_equal. lia.
Qed.

Lemma pk_wf : page_wf m'.
Proof.
  pose proof (pk_indx _ _ _ _ _ Hpk) as Hi. pose proof pk_num as Hn. pose proof (pk_len _ _ _ _ _ Hpk) as Hlen.
  pose proof (pk_lower _ _ _ _ _ Hpk). pose proof (pk_upper _ _ _ _ _ Hpk) as Hu. pose proof (pk_room _ _ _ _ _ Hpk).
  pose proof (wf_lower _ Hwf). pose proof (wf_upper _ Hwf). pose proof (wf_num _ Hwf).
  destruct pk_new as (El & En & H8 & Hnlo & Hnhi & _). destruct (wf_in _ Hwf indx Hi) as [Hlo Hhi]. fold ptr sz in Hlo, Hhi.
  pose proof (n_size_pos m Hwf ptr) as Hsz. fold sz in Hsz.
  assert (forall k, 0 <= k < p_num m -> k <> indx ->
    p_ptr m k + n_size m (p_ptr m k) <= ptr \/ ptr + sz <= p_ptr m k) as Hd by (intros; by apply (wf_disj _ Hwf)).
  split; try (rewrite ?Hlen; lia).
  - apply Hpk.
  - rewrite Hlen. apply Hwf.
  - unfold p_leaf2. rewrite pk_flags. apply Hwf.
  - intros k Hk. destruct (pk_slot k Hk) as [Hk' ->]. rewrite Hlen, Hu. destruct (decide (k = indx)) as [->|Hne].
    + fold ptr. rewrite El, En. lia.
    + destruct (pk_old k Hk' Hne) as (-> & _ & ? & ?). lia.
  - intros k k' Hk Hk' Hne. destruct (pk_slot k Hk) as [Hk1 ->], (pk_slot k' Hk') as [Hk1' ->].
    pose proof (wf_disj _ Hwf k k' Hk1 Hk1' Hne) as Hdd.
    pose proof (n_size_pos m Hwf (p_ptr m k)). pose proof (n_size_pos m Hwf (p_ptr m k')).
    destruct (decide (k = indx)) as [->|Hi1]; [|destruct (decide (k' = indx)) as [->|Hi2]].
    + fold ptr in Hdd |- *. fold sz in Hdd. destruct (pk_old k' Hk1' ltac:(lia)) as (-> & _). rewrite El, En. unfold lowered.
      destruct (Z.leb_spec (p_ptr m k') ptr); lia.
    + fold ptr in Hdd |- *. fold sz in Hdd. destruct (pk_old k Hk1 Hi1) as (-> & _). rewrite El, En. unfold lowered.
      destruct (Z.leb_spec (p_ptr m k) ptr); lia.
    + destruct (pk_old k Hk1 Hi1) as (-> & _), (pk_old k' Hk1' Hi2) as (-> & _).
      pose proof (Hd k Hk1 Hi1). pose proof (Hd k' Hk1' Hi2). unfold lowered.
      destruct (Z.leb_spec (p_ptr m k) ptr), (Z.leb_spec (p_ptr m k') ptr); lia.
  - rewrite pk_nodes, !fmap_app, !sumZ_app. cbn [fmap list_fmap sumZ]. rewrite zlen_slice by lia.
    pose proof (wf_full _ Hwf) as Hf. rewrite <- (take_drop (Z.to_nat indx) (p_nodes m)), fmap_app, sumZ_app in Hf.
    assert (p_nodes m !! Z.to_nat indx = Some (n_image m indx)) as Hg.
    { rewrite <- zn_p_nodes by done. pose proof (aget_in (p_nodes m) indx) as Ha.
      rewrite zlen_p_nodes in Ha by lia. unfold aget in Ha.
      rewrite (proj2 (Z.leb_le _ _)) in Ha by lia. by apply Ha. }
    rewrite (drop_S _ _ _ Hg) in Hf. cbn [fmap list_fmap sumZ] in Hf.
    replace (Z.to_nat (indx + 1)) with (S (Z.to_nat indx)) by lia.
    unfold n_image at 1 in Hf. rewrite zlen_slice in Hf by (fold ptr sz; lia).
    fold ptr sz in Hf. rewrite Hu, Hlen. lia.
Qed.

(** The content: the node has the new key and its old page number. *)
Lemma pk_raw : p_raw m' = take (Z.to_nat indx) (p_raw m) ++ [branch_node (Some (Val (zlen key) key)) (n_pgno m indx)] ++
  drop (Z.to_nat (indx + 1)) (p_raw m).
Proof.
  pose proof (pk_indx _ _ _ _ _ Hpk) as Hi. destruct pk_new as (_ & _ & H8 & Hlo & Hhi & Eb).
  pose proof (pk_room _ _ _ _ _ Hpk). pose proof (wf_lower _ Hwf). pose proof (wf_num _ Hwf).
  pose proof (pk_len _ _ _ _ _ Hpk) as Hlen. pose proof (zlen_nonneg key).
  destruct (n_key_in m indx Hwf Hi) as (Hp & Hh & Hks). pose proof (wf_bytes _ Hwf) as Hb. fold ptr in Hp, Hh, Hks.
  unfold p_raw. rewrite pk_isleaf, Hleaf, pk_nodes, !fmap_app, fmap_take, fmap_drop. f_equal. f_equal.
  cbn [fmap list_fmap]. f_equal.
  pose proof (pk_delta _ _ _ _ _ Hpk) as Hdl. fold ptr sz in Hdl. pose proof (EVEN_bounds (8 + zlen key)).
  pose proof (pgno_bytes m indx Hwf Hi) as E6. fold ptr in E6.
  replace (sz + delta) with (8 + zlen key + (sz + delta - (8 + zlen key))) by lia. rewrite slice_app by lia. rewrite Eb, E6.
  assert (zlen (le_bytes 6 (n_pgno m indx) ++ le_bytes 2 (zlen key) ++ key) = 8 + zlen key) as Hz
    by (rewrite !zlen_app, !zlen_le_bytes; lia).
  rewrite raw_of_app; [done|lia|]. rewrite Hz. unfold hdr_raw. rewrite Z.add_0_r. f_equal.
  unfold g16. rewrite slice_app_r by (rewrite ?zlen_app, ?zlen_le_bytes; lia). rewrite zlen_le_bytes.
  rewrite slice_app_l by (rewrite zlen_le_bytes; lia).
  rewrite slice_full by (by rewrite zlen_le_bytes).
  pose proof (pk_ksize _ _ _ _ _ Hpk) as Hk. pose proof (g16_range m' (p_ptr m indx - delta + 6) (pk_bytes _ _ _ _ _ Hpk)) as Hr.
  rewrite le_val_bytes. apply Z.mod_small. change (2 ^ (8 * Z.of_nat 2)) with 65536. lia.
Qed.
End KeyChange.

(** ** The operation *)

Lemma set16_store (m : list Z) (o x : Z) : Forall is_byte m -> 0 <= o -> o + 2 <= zlen m -> exists m', set16 m o x = Some m' /\
  zlen m' = zlen m /\ Forall is_byte m' /\ g16 m' o = u16 x /\ (forall i, i < o \/ o + 2 <= i -> zn m' i = zn m i).
Proof.
  intros Hb Ho Hl. destruct (set16_upd m o x) as (m' & -> & U); try lia. pose proof (u_old _ _ _ _ U) as Hold.
  rewrite zlen_le_bytes in Hold. exists m'. split_and!; auto.
  - by rewrite (u_len _ _ _ _ U).
  - apply U; [done|apply le_bytes_byte].
  - apply (upd_g16_eq _ _ _ _ U).
Qed.

Lemma shift_ptrs_ok (ptr delta : Z) (n : nat) : forall m i, 0 <= i -> Forall is_byte m -> 16 + 2 * (i + Z.of_nat n) <= zlen m ->
  exists m', shift_ptrs n m i ptr delta = Some m' /\ zlen m' = zlen m /\ Forall is_byte m' /\
    (forall k, i <= k < i + Z.of_nat n -> p_ptr m' k = u16 (lowered ptr delta (p_ptr m k))) /\
    (forall x, x < 16 + 2 * i \/ 16 + 2 * (i + Z.of_nat n) <= x -> zn m' x = zn m x).
Proof.
  induction n as [|n IH]; intros m i Hi Hb Hl; cbn [shift_ptrs].
  { exists m. split_and!; auto. intros k Hk. lia. }
  unfold mp_ptr, set_ptr, PAGEHDRSZ. rewrite get16_in by lia. cbn [mbind option_bind]. fold (p_ptr m i).
  pose proof (g16_range m (16 + 2 * i) Hb) as Hr. fold (p_ptr m i) in Hr.
  assert (exists m1, (if p_ptr m i <=? ptr then set16 m (16 + 2 * i) (p_ptr m i - delta) else Some m) = Some m1 /\
    zlen m1 = zlen m /\ Forall is_byte m1 /\ p_ptr m1 i = u16 (lowered ptr delta (p_ptr m i)) /\
    (forall x, x < 16 + 2 * i \/ 16 + 2 * i + 2 <= x -> zn m1 x = zn m x)) as (m1 & -> & L1 & B1 & P1 & O1).
  { unfold lowered. destruct (Z.leb_spec (p_ptr m i) ptr).
    - apply set16_store; auto; lia.
    - exists m. split_and!; auto. by rewrite uwrap_small by lia. }
  cbn [mbind option_bind]. destruct (IH m1 (i + 1)) as (m' & -> & L2 & B2 & P2 & O2); auto; try lia.
  exists m'. split_and!; auto; try lia.
  - intros k Hk. destruct (decide (k = i)) as [->|].
    + rewrite <- P1. unfold p_ptr. apply g16_ext; try lia. intros j Hj. apply O2. lia.
    + rewrite P2 by lia. do 2 f_equal. unfold p_ptr. apply g16_ext; try lia. intros j Hj. apply O1. lia.
  - intros x Hx. rewrite O2, O1 by lia. done.
Qed.

Lemma bmove_bytes (m m' : list Z) (d s n : Z) : bmove m d s n = Some m' -> Forall is_byte m -> Forall is_byte m'.
Proof.
  unfold bmove. intros E Hb. destruct (bread m s n) as [bs|] eqn:Eb; [|done]. cbn [mbind option_bind] in E.
  unfold bread in Eb. destruct (_ && _) in Eb; [|done]. injection Eb as <-.
  unfold bwrite in E. destruct (_ && _) in E; [|done]. injection E as <-.
  apply splice_bytes; [done|]. by apply slice_bytes.
Qed.

(** The page after the shift: as [m], with everything below the node's key
    moved by [delta]. *)
Record page_shift (m m' : list Z) (indx delta : Z) : Prop := {
  sf_len : zlen m' = zlen m;
  sf_bytes : Forall is_byte m';
  sf_head : forall i, i < 14 -> zn m' i = zn m i;
  sf_upper : p_upper m' = p_upper m - delta;
  sf_ptr : forall k, 0 <= k < p_num m -> p_ptr m' k = lowered (p_ptr m indx) delta (p_ptr m k);
  sf_moved : forall x, p_upper m - delta <= x < p_ptr m indx - delta + 8 -> zn m' x = zn m (x + delta);
  sf_kept : forall x, p_ptr m indx + n_size m (p_ptr m indx) <= x -> zn m' x = zn m x
}.

Section Update.
Variables (m : list Z) (indx : Z) (key : MDB_val).
Hypothesis Hwf : page_wf m.
Hypothesis Hleaf : p_leaf m = false.
Hypothesis Hindx : 0 <= indx < p_num m.
Hypothesis Hkey : val_ok key.
Hypothesis Hksize : mv_size key < 65536.
Let ptr := p_ptr m indx.
Let delta := EVEN (mv_size key) - EVEN (g16 m (ptr + 6)).
Hypothesis Hroom : p_lower m <= p_upper m - delta.

Lemma node_place : p_upper m <= ptr /\ 0 <= ptr /\ ptr + 8 <= zlen m /\ ptr + n_size m ptr <= zlen m /\
  n_size m ptr = 8 + EVEN (g16 m (ptr + 6)) /\ 0 <= g16 m (ptr + 6) < 65536 /\
  EVEN (8 + mv_size key) = n_size m ptr + delta /\ 0 <= mv_size key /\ 16 <= p_lower m /\ 16 + 2 * p_num m = p_lower m.
Proof.
  destruct (wf_in _ Hwf indx Hindx) as [H1 H2]. fold ptr in H1, H2. pose proof (n_size_pos m Hwf ptr).
  pose proof (wf_upper _ Hwf). pose proof (wf_lower _ Hwf). pose proof (wf_num _ Hwf).
  pose proof (g16_range m (ptr + 6) (wf_bytes _ Hwf)). destruct Hkey as [-> _].
  pose proof (zlen_nonneg (mv_data key)).
  assert (n_size m ptr = EVEN (8 + g16 m (ptr + 6))) as E.
  { unfold n_size, hdr_size. rewrite Hleaf, Z.add_0_r. unfold g16 at 1. rewrite slice_slice by lia. done. }
  rewrite (EVEN_add 8) in E by reflexivity. rewrite (EVEN_add 8) by reflexivity.
  unfold delta. destruct Hkey as [-> _]. split_and!; lia.
Qed.

Lemma shift_nodes_ok : exists m', shift_nodes m ptr delta = Some m' /\ page_shift m m' indx delta.
Proof.
  destruct node_place as (H1 & H2 & H3 & H4 & H5 & H6 & H7 & H8 & H9 & H10). pose proof (wf_upper _ Hwf) as Hu.
  pose proof (EVEN_bounds (g16 m (ptr + 6))). pose proof (EVEN_bounds (8 + mv_size key)). pose proof (wf_psize _ Hwf) as Hps.
  unfold shift_nodes. unfold MAX_PAGESIZE in Hps. rewrite (NUMKEYS_ok m) by done. cbn [mbind option_bind].
  destruct (shift_ptrs_ok ptr delta (Z.to_nat (p_num m)) m 0) as (m1 & -> & L1 & B1 & P1 & O1); [lia|apply Hwf|lia|].
  cbn [mbind option_bind].
  assert (mp_upper m1 = Some (p_upper m)) as ->.
  { unfold mp_upper. rewrite get16_in by lia. f_equal. apply g16_ext; try lia. intros; apply O1; lia. }
  cbn [mbind option_bind].
  destruct (slice_bmove m1 (p_upper m - delta) (p_upper m) (ptr - p_upper m + NODESIZE)) as (m2 & E2 & L2 & M2 & O2);
    unfold NODESIZE in *; try lia.
  rewrite E2. cbn [mbind option_bind]. pose proof (bmove_bytes _ _ _ _ _ E2 B1) as B2.
  destruct (set16_store m2 14 (p_upper m - delta) B2) as (m3 & E3 & L3 & B3 & P3 & O3); [lia..|].
  unfold set_upper. rewrite E3. exists m3. split; [done|]. split; fold ptr; try lia; auto.
  - intros i Hi. rewrite O3, O2, O1 by lia. done.
  - unfold p_upper at 1. rewrite P3. apply uwrap_small. lia.
  - intros k Hk. transitivity (p_ptr m1 k); [unfold p_ptr; apply g16_ext; try lia; intros; rewrite O3, O2 by lia; done|].
    rewrite P1 by lia. apply uwrap_small. unfold lowered. pose proof (wf_in _ Hwf k Hk). pose proof (n_size_pos m Hwf (p_ptr m k)).
    destruct (Z.leb_spec (p_ptr m k) ptr); lia.
  - intros x Hx. rewrite O3, M2, O1 by lia. f_equal. lia.
  - intros x Hx. rewrite O3, O2, O1 by lia. done.
Qed.

(** No shift is the shift by zero. *)
Lemma shift_zero : delta = 0 -> page_shift m m indx delta.
Proof.
  intros ->. split; auto; try lia; try apply Hwf.
  - intros k Hk. unfold lowered. destruct (_ <=? _); lia.
  - intros x Hx. f_equal. lia.
Qed.

Lemma store_key_ok (m1 : list Z) : page_shift m m1 indx delta ->
  exists m', store_key m1 indx key = Some m' /\ page_key m m' indx delta (mv_data key).
Proof.
  intros [L1 B1 H1 U1 P1 M1 K1]. fold ptr in P1, M1, K1.
  destruct node_place as (N1 & N2 & N3 & N4 & N5 & N6 & N7 & N8 & N9 & N10). pose proof (wf_upper _ Hwf) as Hu.
  pose proof (wf_psize _ Hwf) as Hps. unfold MAX_PAGESIZE in Hps. pose proof (EVEN_bounds (8 + mv_size key)).
  pose proof (n_size_pos m Hwf ptr).
  assert (p_ptr m1 indx = ptr - delta) as Ep by (rewrite P1 by done; fold ptr; unfold lowered; by rewrite Z.leb_refl).
  destruct Hkey as [Hks Hkb]. unfold store_key, mp_ptr, PAGEHDRSZ. rewrite get16_in by lia. cbn [mbind option_bind].
  fold (p_ptr m1 indx). rewrite Ep. unfold NODEKSZ. rewrite get16_in by lia. cbn [mbind option_bind].
  set (o := ptr - delta) in *.
  assert (exists m2, (if g16 m1 (o + 6) =? mv_size key then Some m1 else set16 m1 (o + 6) (mv_size key)) = Some m2 /\
    zlen m2 = zlen m1 /\ Forall is_byte m2 /\ g16 m2 (o + 6) = mv_size key /\
    (forall i, i < o + 6 \/ o + 6 + 2 <= i -> zn m2 i = zn m1 i)) as (m2 & -> & L2 & B2 & P2 & O2).
  { destruct (Z.eqb_spec (g16 m1 (o + 6)) (mv_size key)); [by exists m1|].
    destruct (set16_store m1 (o + 6) (mv_size key) B1) as (m2 & -> & ? & ? & E & ?); [lia..|].
    rewrite uwrap_small in E by lia. by exists m2. }
  cbn [mbind option_bind].
  assert (exists m3, (if mv_size key =? 0 then Some m2 else bs ← bread (mv_data key) 0 (mv_size key); bwrite m2 (o + 8) bs) = Some m3 /\
    zlen m3 = zlen m2 /\ Forall is_byte m3 /\ slice m3 (o + 8) (mv_size key) = mv_data key /\
    (forall i, i < o + 8 \/ o + 8 + mv_size key <= i -> zn m3 i = zn m2 i)) as (m3 & -> & L3 & B3 & P3 & O3).
  { destruct (Z.eqb_spec (mv_size key) 0) as [E|E].
    - exists m2. split_and!; auto. rewrite E in *. destruct (mv_data key); [done|]. rewrite zlen_cons in Hks.
      pose proof (zlen_nonneg l). lia.
    - rewrite bread_val by done. cbn [mbind option_bind]. destruct (bwrite_upd m2 (o + 8) (mv_data key)) as (m3 & -> & U); [lia|lia|].
      exists m3. pose proof (u_old _ _ _ _ U) as Hold. split_and!; auto.
      + by rewrite (u_len _ _ _ _ U).
      + by apply U.
      + rewrite Hks. apply (u_new _ _ _ _ U).
      + intros i Hi. apply Hold. lia. }
  exists m3. split; [done|]. split; fold ptr; try lia; auto.
  - intros i Hi. rewrite O3, O2 by lia. apply H1. lia.
  - unfold p_lower. apply g16_ext; try lia. intros i Hi. rewrite O3, O2 by lia. apply H1. lia.
  - rewrite <- U1. unfold p_upper. apply g16_ext; try lia. intros i Hi. rewrite O3, O2 by lia. done.
  - by rewrite <- Hks.
  - intros k Hk. rewrite <- P1 by done. unfold p_ptr. apply g16_ext; try lia. intros i Hi. rewrite O3, O2 by lia. done.
  - intros x Hx. rewrite O3, O2 by (unfold o; lia). apply M1. lia.
  - fold o. rewrite <- Hks. rewrite <- P2. apply g16_ext; try lia. intros i Hi. apply O3. lia.
  - fold o. by rewrite <- Hks.
  - intros x Hx. rewrite O3, O2 by (unfold o; lia). by apply K1.
Qed.

Lemma update_key_ok : exists m', mdb_update_key m indx key = Some (Updated m') /\ page_key m m' indx delta (mv_data key).
Proof.
  destruct node_place as (N1 & N2 & N3 & N4 & N5 & N6 & N7 & N8 & N9 & N10). pose proof (wf_upper _ Hwf) as Hu.
  unfold mdb_update_key. rewrite (mp_ptr_ok m) by done. cbn [mbind option_bind]. fold ptr. unfold NODEKSZ.
  rewrite get16_in by lia. cbn [mbind option_bind]. fold delta. destruct (Z.eqb_spec delta 0) as [E|E].
  - destruct (store_key_ok m (shift_zero E)) as (m' & -> & H). by exists m'.
  - rewrite (SIZELEFT_ok m) by done. cbn [mbind option_bind]. rewrite (proj2 (Z.ltb_ge (p_upper m - p_lower m) delta)), andb_false_r by lia.
    destruct shift_nodes_ok as (m1 & -> & H1). cbn [mbind option_bind].
    destruct (store_key_ok m1 H1) as (m' & -> & H). by exists m'.
Qed.
End Update.

Lemma key_val (key : MDB_val) : val_ok key -> Val (zlen (mv_data key)) (mv_data key) = key.
Proof. intros [<- _]. by destruct key. Qed.

(** C8: [mdb_update_key] gives the node at an index of a branch page the new
    key and keeps its page number and all other nodes, in order, when the page
    has room for the longer key, which includes every shorter one; otherwise
    it takes the node out of the page and asks for a split with the key and
    the page number.  The page stays well formed in both cases. *)
Theorem update_key_correct (m : list Z) (indx : Z) (key : MDB_val) : page_wf m -> p_leaf m = false ->
  0 <= indx < p_num m -> val_ok key -> mv_size key < 65536 ->
  let delta := EVEN (mv_size key) - EVEN (g16 m (p_ptr m indx + 6)) in
  (delta <= p_upper m - p_lower m ->
    exists m', mdb_update_key m indx key = Some (Updated m') /\ page_wf m' /\ slice m' 0 12 = slice m 0 12 /\
      p_raw m' = take (Z.to_nat indx) (p_raw m) ++ [branch_node (Some key) (n_pgno m indx)] ++
                 drop (Z.to_nat (indx + 1)) (p_raw m)) /\
  (p_upper m - p_lower m < delta ->
    exists m', mdb_update_key m indx key = Some (SplitReplace m' (n_pgno m indx)) /\ page_wf m' /\
      p_raw m' = take (Z.to_nat indx) (p_raw m) ++ drop (Z.to_nat (indx + 1)) (p_raw m)).
Proof.
  intros Hwf Hleaf Hi Hk Hsz delta. pose proof (wf_psize _ Hwf). pose proof (wf_upper _ Hwf). split; intros Hroom.
  - destruct (update_key_ok m indx key) as (m' & E & Hpk); auto; [unfold delta in Hroom; lia|].
    exists m'. split_and!; auto.
    + by apply (pk_wf m m' indx _ _ Hwf Hleaf Hpk).
    + pose proof (pk_len _ _ _ _ _ Hpk). apply slice_ext; try lia. intros i Hi'. apply (pk_head _ _ _ _ _ Hpk). lia.
    + rewrite (pk_raw m m' indx _ _ Hwf Hleaf Hpk). by rewrite key_val.
  - destruct (node_del_effect m indx 0 Hwf Hi) as (m' & E & Hd). exists m'. split_and!.
    + destruct (n_key_in m indx Hwf Hi) as (Hp & Hh & Hg). unfold mdb_update_key. rewrite (mp_ptr_ok m) by done.
      cbn [mbind option_bind]. unfold NODEKSZ. rewrite get16_in by lia. cbn [mbind option_bind]. fold delta.
      rewrite (proj2 (Z.eqb_neq delta 0)) by lia. rewrite (SIZELEFT_ok m) by done. cbn [mbind option_bind].
      rewrite (proj2 (Z.ltb_lt 0 delta)), (proj2 (Z.ltb_lt _ delta)) by lia. cbn [andb].
      rewrite NODEPGNO_ok by done. cbn [mbind option_bind]. by rewrite E.
    + by apply (del_wf m m' indx).
    + unfold p_raw, p_leaf. rewrite (del_flags m m' indx Hwf Hd), (del_nodes m m' indx Hwf Hd).
      by rewrite fmap_app, fmap_take, fmap_drop.
Qed.

(** A branch page of 64 bytes: the children 5 (no key) and 6 (key [9]). *)
Definition branch64 : list Z :=
  [3;0;0;0;0;0;0;0; 0;0; 1;0; 20;0; 46;0; 56;0; 46;0] ++ replicate 26 0 ++
  [6;0; 0;0; 0;0; 1;0; 9;0] ++ [5;0; 0;0; 0;0; 0;0].

Lemma update_key_witness : exists m', mdb_update_key branch64 1 (Val 4 [8; 8; 8; 8]) = Some (Updated m') /\ page_wf m' /\
  slice m' 0 12 = slice branch64 0 12 /\
  p_raw m' = [[5;0;0;0;0;0;0;0]; branch_node (Some (Val 4 [8; 8; 8; 8])) 6].
Proof.
  apply (update_key_correct branch64 1 (Val 4 [8; 8; 8; 8])).
  - apply page_wfb_sound. vm_compute. reflexivity.
  - reflexivity.
  - vm_compute. split; congruence.
  - split; [reflexivity|]. repeat constructor; closed.
  - closed.
  - vm_compute. congruence.
Defined.
