(* ===== verification/Cow.v ===== *)
(** * Copies of pages and the trees that contain them

    Copy-on-write ([mdb_page_touch], [src/LegacyDatabase/mdb.c]) replaces
    pages of a B+tree along the path of a cursor.  This file says when a page
    is a copy of another one, with at most one child pointer changed, which
    page numbers a tree uses, and that a tree in which the pages of a path are
    replaced by copies has the items of the old one. *)
From S2P Require Import Prelude.
From S2P Require Import Bytes.
From S2P Require Import Page.
From S2P Require Import PageSpec.
From S2P Require Import NodeOps.
From S2P Require Import NodeDel.
From S2P Require Import Cmp.
From S2P Require Import NodeSearch.
From S2P Require Import Cursor.
From S2P Require Import Tree.
From S2P Require Import CursorPath.
From Stdlib Require Import ZArith Lia.
From stdpp Require Import base numbers option list.
Open Scope Z_scope.

(** ** Copies of a page *)

(** The bytes of the page number of node [k]. *)
Definition pgno_place (m : list Z) (k : option Z) (x : Z) : Prop :=
  match k with Some k => p_ptr m k <= x < p_ptr m k + 6 | None => False end.

(** [m'] has the bytes of [m] in the part of the header from [mp_lower] on,
    in the pointers and the nodes; the page number of node [k] may differ. *)
Record page_copy (k : option Z) (m m' : list Z) : Prop := {
  pc_len : zlen m' = zlen m;
  pc_bytes : Forall is_byte m';
  pc_leaf : p_leaf m' = p_leaf m;
  pc_branch : p_branch m' = p_branch m;
  pc_leaf2 : p_leaf2 m' = p_leaf2 m;
  pc_same x : 12 <= x < p_lower m \/ p_upper m <= x < zlen m -> ~ pgno_place m k x -> zn m' x = zn m x
}.

Lemma page_copy_refl (k : option Z) (m : list Z) : page_wf m -> page_copy k m m.
Proof. intros Hwf. split; auto. apply Hwf. Qed.

Section Copy.
Variables (k : option Z) (m m' : list Z).
Hypothesis Hwf : page_wf m.
Hypothesis Hk : forall i, k = Some i -> p_leaf m = false /\ 0 <= i < p_num m.
Hypothesis Hc : page_copy k m m'.

Lemma pgno_place_in (x : Z) : pgno_place m k x -> p_upper m <= x.
Proof.
  destruct k as [i|] eqn:E; cbn [pgno_place]; [|done]. destruct (Hk i eq_refl) as [_ Hi].
  destruct (wf_in _ Hwf i Hi). lia.
Qed.

Lemma pc_header (o : Z) : 12 <= o -> o + 2 <= p_lower m -> g16 m' o = g16 m o.
Proof.
  intros Ho Hl. pose proof (wf_upper _ Hwf). apply g16_ext; try lia; [apply Hc|].
  intros x Hx. apply Hc; [lia|]. intros Hp%pgno_place_in. lia.
Qed.

Lemma pc_16 : 16 <= p_lower m.
Proof. rewrite (wf_lower _ Hwf). pose proof (wf_num _ Hwf). lia. Qed.

Lemma pc_lower : p_lower m' = p_lower m.
Proof. pose proof pc_16. apply pc_header; lia. Qed.

Lemma pc_upper : p_upper m' = p_upper m.
Proof. pose proof pc_16. apply pc_header; lia. Qed.

Lemma pc_num : p_num m' = p_num m.
Proof. unfold p_num. by rewrite pc_lower. Qed.

Lemma pc_ptr (j : Z) : 0 <= j < p_num m -> p_ptr m' j = p_ptr m j.
Proof. intros Hj. pose proof (wf_ptr_in m Hwf j Hj). apply pc_header; lia. Qed.

(** A part of node [j] without the changed page number. *)
Lemma pc_slice (j o n : Z) : 0 <= j < p_num m -> 0 <= o -> 0 <= n -> o + n <= n_size m (p_ptr m j) ->
  k <> Some j \/ 6 <= o -> slice m' (p_ptr m j + o) n = slice m (p_ptr m j + o) n.
Proof.
  intros Hj Ho Hn Hs Hne. destruct (wf_in _ Hwf j Hj) as [Hlo Hhi]. pose proof (wf_upper _ Hwf). pose proof pc_16.
  apply slice_ext; try lia; [rewrite (pc_len _ _ _ Hc); lia|]. intros x Hx. apply Hc; [lia|].
  destruct k as [i|] eqn:E; cbn [pgno_place]; [|tauto]. destruct (Hk i eq_refl) as [_ Hi].
  destruct (decide (i = j)) as [->|Hij]; [destruct Hne; [done|lia]|].
  pose proof (n_size_pos m Hwf (p_ptr m i)). pose proof (wf_disj _ Hwf i j Hi Hj Hij). lia.
Qed.

Lemma pc_g16 (j o : Z) : 0 <= j < p_num m -> 0 <= o -> o + 2 <= n_size m (p_ptr m j) ->
  k <> Some j \/ 6 <= o -> g16 m' (p_ptr m j + o) = g16 m (p_ptr m j + o).
Proof. intros. unfold g16. by rewrite pc_slice. Qed.

Lemma pc_size (j : Z) : 0 <= j < p_num m -> n_size m' (p_ptr m j) = n_size m (p_ptr m j).
Proof.
  intros Hj. pose proof (n_size_pos m Hwf (p_ptr m j)) as H8. destruct (wf_in _ Hwf j Hj) as [Hlo Hhi].
  pose proof (wf_upper _ Hwf). pose proof pc_16. unfold n_size, hdr_size. rewrite (pc_leaf _ _ _ Hc).
  assert (forall o, 0 <= o -> o + 2 <= 8 -> k <> Some j \/ 6 <= o -> g16 (slice m' (p_ptr m j) 8) o = g16 (slice m (p_ptr m j) 8) o) as Hg.
  { intros o Ho Ho' Hne. unfold g16. rewrite !slice_slice by (rewrite ?(pc_len _ _ _ Hc); lia). f_equal. apply pc_slice; auto; lia. }
  rewrite (Hg 6) by (lia || (right; lia)). destruct (p_leaf m) eqn:El; [|done].
  assert (k = None) as Ek. { destruct k as [i|] eqn:E; [|done]. by destruct (Hk i eq_refl) as [? _]. }
  rewrite (Hg 4), (Hg 0), (Hg 2) by (lia || (left; by rewrite Ek)). done.
Qed.

Lemma pc_wf : page_wf m'.
Proof.
  pose proof (pc_len _ _ _ Hc) as Hlen. pose proof pc_lower as El. pose proof pc_upper as Eu. pose proof pc_num as En.
  split; rewrite ?Hlen, ?El, ?Eu, ?En; try apply Hwf.
  - apply Hc.
  - rewrite (pc_leaf2 _ _ _ Hc). apply Hwf.
  - intros j Hj. rewrite pc_ptr, pc_size by done. by apply Hwf.
  - intros j j' Hj Hj' Hne. rewrite !pc_ptr, !pc_size by done. by apply Hwf.
  - rewrite <- (wf_full _ Hwf). f_equal. unfold p_nodes. rewrite En, <- !list_fmap_compose. apply list_fmap_ext.
    intros i j [-> Hj]%lookup_seqZ. unfold compose, n_image. rewrite pc_ptr, pc_size by lia.
    destruct (wf_in _ Hwf (0 + Z.of_nat i) ltac:(lia)). pose proof (n_size_pos m Hwf (p_ptr m (0 + Z.of_nat i))).
    pose proof (wf_upper _ Hwf). pose proof pc_16. rewrite !zlen_slice by lia. done.
Qed.
End Copy.

Lemma page_copy_trans (m1 m2 m3 : list Z) : page_wf m1 -> page_copy None m1 m2 -> page_copy None m2 m3 -> page_copy None m1 m3.
Proof.
  intros Hwf H1 H2. pose proof (pc_lower None m1 m2 Hwf ltac:(done) H1) as El. pose proof (pc_upper None m1 m2 Hwf ltac:(done) H1) as Eu.
  destruct H1 as [A1 A2 A3 A4 A5 A6], H2 as [B1 B2 B3 B4 B5 B6]. split; try congruence. intros x Hx Hn.
  rewrite El, Eu, A1 in B6. rewrite B6 by done. by apply A6.
Qed.

(** The fields of a node. *)
Section Fields.
Variables (k : option Z) (m m' : list Z).
Hypothesis Hwf : page_wf m.
Hypothesis Hk : forall i, k = Some i -> p_leaf m = false /\ 0 <= i < p_num m.
Hypothesis Hc : page_copy k m m'.

Lemma pc_key (j : Z) : 0 <= j < p_num m -> n_key m' j = n_key m j.
Proof.
  intros Hj. pose proof (n_size_pos m Hwf (p_ptr m j)). destruct (n_key_in m j Hwf Hj) as (Hp & Hh & Hks).
  unfold n_key. rewrite (pc_ptr k m m' Hwf Hk Hc j Hj).
  rewrite (pc_g16 k m m' Hwf Hk Hc j 6) by (lia || (right; lia)). f_equal.
  apply (pc_slice k m m' Hwf Hk Hc j); [done|lia|lia| |right; lia].
  unfold n_size, hdr_size. destruct (wf_in _ Hwf j Hj). rewrite (g16_slice m) by (pose proof (wf_upper _ Hwf); lia).
  match goal with |- _ <= EVEN ?x => pose proof (EVEN_bounds x) end.
  pose proof (wf_bytes _ Hwf) as Hb. assert (forall o, 0 <= g16 (slice m (p_ptr m j) 8) o) as Hg.
  { intros o. unfold g16. by apply le_val_range, slice_bytes, slice_bytes. }
  pose proof (Hg 0). pose proof (Hg 2). destruct (p_leaf m); [destruct (F_ISSET _ _)|]; lia.
Qed.

Lemma pc_pgno (j : Z) : 0 <= j < p_num m -> k <> Some j -> n_pgno m' j = n_pgno m j.
Proof.
  intros Hj Hne. pose proof (n_size_pos m Hwf (p_ptr m j)). unfold n_pgno, n_lohi, n_flags.
  rewrite (pc_ptr k m m' Hwf Hk Hc j Hj).
  pose proof (pc_g16 k m m' Hwf Hk Hc j 0 Hj ltac:(lia) ltac:(lia) ltac:(by left)) as E0. rewrite Z.add_0_r in E0.
  by rewrite E0, !(pc_g16 k m m' Hwf Hk Hc j) by (lia || by left).
Qed.
End Fields.

(** The data of a leaf node, and where its overflow page is. *)
Definition n_ovpage (m : list Z) (k : Z) : Z := le_val (slice m (n_dofs m k) 8).

Section Leaf.
Variables (m m' : list Z).
Hypothesis Hwf : page_wf m.
Hypothesis Hl : p_leaf m = true.
Hypothesis Hc : page_copy None m m'.
Let Hk : forall i, None = Some i -> p_leaf m = false /\ 0 <= i < p_num m.
Proof. done. Qed.

Lemma pc_leaf_fields (j : Z) : 0 <= j < p_num m ->
  n_lohi m' j = n_lohi m j /\ n_flags m' j = n_flags m j /\ n_dofs m' j = n_dofs m j.
Proof.
  intros Hj. pose proof (n_size_pos m Hwf (p_ptr m j)). unfold n_lohi, n_flags, n_dofs. rewrite (pc_ptr _ m m' Hwf Hk Hc j Hj).
  pose proof (pc_g16 None m m' Hwf Hk Hc j 0 Hj ltac:(lia) ltac:(lia) ltac:(by left)) as E0. rewrite Z.add_0_r in E0.
  by rewrite E0, !(pc_g16 None m m' Hwf Hk Hc j) by (lia || by left).
Qed.

Lemma pc_payload (j n : Z) : 0 <= j < p_num m -> 0 <= n <= (if F_ISSET (n_flags m j) F_BIGDATA then 8 else n_lohi m j) ->
  slice m' (n_dofs m j) n = slice m (n_dofs m j) n.
Proof.
  intros Hj [Hn0 Hn]. pose proof (n_size_pos m Hwf (p_ptr m j)). destruct (wf_in _ Hwf j Hj) as [Hlo Hhi].
  pose proof (wf_upper _ Hwf). pose proof (wf_lower _ Hwf). pose proof (wf_num _ Hwf). pose proof (wf_bytes _ Hwf) as Hb. unfold n_dofs. rewrite <- Z.add_assoc.
  pose proof (g16_range m (p_ptr m j + 6) Hb).
  apply (pc_slice None m m' Hwf Hk Hc j); [done|lia|lia| |by left].
  unfold n_size, hdr_size. rewrite Hl, !(g16_slice m), Z.add_0_r by lia. unfold n_flags, n_lohi in Hn.
  match goal with |- _ <= EVEN ?x => pose proof (EVEN_bounds x) end.
  destruct (F_ISSET (g16 m (p_ptr m j + 4)) F_BIGDATA); lia.
Qed.

Lemma pc_ovpage (j : Z) : 0 <= j < p_num m -> F_ISSET (n_flags m j) F_BIGDATA = true -> n_ovpage m' j = n_ovpage m j.
Proof.
  intros Hj E. unfold n_ovpage. destruct (pc_leaf_fields j Hj) as (_ & _ & ->). by rewrite pc_payload by (rewrite ?E; done || lia).
Qed.
End Leaf.

Lemma eff_cmp_copy (k : option Z) (m m' : list Z) (c : MDB_cmp_func) : page_wf m ->
  (forall i, k = Some i -> p_leaf m = false /\ 0 <= i < p_num m) -> page_copy k m m' ->
  (p_branch m = true -> 1 < p_num m) -> eff_cmp m' c = eff_cmp m c.
Proof.
  intros Hwf Hk Hc Hb. pose proof (pc_wf k m m' Hwf Hk Hc) as Hwf'. unfold eff_cmp.
  rewrite !IS_BRANCH_ok, (pc_branch _ _ _ Hc) by done. cbn [mbind option_bind].
  destruct (is_cint c && p_branch m) eqn:E; [|done]. apply andb_prop in E as [_ E]. specialize (Hb E).
  pose proof (pc_num k m m' Hwf Hk Hc) as En. rewrite !mp_ptr_ok by (done || lia). cbn [mbind option_bind].
  rewrite (pc_ptr k m m' Hwf Hk Hc) by lia. unfold NODEKSZ.
  destruct (n_key_in m 1 Hwf ltac:(lia)) as (Hp & Hh & Hks). pose proof (n_size_pos m Hwf (p_ptr m 1)).
  rewrite !get16_in by (rewrite ?(pc_len _ _ _ Hc); lia). cbn [mbind option_bind].
  by rewrite (pc_g16 k m m' Hwf Hk Hc 1 6) by (lia || (right; lia)).
Qed.

Lemma first_key_copy (k : option Z) (m m' : list Z) : page_copy k m m' -> first_key m' = first_key m.
Proof. intros Hc. unfold first_key. by rewrite (pc_leaf _ _ _ Hc). Qed.

Lemma page_order_copy (md_cmp : MDB_cmp_func) (D : MDB_val -> Prop) (ord : MDB_val -> MDB_val -> Z) (k : option Z) (m m' : list Z) :
  page_wf m -> (forall i, k = Some i -> p_leaf m = false /\ 0 <= i < p_num m) -> page_copy k m m' ->
  (p_branch m = true -> 1 < p_num m) -> page_order md_cmp D ord m -> page_order md_cmp D ord m'.
Proof.
  intros Hwf Hk Hc Hb (c' & KO & He & Ho & Hs1 & Hs2). pose proof (pc_num k m m' Hwf Hk Hc) as En.
  assert (0 <= first_key m) by (unfold first_key; destruct (p_leaf m); lia).
  exists c', KO. split; [by rewrite (eff_cmp_copy k m m')|]. split; [done|].
  split; rewrite (first_key_copy k m m' Hc), En; intros; rewrite !(pc_key k m m' Hwf Hk Hc) by lia; auto; apply Hs2; lia.
Qed.

Lemma in_child_copy (D : MDB_val -> Prop) (ord : MDB_val -> MDB_val -> Z) (k : option Z) (m m' : list Z) (j : Z) (x : MDB_val) :
  page_wf m -> (forall i, k = Some i -> p_leaf m = false /\ 0 <= i < p_num m) -> page_copy k m m' ->
  0 <= j < p_num m -> in_child D ord m j x -> in_child D ord m' j x.
Proof.
  intros Hwf Hk Hc Hj (Hd & H1 & H2). pose proof (pc_num k m m' Hwf Hk Hc) as En. split_and!; [done|..].
  - intros. rewrite (pc_key k m m' Hwf Hk Hc) by lia. auto.
  - rewrite En. intros. rewrite (pc_key k m m' Hwf Hk Hc) by lia. auto.
Qed.

(** ** The page numbers a tree uses *)

(** The run of overflow pages of leaf node [k]. *)
Definition ov_pages (me_psize : Z) (m : list Z) (k : Z) : list Z :=
  if F_ISSET (n_flags m k) F_BIGDATA then seqZ (n_ovpage m k) (OVPAGES (n_lohi m k) me_psize) else [].

(** The pages below page [m], at height [h]; those of the subtree of page
    number [p].  [leafp] says which pages belong to a leaf. *)
Fixpoint gen_pages (leafp : list Z -> list Z) (get : Z -> option (list Z)) (h : nat) (m : list Z) : list Z :=
  match h with
  | O => leafp m
  | S h => concat ((fun k => n_pgno m k :: match get (n_pgno m k) with Some c => gen_pages leafp get h c | None => [] end)
                   <$> seqZ 0 (p_num m))
  end.

Definition sub_pages (leafp : list Z -> list Z) (get : Z -> option (list Z)) (h : nat) (p : Z) : list Z :=
  p :: match get p with Some c => gen_pages leafp get h c | None => [] end.

(** All the pages; the pages with nodes. *)
Definition leaf_pages (me_psize : Z) (m : list Z) : list Z := concat (ov_pages me_psize m <$> seqZ 0 (p_num m)).
Definition tree_pages (me_psize : Z) := gen_pages (leaf_pages me_psize).
Definition node_pages := gen_pages (fun _ => []).

(** What belongs to a leaf belongs to its copies. *)
Definition leafp_copies (leafp : list Z -> list Z) : Prop := forall m m',
  page_wf m -> p_leaf m = true -> page_copy None m m' -> leafp m' = leafp m.

Lemma elem_of_concat_seqZ {A} (f : Z -> list A) (n : Z) (x : A) :
  x ∈ concat (f <$> seqZ 0 n) <-> exists k, 0 <= k < n /\ x ∈ f k.
Proof.
  rewrite list_elem_of_In, in_concat. setoid_rewrite <- list_elem_of_In. split.
  - intros (l & (k & -> & Hk)%list_elem_of_fmap & Hx). apply elem_of_seqZ in Hk. exists k. split; [lia|done].
  - intros (k & Hk & Hx). exists (f k). split; [|done]. apply list_elem_of_fmap. exists k. split; [done|].
    apply elem_of_seqZ. lia.
Qed.

Lemma concat_seqZ_ext {A} (f g : Z -> list A) (n : Z) : (forall k, 0 <= k < n -> f k = g k) ->
  concat (f <$> seqZ 0 n) = concat (g <$> seqZ 0 n).
Proof. intros H. f_equal. apply list_fmap_ext. intros i x [-> Hx]%lookup_seqZ. apply H. lia. Qed.

Section Frame.
Context (md_cmp : MDB_cmp_func) (D : MDB_val -> Prop) (ord : MDB_val -> MDB_val -> Z) (me_psize : Z).
Hypothesis Hps : 0 < me_psize.
Abbreviation items := (list (MDB_val * MDB_val)).
Abbreviation pages := (tree_pages me_psize).

Lemma ov_head (m : list Z) (k : Z) : page_wf m -> 0 <= k < p_num m -> F_ISSET (n_flags m k) F_BIGDATA = true ->
  n_ovpage m k ∈ ov_pages me_psize m k.
Proof.
  intros Hwf Hk E. unfold ov_pages. rewrite E. apply elem_of_seqZ. destruct (NODEDSZ_ok m k Hwf Hk) as [_ H0].
  unfold OVPAGES, PAGEHDRSZ. pose proof (Z.div_pos (16 - 1 + n_lohi m k) me_psize). lia.
Qed.

Lemma leaf_item_frame (get get' : Z -> option (list Z)) (m : list Z) (k : Z) : page_wf m -> 0 <= k < p_num m ->
  (forall p, p ∈ pages get 0 m -> get' p = get p) -> item get' m k = item get m k.
Proof.
  intros Hwf Hk Hg. unfold item, n_data. destruct (F_ISSET (n_flags m k) F_BIGDATA) eqn:E; [|done].
  fold (n_ovpage m k). rewrite Hg; [done|]. apply elem_of_concat_seqZ. exists k. split; [done|]. by apply ov_head.
Qed.

(** A tree depends on its own pages only. *)
Lemma tree_frame (get get' : Z -> option (list Z)) (h : nat) : forall m es,
  tree get md_cmp D ord h m es -> (forall p, p ∈ pages get h m -> get' p = get p) ->
  tree get' md_cmp D ord h m es /\ forall leafp, gen_pages leafp get' h m = gen_pages leafp get h m.
Proof.
  induction h as [|h IH]; intros m es Ht Hg.
  - destruct Ht as (Hwf & Hl & Hb & Ho & Hn & Hi). split; [|done]. split_and!; auto.
    intros k Hk. destruct (Hi k Hk) as [Hd He]. split; [done|]. by rewrite (leaf_item_frame get).
  - destruct Ht as (Hwf & Hl & Hb & Hn & Ho & ess & -> & Hlen & Hch).
    assert (forall k, 0 <= k < p_num m -> exists child esk, aget ess k = Some esk /\ get (n_pgno m k) = Some child /\
      get' (n_pgno m k) = Some child /\ child <> [] /\ esk <> [] /\ tree get' md_cmp D ord h child esk /\
      (forall leafp, gen_pages leafp get' h child = gen_pages leafp get h child) /\ Forall (fun e => in_child D ord m k e.1) esk) as Hch'.
    { intros k Hk. destruct (Hch k Hk) as (child & esk & Ha & Hget & H1 & H2 & Ht & Hall).
      assert (forall p, p ∈ n_pgno m k :: pages get h child -> p ∈ pages get (S h) m) as Hin.
      { intros p Hp. apply elem_of_concat_seqZ. exists k. split; [done|]. by rewrite Hget. }
      destruct (IH child esk Ht) as [Ht' Hp']; [intros p Hp; apply Hg, Hin; by right|].
      exists child, esk. split_and!; auto. rewrite Hg; [done|]. apply Hin. by left. }
    split.
    + split_and!; auto. exists ess. split_and!; auto. intros k Hk.
      destruct (Hch' k Hk) as (child & esk & Ha & _ & Hget & H1 & H2 & Ht & _ & Hall). exists child, esk. auto 10.
    + intros leafp. cbn [gen_pages]. apply concat_seqZ_ext. intros k Hk.
      destruct (Hch' k Hk) as (child & esk & Ha & Hget & Hget' & H1 & H2 & Ht & Hp & Hall). by rewrite Hget, Hget', Hp.
Qed.

Lemma leaf_pages_copies : leafp_copies (leaf_pages me_psize).
Proof.
  intros m m' Hwf Hl Hc. assert (forall i : Z, None = Some i -> p_leaf m = false /\ 0 <= i < p_num m) as Hk by done.
  unfold leaf_pages. rewrite (pc_num _ _ _ Hwf Hk Hc). apply concat_seqZ_ext. intros k Hk'. unfold ov_pages.
  destruct (pc_leaf_fields m m' Hwf Hc k Hk') as (E1 & E2 & E3). rewrite E1, E2.
  destruct (F_ISSET (n_flags m k) F_BIGDATA) eqn:E; [|done]. by rewrite (pc_ovpage m m' Hwf Hl Hc).
Qed.

Lemma no_pages_copies : leafp_copies (fun _ => []).
Proof. done. Qed.

(** A copy of its root has the items and the pages of a tree. *)
Lemma tree_copy (get : Z -> option (list Z)) (h : nat) (m m' : list Z) (es : items) :
  tree get md_cmp D ord h m es -> page_copy None m m' ->
  tree get md_cmp D ord h m' es /\ forall leafp, leafp_copies leafp -> gen_pages leafp get h m' = gen_pages leafp get h m.
Proof.
  intros Ht Hc. assert (page_wf m) as Hwf by (destruct h; apply Ht).
  assert (forall i : Z, None = Some i -> p_leaf m = false /\ 0 <= i < p_num m) as Hk by done.
  pose proof (pc_wf _ _ _ Hwf Hk Hc) as Hwf'. pose proof (pc_num _ _ _ Hwf Hk Hc) as En.
  destruct h as [|h].
  - destruct Ht as (_ & Hl & Hb & Ho & Hn & Hi). split; [split_and!|].
    + done.
    + by rewrite (pc_leaf _ _ _ Hc).
    + by rewrite (pc_branch _ _ _ Hc).
    + apply (page_order_copy _ _ _ None m); auto. by rewrite Hb.
    + by rewrite En.
    + rewrite En. intros k Hk'. destruct (pc_leaf_fields m m' Hwf Hc k Hk') as (E1 & E2 & E3).
      destruct (Hi k Hk') as [Hd He]. rewrite E2. split; [done|]. rewrite <- He. unfold item, n_data.
      rewrite E1, E2, E3, (pc_key _ _ _ Hwf Hk Hc) by done. destruct (NODEDSZ_ok m k Hwf Hk') as [_ H0].
      destruct (F_ISSET (n_flags m k) F_BIGDATA) eqn:E; rewrite (pc_payload m m' Hwf Hl Hc) by (rewrite ?E; done || lia); done.
    + intros leafp Hlp. by apply Hlp.
  - destruct Ht as (_ & Hl & Hb & Hn & Ho & ess & -> & Hlen & Hch). split; [split_and!|].
    + done.
    + by rewrite (pc_leaf _ _ _ Hc).
    + by rewrite (pc_branch _ _ _ Hc).
    + lia.
    + by apply (page_order_copy _ _ _ None m).
    + exists ess. split; [done|]. split; [lia|]. rewrite En. intros k Hk'.
      rewrite (pc_pgno _ _ _ Hwf Hk Hc) by done. destruct (Hch k Hk') as (child & esk & Ha & Hget & H1 & H2 & Ht & Hall).
      exists child, esk. split_and!; auto. apply (Forall_impl _ _ _ Hall). intros e. by apply (in_child_copy _ _ None).
    + intros leafp Hlp. cbn [gen_pages]. rewrite En. apply concat_seqZ_ext. intros k Hk'. by rewrite (pc_pgno _ _ _ Hwf Hk Hc).
Qed.
End Frame.

(** ** A tree around a page *)

(** A level of a path: the number of a branch page, the page, the index of
    the child the path goes to. *)
Record frame := Frame { fr_pgno : Z; fr_page : list Z; fr_ki : Z }.

Section Hole.
Context (md_cmp : MDB_cmp_func) (D : MDB_val -> Prop) (ord : MDB_val -> MDB_val -> Z) (me_psize : Z).
Hypothesis Hps : 0 < me_psize.
Abbreviation items := (list (MDB_val * MDB_val)).
Abbreviation tree get := (tree get md_cmp D ord).

(** What is right of a branch page and its children, all but child [k]. *)
Record branch_sides (get : Z -> option (list Z)) (h : nat) (m : list Z) (k : Z) (ls rs : list items) : Prop := {
  bs_wf : page_wf m;
  bs_leaf : p_leaf m = false;
  bs_branch : p_branch m = true;
  bs_num : 1 < p_num m;
  bs_order : page_order md_cmp D ord m;
  bs_left : zlen ls = k;
  bs_right : zlen rs = p_num m - k - 1;
  bs_child j : 0 <= j < p_num m -> j <> k -> exists child esj, aget (ls ++ [] :: rs) j = Some esj /\
    get (n_pgno m j) = Some child /\ child <> [] /\ esj <> [] /\ tree get h child esj /\
    Forall (fun e => in_child D ord m j e.1) esj
}.

(** The pages of the other children. *)
Definition side_pages (leafp : list Z -> list Z) (get : Z -> option (list Z)) (h : nat) (m : list Z) (k : Z) : list Z :=
  concat ((fun j => if j =? k then [] else sub_pages leafp get h (n_pgno m j)) <$> seqZ 0 (p_num m)).

Lemma aget_sides {A} (ls rs : list A) (x y : A) (j : Z) : j <> zlen ls ->
  aget (ls ++ x :: rs) j = aget (ls ++ y :: rs) j.
Proof.
  intros Hj. unfold aget. destruct (0 <=? j) eqn:E; [|done]. apply Z.leb_le in E. unfold zlen in Hj.
  destruct (decide (Z.to_nat j < length ls)%nat).
  - by rewrite !lookup_app_l by lia.
  - rewrite !lookup_app_r by lia. destruct (Z.to_nat j - length ls)%nat as [|i] eqn:Ei; [lia|done].
Qed.

Lemma aget_mid {A} (ls rs : list A) (x : A) : aget (ls ++ x :: rs) (zlen ls) = Some x.
Proof. unfold aget, zlen. rewrite (proj2 (Z.leb_le 0 _)) by lia. rewrite Nat2Z.id. by apply list_lookup_middle. Qed.

(** A child in its place. *)
Lemma branch_join (get : Z -> option (list Z)) (h : nat) (m child : list Z) (k : Z) (ls rs : list items) (es : items) :
  branch_sides get h m k ls rs -> get (n_pgno m k) = Some child -> child <> [] -> es <> [] -> tree get h child es ->
  Forall (fun e => in_child D ord m k e.1) es -> branch_node get md_cmp D ord h m (ls ++ es :: rs).
Proof.
  intros [Hwf Hl Hb Hn Ho H1 H2 Hch] Hget Hnil Hne Ht Hall. split; auto.
  - rewrite zlen_app, zlen_cons. lia.
  - intros j Hj. destruct (decide (j = k)) as [->|Hjk].
    + exists child, es. rewrite <- H1 at 1. by rewrite aget_mid.
    + destruct (Hch j Hj Hjk) as (c & e & Ha & Hr). exists c, e. split; [|done].
      rewrite <- Ha. apply aget_sides. congruence.
Qed.

Lemma branch_node_tree (get : Z -> option (list Z)) (h : nat) (m : list Z) (ess : list items) :
  branch_node get md_cmp D ord h m ess -> tree get (S h) m (concat ess).
Proof. intros []. split_and!; auto. exists ess. auto. Qed.

Lemma branch_split (get : Z -> option (list Z)) (h : nat) (m : list Z) (ess : list items) (k : Z) (es : items) :
  branch_node get md_cmp D ord h m ess -> aget ess k = Some es ->
  branch_sides get h m k (take (Z.to_nat k) ess) (drop (Z.to_nat (k + 1)) ess) /\ 0 <= k < p_num m /\
  exists child, get (n_pgno m k) = Some child /\ child <> [] /\ es <> [] /\ tree get h child es /\
    Forall (fun e => in_child D ord m k e.1) es.
Proof.
  intros [Hwf Hl Hb Hn Ho Hlen Hch] Ha. pose proof (aget_lt _ _ _ Ha) as Hk. rewrite Hlen in Hk.
  assert (zlen (take (Z.to_nat k) ess) = k) as Hlt by (rewrite zlen_take; lia).
  assert (ess = take (Z.to_nat k) ess ++ es :: drop (Z.to_nat (k + 1)) ess) as Hess.
  { unfold aget in Ha. rewrite (proj2 (Z.leb_le 0 k)) in Ha by lia. replace (Z.to_nat (k + 1)) with (S (Z.to_nat k)) by lia.
    by rewrite take_drop_middle. }
  split; [|split; [done|]].
  - split; auto; [rewrite zlen_drop; lia|]. intros j Hj Hjk. destruct (Hch j Hj) as (c & e & Hae & Hr).
    exists c, e. split; [|done]. rewrite <- Hae. rewrite Hess at 3. apply aget_sides. congruence.
  - destruct (Hch k Hk) as (c & e & Hae & Hr). assert (e = es) as -> by congruence. by exists c.
Qed.

Lemma pages_split (leafp : list Z -> list Z) (get : Z -> option (list Z)) (h : nat) (m : list Z) (k : Z) : 0 <= k < p_num m ->
  Permutation (gen_pages leafp get (S h) m) (side_pages leafp get h m k ++ sub_pages leafp get h (n_pgno m k)).
Proof.
  intros Hk. cbn [gen_pages]. unfold side_pages. fold (sub_pages leafp get h).
  replace (p_num m) with (k + (1 + (p_num m - k - 1))) by lia. rewrite (seqZ_app 0 k) by lia. rewrite (seqZ_app (0 + k) 1) by lia.
  rewrite !fmap_app, !concat_app. change (seqZ (0 + k) 1) with [0 + k]. rewrite Z.add_0_l. cbn [fmap list_fmap concat].
  rewrite Z.eqb_refl, !app_nil_r. cbn [app].
  assert (forall a n, (forall j, a <= j < a + n -> j <> k) ->
    concat ((fun j => if j =? k then [] else sub_pages leafp get h (n_pgno m j)) <$> seqZ a n) =
    concat ((fun j => n_pgno m j :: match get (n_pgno m j) with Some c => gen_pages leafp get h c | None => [] end) <$> seqZ a n)) as Hs.
  { intros a n Hne. f_equal. apply list_fmap_ext. intros i j [-> Hj]%lookup_seqZ.
    by rewrite (proj2 (Z.eqb_neq _ _)) by (apply Hne; lia). }
  rewrite !Hs by lia. fold (sub_pages leafp get h (n_pgno m k)). rewrite <- app_assoc. f_equiv. by rewrite (Permutation_app_comm _ (sub_pages _ _ _ _)).
Qed.

(** A changed child pointer leaves the other children alone. *)
Lemma sides_move (get get' : Z -> option (list Z)) (h : nat) (m m' : list Z) (k : Z) (ls rs : list items) :
  branch_sides get h m k ls rs -> page_copy (Some k) m m' -> 0 <= k < p_num m ->
  (forall p, p ∈ side_pages (leaf_pages me_psize) get h m k -> get' p = get p) ->
  branch_sides get' h m' k ls rs /\ forall leafp, side_pages leafp get' h m' k = side_pages leafp get h m k.
Proof.
  intros [Hwf Hl Hb Hn Ho H1 H2 Hch] Hc Hk Hg.
  assert (forall i, Some k = Some i -> p_leaf m = false /\ 0 <= i < p_num m) as Hki by (intros i [= <-]; done).
  pose proof (pc_wf _ _ _ Hwf Hki Hc) as Hwf'. pose proof (pc_num _ _ _ Hwf Hki Hc) as En.
  assert (forall j, 0 <= j < p_num m -> j <> k -> n_pgno m' j = n_pgno m j /\ exists child esj,
    aget (ls ++ [] :: rs) j = Some esj /\ get (n_pgno m j) = Some child /\ get' (n_pgno m j) = Some child /\ child <> [] /\
    esj <> [] /\ tree get' h child esj /\ (forall leafp, gen_pages leafp get' h child = gen_pages leafp get h child) /\
    Forall (fun e => in_child D ord m j e.1) esj) as Hch'.
  { intros j Hj Hjk. split; [apply (pc_pgno _ _ _ Hwf Hki Hc); [done|congruence]|].
    destruct (Hch j Hj Hjk) as (c & e & Ha & Hget & Hnil & Hne & Ht & Hall).
    assert (forall p, p ∈ n_pgno m j :: gen_pages (leaf_pages me_psize) get h c -> get' p = get p) as Hin.
    { intros p Hp. apply Hg, elem_of_concat_seqZ. exists j. split; [done|]. rewrite (proj2 (Z.eqb_neq _ _)) by done.
      unfold sub_pages. by rewrite Hget. }
    destruct (tree_frame md_cmp D ord me_psize Hps get get' h c e Ht) as [Ht' Hp']; [intros p Hp; apply Hin; by right|].
    exists c, e. split_and!; auto. rewrite Hin; [done|by left]. }
  split.
  - split; auto.
    + by rewrite (pc_leaf _ _ _ Hc).
    + by rewrite (pc_branch _ _ _ Hc).
    + lia.
    + by apply (page_order_copy _ _ _ (Some k) m).
    + lia.
    + rewrite En. intros j Hj Hjk. destruct (Hch' j Hj Hjk) as (Ep & c & e & Ha & _ & Hget & Hnil & Hne & Ht & _ & Hall).
      exists c, e. rewrite Ep. split_and!; auto. apply (Forall_impl _ _ _ Hall). intros x. by apply (in_child_copy _ _ (Some k)).
  - intros leafp. unfold side_pages. rewrite En. apply concat_seqZ_ext. intros j Hj. destruct (Z.eqb_spec j k); [done|].
    destruct (Hch' j Hj) as (Ep & c & e & Ha & Hget & Hget' & _ & _ & _ & Hp & _); [done|].
    unfold sub_pages. by rewrite Ep, Hget, Hget', Hp.
Qed.

(** ** The tree around a page, level by level *)

(** The keys that belong under a path, its frames from the parent up. *)
Definition in_frames (fs : list frame) (e : MDB_val * MDB_val) : Prop :=
  Forall (fun f => in_child D ord (fr_page f) (fr_ki f) e.1) fs.

(** [fs], the parent first, lead from page number [p] at height [h] to the
    root [r] at height [H]; [lft] and [rgt] are the items on both sides. *)
Fixpoint hole (get : Z -> option (list Z)) (H : nat) (r : Z) (fs : list frame) (h : nat) (p : Z) (lft rgt : items) : Prop :=
  match fs with
  | [] => h = H /\ p = r /\ lft = [] /\ rgt = []
  | f :: fs => exists ls rs lft' rgt', get (fr_pgno f) = Some (fr_page f) /\ fr_page f <> [] /\
      0 <= fr_ki f < p_num (fr_page f) /\ n_pgno (fr_page f) (fr_ki f) = p /\ branch_sides get h (fr_page f) (fr_ki f) ls rs /\
      Forall (in_frames fs) (concat ls) /\ Forall (in_frames fs) (concat rs) /\
      lft = lft' ++ concat ls /\ rgt = concat rs ++ rgt' /\ hole get H r fs (S h) (fr_pgno f) lft' rgt'
  end.

(** The numbers of its pages, and the pages on both sides of it. *)
Definition numbers (fs : list frame) : list Z := fr_pgno <$> fs.
Fixpoint sides (leafp : list Z -> list Z) (get : Z -> option (list Z)) (fs : list frame) (h : nat) : list Z :=
  match fs with
  | [] => []
  | f :: fs => side_pages leafp get h (fr_page f) (fr_ki f) ++ sides leafp get fs (S h)
  end.

(** A tree in the hole makes a tree. *)
Lemma hole_plug (get : Z -> option (list Z)) (H : nat) (r : Z) (fs : list frame) : forall h p m lft cur rgt,
  hole get H r fs h p lft rgt -> get p = Some m -> m <> [] -> tree get h m cur -> cur <> [] -> Forall (in_frames fs) cur ->
  exists root, get r = Some root /\ root <> [] /\ tree get H root (lft ++ cur ++ rgt) /\
    forall leafp, Permutation (sub_pages leafp get H r) (numbers fs ++ sides leafp get fs h ++ sub_pages leafp get h p).
Proof.
  induction fs as [|f fs IH]; intros h p m lft cur rgt Hh Hget Hnil Ht Hne Hall.
  - destruct Hh as (-> & -> & -> & ->). exists m. cbn [app]. rewrite app_nil_r. by split_and!.
  - destruct Hh as (ls & rs & lft' & rgt' & Hg & Hn & Hki & Hp & Hbs & Hls & Hrs & -> & -> & Hh).
    rewrite <- Hp in Hget. pose proof (branch_join get h _ m _ ls rs cur Hbs Hget Hnil Hne Ht) as Hbn.
    assert (Forall (fun e => in_child D ord (fr_page f) (fr_ki f) e.1) cur) as Hc.
    { apply (Forall_impl _ _ _ Hall). intros e He. by inversion He. }
    specialize (Hbn Hc). apply branch_node_tree in Hbn.
    destruct (IH (S h) (fr_pgno f) (fr_page f) lft' (concat (ls ++ cur :: rs)) rgt' Hh Hg Hn Hbn) as (root & Hr & Hrn & Htr & Hpg).
    + rewrite concat_app. cbn [concat]. intros [_ [E _]%app_nil]%app_nil. done.
    + rewrite concat_app. cbn [concat]. rewrite !Forall_app. split_and!; auto. apply (Forall_impl _ _ _ Hall).
      intros e He. by inversion He.
    + exists root. split_and!; auto.
      * rewrite concat_app in Htr. cbn [concat] in Htr. rewrite <- !app_assoc in Htr. by rewrite <- !app_assoc.
      * intros leafp. rewrite Hpg. cbn [numbers fmap list_fmap sides]. fold (numbers fs).
        unfold sub_pages at 1. rewrite Hg, (pages_split leafp get h _ _ Hki), Hp. solve_Permutation.
Qed.

(** ** Moving the pages of a path *)

(** From [fs] to [fs']: the pages are copies, each with the new number of the
    child; the other pages stay. *)
Fixpoint moved (get get' : Z -> option (list Z)) (r' : Z) (fs fs' : list frame) (h : nat) (p' : Z) : Prop :=
  match fs, fs' with
  | [], [] => p' = r'
  | f :: fs, f' :: fs' => fr_ki f' = fr_ki f /\ page_copy (Some (fr_ki f)) (fr_page f) (fr_page f') /\ fr_page f' <> [] /\
      n_pgno (fr_page f') (fr_ki f) = p' /\ get' (fr_pgno f') = Some (fr_page f') /\
      (forall x, x ∈ side_pages (leaf_pages me_psize) get h (fr_page f) (fr_ki f) -> get' x = get x) /\
      moved get get' r' fs fs' (S h) (fr_pgno f')
  | _, _ => False
  end.

Lemma moved_bounds (get get' : Z -> option (list Z)) (H : nat) (r r' : Z) (fs : list frame) : forall fs' h p p' lft rgt e,
  hole get H r fs h p lft rgt -> moved get get' r' fs fs' h p' -> in_frames fs e -> in_frames fs' e.
Proof.
  induction fs as [|f fs IH]; intros [|f' fs'] h p p' lft rgt e Hh Hm He; try done.
  destruct Hh as (ls & rs & lft' & rgt' & Hg & Hn & Hki & Hp & Hbs & Hls & Hrs & -> & -> & Hh).
  destruct Hm as (Ek & Hc & _ & _ & _ & _ & Hm). inversion He as [|? ? H1 H2]; subst. constructor; [|by eapply IH].
  rewrite Ek. apply (in_child_copy _ _ (Some (fr_ki f)) (fr_page f)); auto; [apply Hbs|].
  intros i [= <-]. split; [apply Hbs|done].
Qed.

Lemma hole_move (get get' : Z -> option (list Z)) (H : nat) (r r' : Z) (fs : list frame) : forall fs' h p p' lft rgt,
  hole get H r fs h p lft rgt -> moved get get' r' fs fs' h p' ->
  hole get' H r' fs' h p' lft rgt /\ length fs' = length fs /\
  forall leafp, sides leafp get' fs' h = sides leafp get fs h.
Proof.
  induction fs as [|f fs IH]; intros [|f' fs'] h p p' lft rgt Hh Hm; try done.
  - destruct Hh as (-> & -> & -> & ->). by split_and!.
  - destruct Hh as (ls & rs & lft' & rgt' & Hg & Hn & Hki & Hp & Hbs & Hls & Hrs & -> & -> & Hh).
    pose proof Hm as (Ek & Hc & Hn' & Hp' & Hg' & Hs & Hm').
    destruct (IH fs' _ _ _ _ _ Hh Hm') as (Hh' & Hlen & Hsd).
    destruct (sides_move get get' h _ _ _ ls rs Hbs Hc Hki Hs) as [Hbs' Hsp].
    assert (p_num (fr_page f') = p_num (fr_page f)) as En.
    { apply (pc_num (Some (fr_ki f))); auto; [apply Hbs|]. intros i [= <-]. split; [apply Hbs|done]. }
    split; [|split; [cbn; lia|intros leafp; cbn [sides]; by rewrite Ek, Hsp, Hsd]].
    exists ls, rs, lft', rgt'. rewrite Ek, En. split_and!; auto; [lia|lia|..].
    + apply (Forall_impl _ _ _ Hls). intros e. by apply (moved_bounds get get' H r r' _ _ _ _ _ _ _ _ Hh Hm').
    + apply (Forall_impl _ _ _ Hrs). intros e. by apply (moved_bounds get get' H r r' _ _ _ _ _ _ _ _ Hh Hm').
Qed.

(** Nothing moves. *)
Lemma moved_same (get get' : Z -> option (list Z)) (H : nat) (r : Z) (fs : list frame) : forall h p lft rgt,
  hole get H r fs h p lft rgt ->
  (forall x, x ∈ numbers fs \/ x ∈ sides (leaf_pages me_psize) get fs h -> get' x = get x) ->
  moved get get' r fs fs h p.
Proof.
  induction fs as [|f fs IH]; intros h p lft rgt Hh Hg; [by destruct Hh as (_ & -> & _)|].
  destruct Hh as (ls & rs & lft' & rgt' & Hf & Hn & Hki & Hp & Hbs & Hls & Hrs & -> & -> & Hh). split_and!; auto.
  - split; done || apply Hbs.
  - rewrite Hg; [done|left; by left].
  - intros x Hx. apply Hg. right. cbn [sides]. apply elem_of_app. by left.
  - apply (IH _ _ _ _ Hh). intros x [Hx|Hx]; apply Hg; [left; by right|right]. cbn [sides]. apply elem_of_app. by right.
Qed.

(** The page under the path has a new number: its parent, if there is one,
    points to it. *)
Definition repoint (m' : list Z) (fs : list frame) : list frame :=
  match fs with [] => [] | g :: fs => Frame (fr_pgno g) m' (fr_ki g) :: fs end.
Definition new_root (r q : Z) (fs : list frame) : Z := match fs with [] => q | _ => r end.
Definition repointed (get' : Z -> option (list Z)) (m' : list Z) (q : Z) (fs : list frame) : Prop :=
  match fs with
  | [] => True
  | g :: _ => page_copy (Some (fr_ki g)) (fr_page g) m' /\ m' <> [] /\ n_pgno m' (fr_ki g) = q /\ get' (fr_pgno g) = Some m'
  end.

Lemma moved_repoint (get get' : Z -> option (list Z)) (H : nat) (r : Z) (m' : list Z) (q : Z) (fs : list frame) (h : nat)
    (p : Z) (lft rgt : items) :
  hole get H r fs h p lft rgt -> repointed get' m' q fs ->
  (forall x, x ∈ numbers (drop 1 fs) \/ x ∈ sides (leaf_pages me_psize) get fs h -> get' x = get x) ->
  moved get get' (new_root r q fs) fs (repoint m' fs) h q.
Proof.
  destruct fs as [|f fs]; intros Hh Hr Hg; [done|].
  destruct Hh as (ls & rs & lft' & rgt' & Hf & Hn & Hki & Hp & Hbs & Hls & Hrs & -> & -> & Hh).
  destruct Hr as (Hc & Hn' & Hq & Hg'). cbn [moved repoint new_root fr_pgno fr_page fr_ki]. split_and!; auto.
  - intros x Hx. apply Hg. right. cbn [sides]. apply elem_of_app. by left.
  - apply (moved_same get get' H r fs _ _ _ _ Hh). intros x [Hx|Hx]; apply Hg; [by left|right].
    cbn [sides]. apply elem_of_app. by right.
Qed.

(** A page of the path has a new number. *)
Lemma moved_at (get get' : Z -> option (list Z)) (H : nat) (r : Z) (m' pg : list Z) (q : Z) (f : frame) (fs : list frame)
    (low : list frame) : forall (h : nat) (p : Z) (lft rgt : items),
  hole get H r (low ++ f :: fs) h p lft rgt -> repointed get' m' q fs ->
  page_copy None (fr_page f) pg -> pg <> [] -> get' q = Some pg ->
  (forall x, x ∈ numbers low \/ x ∈ numbers (drop 1 fs) \/ x ∈ sides (leaf_pages me_psize) get (low ++ f :: fs) h -> get' x = get x) ->
  moved get get' (new_root r q fs) (low ++ f :: fs) (low ++ Frame q pg (fr_ki f) :: repoint m' fs) h p.
Proof.
  induction low as [|f0 low IH]; intros h p lft rgt Hh Hr Hc Hn' Hq Hg.
  - cbn [app] in *. destruct Hh as (ls & rs & lft' & rgt' & Hf & Hn & Hki & Hp & Hbs & Hls & Hrs & -> & -> & Hh).
    cbn [moved fr_pgno fr_page fr_ki]. split_and!; auto.
    + split; apply Hc || (intros; by apply Hc; [|intros []]).
    + rewrite <- Hp. apply (pc_pgno None (fr_page f)); auto; [apply Hbs|done].
    + intros x Hx. apply Hg. right; right. cbn [sides]. apply elem_of_app. by left.
    + apply (moved_repoint get get' H r m' q fs _ _ _ _ Hh Hr). intros x [Hx|Hx]; apply Hg; right; [by left|right].
      cbn [sides]. apply elem_of_app. by right.
  - cbn [app] in *. destruct Hh as (ls & rs & lft' & rgt' & Hf & Hn & Hki & Hp & Hbs & Hls & Hrs & -> & -> & Hh).
    cbn [moved]. split_and!; auto.
    + split; done || apply Hbs.
    + rewrite Hg; [done|left; by left].
    + intros x Hx. apply Hg. right; right. cbn [sides]. apply elem_of_app. by left.
    + apply (IH _ _ _ _ Hh Hr); auto. intros x [Hx|[Hx|Hx]]; apply Hg; [left; by right|by right; left|right; right].
      cbn [sides]. apply elem_of_app. by right.
Qed.
End Hole.

(** ** Paths of cursors *)

(** The frames are the lower part of the cursor's stack. *)
Fixpoint on_stack (c : cursor) (fs : list frame) : Prop :=
  match fs with
  | [] => True
  | f :: fs => aget (mc_pg c) (zlen fs) = Some (fr_page f) /\ aget (mc_ki c) (zlen fs) = Some (fr_ki f) /\ on_stack c fs
  end.

Section Stack.
Context (md_cmp : MDB_cmp_func) (D : MDB_val -> Prop) (ord : MDB_val -> MDB_val -> Z).
Variables (get : Z -> option (list Z)) (H : nat) (r : Z) (root : list Z) (c : cursor).
Abbreviation items := (list (MDB_val * MDB_val)).
Abbreviation hole := (hole md_cmp D ord).
Abbreviation in_frames := (in_frames D ord).
Abbreviation path := (path get md_cmp D ord root H).
Hypothesis Hroot : get r = Some root.

Lemma path_hole (es0 : items) (l : nat) : forall h top lft cur rgt, path es0 l c h top lft cur rgt ->
  exists fs p, length fs = l /\ on_stack c fs /\ hole get H r fs h p lft rgt /\ get p = Some top /\ Forall (in_frames fs) cur.
Proof.
  induction l as [|l IH]; intros h top lft cur rgt Hp.
  - destruct Hp as (-> & -> & -> & -> & _ & ->). exists [], r. split_and!; try done. apply Forall_forall. intros e _. constructor.
  - destruct Hp as (m & ki & ess & lft' & rgt' & Hm & Hnil & Hk & Hb & Hc & -> & -> & Hgt & Hp).
    destruct (IH _ _ _ _ _ Hp) as (fs & p & Hl & Hs & Hh & Hgp & Hall).
    destruct (branch_split md_cmp D ord get h m ess ki cur Hb Hc) as (Hbs & Hki & child & Hgc & _ & _ & _ & Hcur).
    rewrite (concat_split _ _ _ Hc), !Forall_app in Hall. destruct Hall as (H1 & H2 & H3).
    exists (Frame p m ki :: fs), (n_pgno m ki). split_and!; [by cbn; rewrite Hl| | |done|].
    + cbn. split_and!; [|  |done]; unfold zlen; rewrite Hl; done.
    + cbn [Cow.hole fr_pgno fr_page fr_ki]. by exists (take (Z.to_nat ki) ess), (drop (Z.to_nat (ki + 1)) ess), lft', rgt'.
    + apply Forall_forall. intros e He. constructor; [by apply (proj1 (Forall_forall _ _) Hcur)|by apply (proj1 (Forall_forall _ _) H2)].
Qed.

Lemma hole_path (fs : list frame) : forall h p m lft cur rgt,
  hole get H r fs h p lft rgt -> get p = Some m -> m <> [] -> tree get md_cmp D ord h m cur -> cur <> [] ->
  Forall (in_frames fs) cur -> on_stack c fs -> aget (mc_pg c) (zlen fs) = Some m ->
  path (lft ++ cur ++ rgt) (length fs) c h m lft cur rgt.
Proof.
  induction fs as [|f fs IH]; intros h p m lft cur rgt Hh Hg Hnil Ht Hne Hall Hs Hm.
  - destruct Hh as (-> & -> & -> & ->). cbn [length CursorPath.path app]. rewrite app_nil_r.
    assert (m = root) as -> by congruence. by split_and!.
  - destruct Hh as (ls & rs & lft' & rgt' & Hf & Hn & Hki & Hp & Hbs & Hls & Hrs & -> & -> & Hh).
    destruct Hs as (Hpg & Hk & Hs). rewrite <- Hp in Hg.
    assert (Forall (fun e => in_child D ord (fr_page f) (fr_ki f) e.1) cur /\ Forall (in_frames fs) cur) as [Hc Hc'].
    { split; apply (Forall_impl _ _ _ Hall); intros e He; by inversion He. }
    pose proof (branch_join md_cmp D ord get h _ m _ ls rs cur Hbs Hg Hnil Hne Ht Hc) as Hbn.
    pose proof (bs_left _ _ _ _ _ _ _ _ _ Hbs) as Hlen.
    assert (Z.to_nat (fr_ki f) = length ls) as Ek by (unfold zlen in Hlen; lia).
    cbn [length CursorPath.path]. exists (fr_page f), (fr_ki f), (ls ++ cur :: rs), lft', rgt'.
    replace (Z.to_nat (fr_ki f + 1)) with (S (length ls)) by lia. rewrite Ek, take_app_length.
    rewrite (drop_app_ge ls) by lia. replace (S (length ls) - length ls)%nat with 1%nat by lia. cbn [drop].
    split_and!; auto.
    + by rewrite <- Hlen, aget_mid.
    + rewrite concat_app. cbn [concat].
      replace ((lft' ++ concat ls) ++ cur ++ concat rs ++ rgt') with (lft' ++ (concat ls ++ cur ++ concat rs) ++ rgt')
        by (by rewrite <- !app_assoc).
      apply (IH (S h) (fr_pgno f)); auto.
      * replace (concat ls ++ cur ++ concat rs) with (concat (ls ++ cur :: rs)) by (by rewrite concat_app). by apply branch_node_tree.
      * intros [_ [E _]%app_nil]%app_nil. done.
      * rewrite !Forall_app. by split_and!.
Qed.
End Stack.

(** ** A tree with a path in it *)

Section Whole.
Context (md_cmp : MDB_cmp_func) (D : MDB_val -> Prop) (ord : MDB_val -> MDB_val -> Z) (me_psize : Z).
Hypothesis Hps : 0 < me_psize.
Abbreviation items := (list (MDB_val * MDB_val)).
Abbreviation hole := (hole md_cmp D ord).
Abbreviation in_frames := (in_frames D ord).
Abbreviation pages := (sub_pages (leaf_pages me_psize)).

(** The first frame is a page at height [h] with the items [cur]; the others
    are the path to it from the root [r]. *)
Definition whole (get : Z -> option (list Z)) (H : nat) (r : Z) (fs : list frame) (h : nat) (lft cur rgt : items) : Prop :=
  match fs with
  | [] => False
  | f :: fs => hole get H r fs h (fr_pgno f) lft rgt /\ get (fr_pgno f) = Some (fr_page f) /\ fr_page f <> [] /\
      tree get md_cmp D ord h (fr_page f) cur /\ cur <> [] /\ Forall (in_frames fs) cur
  end.

Lemma whole_tree (get : Z -> option (list Z)) (H : nat) (r : Z) (f : frame) (fs : list frame) (h : nat) (lft cur rgt : items) :
  whole get H r (f :: fs) h lft cur rgt ->
  exists root, get r = Some root /\ root <> [] /\ tree get md_cmp D ord H root (lft ++ cur ++ rgt) /\
    forall leafp, Permutation (sub_pages leafp get H r)
      (numbers fs ++ sides leafp get fs h ++ fr_pgno f :: gen_pages leafp get h (fr_page f)).
Proof.
  intros (Hh & Hg & Hn & Ht & Hne & Hall).
  destruct (hole_plug md_cmp D ord get H r fs h _ _ lft cur rgt Hh Hg Hn Ht Hne Hall) as (root & Hr & Hrn & Htr & Hp).
  exists root. split_and!; auto. intros leafp. rewrite Hp. unfold sub_pages. by rewrite Hg.
Qed.

(** The pages of the path. *)
Lemma hole_get (get : Z -> option (list Z)) (H : nat) (r : Z) (f : frame) (fs : list frame) : forall h p lft rgt,
  hole get H r fs h p lft rgt -> f ∈ fs -> get (fr_pgno f) = Some (fr_page f) /\ fr_page f <> [] /\ page_wf (fr_page f) /\
    p_leaf (fr_page f) = false /\ 0 <= fr_ki f < p_num (fr_page f).
Proof.
  induction fs as [|f0 fs IH]; intros h p lft rgt Hh Hf; [by apply elem_of_nil in Hf|].
  destruct Hh as (ls & rs & lft' & rgt' & Hg & Hn & Hki & Hp & Hbs & Hls & Hrs & -> & -> & Hh).
  apply elem_of_cons in Hf as [->|Hf]; [|by eapply IH]. split_and!; auto; apply Hbs || lia.
Qed.

Lemma whole_get (get : Z -> option (list Z)) (H : nat) (r : Z) (f : frame) (fs : list frame) (h : nat) (lft cur rgt : items) :
  whole get H r fs h lft cur rgt -> f ∈ fs -> get (fr_pgno f) = Some (fr_page f) /\ fr_page f <> [].
Proof.
  destruct fs as [|f0 fs]; [done|]. intros (Hh & Hg & Hn & _) [->|Hf]%elem_of_cons; [done|].
  by destruct (hole_get get H r f fs _ _ _ _ Hh Hf) as (? & ? & _).
Qed.

Lemma whole_in (leafp : list Z -> list Z) (get : Z -> option (list Z)) (H : nat) (r : Z) (f : frame) (fs : list frame) (h : nat)
    (lft cur rgt : items) : whole get H r fs h lft cur rgt -> f ∈ fs -> fr_pgno f ∈ sub_pages leafp get H r.
Proof.
  destruct fs as [|f0 fs]; [done|]. intros Hw Hf. destruct (whole_tree _ _ _ _ _ _ _ _ _ Hw) as (_ & _ & _ & _ & Hp).
  rewrite (Hp leafp), !elem_of_app, elem_of_cons. apply elem_of_cons in Hf as [->|Hf]; [tauto|].
  left. by apply list_elem_of_fmap_2.
Qed.

Lemma whole_page (get : Z -> option (list Z)) (H : nat) (r : Z) (f : frame) (fs : list frame) (h : nat) (lft cur rgt : items) :
  whole get H r fs h lft cur rgt -> f ∈ fs -> page_wf (fr_page f).
Proof.
  destruct fs as [|f0 fs]; [done|]. intros (Hh & _ & _ & Ht & _) [->|Hf]%elem_of_cons.
  - destruct h; apply Ht.
  - by destruct (hole_get get H r f fs _ _ _ _ Hh Hf) as (_ & _ & ? & _).
Qed.

(** A page and the one above it on the path. *)
Lemma hole_child (get : Z -> option (list Z)) (H : nat) (r : Z) (f g : frame) (low up : list frame) : forall h p lft rgt,
  hole get H r (low ++ f :: g :: up) h p lft rgt -> n_pgno (fr_page g) (fr_ki g) = fr_pgno f.
Proof.
  induction low as [|f0 low IH]; intros h p lft rgt Hh; cbn [app] in Hh;
    destruct Hh as (ls & rs & lft' & rgt' & _ & _ & _ & _ & _ & _ & _ & _ & _ & Hh); [|by eapply IH].
  destruct Hh as (ls' & rs' & lft'' & rgt'' & _ & _ & _ & Hp & _). done.
Qed.

Lemma whole_child (get : Z -> option (list Z)) (H : nat) (r : Z) (f g : frame) (low up : list frame) (h : nat) (lft cur rgt : items) :
  whole get H r (low ++ f :: g :: up) h lft cur rgt ->
  n_pgno (fr_page g) (fr_ki g) = fr_pgno f /\ p_leaf (fr_page g) = false /\ 0 <= fr_ki g < p_num (fr_page g).
Proof.
  intros Hw. destruct low as [|f0 low]; cbn [app] in Hw; destruct Hw as (Hh & _).
  - destruct (hole_get get H r g (g :: up) _ _ _ _ Hh ltac:(by left)) as (_ & _ & _ & Hl & Hk). split; [|done].
    by destruct Hh as (ls' & rs' & lft'' & rgt'' & _ & _ & _ & Hp & _).
  - destruct (hole_get get H r g (low ++ f :: g :: up) _ _ _ _ Hh) as (_ & _ & _ & Hl & Hk).
    { apply elem_of_app. right. right. by left. }
    split; [|done]. by eapply hole_child.
Qed.

Lemma hole_root (get : Z -> option (list Z)) (H : nat) (r : Z) (f : frame) (low : list frame) : forall h p lft rgt,
  hole get H r (low ++ [f]) h p lft rgt -> fr_pgno f = r.
Proof.
  induction low as [|f0 low IH]; intros h p lft rgt Hh; cbn [app] in Hh;
    destruct Hh as (ls & rs & lft' & rgt' & _ & _ & _ & _ & _ & _ & _ & _ & _ & Hh); [|by eapply IH].
  by destruct Hh as (_ & ? & _).
Qed.

Lemma whole_root (get : Z -> option (list Z)) (H : nat) (r : Z) (f : frame) (low : list frame) (h : nat) (lft cur rgt : items) :
  whole get H r (low ++ [f]) h lft cur rgt -> fr_pgno f = r.
Proof.
  intros Hw. destruct low as [|f0 low]; cbn [app] in Hw; destruct Hw as (Hh & _); [by destruct Hh as (_ & ? & _)|by eapply hole_root].
Qed.

Lemma whole_nodup (get : Z -> option (list Z)) (H : nat) (r : Z) (fs : list frame) (h : nat) (lft cur rgt : items) :
  whole get H r fs h lft cur rgt -> NoDup (pages get H r) -> NoDup (numbers fs).
Proof.
  destruct fs as [|f fs]; [done|]. intros Hw Hnd. destruct (whole_tree _ _ _ _ _ _ _ _ _ Hw) as (_ & _ & _ & _ & Hp).
  rewrite (Hp (leaf_pages me_psize)) in Hnd. rewrite (app_assoc (numbers fs)), <- Permutation_middle in Hnd.
  apply NoDup_cons in Hnd as [Hf Hnd]. rewrite <- app_assoc in Hnd. apply NoDup_app in Hnd as (Hnd & _ & _).
  cbn [numbers fmap list_fmap]. apply NoDup_cons. split; [|done]. intros Hx. apply Hf, elem_of_app. left. apply elem_of_app. by left.
Qed.

(** The page number of the parent. *)
Definition parent_is (fs : list frame) (x : Z) : Prop := match fs with [] => False | g :: _ => x = fr_pgno g end.

#[export] Instance parent_is_dec (fs : list frame) (x : Z) : Decision (parent_is fs x).
Proof. destruct fs; unfold parent_is; apply _. Defined.

Lemma numbers_repoint (m' : list Z) (fs : list frame) : numbers (repoint m' fs) = numbers fs.
Proof. by destruct fs. Qed.

Section Step.
Variables (get get' : Z -> option (list Z)) (H : nat) (r q : Z) (f : frame) (up : list frame) (pg m' : list Z).
Hypothesis Hcopy : page_copy None (fr_page f) pg.
Hypothesis Hpg : pg <> [].
Hypothesis Hq : get' q = Some pg.
Hypothesis Hrep : repointed get' m' q up.
Hypothesis Hnd : NoDup (pages get H r).
Hypothesis Hsame : forall x, x ∈ pages get H r -> x <> fr_pgno f -> ~ parent_is up x -> get' x = get x.

(** The page on top moves. *)
Lemma whole_top (h : nat) (lft cur rgt : items) : whole get H r (f :: up) h lft cur rgt ->
  whole get' H (new_root r q up) (Frame q pg (fr_ki f) :: repoint m' up) h lft cur rgt /\
  (forall e, in_frames up e -> in_frames (repoint m' up) e) /\
  forall leafp, leafp_copies leafp -> exists l,
    Permutation (sub_pages leafp get H r) (fr_pgno f :: l) /\ Permutation (sub_pages leafp get' H (new_root r q up)) (q :: l).
Proof.
  intros Hw. pose proof Hw as (Hh & Hg & Hn & Ht & Hne & Hall).
  destruct (whole_tree _ _ _ _ _ _ _ _ _ Hw) as (root & _ & _ & _ & Hperm).
  pose proof Hnd as Hnd'. rewrite (Hperm (leaf_pages me_psize)) in Hnd'.
  assert (forall x, x ∈ numbers (drop 1 up) \/ x ∈ sides (leaf_pages me_psize) get up h \/
    x ∈ gen_pages (leaf_pages me_psize) get h (fr_page f) -> get' x = get x) as Hs.
  { intros x Hx. apply Hsame.
    - rewrite Hperm. rewrite !elem_of_app, elem_of_cons. destruct Hx as [Hx|[Hx|Hx]]; auto. left.
      destruct up; [done|by right].
    - intros ->. rewrite app_assoc in Hnd'. apply NoDup_app in Hnd' as (_ & Hd & Hnd'). apply NoDup_cons in Hnd' as [Hd' _].
      destruct Hx as [Hx|[Hx|Hx]]; [| |done]; (apply (Hd (fr_pgno f)); [|by left]); apply elem_of_app; [left|by right].
      destruct up; [done|by right].
    - destruct up as [|g up']; [tauto|]. intros ->. cbn [numbers fmap list_fmap app drop] in Hnd', Hx.
      apply NoDup_cons in Hnd' as [Hd _]. apply Hd. rewrite !elem_of_app, elem_of_cons. destruct Hx as [Hx|[Hx|Hx]]; auto. }
  assert (moved me_psize get get' (new_root r q up) up (repoint m' up) h q) as Hm.
  { apply (moved_repoint md_cmp D ord me_psize get get' H r m' q up h _ lft rgt Hh Hrep). intros x [Hx|Hx]; apply Hs; auto. }
  destruct (hole_move md_cmp D ord me_psize Hps get get' H r _ up _ h _ q lft rgt Hh Hm) as (Hh' & _ & Hsd).
  destruct (tree_frame md_cmp D ord me_psize Hps get get' h _ cur Ht) as [Ht1 Hp1]; [intros x Hx; apply Hs; auto|].
  destruct (tree_copy md_cmp D ord get' h _ pg cur Ht1 Hcopy) as [Ht2 Hp2].
  assert (whole get' H (new_root r q up) (Frame q pg (fr_ki f) :: repoint m' up) h lft cur rgt) as Hw'.
  { cbn [whole fr_pgno fr_page]. split_and!; auto. apply (Forall_impl _ _ _ Hall). intros e.
    by apply (moved_bounds md_cmp D ord me_psize get get' H r _ _ _ _ _ _ _ _ _ Hh Hm). }
  split; [done|]. split; [intros e; by apply (moved_bounds md_cmp D ord me_psize get get' H r _ _ _ _ _ _ _ _ _ Hh Hm)|].
  intros leafp Hlp. destruct (whole_tree _ _ _ _ _ _ _ _ _ Hw') as (root' & _ & _ & _ & Hperm').
  exists (numbers up ++ sides leafp get up h ++ gen_pages leafp get h (fr_page f)).
  rewrite (Hperm leafp), (Hperm' leafp). cbn [fr_pgno fr_page]. rewrite numbers_repoint, Hsd, Hp2, Hp1 by done.
  split; solve_Permutation.
Qed.

(** A page below the top of the path moves. *)
Lemma whole_below (top : frame) (low : list frame) (h : nat) (lft cur rgt : items) :
  whole get H r (top :: low ++ f :: up) h lft cur rgt ->
  whole get' H (new_root r q up) (top :: low ++ Frame q pg (fr_ki f) :: repoint m' up) h lft cur rgt /\
  (forall e, in_frames (low ++ f :: up) e -> in_frames (low ++ Frame q pg (fr_ki f) :: repoint m' up) e) /\
  forall leafp, leafp_copies leafp -> exists l,
    Permutation (sub_pages leafp get H r) (fr_pgno f :: l) /\ Permutation (sub_pages leafp get' H (new_root r q up)) (q :: l).
Proof.
  intros Hw. pose proof Hw as (Hh & Hg & Hn & Ht & Hne & Hall).
  destruct (whole_tree _ _ _ _ _ _ _ _ _ Hw) as (root & _ & _ & _ & Hperm).
  pose proof Hnd as Hnd'. rewrite (Hperm (leaf_pages me_psize)) in Hnd'. set (fs := low ++ f :: up) in *.
  assert (numbers fs = numbers low ++ fr_pgno f :: numbers up) as En by (unfold numbers, fs; by rewrite fmap_app).
  assert (forall x, x ∈ numbers low \/ x ∈ numbers (drop 1 up) \/ x ∈ sides (leaf_pages me_psize) get fs h \/
    x ∈ fr_pgno top :: gen_pages (leaf_pages me_psize) get h (fr_page top) -> get' x = get x) as Hs.
  { intros x Hx. apply Hsame.
    - rewrite Hperm, En. rewrite !elem_of_app, elem_of_cons. destruct Hx as [Hx|[Hx|[Hx|Hx]]]; auto.
      left; right; right. destruct up; [done|by right].
    - intros ->. rewrite En, <- (Permutation_middle (numbers low)) in Hnd'. cbn [app] in Hnd'. apply NoDup_cons in Hnd' as [Hd _].
      apply Hd. rewrite !elem_of_app. destruct Hx as [Hx|[Hx|[Hx|Hx]]]; auto. left; right. destruct up; [done|by right].
    - destruct up as [|g up']; [tauto|]. intros ->. rewrite En in Hnd'. cbn [numbers fmap list_fmap] in Hnd', Hx.
      assert (Permutation (numbers low ++ fr_pgno f :: fr_pgno g :: numbers up') (fr_pgno g :: numbers low ++ fr_pgno f :: numbers up'))
        as Ep by solve_Permutation.
      fold (numbers up') in Hnd'. rewrite Ep in Hnd'. cbn [app] in Hnd'. apply NoDup_cons in Hnd' as [Hd _]. apply Hd.
      rewrite !elem_of_app, elem_of_cons. cbn [drop] in Hx. fold (numbers up') in Hx. destruct Hx as [Hx|[Hx|[Hx|Hx]]]; auto. }
  assert (moved me_psize get get' (new_root r q up) fs (low ++ Frame q pg (fr_ki f) :: repoint m' up) h (fr_pgno top)) as Hm.
  { apply (moved_at md_cmp D ord me_psize get get' H r m' pg q f up low h _ lft rgt Hh Hrep Hcopy Hpg Hq).
    intros x [Hx|[Hx|Hx]]; apply Hs; auto. }
  destruct (hole_move md_cmp D ord me_psize Hps get get' H r _ fs _ h _ _ lft rgt Hh Hm) as (Hh' & _ & Hsd).
  destruct (tree_frame md_cmp D ord me_psize Hps get get' h _ cur Ht) as [Ht1 Hp1];
    [intros x Hx; apply Hs; right; right; right; by right|].
  assert (whole get' H (new_root r q up) (top :: low ++ Frame q pg (fr_ki f) :: repoint m' up) h lft cur rgt) as Hw'.
  { cbn [whole]. split_and!; auto.
    - rewrite Hs; [done|]. right; right; right. by left.
    - apply (Forall_impl _ _ _ Hall). intros e.
      by apply (moved_bounds md_cmp D ord me_psize get get' H r _ _ _ _ _ _ _ _ _ Hh Hm). }
  split; [done|]. split; [intros e; by apply (moved_bounds md_cmp D ord me_psize get get' H r _ _ _ _ _ _ _ _ _ Hh Hm)|].
  intros leafp Hlp. destruct (whole_tree _ _ _ _ _ _ _ _ _ Hw') as (root' & _ & _ & _ & Hperm').
  exists (numbers low ++ numbers up ++ sides leafp get fs h ++ fr_pgno top :: gen_pages leafp get h (fr_page top)).
  assert (numbers (low ++ Frame q pg (fr_ki f) :: repoint m' up) = numbers low ++ q :: numbers up) as En'.
  { unfold numbers. rewrite fmap_app. cbn [fmap list_fmap fr_pgno]. fold (numbers (repoint m' up)). by rewrite numbers_repoint. }
  rewrite (Hperm leafp), (Hperm' leafp), Hsd, Hp1, En, En'. split; solve_Permutation.
Qed.
End Step.
End Whole.
