(* ===== verification/Touch.v ===== *)
(** * Copy-on-write ([mdb_page_touch], [mdb_cursor_touch],
    [src/LegacyDatabase/mdb.c])

    Before a write transaction changes a page, it makes it its own: a clean
    page is copied to memory under a new page number, which its parent gets to
    point to, and the old number goes to the list of freed pages; a spilled
    page is read back.  The pages are in a store: blocks of memory by address
    and the pages of the file, which are not writable ([MDB_WRITEMAP] is not
    set).  [None] is a write to a page of the file, an access outside of a
    block or a list, or a failed assertion.  The database is without
    [MDB_DUPSORT], and the cursor is not a sub-cursor. *)
From S2P Require Import Prelude.
From S2P Require Import Bytes.
From S2P Require Import Midl.
From S2P Require Import Page.
From S2P Require Import PageSpec.
From S2P Require Import NodeOps.
From S2P Require Import NodeDel.
From S2P Require Import Cmp.
From S2P Require Import NodeSearch.
From S2P Require Import Cursor.
From S2P Require Import PageList.
From S2P Require Import Tree.
From S2P Require Import CursorPath.
From S2P Require Import CursorSim.
From S2P Require Import PageAlloc.
From S2P Require Import FreeDb.
From S2P Require Import UpdateKey.
From S2P Require Import Cow.
From Stdlib Require Import ZArith Lia.
From stdpp Require Import base numbers option list gmap.
Open Scope Z_scope.

Definition MDB_TXN_SPILLS : Z := 0x08.
Definition MDB_NOMEMINIT : Z := 0x1000000.

#[export] Instance page_ptr_eq : EqDecision page_ptr.
Proof. solve_decision. Defined.

(** A cursor with pointers to pages, as the code has it; [None] is a null
    pointer. *)
Record wcursor := WCur {
  wc_snum : Z;
  wc_top : Z;
  wc_pg : list (option page_ptr);
  wc_ki : list Z;
  wc_flags : Z
}.

(** The record of a database, but for its root. *)
Record MDB_db := Db {
  md_depth : Z;
  md_branch_pages : Z;
  md_leaf_pages : Z;
  md_overflow : Z;
  md_entries : Z
}.

(** A write transaction: the blocks of memory, [me_dpages], what page
    allocation needs, [mt_free_pgs], [mt_spill_pgs], the root and the record
    of the database and its other cursors. *)
Record wtxn := WTxn {
  w_mem : gmap Z (list Z);
  me_dpages : list Z;
  w_alloc : alloc_state;
  w_free_pgs : midl;
  w_spill : option (list Z);
  w_root : Z;
  w_cursors : list wcursor;
  w_db : MDB_db
}.

Definition set_mem (w : wtxn) (a : Z) (pg : list Z) : wtxn :=
  WTxn (<[a := pg]> (w_mem w)) (me_dpages w) (w_alloc w) (w_free_pgs w) (w_spill w) (w_root w) (w_cursors w) (w_db w).
Definition set_dpages (w : wtxn) (l : list Z) : wtxn :=
  WTxn (w_mem w) l (w_alloc w) (w_free_pgs w) (w_spill w) (w_root w) (w_cursors w) (w_db w).
Definition set_alloc (w : wtxn) (st : alloc_state) : wtxn :=
  WTxn (w_mem w) (me_dpages w) st (w_free_pgs w) (w_spill w) (w_root w) (w_cursors w) (w_db w).
Definition set_free (w : wtxn) (m : midl) : wtxn :=
  WTxn (w_mem w) (me_dpages w) (w_alloc w) m (w_spill w) (w_root w) (w_cursors w) (w_db w).
Definition set_spill (w : wtxn) (s : option (list Z)) : wtxn :=
  WTxn (w_mem w) (me_dpages w) (w_alloc w) (w_free_pgs w) s (w_root w) (w_cursors w) (w_db w).
Definition set_md_root (w : wtxn) (r : Z) : wtxn :=
  WTxn (w_mem w) (me_dpages w) (w_alloc w) (w_free_pgs w) (w_spill w) r (w_cursors w) (w_db w).
Definition set_cursors (w : wtxn) (l : list wcursor) : wtxn :=
  WTxn (w_mem w) (me_dpages w) (w_alloc w) (w_free_pgs w) (w_spill w) (w_root w) l (w_db w).
Definition set_db (w : wtxn) (d : MDB_db) : wtxn :=
  WTxn (w_mem w) (me_dpages w) (w_alloc w) (w_free_pgs w) (w_spill w) (w_root w) (w_cursors w) d.
Definition txn_error (w : wtxn) : wtxn := set_alloc w (set_error (w_alloc w)).
Definition set_dirty (w : wtxn) (dl : list MDB_ID2) (room : Z) : wtxn :=
  let st := w_alloc w in
  set_alloc w (AllocState (a_loose_pgs st) (a_loose_count st) dl room (a_pghead st) (me_pglast st) (me_pgoldest st)
                 (mt_next_pgno st) (a_mt_flags st)).

Section Touch.
(** The environment: the pages of the file, flags, sizes; [os_malloc] is the
    [malloc] of the C library, which gives the address and the contents of a
    new block; [mem_ok] and [need_ok] tell whether the lists can grow. *)
Variable file : Z -> option (list Z).
Variables (me_flags me_map me_psize me_maxpg : Z).
Variable os_malloc : gmap Z (list Z) -> Z -> option (Z * list Z).
Variables (junk : nat -> Z) (mem_ok : Z -> bool) (need_ok : bool).
(** The transaction, the other readers, the root of the free-page database,
    the parent transactions. *)
Variables (mt_txnid : Z) (readers : option (list MDB_reader * Z)) (free_root : Z) (parents : list txn_pages).
(** Fuel for reading the free-page database. *)
Variable fuel : nat.

(** ** The pages the transaction sees *)

Definition deref (w : wtxn) (p : page_ptr) : option (list Z) :=
  match p with Heap a => w_mem w !! a | Mapped n => file n end.

Definition chain (w : wtxn) : list txn_pages := TxnPages (w_spill w) (a_dirty (w_alloc w)) :: parents.

Definition locate (w : wtxn) (pgno : Z) : option page_ptr :=
  '(_, r, _) ← mdb_page_get (a_mt_flags (w_alloc w)) me_flags (chain w) (mt_next_pgno (w_alloc w)) pgno;
  '(p, _) ← r;
  Some p.

Definition view (w : wtxn) (pgno : Z) : option (list Z) := p ← locate w pgno; deref w p.

(** ** mdb_page_malloc *)

Definition page_malloc_new (w : wtxn) (num : Z) : option (option Z * wtxn) :=
  let sz := if num =? 1 then me_psize else me_psize * num in
  let off := if num =? 1 then PAGEHDRSZ else sz - me_psize in
  let psize := if num =? 1 then me_psize - off else me_psize in
  match os_malloc (w_mem w) sz with
  | Some (ret, block) =>
    block ← (if nz (Z.land me_flags MDB_NOMEMINIT) then Some block
             else block ← bwrite block off (replicate (Z.to_nat psize) 0); set16 block 8 0);
    Some (Some ret, set_mem w ret block)
  | None => Some (None, txn_error w)
  end.

Definition mdb_page_malloc (w : wtxn) (num : Z) : option (option Z * wtxn) :=
  match me_dpages w with
  | ret :: dpages => if num =? 1 then Some (Some ret, set_dpages w dpages) else page_malloc_new w num
  | [] => page_malloc_new w num
  end.

(** ** mdb_page_unspill *)

(** The transaction that has the page in its spill list (is it this one?), and
    the index there. *)
Fixpoint spill_loop (own : bool) (chain : list txn_pages) (pn : Z) : option (option (bool * Z)) :=
  match chain with
  | [] => Some None
  | tx2 :: chain =>
    s ← spill_search (mt_spill_pgs tx2) pn;
    match s with Some x => Some (Some (own, x)) | None => spill_loop false chain pn end
  end.

(** [if (x == txn->mt_spill_pgs[0]) txn->mt_spill_pgs[0]--; else txn->mt_spill_pgs[x] |= 1;] *)
Definition unlist_spill (sl : list Z) (x : Z) : option (list Z) :=
  n ← aget sl 0;
  if x =? n then aset sl 0 (n - 1) else y ← aget sl x; aset sl x (Z.lor y 1).

Definition mark_dirty (pg : list Z) : option (list Z) := fl ← mp_flags pg; set16 pg 10 (Z.lor fl P_DIRTY).

(** [m] is the page at [mp].  Result: the return code, the transaction and
    the address of the copy. *)
Definition mdb_page_unspill (w : wtxn) (m : list Z) : option (Z * wtxn * option Z) :=
  if nz (Z.land me_flags MDB_WRITEMAP) then None else
  pgno ← get64 m 0;
  s ← spill_loop true (chain w) (u64 (Z.shiftl pgno 1));
  match s with
  | None => Some (MDB_SUCCESS, w, None)
  | Some (own, x) =>
    if mt_dirty_room (w_alloc w) =? 0 then Some (MDB_TXN_FULL, w, None) else
    fl ← mp_flags m;
    num ← (if F_ISSET fl P_OVERFLOW then get32 m 12 else Some 1);
    '(np, w) ← mdb_page_malloc w num;
    match np with
    | None => Some (ENOMEM, w, None)
    | Some np =>
      dst ← w_mem w !! np;
      pg ← (if 1 <? num then bs ← bread m 0 (num * me_psize); bwrite dst 0 bs else mdb_page_copy dst m me_psize);
      spill ← (if own : bool then sl ← w_spill w; sl ← unlist_spill sl x; Some (Some sl) else Some (w_spill w));
      pgno ← get64 pg 0;
      '(dl, room) ← mdb_page_dirty me_flags (a_dirty (w_alloc w)) (mt_dirty_room (w_alloc w)) pgno np;
      pg ← mark_dirty pg;
      Some (MDB_SUCCESS, set_dirty (set_spill (set_mem w np pg) spill) dl room, Some np)
    end
  end.

(** ** mdb_page_touch *)

(** [mdb_page_alloc(mc, num, &np)]: address and number of the page, or the
    return code.  [m] is what [mdb_page_malloc] gives if the allocation gets
    as far as calling it. *)
Definition alloc_pages (w : wtxn) (num : Z) : option (((Z * Z) + Z) * wtxn) :=
  '(m, w1) ← mdb_page_malloc w num;
  '(r, st) ← page_alloc_db (view w) free_root junk mt_txnid readers mem_ok me_flags me_map me_psize me_maxpg fuel m num (w_alloc w);
  match r with
  | LoosePage np => pg ← w_mem w !! np; pgno ← get64 pg 0; Some (inl (np, pgno), set_alloc w st)
  | NewPages np pgno => pg ← w_mem w1 !! np; pg ← set64 pg 0 pgno; Some (inl (np, pgno), set_mem (set_alloc w1 st) np pg)
  | NoPages rc => Some (inr rc, set_alloc w st)
  end.

Definition alloc_one (w : wtxn) : option (((Z * Z) + Z) * wtxn) := alloc_pages w 1.

(** Update the parent page, if any, to point to the new page. *)
Definition repoint_parent (w : wtxn) (mc : wcursor) (pgno : Z) : option wtxn :=
  if nz (wc_top mc) then
    parent ← aget (wc_pg mc) (wc_top mc - 1);
    match parent with
    | Some (Heap a) =>
      m ← w_mem w !! a;
      ki ← aget (wc_ki mc) (wc_top mc - 1);
      node ← mp_ptr m ki;
      m ← SETPGNO m node pgno;
      Some (set_mem w a m)
    | _ => None
    end
  else Some (set_md_root w pgno).

(** [mdb_page_copy(np, mp, me_psize); np->mp_pgno = pgno; np->mp_flags |= P_DIRTY] *)
Definition copy_to (w : wtxn) (mp : page_ptr) (np pgno : Z) : option wtxn :=
  m ← deref w mp;
  dst ← w_mem w !! np;
  pg ← mdb_page_copy dst m me_psize;
  pg ← set64 pg 0 pgno;
  pg ← mark_dirty pg;
  Some (set_mem w np pg).

(** Label [done]: the cursor, and the other cursors that are on the page. *)
Definition relink (mc : wcursor) (mp np : page_ptr) (m2 : wcursor) : option wcursor :=
  if wc_snum m2 <? wc_snum mc then Some m2
  else
    p ← aget (wc_pg m2) (wc_top mc);
    if decide (p = Some mp) then
      pg ← aset (wc_pg m2) (wc_top mc) (Some np);
      Some (WCur (wc_snum m2) (wc_top m2) pg (wc_ki m2) (wc_flags m2))
    else Some m2.

Definition touch_done (w : wtxn) (mc : wcursor) (mp np : page_ptr) : option (Z * wtxn * wcursor) :=
  pg ← aset (wc_pg mc) (wc_top mc) (Some np);
  cs ← mapM (relink mc mp np) (w_cursors w);
  Some (MDB_SUCCESS, set_cursors w cs, WCur (wc_snum mc) (wc_top mc) pg (wc_ki mc) (wc_flags mc)).

(** A clean page: read back if it was spilled, and otherwise copied to a new
    page. *)
Definition touch_clean (w : wtxn) (mc : wcursor) (mp : page_ptr) (m : list Z) : option (Z * wtxn * wcursor) :=
  '(rc, w, np) ← (if nz (Z.land (a_mt_flags (w_alloc w)) MDB_TXN_SPILLS) then mdb_page_unspill w m
                  else Some (MDB_SUCCESS, w, None));
  if nz rc then Some (rc, txn_error w, mc) else
  match np with
  | Some np => touch_done w mc mp (Heap np)
  | None =>
    '(rc, fp) ← mdb_midl_need junk need_ok (w_free_pgs w) 1;
    let w := set_free w fp in
    if nz rc then Some (rc, txn_error w, mc) else
    '(r, w) ← alloc_one w;
    match r with
    | inr rc => Some (rc, txn_error w, mc)
    | inl (np, pgno) =>
      old ← get64 m 0;
      if old =? pgno then None else
      ids ← mdb_midl_xappend (cells (w_free_pgs w)) old;
      w ← repoint_parent (set_free w (Midl (alloclen (w_free_pgs w)) ids)) mc pgno;
      w ← copy_to w mp np pgno;
      touch_done w mc mp (Heap np)
    end
  end.

(** A dirty page of a nested transaction: it has to be in the transaction's
    own dirty list. *)
Definition touch_nested (w : wtxn) (mc : wcursor) (mp : page_ptr) (m : list Z) : option (Z * wtxn * wcursor) :=
  pgno ← get64 m 0;
  let dl := a_dirty (w_alloc w) in
  d ← dirty_search dl pgno;
  match d with
  | Some e =>
    if decide (mp = Heap (mptr e)) then Some (MDB_SUCCESS, w, mc)
    else Some (MDB_CORRUPTED, txn_error w,
               WCur (wc_snum mc) (wc_top mc) (wc_pg mc) (wc_ki mc) (Z.land (wc_flags mc) (Z.lnot (Z.lor C_INITIALIZED C_EOF))))
  | None =>
    c0 ← aget dl 0;
    if negb (mid c0 <? MDB_IDL_UM_MAX) then None else
    '(np, w) ← mdb_page_malloc w 1;
    match np with
    | None => Some (ENOMEM, w, mc)
    | Some np =>
      '(rc, dl) ← mdb_mid2l_insert dl (ID2 pgno np);
      if nz rc then None else
      w ← copy_to (set_dirty w dl (mt_dirty_room (w_alloc w))) mp np pgno;
      touch_done w mc mp (Heap np)
    end
  end.

Definition mdb_page_touch (w : wtxn) (mc : wcursor) : option (Z * wtxn * wcursor) :=
  mp ← aget (wc_pg mc) (wc_top mc);
  mp ← mp;
  m ← deref w mp;
  fl ← mp_flags m;
  if negb (F_ISSET fl P_DIRTY) then touch_clean w mc mp m
  else match parents with
       | [] => Some (MDB_SUCCESS, w, mc)
       | _ => if F_ISSET fl P_SUBP then Some (MDB_SUCCESS, w, mc) else touch_nested w mc mp m
       end.

(** ** mdb_cursor_touch *)

Definition at_level (mc : wcursor) (t : Z) : wcursor := WCur (wc_snum mc) t (wc_pg mc) (wc_ki mc) (wc_flags mc).

(** [do { rc = mdb_page_touch(mc); } while (!rc && ++(mc->mc_top) < mc->mc_snum);];
    [n] is at least [mc_snum - mc_top]. *)
Fixpoint touch_loop (n : nat) (w : wtxn) (mc : wcursor) : option (Z * wtxn * wcursor) :=
  match n with
  | O => None
  | S n =>
    '(rc, w, mc) ← mdb_page_touch w mc;
    if nz rc then Some (rc, w, mc)
    else let mc := at_level mc (wc_top mc + 1) in
      if wc_top mc <? wc_snum mc then touch_loop n w mc else Some (rc, w, mc)
  end.

(** On the database of a core handle, or one whose record is up to date
    ([DB_DIRTY]). *)
Definition mdb_cursor_touch (w : wtxn) (mc : wcursor) : option (Z * wtxn * wcursor) :=
  let mc := at_level mc 0 in
  if nz (wc_snum mc) then
    '(rc, w, mc) ← touch_loop (Z.to_nat (wc_snum mc)) w mc;
    Some (rc, w, at_level mc (wc_snum mc - 1))
  else Some (MDB_SUCCESS, w, mc).
End Touch.

(** ** Copied and repointed pages *)

Definition p_dirty (m : list Z) : bool := F_ISSET (p_flags m) P_DIRTY.

Lemma page_copy_ok (dst m : list Z) : page_wf m -> zlen dst = zlen m -> Forall is_byte dst ->
  exists pg, mdb_page_copy dst m (zlen m) = Some pg /\ page_copy None m pg /\ slice pg 0 12 = slice m 0 12.
Proof.
  intros Hwf Hl Hb. destruct (mdb_page_copy_correct dst m Hwf Hl) as (pg & E & Hlen & Hz). exists pg. split; [done|].
  pose proof (wf_lower _ Hwf). pose proof (wf_num _ Hwf). pose proof (wf_upper _ Hwf).
  assert (Forall is_byte pg) as Hb'.
  { unfold mdb_page_copy in E. destruct (mp_upper m); [|done]. cbn [mbind option_bind] in E.
    destruct (mp_lower m); [|done]. cbn [mbind option_bind] in E. destruct (IS_LEAF2 m); [|done]. cbn [mbind option_bind] in E.
    pose proof (wf_bytes _ Hwf) as Hbm.
    assert (forall o n bs d o' d', bread m o n = Some bs -> Forall is_byte d -> bwrite d o' bs = Some d' -> Forall is_byte d') as Hw.
    { intros o n bs d o' d' Er Hd Ew. unfold bread in Er. destruct (_ && _) in Er; [|done]. injection Er as <-.
      unfold bwrite in Ew. destruct (_ && _) in Ew; [|done]. injection Ew as <-. apply splice_bytes; [done|]. by apply slice_bytes. }
    destruct (negb _ && _).
    - destruct (bread m 0 _) as [b1|] eqn:E1; [|done]. cbn [mbind option_bind] in E.
      destruct (bwrite dst 0 b1) as [d1|] eqn:E2; [|done]. cbn [mbind option_bind] in E.
      destruct (bread m (Z.land z _) _) as [b2|] eqn:E3; [|done]. cbn [mbind option_bind] in E.
      exact (Hw _ _ b2 d1 _ _ E3 (Hw _ _ b1 dst _ _ E1 Hb E2) E).
    - destruct (bread m 0 _) as [b1|] eqn:E1; [|done]. cbn [mbind option_bind] in E. exact (Hw _ _ b1 dst _ _ E1 Hb E). }
  assert (slice pg 0 12 = slice m 0 12) as Es.
  { apply slice_ext; try lia. intros i Hi. apply Hz. lia. }
  split; [|done].
  assert (p_flags pg = p_flags m) as Ef by (unfold p_flags; apply g16_ext; try lia; intros i Hi; apply Hz; lia).
  split; auto.
  - unfold p_leaf. by rewrite Ef.
  - unfold p_branch. by rewrite Ef.
  - unfold p_leaf2. by rewrite Ef.
  - intros x Hx _. apply Hz. lia.
Qed.

Lemma copy_16 (k : option Z) (m pg : list Z) : page_wf m -> page_copy k m pg -> 16 <= zlen pg.
Proof. intros Hwf Hc. rewrite (pc_len _ _ _ Hc). apply Hwf. Qed.

(** Writing below [mp_lower], but not the flags that say what page it is. *)
Lemma copy_write (k : option Z) (m pg pg' bs : list Z) (o : Z) : page_wf m -> page_copy k m pg -> upd pg o bs pg' -> Forall is_byte bs ->
  o + zlen bs <= 12 -> p_leaf pg' = p_leaf pg -> p_branch pg' = p_branch pg -> p_leaf2 pg' = p_leaf2 pg -> page_copy k m pg'.
Proof.
  intros Hwf [C1 C2 C3 C4 C5 C6] U Hb Ho E1 E2 E3. pose proof (wf_lower _ Hwf). pose proof (wf_num _ Hwf). pose proof (wf_upper _ Hwf).
  split; try congruence.
  - by rewrite (u_len _ _ _ _ U).
  - by apply U.
  - intros x Hx Hp. rewrite (u_old _ _ _ _ U) by lia. by apply C6.
Qed.

Lemma mark_dirty_ok (k : option Z) (m pg : list Z) : page_wf m -> page_copy k m pg ->
  exists pg', mark_dirty pg = Some pg' /\ page_copy k m pg' /\ p_dirty pg' = true /\ slice pg' 0 8 = slice pg 0 8 /\
    F_ISSET (p_flags pg') P_OVERFLOW = F_ISSET (p_flags pg) P_OVERFLOW.
Proof.
  intros Hwf Hc. pose proof (copy_16 _ _ _ Hwf Hc) as H16. unfold mark_dirty, mp_flags. rewrite get16_in by lia.
  cbn [mbind option_bind]. fold (p_flags pg). destruct (set16_upd pg 10 (Z.lor (p_flags pg) P_DIRTY)) as (pg' & E & U); try lia.
  assert (forall j, 0 <= j < 16 -> F_ISSET (p_flags pg') (2 ^ j) = (j =? 4) || F_ISSET (p_flags pg) (2 ^ j)) as Hf.
  { intros j Hj. unfold p_flags at 1. rewrite (upd_g16_eq _ _ _ _ U). unfold F_ISSET, uwrap. rewrite land_mod_low by lia.
    rewrite Z.land_lor_distr_l. change P_DIRTY with (2 ^ 4). destruct (Z.eqb_spec j 4) as [->|Hne]; cbn [orb].
    - rewrite Z.land_diag. apply Z.eqb_eq. apply Z.bits_inj'. intros n Hn. rewrite Z.lor_spec, Z.land_spec. by destruct (Z.testbit _ _), (Z.testbit _ _).
    - assert (Z.land (2 ^ 4) (2 ^ j) = 0) as ->; [|by rewrite Z.lor_0_r].
      apply Z.bits_inj'. intros n Hn. rewrite Z.land_spec, Z.bits_0, !Z.pow2_bits_eqb by lia.
      destruct (Z.eqb_spec 4 n), (Z.eqb_spec j n); try done. lia. }
  exists pg'. split; [done|]. split; [|split; [|split]].
  - apply (copy_write k m pg pg' _ 10 Hwf Hc U); [apply le_bytes_byte|rewrite zlen_le_bytes; lia|..].
    + apply (Hf 1). lia.
    + apply (Hf 0). lia.
    + apply (Hf 5). lia.
  - apply (Hf 4). lia.
  - apply (upd_slice_ne _ _ _ _ _ _ U); lia.
  - apply (Hf 2). lia.
Qed.

(** The number of a page. *)
Definition pgno_of (m : list Z) : Z := le_val (slice m 0 8).

Lemma get_pgno (m : list Z) : 16 <= zlen m -> get64 m 0 = Some (pgno_of m).
Proof. intros H. unfold get64. by rewrite bread_in by lia. Qed.

Lemma set_pgno_ok (k : option Z) (m pg : list Z) (x : Z) : page_wf m -> page_copy k m pg -> 0 <= x < 2 ^ 64 ->
  exists pg', set64 pg 0 x = Some pg' /\ page_copy k m pg' /\ pgno_of pg' = x /\ p_flags pg' = p_flags pg.
Proof.
  intros Hwf Hc Hx. pose proof (copy_16 _ _ _ Hwf Hc) as H16. unfold set64.
  destruct (bwrite_upd pg 0 (le_bytes 8 x)) as (pg' & -> & U); [lia|rewrite zlen_le_bytes; lia|].
  assert (p_flags pg' = p_flags pg) as Ef by (unfold p_flags; apply (upd_g16_ne _ _ _ _ _ U); rewrite ?zlen_le_bytes; lia).
  exists pg'. split; [done|]. split; [|split; [|done]].
  - apply (copy_write k m pg pg' _ 0 Hwf Hc U); [apply le_bytes_byte|rewrite zlen_le_bytes; lia|..];
      unfold p_leaf, p_branch, p_leaf2; by rewrite Ef.
  - unfold pgno_of. pose proof (u_new _ _ _ _ U) as Hn. rewrite zlen_le_bytes in Hn. change (Z.of_nat 8) with 8 in Hn.
    rewrite Hn, le_val_bytes. apply Z.mod_small. done.
Qed.

(** The child pointer of a branch page. *)
Lemma repoint_ok (m : list Z) (k q : Z) : page_wf m -> p_leaf m = false -> 0 <= k < p_num m -> 0 <= q < 2 ^ 48 ->
  exists m', SETPGNO m (p_ptr m k) q = Some m' /\ page_copy (Some k) m m' /\ n_pgno m' k = q /\
    pgno_of m' = pgno_of m /\ p_flags m' = p_flags m.
Proof.
  intros Hwf Hl Hk Hq. destruct (n_key_in m k Hwf Hk) as (Hp & Hh & Hks). destruct (wf_in _ Hwf k Hk) as [Hlo _].
  pose proof (wf_lower _ Hwf). pose proof (wf_num _ Hwf). pose proof (wf_upper _ Hwf).
  destruct (SETPGNO_ok m (p_ptr m k) q) as (m' & -> & U); [lia|lia|]. exists m'. split; [done|].
  pose proof (u_len _ _ _ _ U) as Hlen. pose proof (u_new _ _ _ _ U) as Hnew. rewrite zlen_le_bytes in Hnew.
  change (Z.of_nat 6) with 6 in Hnew.
  assert (forall x, x < p_ptr m k \/ p_ptr m k + 6 <= x -> zn m' x = zn m x) as Hold.
  { intros x Hx. apply (u_old _ _ _ _ U). by rewrite zlen_le_bytes. }
  assert (p_flags m' = p_flags m) as Ef by (unfold p_flags; apply g16_ext; try lia; intros i Hi; apply Hold; lia).
  assert (page_copy (Some k) m m') as Hc.
  { split; auto.
    - apply U; [apply Hwf|apply le_bytes_byte].
    - unfold p_leaf. by rewrite Ef.
    - unfold p_branch. by rewrite Ef.
    - unfold p_leaf2. by rewrite Ef.
    - intros x _ Hx. cbn [pgno_place] in Hx. apply Hold. lia. }
  assert (forall i, Some k = Some i -> p_leaf m = false /\ 0 <= i < p_num m) as Hki by (intros i [= <-]; done).
  split; [done|]. split; [|split; [|done]].
  - pose proof (pc_wf _ _ _ Hwf Hki Hc) as Hwf'. pose proof (pc_num _ _ _ Hwf Hki Hc) as En.
    pose proof (pgno_bytes m' k Hwf' ltac:(lia)) as E. rewrite (pc_ptr _ _ _ Hwf Hki Hc) in E by done. rewrite Hnew in E.
    apply (f_equal le_val) in E. rewrite !le_val_bytes in E. change (8 * Z.of_nat 6) with 48 in E.
    assert (0 <= n_pgno m' k < 2 ^ 48) as Hr.
    { pose proof (wf_bytes _ Hwf') as Hb. destruct (n_key_in m' k Hwf' ltac:(lia)) as (Hp' & Hh' & Hks').
      unfold n_pgno, n_lohi, n_flags. pose proof (g16_range m' (p_ptr m' k) Hb).
      pose proof (g16_range m' (p_ptr m' k + 2) Hb). pose proof (g16_range m' (p_ptr m' k + 4) Hb). lia. }
    rewrite !Z.mod_small in E by lia. done.
  - unfold pgno_of. f_equal. apply slice_ext; try lia. intros i Hi. apply Hold. lia.
Qed.
