(* ===== verification/TouchInv.v ===== *)
(** * The invariant of copy-on-write

    The lists of a write transaction and the pages of its database
    ([src/LegacyDatabase/mdb.c]): the page numbers that the tree, the
    free-page database and the lists of unused pages have are all different,
    a page is dirty if it is in the dirty list, and every dirty page is a
    block of memory of its own.  When one page of the tree gets a new place
    ([replaced]), and its parent the new number, the tree keeps its items and
    the invariant holds again ([step_inv]). *)
From S2P Require Import Prelude.
From S2P Require Import Bytes.
From S2P Require Import Midl.
From S2P Require Import Page.
From S2P Require Import PageSpec.
From S2P Require Import NodeOps.
From S2P Require Import NodeDel.
From S2P Require Import Cmp.
From S2P Require Import NodeSearch.
From S2P Require Import Cursor.
From S2P Require Import PageList.
From S2P Require Import Tree.
From S2P Require Import CursorPath.
From S2P Require Import CursorSim.
From S2P Require Import PageAlloc.
From S2P Require Import FreeDb.
From S2P Require Import Cow.
From S2P Require Import Touch.
From Stdlib Require Import ZArith Lia.
From stdpp Require Import base numbers option list gmap.
Open Scope Z_scope.

(** ** The invariant of a write transaction *)

(** A block of memory as large as a page. *)
Definition page_block (me_psize : Z) (w : wtxn) (a : Z) : Prop :=
  exists b, w_mem w !! a = Some b /\ zlen b = me_psize /\ Forall is_byte b.

Definition dirty_of (w : wtxn) : list MDB_ID2 := id2_list (a_dirty (w_alloc w)).
Definition spilled_of (w : wtxn) : list Z := spilled (TxnPages (w_spill w) (a_dirty (w_alloc w))).
Definition next_of (w : wtxn) : Z := mt_next_pgno (w_alloc w).

(** The page numbers of the loose pages; the pages that are not in use any
    more: loose, freed by the transaction, or free before. *)
Definition loose_id (w : wtxn) (a : Z) : Z := match w_mem w !! a with Some b => pgno_of b | None => 0 end.
Definition reusable (recs : list free_rec) (w : wtxn) : list Z :=
  free_pages (w_alloc w) (drop (after recs (me_pglast (w_alloc w))) recs).
Definition pool (recs : list free_rec) (w : wtxn) : list Z :=
  (loose_id w <$> a_loose_pgs (w_alloc w)) ++ midl_ids (cells (w_free_pgs w)) ++ reusable recs w.

Section Inv.
Variable file : Z -> option (list Z).
Variables (me_flags me_psize me_maxpg : Z) (readers : option (list MDB_reader * Z)) (mt_txnid : Z).
Hypothesis Hwm : Z.land me_flags MDB_WRITEMAP = 0.
Abbreviation seen := (view file me_flags []).
Abbreviation place := (locate me_flags []).

(** The lists of the transaction are right. *)
Record lists_ok (w : wtxn) : Prop := {
  lo_flags : Z.land (a_mt_flags (w_alloc w)) MDB_TXN_ERROR = 0 /\ Z.land (a_mt_flags (w_alloc w)) MDB_TXN_RDONLY = 0;
  lo_spill : forall sl, w_spill w = Some sl -> spill_wf sl;
  lo_twin x : 2 * x ∈ spilled_of w -> 2 * x + 1 ∉ spilled_of w;
  lo_dirty : id2_wf (a_dirty (w_alloc w));
  lo_spills : spilled_of w <> [] -> Z.land (a_mt_flags (w_alloc w)) MDB_TXN_SPILLS <> 0;
  lo_disj e : e ∈ dirty_of w -> 2 * mid e ∉ spilled_of w;
  lo_mem e : e ∈ dirty_of w -> exists b, w_mem w !! mptr e = Some b;
  lo_ptrs : NoDup ((mptr <$> dirty_of w) ++ me_dpages w);
  lo_dpages a : a ∈ me_dpages w -> page_block me_psize w a;
  lo_loose a : a ∈ a_loose_pgs (w_alloc w) -> page_block me_psize w a /\ exists e, e ∈ dirty_of w /\ mptr e = a /\ mid e = loose_id w a;
  lo_next : 0 <= next_of w <= me_maxpg;
  lo_freed : midl_wf (w_free_pgs w)
}.

(** Where a page is. *)
Lemma find_dirty_elem (w : wtxn) (e : MDB_ID2) (x : Z) : lists_ok w ->
  find_dirty (a_dirty (w_alloc w)) x = Some e <-> e ∈ dirty_of w /\ mid e = x.
Proof.
  intros Hl. pose proof (lo_dirty _ Hl) as Hd. unfold find_dirty, dirty_of. split.
  - intros (i & Hf)%fmap_Some. destruct Hf as [Hf ->]. destruct i as [i e']. apply list_find_Some in Hf as (He & Hp & _).
    split; [by eapply list_elem_of_lookup_2|exact Hp].
  - intros [He Hx]. apply (find_dirty_spec _ _ (Some e) Hd); [by intros ? [= <-]|done].
Qed.

Lemma find_dirty_none (w : wtxn) (x : Z) : lists_ok w ->
  find_dirty (a_dirty (w_alloc w)) x = None <-> forall e, e ∈ dirty_of w -> mid e <> x.
Proof.
  intros Hl. split.
  - intros Hn e He Hx. by rewrite (proj2 (find_dirty_elem w e x Hl) (conj He Hx)) in Hn.
  - intros Hno. apply (find_dirty_spec _ _ None (lo_dirty _ Hl)); done.
Qed.

Lemma locate_ok (w : wtxn) (x : Z) : lists_ok w -> 0 <= x < 2 ^ 63 ->
  place w x = if decide (2 * x ∈ spilled_of w) then Some (Mapped x)
               else match find_dirty (a_dirty (w_alloc w)) x with
                    | Some e => Some (Heap (mptr e))
                    | None => if decide (x < next_of w) then Some (Mapped x) else None
                    end.
Proof.
  intros Hl Hx. destruct (lo_flags _ Hl) as [_ Hf]. unfold locate, chain.
  rewrite mdb_page_get_correct; [|done|].
  - rewrite decide_True by done. cbn [find_page mt_spill_pgs dirty_list]. fold (spilled_of w).
    destruct (decide (2 * x ∈ spilled_of w)); [done|].
    destruct (find_dirty _ x); [done|]. fold (next_of w). by destruct (decide (x < next_of w)).
  - constructor; [|constructor]. split; [apply Hl|apply Hl].
Qed.

(** ** One page is replaced *)

(** From [w] to [w']: page [p] is replaced by [pg], page number [q] at the
    address [np]; [par] is the new contents of the parent. *)
Record replaced (recs : list free_rec) (w w' : wtxn) (p q np : Z) (pg : list Z) (par : option (Z * list Z)) : Prop := {
  rp_lists : lists_ok w';
  rp_alloc : alloc_inv readers mt_txnid recs (w_alloc w');
  rp_next : next_of w <= next_of w';
  rp_reuse x : x ∈ reusable recs w' -> x ∈ reusable recs w;
  rp_spilled x : x <> q -> 2 * x ∈ spilled_of w' <-> 2 * x ∈ spilled_of w;
  rp_dirty e : e ∈ dirty_of w' <-> e = ID2 q np \/ e ∈ dirty_of w;
  rp_np : w_mem w' !! np = Some pg;
  rp_par : match par with None => True | Some (g, m') => g <> q /\ exists e, e ∈ dirty_of w /\ mid e = g /\ w_mem w' !! mptr e = Some m' end;
  rp_mem e : e ∈ dirty_of w -> mid e <> q -> (forall g m', par = Some (g, m') -> mid e <> g) -> w_mem w' !! mptr e = w_mem w !! mptr e;
  rp_pool : Permutation (q :: pool recs w') (p :: pool recs w) /\ next_of w' = next_of w \/
    Permutation (pool recs w') (p :: pool recs w) /\ q = next_of w /\ next_of w' = next_of w + 1
}.

Section Replaced.
Variables (recs : list free_rec) (w w' : wtxn) (p q np : Z) (pg : list Z) (par : option (Z * list Z)).
Hypothesis Hmax : me_maxpg <= 2 ^ 31.
Hypothesis Hl : lists_ok w.
Hypothesis Hr : replaced recs w w' p q np pg par.

Lemma rp_find (x : Z) : x <> q -> find_dirty (a_dirty (w_alloc w')) x = find_dirty (a_dirty (w_alloc w)) x.
Proof.
  intros Hx. destruct (find_dirty (a_dirty (w_alloc w)) x) as [e|] eqn:E.
  - apply (find_dirty_elem w e x Hl) in E as [He Hm]. apply (find_dirty_elem w' e x (rp_lists _ _ _ _ _ _ _ _ Hr)).
    split; [|done]. apply Hr. by right.
  - pose proof (proj1 (find_dirty_none w x Hl) E) as Hno. apply (find_dirty_none w' x (rp_lists _ _ _ _ _ _ _ _ Hr)).
    intros e He. apply Hr in He as [->|He]; [cbn; congruence|by apply Hno].
Qed.

(** The other pages stay where they are. *)
Lemma rp_locate (x : Z) : x <> q -> 0 <= x < next_of w -> place w' x = place w x.
Proof.
  intros Hx Hlt. pose proof (rp_next _ _ _ _ _ _ _ _ Hr). pose proof (lo_next _ (rp_lists _ _ _ _ _ _ _ _ Hr)).
  rewrite !locate_ok by (done || apply Hr || lia). rewrite rp_find by done.
  pose proof (rp_spilled _ _ _ _ _ _ _ _ Hr x Hx) as Hs.
  destruct (decide (2 * x ∈ spilled_of w)), (decide (2 * x ∈ spilled_of w')); try done; try tauto.
  destruct (find_dirty _ x); [done|]. by rewrite !decide_True by lia.
Qed.

Lemma rp_view (x : Z) : x <> q -> 0 <= x < next_of w -> (forall g m', par = Some (g, m') -> x <> g) -> seen w' x = seen w x.
Proof.
  intros Hx Hlt Hg. unfold view. rewrite rp_locate by done. pose proof (lo_next _ Hl).
  rewrite locate_ok by (done || lia). destruct (decide (2 * x ∈ spilled_of w)); [done|].
  destruct (find_dirty _ x) as [e|] eqn:E; [|by destruct (decide (x < next_of w))].
  apply (find_dirty_elem w e x Hl) in E as [He Hm]. cbn [mbind option_bind deref]. apply (rp_mem _ _ _ _ _ _ _ _ Hr); auto; [congruence|].
  intros g m' E. rewrite Hm. by apply (Hg g m').
Qed.

Lemma rp_view_q : 0 <= q < 2 ^ 63 -> place w' q = Some (Heap np) /\ seen w' q = Some pg.
Proof.
  intros Hq. pose proof (rp_lists _ _ _ _ _ _ _ _ Hr) as Hl'.
  assert (ID2 q np ∈ dirty_of w') as He by (apply Hr; by left).
  assert (place w' q = Some (Heap np)) as E.
  { rewrite locate_ok by done. rewrite decide_False by (apply (lo_disj _ Hl' _ He)).
    by rewrite (proj2 (find_dirty_elem w' (ID2 q np) q Hl') (conj He eq_refl)). }
  split; [done|]. unfold view. rewrite E. apply Hr.
Qed.

Lemma rp_view_par (g : Z) (m' : list Z) : par = Some (g, m') -> 0 <= g < 2 ^ 63 -> seen w' g = Some m'.
Proof.
  intros E Hg. pose proof (rp_par _ _ _ _ _ _ _ _ Hr) as Hp. rewrite E in Hp. destruct Hp as (Hne & e & He & Hm & Hmem).
  pose proof (rp_lists _ _ _ _ _ _ _ _ Hr) as Hl'. assert (e ∈ dirty_of w') as He' by (apply Hr; by right).
  unfold view. rewrite locate_ok by done. rewrite <- Hm. rewrite decide_False by (apply (lo_disj _ Hl' _ He')).
  by rewrite (proj2 (find_dirty_elem w' e (mid e) Hl') (conj He' eq_refl)).
Qed.
End Replaced.
End Inv.

#[global] Arguments rp_lists {_ _ _ _ _ _ _ _ _ _ _ _} _.
#[global] Arguments rp_alloc {_ _ _ _ _ _ _ _ _ _ _ _} _.
#[global] Arguments rp_next {_ _ _ _ _ _ _ _ _ _ _ _} _.
#[global] Arguments rp_spilled {_ _ _ _ _ _ _ _ _ _ _ _} _.
#[global] Arguments rp_dirty {_ _ _ _ _ _ _ _ _ _ _ _} _.
#[global] Arguments rp_reuse {_ _ _ _ _ _ _ _ _ _ _ _} _.
#[global] Arguments rp_np {_ _ _ _ _ _ _ _ _ _ _ _} _.
#[global] Arguments rp_par {_ _ _ _ _ _ _ _ _ _ _ _} _.
#[global] Arguments rp_mem {_ _ _ _ _ _ _ _ _ _ _ _} _.
#[global] Arguments rp_pool {_ _ _ _ _ _ _ _ _ _ _ _} _.
#[global] Arguments lo_flags {_ _ _} _.
#[global] Arguments lo_spill {_ _ _} _.
#[global] Arguments lo_dirty {_ _ _} _.
#[global] Arguments lo_twin {_ _ _} _.
#[global] Arguments lo_spills {_ _ _} _.
#[global] Arguments lo_disj {_ _ _} _.
#[global] Arguments lo_mem {_ _ _} _.
#[global] Arguments lo_ptrs {_ _ _} _.
#[global] Arguments lo_dpages {_ _ _} _.
#[global] Arguments lo_loose {_ _ _} _.
#[global] Arguments lo_next {_ _ _} _.
#[global] Arguments lo_freed {_ _ _} _.

(** ** The invariant and what replacing a page does to it *)

Lemma node_pages_sub (leafp : list Z -> list Z) (get : Z -> option (list Z)) (h : nat) : forall m,
  gen_pages (fun _ => []) get h m ⊆+ gen_pages leafp get h m.
Proof.
  induction h as [|h IH]; intros m; cbn [gen_pages]; [apply submseteq_nil_l|].
  generalize (seqZ 0 (p_num m)). intros ks. induction ks as [|k ks IHk]; cbn [fmap list_fmap concat]; [done|].
  apply submseteq_app; [|done]. apply submseteq_skip. destruct (get (n_pgno m k)); [apply IH|done].
Qed.

Definition first_key_ok (D : MDB_val -> Prop) (m : list Z) : Prop :=
  p_leaf m = false -> 0 < p_num m -> mv_size (n_key m 0) = 0 \/ D (n_key m 0).

Lemma first_key_ok_copy (D : MDB_val -> Prop) (k : option Z) (m m' : list Z) : page_wf m ->
  (forall i, k = Some i -> p_leaf m = false /\ 0 <= i < p_num m) -> page_copy k m m' -> first_key_ok D m -> first_key_ok D m'.
Proof.
  intros Hwf Hk Hc Hf Hl Hn. rewrite (pc_leaf _ _ _ Hc) in Hl. rewrite (pc_num _ _ _ Hwf Hk Hc) in Hn.
  rewrite (pc_key _ _ _ Hwf Hk Hc) by lia. by apply Hf.
Qed.

Section Cow.
Variable file : Z -> option (list Z).
Variables (me_flags me_psize me_maxpg : Z) (readers : option (list MDB_reader * Z)) (mt_txnid : Z).
Hypothesis Hwm : Z.land me_flags MDB_WRITEMAP = 0.
Hypothesis Hps : 0 < me_psize.
Hypothesis Hmax : me_maxpg <= 2 ^ 31.
Abbreviation seen := (view file me_flags []).
Abbreviation place := (locate me_flags []).
(** The database and the free-page database. *)
Context (md_cmp : MDB_cmp_func) (D : MDB_val -> Prop) (ord : MDB_val -> MDB_val -> Z) (H : nat) (es : list (MDB_val * MDB_val)).
Variables (free_root : Z) (rootf : list Z) (hf : nat) (esf : list (MDB_val * MDB_val)) (recs : list free_rec).
Abbreviation whole := (whole md_cmp D ord).
Abbreviation pages := (sub_pages (leaf_pages me_psize)).

(** A page of the tree: it has its number, is dirty if it is in the dirty
    list, and the first key of a branch page, which is not used, is empty or a
    key. *)
Definition page_state (w : wtxn) (p : Z) : Prop :=
  exists m, seen w p = Some m /\ zlen m = me_psize /\ pgno_of m = p /\ F_ISSET (p_flags m) P_OVERFLOW = false /\
    (p_dirty m = true <-> find_dirty (a_dirty (w_alloc w)) p <> None) /\ first_key_ok D m.

Definition free_db_pages (w : wtxn) : list Z := match esf with [] => [] | _ => pages (seen w) hf free_root end.

(** All pages: of the database, of the free-page database, not in use. *)
Definition all_pages (w : wtxn) : list Z := pages (seen w) H (w_root w) ++ free_db_pages w ++ pool recs w.

Record cow_inv (w : wtxn) : Prop := {
  ci_lists : lists_ok me_psize me_maxpg w;
  ci_alloc : alloc_inv readers mt_txnid recs (w_alloc w);
  ci_tree : exists root, seen w (w_root w) = Some root /\ tree (seen w) md_cmp D ord H root es;
  ci_pages : Forall (page_state w) (sub_pages (fun _ => []) (seen w) H (w_root w));
  ci_free : db_ok (seen w) cmp_cint free_root (sized 8) num_ord rootf hf esf;
  ci_recs : Forall2 rec_item recs esf;
  ci_unique : NoDup (all_pages w);
  ci_below x : x ∈ all_pages w -> 1 < x < next_of w;
  ci_spilled x : 2 * x ∈ spilled_of w -> x < next_of w /\ x ∉ reusable recs w
}.

(** Every page is still there, and new ones are at the end of the map. *)
Definition accounted (w w' : wtxn) : Prop :=
  next_of w <= next_of w' /\ Permutation (all_pages w') (seqZ (next_of w) (next_of w' - next_of w) ++ all_pages w).

(** What becomes of the parent. *)
Definition parent_ok (w w' : wtxn) (up : list frame) (q : Z) (par : option (Z * list Z)) (m' : list Z) : Prop :=
  match up with
  | [] => par = None /\ w_root w' = q
  | g :: _ => (par = Some (fr_pgno g, m') \/ par = None /\ m' = fr_page g) /\
      page_copy (Some (fr_ki g)) (fr_page g) m' /\ m' <> [] /\ n_pgno m' (fr_ki g) = q /\
      pgno_of m' = pgno_of (fr_page g) /\ p_flags m' = p_flags (fr_page g) /\ w_root w' = w_root w
  end.

Section Step.
Variables (w w' : wtxn) (low up : list frame) (f : frame) (h : nat) (lft cur rgt : list (MDB_val * MDB_val)).
Variables (q np : Z) (pg m' : list Z) (par : option (Z * list Z)).
Hypothesis Hinv : cow_inv w.
Hypothesis Hw : whole (seen w) H (w_root w) (low ++ f :: up) h lft cur rgt.
Hypothesis Hes : es = lft ++ cur ++ rgt.
Hypothesis Hr : replaced me_psize me_maxpg readers mt_txnid recs w w' (fr_pgno f) q np pg par.
Hypothesis Hpar : parent_ok w w' up q par m'.
Hypothesis Hcopy : page_copy None (fr_page f) pg.
Hypothesis Hpg : pg <> [].
Hypothesis Hpq : pgno_of pg = q.
Hypothesis Hpd : p_dirty pg = true.
Hypothesis Hpo : F_ISSET (p_flags pg) P_OVERFLOW = false.
Let Hl := ci_lists w Hinv.

Lemma frames_nodup : NoDup (numbers (low ++ f :: up)).
Proof.
  pose proof (ci_unique w Hinv) as Hnd. apply NoDup_app in Hnd as (Hnd & _ & _). by eapply (whole_nodup md_cmp D ord).
Qed.

Lemma frame_in : fr_pgno f ∈ pages (seen w) H (w_root w).
Proof. eapply (whole_in md_cmp D ord); [exact Hw|]. apply elem_of_app. right. by left. Qed.

(** The other pages of the path. *)
Lemma other_in (g : frame) : g ∈ low ++ up -> fr_pgno g ∈ pages (seen w) H (w_root w) /\ fr_pgno g <> fr_pgno f.
Proof.
  intros Hg. split.
  - eapply (whole_in md_cmp D ord); [exact Hw|]. rewrite elem_of_app in Hg. rewrite elem_of_app, elem_of_cons. tauto.
  - intros E. pose proof frames_nodup as Hnd. unfold numbers in Hnd. rewrite fmap_app in Hnd. cbn [fmap list_fmap] in Hnd.
    rewrite <- Permutation_middle, <- fmap_app in Hnd. apply NoDup_cons in Hnd as [Hnd _]. apply Hnd. rewrite <- E.
    by apply list_elem_of_fmap_2.
Qed.

Lemma parent_in (x : Z) : parent_is up x -> x ∈ pages (seen w) H (w_root w) /\ x <> fr_pgno f.
Proof.
  intros Hx. assert (exists g, g ∈ up /\ x = fr_pgno g) as (g & Hg & ->).
  { destruct up as [|g up']; [done|]. exists g. split; [by left|done]. }
  apply other_in, elem_of_app. by right.
Qed.

(** The new number is not one of another page in use. *)
Lemma q_fresh (x : Z) : x ∈ pages (seen w) H (w_root w) \/ x ∈ free_db_pages w -> x <> fr_pgno f -> x <> q.
Proof.
  intros Hx Hne ->. pose proof (ci_unique w Hinv) as Hnd. pose proof (ci_below w Hinv) as Hb. unfold all_pages in *.
  assert (q ∈ pages (seen w) H (w_root w) ++ free_db_pages w) as Hx' by (by apply elem_of_app).
  destruct (rp_pool Hr) as [[Hp _]|(_ & E & _)].
  - assert (q ∈ fr_pgno f :: pool recs w) as Hq by (rewrite <- Hp; by left). apply elem_of_cons in Hq as [|Hq]; [done|].
    rewrite app_assoc in Hnd. apply NoDup_app in Hnd as (_ & Hd & _). by apply (Hd q).
  - specialize (Hb q). rewrite app_assoc, elem_of_app in Hb. destruct (Hb (or_introl Hx')). lia.
Qed.

Lemma q_range : 1 < q < next_of w'.
Proof.
  pose proof (ci_below w Hinv) as Hb. pose proof (rp_next Hr). unfold all_pages in Hb.
  destruct (rp_pool Hr) as [[Hp _]|(_ & E & ?)].
  - assert (q ∈ fr_pgno f :: pool recs w) as Hq by (rewrite <- Hp; by left).
    assert (1 < q < next_of w); [|lia]. apply Hb. rewrite !elem_of_app. apply elem_of_cons in Hq as [->|Hq]; [left; apply frame_in|tauto].
  - assert (1 < fr_pgno f < next_of w) by (apply Hb; rewrite !elem_of_app; left; apply frame_in). lia.
Qed.

(** The pages in use that are not replaced. *)
Lemma view_same (x : Z) : x ∈ pages (seen w) H (w_root w) \/ x ∈ free_db_pages w -> x <> fr_pgno f -> ~ parent_is up x ->
  seen w' x = seen w x.
Proof.
  intros Hx Hne Hnp. pose proof (ci_below w Hinv x) as Hb. unfold all_pages in Hb. rewrite !elem_of_app in Hb.
  apply (rp_view file me_flags me_psize me_maxpg readers mt_txnid Hwm recs w w' _ q np pg par Hmax Hl Hr).
  - by apply q_fresh.
  - assert (1 < x < next_of w) by (apply Hb; tauto). lia.
  - intros g m1 E ->. apply Hnp. destruct up as [|g0 up']; destruct Hpar as [Hp _]; [congruence|]. cbn [parent_is].
    destruct Hp as [Hp|[Hp _]]; congruence.
Qed.

Lemma step_repointed : repointed (seen w') m' q up /\ w_root w' = new_root (w_root w) q up.
Proof.
  pose proof (parent_in) as Hpi. pose proof Hpar as Hp. destruct up as [|g up']; [by destruct Hp|].
  destruct Hp as (Hp & Hc & Hn & Hq & Hpgno & Hfl & Hroot). cbn [repointed new_root]. split; [|done]. split_and!; auto.
  destruct (Hpi (fr_pgno g) eq_refl) as [Hin Hne].
  assert (1 < fr_pgno g < next_of w) as Hb by (apply (ci_below w Hinv); unfold all_pages; rewrite !elem_of_app; tauto).
  pose proof (lo_next Hl). destruct Hp as [Hp|[Hp ->]].
  - apply (rp_view_par file me_flags me_psize me_maxpg readers mt_txnid Hwm recs w w' _ q np pg par Hr _ _ Hp). lia.
  - rewrite (rp_view file me_flags me_psize me_maxpg readers mt_txnid Hwm recs w w' _ q np pg par Hmax Hl Hr).
    + eapply (whole_get md_cmp D ord (seen w)); [exact Hw|]. apply elem_of_app. right. right. by left.
    + apply q_fresh; [by left|done].
    + lia.
    + intros g' m1 E. congruence.
Qed.



Lemma main_nodup : NoDup (pages (seen w) H (w_root w)).
Proof. pose proof (ci_unique w Hinv) as Hnd. by apply NoDup_app in Hnd as [? _]. Qed.

Lemma q_view : place w' q = Some (Heap np) /\ seen w' q = Some pg.
Proof.
  pose proof q_range as Hq. pose proof (lo_next (rp_lists Hr)).
  apply (rp_view_q file me_flags me_psize me_maxpg readers mt_txnid Hwm recs w w' _ q np pg par Hr). lia.
Qed.

(** The tree with its path. *)
Lemma step_whole : whole (seen w') H (w_root w') (low ++ Frame q pg (fr_ki f) :: repoint m' up) h lft cur rgt /\
  (forall e, in_frames D ord (tail (low ++ f :: up)) e ->
    in_frames D ord (tail (low ++ Frame q pg (fr_ki f) :: repoint m' up)) e) /\
  forall leafp, leafp_copies leafp -> exists l, Permutation (sub_pages leafp (seen w) H (w_root w)) (fr_pgno f :: l) /\
    Permutation (sub_pages leafp (seen w') H (w_root w')) (q :: l).
Proof.
  destruct step_repointed as [Hrep ->]. destruct q_view as [_ Hvq]. pose proof main_nodup as Hnd.
  assert (forall x, x ∈ pages (seen w) H (w_root w) -> x <> fr_pgno f -> ~ parent_is up x -> seen w' x = seen w x) as Hs.
  { intros x Hx. apply view_same. by left. }
  destruct low as [|top lo]; cbn [app] in *.
  - by apply (whole_top md_cmp D ord me_psize Hps (seen w) (seen w') H (w_root w) q f up pg m' Hcopy Hpg Hvq Hrep Hnd Hs).
  - by apply (whole_below md_cmp D ord me_psize Hps (seen w) (seen w') H (w_root w) q f up pg m' Hcopy Hpg Hvq Hrep Hnd Hs).
Qed.

(** The free-page database is as it was. *)
Lemma step_free : db_ok (seen w') cmp_cint free_root (sized 8) num_ord rootf hf esf /\ free_db_pages w' = free_db_pages w.
Proof.
  pose proof (ci_free w Hinv) as Hf. unfold free_db_pages. destruct Hf as [[E ->]|[Hg Hn Ht Hne Hh]].
  { rewrite E. split; [left; done|done]. }
  assert (forall x, x ∈ pages (seen w) hf free_root -> seen w' x = seen w x) as Hs.
  { intros x Hx. assert (x ∈ free_db_pages w) as Hx'. { unfold free_db_pages. by destruct esf. }
    assert (x ∉ pages (seen w) H (w_root w)) as Hno.
    { intros Hin. pose proof (ci_unique w Hinv) as Hnd. unfold all_pages in Hnd. apply NoDup_app in Hnd as (_ & Hd & _).
      apply (Hd x Hin), elem_of_app. by left. }
    apply view_same; [by right| |].
    - intros ->. apply Hno, frame_in.
    - intros Hp. by apply Hno, parent_in. }
  assert (seen w' free_root = Some rootf) as Hg' by (rewrite Hs; [done|by left]).
  destruct (tree_frame cmp_cint (sized 8) num_ord me_psize Hps (seen w) (seen w') hf rootf esf Ht) as [Ht' Hp'].
  { intros x Hx. apply Hs. right. by rewrite Hg. }
  split; [right; by split|]. destruct esf; [done|]. unfold sub_pages. by rewrite Hg, Hg', Hp'.
Qed.

Lemma old_length : zlen (fr_page f) = me_psize.
Proof.
  destruct step_whole as (_ & _ & Hperm). destruct (Hperm _ no_pages_copies) as (l & Hp & _).
  pose proof (ci_pages w Hinv) as Hall. rewrite Hp in Hall. apply Forall_cons in Hall as [(m & Hm & Hlen & _) _].
  assert (seen w (fr_pgno f) = Some (fr_page f)) as E.
  { eapply (whole_get md_cmp D ord (seen w)); [exact Hw|]. apply elem_of_app. right. by left. }
  congruence.
Qed.

Lemma top_state : first_key_ok D pg.
Proof.
  assert (f ∈ low ++ f :: up) as Hf by (apply elem_of_app; right; by left).
  pose proof (ci_pages w Hinv) as Hall. rewrite Forall_forall in Hall.
  destruct (Hall (fr_pgno f)) as (m & Hm & _ & _ & _ & _ & Hk); [eapply (whole_in md_cmp D ord); [exact Hw|done]|].
  destruct (whole_get md_cmp D ord _ H _ f _ _ _ _ _ Hw Hf) as [Hs _]. assert (m = fr_page f) as -> by congruence.
  eapply (first_key_ok_copy D None); [by eapply (whole_page md_cmp D ord)|done|exact Hcopy|done].
Qed.

Lemma step_pages : Forall (page_state w') (sub_pages (fun _ => []) (seen w') H (w_root w')).
Proof.
  destruct step_whole as (_ & _ & Hperm). destruct (Hperm _ no_pages_copies) as (l & Hp & Hp'). rewrite Hp'.
  pose proof (ci_pages w Hinv) as Hall. rewrite Hp in Hall. apply Forall_cons in Hall as [_ Hall].
  assert (forall x, x ∈ l -> x ∈ pages (seen w) H (w_root w) /\ x <> fr_pgno f) as Hin.
  { assert (fr_pgno f :: l ⊆+ pages (seen w) H (w_root w)) as Hsub.
    { rewrite <- Hp. unfold sub_pages. apply submseteq_skip. destruct (seen w (w_root w)); [apply node_pages_sub|done]. }
    intros x Hx. split; [apply (elem_of_submseteq (fr_pgno f :: l) _ x); [by right|done]|].
    intros ->. apply submseteq_Permutation in Hsub as (l' & Hsub). pose proof main_nodup as Hnd. rewrite Hsub in Hnd.
    cbn [app] in Hnd. apply NoDup_cons in Hnd as [Hnd _]. apply Hnd, elem_of_app. by left. }
  pose proof (rp_lists Hr) as Hl'. apply Forall_cons. split.
  - destruct q_view as [_ Hvq]. exists pg. split; [done|]. split; [rewrite (pc_len _ _ _ Hcopy); apply old_length|].
    split; [done|]. split; [done|]. split; [|apply top_state].
    rewrite Hpd. split; [|done]. intros _ E. apply (proj1 (find_dirty_none me_psize me_maxpg w' q Hl') E (ID2 q np)); [|done].
    apply (rp_dirty Hr). by left.
  - apply Forall_forall. intros x Hx. destruct (Hin x Hx) as [Hxp Hxf].
    rewrite Forall_forall in Hall. destruct (Hall x Hx) as (m & Hm & Hlen & Hno & Hov & Hd & Hk).
    assert (find_dirty (a_dirty (w_alloc w')) x = find_dirty (a_dirty (w_alloc w)) x) as Ef.
    { apply (rp_find me_psize me_maxpg readers mt_txnid recs w w' _ q np pg par Hl Hr). apply q_fresh; [by left|done]. }
    unfold page_state. rewrite Ef. destruct (decide (parent_is up x)) as [Hpa|Hpa]; [|exists m; rewrite view_same by auto; by repeat (split; [assumption|])].
    destruct step_repointed as [Hrep _]. destruct up as [|g up'] eqn:Eup; [done|]. cbn [parent_is] in Hpa. subst x.
    cbn [repointed] in Hrep. destruct Hrep as (_ & _ & _ & Hg).
    destruct Hpar as (_ & Hc & _ & _ & En & Efl & _).
    assert (seen w (fr_pgno g) = Some (fr_page g)) as E.
    { eapply (whole_get md_cmp D ord (seen w)); [exact Hw|]. apply elem_of_app. right. right. by left. }
    assert (m = fr_page g) as -> by congruence. exists m'. split_and!; [by rewrite Hpa|rewrite (pc_len _ _ _ Hc); exact Hlen|congruence|by rewrite Efl|unfold p_dirty in *; rewrite Efl; apply Hd|].
    destruct (whole_child md_cmp D ord _ H _ f g low up' _ _ _ _ Hw) as (_ & Hgl & Hgk).
    eapply (first_key_ok_copy D (Some (fr_ki g)) (fr_page g)); [|by intros i [= <-]|exact Hc|done]. eapply (whole_page md_cmp D ord); [exact Hw|].
    apply elem_of_app. right. right. by left.
Qed.

Lemma step_account : accounted w w'.
Proof.
  destruct step_whole as (_ & _ & Hperm). destruct step_free as [_ Hfp]. destruct (Hperm _ (leaf_pages_copies me_psize)) as (l & Hp & Hp').
  split; [apply Hr|]. unfold all_pages. rewrite Hfp, Hp, Hp'. destruct (rp_pool Hr) as [[Hpl ->]|(Hpl & Eq & ->)].
  - rewrite Z.sub_diag. cbn [seqZ app]. transitivity (l ++ free_db_pages w ++ q :: pool recs w'); [solve_Permutation|].
    rewrite Hpl. solve_Permutation.
  - replace (next_of w + 1 - next_of w) with 1 by lia. change (seqZ (next_of w) 1) with [0 + next_of w].
    rewrite Z.add_0_l, Hpl, <- Eq. solve_Permutation.
Qed.

(** The step keeps the invariant. *)
Lemma step_inv : cow_inv w'.
Proof.
  destruct step_whole as (Hw' & _ & Hperm). destruct step_free as [Hf' Hfp]. destruct step_account as [Hnx Hall].
  pose proof (ci_unique w Hinv) as Hnd. pose proof (ci_below w Hinv) as Hb.
  split; auto.
  - apply Hr.
  - apply Hr.
  - rewrite Hes. destruct low as [|top lo]; cbn [app] in Hw'; destruct (whole_tree _ _ _ _ _ _ _ _ _ _ _ _ Hw') as (root' & Hr' & _ & Ht' & _);
      by exists root'.
  - apply step_pages.
  - apply Hinv.
  - rewrite Hall. apply NoDup_app. split; [apply NoDup_seqZ|]. split; [|done]. intros x Hx%elem_of_seqZ Hx'%Hb. lia.
  - assert (1 < fr_pgno f < next_of w) by (apply Hb; unfold all_pages; rewrite !elem_of_app; left; apply frame_in).
    intros x Hx. rewrite Hall in Hx. apply elem_of_app in Hx as [Hx%elem_of_seqZ|Hx%Hb]; lia.
  - intros x Hx. pose proof (rp_lists Hr) as Hl'. destruct (decide (x = q)) as [->|Hne].
    + exfalso. apply (lo_disj Hl' (ID2 q np)); [|done]. apply (rp_dirty Hr). by left.
    + apply (rp_spilled Hr x Hne) in Hx. destruct (ci_spilled w Hinv x Hx) as [Hx1 Hx2]. split; [lia|].
      intros Hx'. by apply Hx2, (rp_reuse Hr).
Qed.

Lemma step_places (g : frame) : g ∈ low ++ up -> place w' (fr_pgno g) = place w (fr_pgno g).
Proof.
  intros Hg. destruct (other_in g Hg) as [Hin Hne].
  assert (1 < fr_pgno g < next_of w) as Hb by (apply (ci_below w Hinv); unfold all_pages; rewrite !elem_of_app; tauto).
  apply (rp_locate file me_flags me_psize me_maxpg readers mt_txnid Hwm recs w w' _ q np pg par Hmax Hl Hr); [|lia].
  apply q_fresh; [by left|done].
Qed.

Lemma step_done : cow_inv w' /\ accounted w w' /\ whole (seen w') H (w_root w') (low ++ Frame q pg (fr_ki f) :: repoint m' up) h lft cur rgt /\
  place w' q = Some (Heap np) /\ (forall g, g ∈ low ++ up -> place w' (fr_pgno g) = place w (fr_pgno g)) /\
  forall e, in_frames D ord (tail (low ++ f :: up)) e -> in_frames D ord (tail (low ++ Frame q pg (fr_ki f) :: repoint m' up)) e.
Proof.
  split; [apply step_inv|]. split; [apply step_account|]. split; [apply step_whole|]. split; [apply q_view|].
  split; [apply step_places|apply step_whole].
Qed.
End Step.
End Cow.
