(* ===== verification/TouchSteps.v ===== *)
(** * Replacing one page ([src/LegacyDatabase/mdb.c])

    What gives a page of a tree its new place: memory for it
    ([mdb_page_malloc]), a page read back that had been spilled
    ([mdb_page_unspill]), a new page ([mdb_page_alloc]) with the copy, and the
    parent that gets the new number.  Each ends in an error or in the step
    [replaced] of [TouchInv]. *)
From S2P Require Import Prelude.
From S2P Require Import Bytes.
From S2P Require Import Midl.
From S2P Require Import Page.
From S2P Require Import PageSpec.
From S2P Require Import NodeOps.
From S2P Require Import NodeDel.
From S2P Require Import Cmp.
From S2P Require Import NodeSearch.
From S2P Require Import Cursor.
From S2P Require Import PageList.
From S2P Require Import Tree.
From S2P Require Import CursorPath.
From S2P Require Import CursorSim.
From S2P Require Import PageAlloc.
From S2P Require Import FreeDb.
From S2P Require Import Cow.
From S2P Require Import Touch.
From S2P Require Import TouchInv.
From Stdlib Require Import ZArith Lia.
From stdpp Require Import base numbers option list gmap.
Open Scope Z_scope.

(** ** The list of freed pages *)

Lemma xappend_ok (m : midl) (x : Z) : midl_wf m -> zn (cells m) 0 + 1 <= alloclen m ->
  exists ids, mdb_midl_xappend (cells m) x = Some ids /\ midl_wf (Midl (alloclen m) ids) /\ midl_ids ids = midl_ids (cells m) ++ [x].
Proof.
  intros (Hlen & Hc & Hb) Hr. unfold mdb_midl_xappend. rewrite aget_in by lia. cbn [mbind option_bind]. arr.
  eexists. split; [reflexivity|]. split.
  - repeat split; cbn [cells alloclen]; arr; lia.
  - apply midl_ids_app; arr; try lia.
    + intros i Hi. by arr.
    + intros i Hi. autorewrite with arr in Hi. assert (i = 0) as -> by lia. by arr.
Qed.

(** ** The spill list *)

Lemma spill_search_at (sl : list Z) (pn : Z) : spill_wf sl ->
  exists r, spill_search (Some sl) pn = Some r /\
    match r with None => pn ∉ midl_ids sl | Some x => 1 <= x <= zn sl 0 /\ zn sl x = pn end.
Proof.
  intros (Hn & Hl & Hd). unfold spill_search.
  destruct (mdb_midl_search_ok sl pn Hn Hl Hd) as (x & -> & Hx & Hlo & Hhi). cbn [mbind option_bind].
  rewrite (aget_in sl 0) by lia. cbn [mbind option_bind].
  assert (zn sl x <> pn \/ zn sl 0 < x -> pn ∉ midl_ids sl) as Hno.
  { intros Hne (i & Hi & Ei)%elem_of_midl_ids; [|lia]. destruct (Z.lt_trichotomy i x) as [Hlt|[->|Hgt]].
    - pose proof (Hlo i). lia.
    - lia.
    - pose proof (Hd x i). pose proof (Hhi x). lia. }
  destruct (Z.leb_spec x (zn sl 0)); [|exists None; split; [done|]; apply Hno; by right].
  rewrite aget_in by lia. cbn [mbind option_bind].
  destruct (Z.eqb_spec (zn sl x) pn); eexists; (split; [done|]); [by split; [lia|]|]. apply Hno. by left.
Qed.

Lemma lor_1 (p : Z) : 0 <= p -> Z.lor (2 * p) 1 = 2 * p + 1.
Proof. destruct p; [done|done|lia]. Qed.

(** The page leaves the list, or its number becomes odd. *)
Lemma unlist_spill_ok (sl : list Z) (x p : Z) : spill_wf sl -> (forall y, 2 * y ∈ midl_ids sl -> 2 * y + 1 ∉ midl_ids sl) ->
  0 <= p -> 1 <= x <= zn sl 0 -> zn sl x = 2 * p ->
  exists sl', unlist_spill sl x = Some sl' /\ spill_wf sl' /\
    forall y, y ∈ midl_ids sl' <-> y ∈ midl_ids sl /\ y <> 2 * p \/ y = 2 * p + 1 /\ x <> zn sl 0.
Proof.
  intros (Hn & Hl & Hd) Htw Hp Hx E. unfold unlist_spill. rewrite (aget_in sl 0) by lia. cbn [mbind option_bind].
  destruct (Z.eqb_spec x (zn sl 0)) as [Ex|Ex].
  - rewrite aset_in by lia. eexists. split; [reflexivity|]. set (sl' := zset sl 0 (zn sl 0 - 1)).
    assert (zlen sl' = zlen sl) as Hlen by apply zlen_zset.
    assert (zn sl' 0 = zn sl 0 - 1) as E0 by (apply zn_zset_eq; lia).
    assert (forall i, 1 <= i -> zn sl' i = zn sl i) as Hi by (intros; apply zn_zset_ne; lia).
    split; [split; [lia|split; [lia|]]|].
    + intros i j Hi1 Hij Hj. rewrite !Hi by lia. apply Hd; lia.
    + intros y. rewrite !elem_of_midl_ids by lia. split.
      * intros (i & Hi1 & Hy). rewrite Hi in Hy by lia. left. split; [exists i; split; [lia|done]|].
        pose proof (Hd i x). lia.
      * intros [[(i & Hi1 & Hy) Hne]|[_ []]]; [|done]. exists i. rewrite E0, (Hi i) by lia. split; [|done].
        destruct (decide (i = x)) as [->|]; [congruence|lia].
  - rewrite (aget_in sl x) by lia. cbn [mbind option_bind]. rewrite E, lor_1 by done.
    rewrite aset_in by lia. eexists. split; [reflexivity|]. set (sl' := zset sl x (2 * p + 1)).
    assert (zlen sl' = zlen sl) as Hlen by apply zlen_zset.
    assert (forall i, 0 <= i -> i <> x -> zn sl' i = zn sl i) as Hi by (intros; apply zn_zset_ne; lia).
    assert (zn sl' x = 2 * p + 1) as E1 by (apply zn_zset_eq; lia).
    assert (forall i, 1 <= i <= zn sl 0 -> zn sl i <> 2 * p + 1) as Hno.
    { intros i Hi1 Hy. apply (Htw p); apply elem_of_midl_ids; try lia; [by exists x|by exists i]. }
    split; [split; [rewrite Hi by lia; lia|split; [rewrite Hi by lia; lia|]]|].
    + intros i j Hi1 Hij Hj. rewrite Hi in Hj by lia.
      destruct (decide (i = x)) as [->|]; destruct (decide (j = x)) as [->|]; [lia|..].
      * rewrite E1, (Hi j) by lia. pose proof (Hd x j). lia.
      * rewrite E1, (Hi i) by lia. pose proof (Hd i x). pose proof (Hno i). lia.
      * rewrite !Hi by lia. apply Hd; lia.
    + intros y. rewrite !elem_of_midl_ids by (rewrite ?(Hi 0) by lia; lia). rewrite Hi by lia. split.
      * intros (i & Hi1 & Hy). destruct (decide (i = x)) as [->|]; [right; split; [lia|done]|].
        rewrite Hi in Hy by lia. left. split; [by exists i|]. pose proof (Hd i x). pose proof (Hd x i). lia.
      * intros [[(i & Hi1 & Hy) Hne]|[-> _]]; [|by exists x]. exists i. rewrite Hi; [done|lia|]. intros ->. congruence.
Qed.

(** ** Memory for a page *)

(** [np] is a block that nothing uses; the rest is as it was. *)
Record grabbed (me_psize : Z) (w w1 : wtxn) (np : Z) : Prop := {
  gb_alloc : w_alloc w1 = w_alloc w;
  gb_free : w_free_pgs w1 = w_free_pgs w;
  gb_spill : w_spill w1 = w_spill w;
  gb_root : w_root w1 = w_root w;
  gb_cursors : w_cursors w1 = w_cursors w;
  gb_dpages a : a ∈ me_dpages w1 -> a ∈ me_dpages w;
  gb_fresh : np ∉ (mptr <$> dirty_of w);
  gb_ptrs : NoDup (np :: (mptr <$> dirty_of w) ++ me_dpages w1);
  gb_block : page_block me_psize w1 np;
  gb_mem a : a <> np -> w_mem w1 !! a = w_mem w !! a;
  gb_origin : np ∈ me_dpages w \/ w_mem w !! np = None
}.

#[global] Arguments gb_alloc {_ _ _ _} _.
#[global] Arguments gb_free {_ _ _ _} _.
#[global] Arguments gb_spill {_ _ _ _} _.
#[global] Arguments gb_root {_ _ _ _} _.
#[global] Arguments gb_cursors {_ _ _ _} _.
#[global] Arguments gb_dpages {_ _ _ _} _.
#[global] Arguments gb_fresh {_ _ _ _} _.
#[global] Arguments gb_ptrs {_ _ _ _} _.
#[global] Arguments gb_block {_ _ _ _} _.
#[global] Arguments gb_mem {_ _ _ _} _.
#[global] Arguments gb_origin {_ _ _ _} _.

Section Steps.
Variable file : Z -> option (list Z).
Variables (me_flags me_map me_psize me_maxpg : Z).
Variable os_malloc : gmap Z (list Z) -> Z -> option (Z * list Z).
Variables (junk : nat -> Z) (mem_ok : Z -> bool) (need_ok : bool).
Variables (mt_txnid : Z) (readers : option (list MDB_reader * Z)).
Hypothesis Hwm : Z.land me_flags MDB_WRITEMAP = 0.
Hypothesis Hps : 16 <= me_psize.
Hypothesis Hmax : me_maxpg <= 2 ^ 31.
Hypothesis Hmalloc : forall mem sz a b, os_malloc mem sz = Some (a, b) -> mem !! a = None /\ zlen b = sz /\ Forall is_byte b.
Abbreviation seen := (view file me_flags []).
Abbreviation place := (locate me_flags []).
Abbreviation lists_ok := (lists_ok me_psize me_maxpg).
Abbreviation page_malloc := (mdb_page_malloc me_flags me_psize os_malloc).

Lemma page_malloc_ok (w : wtxn) : lists_ok w ->
  exists r w1, page_malloc w 1 = Some (r, w1) /\
    match r with None => w1 = txn_error w | Some np => grabbed me_psize w w1 np end.
Proof.
  intros Hl. unfold mdb_page_malloc. destruct (me_dpages w) as [|a l] eqn:E.
  - unfold page_malloc_new. change (1 =? 1) with true. cbv iota. destruct (os_malloc (w_mem w) me_psize) as [[a b]|] eqn:Em; [|by eexists _, _].
    destruct (Hmalloc _ _ _ _ Em) as (Hn & Hlen & Hb).
    assert (exists b', (if nz (Z.land me_flags MDB_NOMEMINIT) then Some b
      else block ← bwrite b PAGEHDRSZ (replicate (Z.to_nat (me_psize - PAGEHDRSZ)) 0); set16 block 8 0) = Some b' /\
      zlen b' = me_psize /\ Forall is_byte b') as (b' & -> & Hlen' & Hb').
    { destruct (nz _); [by exists b|]. change PAGEHDRSZ with 16.
      destruct (bwrite_upd b 16 (replicate (Z.to_nat (me_psize - 16)) 0)) as (b1 & -> & U1); [lia|unfold zlen; rewrite length_replicate; fold (zlen b); lia|].
      cbn [mbind option_bind]. destruct (set16_upd b1 8 0) as (b2 & -> & U2); [lia|rewrite (u_len _ _ _ _ U1); lia|].
      exists b2. split; [done|]. split; [rewrite (u_len _ _ _ _ U2), (u_len _ _ _ _ U1); done|].
      apply U2; [|apply le_bytes_byte]. apply U1; [done|]. apply Forall_replicate. unfold is_byte. lia. }
    cbn [mbind option_bind]. eexists _, _. split; [done|].
    assert (a ∉ (mptr <$> dirty_of w)) as Hf.
    { intros (e & -> & He)%list_elem_of_fmap. destruct (lo_mem Hl e He) as (bb & Hbb). congruence. }
    split; try done.
    + cbn [set_mem me_dpages]. rewrite E, app_nil_r. apply NoDup_cons. split; [done|].
      pose proof (lo_ptrs Hl) as Hp. rewrite E, app_nil_r in Hp. done.
    + exists b'. split; [apply lookup_insert_eq|done].
    + intros x Hx. cbn [set_mem w_mem]. by rewrite lookup_insert_ne.
    + by right.
  - change (1 =? 1) with true. cbv iota. eexists _, _. split; [done|].
    pose proof (lo_ptrs Hl) as Hp. rewrite E in Hp.
    assert (Permutation ((mptr <$> dirty_of w) ++ a :: l) (a :: (mptr <$> dirty_of w) ++ l)) as Hpp by solve_Permutation.
    rewrite Hpp in Hp. split; try done.
    + cbn [set_dpages me_dpages]. intros x Hx. rewrite E. by right.
    + apply NoDup_cons in Hp as [Hp _]. intros Hx. apply Hp, elem_of_app. by left.
    + apply (lo_dpages Hl a). rewrite E. by left.
    + left. rewrite E. by left.
Qed.

(** ** Replacing a page *)

(** The places of dirty pages differ. *)
Lemma dirty_ptr_inj (w : wtxn) (e e' : MDB_ID2) : lists_ok w -> e ∈ dirty_of w -> e' ∈ dirty_of w -> mptr e = mptr e' -> e = e'.
Proof.
  intros Hl He He' E. pose proof (lo_ptrs Hl) as Hp. apply NoDup_app in Hp as (Hp & _ & _).
  apply list_elem_of_lookup in He as (i & Hi). apply list_elem_of_lookup in He' as (j & Hj).
  assert (i = j) as ->; [|congruence]. apply (NoDup_lookup (mptr <$> dirty_of w) i j (mptr e) Hp); rewrite list_lookup_fmap.
  - by rewrite Hi.
  - rewrite Hj. cbn. by rewrite E.
Qed.

Lemma dirty_not_dpage (w : wtxn) (e : MDB_ID2) : lists_ok w -> e ∈ dirty_of w -> mptr e ∉ me_dpages w.
Proof.
  intros Hl He Hd. pose proof (lo_ptrs Hl) as Hp. apply NoDup_app in Hp as (_ & Hp & _).
  apply (Hp (mptr e)); [|done]. apply list_elem_of_fmap. by exists e.
Qed.

Section Replace.
Variables (recs : list free_rec) (w w' : wtxn) (p q np : Z) (pg : list Z) (par : option (Z * list Z)).
Hypothesis Hl : lists_ok w.
Hypothesis Hal : alloc_inv readers mt_txnid recs (w_alloc w').
Hypothesis Hflags : a_mt_flags (w_alloc w') = a_mt_flags (w_alloc w).
Hypothesis Hsw : forall sl, w_spill w' = Some sl -> spill_wf sl.
Hypothesis Hst : forall x, 2 * x ∈ spilled_of w' -> 2 * x + 1 ∉ spilled_of w'.
Hypothesis Hsn : spilled_of w' <> [] -> spilled_of w <> [].
Hypothesis Hsi : forall x, 2 * x ∈ spilled_of w' <-> 2 * x ∈ spilled_of w /\ x <> q.
Hypothesis Hnext : next_of w <= next_of w' <= me_maxpg.
Hypothesis Hdirty : forall e, e ∈ dirty_of w' <-> e = ID2 q np \/ e ∈ dirty_of w.
Hypothesis Hptrs : NoDup ((mptr <$> dirty_of w') ++ me_dpages w').
Hypothesis Hdp : forall a, a ∈ me_dpages w' -> a ∈ me_dpages w.
Hypothesis Hnp : forall e, e ∈ dirty_of w -> mptr e = np -> e = ID2 q np.
Hypothesis Hpg : w_mem w' !! np = Some pg.
Hypothesis Hpar : match par with None => True | Some (g, m') =>
  g <> q /\ exists e, e ∈ dirty_of w /\ mid e = g /\ w_mem w' !! mptr e = Some m' /\ mptr e ∉ a_loose_pgs (w_alloc w') end.
Hypothesis Hmem : forall a, a <> np -> (forall g m' e, par = Some (g, m') -> e ∈ dirty_of w -> mid e = g -> a <> mptr e) ->
  w_mem w' !! a = w_mem w !! a.
Hypothesis Hloose : forall a, a ∈ a_loose_pgs (w_alloc w') -> a ∈ a_loose_pgs (w_alloc w) /\ a <> np.

Lemma replace_mem (a : Z) : a <> np -> (forall g m' e, par = Some (g, m') -> e ∈ dirty_of w -> mid e = g -> a <> mptr e) \/
  exists g m', par = Some (g, m') /\ w_mem w' !! a = Some m' /\ exists e, e ∈ dirty_of w /\ a = mptr e /\ a ∉ a_loose_pgs (w_alloc w').
Proof.
  intros Ha. destruct par as [[g m']|]; [|by left]. destruct Hpar as (_ & e & He & Hm & Hme & Hlo).
  destruct (decide (a = mptr e)) as [->|Hne].
  - right. exists g, m'. split; [done|]. split; [done|]. by exists e.
  - left. intros g0 m0 e0 [= <- <-] He0 Hg0. assert (e0 = e) as ->; [|done].
    pose proof (proj2 (find_dirty_elem _ _ w e g Hl) (conj He Hm)).
    pose proof (proj2 (find_dirty_elem _ _ w e0 g Hl) (conj He0 Hg0)). congruence.
Qed.

Lemma replace_loose : loose_id w' <$> a_loose_pgs (w_alloc w') = loose_id w <$> a_loose_pgs (w_alloc w').
Proof.
  apply list_fmap_ext. intros i a Ha%list_elem_of_lookup_2. destruct (Hloose a Ha) as [_ Hne]. unfold loose_id.
  destruct (replace_mem a Hne) as [Hn|(_ & _ & _ & _ & _ & _ & _ & Hno)]; [by rewrite Hmem|done].
Qed.

Hypothesis Hfreed : midl_wf (w_free_pgs w').
Hypothesis Hreuse : forall x, x ∈ reusable recs w' -> x ∈ reusable recs w.
Hypothesis Hpool : Permutation (q :: pool recs w') (p :: pool recs w) /\ next_of w' = next_of w \/
  Permutation (pool recs w') (p :: pool recs w) /\ q = next_of w /\ next_of w' = next_of w + 1.

Lemma replace_lists : lists_ok w'.
Proof.
  destruct (lo_flags Hl) as [Hf1 Hf2]. split; auto.
  - by rewrite Hflags.
  - apply Hal.
  - intros Hs. rewrite Hflags. by apply (lo_spills Hl), Hsn.
  - intros e [->|He]%Hdirty.
    + cbn [mid]. intros Hx. apply Hsi in Hx. by destruct Hx.
    + intros [Hx _]%Hsi. by apply (lo_disj Hl e).
  - intros e [->|He]%Hdirty; [by exists pg|].
    destruct (decide (mptr e = np)) as [->|Hne]; [by exists pg|].
    destruct (replace_mem (mptr e) Hne) as [Hn|(g & m' & _ & Hx & _)]; [|by exists m'].
    rewrite Hmem by done. by apply (lo_mem Hl).
  - intros a Ha. pose proof (Hdp a Ha) as Ha'.
    assert (a <> np) as Hne.
    { intros ->. apply NoDup_app in Hptrs as (_ & Hd & _). apply (Hd np); [|done]. apply list_elem_of_fmap.
      exists (ID2 q np). split; [done|]. apply Hdirty. by left. }
    destruct (replace_mem a Hne) as [Hn|(g & m' & _ & _ & e & He & -> & _)].
    + destruct (lo_dpages Hl a Ha') as (b & Hb & ?). exists b. by rewrite Hmem.
    + by apply (dirty_not_dpage w e Hl) in Ha'.
  - intros a Ha. destruct (Hloose a Ha) as [Ha' Hne]. destruct (lo_loose Hl a Ha') as ((b & Hb & Hbb) & e & He & Hae & Hid).
    destruct (replace_mem a Hne) as [Hn|(g & m' & _ & _ & e' & _ & _ & Hno)]; [|done].
    split; [exists b; by rewrite Hmem|]. exists e. split; [apply Hdirty; by right|]. split; [done|].
    unfold loose_id in *. by rewrite Hmem.
  - pose proof (lo_next Hl). lia.
Qed.

Lemma replace_ok : replaced me_psize me_maxpg readers mt_txnid recs w w' p q np pg par.
Proof.
  split; auto.
  - apply replace_lists.
  - lia.
  - intros x Hx. rewrite Hsi. tauto.
  - destruct par as [[g m']|]; [|done]. destruct Hpar as (Hg & e & He & Hm & Hme & _). split; [done|]. by exists e.
  - intros e He Hq Hg. apply Hmem.
    + intros E. apply Hq. by rewrite (Hnp e He E).
    + intros g m' e' Ep He' Hm' E. apply (Hg g m' Ep). by rewrite (dirty_ptr_inj w e e' Hl He He' E).
Qed.
End Replace.

(** ** mdb_page_unspill *)

Lemma alloc_inv_dirty (recs : list free_rec) (st : alloc_state) (dl : list MDB_ID2) (x np : Z) :
  alloc_inv readers mt_txnid recs st -> id2_wf dl -> Permutation (id2_list dl) (ID2 x np :: id2_list (a_dirty st)) ->
  0 < mt_dirty_room st -> x < mt_next_pgno st -> x ∉ free_pages st (drop (after recs (me_pglast st)) recs) ->
  alloc_inv readers mt_txnid recs (AllocState (a_loose_pgs st) (a_loose_count st) dl (mt_dirty_room st - 1) (a_pghead st) (me_pglast st)
    (me_pgoldest st) (mt_next_pgno st) (a_mt_flags st)).
Proof.
  intros [Hrecs Hs Hlast Hav Hrd Hold Hn0 Hbel Hd [Hr0 Hr] Hfr] Hwf Hp Hroom Hx Hfree.
  split; cbn [a_dirty mt_dirty_room a_pghead me_pglast me_pgoldest mt_next_pgno]; auto.
  - destruct Hav. by split.
  - pose proof (Permutation_length Hp) as E. cbn [length] in E. pose proof (length_id2_list _ Hwf). pose proof (length_id2_list _ Hd). lia.
  - intros e He. rewrite Hp in He. apply elem_of_cons in He as [->|He]; [by split|by apply Hfr].
Qed.

(** A copy that has the number of the page and is dirty. *)
Record dirty_copy (m : list Z) (q : Z) (pg : list Z) : Prop := {
  dc_copy : page_copy None m pg;
  dc_pgno : pgno_of pg = q;
  dc_dirty : p_dirty pg = true;
  dc_ov : F_ISSET (p_flags pg) P_OVERFLOW = F_ISSET (p_flags m) P_OVERFLOW
}.

Lemma same_header (m pg : list Z) : 16 <= zlen m -> zlen pg = zlen m -> slice pg 0 12 = slice m 0 12 ->
  pgno_of pg = pgno_of m /\ p_flags pg = p_flags m.
Proof.
  intros Hlen El Es. assert (forall o n, 0 <= o -> 0 <= n -> o + n <= 12 -> slice pg o n = slice m o n) as Hs.
  { intros o n Ho Hn Hon. pose proof (slice_slice pg 0 12 o n) as H1. pose proof (slice_slice m 0 12 o n) as H2.
    rewrite !Z.add_0_l in H1, H2. rewrite <- H1, <- H2 by lia. by rewrite Es. }
  split; [unfold pgno_of; f_equal; apply Hs; lia|]. unfold p_flags, g16. f_equal. apply Hs; lia.
Qed.

Lemma copy_page_ok (dst m : list Z) (q : option Z) : page_wf m -> zlen dst = zlen m -> Forall is_byte dst ->
  (forall x, q = Some x -> 0 <= x < 2 ^ 64) ->
  exists pg pg', mdb_page_copy dst m (zlen m) = Some pg /\ pgno_of pg = pgno_of m /\ zlen pg = zlen m /\
    (pg1 ← match q with Some x => set64 pg 0 x | None => Some pg end; mark_dirty pg1) = Some pg' /\
    dirty_copy m (default (pgno_of m) q) pg'.
Proof.
  intros Hwf Hlen Hb Hq. destruct (page_copy_ok dst m Hwf Hlen Hb) as (pg & E & Hc & Es).
  assert (16 <= zlen m) as Hz. { rewrite <- (pc_len _ _ _ Hc). by eapply copy_16. }
  destruct (same_header m pg Hz (pc_len _ _ _ Hc) Es) as [En Ef].
  assert (exists pg1, match q with Some x => set64 pg 0 x | None => Some pg end = Some pg1 /\ page_copy None m pg1 /\
    pgno_of pg1 = default (pgno_of m) q /\ p_flags pg1 = p_flags m) as (pg1 & E1 & Hc1 & Hn1 & Hf1).
  { destruct q as [x|]; [|by exists pg]. destruct (set_pgno_ok None m pg x Hwf Hc (Hq x eq_refl)) as (pg1 & -> & Hc1 & Hn1 & Hf1).
    exists pg1. split_and!; auto. congruence. }
  destruct (mark_dirty_ok None m pg1 Hwf Hc1) as (pg' & E' & Hc' & Hd & Hs & Ho).
  exists pg, pg'. rewrite E1. cbn [mbind option_bind]. split_and!; auto; [apply Hc|]. split; auto.
  - rewrite <- Hn1. unfold pgno_of. by rewrite Hs.
  - by rewrite Ho, Hf1.
Qed.

Section Unspill.
Variables (recs : list free_rec) (w : wtxn) (m : list Z) (p : Z).
Hypothesis Hl : lists_ok w.
Hypothesis Hal : alloc_inv readers mt_txnid recs (w_alloc w).
Hypothesis Hsp : forall x, 2 * x ∈ spilled_of w -> x < next_of w /\ x ∉ reusable recs w.
Hypothesis Hwf : page_wf m.
Hypothesis Hlen : zlen m = me_psize.
Hypothesis Hpm : pgno_of m = p.
Hypothesis Hov : F_ISSET (p_flags m) P_OVERFLOW = false.
Hypothesis Hp : 0 <= p < 2 ^ 63.
Abbreviation page_unspill := (mdb_page_unspill me_flags me_psize os_malloc []).

Lemma get_old : get64 m 0 = Some p.
Proof. rewrite get_pgno by lia. by rewrite Hpm. Qed.

(** The page is not in the list. *)
Lemma unspill_none : 2 * p ∉ spilled_of w -> page_unspill w m = Some (MDB_SUCCESS, w, None).
Proof.
  intros Hn. unfold mdb_page_unspill. rewrite Hwm. change (nz 0) with false. cbv iota. rewrite get_old. cbn [mbind option_bind].
  rewrite Z.shiftl_mul_pow2, (Z.mul_comm p), uwrap_small by lia. change (2 ^ 1) with 2. unfold chain. cbn [spill_loop mt_spill_pgs].
  unfold spilled_of, spilled in Hn. cbn [mt_spill_pgs] in Hn. destruct (w_spill w) as [sl|] eqn:E; [|done].
  destruct (spill_search_at sl (2 * p) (lo_spill Hl sl E)) as (r & -> & Hr). cbn [mbind option_bind].
  destruct r as [x|]; [|done]. exfalso. destruct Hr as [Hx Hzx]. destruct (lo_spill Hl sl E) as (H1 & H2 & _).
  apply Hn, elem_of_midl_ids; [lia|]. by exists x.
Qed.

(** It is, and is read back. *)
Lemma unspill_some : 2 * p ∈ spilled_of w ->
  (exists rc w', page_unspill w m = Some (rc, w', None) /\ (rc = MDB_TXN_FULL \/ rc = ENOMEM)) \/
  exists w' np pg, page_unspill w m = Some (MDB_SUCCESS, w', Some np) /\ dirty_copy m p pg /\
    replaced me_psize me_maxpg readers mt_txnid recs w w' p p np pg None /\ w_root w' = w_root w /\ w_cursors w' = w_cursors w.
Proof.
  intros Hin. unfold mdb_page_unspill. rewrite Hwm. change (nz 0) with false. cbv iota. rewrite get_old. cbn [mbind option_bind].
  rewrite Z.shiftl_mul_pow2, (Z.mul_comm p), uwrap_small by lia. change (2 ^ 1) with 2. unfold chain. cbn [spill_loop mt_spill_pgs].
  pose proof Hin as Hin'. unfold spilled_of, spilled in Hin'. cbn [mt_spill_pgs] in Hin'.
  destruct (w_spill w) as [sl|] eqn:E; [|by apply elem_of_nil in Hin'].
  pose proof (lo_spill Hl sl E) as Hswf. destruct (spill_search_at sl (2 * p) Hswf) as (r & -> & Hr). cbn [mbind option_bind].
  destruct r as [x|]; [|done]. destruct Hr as [Hx Hzx]. cbn [mbind option_bind].
  destruct (Z.eqb_spec (mt_dirty_room (w_alloc w)) 0) as [|Hroom]; [left; by eexists _, _; eauto|].
  unfold mp_flags. rewrite get16_in by lia. cbn [mbind option_bind]. fold (p_flags m). rewrite Hov. cbn [mbind option_bind].
  destruct (page_malloc_ok w Hl) as (np & w1 & -> & Hg). cbn [mbind option_bind].
  destruct np as [np|]; [|left; by eexists _, _; eauto]. right.
  destruct (gb_block Hg) as (dst & Hdst & Hdlen & Hdb). rewrite Hdst. cbn [mbind option_bind].
  change (1 <? 1) with false. cbv iota.
  destruct (copy_page_ok dst m None Hwf ltac:(lia) Hdb ltac:(done)) as (pg0 & pg & Ec & Hpn & Hplen & Emd & Hdc).
  rewrite Hlen in Ec. rewrite Ec. cbn [mbind option_bind]. rewrite (gb_spill Hg), E. cbn [mbind option_bind].
  assert (forall y, 2 * y ∈ midl_ids sl -> 2 * y + 1 ∉ midl_ids sl) as Htw.
  { pose proof (lo_twin Hl) as Ht. unfold spilled_of, spilled in Ht. cbn [mt_spill_pgs] in Ht. by rewrite E in Ht. }
  destruct (unlist_spill_ok sl x p Hswf Htw ltac:(lia) Hx Hzx) as (sl' & -> & Hswf' & Hids). cbn [mbind option_bind].
  rewrite get_pgno by lia. rewrite Hpn, Hpm. cbn [mbind option_bind]. rewrite (gb_alloc Hg).
  destruct (Hsp p Hin) as [Hpx Hpr]. pose proof (ai_room _ _ _ _ Hal) as [Hr0 Hr1].
  assert (forall e, e ∈ id2_list (a_dirty (w_alloc w)) -> mid e <> p) as Hnew.
  { intros e He Hm. apply (lo_disj Hl e He). by rewrite Hm. }
  destruct (page_dirty_ok me_flags (a_dirty (w_alloc w)) (mt_dirty_room (w_alloc w)) p np Hwm (lo_dirty Hl) Hnew) as (dl & -> & Hdw & Hdp); [lia|lia|].
  cbn [mbind option_bind]. cbn [mbind option_bind] in Emd. rewrite Emd. cbn [mbind option_bind default] in Hdc |- *. rewrite Hpm in Hdc.
  eexists _, np, pg. split; [reflexivity|]. split; [done|].
  set (w' := set_dirty _ _ _).
  assert (w_alloc w' = AllocState (a_loose_pgs (w_alloc w)) (a_loose_count (w_alloc w)) dl (mt_dirty_room (w_alloc w) - 1)
    (a_pghead (w_alloc w)) (me_pglast (w_alloc w)) (me_pgoldest (w_alloc w)) (mt_next_pgno (w_alloc w)) (a_mt_flags (w_alloc w))) as Ea.
  { unfold w'. cbn [set_dirty set_alloc set_spill set_mem w_alloc]. by rewrite (gb_alloc Hg). }
  split; [|split; [apply Hg|apply Hg]].
  assert (spilled_of w' = midl_ids sl' /\ spilled_of w = midl_ids sl) as [Es' Es].
  { unfold spilled_of, spilled. cbn [mt_spill_pgs]. by rewrite E. }
  assert (forall e, e ∈ dirty_of w' <-> e = ID2 p np \/ e ∈ dirty_of w) as Hdirty.
  { intros e. unfold dirty_of. rewrite Ea. cbn [a_dirty]. rewrite Hdp. apply elem_of_cons. }
  assert (forall a, a ∈ a_loose_pgs (w_alloc w') -> a ∈ a_loose_pgs (w_alloc w) /\ a <> np) as Hlo.
  { intros a. rewrite Ea. cbn [a_loose_pgs]. intros Ha. split; [done|]. intros ->.
    destruct (lo_loose Hl np Ha) as (_ & e & He & Hee & _). apply (gb_fresh Hg), list_elem_of_fmap. by exists e. }
  assert (w_mem w' !! np = Some pg) as Hmnp by apply lookup_insert_eq.
  assert (forall a, a <> np -> w_mem w' !! a = w_mem w !! a) as Hmem.
  { intros a Ha. unfold w'. cbn [set_dirty set_alloc set_spill set_mem w_mem]. rewrite lookup_insert_ne by done. by apply Hg. }
  assert (reusable recs w' = reusable recs w) as Hre by (unfold reusable, free_pages; by rewrite Ea).
  apply replace_ok; auto; rewrite ?Es', ?Es.
  - rewrite Ea. apply (alloc_inv_dirty recs _ dl p np); auto. lia.
  - by rewrite Ea.
  - intros sl0 [= <-]. done.
  - intros y Hy Hy'. apply Hids in Hy as [[Hy Hne]|[Hy _]]; [|lia]. apply Hids in Hy' as [[Hy' _]|[Hy' _]]; [by apply (Htw y)|lia].
  - intros _ En. rewrite En in Hin'. by apply elem_of_nil in Hin'.
  - intros y. rewrite Hids. split; [intros [[Hy Hne]|[Hy _]]; [split; [done|]; congruence|lia]|].
    intros [Hy Hne]. left. split; [done|lia].
  - unfold next_of. rewrite Ea. pose proof (lo_next Hl). unfold next_of in *. cbn [mt_next_pgno]. lia.
  - unfold dirty_of. rewrite Ea. cbn [a_dirty]. rewrite Hdp. apply (gb_ptrs Hg).
  - intros a Ha. by apply (gb_dpages Hg).
  - intros e He <-. exfalso. apply (gb_fresh Hg), list_elem_of_fmap. by exists e.
  - unfold w'. cbn. rewrite (gb_free Hg). apply (lo_freed Hl).
  - by rewrite Hre.
  - left. split; [|by unfold next_of; rewrite Ea]. unfold pool. rewrite Hre.
    assert (loose_id w' <$> a_loose_pgs (w_alloc w') = loose_id w <$> a_loose_pgs (w_alloc w)) as ->.
    { rewrite (replace_loose w w' p np None Hl I); auto. by rewrite Ea. }
    unfold w'. cbn [set_dirty set_alloc set_spill set_mem w_free_pgs]. by rewrite (gb_free Hg).
Qed.
End Unspill.

(** ** A new page *)

Record fresh_page (recs : list free_rec) (w w1 : wtxn) (q np : Z) : Prop := {
  fp_alloc : alloc_inv readers mt_txnid recs (w_alloc w1);
  fp_flags : a_mt_flags (w_alloc w1) = a_mt_flags (w_alloc w);
  fp_same : w_free_pgs w1 = w_free_pgs w /\ w_spill w1 = w_spill w /\ w_root w1 = w_root w /\ w_cursors w1 = w_cursors w;
  fp_next : next_of w <= next_of w1 <= me_maxpg;
  fp_dirty e : e ∈ dirty_of w1 <-> e = ID2 q np \/ e ∈ dirty_of w;
  fp_ptrs : NoDup ((mptr <$> dirty_of w1) ++ me_dpages w1);
  fp_dpages a : a ∈ me_dpages w1 -> a ∈ me_dpages w;
  fp_np e : e ∈ dirty_of w -> mptr e = np -> e = ID2 q np;
  fp_block : page_block me_psize w1 np;
  fp_pgno : loose_id w1 np = q;
  fp_origin : np ∈ (mptr <$> dirty_of w) \/ np ∈ me_dpages w \/ w_mem w !! np = None;
  fp_mem a : a <> np -> w_mem w1 !! a = w_mem w !! a;
  fp_loose a : a ∈ a_loose_pgs (w_alloc w1) -> a ∈ a_loose_pgs (w_alloc w) /\ a <> np;
  fp_reuse x : x ∈ reusable recs w1 -> x ∈ reusable recs w;
  fp_spill : 2 * q ∉ spilled_of w;
  fp_pool : Permutation (q :: (loose_id w <$> a_loose_pgs (w_alloc w1)) ++ reusable recs w1)
      ((loose_id w <$> a_loose_pgs (w_alloc w)) ++ reusable recs w) /\ next_of w1 = next_of w \/
    Permutation ((loose_id w <$> a_loose_pgs (w_alloc w1)) ++ reusable recs w1)
      ((loose_id w <$> a_loose_pgs (w_alloc w)) ++ reusable recs w) /\ q = next_of w /\ next_of w1 = next_of w + 1
}.

#[local] Arguments fp_alloc {_ _ _ _ _} _.
#[local] Arguments fp_flags {_ _ _ _ _} _.
#[local] Arguments fp_same {_ _ _ _ _} _.
#[local] Arguments fp_next {_ _ _ _ _} _.
#[local] Arguments fp_dirty {_ _ _ _ _} _.
#[local] Arguments fp_ptrs {_ _ _ _ _} _.
#[local] Arguments fp_dpages {_ _ _ _ _} _.
#[local] Arguments fp_np {_ _ _ _ _} _.
#[local] Arguments fp_block {_ _ _ _ _} _.
#[local] Arguments fp_pgno {_ _ _ _ _} _.
#[local] Arguments fp_origin {_ _ _ _ _} _.
#[local] Arguments fp_mem {_ _ _ _ _} _.
#[local] Arguments fp_loose {_ _ _ _ _} _.
#[local] Arguments fp_reuse {_ _ _ _ _} _.
#[local] Arguments fp_spill {_ _ _ _ _} _.
#[local] Arguments fp_pool {_ _ _ _ _} _.

Section Fresh.
Variables (recs : list free_rec) (fuel : nat) (w : wtxn).
Variables (free_root : Z) (rootf : list Z) (hf : nat) (esf : list (MDB_val * MDB_val)).
Hypothesis Hl : lists_ok w.
Hypothesis Hal : alloc_inv readers mt_txnid recs (w_alloc w).
Hypothesis Hsp : forall x, 2 * x ∈ spilled_of w -> x < next_of w /\ x ∉ reusable recs w.
Hypothesis Hdb : db_ok (seen w) cmp_cint free_root (sized 8) num_ord rootf hf esf.
Hypothesis Hrec : Forall2 rec_item recs esf.
Hypothesis Hnd : NoDup ((loose_id w <$> a_loose_pgs (w_alloc w)) ++ reusable recs w).
Hypothesis Hfuel : (length recs < fuel)%nat.

(** The next loose page. *)
Lemma fresh_loose (np : Z) (rest : list Z) (st : alloc_state) : a_loose_pgs (w_alloc w) = np :: rest ->
  st = AllocState rest (a_loose_count (w_alloc w) - 1) (a_dirty (w_alloc w)) (mt_dirty_room (w_alloc w)) (a_pghead (w_alloc w))
    (me_pglast (w_alloc w)) (me_pgoldest (w_alloc w)) (mt_next_pgno (w_alloc w)) (a_mt_flags (w_alloc w)) ->
  alloc_inv readers mt_txnid recs st -> fresh_page recs w (set_alloc w st) (loose_id w np) np.
Proof.
  intros El Est Hi. destruct (lo_loose Hl np) as (Hb & e & He & Hep & Hei); [rewrite El; by left|].
  assert (e = ID2 (loose_id w np) np) as Ee by (destruct e; cbn in *; congruence).
  assert (reusable recs (set_alloc w st) = reusable recs w) as Hre by (unfold reusable, free_pages; by rewrite Est).
  assert (dirty_of (set_alloc w st) = dirty_of w) as Hd by (unfold dirty_of; by rewrite Est).
  pose proof (lo_next Hl) as Hn.
  rewrite El in Hnd. cbn [fmap list_fmap app] in Hnd. apply NoDup_cons in Hnd as [Hx _].
  split; cbn [set_alloc w_alloc me_dpages w_free_pgs w_spill w_root w_cursors]; auto; rewrite ?Hre, ?Hd.
  - by rewrite Est.
  - unfold next_of in *. cbn [set_alloc w_alloc]. rewrite Est. cbn [mt_next_pgno]. lia.
  - intros e'. split; [by right|]. intros [->|]; [by rewrite <- Ee|done].
  - apply Hl.
  - intros e' He' Hp'. rewrite <- Ee. apply (dirty_ptr_inj w); auto. congruence.
  - left. apply list_elem_of_fmap. by exists e.
  - rewrite Est. cbn [a_loose_pgs]. intros a Ha. rewrite El. split; [by right|]. intros ->. apply Hx, elem_of_app. left.
    by apply list_elem_of_fmap_2.
  - done.
  - rewrite <- Hei. by apply (lo_disj Hl).
  - left. split; [by rewrite El, Est|]. unfold next_of. cbn [set_alloc w_alloc]. by rewrite Est.
Qed.

(** New pages. *)
Lemma fresh_new (m : nat) (w1 : wtxn) (np q : Z) (st : alloc_state) (pg : list Z) : grabbed me_psize w w1 np ->
  alloc_input me_flags 1 readers mt_txnid recs (w_alloc w) ->
  alloc_outcome me_maxpg 1 (Some np) mem_ok mt_txnid readers (take m (drop (after recs (me_pglast (w_alloc w))) recs)) (w_alloc w)
    (NewPages np q) st ->
  alloc_inv readers mt_txnid recs st -> zlen pg = me_psize -> Forall is_byte pg -> pgno_of pg = u64 q ->
  fresh_page recs w (set_mem (set_alloc w1 st) np pg) q np /\ 0 <= q < 2 ^ 63.
Proof.
  intros Hg Hi Ho Hst Hlen Hb Hpn. set (w2 := set_mem _ _ _).
  pose proof (outcome_free mt_txnid readers mem_ok recs me_flags me_maxpg 1 (Some np) (w_alloc w) Hi m _ _ Ho) as Hfree. cbn beta iota in Hfree.
  destruct (outcome_new mt_txnid readers mem_ok recs me_flags me_maxpg 1 (Some np) (w_alloc w) Hi m np q st Ho) as (_ & Hd & Hf & Hq).
  pose proof (ao_loose _ _ _ _ _ _ _ _ _ _ Ho) as Hlo. cbn beta iota in Hlo. pose proof (lo_next Hl) as Hn.
  fold (reusable recs w) in Hfree, Hq. change (drop (after recs (me_pglast st)) recs) with (drop (after recs (me_pglast (w_alloc w2))) recs) in Hfree.
  change (free_pages st) with (free_pages (w_alloc w2)) in Hfree. fold (reusable recs w2) in Hfree.
  change (mt_next_pgno (w_alloc w)) with (next_of w) in Hq, Hfree. change (mt_next_pgno st) with (next_of w2) in Hq.
  assert (forall x, x ∈ reusable recs w -> 0 <= x < next_of w) as Hbel.
  { intros x Hx. pose proof (proj1 (Forall_forall _ _) (ai_below _ _ _ _ Hal) x Hx).
    pose proof (proj1 (Forall_forall _ _) (av_range _ _ (ai_avail _ _ _ _ Hal)) x Hx). unfold next_of. cbn in *. lia. }
  assert (0 <= q < 2 ^ 63) as Hq63.
  { destruct Hq as [(-> & _)|(Hq & _)]; [lia|]. specialize (Hbel q Hq). lia. }
  split; [|done].
  - split; auto; try apply Hg.
    + split_and!; apply Hg.
    + destruct Hq as [(_ & ? & ?)|(_ & ?)]; lia.
    + intros e. unfold dirty_of, w2. cbn [set_mem set_alloc w_alloc]. rewrite Hd. apply elem_of_cons.
    + unfold dirty_of, w2. cbn [set_mem set_alloc w_alloc me_dpages]. rewrite Hd. cbn [fmap list_fmap mptr]. apply (gb_ptrs Hg).
    + intros e He <-. exfalso. apply (gb_fresh Hg), list_elem_of_fmap. by exists e.
    + exists pg. split; [apply lookup_insert_eq|done].
    + unfold loose_id, w2. cbn [set_mem w_mem]. rewrite lookup_insert_eq, Hpn. apply uwrap_small. lia.
    + right. destruct (gb_origin Hg); auto.
    + intros a Ha. unfold w2. cbn [set_mem set_alloc w_mem]. rewrite lookup_insert_ne by done. by apply Hg.
    + unfold w2. cbn [set_mem set_alloc w_alloc]. rewrite Hlo. intros a Ha. split; [done|]. intros ->.
      destruct (lo_loose Hl np Ha) as (_ & e & He & Hee & _). apply (gb_fresh Hg), list_elem_of_fmap. by exists e.
    + intros x Hx. rewrite Hfree. apply elem_of_app. by left.
    + intros Hs. destruct (Hsp q Hs) as [H1 H2]. destruct Hq as [(-> & _)|(Hq & _)]; [lia|done].
    + unfold w2 at 1 4. cbn [set_mem set_alloc w_alloc]. rewrite Hlo, Hfree. destruct Hq as [(Eq & Hx & _)|(Hq & Hx)].
      * right. rewrite decide_True, app_nil_r by done. split; [done|]. split; [exact Eq|exact Hx].
      * left. split; [|exact Hx]. rewrite decide_False by (intros E; specialize (Hbel q Hq); lia). cbn [seqZ]. solve_Permutation.
Qed.

Abbreviation alloc1 := (alloc_one file me_flags me_map me_psize me_maxpg os_malloc junk mem_ok mt_txnid readers free_root [] fuel).

Lemma alloc_one_ok : exists r w1, alloc1 w = Some (r, w1) /\
  match r with
  | inl (np, q) => fresh_page recs w w1 q np /\ 0 <= q < 2 ^ 63
  | inr rc => rc = MDB_TXN_FULL \/ rc = ENOMEM \/ rc = MDB_MAP_FULL
  end.
Proof.
  unfold alloc_one, alloc_pages. destruct (page_malloc_ok w Hl) as (mp & w1 & -> & Hg). cbn [mbind option_bind].
  pose proof (lo_next Hl) as Hn.
  assert (alloc_input me_flags 1 readers mt_txnid recs (w_alloc w)) as Hi.
  { split; auto; [lia|]. unfold next_of in Hn. lia. }
  destruct (page_alloc_correct (seen w) free_root rootf hf esf recs junk mt_txnid readers mem_ok me_flags me_map me_psize me_maxpg
    fuel mp 1 (w_alloc w) Hdb (proj1 (lo_flags Hl)) Hrec Hi Hfuel) as (m & r & st & E & Ho & Hst).
  rewrite E. cbn [mbind option_bind]. destruct r as [np|np q|rc].
  - pose proof (ao_result _ _ _ _ _ _ _ _ _ _ Ho) as Ha.
    inversion Ha as [np' rest H1 El H3 E1 E2| | |]; subst np'.
    assert (fresh_page recs w (set_alloc w st) (loose_id w np) np) as Hf by (by eapply fresh_loose).
    destruct (lo_loose Hl np) as ((b & Hb & Hlen & Hbb) & e & He & _ & Hei); [rewrite El; by left|].
    rewrite Hb. cbn [mbind option_bind]. rewrite get_pgno by lia. cbn [mbind option_bind].
    eexists _, _. split; [reflexivity|]. cbn beta iota.
    assert (loose_id w np = pgno_of b) as Eid by (unfold loose_id; by rewrite Hb). rewrite <- Eid. split; [by rewrite E2|].
    destruct (ai_fresh _ _ _ _ Hal e He) as [Hlt _]. change (mt_next_pgno (w_alloc w)) with (next_of w) in Hlt. split; [|lia].
    rewrite Eid. apply le_val_range. by apply slice_bytes.
  - destruct (outcome_new mt_txnid readers mem_ok recs me_flags me_maxpg 1 mp (w_alloc w) Hi m np q st Ho) as (-> & _).
    destruct (gb_block Hg) as (b & Hb & Hlen & Hbb). rewrite Hb. cbn [mbind option_bind]. unfold set64.
    destruct (bwrite_upd b 0 (le_bytes 8 q)) as (b' & -> & U); [lia|rewrite zlen_le_bytes; lia|]. cbn [mbind option_bind].
    eexists _, _. split; [reflexivity|]. apply (fresh_new m); auto; [by rewrite (u_len _ _ _ _ U)|apply U; [done|apply le_bytes_byte]|].
    unfold pgno_of. pose proof (u_new _ _ _ _ U) as Hu. rewrite zlen_le_bytes in Hu. change (Z.of_nat 8) with 8 in Hu.
    by rewrite Hu, le_val_bytes.
  - eexists _, _. split; [reflexivity|]. pose proof (ao_result _ _ _ _ _ _ _ _ _ _ Ho) as Ha.
    inversion Ha as [| | |rc' st' H1 H2 H3 H4 [[-> _]|[[-> _]|[-> _]]]]; auto.
Qed.
End Fresh.

(** ** The copy of a page and its parent *)

(** The page above, which is dirty and at its place on the stack. *)
Definition parent_at (w : wtxn) (mc : wcursor) (up : list frame) : Prop :=
  match up with
  | [] => wc_top mc = 0
  | g :: _ => 0 < wc_top mc /\ page_wf (fr_page g) /\ p_leaf (fr_page g) = false /\ 0 <= fr_ki g < p_num (fr_page g) /\
      aget (wc_ki mc) (wc_top mc - 1) = Some (fr_ki g) /\
      exists e, e ∈ dirty_of w /\ mid e = fr_pgno g /\ aget (wc_pg mc) (wc_top mc - 1) = Some (Some (Heap (mptr e))) /\
        w_mem w !! mptr e = Some (fr_page g)
  end.

Definition parent_loose (w w1 : wtxn) (up : list frame) (q : Z) : Prop :=
  match up with
  | [] => True
  | g :: _ => fr_pgno g <> q /\ forall e, e ∈ dirty_of w -> mid e = fr_pgno g -> mptr e ∉ a_loose_pgs (w_alloc w1)
  end.

Section Copied.
Variables (recs : list free_rec) (w w1 : wtxn) (fp : midl) (mc : wcursor) (up : list frame) (m : list Z) (p q np : Z).
Hypothesis Hl : lists_ok w.
Hypothesis Hfresh : fresh_page recs (set_free w fp) w1 q np.
Hypothesis Hfp : midl_wf fp.
Hypothesis Hroom : zn (cells fp) 0 + 1 <= alloclen fp.
Hypothesis Hids : midl_ids (cells fp) = midl_ids (cells (w_free_pgs w)).
Hypothesis Hq : 0 <= q < 2 ^ 48.
Hypothesis Hwf : page_wf m.
Hypothesis Hlen : zlen m = me_psize.
Hypothesis Hfile : file p = Some m.
Hypothesis Hup : parent_at w mc up.
Hypothesis Hupl : parent_loose w w1 up q.

Definition freed (ids : list Z) : wtxn := set_free w1 (Midl (alloclen fp) ids).

(** The parent gets the new number. *)
Lemma repoint_parent_ok (ids : list Z) : exists w2 m', repoint_parent (freed ids) mc q = Some w2 /\
  me_dpages w2 = me_dpages w1 /\ w_alloc w2 = w_alloc w1 /\ w_free_pgs w2 = Midl (alloclen fp) ids /\ w_spill w2 = w_spill w /\
  w_cursors w2 = w_cursors w /\ w_mem w2 !! np = w_mem w1 !! np /\
  match up with
  | [] => w_root w2 = q /\ w_mem w2 = w_mem w1
  | g :: _ => w_root w2 = w_root w /\ page_copy (Some (fr_ki g)) (fr_page g) m' /\ m' <> [] /\ n_pgno m' (fr_ki g) = q /\
      pgno_of m' = pgno_of (fr_page g) /\ p_flags m' = p_flags (fr_page g) /\
      forall e, e ∈ dirty_of w -> mid e = fr_pgno g -> w_mem w2 = <[mptr e := m']> (w_mem w1)
  end.
Proof.
  destruct (fp_same Hfresh) as (_ & Es & Er & Ec). unfold repoint_parent. destruct up as [|g up'].
  - cbn [parent_at] in Hup. rewrite Hup. change (nz 0) with false. cbv iota. eexists _, []. split; [reflexivity|]. by split_and!.
  - destruct Hup as (Ht & Hgw & Hgl & Hgk & Hki & e & He & Hm & Hpg & Hmem). destruct Hupl as [Hne Hlo].
    assert (nz (wc_top mc) = true) as -> by (unfold nz; lia). rewrite Hpg. cbn [mbind option_bind].
    assert (mptr e <> np) as Hnp.
    { intros E. apply Hne. rewrite <- Hm. by rewrite (fp_np Hfresh e He E). }
    assert (w_mem (freed ids) !! mptr e = Some (fr_page g)) as ->.
    { cbn [freed set_free w_mem]. rewrite (fp_mem Hfresh) by done. done. }
    cbn [mbind option_bind]. rewrite Hki. cbn [mbind option_bind]. rewrite mp_ptr_ok by done. cbn [mbind option_bind].
    destruct (repoint_ok (fr_page g) (fr_ki g) q Hgw Hgl Hgk Hq) as (m' & -> & Hc & Hn & Hp & Hf). cbn [mbind option_bind].
    eexists _, m'. split; [reflexivity|]. split_and!; auto.
    + cbn [set_mem w_mem]. by rewrite lookup_insert_ne.
    + intros ->. pose proof (pc_len _ _ _ Hc) as E. pose proof (wf_lower _ Hgw). pose proof (wf_num _ Hgw). pose proof (wf_upper _ Hgw).
      change (zlen (@nil Z)) with 0 in E. lia.
    + intros e' He' Hm'. assert (e' = e) as ->; [|done].
      pose proof (proj2 (find_dirty_elem _ _ w e (fr_pgno g) Hl) (conj He Hm)).
      pose proof (proj2 (find_dirty_elem _ _ w e' (fr_pgno g) Hl) (conj He' Hm')). congruence.
Qed.

(** The copy. *)
Lemma copied_ok : exists ids w2 w3 pg par m', mdb_midl_xappend (cells fp) p = Some ids /\
  repoint_parent (freed ids) mc q = Some w2 /\ copy_to file me_psize w2 (Mapped p) np q = Some w3 /\
  dirty_copy m q pg /\ replaced me_psize me_maxpg readers mt_txnid recs w w3 p q np pg par /\
  parent_ok w w3 up q par m' /\ w_cursors w3 = w_cursors w.
Proof.
  destruct (xappend_ok fp p Hfp Hroom) as (ids & -> & Hiw & Hie).
  destruct (repoint_parent_ok ids) as (w2 & m' & E2 & Hdp2 & Ha2 & Hf2 & Hs2 & Hc2 & Hn2 & Hup2).
  destruct (fp_block Hfresh) as (dst & Hdst & Hdlen & Hdb).
  destruct (copy_page_ok dst m (Some q) Hwf ltac:(lia) Hdb) as (pg0 & pg & Ec & _ & _ & Emd & Hdc); [intros x [= <-]; lia|].
  rewrite Hlen in Ec. cbn [default] in Hdc.
  assert (copy_to file me_psize w2 (Mapped p) np q = Some (set_mem w2 np pg)) as E3.
  { unfold copy_to. cbn [deref]. rewrite Hfile. cbn [mbind option_bind]. rewrite Hn2, Hdst. cbn [mbind option_bind].
    rewrite Ec. cbn [mbind option_bind]. destruct (set64 pg0 0 q) as [pg1|]; [|done]. cbn [mbind option_bind] in Emd |- *.
    by rewrite Emd. }
  set (w3 := set_mem w2 np pg) in *.
  set (par := match up with [] => None | g :: _ => Some (fr_pgno g, m') end).
  exists ids, w2, w3, pg, par, m'. split; [done|]. split; [done|]. split; [done|]. split; [done|].
  assert (w_alloc w3 = w_alloc w1) as Ea by done.
  assert (forall a, a <> np -> (forall g m1 e, par = Some (g, m1) -> e ∈ dirty_of w -> mid e = g -> a <> mptr e) ->
    w_mem w3 !! a = w_mem w !! a) as Hmem.
  { intros a Ha Hg. cbn [w3 set_mem w_mem]. rewrite lookup_insert_ne by done. destruct up as [|g up'].
    - destruct Hup2 as [_ ->]. by apply (fp_mem Hfresh).
    - destruct Hup2 as (_ & _ & _ & _ & _ & _ & Hx). destruct Hup as (_ & _ & _ & _ & _ & e & He & Hm & _).
      rewrite (Hx e He Hm), lookup_insert_ne by (intros E; by apply (Hg (fr_pgno g) m' e)).
      by apply (fp_mem Hfresh). }
  assert (match par with None => True | Some (g, m1) =>
    g <> q /\ exists e, e ∈ dirty_of w /\ mid e = g /\ w_mem w3 !! mptr e = Some m1 /\ mptr e ∉ a_loose_pgs (w_alloc w3) end) as Hpar.
  { destruct up as [|g up']; [done|]. destruct Hup2 as (_ & _ & _ & _ & _ & _ & Hx). destruct Hup as (_ & _ & _ & _ & _ & e & He & Hm & _).
    destruct Hupl as [Hne Hlo]. split; [done|]. exists e. split_and!; auto.
    - cbn [w3 set_mem w_mem]. rewrite lookup_insert_ne.
      + by rewrite (Hx e He Hm), lookup_insert_eq.
      + intros E. apply Hne. rewrite <- Hm. by rewrite (fp_np Hfresh e He (eq_sym E)).
    - rewrite Ea. by apply Hlo. }
  assert (spilled_of w3 = spilled_of w) as Es by (unfold spilled_of, spilled; cbn [mt_spill_pgs w3 set_mem w_spill]; by rewrite Hs2).
  assert (reusable recs w3 = reusable recs w1) as Hre by (unfold reusable; by rewrite Ea).
  assert (loose_id w3 <$> a_loose_pgs (w_alloc w3) = loose_id w <$> a_loose_pgs (w_alloc w3)) as Hli.
  { apply (replace_loose w w3 q np par Hl Hpar Hmem). rewrite Ea. apply (fp_loose Hfresh). }
  split; [|split; [|done]].
  - apply replace_ok; auto; rewrite ?Es, ?Hre.
    + rewrite Ea. apply Hfresh.
    + rewrite Ea. apply (fp_flags Hfresh).
    + intros sl. cbn [w3 set_mem w_spill]. rewrite Hs2. apply (lo_spill Hl).
    + apply (lo_twin Hl).
    + done.
    + intros x. split; [|tauto]. intros Hx. split; [done|]. intros ->. by apply (fp_spill Hfresh).
    + unfold next_of. rewrite Ea. apply (fp_next Hfresh).
    + unfold dirty_of. rewrite Ea. apply (fp_dirty Hfresh).
    + unfold dirty_of. rewrite Ea. cbn [w3 set_mem me_dpages]. rewrite Hdp2. apply (fp_ptrs Hfresh).
    + cbn [w3 set_mem me_dpages]. rewrite Hdp2. apply (fp_dpages Hfresh).
    + apply (fp_np Hfresh).
    + apply lookup_insert_eq.
    + rewrite Ea. apply (fp_loose Hfresh).
    + cbn [w3 set_mem w_free_pgs]. by rewrite Hf2.
    + apply (fp_reuse Hfresh).
    + assert (midl_ids (cells (w_free_pgs w3)) = midl_ids (cells (w_free_pgs w)) ++ [p]) as Efr.
      { cbn [w3 set_mem w_free_pgs]. rewrite Hf2. cbn [cells]. by rewrite Hie, Hids. }
      unfold pool. rewrite Hli, Hre, Efr, Ea. destruct (fp_pool Hfresh) as [[Hp Hlt]|(Hp & Eq & Hlt)];
        change (loose_id (set_free w fp)) with (loose_id w) in Hp; change (w_alloc (set_free w fp)) with (w_alloc w) in Hp;
        change (reusable recs (set_free w fp)) with (reusable recs w) in Hp; [left|right].
      * split; [|unfold next_of; rewrite Ea; exact Hlt].
        transitivity ((p :: midl_ids (cells (w_free_pgs w))) ++ q :: (loose_id w <$> a_loose_pgs (w_alloc w1)) ++ reusable recs w1);
          [solve_Permutation|]. rewrite Hp. solve_Permutation.
      * split; [|split; [exact Eq|unfold next_of; rewrite Ea; exact Hlt]].
        transitivity ((p :: midl_ids (cells (w_free_pgs w))) ++ (loose_id w <$> a_loose_pgs (w_alloc w1)) ++ reusable recs w1);
          [solve_Permutation|]. rewrite Hp. solve_Permutation.
  - destruct up as [|g up']; cbn [parent_ok par].
    + split; [done|]. apply Hup2.
    + destruct Hup2 as (Hr & Hc & Hn & Hpn & Hpp & Hff & _). split; [by left|]. by split_and!.
Qed.
End Copied.
End Steps.

#[global] Arguments fp_alloc {_ _ _ _ _ _ _ _ _} _.
#[global] Arguments fp_flags {_ _ _ _ _ _ _ _ _} _.
#[global] Arguments fp_same {_ _ _ _ _ _ _ _ _} _.
#[global] Arguments fp_next {_ _ _ _ _ _ _ _ _} _.
#[global] Arguments fp_dirty {_ _ _ _ _ _ _ _ _} _.
#[global] Arguments fp_ptrs {_ _ _ _ _ _ _ _ _} _.
#[global] Arguments fp_dpages {_ _ _ _ _ _ _ _ _} _.
#[global] Arguments fp_np {_ _ _ _ _ _ _ _ _} _.
#[global] Arguments fp_block {_ _ _ _ _ _ _ _ _} _.
#[global] Arguments fp_pgno {_ _ _ _ _ _ _ _ _} _.
#[global] Arguments fp_origin {_ _ _ _ _ _ _ _ _} _.
#[global] Arguments fp_mem {_ _ _ _ _ _ _ _ _} _.
#[global] Arguments fp_loose {_ _ _ _ _ _ _ _ _} _.
#[global] Arguments fp_reuse {_ _ _ _ _ _ _ _ _} _.
#[global] Arguments fp_spill {_ _ _ _ _ _ _ _ _} _.
#[global] Arguments fp_pool {_ _ _ _ _ _ _ _ _} _.
