(* ===== verification/CursorTouch.v ===== *)
(** * Making a cursor's pages writable ([mdb_cursor_touch], [src/LegacyDatabase/mdb.c])

    [mdb_page_touch] at one level of the stack replaces at most one page
    ([touched]); [mdb_cursor_touch] goes from the root to the leaf, so that the
    parent of a page is writable when the page gets its new number.  [at_path]
    ties the cursor, with its pointers, to a path of the tree. *)
From S2P Require Import Prelude.
From S2P Require Import Bytes.
From S2P Require Import Midl.
From S2P Require Import Page.
From S2P Require Import PageSpec.
From S2P Require Import NodeOps.
From S2P Require Import NodeDel.
From S2P Require Import Cmp.
From S2P Require Import NodeSearch.
From S2P Require Import Cursor.
From S2P Require Import PageList.
From S2P Require Import Tree.
From S2P Require Import CursorPath.
From S2P Require Import CursorSim.
From S2P Require Import PageAlloc.
From S2P Require Import FreeDb.
From S2P Require Import Cow.
From S2P Require Import Touch.
From S2P Require Import TouchInv.
From S2P Require Import TouchSteps.
From Stdlib Require Import ZArith Lia.
From stdpp Require Import base numbers option list gmap.
Open Scope Z_scope.

(** ** The cursor's stack *)

(** The cursor has the places of the pages on its stack. *)
Fixpoint wstack (me_flags : Z) (w : wtxn) (mc : wcursor) (fs : list frame) : Prop :=
  match fs with
  | [] => True
  | f :: fs => aget (wc_pg mc) (zlen fs) = Some (locate me_flags [] w (fr_pgno f)) /\
      aget (wc_ki mc) (zlen fs) = Some (fr_ki f) /\ wstack me_flags w mc fs
  end.

Lemma wstack_at (me_flags : Z) (w : wtxn) (mc : wcursor) (low : list frame) (f : frame) (up : list frame) :
  wstack me_flags w mc (low ++ f :: up) ->
  aget (wc_pg mc) (zlen up) = Some (locate me_flags [] w (fr_pgno f)) /\ aget (wc_ki mc) (zlen up) = Some (fr_ki f) /\ wstack me_flags w mc up.
Proof. induction low as [|f0 low IH]; cbn [app wstack]; [done|]. intros (_ & _ & Hs). by apply IH. Qed.

Lemma zlen_app_cons {A} (low : list A) (f : A) (up : list A) : zlen (low ++ f :: up) = zlen low + zlen up + 1.
Proof. unfold zlen. rewrite length_app. cbn [length]. lia. Qed.

(** One page gets a new place. *)
Lemma wstack_move (me_flags : Z) (w w' : wtxn) (mc mc' : wcursor) (low up : list frame) (f f' : frame) (up' : list frame) :
  wstack me_flags w mc (low ++ f :: up) -> fr_ki f' = fr_ki f -> numbers up' = numbers up -> fr_ki <$> up' = fr_ki <$> up ->
  wc_ki mc' = wc_ki mc -> aget (wc_pg mc') (zlen up) = Some (locate me_flags [] w' (fr_pgno f')) ->
  (forall i, i <> zlen up -> aget (wc_pg mc') i = aget (wc_pg mc) i) ->
  (forall g, g ∈ low ++ up -> locate me_flags [] w' (fr_pgno g) = locate me_flags [] w (fr_pgno g)) ->
  wstack me_flags w' mc' (low ++ f' :: up').
Proof.
  intros Hs Hk Hn Hki Hkis Hf Hpg Hpl.
  assert (forall l l', wstack me_flags w mc l -> numbers l' = numbers l -> fr_ki <$> l' = fr_ki <$> l ->
    zlen l <= zlen up -> (forall g, g ∈ l -> g ∈ up) -> wstack me_flags w' mc' l') as Hup.
  { induction l as [|g l IH]; intros [|g' l'] Hs' Hn' Hki' Hl Hi; try done. destruct Hs' as (H1 & H2 & H3).
    cbn [numbers fmap list_fmap] in Hn', Hki'. injection Hn' as Hg Hn'. injection Hki' as Hgk Hki'.
    assert (zlen l' = zlen l) as El by (apply (f_equal length) in Hn'; rewrite !length_fmap in Hn'; unfold zlen; lia).
    assert (zlen (g :: l) = zlen l + 1) as Ec by (unfold zlen; cbn [length]; lia).
    cbn [wstack]. rewrite El, Hkis, Hg, Hgk. split_and!; [|done|].
    - rewrite Hpg by lia. rewrite Hpl by (apply elem_of_app; right; apply Hi; by left). done.
    - apply IH; auto; [lia|]. intros x Hx. apply Hi. by right. }
  assert (zlen up' = zlen up) as El.
  { apply (f_equal length) in Hn. unfold numbers in Hn. rewrite !length_fmap in Hn. unfold zlen. lia. }
  induction low as [|g low IH]; cbn [app wstack] in *; destruct Hs as (H1 & H2 & H3); split_and!.
  - by rewrite El.
  - by rewrite El, Hkis, Hk.
  - by apply (Hup up).
  - assert (zlen (low ++ f' :: up') = zlen (low ++ f :: up)) as -> by (rewrite !zlen_app_cons; lia).
    rewrite Hpg by (rewrite zlen_app_cons; unfold zlen; lia). rewrite Hpl by (by left). done.
  - assert (zlen (low ++ f' :: up') = zlen (low ++ f :: up)) as -> by (rewrite !zlen_app_cons; lia). by rewrite Hkis.
  - apply IH; [done|]. intros x Hx. apply Hpl. by right.
Qed.

(** ** The other cursors *)

(** Page by page from level [t] on, cursor [m2] goes where the touched cursor
    goes if it was on the same page. *)
Record follows (t : Z) (mc mc' m2 m2' : wcursor) : Prop := {
  fo_snum : wc_snum m2' = wc_snum m2;
  fo_top : wc_top m2' = wc_top m2;
  fo_ki : wc_ki m2' = wc_ki m2;
  fo_flags : wc_flags m2' = wc_flags m2;
  fo_len : zlen (wc_pg m2') = zlen (wc_pg m2);
  fo_pg i : aget (wc_pg m2') i =
    if decide (t <= i < wc_snum mc /\ wc_snum mc <= wc_snum m2 /\ aget (wc_pg m2) i = aget (wc_pg mc) i)
    then aget (wc_pg mc') i else aget (wc_pg m2) i
}.

(** What becomes of the touched cursor, from level [t] on. *)
Record same_cursor (t : Z) (mc mc' : wcursor) : Prop := {
  sm_snum : wc_snum mc' = wc_snum mc;
  sm_ki : wc_ki mc' = wc_ki mc;
  sm_flags : wc_flags mc' = wc_flags mc;
  sm_pg i : i < t -> aget (wc_pg mc') i = aget (wc_pg mc) i
}.

Lemma follows_refl (t : Z) (mc mc' m2 : wcursor) : (forall i, t <= i < wc_snum mc -> aget (wc_pg mc') i = aget (wc_pg mc) i) ->
  follows t mc mc' m2 m2.
Proof.
  intros Hs. split; try done. intros i. destruct (decide _) as [(Hi & _ & E)|]; [|done]. by rewrite Hs.
Qed.

(** One level, and then the others. *)
Lemma follows_trans (t : Z) (mc mc1 mc' m2 m21 m2' : wcursor) : same_cursor t mc mc1 -> same_cursor (t + 1) mc1 mc' ->
  (forall i, i <> t -> aget (wc_pg mc1) i = aget (wc_pg mc) i) ->
  (forall i, i <> t -> aget (wc_pg m21) i = aget (wc_pg m2) i) ->
  follows t mc mc1 m2 m21 -> follows (t + 1) mc1 mc' m21 m2' -> follows t mc mc' m2 m2'.
Proof.
  intros Hs1 Hs2 Hm H2 [F1 F2 F3 F4 F5 F6] [G1 G2 G3 G4 G5 G6]. split; try congruence. intros i.
  rewrite G6, (sm_snum _ _ _ Hs1). destruct (decide (i = t)) as [->|Hne].
  - rewrite decide_False by lia. rewrite F6. destruct (decide _) as [Hd|Hd].
    + by rewrite (sm_pg _ _ _ Hs2) by lia.
    + done.
  - rewrite H2, Hm by done. rewrite F1. destruct (decide (t + 1 <= i < wc_snum mc /\ _)) as [Hd|Hd];
      destruct (decide (t <= i < wc_snum mc /\ _)) as [Hd'|Hd']; try done.
    + exfalso. apply Hd'. split; [lia|apply Hd].
    + exfalso. apply Hd. split; [lia|apply Hd'].
Qed.

Lemma relink_ok (mc m2 : wcursor) (mp np : page_ptr) (pg : list (option page_ptr)) : 0 <= wc_top mc < wc_snum mc ->
  aget (wc_pg mc) (wc_top mc) = Some (Some mp) -> aset (wc_pg mc) (wc_top mc) (Some np) = Some pg ->
  wc_top mc < zlen (wc_pg m2) ->
  let mc1 := WCur (wc_snum mc) (wc_top mc) pg (wc_ki mc) (wc_flags mc) in
  exists m21, relink mc mp np m2 = Some m21 /\ follows (wc_top mc) mc mc1 m2 m21 /\
    forall i, i <> wc_top mc -> aget (wc_pg m21) i = aget (wc_pg m2) i.
Proof.
  intros Ht Hmp Hpg Hlen mc1. unfold relink. apply aset_Some in Hpg as [Hr ->].
  destruct (Z.ltb_spec (wc_snum m2) (wc_snum mc)) as [Hlt|Hge].
  { exists m2. split; [done|]. split; [|done]. split; try done. intros i. by rewrite decide_False by lia. }
  rewrite (aget_in (wc_pg m2)) by lia. cbn [mbind option_bind].
  assert (aget (wc_pg mc1) (wc_top mc) = Some (Some np)) as E1.
  { cbn [mc1 wc_pg]. rewrite aget_in by (rewrite zlen_zset; lia). by rewrite zn_zset_eq. }
  assert (forall i, i <> wc_top mc -> aget (wc_pg mc1) i = aget (wc_pg mc) i) as E2.
  { intros i Hi. cbn [mc1 wc_pg]. apply aget_zset_ne; lia. }
  destruct (decide (zn (wc_pg m2) (wc_top mc) = Some mp)) as [E|E].
  - rewrite aset_in by lia. cbn [mbind option_bind]. eexists. split; [reflexivity|].
    assert (forall i, i <> wc_top mc -> aget (zset (wc_pg m2) (wc_top mc) (Some np)) i = aget (wc_pg m2) i) as E3.
    { intros i Hi. apply aget_zset_ne; lia. }
    split; [|done]. split; cbn [wc_snum wc_top wc_ki wc_flags wc_pg]; try done; [apply zlen_zset|]. intros i.
    destruct (decide (i = wc_top mc)) as [->|Hne].
    + rewrite decide_True by (split; [lia|]; split; [done|]; by rewrite aget_in, E, Hmp by lia).
      rewrite E1, aget_in by (rewrite zlen_zset; lia). by rewrite zn_zset_eq by lia.
    + rewrite E3 by done. destruct (decide _) as [(_ & _ & Hd)|]; [|done]. by rewrite E2.
  - exists m2. split; [done|]. split; [|done]. split; try done. intros i. destruct (decide _) as [(Hi & _ & Hd)|]; [|done].
    destruct (decide (i = wc_top mc)) as [->|Hne]; [|by rewrite E2]. exfalso. apply E.
    rewrite (aget_in (wc_pg m2)), Hmp in Hd by lia. congruence.
Qed.

Lemma relink_all (mc : wcursor) (mp np : page_ptr) (pg : list (option page_ptr)) (l : list wcursor) : 0 <= wc_top mc < wc_snum mc ->
  aget (wc_pg mc) (wc_top mc) = Some (Some mp) -> aset (wc_pg mc) (wc_top mc) (Some np) = Some pg ->
  Forall (fun m2 => wc_snum mc <= zlen (wc_pg m2)) l ->
  let mc1 := WCur (wc_snum mc) (wc_top mc) pg (wc_ki mc) (wc_flags mc) in
  exists cs, mapM (relink mc mp np) l = Some cs /\ Forall2 (follows (wc_top mc) mc mc1) l cs /\
    Forall2 (fun m2 m2' => forall i, i <> wc_top mc -> aget (wc_pg m2') i = aget (wc_pg m2) i) l cs.
Proof.
  intros Ht Hmp Hpg Hall mc1. induction Hall as [|m2 l Hm2 Hall IH]; [exists []; by split_and!|].
  destruct IH as (cs & E & F1 & F2). destruct (relink_ok mc m2 mp np pg Ht Hmp Hpg ltac:(lia)) as (m21 & E1 & G1 & G2).
  exists (m21 :: cs). cbn [mapM]. rewrite E1. cbn [mbind option_bind]. rewrite E. split; [done|]. split; by constructor.
Qed.

(** ** One level *)

Lemma txn_error_set (w : wtxn) : Z.land (a_mt_flags (w_alloc (txn_error w))) MDB_TXN_ERROR <> 0.
Proof.
  cbn [txn_error set_alloc w_alloc set_error a_mt_flags]. rewrite Z.land_lor_distr_l, Z.land_diag. intros [_ E]%Z.lor_eq_0_iff. done.
Qed.

Definition frame_dirty (f : frame) : Prop := p_dirty (fr_page f) = true.

Section Level.
Variable file : Z -> option (list Z).
Variables (me_flags me_map me_psize me_maxpg : Z).
Variable os_malloc : gmap Z (list Z) -> Z -> option (Z * list Z).
Variables (junk : nat -> Z) (mem_ok : Z -> bool) (need_ok : bool).
Variables (mt_txnid : Z) (readers : option (list MDB_reader * Z)).
Hypothesis Hwm : Z.land me_flags MDB_WRITEMAP = 0.
Hypothesis Hps : 16 <= me_psize.
Hypothesis Hmax : me_maxpg <= 2 ^ 31.
Hypothesis Hmalloc : forall mem sz a b, os_malloc mem sz = Some (a, b) -> mem !! a = None /\ zlen b = sz /\ Forall is_byte b.
Abbreviation seen := (view file me_flags []).
Abbreviation place := (locate me_flags []).
Context (md_cmp : MDB_cmp_func) (D : MDB_val -> Prop) (ord : MDB_val -> MDB_val -> Z) (H : nat) (es : list (MDB_val * MDB_val)).
Variables (free_root : Z) (rootf : list Z) (hf : nat) (esf : list (MDB_val * MDB_val)) (recs : list free_rec).
Variable fuel : nat.
Hypothesis Hfuel : (length recs < fuel)%nat.
Abbreviation inv := (cow_inv file me_flags me_psize me_maxpg readers mt_txnid md_cmp D ord H es free_root rootf hf esf recs).
Abbreviation whole := (whole md_cmp D ord).
Abbreviation accounts := (accounted file me_flags me_psize H free_root hf esf recs).
Abbreviation page_touch := (mdb_page_touch file me_flags me_map me_psize me_maxpg os_malloc junk mem_ok need_ok mt_txnid readers
  free_root [] fuel).
Variables (h : nat) (lft cur rgt : list (MDB_val * MDB_val)).
Hypothesis Hes : es = lft ++ cur ++ rgt.

(** Keys that belong to the page on top. *)
Variable ks : list (MDB_val * MDB_val).

(** The cursor is on the path [fs] of the tree. *)
Record at_path (w : wtxn) (mc : wcursor) (fs : list frame) : Prop := {
  ap_inv : inv w;
  ap_whole : whole (seen w) H (w_root w) fs h lft cur rgt;
  ap_stack : wstack me_flags w mc fs;
  ap_snum : zlen fs = wc_snum mc;
  ap_keys : Forall (in_frames D ord (tail fs)) ks;
  ap_cursors : Forall (fun m2 => wc_snum mc <= zlen (wc_pg m2)) (w_cursors w)
}.

(** What a step from level [t] on does to the cursors. *)
Definition moved_cursors (t : Z) (w w' : wtxn) (mc mc' : wcursor) : Prop :=
  same_cursor t mc mc' /\ Forall2 (follows t mc mc') (w_cursors w) (w_cursors w').

Definition level_moved (w w' : wtxn) (mc mc' : wcursor) : Prop :=
  wc_top mc' = wc_top mc /\ moved_cursors (wc_top mc) w w' mc mc' /\
  (forall i, i <> wc_top mc -> aget (wc_pg mc') i = aget (wc_pg mc) i) /\
  Forall2 (fun m2 m2' => forall i, i <> wc_top mc -> aget (wc_pg m2') i = aget (wc_pg m2) i) (w_cursors w) (w_cursors w').

Definition failed (rc : Z) (w' : wtxn) : Prop :=
  (rc = MDB_TXN_FULL \/ rc = ENOMEM \/ rc = MDB_MAP_FULL) /\ Z.land (a_mt_flags (w_alloc w')) MDB_TXN_ERROR <> 0.

(** The page on top is a copy of the one that was there. *)
Definition same_top (fs fs' : list frame) : Prop :=
  match fs, fs' with f :: _, f' :: _ => page_copy None (fr_page f) (fr_page f') | _, _ => False end.

Definition touched (w : wtxn) (mc : wcursor) (low up : list frame) (f : frame) (r : option (Z * wtxn * wcursor)) : Prop :=
  (exists w' mc' f' up', r = Some (MDB_SUCCESS, w', mc') /\ at_path w' mc' (low ++ f' :: up') /\ Forall frame_dirty (f' :: up') /\
     zlen up' = zlen up /\ level_moved w w' mc mc' /\ accounts w w' /\ same_top (low ++ f :: up) (low ++ f' :: up')) \/
  exists rc w' mc', r = Some (rc, w', mc') /\ failed rc w'.

Lemma inv_cursors (w : wtxn) (cs : list wcursor) : inv w -> inv (set_cursors w cs).
Proof. intros [[] ? ? ? ? ? ? ? ?]. split; try assumption. by split. Qed.

Section Frame.
Variables (w : wtxn) (mc : wcursor) (low up : list frame) (f : frame).
Hypothesis Hap : at_path w mc (low ++ f :: up).
Hypothesis Htop : wc_top mc = zlen up.
Hypothesis Hdirty : Forall frame_dirty up.
Let Hinv := ap_inv _ _ _ Hap.
Let Hl := ci_lists _ _ _ _ _ _ _ _ _ _ _ _ _ _ _ _ _ Hinv.

Lemma frame_facts (g : frame) : g ∈ low ++ f :: up -> seen w (fr_pgno g) = Some (fr_page g) /\ page_wf (fr_page g) /\
  zlen (fr_page g) = me_psize /\ pgno_of (fr_page g) = fr_pgno g /\ F_ISSET (p_flags (fr_page g)) P_OVERFLOW = false /\
  (p_dirty (fr_page g) = true <-> find_dirty (a_dirty (w_alloc w)) (fr_pgno g) <> None) /\ 1 < fr_pgno g < next_of w.
Proof.
  intros Hg. pose proof (ap_whole _ _ _ Hap) as Hw.
  destruct (whole_get md_cmp D ord _ H _ g _ _ _ _ _ Hw Hg) as [Hs _].
  pose proof (whole_in md_cmp D ord (fun _ => []) _ H _ g _ _ _ _ _ Hw Hg) as Hin.
  pose proof (whole_in md_cmp D ord (leaf_pages me_psize) _ H _ g _ _ _ _ _ Hw Hg) as Hin'.
  pose proof (ci_pages _ _ _ _ _ _ _ _ _ _ _ _ _ _ _ _ _ Hinv) as Hall. rewrite Forall_forall in Hall.
  destruct (Hall _ Hin) as (m & Hm & H1 & H2 & H3 & H4 & H5). assert (m = fr_page g) as -> by congruence.
  split_and!; auto; try tauto; [by eapply (whole_page md_cmp D ord)|..];
    apply (ci_below _ _ _ _ _ _ _ _ _ _ _ _ _ _ _ _ _ Hinv); unfold all_pages; rewrite !elem_of_app; tauto.
Qed.

Lemma top_range : 0 <= wc_top mc < wc_snum mc.
Proof. rewrite <- (ap_snum _ _ _ Hap), zlen_app_cons, Htop. pose proof (zlen_nonneg low). pose proof (zlen_nonneg up). lia. Qed.

Lemma same_top_step (f' : frame) (up' : list frame) : page_copy None (fr_page f) (fr_page f') ->
  same_top (low ++ f :: up) (low ++ f' :: up').
Proof.
  intros Hc. assert (forall g, g ∈ low -> page_wf (fr_page g)) as Hwf.
  { intros g Hg. destruct (frame_facts g) as (_ & Hwf & _); [|done]. apply elem_of_app. by left. }
  clear - Hc Hwf. destruct low as [|g low']; cbn [app same_top]; [done|]. apply page_copy_refl, Hwf. by left.
Qed.

(** The pointers of the cursors after a step. *)
Lemma done_ok (w3 : wtxn) (q np : Z) (pg m' : list Z) (par : option (Z * list Z)) (mp : page_ptr) :
  replaced me_psize me_maxpg readers mt_txnid recs w w3 (fr_pgno f) q np pg par -> parent_ok w w3 up q par m' ->
  dirty_copy (fr_page f) q pg -> w_cursors w3 = w_cursors w -> place w (fr_pgno f) = Some mp ->
  touched w mc low up f (touch_done w3 mc mp (Heap np)).
Proof.
  intros Hr Hpar [Hc Hq Hd Ho] Hcs Hmp.
  destruct (frame_facts f) as (_ & Hwf & Hlen & _ & Hov & _); [apply elem_of_app; right; by left|].
  assert (pg <> []) as Hne. { intros ->. pose proof (pc_len _ _ _ Hc) as E. rewrite Hlen in E. change (zlen (@nil Z)) with 0 in E. lia. }
  rewrite Hov in Ho.
  destruct (step_done file me_flags me_psize me_maxpg readers mt_txnid Hwm ltac:(lia) Hmax md_cmp D ord H es free_root rootf hf esf
    recs w w3 low up f h lft cur rgt q np pg m' par Hinv (ap_whole _ _ _ Hap) Hes Hr Hpar Hc Hne Hq Hd Ho) as (Hinv' & Hacc & Hw' & Hpq & Hpl & Hks).
  pose proof top_range as Ht. destruct (wstack_at _ _ _ _ _ _ (ap_stack _ _ _ Hap)) as (Hpg & Hki & _).
  rewrite <- Htop, Hmp in Hpg. rewrite <- Htop in Hki. pose proof (aget_lt _ _ _ Hpg) as Hr'.
  left. unfold touch_done. rewrite aset_in by done. cbn [mbind option_bind]. set (pgs := zset _ _ _).
  set (mc' := WCur _ _ pgs _ _).
  assert (exists cs, mapM (relink mc mp (Heap np)) (w_cursors w) = Some cs /\
    Forall2 (follows (wc_top mc) mc mc') (w_cursors w) cs /\
    Forall2 (fun m2 m2' => forall i, i <> wc_top mc -> aget (wc_pg m2') i = aget (wc_pg m2) i) (w_cursors w) cs) as (cs & Ecs & F1 & F2).
  { apply (relink_all mc mp (Heap np) pgs); auto; [by apply aset_in|apply (ap_cursors _ _ _ Hap)]. }
  rewrite Hcs, Ecs. cbn [mbind option_bind].
  assert (forall i, i <> wc_top mc -> aget (wc_pg mc') i = aget (wc_pg mc) i) as Hpgs.
  { intros i Hi. cbn [mc' wc_pg]. apply aget_zset_ne; lia. }
  exists (set_cursors w3 cs), mc', (Frame q pg (fr_ki f)), (repoint m' up). split; [done|].
  assert (zlen (repoint m' up) = zlen up) as Elen by (by destruct up).
  split; [|split; [|split; [done|]]].
  - split; [by apply inv_cursors|done|..].
    + eapply (wstack_move me_flags w _ mc mc' low up f); [apply Hap|done|by destruct up|by destruct up|done|..].
      * rewrite <- Htop. cbn [fr_pgno]. change (place (set_cursors w3 cs) q) with (place w3 q). rewrite Hpq.
        cbn [mc' wc_pg]. rewrite aget_in by (unfold pgs; rewrite zlen_zset; lia). unfold pgs. by rewrite zn_zset_eq by lia.
      * rewrite <- Htop. exact Hpgs.
      * intros g Hg. by apply Hpl.
    + cbn [mc' wc_snum]. rewrite <- (ap_snum _ _ _ Hap), !zlen_app_cons, Elen. done.
    + apply (Forall_impl _ _ _ (ap_keys _ _ _ Hap)), Hks.
    + cbn [mc' wc_snum set_cursors w_cursors]. pose proof (ap_cursors _ _ _ Hap) as Hall.
      apply Forall_forall. intros m2' (i & Hi)%list_elem_of_lookup. destruct (Forall2_lookup_r _ _ _ _ _ F1 Hi) as (m2 & Hm2 & Hf).
      rewrite (fo_len _ _ _ _ _ Hf). by apply (proj1 (Forall_forall _ _) Hall), list_elem_of_lookup_2 with i.
  - apply Forall_cons. split; [done|]. destruct up as [|g up']; [done|]. cbn [repoint].
    inversion Hdirty; subst. apply Forall_cons. split; [|done].
    destruct Hpar as (_ & _ & _ & _ & _ & Hf & _). unfold frame_dirty, p_dirty in *. cbn [fr_page]. by rewrite Hf.
  - split; [|split; [exact Hacc|by apply same_top_step]].
    split; [done|]. split; [|by split]. split; [|done]. split; try done. intros i Hi. apply Hpgs. lia.
Qed.

Lemma up_cases : up = [] \/ exists g up', up = g :: up'.
Proof. destruct up as [|g up']; [by left|right; by exists g, up']. Qed.

(** The parent is as the touch needs it. *)
Lemma parent_at_ok : parent_at w mc up.
Proof.
  destruct up_cases as [Eup|(g & up' & Eup)]; [rewrite Eup; cbn [parent_at]; by rewrite Htop, Eup|]. rewrite Eup at 1. cbn [parent_at].
  assert (g ∈ low ++ f :: up) as Hg by (rewrite Eup, elem_of_app, !elem_of_cons; tauto).
  destruct (frame_facts g Hg) as (Hs & Hwf & _ & _ & _ & Hd & Hb).
  assert (zlen up = zlen up' + 1) as El by (rewrite Eup; unfold zlen; cbn [length]; lia). pose proof (zlen_nonneg up').
  assert (frame_dirty g) as Hgd by (rewrite Eup in Hdirty; by inversion Hdirty).
  pose proof (ap_stack _ _ _ Hap) as Hst. assert (low ++ f :: up = (low ++ [f]) ++ g :: up') as Efs by (rewrite Eup, <- app_assoc; done).
  rewrite Efs in Hst. destruct (wstack_at _ _ _ _ _ _ Hst) as (Hpg & Hki & _).
  pose proof (ap_whole _ _ _ Hap) as Hw. rewrite Eup in Hw. destruct (whole_child md_cmp D ord _ H _ f g low up' _ _ _ _ Hw) as (_ & Hlf & Hk).
  replace (wc_top mc - 1) with (zlen up') by lia. split_and!; auto; try lia.
  destruct (find_dirty (a_dirty (w_alloc w)) (fr_pgno g)) as [e|] eqn:Ed; [|by apply Hd in Hgd].
  apply (find_dirty_elem me_psize me_maxpg w e _ Hl) in Ed as Ee. destruct Ee as [He Hm]. exists e.
  pose proof (lo_next Hl) as Hn.
  assert (place w (fr_pgno g) = Some (Heap (mptr e))) as Epl.
  { rewrite (locate_ok me_flags me_psize me_maxpg Hwm w _ Hl) by lia. rewrite decide_False.
    - by rewrite Ed.
    - rewrite <- Hm. by apply (lo_disj Hl). }
  split_and!; auto; [by rewrite <- Epl|]. unfold view in Hs. rewrite Epl in Hs. exact Hs.
Qed.

Lemma clean_place : p_dirty (fr_page f) = false -> 2 * fr_pgno f ∉ spilled_of w -> place w (fr_pgno f) = Some (Mapped (fr_pgno f)) /\
  file (fr_pgno f) = Some (fr_page f).
Proof.
  intros Hc Hs. destruct (frame_facts f) as (Hv & _ & _ & _ & _ & Hd & Hb); [apply elem_of_app; right; by left|].
  pose proof (lo_next Hl) as Hn.
  assert (place w (fr_pgno f) = Some (Mapped (fr_pgno f))) as E.
  { rewrite (locate_ok me_flags me_psize me_maxpg Hwm w _ Hl) by lia. rewrite decide_False by done.
    destruct (find_dirty _ _); [|by rewrite decide_True by lia]. exfalso. rewrite Hc in Hd. by discriminate (proj2 Hd). }
  split; [done|]. unfold view in Hv. rewrite E in Hv. exact Hv.
Qed.

(** The page number handed out is not one in use. *)
Lemma fresh_unused (w1 : wtxn) (fp : midl) (q np : Z) : fresh_page me_psize me_maxpg mt_txnid readers recs (set_free w fp) w1 q np ->
  q <> fr_pgno f /\ 0 <= q < 2 ^ 48 /\ parent_loose w w1 up q.
Proof.
  intros Hf. pose proof (ci_unique _ _ _ _ _ _ _ _ _ _ _ _ _ _ _ _ _ Hinv) as Hnd. unfold all_pages in Hnd.
  apply NoDup_app in Hnd as (_ & Hnd & _).
  assert (forall g, g ∈ low ++ f :: up -> fr_pgno g ∉ pool recs w) as Hno.
  { intros g Hg Hp. apply (Hnd (fr_pgno g)); [|by apply elem_of_app; right].
    eapply (whole_in md_cmp D ord); [apply (ap_whole _ _ _ Hap)|done]. }
  assert (forall x, x ∈ pool recs w -> 1 < x < next_of w) as Hbel.
  { intros x Hx. apply (ci_below _ _ _ _ _ _ _ _ _ _ _ _ _ _ _ _ _ Hinv). unfold all_pages. rewrite !elem_of_app. tauto. }
  assert (q ∈ pool recs w \/ q = next_of w /\ next_of w1 = next_of w + 1) as Hq.
  { destruct (fp_pool Hf) as [[Hp _]|(_ & ? & ?)]; [left|by right].
    assert (q ∈ (loose_id w <$> a_loose_pgs (w_alloc w)) ++ reusable recs w) as Hx.
    { change (q ∈ (loose_id (set_free w fp) <$> a_loose_pgs (w_alloc (set_free w fp))) ++ reusable recs (set_free w fp)).
      rewrite <- Hp. by left. }
    unfold pool. rewrite !elem_of_app in *. tauto. }
  assert (forall g, g ∈ low ++ f :: up -> fr_pgno g <> q) as Hne.
  { intros g Hg E. destruct (frame_facts g Hg) as (_ & _ & _ & _ & _ & _ & Hb). destruct Hq as [Hq|[-> _]]; [|lia].
    apply (Hno g Hg). by rewrite E. }
  pose proof (fp_next Hf) as Hn. change (next_of (set_free w fp)) with (next_of w) in Hn.
  split_and!.
  - intros ->. apply (Hne f); [apply elem_of_app; right; by left|done].
  - destruct Hq as [Hq%Hbel|[-> _]]; [lia|]. pose proof (lo_next Hl). lia.
  - destruct Hq as [Hq%Hbel|[-> ?]]; lia.
  - destruct up_cases as [Eup|(g & up' & Eup)]; rewrite Eup; [done|]. cbn [parent_loose].
    assert (g ∈ low ++ f :: up) as Hg by (rewrite Eup, elem_of_app, !elem_of_cons; tauto).
    split; [by apply Hne|]. intros e He Hm Hlo. destruct (fp_loose Hf _ Hlo) as [Hlo' _].
    destruct (lo_loose Hl _ Hlo') as (_ & e' & He' & Hp' & Hi').
    assert (e' = e) as -> by (eapply (dirty_ptr_inj me_psize me_maxpg w); eauto).
    apply (Hno g Hg). rewrite <- Hm, Hi'. unfold pool. apply elem_of_app. left. by apply list_elem_of_fmap_2.
Qed.

(** The room in the list of freed pages. *)
Lemma freed_count : zn (cells (w_free_pgs w)) 0 + 1 < 2 ^ 31.
Proof.
  destruct (lo_freed Hl) as (Hlen & Hc & _). pose proof (ci_unique _ _ _ _ _ _ _ _ _ _ _ _ _ _ _ _ _ Hinv) as Hnd.
  pose proof (ci_below _ _ _ _ _ _ _ _ _ _ _ _ _ _ _ _ _ Hinv) as Hb. pose proof (lo_next Hl) as Hn.
  set (ids := midl_ids (cells (w_free_pgs w))).
  assert (zlen ids = zn (cells (w_free_pgs w)) 0) as El by (apply zlen_midl_ids; lia).
  assert (NoDup ids /\ forall x, x ∈ ids -> 1 < x < next_of w) as [Hnd' Hb'].
  { unfold all_pages, pool in Hnd. apply NoDup_app in Hnd as (_ & _ & Hnd). apply NoDup_app in Hnd as (_ & _ & Hnd).
    apply NoDup_app in Hnd as (_ & _ & Hnd). apply NoDup_app in Hnd as (Hnd & _ & _). split; [done|].
    intros x Hx. apply Hb. unfold all_pages, pool. rewrite !elem_of_app. tauto. }
  assert (ids ⊆+ seqZ 2 (next_of w - 2)) as Hs.
  { apply NoDup_submseteq; [done|]. intros x Hx%Hb'. apply elem_of_seqZ. lia. }
  apply submseteq_length in Hs. rewrite length_seqZ in Hs. unfold zlen in El. pose proof (frame_facts f) as Hf.
  destruct Hf as (_ & _ & _ & _ & _ & _ & Hf); [apply elem_of_app; right; by left|]. lia.
Qed.

(** A spilled page that is read back. *)
Lemma touch_spilled : 2 * fr_pgno f ∈ spilled_of w -> forall mp, place w (fr_pgno f) = Some mp ->
  touched w mc low up f (touch_clean file me_flags me_map me_psize me_maxpg os_malloc junk mem_ok need_ok mt_txnid readers
    free_root [] fuel w mc mp (fr_page f)).
Proof.
  intros Hs mp Hmp. destruct (frame_facts f) as (_ & Hwf & Hlen & Hpn & Hov & _ & Hb); [apply elem_of_app; right; by left|].
  pose proof (lo_next Hl) as Hn. unfold touch_clean.
  assert (nz (Z.land (a_mt_flags (w_alloc w)) MDB_TXN_SPILLS) = true) as ->.
  { unfold nz. apply negb_true_iff, Z.eqb_neq, (lo_spills Hl). intros E. rewrite E in Hs. by apply elem_of_nil in Hs. }
  destruct (unspill_some file me_flags me_psize me_maxpg os_malloc mem_ok mt_txnid readers Hwm Hps Hmalloc recs w (fr_page f) (fr_pgno f)
    Hl (ci_alloc _ _ _ _ _ _ _ _ _ _ _ _ _ _ _ _ _ Hinv) (ci_spilled _ _ _ _ _ _ _ _ _ _ _ _ _ _ _ _ _ Hinv)
    Hwf Hlen Hpn Hov ltac:(lia) Hs) as [(rc & w' & -> & Hrc)|(w' & np & pg & -> & Hdc & Hr & Hroot & Hcs)]; cbn [mbind option_bind].
  - right. assert (nz rc = true) as -> by (by destruct Hrc as [->| ->]). eexists rc, _, _. split; [done|].
    split; [tauto|apply txn_error_set].
  - change (nz MDB_SUCCESS) with false. cbv iota.
    apply (done_ok w' (fr_pgno f) np pg (match up with [] => [] | g :: _ => fr_page g end) None); auto.
    destruct up_cases as [Eup|(g & up' & Eup)]; rewrite Eup; cbn [parent_ok].
    + split; [done|]. rewrite Hroot. pose proof (ap_whole _ _ _ Hap) as Hw. rewrite Eup in Hw. symmetry.
      by eapply (whole_root md_cmp D ord).
    + assert (g ∈ low ++ f :: up) as Hg by (rewrite Eup, elem_of_app, !elem_of_cons; tauto).
      destruct (frame_facts g Hg) as (_ & Hgw & Hgl & _).
      pose proof (ap_whole _ _ _ Hap) as Hw. rewrite Eup in Hw.
      destruct (whole_child md_cmp D ord _ H _ f g low up' _ _ _ _ Hw) as (Hc & _).
      split; [by right|]. split_and!; auto; [by apply page_copy_refl|]. intros E. rewrite E in Hgl. change (zlen (@nil Z)) with 0 in Hgl. lia.
Qed.

(** A page of the file that is copied. *)
Lemma touch_mapped : 2 * fr_pgno f ∉ spilled_of w -> p_dirty (fr_page f) = false ->
  touched w mc low up f (touch_clean file me_flags me_map me_psize me_maxpg os_malloc junk mem_ok need_ok mt_txnid readers
    free_root [] fuel w mc (Mapped (fr_pgno f)) (fr_page f)).
Proof.
  intros Hs Hc. destruct (frame_facts f) as (_ & Hwf & Hlen & Hpn & Hov & _ & Hb); [apply elem_of_app; right; by left|].
  pose proof (lo_next Hl) as Hn. destruct (clean_place Hc Hs) as [Hpl Hfile]. unfold touch_clean.
  assert ((if nz (Z.land (a_mt_flags (w_alloc w)) MDB_TXN_SPILLS) then mdb_page_unspill me_flags me_psize os_malloc [] w (fr_page f)
    else Some (MDB_SUCCESS, w, None)) = Some (MDB_SUCCESS, w, None)) as ->.
  { destruct (nz _); [|done]. apply (unspill_none me_flags me_psize me_maxpg os_malloc Hwm Hps w (fr_page f) (fr_pgno f)); auto. lia. }
  cbn [mbind option_bind]. change (nz MDB_SUCCESS) with false. cbv iota.
  assert (forall rc w1, rc = MDB_TXN_FULL \/ rc = ENOMEM \/ rc = MDB_MAP_FULL -> nz rc = true /\
    touched w mc low up f (Some (rc, txn_error w1, mc))) as Hfail.
  { intros rc w1 Hrc. split; [by destruct Hrc as [->|[->| ->]]|]. right. eexists rc, _, _. split; [done|]. split; [done|]. apply txn_error_set. }
  pose proof (lo_freed Hl) as Hfr. pose proof freed_count as Hcnt.
  destruct (midl_need_any junk need_ok (w_free_pgs w) 1 Hfr ltac:(lia) ltac:(lia)) as [(fp & -> & Hfp & Hroom & Hids)|[_ ->]];
    cbn [mbind option_bind]; [|destruct (Hfail ENOMEM (set_free w (w_free_pgs w))) as [-> ?]; tauto].
  change (nz 0) with false. cbv iota.
  assert (zn (cells fp) 0 + 1 <= alloclen fp) as Hroom'.
  { pose proof (f_equal zlen Hids) as E. destruct Hfp as (F1 & F2 & _). destruct Hfr as (F3 & F4 & _).
    rewrite !zlen_midl_ids in E by lia. lia. }
  pose proof Hinv as [_ Hal _ _ Hdb Hrec Hun _ Hsp].
  assert (NoDup ((loose_id w <$> a_loose_pgs (w_alloc w)) ++ reusable recs w)) as Hnd.
  { unfold all_pages, pool in Hun. apply NoDup_app in Hun as (_ & _ & Hun). apply NoDup_app in Hun as (_ & _ & Hun).
    rewrite (Permutation_app_swap_app (loose_id w <$> _)) in Hun. by apply NoDup_app in Hun as (_ & _ & ?). }
  assert (lists_ok me_psize me_maxpg (set_free w fp)) as Hl0 by (destruct Hl; by split).
  destruct (alloc_one_ok file me_flags me_map me_psize me_maxpg os_malloc junk mem_ok mt_txnid readers Hwm Hps Hmax Hmalloc
    recs fuel (set_free w fp) free_root rootf hf esf Hl0 Hal Hsp Hdb Hrec Hnd Hfuel) as (r & w1 & -> & Hr). cbn [mbind option_bind].
  destruct r as [[np q]|rc]; [|by apply (Hfail rc w1)]. destruct Hr as [Hf _].
  destruct (fresh_unused w1 fp q np Hf) as (Hqne & Hq & Hpl').
  rewrite get_pgno by lia. rewrite Hpn. cbn [mbind option_bind]. destruct (Z.eqb_spec (fr_pgno f) q); [done|].
  destruct (fp_same Hf) as (Ef & _). rewrite Ef. cbn [set_free w_free_pgs].
  destruct (copied_ok file me_flags me_psize me_maxpg mem_ok mt_txnid readers recs w w1 fp mc up (fr_page f) (fr_pgno f) q np
    Hl Hf Hfp Hroom' Hids Hq Hwf Hlen Hfile parent_at_ok Hpl') as (ids & w2 & w3 & pg & par & m' & -> & E2 & E3 & Hdc & Hrp & Hpo & Hcs).
  cbn [mbind option_bind]. unfold freed, set_free in E2. unfold set_free. rewrite E2. cbn [mbind option_bind]. rewrite E3. cbn [mbind option_bind].
  by apply (done_ok w3 q np pg m' par).
Qed.

Lemma page_touch_ok : touched w mc low up f (page_touch w mc).
Proof.
  destruct (frame_facts f) as (Hv & Hwf & Hlen & _ & _ & _ & _); [apply elem_of_app; right; by left|].
  destruct (wstack_at _ _ _ _ _ _ (ap_stack _ _ _ Hap)) as (Hpg & _). rewrite <- Htop in Hpg.
  unfold mdb_page_touch. rewrite Hpg. cbn [mbind option_bind]. pose proof Hv as Hd. unfold view in Hd.
  destruct (place w (fr_pgno f)) as [mp|] eqn:Epl; [|done]. cbn [mbind option_bind] in Hd |- *. rewrite Hd. cbn [mbind option_bind].
  unfold mp_flags. rewrite get16_in by lia. cbn [mbind option_bind]. fold (p_flags (fr_page f)) (p_dirty (fr_page f)).
  destruct (p_dirty (fr_page f)) eqn:Ec; cbn [negb].
  - left. exists w, mc, f, up. split; [done|]. split; [done|]. split; [by constructor|]. split; [done|].
    split; [|split; [split; [lia|by rewrite Z.sub_diag]|by apply same_top_step, page_copy_refl]]. split; [done|]. split; [|split; [done|]].
    + split; [by split|]. apply Forall_Forall2_diag, Forall_forall. intros m2 _. by apply follows_refl.
    + by apply Forall_Forall2_diag, Forall_forall.
  - destruct (decide (2 * fr_pgno f ∈ spilled_of w)) as [Hs|Hs]; [by apply touch_spilled|].
    destruct (clean_place Ec Hs) as [E _]. rewrite E in Epl. injection Epl as <-. by apply touch_mapped.
Qed.
End Frame.

(** ** The loop *)

Lemma accounts_trans (w1 w2 w3 : wtxn) : accounts w1 w2 -> accounts w2 w3 -> accounts w1 w3.
Proof.
  intros [H1 P1] [H2 P2]. split; [lia|]. rewrite P2, P1.
  replace (next_of w3 - next_of w1) with ((next_of w2 - next_of w1) + (next_of w3 - next_of w2)) by lia.
  rewrite seqZ_app by lia. replace (next_of w1 + (next_of w2 - next_of w1)) with (next_of w2) by lia. solve_Permutation.
Qed.

Lemma at_path_level (w : wtxn) (mc : wcursor) (fs : list frame) (t : Z) : at_path w mc fs -> at_path w (at_level mc t) fs.
Proof.
  intros [H1 H2 H3 H4 H6 H5]. split; auto. clear - H3. induction fs as [|f fs IH]; [done|]. destruct H3 as (? & ? & ?). split_and!; auto.
Qed.

(** A level and the ones below it. *)
Lemma moved_step (w w1 w' : wtxn) (mc mc1 mc' : wcursor) : level_moved w w1 mc mc1 ->
  moved_cursors (wc_top mc + 1) w1 w' (at_level mc1 (wc_top mc + 1)) mc' -> moved_cursors (wc_top mc) w w' mc mc'.
Proof.
  intros (Et & [Hs1 F1] & Hpg & Hpgs) [Hs2 F2]. set (t := wc_top mc) in *.
  assert (same_cursor t mc (at_level mc1 (t + 1))) as Hs1' by (destruct Hs1; by split).
  split.
  - destruct Hs1 as [A1 A2 A3 A4], Hs2 as [B1 B2 B3 B4]. cbn [at_level wc_snum wc_ki wc_flags wc_pg] in *.
    split; try congruence. intros i Hi. rewrite B4, A4 by lia. done.
  - apply Forall2_same_length_lookup. split.
    { by rewrite (Forall2_length _ _ _ F1), (Forall2_length _ _ _ F2). }
    intros i m2 m2' Hi Hi'. destruct (Forall2_lookup_l _ _ _ _ _ F1 Hi) as (m21 & Hi1 & G1).
    destruct (Forall2_lookup_l _ _ _ _ _ Hpgs Hi) as (m21' & Hi1' & G2). assert (m21' = m21) as -> by congruence.
    destruct (Forall2_lookup_l _ _ _ _ _ F2 Hi1) as (m22 & Hi2 & G3). assert (m22 = m2') as -> by congruence.
    apply (follows_trans t mc (at_level mc1 (t + 1)) mc' m2 m21 m2'); auto. destruct G1; by split.
Qed.

(** Every page of the path is the transaction's own. *)
Definition own_page (w : wtxn) (f : frame) : Prop :=
  p_dirty (fr_page f) = true /\ exists a, place w (fr_pgno f) = Some (Heap a) /\ w_mem w !! a = Some (fr_page f).

Lemma own_pages (w : wtxn) (mc : wcursor) (fs : list frame) : at_path w mc fs -> Forall frame_dirty fs -> Forall (own_page w) fs.
Proof.
  intros Hap Hd. apply Forall_forall. intros f Hf. pose proof (proj1 (Forall_forall _ _) Hd f Hf) as Hfd. split; [done|].
  apply list_elem_of_split in Hf as (low & up & ->). pose proof (ap_inv _ _ _ Hap) as Hinv.
  destruct (frame_facts w mc low up f Hap f) as (Hv & _ & _ & _ & _ & Hd' & Hb); [apply elem_of_app; right; by left|].
  pose proof (ci_lists _ _ _ _ _ _ _ _ _ _ _ _ _ _ _ _ _ Hinv) as Hl. pose proof (lo_next Hl) as Hn.
  destruct (find_dirty (a_dirty (w_alloc w)) (fr_pgno f)) as [e|] eqn:Ed; [|by apply Hd' in Hfd].
  apply (find_dirty_elem me_psize me_maxpg w e _ Hl) in Ed as Ee. destruct Ee as [He Hm].
  assert (place w (fr_pgno f) = Some (Heap (mptr e))) as Epl.
  { rewrite (locate_ok me_flags me_psize me_maxpg Hwm w _ Hl) by lia. rewrite decide_False; [by rewrite Ed|].
    rewrite <- Hm. by apply (lo_disj Hl). }
  exists (mptr e). split; [done|]. unfold view in Hv. rewrite Epl in Hv. exact Hv.
Qed.

Abbreviation loop := (touch_loop file me_flags me_map me_psize me_maxpg os_malloc junk mem_ok need_ok mt_txnid readers free_root [] fuel).

Definition all_touched (t : Z) (w : wtxn) (mc : wcursor) (fs : list frame) (r : option (Z * wtxn * wcursor)) : Prop :=
  (exists w' mc' fs', r = Some (MDB_SUCCESS, w', mc') /\ at_path w' mc' fs' /\ Forall frame_dirty fs' /\
     moved_cursors t w w' mc mc' /\ accounts w w' /\ same_top fs fs') \/
  exists rc w' mc', r = Some (rc, w', mc') /\ failed rc w'.

Lemma same_top_trans (w : wtxn) (mc : wcursor) (fs fs1 fs2 : list frame) : at_path w mc fs -> same_top fs fs1 -> same_top fs1 fs2 ->
  same_top fs fs2.
Proof.
  intros Hap H1 H2. destruct fs as [|f fs], fs1 as [|f1 fs1], fs2 as [|f2 fs2]; try done. cbn [same_top] in *.
  apply (page_copy_trans _ (fr_page f1)); auto. by destruct (frame_facts w mc [] fs f Hap f ltac:(by left)) as (_ & ? & _).
Qed.

Lemma loop_ok (n : nat) : forall (low : list frame) (f : frame) (up : list frame) (w : wtxn) (mc : wcursor),
  at_path w mc (low ++ f :: up) -> wc_top mc = zlen up -> Forall frame_dirty up -> (length low < n)%nat ->
  all_touched (wc_top mc) w mc (low ++ f :: up) (loop n w mc).
Proof.
  induction n as [|n IH]; intros low f up w mc Hap Htop Hd Hn; [lia|]. cbn [touch_loop].
  destruct (page_touch_ok w mc low up f Hap Htop Hd) as [(w1 & mc1 & f1 & up1 & -> & Hap1 & Hd1 & El & Hmv & Hac & Htp)|(rc & w1 & mc1 & -> & Hf)];
    cbn [mbind option_bind]; cycle 1.
  { right. destruct Hf as [Hrc Hf]. assert (nz rc = true) as -> by (by destruct Hrc as [->|[->| ->]]). by exists rc, w1, mc1. }
  change (nz MDB_SUCCESS) with false. cbv iota. pose proof Hmv as (Et & [Hsm Hfo] & _).
  pose proof (ap_snum _ _ _ Hap1) as Hsn. rewrite zlen_app_cons in Hsn. rewrite Et. cbn [at_level wc_top wc_snum].
  assert (accounts w1 w1) as Hrefl by (split; [lia|by rewrite Z.sub_diag]).
  pose proof (at_path_level w1 mc1 _ (wc_top mc + 1) Hap1) as Hap1'.
  destruct low as [|g low _] using rev_ind.
  - change (zlen (@nil frame)) with 0 in Hsn. destruct (Z.ltb_spec (wc_top mc + 1) (wc_snum mc1)); [lia|]. left.
    eexists _, _, _. split; [done|]. split; [exact Hap1'|]. split; [done|]. split; [|done].
    destruct Hsm as [A1 A2 A3 A4]. split; [split; auto|]. apply (Forall2_impl _ _ _ _ Hfo). intros m2 m2' []. by split.
  - rewrite length_app in Hn. cbn [length] in Hn. destruct (Z.ltb_spec (wc_top mc + 1) (wc_snum mc1)) as [Hlt|Hge]; cycle 1.
    { unfold zlen in Hsn. rewrite length_app in Hsn. cbn [length] in Hsn. unfold zlen in *. lia. }
    rewrite <- app_assoc in Hap1'. cbn [app] in Hap1'.
    destruct (IH low g (f1 :: up1) w1 (at_level mc1 (wc_top mc + 1)) Hap1') as [(w' & mc' & fs' & -> & H1 & H2 & H3 & H4 & H5)|Hf]; auto; [|lia|..].
    + cbn [at_level wc_top]. unfold zlen in *. cbn [length]. lia.
    + left. exists w', mc', fs'. split; [done|]. split; [done|]. split; [done|]. split; [by eapply moved_step|].
      split; [by eapply accounts_trans|]. rewrite <- !app_assoc in Htp. rewrite <- app_assoc in Hap |- *. cbn [app] in Hap, Htp |- *.
      eapply same_top_trans; [exact Hap|exact Htp|exact H5].
    + by right.
Qed.
End Level.

(** ** Correctness *)

Lemma cursor_touch_ok (file : Z -> option (list Z)) (me_flags me_map me_psize me_maxpg : Z)
    (os_malloc : gmap Z (list Z) -> Z -> option (Z * list Z)) (junk : nat -> Z) (mem_ok : Z -> bool) (need_ok : bool)
    (mt_txnid : Z) (readers : option (list MDB_reader * Z))
    (md_cmp : MDB_cmp_func) (D : MDB_val -> Prop) (ord : MDB_val -> MDB_val -> Z) (H : nat) (es : list (MDB_val * MDB_val))
    (free_root : Z) (rootf : list Z) (hf : nat) (esf : list (MDB_val * MDB_val)) (recs : list free_rec) (fuel h : nat)
    (lft cur rgt ks : list (MDB_val * MDB_val)) (w : wtxn) (mc : wcursor) (fs : list frame) :
  Z.land me_flags MDB_WRITEMAP = 0 -> 16 <= me_psize -> me_maxpg <= 2 ^ 31 ->
  (forall mem sz a b, os_malloc mem sz = Some (a, b) -> mem !! a = None /\ zlen b = sz /\ Forall is_byte b) ->
  (length recs < fuel)%nat -> es = lft ++ cur ++ rgt ->
  at_path file me_flags me_psize me_maxpg mt_txnid readers md_cmp D ord H es free_root rootf hf esf recs h lft cur rgt ks w mc fs ->
  (exists w' mc' fs', mdb_cursor_touch file me_flags me_map me_psize me_maxpg os_malloc junk mem_ok need_ok mt_txnid readers
       free_root [] fuel w mc = Some (MDB_SUCCESS, w', mc') /\
     at_path file me_flags me_psize me_maxpg mt_txnid readers md_cmp D ord H es free_root rootf hf esf recs h lft cur rgt ks w' mc' fs' /\
     Forall (own_page me_flags w') fs' /\ wc_top mc' = wc_snum mc - 1 /\ moved_cursors 0 w w' mc mc' /\
     accounted file me_flags me_psize H free_root hf esf recs w w' /\ same_top fs fs') \/
  exists rc w' mc', mdb_cursor_touch file me_flags me_map me_psize me_maxpg os_malloc junk mem_ok need_ok mt_txnid readers
      free_root [] fuel w mc = Some (rc, w', mc') /\ failed rc w'.
Proof.
  intros Hwm Hps Hmax Hmalloc Hfuel Hes Hap. pose proof (ap_snum _ _ _ _ _ _ _ _ _ _ _ _ _ _ _ _ _ _ _ _ _ _ _ _ Hap) as Hsn.
  destruct fs as [|f low _] using rev_ind.
  { by destruct (ap_whole _ _ _ _ _ _ _ _ _ _ _ _ _ _ _ _ _ _ _ _ _ _ _ _ Hap). }
  pose proof (zlen_nonneg low) as Hlow. rewrite zlen_app_cons in Hsn. change (zlen (@nil frame)) with 0 in Hsn.
  unfold mdb_cursor_touch. cbn [at_level wc_snum]. assert (nz (wc_snum mc) = true) as -> by (unfold nz; lia).
  assert (length low < Z.to_nat (wc_snum mc))%nat as Hn by (unfold zlen in *; lia).
  destruct (loop_ok file me_flags me_map me_psize me_maxpg os_malloc junk mem_ok need_ok mt_txnid readers Hwm Hps Hmax Hmalloc md_cmp D ord H es
    free_root rootf hf esf recs fuel Hfuel h lft cur rgt Hes ks (Z.to_nat (wc_snum mc)) low f [] w (at_level mc 0)
    ltac:(by apply at_path_level) eq_refl ltac:(constructor) Hn)
    as [(w' & mc' & fs' & E & H1 & H2 & [H3 H3'] & H4 & H5)|(rc & w' & mc' & E & Hf)].
  - left. rewrite E. cbn [mbind option_bind]. eexists w', _, fs'. split; [reflexivity|].
    split; [by apply at_path_level|]. split; [by eapply own_pages|]. pose proof (sm_snum _ _ _ H3) as Es. cbn [at_level wc_snum] in Es.
    split; [cbn [at_level wc_top]; by rewrite Es|]. split; [|by split]. cbn [at_level wc_top] in H3, H3'. split.
    + destruct H3. by split.
    + apply (Forall2_impl _ _ _ _ H3'). intros m2 m2' []. by split.
  - right. rewrite E. cbn [mbind option_bind]. eexists _, _, _. split; [reflexivity|exact Hf].
Qed.

(** C5: [mdb_cursor_touch] makes every page of the cursor's path the
    transaction's own: when it succeeds, each of them is a dirty block of
    memory, where the page search and the cursor find it, and the tree has the
    same items, with the cursor at the same place, and keys [ks] that belonged
    to the page on top still do; no page is lost or in use
    twice, neither by the tree nor by the free-page database nor by the lists
    of unused pages, and pages of the file are not written; the other cursors
    go where the touched one goes if they were on the same page.  It always
    returns; when it fails, for want of memory, of room in the dirty list or of
    pages, the transaction is marked as failed. *)
Theorem mdb_cursor_touch_correct (file : Z -> option (list Z)) (me_flags me_map me_psize me_maxpg : Z)
    (os_malloc : gmap Z (list Z) -> Z -> option (Z * list Z)) (junk : nat -> Z) (mem_ok : Z -> bool) (need_ok : bool)
    (mt_txnid : Z) (readers : option (list MDB_reader * Z))
    (md_cmp : MDB_cmp_func) (D : MDB_val -> Prop) (ord : MDB_val -> MDB_val -> Z) (H : nat) (es : list (MDB_val * MDB_val))
    (free_root : Z) (rootf : list Z) (hf : nat) (esf : list (MDB_val * MDB_val)) (recs : list free_rec) (fuel h : nat)
    (lft cur rgt ks : list (MDB_val * MDB_val)) (w : wtxn) (mc : wcursor) (fs : list frame) :
  Z.land me_flags MDB_WRITEMAP = 0 -> 16 <= me_psize -> me_maxpg <= 2 ^ 31 ->
  (forall mem sz a b, os_malloc mem sz = Some (a, b) -> mem !! a = None /\ zlen b = sz /\ Forall is_byte b) ->
  (length recs < fuel)%nat -> es = lft ++ cur ++ rgt ->
  at_path file me_flags me_psize me_maxpg mt_txnid readers md_cmp D ord H es free_root rootf hf esf recs h lft cur rgt ks w mc fs ->
  (exists w' mc' fs', mdb_cursor_touch file me_flags me_map me_psize me_maxpg os_malloc junk mem_ok need_ok mt_txnid readers
       free_root [] fuel w mc = Some (MDB_SUCCESS, w', mc') /\
     at_path file me_flags me_psize me_maxpg mt_txnid readers md_cmp D ord H es free_root rootf hf esf recs h lft cur rgt ks w' mc' fs' /\
     Forall (own_page me_flags w') fs' /\ wc_top mc' = wc_snum mc - 1 /\ moved_cursors 0 w w' mc mc' /\
     accounted file me_flags me_psize H free_root hf esf recs w w') \/
  exists rc w' mc', mdb_cursor_touch file me_flags me_map me_psize me_maxpg os_malloc junk mem_ok need_ok mt_txnid readers
      free_root [] fuel w mc = Some (rc, w', mc') /\ failed rc w'.
Proof.
  intros Hwm Hps Hmax Hmalloc Hfuel Hes Hap.
  destruct (cursor_touch_ok file me_flags me_map me_psize me_maxpg os_malloc junk mem_ok need_ok mt_txnid readers md_cmp D ord H es
    free_root rootf hf esf recs fuel h lft cur rgt ks w mc fs Hwm Hps Hmax Hmalloc Hfuel Hes Hap)
    as [(w' & mc' & fs' & E & H1 & H2 & H3 & H4 & H5 & _)|Hf]; [left|by right].
  exists w', mc', fs'. by split_and!.
Qed.

(** ** An example: a root with two leaves *)

Definition renumber (p : Z) (m : list Z) : list Z := le_bytes 8 p ++ drop 8 m.
Definition root7 : list Z := Eval vm_compute in renumber 7 root64.
Definition leaf3 : list Z := Eval vm_compute in renumber 3 leaf64.
Definition leaf4 : list Z := Eval vm_compute in renumber 4 leafB64.

(** Page 2 is the root of the free-page database. *)
Definition file3 (pgno : Z) : option (list Z) :=
  if pgno =? 7 then Some root7 else if pgno =? 3 then Some leaf3 else if pgno =? 4 then Some leaf4 else free_map pgno.

(** Memory that is full of zeros. *)
Definition malloc0 (mem : gmap Z (list Z)) (sz : Z) : option (Z * list Z) :=
  if sz <? 0 then None else Some (fresh (dom mem), replicate (Z.to_nat sz) 0).

(** Nothing is dirty; the cursor is on the second leaf, and another one on
    the first. *)
Definition cur4 : wcursor := WCur 2 1 (Some (Mapped 7) :: Some (Mapped 4) :: replicate 30 None) (1 :: replicate 31 0) C_INITIALIZED.
Definition cur3 : wcursor := WCur 2 1 (Some (Mapped 7) :: Some (Mapped 3) :: replicate 30 None) (0 :: replicate 31 0) C_INITIALIZED.
Definition txn0 : wtxn := WTxn ∅ [] alloc0 (Midl 10 (replicate 11 0)) None 7 [cur3] (Db 2 1 2 0 3).
Abbreviation seen0 := (view file3 0 [] txn0).

Lemma malloc0_ok (mem : gmap Z (list Z)) (sz a : Z) (b : list Z) : malloc0 mem sz = Some (a, b) ->
  mem !! a = None /\ zlen b = sz /\ Forall is_byte b.
Proof.
  unfold malloc0. destruct (Z.ltb_spec sz 0); [done|]. intros [= <- <-]. split; [|split].
  - apply not_elem_of_dom, is_fresh.
  - unfold zlen. rewrite length_replicate. lia.
  - apply Forall_replicate. unfold is_byte. lia.
Qed.

Lemma dirty_of_0 (w : wtxn) : w_alloc w = alloc0 -> dirty_of w = [].
Proof. intros E. unfold dirty_of. rewrite E. change (id2_list no_dirty = []). change (id2_list no_dirty) with (@nil MDB_ID2). done. Qed.

Lemma lists0 : lists_ok 64 100 txn0.
Proof.
  pose proof (dirty_of_0 txn0 eq_refl) as Hd. split; rewrite ?Hd.
  - done.
  - intros sl [=].
  - intros x Hx. by apply elem_of_nil in Hx.
  - exact no_dirty_wf.
  - done.
  - intros e He. by apply elem_of_nil in He.
  - intros e He. by apply elem_of_nil in He.
  - constructor.
  - intros a Ha. by apply elem_of_nil in Ha.
  - intros a Ha. by apply elem_of_nil in Ha.
  - change (next_of txn0) with 20. lia.
  - closed.
Qed.

(** The transaction sees the pages of the file. *)
Lemma seen0_file (x : Z) : 0 <= x < 20 -> seen0 x = file3 x /\ locate 0 [] txn0 x = Some (Mapped x) /\
  find_dirty (a_dirty (w_alloc txn0)) x = None.
Proof.
  intros Hx. assert (find_dirty (a_dirty (w_alloc txn0)) x = None) as Hf.
  { apply (find_dirty_none 64 100 txn0 x lists0). rewrite (dirty_of_0 txn0 eq_refl). intros e He. by apply elem_of_nil in He. }
  assert (locate 0 [] txn0 x = Some (Mapped x)) as E.
  { rewrite (locate_ok 0 64 100 eq_refl txn0 x lists0) by lia. rewrite decide_False by apply not_elem_of_nil.
    rewrite Hf. change (next_of txn0) with 20. by rewrite decide_True by lia. }
  split_and!; auto. unfold view. by rewrite E.
Qed.

Section Tree7.
Variable get : Z -> option (list Z).
Hypothesis H7 : get 7 = Some root7.
Hypothesis H3 : get 3 = Some leaf3.
Hypothesis H4 : get 4 = Some leaf4.

Lemma tree_leaf3 : tree get cmp_memn short lex_ord 0 leaf3 (take 2 items3).
Proof.
  split_and!; try reflexivity; [apply page_wfb_sound; reflexivity|apply memn_order; [done|reflexivity]|].
  apply (forall_lt_2 (fun k => F_ISSET (n_flags leaf3 k) F_DUPDATA = false /\
                               item get leaf3 k = aget (take 2 items3) k)); split; reflexivity.
Qed.

Lemma tree_leaf4 : tree get cmp_memn short lex_ord 0 leaf4 (drop 2 items3).
Proof.
  split_and!; try reflexivity; [apply page_wfb_sound; reflexivity|apply memn_order; [done|reflexivity]|].
  apply (forall_lt_1 (fun k => F_ISSET (n_flags leaf4 k) F_DUPDATA = false /\
                               item get leaf4 k = aget (drop 2 items3) k)); split; reflexivity.
Qed.

Lemma branch7 : branch_node get cmp_memn short lex_ord 0 root7 [take 2 items3; drop 2 items3].
Proof.
  split; try reflexivity; [apply page_wfb_sound; reflexivity|apply memn_order; [done|reflexivity]|].
  apply (forall_lt_2 (fun k => exists child esk, aget [take 2 items3; drop 2 items3] k = Some esk /\
    get (n_pgno root7 k) = Some child /\ child <> [] /\ esk <> [] /\
    tree get cmp_memn short lex_ord 0 child esk /\
    Forall (fun e => in_child short lex_ord root7 k e.1) esk)).
  - exists leaf3, (take 2 items3). split_and!; try reflexivity; [exact H3|done|done|apply tree_leaf3|].
    repeat constructor; try closed; apply shortb_sound; reflexivity.
  - exists leaf4, (drop 2 items3). split_and!; try reflexivity; [exact H4|done|done|apply tree_leaf4|].
    repeat constructor; try closed; apply shortb_sound; reflexivity.
Qed.

(** The path to the second leaf. *)
Lemma whole7 : whole cmp_memn short lex_ord get 1 7 [Frame 4 leaf4 0; Frame 7 root7 1] 0 (take 2 items3) (drop 2 items3) [].
Proof.
  destruct (branch_split cmp_memn short lex_ord get 0 root7 _ 1 (drop 2 items3) branch7 eq_refl) as (Hb & Hk & child & Hc & _ & _ & _ & Hin).
  cbn [whole fr_pgno fr_page fr_ki]. split_and!; auto; [|apply tree_leaf4|].
  - exists [take 2 items3], [], [], []. cbn [fr_pgno fr_page fr_ki].
    split_and!; auto; try reflexivity; [lia| |by split_and!].
    apply Forall_forall. intros e _. constructor.
  - apply (Forall_impl _ _ _ Hin). intros e He. apply Forall_cons. split; [done|by apply Forall_nil].
Qed.
End Tree7.

Lemma seen0_pages : seen0 7 = Some root7 /\ seen0 3 = Some leaf3 /\ seen0 4 = Some leaf4 /\ seen0 2 = Some free_root.
Proof. split_and!; (match goal with |- view _ _ _ _ ?x = _ => rewrite (proj1 (seen0_file x ltac:(lia))) end); reflexivity. Qed.

Lemma pages7 (leafp : list Z -> list Z) : leafp leaf3 = [] -> leafp leaf4 = [] -> sub_pages leafp seen0 1 7 = [7; 3; 4].
Proof.
  intros L3 L4. destruct seen0_pages as (E7 & E3 & E4 & _). unfold sub_pages. rewrite E7. cbn [gen_pages].
  change (p_num root7) with 2. change (seqZ 0 2) with [0; 1]. cbn [fmap list_fmap concat].
  change (n_pgno root7 0) with 3. change (n_pgno root7 1) with 4. by rewrite E3, E4, L3, L4.
Qed.

Lemma all_pages0 : all_pages file3 0 64 1 2 0 free_items free_recs txn0 = [7; 3; 4; 2; 12; 11; 9].
Proof.
  unfold all_pages. change (w_root txn0) with 7. rewrite pages7 by reflexivity. unfold free_db_pages, pool, reusable.
  change (w_alloc txn0) with alloc0. rewrite alloc0_free. unfold sub_pages. destruct seen0_pages as (_ & _ & _ & ->). reflexivity.
Qed.

Lemma cow0 : cow_inv file3 0 64 100 readers6 8 cmp_memn short lex_ord 1 items3 2 free_root 0 free_items free_recs txn0.
Proof.
  destruct seen0_pages as (E7 & E3 & E4 & E2). split; rewrite ?all_pages0.
  - exact lists0.
  - apply alloc0_input.
  - exists root7. split; [exact E7|]. exact (branch_node_tree _ _ _ _ _ _ _ (branch7 seen0 E3 E4)).
  - change (w_root txn0) with 7. rewrite pages7 by reflexivity.
    assert (forall x m, 0 <= x < 20 -> seen0 x = Some m -> zlen m = 64 -> pgno_of m = x -> F_ISSET (p_flags m) P_OVERFLOW = false ->
      p_dirty m = false -> first_key_ok short m -> page_state file3 0 64 short txn0 x) as Hps.
    { intros x m Hx E H1 H2 H3 H4 H5. exists m. repeat (split; [assumption|]). rewrite H4. split; [|done]. split; [done|]. intros Hn.
      destruct (seen0_file x Hx) as (_ & _ & E0). by destruct (Hn E0). }
    repeat (apply Forall_cons; split); [eapply Hps; [lia|first [exact E7|exact E3|exact E4]|reflexivity..|
      by first [intros _ _; left; reflexivity|intros [=]]]..|by apply Forall_nil].
  - destruct free_tree as [[? ?]|[_ Hn Ht Hne Hh]]; [done|]. right. split; auto.
    apply (tree_frame cmp_cint (sized 8) num_ord 64 ltac:(lia) free_map seen0 0 free_root free_items Ht).
    intros p Hp. change (tree_pages 64 free_map 0 free_root) with (@nil Z) in Hp. by apply elem_of_nil in Hp.
  - exact free_rec_items.
  - apply (bool_decide_unpack _). reflexivity.
  - intros x Hx. change (next_of txn0) with 20. assert (Forall (fun x => 1 < x < 20) [7; 3; 4; 2; 12; 11; 9]) as Hall by (repeat constructor; lia).
    by apply (proj1 (Forall_forall _ _) Hall).
  - intros x Hx. by apply elem_of_nil in Hx.
Qed.

Lemma path0 : at_path file3 0 64 100 8 readers6 cmp_memn short lex_ord 1 items3 2 free_root 0 free_items free_recs 0
  (take 2 items3) (drop 2 items3) [] [] txn0 cur4 [Frame 4 leaf4 0; Frame 7 root7 1].
Proof.
  destruct seen0_pages as (E7 & E3 & E4 & E2). split.
  - exact cow0.
  - by apply whole7.
  - cbn [wstack fr_pgno fr_ki]. rewrite (proj1 (proj2 (seen0_file 4 ltac:(lia)))), (proj1 (proj2 (seen0_file 7 ltac:(lia)))).
    by split_and!.
  - reflexivity.
  - by apply Forall_nil.
  - apply Forall_cons. split; [|by apply Forall_nil]. closed.
Qed.

Lemma cursor_touch_witness :
  (exists w' mc' fs', mdb_cursor_touch file3 0 0 64 100 malloc0 (fun _ => 0) (fun _ => true) true 8 readers6 2 [] 3 txn0 cur4 =
       Some (MDB_SUCCESS, w', mc') /\
     at_path file3 0 64 100 8 readers6 cmp_memn short lex_ord 1 items3 2 free_root 0 free_items free_recs 0
       (take 2 items3) (drop 2 items3) [] [] w' mc' fs' /\
     Forall (own_page 0 w') fs' /\ wc_top mc' = wc_snum cur4 - 1 /\ moved_cursors 0 txn0 w' cur4 mc' /\
     accounted file3 0 64 1 2 0 free_items free_recs txn0 w') \/
  exists rc w' mc', mdb_cursor_touch file3 0 0 64 100 malloc0 (fun _ => 0) (fun _ => true) true 8 readers6 2 [] 3 txn0 cur4 =
    Some (rc, w', mc') /\ failed rc w'.
Proof.
  apply (mdb_cursor_touch_correct file3 0 0 64 100 malloc0 (fun _ => 0) (fun _ => true) true 8 readers6 cmp_memn short lex_ord 1 items3
    2 free_root 0 free_items free_recs 3 0 (take 2 items3) (drop 2 items3) [] [] txn0 cur4 [Frame 4 leaf4 0; Frame 7 root7 1]);
    [reflexivity|lia|lia|exact malloc0_ok|apply Nat.ltb_lt; reflexivity|reflexivity|exact path0].
Defined.

(** The root is copied to page 11 and the leaf to page 12, the pages of the
    record of transaction 3; pages 7 and 4 are freed; the other cursor, on the
    first leaf, goes to the new root. *)
Example cursor_touch_example : option_map (fun x => let '(rc, w, mc) := x in
    (rc, w_root w, midl_ids (cells (w_free_pgs w)), mid <$> dirty_of w, head_ids (a_pghead (w_alloc w)), me_pglast (w_alloc w),
     take 2 (wc_pg mc), take 2 <$> (wc_pg <$> w_cursors w)))
  (mdb_cursor_touch file3 0 0 64 100 malloc0 (fun _ => 0) (fun _ => true) true 8 readers6 2 [] 3 txn0 cur4) =
  Some (MDB_SUCCESS, 11, [7; 4], [11; 12], [], 3, [Some (Heap 0); Some (Heap 1)], [[Some (Heap 0); Some (Mapped 3)]]).
Proof. vm_compute. reflexivity. Qed.
