(* ===== verification/LeafItems.v ===== *)
(** * The items of a leaf page, one node at a time

    What node insertion, node deletion and overwriting a value in place
    ([mdb_node_add], [mdb_node_del] and the [memcpy] of [mdb_cursor_put],
    [src/LegacyDatabase/mdb.c]) do to the items of a leaf of the B+tree: the
    encoded nodes of a leaf determine its items and the overflow pages they
    use. *)
From S2P Require Import Prelude.
From S2P Require Import Bytes.
From S2P Require Import Page.
From S2P Require Import PageSpec.
From S2P Require Import NodeOps.
From S2P Require Import NodeDel.
From S2P Require Import Cmp.
From S2P Require Import NodeSearch.
From S2P Require Import Cursor.
From S2P Require Import Tree.
From S2P Require Import CursorPath.
From S2P Require Import CursorSim.
From S2P Require Import PageSplit.
From S2P Require Import Cow.
From Stdlib Require Import ZArith Lia Sorted.
From stdpp Require Import base numbers option list.
Open Scope Z_scope.

(** ** An encoded leaf node *)

Definition raw_ksize (r : list Z) : Z := g16 r 6.
Definition raw_flags (r : list Z) : Z := g16 r 4.
Definition raw_dsize (r : list Z) : Z := g16 r 0 + 2 ^ 16 * g16 r 2.
Definition raw_key (r : list Z) : MDB_val := Val (raw_ksize r) (slice r 8 (raw_ksize r)).
Definition raw_ovpage (r : list Z) : Z := le_val (slice r (8 + raw_ksize r) 8).

Definition raw_data (get : Z -> option (list Z)) (r : list Z) : option MDB_val :=
  if F_ISSET (raw_flags r) F_BIGDATA then
    p ← get (raw_ovpage r);
    if 16 + raw_dsize r <=? zlen p then Some (Val (raw_dsize r) (slice p 16 (raw_dsize r))) else None
  else Some (Val (raw_dsize r) (slice r (8 + raw_ksize r) (raw_dsize r))).

(** The node holds the item. *)
Definition raw_entry (get : Z -> option (list Z)) (r : list Z) (e : MDB_val * MDB_val) : Prop :=
  F_ISSET (raw_flags r) F_DUPDATA = false /\ raw_key r = e.1 /\ raw_data get r = Some e.2.

Definition raw_ov (me_psize : Z) (r : list Z) : list Z :=
  if F_ISSET (raw_flags r) F_BIGDATA then seqZ (raw_ovpage r) (OVPAGES (raw_dsize r) me_psize) else [].

Section Fields.
Variables (m : list Z) (k : Z).
Hypothesis Hwf : page_wf m.
Hypothesis Hl : p_leaf m = true.
Hypothesis Hk : 0 <= k < p_num m.
Let r := zn (p_raw m) k.

Lemma raw_slice (o n : Z) : 0 <= o -> 0 <= n -> o + n <= n_raw m k -> slice r o n = slice m (p_ptr m k + o) n.
Proof.
  intros Ho Hn Hon. destruct (n_raw_eq m k Hwf Hk) as (_ & _ & Hp & Hin & _). unfold r. rewrite (proj1 (zn_p_raw m k Hwf Hk)).
  by rewrite slice_slice by lia.
Qed.

Lemma raw_g16 (o : Z) : 0 <= o <= 6 -> g16 r o = g16 m (p_ptr m k + o).
Proof. intros Ho. destruct (n_raw_eq m k Hwf Hk) as (_ & _ & _ & _ & H8). unfold g16. by rewrite raw_slice by lia. Qed.

Lemma raw_fields : raw_key r = n_key m k /\ raw_flags r = n_flags m k /\ raw_dsize r = n_lohi m k /\
  raw_ksize r = g16 m (p_ptr m k + 6).
Proof.
  destruct (n_raw_eq m k Hwf Hk) as (E & _ & _ & _ & H8). destruct (n_key_in m k Hwf Hk) as (_ & _ & Hks).
  destruct (NODEDSZ_ok m k Hwf Hk) as [_ Hd]. rewrite Hl in E.
  unfold raw_key, raw_flags, raw_dsize, raw_ksize, n_key, n_flags, n_lohi. rewrite !raw_g16, Z.add_0_r by lia.
  split; [|done]. f_equal. apply raw_slice; [lia|lia|]. destruct (F_ISSET (n_flags m k) F_BIGDATA); lia.
Qed.

Lemma raw_payload (n : Z) : 0 <= n <= (if F_ISSET (n_flags m k) F_BIGDATA then 8 else n_lohi m k) ->
  slice r (8 + raw_ksize r) n = slice m (n_dofs m k) n.
Proof.
  intros Hn. destruct raw_fields as (_ & _ & _ & ->). destruct (n_raw_eq m k Hwf Hk) as (E & _ & _ & _ & H8).
  destruct (n_key_in m k Hwf Hk) as (_ & _ & Hks). rewrite Hl in E. unfold n_dofs. rewrite <- Z.add_assoc. apply raw_slice; lia.
Qed.

Lemma raw_data_ok (get : Z -> option (list Z)) : raw_data get r = n_data get m k.
Proof.
  destruct (NODEDSZ_ok m k Hwf Hk) as [_ Hd]. unfold raw_data, n_data, raw_ovpage. destruct raw_fields as (_ & -> & -> & _).
  destruct (F_ISSET (n_flags m k) F_BIGDATA) eqn:E; by rewrite raw_payload by (rewrite E; lia).
Qed.

Lemma raw_entry_ok (get : Z -> option (list Z)) (e : MDB_val * MDB_val) :
  raw_entry get r e <-> F_ISSET (n_flags m k) F_DUPDATA = false /\ item get m k = Some e.
Proof.
  unfold raw_entry, item. rewrite raw_data_ok. destruct raw_fields as (-> & -> & _).
  destruct (n_data get m k) as [d|]; cbn [mbind option_bind]; destruct e as [x y]; cbn [fst snd];
    (split; [intros (? & ? & [=])|intros (? & [=])]); by subst.
Qed.

Lemma raw_ov_ok (me_psize : Z) : raw_ov me_psize r = ov_pages me_psize m k.
Proof.
  destruct (NODEDSZ_ok m k Hwf Hk) as [_ Hd]. unfold raw_ov, ov_pages, raw_ovpage, n_ovpage. destruct raw_fields as (_ & -> & -> & _).
  destruct (F_ISSET (n_flags m k) F_BIGDATA) eqn:E; [|done]. by rewrite raw_payload by (rewrite E; lia).
Qed.
End Fields.

Lemma lookup_p_raw (m : list Z) (i : nat) (r : list Z) : page_wf m -> p_raw m !! i = Some r ->
  0 <= Z.of_nat i < p_num m /\ r = zn (p_raw m) (Z.of_nat i).
Proof.
  intros Hwf Hi. pose proof (lookup_lt_Some _ _ _ Hi). pose proof (zlen_p_raw m Hwf) as Hz. unfold zlen in Hz. split; [lia|].
  rewrite lookup_aget in Hi. symmetry. by apply aget_zn.
Qed.

Lemma leaf_pages_raw (me_psize : Z) (m : list Z) : page_wf m -> p_leaf m = true ->
  leaf_pages me_psize m = concat (raw_ov me_psize <$> p_raw m).
Proof.
  intros Hwf Hl. unfold leaf_pages. f_equal. apply list_eq. intros i. rewrite !list_lookup_fmap.
  destruct (p_raw m !! i) as [r|] eqn:E.
  - destruct (lookup_p_raw m i r Hwf E) as [Hi ->]. rewrite lookup_seqZ_lt by lia. cbn. f_equal. by rewrite raw_ov_ok.
  - apply lookup_ge_None in E. pose proof (zlen_p_raw m Hwf) as Hz. unfold zlen in Hz.
    rewrite (proj2 (lookup_ge_None (seqZ 0 (p_num m)) i)); [done|]. rewrite length_seqZ. lia.
Qed.

Lemma sorted_at {A} (R : A -> A -> Prop) (l : list A) (i j : nat) (x y : A) : StronglySorted R l -> (i < j)%nat ->
  l !! i = Some x -> l !! j = Some y -> R x y.
Proof.
  intros Hs. revert i j. induction Hs as [|a l Hs IH Ha]; intros i j Hij Hx Hy; [done|]. destruct i as [|i], j as [|j]; cbn in Hx, Hy; try lia.
  - injection Hx as <-. by apply (Forall_lookup_1 _ _ _ _ Ha Hy).
  - by apply (IH i j); [lia|..].
Qed.

(** ** The nodes of a leaf and its items *)

Section Leaf.
Variable get : Z -> option (list Z).
Context (md_cmp : MDB_cmp_func) (D : MDB_val -> Prop) (ord : MDB_val -> MDB_val -> Z).
Abbreviation items := (list (MDB_val * MDB_val)).
Abbreviation leaf_tree := (leaf_tree get md_cmp D ord).

(** The comparator of the database implements the order. *)
Definition cmp_order : Prop := exists KO : KeyOrder (run_cmp md_cmp) D, forall a b, ko_ord a b = ord a b.

Lemma eff_cmp_leaf (m : list Z) : page_wf m -> p_branch m = false -> eff_cmp m md_cmp = Some md_cmp.
Proof.
  intros Hwf Hb. unfold eff_cmp. rewrite IS_BRANCH_ok by done. cbn [mbind option_bind]. by rewrite Hb, andb_false_r.
Qed.

Record leaf_items (m : list Z) (es : items) : Prop := {
  li_wf : page_wf m;
  li_leaf : p_leaf m = true;
  li_branch : p_branch m = false;
  li_order : cmp_order;
  li_dom : Forall (fun e => D e.1) es;
  li_sorted : StronglySorted (key_lt D ord) es;
  li_raw : Forall2 (raw_entry get) (p_raw m) es
}.

Lemma leaf_tree_items (m : list Z) (es : items) : leaf_tree m es -> leaf_items m es.
Proof.
  intros Hleaf. pose proof Hleaf as (Hwf & Hl & Hb & (c & KO & Hc & Hord & HD & _) & Hlen & Hi).
  rewrite eff_cmp_leaf in Hc by done. injection Hc as <-.
  assert (Forall2 (raw_entry get) (p_raw m) es) as Hraw.
  { apply Forall2_same_length_lookup. pose proof (zlen_p_raw m Hwf) as Hz. split; [unfold zlen in *; lia|].
    intros i r e Hr He. destruct (lookup_p_raw m i r Hwf Hr) as [Hk ->]. apply raw_entry_ok; auto.
    destruct (Hi _ Hk) as [H1 H2]. split; [done|]. by rewrite H2, <- lookup_aget. }
  split; auto; [by exists KO| |by apply (tree_sorted get md_cmp 0 D ord 0 m)].
  apply Forall_lookup. intros i e He. rewrite lookup_aget in He.
  destruct (leaf_item get md_cmp D ord m es _ e Hleaf He) as (Hk & -> & _). apply HD. unfold first_key. rewrite Hl. lia.
Qed.

Lemma leaf_items_tree (m : list Z) (es : items) : leaf_items m es -> leaf_tree m es.
Proof.
  intros [Hwf Hl Hb (KO & Hord) HD Hs Hraw]. pose proof (zlen_p_raw m Hwf) as Hz.
  pose proof (Forall2_length _ _ _ Hraw) as Hlen.
  assert (forall k, 0 <= k < p_num m -> exists e, es !! Z.to_nat k = Some e /\ raw_entry get (zn (p_raw m) k) e) as Hk.
  { intros k Hk. destruct (lookup_lt_is_Some_2 (p_raw m) (Z.to_nat k)) as [r Hr]; [unfold zlen in Hz; lia|].
    destruct (Forall2_lookup_l _ _ _ _ _ Hraw Hr) as (e & He & Hre). exists e. split; [done|].
    destruct (lookup_p_raw m _ r Hwf Hr) as [_ ->]. by replace (Z.of_nat (Z.to_nat k)) with k in Hre by lia. }
  assert (forall k e, 0 <= k < p_num m -> es !! Z.to_nat k = Some e -> raw_entry get (zn (p_raw m) k) e -> n_key m k = e.1) as Hkey.
  { intros k e Hkr _ (_ & <- & _). symmetry. by apply raw_fields. }
  split_and!; auto.
  - exists md_cmp, KO. split; [by apply eff_cmp_leaf|]. split; [done|]. unfold keys_sorted, first_key. rewrite Hl. split.
    + intros j Hj. destruct (Hk j Hj) as (e & He & Hre). rewrite (Hkey j e Hj He Hre).
      by apply (Forall_lookup_1 _ _ _ _ HD He).
    + intros j j' Hj Hjj Hj'. destruct (Hk j ltac:(lia)) as (e & He & Hre). destruct (Hk j' ltac:(lia)) as (e' & He' & Hre').
      rewrite (Hkey j e ltac:(lia) He Hre), (Hkey j' e' ltac:(lia) He' Hre'), Hord.
      destruct (sorted_at (key_lt D ord) es (Z.to_nat j) (Z.to_nat j') e e' Hs ltac:(lia) He He') as (_ & _ & H). exact H.
  - unfold zlen in *. lia.
  - intros k Hkr. destruct (Hk k Hkr) as (e & He & Hre). apply raw_entry_ok in Hre as [H1 H2]; auto. split; [done|].
    rewrite H2, <- He. unfold aget. by rewrite (proj2 (Z.leb_le _ _)) by lia.
Qed.
End Leaf.

(** ** Sorted lists *)

Lemma sorted_mid {A} (R : A -> A -> Prop) (l r : list A) (x : A) : StronglySorted R (l ++ r) ->
  Forall (fun y => R y x) l -> Forall (R x) r -> StronglySorted R (l ++ x :: r).
Proof.
  induction l as [|y l IH]; cbn [app]; intros Hs Hl Hr; [by constructor|].
  inversion Hs as [|? ? Hs' Hy]; subst. inversion Hl as [|? ? Hyx Hl']; subst. constructor; [by apply IH|].
  apply Forall_app in Hy as [H1 H2]. apply Forall_app. split; [done|]. by constructor.
Qed.

Lemma sorted_without {A} (R : A -> A -> Prop) (l r : list A) (x : A) : StronglySorted R (l ++ x :: r) -> StronglySorted R (l ++ r).
Proof.
  induction l as [|y l IH]; cbn [app]; intros Hs; inversion Hs as [|? ? Hs' Hy]; subst; [done|]. constructor; [by apply IH|].
  apply Forall_app in Hy as [H1 H2]. inversion H2; subst. by apply Forall_app.
Qed.

Lemma sorted_sides {A} (R : A -> A -> Prop) (l r : list A) (x : A) : StronglySorted R (l ++ x :: r) ->
  Forall (fun y => R y x) l /\ Forall (R x) r.
Proof.
  induction l as [|y l IH]; cbn [app]; intros Hs; inversion Hs as [|? ? Hs' Hy]; subst; [done|].
  destruct (IH Hs') as [H1 H2]. split; [|done]. constructor; [|done]. apply Forall_app in Hy as [_ Hy]. by inversion Hy.
Qed.

(** ** What the operations do to the encoded nodes *)

Lemma same_head (m m' : list Z) : 16 <= zlen m -> zlen m' = zlen m -> slice m' 0 12 = slice m 0 12 ->
  p_leaf m' = p_leaf m /\ p_branch m' = p_branch m /\ p_flags m' = p_flags m.
Proof. intros H16 Hl E. unfold p_leaf, p_branch. by rewrite (wf_flags_leaf m m' H16 Hl E). Qed.

Lemma inserted_raw (m m' bs : list Z) (indx : Z) : page_wf m -> inserted m indx bs m' -> 8 <= zlen bs ->
  hdr_raw (p_leaf m) bs = zlen bs -> p_raw m' = with_new (p_raw m) indx bs.
Proof.
  intros Hwf [Hwf' Hhead (pad & _ & Hn) Hlen _ _ _ _] H8 Hr. pose proof (wf_psize _ Hwf).
  destruct (same_head m m' ltac:(lia) Hlen Hhead) as (El & _). unfold p_raw. rewrite El, Hn, !fmap_app.
  cbn [fmap list_fmap]. rewrite raw_of_app by done. unfold with_new. by rewrite fmap_take, fmap_drop.
Qed.

Lemma deleted_raw (m m' : list Z) (indx : Z) : page_wf m -> page_del m m' indx ->
  page_wf m' /\ slice m' 0 12 = slice m 0 12 /\ zlen m' = zlen m /\
  p_raw m' = take (Z.to_nat indx) (p_raw m) ++ drop (Z.to_nat (indx + 1)) (p_raw m) /\
  p_upper m' - p_lower m' = p_upper m - p_lower m + cell (zn (p_raw m) indx).
Proof.
  intros Hwf Hd. pose proof (wf_psize _ Hwf). pose proof (pd_len _ _ _ Hd) as Hlen. pose proof (pd_indx _ _ _ Hd) as Hi.
  assert (slice m' 0 12 = slice m 0 12) as Hhead.
  { apply slice_ext; try lia. intros i Hi'. apply Hd. lia. }
  destruct (same_head m m' ltac:(lia) Hlen Hhead) as (El & _). split_and!; auto; [by apply (del_wf m m' indx)|..].
  - unfold p_raw. rewrite El, (del_nodes m m' indx Hwf Hd), fmap_app. by rewrite fmap_take, fmap_drop.
  - rewrite (pd_lower _ _ _ Hd), (pd_upper _ _ _ Hd). destruct (n_raw_eq m indx Hwf Hi) as (_ & -> & _).
    unfold cell. rewrite (proj2 (proj2 (zn_p_raw m indx Hwf Hi))). lia.
Qed.

(** *** A value of the same size *)

Section Overwrite.
Variables (m m' : list Z) (k : Z) (bs : list Z).
Hypothesis Hwf : page_wf m.
Hypothesis Hl : p_leaf m = true.
Hypothesis Hk : 0 <= k < p_num m.
Hypothesis Hsmall : F_ISSET (n_flags m k) F_BIGDATA = false.
Hypothesis Hsize : zlen bs = n_lohi m k.
Hypothesis Hbs : Forall is_byte bs.
Hypothesis Hupd : upd m (n_dofs m k) bs m'.

Lemma over_place : p_ptr m k + 8 <= n_dofs m k /\ n_dofs m k + zlen bs = p_ptr m k + n_raw m k /\ 0 <= zlen bs.
Proof.
  destruct (n_raw_eq m k Hwf Hk) as (E & _). destruct (n_key_in m k Hwf Hk) as (_ & _ & Hks). rewrite Hl, Hsmall in E.
  pose proof (zlen_nonneg bs). unfold n_dofs. lia.
Qed.

Lemma over_len : zlen m' = zlen m.
Proof. apply Hupd. Qed.

Lemma over_head (i : Z) : i < p_upper m -> zn m' i = zn m i.
Proof.
  intros Hi. destruct over_place as (H8 & _ & _). destruct (wf_in _ Hwf k Hk) as [Hlo _]. apply Hupd. lia.
Qed.

(** The other bytes of the nodes. *)
Lemma over_node (j o n : Z) : 0 <= j < p_num m -> 0 <= o -> 0 <= n -> o + n <= n_size m (p_ptr m j) ->
  (j <> k \/ p_ptr m k + o + n <= n_dofs m k) -> slice m' (p_ptr m j + o) n = slice m (p_ptr m j + o) n.
Proof.
  intros Hj Ho Hn Hs Hc. destruct over_place as (H8 & He & Hz). destruct (n_raw_eq m k Hwf Hk) as (_ & Es & _ & _ & _).
  pose proof (EVEN_bounds (n_raw m k)). destruct (wf_in _ Hwf j Hj) as [Hlo Hhi]. pose proof (wf_upper _ Hwf). pose proof (wf_lower _ Hwf).
  pose proof (wf_num _ Hwf).
  apply slice_ext; try lia; [rewrite over_len; lia|]. intros i Hi. apply Hupd.
  destruct (decide (j = k)) as [->|Hne]; [destruct Hc; [done|lia]|]. pose proof (wf_disj _ Hwf j k Hj Hk Hne). lia.
Qed.

Lemma over_g16 (o : Z) : 0 <= o -> o + 2 <= p_upper m -> g16 m' o = g16 m o.
Proof.
  intros Ho Hu. pose proof (wf_upper _ Hwf). apply g16_ext; try lia; [apply over_len|]. intros i Hi. apply over_head. lia.
Qed.

Lemma over_16 : 16 <= p_lower m <= p_upper m.
Proof. pose proof (wf_lower _ Hwf). pose proof (wf_num _ Hwf). pose proof (wf_upper _ Hwf). lia. Qed.

Lemma over_header : slice m' 0 12 = slice m 0 12 /\ p_flags m' = p_flags m /\ p_lower m' = p_lower m /\ p_upper m' = p_upper m /\
  p_num m' = p_num m /\ forall j, 0 <= j < p_num m -> p_ptr m' j = p_ptr m j.
Proof.
  pose proof over_16 as H16. pose proof (wf_psize _ Hwf). pose proof (wf_upper _ Hwf).
  assert (p_lower m' = p_lower m) as El by (apply over_g16; lia).
  split_and!; try (apply over_g16; lia); auto.
  - apply slice_ext; try lia; [rewrite over_len; lia|]. intros i Hi. apply over_head. lia.
  - unfold p_num. by rewrite El.
  - intros j Hj. pose proof (wf_ptr_in m Hwf j Hj). apply over_g16; lia.
Qed.

Lemma over_size (j : Z) : 0 <= j < p_num m -> slice m' (p_ptr m j) 8 = slice m (p_ptr m j) 8.
Proof.
  intros Hj. destruct over_place as (H8 & _ & _). pose proof (n_size_pos m Hwf (p_ptr m j)).
  pose proof (over_node j 0 8 Hj ltac:(lia) ltac:(lia) ltac:(lia) ltac:(right; lia)) as E. by rewrite Z.add_0_r in E.
Qed.

Lemma over_wf : page_wf m'.
Proof.
  destruct over_header as (_ & Ef & El & Eu & En & Ep).
  assert (p_leaf m' = p_leaf m) as Elf by (unfold p_leaf; by rewrite Ef).
  assert (forall j, 0 <= j < p_num m -> n_size m' (p_ptr m j) = n_size m (p_ptr m j)) as Es.
  { intros j Hj. unfold n_size. by rewrite over_size, Elf. }
  pose proof over_len as Hlen. split; rewrite ?Hlen, ?El, ?Eu, ?En; try apply Hwf.
  - apply Hupd; [apply Hwf|done].
  - unfold p_leaf2. rewrite Ef. apply Hwf.
  - intros j Hj. rewrite Ep, Es by done. by apply (wf_in _ Hwf).
  - intros j j' Hj Hj' Hne. rewrite !Ep, !Es by done. by apply (wf_disj _ Hwf).
  - rewrite <- (wf_full _ Hwf). f_equal. unfold p_nodes. rewrite En, <- !list_fmap_compose. apply list_fmap_ext.
    intros i j [-> Hj]%lookup_seqZ. unfold compose, n_image. rewrite Ep, Es by lia.
    destruct (wf_in _ Hwf (0 + Z.of_nat i) ltac:(lia)). pose proof (n_size_pos m Hwf (p_ptr m (0 + Z.of_nat i))).
    pose proof over_16. rewrite !zlen_slice by lia. done.
Qed.

Lemma over_nraw (j : Z) : 0 <= j < p_num m -> n_raw m' j = n_raw m j.
Proof.
  intros Hj. destruct over_header as (_ & Ef & _ & _ & _ & Ep). unfold n_raw, p_leaf. by rewrite Ef, Ep, over_size.
Qed.

(** The encoded nodes: only the value changes. *)
Lemma over_raw : let r := zn (p_raw m) k in
  p_raw m' = take (Z.to_nat k) (p_raw m) ++ [slice r 0 (8 + raw_ksize r) ++ bs] ++ drop (Z.to_nat (k + 1)) (p_raw m).
Proof.
  intros r. pose proof over_wf as Hwf'. destruct over_header as (_ & _ & _ & _ & En & Ep). pose proof (zlen_p_raw m Hwf) as Hz.
  destruct over_place as (H8 & He & H0). destruct (n_raw_eq m k Hwf Hk) as (_ & _ & Hp & Hin & _). destruct (n_key_in m k Hwf Hk) as (_ & _ & Hks).
  assert (forall j, 0 <= j < p_num m -> zn (p_raw m') j = slice m' (p_ptr m j) (n_raw m j)) as Hr'.
  { intros j Hj. rewrite (proj1 (zn_p_raw m' j Hwf' ltac:(lia))), over_nraw, Ep by done. done. }
  apply zlist_eq.
  - rewrite zlen_p_raw, En by done. arr. lia.
  - intros j Hj. rewrite zlen_p_raw, En in Hj by done. rewrite Hr' by done.
    destruct (n_raw_eq m j Hwf Hj) as (_ & Esj & _ & Hinj & H8j). pose proof (EVEN_bounds (n_raw m j)).
    destruct (Z.lt_trichotomy j k) as [Hlt|[->|Hgt]].
    + rewrite zn_app_l, zn_take by zlia. rewrite (proj1 (zn_p_raw m j Hwf Hj)).
      pose proof (over_node j 0 (n_raw m j) Hj ltac:(lia) ltac:(lia) ltac:(lia) ltac:(left; lia)) as E. by rewrite Z.add_0_r in E.
    + rewrite zn_app_r by zlia. rewrite zn_app_l by zlia. arr. rewrite Z.sub_diag. change (zn [?x] 0) with x.
      destruct (raw_fields m k Hwf Hl Hk) as (_ & _ & _ & Eks). fold r in Eks. unfold n_dofs in *. rewrite Eks.
      replace (n_raw m k) with (8 + g16 m (p_ptr m k + 6) + zlen bs) by lia. rewrite slice_app by (rewrite ?over_len; lia). f_equal.
      * unfold r. rewrite raw_slice, Z.add_0_r by (done || lia).
        pose proof (over_node k 0 (8 + g16 m (p_ptr m k + 6)) Hk ltac:(lia) ltac:(lia) ltac:(lia) ltac:(right; unfold n_dofs; lia)) as E.
        by rewrite Z.add_0_r in E.
      * rewrite <- (u_new _ _ _ _ Hupd) at 2. f_equal. lia.
    + rewrite zn_app_r by zlia. arr. rewrite zn_app_r by zlia. arr. rewrite zn_drop by zlia.
      replace (k + 1 + (j - k - (1 + 0))) with j by lia. rewrite (proj1 (zn_p_raw m j Hwf Hj)).
      pose proof (over_node j 0 (n_raw m j) Hj ltac:(lia) ltac:(lia) ltac:(lia) ltac:(left; lia)) as E. rewrite Z.add_0_r in E.
      done.
Qed.

(** The node with the new value. *)
Lemma over_entry (get : Z -> option (list Z)) (e d : MDB_val) : raw_entry get (zn (p_raw m) k) (e, d) ->
  let r := slice (zn (p_raw m) k) 0 (8 + raw_ksize (zn (p_raw m) k)) ++ bs in
  raw_entry get r (e, Val (zlen bs) bs) /\ forall me_psize, raw_ov me_psize r = [].
Proof.
  set (r0 := zn (p_raw m) k). intros (H1 & H2 & _) r. destruct over_place as (H8 & He & H0).
  destruct (raw_fields m k Hwf Hl Hk) as (_ & Efl & Eds & Eks). fold r0 in Efl, Eds, Eks.
  destruct (n_raw_eq m k Hwf Hk) as (_ & _ & _ & Hin & _). pose proof (proj2 (proj2 (zn_p_raw m k Hwf Hk))) as Hz. fold r0 in Hz.
  assert (8 + raw_ksize r0 + zlen bs = zlen r0) as Hlen by (rewrite Hz, Eks; unfold n_dofs in He; lia).
  assert (0 <= raw_ksize r0) as Hk0 by (destruct (n_key_in m k Hwf Hk) as (_ & _ & ?); lia).
  assert (zlen (slice r0 0 (8 + raw_ksize r0)) = 8 + raw_ksize r0) as Hh by (apply zlen_slice; lia).
  assert (forall o n, 0 <= o -> 0 <= n -> o + n <= 8 + raw_ksize r0 -> slice r o n = slice r0 o n) as Hs.
  { intros o n Ho Hn Hon. assert (slice r 0 (8 + raw_ksize r0) = slice r0 0 (8 + raw_ksize r0)) as E.
    { unfold r. rewrite slice_app_l by lia. by rewrite slice_slice by lia. }
    assert (zlen r = 8 + raw_ksize r0 + zlen bs) as Er by (unfold r; rewrite zlen_app; lia).
    transitivity (slice (slice r 0 (8 + raw_ksize r0)) o n); [by rewrite slice_slice by lia|]. rewrite E. by rewrite slice_slice by lia. }
  assert (forall o, 0 <= o <= 6 -> g16 r o = g16 r0 o) as Hg by (intros o Ho; unfold g16; by rewrite Hs by lia).
  assert (raw_ksize r = raw_ksize r0 /\ raw_flags r = raw_flags r0 /\ raw_dsize r = raw_dsize r0) as (E1 & E2 & E3).
  { unfold raw_ksize, raw_flags, raw_dsize. by rewrite !Hg by lia. }
  assert (F_ISSET (raw_flags r) F_BIGDATA = false) as Hbig by (by rewrite E2, Efl).
  split; [|intros ps; unfold raw_ov; by rewrite Hbig]. split; [by rewrite E2|]. cbn [fst snd] in *. split.
  - rewrite <- H2. unfold raw_key. rewrite E1. f_equal. apply Hs; lia.
  - unfold raw_data. rewrite Hbig, E1, E3, Eds, <- Hsize. do 2 f_equal. unfold r. rewrite slice_app_r by lia.
    rewrite Hh, Z.sub_diag. apply slice_all.
Qed.
End Overwrite.

(** ** New nodes *)

Section New.
Variables (key : MDB_val) (dsz fl : Z) (payload : list Z).
Hypothesis Hkey : val_ok key.
Hypothesis Hks : mv_size key < 65536.
Hypothesis Hdsz : 0 <= dsz < 2 ^ 32.
Let r := leaf_node key dsz fl payload.

Lemma new_hdr : raw_ksize r = mv_size key /\ raw_flags r = u16 fl /\ raw_dsize r = dsz.
Proof.
  destruct Hkey as [Es _]. pose proof (zlen_nonneg (mv_data key)).
  assert (forall o, 0 <= o <= 6 -> g16 r o = g16 (node_hdr (le_bytes 4 dsz) fl (mv_size key)) o) as Hg.
  { intros o Ho. rewrite <- (leaf_node_hdr key dsz fl payload). fold r. pose proof (leaf_node_len key dsz fl payload) as Hlen.
    fold r in Hlen. pose proof (zlen_nonneg payload). by rewrite g16_slice by lia. }
  unfold raw_ksize, raw_flags, raw_dsize. rewrite !Hg by lia. unfold node_hdr. change 4%nat with (2 + 2)%nat. rewrite (le_bytes_app 2 2).
  destruct (g16_hdr dsz (Z.shiftr dsz (8 * Z.of_nat 2)) fl (mv_size key)) as (-> & -> & -> & ->).
  rewrite (uwrap_small 16 (mv_size key)) by lia. split_and!; auto. rewrite Z.shiftr_div_pow2 by lia. change (8 * Z.of_nat 2) with 16.
  rewrite (uwrap_small 16 (dsz / 2 ^ 16)).
  - unfold uwrap. pose proof (Z.div_mod dsz (2 ^ 16)). lia.
  - split; [apply Z.div_pos; lia|]. apply Z.div_lt_upper_bound; lia.
Qed.

Lemma new_node_key : raw_key r = key.
Proof.
  destruct Hkey as [Es _]. destruct new_hdr as (E & _ & _). pose proof (zlen_nonneg (mv_data key)). unfold raw_key. rewrite E.
  assert (slice r 8 (mv_size key) = mv_data key) as ->; [|by destruct key].
  assert (zlen (node_hdr (le_bytes 4 dsz) fl (mv_size key)) = 8) as Eh by (unfold node_hdr; arr; lia). pose proof (zlen_nonneg payload).
  unfold r, leaf_node. rewrite slice_app_r by (rewrite ?zlen_app; lia). rewrite Eh, Z.sub_diag, slice_app_l by lia. rewrite Es. apply slice_all.
Qed.

Lemma new_payload : slice r (8 + raw_ksize r) (zlen payload) = payload.
Proof.
  destruct Hkey as [Es _]. destruct new_hdr as (E & _ & _). pose proof (zlen_nonneg (mv_data key)). pose proof (zlen_nonneg payload). rewrite E.
  assert (zlen (node_hdr (le_bytes 4 dsz) fl (mv_size key)) = 8) as Eh by (unfold node_hdr; arr; lia).
  unfold r, leaf_node. rewrite !slice_app_r by (rewrite ?zlen_app; lia). rewrite Eh, Es.
  replace (8 + zlen (mv_data key) - 8 - zlen (mv_data key)) with 0 by lia. apply slice_all.
Qed.

Lemma new_raw : zlen payload = (if F_ISSET (u16 fl) F_BIGDATA then 8 else dsz) -> 8 <= zlen r /\ hdr_raw true r = zlen r.
Proof.
  destruct Hkey as [Es _]. destruct new_hdr as (E1 & E2 & E3). intros Hp. pose proof (zlen_nonneg (mv_data key)). pose proof (zlen_nonneg payload).
  pose proof (leaf_node_len key dsz fl payload) as Hlen. fold r in Hlen. split; [lia|].
  unfold hdr_raw, raw_ksize, raw_flags, raw_dsize in *. rewrite E1, E2, Hlen, Hp. change 65536 with (2 ^ 16). rewrite E3.
  destruct (F_ISSET (u16 fl) F_BIGDATA); lia.
Qed.
End New.

(** A value that is in the page. *)
Lemma small_entry (get : Z -> option (list Z)) (key d : MDB_val) (fl : Z) : val_ok key -> mv_size key < 65536 ->
  mv_size d = zlen (mv_data d) -> mv_size d < 2 ^ 32 -> u16 fl = 0 ->
  let r := leaf_node key (mv_size d) fl (mv_data d) in
  raw_entry get r (key, d) /\ (forall me_psize, raw_ov me_psize r = []) /\ 8 <= zlen r /\ hdr_raw true r = zlen r.
Proof.
  intros Hk Hks Hd Hd32 Hfl r. pose proof (zlen_nonneg (mv_data d)).
  destruct (new_hdr key (mv_size d) fl (mv_data d) Hk Hks ltac:(lia)) as (E1 & E2 & E3).
  pose proof (new_node_key key (mv_size d) fl (mv_data d) Hk Hks ltac:(lia)) as E4.
  pose proof (new_payload key (mv_size d) fl (mv_data d) Hk Hks ltac:(lia)) as E5. fold r in E1, E2, E3, E4, E5.
  split; [|split].
  - unfold raw_entry, raw_data. rewrite E2, Hfl, E3, E4. split; [done|]. split; [done|].
    change (F_ISSET 0 F_BIGDATA) with false. cbn [snd]. rewrite Hd, E5. f_equal. destruct d; cbn in *; by subst.
  - intros ps. unfold raw_ov. by rewrite E2, Hfl.
  - apply new_raw; try done; [lia|]. rewrite Hfl. by change (F_ISSET 0 F_BIGDATA) with false.
Qed.

(** A value that is on an overflow page. *)
Lemma big_entry (get : Z -> option (list Z)) (key d : MDB_val) (fl pgno : Z) (p : list Z) : val_ok key -> mv_size key < 65536 ->
  mv_size d = zlen (mv_data d) -> mv_size d < 2 ^ 32 -> u16 fl = F_BIGDATA -> 0 <= pgno < 2 ^ 64 ->
  get pgno = Some p -> 16 + mv_size d <= zlen p -> slice p 16 (mv_size d) = mv_data d ->
  let r := leaf_node key (mv_size d) fl (le_bytes 8 pgno) in
  raw_entry get r (key, d) /\ (forall me_psize, raw_ov me_psize r = seqZ pgno (OVPAGES (mv_size d) me_psize)) /\
  8 <= zlen r /\ hdr_raw true r = zlen r.
Proof.
  intros Hk Hks Hd Hd32 Hfl Hpg Hget Hp Hs r. pose proof (zlen_nonneg (mv_data d)).
  destruct (new_hdr key (mv_size d) fl (le_bytes 8 pgno) Hk Hks ltac:(lia)) as (E1 & E2 & E3).
  pose proof (new_node_key key (mv_size d) fl (le_bytes 8 pgno) Hk Hks ltac:(lia)) as E4.
  pose proof (new_payload key (mv_size d) fl (le_bytes 8 pgno) Hk Hks ltac:(lia)) as E5. fold r in E1, E2, E3, E4, E5.
  rewrite zlen_le_bytes in E5. change (Z.of_nat 8) with 8 in E5.
  assert (raw_ovpage r = pgno) as E6.
  { unfold raw_ovpage. rewrite E5, le_val_bytes. by apply Z.mod_small. }
  split; [|split].
  - unfold raw_entry, raw_data. rewrite E2, Hfl, E3, E4, E6, Hget. split; [done|]. split; [done|].
    change (F_ISSET F_BIGDATA F_BIGDATA) with true. cbn [mbind option_bind snd]. rewrite (proj2 (Z.leb_le _ _)) by lia.
    f_equal. rewrite Hs. by destruct d.
  - intros ps. unfold raw_ov. by rewrite E2, Hfl, E3, E6.
  - apply new_raw; try done; [lia|]. rewrite Hfl. change (F_ISSET F_BIGDATA F_BIGDATA) with true. by rewrite zlen_le_bytes.
Qed.

(** ** The items after an operation *)

Section Ops.
Variable get : Z -> option (list Z).
Context (md_cmp : MDB_cmp_func) (D : MDB_val -> Prop) (ord : MDB_val -> MDB_val -> Z).
Abbreviation items := (list (MDB_val * MDB_val)).
Abbreviation leaf_items := (leaf_items get md_cmp D ord).
Abbreviation lt := (key_lt D ord).

Lemma with_new_split {A B} (P : A -> B -> Prop) (rs : list A) (es1 es2 : list B) (r : A) (e : B) : Forall2 P rs (es1 ++ es2) ->
  P r e -> Forall2 P (with_new rs (zlen es1) r) (es1 ++ e :: es2).
Proof.
  intros Ha He. apply Forall2_app_inv_r in Ha as (rs1 & rs2 & H1 & H2 & ->). unfold with_new.
  assert (Z.to_nat (zlen es1) = length rs1) as -> by (rewrite (Forall2_length _ _ _ H1); unfold zlen; lia).
  rewrite take_app_length, drop_app_length. cbn [app]. apply Forall2_app; [done|]. by constructor.
Qed.

Lemma without_split {A B} (P : A -> B -> Prop) (rs : list A) (es1 es2 : list B) (e : B) : Forall2 P rs (es1 ++ e :: es2) ->
  exists rs1 r rs2, rs = rs1 ++ r :: rs2 /\ zlen rs1 = zlen es1 /\ Forall2 P rs1 es1 /\ P r e /\ Forall2 P rs2 es2.
Proof.
  intros Ha. apply Forall2_app_inv_r in Ha as (rs1 & rs2 & H1 & H2 & ->). inversion H2 as [|r ? rs3 ? Hr H3]; subst.
  exists rs1, r, rs3. split_and!; auto. unfold zlen. by rewrite (Forall2_length _ _ _ H1).
Qed.

(** The page has one item more. *)
Lemma leaf_insert (m m' r : list Z) (es1 es2 : items) (e : MDB_val * MDB_val) : leaf_items m (es1 ++ es2) -> page_wf m' ->
  p_leaf m' = true -> p_branch m' = false -> p_raw m' = with_new (p_raw m) (zlen es1) r -> raw_entry get r e ->
  D e.1 -> Forall (fun x => ord x.1 e.1 < 0) es1 -> Forall (fun x => ord e.1 x.1 < 0) es2 -> leaf_items m' (es1 ++ e :: es2).
Proof.
  intros [Hwf Hl Hb Ho HD Hs Hr] Hwf' Hl' Hb' Er He Dk H1 H2. split; auto.
  - apply Forall_app in HD as [D1 D2]. apply Forall_app. split; [done|]. by constructor.
  - apply Forall_app in HD as [D1 D2]. apply sorted_mid; [done|..].
    + apply Forall_forall. intros x Hx. split_and!; [by apply (proj1 (Forall_forall _ _) D1)|done|by apply (proj1 (Forall_forall _ _) H1)].
    + apply Forall_forall. intros x Hx. split_and!; [done|by apply (proj1 (Forall_forall _ _) D2)|by apply (proj1 (Forall_forall _ _) H2)].
  - rewrite Er. by apply with_new_split.
Qed.

(** One item less. *)
Lemma leaf_delete (m m' : list Z) (es1 es2 : items) (e : MDB_val * MDB_val) : leaf_items m (es1 ++ e :: es2) -> page_wf m' ->
  p_leaf m' = true -> p_branch m' = false ->
  p_raw m' = take (Z.to_nat (zlen es1)) (p_raw m) ++ drop (Z.to_nat (zlen es1 + 1)) (p_raw m) -> leaf_items m' (es1 ++ es2).
Proof.
  intros [Hwf Hl Hb Ho HD Hs Hr] Hwf' Hl' Hb' Er. split; auto.
  - apply Forall_app in HD as [D1 D2]. apply Forall_app. split; [done|]. by inversion D2.
  - by eapply sorted_without.
  - destruct (without_split _ _ _ _ _ Hr) as (rs1 & r & rs2 & E & El & H1 & Hre & H2). rewrite Er, E, <- El. unfold zlen.
    rewrite Nat2Z.id, take_app_length. replace (Z.to_nat (Z.of_nat (length rs1) + 1)) with (S (length rs1)) by lia.
    rewrite drop_app_ge by lia. replace (S (length rs1) - length rs1)%nat with 1%nat by lia. cbn [drop]. by apply Forall2_app.
Qed.

(** One item has another value. *)
Lemma leaf_replace (m m' r : list Z) (es1 es2 : items) (e e' : MDB_val * MDB_val) : leaf_items m (es1 ++ e :: es2) -> page_wf m' ->
  p_leaf m' = true -> p_branch m' = false -> e'.1 = e.1 ->
  p_raw m' = take (Z.to_nat (zlen es1)) (p_raw m) ++ [r] ++ drop (Z.to_nat (zlen es1 + 1)) (p_raw m) -> raw_entry get r e' ->
  leaf_items m' (es1 ++ e' :: es2).
Proof.
  intros [Hwf Hl Hb Ho HD Hs Hr] Hwf' Hl' Hb' Ek Er He. split; auto.
  - apply Forall_app in HD as [D1 D2]. apply Forall_app. split; [done|]. inversion D2; subst. constructor; [by rewrite Ek|done].
  - destruct (sorted_sides _ _ _ _ Hs) as [H1 H2]. apply sorted_mid; [by eapply sorted_without|..].
    + apply (Forall_impl _ _ _ H1). intros x (? & ? & ?). unfold key_lt. by rewrite Ek.
    + apply (Forall_impl _ _ _ H2). intros x (? & ? & ?). unfold key_lt. by rewrite Ek.
  - destruct (without_split _ _ _ _ _ Hr) as (rs1 & r0 & rs2 & E & El & H1 & Hre & H2). rewrite Er, E, <- El. unfold zlen.
    rewrite Nat2Z.id, take_app_length. replace (Z.to_nat (Z.of_nat (length rs1) + 1)) with (S (length rs1)) by lia.
    rewrite drop_app_ge by lia. replace (S (length rs1) - length rs1)%nat with 1%nat by lia. cbn [drop app].
    apply Forall2_app; [done|]. by constructor.
Qed.
End Ops.

(** ** The three changes of a leaf *)

Section Changes.
Variable get : Z -> option (list Z).
Context (md_cmp : MDB_cmp_func) (D : MDB_val -> Prop) (ord : MDB_val -> MDB_val -> Z) (me_psize : Z).
Abbreviation items := (list (MDB_val * MDB_val)).
Abbreviation leaf_items := (leaf_items get md_cmp D ord).

(** The page [m'] has the header and the overflow pages of [m], and the
    items [es]. *)
Record leaf_change (m m' : list Z) (es : items) : Prop := {
  lc_items : leaf_items m' es;
  lc_head : slice m' 0 12 = slice m 0 12;
  lc_len : zlen m' = zlen m;
  lc_pages : leaf_pages me_psize m' = leaf_pages me_psize m
}.

Variables (m m' : list Z) (es1 es2 : items) (key data : MDB_val).

Lemma raw_split (k : Z) : page_wf m -> 0 <= k < p_num m ->
  p_raw m = take (Z.to_nat k) (p_raw m) ++ zn (p_raw m) k :: drop (Z.to_nat (k + 1)) (p_raw m).
Proof.
  intros Hwf Hk. replace (Z.to_nat (k + 1)) with (S (Z.to_nat k)) by lia. symmetry. apply take_drop_middle. rewrite lookup_aget.
  replace (Z.of_nat (Z.to_nat k)) with k by lia. apply aget_in. rewrite zlen_p_raw by done. lia.
Qed.

Lemma pages_with_new (rs : list (list Z)) (i : Z) (r : list Z) : raw_ov me_psize r = [] ->
  concat (raw_ov me_psize <$> with_new rs i r) = concat (raw_ov me_psize <$> rs).
Proof.
  intros E. unfold with_new. rewrite <- (take_drop (Z.to_nat i) rs) at 3. rewrite !fmap_app, !concat_app. cbn [fmap list_fmap concat].
  by rewrite E.
Qed.

Lemma insert_small : leaf_items m (es1 ++ es2) -> val_ok key -> mv_size key < 65536 -> mv_size data = zlen (mv_data data) ->
  mv_size data < 2 ^ 32 -> D key -> Forall (fun x => ord x.1 key < 0) es1 -> Forall (fun x => ord key x.1 < 0) es2 ->
  inserted m (zlen es1) (leaf_node key (mv_size data) 0 (mv_data data)) m' -> leaf_change m m' (es1 ++ (key, data) :: es2).
Proof.
  intros Hli Hk Hks Hd Hd32 Dk H1 H2 Hins. pose proof Hli as [Hwf Hl Hb _ _ _ _].
  destruct (small_entry get key data 0 Hk Hks Hd Hd32 eq_refl) as (He & Hov & H8 & Hr).
  pose proof (in_head _ _ _ _ Hins) as Hhead. pose proof (in_len _ _ _ _ Hins) as Hlen. pose proof (in_wf _ _ _ _ Hins) as Hwf'.
  destruct (same_head m m' (proj1 (wf_psize _ Hwf)) Hlen Hhead) as (El & Eb & _).
  pose proof (inserted_raw m m' _ (zlen es1) Hwf Hins H8 ltac:(by rewrite Hl)) as Eraw.
  split; auto.
  - apply (leaf_insert get md_cmp D ord m m' (leaf_node key (mv_size data) 0 (mv_data data)) es1 es2 (key, data)); auto; congruence.
  - rewrite !leaf_pages_raw, Eraw by congruence. by apply pages_with_new.
Qed.

Lemma delete_small (e : MDB_val * MDB_val) : leaf_items m (es1 ++ e :: es2) -> F_ISSET (n_flags m (zlen es1)) F_BIGDATA = false ->
  page_del m m' (zlen es1) -> leaf_change m m' (es1 ++ es2).
Proof.
  intros Hli Hfl Hdel. pose proof Hli as [Hwf Hl Hb _ _ _ _]. pose proof (pd_indx _ _ _ Hdel) as Hi.
  destruct (deleted_raw m m' (zlen es1) Hwf Hdel) as (Hwf' & Hhead & Hlen & Eraw & _).
  destruct (same_head m m' (proj1 (wf_psize _ Hwf)) Hlen Hhead) as (El & Eb & _).
  split; auto.
  - apply (leaf_delete get md_cmp D ord m m' es1 es2 e); auto; congruence.
  - rewrite !leaf_pages_raw, Eraw by congruence. set (k := zlen es1) in *.
    pose proof (raw_split k Hwf ltac:(lia)) as E.
    rewrite E at 3. rewrite !fmap_app, !concat_app. cbn [fmap list_fmap concat].
    rewrite raw_ov_ok by done. unfold ov_pages. by rewrite Hfl.
Qed.

Lemma over_small (d : MDB_val) : leaf_items m (es1 ++ (key, d) :: es2) -> F_ISSET (n_flags m (zlen es1)) F_BIGDATA = false ->
  val_ok data -> mv_size data = n_lohi m (zlen es1) -> upd m (n_dofs m (zlen es1)) (mv_data data) m' ->
  leaf_change m m' (es1 ++ (key, data) :: es2).
Proof.
  intros Hli Hfl [Hd Hdb] Hsz Hupd. pose proof Hli as [Hwf Hl Hb _ _ _ Hraw]. set (k := zlen es1) in *.
  assert (0 <= k < p_num m) as Hk.
  { rewrite <- (zlen_p_raw m Hwf). unfold zlen at 1. rewrite (Forall2_length _ _ _ Hraw), length_app. cbn [length].
    unfold k, zlen. lia. }
  assert (zlen (mv_data data) = n_lohi m k) as Hsize by congruence.
  destruct (over_header m m' k (mv_data data) Hwf Hl Hk Hfl Hsize Hupd) as (Hhead & _ & _ & _ & _ & _).
  pose proof (over_wf m m' k (mv_data data) Hwf Hl Hk Hfl Hsize Hdb Hupd) as Hwf'.
  assert (zlen m' = zlen m) as Hlen by apply Hupd.
  destruct (same_head m m' (proj1 (wf_psize _ Hwf)) Hlen Hhead) as (El & Eb & _).
  pose proof (over_raw m m' k (mv_data data) Hwf Hl Hk Hfl Hsize Hdb Hupd) as Eraw. cbn zeta in Eraw.
  assert (raw_entry get (zn (p_raw m) k) (key, d)) as Hre.
  { destruct (without_split _ _ _ _ _ Hraw) as (rs1 & r & rs2 & E & Ez & _ & Hr & _). rewrite E. fold k in Ez. rewrite <- Ez. by rewrite (aget_zn _ _ _ (aget_mid rs1 rs2 r)). }
  destruct (over_entry m k (mv_data data) Hwf Hl Hk Hfl Hsize get key d Hre) as [He Hov].
  split; auto.
  - eapply (leaf_replace get md_cmp D ord m m' _ es1 es2 (key, d) (key, data)); eauto; try congruence.
    rewrite <- Hd in He. by destruct data.
  - rewrite !leaf_pages_raw, Eraw by congruence.
    pose proof (raw_split k Hwf ltac:(lia)) as E.
    rewrite E at 5. rewrite !fmap_app, !concat_app. cbn [fmap list_fmap concat]. rewrite Hov.
    rewrite raw_ov_ok by done. unfold ov_pages. by rewrite Hfl.
Qed.
End Changes.
