(* ===== verification/Put.v ===== *)
(** * Writing an item ([mdb_put], [mdb_cursor_put],
    [src/LegacyDatabase/mdb.c])

    The write operation in full, on the store of [Touch.v]: finding the place
    of the key, the checks of the flags, making the path writable, the root
    page of an empty database, overwriting a value in place or on its overflow
    pages, deleting a node and adding one, overflow pages for large values,
    and the other cursors on the page.  Two calls are where the model stops,
    with the state they are made in: [mdb_page_spill] when the dirty list is
    short of room, and [mdb_page_split] when the leaf is.  The database is
    without [MDB_DUPSORT].  [None] is as in [Touch.v]. *)
From S2P Require Import Prelude.
From S2P Require Import Bytes.
From S2P Require Import Midl.
From S2P Require Import Page.
From S2P Require Import Cmp.
From S2P Require Import Cursor.
From S2P Require Import PageList.
From S2P Require Import PageAlloc.
From S2P Require Import FreeDb.
From S2P Require Import PageSplit.
From S2P Require Import Touch.
From Stdlib Require Import ZArith Lia.
From stdpp Require Import base numbers option list gmap.
Open Scope Z_scope.

Definition MDB_NOOVERWRITE : Z := 0x10.
Definition MDB_NODUPDATA : Z := 0x20.
Definition MDB_CURRENT : Z := 0x40.
Definition MDB_NOSPILL : Z := 0x8000.
Definition MDB_APPENDDUP : Z := 0x40000.
Definition MDB_MULTIPLE : Z := 0x80000.
Definition MDB_SPLIT_REPLACE : Z := MDB_APPENDDUP.
Definition F_SUBDATA : Z := 0x02.
Definition NODE_ADD_FLAGS : Z := Z.lor (Z.lor F_DUPDATA F_SUBDATA) (Z.lor MDB_RESERVE MDB_APPEND).
Definition ENV_MAXKEY : Z := 511.
Definition MAXDATASIZE : Z := 0xffffffff.
Definition EACCES : Z := 13.
Definition MDB_KEYEXIST : Z := -30799.
Definition MDB_NO_ROOT : Z := -30780 + 10.

(** What a call ends with: a return code, what is stored through [data] and
    the cursor; or a call of [mdb_page_spill] that writes pages, or of
    [mdb_page_split] with these flags. *)
Inductive put_result :=
  | PutDone (rc : Z) (out : option MDB_val) (w : wtxn) (mc : wcursor)
  | PutSpill (w : wtxn) (mc : wcursor)
  | PutSplit (w : wtxn) (mc : wcursor) (nflags : Z).

(** Whether a part of the function returns, or goes on with a value. *)
Inductive step (A : Type) := Ret (rc : Z) (out : option MDB_val) (w : wtxn) (mc : wcursor) | Go (x : A).
#[global] Arguments Ret {_} _ _ _ _.
#[global] Arguments Go {_} _.

Definition set_entries (d : MDB_db) (n : Z) : MDB_db := Db (md_depth d) (md_branch_pages d) (md_leaf_pages d) (md_overflow d) n.
Definition set_depth (d : MDB_db) (n : Z) : MDB_db := Db n (md_branch_pages d) (md_leaf_pages d) (md_overflow d) (md_entries d).
Definition set_overflow (d : MDB_db) (n : Z) : MDB_db := Db (md_depth d) (md_branch_pages d) (md_leaf_pages d) n (md_entries d).
Definition set_mt_flags (w : wtxn) (f : Z) : wtxn :=
  let st := w_alloc w in
  set_alloc w (AllocState (a_loose_pgs st) (a_loose_count st) (a_dirty st) (mt_dirty_room st) (a_pghead st) (me_pglast st)
                 (me_pgoldest st) (mt_next_pgno st) f).
Definition wflags (mc : wcursor) (f : Z) : wcursor := WCur (wc_snum mc) (wc_top mc) (wc_pg mc) (wc_ki mc) f.

(** [mp->mp_pages = x] *)
Definition set32 (m : list Z) (o x : Z) : option (list Z) := bwrite m o (le_bytes 4 x).

(** ** mdb_page_new: the page counts *)

Definition count_pages (d : MDB_db) (fl num : Z) : MDB_db :=
  if F_ISSET fl P_BRANCH then Db (md_depth d) (u64 (md_branch_pages d + 1)) (md_leaf_pages d) (md_overflow d) (md_entries d)
  else if F_ISSET fl P_LEAF then Db (md_depth d) (md_branch_pages d) (u64 (md_leaf_pages d + 1)) (md_overflow d) (md_entries d)
  else if F_ISSET fl P_OVERFLOW then set_overflow d (u64 (md_overflow d + num))
  else d.

Section Put.
(** As in [Touch.v]. *)
Variable file : Z -> option (list Z).
Variables (me_flags me_map me_psize me_maxpg : Z).
Variable os_malloc : gmap Z (list Z) -> Z -> option (Z * list Z).
Variables (junk : nat -> Z) (mem_ok : Z -> bool) (need_ok : bool).
Variables (mt_txnid : Z) (readers : option (list MDB_reader * Z)) (free_root : Z) (parents : list txn_pages).
Variable fuel : nat.
(** The largest node, the comparator of the database, the depth of the main
    database for a named one (0 for the main database). *)
Variables (me_nodemax : Z) (md_cmp : MDB_cmp_func) (main_depth : Z).
Abbreviation deref := (deref file).
Abbreviation view := (view file me_flags parents).
Abbreviation locate := (locate me_flags parents).

(** ** Searching with the cursor *)

(** The pages a cursor points to; a search reads no other page it has. *)
Definition slot_page (w : wtxn) (p : option page_ptr) : option (list Z) :=
  match p with None => Some [] | Some p => deref w p end.

Definition reading (w : wtxn) (mc : wcursor) : option cursor :=
  pages ← mapM (slot_page w) (take (Z.to_nat (Z.max 1 (wc_snum mc))) (wc_pg mc));
  Some (Cursor (wc_snum mc) (wc_top mc) (pages ++ replicate (32 - length pages) []) (wc_ki mc) (wc_flags mc)
          (a_mt_flags (w_alloc w))).

(** The places where [mdb_page_get] found the pages of the cursor. *)
Definition page_place (w : wtxn) (m : list Z) : option (option page_ptr) := n ← get64 m 0; p ← locate w n; Some (Some p).

Definition writing (w : wtxn) (mc : wcursor) (c : cursor) : option wcursor :=
  pages ← mapM (page_place w) (take (Z.to_nat (mc_snum c)) (mc_pg c));
  Some (WCur (mc_snum c) (mc_top c) (pages ++ drop (length pages) (wc_pg mc)) (mc_ki c) (mc_flags c)).

Definition search (w : wtxn) (mc : wcursor) (find : cursor -> option outcome)
  : option (Z * option MDB_val * option MDB_val * wtxn * wcursor) :=
  c ← reading w mc;
  r ← find c;
  mc ← writing w mc (o_cur r);
  Some (o_rc r, o_key r, o_data r, set_mt_flags w (mt_flags (o_cur r)), mc).

(** [rc = mdb_cursor_set(mc, key, &d2, MDB_SET, &exact)] *)
Definition find_key (w : wtxn) (mc : wcursor) (key : MDB_val) :=
  search w mc (fun c => mdb_cursor_set (view w) md_cmp 0 (w_root w) c key MDB_SET true true).

(** [mdb_cursor_last(mc, &k2, &d2)] and the comparison with the last key. *)
Definition find_end (w : wtxn) (mc : wcursor) (key : MDB_val) : option (Z * option MDB_val * wtxn * wcursor) :=
  '(rc, k2, d2, w, mc) ← search w mc (fun c => mdb_cursor_last (view w) md_cmp 0 (w_root w) c true);
  if nz rc then Some (rc, d2, w, mc)
  else
  k2 ← k2;
  rc ← run_cmp md_cmp key k2;
  if 0 <? rc then
    ki ← aget (wc_ki mc) (wc_top mc);
    kis ← aset (wc_ki mc) (wc_top mc) (u16 (ki + 1));
    Some (MDB_NOTFOUND, d2, w, WCur (wc_snum mc) (wc_top mc) (wc_pg mc) kis (wc_flags mc))
  else Some (MDB_KEYEXIST, d2, w, mc).

(** Position the cursor: 0, [MDB_NOTFOUND] or [MDB_NO_ROOT]. *)
Definition put_position (w : wtxn) (mc : wcursor) (key : MDB_val) (flags : Z) : option (step (Z * wtxn * wcursor)) :=
  if flags =? MDB_CURRENT then
    if negb (nz (Z.land (wc_flags mc) C_INITIALIZED)) then Some (Ret EINVAL None w mc) else Some (Go (MDB_SUCCESS, w, mc))
  else if w_root w =? P_INVALID then
    Some (Go (MDB_NO_ROOT, w, WCur 0 0 (wc_pg mc) (wc_ki mc) (Z.land (wc_flags mc) (Z.lnot C_INITIALIZED))))
  else
  '(rc, d2, w, mc) ← (if nz (Z.land flags MDB_APPEND) then find_end w mc key
                      else '(rc, _, d2, w, mc) ← find_key w mc key; Some (rc, d2, w, mc));
  if nz (Z.land flags MDB_NOOVERWRITE) && (rc =? 0) then Some (Ret MDB_KEYEXIST d2 w mc)
  else if nz rc && negb (rc =? MDB_NOTFOUND) then Some (Ret rc None w mc)
  else Some (Go (rc, w, mc)).

(** ** mdb_page_spill: whether the dirty list has the room *)

Definition spill_need (d : MDB_db) (key data : MDB_val) : Z :=
  let i := u32 (md_depth d + main_depth) in
  let i := u32 (i + (LEAFSIZE key data + me_psize) / me_psize) in
  u32 (i + i).
Definition room_left (w : wtxn) (key data : MDB_val) : bool := spill_need (w_db w) key data <? mt_dirty_room (w_alloc w).

(** ** mdb_page_new *)

(** Address and number of the page, or the return code. *)
Definition mdb_page_new (w : wtxn) (flags num : Z) : option (((Z * Z) + Z) * wtxn) :=
  '(r, w) ← alloc_pages file me_flags me_map me_psize me_maxpg os_malloc junk mem_ok mt_txnid readers free_root parents fuel w num;
  match r with
  | inr rc => Some (inr rc, w)
  | inl (np, pgno) =>
    pg ← w_mem w !! np;
    pg ← init_page pg flags me_psize;
    fl ← mp_flags pg;
    pg ← (if negb (F_ISSET fl P_BRANCH) && negb (F_ISSET fl P_LEAF) && F_ISSET fl P_OVERFLOW then set32 pg 12 num else Some pg);
    Some (inl (np, pgno), set_db (set_mem w np pg) (count_pages (w_db w) fl num))
  end.

(** The root page of an empty database. *)
Definition new_root_page (w : wtxn) (mc : wcursor) : option (step (wtxn * wcursor)) :=
  '(r, w) ← mdb_page_new w P_LEAF 1;
  match r with
  | inr rc => Some (Ret rc None w mc)
  | inl (np, pgno) =>
    pg ← aset (wc_pg mc) (wc_snum mc) (Some (Heap np));
    ki ← aset (wc_ki mc) (wc_snum mc) 0;
    Some (Go (set_db (set_md_root w pgno) (set_depth (w_db w) (u16 (md_depth (w_db w) + 1))),
              WCur (wc_snum mc + 1) (wc_snum mc) pg ki (Z.lor (wc_flags mc) C_INITIALIZED)))
  end.

(** ** mdb_ovpage_free *)

(** [mdb_dpage_free]: a block of one page is kept, a larger one is freed. *)
Definition mdb_dpage_free (w : wtxn) (a : Z) (m : list Z) : option wtxn :=
  fl ← mp_flags m; n ← get32 m 12;
  if negb (F_ISSET fl P_OVERFLOW) || (n =? 1) then Some (set_dpages w (a :: me_dpages w))
  else Some (WTxn (delete a (w_mem w)) (me_dpages w) (w_alloc w) (w_free_pgs w) (w_spill w) (w_root w) (w_cursors w) (w_db w)).

Definition ov_state_of (w : wtxn) : ov_state :=
  Ov (a_pghead (w_alloc w)) (w_spill w) (a_dirty (w_alloc w)) (w_free_pgs w) (md_overflow (w_db w)).
Definition with_ov_state (w : wtxn) (s : ov_state) : wtxn :=
  let st := w_alloc w in
  WTxn (w_mem w) (me_dpages w)
    (AllocState (a_loose_pgs st) (a_loose_count st) (ov_dirty s) (mt_dirty_room st) (me_pghead s) (me_pglast st) (me_pgoldest st)
       (mt_next_pgno st) (a_mt_flags st))
    (mt_free_pgs s) (ov_spill s) (w_root w) (w_cursors w) (set_overflow (w_db w) (md_overflow_pages s)).

(** [m] is the page at [p]. *)
Definition ovpage_free (w : wtxn) (p : page_ptr) (m : list Z) : option (Z * wtxn) :=
  pg ← get64 m 0; fl ← mp_flags m; n ← get32 m 12;
  let nested := match parents with [] => false | _ => true end in
  let recycle := match a_pghead (w_alloc w) with Some _ => negb nested && nz (Z.land fl P_DIRTY) | None => false end in
  a ← match p with Heap a => Some a | Mapped _ => if recycle then None else Some 0 end;
  '(rc, s) ← mdb_ovpage_free junk need_ok nested pg a fl n (ov_state_of w);
  let w := with_ov_state w s in
  if nz rc then Some (rc, w)
  else w ← (if recycle then mdb_dpage_free w a m else Some w); Some (MDB_SUCCESS, w).

(** ** Overwriting a value *)

(** The page on top of the cursor, which is a block of memory. *)
Definition top_block (w : wtxn) (mc : wcursor) : option (Z * list Z) :=
  p ← aget (wc_pg mc) (wc_top mc);
  p ← p;
  match p with Heap a => m ← w_mem w !! a; Some (a, m) | Mapped _ => None end.

Definition store_data (w : wtxn) (a o : Z) (data : MDB_val) (flags : Z) : option wtxn :=
  if F_ISSET flags MDB_RESERVE then Some w
  else m ← w_mem w !! a; bs ← bread (mv_data data) 0 (mv_size data); m ← bwrite m o bs; Some (set_mem w a m).

(** A page that is writable in a parent transaction only: its copy. *)
Definition copy_overflow (w : wtxn) (om : list Z) (pg ovpages : Z) (data : MDB_val) (flags : Z) : option (Z * wtxn * Z) :=
  '(np, w) ← mdb_page_malloc me_flags me_psize os_malloc w ovpages;
  match np with
  | None => Some (ENOMEM, w, 0)
  | Some np =>
    '(rc2, dl) ← mdb_mid2l_insert (a_dirty (w_alloc w)) (ID2 pg np);
    if nz rc2 then None else
    let w := set_dirty w dl (mt_dirty_room (w_alloc w)) in
    dst ← w_mem w !! np;
    let sz := me_psize * ovpages in
    let off := Z.land (PAGEHDRSZ + mv_size data) (-8) in
    dst ← (if negb (nz (Z.land flags MDB_RESERVE)) then bs ← bread om off (sz - off); bwrite dst off bs else Some dst);
    bs ← bread om 0 (if negb (nz (Z.land flags MDB_RESERVE)) then PAGEHDRSZ else sz);
    dst ← bwrite dst 0 bs;
    Some (MDB_SUCCESS, set_mem w np dst, np)
  end.

(** The node at offset [o] of the leaf at [a] has its value on overflow pages:
    the value is written there if it fits and they are writable, and otherwise
    they are freed. *)
Definition put_overflow (w : wtxn) (mc : wcursor) (a o pg : Z) (data : MDB_val) (flags : Z) : option (step wtxn) :=
  let dpages := OVPAGES (mv_size data) me_psize in
  '(rc2, r, f) ← mdb_page_get (a_mt_flags (w_alloc w)) me_flags (chain parents w) (mt_next_pgno (w_alloc w)) pg;
  match r with
  | None => Some (Ret rc2 None (set_mt_flags w f) mc)
  | Some (omp, level) =>
    om ← deref w omp;
    ovpages ← get32 om 12;
    let free_it w omp om :=
      '(rc2, w) ← ovpage_free w omp om;
      if nz rc2 then Some (Ret rc2 None w mc) else Some (Go w) in
    if dpages <=? ovpages then
      fl ← mp_flags om;
      '(rc, w, omp, level) ←
        (if negb (nz (Z.land fl P_DIRTY)) && (nz level || nz (Z.land me_flags MDB_WRITEMAP)) then
           '(rc, w, np) ← mdb_page_unspill me_flags me_psize os_malloc parents w om;
           Some (rc, w, match np with Some np => Heap np | None => omp end, 0)
         else Some (MDB_SUCCESS, w, omp, level));
      if nz rc then Some (Ret rc None w mc) else
      om ← deref w omp;
      fl ← mp_flags om;
      if nz (Z.land fl P_DIRTY) then
        '(rc, w, oa) ← (if 1 <? level then copy_overflow w om pg ovpages data flags
                        else match omp with Heap oa => Some (MDB_SUCCESS, w, oa) | Mapped _ => None end);
        if nz rc then Some (Ret rc None w mc) else
        m ← w_mem w !! a;
        m ← SETDSZ m o (mv_size data);
        w ← store_data (set_mem w a m) oa PAGEHDRSZ data flags;
        Some (Ret MDB_SUCCESS None w mc)
      else free_it w omp om
    else free_it w omp om
  end.

(** The key is there: overwrite its value and return, or delete its node. *)
Definition put_existing (w : wtxn) (mc : wcursor) (data : MDB_val) (flags : Z) : option (step wtxn) :=
  '(a, m) ← top_block w mc;
  leaf2 ← IS_LEAF2 m;
  if leaf2 : bool then None else
  ki ← aget (wc_ki mc) (wc_top mc);
  o ← mp_ptr m ki;
  osize ← NODEDSZ m o;
  dp ← NODEDATA m o;
  fl ← get16 m (o + 4);
  r ← (if F_ISSET fl F_BIGDATA then pg ← get64 m dp; put_overflow w mc a o pg data flags
       else if mv_size data =? osize then w ← store_data w a dp data flags; Some (Ret MDB_SUCCESS None w mc)
       else Some (Go w));
  match r with
  | Ret rc out w mc => Some (Ret rc out w mc)
  | Go w => m ← w_mem w !! a; m ← mdb_node_del m ki 0; Some (Go (set_mem w a m))
  end.

(** ** Adding the node *)

(** [mdb_node_add], which asks for overflow pages if the value is large. *)
Definition put_node (w : wtxn) (mc : wcursor) (key data : MDB_val) (nflags : Z) : option (Z * wtxn) :=
  '(a, m) ← top_block w mc;
  ki ← aget (wc_ki mc) (wc_top mc);
  let pn := mdb_page_new w P_OVERFLOW (OVPAGES (mv_size data) me_psize) in
  let page_new _ :=
    match pn with
    | Some (inl (np, pgno), w1) => inr (pgno, default [] (w_mem w1 !! np))
    | Some (inr rc, _) => inl rc
    | None => inl MDB_CORRUPTED
    end in
  r ← mdb_node_add 0 me_nodemax me_psize page_new m ki (Some key) (Some data) 0 nflags;
  match r with
  | AddOk m None => Some (MDB_SUCCESS, set_mem w a m)
  | AddOk m (Some (_, ov)) => '(r, w) ← pn; match r with inl (np, _) => Some (MDB_SUCCESS, set_mem (set_mem w np ov) a m) | inr _ => None end
  | AddFail rc true => Some (rc, txn_error w)
  | AddFail rc false => '(_, w) ← pn; Some (rc, w)
  end.

(** The other cursors on the page move with the items after the new one. *)
Definition bump (mc : wcursor) (m2 : wcursor) : option wcursor :=
  if wc_snum m2 <? wc_snum mc then Some m2
  else
    p ← aget (wc_pg m2) (wc_top mc); mp ← aget (wc_pg mc) (wc_top mc);
    k2 ← aget (wc_ki m2) (wc_top mc); k ← aget (wc_ki mc) (wc_top mc);
    if bool_decide (p = mp) && (k <=? k2) then
      kis ← aset (wc_ki m2) (wc_top mc) (u16 (k2 + 1));
      Some (WCur (wc_snum m2) (wc_top m2) (wc_pg m2) kis (wc_flags m2))
    else Some m2.

(** From label [new_sub] on. *)
Definition put_new (w : wtxn) (mc : wcursor) (key data : MDB_val) (flags : Z) (insert_key : bool) : option put_result :=
  let nflags := Z.land flags NODE_ADD_FLAGS in
  '(a, m) ← top_block w mc;
  left ← SIZELEFT m;
  if left <? mdb_leaf_size me_nodemax key data then
    let nflags := if Z.land flags (Z.lor F_DUPDATA F_SUBDATA) =? F_DUPDATA then Z.land nflags (Z.lnot MDB_APPEND) else nflags in
    Some (PutSplit w mc (if insert_key then nflags else Z.lor nflags MDB_SPLIT_REPLACE))
  else
  '(rc, w) ← put_node w mc key data nflags;
  if nz rc then Some (PutDone rc None (txn_error w) mc)
  else if insert_key then
    cs ← mapM (bump mc) (w_cursors w);
    Some (PutDone MDB_SUCCESS None
            (set_db (set_cursors w cs) (set_entries (w_db w) (u64 (md_entries (w_db w) + 1))))
            (wflags mc (Z.lor (wc_flags mc) C_INITIALIZED)))
  else Some (PutDone MDB_SUCCESS None w mc).

(** ** mdb_cursor_put *)

(** From the point where the cursor is positioned and the path is writable. *)
Definition put_here (w : wtxn) (mc : wcursor) (key data : MDB_val) (flags rc : Z) : option put_result :=
  if nz rc then put_new w mc key data flags true
  else
  r ← put_existing w mc data flags;
  match r with
  | Ret rc out w mc => Some (PutDone rc out w mc)
  | Go w => put_new w mc key data flags false
  end.

Definition mdb_cursor_put (w : wtxn) (mc : wcursor) (key data : MDB_val) (flags : Z) : option put_result :=
  if nz (Z.land flags MDB_MULTIPLE) then Some (PutDone MDB_INCOMPATIBLE None w mc) else
  let nospill := nz (Z.land flags MDB_NOSPILL) in
  let flags := Z.land flags (Z.lnot MDB_NOSPILL) in
  let f := a_mt_flags (w_alloc w) in
  if nz (Z.land f (Z.lor MDB_TXN_RDONLY MDB_TXN_ERROR)) then
    Some (PutDone (if nz (Z.land f MDB_TXN_RDONLY) then EACCES else MDB_BAD_TXN) None w mc)
  else if ENV_MAXKEY <=? u64 (mv_size key - 1) then Some (PutDone MDB_BAD_VALSIZE None w mc)
  else if MAXDATASIZE <? mv_size data then Some (PutDone MDB_BAD_VALSIZE None w mc)
  else
  r ← put_position w mc key flags;
  match r with
  | Ret rc out w mc => Some (PutDone rc out w mc)
  | Go (rc, w, mc) =>
    let mc := if nz (Z.land (wc_flags mc) C_DEL) then wflags mc (Z.lxor (wc_flags mc) C_DEL) else mc in
    if negb nospill && negb (room_left w key data) then Some (PutSpill w mc)
    else
    r ← (if rc =? MDB_NO_ROOT then new_root_page w mc
         else
           '(rc2, w, mc) ← mdb_cursor_touch file me_flags me_map me_psize me_maxpg os_malloc junk mem_ok need_ok mt_txnid readers
                             free_root parents fuel w mc;
           if nz rc2 then Some (Ret rc2 None w mc) else Some (Go (w, mc)));
    match r with
    | Ret rc out w mc => Some (PutDone rc out w mc)
    | Go (w, mc) => put_here w mc key data flags rc
    end
  end.

(** ** mdb_put *)

Definition wcursor_init : wcursor := WCur 0 0 (replicate 32 None) (replicate 32 0) 0.

(** [dbi_ok]: the handle is that of a database of the transaction, and not
    the free-page database. *)
Definition mdb_put (dbi_ok : bool) (w : wtxn) (key data : MDB_val) (flags : Z) : option put_result :=
  if negb dbi_ok then Some (PutDone EINVAL None w wcursor_init)
  else if negb (Z.land flags (Z.lor (Z.lor MDB_NOOVERWRITE MDB_NODUPDATA) (Z.lor (Z.lor MDB_RESERVE MDB_APPEND) MDB_APPENDDUP)) =? flags)
  then Some (PutDone EINVAL None w wcursor_init)
  else mdb_cursor_put w wcursor_init key data flags.
End Put.
