(* ===== verification/Split.v ===== *)
(** * Splitting a page of the tree ([mdb_page_split] with its parents,
    [src/LegacyDatabase/mdb.c])

    The whole operation on the store of [Touch.v]: the new right sibling, the
    new root when the root is split, the separator in the parent, which is
    split in turn when it has no room, the nodes moved to the two halves, and
    the cursors.  What happens on the pages is [PageSplit.v]; the pages of
    the path are blocks of memory.  [mdb_put] with the split of the leaf is
    [put_with_split].  Pages of fixed-size keys ([P_LEAF2]) are only in
    databases with [MDB_DUPSORT], and are left out here ([Leaf2.v] has what
    happens on them).  When a node cannot be moved the function fails; the
    pages are then in the middle of the move and the transaction can only be
    aborted, and the model keeps them as they were before it.  The block of the temporary
    copy is given back with the bytes it had. *)
From S2P Require Import Prelude.
From S2P Require Import Bytes.
From S2P Require Import Midl.
From S2P Require Import Page.
From S2P Require Import Cmp.
From S2P Require Import Cursor.
From S2P Require Import PageList.
From S2P Require Import PageAlloc.
From S2P Require Import FreeDb.
From S2P Require Import PageSplit.
From S2P Require Import Touch.
From S2P Require Import CursorTouch.
From S2P Require Import Put.
From Stdlib Require Import ZArith Lia.
From stdpp Require Import base numbers option list gmap.
Open Scope Z_scope.

Definition C_SPLITTING : Z := 0x20.

(** [mc->mc_pg[i] = p; mc->mc_ki[i] = k;] *)
Definition set_level (mc : wcursor) (i : Z) (p : option page_ptr) (k : Z) : option wcursor :=
  pg ← aset (wc_pg mc) i p; ki ← aset (wc_ki mc) i k; Some (WCur (wc_snum mc) (wc_top mc) pg ki (wc_flags mc)).
Definition set_index (mc : wcursor) (i k : Z) : option wcursor :=
  ki ← aset (wc_ki mc) i k; Some (WCur (wc_snum mc) (wc_top mc) (wc_pg mc) ki (wc_flags mc)).
Definition set_page (mc : wcursor) (i : Z) (p : option page_ptr) : option wcursor :=
  pg ← aset (wc_pg mc) i p; Some (WCur (wc_snum mc) (wc_top mc) pg (wc_ki mc) (wc_flags mc)).
Definition set_height (mc : wcursor) (snum : Z) : wcursor := WCur snum (snum - 1) (wc_pg mc) (wc_ki mc) (wc_flags mc).

(** [for (i=0; i<n; i++) { mc->mc_pg[i] = mn.mc_pg[i]; mc->mc_ki[i] = mn.mc_ki[i]; }] *)
Fixpoint copy_levels (n : nat) (i : Z) (mc mn : wcursor) : option wcursor :=
  match n with
  | O => Some mc
  | S n => p ← aget (wc_pg mn) i; k ← aget (wc_ki mn) i; mc ← set_level mc i p k; copy_levels n (i + 1) mc mn
  end.
Fixpoint copy_indices (n : nat) (i : Z) (mc mn : wcursor) : option wcursor :=
  match n with O => Some mc | S n => k ← aget (wc_ki mn) i; mc ← set_index mc i k; copy_indices n (i + 1) mc mn end.

(** [for (k=m3->mc_top; k>=0; k--) { m3->mc_ki[k+1] = m3->mc_ki[k]; m3->mc_pg[k+1] = m3->mc_pg[k]; }];
    [n] is [k + 1]. *)
Fixpoint shift_levels (n : nat) (m3 : wcursor) : option wcursor :=
  match n with
  | O => Some m3
  | S n => let k := Z.of_nat n in p ← aget (wc_pg m3) k; i ← aget (wc_ki m3) k; m3 ← set_level m3 (k + 1) p i; shift_levels n m3
  end.

Section Split.
(** As in [Touch.v]. *)
Variable file : Z -> option (list Z).
Variables (me_flags me_map me_psize me_maxpg : Z).
Variable os_malloc : gmap Z (list Z) -> Z -> option (Z * list Z).
Variables (junk : nat -> Z) (mem_ok : Z -> bool) (need_ok : bool).
Variables (mt_txnid : Z) (readers : option (list MDB_reader * Z)) (free_root : Z) (parents : list txn_pages).
Variable fuel : nat.
Variable md_cmp : MDB_cmp_func.
Abbreviation page_new := (mdb_page_new file me_flags me_map me_psize me_maxpg os_malloc junk mem_ok mt_txnid readers free_root parents fuel).
Abbreviation view := (view file me_flags parents).

(** The page at level [i] of a cursor, which is a block of memory. *)
Definition block_at (w : wtxn) (mc : wcursor) (i : Z) : option (Z * list Z) :=
  p ← aget (wc_pg mc) i;
  p ← p;
  match p with Heap a => m ← w_mem w !! a; Some (a, m) | Mapped _ => None end.

(** ** A new root *)

Definition no_overflow (_ : Z) : Z + (Z * list Z) := inl MDB_CORRUPTED.
Definition branch_add (m : list Z) (indx : Z) (key : option MDB_val) (pgno : Z) : option add_result :=
  mdb_node_add 0 (nodemax me_psize) me_psize no_overflow m indx key None pgno 0.

(** The stack of the cursor moves up, the new root points to page [mpno]. *)
Definition split_root (w : wtxn) (mc : wcursor) (mpno : Z) : option (Z * wtxn * wcursor) :=
  '(r, w) ← page_new w P_BRANCH 1;
  match r with
  | inr rc => Some (rc, w, mc)
  | inl (pp, ppno) =>
    p0 ← aget (wc_pg mc) 0; k0 ← aget (wc_ki mc) 0;
    mc ← set_level mc 1 p0 k0;
    mc ← set_level mc 0 (Some (Heap pp)) 0;
    let w := set_db (set_md_root w ppno) (set_depth (w_db w) (u16 (md_depth (w_db w) + 1))) in
    m ← w_mem w !! pp;
    r ← branch_add m 0 None mpno;
    match r with
    | AddFail rc e =>
      mc ← set_level mc 0 p0 k0;
      Some (rc, set_db (set_md_root w mpno) (set_depth (w_db w) (u16 (md_depth (w_db w) - 1))), mc)
    | AddOk m _ => Some (MDB_SUCCESS, set_mem w pp m, set_height mc 2)
    end
  end.

(** ** The split point *)

(** The copy of the page, with its address, the split point and the
    separator; or a return code.  With [MDB_APPEND] there is no copy. *)
Definition make_plan (w : wtxn) (mp : list Z) (nn : new_node) (newindx : Z)
  : option ((option (Z * list Z) * Z * MDB_val + Z) * wtxn) :=
  if nz (Z.land (nn_flags nn) MDB_APPEND) then Some (inl (None, newindx, nn_key nn), w)
  else
  '(c, w) ← mdb_page_malloc me_flags me_psize os_malloc w 1;
  match c with
  | None => Some (inr ENOMEM, w)
  | Some c =>
    copy ← w_mem w !! c;
    '(copy, split_indx, sep) ← plan_split me_psize mp copy nn newindx;
    Some (inl (Some (c, copy), split_indx, sep), w)
  end.

(** ** After the parent was split *)

(** [mdb_cursor_sibling(mc, 0)], from the pages of the store. *)
Definition step_left (w : wtxn) (mc : wcursor) : option wcursor :=
  c ← reading file w mc;
  '(_, c) ← mdb_cursor_sibling (view w) 32 c false;
  writing me_flags parents w mc c.

(** The number of keys of the page at a level of a cursor. *)
Definition keys_at (w : wtxn) (mc : wcursor) (i : Z) : option Z := '(_, m) ← block_at w mc i; NUMKEYS m.

(** [mn.mc_pg[i] != mc->mc_pg[i] && mc->mc_ki[i] >= NUMKEYS(mc->mc_pg[i])] *)
Definition moved_right (w : wtxn) (mc mn : wcursor) (i : Z) : option bool :=
  p ← aget (wc_pg mn) i; q ← aget (wc_pg mc) i;
  if bool_decide (p = q) then Some false else k ← aget (wc_ki mc) i; n ← keys_at w mc i; Some (n <=? k).

(** The cursor of the page follows the split of its parent, which [mn] shows. *)
Definition after_parent (w : wtxn) (mc mn : wcursor) : option wcursor :=
  mc ← (if wc_snum mn =? wc_snum mc then
          p ← aget (wc_pg mc) (wc_top mc); k ← aget (wc_ki mc) (wc_top mc);
          mc ← set_level mc (wc_snum mc) p k;
          p ← aget (wc_pg mc) (wc_top mc - 1); k ← aget (wc_ki mc) (wc_top mc - 1);
          mc ← set_level mc (wc_top mc) p k;
          Some (set_height mc (wc_snum mc + 1))
        else Some mc);
  let ptop := wc_top mc - 1 in
  b ← moved_right w mc mn ptop;
  if b : bool then
    mc ← copy_levels (Z.to_nat ptop) 0 mc mn;
    p ← aget (wc_pg mn) ptop; k ← aget (wc_ki mn) ptop;
    if nz k then set_level mc ptop p (u16 (k - 1))
    else mc ← set_level mc ptop p k; step_left w mc
  else Some mc.

(** ** Moving the nodes *)

(** Overflow pages for the new node, if it needs them. *)
Definition node_new (w : wtxn) (nn : new_node) : option (((Z * Z) + Z) * wtxn) :=
  page_new w P_OVERFLOW (OVPAGES (match nn_data nn with Some d => mv_size d | None => 0 end) me_psize).
Definition node_page (w : wtxn) (nn : new_node) (_ : Z) : Z + (Z * list Z) :=
  match node_new w nn with
  | Some (inl (np, pgno), w1) => inr (pgno, default [] (w_mem w1 !! np))
  | Some (inr rc, _) => inl rc
  | None => inl MDB_CORRUPTED
  end.

(** The two halves in their blocks, and the overflow pages. *)
Definition store_halves (w : wtxn) (nn : new_node) (mpa rpa : Z) (mp rp : list Z) (ofp : option (Z * list Z)) : option wtxn :=
  match ofp with
  | None => Some (set_mem (set_mem w mpa mp) rpa rp)
  | Some (_, ov) =>
    '(r, w) ← node_new w nn;
    match r with inl (np, _) => Some (set_mem (set_mem (set_mem w np ov) mpa mp) rpa rp) | inr _ => None end
  end.

(** The cursor goes to the new node on the right page. *)
Definition go_right (w : wtxn) (mc mn : wcursor) (rpa : Z) : option wcursor :=
  let ptop := wc_top mc - 1 in
  mc ← set_page mc (wc_top mc) (Some (Heap rpa));
  k ← aget (wc_ki mc) ptop;
  mc ← set_index mc ptop (u16 (k + 1));
  b ← moved_right w mc mn ptop;
  if b : bool then copy_levels (Z.to_nat (ptop + 1)) 0 mc mn else Some mc.

(** Results: the return code, the left page, the cursor. *)
Definition move_part (w : wtxn) (mc mn : wcursor) (mpa rpa : Z) (mp : list Z) (nn : new_node) (newindx split_indx : Z)
    (copy : option (Z * list Z)) : option (Z * wtxn * wcursor) :=
  rp ← w_mem w !! rpa;
  match copy with
  | None =>
    mc ← set_level mc (wc_top mc) (Some (Heap rpa)) 0;
    r ← append_split 0 me_psize (node_page w nn) mp rp nn;
    match r with
    | SplitFail rc => Some (rc, w, mc)
    | SplitOk mp rp _ _ ofp =>
      w ← store_halves w nn mpa rpa mp rp ofp;
      mc ← copy_indices (Z.to_nat (wc_top mc)) 0 mc mn;
      Some (MDB_SUCCESS, w, mc)
    end
  | Some (_, copy) =>
    r ← move_nodes 0 me_psize (node_page w nn) mp rp copy nn newindx split_indx;
    match r with
    | SplitFail rc => Some (rc, w, mc)
    | SplitOk mp rp ki side ofp =>
      w ← store_halves w nn mpa rpa mp rp ofp;
      mc ← set_level mc (wc_top mc) (Some (Heap mpa)) ki;
      mc ← (if side : bool then go_right w mc mn rpa else Some mc);
      Some (MDB_SUCCESS, w, mc)
    end
  end.

(** ** The other cursors *)

Definition shift_root (mc m3 : wcursor) (split_indx : Z) : option wcursor :=
  m3 ← shift_levels (Z.to_nat (wc_top m3 + 1)) m3;
  k ← aget (wc_ki m3) 0;
  p ← aget (wc_pg mc) 0;
  m3 ← set_level m3 0 p (if split_indx <=? k then 1 else 0);
  Some (WCur (wc_snum m3 + 1) (wc_top m3 + 1) (wc_pg m3) (wc_ki m3) (wc_flags m3)).

Definition on_page (m3 : wcursor) (i : Z) (p : option page_ptr) : option bool :=
  if wc_top m3 <? i then Some false else q ← aget (wc_pg m3) i; Some (bool_decide (q = p)).

Definition fix_cursor (new_root did_split : bool) (mc mn : wcursor) (mpa rpa newindx split_indx fixup : Z) (replace : bool)
    (m3 : wcursor) : option wcursor :=
  if negb (nz (Z.land (wc_flags m3) C_INITIALIZED)) || nz (Z.land (wc_flags m3) C_SPLITTING) then Some m3
  else
  m3 ← (if new_root then shift_root mc m3 split_indx else Some m3);
  let top := wc_top mc in
  let ptop := top - 1 in
  b ← on_page m3 top (Some (Heap mpa));
  if b : bool then
    k ← aget (wc_ki m3) top;
    let k := if (newindx <=? k) && negb replace then u16 (k + 1) else k in
    m3 ← set_index m3 top k;
    if fixup <=? k then
      m3 ← set_level m3 top (Some (Heap rpa)) (u16 (k - fixup));
      pk ← aget (wc_ki mn) ptop;
      set_index m3 ptop pk
    else Some m3
  else if did_split then Some m3
  else
  pp ← aget (wc_pg mc) ptop;
  b ← on_page m3 ptop pp;
  if b : bool then
    k ← aget (wc_ki m3) ptop; pk ← aget (wc_ki mc) ptop;
    if pk <=? k then set_index m3 ptop (u16 (k + 1)) else Some m3
  else Some m3.

(** ** mdb_page_split *)

(** Label [done]. *)
Definition split_done (rc : Z) (w : wtxn) (mc : wcursor) (copy : option (Z * list Z)) : Z * wtxn * wcursor :=
  let w := match copy with Some (c, _) => set_dpages w (c :: me_dpages w) | None => w end in
  (rc, if nz rc then txn_error w else w, mc).

(** [mc->mc_flags ^= C_SPLITTING;] to the end, when the parent has the
    separator. *)
Definition split_pages (w : wtxn) (mc mn : wcursor) (mpa rpa : Z) (nn : new_node) (newindx split_indx : Z)
    (copy : option (Z * list Z)) (new_root did_split : bool) : option (Z * wtxn * wcursor) :=
  let mc := wflags mc (Z.lxor (wc_flags mc) C_SPLITTING) in
  mp ← w_mem w !! mpa;
  '(rc, w, mc) ← move_part w mc mn mpa rpa mp nn newindx split_indx copy;
  if nz rc then Some (split_done rc w mc copy)
  else
  mp ← w_mem w !! mpa;
  fixup ← NUMKEYS mp;
  cs ← mapM (fix_cursor new_root did_split mc mn mpa rpa newindx split_indx fixup (nz (Z.land (nn_flags nn) MDB_SPLIT_REPLACE)))
         (w_cursors w);
  Some (split_done MDB_SUCCESS (set_cursors w cs) mc copy).

(** The cursor [mn] of the right sibling. *)
Definition sibling_cursor (mc : wcursor) (rpa : Z) (append : bool) : option wcursor :=
  let top := wc_top mc in
  mn ← set_page mc top (Some (Heap rpa));
  k ← aget (wc_ki mc) (top - 1);
  mn ← set_index mn (top - 1) (u16 (k + 1));
  if append then set_index mn top 0 else Some mn.

(** The parent has no room for the separator: it is split first, by [rec]. *)
Definition split_up (rec : wtxn -> wcursor -> new_node -> option (Z * wtxn * wcursor)) (w : wtxn) (mc mn : wcursor) (mpa rpa rpno : Z)
    (nn : new_node) (newindx split_indx : Z) (sep : MDB_val) (copy : option (Z * list Z)) (new_root : bool) : option (Z * wtxn * wcursor) :=
  '(rc, w, mn) ← rec w (set_height mn (wc_snum mn - 1)) (NewNode sep None rpno 0);
  if nz rc then Some (split_done rc w mc copy)
  else
  mc ← after_parent w mc mn;
  split_pages w mc mn mpa rpa nn newindx split_indx copy new_root true.

(** The parent [pp] takes the separator. *)
Definition split_here (w : wtxn) (mc mn : wcursor) (ppa : Z) (pp : list Z) (mpa rpa rpno : Z) (nn : new_node) (newindx split_indx : Z)
    (sep : MDB_val) (copy : option (Z * list Z)) (new_root : bool) : option (Z * wtxn * wcursor) :=
  k ← aget (wc_ki mn) (wc_top mn - 1);
  r ← branch_add pp k (Some sep) rpno;
  match r with
  | AddFail rc _ => Some (split_done rc w (wflags mc (Z.lxor (wc_flags mc) C_SPLITTING)) copy)
  | AddOk pp _ => split_pages (set_mem w ppa pp) mc mn mpa rpa nn newindx split_indx copy new_root false
  end.

(** From [mc->mc_flags |= C_SPLITTING;] on. *)
Definition split_rest (rec : wtxn -> wcursor -> new_node -> option (Z * wtxn * wcursor)) (w : wtxn) (mc : wcursor) (mpa : Z) (mp : list Z)
    (rpa rpno : Z) (nn : new_node) (newindx : Z) (new_root : bool) : option (Z * wtxn * wcursor) :=
  let mc := wflags mc (Z.lor (wc_flags mc) C_SPLITTING) in
  mn ← sibling_cursor mc rpa (nz (Z.land (nn_flags nn) MDB_APPEND));
  '(plan, w) ← make_plan w mp nn newindx;
  match plan with
  | inr rc => Some (split_done rc w mc None)
  | inl (copy, split_indx, sep) =>
    '(ppa, pp) ← block_at w mn (wc_top mn - 1);
    left ← SIZELEFT pp;
    if left <? mdb_branch_size (Some sep) then split_up rec w mc mn mpa rpa rpno nn newindx split_indx sep copy new_root
    else split_here w mc mn ppa pp mpa rpa rpno nn newindx split_indx sep copy new_root
  end.

(** Pages of fixed-size keys, which only databases with sorted duplicates
    have, give [None] here; [split_leaf2] of [PageSplit.v] splits them. *)
Fixpoint mdb_page_split (levels : nat) (w : wtxn) (mc : wcursor) (nn : new_node) : option (Z * wtxn * wcursor) :=
  match levels with
  | O => None
  | S levels =>
    '(mpa, mp) ← block_at w mc (wc_top mc);
    newindx ← aget (wc_ki mc) (wc_top mc);
    leaf2 ← IS_LEAF2 mp;
    if leaf2 : bool then None else
    fl ← mp_flags mp; mpno ← get64 mp 0;
    '(r, w) ← page_new w fl 1;
    match r with
    | inr rc => Some (rc, w, mc)
    | inl (rpa, rpno) =>
      let new_root := wc_snum mc <? 2 in
      '(rc, w, mc) ← (if new_root then split_root w mc mpno else Some (MDB_SUCCESS, w, mc));
      if nz rc then Some (split_done rc w mc None)
      else split_rest (mdb_page_split levels) w mc mpa mp rpa rpno nn newindx new_root
    end
  end.

(** ** mdb_put with the split of the leaf *)

(** What [mdb_cursor_put] does with the result of [mdb_page_split], when it
    comes to calling it. *)
Definition finish_put (key data : MDB_val) (r : put_result) : option put_result :=
  match r with
  | PutSplit w mc nflags =>
    '(rc, w, mc) ← mdb_page_split (Z.to_nat (wc_snum mc)) w mc (NewNode key (Some data) P_INVALID nflags);
    if nz rc then Some (PutDone rc None (txn_error w) mc)
    else if negb (nz (Z.land nflags MDB_SPLIT_REPLACE)) then
      Some (PutDone MDB_SUCCESS None (set_db w (set_entries (w_db w) (u64 (md_entries (w_db w) + 1))))
              (wflags mc (Z.lor (wc_flags mc) C_INITIALIZED)))
    else Some (PutDone MDB_SUCCESS None w mc)
  | _ => Some r
  end.

Definition cursor_put_with_split (main_depth : Z) (w : wtxn) (mc : wcursor) (key data : MDB_val) (flags : Z) : option put_result :=
  r ← mdb_cursor_put file me_flags me_map me_psize me_maxpg os_malloc junk mem_ok need_ok mt_txnid readers free_root parents fuel
        (nodemax me_psize) md_cmp main_depth w mc key data flags;
  finish_put key data r.

Definition put_with_split (main_depth : Z) (dbi_ok : bool) (w : wtxn) (key data : MDB_val) (flags : Z) : option put_result :=
  r ← mdb_put file me_flags me_map me_psize me_maxpg os_malloc junk mem_ok need_ok mt_txnid readers free_root parents fuel
        (nodemax me_psize) md_cmp main_depth dbi_ok w key data flags;
  finish_put key data r.
End Split.

(** ** Runs on a small database *)

(** An empty database with pages of 128 bytes, and puts of short items. *)
Definition run_start : wtxn :=
  WTxn ∅ [] (AllocState [] 0 (ID2 0 0 :: replicate 60 (ID2 0 0)) 50 None 0 0 2 0) (Midl 60 (0 :: replicate 60 0)) None P_INVALID []
    (Db 0 0 0 0 0).
Definition run_key (i : Z) : MDB_val :=
  let n := Z.to_nat (1 + (i * 7) mod 9) in Val (3 + Z.of_nat n) ([i / 100; (i / 10) mod 10; i mod 10] ++ replicate n 7).
Definition run_data (i : Z) : MDB_val := let n := Z.to_nat ((i * 11) mod 17) in Val (Z.of_nat n) (replicate n (i mod 256)).
Abbreviation run_put :=
  (put_with_split (fun _ => None) 0 0 128 1000 malloc0 (fun _ => 0) (fun _ => true) true 8 readers6 P_INVALID [] 3 cmp_memn 0 true).
Fixpoint run_puts (w : wtxn) (mc : wcursor) (l : list Z) : option (wtxn * wcursor) :=
  match l with
  | [] => Some (w, mc)
  | i :: l => r ← run_put w (run_key i) (run_data i) 0; match r with PutDone 0 _ w mc => run_puts w mc l | _ => None end
  end.
Definition run_found (w : wtxn) (i : Z) : bool :=
  match mdb_get (view (fun _ => None) 0 [] w) cmp_memn 0 (w_root w) (a_mt_flags (w_alloc w)) (run_key i) with
  | Some r => match o_data r with Some d => (o_rc r =? 0) && bool_decide (mv_data d = mv_data (run_data i)) | None => false end
  | None => false
  end.
(** The page numbers on the stack of a cursor. *)
Definition run_path (w : wtxn) (mc : wcursor) : option (list Z) :=
  mapM (fun p => p ← p; m ← deref (fun _ => None) w p; get64 m 0) (take (Z.to_nat (wc_snum mc)) (wc_pg mc)).

(** Twenty-five puts split leaves, branch pages and the root; every item is found. *)
Definition run_list (n : Z) : list Z := (fun i => (i * 100) mod 101) <$> seqZ 1 n.
Example run_split_found : match run_puts run_start wcursor_init (run_list 25) with
  | Some (w, mc) => md_depth (w_db w) = 3 /\ forallb (run_found w) (run_list 25) = true
  | None => False end.
Proof. vm_compute. auto. Qed.
(** The thirteenth put splits a leaf, its parent and the root.  The leaf stays
    below the left half of the old root, and the cursor of the put keeps that
    page as the root: its stack is not a path from the new root, page 11. *)
Example run_stale_cursor : match run_puts run_start wcursor_init (run_list 13) with
  | Some (w, mc) => w_root w = 11 /\ run_path w mc = Some [4; 4; 2] /\ forallb (run_found w) (run_list 13) = true
  | None => False end.
Proof. vm_compute. auto. Qed.
