(* ===== verification/PutInv.v ===== *)
(** * Writing a leaf of the tree in place

    When a write transaction changes a leaf that is its own, and gives it new
    overflow pages, the items of the leaf change and nothing else: the tree
    around it, the free-page database and the lists of the transaction are as
    they were, and no page number is lost or in use twice ([written_inv]). *)
From S2P Require Import Prelude.
From S2P Require Import Bytes.
From S2P Require Import Midl.
From S2P Require Import Page.
From S2P Require Import PageSpec.
From S2P Require Import NodeOps.
From S2P Require Import NodeDel.
From S2P Require Import Cmp.
From S2P Require Import NodeSearch.
From S2P Require Import Cursor.
From S2P Require Import PageList.
From S2P Require Import Tree.
From S2P Require Import CursorPath.
From S2P Require Import CursorSim.
From S2P Require Import PageAlloc.
From S2P Require Import FreeDb.
From S2P Require Import Cow.
From S2P Require Import Touch.
From S2P Require Import TouchInv.
From S2P Require Import TouchSteps.
From Stdlib Require Import ZArith Lia.
From stdpp Require Import base numbers option list gmap.
Open Scope Z_scope.

Section Write.
Variable file : Z -> option (list Z).
Variables (me_flags me_psize me_maxpg : Z) (readers : option (list MDB_reader * Z)) (mt_txnid : Z).
Hypothesis Hwm : Z.land me_flags MDB_WRITEMAP = 0.
Hypothesis Hps : 0 < me_psize.
Hypothesis Hmax : me_maxpg <= 2 ^ 31.
Abbreviation seen := (view file me_flags []).
Abbreviation place := (locate me_flags []).
Context (md_cmp : MDB_cmp_func) (D : MDB_val -> Prop) (ord : MDB_val -> MDB_val -> Z) (H : nat).
Variables (free_root : Z) (rootf : list Z) (hf : nat) (esf : list (MDB_val * MDB_val)) (recs : list free_rec).
Abbreviation items := (list (MDB_val * MDB_val)).
Abbreviation whole := (whole md_cmp D ord).
Abbreviation pages := (sub_pages (leaf_pages me_psize)).
Abbreviation inv es := (cow_inv file me_flags me_psize me_maxpg readers mt_txnid md_cmp D ord H es free_root rootf hf esf recs).
Abbreviation free_db := (free_db_pages file me_flags me_psize free_root hf esf).
Abbreviation all := (all_pages file me_flags me_psize H free_root hf esf recs).
Abbreviation page_state := (page_state file me_flags me_psize D).

(** From [w] to [w']: page [p], which is dirty, becomes [pg]; [run] are the
    numbers of new pages, in the blocks [news]. *)
Record written (w w' : wtxn) (p : Z) (pg : list Z) (news : list MDB_ID2) (run : list Z) : Prop := {
  wr_lists : lists_ok me_psize me_maxpg w';
  wr_alloc : alloc_inv readers mt_txnid recs (w_alloc w');
  wr_root : w_root w' = w_root w;
  wr_next : next_of w <= next_of w';
  wr_reuse x : x ∈ reusable recs w' -> x ∈ reusable recs w;
  wr_spilled x : x ∉ run -> 2 * x ∈ spilled_of w' <-> 2 * x ∈ spilled_of w;
  wr_unspilled x : x ∈ run -> 2 * x ∉ spilled_of w';
  wr_dirty e : e ∈ dirty_of w' <-> e ∈ news \/ e ∈ dirty_of w;
  wr_news e : e ∈ news -> mid e ∈ run;
  wr_page : exists e, e ∈ dirty_of w /\ mid e = p /\ w_mem w' !! mptr e = Some pg;
  wr_mem e : e ∈ dirty_of w -> mid e <> p -> mid e ∉ run -> w_mem w' !! mptr e = w_mem w !! mptr e;
  wr_pool : Permutation (run ++ pool recs w') (seqZ (next_of w) (next_of w' - next_of w) ++ pool recs w)
}.

Section Step.
Variables (es : items) (w w' : wtxn) (f : frame) (up : list frame) (lft cur cur' rgt : items) (pg : list Z).
Variables (news : list MDB_ID2) (run : list Z).
Hypothesis Hinv : inv es w.
Hypothesis Hw : whole (seen w) H (w_root w) (f :: up) 0 lft cur rgt.
Hypothesis Hwr : written w w' (fr_pgno f) pg news run.
Let Hl := ci_lists _ _ _ _ _ _ _ _ _ _ _ _ _ _ _ _ _ Hinv.
Let Hl' := wr_lists _ _ _ _ _ _ Hwr.

Lemma run_fresh (x : Z) : x ∈ run -> x ∈ pool recs w \/ next_of w <= x.
Proof.
  intros Hx. assert (x ∈ run ++ pool recs w') as Hx' by (apply elem_of_app; by left).
  rewrite (wr_pool _ _ _ _ _ _ Hwr) in Hx'. apply elem_of_app in Hx' as [Hx'%elem_of_seqZ|Hx']; [right; lia|by left].
Qed.

(** The new pages are not pages in use. *)
Lemma run_unused (x : Z) : x ∈ pages (seen w) H (w_root w) \/ (x ∈ free_db w) -> (x ∉ run) /\ 1 < x < next_of w.
Proof.
  intros Hx. pose proof (ci_unique _ _ _ _ _ _ _ _ _ _ _ _ _ _ _ _ _ Hinv) as Hnd.
  pose proof (ci_below _ _ _ _ _ _ _ _ _ _ _ _ _ _ _ _ _ Hinv x) as Hb. unfold all_pages in *.
  rewrite !elem_of_app in Hb. split; [|by apply Hb; tauto]. intros Hr. destruct (run_fresh x Hr) as [Hp|Hp]; [|destruct Hb; [tauto|lia]].
  rewrite app_assoc in Hnd. apply NoDup_app in Hnd as (_ & Hd & _). apply (Hd x); [by apply elem_of_app|done].
Qed.

Lemma wr_find (x : Z) : x ∉ run -> find_dirty (a_dirty (w_alloc w')) x = find_dirty (a_dirty (w_alloc w)) x.
Proof.
  intros Hx. destruct (find_dirty (a_dirty (w_alloc w)) x) as [e|] eqn:E.
  - apply (find_dirty_elem me_psize me_maxpg w e x Hl) in E as [He Hm]. apply (find_dirty_elem me_psize me_maxpg w' e x Hl').
    split; [|done]. apply (wr_dirty _ _ _ _ _ _ Hwr). by right.
  - pose proof (proj1 (find_dirty_none me_psize me_maxpg w x Hl) E) as Hno. apply (find_dirty_none me_psize me_maxpg w' x Hl').
    intros e He. apply (wr_dirty _ _ _ _ _ _ Hwr) in He as [He|He]; [|by apply Hno].
    intros <-. by apply Hx, (wr_news _ _ _ _ _ _ Hwr).
Qed.

Lemma wr_place (x : Z) : x ∉ run -> 0 <= x < next_of w -> place w' x = place w x.
Proof.
  intros Hx Hlt. pose proof (wr_next _ _ _ _ _ _ Hwr). pose proof (lo_next Hl').
  rewrite !(locate_ok me_flags me_psize me_maxpg Hwm) by (done || lia). rewrite wr_find by done.
  pose proof (wr_spilled _ _ _ _ _ _ Hwr x Hx) as Hs.
  destruct (decide (2 * x ∈ spilled_of w)), (decide (2 * x ∈ spilled_of w')); try done; try tauto.
  destruct (find_dirty _ x); [done|]. by rewrite !decide_True by lia.
Qed.

Lemma wr_view (x : Z) : x ∉ run -> 0 <= x < next_of w -> x <> fr_pgno f -> seen w' x = seen w x.
Proof.
  intros Hx Hlt Hne. unfold view. rewrite wr_place by done. pose proof (lo_next Hl).
  rewrite (locate_ok me_flags me_psize me_maxpg Hwm) by (done || lia). destruct (decide (2 * x ∈ spilled_of w)); [done|].
  destruct (find_dirty _ x) as [e|] eqn:E; [|by destruct (decide (x < next_of w))].
  apply (find_dirty_elem me_psize me_maxpg w e x Hl) in E as [He Hm]. cbn [mbind option_bind deref].
  apply (wr_mem _ _ _ _ _ _ Hwr); auto; congruence.
Qed.

Lemma top_used : fr_pgno f ∈ pages (seen w) H (w_root w).
Proof. eapply (whole_in md_cmp D ord); [exact Hw|by left]. Qed.

Lemma wr_view_top : seen w' (fr_pgno f) = Some pg.
Proof.
  destruct (run_unused (fr_pgno f) (or_introl top_used)) as [_ Hb]. destruct (wr_page _ _ _ _ _ _ Hwr) as (e & He & Hm & Hmem).
  assert (e ∈ dirty_of w') as He' by (apply (wr_dirty _ _ _ _ _ _ Hwr); by right). pose proof (lo_next Hl).
  unfold view. rewrite (locate_ok me_flags me_psize me_maxpg Hwm) by (done || lia). rewrite <- Hm.
  rewrite decide_False by (apply (lo_disj Hl' _ He')).
  by rewrite (proj2 (find_dirty_elem me_psize me_maxpg w' e (mid e) Hl') (conj He' eq_refl)).
Qed.

(** The pages of the tree, around the leaf and on it. *)
Lemma tree_pages_perm (leafp : list Z -> list Z) : Permutation (sub_pages leafp (seen w) H (w_root w))
  (numbers up ++ sides leafp (seen w) up 0 ++ fr_pgno f :: leafp (fr_page f)).
Proof. destruct (whole_tree _ _ _ _ _ _ _ _ _ _ _ _ Hw) as (_ & _ & _ & _ & Hp). apply Hp. Qed.

Lemma around_same (x : Z) : x ∈ numbers up \/ x ∈ sides (leaf_pages me_psize) (seen w) up 0 -> seen w' x = seen w x.
Proof.
  intros Hx. assert (x ∈ pages (seen w) H (w_root w)) as Hin.
  { rewrite (tree_pages_perm (leaf_pages me_psize)). rewrite !elem_of_app. tauto. }
  destruct (run_unused x (or_introl Hin)) as [Hr Hb]. apply wr_view; [done|lia|]. intros ->.
  pose proof (ci_unique _ _ _ _ _ _ _ _ _ _ _ _ _ _ _ _ _ Hinv) as Hnd. unfold all_pages in Hnd. apply NoDup_app in Hnd as (Hnd & _ & _).
  rewrite (tree_pages_perm (leaf_pages me_psize)), app_assoc in Hnd. apply NoDup_app in Hnd as (_ & Hd & _). apply (Hd (fr_pgno f)); [by apply elem_of_app|by left].
Qed.

Lemma hole_same : hole md_cmp D ord (seen w') H (w_root w') up 0 (fr_pgno f) lft rgt /\
  forall leafp, sides leafp (seen w') up 0 = sides leafp (seen w) up 0.
Proof.
  destruct Hw as (Hh & _). rewrite (wr_root _ _ _ _ _ _ Hwr).
  pose proof (moved_same md_cmp D ord me_psize (seen w) (seen w') H (w_root w) up 0 (fr_pgno f) lft rgt Hh around_same) as Hm.
  destruct (hole_move md_cmp D ord me_psize Hps (seen w) (seen w') H (w_root w) (w_root w) up up 0 _ _ lft rgt Hh Hm) as (Hh' & _ & Hs).
  by split.
Qed.

(** The free-page database is as it was. *)
Lemma free_same : db_ok (seen w') cmp_cint free_root (sized 8) num_ord rootf hf esf /\ free_db w' = free_db w.
Proof.
  pose proof (ci_free _ _ _ _ _ _ _ _ _ _ _ _ _ _ _ _ _ Hinv) as Hf. unfold free_db_pages. destruct Hf as [[E ->]|[Hg Hn Ht Hne Hh]].
  { rewrite E. split; [left; done|done]. }
  assert (forall x, x ∈ pages (seen w) hf free_root -> seen w' x = seen w x) as Hs.
  { intros x Hx. assert (x ∈ free_db w) as Hx'. { unfold free_db_pages. by destruct esf. }
    destruct (run_unused x (or_intror Hx')) as [Hr Hb]. apply wr_view; [done|lia|]. intros ->.
    pose proof (ci_unique _ _ _ _ _ _ _ _ _ _ _ _ _ _ _ _ _ Hinv) as Hnd. unfold all_pages in Hnd. apply NoDup_app in Hnd as (_ & Hd & _).
    apply (Hd (fr_pgno f) top_used), elem_of_app. by left. }
  assert (seen w' free_root = Some rootf) as Hg' by (rewrite Hs; [done|by left]).
  destruct (tree_frame cmp_cint (sized 8) num_ord me_psize Hps (seen w) (seen w') hf rootf esf Ht) as [Ht' Hp'].
  { intros x Hx. apply Hs. right. by rewrite Hg. }
  split; [right; by split|]. destruct esf; [done|]. unfold sub_pages. by rewrite Hg, Hg', Hp'.
Qed.

(** A leaf with the overflow pages of the old one. *)
Lemma leaf_here : leaf_pages me_psize pg = leaf_pages me_psize (fr_page f) -> leaf_tree (seen w) md_cmp D ord pg cur' ->
  leaf_tree (seen w') md_cmp D ord pg cur'.
Proof.
  intros E Ht. apply (tree_frame md_cmp D ord me_psize Hps (seen w) (seen w') 0 pg cur' Ht). intros x Hx.
  change (x ∈ leaf_pages me_psize pg) in Hx. rewrite E in Hx.
  assert (x ∈ pages (seen w) H (w_root w)) as Hin.
  { rewrite (tree_pages_perm (leaf_pages me_psize)). rewrite !elem_of_app, elem_of_cons. tauto. }
  destruct (run_unused x (or_introl Hin)) as [Hr Hb]. apply wr_view; [done|lia|]. intros ->.
  pose proof (ci_unique _ _ _ _ _ _ _ _ _ _ _ _ _ _ _ _ _ Hinv) as Hnd. unfold all_pages in Hnd. apply NoDup_app in Hnd as (Hnd & _ & _).
  rewrite (tree_pages_perm (leaf_pages me_psize)), app_assoc in Hnd. apply NoDup_app in Hnd as (_ & _ & Hnd).
  by apply NoDup_cons in Hnd as [Hnd _].
Qed.

(** The new leaf. *)
Hypothesis Hpg : page_wf pg.
Hypothesis Hlen : zlen pg = me_psize.
Hypothesis Hno : pgno_of pg = fr_pgno f.
Hypothesis Hfl : p_flags pg = p_flags (fr_page f).
Hypothesis Hleaf : leaf_tree (seen w') md_cmp D ord pg cur'.
Hypothesis Hne : cur' <> [].
Hypothesis Hbounds : Forall (in_frames D ord up) cur'.
Hypothesis Hruns : Permutation (leaf_pages me_psize pg) (run ++ leaf_pages me_psize (fr_page f)).

Lemma pg_not_nil : pg <> [].
Proof. intros E. rewrite E in Hlen. change (zlen (@nil Z)) with 0 in Hlen. lia. Qed.

Lemma written_whole : whole (seen w') H (w_root w') (Frame (fr_pgno f) pg (fr_ki f) :: up) 0 lft cur' rgt.
Proof.
  destruct hole_same as [Hh _]. cbn [Cow.whole fr_pgno fr_page]. split; [exact Hh|]. split; [exact wr_view_top|].
  split; [exact pg_not_nil|]. by split_and!.
Qed.

Lemma written_pages (leafp : list Z -> list Z) : Permutation (sub_pages leafp (seen w') H (w_root w'))
  (numbers up ++ sides leafp (seen w) up 0 ++ fr_pgno f :: leafp pg).
Proof.
  destruct (whole_tree _ _ _ _ _ _ _ _ _ _ _ _ written_whole) as (_ & _ & _ & _ & Hp). rewrite (Hp leafp).
  destruct hole_same as [_ Hs]. by rewrite Hs.
Qed.

Lemma written_account : Permutation (all w') (seqZ (next_of w) (next_of w' - next_of w) ++ all w).
Proof.
  unfold all_pages. destruct free_same as [_ ->]. rewrite (written_pages (leaf_pages me_psize)), (tree_pages_perm (leaf_pages me_psize)), Hruns.
  transitivity (numbers up ++ sides (leaf_pages me_psize) (seen w) up 0 ++ fr_pgno f :: leaf_pages me_psize (fr_page f) ++ free_db w ++
    (run ++ pool recs w')); [solve_Permutation|]. rewrite (wr_pool _ _ _ _ _ _ Hwr). solve_Permutation.
Qed.

Lemma written_states : Forall (page_state w') (sub_pages (fun _ => []) (seen w') H (w_root w')).
Proof.
  rewrite (written_pages (fun _ => [])). pose proof (ci_pages _ _ _ _ _ _ _ _ _ _ _ _ _ _ _ _ _ Hinv) as Hall.
  rewrite (tree_pages_perm (fun _ => [])) in Hall.
  assert (forall x, x ∈ numbers up \/ x ∈ sides (fun _ => []) (seen w) up 0 -> x ∈ numbers up \/ x ∈ sides (leaf_pages me_psize) (seen w) up 0) as Hsub.
  { intros x [Hx|Hx]; [by left|]. right. clear - Hx. revert Hx. generalize 0%nat. induction up as [|g fs IH]; intros h Hx; [done|].
    cbn [sides] in *. apply elem_of_app in Hx as [Hx|Hx]; apply elem_of_app; [left|right; by apply IH].
    unfold side_pages in *. apply elem_of_concat_seqZ in Hx as (k & Hk & Hx). apply elem_of_concat_seqZ. exists k. split; [done|].
    destruct (k =? fr_ki g); [done|]. unfold sub_pages in *. apply elem_of_cons in Hx as [->|Hx]; [by left|]. right.
    destruct (seen w (n_pgno (fr_page g) k)) as [c|]; [|done].
    apply (elem_of_submseteq (gen_pages (fun _ => []) (seen w) h c) _ x Hx), node_pages_sub. }
  assert (forall x, x ∈ numbers up \/ x ∈ sides (fun _ => []) (seen w) up 0 -> page_state w x -> page_state w' x) as Hkeep.
  { intros x Hx (m & Hm & H1 & H2 & H3 & H4). pose proof (Hsub x Hx) as Hx'.
    assert (x ∈ pages (seen w) H (w_root w)) as Hin by (rewrite (tree_pages_perm (leaf_pages me_psize)), !elem_of_app; tauto).
    destruct (run_unused x (or_introl Hin)) as [Hr _]. exists m. rewrite around_same, wr_find by done. tauto. }
  rewrite app_assoc in Hall |- *. apply Forall_app in Hall as [Hall Htop]. apply Forall_app. split.
  - apply Forall_forall. intros x Hx. apply Hkeep; [by apply elem_of_app|]. by apply (proj1 (Forall_forall _ _) Hall).
  - apply Forall_cons. split; [|by apply Forall_nil]. inversion Htop as [|? ? (m & Hm & H1 & H2 & H3 & H4) _]; subst.
    destruct (run_unused (fr_pgno f) (or_introl top_used)) as [Hr _]. destruct Hw as (_ & Hg & _).
    assert (m = fr_page f) as -> by congruence. exists pg. rewrite wr_view_top, wr_find by done.
    unfold p_dirty in *. rewrite Hfl. split; [done|]. split; [done|]. split; [done|]. split; [done|]. split; [tauto|]. intros Hlf. destruct Hleaf as (_ & Hlt & _). congruence.
Qed.

Lemma written_ok : inv (lft ++ cur' ++ rgt) w' /\ next_of w <= next_of w' /\
  Permutation (all w') (seqZ (next_of w) (next_of w' - next_of w) ++ all w).
Proof.
  pose proof written_account as Hall. pose proof (wr_next _ _ _ _ _ _ Hwr) as Hn. split; [|done].
  pose proof (ci_unique _ _ _ _ _ _ _ _ _ _ _ _ _ _ _ _ _ Hinv) as Hnd. pose proof (ci_below _ _ _ _ _ _ _ _ _ _ _ _ _ _ _ _ _ Hinv) as Hb.
  pose proof (lo_next Hl) as Hn0.
  assert (1 < next_of w) as Hn1 by (destruct (run_unused (fr_pgno f) (or_introl top_used)); lia).
  split.
  - exact Hl'.
  - apply Hwr.
  - destruct (whole_tree _ _ _ _ _ _ _ _ _ _ _ _ written_whole) as (root & Hr & _ & Ht & _). by exists root.
  - apply written_states.
  - apply free_same.
  - apply (ci_recs _ _ _ _ _ _ _ _ _ _ _ _ _ _ _ _ _ Hinv).
  - rewrite Hall. apply NoDup_app. split; [apply NoDup_seqZ|]. split; [|done]. intros x Hx%elem_of_seqZ Hx'%Hb. lia.
  - intros x Hx. rewrite Hall in Hx. apply elem_of_app in Hx as [Hx%elem_of_seqZ|Hx%Hb]; lia.
  - intros x Hx. destruct (decide (x ∈ run)) as [Hr|Hr]; cycle 1.
    + apply (wr_spilled _ _ _ _ _ _ Hwr x Hr) in Hx. destruct (ci_spilled _ _ _ _ _ _ _ _ _ _ _ _ _ _ _ _ _ Hinv x Hx) as [Hx1 Hx2].
      split; [lia|]. intros Hx'. by apply Hx2, (wr_reuse _ _ _ _ _ _ Hwr).
    + by destruct (wr_unspilled _ _ _ _ _ _ Hwr x Hr).
Qed.
End Step.

(** *** The page alone is written *)

Section Here.
Variables (w : wtxn) (e : MDB_ID2) (old pg : list Z).
Hypothesis Hl : lists_ok me_psize me_maxpg w.
Hypothesis Ha : alloc_inv readers mt_txnid recs (w_alloc w).
Hypothesis He : e ∈ dirty_of w.
Hypothesis Hold : w_mem w !! mptr e = Some old.
Hypothesis Hlen : zlen pg = me_psize.
Hypothesis Hbytes : Forall is_byte pg.
Hypothesis Hno : pgno_of pg = pgno_of old.
Let w' := set_mem w (mptr e) pg.

Lemma here_loose (a : Z) : loose_id w' a = loose_id w a.
Proof.
  unfold loose_id. cbn [w' set_mem w_mem]. destruct (decide (a = mptr e)) as [->|Hne].
  - by rewrite lookup_insert, decide_True, Hold, Hno by done.
  - by rewrite lookup_insert_ne by done.
Qed.

Lemma here_pool : pool recs w' = pool recs w.
Proof. unfold pool. f_equal. apply list_fmap_ext. intros i a _. apply here_loose. Qed.

Lemma here_block (a : Z) : page_block me_psize w a -> page_block me_psize w' a.
Proof.
  intros (b & Hb & Hb'). unfold page_block. cbn [w' set_mem w_mem]. destruct (decide (a = mptr e)) as [->|Hne].
  - exists pg. by rewrite lookup_insert, decide_True by done.
  - exists b. by rewrite lookup_insert_ne by done.
Qed.

Lemma here_lists : lists_ok me_psize me_maxpg w'.
Proof.
  split; try (by destruct Hl).
  - intros e' He'. destruct (lo_mem Hl e' He') as (b & Hb). cbn [w' set_mem w_mem]. destruct (decide (mptr e' = mptr e)) as [->|Hne].
    + exists pg. by rewrite lookup_insert, decide_True by done.
    + exists b. by rewrite lookup_insert_ne by done.
  - intros a Hd. by apply here_block, (lo_dpages Hl).
  - intros a Hlo. destruct (lo_loose Hl a Hlo) as [Hb (e' & H1 & H2 & H3)]. split; [by apply here_block|].
    exists e'. rewrite here_loose. by split_and!.
Qed.

Lemma written_mem : written w w' (mid e) pg [] [].
Proof.
  split; try done.
  - exact here_lists.
  - intros x Hx. by apply elem_of_nil in Hx.
  - intros e'. split; [by right|]. intros [Hx|Hx]; [by apply elem_of_nil in Hx|done].
  - intros e' Hx. by apply elem_of_nil in Hx.
  - exists e. cbn [w' set_mem w_mem]. by rewrite lookup_insert, decide_True by done.
  - intros e' He' Hne _. cbn [w' set_mem w_mem]. rewrite lookup_insert_ne; [done|]. intros E. apply Hne.
    symmetry. by rewrite (dirty_ptr_inj me_psize me_maxpg w e e').
  - change (next_of w') with (next_of w). rewrite Z.sub_diag. cbn [app seqZ Z.to_nat seq fmap list_fmap]. by rewrite here_pool.
Qed.
End Here.
End Write.
