(* ===== verification/PutFind.v ===== *)
(** * Finding the place of a key for a write

    The lookup at the start of [mdb_cursor_put] ([mdb_cursor_set] on a new
    cursor, [src/LegacyDatabase/mdb.c]) on the store of [Touch.v]: the cursor
    it leaves is on the path of the leaf the key belongs to, at the index of
    the key or of the first greater one, and the key is in the range of every
    page of the path. *)
From S2P Require Import Prelude.
From S2P Require Import Bytes.
From S2P Require Import Page.
From S2P Require Import PageSpec.
From S2P Require Import Cmp.
From S2P Require Import NodeSearch.
From S2P Require Import Cursor.
From S2P Require Import PageList.
From S2P Require Import Tree.
From S2P Require Import CursorPath.
From S2P Require Import CursorSim.
From S2P Require Import PageAlloc.
From S2P Require Import FreeDb.
From S2P Require Import Cow.
From S2P Require Import Touch.
From S2P Require Import TouchInv.
From S2P Require Import CursorTouch.
From S2P Require Import Put.
From Stdlib Require Import ZArith Lia.
From stdpp Require Import base numbers option list gmap.
Open Scope Z_scope.

Lemma mapM_total {A B} (f : A -> option B) (l : list A) : (forall x, x ∈ l -> exists y, f x = Some y) ->
  exists k, mapM f l = Some k /\ length k = length l /\ forall i x, l !! i = Some x -> exists y, f x = Some y /\ k !! i = Some y.
Proof.
  induction l as [|a l IH]; intros Hall; [by exists []|].
  destruct (Hall a ltac:(by left)) as (y & Hy). destruct IH as (k & Hk & Hlen & Hi); [intros x Hx; apply Hall; by right|].
  exists (y :: k). cbn [mapM]. rewrite Hy. cbn [mbind option_bind]. rewrite Hk. cbn [length]. split; [done|]. split; [congruence|].
  intros [|i] x Hx; cbn in Hx |- *; [injection Hx as <-; by exists y|by apply Hi].
Qed.

(** The pages on the stack of a cursor are those of the frames. *)
Lemma stack_page (c : cursor) (fs : list frame) (i : Z) : on_stack c fs -> 0 <= i < zlen fs ->
  exists g, g ∈ fs /\ aget (mc_pg c) i = Some (fr_page g).
Proof.
  induction fs as [|f fs IH]; intros Hs Hi; [change (zlen (@nil frame)) with 0 in Hi; lia|]. destruct Hs as (Hp & _ & Hs).
  assert (zlen (f :: fs) = zlen fs + 1) as E by (unfold zlen; cbn [length]; lia).
  destruct (decide (i = zlen fs)) as [->|]; [exists f; split; [by left|done]|].
  destruct IH as (g & Hg & Hp'); [done|lia|]. exists g. split; [by right|done].
Qed.

Lemma on_stack_below (c c' : cursor) (fs : list frame) : same_below (zlen fs) c c' -> on_stack c fs -> on_stack c' fs.
Proof.
  induction fs as [|f fs IH]; intros [Hb H0] Hs; [done|]. destruct Hs as (Hp & Hk & Hs).
  assert (zlen (f :: fs) = zlen fs + 1) as E by (unfold zlen; cbn [length]; lia). pose proof (zlen_nonneg fs).
  destruct (Hb (zlen fs) ltac:(lia)) as [E1 E2]. cbn [on_stack]. rewrite E1, E2. split_and!; auto. apply IH; [|done].
  split; [|done]. intros j Hj. apply Hb. lia.
Qed.

(** A key in the range of every level is in the range of the frames. *)
Lemma within_frames (D : MDB_val -> Prop) (ord : MDB_val -> MDB_val -> Z) (c : cursor) (fs : list frame) (key d : MDB_val) :
  on_stack c fs -> zlen fs <= mc_top c -> within D ord c key -> in_frames D ord fs (key, d).
Proof.
  induction fs as [|f fs IH]; intros Hs Hl Hw; [by constructor|]. destruct Hs as (Hp & Hk & Hs).
  assert (zlen (f :: fs) = zlen fs + 1) as E by (unfold zlen; cbn [length]; lia). pose proof (zlen_nonneg fs).
  constructor; [|apply IH; auto; lia]. by apply (Hw (zlen fs)); [lia|..].
Qed.

Section Find.
Variable file : Z -> option (list Z).
Variables (me_flags me_psize me_maxpg : Z) (readers : option (list MDB_reader * Z)) (mt_txnid : Z).
Hypothesis Hwm : Z.land me_flags MDB_WRITEMAP = 0.
Hypothesis Hps : 16 <= me_psize.
Hypothesis Hmax : me_maxpg <= 2 ^ 31.
Abbreviation seen := (view file me_flags []).
Abbreviation place := (locate me_flags []).
Context (md_cmp : MDB_cmp_func) (D : MDB_val -> Prop) (ord : MDB_val -> MDB_val -> Z) (H : nat) (es : list (MDB_val * MDB_val)).
Variables (free_root : Z) (rootf : list Z) (hf : nat) (esf : list (MDB_val * MDB_val)) (recs : list free_rec).
Abbreviation items := (list (MDB_val * MDB_val)).
Abbreviation inv := (cow_inv file me_flags me_psize me_maxpg readers mt_txnid md_cmp D ord H es free_root rootf hf esf recs).
Abbreviation whole := (whole md_cmp D ord).
Abbreviation at_path := (at_path file me_flags me_psize me_maxpg mt_txnid readers md_cmp D ord H es free_root rootf hf esf recs 0).

Section State.
Variable w : wtxn.
Hypothesis Hinv : inv w.
Hypothesis HH : (H < 32)%nat.
Hypothesis Hes : es <> [].
Hypothesis Hcs : Forall (fun m2 => 32 <= zlen (wc_pg m2)) (w_cursors w).
Let Hl := ci_lists _ _ _ _ _ _ _ _ _ _ _ _ _ _ _ _ _ Hinv.

Lemma root_used (leafp : list Z -> list Z) : w_root w ∈ sub_pages leafp (seen w) H (w_root w).
Proof. by left. Qed.

Lemma inv_tree_db : exists root, tree_db (seen w) md_cmp (w_root w) D ord root H es.
Proof.
  destruct (ci_tree _ _ _ _ _ _ _ _ _ _ _ _ _ _ _ _ _ Hinv) as (root & Hr & Ht). exists root. pose proof (lo_next Hl).
  assert (1 < w_root w < next_of w) as Hb.
  { apply (ci_below _ _ _ _ _ _ _ _ _ _ _ _ _ _ _ _ _ Hinv). unfold all_pages. apply elem_of_app. left. apply root_used. }
  split; auto. change P_INVALID with (2 ^ 64 - 1). lia.
Qed.

Lemma placed (x : Z) : 0 <= x < next_of w -> exists p, place w x = Some p.
Proof.
  intros Hx. pose proof (lo_next Hl). rewrite (locate_ok me_flags me_psize me_maxpg Hwm w x Hl) by lia.
  destruct (decide _); [by eexists|]. destruct (find_dirty _ _); [by eexists|]. rewrite decide_True by lia. by eexists.
Qed.

Lemma path_page (fs : list frame) (h : nat) (lft cur rgt : items) (g : frame) : whole (seen w) H (w_root w) fs h lft cur rgt ->
  g ∈ fs -> page_place me_flags [] w (fr_page g) = Some (place w (fr_pgno g)) /\ exists p, place w (fr_pgno g) = Some p.
Proof.
  intros Hw Hg. destruct (whole_get md_cmp D ord _ H _ g _ _ _ _ _ Hw Hg) as [Hs _].
  pose proof (whole_in md_cmp D ord (fun _ => []) _ H _ g _ _ _ _ _ Hw Hg) as Hin.
  pose proof (whole_in md_cmp D ord (leaf_pages me_psize) _ H _ g _ _ _ _ _ Hw Hg) as Hin'.
  pose proof (ci_pages _ _ _ _ _ _ _ _ _ _ _ _ _ _ _ _ _ Hinv) as Hall. rewrite Forall_forall in Hall.
  destruct (Hall _ Hin) as (m & Hm & H1 & H2 & _). assert (m = fr_page g) as -> by congruence.
  assert (1 < fr_pgno g < next_of w) as Hb.
  { apply (ci_below _ _ _ _ _ _ _ _ _ _ _ _ _ _ _ _ _ Hinv). unfold all_pages. rewrite !elem_of_app. tauto. }
  destruct (placed (fr_pgno g) ltac:(lia)) as [p Hp]. split; [|by exists p].
  unfold page_place. rewrite get_pgno, H2 by lia. cbn [mbind option_bind]. by rewrite Hp.
Qed.

(** The places of the pages of a cursor on a path. *)
Lemma writing_ok (c : cursor) (m : list Z) (fs : list frame) (lft cur rgt : items) (mc : wcursor) :
  whole (seen w) H (w_root w) fs 0 lft cur rgt -> on_page c m -> on_stack c fs -> zlen fs = mc_snum c -> zlen (wc_pg mc) = 32 ->
  exists mc', writing me_flags [] w mc c = Some mc' /\ wc_snum mc' = mc_snum c /\ wc_top mc' = mc_top c /\ wc_ki mc' = mc_ki c /\
    wc_flags mc' = mc_flags c /\ 32 <= zlen (wc_pg mc') /\ wstack me_flags w mc' fs.
Proof.
  intros Hw Hon Hs Hlen Hmc. pose proof (op_top _ _ Hon). pose proof (op_snum _ _ Hon). pose proof (op_pg _ _ Hon) as H32.
  assert (forall i x, take (Z.to_nat (mc_snum c)) (mc_pg c) !! i = Some x ->
    exists g, g ∈ fs /\ x = fr_page g /\ aget (mc_pg c) (Z.of_nat i) = Some x) as Hx.
  { intros i x [Hi Hlt]%lookup_take_Some. rewrite lookup_aget in Hi. destruct (stack_page c fs (Z.of_nat i) Hs ltac:(lia)) as (g & Hg & E).
    exists g. split_and!; [done|congruence|done]. }
  destruct (mapM_total (page_place me_flags [] w) (take (Z.to_nat (mc_snum c)) (mc_pg c))) as (k & Hk & Hklen & Hki).
  { intros x (i & Hi)%list_elem_of_lookup. destruct (Hx i x Hi) as (g & Hg & -> & _). eexists. by eapply path_page. }
  unfold writing. rewrite Hk. cbn [mbind option_bind]. eexists. split; [reflexivity|]. split_and!; try done.
  { cbn [wc_pg]. unfold zlen in *. rewrite length_app, length_drop. lia. }
  assert (length k = Z.to_nat (mc_snum c)) as El by (rewrite Hklen, length_take; unfold zlen in H32; lia).
  assert (forall low f up, fs = low ++ f :: up -> aget (mc_pg c) (zlen up) = Some (fr_page f) ->
    aget (k ++ drop (length k) (wc_pg mc)) (zlen up) = Some (place w (fr_pgno f))) as Hat.
  { intros low f up E Hp. rewrite E, zlen_app_cons in Hlen. pose proof (zlen_nonneg low). pose proof (zlen_nonneg up).
    destruct (Hki (Z.to_nat (zlen up)) (fr_page f)) as (y & Hy & Hk').
    { apply lookup_take_Some. split; [|lia]. rewrite lookup_aget. by replace (Z.of_nat (Z.to_nat (zlen up))) with (zlen up) by lia. }
    destruct (path_page fs 0 lft cur rgt f Hw) as [E1 _]; [rewrite E; apply elem_of_app; right; by left|].
    assert (y = place w (fr_pgno f)) as -> by congruence.
    unfold aget. rewrite (proj2 (Z.leb_le _ _)) by lia. by apply lookup_app_l_Some. }
  assert (forall fs' low, fs = low ++ fs' -> on_stack c fs' ->
    wstack me_flags w (WCur (mc_snum c) (mc_top c) (k ++ drop (length k) (wc_pg mc)) (mc_ki c) (mc_flags c)) fs') as Hgen; [|by apply (Hgen fs [])].
  induction fs' as [|f up IH]; intros low E Hs'; [done|]. destruct Hs' as (Hp & Hk' & Hs'). cbn [wstack wc_pg wc_ki]. split_and!; auto.
  - by apply (Hat low).
  - apply (IH (low ++ [f])); [|done]. by rewrite <- app_assoc.
Qed.
(** What the lookup finds: the item, or that there is none. *)
Definition lookup_result (key : MDB_val) (cur : items) (p rc : Z) (d2 : option MDB_val) : Prop :=
  (rc = MDB_SUCCESS /\ exists d, d2 = Some d /\ aget cur p = Some (key, d)) \/
  (rc = MDB_NOTFOUND /\ d2 = None /\ forall d, (key, d) ∉ es).

Lemma set_exact (root m : list Z) (c : cursor) (lft cur rgt : items) (key : MDB_val) :
  located (seen w) md_cmp D ord root H es c 0 m lft cur rgt -> D key -> all_lt D ord lft key -> all_gt D ord rgt key ->
  exists r p, set2 (seen w) md_cmp 0 c key MDB_SET true true = Some r /\ o_key r = None /\
    located (seen w) md_cmp D ord root H es (o_cur r) 0 m lft cur rgt /\ top_ki (o_cur r) = Some p /\
    mc_top (o_cur r) = mc_top c /\ mt_flags (o_cur r) = mt_flags c /\
    (mc_flags c = C_INITIALIZED -> mc_flags (o_cur r) = C_INITIALIZED) /\
    same_below (mc_top c) c (o_cur r) /\ 0 <= p <= zlen cur /\ split_at D ord lft cur rgt p key /\
    lookup_result key cur p (o_rc r) (o_data r).
Proof.
  intros Hloc Dk Hlt Hgt. pose proof (loc_tree _ _ _ _ _ _ _ _ _ _ _ _ _ Hloc) as Hleaf.
  pose proof Hleaf as (Hwf & Hlf & _ & _ & Hlen & _). pose proof (p_num_small m Hwf).
  pose proof (path_items _ _ _ _ _ _ _ _ _ _ _ _ _ _ (loc_path _ _ _ _ _ _ _ _ _ _ _ _ _ Hloc)) as Hes0.
  destruct (leaf_search (seen w) md_cmp 0 D ord m cur lft rgt key Hleaf Dk Hlt Hgt) as (p & exact & E & Hp & Hsplit & Hex).
  unfold set2. rewrite (top_pg_ok c m (loc_page _ _ _ _ _ _ _ _ _ _ _ _ _ Hloc)). cbn [mbind option_bind]. rewrite E. cbn [mbind option_bind].
  destruct (located_set_ki (seen w) md_cmp D ord root H es c 0 m lft cur rgt p Hloc)
    as (c2 & Ek & Hloc2 & Hk2 & Ht2 & Hf2 & Hm2); [lia|]. rewrite Ek. pose proof (set_ki_below _ _ _ Ek) as Hbel. cbn [mbind option_bind].
  destruct exact; cbn [negb andb].
  - destruct Hex as (d & Hd). pose proof (aget_lt _ _ _ Hd). rewrite (proj2 (Z.ltb_lt _ _)) by lia. unfold set1.
    set (c' := clear_flag (or_flag c2 C_INITIALIZED) C_EOF).
    assert (located (seen w) md_cmp D ord root H es c' 0 m lft cur rgt) as Hloc' by (by apply located_flags, located_flags).
    rewrite (top_pg_ok c' m (loc_page _ _ _ _ _ _ _ _ _ _ _ _ _ Hloc')). cbn [mbind option_bind].
    change (top_ki c') with (top_ki c2). rewrite Hk2, IS_LEAF2_ok by done. cbn [mbind option_bind].
    destruct (leaf_read (seen w) md_cmp D ord c' m cur p (key, d) true false Hleaf Hd) as [-> Hread]. cbn [mbind option_bind].
    fold c'. rewrite Hread.
    eexists _, p. split; [reflexivity|]. cbn [o_key o_cur o_rc o_data]. split_and!; try first [assumption|reflexivity|lia].
    { intros Hfl. cbn [c' clear_flag or_flag set_flags mc_flags]. by rewrite Hf2, Hfl. }
    left. split; [done|]. by exists d.
  - eexists _, p. split; [reflexivity|]. cbn [o_key o_cur o_rc o_data]. split_and!; try first [assumption|reflexivity|lia].
    right. rewrite Hes0. by split_and!.
Qed.

(** [mdb_cursor_set] with a new cursor. *)
Lemma find_key_ok (key : MDB_val) : D key -> mv_size key <> 0 ->
  exists rc d2 mc f up lft cur rgt, find_key file me_flags [] md_cmp w wcursor_init key = Some (rc, None, d2, w, mc) /\
    at_path lft cur rgt [(key, key)] w mc (f :: up) /\ wc_snum mc = wc_top mc + 1 /\ wc_flags mc = C_INITIALIZED /\
    wc_snum mc <= 32 /\ (32 <= zlen (wc_pg mc) /\ 32 <= zlen (wc_ki mc)) /\ es = lft ++ cur ++ rgt /\ 0 <= fr_ki f <= zlen cur /\ split_at D ord lft cur rgt (fr_ki f) key /\
    lookup_result key cur (fr_ki f) rc d2.
Proof.
  intros Dk Hsz. destruct inv_tree_db as (root & Hdb). pose proof (lo_flags Hl) as [Herr _]. set (mt := a_mt_flags (w_alloc w)) in *.
  unfold find_key, search.
  assert (reading file w wcursor_init = Some (mdb_cursor_init mt)) as -> by reflexivity. cbn [mbind option_bind].
  unfold mdb_cursor_set. rewrite (proj2 (Z.eqb_neq _ _)) by done.
  change (negb (nz (Z.land (mc_flags (mdb_cursor_init mt)) C_INITIALIZED))) with true. cbv iota. unfold set_search.
  destruct (page_search_at (seen w) md_cmp 0 (w_root w) D ord root H es Hdb (ToKey key) (mdb_cursor_init mt))
    as (c & m & lft & cur & rgt & E & Hloc & [Hlt Hgt] & Hm & Hf & Hbd); [by split_and!; [..|left]|done|done|].
  cbn [target_key target_flags] in E. rewrite E. cbn [mbind option_bind]. change (nz MDB_SUCCESS) with false. cbv iota.
  pose proof (loc_page _ _ _ _ _ _ _ _ _ _ _ _ _ Hloc) as Hon. pose proof (loc_tree _ _ _ _ _ _ _ _ _ _ _ _ _ Hloc) as Hleaf.
  pose proof Hleaf as (Hwf & Hlf & _). rewrite (top_pg_ok c m Hon). cbn [mbind option_bind]. rewrite IS_LEAF_ok, Hlf by done.
  cbn [mbind option_bind negb].
  destruct (set_exact root m c lft cur rgt key Hloc Dk Hlt Hgt)
    as (r & p & Es & Eko & Hloc' & Hki & Ht & Hmt & Hfl & Hbel & Hp & Hsplit & Hres). rewrite Es. cbn [mbind option_bind].
  pose proof (path_items _ _ _ _ _ _ _ _ _ _ _ _ _ _ (loc_path _ _ _ _ _ _ _ _ _ _ _ _ _ Hloc)) as Hes0.
  destruct (path_hole md_cmp D ord (seen w) H (w_root w) root c (db_root _ _ _ _ _ _ _ _ Hdb) es _ _ _ _ _ _
    (loc_path _ _ _ _ _ _ _ _ _ _ _ _ _ Hloc)) as (up & q & Hlen & Hst & Hhole & Hq & Hin).
  pose proof (op_top _ _ Hon) as Htop. pose proof (op_snum _ _ Hon) as Hsn.
  assert (zlen up = mc_top c) as El by (unfold zlen; lia).
  pose proof (loc_page _ _ _ _ _ _ _ _ _ _ _ _ _ Hloc') as Hon'. pose proof (op_snum _ _ Hon') as Hsn'.
  assert (whole (seen w) H (w_root w) (Frame q m p :: up) 0 lft cur rgt) as Hw.
  { cbn [Cow.whole fr_pgno fr_page]. split_and!; auto; [apply Hon|apply Hloc]. }
  assert (zlen (Frame q m p :: up) = mc_top c + 1) as El' by (rewrite <- El; unfold zlen; cbn [length]; lia).
  assert (on_stack (o_cur r) (Frame q m p :: up)) as Hst'.
  { cbn [on_stack fr_page fr_ki]. rewrite El, <- Ht. split; [apply Hon'|]. split; [exact Hki|]. apply (on_stack_below c); [by rewrite El|done]. }
  destruct (writing_ok (o_cur r) m (Frame q m p :: up) lft cur rgt wcursor_init Hw Hon' Hst' ltac:(lia) eq_refl)
    as (mc & Ew & E1 & E2 & E3 & E4 & E5 & Hws). rewrite Ew. cbn [mbind option_bind]. rewrite Eko.
  assert (set_mt_flags w (mt_flags (o_cur r)) = w) as ->.
  { rewrite Hmt, Hm. unfold mt. destruct w as [w1 w2 w3 w4 w5 w6 w7 w8]. by destruct w3. }
  exists (o_rc r), (o_data r), mc, (Frame q m p), up, lft, cur, rgt. cbn [fr_ki]. split; [done|].
  split_and!; try first [assumption|lia].
  - split; [exact Hinv|exact Hw|exact Hws|lia| |].
    + apply Forall_cons. split; [|by apply Forall_nil]. cbn [tail]. apply (within_frames D ord c); [done|lia|exact Hbd].
    + apply (Forall_impl _ _ _ Hcs). intros m2 Hm2. lia.
  - rewrite E4. apply Hfl. rewrite Hf. done.
  - rewrite E3, (op_ki _ _ Hon'). done.
Qed.
End State.
End Find.
