(* ===== verification/PutLeaf.v ===== *)
(** * Writing an item to its leaf

    The end of [mdb_cursor_put] ([src/LegacyDatabase/mdb.c]), when the cursor
    is at the place of the key and the pages of its path are the
    transaction's own: a new node, a value overwritten in place, or a node
    deleted and added again.  The items of the database change as
    [put_items] says. *)
From S2P Require Import Prelude.
From S2P Require Import Bytes.
From S2P Require Import Midl.
From S2P Require Import Page.
From S2P Require Import PageSpec.
From S2P Require Import NodeOps.
From S2P Require Import NodeDel.
From S2P Require Import Cmp.
From S2P Require Import NodeSearch.
From S2P Require Import Cursor.
From S2P Require Import PageList.
From S2P Require Import Tree.
From S2P Require Import CursorPath.
From S2P Require Import CursorSim.
From S2P Require Import PageAlloc.
From S2P Require Import FreeDb.
From S2P Require Import PageSplit.
From S2P Require Import Cow.
From S2P Require Import Touch.
From S2P Require Import TouchInv.
From S2P Require Import CursorTouch.
From S2P Require Import LeafItems.
From S2P Require Import Put.
From S2P Require Import PutInv.
From Stdlib Require Import ZArith Lia Sorted.
From stdpp Require Import base numbers option list gmap.
Open Scope Z_scope.

(** ** What a write does to the items *)

#[export] Instance MDB_val_eq_dec : EqDecision MDB_val.
Proof. solve_decision. Defined.

Section Spec.
Context (D : MDB_val -> Prop) (ord : MDB_val -> MDB_val -> Z).
Abbreviation items := (list (MDB_val * MDB_val)).

Definition put_items (key data : MDB_val) (es : items) : items :=
  filter (fun e => ord e.1 key < 0) es ++ (key, data) :: filter (fun e => 0 < ord e.1 key) es.

Lemma filter_all {A} (P : A -> Prop) `{!forall x, Decision (P x)} (l : list A) : Forall P l -> filter P l = l.
Proof. induction 1 as [|x l Hx _ IH]; [done|]. by rewrite filter_cons_True, IH. Qed.

Lemma filter_none {A} (P : A -> Prop) `{!forall x, Decision (P x)} (l : list A) : Forall (fun x => ~ P x) l -> filter P l = [].
Proof. induction 1 as [|x l Hx _ IH]; [done|]. by rewrite filter_cons_False. Qed.

Lemma put_items_split (key data : MDB_val) (l1 l2 mid : items) : Forall (fun e => ord e.1 key < 0) l1 ->
  Forall (fun e => 0 < ord e.1 key) l2 -> Forall (fun e => ord e.1 key = 0) mid ->
  put_items key data (l1 ++ mid ++ l2) = l1 ++ (key, data) :: l2.
Proof.
  intros H1 H2 H0. unfold put_items. rewrite !filter_app, (filter_all _ l1 H1), (filter_none _ l2), (filter_none _ mid), app_nil_r,
    (filter_none _ l1), (filter_none _ mid), (filter_all _ l2 H2); [done|..];
    (eapply Forall_impl; [eassumption|]); intros e He; cbn in He |- *; lia.
Qed.

(** The key is not there. *)
Lemma put_items_new (key data : MDB_val) (l1 l2 : items) : order_laws D ord -> D key -> all_lt D ord l1 key ->
  Forall (fun e => D e.1 /\ ~ ord e.1 key < 0) l2 -> (forall d, (key, d) ∉ l1 ++ l2) ->
  put_items key data (l1 ++ l2) = l1 ++ (key, data) :: l2 /\
  Forall (fun e => ord e.1 key < 0) l1 /\ Forall (fun e => ord key e.1 < 0) l2.
Proof.
  intros O Dk H1 H2 Hno.
  assert (Forall (fun e => ord e.1 key < 0) l1) as H1' by (apply (Forall_impl _ _ _ H1); tauto).
  assert (Forall (fun e => D e.1 /\ 0 < ord e.1 key) l2) as H2'.
  { apply Forall_forall. intros e He. destruct (proj1 (Forall_forall _ _) H2 e He) as [De Hge]. split; [done|].
    assert (ord e.1 key <> 0); [|lia]. intros E. apply (ol_eq _ _ O) in E; auto. apply (Hno e.2). rewrite <- E.
    apply elem_of_app. right. by destruct e. }
  split_and!; auto.
  - apply (put_items_split key data l1 l2 []); auto. apply (Forall_impl _ _ _ H2'). tauto.
  - apply (Forall_impl _ _ _ H2'). intros e [De He]. by apply (ol_anti _ _ O key e.1).
Qed.

(** The key is there. *)
Lemma put_items_old (key data d : MDB_val) (l1 l2 : items) : order_laws D ord -> D key ->
  StronglySorted (key_lt D ord) (l1 ++ (key, d) :: l2) -> put_items key data (l1 ++ (key, d) :: l2) = l1 ++ (key, data) :: l2.
Proof.
  intros O Dk Hs. destruct (sorted_sides _ _ _ _ Hs) as [H1 H2]. apply (put_items_split key data l1 l2 [(key, d)]).
  - apply (Forall_impl _ _ _ H1). intros e (_ & _ & He). exact He.
  - apply (Forall_impl _ _ _ H2). intros e (_ & De & He). by apply (ol_anti _ _ O key e.1).
  - apply Forall_cons. split; [|by apply Forall_nil]. cbn [fst].
    by apply (ol_eq _ _ O).
Qed.
(** The other keys keep their values. *)
Lemma elem_put_items (key data k d : MDB_val) (es : items) : order_laws D ord -> D key -> D k ->
  (k, d) ∈ put_items key data es <-> (k = key /\ d = data) \/ (k <> key /\ (k, d) ∈ es).
Proof.
  intros O Dkey Dk. unfold put_items. rewrite elem_of_app, elem_of_cons, !list_elem_of_filter. cbn [fst].
  pose proof (ol_eq _ _ O k key Dk Dkey) as Heq. split.
  - intros [[Hlt Hin]|[[= -> ->]|[Hgt Hin]]]; [right|by left|right]; (split; [|done]); intros E%Heq; lia.
  - intros [[-> ->]|[Hne Hin]]; [right; by left|]. assert (ord k key <> 0) by tauto.
    destruct (decide (ord k key < 0)); [by left|right; right]. split; [lia|done].
Qed.
End Spec.

(** ** The leaf *)

Section Leaf.
Variable file : Z -> option (list Z).
Variables (me_flags me_map me_psize me_maxpg : Z).
Variable os_malloc : gmap Z (list Z) -> Z -> option (Z * list Z).
Variables (junk : nat -> Z) (mem_ok : Z -> bool) (need_ok : bool).
Variables (mt_txnid : Z) (readers : option (list MDB_reader * Z)).
Variables (fuel : nat) (me_nodemax : Z).
Hypothesis Hwm : Z.land me_flags MDB_WRITEMAP = 0.
Hypothesis Hps : 16 <= me_psize.
Hypothesis Hmax : me_maxpg <= 2 ^ 31.
Abbreviation seen := (view file me_flags []).
Abbreviation place := (locate me_flags []).
Context (md_cmp : MDB_cmp_func) (D : MDB_val -> Prop) (ord : MDB_val -> MDB_val -> Z) (H : nat).
Variables (free_root : Z) (rootf : list Z) (hf : nat) (esf : list (MDB_val * MDB_val)) (recs : list free_rec).
Abbreviation items := (list (MDB_val * MDB_val)).
Abbreviation inv es := (cow_inv file me_flags me_psize me_maxpg readers mt_txnid md_cmp D ord H es free_root rootf hf esf recs).
Abbreviation accounts := (accounted file me_flags me_psize H free_root hf esf recs).
Abbreviation put_node := (put_node file me_flags me_map me_psize me_maxpg os_malloc junk mem_ok mt_txnid readers free_root [] fuel me_nodemax).
Abbreviation put_new := (put_new file me_flags me_map me_psize me_maxpg os_malloc junk mem_ok mt_txnid readers free_root [] fuel me_nodemax).
Abbreviation put_existing := (put_existing file me_flags me_psize os_malloc junk need_ok []).
Abbreviation put_here := (put_here file me_flags me_map me_psize me_maxpg os_malloc junk mem_ok need_ok mt_txnid readers free_root [] fuel
  me_nodemax).
Abbreviation at_path es lft cur rgt := (at_path file me_flags me_psize me_maxpg mt_txnid readers md_cmp D ord H es free_root rootf hf esf recs
  0 lft cur rgt).
Abbreviation leaf_items w := (leaf_items (seen w) md_cmp D ord).

(** ** The parts of the function *)

(** [mdb_node_add] of a value that fits in the page. *)
Lemma put_node_small (w : wtxn) (mc : wcursor) (a : Z) (m : list Z) (p : Z) (key data : MDB_val) : top_block w mc = Some (a, m) ->
  aget (wc_ki mc) (wc_top mc) = Some p -> page_wf m -> p_leaf m = true -> 0 <= p <= p_num m -> val_ok key -> mv_size key < 65536 ->
  val_ok data -> mv_size data < 2 ^ 32 -> LEAFSIZE key data <= me_nodemax -> mdb_leaf_size me_nodemax key data <= p_upper m - p_lower m ->
  exists m', put_node w mc key data 0 = Some (MDB_SUCCESS, set_mem w a m') /\
    inserted m p (leaf_node key (mv_size data) 0 (mv_data data)) m'.
Proof.
  intros Htb Hki Hwf Hl Hp Hk Hks [Hd Hdb] Hd32 Hsz Hroom. pose proof (zlen_nonneg (mv_data data)).
  unfold LEAFSIZE, NODESIZE, mdb_leaf_size in *. rewrite (proj2 (Z.ltb_ge _ _)) in Hroom by (unfold LEAFSIZE, NODESIZE; lia).
  unfold Put.put_node. rewrite Htb. cbn [mbind option_bind]. rewrite Hki. cbn [mbind option_bind].
  match goal with |- context [mdb_node_add 0 me_nodemax me_psize ?pn] => set (page_new := pn) end.
  destruct (node_add_leaf_ok 0 me_nodemax me_psize page_new m p key data 0 0) as (m' & E & Hins); auto.
  - lia.
  - change (F_ISSET 0 F_BIGDATA) with false. cbv iota. split; [done|]. change (in_page 0 data) with (mv_data data). lia.
  - change (in_page 0 data) with (mv_data data). rewrite <- Hd. unfold LEAFSIZE, NODESIZE in Hroom.
    rewrite Z.add_comm, (EVEN_add 2) in Hroom by done. lia.
  - exists m'. rewrite E. cbn [mbind option_bind]. by split.
Qed.

(** The other cursors. *)
Lemma bump_all (mc : wcursor) (l : list wcursor) : 0 <= wc_top mc < wc_snum mc -> wc_snum mc <= zlen (wc_pg mc) ->
  wc_snum mc <= zlen (wc_ki mc) -> Forall (fun m2 => wc_snum mc <= zlen (wc_pg m2) /\ wc_snum mc <= zlen (wc_ki m2)) l ->
  exists cs, mapM (bump mc) l = Some cs /\ Forall2 (fun m2 m2' => bump mc m2 = Some m2') l cs.
Proof.
  intros Ht Hpg Hki Hall. induction Hall as [|m2 l [H1 H2] Hall IH]; [by exists []|]. destruct IH as (cs & E & F).
  assert (exists m2', bump mc m2 = Some m2') as (m2' & E2).
  { unfold bump. destruct (_ <? _); [by eexists|].
    rewrite (aget_in (wc_pg m2)), (aget_in (wc_pg mc)), (aget_in (wc_ki m2)), (aget_in (wc_ki mc)) by lia. cbn [mbind option_bind].
    destruct (_ && _); [|by eexists]. rewrite aset_in by lia. by eexists. }
  exists (m2' :: cs). cbn [mapM]. rewrite E2. cbn [mbind option_bind]. rewrite E. split; [done|]. by constructor.
Qed.

(** From label [new_sub] on, when the value fits in the page. *)
Lemma put_new_small (w : wtxn) (mc : wcursor) (a : Z) (m : list Z) (p : Z) (key data : MDB_val) (flags : Z) (ins : bool) :
  top_block w mc = Some (a, m) -> aget (wc_ki mc) (wc_top mc) = Some p -> page_wf m -> p_leaf m = true -> 0 <= p <= p_num m ->
  val_ok key -> mv_size key < 65536 -> val_ok data -> mv_size data < 2 ^ 32 -> LEAFSIZE key data <= me_nodemax ->
  Z.land flags NODE_ADD_FLAGS = 0 -> 0 <= wc_top mc < wc_snum mc -> wc_snum mc <= zlen (wc_pg mc) -> wc_snum mc <= zlen (wc_ki mc) ->
  Forall (fun m2 => wc_snum mc <= zlen (wc_pg m2) /\ wc_snum mc <= zlen (wc_ki m2)) (w_cursors w) ->
  (p_upper m - p_lower m < mdb_leaf_size me_nodemax key data /\
     put_new w mc key data flags ins = Some (PutSplit w mc (if ins then 0 else MDB_SPLIT_REPLACE))) \/
  exists m', inserted m p (leaf_node key (mv_size data) 0 (mv_data data)) m' /\
    if ins then exists cs, Forall2 (fun m2 m2' => bump mc m2 = Some m2') (w_cursors w) cs /\
      put_new w mc key data flags ins = Some (PutDone MDB_SUCCESS None
        (set_db (set_cursors (set_mem w a m') cs) (set_entries (w_db w) (u64 (md_entries (w_db w) + 1))))
        (wflags mc (Z.lor (wc_flags mc) C_INITIALIZED)))
    else put_new w mc key data flags ins = Some (PutDone MDB_SUCCESS None (set_mem w a m') mc).
Proof.
  intros Htb Hki Hwf Hl Hp Hk Hks Hd Hd32 Hsz Hfl Ht Hpg Hkis Hcs. unfold Put.put_new. rewrite Htb. cbn [mbind option_bind].
  rewrite SIZELEFT_ok by done. cbn [mbind option_bind]. rewrite Hfl. destruct (Z.ltb_spec (p_upper m - p_lower m) (mdb_leaf_size me_nodemax key data)) as [Hlt|Hge].
  - left. split; [done|]. assert (Z.land flags (Z.lor F_DUPDATA F_SUBDATA) = 0) as ->.
    { apply Z.bits_inj'. intros n Hn. apply (f_equal (fun x => Z.testbit x n)) in Hfl. rewrite Z.land_spec, Z.bits_0 in *.
      unfold NODE_ADD_FLAGS in Hfl. rewrite (Z.lor_spec (Z.lor F_DUPDATA F_SUBDATA)) in Hfl.
      destruct (Z.testbit flags n); [|done]. cbn [andb] in *. by apply orb_false_iff in Hfl as [-> _]. }
    by destruct ins.
  - right. destruct (put_node_small w mc a m p key data Htb Hki Hwf Hl Hp Hk Hks Hd Hd32 Hsz Hge) as (m' & E & Hins).
    exists m'. split; [done|]. rewrite E. cbn [mbind option_bind]. change (nz MDB_SUCCESS) with false. cbv iota. destruct ins; [|done].
    destruct (bump_all mc (w_cursors w) Ht Hpg Hkis Hcs) as (cs & Ecs & F). exists cs. split; [done|].
    change (w_cursors (set_mem w a m')) with (w_cursors w). by rewrite Ecs.
Qed.
Section At.
Variables (w : wtxn) (mc : wcursor) (f : frame) (up : list frame) (lft cur rgt ks : items).
Hypothesis Hap : at_path (lft ++ cur ++ rgt) lft cur rgt ks w mc (f :: up).
Hypothesis Hdirty : p_dirty (fr_page f) = true.
Hypothesis Htop : wc_top mc = zlen up.
Abbreviation page := (fr_page f).
Let Hinv := ap_inv _ _ _ _ _ _ _ _ _ _ _ _ _ _ _ _ _ _ _ _ _ _ _ _ Hap.
Let Hw := ap_whole _ _ _ _ _ _ _ _ _ _ _ _ _ _ _ _ _ _ _ _ _ _ _ _ Hap.
Let Hl := ci_lists _ _ _ _ _ _ _ _ _ _ _ _ _ _ _ _ _ Hinv.

Lemma leaf_block : exists e, e ∈ dirty_of w /\ mid e = fr_pgno f /\ w_mem w !! mptr e = Some page /\ top_block w mc = Some (mptr e, page).
Proof.
  destruct (frame_facts file me_flags me_psize me_maxpg junk mem_ok mt_txnid readers md_cmp D ord H (lft ++ cur ++ rgt) free_root rootf hf esf recs 0
    lft cur rgt ks w mc [] up f Hap f ltac:(by left)) as (Hv & _ & _ & _ & _ & Hd & Hb).
  pose proof (lo_next Hl) as Hn. destruct (find_dirty (a_dirty (w_alloc w)) (fr_pgno f)) as [e|] eqn:Ed; [|by apply Hd in Hdirty].
  apply (find_dirty_elem me_psize me_maxpg w e _ Hl) in Ed as Ee. destruct Ee as [He Hm].
  assert (place w (fr_pgno f) = Some (Heap (mptr e))) as Epl.
  { rewrite (locate_ok me_flags me_psize me_maxpg Hwm w _ Hl) by lia. rewrite decide_False; [by rewrite Ed|].
    rewrite <- Hm. by apply (lo_disj Hl). }
  unfold view in Hv. rewrite Epl in Hv. cbn [mbind option_bind deref] in Hv. exists e. split_and!; auto.
  destruct (ap_stack _ _ _ _ _ _ _ _ _ _ _ _ _ _ _ _ _ _ _ _ _ _ _ _ Hap) as (Hpg & _). rewrite <- Htop, Epl in Hpg.
  unfold top_block. rewrite Hpg. cbn [mbind option_bind]. by rewrite Hv.
Qed.

Lemma leaf_facts : page_wf page /\ p_leaf page = true /\ p_branch page = false /\ zlen page = me_psize /\ pgno_of page = fr_pgno f /\
  leaf_items w page cur /\ p_num page = zlen cur /\ aget (wc_ki mc) (wc_top mc) = Some (fr_ki f) /\ order_laws D ord /\
  Forall (in_frames D ord up) cur.
Proof.
  destruct (frame_facts file me_flags me_psize me_maxpg junk mem_ok mt_txnid readers md_cmp D ord H (lft ++ cur ++ rgt) free_root rootf hf esf recs 0
    lft cur rgt ks w mc [] up f Hap f ltac:(by left)) as (_ & Hwf & Hlen & Hno & _).
  destruct Hw as (_ & _ & _ & Ht & _ & Hin). pose proof Ht as (_ & Hlf & Hbr & Hord & Hn & _).
  destruct (ap_stack _ _ _ _ _ _ _ _ _ _ _ _ _ _ _ _ _ _ _ _ _ _ _ _ Hap) as (_ & Hki & _).
  split_and!; auto; [by apply leaf_tree_items|by rewrite Htop|by eapply page_order_laws].
Qed.

(** The leaf with other items. *)
Lemma leaf_set (e : MDB_ID2) (m' : list Z) (cur' : items) : e ∈ dirty_of w -> mid e = fr_pgno f -> w_mem w !! mptr e = Some page ->
  page_wf m' -> slice m' 0 12 = slice page 0 12 -> zlen m' = zlen page -> leaf_items w m' cur' -> cur' <> [] ->
  Forall (in_frames D ord up) cur' -> leaf_pages me_psize m' = leaf_pages me_psize page ->
  let w' := set_mem w (mptr e) m' in inv (lft ++ cur' ++ rgt) w' /\ accounts w w'.
Proof.
  intros He Hm Hmem Hwf' Hhead Hlen' Hli Hne Hin Hlp w'. destruct leaf_facts as (Hwf & Hlf & Hbr & Hlen & Hno & _).
  pose proof (wf_psize _ Hwf) as H16.
  assert (pgno_of m' = pgno_of page) as Hno'.
  { assert (forall m, 16 <= zlen m -> pgno_of m = le_val (slice (slice m 0 12) 0 8)) as E.
    { intros m Hm16. unfold pgno_of. by rewrite slice_slice by lia. }
    by rewrite !E, Hhead by lia. }
  assert (written me_psize me_maxpg readers mt_txnid recs w w' (fr_pgno f) m' [] []) as Hwr.
  { rewrite <- Hm. apply (written_mem me_psize me_maxpg readers mt_txnid recs w e page m'); auto; [apply (ci_alloc _ _ _ _ _ _ _ _ _ _ _ _ _ _ _ _ _ Hinv)|
      by rewrite Hlen'|apply Hwf']. }
  destruct (written_ok file me_flags me_psize me_maxpg readers mt_txnid Hwm ltac:(lia) Hmax md_cmp D ord H free_root rootf hf esf recs
    (lft ++ cur ++ rgt) w w' f up lft cur cur' rgt m' [] [] Hinv Hw Hwr) as (H1 & H2 & H3); auto; try congruence.
  - by destruct (same_head page m' (proj1 H16) Hlen' Hhead) as (_ & _ & ?).
  - apply (leaf_here file me_flags me_psize me_maxpg readers mt_txnid Hwm ltac:(lia) Hmax md_cmp D ord H free_root rootf hf esf recs
      (lft ++ cur ++ rgt) w w' f up lft cur cur' rgt m' [] [] Hinv Hw Hwr); [by rewrite Hlp|by apply leaf_items_tree].
  - by rewrite Hlp.
  - split; [exact H1|by split].
Qed.
(** The same of a page changed in one of the three ways. *)
Lemma leaf_changed (e : MDB_ID2) (m' : list Z) (cur' : items) : e ∈ dirty_of w -> mid e = fr_pgno f -> w_mem w !! mptr e = Some page ->
  leaf_change (seen w) md_cmp D ord me_psize page m' cur' -> cur' <> [] -> Forall (in_frames D ord up) cur' ->
  let w' := set_mem w (mptr e) m' in inv (lft ++ cur' ++ rgt) w' /\ accounts w w'.
Proof.
  intros He Hm Hmem [Hli Hhead Hlen Hpg] Hne Hin. apply leaf_set; auto. apply Hli.
Qed.

(** ** The write *)

Variables (key data : MDB_val) (flags : Z).
Hypothesis Dk : D key.
Hypothesis Hkey : val_ok key.
Hypothesis Hks : mv_size key < 65536.
Hypothesis Hdata : val_ok data.
Hypothesis Hd32 : mv_size data < 2 ^ 32.
Hypothesis Hsize : LEAFSIZE key data <= me_nodemax.
Hypothesis Hflags : Z.land flags NODE_ADD_FLAGS = 0 /\ F_ISSET flags MDB_RESERVE = false.
Hypothesis Hkin : in_frames D ord up (key, data).
Hypothesis Hp : 0 <= fr_ki f <= zlen cur.
Hypothesis Hsplit : split_at D ord lft cur rgt (fr_ki f) key.
Hypothesis Hsn : wc_snum mc <= zlen (wc_pg mc) /\ wc_snum mc <= zlen (wc_ki mc).
Hypothesis Hcs : Forall (fun m2 => wc_snum mc <= zlen (wc_pg m2) /\ wc_snum mc <= zlen (wc_ki m2)) (w_cursors w).

Lemma here_top : 0 <= wc_top mc < wc_snum mc.
Proof.
  pose proof (ap_snum _ _ _ _ _ _ _ _ _ _ _ _ _ _ _ _ _ _ _ _ _ _ _ _ Hap) as E. rewrite <- E, Htop. unfold zlen. cbn [length]. lia.
Qed.

Lemma inv_db (l : items) (w1 : wtxn) (cs : list wcursor) (d : MDB_db) : inv l w1 -> inv l (set_db (set_cursors w1 cs) d).
Proof. intros [[] ? ? ? ? ? ? ? ?]. split; try assumption. by split. Qed.

Lemma sides_in (x : MDB_val * MDB_val) (l1 l2 : items) : x.1 = key -> Forall (in_frames D ord up) (l1 ++ l2) ->
  Forall (in_frames D ord up) (l1 ++ x :: l2) /\ l1 ++ x :: l2 <> [].
Proof.
  intros E [H1 H2]%Forall_app. split; [|by destruct l1]. apply Forall_app. split; [done|]. constructor; [|done].
  unfold in_frames in *. by rewrite E.
Qed.

(** The key is new. *)
Lemma put_here_new : (forall d, (key, d) ∉ lft ++ cur ++ rgt) ->
  exists r, put_here w mc key data flags MDB_NOTFOUND = Some r /\
    ((r = PutSplit w mc 0 /\ exists a, top_block w mc = Some (a, page) /\ p_upper page - p_lower page < mdb_leaf_size me_nodemax key data) \/
     exists w' mc', r = PutDone MDB_SUCCESS None w' mc' /\ inv (put_items ord key data (lft ++ cur ++ rgt)) w' /\ accounts w w' /\
       zlen (put_items ord key data (lft ++ cur ++ rgt)) = zlen (lft ++ cur ++ rgt) + 1 /\
       md_entries (w_db w') = u64 (md_entries (w_db w) + 1) /\ Forall2 (fun m2 m2' => bump mc m2 = Some m2') (w_cursors w) (w_cursors w')).
Proof.
  intros Hno. destruct leaf_block as (e & He & Hm & Hmem & Htb).
  destruct leaf_facts as (Hwf & Hlf & Hbr & Hlen & _ & Hli & Hn & Hki & O & Hin).
  unfold Put.put_here. change (nz MDB_NOTFOUND) with true. cbv iota.
  destruct (put_new_small w mc (mptr e) page (fr_ki f) key data flags true Htb Hki Hwf Hlf ltac:(lia) Hkey Hks Hdata Hd32 Hsize (proj1 Hflags)
    here_top (proj1 Hsn) (proj2 Hsn) Hcs) as [[Hfull ->]|(m' & Hins & cs & Hbump & ->)]; (eexists; split; [reflexivity|]).
  { left. split; [done|]. by exists (mptr e). }
  right.
  eexists _, _. split; [reflexivity|]. set (l1 := take (Z.to_nat (fr_ki f)) cur). set (l2 := drop (Z.to_nat (fr_ki f)) cur).
  assert (cur = l1 ++ l2) as Ec by (symmetry; apply take_drop).
  assert (zlen l1 = fr_ki f) as El by (unfold l1; apply zlen_take; lia).
  destruct Hsplit as [H1 H2]. fold l1 in H1. fold l2 in H2. rewrite Ec, <- app_assoc, (app_assoc lft l1) in Hno.
  destruct (put_items_new D ord key data (lft ++ l1) (l2 ++ rgt) O Dk H1 H2 Hno) as (E & Hlt & Hgt).
  rewrite <- El in Hins. rewrite Ec in Hli, Hin.
  destruct (leaf_changed e m' (l1 ++ (key, data) :: l2) He Hm Hmem) as [Hinv' Hacc'].
  - apply (insert_small (seen w) md_cmp D ord me_psize page m' l1 l2 key data); auto.
    + apply Hdata.
    + by apply Forall_app in Hlt as [_ ?].
    + by apply Forall_app in Hgt as [? _].
  - by apply sides_in.
  - by apply sides_in.
  - replace (lft ++ cur ++ rgt) with ((lft ++ l1) ++ l2 ++ rgt) by (rewrite Ec, <- !app_assoc; done). rewrite E.
    split; [|split; [exact Hacc'|split; [|by split]]]; [|unfold zlen; rewrite !length_app; cbn [length]; rewrite length_app; lia]. apply inv_db.
    rewrite <- app_assoc in Hinv'. cbn [app] in Hinv'. by rewrite <- app_assoc.
Qed.
(** The key is there, with the value [d] in the page. *)
Section Old.
Variable d : MDB_val.
Hypothesis Hget : aget cur (fr_ki f) = Some (key, d).
Hypothesis Hfl : F_ISSET (n_flags page (fr_ki f)) F_BIGDATA = false.
Let l1 := take (Z.to_nat (fr_ki f)) cur.
Let l2 := drop (Z.to_nat (fr_ki f + 1)) cur.

Lemma old_split : cur = l1 ++ (key, d) :: l2 /\ zlen l1 = fr_ki f /\ 0 <= fr_ki f < zlen cur.
Proof.
  pose proof (aget_lt _ _ _ Hget) as Hr. split_and!; try lia; [|unfold l1; apply zlen_take; lia].
  unfold l1, l2. replace (Z.to_nat (fr_ki f + 1)) with (S (Z.to_nat (fr_ki f))) by lia. symmetry. apply take_drop_middle.
  rewrite lookup_aget. by replace (Z.of_nat (Z.to_nat (fr_ki f))) with (fr_ki f) by lia.
Qed.

(** Its fields, as [mdb_cursor_put] reads them. *)
Lemma old_fields : IS_LEAF2 page = Some false /\ mp_ptr page (fr_ki f) = Some (p_ptr page (fr_ki f)) /\
  NODEDSZ page (p_ptr page (fr_ki f)) = Some (n_lohi page (fr_ki f)) /\
  NODEDATA page (p_ptr page (fr_ki f)) = Some (n_dofs page (fr_ki f)) /\
  get16 page (p_ptr page (fr_ki f) + 4) = Some (n_flags page (fr_ki f)).
Proof.
  destruct leaf_facts as (Hwf & _ & _ & _ & _ & _ & Hn & _). destruct old_split as (_ & _ & Hr).
  assert (0 <= fr_ki f < p_num page) as Hk by lia. destruct (NODEDSZ_ok page _ Hwf Hk) as [E _].
  destruct (n_key_in page _ Hwf Hk) as (? & ? & ?). split_and!; auto; [by apply IS_LEAF2_ok|by apply mp_ptr_ok| |by rewrite get16_in by lia].
  unfold NODEDATA, NODEKSZ. by rewrite get16_in by lia.
Qed.

(** The value is overwritten. *)
Lemma put_over (e : MDB_ID2) : e ∈ dirty_of w -> mid e = fr_pgno f -> w_mem w !! mptr e = Some page ->
  mv_size data = n_lohi page (fr_ki f) ->
  exists m', store_data w (mptr e) (n_dofs page (fr_ki f)) data flags = Some (set_mem w (mptr e) m') /\
    leaf_change (seen w) md_cmp D ord me_psize page m' (l1 ++ (key, data) :: l2).
Proof.
  intros He Hm Hmem Hsz. destruct leaf_facts as (Hwf & Hlf & _ & _ & _ & Hli & Hn & _). destruct old_split as (Ec & El & Hr).
  assert (0 <= fr_ki f < p_num page) as Hk by lia. pose proof Hdata as [Hd Hdb].
  destruct (over_place page (fr_ki f) (mv_data data) Hwf Hlf Hk Hfl ltac:(lia)) as (H8 & Hend & H0).
  destruct (n_raw_eq page (fr_ki f) Hwf Hk) as (_ & _ & Hp0 & Hin & _).
  destruct (bwrite_upd page (n_dofs page (fr_ki f)) (mv_data data)) as (m' & E & U); [lia|lia|].
  exists m'. unfold store_data. rewrite (proj2 Hflags), Hmem. cbn [mbind option_bind]. rewrite (bread_val data) by done.
  cbn [mbind option_bind]. rewrite E. split; [done|]. rewrite Ec in Hli. rewrite <- El in Hfl, Hsz, U.
  by apply (over_small (seen w) md_cmp D ord me_psize page m' l1 l2 key data d).
Qed.

(** The node is deleted, and added again. *)
Lemma put_del : exists m1, mdb_node_del page (fr_ki f) 0 = Some m1 /\ page_wf m1 /\ p_leaf m1 = true /\ p_num m1 = zlen cur - 1 /\
  leaf_change (seen w) md_cmp D ord me_psize page m1 (l1 ++ l2).
Proof.
  destruct leaf_facts as (Hwf & Hlf & _ & _ & _ & Hli & Hn & _). destruct old_split as (Ec & El & Hr).
  destruct (node_del_effect page (fr_ki f) 0 Hwf ltac:(lia)) as (m1 & E & Hdel). exists m1. split; [done|].
  rewrite Ec in Hli. rewrite <- El in Hfl, Hdel.
  pose proof (delete_small (seen w) md_cmp D ord me_psize page m1 l1 l2 (key, d) Hli Hfl Hdel) as Hch.
  pose proof (lc_items _ _ _ _ _ _ _ _ Hch) as Hli1. split_and!; try apply Hli1; [|done].
  rewrite <- (zlen_p_raw m1) by apply Hli1. unfold zlen at 1. rewrite (Forall2_length _ _ _ (li_raw _ _ _ _ _ _ Hli1)), Ec.
  unfold zlen. rewrite !length_app. cbn [length]. lia.
Qed.

Lemma put_again (m1 m' : list Z) : leaf_change (seen w) md_cmp D ord me_psize page m1 (l1 ++ l2) ->
  inserted m1 (fr_ki f) (leaf_node key (mv_size data) 0 (mv_data data)) m' ->
  leaf_change (seen w) md_cmp D ord me_psize page m' (l1 ++ (key, data) :: l2).
Proof.
  intros [Hli1 Hhead Hlen Hpg] Hins. destruct leaf_facts as (_ & _ & _ & _ & _ & Hli & _). destruct old_split as (Ec & El & _).
  rewrite Ec in Hli. destruct (sorted_sides _ _ _ _ (li_sorted _ _ _ _ _ _ Hli)) as [H1 H2]. rewrite <- El in Hins.
  destruct (insert_small (seen w) md_cmp D ord me_psize m1 m' l1 l2 key data Hli1 Hkey Hks (proj1 Hdata) Hd32 Dk) as [A1 A2 A3 A4]; auto.
  - apply (Forall_impl _ _ _ H1). intros x (_ & _ & ?). done.
  - apply (Forall_impl _ _ _ H2). intros x (_ & _ & ?). done.
  - split; congruence.
Qed.

(** What is written, in both cases. *)
Lemma old_written (e : MDB_ID2) (m' : list Z) : e ∈ dirty_of w -> mid e = fr_pgno f -> w_mem w !! mptr e = Some page ->
  leaf_change (seen w) md_cmp D ord me_psize page m' (l1 ++ (key, data) :: l2) ->
  inv (put_items ord key data (lft ++ cur ++ rgt)) (set_mem w (mptr e) m') /\ accounts w (set_mem w (mptr e) m') /\
  zlen (put_items ord key data (lft ++ cur ++ rgt)) = zlen (lft ++ cur ++ rgt).
Proof.
  intros He Hm Hmem Hch. destruct leaf_facts as (_ & _ & _ & _ & _ & _ & _ & _ & O & Hin). destruct old_split as (Ec & El & _).
  assert (Forall (in_frames D ord up) (l1 ++ l2)) as Hin'.
  { rewrite Ec, Forall_app in Hin. destruct Hin as [? [_ Hin]%Forall_cons]. by apply Forall_app. }
  destruct (sides_in (key, data) l1 l2 eq_refl Hin') as [S1 S2].
  destruct (leaf_changed e m' (l1 ++ (key, data) :: l2) He Hm Hmem Hch S2 S1) as [Hinv' Hacc'].
  assert (lft ++ cur ++ rgt = (lft ++ l1) ++ (key, d) :: (l2 ++ rgt)) as E by (rewrite Ec, <- !app_assoc; done). rewrite E.
  destruct (ci_tree _ _ _ _ _ _ _ _ _ _ _ _ _ _ _ _ _ Hinv) as (root & _ & Ht).
  pose proof (tree_sorted (seen w) md_cmp 0 D ord H root _ Ht) as Hs. rewrite E in Hs. rewrite (put_items_old D ord key data d) by done.
  split; [|split; [exact Hacc'|unfold zlen; rewrite !length_app; done]].
  rewrite <- app_assoc in Hinv'. cbn [app] in Hinv'. by rewrite <- app_assoc.
Qed.

Lemma put_here_old : exists r, put_here w mc key data flags MDB_SUCCESS = Some r /\
    ((exists w' mc', r = PutDone MDB_SUCCESS None w' mc' /\ inv (put_items ord key data (lft ++ cur ++ rgt)) w' /\ accounts w w' /\
       zlen (put_items ord key data (lft ++ cur ++ rgt)) = zlen (lft ++ cur ++ rgt) /\
       w_db w' = w_db w /\ w_cursors w' = w_cursors w) \/
     exists a m1, r = PutSplit (set_mem w a m1) mc MDB_SPLIT_REPLACE /\ top_block w mc = Some (a, page) /\
       p_upper m1 - p_lower m1 < mdb_leaf_size me_nodemax key data /\
       cur = l1 ++ (key, d) :: l2 /\ leaf_change (seen w) md_cmp D ord me_psize page m1 (l1 ++ l2)).
Proof.
  destruct leaf_block as (e & He & Hm & Hmem & Htb). destruct leaf_facts as (Hwf & Hlf & _ & _ & _ & _ & Hn & Hki & _).
  destruct old_fields as (E1 & E2 & E3 & E4 & E5). unfold Put.put_here. change (nz MDB_SUCCESS) with false. cbv iota.
  unfold Put.put_existing. rewrite Htb. cbn [mbind option_bind]. rewrite E1. cbn [mbind option_bind]. rewrite Hki. cbn [mbind option_bind].
  rewrite E2. cbn [mbind option_bind]. rewrite E3, E4, E5. cbn [mbind option_bind]. rewrite Hfl.
  destruct (Z.eqb_spec (mv_size data) (n_lohi page (fr_ki f))) as [Hsz|Hsz].
  - destruct (put_over e He Hm Hmem Hsz) as (m' & -> & Hch). cbn [mbind option_bind]. eexists. split; [reflexivity|]. left.
    destruct (old_written e m' He Hm Hmem Hch) as (Hinv' & Hacc' & Hz). by eexists _, _.
  - cbn [mbind option_bind]. rewrite Hmem. cbn [mbind option_bind]. destruct put_del as (m1 & -> & Hwf1 & Hlf1 & Hn1 & Hch1).
    cbn [mbind option_bind]. destruct old_split as (Ec & El & Hr).
    assert (top_block (set_mem w (mptr e) m1) mc = Some (mptr e, m1)) as Htb1.
    { unfold top_block in Htb |- *. destruct (aget (wc_pg mc) (wc_top mc)) as [[[x|x]|]|]; try done. cbn [mbind option_bind] in Htb |- *.
      destruct (w_mem w !! x); [|done]. injection Htb as -> ->. cbn [set_mem w_mem]. by rewrite lookup_insert, decide_True. }
    destruct (put_new_small (set_mem w (mptr e) m1) mc (mptr e) m1 (fr_ki f) key data flags false Htb1 Hki Hwf1 Hlf1 ltac:(lia) Hkey Hks Hdata
      Hd32 Hsize (proj1 Hflags) here_top (proj1 Hsn) (proj2 Hsn) Hcs) as [[Hfull ->]|(m' & Hins & ->)]; (eexists; split; [reflexivity|]).
    + right. by exists (mptr e), m1.
    + left. destruct (old_written e m' He Hm Hmem (put_again m1 m' Hch1 Hins)) as (Hinv' & Hacc' & Hz).
      assert (set_mem (set_mem w (mptr e) m1) (mptr e) m' = set_mem w (mptr e) m') as ->.
      { unfold set_mem. cbn [w_mem me_dpages w_alloc w_free_pgs w_spill w_root w_cursors w_db]. by rewrite insert_insert, decide_True. }
      by eexists _, _.
Qed.
End Old.
End At.
End Leaf.
