(* ===== verification/PutCorrect.v ===== *)
(** * Correctness of [mdb_put]

    [mdb_put] ([src/LegacyDatabase/mdb.c]) on a database that is not empty,
    for a value that fits in a page: the parts of [PutFind.v],
    [CursorTouch.v] and [PutLeaf.v] put together ([mdb_put_correct]), and an
    example.  When the leaf has no room it ends at the call of
    [mdb_page_split]; [PutSplit.v] goes on from there. *)
From S2P Require Import Prelude.
From S2P Require Import Bytes.
From S2P Require Import Midl.
From S2P Require Import Page.
From S2P Require Import PageSpec.
From S2P Require Import NodeOps.
From S2P Require Import NodeDel.
From S2P Require Import Cmp.
From S2P Require Import NodeSearch.
From S2P Require Import Cursor.
From S2P Require Import PageList.
From S2P Require Import Tree.
From S2P Require Import CursorPath.
From S2P Require Import CursorSim.
From S2P Require Import PageAlloc.
From S2P Require Import FreeDb.
From S2P Require Import PageSplit.
From S2P Require Import Cow.
From S2P Require Import Touch.
From S2P Require Import TouchInv.
From S2P Require Import TouchSteps.
From S2P Require Import CursorTouch.
From S2P Require Import LeafItems.
From S2P Require Import Put.
From S2P Require Import PutInv.
From S2P Require Import PutFind.
From S2P Require Import PutLeaf.
From Stdlib Require Import ZArith Lia Sorted.
From stdpp Require Import base numbers option list gmap.
Open Scope Z_scope.

(** ** The record of the database *)

(** Opens the calls and conditions of a hypothesis that says what a function
    returns. *)
Ltac open_run H :=
  repeat match type of H with
  | mbind _ _ = Some _ => let E := fresh "E" in apply bind_Some in H as (? & E & H)
  | Some _ = Some _ => injection H as H; subst
  | None = Some _ => discriminate H
  | (if ?b then _ else _) = Some _ => destruct b eqn:?
  | (let '(_, _) := ?x in _) = Some _ => destruct x
  | match ?x with _ => _ end = Some _ => destruct x eqn:?
  end.

Section Db.
Variable file : Z -> option (list Z).
Variables (me_flags me_map me_psize me_maxpg : Z).
Variable os_malloc : gmap Z (list Z) -> Z -> option (Z * list Z).
Variables (junk : nat -> Z) (mem_ok : Z -> bool) (need_ok : bool).
Variables (mt_txnid : Z) (readers : option (list MDB_reader * Z)) (free_root : Z) (fuel : nat).

Lemma malloc_db (w w' : wtxn) (num : Z) (r : option Z) : mdb_page_malloc me_flags me_psize os_malloc w num = Some (r, w') -> w_db w' = w_db w.
Proof.
  intros E. assert (page_malloc_new me_flags me_psize os_malloc w num = Some (r, w') -> w_db w' = w_db w) as Hnew.
  { clear E. intros E. unfold page_malloc_new in E. open_run E; done. }
  unfold mdb_page_malloc in E. open_run E; auto.
Qed.

Lemma unspill_db (w w' : wtxn) (m : list Z) (rc : Z) (np : option Z) :
  mdb_page_unspill me_flags me_psize os_malloc [] w m = Some (rc, w', np) -> w_db w' = w_db w.
Proof.
  intros E. unfold mdb_page_unspill in E. open_run E; try done;
    match goal with H : mdb_page_malloc _ _ _ _ _ = Some _ |- _ => apply malloc_db in H; cbn; exact H end.
Qed.

Lemma alloc_db (w w' : wtxn) (num : Z) r :
  alloc_pages file me_flags me_map me_psize me_maxpg os_malloc junk mem_ok mt_txnid readers free_root [] fuel w num = Some (r, w') ->
  w_db w' = w_db w.
Proof.
  intros E. unfold alloc_pages in E. open_run E; try done;
    match goal with H : mdb_page_malloc _ _ _ _ _ = Some _ |- _ => apply malloc_db in H; cbn; exact H end.
Qed.
Lemma done_db (w w' : wtxn) (mc mc' : wcursor) (mp np : page_ptr) (rc : Z) : touch_done w mc mp np = Some (rc, w', mc') -> w_db w' = w_db w.
Proof. intros E. unfold touch_done in E. by open_run E. Qed.

Lemma repoint_db (w w' : wtxn) (mc : wcursor) (p : Z) : repoint_parent w mc p = Some w' -> w_db w' = w_db w.
Proof. intros E. unfold repoint_parent in E. by open_run E. Qed.

Lemma copy_db (w w' : wtxn) (mp : page_ptr) (np p : Z) : copy_to file me_psize w mp np p = Some w' -> w_db w' = w_db w.
Proof. intros E. unfold copy_to in E. by open_run E. Qed.

Lemma clean_db (w w' : wtxn) (mc mc' : wcursor) (mp : page_ptr) (m : list Z) (rc : Z) :
  touch_clean file me_flags me_map me_psize me_maxpg os_malloc junk mem_ok need_ok mt_txnid readers free_root [] fuel w mc mp m =
    Some (rc, w', mc') -> w_db w' = w_db w.
Proof.
  intros E. unfold touch_clean in E. apply bind_Some in E as ([[rc1 w1] np] & E1 & E).
  assert (w_db w1 = w_db w) as H1.
  { open_run E1; [by eapply unspill_db|done]. }
  open_run E; try exact H1; repeat match goal with
    | H : alloc_pages _ _ _ _ _ _ _ _ _ _ _ _ _ _ _ = Some _ |- _ => apply alloc_db in H
    | H : alloc_one _ _ _ _ _ _ _ _ _ _ _ _ _ _ = Some _ |- _ => apply alloc_db in H
    | H : touch_done _ _ _ _ = Some _ |- _ => apply done_db in H
    | H : repoint_parent _ _ _ = Some _ |- _ => apply repoint_db in H
    | H : copy_to _ _ _ _ _ _ = Some _ |- _ => apply copy_db in H
    end; cbn [txn_error set_alloc set_free w_db] in *; congruence.
Qed.

Lemma touch_db (w w' : wtxn) (mc mc' : wcursor) (rc : Z) :
  mdb_page_touch file me_flags me_map me_psize me_maxpg os_malloc junk mem_ok need_ok mt_txnid readers free_root [] fuel w mc =
    Some (rc, w', mc') -> w_db w' = w_db w.
Proof. intros E. unfold mdb_page_touch in E. open_run E; [by eapply clean_db|done]. Qed.

Lemma loop_db (n : nat) : forall (w w' : wtxn) (mc mc' : wcursor) (rc : Z),
  touch_loop file me_flags me_map me_psize me_maxpg os_malloc junk mem_ok need_ok mt_txnid readers free_root [] fuel n w mc =
    Some (rc, w', mc') -> w_db w' = w_db w.
Proof.
  induction n as [|n IH]; intros w w' mc mc' rc E; [done|]. cbn [touch_loop] in E.
  apply bind_Some in E as ([[rc1 w1] mc1] & E1%touch_db & E). open_run E; [done| |done]. apply IH in E. congruence.
Qed.

(** [mdb_cursor_touch] leaves it alone. *)
Lemma cursor_touch_db (w w' : wtxn) (mc mc' : wcursor) (rc : Z) :
  mdb_cursor_touch file me_flags me_map me_psize me_maxpg os_malloc junk mem_ok need_ok mt_txnid readers free_root [] fuel w mc =
    Some (rc, w', mc') -> w_db w' = w_db w.
Proof. intros E. unfold mdb_cursor_touch in E. open_run E; [by eapply loop_db|done]. Qed.

(** The length of the stack of the cursor. *)
Lemma clean_len (w w' : wtxn) (mc mc' : wcursor) (mp : page_ptr) (m : list Z) (rc : Z) :
  touch_clean file me_flags me_map me_psize me_maxpg os_malloc junk mem_ok need_ok mt_txnid readers free_root [] fuel w mc mp m =
    Some (rc, w', mc') -> zlen (wc_pg mc') = zlen (wc_pg mc).
Proof.
  assert (forall w mp np, touch_done w mc mp np = Some (rc, w', mc') -> zlen (wc_pg mc') = zlen (wc_pg mc)) as Hd.
  { intros w1 mp1 np E. unfold touch_done in E. open_run E. cbn [wc_pg]. unfold aset in E0. destruct (_ && _); [|done]. injection E0 as <-. apply zlen_zset. }
  intros E. unfold touch_clean in E. open_run E; try done; by eapply Hd.
Qed.

Lemma loop_len (n : nat) : forall (w w' : wtxn) (mc mc' : wcursor) (rc : Z),
  touch_loop file me_flags me_map me_psize me_maxpg os_malloc junk mem_ok need_ok mt_txnid readers free_root [] fuel n w mc =
    Some (rc, w', mc') -> zlen (wc_pg mc') = zlen (wc_pg mc).
Proof.
  induction n as [|n IH]; intros w w' mc mc' rc E; [done|]. cbn [touch_loop] in E. apply bind_Some in E as ([[rc1 w1] mc1] & E1 & E).
  assert (zlen (wc_pg mc1) = zlen (wc_pg mc)) as E2 by (unfold mdb_page_touch in E1; open_run E1; [by eapply clean_len|done]).
  open_run E; [done| |done]. apply IH in E. by rewrite E.
Qed.

Lemma cursor_touch_len (w w' : wtxn) (mc mc' : wcursor) (rc : Z) :
  mdb_cursor_touch file me_flags me_map me_psize me_maxpg os_malloc junk mem_ok need_ok mt_txnid readers free_root [] fuel w mc =
    Some (rc, w', mc') -> zlen (wc_pg mc') = zlen (wc_pg mc).
Proof. intros E. unfold mdb_cursor_touch in E. open_run E; [|done]. by match goal with E : touch_loop _ _ _ _ _ _ _ _ _ _ _ _ _ _ _ _ _ = Some _ |- _ => apply loop_len in E end. Qed.
End Db.

(** ** mdb_put *)

Section Put.
Variable file : Z -> option (list Z).
Variables (me_flags me_map me_psize me_maxpg : Z).
Variable os_malloc : gmap Z (list Z) -> Z -> option (Z * list Z).
Variables (junk : nat -> Z) (mem_ok : Z -> bool) (need_ok : bool).
Variables (mt_txnid : Z) (readers : option (list MDB_reader * Z)).
Hypothesis Hwm : Z.land me_flags MDB_WRITEMAP = 0.
Hypothesis Hps : 16 <= me_psize.
Hypothesis Hmax : me_maxpg <= 2 ^ 31.
Hypothesis Hmalloc : forall mem sz a b, os_malloc mem sz = Some (a, b) -> mem !! a = None /\ zlen b = sz /\ Forall is_byte b.
Abbreviation seen := (view file me_flags []).
Context (md_cmp : MDB_cmp_func) (D : MDB_val -> Prop) (ord : MDB_val -> MDB_val -> Z) (H : nat).
Variables (free_root : Z) (rootf : list Z) (hf : nat) (esf : list (MDB_val * MDB_val)) (recs : list free_rec).
Variables (fuel : nat) (me_nodemax main_depth : Z).
Hypothesis Hfuel : (length recs < fuel)%nat.
Hypothesis HH : (H < 32)%nat.
Abbreviation items := (list (MDB_val * MDB_val)).
Abbreviation inv es := (cow_inv file me_flags me_psize me_maxpg readers mt_txnid md_cmp D ord H es free_root rootf hf esf recs).
Abbreviation accounts := (accounted file me_flags me_psize H free_root hf esf recs).
Abbreviation at_path es lft cur rgt := (at_path file me_flags me_psize me_maxpg mt_txnid readers md_cmp D ord H es free_root rootf hf esf recs
  0 lft cur rgt).
Abbreviation put := (mdb_put file me_flags me_map me_psize me_maxpg os_malloc junk mem_ok need_ok mt_txnid readers free_root [] fuel
  me_nodemax md_cmp main_depth true).
Abbreviation cursor_put := (mdb_cursor_put file me_flags me_map me_psize me_maxpg os_malloc junk mem_ok need_ok mt_txnid readers free_root []
  fuel me_nodemax md_cmp main_depth).
Abbreviation put_here := (put_here file me_flags me_map me_psize me_maxpg os_malloc junk mem_ok need_ok mt_txnid readers free_root [] fuel
  me_nodemax).

(** No leaf has the value of the key on overflow pages. *)
Definition value_in_page (w : wtxn) (key : MDB_val) : Prop := forall x m k, x ∈ sub_pages (fun _ => []) (seen w) H (w_root w) ->
  seen w x = Some m -> p_leaf m = true -> 0 <= k < p_num m -> n_key m k = key -> F_ISSET (n_flags m k) F_BIGDATA = false.

(** The path of the leaf is the transaction's own, and the cursor is at the
    place of the key. *)
Record at_leaf (w : wtxn) (es : items) (key : MDB_val) (w1 : wtxn) (mc' : wcursor) (f : frame) (up : list frame) (lft cur rgt : items)
    (a : Z) : Prop := {
  al_path : at_path es lft cur rgt [(key, key)] w1 mc' (f :: up);
  al_own : Forall (own_page me_flags w1) (f :: up);
  al_accounts : accounts w w1;
  al_items : es = lft ++ cur ++ rgt;
  al_block : top_block w1 mc' = Some (a, fr_page f);
  al_place : 0 <= fr_ki f <= zlen cur /\ split_at D ord lft cur rgt (fr_ki f) key;
  al_stack : wc_top mc' = zlen up /\ wc_snum mc' <= 32 /\ 32 <= zlen (wc_pg mc') /\ 32 <= zlen (wc_ki mc');
  al_db : w_db w1 = w_db w;
  al_cursors : Forall2 (fun m2 m2' => wc_top m2' = wc_top m2 /\ wc_ki m2' = wc_ki m2 /\ zlen (wc_pg m2') = zlen (wc_pg m2))
    (w_cursors w) (w_cursors w1)
}.

(** The leaf is short of room: the items are those there were, and if the key
    was there, its node has been deleted from the leaf. *)
Definition needs_split (w : wtxn) (es : items) (key data : MDB_val) (flags : Z) (w' : wtxn) (mc' : wcursor) (nflags : Z) : Prop :=
  exists w1 f up lft cur rgt a, at_leaf w es key w1 mc' f up lft cur rgt a /\
    let m := fr_page f in
    ((nflags = 0 /\ w' = w1 /\ (forall d, (key, d) ∉ es) /\ p_upper m - p_lower m < mdb_leaf_size me_nodemax key data) \/
     exists m1 l1 l2 d, flags = 0 /\ nflags = MDB_SPLIT_REPLACE /\ w' = set_mem w1 a m1 /\ cur = l1 ++ (key, d) :: l2 /\ zlen l1 = fr_ki f /\
       leaf_change (seen w1) md_cmp D ord me_psize m m1 (l1 ++ l2) /\ p_upper m1 - p_lower m1 < mdb_leaf_size me_nodemax key data).

(** What [mdb_put] may do. *)
Definition put_correct (w : wtxn) (es : items) (key data : MDB_val) (flags : Z) (r : put_result) : Prop :=
  match r with
  | PutDone rc out w' _ =>
      (rc = MDB_SUCCESS /\ out = None /\ (flags = MDB_NOOVERWRITE -> forall d, (key, d) ∉ es) /\
         inv (put_items ord key data es) w' /\ accounts w w' /\ md_entries (w_db w') = zlen (put_items ord key data es)) \/
      (rc = MDB_KEYEXIST /\ flags = MDB_NOOVERWRITE /\ w' = w /\ exists d, out = Some d /\ (key, d) ∈ es) \/
      failed rc w'
  | PutSpill w' _ => w' = w /\ room_left me_psize main_depth w key data = false
  | PutSplit w' mc' nflags => needs_split w es key data flags w' mc' nflags
  end.

Section State.
Variables (w : wtxn) (es : items) (key data : MDB_val) (flags : Z).
Hypothesis Hinv : inv es w.
Hypothesis Hes : es <> [].
Hypothesis Hcs : Forall (fun m2 => 32 <= zlen (wc_pg m2) /\ 32 <= zlen (wc_ki m2)) (w_cursors w).
Hypothesis Hent : md_entries (w_db w) = zlen es /\ zlen es + 1 < 2 ^ 64.
Hypothesis Dk : D key.
Hypothesis Hkey : val_ok key.
Hypothesis Hks : 0 < mv_size key <= ENV_MAXKEY.
Hypothesis Hdata : val_ok data.
Hypothesis Hd32 : mv_size data <= MAXDATASIZE.
Hypothesis Hsize : LEAFSIZE key data <= me_nodemax.
Hypothesis Hflags : flags = 0 \/ flags = MDB_NOOVERWRITE.
Hypothesis Hbig : flags = 0 -> value_in_page w key.

Lemma flags_plain : Z.land flags NODE_ADD_FLAGS = 0 /\ F_ISSET flags MDB_RESERVE = false.
Proof. by destruct Hflags as [->| ->]. Qed.

(** Making the path writable and writing. *)
Definition touch_and_write (mc : wcursor) (rc : Z) : option put_result :=
  r ← ('(rc2, w, mc) ← mdb_cursor_touch file me_flags me_map me_psize me_maxpg os_malloc junk mem_ok need_ok mt_txnid readers
         free_root [] fuel w mc;
       if nz rc2 then Some (Ret rc2 None w mc) else Some (Go (w, mc)));
  match r with Ret rc out w mc => Some (PutDone rc out w mc) | Go (w, mc) => put_here w mc key data flags rc end.

Lemma follows_room (mc mc' : wcursor) (l l' : list wcursor) : wc_snum mc' <= 32 ->
  Forall (fun m2 => 32 <= zlen (wc_pg m2) /\ 32 <= zlen (wc_ki m2)) l -> Forall2 (follows 0 mc mc') l l' ->
  Forall (fun m2 => wc_snum mc' <= zlen (wc_pg m2) /\ wc_snum mc' <= zlen (wc_ki m2)) l'.
Proof.
  intros Hs Hall Hf. induction Hf as [|m2 m2' l l' Hm _ IH]; [done|]. apply Forall_cons in Hall as [[H1 H2] Hall].
  apply Forall_cons. split; [|by apply IH]. rewrite (fo_len _ _ _ _ _ Hm), (fo_ki _ _ _ _ _ Hm). lia.
Qed.

Lemma touch_and_write_ok (mc : wcursor) (f : frame) (up : list frame) (lft cur rgt : items) (rc : Z) (d2 : option MDB_val) :
  at_path es lft cur rgt [(key, key)] w mc (f :: up) -> wc_snum mc <= 32 -> es = lft ++ cur ++ rgt -> 0 <= fr_ki f <= zlen cur ->
  split_at D ord lft cur rgt (fr_ki f) key -> lookup_result es key cur (fr_ki f) rc d2 ->
  (flags = MDB_NOOVERWRITE -> rc <> MDB_SUCCESS) -> 32 <= zlen (wc_pg mc) /\ 32 <= zlen (wc_ki mc) ->
  exists r, touch_and_write mc rc = Some r /\ put_correct w es key data flags r.
Proof.
  intros Hap Hsn Ees Hp Hsplit Hres Hover H32. unfold touch_and_write.
  destruct (cursor_touch_ok file me_flags me_map me_psize me_maxpg os_malloc junk mem_ok need_ok mt_txnid readers md_cmp D ord H es
    free_root rootf hf esf recs fuel 0 lft cur rgt _ w mc (f :: up) Hwm Hps Hmax Hmalloc Hfuel Ees Hap)
    as [(w1 & mc1 & fs1 & E & Hap1 & Hown & Htop & [Hsm Hfo] & Hacc & Htp)|(rc1 & w1 & mc1 & E & Hfail)]; rewrite E; cbn [mbind option_bind].
  2:{ destruct Hfail as [Hrc Herr]. assert (nz rc1 = true) as -> by (by destruct Hrc as [->|[->| ->]]).
      eexists. split; [reflexivity|]. right. right. by split. }
  change (nz MDB_SUCCESS) with false. cbv iota. cbn [mbind option_bind]. destruct fs1 as [|f1 up1]; [done|]. cbn [same_top] in Htp.
  pose proof (ap_snum _ _ _ _ _ _ _ _ _ _ _ _ _ _ _ _ _ _ _ _ _ _ _ _ Hap) as Es.
  pose proof (ap_snum _ _ _ _ _ _ _ _ _ _ _ _ _ _ _ _ _ _ _ _ _ _ _ _ Hap1) as Es1.
  rewrite (sm_snum _ _ _ Hsm) in Es1. assert (zlen up1 = zlen up) as El by (unfold zlen in *; cbn [length] in *; lia).
  assert (zlen (f :: up) = zlen up + 1) as Ec by (unfold zlen; cbn [length]; lia).
  destruct (ap_stack _ _ _ _ _ _ _ _ _ _ _ _ _ _ _ _ _ _ _ _ _ _ _ _ Hap) as (_ & Hki & _).
  destruct (ap_stack _ _ _ _ _ _ _ _ _ _ _ _ _ _ _ _ _ _ _ _ _ _ _ _ Hap1) as (Hpg1 & Hki1 & _).
  rewrite (sm_ki _ _ _ Hsm), El, Hki in Hki1. injection Hki1 as Ek.
  assert (wc_snum mc1 <= zlen (wc_pg mc1) /\ wc_snum mc1 <= zlen (wc_ki mc1)) as Hsn1.
  { apply aget_lt in Hpg1, Hki. rewrite (sm_snum _ _ _ Hsm), (sm_ki _ _ _ Hsm). lia. }
  pose proof (follows_room mc mc1 _ _ ltac:(rewrite (sm_snum _ _ _ Hsm); lia) Hcs Hfo) as Hcs1.
  pose proof (cursor_touch_db _ _ _ _ _ _ _ _ _ _ _ _ _ _ _ _ _ _ E) as Edb.
  assert (in_frames D ord up1 (key, data)) as Hkin.
  { pose proof (ap_keys _ _ _ _ _ _ _ _ _ _ _ _ _ _ _ _ _ _ _ _ _ _ _ _ Hap1) as Hk. by apply Forall_cons in Hk as [Hk _]. }
  assert (p_dirty (fr_page f1) = true) as Hdirty by (apply Forall_cons in Hown as [[? _] _]; done).
  rewrite Ek in *. assert (wc_top mc1 = zlen up1) as Htop1 by lia. destruct flags_plain as [Hf1 Hf2].
  assert (forall a, top_block w1 mc1 = Some (a, fr_page f1) -> at_leaf w es key w1 mc1 f1 up1 lft cur rgt a) as Hat.
  { intros a Ha. split; try assumption; [by split| |].
    - rewrite (cursor_touch_len _ _ _ _ _ _ _ _ _ _ _ _ _ _ _ _ _ _ E), (sm_ki _ _ _ Hsm), (sm_snum _ _ _ Hsm). by split_and!; try apply H32.
    - apply (Forall2_impl _ _ _ _ Hfo). intros m2 m2' []. by split_and!. }
  rewrite Ees in Hap1.
  destruct Hres as [(-> & d & -> & Hget)|(-> & -> & Hno)].
  - (* overwrite *)
    assert (flags = 0) as Hf0 by (destruct Hflags as [?|Hf]; [done|by destruct (Hover Hf)]).
    assert (F_ISSET (n_flags (fr_page f1) (fr_ki f1)) F_BIGDATA = false) as Hfl.
    { pose proof (ap_whole _ _ _ _ _ _ _ _ _ _ _ _ _ _ _ _ _ _ _ _ _ _ _ _ Hap) as Hw. pose proof Hw as (_ & Hv & _ & Ht & _).
      destruct (leaf_item _ _ _ _ _ _ _ _ Ht Hget) as (Hk & Ekey & _). pose proof Ht as (Hwf & Hlf & _).
      destruct (pc_leaf_fields (fr_page f) (fr_page f1) Hwf Htp (fr_ki f1) Hk) as (_ & -> & _).
      apply (Hbig Hf0 (fr_pgno f) (fr_page f)); auto. eapply (whole_in md_cmp D ord); [exact Hw|by left]. }
    destruct (put_here_old file me_flags me_map me_psize me_maxpg os_malloc junk mem_ok need_ok mt_txnid readers fuel me_nodemax Hwm Hps Hmax
      md_cmp D ord H free_root rootf hf esf recs w1 mc1 f1 up1 lft cur rgt _ Hap1 Hdirty Htop1 key data flags Dk Hkey ltac:(unfold ENV_MAXKEY in Hks; lia)
      Hdata ltac:(unfold MAXDATASIZE in Hd32; lia) Hsize (conj Hf1 Hf2) Hkin Hp Hsn1 Hcs1 d Hget Hfl)
      as (r & -> & Hr). exists r. split; [done|]. rewrite <- Ees in Hr.
    destruct Hr as [(w' & mc' & -> & Hi & Ha & Hz & Hdb & _)|(a & m1 & -> & Htb & Hfull & Ecur & Hch)]; cbn [put_correct].
    + left. split_and!; auto; [by rewrite Hf0| |congruence || (rewrite Hdb, Edb; destruct Hent; lia)].
      by eapply (accounts_trans file me_flags me_psize).
    + exists w1, f1, up1, lft, cur, rgt, a. split; [by apply Hat|]. right.
      exists m1, (take (Z.to_nat (fr_ki f1)) cur), (drop (Z.to_nat (fr_ki f1 + 1)) cur), d. split_and!; auto. unfold zlen in *. rewrite length_take. lia.
  - destruct (put_here_new file me_flags me_map me_psize me_maxpg os_malloc junk mem_ok need_ok mt_txnid readers fuel me_nodemax Hwm Hps Hmax
      md_cmp D ord H free_root rootf hf esf recs w1 mc1 f1 up1 lft cur rgt _ Hap1 Hdirty Htop1 key data flags Dk Hkey ltac:(unfold ENV_MAXKEY in Hks; lia)
      Hdata ltac:(unfold MAXDATASIZE in Hd32; lia) Hsize (conj Hf1 Hf2) Hkin Hp Hsplit Hsn1 Hcs1 ltac:(by rewrite <- Ees))
      as (r & -> & Hr). exists r. split; [done|]. rewrite <- Ees in Hr.
    destruct Hr as [(-> & a & Htb & Hfull)|(w' & mc' & -> & Hi & Ha & Hz & Hdb & _)]; cbn [put_correct].
    + exists w1, f1, up1, lft, cur, rgt, a. split; [by apply Hat|]. left. by split_and!; rewrite <- ?Ees.
    + left. split_and!; auto; [by eapply (accounts_trans file me_flags me_psize)|].
      rewrite Hdb, Edb, Hz. destruct Hent as [-> Hlt]. pose proof (zlen_nonneg es). apply uwrap_small. lia.
Qed.
Lemma put_ok : exists r, put w key data flags = Some r /\ put_correct w es key data flags r.
Proof.
  pose proof (ci_lists _ _ _ _ _ _ _ _ _ _ _ _ _ _ _ _ _ Hinv) as Hl. destruct (lo_flags Hl) as [Herr Hro].
  destruct (find_key_ok file me_flags me_psize me_maxpg readers mt_txnid Hwm Hps Hmax md_cmp D ord H es free_root rootf hf esf recs w Hinv HH
    Hes ltac:(apply (Forall_impl _ _ _ Hcs); tauto) key Dk ltac:(lia))
    as (rc & d2 & mc & f & up & lft & cur & rgt & Efind & Hap & Htop & Hfl & H32 & Hlens & Ees & Hp & Hsplit & Hres).
  assert (exists root, tree_db (seen w) md_cmp (w_root w) D ord root H es) as (root & Hdb).
  { by apply (inv_tree_db file me_flags me_psize me_maxpg readers mt_txnid Hmax md_cmp D ord H es free_root rootf hf esf recs). }
  unfold mdb_put. cbn [negb].
  assert ((Z.land flags (Z.lor (Z.lor MDB_NOOVERWRITE MDB_NODUPDATA) (Z.lor (Z.lor MDB_RESERVE MDB_APPEND) MDB_APPENDDUP)) =? flags) = true) as ->
    by (by destruct Hflags as [->| ->]). cbn [negb].
  unfold mdb_cursor_put. assert (nz (Z.land flags MDB_MULTIPLE) = false) as -> by (by destruct Hflags as [->| ->]).
  assert (nz (Z.land flags MDB_NOSPILL) = false) as -> by (by destruct Hflags as [->| ->]).
  assert (Z.land flags (Z.lnot MDB_NOSPILL) = flags) as -> by (by destruct Hflags as [->| ->]).
  rewrite Z.land_lor_distr_r, Herr, Hro. change (nz (Z.lor 0 0)) with false. cbv iota.
  unfold ENV_MAXKEY, MAXDATASIZE in *. rewrite uwrap_small by lia. rewrite (proj2 (Z.leb_gt _ _)), (proj2 (Z.ltb_ge _ _)) by lia.
  unfold put_position. assert ((flags =? MDB_CURRENT) = false) as -> by (by destruct Hflags as [->| ->]).
  rewrite (proj2 (Z.eqb_neq (w_root w) P_INVALID)) by (pose proof (db_pgno _ _ _ _ _ _ _ _ Hdb); lia).
  assert (nz (Z.land flags MDB_APPEND) = false) as -> by (by destruct Hflags as [->| ->]).
  rewrite Efind. cbn [mbind option_bind].
  destruct (nz (Z.land flags MDB_NOOVERWRITE) && (rc =? 0)) eqn:Eover.
  { apply andb_true_iff in Eover as [Hf Hrc%Z.eqb_eq]. cbn [mbind option_bind]. eexists. split; [reflexivity|]. right. left.
    assert (flags = MDB_NOOVERWRITE) as -> by (by destruct Hflags as [->| ->]). split_and!; auto.
    destruct Hres as [(_ & d & -> & Hget)|(-> & _)]; [|done]. exists d. split; [done|]. rewrite Ees, !elem_of_app. right. left.
    unfold aget in Hget. destruct (0 <=? fr_ki f); [|done]. by eapply list_elem_of_lookup_2. }
  assert (nz rc && negb (rc =? MDB_NOTFOUND) = false) as -> by (by destruct Hres as [(-> & _)|(-> & _)]).
  cbn [mbind option_bind]. rewrite Hfl. change (nz (Z.land C_INITIALIZED C_DEL)) with false. cbv iota.
  destruct (room_left me_psize main_depth w key data) eqn:Eroom; cbn [negb andb].
  2:{ eexists. split; [reflexivity|]. by split. }
  assert ((rc =? MDB_NO_ROOT) = false) as -> by (by destruct Hres as [(-> & _)|(-> & _)]).
  apply (touch_and_write_ok mc f up lft cur rgt rc d2); auto. intros Ef Erc. by rewrite Ef, Erc in Eover.
Qed.
(** A lookup after the write. *)
Lemma get_after_put (w' : wtxn) (k : MDB_val) : inv (put_items ord key data es) w' -> D k -> 0 < mv_size k ->
  exists r, mdb_get (seen w') md_cmp 0 (w_root w') (a_mt_flags (w_alloc w')) k = Some r /\
    if decide (k = key) then o_rc r = MDB_SUCCESS /\ o_data r = Some data
    else (forall d, (k, d) ∈ es -> o_rc r = MDB_SUCCESS /\ o_data r = Some d) /\ ((forall d, (k, d) ∉ es) -> o_rc r = MDB_NOTFOUND).
Proof.
  intros Hinv' Dk' Hk. assert (put_items ord key data es <> []) as Hne by (unfold put_items; by destruct (filter _ es)).
  destruct (inv_tree_db file me_flags me_psize me_maxpg readers mt_txnid Hmax md_cmp D ord H _ free_root rootf hf esf recs w' Hinv' HH Hne)
    as (root & [Hr Hpg Ht _ _]).
  assert (order_laws D ord) as O.
  { apply (page_order_laws md_cmp D ord root). revert Ht. clear. intros Ht. destruct H; apply Ht. }
  destruct (lo_flags (ci_lists _ _ _ _ _ _ _ _ _ _ _ _ _ _ _ _ _ Hinv')) as [Herr _].
  destruct (get_ok (seen w') md_cmp 0 (w_root w') D ord root H _ (a_mt_flags (w_alloc w')) k Hr Hpg Ht HH Dk' Hk Herr) as (r & E & Hin & Hout).
  exists r. split; [done|]. destruct (decide (k = key)) as [->|Hne'].
  - apply Hin, (elem_put_items D ord); auto.
  - split.
    + intros d Hd. apply Hin, (elem_put_items D ord); auto.
    + intros Hno. apply Hout. intros d Hd. apply (elem_put_items D ord) in Hd as [[? _]|[_ Hd]]; auto. by apply (Hno d).
Qed.
End State.
End Put.

(** C3: [mdb_put], with no flags or [MDB_NOOVERWRITE], of a value that fits
    in a page to a database that is not empty (and whose value for the key, if
    it has one, is in the page), returns, and does one of these.  It succeeds:
    the items are the old ones with the value at the key ([put_items]: the
    smaller keys, the item, the greater keys), the invariant of the
    transaction holds again, so that no page is lost or in use twice, and
    [md_entries] is the number of items; with [MDB_NOOVERWRITE] the key was
    not there.  With [MDB_NOOVERWRITE] and a key that is there it returns
    [MDB_KEYEXIST] and the value that is there, and changes nothing.  It fails
    for want of memory, room in the dirty list or pages, and the transaction is
    marked as failed.  Or it comes to the call of [mdb_page_spill], with
    nothing changed because the dirty list is short of room, or of
    [mdb_page_split], because the leaf is, with the path of the leaf writable
    and, if the key was there, its node deleted. *)
Theorem mdb_put_correct (file : Z -> option (list Z)) (me_flags me_map me_psize me_maxpg : Z)
    (os_malloc : gmap Z (list Z) -> Z -> option (Z * list Z)) (junk : nat -> Z) (mem_ok : Z -> bool) (need_ok : bool)
    (mt_txnid : Z) (readers : option (list MDB_reader * Z))
    (md_cmp : MDB_cmp_func) (D : MDB_val -> Prop) (ord : MDB_val -> MDB_val -> Z) (H : nat)
    (free_root : Z) (rootf : list Z) (hf : nat) (esf : list (MDB_val * MDB_val)) (recs : list free_rec) (fuel : nat)
    (me_nodemax main_depth : Z) (w : wtxn) (es : list (MDB_val * MDB_val)) (key data : MDB_val) (flags : Z) :
  Z.land me_flags MDB_WRITEMAP = 0 -> 16 <= me_psize -> me_maxpg <= 2 ^ 31 ->
  (forall mem sz a b, os_malloc mem sz = Some (a, b) -> mem !! a = None /\ zlen b = sz /\ Forall is_byte b) ->
  (length recs < fuel)%nat -> (H < 32)%nat ->
  cow_inv file me_flags me_psize me_maxpg readers mt_txnid md_cmp D ord H es free_root rootf hf esf recs w -> es <> [] ->
  Forall (fun m2 => 32 <= zlen (wc_pg m2) /\ 32 <= zlen (wc_ki m2)) (w_cursors w) ->
  md_entries (w_db w) = zlen es /\ zlen es + 1 < 2 ^ 64 ->
  D key -> val_ok key -> 0 < mv_size key <= ENV_MAXKEY -> val_ok data -> mv_size data <= MAXDATASIZE ->
  LEAFSIZE key data <= me_nodemax -> flags = 0 \/ flags = MDB_NOOVERWRITE ->
  (flags = 0 -> value_in_page file me_flags H w key) ->
  exists r, mdb_put file me_flags me_map me_psize me_maxpg os_malloc junk mem_ok need_ok mt_txnid readers free_root [] fuel
      me_nodemax md_cmp main_depth true w key data flags = Some r /\
    put_correct file me_flags me_psize me_maxpg mt_txnid readers md_cmp D ord H free_root rootf hf esf recs
      me_nodemax main_depth w es key data flags r.
Proof. intros. by apply put_ok. Qed.

(** C4: what [mdb_put] wrote is what [mdb_get] reads: after a successful
    [mdb_put] under the hypotheses of [mdb_put_correct], [mdb_get] in the same transaction returns the new value
    for its key, and for every other key what it would have returned before. *)
Theorem mdb_put_get (file : Z -> option (list Z)) (me_flags me_map me_psize me_maxpg : Z)
    (os_malloc : gmap Z (list Z) -> Z -> option (Z * list Z)) (junk : nat -> Z) (mem_ok : Z -> bool) (need_ok : bool)
    (mt_txnid : Z) (readers : option (list MDB_reader * Z))
    (md_cmp : MDB_cmp_func) (D : MDB_val -> Prop) (ord : MDB_val -> MDB_val -> Z) (H : nat)
    (free_root : Z) (rootf : list Z) (hf : nat) (esf : list (MDB_val * MDB_val)) (recs : list free_rec) (fuel : nat)
    (me_nodemax main_depth : Z) (w w' : wtxn) (es : list (MDB_val * MDB_val)) (key data k : MDB_val) (flags : Z)
    (out : option MDB_val) (mc' : wcursor) :
  Z.land me_flags MDB_WRITEMAP = 0 -> 16 <= me_psize -> me_maxpg <= 2 ^ 31 ->
  (forall mem sz a b, os_malloc mem sz = Some (a, b) -> mem !! a = None /\ zlen b = sz /\ Forall is_byte b) ->
  (length recs < fuel)%nat -> (H < 32)%nat ->
  cow_inv file me_flags me_psize me_maxpg readers mt_txnid md_cmp D ord H es free_root rootf hf esf recs w -> es <> [] ->
  Forall (fun m2 => 32 <= zlen (wc_pg m2) /\ 32 <= zlen (wc_ki m2)) (w_cursors w) ->
  md_entries (w_db w) = zlen es /\ zlen es + 1 < 2 ^ 64 ->
  D key -> val_ok key -> 0 < mv_size key <= ENV_MAXKEY -> val_ok data -> mv_size data <= MAXDATASIZE ->
  LEAFSIZE key data <= me_nodemax -> flags = 0 \/ flags = MDB_NOOVERWRITE ->
  (flags = 0 -> value_in_page file me_flags H w key) ->
  mdb_put file me_flags me_map me_psize me_maxpg os_malloc junk mem_ok need_ok mt_txnid readers free_root [] fuel
    me_nodemax md_cmp main_depth true w key data flags = Some (PutDone MDB_SUCCESS out w' mc') ->
  D k -> 0 < mv_size k ->
  exists r, mdb_get (view file me_flags [] w') md_cmp 0 (w_root w') (a_mt_flags (w_alloc w')) k = Some r /\
    if decide (k = key) then o_rc r = MDB_SUCCESS /\ o_data r = Some data
    else (forall d, (k, d) ∈ es -> o_rc r = MDB_SUCCESS /\ o_data r = Some d) /\ ((forall d, (k, d) ∉ es) -> o_rc r = MDB_NOTFOUND).
Proof.
  intros ? ? ? ? ? ? Hinv Hes Hcs Hent Dk Hkey Hks Hdata Hd32 Hsize Hflags Hbig Hput ? ?.
  destruct (put_ok file me_flags me_map me_psize me_maxpg os_malloc junk mem_ok need_ok mt_txnid readers ltac:(assumption) ltac:(assumption)
    ltac:(assumption) ltac:(assumption) md_cmp D ord H free_root rootf hf esf recs fuel me_nodemax main_depth ltac:(assumption) ltac:(assumption)
    w es key data flags Hinv Hes Hcs Hent Dk Hkey Hks Hdata Hd32 Hsize Hflags Hbig) as (r & E & Hr).
  rewrite Hput in E. injection E as <-. destruct Hr as [(_ & _ & _ & Hi & _)|[(E & _)|[[E|[E|E]] _]]]; try done.
  by apply (get_after_put file me_flags me_psize me_maxpg mt_txnid readers ltac:(assumption) md_cmp D ord H free_root rootf hf esf recs
    ltac:(assumption) es key data Dk w' k Hi).
Qed.

(** ** The example of [CursorTouch.v] *)

Abbreviation put3 := (mdb_put file3 0 0 64 100 malloc0 (fun _ => 0) (fun _ => true) true 8 readers6 2 [] 3 22 cmp_memn 0 true txn0).
Definition key9 : MDB_val := Val 1 [9].
Definition data3 : MDB_val := Val 3 [1; 2; 3].

Lemma txn0_in_page (key : MDB_val) : value_in_page file3 0 1 txn0 key.
Proof.
  intros x m k Hx Hm Hl Hk _. destruct seen0_pages as (E7 & E3 & E4 & _).
  change (w_root txn0) with 7 in Hx. rewrite (pages7 (fun _ => [])) in Hx by reflexivity.
  rewrite !elem_of_cons in Hx. destruct Hx as [->|[->|[->|Hx]]]; [..|by apply elem_of_nil in Hx].
  - rewrite E7 in Hm. by injection Hm as <-.
  - rewrite E3 in Hm. injection Hm as <-. change (p_num leaf3) with 2 in Hk.
    assert (k = 0 \/ k = 1) as [->| ->] by lia; reflexivity.
  - rewrite E4 in Hm. injection Hm as <-. change (p_num leaf4) with 1 in Hk.
    assert (k = 0) as -> by lia. reflexivity.
Qed.

Lemma put_witness : exists r, put3 key9 data3 0 = Some r /\
  put_correct file3 0 64 100 8 readers6 cmp_memn short lex_ord 1 2 free_root 0 free_items free_recs 22 0 txn0 items3 key9 data3 0 r.
Proof.
  apply (mdb_put_correct file3 0 0 64 100 malloc0 (fun _ => 0) (fun _ => true) true 8 readers6 cmp_memn short lex_ord 1 2 free_root 0
    free_items free_recs 3 22 0 txn0 items3 key9 data3 0).
  - reflexivity.
  - lia.
  - lia.
  - exact malloc0_ok.
  - apply Nat.ltb_lt. reflexivity.
  - apply Nat.ltb_lt. reflexivity.
  - exact cow0.
  - done.
  - apply Forall_cons. split; [|by apply Forall_nil]. split; closed.
  - split; [reflexivity|closed].
  - apply shortb_sound. reflexivity.
  - apply val_ok_dec. reflexivity.
  - closed.
  - apply val_ok_dec. reflexivity.
  - closed.
  - closed.
  - by left.
  - intros _. apply txn0_in_page.
Defined.

(** The call succeeds. *)
Definition done_ok (r : option put_result) : bool := match r with Some (PutDone rc None _ _) => rc =? MDB_SUCCESS | _ => false end.

Lemma done_ok_out (r : option put_result) : done_ok r = true -> exists w' mc', r = Some (PutDone MDB_SUCCESS None w' mc').
Proof. destruct r as [[rc [?|] w' mc'|? ?|? ? ?]|]; try done. intros E%Z.eqb_eq. exists w', mc'. by rewrite E. Qed.

Lemma put9_done : done_ok (put3 key9 data3 0) = true.
Proof. vm_compute. reflexivity. Qed.

Lemma put_get_witness : exists w' mc', put3 key9 data3 0 = Some (PutDone MDB_SUCCESS None w' mc') /\
  exists r, mdb_get (view file3 0 [] w') cmp_memn 0 (w_root w') (a_mt_flags (w_alloc w')) key9 = Some r /\
    if decide (key9 = key9) then o_rc r = MDB_SUCCESS /\ o_data r = Some data3
    else (forall d, (key9, d) ∈ items3 -> o_rc r = MDB_SUCCESS /\ o_data r = Some d) /\
      ((forall d, (key9, d) ∉ items3) -> o_rc r = MDB_NOTFOUND).
Proof.
  destruct (done_ok_out _ put9_done) as (w' & mc' & E). exists w', mc'. split; [exact E|].
  apply (mdb_put_get file3 0 0 64 100 malloc0 (fun _ => 0) (fun _ => true) true 8 readers6 cmp_memn short lex_ord 1 2 free_root 0
    free_items free_recs 3 22 0 txn0 w' items3 key9 data3 key9 0 None mc').
  - reflexivity.
  - lia.
  - lia.
  - exact malloc0_ok.
  - apply Nat.ltb_lt. reflexivity.
  - apply Nat.ltb_lt. reflexivity.
  - exact cow0.
  - done.
  - apply Forall_cons. split; [|by apply Forall_nil]. split; closed.
  - split; [reflexivity|closed].
  - apply shortb_sound. reflexivity.
  - apply val_ok_dec. reflexivity.
  - closed.
  - apply val_ok_dec. reflexivity.
  - closed.
  - closed.
  - by left.
  - intros _. apply txn0_in_page.
  - exact E.
  - apply shortb_sound. reflexivity.
  - closed.
Defined.

(** A new key: the root and the first leaf are copied to pages 11 and 12, and
    the other cursor, on the first leaf, goes with them; a second call with
    [MDB_NOOVERWRITE] finds the key. *)
Example put_example : option_map (fun r => match r with
    | PutDone rc out w mc => (rc, out, (w_root w, md_entries (w_db w)), (midl_ids (cells (w_free_pgs w)), mid <$> dirty_of w),
        (take 2 (wc_ki mc), (fun m2 => (take 2 (wc_pg m2), take 2 (wc_ki m2))) <$> w_cursors w))
    | _ => (1, None, (0, 0), ([], []), ([], []))
    end) (put3 (Val 1 [4]) data3 0) =
  Some (MDB_SUCCESS, None, (11, 4), ([7; 3], [11; 12]), ([0; 0], [([Some (Heap 0); Some (Heap 1)], [0; 1])])) /\
  option_map (fun r => match r with PutDone rc out _ _ => (rc, out) | _ => (1, None) end) (put3 key9 data3 MDB_NOOVERWRITE) =
  Some (MDB_KEYEXIST, Some (Val 1 [10])).
Proof. split; vm_compute; reflexivity. Qed.
