(* ===== verification/Forest.v ===== *)
(** * The children of a branch page as a list

    A branch page is a list of children, each with the key that separates it
    from the one before it; the first key is not used.  [forest]: the children
    are trees whose items lie between the separators.  Lists of children can be
    joined, divided and get new members, which is what splitting pages of a
    B+tree does ([mdb_page_split], [src/LegacyDatabase/mdb.c]). *)
From S2P Require Import Prelude.
From S2P Require Import Bytes.
From S2P Require Import Page.
From S2P Require Import PageSpec.
From S2P Require Import NodeOps.
From S2P Require Import Cmp.
From S2P Require Import NodeSearch.
From S2P Require Import Tree.
From S2P Require Import CursorPath.
From S2P Require Import PageSplit.
From S2P Require Import Cow.
From S2P Require Import LeafItems.
From Stdlib Require Import ZArith Lia Sorted.
From stdpp Require Import base numbers option list.
Open Scope Z_scope.

(** ** The children of a page *)

Definition raw_pgno (r : list Z) : Z := raw_dsize r + 2 ^ 32 * raw_flags r.
Definition kid_of (r : list Z) : MDB_val * Z := (raw_key r, raw_pgno r).
Definition kids (m : list Z) : list (MDB_val * Z) := kid_of <$> p_raw m.

Lemma kid_fields (m : list Z) (k : Z) : page_wf m -> 0 <= k < p_num m -> kid_of (zn (p_raw m) k) = (n_key m k, n_pgno m k).
Proof.
  intros Hwf Hk. destruct (n_raw_eq m k Hwf Hk) as (E & _ & _ & _ & H8). destruct (n_key_in m k Hwf Hk) as (_ & _ & Hks).
  destruct (NODEDSZ_ok m k Hwf Hk) as [_ Hd].
  assert (8 + g16 m (p_ptr m k + 6) <= n_raw m k) by (destruct (p_leaf m); [destruct (F_ISSET _ _)|]; lia).
  unfold kid_of, raw_pgno, raw_key, raw_dsize, raw_flags, raw_ksize, n_key, n_pgno, n_lohi, n_flags.
  rewrite !(raw_g16 m k Hwf Hk), Z.add_0_r by lia. by rewrite (raw_slice m k Hwf Hk) by lia.
Qed.

Lemma kids_eq (m : list Z) : page_wf m -> kids m = (fun k => (n_key m k, n_pgno m k)) <$> seqZ 0 (p_num m).
Proof.
  intros Hwf. pose proof (zlen_p_raw m Hwf) as Hz. unfold kids. apply list_eq. intros i. rewrite !list_lookup_fmap.
  destruct (p_raw m !! i) as [r|] eqn:E; cbn [fmap option_fmap option_map].
  - destruct (lookup_p_raw m i r Hwf E) as [Hi ->]. rewrite kid_fields by done.
    by rewrite (proj2 (lookup_seqZ 0 (p_num m) i (Z.of_nat i))) by lia.
  - apply lookup_ge_None in E. rewrite lookup_seqZ_ge by (unfold zlen in Hz; lia). done.
Qed.

(** A new branch node, and a first node without its key. *)
Lemma kid_new (key : MDB_val) (pgno : Z) : val_ok key -> mv_size key < 65536 -> 0 <= pgno < 2 ^ 48 ->
  kid_of (NodeOps.branch_node (Some key) pgno) = (key, pgno).
Proof.
  intros [Hs Hb] Hk Hp. pose proof (zlen_nonneg (mv_data key)). unfold NodeOps.branch_node. rewrite app_assoc.
  change 6%nat with (2 + (2 + 2))%nat. rewrite (le_bytes_app 2), (le_bytes_app 2 2).
  set (a := pgno). set (b := Z.shiftr a (8 * Z.of_nat 2)). set (c := Z.shiftr b (8 * Z.of_nat 2)).
  assert ((le_bytes 2 a ++ le_bytes 2 b ++ le_bytes 2 c) ++ le_bytes 2 (mv_size key) =
    (le_bytes 2 a ++ le_bytes 2 b) ++ le_bytes 2 c ++ le_bytes 2 (mv_size key)) as -> by (by rewrite <- !app_assoc).
  destruct (g16_hdr a b c (mv_size key)) as (E0 & E2 & E4 & E6).
  set (h := (le_bytes 2 a ++ le_bytes 2 b) ++ le_bytes 2 c ++ le_bytes 2 (mv_size key)) in *.
  assert (zlen h = 8) as Hh by (unfold h; arr; lia).
  assert (forall o, 0 <= o <= 6 -> g16 (h ++ mv_data key) o = g16 h o) as Hg.
  { intros o Ho. transitivity (g16 (slice (h ++ mv_data key) 0 8) o); [by rewrite g16_slice by zlia|].
    by rewrite slice_app_l, slice_full by lia. }
  rewrite (uwrap_small 16 (mv_size key)) in E6 by lia.
  unfold kid_of, raw_key, raw_ksize. rewrite Hg, E6 by lia. f_equal.
  - destruct key as [n d]. cbn [mv_size mv_data] in *. f_equal.
    rewrite slice_app_r by (rewrite ?Hh; lia). rewrite Hh, Hs. apply slice_all.
  - unfold raw_pgno, raw_dsize, raw_flags. rewrite !Hg, E0, E2, E4 by lia. unfold b, c, a, uwrap.
    rewrite !Z.shiftr_div_pow2 by lia. change (8 * Z.of_nat 2) with 16.
    pose proof (Z.div_mod pgno (2 ^ 16)). pose proof (Z.div_mod (pgno / 2 ^ 16) (2 ^ 16)).
    unfold b, a. rewrite Z.shiftr_div_pow2 by lia. change (8 * Z.of_nat 2) with 16.
    rewrite (Z.mod_small (pgno / 2 ^ 16 / 2 ^ 16)); [lia|].
    split; [apply Z.div_pos; [apply Z.div_pos|]; lia|]. do 2 (apply Z.div_lt_upper_bound; [lia|]). lia.
Qed.

Lemma kids_inserted (m m' : list Z) (k : Z) (key : MDB_val) (pgno : Z) : page_wf m -> p_leaf m = false -> val_ok key ->
  mv_size key < 65536 -> 0 <= pgno < 2 ^ 48 -> inserted m k (NodeOps.branch_node (Some key) pgno) m' ->
  kids m' = with_new (kids m) k (key, pgno).
Proof.
  intros Hwf Hl Hv Hk Hp Hi. pose proof (kid_new key pgno Hv Hk Hp) as E. set (bs := NodeOps.branch_node (Some key) pgno) in *.
  destruct Hv as [Hs Hb]. pose proof (zlen_nonneg (mv_data key)).
  assert (zlen bs = 8 + mv_size key) as Hz by (unfold bs, NodeOps.branch_node; rewrite !zlen_app, !zlen_le_bytes, <- Hs; lia).
  assert (raw_ksize bs = mv_size key) as Hr by exact (f_equal (fun kd => mv_size kd.1) E).
  unfold kids. rewrite (inserted_raw m m' bs k Hwf Hi); [by rewrite with_new_fmap, E|lia|].
  rewrite Hl. unfold hdr_raw. fold (raw_ksize bs). lia.
Qed.

(** ** Children between separators *)

Section Forest.
Context (md_cmp : MDB_cmp_func) (D : MDB_val -> Prop) (ord : MDB_val -> MDB_val -> Z).
Abbreviation items := (list (MDB_val * MDB_val)).
Abbreviation kid := (MDB_val * Z)%type.

Definition bounded (lo hi : option MDB_val) (x : MDB_val) : Prop :=
  D x /\ (match lo with Some k => ord k x <= 0 | None => True end) /\ match hi with Some k => ord x k < 0 | None => True end.

Definition subtree (get : Z -> option (list Z)) (h : nat) (p : Z) (es : items) : Prop :=
  exists child, get p = Some child /\ child <> [] /\ es <> [] /\ tree get md_cmp D ord h child es.

(** The key of the first child, and the bound that comes after a list. *)
Definition head_key (l : list kid) (hi : option MDB_val) : option MDB_val := match l with kd :: _ => Some kd.1 | [] => hi end.
Definition opt_D (k : option MDB_val) : Prop := match k with Some k => D k | None => True end.

Fixpoint forest (get : Z -> option (list Z)) (h : nat) (lo : option MDB_val) (l : list kid) (hi : option MDB_val)
    (ess : list items) : Prop :=
  match l, ess with
  | [], [] => True
  | kd :: l, es :: ess => subtree get h kd.2 es /\ Forall (fun e => bounded lo (head_key l hi) e.1) es /\
      opt_D (head_key l None) /\ forest get h (head_key l hi) l hi ess
  | _, _ => False
  end.

Section Get.
Variables (get : Z -> option (list Z)) (h : nat).
Abbreviation forest := (forest get h).

Lemma forest_length (l : list kid) : forall lo hi ess, forest lo l hi ess -> length ess = length l.
Proof. induction l as [|kd l IH]; intros lo hi [|es ess] Hf; try done. cbn [length]. f_equal. destruct Hf as (_ & _ & _ & Hf). by eapply IH. Qed.

(** The key of the first child is not used. *)
Lemma forest_head (k k' : MDB_val) (p : Z) (l : list kid) (lo hi : option MDB_val) (ess : list items) :
  forest lo ((k, p) :: l) hi ess -> forest lo ((k', p) :: l) hi ess.
Proof. done. Qed.

Lemma bounded_weaken (lo hi : option MDB_val) (x : MDB_val) : bounded lo hi x -> bounded None hi x /\ bounded lo None x /\ bounded None None x.
Proof. intros (H1 & H2 & H3). by split_and!. Qed.

Lemma forest_lo (l : list kid) (lo hi : option MDB_val) (ess : list items) : forest lo l hi ess -> forest None l hi ess.
Proof.
  destruct l as [|kd l], ess as [|es ess]; try done. intros (H1 & H2 & H3). split; [done|]. split; [|done].
  apply (Forall_impl _ _ _ H2). intros e He. apply bounded_weaken in He. tauto.
Qed.

Lemma forest_hi (l : list kid) : forall (lo hi : option MDB_val) (ess : list items), forest lo l hi ess -> forest lo l None ess.
Proof.
  induction l as [|kd l IH]; intros lo hi [|es ess]; try done. intros (H1 & H2 & H3 & H4).
  split; [done|]. destruct l as [|kd' l].
  - split; [|split; [done|by destruct ess]]. apply (Forall_impl _ _ _ H2). intros e He. apply bounded_weaken in He. tauto.
  - split; [exact H2|]. split; [done|]. by eapply IH.
Qed.

(** Two lists, the first of which is not empty. *)
Lemma forest_join (l1 : list kid) : forall (l2 : list kid) (lo hi : option MDB_val) (ess1 ess2 : list items), l1 <> [] ->
  forest lo l1 (head_key l2 hi) ess1 -> forest (head_key l2 hi) l2 hi ess2 -> opt_D (head_key l2 None) ->
  forest lo (l1 ++ l2) hi (ess1 ++ ess2).
Proof.
  induction l1 as [|kd l1 IH]; intros l2 lo hi [|es ess1] ess2 Hne H1 H2 HD; try done.
  destruct H1 as (Hs & Hb & Hd & H1). cbn [app]. destruct l1 as [|kd' l1].
  - destruct ess1; [|done]. by split.
  - split; [exact Hs|]. split; [exact Hb|]. split; [exact Hd|]. by apply (IH l2 (Some kd'.1)).
Qed.

Lemma forest_split (l1 : list kid) : forall (l2 : list kid) (lo hi : option MDB_val) (ess : list items), l1 <> [] ->
  forest lo (l1 ++ l2) hi ess -> exists ess1 ess2, ess = ess1 ++ ess2 /\ forest lo l1 (head_key l2 hi) ess1 /\
    forest (head_key l2 hi) l2 hi ess2 /\ opt_D (head_key l2 None).
Proof.
  induction l1 as [|kd l1 IH]; intros l2 lo hi ess Hne Hf; [done|]. destruct ess as [|es ess]; [done|].
  cbn [app] in Hf. destruct Hf as (Hs & Hb & Hd & Hf). destruct l1 as [|kd' l1].
  - exists [es], ess. by split_and!.
  - destruct (IH l2 (Some kd'.1) hi ess) as (ess1 & ess2 & -> & H1 & H2 & H3); [done|exact Hf|]. exists (es :: ess1), ess2. by split_and!.
Qed.

(** The child at a place. *)
Lemma forest_at (l : list kid) : forall (lo hi : option MDB_val) (ess : list items) (i : nat) (kd : kid),
  forest lo l hi ess -> l !! i = Some kd -> exists es, ess !! i = Some es /\ subtree get h kd.2 es /\
    Forall (fun e => bounded (match i with O => lo | _ => Some kd.1 end) (head_key (drop (S i) l) hi) e.1) es.
Proof.
  induction l as [|kd0 l IH]; intros lo hi ess i kd Hf Hi; [done|]. destruct ess as [|es ess]; [done|].
  destruct Hf as (Hs & Hb & Hd & Hf). destruct i as [|i]; cbn [lookup list_lookup] in Hi.
  - injection Hi as <-. by exists es.
  - destruct (IH _ _ _ _ _ Hf Hi) as (es' & E & Hs' & Hb'). exists es'. split; [done|]. split; [done|].
    destruct i as [|i]; [|exact Hb']. destruct l as [|kd1 l]; [done|]. cbn in Hi. by injection Hi as <-.
Qed.

Lemma forest_of (l : list kid) : forall (lo hi : option MDB_val) (ess : list items), length ess = length l ->
  (forall i kd, l !! i = Some kd -> exists es, ess !! i = Some es /\ subtree get h kd.2 es /\ (i <> O -> D kd.1) /\
    Forall (fun e => bounded (match i with O => lo | _ => Some kd.1 end) (head_key (drop (S i) l) hi) e.1) es) ->
  forest lo l hi ess.
Proof.
  induction l as [|kd l IH]; intros lo hi [|es ess] Hl Hall; try done. split_and!.
  - destruct (Hall O kd eq_refl) as (es' & E & Hs & _). by injection E as ->.
  - destruct (Hall O kd eq_refl) as (es' & E & _ & _ & Hb). by injection E as ->.
  - destruct l as [|kd1 l]; [done|]. destruct (Hall 1%nat kd1 eq_refl) as (_ & _ & _ & HD & _). by apply HD.
  - apply IH; [by injection Hl|]. intros i kd' Hi. destruct (Hall (S i) kd' Hi) as (es' & E & Hs & HD & Hb).
    exists es'. split_and!; auto. destruct i as [|i]; [|exact Hb]. destruct l as [|kd1 l]; [done|]. cbn in Hi. by injection Hi as ->.
Qed.

(** ** Order *)

Hypothesis O : order_laws D ord.

(** All items are between the bounds. *)
Lemma forest_bounds (l : list kid) : forall (lo hi : option MDB_val) (ess : list items), l <> [] -> opt_D lo -> opt_D hi ->
  forest lo l hi ess -> Forall (fun e => bounded lo hi e.1) (concat ess) /\ concat ess <> [].
Proof.
  induction l as [|kd l IH]; intros lo hi [|es ess] Hne Dlo Dhi Hf; try done. destruct Hf as (Hs & Hb & Hd & Hf).
  destruct Hs as (_ & _ & _ & Hes & _). cbn [concat]. destruct l as [|kd1 l].
  { destruct ess; [|done]. cbn [concat]. rewrite app_nil_r. by split. }
  destruct (IH (Some kd1.1) hi ess ltac:(done) Hd Dhi Hf) as [Hb1 Hn1]. cbn [head_key opt_D] in *. split; [|by destruct es].
  assert (exists e, e ∈ concat ess) as (e1 & He1) by (destruct (concat ess); [done|eexists; by left]).
  assert (exists e, e ∈ es) as (e0 & He0) by (destruct es; [done|eexists; by left]).
  rewrite Forall_forall in Hb, Hb1. apply Forall_app. split; apply Forall_forall.
  - intros e He. destruct (Hb e He) as (De & Hlo & Hhi). destruct (Hb1 e1 He1) as (De1 & Hlo1 & Hhi1). split_and!; auto.
    destruct hi as [k|]; [|done]. apply (ol_trans D ord O _ kd1.1); auto. by apply (ol_le_lt_trans D ord _ e1.1).
  - intros e He. destruct (Hb e0 He0) as (De0 & Hlo0 & Hhi0). destruct (Hb1 e He) as (De & Hlo & Hhi). split_and!; auto.
    destruct lo as [k|]; [|done]. assert (ord k e.1 < 0); [|lia].
    apply (ol_le_lt_trans D ord _ e0.1); auto. by apply (ol_le_trans D ord _ kd1.1).
Qed.

(** The separators are sorted. *)
Definition k_lt (a b : kid) : Prop := D a.1 /\ D b.1 /\ ord a.1 b.1 < 0.

Lemma forest_sorted (l : list kid) : forall (lo hi : option MDB_val) (ess : list items), opt_D hi -> forest lo l hi ess ->
  StronglySorted k_lt (tail l) /\ Forall (fun kd => D kd.1) (tail l).
Proof.
  induction l as [|kd l IH]; intros lo hi [|es ess] Dhi Hf; try done; cbn [tail]; [by split; constructor..|].
  destruct Hf as (Hs & Hb & Hd & Hf). destruct (IH _ _ _ Dhi Hf) as [Hss HD]. destruct l as [|kd1 l]; [by split; constructor|].
  cbn [tail] in *. cbn [head_key opt_D] in *. split; [|by constructor]. destruct ess as [|es1 ess]; [done|].
  destruct Hf as (Hs1 & Hb1 & Hd1 & Hf). destruct l as [|kd2 l]; [by repeat constructor|].
  destruct Hs1 as (_ & _ & _ & Hne & _). assert (exists e, e ∈ es1) as (e & He) by (destruct es1; [done|eexists; by left]).
  rewrite Forall_forall in Hb1. destruct (Hb1 e He) as (De & Hlo & Hhi). cbn [head_key] in *.
  assert (k_lt kd1 kd2) as H12.
  { inversion HD; subst. split_and!; auto. by apply (ol_le_lt_trans D ord _ e.1). }
  inversion Hss as [|? ? Hss2 Hall]; subst. constructor; [done|]. constructor; [done|].
  rewrite Forall_forall in Hall |- *. intros kd' Hk. destruct (Hall kd' Hk) as (D2 & D' & H2'). destruct H12 as (D1 & _ & H12).
  split_and!; auto. by apply (ol_trans D ord O _ kd2.1).
Qed.
End Get.
End Forest.

Arguments forest : simpl never.

(** ** Branch pages *)

Lemma kids_lookup (m : list Z) (k : Z) : page_wf m -> 0 <= k < p_num m -> kids m !! Z.to_nat k = Some (n_key m k, n_pgno m k).
Proof.
  intros Hwf Hk. rewrite kids_eq by done. rewrite list_lookup_fmap.
  by rewrite (proj2 (lookup_seqZ 0 (p_num m) (Z.to_nat k) k)) by lia.
Qed.

Lemma kids_length (m : list Z) : page_wf m -> zlen (kids m) = p_num m.
Proof. intros Hwf. unfold kids. rewrite zlen_fmap. by apply zlen_p_raw. Qed.

(** The bounds of child [k]. *)
Lemma bounded_child (D : MDB_val -> Prop) (ord : MDB_val -> MDB_val -> Z) (m : list Z) (k : Z) (x : MDB_val) : page_wf m -> 0 <= k < p_num m ->
  bounded D ord (match Z.to_nat k with O => None | _ => Some (n_key m k) end) (head_key (drop (S (Z.to_nat k)) (kids m)) None) x <->
  in_child D ord m k x.
Proof.
  intros Hwf Hk. unfold bounded, in_child.
  assert (head_key (drop (S (Z.to_nat k)) (kids m)) None = if decide (k + 1 < p_num m) then Some (n_key m (k + 1)) else None) as ->.
  { destruct (decide (k + 1 < p_num m)).
    - replace (S (Z.to_nat k)) with (Z.to_nat (k + 1)) by lia. by rewrite (drop_S _ _ _ (kids_lookup m (k + 1) Hwf ltac:(lia))).
    - pose proof (kids_length m Hwf) as Hz. by rewrite drop_ge by (unfold zlen in Hz; lia). }
  destruct (Z.to_nat k) eqn:E; destruct (decide (k + 1 < p_num m)); split; intros (H1 & H2 & H3); split_and!; auto; try lia;
    intros; try lia; auto; apply H2 || apply H3; lia.
Qed.

Section Branch.
Context (md_cmp : MDB_cmp_func) (D : MDB_val -> Prop) (ord : MDB_val -> MDB_val -> Z).
Abbreviation items := (list (MDB_val * MDB_val)).
Abbreviation forest := (forest md_cmp D ord).
Abbreviation subtree := (subtree md_cmp D ord).

(** The comparator that the code uses on a branch page implements the order. *)
Definition branch_order : Prop := forall m, page_wf m -> p_branch m = true -> 1 < p_num m -> D (n_key m 1) ->
  exists c' (KO : KeyOrder (run_cmp c') D), eff_cmp m md_cmp = Some c' /\ forall a b, ko_ord a b = ord a b.

(** A page with the children is a tree. *)
Lemma forest_tree (get : Z -> option (list Z)) (h : nat) (m : list Z) (ess : list items) : order_laws D ord -> branch_order ->
  page_wf m -> p_leaf m = false -> p_branch m = true -> 1 < p_num m -> forest get h None (kids m) None ess ->
  tree get md_cmp D ord (S h) m (concat ess).
Proof.
  intros O HB Hwf Hl Hb Hn Hf. pose proof (kids_length m Hwf) as Hz.
  destruct (forest_sorted md_cmp D ord get h O (kids m) None None ess ltac:(done) Hf) as [Hss HD].
  assert (forall k, 1 <= k < p_num m -> tail (kids m) !! Z.to_nat (k - 1) = Some (n_key m k, n_pgno m k)) as Htl.
  { intros k Hk. rewrite lookup_tail. replace (S (Z.to_nat (k - 1))) with (Z.to_nat k) by lia. apply kids_lookup; [done|lia]. }
  split_and!; auto.
  - destruct (HB m Hwf Hb Hn) as (c' & KO & Ec & Ho); [by apply (Forall_lookup_1 _ _ _ _ HD (Htl 1 ltac:(lia)))|].
    exists c', KO. split_and!; auto. unfold keys_sorted, first_key. rewrite Hl. split.
    + intros j Hj. by apply (Forall_lookup_1 _ _ _ _ HD (Htl j Hj)).
    + intros j j' Hj Hjj Hj'. rewrite Ho.
      by destruct (sorted_at _ _ (Z.to_nat (j - 1)) (Z.to_nat (j' - 1)) _ _ Hss ltac:(lia) (Htl j ltac:(lia)) (Htl j' ltac:(lia))) as (_ & _ & ?).
  - exists ess. split; [done|]. pose proof (forest_length md_cmp D ord get h _ _ _ _ Hf) as Hlen. split; [unfold zlen in *; lia|].
    intros k Hk. destruct (forest_at md_cmp D ord get h _ _ _ _ _ _ Hf (kids_lookup m k Hwf Hk)) as (es & He & (c & Hg & Hnil & Hne & Ht) & Hbd).
    exists c, es. split_and!; auto.
    + unfold aget. by rewrite (proj2 (Z.leb_le 0 k)) by lia.
    + apply (Forall_impl _ _ _ Hbd). intros e. by apply bounded_child.
Qed.

(** The children on both sides of a place. *)
Lemma sides_forest (get : Z -> option (list Z)) (h : nat) (m : list Z) (k : Z) (ls rs : list items) : order_laws D ord ->
  branch_sides md_cmp D ord get h m k ls rs -> 0 <= k < p_num m ->
  forest get h None (take (Z.to_nat k) (kids m)) (Some (n_key m k)) ls /\
  forest get h (head_key (drop (Z.to_nat (k + 1)) (kids m)) None) (drop (Z.to_nat (k + 1)) (kids m)) None rs /\
  (forall j, 1 <= j < p_num m -> D (n_key m j)).
Proof.
  intros O [Hwf Hl Hb Hn Ho H1 H2 Hch] Hk. pose proof (kids_length m Hwf) as Hz.
  assert (forall j, 1 <= j < p_num m -> D (n_key m j)) as HD.
  { destruct Ho as (c' & KO & _ & _ & [HD _]). intros j Hj. apply HD. unfold first_key. rewrite Hl. lia. }
  assert (forall j, 0 <= j < p_num m -> j <> k -> exists es, (ls ++ [] :: rs) !! Z.to_nat j = Some es /\ subtree get h (n_pgno m j) es /\
    Forall (fun e => in_child D ord m j e.1) es) as Hat.
  { intros j Hj Hjk. destruct (Hch j Hj Hjk) as (c & es & Ha & Hg & Hnil & Hne & Ht & Hin). exists es.
    unfold aget in Ha. rewrite (proj2 (Z.leb_le 0 j)) in Ha by lia. split; [done|]. split; [by exists c|done]. }
  split; [|split; [|done]].
  - apply forest_of; [rewrite length_take; unfold zlen in *; lia|]. intros i kd Hi. apply lookup_take_Some in Hi as [Hi Hlt].
    pose proof (kids_lookup m (Z.of_nat i) Hwf ltac:(lia)) as Hki. rewrite Nat2Z.id in Hki. rewrite Hi in Hki. injection Hki as ->.
    destruct (Hat (Z.of_nat i) ltac:(lia) ltac:(lia)) as (es & He & Hs & Hin). rewrite Nat2Z.id in He.
    rewrite lookup_app_l in He by (unfold zlen in *; lia). exists es. split_and!; auto; [intros; apply HD; lia|].
    apply (Forall_impl _ _ _ Hin). intros e He1. apply (bounded_child D ord m (Z.of_nat i) e.1 Hwf ltac:(lia)) in He1.
    rewrite Nat2Z.id in He1. cbn [fst]. destruct He1 as (E1 & E2 & E3). split; [done|]. split; [done|].
    rewrite skipn_firstn_comm. destruct (drop (S i) (kids m)) as [|kd' l'] eqn:Ed.
    { exfalso. assert (length (drop (S i) (kids m)) = 0%nat) as E0 by (by rewrite Ed). rewrite length_drop in E0. unfold zlen in *. lia. }
    destruct (Z.to_nat k - S i)%nat as [|n] eqn:En; [|exact E3]. cbn [take head_key] in *.
    assert (kids m !! S i = Some kd') as Ek by (by rewrite <- (Nat.add_0_r (S i)), <- lookup_drop, Ed).
    replace (S i) with (Z.to_nat k) in Ek by lia. rewrite kids_lookup in Ek by done. injection Ek as <-. exact E3.
  - apply forest_of; [rewrite length_drop; unfold zlen in *; lia|]. intros i kd Hi. rewrite lookup_drop in Hi.
    assert (Z.to_nat (k + 1) + i < length (kids m))%nat as Hlt by (by eapply lookup_lt_Some).
    set (j := k + 1 + Z.of_nat i). assert (Z.to_nat j = Z.to_nat (k + 1) + i)%nat as Ej by lia. unfold zlen in *.
    pose proof (kids_lookup m j Hwf ltac:(lia)) as Hkj. rewrite Ej, Hi in Hkj. injection Hkj as ->.
    destruct (Hat j ltac:(lia) ltac:(lia)) as (es & He & Hs & Hin). exists es. split_and!; auto.
    + rewrite lookup_app_r in He by lia. replace (Z.to_nat j - length ls)%nat with (S i) in He by lia. exact He.
    + intros _. apply HD. lia.
    + apply (Forall_impl _ _ _ Hin). intros e He1. apply (bounded_child D ord m j e.1 Hwf ltac:(lia)) in He1.
      destruct He1 as (E1 & E2 & E3). cbn [fst]. split; [done|]. split.
      * destruct i as [|i].
        -- assert (j = k + 1) as Ejk by lia. rewrite <- Ejk, (drop_S _ _ _ (kids_lookup m j Hwf ltac:(lia))). cbn [head_key fst].
           destruct (Z.to_nat j) eqn:E0; [lia|]. exact E2.
        -- destruct (Z.to_nat j) eqn:E0; [lia|]. exact E2.
      * rewrite drop_drop. replace (Z.to_nat (k + 1) + S i)%nat with (S (Z.to_nat j)) by lia. exact E3.
Qed.
End Branch.

(** ** The pages of the children *)

Definition kid_pages (leafp : list Z -> list Z) (get : Z -> option (list Z)) (h : nat) (l : list (MDB_val * Z)) : list Z :=
  concat ((fun kd => sub_pages leafp get h kd.2) <$> l).

Lemma kid_pages_app (leafp : list Z -> list Z) (get : Z -> option (list Z)) (h : nat) (l1 l2 : list (MDB_val * Z)) :
  kid_pages leafp get h (l1 ++ l2) = kid_pages leafp get h l1 ++ kid_pages leafp get h l2.
Proof. unfold kid_pages. by rewrite fmap_app, concat_app. Qed.

Lemma gen_pages_kids (leafp : list Z -> list Z) (get : Z -> option (list Z)) (h : nat) (m : list Z) : page_wf m ->
  gen_pages leafp get (S h) m = kid_pages leafp get h (kids m).
Proof. intros Hwf. cbn [gen_pages]. unfold kid_pages. rewrite kids_eq by done. f_equal. rewrite <- list_fmap_compose. by apply list_fmap_ext. Qed.

(** The first key of a page is dropped. *)
Definition unkey (l : list (MDB_val * Z)) : list (MDB_val * Z) := match l with [] => [] | kd :: l => (Val 0 [], kd.2) :: l end.

Lemma kid_pages_unkey (leafp : list Z -> list Z) (get : Z -> option (list Z)) (h : nat) (l : list (MDB_val * Z)) :
  kid_pages leafp get h (unkey l) = kid_pages leafp get h l.
Proof. by destruct l. Qed.

Lemma forest_unkey md_cmp D ord (get : Z -> option (list Z)) (h : nat) (l : list (MDB_val * Z)) (lo hi : option MDB_val) ess :
  forest md_cmp D ord get h lo l hi ess -> forest md_cmp D ord get h lo (unkey l) hi ess.
Proof. by destruct l. Qed.

Lemma kids_unkeyed (m : list Z) (rs : list (list Z)) : Forall (fun r => 8 <= zlen r) rs -> p_raw m = unkeyed false rs ->
  kids m = unkey (kid_of <$> rs).
Proof.
  intros H8 Hr. unfold kids. rewrite Hr. destruct H8 as [|r rs H8 _]; [done|]. cbn [unkeyed fmap list_fmap unkey]. f_equal.
  assert (zlen (slice r 0 6) = 6) as H6 by (apply zlen_slice; lia).
  assert (forall o, 0 <= o <= 4 -> g16 (slice r 0 6 ++ [0; 0]) o = g16 r o) as Hg.
  { intros o Ho. transitivity (g16 (slice (slice r 0 6 ++ [0; 0]) 0 6) o); [rewrite g16_slice by (rewrite ?zlen_app, ?H6; change (zlen [0; 0]) with 2; lia); done|].
    rewrite slice_app_l, slice_full by lia. by rewrite g16_slice by lia. }
  assert (g16 (slice r 0 6 ++ [0; 0]) 6 = 0) as E6.
  { unfold g16. rewrite slice_app_r by (rewrite ?H6; change (zlen [0; 0]) with 2; lia). rewrite H6. reflexivity. }
  unfold kid_of, raw_key, raw_ksize, raw_pgno, raw_dsize, raw_flags. rewrite E6, !Hg by lia. cbn [snd]. f_equal.
Qed.

(** ** A new child *)

Section Insert.
Context (md_cmp : MDB_cmp_func) (D : MDB_val -> Prop) (ord : MDB_val -> MDB_val -> Z).
Abbreviation items := (list (MDB_val * MDB_val)).
Abbreviation forest := (forest md_cmp D ord).
Abbreviation subtree := (subtree md_cmp D ord).
Variables (get : Z -> option (list Z)) (h : nat) (m : list Z) (k q : Z) (sep : MDB_val) (ls rs : list items) (c1 c2 : items).
Hypothesis Hord : order_laws D ord.
Hypothesis Hside : branch_sides md_cmp D ord get h m k ls rs.
Hypothesis Hk : 0 <= k < p_num m.
Hypothesis Dsep : D sep.
Hypothesis H1 : subtree get h (n_pgno m k) c1.
Hypothesis H2 : subtree get h q c2.
Hypothesis Hin : Forall (fun e => in_child D ord m k e.1) (c1 ++ c2).
Hypothesis Hlt : Forall (fun e => ord e.1 sep < 0) c1.
Hypothesis Hge : Forall (fun e => ord sep e.1 <= 0) c2.

Lemma kids_mid : kids m = take (Z.to_nat k) (kids m) ++ (n_key m k, n_pgno m k) :: drop (Z.to_nat (k + 1)) (kids m).
Proof.
  pose proof (bs_wf _ _ _ _ _ _ _ _ _ Hside) as Hwf. replace (Z.to_nat (k + 1)) with (S (Z.to_nat k)) by lia.
  symmetry. apply take_drop_middle, kids_lookup; done.
Qed.

Lemma kids_new : with_new (kids m) (k + 1) (sep, q) =
  take (Z.to_nat k) (kids m) ++ (n_key m k, n_pgno m k) :: (sep, q) :: drop (Z.to_nat (k + 1)) (kids m).
Proof.
  pose proof (bs_wf _ _ _ _ _ _ _ _ _ Hside) as Hwf. unfold with_new. replace (Z.to_nat (k + 1)) with (S (Z.to_nat k)) by lia.
  rewrite (take_S_r _ _ (n_key m k, n_pgno m k)) by (by apply kids_lookup). by rewrite <- app_assoc.
Qed.

Lemma forest_insert : forest get h None (with_new (kids m) (k + 1) (sep, q)) None (ls ++ c1 :: c2 :: rs).
Proof.
  destruct (sides_forest md_cmp D ord get h m k ls rs Hord Hside Hk) as (Hl & Hr & HD).
  pose proof (bs_wf _ _ _ _ _ _ _ _ _ Hside) as Hwf. rewrite kids_new. apply Forall_app in Hin as [Hin1 Hin2].
  set (l2 := drop (Z.to_nat (k + 1)) (kids m)) in *.
  assert (forest get h (match Z.to_nat k with O => None | _ => Some (n_key m k) end)
    ((n_key m k, n_pgno m k) :: (sep, q) :: l2) None (c1 :: c2 :: rs)) as Hr'.
  { split; [exact H1|]. split; [|split; [exact Dsep|split; [exact H2|split; [|split; [|exact Hr]]]]].
    - apply Forall_forall. intros e He. rewrite Forall_forall in Hin1, Hlt.
      destruct (proj2 (bounded_child D ord m k e.1 Hwf Hk) (Hin1 e He)) as (E1 & E2 & _). split_and!; [done|done|by apply Hlt].
    - apply Forall_forall. intros e He. rewrite Forall_forall in Hin2, Hge.
      destruct (proj2 (bounded_child D ord m k e.1 Hwf Hk) (Hin2 e He)) as (E1 & _ & E3). split_and!; [done|by apply Hge|].
      replace (S (Z.to_nat k)) with (Z.to_nat (k + 1)) in E3 by lia. exact E3.
    - unfold l2. destruct (decide (k + 1 < p_num m)).
      + rewrite (drop_S _ _ _ (kids_lookup m (k + 1) Hwf ltac:(lia))). apply HD. lia.
      + pose proof (kids_length m Hwf) as Hz. by rewrite drop_ge by (unfold zlen in Hz; lia). }
  destruct (decide (k = 0)) as [->|Hk0].
  - change (Z.to_nat 0) with O in *. cbn [take] in *. destruct ls; [exact Hr'|done].
  - apply (forest_join md_cmp D ord get h _ _ None None ls).
    + intros E. pose proof (kids_length m Hwf) as Hz. assert (length (take (Z.to_nat k) (kids m)) = O) as E0 by (by rewrite E).
      rewrite length_take in E0. unfold zlen in Hz. lia.
    + exact Hl.
    + destruct (Z.to_nat k) eqn:E; [lia|]. exact Hr'.
    + apply HD. lia.
Qed.

Lemma pages_insert (leafp : list Z -> list Z) : Permutation (kid_pages leafp get h (with_new (kids m) (k + 1) (sep, q)))
  (side_pages leafp get h m k ++ sub_pages leafp get h (n_pgno m k) ++ sub_pages leafp get h q).
Proof.
  pose proof (bs_wf _ _ _ _ _ _ _ _ _ Hside) as Hwf. rewrite app_assoc, <- (pages_split leafp get h m k Hk).
  rewrite gen_pages_kids by done. rewrite kids_new. rewrite kids_mid at 3. unfold kid_pages. rewrite !fmap_app, !concat_app.
  cbn [fmap list_fmap concat snd]. solve_Permutation.
Qed.
End Insert.
