(* ===== verification/Grow.v ===== *)
(** * New pages and changed pages of a transaction

    [grown]: what a write transaction ([src/LegacyDatabase/mdb.c]) has done
    since a state in which the invariant held: it has taken new pages, written
    pages of its own, and holds blocks of memory that are in no list.  Each
    step of an operation that changes many pages keeps [grown]; when the pages
    are a tree again, the invariant holds again ([grown_inv]). *)
From S2P Require Import Prelude.
From S2P Require Import Bytes.
From S2P Require Import Midl.
From S2P Require Import Page.
From S2P Require Import PageSpec.
From S2P Require Import NodeOps.
From S2P Require Import NodeDel.
From S2P Require Import Cmp.
From S2P Require Import NodeSearch.
From S2P Require Import Cursor.
From S2P Require Import PageList.
From S2P Require Import Tree.
From S2P Require Import CursorPath.
From S2P Require Import CursorSim.
From S2P Require Import PageAlloc.
From S2P Require Import FreeDb.
From S2P Require Import PageSplit.
From S2P Require Import Cow.
From S2P Require Import Touch.
From S2P Require Import TouchInv.
From S2P Require Import TouchSteps.
From S2P Require Import Put.
From S2P Require Import PutInv.
From Stdlib Require Import ZArith Lia.
From stdpp Require Import base numbers option list gmap.
Open Scope Z_scope.

Section Grow.
Variable file : Z -> option (list Z).
Variables (me_flags me_psize me_maxpg : Z) (readers : option (list MDB_reader * Z)) (mt_txnid : Z).
Hypothesis Hwm : Z.land me_flags MDB_WRITEMAP = 0.
Hypothesis Hps : 16 <= me_psize.
Hypothesis Hmax : me_maxpg <= 2 ^ 31.
Abbreviation seen := (view file me_flags []).
Abbreviation place := (locate me_flags []).
Context (md_cmp : MDB_cmp_func) (D : MDB_val -> Prop) (ord : MDB_val -> MDB_val -> Z) (H : nat) (es : list (MDB_val * MDB_val)).
Variables (free_root : Z) (rootf : list Z) (hf : nat) (esf : list (MDB_val * MDB_val)) (recs : list free_rec).
Abbreviation pages := (sub_pages (leaf_pages me_psize)).
Abbreviation inv H es := (cow_inv file me_flags me_psize me_maxpg readers mt_txnid md_cmp D ord H es free_root rootf hf esf recs).
Abbreviation free_db := (free_db_pages file me_flags me_psize free_root hf esf).
Abbreviation all H := (all_pages file me_flags me_psize H free_root hf esf recs).
Abbreviation lists_ok := (lists_ok me_psize me_maxpg).
Abbreviation page_block := (page_block me_psize).

(** The state before; the pages of its tree that may change. *)
Variables (w0 : wtxn) (C : list Z).

(** [news] are the numbers of the new pages, [held] the addresses of the
    blocks in use that are not pages. *)
Record grown (w : wtxn) (news held : list Z) : Prop := {
  gr_lists : lists_ok w;
  gr_alloc : alloc_inv readers mt_txnid recs (w_alloc w);
  gr_spill : w_spill w = w_spill w0;
  gr_next : next_of w0 <= next_of w;
  gr_reuse x : x ∈ reusable recs w -> x ∈ reusable recs w0;
  gr_news x : x ∈ news -> 2 * x ∉ spilled_of w0;
  gr_old e : e ∈ dirty_of w0 -> e ∈ dirty_of w;
  gr_dirty e : e ∈ dirty_of w -> e ∈ dirty_of w0 \/ mid e ∈ news;
  gr_mem e : e ∈ dirty_of w0 -> mid e ∉ C -> mid e ∉ news -> w_mem w !! mptr e = w_mem w0 !! mptr e;
  gr_pool : Permutation (news ++ pool recs w) (seqZ (next_of w0) (next_of w - next_of w0) ++ pool recs w0);
  gr_held a : a ∈ held -> page_block w a;
  gr_ptrs : NoDup ((mptr <$> dirty_of w) ++ me_dpages w ++ held)
}.

(** Page [x] is the block at [a], with the contents [m]. *)
Definition own_at (w : wtxn) (x a : Z) (m : list Z) : Prop := ID2 x a ∈ dirty_of w /\ w_mem w !! a = Some m.

Lemma spilled_same (w : wtxn) (news held : list Z) : grown w news held -> spilled_of w = spilled_of w0.
Proof. intros Hg. unfold spilled_of, spilled. cbn [mt_spill_pgs]. by rewrite (gr_spill _ _ _ Hg). Qed.

(** *** Reading *)

Lemma own_seen (w : wtxn) (x a : Z) (m : list Z) : lists_ok w -> 0 <= x < 2 ^ 63 -> own_at w x a m ->
  seen w x = Some m /\ place w x = Some (Heap a).
Proof.
  intros Hl Hx [Hd Hm]. assert (place w x = Some (Heap a)) as E.
  { rewrite (locate_ok me_flags me_psize me_maxpg Hwm w x Hl Hx). rewrite decide_False by (apply (lo_disj Hl _ Hd)).
    by rewrite (proj2 (find_dirty_elem me_psize me_maxpg w (ID2 x a) x Hl) (conj Hd eq_refl)). }
  split; [|done]. unfold view. by rewrite E.
Qed.

Lemma own_fun (w : wtxn) (x y a b : Z) (m m' : list Z) : lists_ok w -> own_at w x a m -> own_at w y b m' -> a = b <-> x = y.
Proof.
  intros Hl [Hd _] [Hd' _]. split.
  - intros ->. by pose proof (dirty_ptr_inj me_psize me_maxpg w _ _ Hl Hd Hd' eq_refl) as [= ->].
  - intros ->. pose proof (proj2 (find_dirty_elem me_psize me_maxpg w _ y Hl) (conj Hd eq_refl)).
    pose proof (proj2 (find_dirty_elem me_psize me_maxpg w _ y Hl) (conj Hd' eq_refl)). congruence.
Qed.

(** *** The state before *)

Hypothesis Hinv : inv H es w0.
Hypothesis HC : forall x, x ∈ C -> x ∈ pages (seen w0) H (w_root w0).

Lemma base_nodup : NoDup (pages (seen w0) H (w_root w0) ++ free_db w0 ++ pool recs w0).
Proof. apply (ci_unique _ _ _ _ _ _ _ _ _ _ _ _ _ _ _ _ _ Hinv). Qed.

Lemma base_below (x : Z) : x ∈ pages (seen w0) H (w_root w0) \/ x ∈ free_db w0 \/ x ∈ pool recs w0 -> 1 < x < next_of w0.
Proof. intros Hx. apply (ci_below _ _ _ _ _ _ _ _ _ _ _ _ _ _ _ _ _ Hinv). unfold all_pages. rewrite !elem_of_app. tauto. Qed.

Section At.
Variables (w : wtxn) (news held : list Z).
Hypothesis Hg : grown w news held.
Let Hl := gr_lists _ _ _ Hg.
Let Hl0 := ci_lists _ _ _ _ _ _ _ _ _ _ _ _ _ _ _ _ _ Hinv.

Lemma new_range (x : Z) : x ∈ news ++ pool recs w -> x ∈ pool recs w0 \/ next_of w0 <= x < next_of w.
Proof. rewrite (gr_pool _ _ _ Hg). intros [Hx%elem_of_seqZ|Hx]%elem_of_app; [right; lia|by left]. Qed.

(** The new pages are not pages in use. *)
Lemma used_not_new (x : Z) : x ∈ pages (seen w0) H (w_root w0) \/ x ∈ free_db w0 -> (x ∉ news ++ pool recs w) /\ 1 < x < next_of w0.
Proof.
  intros Hx. assert (1 < x < next_of w0) as Hb by (apply base_below; tauto). split; [|done]. intros Hn.
  destruct (new_range x Hn) as [Hp|Hp]; [|lia]. pose proof base_nodup as Hnd. rewrite app_assoc in Hnd.
  apply NoDup_app in Hnd as (_ & Hd & _). apply (Hd x); [by apply elem_of_app|done].
Qed.

Lemma new_nodup : NoDup (news ++ pool recs w).
Proof.
  rewrite (gr_pool _ _ _ Hg). apply NoDup_app. split; [apply NoDup_seqZ|]. split.
  - intros x Hx%elem_of_seqZ Hp. pose proof (base_below x (or_intror (or_intror Hp))). lia.
  - pose proof base_nodup as Hnd. apply NoDup_app in Hnd as (_ & _ & Hnd). by apply NoDup_app in Hnd as (_ & _ & Hnd).
Qed.

Lemma new_below (x : Z) : 1 < next_of w0 -> x ∈ news ++ pool recs w -> 1 < x < next_of w.
Proof.
  intros H1 Hx. pose proof (gr_next _ _ _ Hg). destruct (new_range x Hx) as [Hp|Hp]; [|lia].
  pose proof (base_below x (or_intror (or_intror Hp))). lia.
Qed.

Lemma grown_find (x : Z) : x ∉ news -> find_dirty (a_dirty (w_alloc w)) x = find_dirty (a_dirty (w_alloc w0)) x.
Proof.
  intros Hx. destruct (find_dirty (a_dirty (w_alloc w0)) x) as [e|] eqn:E.
  - apply (find_dirty_elem me_psize me_maxpg w0 e x Hl0) in E as [He Hm]. apply (find_dirty_elem me_psize me_maxpg w e x Hl).
    split; [|done]. by apply (gr_old _ _ _ Hg).
  - pose proof (proj1 (find_dirty_none me_psize me_maxpg w0 x Hl0) E) as Hno. apply (find_dirty_none me_psize me_maxpg w x Hl).
    intros e He. apply (gr_dirty _ _ _ Hg) in He as [He|He]; [by apply Hno|]. intros <-. by apply Hx.
Qed.

(** The pages that are not to change. *)
Lemma grown_view (x : Z) : x ∉ news -> 0 <= x < next_of w0 -> x ∉ C -> seen w x = seen w0 x.
Proof.
  intros Hx Hlt Hc. pose proof (gr_next _ _ _ Hg). pose proof (lo_next Hl). unfold view.
  rewrite !(locate_ok me_flags me_psize me_maxpg Hwm) by (done || lia). rewrite (spilled_same _ _ _ Hg), grown_find by done.
  destruct (decide (2 * x ∈ spilled_of w0)); [done|]. destruct (find_dirty _ x) as [e|] eqn:E.
  - apply (find_dirty_elem me_psize me_maxpg w0 e x Hl0) in E as [He Hm]. cbn [mbind option_bind deref].
    apply (gr_mem _ _ _ Hg); congruence.
  - by rewrite !decide_True by lia.
Qed.

Lemma grown_used (x : Z) : x ∈ pages (seen w0) H (w_root w0) \/ x ∈ free_db w0 -> x ∉ C -> seen w x = seen w0 x.
Proof.
  intros Hx Hc. destruct (used_not_new x Hx) as [Hn Hb]. apply grown_view; [|lia|done]. intros Hn'. apply Hn, elem_of_app. by left.
Qed.

Lemma free_not_C (x : Z) : x ∈ free_db w0 -> x ∉ C.
Proof.
  intros Hx Hc. pose proof base_nodup as Hnd. apply NoDup_app in Hnd as (_ & Hd & _). apply (Hd x (HC x Hc)), elem_of_app. by left.
Qed.

(** The free-page database is as it was. *)
Lemma grown_free : db_ok (seen w) cmp_cint free_root (sized 8) num_ord rootf hf esf /\ free_db w = free_db w0.
Proof.
  pose proof (ci_free _ _ _ _ _ _ _ _ _ _ _ _ _ _ _ _ _ Hinv) as Hf. unfold free_db_pages. destruct Hf as [[E ->]|[Hgr Hn Ht Hne Hh]].
  { rewrite E. split; [left; done|done]. }
  assert (forall x, x ∈ pages (seen w0) hf free_root -> seen w x = seen w0 x) as Hs.
  { intros x Hx. assert (x ∈ free_db w0) as Hx' by (unfold free_db_pages; by destruct esf).
    apply grown_used; [by right|by apply free_not_C]. }
  assert (seen w free_root = Some rootf) as Hg' by (rewrite Hs; [done|by left]).
  destruct (tree_frame cmp_cint (sized 8) num_ord me_psize ltac:(lia) (seen w0) (seen w) hf rootf esf Ht) as [Ht' Hp'].
  { intros x Hx. apply Hs. right. by rewrite Hgr. }
  split; [right; by split|]. destruct esf; [done|]. unfold sub_pages. by rewrite Hgr, Hg', Hp'.
Qed.

Lemma own_used (x a : Z) (m : list Z) : x ∈ C \/ x ∈ news -> own_at w x a m -> 1 < x < next_of w.
Proof.
  intros Hx _. pose proof (gr_next _ _ _ Hg). pose proof (ci_tree _ _ _ _ _ _ _ _ _ _ _ _ _ _ _ _ _ Hinv) as _.
  assert (1 < w_root w0 < next_of w0) as Hroot by (apply base_below; left; by left).
  destruct Hx as [Hx|Hx]; [pose proof (base_below x (or_introl (HC x Hx))); lia|]. apply new_below; [lia|]. apply elem_of_app. by left.
Qed.
End At.

(** *** The steps *)

Lemma grown_start : grown w0 [] [].
Proof.
  pose proof (ci_lists _ _ _ _ _ _ _ _ _ _ _ _ _ _ _ _ _ Hinv) as Hl. pose proof (lo_ptrs Hl) as Hp. split; auto.
  - apply (ci_alloc _ _ _ _ _ _ _ _ _ _ _ _ _ _ _ _ _ Hinv).
  - lia.
  - intros x Hx. by apply elem_of_nil in Hx.
  - by rewrite Z.sub_diag.
  - intros a Ha. by apply elem_of_nil in Ha.
  - by rewrite app_nil_r.
Qed.

Section Step.
Variables (w : wtxn) (news held : list Z).
Hypothesis Hg : grown w news held.
Let Hl := gr_lists _ _ _ Hg.

Lemma held_apart (a : Z) : a ∈ held -> (a ∉ (mptr <$> dirty_of w)) /\ (a ∉ me_dpages w) /\ NoDup held.
Proof.
  intros Ha. pose proof (gr_ptrs _ _ _ Hg) as Hp. apply NoDup_app in Hp as (_ & Hd & Hp). apply NoDup_app in Hp as (_ & Hd2 & Hp).
  split; [|split; [|done]]; intros Hx; [apply (Hd a Hx), elem_of_app; by right|by apply (Hd2 a Hx)].
Qed.

(** A new page. *)
Section New.
Variables (w1 : wtxn) (q np : Z) (pg : list Z).
Hypothesis Hf : fresh_page me_psize me_maxpg mt_txnid readers recs w w1 q np.
Hypothesis Hlen : zlen pg = me_psize.
Hypothesis Hbytes : Forall is_byte pg.
Let w2 := set_mem w1 np pg.

Lemma new_mem (a : Z) : a <> np -> w_mem w2 !! a = w_mem w !! a.
Proof. intros Ha. cbn [w2 set_mem w_mem]. rewrite lookup_insert_ne by done. by apply (fp_mem Hf). Qed.

Lemma new_block (a : Z) : a <> np -> page_block w a -> page_block w2 a.
Proof. intros Ha (b & Hb & ?). exists b. by rewrite new_mem. Qed.

Lemma new_loose : loose_id w2 <$> a_loose_pgs (w_alloc w1) = loose_id w <$> a_loose_pgs (w_alloc w1).
Proof.
  apply list_fmap_ext. intros i a Ha%list_elem_of_lookup_2. destruct (fp_loose Hf a Ha) as [_ Hne]. unfold loose_id. by rewrite new_mem.
Qed.

Lemma new_lists : lists_ok w2.
Proof.
  pose proof (fp_same Hf) as (Ef & Es & _ & _). pose proof (fp_flags Hf) as Efl. destruct (lo_flags Hl) as [Hf1 Hf2].
  assert (spilled_of w2 = spilled_of w) as Esp by (unfold spilled_of, spilled; cbn [mt_spill_pgs w2 set_mem w_spill]; by rewrite Es).
  split; rewrite ?Esp.
  - cbn [w2 set_mem w_alloc]. by rewrite Efl.
  - cbn [w2 set_mem w_spill]. rewrite Es. apply Hl.
  - apply Hl.
  - apply (ai_dirty _ _ _ _ (fp_alloc Hf)).
  - cbn [w2 set_mem w_alloc]. rewrite Efl. apply Hl.
  - intros e [->|He]%(fp_dirty Hf); [apply (fp_spill Hf)|by apply (lo_disj Hl)].
  - intros e He. destruct (decide (mptr e = np)) as [->|Hne]; [exists pg; apply lookup_insert_eq|].
    rewrite new_mem by done. apply (fp_dirty Hf) in He as [->|He]; [done|by apply (lo_mem Hl)].
  - apply (fp_ptrs Hf).
  - intros a Ha. apply new_block; [|by apply (lo_dpages Hl), (fp_dpages Hf)]. intros ->.
    pose proof (fp_ptrs Hf) as Hp. apply NoDup_app in Hp as (_ & Hd & _). apply (Hd np); [|done]. apply list_elem_of_fmap.
    exists (ID2 q np). split; [done|]. apply (fp_dirty Hf). by left.
  - intros a Ha. destruct (fp_loose Hf a Ha) as [Ha' Hne]. destruct (lo_loose Hl a Ha') as (Hb & e & He & Hea & Hid).
    split; [by apply new_block|]. exists e. split; [apply (fp_dirty Hf); by right|]. split; [done|].
    unfold loose_id in *. by rewrite new_mem.
  - pose proof (fp_next Hf). pose proof (lo_next Hl). change (next_of w2) with (next_of w1). lia.
  - cbn [w2 set_mem w_free_pgs]. rewrite Ef. apply Hl.
Qed.

Lemma new_not_held (a : Z) : a ∈ held -> a <> np.
Proof.
  intros Ha ->. destruct (held_apart np Ha) as (H1 & H2 & _). destruct (fp_origin Hf) as [?|[?|E]]; try done.
  destruct (gr_held _ _ _ Hg np Ha) as (b & Hb & _). congruence.
Qed.

Lemma new_pool : Permutation (q :: pool recs w2) (seqZ (next_of w) (next_of w2 - next_of w) ++ pool recs w).
Proof.
  pose proof (fp_same Hf) as (Ef & _). unfold pool. change (w_alloc w2) with (w_alloc w1). rewrite new_loose.
  cbn [w2 set_mem w_free_pgs]. rewrite Ef. change (reusable recs w2) with (reusable recs w1). change (next_of w2) with (next_of w1).
  set (fr := midl_ids (cells (w_free_pgs w))). destruct (fp_pool Hf) as [[Hp ->]|(Hp & -> & ->)].
  - rewrite Z.sub_diag. change (seqZ (next_of w) 0) with (@nil Z). cbn [app].
    transitivity (fr ++ q :: (loose_id w <$> a_loose_pgs (w_alloc w1)) ++ reusable recs w1); [solve_Permutation|]. rewrite Hp. solve_Permutation.
  - replace (next_of w + 1 - next_of w) with 1 by lia. change (seqZ (next_of w) 1) with [0 + next_of w]. rewrite Z.add_0_l. cbn [app].
    apply perm_skip. transitivity (fr ++ (loose_id w <$> a_loose_pgs (w_alloc w1)) ++ reusable recs w1); [solve_Permutation|]. rewrite Hp. solve_Permutation.
Qed.

Lemma grown_new : grown w2 (q :: news) held /\ own_at w2 q np pg /\
  forall x a m, x <> q -> own_at w x a m -> own_at w2 x a m.
Proof.
  pose proof (fp_same Hf) as (Ef & Es & _ & _). pose proof (fp_next Hf) as Hn. pose proof (gr_next _ _ _ Hg) as Hn0. split; [|split].
  - split.
    + apply new_lists.
    + apply (fp_alloc Hf).
    + cbn [w2 set_mem w_spill]. rewrite Es. apply (gr_spill _ _ _ Hg).
    + change (next_of w2) with (next_of w1). lia.
    + intros x Hx. apply (gr_reuse _ _ _ Hg). by apply (fp_reuse Hf).
    + intros x [->|Hx]%elem_of_cons; [|by apply (gr_news _ _ _ Hg)]. rewrite <- (spilled_same _ _ _ Hg). apply (fp_spill Hf).
    + intros e He. apply (fp_dirty Hf). right. by apply (gr_old _ _ _ Hg).
    + intros e [->|He]%(fp_dirty Hf); [right; by left|]. apply (gr_dirty _ _ _ Hg) in He as [?|?]; [by left|right; by right].
    + intros e He HeC Hen. apply not_elem_of_cons in Hen as [Hq Hen]. rewrite new_mem; [by apply (gr_mem _ _ _ Hg)|].
      intros E. apply Hq. by rewrite (fp_np Hf e (gr_old _ _ _ Hg e He) E).
    + change (next_of w2) with (next_of w1) in *. transitivity (news ++ q :: pool recs w2); [solve_Permutation|]. rewrite new_pool.
      transitivity (seqZ (next_of w) (next_of w1 - next_of w) ++ news ++ pool recs w); [solve_Permutation|]. rewrite (gr_pool _ _ _ Hg).
      replace (next_of w1 - next_of w0) with ((next_of w - next_of w0) + (next_of w1 - next_of w)) by lia.
      rewrite (seqZ_app (next_of w0)) by lia. replace (next_of w0 + (next_of w - next_of w0)) with (next_of w) by lia. solve_Permutation.
    + intros a Ha. apply new_block; [by apply new_not_held|by apply (gr_held _ _ _ Hg)].
    + pose proof (fp_ptrs Hf) as Hp. rewrite app_assoc. apply NoDup_app. split; [exact Hp|]. split.
      * intros a Ha Hh. destruct (held_apart a Hh) as (H1 & H2 & _). apply elem_of_app in Ha as [Ha|Ha]; [|by apply H2, (fp_dpages Hf)].
        apply list_elem_of_fmap in Ha as (e & -> & [->|He]%(fp_dirty Hf)); [by apply (new_not_held np Hh)|].
        apply H1, list_elem_of_fmap. by exists e.
      * pose proof (gr_ptrs _ _ _ Hg) as Hp'. apply NoDup_app in Hp' as (_ & _ & Hp'). by apply NoDup_app in Hp' as (_ & _ & Hp').
  - split; [apply (fp_dirty Hf); by left|apply lookup_insert_eq].
  - intros x a m Hx [Hd Hm]. split; [apply (fp_dirty Hf); by right|]. rewrite new_mem; [done|]. intros ->.
    apply Hx. by pose proof (fp_np Hf _ Hd eq_refl) as [= ->].
Qed.
End New.
(** A block of memory. *)
Lemma grown_malloc (w1 : wtxn) (np : Z) : grabbed me_psize w w1 np ->
  grown w1 news (np :: held) /\ forall x a m, own_at w x a m -> own_at w1 x a m.
Proof.
  intros Hb. destruct (lo_flags Hl) as [Hf1 Hf2]. pose proof (gb_alloc Hb) as Ea.
  assert (dirty_of w1 = dirty_of w) as Ed by (unfold dirty_of; by rewrite Ea).
  assert (next_of w1 = next_of w) as En by (unfold next_of; by rewrite Ea).
  assert (spilled_of w1 = spilled_of w) as Esp by (unfold spilled_of, spilled; cbn [mt_spill_pgs]; by rewrite (gb_spill Hb)).
  assert (reusable recs w1 = reusable recs w) as Er by (unfold reusable; by rewrite Ea).
  assert (forall e, e ∈ dirty_of w -> mptr e <> np) as Hnd.
  { intros e He <-. apply (gb_fresh Hb), list_elem_of_fmap. by exists e. }
  assert (forall a, a <> np -> page_block w a -> page_block w1 a) as Hblk.
  { intros a Ha (b & Eb & ?). exists b. by rewrite (gb_mem Hb). }
  assert (forall a, a ∈ a_loose_pgs (w_alloc w) -> a <> np) as Hlo.
  { intros a Ha. destruct (lo_loose Hl a Ha) as (_ & e & He & <- & _). by apply Hnd. }
  assert (forall a, a ∈ me_dpages w1 -> a <> np) as Hdp.
  { intros a Ha ->. pose proof (gb_ptrs Hb) as Hp. apply NoDup_cons in Hp as [Hp _]. apply Hp, elem_of_app. by right. }
  assert (np ∉ held) as Hh.
  { intros Ha. destruct (held_apart np Ha) as (_ & H2 & _). destruct (gb_origin Hb) as [?|E]; [done|].
    destruct (gr_held _ _ _ Hg np Ha) as (b & Eb & _). congruence. }
  assert (pool recs w1 = pool recs w) as Epool.
  { unfold pool. rewrite Er, (gb_free Hb), Ea. f_equal. apply list_fmap_ext. intros i a Ha%list_elem_of_lookup_2.
    unfold loose_id. rewrite (gb_mem Hb); [done|by apply Hlo]. }
  split; [split|].
  - split; rewrite ?Esp, ?Ed, ?Ea; auto; try apply Hl.
    + rewrite (gb_spill Hb). apply Hl.
    + intros e He. rewrite (gb_mem Hb) by (by apply Hnd). by apply (lo_mem Hl).
    + pose proof (gb_ptrs Hb) as Hp. by apply NoDup_cons in Hp as [_ Hp].
    + intros a Ha. apply Hblk; [by apply Hdp|by apply (lo_dpages Hl), (gb_dpages Hb)].
    + intros a Ha. destruct (lo_loose Hl a Ha) as (Hbl & e & He & Hea & Hid). split; [apply Hblk; [by apply Hlo|done]|].
      exists e. unfold loose_id in *. rewrite (gb_mem Hb); [done|by apply Hlo].
    + rewrite En. apply Hl.
    + rewrite (gb_free Hb). apply Hl.
  - rewrite Ea. apply (gr_alloc _ _ _ Hg).
  - rewrite (gb_spill Hb). apply (gr_spill _ _ _ Hg).
  - rewrite En. apply (gr_next _ _ _ Hg).
  - rewrite Er. apply (gr_reuse _ _ _ Hg).
  - apply (gr_news _ _ _ Hg).
  - rewrite Ed. apply (gr_old _ _ _ Hg).
  - rewrite Ed. apply (gr_dirty _ _ _ Hg).
  - intros e He HC1 Hn. rewrite (gb_mem Hb); [by apply (gr_mem _ _ _ Hg)|]. by apply Hnd, (gr_old _ _ _ Hg).
  - rewrite En, Epool. apply (gr_pool _ _ _ Hg).
  - intros a [->|Ha]%elem_of_cons; [apply (gb_block Hb)|]. apply Hblk; [by intros ->|by apply (gr_held _ _ _ Hg)].
  - rewrite Ed. pose proof (gb_ptrs Hb) as Hp. apply NoDup_cons in Hp as [Hn Hp].
    assert (Permutation ((mptr <$> dirty_of w) ++ me_dpages w1 ++ np :: held) (np :: ((mptr <$> dirty_of w) ++ me_dpages w1) ++ held)) as ->
      by solve_Permutation.
    apply NoDup_cons. split; [rewrite elem_of_app; tauto|]. apply NoDup_app. split; [done|]. split.
    + intros a Ha Hin. destruct (held_apart a Hin) as (H1 & H2 & _). apply elem_of_app in Ha as [Ha|Ha]; [done|]. by apply H2, (gb_dpages Hb).
    + pose proof (gr_ptrs _ _ _ Hg) as Hp'. apply NoDup_app in Hp' as (_ & _ & Hp'). by apply NoDup_app in Hp' as (_ & _ & Hp').
  - intros x a m [Hd Hm]. split; [by rewrite Ed|]. rewrite (gb_mem Hb); [done|]. apply (Hnd _ Hd).
Qed.

(** A page of the path or a new one is written. *)
Lemma grown_write (x a : Z) (m pg : list Z) : x ∈ C \/ x ∈ news -> own_at w x a m -> zlen pg = me_psize -> Forall is_byte pg ->
  pgno_of pg = pgno_of m ->
  grown (set_mem w a pg) news held /\ own_at (set_mem w a pg) x a pg /\
  forall y b m', y <> x -> own_at w y b m' -> own_at (set_mem w a pg) y b m'.
Proof.
  intros Hx [Hd Hm] Hlen Hb Hno. set (w' := set_mem w a pg).
  pose proof (here_lists me_psize me_maxpg w (ID2 x a) m pg Hl Hm Hlen Hb Hno) as Hl'.
  pose proof (here_pool recs w (ID2 x a) m pg Hm Hno) as Hpool. cbn [mptr] in *.
  assert (a ∉ held) as Hah.
  { intros Ha. destruct (held_apart a Ha) as (H1 & _). apply H1, list_elem_of_fmap. by exists (ID2 x a). }
  assert (forall e, e ∈ dirty_of w -> mid e <> x -> mptr e <> a) as Hne.
  { intros e He Hex Hea. apply Hex. by rewrite (dirty_ptr_inj me_psize me_maxpg w e (ID2 x a) Hl He Hd Hea). }
  split; [split|split].
  - exact Hl'.
  - apply (gr_alloc _ _ _ Hg).
  - apply (gr_spill _ _ _ Hg).
  - apply (gr_next _ _ _ Hg).
  - apply (gr_reuse _ _ _ Hg).
  - apply (gr_news _ _ _ Hg).
  - apply (gr_old _ _ _ Hg).
  - apply (gr_dirty _ _ _ Hg).
  - intros e He HeC Hen. cbn [w' set_mem w_mem]. rewrite lookup_insert_ne; [by apply (gr_mem _ _ _ Hg)|].
    intros E. apply (Hne e); [by apply (gr_old _ _ _ Hg)|intros <-; tauto|done].
  - unfold w'. rewrite Hpool. apply (gr_pool _ _ _ Hg).
  - intros b Hbh. destruct (gr_held _ _ _ Hg b Hbh) as (bb & Hbb & ?). exists bb. cbn [w' set_mem w_mem].
    rewrite lookup_insert_ne by (by intros ->). done.
  - apply (gr_ptrs _ _ _ Hg).
  - split; [done|apply lookup_insert_eq].
  - intros y b m' Hy [Hd' Hm']. split; [done|]. cbn [w' set_mem w_mem]. rewrite lookup_insert_ne; [done|].
    intros ->. by apply (Hne (ID2 y b) Hd').
Qed.
End Step.

(** A block goes back to the list of unused ones. *)
Lemma grown_dpage (w : wtxn) (news held : list Z) (a : Z) : grown w news (a :: held) -> grown (set_dpages w (a :: me_dpages w)) news held.
Proof.
  intros Hg. pose proof (gr_lists _ _ _ Hg) as Hl. pose proof (gr_ptrs _ _ _ Hg) as Hp.
  assert (NoDup ((mptr <$> dirty_of w) ++ (a :: me_dpages w) ++ held)) as Hp'.
  { assert (Permutation ((mptr <$> dirty_of w) ++ (a :: me_dpages w) ++ held) ((mptr <$> dirty_of w) ++ me_dpages w ++ a :: held)) as ->
      by solve_Permutation. done. }
  split; try apply Hg.
  - split; try apply Hl.
    + rewrite app_assoc in Hp'. by apply NoDup_app in Hp' as (Hp' & _).
    + intros b [->|Hb]%elem_of_cons; [apply (gr_held _ _ _ Hg); by left|by apply (lo_dpages Hl)].
  - intros b Hb. apply (gr_held _ _ _ Hg). by right.
  - exact Hp'.
Qed.

(** The rest of the state does not matter. *)
Lemma grown_rest (w w' : wtxn) (news held : list Z) : w_mem w' = w_mem w -> me_dpages w' = me_dpages w -> w_alloc w' = w_alloc w ->
  w_free_pgs w' = w_free_pgs w -> w_spill w' = w_spill w -> grown w news held ->
  grown w' news held /\ forall x a m, own_at w x a m -> own_at w' x a m.
Proof.
  destruct w, w'. cbn. intros -> -> -> -> -> Hg. split; [|done]. destruct Hg as [Hl ? ? ? ? ? ? ? ? ? ? ?]. split; try assumption.
  destruct Hl. by split.
Qed.

(** *** The tree is a tree again *)

Lemma grown_inv (w : wtxn) (news : list Z) (H' : nat) (es' : list (MDB_val * MDB_val)) : grown w news [] ->
  (exists root, seen w (w_root w) = Some root /\ tree (seen w) md_cmp D ord H' root es') ->
  Permutation (pages (seen w) H' (w_root w)) (news ++ pages (seen w0) H (w_root w0)) ->
  Forall (page_state file me_flags me_psize D w) (sub_pages (fun _ => []) (seen w) H' (w_root w)) ->
  inv H' es' w /\ next_of w0 <= next_of w /\ Permutation (all H' w) (seqZ (next_of w0) (next_of w - next_of w0) ++ all H w0).
Proof.
  intros Hg Ht Hp Hst. pose proof (grown_free w news [] Hg) as [Hdb Hfp]. pose proof (gr_next _ _ _ Hg) as Hn.
  assert (1 < w_root w0 < next_of w0) as Hroot by (apply base_below; left; by left).
  assert (Permutation (all H' w) (seqZ (next_of w0) (next_of w - next_of w0) ++ all H w0)) as Hall.
  { unfold all_pages. rewrite Hfp, Hp. transitivity (pages (seen w0) H (w_root w0) ++ free_db w0 ++ news ++ pool recs w); [solve_Permutation|].
    rewrite (gr_pool _ _ _ Hg). solve_Permutation. }
  pose proof (ci_unique _ _ _ _ _ _ _ _ _ _ _ _ _ _ _ _ _ Hinv) as Hnd. pose proof (ci_below _ _ _ _ _ _ _ _ _ _ _ _ _ _ _ _ _ Hinv) as Hb.
  split; [|done]. split; auto.
  - apply (gr_lists _ _ _ Hg).
  - apply (gr_alloc _ _ _ Hg).
  - apply (ci_recs _ _ _ _ _ _ _ _ _ _ _ _ _ _ _ _ _ Hinv).
  - rewrite Hall. apply NoDup_app. split; [apply NoDup_seqZ|]. split; [|done]. intros x Hx%elem_of_seqZ Hx'%Hb. lia.
  - intros x Hx. rewrite Hall in Hx. apply elem_of_app in Hx as [Hx%elem_of_seqZ|Hx%Hb]; lia.
  - intros x Hx. rewrite (spilled_same _ _ _ Hg) in Hx.
    destruct (ci_spilled _ _ _ _ _ _ _ _ _ _ _ _ _ _ _ _ _ Hinv x Hx) as [H1 H2]. split; [lia|]. intros Hx'. by apply H2, (gr_reuse _ _ _ Hg).
Qed.
End Grow.
