(* ===== verification/SplitSteps.v ===== *)
(** * The steps of a page split ([mdb_page_split],
    [src/LegacyDatabase/mdb.c])

    A new page, the copy of the page and the split point, a new root, the
    nodes moved, the cursors: each on the store, with [grown] of [Grow.v]. *)
From S2P Require Import Prelude.
From S2P Require Import Bytes.
From S2P Require Import Midl.
From S2P Require Import Page.
From S2P Require Import PageSpec.
From S2P Require Import NodeOps.
From S2P Require Import NodeDel.
From S2P Require Import Cmp.
From S2P Require Import NodeSearch.
From S2P Require Import Cursor.
From S2P Require Import PageList.
From S2P Require Import Tree.
From S2P Require Import CursorPath.
From S2P Require Import CursorSim.
From S2P Require Import PageAlloc.
From S2P Require Import FreeDb.
From S2P Require Import PageSplit.
From S2P Require Import Cow.
From S2P Require Import Touch.
From S2P Require Import TouchInv.
From S2P Require Import TouchSteps.
From S2P Require Import CursorTouch.
From S2P Require Import Put.
From S2P Require Import PutCorrect.
From S2P Require Import LeafItems.
From S2P Require Import Split.
From S2P Require Import Forest.
From S2P Require Import Grow.
From Stdlib Require Import ZArith Lia.
From stdpp Require Import base numbers option list gmap.
Open Scope Z_scope.

Definition no_room (rc : Z) : Prop := rc = MDB_TXN_FULL \/ rc = ENOMEM \/ rc = MDB_MAP_FULL.

(** A page of the transaction's own. *)
Record page_of (me_psize : Z) (leaf : bool) (x : Z) (m : list Z) : Prop := {
  po_wf : page_wf m;
  po_len : zlen m = me_psize;
  po_pgno : pgno_of m = x;
  po_leaf : p_leaf m = leaf;
  po_branch : p_branch m = negb leaf;
  po_dirty : p_dirty m = true;
  po_ov : F_ISSET (p_flags m) P_OVERFLOW = false
}.

Lemma page_of_head (me_psize : Z) (leaf : bool) (x : Z) (m m' : list Z) : page_of me_psize leaf x m -> page_wf m' -> zlen m' = zlen m ->
  slice m' 0 12 = slice m 0 12 -> page_of me_psize leaf x m'.
Proof.
  intros [] Hwf Hlen Hs. pose proof (wf_psize _ po_wf0). destruct (same_header m m' ltac:(lia) Hlen Hs) as [E1 E2].
  unfold p_leaf, p_branch, p_dirty in *. split; auto; unfold p_leaf, p_branch, p_dirty; rewrite ?E2; auto; lia.
Qed.

Lemma flags_dirty (fl : Z) : F_ISSET fl P_DIRTY = true -> Z.lor fl P_DIRTY = fl.
Proof.
  unfold F_ISSET. rewrite Z.eqb_eq. intros E. rewrite <- E at 1. apply Z.bits_inj'. intros i Hi. rewrite Z.lor_spec, Z.land_spec.
  by destruct (Z.testbit fl i).
Qed.

(** A page without nodes. *)
Record empty_page (me_psize fl q : Z) (pg : list Z) : Prop := {
  ep_wf : page_wf pg;
  ep_len : zlen pg = me_psize;
  ep_nodes : p_nodes pg = [];
  ep_flags : p_flags pg = Z.lor fl P_DIRTY;
  ep_room : p_upper pg - p_lower pg = me_psize - PAGEHDRSZ;
  ep_pgno : pgno_of pg = q
}.

Lemma init_page_kept (np m : list Z) (fl psize : Z) : 16 <= zlen np -> init_page np fl psize = Some m ->
  pgno_of m = pgno_of np /\ zlen m = zlen np.
Proof.
  intros Hl E. unfold init_page, set_lower, set_upper in E.
  destruct (set16_upd np 10 (Z.lor fl P_DIRTY)) as (m1 & E1 & U1); try lia. rewrite E1 in E. cbn [mbind option_bind] in E.
  pose proof (u_len _ _ _ _ U1). destruct (set16_upd m1 12 PAGEHDRSZ) as (m2 & E2 & U2); try lia. rewrite E2 in E. cbn [mbind option_bind] in E.
  pose proof (u_len _ _ _ _ U2). destruct (set16_upd m2 14 psize) as (m3 & E3 & U3); try lia. rewrite E3 in E. injection E as <-.
  pose proof (u_len _ _ _ _ U3). split; [|lia]. unfold pgno_of. f_equal. apply slice_ext; try lia. intros i Hi.
  rewrite (u_old _ _ _ _ U3), (u_old _ _ _ _ U2), (u_old _ _ _ _ U1) by (rewrite ?zlen_le_bytes; lia). done.
Qed.

Lemma get_flags (m : list Z) : page_wf m -> mp_flags m = Some (p_flags m).
Proof. intros [Hb Hs]. unfold mp_flags. rewrite get16_in by lia. done. Qed.

(** The root, the cursors and the number of items are as they were. *)
Definition same_db (w w' : wtxn) : Prop :=
  w_root w' = w_root w /\ w_cursors w' = w_cursors w /\ md_entries (w_db w') = md_entries (w_db w).

Lemma same_db_trans (w1 w2 w3 : wtxn) : same_db w1 w2 -> same_db w2 w3 -> same_db w1 w3.
Proof. unfold same_db. intros (-> & -> & ->) (-> & -> & ->). done. Qed.

Lemma count_entries (d : MDB_db) (fl n : Z) : md_entries (count_pages d fl n) = md_entries d.
Proof. unfold count_pages. by repeat case_match. Qed.

(** A page and a node that [mdb_page_split] can divide. *)
Record splittable (me_psize : Z) (mp : list Z) (nn : new_node) (newindx : Z) : Prop := {
  sb_wf : page_wf mp;
  sb_len : zlen mp = me_psize;
  sb_small : nodes_small (nodemax me_psize) mp;
  sb_new : addable (nodemax me_psize) (p_leaf mp) nn;
  sb_flags : F_ISSET (nn_flags nn) F_BIGDATA = false /\ Z.land (nn_flags nn) MDB_APPEND = 0;
  sb_indx : 0 <= newindx <= p_num mp;
  sb_full : p_upper mp - p_lower mp < cell (image (p_leaf mp) nn);
  sb_count : searched me_psize (p_num mp) newindx (cell (image (p_leaf mp) nn)) = true \/
    fits (me_psize - PAGEHDRSZ) (all_cells mp nn newindx) ((p_num mp + 1) / 2)
}.

Lemma split_input_of (me_psize : Z) (mp copy0 : list Z) (nn : new_node) (newindx : Z) : splittable me_psize mp nn newindx ->
  zlen copy0 = me_psize -> Forall is_byte copy0 -> split_input me_psize mp copy0 nn newindx.
Proof. intros [] Hl Hb. by split; try (tauto || auto). Qed.

(** The split point [s], with the copy of the page that the nodes are moved
    from. *)
Record planned (me_psize : Z) (mp copy : list Z) (nn : new_node) (newindx s : Z) : Prop := {
  pl_fits : fits (me_psize - PAGEHDRSZ) (all_cells mp nn newindx) s;
  pl_middle : middle (me_psize - PAGEHDRSZ) (all_cells mp nn newindx) s;
  pl_blank : blank me_psize mp copy;
  pl_slots : slots_ok mp copy newindx 0 (p_num mp + if newindx <? p_num mp then 1 else 0)
}.

Lemma empty_page_of (me_psize q fl : Z) (leaf : bool) (pg : list Z) : empty_page me_psize fl q pg -> p_dirty pg = true ->
  F_ISSET (Z.lor fl P_DIRTY) P_OVERFLOW = false -> F_ISSET (Z.lor fl P_DIRTY) P_LEAF = leaf ->
  F_ISSET (Z.lor fl P_DIRTY) P_BRANCH = negb leaf -> page_of me_psize leaf q pg.
Proof. intros [] Hd Ho Hl Hb. split; auto; unfold p_leaf, p_branch; by rewrite ep_flags0. Qed.

Lemma empty_kids (me_psize q fl : Z) (pg : list Z) : empty_page me_psize fl q pg -> kids pg = [] /\ p_num pg = 0 /\ p_raw pg = [].
Proof.
  intros [Hwf Hl Hn]. assert (p_raw pg = []) as E by (unfold p_raw; by rewrite Hn). pose proof (zlen_p_raw pg Hwf) as Hz.
  unfold kids. rewrite E in Hz |- *. by split_and!.
Qed.

(** ** The stack of a cursor *)

Record wide (n : Z) (mc : wcursor) : Prop := {
  wd_pg : 32 <= zlen (wc_pg mc);
  wd_ki : 32 <= zlen (wc_ki mc);
  wd_top : wc_top mc < n
}.

(** Level [i] of the stack has been set. *)
Record level_set (mc : wcursor) (i : Z) (p : option page_ptr) (k : Z) (mc' : wcursor) : Prop := {
  ls_pg j : aget (wc_pg mc') j = if decide (j = i) then Some p else aget (wc_pg mc) j;
  ls_ki j : aget (wc_ki mc') j = if decide (j = i) then Some k else aget (wc_ki mc) j;
  ls_rest : wc_snum mc' = wc_snum mc /\ wc_top mc' = wc_top mc /\ wc_flags mc' = wc_flags mc
}.

Lemma aget_zset {A} `{Inhabited A} (l : list A) (i j : Z) (x : A) : 0 <= i < zlen l ->
  aget (zset l i x) j = if decide (j = i) then Some x else aget l j.
Proof.
  intros Hi. destruct (decide (j = i)) as [->|Hne].
  - rewrite aget_in by (by rewrite zlen_zset). by rewrite zn_zset_eq.
  - apply aget_zset_ne; [lia|congruence].
Qed.

Lemma set_level_ok (n : Z) (mc : wcursor) (i : Z) (p : option page_ptr) (k : Z) : wide n mc -> 0 <= i < 32 ->
  exists mc', set_level mc i p k = Some mc' /\ wide n mc' /\ level_set mc i p k mc'.
Proof.
  intros [Hp Hk Ht] Hi. unfold set_level. rewrite !aset_in by lia. cbn [mbind option_bind]. eexists. split; [done|].
  split; split; cbn; rewrite ?zlen_zset; auto; intros j; apply aget_zset; lia.
Qed.

Lemma wide_get (n : Z) (mc : wcursor) (i : Z) : wide n mc -> 0 <= i < 32 ->
  exists p k, aget (wc_pg mc) i = Some p /\ aget (wc_ki mc) i = Some k.
Proof. intros [Hp Hk Ht] Hi. rewrite !aget_in by lia. by eexists _, _. Qed.

Lemma set_page_ok (n : Z) (mc : wcursor) (i : Z) (p : option page_ptr) : wide n mc -> 0 <= i < 32 ->
  exists mc', set_page mc i p = Some mc' /\ wide n mc' /\ (forall k, aget (wc_ki mc) i = Some k -> level_set mc i p k mc').
Proof.
  intros [Hp Hk Ht] Hi. unfold set_page. rewrite !aset_in by lia. cbn [mbind option_bind]. eexists. split; [done|].
  split; [by split; cbn; rewrite ?zlen_zset|]. intros k Hki. split; cbn; auto; intros j; [apply aget_zset; lia|].
  by destruct (decide (j = i)) as [->|].
Qed.

Lemma set_index_ok (n : Z) (mc : wcursor) (i k : Z) : wide n mc -> 0 <= i < 32 ->
  exists mc', set_index mc i k = Some mc' /\ wide n mc' /\ (forall p, aget (wc_pg mc) i = Some p -> level_set mc i p k mc').
Proof.
  intros [Hp Hk Ht] Hi. unfold set_index. rewrite !aset_in by lia. cbn [mbind option_bind]. eexists. split; [done|].
  split; [by split; cbn; rewrite ?zlen_zset|]. intros p Hpi. split; cbn; auto; intros j; [|apply aget_zset; lia].
  by destruct (decide (j = i)) as [->|].
Qed.

(** Levels copied from another cursor. *)
Lemma copy_levels_ok (m n : Z) (l : nat) : forall (mc mn : wcursor) (i : Z), wide m mc -> wide n mn -> 0 <= i -> i + Z.of_nat l <= 32 ->
  exists mc', copy_levels l i mc mn = Some mc' /\ wide m mc' /\
    (wc_snum mc' = wc_snum mc /\ wc_top mc' = wc_top mc /\ wc_flags mc' = wc_flags mc) /\
    forall j, aget (wc_pg mc') j = aget (wc_pg (if decide (i <= j < i + Z.of_nat l) then mn else mc)) j /\
      aget (wc_ki mc') j = aget (wc_ki (if decide (i <= j < i + Z.of_nat l) then mn else mc)) j.
Proof.
  induction l as [|l IH]; intros mc mn i Hm Hn H0 Hl.
  { exists mc. split; [done|]. split; [done|]. split; [done|]. intros j. by rewrite decide_False by lia. }
  cbn [copy_levels]. destruct (wide_get n mn i Hn ltac:(lia)) as (p & k & Ep & Ek). rewrite Ep, Ek. cbn [mbind option_bind].
  destruct (set_level_ok m mc i p k Hm ltac:(lia)) as (mc1 & -> & Hm1 & [Lp Lk Lr]). cbn [mbind option_bind].
  destruct (IH mc1 mn (i + 1) Hm1 Hn ltac:(lia) ltac:(lia)) as (mc' & -> & Hm' & (S1 & S2 & S3) & Hj).
  exists mc'. split; [done|]. split; [done|]. split; [destruct Lr as (? & ? & ?); split_and!; congruence|]. intros j. destruct (Hj j) as [-> ->].
  destruct (decide (i + 1 <= j < i + 1 + Z.of_nat l)), (decide (i <= j < i + Z.of_nat (S l))); try lia; try done; rewrite ?Lp, ?Lk.
  all: destruct (decide (j = i)) as [->|]; try lia; split; congruence.
Qed.

Lemma shift_levels_ok (n : Z) (l : nat) : forall m3 : wcursor, wide n m3 -> Z.of_nat l < 32 ->
  exists m3', shift_levels l m3 = Some m3' /\ wide n m3' /\ wc_top m3' = wc_top m3.
Proof.
  induction l as [|l IH]; intros m3 Hm Hl; [by exists m3|]. cbn [shift_levels].
  destruct (wide_get n m3 (Z.of_nat l) Hm ltac:(lia)) as (p & k & Ep & Ek). rewrite Ep. cbn [mbind option_bind]. rewrite Ek. cbn [mbind option_bind].
  destruct (set_level_ok n m3 (Z.of_nat l + 1) p k Hm ltac:(lia)) as (m4 & -> & Hm4 & [_ _ (_ & Ht & _)]). cbn [mbind option_bind].
  destruct (IH m4 Hm4 ltac:(lia)) as (m3' & -> & Hm' & Ht'). exists m3'. split_and!; try done. congruence.
Qed.

(** The other cursors: the stack has room for a new root. *)
Lemma fix_cursor_ok (n a b : Z) (new_root did : bool) (mc mn m3 : wcursor) (mpa rpa newindx split_indx fixup : Z) (replace : bool) :
  wide n m3 -> n <= (if new_root then 31 else 32) -> wide a mc -> wide b mn -> 1 <= wc_top mc < 32 ->
  exists m3', fix_cursor new_root did mc mn mpa rpa newindx split_indx fixup replace m3 = Some m3' /\ wide (if new_root then n + 1 else n) m3'.
Proof.
  intros H3 Hn Hc Hm Ht. unfold fix_cursor.
  assert (wide (if new_root then n + 1 else n) m3) as H3' by (destruct new_root; [|done]; destruct H3; split; lia).
  destruct (_ || _); [by exists m3|].
  assert (exists m4, (if new_root then shift_root mc m3 split_indx else Some m3) = Some m4 /\ wide (if new_root then n + 1 else n) m4) as (m4 & -> & H4).
  { destruct new_root; [|by exists m3]. unfold shift_root.
    destruct (shift_levels_ok n (Z.to_nat (wc_top m3 + 1)) m3 H3) as (m5 & -> & H5 & Ht5); [pose proof (wd_top _ _ H3); lia|]. cbn [mbind option_bind].
    destruct (wide_get n m5 0 H5 ltac:(lia)) as (p5 & k5 & _ & ->). destruct (wide_get a mc 0 Hc ltac:(lia)) as (p & k & -> & _).
    cbn [mbind option_bind]. destruct (set_level_ok n m5 0 p (if split_indx <=? k5 then 1 else 0) H5 ltac:(lia)) as (m6 & -> & H6 & [_ _ (_ & Ht6 & _)]).
    cbn [mbind option_bind]. eexists. split; [done|]. destruct H6. split; cbn; lia. }
  clear m3 H3 H3'. cbn [mbind option_bind]. set (n' := if new_root then n + 1 else n) in *.
  assert (n' <= 32) by (unfold n'; destruct new_root; lia). pose proof (wd_top _ _ H4) as Ht4.
  assert (forall (i : Z) (p : option page_ptr), 0 <= i -> exists q : bool, Split.on_page m4 i p = Some q /\ (q = true -> i < 32)) as Hon.
  { intros i p Hi. unfold Split.on_page. destruct (Z.ltb_spec (wc_top m4) i); [by exists false|].
    destruct (wide_get n' m4 i H4 ltac:(lia)) as (q & k & -> & _). cbn [mbind option_bind]. eexists. split; [done|]. lia. }
  destruct (Hon (wc_top mc) (Some (Heap mpa)) ltac:(lia)) as (q & -> & Hq). cbn [mbind option_bind]. destruct q.
  - destruct (wide_get n' m4 (wc_top mc) H4 ltac:(lia)) as (p & k & _ & ->). cbn [mbind option_bind].
    set (k' := if (newindx <=? k) && negb replace then u16 (k + 1) else k). destruct (set_index_ok n' m4 (wc_top mc) k' H4 ltac:(lia)) as (m5 & -> & H5 & _). cbn [mbind option_bind].
    destruct (fixup <=? k'); [|by exists m5].
    destruct (set_level_ok n' m5 (wc_top mc) (Some (Heap rpa)) (u16 (k' - fixup)) H5 ltac:(lia)) as (m6 & -> & H6 & _). cbn [mbind option_bind].
    destruct (wide_get b mn (wc_top mc - 1) Hm ltac:(lia)) as (p' & k2 & _ & ->). cbn [mbind option_bind].
    destruct (set_index_ok n' m6 (wc_top mc - 1) k2 H6 ltac:(lia)) as (m7 & -> & H7 & _). by exists m7.
  - destruct did; [by exists m4|]. destruct (wide_get a mc (wc_top mc - 1) Hc ltac:(lia)) as (p & k & -> & Ek). cbn [mbind option_bind].
    destruct (Hon (wc_top mc - 1) p ltac:(lia)) as (q & -> & Hq'). cbn [mbind option_bind]. destruct q; [|by exists m4].
    destruct (wide_get n' m4 (wc_top mc - 1) H4 ltac:(lia)) as (p4 & k4 & _ & ->). rewrite Ek. cbn [mbind option_bind].
    destruct (k <=? k4); [|by exists m4]. destruct (set_index_ok n' m4 (wc_top mc - 1) (u16 (k4 + 1)) H4 ltac:(lia)) as (m5 & -> & H5 & _). by exists m5.
Qed.

Lemma fix_cursors_ok (n a b : Z) (new_root did : bool) (mc mn : wcursor) (mpa rpa newindx split_indx fixup : Z) (replace : bool) (l : list wcursor) :
  Forall (wide n) l -> n <= (if new_root then 31 else 32) -> wide a mc -> wide b mn -> 1 <= wc_top mc < 32 ->
  exists cs, mapM (fix_cursor new_root did mc mn mpa rpa newindx split_indx fixup replace) l = Some cs /\
    Forall (wide (if new_root then n + 1 else n)) cs.
Proof.
  intros Hl Hn Hc Hm Ht. induction Hl as [|m3 l H3 _ IH]; [by exists []|]. destruct IH as (cs & E & Hcs).
  destruct (fix_cursor_ok n a b new_root did mc mn m3 mpa rpa newindx split_indx fixup replace H3 Hn Hc Hm Ht) as (m3' & E3 & H3').
  exists (m3' :: cs). cbn [mapM]. rewrite E3. cbn [mbind option_bind]. rewrite E. split; [done|]. by constructor.
Qed.

(** Pages stay where they are. *)
Definition kept (w w' : wtxn) (P : Z -> Prop) : Prop := forall x a m, P x -> own_at w x a m -> own_at w' x a m.

Section Steps.
Variable file : Z -> option (list Z).
Variables (me_flags me_map me_psize me_maxpg : Z).
Variable os_malloc : gmap Z (list Z) -> Z -> option (Z * list Z).
Variables (junk : nat -> Z) (mem_ok : Z -> bool).
Variables (mt_txnid : Z) (readers : option (list MDB_reader * Z)).
Hypothesis Hwm : Z.land me_flags MDB_WRITEMAP = 0.
Hypothesis Hps : 16 <= me_psize <= MAX_PAGESIZE.
Hypothesis Hmax : me_maxpg <= 2 ^ 31.
Hypothesis Hmalloc : forall mem sz a b, os_malloc mem sz = Some (a, b) -> mem !! a = None /\ zlen b = sz /\ Forall is_byte b.
Abbreviation seen := (view file me_flags []).
Context (md_cmp : MDB_cmp_func) (D : MDB_val -> Prop) (ord : MDB_val -> MDB_val -> Z) (H : nat) (es : list (MDB_val * MDB_val)).
Variables (free_root : Z) (rootf : list Z) (hf : nat) (esf : list (MDB_val * MDB_val)) (recs : list free_rec).
Variable fuel : nat.
Hypothesis Hfuel : (length recs < fuel)%nat.
Abbreviation pages := (sub_pages (leaf_pages me_psize)).
Variables (w0 : wtxn) (C : list Z).
Hypothesis Hinv : cow_inv file me_flags me_psize me_maxpg readers mt_txnid md_cmp D ord H es free_root rootf hf esf recs w0.
Hypothesis HC : forall x, x ∈ C -> x ∈ pages (seen w0) H (w_root w0).
Abbreviation grown := (grown me_psize me_maxpg readers mt_txnid recs w0 C).
Abbreviation page_new := (mdb_page_new file me_flags me_map me_psize me_maxpg os_malloc junk mem_ok mt_txnid readers free_root [] fuel).

(** ** A new page *)

Section At.
Variables (w : wtxn) (news held : list Z).
Hypothesis Hg : grown w news held.
Let Hl := gr_lists _ _ _ _ _ _ _ _ _ _ Hg.

Lemma page_new_ok (fl : Z) : 0 <= fl < 65536 -> F_ISSET (Z.lor fl P_DIRTY) P_LEAF2 = false -> F_ISSET (Z.lor fl P_DIRTY) P_OVERFLOW = false ->
  exists r w', page_new w fl 1 = Some (r, w') /\
    match r with
    | inl (a, q) => exists pg, grown w' (q :: news) held /\ own_at w' q a pg /\ kept w w' (fun x => x <> q) /\ (q ∉ news) /\
        empty_page me_psize fl q pg /\ same_db w w'
    | inr rc => no_room rc
    end.
Proof.
  intros Hfl H2 Hov.
  destruct (alloc_one_ok file me_flags me_map me_psize me_maxpg os_malloc junk mem_ok mt_txnid readers Hwm ltac:(lia) Hmax Hmalloc
    recs fuel w free_root rootf hf esf Hl (gr_alloc _ _ _ _ _ _ _ _ _ _ Hg)) as (r & w1 & E & Hr); [| | | |exact Hfuel|].
  - intros x Hx. rewrite (spilled_same _ _ _ _ _ _ _ _ _ _ Hg) in Hx. pose proof (gr_next _ _ _ _ _ _ _ _ _ _ Hg).
    destruct (ci_spilled _ _ _ _ _ _ _ _ _ _ _ _ _ _ _ _ _ Hinv x Hx) as [H1 Hn]. split; [lia|]. intros Hr. by apply Hn, (gr_reuse _ _ _ _ _ _ _ _ _ _ Hg).
  - edestruct grown_free as [Hdb _]; [| | | | | |exact Hdb]; eauto; lia.
  - apply (ci_recs _ _ _ _ _ _ _ _ _ _ _ _ _ _ _ _ _ Hinv).
  - pose proof (new_nodup _ _ _ _ _ _ _ _ _ _ _ _ _ _ _ _ _ _ Hinv w news held Hg) as Hnd. unfold pool in Hnd.
    apply NoDup_app in Hnd as (_ & _ & Hnd).
    assert (Permutation ((loose_id w <$> a_loose_pgs (w_alloc w)) ++ midl_ids (cells (w_free_pgs w)) ++ reusable recs w)
      (midl_ids (cells (w_free_pgs w)) ++ (loose_id w <$> a_loose_pgs (w_alloc w)) ++ reusable recs w)) as Hp by solve_Permutation.
    rewrite Hp in Hnd. by apply NoDup_app in Hnd as (_ & _ & Hnd).
  - unfold mdb_page_new. fold (alloc_one file me_flags me_map me_psize me_maxpg os_malloc junk mem_ok mt_txnid readers free_root [] fuel w).
    pose proof E as Edb. apply alloc_db in Edb. rewrite E. cbn [mbind option_bind]. destruct r as [[a q]|rc]; [|by eexists _, _].
    destruct Hr as [Hf Hq]. destruct (fp_block Hf) as (b & Hb & Hlen & Hbb). rewrite Hb. cbn [mbind option_bind].
    destruct (init_page_wf b fl Hbb) as (pg & Ei & Hwf & Hno & Hpf & Hroom); try done; [lia|]. rewrite Hlen in Ei, Hroom. rewrite Ei. cbn [mbind option_bind].
    destruct (init_page_kept b pg fl me_psize ltac:(lia) Ei) as [Hpq Hlp]. rewrite Hlen in Hlp.
    assert (pgno_of pg = q) as Hpq'.
    { rewrite Hpq. pose proof (fp_pgno Hf) as Hid. unfold loose_id in Hid. by rewrite Hb in Hid. }
    rewrite (get_flags pg Hwf). cbn [mbind option_bind]. rewrite Hpf, Hov, andb_false_r. cbn [mbind option_bind].
    eexists _, _. split; [reflexivity|]. cbn beta iota. exists pg.
    destruct (grown_new _ _ _ _ _ _ _ w news held Hg w1 q a pg Hf) as (Hg' & Ho & Hk).
    destruct (grown_rest me_psize me_maxpg readers mt_txnid recs w0 C (set_mem w1 a pg)
      (set_db (set_mem w1 a pg) (count_pages (w_db w1) (p_flags pg) 1)) (q :: news) held) as [Hg2 Hk2]; try done.
    rewrite <- Hpf. split; [exact Hg2|]. split; [by apply Hk2|]. split; [intros x c m Hx Ho'; by apply Hk2, Hk|]. split; [|split; [by split|]].
    + pose proof (new_nodup _ _ _ _ _ _ _ _ _ _ _ _ _ _ _ _ _ _ Hinv _ _ _ Hg') as Hnd. cbn [app] in Hnd.
      apply NoDup_cons in Hnd as [Hn _]. intros Hx. apply Hn, elem_of_app. by left.
    + pose proof (fp_same Hf) as (_ & _ & Er & Ec). split_and!; cbn; auto. rewrite count_entries. by rewrite Edb.
Qed.

(** ** The split point *)

Lemma make_plan_ok (mp : list Z) (nn : new_node) (newindx : Z) : splittable me_psize mp nn newindx ->
  exists r w', make_plan me_flags me_psize os_malloc w mp nn newindx = Some (r, w') /\
    match r with
    | inl (oc, s, sep) => exists c copy, oc = Some (c, copy) /\ grown w' news (c :: held) /\ kept w w' (fun _ => True) /\
        same_db w w' /\ sep = nn_key (all_node mp nn newindx s) /\ planned me_psize mp copy nn newindx s
    | inr rc => no_room rc
    end.
Proof.
  intros Hs. unfold make_plan, nz. rewrite (proj2 (sb_flags _ _ _ _ Hs)). cbn [Z.eqb negb].
  destruct (page_malloc_ok me_flags me_psize me_maxpg os_malloc ltac:(lia) Hmalloc w Hl) as (r & w1 & E & Hr).
  pose proof (malloc_db _ _ _ _ _ _ _ E) as Edb. rewrite E. cbn [mbind option_bind].
  destruct r as [c|]; [|eexists _, _; split; [reflexivity|]; right; by left].
  destruct (gb_block Hr) as (copy0 & Hc & Hlen & Hb). rewrite Hc. cbn [mbind option_bind].
  pose proof (split_input_of _ _ copy0 _ _ Hs Hlen Hb) as Hin.
  destruct (plan_split_ok _ _ _ _ _ Hin (sb_count _ _ _ _ Hs)) as (copy & s & Ep & (Hf & Hm) & Hbl & Hsl).
  rewrite Ep. cbn [mbind option_bind]. eexists _, _. split; [reflexivity|]. cbn beta iota. exists c, copy.
  destruct (grown_malloc _ _ _ _ _ _ _ w news held Hg w1 c Hr) as [Hg' Hk]. split; [done|]. split; [done|].
  split; [intros x a m _; apply Hk|]. split; [split_and!; [apply Hr|apply Hr|by rewrite Edb]|]. split; [done|]. by split.
Qed.

(** ** A new root *)

Abbreviation split_root := (split_root file me_flags me_map me_psize me_maxpg os_malloc junk mem_ok mt_txnid readers free_root [] fuel).

Lemma branch_add_ok (m : list Z) (k p : Z) (key : MDB_val) : page_wf m -> zlen m = me_psize -> EVEN me_psize = me_psize -> p_leaf m = false ->
  0 <= k <= p_num m -> val_ok key -> mv_size key < 65536 -> mdb_branch_size (Some key) <= p_upper m - p_lower m ->
  exists m', branch_add me_psize m k (Some key) p = Some (AddOk m' None) /\ inserted m k (NodeOps.branch_node (Some key) p) m'.
Proof.
  intros Hwf Hlen He Hlf Hk Hv Hks Hroom. apply node_add_branch_ok; auto; [by intros k0 [= <-]|].
  unfold mdb_branch_size in Hroom. pose proof (left_even m Hwf) as Hev. rewrite Hlen in Hev. specialize (Hev He).
  apply EVEN_iff in Hev as [q Hq]. pose proof (EVEN_bounds (INDXSIZE (Some key))).
  destruct (proj1 (EVEN_iff _) (EVEN_idem (INDXSIZE (Some key)))) as [q' Hq']. lia.
Qed.

Lemma split_root_ok (n : Z) (mc : wcursor) (p : Z) : wide n mc -> 26 <= me_psize -> 0 <= p < 2 ^ 48 ->
  exists rc w' mc', split_root w mc p = Some (rc, w', mc') /\
    (rc = MDB_SUCCESS /\ (exists a q pg, grown w' (q :: news) held /\ own_at w' q a pg /\ kept w w' (fun x => x <> q) /\ (q ∉ news) /\
        page_of me_psize false q pg /\ kids pg = [(Val 0 [], p)] /\ p_upper pg - p_lower pg = me_psize - 26 /\
        w_root w' = q /\ w_cursors w' = w_cursors w /\ md_entries (w_db w') = md_entries (w_db w) /\
        aget (wc_pg mc') 0 = Some (Some (Heap a)) /\ aget (wc_ki mc') 0 = Some 0) /\
        aget (wc_pg mc') 1 = aget (wc_pg mc) 0 /\ aget (wc_ki mc') 1 = aget (wc_ki mc) 0 /\ wc_snum mc' = 2 /\ wc_top mc' = 1 /\
        wide 2 mc' \/
     no_room rc /\ rc <> MDB_SUCCESS).
Proof.
  intros Hm H26 Hp. unfold Split.split_root.
  destruct (page_new_ok P_BRANCH) as (r & w1 & -> & Hr); try done. cbn [mbind option_bind].
  destruct r as [[a q]|rc]; [|eexists _, _, _; split; [reflexivity|]; right; split; [done|]; by destruct Hr as [->|[->| ->]]].
  destruct Hr as (pg & Hg1 & Ho & Hk & Hq & He & Hsame). destruct (wide_get n mc 0 Hm ltac:(lia)) as (p0 & k0 & E0 & K0). rewrite E0, K0. cbn [mbind option_bind].
  destruct (set_level_ok n mc 1 p0 k0 Hm ltac:(lia)) as (mc1 & -> & Hm1 & L1). cbn [mbind option_bind].
  destruct (set_level_ok n mc1 0 (Some (Heap a)) 0 Hm1 ltac:(lia)) as (mc2 & -> & Hm2 & L2). cbn [mbind option_bind].
  set (w2 := set_db _ _). destruct (grown_rest me_psize me_maxpg readers mt_txnid recs w0 C w1 w2 (q :: news) held) as [Hg2 Hk2]; try done.
  pose proof (Hk2 _ _ _ Ho) as [Hd Hmem]. rewrite Hmem. cbn [mbind option_bind].
  destruct (empty_kids _ _ _ _ He) as (Hkid & Hnum & _). pose proof (ep_wf _ _ _ _ He) as Hwf. pose proof (ep_room _ _ _ _ He) as Hroom.
  assert (page_of me_psize false q pg) as Hpo.
  { apply (empty_page_of me_psize q P_BRANCH); try done. unfold p_dirty. by rewrite (ep_flags _ _ _ _ He). }
  destruct (node_add_branch_ok 0 (nodemax me_psize) me_psize (no_overflow) pg 0 None None p 0 Hwf) as (pg' & Ea & Hi).
  { apply Hpo. } { lia. } { done. } { change (EVEN (INDXSIZE None) + 2) with 10. unfold PAGEHDRSZ in Hroom. lia. }
  unfold branch_add. rewrite Ea. cbn [mbind option_bind]. eexists _, _, _. split; [reflexivity|]. left. split; [done|].
  change (NodeOps.branch_node None p) with (NodeOps.branch_node (Some (Val 0 [])) p) in Hi.
  assert (page_of me_psize false q pg') as Hpo'.
  { apply (page_of_head _ _ _ _ _ Hpo); apply Hi. }
  destruct (grown_write me_psize me_maxpg readers mt_txnid recs w0 C w2 (q :: news) held Hg2 q a pg pg') as (Hg3 & Ho3 & Hk3).
  { right. by left. } { by split. } { apply Hpo'. } { apply Hpo'. } { by rewrite (po_pgno _ _ _ _ Hpo), (po_pgno _ _ _ _ Hpo'). }
  destruct L1 as [P1 K1 R1], L2 as [P2 K2 R2]. destruct Hsame as (Sr & Sc & Se). split.
  - exists a, q, pg'. split; [exact Hg3|]. split; [exact Ho3|]. split; [intros x b m Hx Hb; by apply Hk3, Hk2, Hk|]. split; [done|]. split; [done|].
    split; [|split; [|split_and!; try done]].
    + rewrite (kids_inserted pg pg' 0 (Val 0 []) p); try done; [by rewrite Hkid|apply Hpo].
    + rewrite (in_upper _ _ _ _ Hi), (in_lower _ _ _ _ Hi). change (EVEN (zlen (NodeOps.branch_node (Some (Val 0 [])) p))) with 8. unfold PAGEHDRSZ in Hroom. lia.

  - unfold set_height. cbn [wc_pg wc_ki wc_snum wc_top]. rewrite P2, K2, P1, K1. split_and!; try done. split; cbn; [apply Hm2|apply Hm2|lia].
Qed.

(** ** The two halves *)

Abbreviation split_pages := (split_pages file me_flags me_map me_psize me_maxpg os_malloc junk mem_ok mt_txnid readers free_root [] fuel).
Abbreviation move_part := (move_part file me_flags me_map me_psize me_maxpg os_malloc junk mem_ok mt_txnid readers free_root [] fuel).
Abbreviation node_page := (node_page file me_flags me_map me_psize me_maxpg os_malloc junk mem_ok mt_txnid readers free_root [] fuel).

(** The cursor is at index [ki] of the block [a]. *)
Definition at_top (mc : wcursor) (a ki : Z) : Prop :=
  aget (wc_pg mc) (wc_top mc) = Some (Some (Heap a)) /\ aget (wc_ki mc) (wc_top mc) = Some ki.

(** The pages of the split. *)
Record halves (w : wtxn) (leaf : bool) (p mpa q rpa : Z) (rs : list (list Z)) (s : Z) : Prop := {
  hv_left : exists mp, own_at w p mpa mp /\ page_of me_psize leaf p mp /\ p_raw mp = unkeyed leaf (take (Z.to_nat s) rs);
  hv_right : exists rp, own_at w q rpa rp /\ page_of me_psize leaf q rp /\ p_raw rp = unkeyed leaf (drop (Z.to_nat s) rs)
}.

Section Halves.
Variables (n b mpa rpa p q : Z) (leaf : bool) (mn : wcursor) (mp rp copy : list Z) (nn : new_node) (newindx s : Z).
Hypothesis Hsb : splittable me_psize mp nn newindx.
Hypothesis Hmp : own_at w p mpa mp.
Hypothesis Hrp : own_at w q rpa rp.
Hypothesis Hpc : p ∈ C \/ p ∈ news.
Hypothesis Hqn : q ∈ news.
Hypothesis Hpq : p <> q.
Hypothesis Pmp : page_of me_psize leaf p mp.
Hypothesis Prp : page_of me_psize leaf q rp.
Hypothesis Erp : empty_page me_psize (p_flags mp) q rp.
Hypothesis Hpl : planned me_psize mp copy nn newindx s.
Hypothesis Hmn : wide b mn.
(** The parent. *)
Variables (x ga : Z) (gm : list Z).
Hypothesis Hx : own_at w x ga gm.
Hypothesis Hxp : x <> p /\ x <> q.
Hypothesis Hgm : page_wf gm.
Definition below (mc : wcursor) : Prop :=
  wide n mc /\ 1 <= wc_top mc < 32 /\ aget (wc_pg mc) (wc_top mc - 1) = Some (Some (Heap ga)).

Lemma moved_right_ok (w' : wtxn) (mc' : wcursor) (i : Z) : 0 <= i < 32 -> wide n mc' -> aget (wc_pg mc') i = Some (Some (Heap ga)) ->
  w_mem w' !! ga = Some gm -> exists r, moved_right w' mc' mn i = Some r.
Proof.
  intros Hi Hw Ea Hm. unfold moved_right. destruct (wide_get b mn i Hmn Hi) as (pn & kn & -> & _). rewrite Ea. cbn [mbind option_bind].
  destruct (bool_decide _); [by exists false|]. destruct (wide_get n mc' i Hw Hi) as (pc & kc & _ & ->). cbn [mbind option_bind].
  unfold keys_at, block_at. rewrite Ea. cbn [mbind option_bind]. rewrite Hm. cbn [mbind option_bind]. rewrite NUMKEYS_ok by done. by eexists.
Qed.

Lemma move_part_ok (mc : wcursor) (c : Z) : below mc -> exists w' mc', move_part w mc mn mpa rpa mp nn newindx s (Some (c, copy)) = Some (MDB_SUCCESS, w', mc') /\
  grown w' news held /\ halves w' leaf p mpa q rpa (all_raw mp nn newindx) s /\ kept w w' (fun y => y <> p /\ y <> q) /\ same_db w w' /\
  wide n mc' /\ wc_snum mc' = wc_snum mc /\ wc_top mc' = wc_top mc /\
  at_top mc' (if newindx <? s then mpa else rpa) (if newindx <? s then newindx else newindx - s).
Proof.
  intros (Hmc & Htop & Hxa). unfold Split.move_part. rewrite (proj2 Hrp). cbn [mbind option_bind].
  assert (split_input me_psize mp copy nn newindx) as Hin.
  { apply split_input_of; [done|apply Hpl|apply Hpl]. }
  destruct (move_nodes_ok 0 me_psize (node_page w nn) mp copy rp nn newindx Hin) with (copy := copy) (s := s) as
    (mp' & rp' & -> & Wm & Wr & Sm & Sr & Rm & Rr & Lm & Lr); try apply Hpl.
  { split_and!; [apply Prp|apply Erp|by rewrite (po_leaf _ _ _ _ Prp), (po_leaf _ _ _ _ Pmp)|by rewrite (ep_room _ _ _ _ Erp)]. }
  cbn [mbind option_bind]. unfold store_halves. cbn [mbind option_bind].
  rewrite (po_leaf _ _ _ _ Pmp) in Rm, Rr.
  assert (page_of me_psize leaf p mp') as Pm'.
  { by apply (page_of_head _ _ _ mp). }
  assert (page_of me_psize leaf q rp') as Pr'.
  { by apply (page_of_head _ _ _ rp). }
  destruct (grown_write me_psize me_maxpg readers mt_txnid recs w0 C w news held Hg p mpa mp mp') as (G1 & O1 & K1);
    [done|done|apply Pm'|apply Wm|by rewrite (po_pgno _ _ _ _ Pmp), (po_pgno _ _ _ _ Pm')|].
  destruct (grown_write me_psize me_maxpg readers mt_txnid recs w0 C (set_mem w mpa mp') news held G1 q rpa rp rp') as (G2 & O2 & K2);
    [by right|by apply K1|apply Pr'|apply Wr|by rewrite (po_pgno _ _ _ _ Prp), (po_pgno _ _ _ _ Pr')|].
  set (w2 := set_mem _ rpa rp') in *.
  destruct (set_level_ok n mc (wc_top mc) (Some (Heap mpa)) (if newindx <? s then newindx else newindx - s) Hmc ltac:(lia)) as (mc1 & -> & Hm1 & [P1 I1 (S1 & T1 & F1)]).
  cbn [mbind option_bind].
  assert (halves w2 leaf p mpa q rpa (all_raw mp nn newindx) s) as Hh.
  { split; [exists mp'|exists rp']; split_and!; auto. }
  assert (kept w w2 (fun y => y <> p /\ y <> q)) as Hk by (intros y a m [Hyp Hyq] Hy; by apply K2, K1).
  destruct (Z.ltb_spec newindx s); cbn [negb].
  - eexists _, _. split; [reflexivity|]. split_and!; try done. unfold at_top. by rewrite T1, P1, I1, !decide_True by done.
  - unfold go_right. rewrite T1. destruct (set_page_ok n mc1 (wc_top mc) (Some (Heap rpa)) Hm1 ltac:(lia)) as (mc2 & -> & Hm2 & L2).
    cbn [mbind option_bind]. specialize (L2 (newindx - s)). rewrite I1, decide_True in L2 by done. destruct (L2 eq_refl) as [P2 I2 (S2 & T2 & F2)].
    destruct (wide_get n mc2 (wc_top mc - 1) Hm2 ltac:(lia)) as (pp & kp & Epp & Ekp). rewrite Ekp. cbn [mbind option_bind].
    destruct (set_index_ok n mc2 (wc_top mc - 1) (u16 (kp + 1)) Hm2 ltac:(lia)) as (mc3 & -> & Hm3 & L3). cbn [mbind option_bind].
    destruct (L3 _ Epp) as [P3 I3 (S3 & T3 & F3)].
    destruct (moved_right_ok w2 mc3 (wc_top mc - 1)) as (r & ->); [lia|done| | |].
    + rewrite P3, decide_True by done. rewrite <- Epp, P2, decide_False by lia. by rewrite P1, decide_False by lia.
    + apply (Hk x ga gm Hxp Hx).
    + cbn [mbind option_bind].
      assert (exists mc4, (if r then copy_levels (Z.to_nat (wc_top mc - 1 + 1)) 0 mc3 mn else Some mc3) = Some mc4 /\ wide n mc4 /\
        (wc_snum mc4 = wc_snum mc3 /\ wc_top mc4 = wc_top mc3 /\ wc_flags mc4 = wc_flags mc3) /\
        aget (wc_pg mc4) (wc_top mc) = aget (wc_pg mc3) (wc_top mc) /\ aget (wc_ki mc4) (wc_top mc) = aget (wc_ki mc3) (wc_top mc)) as
        (mc4 & -> & Hm4 & (S4 & T4 & F4) & P4 & I4).
      { destruct r; [|by exists mc3]. destruct (copy_levels_ok n b (Z.to_nat (wc_top mc - 1 + 1)) mc3 mn 0 Hm3 Hmn) as (mc4 & -> & Hm4 & R4 & J4); [lia..|].
        destruct (J4 (wc_top mc)) as [Jp Ji]. rewrite decide_False in Jp, Ji by lia. exists mc4. split; [done|]. split; [done|]. by split. }
      cbn [mbind option_bind]. eexists _, _. split; [reflexivity|]. split_and!; try done; try congruence.
      unfold at_top. rewrite T4, T3, T2, T1, P4, I4, P3, I3, !decide_False, P2, I2, !decide_True by lia. done.
Qed.

Lemma split_pages_ok (mc : wcursor) (c : Z) (held' : list Z) (N : Z) (new_root did : bool) : below mc -> held = c :: held' -> Forall (wide N) (w_cursors w) ->
  N <= (if new_root then 31 else 32) ->
  exists w' mc', split_pages w mc mn mpa rpa nn newindx s (Some (c, copy)) new_root did = Some (MDB_SUCCESS, w', mc') /\
    grown w' news held' /\ halves w' leaf p mpa q rpa (all_raw mp nn newindx) s /\ kept w w' (fun y => y <> p /\ y <> q) /\
    w_root w' = w_root w /\ md_entries (w_db w') = md_entries (w_db w) /\ Forall (wide (if new_root then N + 1 else N)) (w_cursors w') /\
    wide n mc' /\ wc_snum mc' = wc_snum mc /\ wc_top mc' = wc_top mc /\
    at_top mc' (if newindx <? s then mpa else rpa) (if newindx <? s then newindx else newindx - s).
Proof.
  intros Hb Eh Hcs HN. unfold Split.split_pages. rewrite (proj2 Hmp). cbn [mbind option_bind].
  set (mc1 := wflags mc _). assert (below mc1) as Hb1 by (destruct Hb as ([] & Ht & Hg1); by split; [split|]).
  destruct (move_part_ok mc1 c Hb1) as (w1 & mc2 & -> & Hg1 & Hh & Hk & (Sr & Sc & Se) & Hm2 & S2 & T2 & A2). cbn [mbind option_bind].
  change (nz MDB_SUCCESS) with false. cbv iota. destruct (hv_left _ _ _ _ _ _ _ _ Hh) as (mp' & [_ Hmem] & Pm & _). rewrite Hmem. cbn [mbind option_bind].
  rewrite NUMKEYS_ok by apply Pm. cbn [mbind option_bind]. rewrite Sc. destruct Hb as (_ & Ht & _).
  destruct (fix_cursors_ok N n b new_root did mc2 mn mpa rpa newindx s (p_num mp') (nz (Z.land (nn_flags nn) MDB_SPLIT_REPLACE)) (w_cursors w))
    as (cs & -> & Hcs'); try done; [by rewrite T2|].
  cbn [mbind option_bind]. unfold split_done. change (nz MDB_SUCCESS) with false. cbv iota. eexists _, _. split; [reflexivity|].
  rewrite Eh in Hg1. destruct (grown_rest me_psize me_maxpg readers mt_txnid recs w0 C w1 (set_cursors w1 cs) news (c :: held')) as [Hg2 Hk2]; try done.
  split; [by apply grown_dpage|]. split; [by destruct Hh; split|]. split; [by intros y a m Hy Ho; apply (Hk y a m)|]. by split_and!.
Qed.
End Halves.
End At.

(** ** After the parent was split *)

Lemma wide_height (n snum : Z) (mc : wcursor) : wide n mc -> snum - 1 < n -> wide n (set_height mc snum).
Proof. intros [] Hs. by split. Qed.

(** The cursor goes to the half that has its page, which is a block. *)
Lemma after_parent_ok (w : wtxn) (mc mn : wcursor) (T ga gra : Z) (gl : list Z) (k s : Z) : wide 32 mc -> wc_top mc = T -> wc_snum mc = T + 1 ->
  1 <= T < 31 -> wide 32 mn -> (wc_top mn = T - 1 \/ wc_top mn = T) -> wc_snum mn = wc_top mn + 1 ->
  aget (wc_pg mc) (T - 1) = Some (Some (Heap ga)) -> aget (wc_ki mc) (T - 1) = Some k ->
  w_mem w !! ga = Some gl -> page_wf gl -> p_num gl = s ->
  at_top mn (if k + 1 <? s then ga else gra) (if k + 1 <? s then k + 1 else k + 1 - s) ->
  exists mc' pa, after_parent file me_flags [] w mc mn = Some mc' /\ wide 32 mc' /\ wc_top mc' = wc_top mn + 1 /\ wc_snum mc' = wc_top mn + 2 /\
    aget (wc_pg mc') (wc_top mc') = aget (wc_pg mc) T /\ aget (wc_ki mc') (wc_top mc') = aget (wc_ki mc) T /\
    (pa = ga \/ pa = gra) /\ aget (wc_pg mc') (wc_top mc' - 1) = Some (Some (Heap pa)).
Proof.
  intros Hmc Ht Hsn HT Hmn Hmt Hms Hpg Hki Hmem Hwf Hnum [Ap Ai]. unfold after_parent. rewrite Hms, Hsn, Ht.
  assert (exists mc1, (if wc_top mn + 1 =? T + 1 then
          p ← aget (wc_pg mc) T; k ← aget (wc_ki mc) T;
          mc ← set_level mc (T + 1) p k;
          p ← aget (wc_pg mc) (wc_top mc - 1); k ← aget (wc_ki mc) (wc_top mc - 1);
          mc ← set_level mc (wc_top mc) p k;
          Some (set_height mc (wc_snum mc + 1))
        else Some mc) = Some mc1 /\ wide 32 mc1 /\ wc_top mc1 = wc_top mn + 1 /\ wc_snum mc1 = wc_top mn + 2 /\
    aget (wc_pg mc1) (wc_top mc1) = aget (wc_pg mc) T /\ aget (wc_ki mc1) (wc_top mc1) = aget (wc_ki mc) T /\
    aget (wc_pg mc1) (wc_top mc1 - 1) = Some (Some (Heap ga)) /\ aget (wc_ki mc1) (wc_top mc1 - 1) = Some k) as
    (mc1 & -> & H1 & T1 & S1 & P1 & I1 & Pp & Ip).
  { destruct (Z.eqb_spec (wc_top mn + 1) (T + 1)).
    - destruct (wide_get 32 mc T Hmc ltac:(lia)) as (p & i & Ep & Ei). rewrite Ep, Ei. cbn [mbind option_bind].
      destruct (set_level_ok 32 mc (T + 1) p i Hmc ltac:(lia)) as (m1 & -> & W1 & [Lp Li (Ls & Lt & _)]). cbn [mbind option_bind].
      rewrite Lt, Ht, Lp, Li, !decide_False, Hpg, Hki by lia. cbn [mbind option_bind].
      destruct (set_level_ok 32 m1 T (Some (Heap ga)) k W1 ltac:(lia)) as (m2 & -> & W2 & [Mp Mi (Ms & Mt & _)]). cbn [mbind option_bind].
      eexists. split; [reflexivity|]. split; [apply wide_height; [done|lia]|]. unfold set_height. cbn [wc_pg wc_ki wc_top wc_snum].
      rewrite Ms, Ls, Hsn. replace (T + 1 + 1 - 1) with (T + 1) by lia. replace (T + 1 - 1) with T by lia.
      rewrite !Mp, !Mi, !(decide_False (P := T + 1 = T)), !(decide_True (P := T = T)), Lp, Li, !decide_True by lia. split_and!; congruence || lia.
    - exists mc. rewrite Ht. assert (wc_top mn = T - 1) as -> by lia. split_and!; done || lia. }
  cbn [mbind option_bind]. rewrite T1 in *. replace (wc_top mn + 1 - 1) with (wc_top mn) in * by lia.
  unfold moved_right. rewrite Ap, Pp, Ip. cbn [mbind option_bind].
  destruct (bool_decide_reflect (Some (Heap (if k + 1 <? s then ga else gra)) = Some (Heap ga))) as [E|E]; cbn [mbind option_bind].
  { exists mc1, ga. rewrite T1. replace (wc_top mn + 1 - 1) with (wc_top mn) by lia. split_and!; auto. }
  unfold keys_at, block_at. rewrite Pp. cbn [mbind option_bind]. rewrite Hmem. cbn [mbind option_bind]. rewrite NUMKEYS_ok by done. cbn [mbind option_bind].
  rewrite Hnum. destruct (Z.ltb_spec (k + 1) s); [done|]. destruct (Z.leb_spec s k); cycle 1.
  { exists mc1, ga. rewrite T1. replace (wc_top mn + 1 - 1) with (wc_top mn) by lia. split_and!; auto. }
  destruct (copy_levels_ok 32 32 (Z.to_nat (wc_top mn)) mc1 mn 0 H1 Hmn) as (mc2 & -> & W2 & (S2 & T2 & _) & J2); [lia..|].
  cbn [mbind option_bind]. rewrite Ai. cbn [mbind option_bind]. unfold nz. rewrite (proj2 (Z.eqb_neq (k + 1 - s) 0)) by lia. cbn [negb].
  destruct (set_level_ok 32 mc2 (wc_top mn) (Some (Heap gra)) (u16 (k + 1 - s - 1)) W2 ltac:(lia)) as (mc3 & -> & H3 & [Lp Li (Ls & Lt & _)]).
  exists mc3, gra. split; [done|]. rewrite Lt, T2, T1, Ls, S2, S1. replace (wc_top mn + 1 - 1) with (wc_top mn) by lia.
  destruct (J2 (wc_top mn + 1)) as [Jp Ji]. rewrite decide_False in Jp, Ji by lia.
  rewrite !Lp, !Li, !(decide_False (P := wc_top mn + 1 = wc_top mn)), decide_True by lia. split_and!; auto; congruence.
Qed.

(** ** The rest of the split *)

Abbreviation split_rest := (split_rest file me_flags me_map me_psize me_maxpg os_malloc junk mem_ok mt_txnid readers free_root [] fuel).
Abbreviation split_up := (split_up file me_flags me_map me_psize me_maxpg os_malloc junk mem_ok mt_txnid readers free_root [] fuel).
Abbreviation split_here := (split_here file me_flags me_map me_psize me_maxpg os_malloc junk mem_ok mt_txnid readers free_root [] fuel).

Section Rest.
Variables (leaf : bool) (p mpa q rpa x ga k newindx : Z) (mp rp gm : list Z) (nn : new_node).
Hypothesis Epsize : EVEN me_psize = me_psize.

(** The page [p], the new page [q] and the parent [x], with the child at
    index [k]. *)
Record ready (w : wtxn) (mc : wcursor) (news held : list Z) : Prop := {
  rd_grown : grown w news held;
  rd_p : own_at w p mpa mp;
  rd_q : own_at w q rpa rp;
  rd_x : own_at w x ga gm;
  rd_in : (p ∈ C \/ p ∈ news) /\ q ∈ news /\ (x ∈ C \/ x ∈ news);
  rd_ne : p <> q /\ x <> p /\ x <> q;
  rd_pp : page_of me_psize leaf p mp;
  rd_pq : page_of me_psize leaf q rp;
  rd_px : page_of me_psize false x gm;
  rd_empty : empty_page me_psize (p_flags mp) q rp;
  rd_split : splittable me_psize mp nn newindx;
  rd_wide : wide 32 mc;
  rd_top : 1 <= wc_top mc < 31 /\ wc_snum mc = wc_top mc + 1;
  rd_par : aget (wc_pg mc) (wc_top mc - 1) = Some (Some (Heap ga)) /\ aget (wc_ki mc) (wc_top mc - 1) = Some k;
  rd_k : 0 <= k < p_num gm
}.

(** The cursor [mn] that the parent is written with. *)
Record sibling (mc mn : wcursor) : Prop := {
  sn_wide : wide 32 mn;
  sn_rest : wc_top mn = wc_top mc /\ wc_snum mn = wc_snum mc;
  sn_par : aget (wc_pg mn) (wc_top mc - 1) = Some (Some (Heap ga)) /\ aget (wc_ki mn) (wc_top mc - 1) = Some (k + 1);
  sn_up j : j < wc_top mc - 1 -> aget (wc_pg mn) j = aget (wc_pg mc) j /\ aget (wc_ki mn) j = aget (wc_ki mc) j
}.

Lemma num_16 (m : list Z) : page_wf m -> p_num m < 32768.
Proof. intros Hwf. pose proof (wf_lower _ Hwf). pose proof (wf_upper _ Hwf). pose proof (wf_psize _ Hwf) as Hp. unfold MAX_PAGESIZE in Hp. lia. Qed.

Lemma sibling_cursor_ok (w : wtxn) (mc : wcursor) (news held : list Z) : ready w mc news held ->
  exists mn, sibling_cursor mc rpa false = Some mn /\ sibling mc mn.
Proof.
  intros []. destruct rd_top0 as [Ht Hs], rd_par0 as [Hpp Hpk]. pose proof (num_16 gm (po_wf _ _ _ _ rd_px0)). unfold sibling_cursor.
  destruct (wide_get 32 mc (wc_top mc) rd_wide0 ltac:(lia)) as (pt & kt & _ & Ek).
  destruct (set_page_ok 32 mc (wc_top mc) (Some (Heap rpa)) rd_wide0 ltac:(lia)) as (m1 & -> & W1 & L1). destruct (L1 kt Ek) as [Lp Li (Ls & Lt & _)].
  rewrite Hpk. cbn [mbind option_bind]. destruct (set_index_ok 32 m1 (wc_top mc - 1) (u16 (k + 1)) W1 ltac:(lia)) as (m2 & -> & W2 & L2).
  cbn [mbind option_bind]. destruct (L2 (Some (Heap ga))) as [Mp Mi (Ms & Mt & _)]; [by rewrite Lp, decide_False by lia|].
  exists m2. split; [done|]. split; [done|by split; congruence| |].
  - rewrite Mp, Mi, !decide_True by done. by rewrite uwrap_small by lia.
  - intros j Hj. by rewrite Mp, Mi, !(decide_False (P := j = wc_top mc - 1)), Lp, Li, !decide_False by lia.
Qed.

Lemma ready_kept (w w' : wtxn) (mc : wcursor) (news held held' : list Z) : ready w mc news held -> grown w' news held' -> kept w w' (fun _ => True) ->
  ready w' mc news held'.
Proof. intros [] Hg Hk. split; auto. Qed.

Lemma ready_flags (w : wtxn) (mc : wcursor) (news held : list Z) (fl : Z) : ready w mc news held -> ready w (wflags mc fl) news held.
Proof. intros [? ? ? ? ? ? ? ? ? ? ? [] ? ? ?]. by split. Qed.

Lemma split_rest_front (rec : wtxn -> wcursor -> new_node -> option (Z * wtxn * wcursor)) (w : wtxn) (mc : wcursor) (news held : list Z)
    (nr : bool) : ready w mc news held ->
  (exists rc w' mc', split_rest rec w mc mpa mp rpa q nn newindx nr = Some (rc, w', mc') /\ no_room rc) \/
  exists w1 mc1 mn c copy s, let sep := nn_key (all_node mp nn newindx s) in
    split_rest rec w mc mpa mp rpa q nn newindx nr =
      (if p_upper gm - p_lower gm <? mdb_branch_size (Some sep) then split_up rec w1 mc1 mn mpa rpa q nn newindx s sep (Some (c, copy)) nr
       else split_here w1 mc1 mn ga gm mpa rpa q nn newindx s sep (Some (c, copy)) nr) /\
    ready w1 mc1 news (c :: held) /\ sibling mc1 mn /\ planned me_psize mp copy nn newindx s /\ kept w w1 (fun _ => True) /\ same_db w w1 /\
    wc_top mc1 = wc_top mc /\ wc_pg mc1 = wc_pg mc /\ wc_ki mc1 = wc_ki mc.
Proof.
  intros Hr. unfold Split.split_rest. set (mc1 := wflags mc _). pose proof (ready_flags _ _ _ _ (Z.lor (wc_flags mc) C_SPLITTING) Hr) as Hr1. fold mc1 in Hr1.
  rewrite (proj2 (sb_flags _ _ _ _ (rd_split _ _ _ _ Hr))). change (nz 0) with false.
  destruct (sibling_cursor_ok w mc1 news held Hr1) as (mn & -> & Hmn). cbn [mbind option_bind].
  destruct (make_plan_ok w news held (rd_grown _ _ _ _ Hr) mp nn newindx (rd_split _ _ _ _ Hr)) as (r & w1 & -> & Hp). cbn [mbind option_bind].
  destruct r as [[[oc s] sep]|rc]; [|left; eexists _, _, _; by split]. right.
  destruct Hp as (c & copy & -> & Hg1 & Hk & Hs & -> & Hpl). pose proof (ready_kept _ w1 _ _ _ _ Hr1 Hg1 Hk) as Hr2.
  exists w1, mc1, mn, c, copy, s. cbn zeta. split; [|by split_and!].
  destruct Hmn as [_ [Ht _] [Hpp _] _]. unfold block_at. rewrite Ht, Hpp. cbn [mbind option_bind].
  rewrite (proj2 (rd_x _ _ _ _ Hr2)). cbn [mbind option_bind]. rewrite SIZELEFT_ok by apply (rd_px _ _ _ _ Hr2). done.
Qed.

(** The parent has room. *)
Lemma split_here_ok (w : wtxn) (mc mn : wcursor) (news held : list Z) (c s N : Z) (copy : list Z) (nr : bool) :
  let sep := nn_key (all_node mp nn newindx s) in
  ready w mc news (c :: held) -> sibling mc mn -> planned me_psize mp copy nn newindx s -> mdb_branch_size (Some sep) <= p_upper gm - p_lower gm ->
  Forall (wide N) (w_cursors w) -> N <= (if nr then 31 else 32) ->
  exists w' mc' gm', split_here w mc mn ga gm mpa rpa q nn newindx s sep (Some (c, copy)) nr = Some (MDB_SUCCESS, w', mc') /\
    grown w' news held /\ halves w' leaf p mpa q rpa (all_raw mp nn newindx) s /\ own_at w' x ga gm' /\ page_of me_psize false x gm' /\
    inserted gm (k + 1) (NodeOps.branch_node (Some sep) q) gm' /\ kept w w' (fun y => y <> p /\ y <> q /\ y <> x) /\
    w_root w' = w_root w /\ md_entries (w_db w') = md_entries (w_db w) /\ Forall (wide (if nr then N + 1 else N)) (w_cursors w') /\
    wide 32 mc' /\ wc_snum mc' = wc_snum mc /\ wc_top mc' = wc_top mc /\
    at_top mc' (if newindx <? s then mpa else rpa) (if newindx <? s then newindx else newindx - s).
Proof.
  intros sep Hr Hs Hpl Hroom Hcs HN. pose proof Hr as []. destruct rd_in0 as (Hpi & Hqi & Hxi), rd_ne0 as (Hpq & Hxp & Hxq), rd_par0 as [Hpp Hpk].
  unfold Split.split_here. destruct Hs as [Hmn [Ht _] [Hnp Hnk] _]. rewrite Ht, Hnk. cbn [mbind option_bind].
  assert (split_input me_psize mp copy nn newindx) as Hin by (apply split_input_of; [done|apply Hpl|apply Hpl]).
  assert (val_ok sep /\ mv_size sep < 65536) as [Hv H6].
  { apply (all_key me_psize mp copy nn newindx s Hin). pose proof (s_range me_psize mp copy nn newindx s Hin (pl_fits _ _ _ _ _ _ Hpl)). lia. }
  destruct (branch_add_ok gm (k + 1) q sep) as (gm' & -> & Hi); try done; [apply rd_px0|apply rd_px0|apply rd_px0|lia|]. cbn [mbind option_bind].
  assert (page_of me_psize false x gm') as Pg by (apply (page_of_head _ _ _ gm); auto; apply Hi).
  destruct (grown_write me_psize me_maxpg readers mt_txnid recs w0 C w news (c :: held) rd_grown0 x ga gm gm') as (G1 & O1 & K1); try done;
    [apply Pg|apply Pg|by rewrite (po_pgno _ _ _ _ rd_px0), (po_pgno _ _ _ _ Pg)|].
  destruct (split_pages_ok (set_mem w ga gm') news (c :: held) G1 32 32 mpa rpa p q leaf mn mp rp copy nn newindx s rd_split0) with
    (x := x) (ga := ga) (gm := gm') (mc := mc) (c := c) (held' := held) (N := N) (new_root := nr) (did := false)
    as (w' & mc' & -> & G2 & Hh & K2 & Sr & Se & Sc & Wc & Sn & St & Sa); try done; try (by apply K1); try apply Pg.
  { by split_and!; try lia. }
  exists w', mc', gm'. split; [done|]. split; [done|]. split; [done|]. split; [apply K2; [by split|done]|]. split; [done|]. split; [done|].
  split; [intros y a m (Hy1 & Hy2 & Hy3) Hy; by apply K2, K1|]. by split_and!.
Qed.

(** The parent is split: [x'] is its right half. *)
Lemma split_up_ok (rec : wtxn -> wcursor -> new_node -> option (Z * wtxn * wcursor)) (w w2 : wtxn) (mc mn mn2 : wcursor)
    (news news2 held : list Z) (c s x' ga' sg : Z) (copy gl gr : list Z) :
  let sep := nn_key (all_node mp nn newindx s) in
  ready w mc news (c :: held) -> sibling mc mn -> planned me_psize mp copy nn newindx s ->
  rec w (set_height mn (wc_snum mn - 1)) (NewNode sep None q 0) = Some (MDB_SUCCESS, w2, mn2) ->
  grown w2 news2 (c :: held) -> own_at w2 p mpa mp -> own_at w2 q rpa rp -> (forall y, y ∈ news -> y ∈ news2) ->
  own_at w2 x ga gl -> page_wf gl -> p_num gl = sg -> own_at w2 x' ga' gr -> page_wf gr -> x' <> p -> x' <> q ->
  Forall (wide 32) (w_cursors w2) -> wide 32 mn2 -> (wc_top mn2 = wc_top mc - 1 \/ wc_top mn2 = wc_top mc) -> wc_snum mn2 = wc_top mn2 + 1 ->
  at_top mn2 (if k + 1 <? sg then ga else ga') (if k + 1 <? sg then k + 1 else k + 1 - sg) ->
  exists w' mc', split_up rec w mc mn mpa rpa q nn newindx s sep (Some (c, copy)) false = Some (MDB_SUCCESS, w', mc') /\
    grown w' news2 held /\ halves w' leaf p mpa q rpa (all_raw mp nn newindx) s /\ kept w2 w' (fun y => y <> p /\ y <> q) /\
    w_root w' = w_root w2 /\ md_entries (w_db w') = md_entries (w_db w2) /\ Forall (wide 32) (w_cursors w') /\
    wide 32 mc' /\ wc_snum mc' = wc_top mc' + 1 /\ wc_top mc' = wc_top mn2 + 1 /\
    at_top mc' (if newindx <? s then mpa else rpa) (if newindx <? s then newindx else newindx - s).
Proof.
  intros sep Hr Hs Hpl Er Hg2 Hp2 Hq2 Hnews Hx2 Wgl Hnum Hx2' Wgr Hxp' Hxq' Hcs Wmn Tmn Smn Amn. pose proof Hr as [].
  destruct rd_in0 as (Hpi & Hqi & Hxi), rd_ne0 as (Hpq & Hxp & Hxq), rd_par0 as [Hpp Hpk], rd_top0 as [Ht Hsn].
  unfold Split.split_up. rewrite Er. cbn [mbind option_bind]. change (nz MDB_SUCCESS) with false. cbv iota.
  destruct (after_parent_ok w2 mc mn2 (wc_top mc) ga ga' gl k sg) as (mc1 & pa & -> & W1 & T1 & S1 & P1 & I1 & Hpa & Ep); try done; [apply Hx2|].
  cbn [mbind option_bind].
  assert (exists xx gg, own_at w2 xx pa gg /\ page_wf gg /\ xx <> p /\ xx <> q) as (xx & gg & Hxx & Wgg & Nxx).
  { destruct Hpa as [->| ->]; [by exists x, gl|by exists x', gr]. }
  destruct (split_pages_ok w2 news2 (c :: held) Hg2 32 32 mpa rpa p q leaf mn2 mp rp copy nn newindx s rd_split0) with
    (x := xx) (ga := pa) (gm := gg) (mc := mc1) (c := c) (held' := held) (N := 32) (new_root := false) (did := true)
    as (w' & mc' & -> & G2 & Hh & K2 & Sr & Se & Sc & Wc & Sn & St & Sa); try done; auto.
  { destruct Hpi; auto. } { by split_and!; try lia. }
  exists w', mc'. rewrite St, T1, Sn, S1. rewrite <- T1, <- St. split_and!; try done. lia.
Qed.
End Rest.
End Steps.
