(* ===== verification/SplitSizes.v ===== *)
(** * Sizes of keys and nodes that every page split can divide

    [mdb_page_split] ([src/LegacyDatabase/mdb.c]) divides pages with many
    nodes by their number.  When the sizes of the keys are within bounds, the
    halves of a branch page fit in their pages all the same and have two
    nodes at least, so a split goes up to the root without an error. *)
From S2P Require Import Prelude.
From S2P Require Import Bytes.
From S2P Require Import Page.
From S2P Require Import PageSpec.
From S2P Require Import NodeOps.
From S2P Require Import Cmp.
From S2P Require Import NodeSearch.
From S2P Require Import Tree.
From S2P Require Import PageSplit.
From S2P Require Import Cow.
From S2P Require Import TouchInv.
From S2P Require Import LeafItems.
From S2P Require Import Forest.
From S2P Require Import SplitSteps.
From Stdlib Require Import ZArith Lia.
From stdpp Require Import base numbers option list.
Open Scope Z_scope.

(** A page that is split by number has twenty nodes of at least [lo] bytes;
    with at most [hi] bytes each, the halves fit. *)
Definition count_fits (pmax lo hi : Z) : Prop := pmax < 19 * lo \/ hi * (pmax / lo + 3) <= 2 * pmax.

Lemma count_ok (pmax lo hi n : Z) (sizes : list Z) : 0 < lo -> 0 <= hi -> 1 <= n -> zlen sizes = n + 1 ->
  Forall (fun x => 0 <= x <= hi) sizes -> lo * (n - 1) <= pmax -> count_fits pmax lo hi -> n < 20 \/ fits pmax sizes ((n + 1) / 2).
Proof.
  intros Hlo Hhi Hn Hz Hs Hp [Hc|Hc]; [left; nia|right].
  assert (Forall (fun x => x <= hi) sizes) as Hs' by (apply (Forall_impl _ _ _ Hs); lia).
  pose proof (Z.div_mod (n + 1) 2 ltac:(lia)). pose proof (Z.mod_pos_bound (n + 1) 2 ltac:(lia)).
  assert (n - 1 <= pmax / lo) as Hd by (apply Z.div_le_lower_bound; lia).
  assert (hi * (n + 2) <= 2 * pmax) as Hb by nia.
  pose proof (sumZ_bound _ _ (Forall_take _ (Z.to_nat ((n + 1) / 2)) sizes Hs')) as H1.
  pose proof (sumZ_bound _ _ (Forall_drop _ (Z.to_nat ((n + 1) / 2)) sizes Hs')) as H2.
  rewrite zlen_take in H1 by lia. rewrite zlen_drop in H2 by lia. split; [lia|nia|nia].
Qed.

Lemma zlen_tail {A} (l : list A) : 1 <= zlen l -> zlen (tail l) = zlen l - 1.
Proof. destruct l; [done|]. cbn [tail]. rewrite zlen_cons. lia. Qed.

Lemma sum_tail (c : Z) (l : list (list Z)) : Forall (fun x => 0 <= x) (cell <$> l) -> Forall (fun x => c <= x) (cell <$> tail l) ->
  c * zlen (tail l) <= sumZ (cell <$> l).
Proof.
  assert (c * zlen (@nil (list Z)) <= 0) as H0 by (change (zlen (@nil (list Z))) with 0; lia).
  destruct l as [|x l]; [done|]. cbn [tail fmap list_fmap sumZ]. intros [Hx _]%Forall_cons Hl.
  assert (c * zlen l <= sumZ (cell <$> l)); [|lia]. induction l as [|y l IH]; [done|].
  cbn [fmap list_fmap sumZ] in *. apply Forall_cons in Hl as [Hy Hl]. specialize (IH Hl). rewrite zlen_cons. lia.
Qed.

Section Sizes.
Context (D : MDB_val -> Prop) (me_psize kmin kmax : Z).
Definition branch_lo : Z := EVEN (8 + kmin) + 2.
Definition branch_hi : Z := EVEN (8 + kmax) + 2.

Record key_sizes : Prop := {
  kz_dom k : D k -> kmin <= mv_size k <= kmax;
  kz_min : 0 <= kmin <= kmax;
  kz_five : 5 * branch_hi <= me_psize - PAGEHDRSZ;
  kz_count : count_fits (me_psize - PAGEHDRSZ) branch_lo branch_hi;
  kz_even : EVEN me_psize = me_psize;
  kz_max : me_psize <= MAX_PAGESIZE
}.
Hypothesis Hz : key_sizes.

Lemma EVEN_mono (a b : Z) : a <= b -> EVEN a <= EVEN b.
Proof. intros Hab. rewrite !EVEN_eq. pose proof (Z.div_le_mono (a + 1) (b + 1) 2). lia. Qed.

Lemma nodemax_low : (me_psize - PAGEHDRSZ) / 2 - 3 <= nodemax me_psize.
Proof.
  unfold nodemax, MDB_MINKEYS. set (x := (me_psize - PAGEHDRSZ) / 2). change (-2) with (Z.lnot (Z.ones 1)).
  rewrite <- Z.ldiff_land, Z.ldiff_ones_r, Z.shiftl_mul_pow2, Z.shiftr_div_pow2 by lia. change (2 ^ 1) with 2.
  pose proof (Z.div_mod x 2). pose proof (Z.mod_pos_bound x 2). lia.
Qed.

Lemma size_limits (k : MDB_val) : mv_size k = 0 \/ D k -> 10 <= branch_lo /\ 0 < branch_hi /\ mv_size k < 65536 /\
  8 + mv_size k <= nodemax me_psize /\ EVEN (8 + mv_size k) + 2 <= branch_hi.
Proof.
  intros Hk. destruct Hz as [Hd Hm H5 _ _ Hmx]. unfold branch_hi, branch_lo, PAGEHDRSZ, MAX_PAGESIZE in *.
  pose proof (EVEN_bounds (8 + kmin)). pose proof (EVEN_bounds (8 + kmax)). pose proof nodemax_low as Hn. unfold PAGEHDRSZ in Hn.
  pose proof (Z.div_mod (me_psize - 16) 2). pose proof (Z.mod_pos_bound (me_psize - 16) 2).
  assert (mv_size k <= kmax /\ 0 <= mv_size k) as [Hle Hnn] by (destruct Hk as [->|Hk%Hd]; lia).
  pose proof (EVEN_mono (8 + mv_size k) (8 + kmax) ltac:(lia)). lia.
Qed.

(** ** A branch page that has no room for a node *)

Section Branch.
Variables (m : list Z) (sep : MDB_val) (idx : Z) (q : Z).
Hypothesis Hwf : page_wf m.
Hypothesis Hlen : zlen m = me_psize.
Hypothesis Hleaf : p_leaf m = false.
Hypothesis Hfirst : first_key_ok D m.
Hypothesis Hkeys : forall j, 1 <= j < p_num m -> D (n_key m j).
Hypothesis Hsep : D sep /\ val_ok sep.
Hypothesis Hidx : 1 <= idx <= p_num m.
Hypothesis Hfull : p_upper m - p_lower m < mdb_branch_size (Some sep).
Let nn := NewNode sep None q 0.

Lemma key_ok (j : Z) : 0 <= j < p_num m -> mv_size (n_key m j) = 0 \/ D (n_key m j).
Proof. intros Hj. destruct (decide (j = 0)) as [->|]; [apply Hfirst; [done|lia]|right; apply Hkeys; lia]. Qed.

Lemma branch_raw (j : Z) : 0 <= j < p_num m -> zlen (zn (p_raw m) j) = 8 + mv_size (n_key m j) /\ n_raw m j = 8 + mv_size (n_key m j).
Proof.
  intros Hj. destruct (zn_p_raw m j Hwf Hj) as (_ & _ & E). destruct (n_raw_eq m j Hwf Hj) as (E' & _). rewrite Hleaf in E'.
  rewrite E. split; rewrite E'; unfold n_key; cbn [mv_size]; lia.
Qed.

Lemma branch_image : zlen (image false nn) = 8 + mv_size sep.
Proof.
  destruct Hsep as [_ [Hs _]]. unfold image, NodeOps.branch_node. cbn [nn_key nn]. rewrite !zlen_app, !zlen_le_bytes, Hs. lia.
Qed.

Lemma branch_cells : Forall (fun x => 0 <= x <= branch_hi) (all_cells m nn idx) /\ branch_lo * (p_num m - 1) <= me_psize - PAGEHDRSZ /\
  me_psize - PAGEHDRSZ < sumZ (all_cells m nn idx).
Proof.
  pose proof (zlen_p_raw m Hwf) as Hzr.
  assert (forall x, x ∈ (cell <$> p_raw m) -> exists j, 0 <= j < p_num m /\ x = EVEN (8 + mv_size (n_key m j)) + 2) as Hel.
  { intros x (r & -> & Hr)%list_elem_of_fmap. apply list_elem_of_lookup in Hr as [i Hi]. destruct (lookup_p_raw m i r Hwf Hi) as [Hj ->].
    exists (Z.of_nat i). split; [done|]. unfold cell. by rewrite (proj1 (branch_raw _ Hj)). }
  assert (forall j, 0 <= j < p_num m -> 10 <= EVEN (8 + mv_size (n_key m j)) + 2 <= branch_hi) as Hb.
  { intros j Hj. destruct (size_limits _ (key_ok j Hj)) as (_ & _ & _ & _ & Hh). pose proof (EVEN_bounds (8 + mv_size (n_key m j))).
    pose proof (proj2 (branch_raw j Hj)) as Hr. destruct (n_raw_eq m j Hwf Hj) as (_ & _ & _ & _ & H8). lia. }
  destruct (size_limits sep (or_intror (proj1 Hsep))) as (Hlo & Hhi & _ & _ & Hs).
  assert (cell (image (p_leaf m) nn) = EVEN (8 + mv_size sep) + 2) as Ec by (unfold cell; by rewrite Hleaf, branch_image).
  assert (0 <= mv_size sep) by (destruct Hsep as [_ [-> _]]; apply zlen_nonneg). pose proof (EVEN_bounds (8 + mv_size sep)) as Hev.
  unfold all_cells, all_raw. rewrite with_new_fmap, Ec. split; [|split].
  - unfold with_new. apply Forall_app. split; [|apply Forall_app; split]; [apply Forall_take|repeat constructor; lia|apply Forall_drop].
    all: apply Forall_forall; intros x (j & Hj & ->)%Hel; pose proof (Hb j Hj); lia.
  - pose proof (cells_sum m Hwf) as Hsum. pose proof (wf_upper _ Hwf).
    assert (branch_lo * zlen (tail (p_raw m)) <= sumZ (cell <$> p_raw m)) as Ht.
    { apply sum_tail.
      - apply Forall_forall. intros x (j & Hj & ->)%Hel. pose proof (Hb j Hj). lia.
      - apply Forall_forall. intros x (r & -> & Hr)%list_elem_of_fmap. apply list_elem_of_lookup in Hr as [i Hi]. rewrite lookup_tail in Hi.
        destruct (lookup_p_raw m (S i) r Hwf Hi) as [Hj ->]. unfold cell. rewrite (proj1 (branch_raw _ Hj)).
        pose proof (kz_dom Hz _ (Hkeys (Z.of_nat (S i)) ltac:(lia))). unfold branch_lo. pose proof (EVEN_mono (8 + kmin) (8 + mv_size (n_key m (Z.of_nat (S i)))) ltac:(lia)). lia. }
    unfold PAGEHDRSZ. rewrite zlen_tail in Ht by lia. lia.
  - rewrite with_new_sum, cells_sum by done. rewrite Hlen. unfold mdb_branch_size, INDXSIZE, NODESIZE in Hfull. unfold PAGEHDRSZ in *. cbn [Z.add] in Hfull. lia.
Qed.

Lemma branch_splittable : splittable me_psize m nn idx.
Proof.
  destruct branch_cells as (Hc & Hlow & _). pose proof (size_limits sep (or_intror (proj1 Hsep))) as (Hlo & Hhi & H6 & Hmx & _).
  pose proof branch_image as Hi. pose proof (zlen_p_raw m Hwf) as Hzr.
  split; auto; try lia.
  - intros j Hj. rewrite (proj2 (branch_raw j Hj)). by apply size_limits, key_ok.
  - rewrite Hleaf. split; [apply Hsep|done|by rewrite Hi|done].
  - rewrite Hleaf. unfold cell. rewrite Hi. unfold mdb_branch_size, INDXSIZE in Hfull. cbn [mv_size] in Hfull. pose proof (EVEN_bounds (8 + mv_size sep)).
    unfold NODESIZE in Hfull. lia.
  - destruct (count_ok (me_psize - PAGEHDRSZ) branch_lo branch_hi (p_num m) (all_cells m nn idx)) as [Hn|]; auto; try lia.
    + unfold all_cells, all_raw. rewrite zlen_fmap, zlen_with_new; lia.
    + exact (kz_count Hz).
    + left. unfold searched. by rewrite (proj2 (Z.ltb_lt (p_num m) 20)) by lia.
Qed.

(** Both halves have two nodes. *)
Lemma branch_halves (copy : list Z) (s : Z) : planned me_psize m copy nn idx s -> 2 <= s <= p_num m - 1.
Proof.
  intros Hp. destruct branch_cells as (Hc & _ & Hsum). pose proof (zlen_p_raw m Hwf) as Hzr.
  assert (zlen (all_cells m nn idx) = p_num m + 1) as Hl by (unfold all_cells, all_raw; rewrite zlen_fmap, zlen_with_new; lia).
  pose proof (pl_middle _ _ _ _ _ _ Hp branch_hi) as Hm. rewrite Hl in Hm.
  assert (2 <= s < p_num m + 1 - 1); [|lia]. apply Hm; [|exact (kz_five Hz)|exact Hsum]. apply (Forall_impl _ _ _ Hc). lia.
Qed.

(** The children, with the new one. *)
Hypothesis Hq : 0 <= q < 2 ^ 48.
Definition new_kids : list (MDB_val * Z) := with_new (kids m) idx (sep, q).

Lemma all_kids : kid_of <$> all_raw m nn idx = new_kids.
Proof.
  unfold all_raw, new_kids. rewrite with_new_fmap, Hleaf. unfold image. cbn [nn_key nn_pgno nn].
  rewrite kid_new; try done; [apply Hsep|]. apply (size_limits sep (or_intror (proj1 Hsep))).
Qed.

Lemma new_kids_length : zlen new_kids = p_num m + 1.
Proof. pose proof (kids_length m Hwf). unfold new_kids. rewrite zlen_with_new; lia. Qed.

Lemma new_kids_at (s : Z) : 0 <= s <= p_num m -> exists p, new_kids !! Z.to_nat s = Some (nn_key (all_node m nn idx s), p) /\
  (1 <= s -> D (nn_key (all_node m nn idx s))).
Proof.
  intros Hs. pose proof (kids_length m Hwf) as Hk. unfold new_kids, with_new, all_node, old_slot. unfold zlen in Hk.
  assert (length (take (Z.to_nat idx) (kids m)) = Z.to_nat idx) as Ht by (rewrite length_take; lia).
  destruct (Z.eqb_spec s idx) as [->|Hne].
  - exists q. rewrite lookup_app_r, Ht, Nat.sub_diag by lia. split; [done|]. intros _. apply Hsep.
  - destruct (Z.ltb_spec s idx).
    + exists (n_pgno m s). rewrite lookup_app_l by lia. rewrite lookup_take_lt by lia. rewrite kids_lookup by (done || lia). split; [done|].
      intros. apply Hkeys. lia.
    + exists (n_pgno m (s - 1)). rewrite lookup_app_r, Ht by lia. replace (Z.to_nat s - Z.to_nat idx)%nat with (S (Z.to_nat (s - 1) - Z.to_nat idx)) by lia.
      cbn [app]. change (([?x] ++ ?l) !! S ?i) with (l !! i). rewrite lookup_cons, lookup_drop. replace (Z.to_nat idx + (Z.to_nat (s - 1) - Z.to_nat idx))%nat with (Z.to_nat (s - 1)) by lia.
      rewrite kids_lookup by (done || lia). split; [done|]. intros. apply Hkeys. lia.
Qed.

(** The pages of the two halves. *)
Lemma half_kids (m' : list Z) (rs : list (list Z)) : (exists k, rs = take k (all_raw m nn idx)) \/ (exists k, rs = drop k (all_raw m nn idx)) ->
  page_wf m' -> p_raw m' = unkeyed false rs -> kids m' = unkey (kid_of <$> rs) /\ first_key_ok D m'.
Proof.
  intros Hrs Hwf' Hraw. assert (Forall (fun r => 8 <= zlen r) rs) as H8.
  { assert (Forall (fun r => 8 <= zlen r) (all_raw m nn idx)) as Ha.
    { unfold all_raw, with_new. rewrite !Forall_app. rewrite Hleaf, Forall_singleton, branch_image.
      assert (Forall (fun r => 8 <= zlen r) (p_raw m)) as Hr.
      { apply Forall_forall. intros r Hr. apply list_elem_of_lookup in Hr as [i Hi]. destruct (lookup_p_raw m i r Hwf Hi) as [Hj ->].
        destruct (n_raw_eq m _ Hwf Hj) as (_ & _ & _ & _ & H8). rewrite (proj1 (branch_raw _ Hj)). by rewrite (proj2 (branch_raw _ Hj)) in H8. }
      destruct Hsep as [_ [Hs _]]. pose proof (zlen_nonneg (mv_data sep)). split; [by apply Forall_take|]. split; [lia|by apply Forall_drop]. }
    destruct Hrs as [[k ->]|[k ->]]; [by apply Forall_take|by apply Forall_drop]. }
  pose proof (kids_unkeyed m' rs H8 Hraw) as E. split; [done|]. intros _ Hn. left.
  pose proof (kids_lookup m' 0 Hwf' ltac:(lia)) as Ek. rewrite E in Ek. change (Z.to_nat 0) with O in Ek.
  destruct (kid_of <$> rs) as [|kd l]; [done|]. change (unkey (kd :: l) !! O) with (Some (Val 0 [], kd.2)) in Ek. assert (n_key m' 0 = Val 0 []) as -> by congruence. done.
Qed.
End Branch.
End Sizes.
