(* ===== verification/SplitPlug.v ===== *)
(** * The tree after a page split ([mdb_page_split],
    [src/LegacyDatabase/mdb.c])

    When a page under a path is divided in two, the path changes up to the
    first page with room, or up to a new root.  [plugs]: whatever two subtrees
    are put at the two halves, the whole is a tree with their items in the
    place of the old ones. *)
From S2P Require Import Prelude.
From S2P Require Import Bytes.
From S2P Require Import Page.
From S2P Require Import PageSpec.
From S2P Require Import NodeOps.
From S2P Require Import Cmp.
From S2P Require Import NodeSearch.
From S2P Require Import Tree.
From S2P Require Import CursorPath.
From S2P Require Import PageSplit.
From S2P Require Import Cow.
From S2P Require Import Touch.
From S2P Require Import TouchInv.
From S2P Require Import LeafItems.
From S2P Require Import Split.
From S2P Require Import Forest.
From S2P Require Import Grow.
From S2P Require Import SplitSteps.
From Stdlib Require Import ZArith Lia.
From stdpp Require Import base numbers option list gmap.
Open Scope Z_scope.

Section Plug.
Variable base : Z -> option (list Z).
Variable me_psize : Z.
Hypothesis Hps : 0 < me_psize.
Context (md_cmp : MDB_cmp_func) (D : MDB_val -> Prop) (ord : MDB_val -> MDB_val -> Z) (H : nat) (r : Z).
Hypothesis Hord : order_laws D ord.
Hypothesis HB : branch_order md_cmp D ord.
Abbreviation items := (list (MDB_val * MDB_val)).
Abbreviation subtree := (subtree md_cmp D ord).
Abbreviation forest := (forest md_cmp D ord).
Abbreviation hole := (hole md_cmp D ord base H r).

Definition plugs (w : wtxn) (up : list frame) (h : nat) (p q : Z) (sep : MDB_val) (lft rgt : items) (more : list Z) (H' : nat) : Prop :=
  forall get c1 c2,
    (forall y, y ∈ sides (leaf_pages me_psize) base up h -> get y = base y) ->
    (forall y a m, y ∈ numbers up \/ y ∈ more -> own_at w y a m -> get y = Some m) ->
    subtree get h p c1 -> subtree get h q c2 -> Forall (fun e => D e.1) (c1 ++ c2) -> Forall (in_frames D ord up) (c1 ++ c2) ->
    Forall (fun e => ord e.1 sep < 0) c1 -> Forall (fun e => ord sep e.1 <= 0) c2 ->
    exists root, get (w_root w) = Some root /\ tree get md_cmp D ord H' root (lft ++ c1 ++ c2 ++ rgt) /\
      forall leafp, Permutation (sub_pages leafp get H' (w_root w))
        (more ++ numbers up ++ sides leafp base up h ++ sub_pages leafp get h p ++ sub_pages leafp get h q).

(** ** A new root *)

Lemma page_not_nil (leaf : bool) (x : Z) (m : list Z) : page_of me_psize leaf x m -> m <> [].
Proof. intros [Hwf] ->. destruct (wf_psize _ Hwf) as [E _]. by cbn in E. Qed.

Lemma plug_root (w : wtxn) (a p q : Z) (m : list Z) (sep : MDB_val) : own_at w (w_root w) a m -> page_of me_psize false (w_root w) m ->
  kids m = [(Val 0 [], p); (sep, q)] -> D sep -> plugs w [] H p q sep [] [] [w_root w] (S H).
Proof.
  intros Ho Hm Hk HD get c1 c2 _ Hown S1 S2 HDc _ Hlt Hge. pose proof (po_wf _ _ _ _ Hm) as Hwf.
  assert (get (w_root w) = Some m) as Hg by (apply (Hown _ a); [right; by left|done]).
  pose proof (kids_length m Hwf) as Hn. rewrite Hk in Hn. change (zlen _) with 2 in Hn. apply Forall_app in HDc as [HD1 HD2].
  assert (forest get H None (kids m) None [c1; c2]) as Hf.
  { rewrite Hk. split; [exact S1|]. split; [|split; [exact HD|split; [exact S2|split; [|done]]]]; apply Forall_forall; intros e He.
    - rewrite Forall_forall in HD1, Hlt. split_and!; [by apply HD1|done|by apply Hlt].
    - rewrite Forall_forall in HD2, Hge. split_and!; [by apply HD2|by apply Hge|done]. }
  exists m. split; [done|]. split.
  - cbn [app]. rewrite app_nil_r. replace (c1 ++ c2) with (concat [c1; c2]) by (cbn; by rewrite app_nil_r).
    apply forest_tree; try done; [apply Hm|apply Hm|lia].
  - intros leafp. unfold sub_pages at 1. rewrite Hg, gen_pages_kids, Hk by done. cbn. unfold kid_pages. cbn. by rewrite app_nil_r.
Qed.

(** ** The parent *)

Section Parent.
Variables (w : wtxn) (g : frame) (up : list frame) (h : nat) (p q : Z) (sep : MDB_val) (lft rgt : items).
Hypothesis Hhole : hole (g :: up) h p lft rgt.
Hypothesis Dsep : D sep.
Hypothesis Hq : 0 <= q < 2 ^ 48.
Let m := fr_page g.
Let k := fr_ki g.
Definition more_kids : list (MDB_val * Z) := with_new (kids m) (k + 1) (sep, q).

(** The children of the parent in a store that agrees with the old one. *)
Section Get.
Variables (get : Z -> option (list Z)) (c1 c2 : items).
Hypothesis Hsides : forall y, y ∈ sides (leaf_pages me_psize) base (g :: up) h -> get y = base y.
Hypothesis S1 : subtree get h p c1.
Hypothesis S2 : subtree get h q c2.
Hypothesis Hin : Forall (in_frames D ord (g :: up)) (c1 ++ c2).
Hypothesis Hlt : Forall (fun e => ord e.1 sep < 0) c1.
Hypothesis Hge : Forall (fun e => ord sep e.1 <= 0) c2.

Lemma parent_forest : exists ess lft' rgt', forest get h None more_kids None ess /\ hole up (S h) (fr_pgno g) lft' rgt' /\
  lft ++ c1 ++ c2 ++ rgt = lft' ++ concat ess ++ rgt' /\ Forall (in_frames D ord up) (concat ess) /\ page_wf m /\ 0 <= k < p_num m /\
  (forall leafp, Permutation (kid_pages leafp get h more_kids)
    (side_pages leafp base h m k ++ sub_pages leafp get h p ++ sub_pages leafp get h q)) /\
  (forall y, y ∈ sides (leaf_pages me_psize) base up (S h) -> get y = base y).
Proof.
  destruct Hhole as (ls & rs & lft' & rgt' & _ & _ & Hk & Hc & Hb & Hls & Hrs & -> & -> & Hup). fold m k in Hk, Hc, Hb.
  assert (forall y, y ∈ side_pages (leaf_pages me_psize) base h m k -> get y = base y) as Hs1.
  { intros y Hy. apply Hsides. cbn [sides]. apply elem_of_app. by left. }
  destruct (sides_move md_cmp D ord me_psize Hps base get h m m k ls rs Hb) as [Hb' Hsp]; try done.
  { apply page_copy_refl, (bs_wf _ _ _ _ _ _ _ _ _ Hb). }
  rewrite <- Hc in S1.
  assert (Forall (fun e => in_child D ord m k e.1) (c1 ++ c2)) as Hin1 by (apply (Forall_impl _ _ _ Hin); intros e He; by apply Forall_cons in He as [He _]).
  assert (Forall (in_frames D ord up) (c1 ++ c2)) as Hin2 by (apply (Forall_impl _ _ _ Hin); intros e He; by apply Forall_cons in He as [_ He]).
  exists (ls ++ c1 :: c2 :: rs), lft', rgt'. split; [by apply (forest_insert md_cmp D ord get h m k q sep ls rs c1 c2)|].
  split; [done|]. rewrite concat_app. cbn [concat]. split; [by rewrite <- !app_assoc|].
  apply Forall_app in Hin2 as [Hi1 Hi2]. split; [by rewrite !Forall_app|]. split; [apply Hb|]. split; [done|]. split.
  - intros leafp. rewrite (pages_insert md_cmp D ord get h m k q sep ls rs Hb' Hk leafp). by rewrite Hsp, Hc.
  - intros y Hy. apply Hsides. cbn [sides]. apply elem_of_app. by right.
Qed.
End Get.

(** It has room. *)
Lemma plug_room (ga : Z) (m' : list Z) : w_root w = r -> own_at w (fr_pgno g) ga m' -> page_of me_psize false (fr_pgno g) m' ->
  val_ok sep -> mv_size sep < 65536 -> p_leaf m = false -> inserted m (k + 1) (NodeOps.branch_node (Some sep) q) m' ->
  (forall f, f ∈ up -> exists a, own_at w (fr_pgno f) a (fr_page f)) -> plugs w (g :: up) h p q sep lft rgt [] H.
Proof.
  intros Hr Ho Hm Hv H6 Hlf Hi Hup get c1 c2 Hs Hown S1 S2 HDc Hin Hlt Hge.
  destruct (parent_forest get c1 c2 Hs S1 S2 Hin Hlt Hge) as (ess & lft' & rgt' & Hf & Hh & Ees & Hin' & Wm & Hk & Hpp & Hs').
  assert (get (fr_pgno g) = Some m') as Hg by (apply (Hown _ ga); [left; by left|done]).
  assert (kids m' = more_kids) as Ek by (by apply (kids_inserted m m' (k + 1) sep q)).
  assert (forall x, x ∈ numbers up \/ x ∈ sides (leaf_pages me_psize) base up (S h) -> get x = base x) as Hsame.
  { intros x [Hx|Hx]; [|by apply Hs']. apply list_elem_of_fmap in Hx as (f & -> & Hfu). destruct (Hup f Hfu) as (a & Hoa).
    rewrite (Hown _ a (fr_page f)); [|left; right; apply list_elem_of_fmap; by exists f|done].
    by destruct (hole_get md_cmp D ord base H r f up _ _ _ _ Hh Hfu) as [-> _]. }
  pose proof (moved_same md_cmp D ord me_psize base get H r up _ _ _ _ Hh Hsame) as Hmv.
  destruct (hole_move md_cmp D ord me_psize Hps base get H r r up up _ _ _ _ _ Hh Hmv) as (Hh' & _ & Hsd).
  assert (tree get md_cmp D ord (S h) m' (concat ess)) as Ht.
  { apply forest_tree; try done; [apply Hm|apply Hm|apply Hm| |by rewrite Ek]. pose proof (kids_length m' (po_wf _ _ _ _ Hm)) as Hn.
    rewrite Ek in Hn. unfold more_kids in Hn. pose proof (kids_length m Wm). rewrite zlen_with_new in Hn; lia. }
  destruct (forest_bounds md_cmp D ord get h Hord more_kids None None ess) as [_ Hne]; try done.
  { unfold more_kids, with_new. by destruct (take _ _). }
  destruct (hole_plug md_cmp D ord get H r up _ _ m' _ (concat ess) _ Hh' Hg (page_not_nil _ _ _ Hm) Ht Hne Hin') as (root & E & _ & Htr & Hperm).
  rewrite Hr. exists root. split; [done|]. split; [by rewrite Ees|]. intros leafp. rewrite Hperm. rewrite Hsd. unfold sub_pages at 1. rewrite Hg.
  rewrite gen_pages_kids, Ek, Hpp by apply Hm. cbn [numbers sides fmap list_fmap app]. fold m k. solve_Permutation.
Qed.

(** It is divided. *)
Lemma plug_full (ga x' ga' s : Z) (gl gr : list Z) (sep' : MDB_val) (p' : Z) (more : list Z) (H' : nat) :
  own_at w (fr_pgno g) ga gl -> page_of me_psize false (fr_pgno g) gl -> own_at w x' ga' gr -> page_of me_psize false x' gr ->
  kids gl = unkey (take (Z.to_nat s) more_kids) -> kids gr = unkey (drop (Z.to_nat s) more_kids) -> 2 <= s <= p_num m - 1 ->
  more_kids !! Z.to_nat s = Some (sep', p') -> D sep' ->
  (forall lft' rgt', hole up (S h) (fr_pgno g) lft' rgt' -> plugs w up (S h) (fr_pgno g) x' sep' lft' rgt' more H') ->
  plugs w (g :: up) h p q sep lft rgt (x' :: more) H'.
Proof.
  intros Hol Hgl Hor Hgr Ekl Ekr Hs2 Hsep' Dsep' IH get c1 c2 Hs Hown S1 S2 HDc Hin Hlt Hge.
  destruct (parent_forest get c1 c2 Hs S1 S2 Hin Hlt Hge) as (ess & lft' & rgt' & Hf & Hh & Ees & Hin' & Wm & Hk & Hpp & Hs').
  assert (get (fr_pgno g) = Some gl) as El by (apply (Hown _ ga); [left; by left|done]).
  assert (get x' = Some gr) as Er by (apply (Hown _ ga'); [right; by left|done]).
  assert (zlen more_kids = p_num m + 1) as Hlen by (unfold more_kids; pose proof (kids_length m Wm); rewrite zlen_with_new; lia).
  set (l1 := take (Z.to_nat s) more_kids) in *. set (l2 := drop (Z.to_nat s) more_kids) in *.
  assert (zlen l1 = s) as Hl1 by (unfold l1; rewrite zlen_take; lia). assert (zlen l2 = p_num m + 1 - s) as Hl2 by (unfold l2; rewrite zlen_drop; lia).
  assert (head_key l2 None = Some sep') as Hhd by (unfold l2; by rewrite (drop_S _ _ _ Hsep')).
  assert (more_kids = l1 ++ l2) as E12 by (unfold l1, l2; by rewrite take_drop). rewrite E12 in Hf.
  assert (l1 <> []) as Hn1 by (intros E; rewrite E in Hl1; change (zlen _) with 0 in Hl1; lia).
  assert (l2 <> []) as Hn2 by (intros E; rewrite E in Hl2; change (zlen _) with 0 in Hl2; lia).
  destruct (forest_split md_cmp D ord get h l1 l2 None None ess Hn1 Hf) as (ess1 & ess2 & -> & Hf1 & Hf2 & _). rewrite Hhd in Hf1, Hf2.
  destruct (forest_bounds md_cmp D ord get h Hord l1 None (Some sep') ess1 Hn1 ltac:(done) Dsep' Hf1) as [Hb1 Hne1].
  destruct (forest_bounds md_cmp D ord get h Hord l2 (Some sep') None ess2 Hn2 Dsep' ltac:(done) Hf2) as [Hb2 Hne2].
  assert (forall l, zlen (unkey l) = zlen l) as Hul by (by intros []).
  assert (tree get md_cmp D ord (S h) gl (concat ess1)) as Ht1.
  { apply forest_tree; try done; [apply Hgl|apply Hgl|apply Hgl| |].
    - pose proof (kids_length gl (po_wf _ _ _ _ Hgl)) as Hn. rewrite Ekl, Hul in Hn. lia.
    - rewrite Ekl. by eapply forest_unkey, forest_hi. }
  assert (tree get md_cmp D ord (S h) gr (concat ess2)) as Ht2.
  { apply forest_tree; try done; [apply Hgr|apply Hgr|apply Hgr| |].
    - pose proof (kids_length gr (po_wf _ _ _ _ Hgr)) as Hn. rewrite Ekr, Hul in Hn. lia.
    - rewrite Ekr. by eapply forest_unkey, forest_lo. }
  rewrite concat_app in Ees, Hin'.
  destruct (IH lft' rgt' Hh get (concat ess1) (concat ess2)) as (root & E & Htr & Hperm); try done.
  - intros y a m1 Hy. apply Hown. destruct Hy; [left|right]; by right.
  - exists gl. split_and!; try done. by eapply page_not_nil.
  - exists gr. split_and!; try done. by eapply page_not_nil.
  - apply Forall_app. split; [apply (Forall_impl _ _ _ Hb1)|apply (Forall_impl _ _ _ Hb2)]; intros e He; apply He.
  - apply (Forall_impl _ _ _ Hb1). intros e He. apply He.
  - apply (Forall_impl _ _ _ Hb2). intros e He. apply He.
  - exists root. split; [done|]. split; [by rewrite Ees, <- app_assoc|]. intros leafp. rewrite Hperm. unfold sub_pages at 1 2. rewrite El, Er.
    rewrite !gen_pages_kids by (apply Hgl || apply Hgr). rewrite Ekl, Ekr, !kid_pages_unkey. specialize (Hpp leafp). rewrite E12, kid_pages_app in Hpp.
    cbn [numbers sides fmap list_fmap app]. fold m k.
    transitivity (x' :: more ++ numbers up ++ sides leafp base up (S h) ++ fr_pgno g :: (kid_pages leafp get h l1 ++ kid_pages leafp get h l2));
      [solve_Permutation|]. rewrite Hpp. solve_Permutation.
Qed.
End Parent.
End Plug.
