(* ===== verification/SplitInv.v ===== *)
(** * A page split from the leaf to the root ([mdb_page_split],
    [src/LegacyDatabase/mdb.c])

    By induction on the path: the split of a page gives its two halves, and a
    path that holds both ([plugs] of [SplitPlug.v]), or it fails for want of
    memory or pages. *)
From S2P Require Import Prelude.
From S2P Require Import Bytes.
From S2P Require Import Midl.
From S2P Require Import Page.
From S2P Require Import PageSpec.
From S2P Require Import NodeOps.
From S2P Require Import Cmp.
From S2P Require Import NodeSearch.
From S2P Require Import Cursor.
From S2P Require Import PageList.
From S2P Require Import Tree.
From S2P Require Import CursorPath.
From S2P Require Import PageAlloc.
From S2P Require Import FreeDb.
From S2P Require Import PageSplit.
From S2P Require Import Cow.
From S2P Require Import Touch.
From S2P Require Import TouchInv.
From S2P Require Import TouchSteps.
From S2P Require Import CursorTouch.
From S2P Require Import LeafItems.
From S2P Require Import Put.
From S2P Require Import Split.
From S2P Require Import Forest.
From S2P Require Import Grow.
From S2P Require Import SplitSteps.
From S2P Require Import SplitSizes.
From S2P Require Import SplitPlug.
From Stdlib Require Import ZArith Lia.
From stdpp Require Import base numbers option list gmap.
Open Scope Z_scope.

Lemma no_room_nz (rc : Z) : no_room rc -> nz rc = true.
Proof. by intros [->|[->| ->]]. Qed.

(** A node put after the first one. *)
Lemma first_key_inserted (D : MDB_val -> Prop) (m m' : list Z) (k q : Z) (sep : MDB_val) : page_wf m -> p_leaf m = false -> page_wf m' ->
  val_ok sep -> mv_size sep < 65536 -> 0 <= q < 2 ^ 48 -> 1 <= k <= p_num m -> inserted m k (NodeOps.branch_node (Some sep) q) m' ->
  first_key_ok D m -> first_key_ok D m'.
Proof.
  intros Hwf Hl Hwf' Hv H6 Hq Hk Hi Hf _ Hn. pose proof (kids_inserted m m' k sep q Hwf Hl Hv H6 Hq Hi) as E.
  pose proof (kids_lookup m' 0 Hwf' ltac:(lia)) as E1. pose proof (kids_lookup m 0 Hwf ltac:(lia)) as E0.
  rewrite E in E1. unfold with_new in E1. rewrite lookup_app_l in E1.
  - rewrite lookup_take_lt, E0 in E1 by lia. assert (n_key m' 0 = n_key m 0) as -> by congruence. apply Hf; [done|lia].
  - apply lookup_lt_Some in E0. rewrite length_take. lia.
Qed.

Section Inv.
Variable file : Z -> option (list Z).
Variables (me_flags me_map me_psize me_maxpg : Z).
Variable os_malloc : gmap Z (list Z) -> Z -> option (Z * list Z).
Variables (junk : nat -> Z) (mem_ok : Z -> bool).
Variables (mt_txnid : Z) (readers : option (list MDB_reader * Z)).
Hypothesis Hwm : Z.land me_flags MDB_WRITEMAP = 0.
Hypothesis Hps : 16 <= me_psize <= MAX_PAGESIZE.
Hypothesis Hmax : me_maxpg <= 2 ^ 31.
Hypothesis Hmalloc : forall mem sz a b, os_malloc mem sz = Some (a, b) -> mem !! a = None /\ zlen b = sz /\ Forall is_byte b.
Abbreviation seen := (view file me_flags []).
Context (md_cmp : MDB_cmp_func) (D : MDB_val -> Prop) (ord : MDB_val -> MDB_val -> Z) (H : nat) (es : list (MDB_val * MDB_val)).
Variables (free_root : Z) (rootf : list Z) (hf : nat) (esf : list (MDB_val * MDB_val)) (recs : list free_rec).
Variable fuel : nat.
Hypothesis Hfuel : (length recs < fuel)%nat.
Abbreviation pages := (sub_pages (leaf_pages me_psize)).
Variables (w0 : wtxn) (C : list Z) (kmin kmax : Z).
Hypothesis Hinv : cow_inv file me_flags me_psize me_maxpg readers mt_txnid md_cmp D ord H es free_root rootf hf esf recs w0.
Hypothesis HC : forall x, x ∈ C -> x ∈ pages (seen w0) H (w_root w0).
Hypothesis Hord : order_laws D ord.
Hypothesis HB : branch_order md_cmp D ord.
Hypothesis Hz : key_sizes D me_psize kmin kmax.
Abbreviation grown := (grown me_psize me_maxpg readers mt_txnid recs w0 C).
Abbreviation split_root := (split_root file me_flags me_map me_psize me_maxpg os_malloc junk mem_ok mt_txnid readers free_root [] fuel).
Abbreviation split_rest := (split_rest file me_flags me_map me_psize me_maxpg os_malloc junk mem_ok mt_txnid readers free_root [] fuel).
Abbreviation page_split := (mdb_page_split file me_flags me_map me_psize me_maxpg os_malloc junk mem_ok mt_txnid readers free_root [] fuel).
Abbreviation plugs := (plugs (seen w0) me_psize md_cmp D ord).
Abbreviation hole := (hole md_cmp D ord (seen w0) H (w_root w0)).

(** A page of the tree that the transaction owns. *)
Definition own_state (w : wtxn) (x : Z) : Prop := exists a m leaf, own_at w x a m /\ page_of me_psize leaf x m /\ first_key_ok D m.

(** The pages of the path are the transaction's own, and on the stack. *)
Fixpoint on_path (w : wtxn) (mc : wcursor) (fs : list frame) : Prop :=
  match fs with
  | [] => True
  | f :: fs => (exists a, own_at w (fr_pgno f) a (fr_page f) /\ aget (wc_pg mc) (zlen fs) = Some (Some (Heap a))) /\
      aget (wc_ki mc) (zlen fs) = Some (fr_ki f) /\ page_of me_psize false (fr_pgno f) (fr_page f) /\ first_key_ok D (fr_page f) /\
      on_path w mc fs
  end.

Lemma on_path_kept (w w' : wtxn) (mc mc' : wcursor) (fs : list frame) : on_path w mc fs ->
  (forall x a m, x ∈ numbers fs -> own_at w x a m -> own_at w' x a m) ->
  (forall j, j < zlen fs -> aget (wc_pg mc') j = aget (wc_pg mc) j /\ aget (wc_ki mc') j = aget (wc_ki mc) j) -> on_path w' mc' fs.
Proof.
  induction fs as [|f fs IH]; [done|]. intros ((a & Ho & Ha) & Hi & Hp & Hf & Hr) Hk Hj. rewrite zlen_cons in Hj.
  destruct (Hj (zlen fs) ltac:(lia)) as [Ep Ei]. cbn [on_path]. rewrite Ep, Ei. split; [exists a; split; [|done]|].
  - apply Hk; [by left|done].
  - split_and!; auto. apply IH; [done| |]; [intros x b m Hx; apply Hk; by right|intros j Hlt; apply Hj; lia].
Qed.

Lemma on_path_in (w : wtxn) (mc : wcursor) (fs : list frame) (f : frame) : on_path w mc fs -> f ∈ fs ->
  exists a, own_at w (fr_pgno f) a (fr_page f) /\ page_of me_psize false (fr_pgno f) (fr_page f) /\ first_key_ok D (fr_page f).
Proof.
  induction fs as [|g fs IH]; [by intros _ ?%elem_of_nil|]. intros ((a & Ho & _) & _ & Hp & Hf & Hr) [->|Hin]%elem_of_cons; [by exists a|by apply IH].
Qed.

Lemma own_state_kept (w w' : wtxn) (x : Z) : own_state w x -> (forall a m, own_at w x a m -> own_at w' x a m) -> own_state w' x.
Proof. intros (a & m & leaf & Ho & Hp & Hf) Hk. exists a, m, leaf. split_and!; auto. Qed.

Lemma plugs_kept (w w' : wtxn) (up : list frame) (h : nat) (p q : Z) (sep : MDB_val) (lft rgt : list (MDB_val * MDB_val)) (more : list Z) (H' : nat) :
  plugs w up h p q sep lft rgt more H' -> w_root w' = w_root w ->
  (forall y a m, y ∈ numbers up \/ y ∈ more -> own_at w y a m -> own_at w' y a m) -> plugs w' up h p q sep lft rgt more H'.
Proof. intros Hp Er Hk get c1 c2 Hs Ho. rewrite Er. apply Hp; [done|]. intros y a m Hy Hy'. apply (Ho y a m Hy). by apply Hk. Qed.

Lemma numbers_next (w : wtxn) (news held : list Z) (x a : Z) (m : list Z) : grown w news held -> x ∈ C \/ x ∈ news -> own_at w x a m ->
  0 <= x < 2 ^ 48.
Proof.
  intros Hg Hx Ho. pose proof (own_used _ _ _ _ _ _ _ _ _ _ _ _ _ _ _ _ _ _ Hinv HC w news held Hg x a m Hx Ho).
  pose proof (lo_next (gr_lists _ _ _ _ _ _ _ _ _ _ Hg)). lia.
Qed.

Lemma old_not_new (w : wtxn) (news held : list Z) (x : Z) : grown w news held -> x ∈ C -> x ∉ news.
Proof.
  intros Hg Hx Hn. destruct (used_not_new _ _ _ _ _ _ _ _ _ _ _ _ _ _ _ _ _ _ Hinv w news held Hg x (or_introl (HC x Hx))) as [Hno _].
  apply Hno, elem_of_app. by left.
Qed.

Lemma news_nodup (w : wtxn) (news held : list Z) : grown w news held -> NoDup news.
Proof. intros Hg. pose proof (new_nodup _ _ _ _ _ _ _ _ _ _ _ _ _ _ _ _ _ _ Hinv w news held Hg) as Hnd. by apply NoDup_app in Hnd as [Hnd _]. Qed.

(** ** The page and its new sibling *)

Section Call.
Variables (levels : nat) (w : wtxn) (mc : wcursor) (nn : new_node) (leaf : bool) (p mpa newindx : Z) (mp news held : list Z).
Hypothesis Hg : grown w news held.
Hypothesis Hp : own_at w p mpa mp.
Hypothesis Pp : page_of me_psize leaf p mp.
Hypothesis HpC : p ∈ C.
Hypothesis Hat : at_top mc mpa newindx.
Hypothesis Hwide : wide 32 mc.

Lemma split_start : (exists rc w' mc', page_split (S levels) w mc nn = Some (rc, w', mc') /\ no_room rc) \/
  exists w1 rpa q rp, page_split (S levels) w mc nn =
      ('(rc, w2, mc2) ← (if wc_snum mc <? 2 then split_root w1 mc p else Some (MDB_SUCCESS, w1, mc));
       if nz rc then Some (split_done rc w2 mc2 None)
       else split_rest (page_split levels) w2 mc2 mpa mp rpa q nn newindx (wc_snum mc <? 2)) /\
    grown w1 (q :: news) held /\ own_at w1 q rpa rp /\ kept w w1 (fun x => x <> q) /\ (q ∉ news) /\
    empty_page me_psize (p_flags mp) q rp /\ page_of me_psize leaf q rp /\ same_db w w1 /\ own_at w1 p mpa mp /\ p <> q.
Proof.
  destruct Hat as [Hpg Hki]. pose proof (po_wf _ _ _ _ Pp) as Hwf. pose proof (wf_psize _ Hwf) as Hlen. cbn [mdb_page_split]. unfold block_at.
  rewrite Hpg. cbn [mbind option_bind]. rewrite (proj2 Hp). cbn [mbind option_bind]. rewrite Hki. cbn [mbind option_bind].
  rewrite IS_LEAF2_ok by done. cbn [mbind option_bind]. rewrite (get_flags mp Hwf). cbn [mbind option_bind]. rewrite get_pgno by lia. cbn [mbind option_bind].
  rewrite (po_pgno _ _ _ _ Pp). pose proof (flags_dirty (p_flags mp) (po_dirty _ _ _ _ Pp)) as Efl.
  destruct (page_new_ok file me_flags me_map me_psize me_maxpg os_malloc junk mem_ok mt_txnid readers Hwm Hps Hmax Hmalloc md_cmp D ord H es
    free_root rootf hf esf recs fuel Hfuel w0 C Hinv HC w news held Hg (p_flags mp)) as (r & w1 & -> & Hr).
  { apply g16_range; [apply Hwf|lia|lia]. } { rewrite Efl. apply Hwf. } { rewrite Efl. apply Pp. }
  cbn [mbind option_bind]. destruct r as [[a q]|rc]; [|left; eexists _, _, _; by split]. right.
  destruct Hr as (rp & Hg1 & Ho & Hk & Hq & He & Hs).
  assert (p <> q) as Hpq.
  { intros ->. apply (old_not_new w1 (q :: news) held q Hg1 HpC). by left. }
  exists w1, a, q, rp. split; [reflexivity|]. split; [done|]. split; [done|]. split; [done|]. split; [done|]. split; [done|]. split.
  - pose proof (ep_flags _ _ _ _ He) as Ef. rewrite Efl in Ef.
    apply (empty_page_of me_psize q (p_flags mp)); rewrite ?Efl; try apply Pp; [done|]. unfold p_dirty. rewrite Ef. apply Pp.
  - split; [done|]. split; [by apply Hk|done].
Qed.
End Call.
(** ** The result *)

(** The split of page [p] on the path [up], from the state [w] to [w']. *)
Record divided (w : wtxn) (mc : wcursor) (nn : new_node) (leaf : bool) (p mpa newindx : Z) (mp news held : list Z) (up : list frame) (h : nat)
    (w' : wtxn) (mc' : wcursor) (q rpa s : Z) (more : list Z) (H' : nat) (copy : list Z) : Prop := {
  dv_grown : grown w' (more ++ q :: news) held;
  dv_halves : halves me_psize w' leaf p mpa q rpa (all_raw mp nn newindx) s;
  dv_planned : planned me_psize mp copy nn newindx s;
  dv_kept : kept w w' (fun y => y ∉ p :: numbers up ++ q :: more);
  dv_owns : Forall (own_state w') (numbers up ++ more);
  dv_plugs lft rgt : hole up h p lft rgt -> plugs w' up h p q (nn_key (all_node mp nn newindx s)) lft rgt more H';
  dv_height : (H <= H' <= S H)%nat;
  dv_entries : md_entries (w_db w') = md_entries (w_db w);
  dv_cursors : Forall (wide 32) (w_cursors w');
  dv_wide : wide 32 mc';
  dv_stack : wc_snum mc' = wc_top mc' + 1 /\ (wc_top mc' = wc_top mc \/ wc_top mc' = wc_top mc + 1);
  dv_top : at_top mc' (if newindx <? s then mpa else rpa) (if newindx <? s then newindx else newindx - s)
}.

Definition split_result (r : option (Z * wtxn * wcursor)) (w : wtxn) (mc : wcursor) (nn : new_node) (leaf : bool) (p mpa newindx : Z)
    (mp news held : list Z) (up : list frame) (h : nat) : Prop :=
  (exists rc w' mc', r = Some (rc, w', mc') /\ no_room rc) \/
  exists w' mc' q rpa s more H' copy, r = Some (MDB_SUCCESS, w', mc') /\
    divided w mc nn leaf p mpa newindx mp news held up h w' mc' q rpa s more H' copy.

Lemma grown_perm (w : wtxn) (news news' held : list Z) : Permutation news news' -> grown w news held -> grown w news' held.
Proof.
  intros Hp []. split; auto.
  - intros x Hx. apply gr_news. by rewrite Hp.
  - intros e He. rewrite <- Hp. by apply gr_dirty.
  - intros e He Hc Hn. apply gr_mem; auto. by rewrite Hp.
  - by rewrite <- Hp.
Qed.

Lemma not_divided (y p q : Z) (l more : list Z) : (y ∉ p :: l ++ q :: more) -> y <> p /\ (y ∉ l) /\ y <> q /\ (y ∉ more).
Proof. rewrite not_elem_of_cons, not_elem_of_app, not_elem_of_cons. tauto. Qed.

Lemma wide_weaken (n n' : Z) (l : list wcursor) : n <= n' -> Forall (wide n) l -> Forall (wide n') l.
Proof. intros Hn Hl. apply (Forall_impl _ _ _ Hl). intros c []. split; lia. Qed.

(** The separator. *)
Lemma sep_size (k : MDB_val) : D k -> mdb_branch_size (Some k) <= branch_hi kmax /\ 10 <= branch_hi kmax.
Proof.
  intros Hk. pose proof (kz_dom _ _ _ _ Hz k Hk) as Hs. pose proof (kz_min _ _ _ _ Hz) as Hm. unfold mdb_branch_size, branch_hi.
  change (INDXSIZE (Some k)) with (8 + mv_size k).
  pose proof (EVEN_mono (8 + mv_size k) (8 + kmax) ltac:(lia)). pose proof (EVEN_bounds (8 + kmax)). pose proof (EVEN_bounds (8 + mv_size k)).
  split; [|lia]. lia.
Qed.

(** The state when the split of page [p] below [up] begins. *)
Record splitting (w : wtxn) (mc : wcursor) (nn : new_node) (leaf : bool) (p mpa newindx : Z) (mp news held : list Z) (up : list frame)
    (h : nat) : Prop := {
  st_grown : grown w news held;
  st_page : own_at w p mpa mp;
  st_of : page_of me_psize leaf p mp;
  st_C y : y ∈ p :: numbers up -> y ∈ C;
  st_nodup : NoDup (p :: numbers up);
  st_top : at_top mc mpa newindx;
  st_wide : wide 32 mc;
  st_path : on_path w mc up;
  st_height : wc_top mc = zlen up /\ wc_snum mc = zlen up + 1 /\ zlen up < 31;
  st_root : w_root w = w_root w0;
  st_split : splittable me_psize mp nn newindx;
  st_keys s : 1 <= s <= p_num mp -> D (nn_key (all_node mp nn newindx s));
  st_cursors : Forall (wide 31) (w_cursors w);
  st_hole : exists lft rgt, hole up h p lft rgt
}.

(** ** A root *)

Section Root.
Variables (levels : nat) (w : wtxn) (mc : wcursor) (nn : new_node) (leaf : bool) (p mpa newindx : Z) (mp news held : list Z).
Hypothesis Hg : grown w news held.
Hypothesis Hp : own_at w p mpa mp.
Hypothesis Pp : page_of me_psize leaf p mp.
Hypothesis HpC : p ∈ C.
Hypothesis Hat : at_top mc mpa newindx.
Hypothesis Hwide : wide 32 mc.
Hypothesis Htop : wc_top mc = 0 /\ wc_snum mc = 1.
Hypothesis Hsp : splittable me_psize mp nn newindx.
Hypothesis HD : forall s, 1 <= s <= p_num mp -> D (nn_key (all_node mp nn newindx s)).
Hypothesis Hcs : Forall (wide 31) (w_cursors w).

Lemma root_divided : split_result (page_split (S levels) w mc nn) w mc nn leaf p mpa newindx mp news held [] H.
Proof.
  destruct Htop as [Ht Hsn].
  destruct (split_start levels w mc nn leaf p mpa newindx mp news held Hg Hp Pp HpC Hat) as [?|(w1 & rpa & q & rp & -> & Hg1 & Hq & K1 & Nq & He & Pq & Sd & Hp1 & Hpq)];
    [by left|]. rewrite Hsn. change (1 <? 2) with true. cbv iota.
  pose proof (kz_five _ _ _ _ Hz) as H5. unfold PAGEHDRSZ in H5. pose proof (kz_min _ _ _ _ Hz) as Hkm.
  assert (10 <= branch_hi kmax) as H10 by (unfold branch_hi; pose proof (EVEN_bounds (8 + kmax)); lia).
  pose proof (numbers_next w1 _ _ p mpa mp Hg1 (or_introl HpC) Hp1) as Hp48.
  destruct (split_root_ok file me_flags me_map me_psize me_maxpg os_malloc junk mem_ok mt_txnid readers Hwm Hps Hmax Hmalloc md_cmp D ord H es
    free_root rootf hf esf recs fuel Hfuel w0 C Hinv HC w1 (q :: news) held Hg1 32 mc p Hwide ltac:(lia) Hp48) as
    (rc & w2 & mc2 & -> & [(-> & (ga & x & gm & Hg2 & Hx & K2 & Nx & Px & Kx & Rx & Er & Ec & Ee & Ap & Ak) & B1 & B2 & Hsn2 & Ht2 & Hw2)|[Hrc Hn]]); cbn [mbind option_bind].
  2: { rewrite (no_room_nz _ Hrc). left. by eexists _, _, _. }
  change (nz MDB_SUCCESS) with false. cbv iota.
  assert (p_num gm = 1) as Hnum by (pose proof (kids_length gm (po_wf _ _ _ _ Px)) as Hn; rewrite Kx in Hn; done).
  assert (x <> p) as Hxp by (intros ->; apply (old_not_new _ _ _ p Hg2 HpC); by left).
  assert (x <> q) as Hxq by (intros ->; apply Nx; by left).
  assert (ready me_psize me_maxpg mt_txnid readers recs w0 C leaf p mpa q rpa x ga 0 newindx mp rp gm nn w2 mc2 (x :: q :: news) held) as Hr.
  { split; auto; try (by apply K2); try lia.
    - split; [by left|]. split; [right; by left|right; by left].
    - destruct Hw2. split; lia.
    - rewrite Ht2. by split. }
  destruct (split_rest_front file me_flags me_map me_psize me_maxpg os_malloc junk mem_ok mt_txnid readers Hps Hmalloc free_root recs fuel Hfuel w0 C
    leaf p mpa q rpa x ga 0 newindx mp rp gm nn (page_split levels) w2 mc2 _ _ true Hr) as
    [?|(w3 & mc3 & mn & c & copy & s & -> & Hr3 & Hmn & Hpl & K3 & Sd3 & Ht3 & _)]; [by left|].
  assert (1 <= s <= p_num mp) as Hs.
  { pose proof (s_range me_psize mp copy nn newindx s) as Hs. assert (split_input me_psize mp copy nn newindx) as Hin by (apply split_input_of; [done|apply Hpl|apply Hpl]).
    pose proof (Hs Hin (pl_fits _ _ _ _ _ _ Hpl)). lia. }
  destruct (sep_size _ (HD s Hs)) as [Hsz _]. rewrite (proj2 (Z.ltb_ge _ _)) by lia.
  destruct (split_here_ok file me_flags me_map me_psize me_maxpg os_malloc junk mem_ok mt_txnid readers free_root recs fuel Hfuel w0 C
    leaf p mpa q rpa x ga 0 newindx mp rp gm nn (kz_even _ _ _ _ Hz) w3 mc3 mn _ held c s 31 copy true Hr3 Hmn Hpl) as
    (w' & mc' & gm' & -> & Hg' & Hh & Hx' & Px' & Hi & K4 & R4 & E4 & Cs & Wc & Sn & Tp & At); [lia| |lia|].
  { destruct Sd3 as (_ & -> & _). rewrite Ec. by destruct Sd as (_ & -> & _). }
  assert (split_input me_psize mp copy nn newindx) as Hin by (apply split_input_of; [done|apply Hpl|apply Hpl]).
  destruct (all_key me_psize mp copy nn newindx s Hin ltac:(lia)) as [Hv H6].
  assert (0 <= q < 2 ^ 48) as Hq48 by (apply (numbers_next w1 _ _ q rpa rp Hg1); [right; by left|done]).
  assert (kids gm' = [(Val 0 [], p); (nn_key (all_node mp nn newindx s), q)]) as Kx'.
  { rewrite (kids_inserted gm gm' 1 (nn_key (all_node mp nn newindx s)) q (po_wf _ _ _ _ Px) (po_leaf _ _ _ _ Px) Hv H6 Hq48 Hi). by rewrite Kx. }
  assert (w_root w' = x) as Er' by (rewrite R4; destruct Sd3 as (-> & _); done).
  right. exists w', mc', q, rpa, s, [x], (S H), copy. split; [done|]. split; auto.
  - intros y a m (Hyp & _ & Hyq & Hyx)%not_divided Ho. rewrite list_elem_of_singleton in Hyx. by apply K4, K3, K2, K1.
  - constructor; [|done]. exists ga, gm', false. split; [done|]. split; [done|]. intros _ _. left.
    pose proof (kids_lookup gm' 0 (po_wf _ _ _ _ Px')) as Hl. rewrite <- (kids_length gm' (po_wf _ _ _ _ Px')), Kx' in Hl.
    change (zlen _) with 2 in Hl. injection (Hl (conj (Z.le_refl 0) eq_refl)) as E _ _. exact (eq_sym E).
  - intros lft rgt (_ & _ & -> & ->). rewrite <- Er'. apply (plug_root _ _ md_cmp D ord H Hord HB w' ga p q gm'); rewrite ?Er'; auto.
  - rewrite E4. destruct Sd3 as (_ & _ & ->). rewrite Ee. by destruct Sd as (_ & _ & ->).
  - rewrite Sn, Tp, Ht3. pose proof (proj2 (rd_top _ _ _ _ _ _ _ _ _ _ _ _ _ _ _ _ _ _ _ _ _ _ _ _ Hr3)). rewrite Ht3 in *. lia.
Qed.
End Root.
(** ** A page with a parent *)

Section Inner.
Variables (levels : nat) (w : wtxn) (mc : wcursor) (nn : new_node) (leaf : bool) (p mpa newindx : Z) (mp news held : list Z).
Variables (g : frame) (up : list frame) (h : nat).
Hypothesis Hg : grown w news held.
Hypothesis Hp : own_at w p mpa mp.
Hypothesis Pp : page_of me_psize leaf p mp.
Hypothesis HpC : forall y, y ∈ p :: numbers (g :: up) -> y ∈ C.
Hypothesis Hnd : NoDup (p :: numbers (g :: up)).
Hypothesis Hat : at_top mc mpa newindx.
Hypothesis Hwide : wide 32 mc.
Hypothesis Hpath : on_path w mc (g :: up).
Hypothesis Htop : wc_top mc = zlen (g :: up) /\ wc_snum mc = zlen (g :: up) + 1 /\ zlen (g :: up) < 31.
Hypothesis Hroot : w_root w = w_root w0.
Hypothesis Hsp : splittable me_psize mp nn newindx.
Hypothesis HD : forall s, 1 <= s <= p_num mp -> D (nn_key (all_node mp nn newindx s)).
Hypothesis Hcs : Forall (wide 31) (w_cursors w).
Hypothesis Hhole : exists lft rgt, hole (g :: up) h p lft rgt.
Let x := fr_pgno g.
Let gm := fr_page g.
Let k := fr_ki g.

Lemma parent_facts : 0 <= k < p_num gm /\ (forall j, 1 <= j < p_num gm -> D (n_key gm j)) /\
  exists lft rgt, hole up (S h) x lft rgt.
Proof.
  destruct Hhole as (lft & rgt & ls & rs & lft' & rgt' & _ & _ & Hk & _ & Hb & _ & _ & _ & _ & Hup).
  destruct (sides_forest md_cmp D ord (seen w0) h gm k ls rs Hord Hb Hk) as (_ & _ & HDk). split_and!; try apply Hk; [done|by eexists _, _].
Qed.

(** What the parent is written from. *)
Record called (w1 : wtxn) (mc1 mn : wcursor) (ga q rpa c s : Z) (rp copy : list Z) : Prop := {
  cl_ready : ready me_psize me_maxpg mt_txnid readers recs w0 C leaf p mpa q rpa x ga k newindx mp rp gm nn w1 mc1 (q :: news) (c :: held);
  cl_sibling : sibling ga k mc1 mn;
  cl_planned : planned me_psize mp copy nn newindx s;
  cl_kept : kept w w1 (fun y => y <> q);
  cl_new : q ∉ news;
  cl_same : same_db w w1;
  cl_path : on_path w1 mn up;
  cl_top : wc_top mc1 = wc_top mc;
  cl_split : 1 <= s <= p_num mp;
  cl_sep : val_ok (nn_key (all_node mp nn newindx s)) /\ mv_size (nn_key (all_node mp nn newindx s)) < 65536;
  cl_num : 0 <= q < 2 ^ 48
}.

Lemma split_front : (exists rc w' mc', page_split (S levels) w mc nn = Some (rc, w', mc') /\ no_room rc) \/
  exists w1 mc1 mn ga q rpa c s rp copy, let sep := nn_key (all_node mp nn newindx s) in
    page_split (S levels) w mc nn =
      (if p_upper gm - p_lower gm <? mdb_branch_size (Some sep)
       then split_up file me_flags me_map me_psize me_maxpg os_malloc junk mem_ok mt_txnid readers free_root [] fuel
              (page_split levels) w1 mc1 mn mpa rpa q nn newindx s sep (Some (c, copy)) false
       else split_here file me_flags me_map me_psize me_maxpg os_malloc junk mem_ok mt_txnid readers free_root [] fuel
              w1 mc1 mn ga gm mpa rpa q nn newindx s sep (Some (c, copy)) false) /\
    called w1 mc1 mn ga q rpa c s rp copy.
Proof.
  destruct Htop as (Ht & Hsn & H31). rewrite zlen_cons in Ht, Hsn, H31. pose proof (zlen_nonneg up).
  destruct parent_facts as (Hk & _ & _).
  destruct (split_start levels w mc nn leaf p mpa newindx mp news held Hg Hp Pp (HpC p ltac:(by left)) Hat) as
    [?|(w1 & rpa & q & rp & -> & Hg1 & Hq & K1 & Nq & He & Pq & Sd & Hp1 & Hpq)]; [by left|].
  rewrite (proj2 (Z.ltb_ge _ _)) by lia. cbn [mbind option_bind]. change (nz MDB_SUCCESS) with false. cbv iota.
  destruct Hpath as ((ga & Hx & Ha) & Hki & Px & Fx & Hup).
  assert (x ∈ C) as HxC by (apply HpC; right; by left).
  assert (x <> q) as Hxq by (intros E; apply (old_not_new w1 _ _ x Hg1 HxC); rewrite E; by left).
  assert (x <> p) as Hxp by (intros E; apply NoDup_cons in Hnd as [Hn _]; apply Hn; rewrite <- E; by left).
  assert (ready me_psize me_maxpg mt_txnid readers recs w0 C leaf p mpa q rpa x ga k newindx mp rp gm nn w1 mc (q :: news) held) as Hr.
  { split; auto; try lia.
    - split; [left; apply HpC; by left|]. split; [by left|by left].
    - rewrite Ht. by replace (1 + zlen up - 1) with (zlen up) by lia. }
  destruct (split_rest_front file me_flags me_map me_psize me_maxpg os_malloc junk mem_ok mt_txnid readers Hps Hmalloc free_root recs fuel Hfuel w0 C
    leaf p mpa q rpa x ga k newindx mp rp gm nn (page_split levels) w1 mc _ _ false Hr) as
    [?|(w3 & mc3 & mn & c & copy & s & -> & Hr3 & Hmn & Hpl & K3 & Sd3 & Ht3 & Pg3 & Ki3)]; [by left|].
  right. exists w3, mc3, mn, ga, q, rpa, c, s, rp, copy. split; [done|].
  assert (split_input me_psize mp copy nn newindx) as Hin by (apply split_input_of; [done|apply Hpl|apply Hpl]).
  pose proof (s_range me_psize mp copy nn newindx s Hin (pl_fits _ _ _ _ _ _ Hpl)) as Hs.
  split; auto; try lia.
  - intros y a m Hy Ho. by apply K3, K1.
  - by apply (same_db_trans w w1 w3).
  - apply (on_path_kept w w3 mc mn up Hup).
    + intros y a m Hy Ho. apply K3, K1; [done| |done]. intros ->. apply (old_not_new w1 _ _ q Hg1); [|by left]. apply HpC. right. by right.
    + intros j Hj. destruct (sn_up _ _ _ _ Hmn j) as [-> ->]; [lia|]. by rewrite Pg3, Ki3.
  - apply (all_key me_psize mp copy nn newindx s Hin). lia.
  - apply (numbers_next w1 _ _ q rpa rp Hg1); [right; by left|done].
Qed.
Section Parent.
Variables (w1 : wtxn) (mc1 mn : wcursor) (ga q rpa c s : Z) (rp copy : list Z).
Hypothesis Hcl : called w1 mc1 mn ga q rpa c s rp copy.
Let sep := nn_key (all_node mp nn newindx s).

Lemma up_kept (y : Z) : y ∈ numbers up -> y <> p /\ y <> q /\ y <> x.
Proof.
  intros Hy. destruct Hcl as [Hr]. split; [|split].
  - intros ->. apply NoDup_cons in Hnd as [Hn _]. apply Hn. by right.
  - intros ->. apply (old_not_new _ _ _ q (rd_grown _ _ _ _ _ _ _ _ _ _ _ _ _ _ _ _ _ _ _ _ _ _ _ _ Hr)); [|by left]. apply HpC. right. by right.
  - intros ->. apply NoDup_cons in Hnd as [_ Hn]. cbn [numbers fmap list_fmap] in Hn. by apply NoDup_cons in Hn as [Hn _].
Qed.

(** The parent has room for the separator. *)
Lemma inner_room : mdb_branch_size (Some sep) <= p_upper gm - p_lower gm ->
  split_result (split_here file me_flags me_map me_psize me_maxpg os_malloc junk mem_ok mt_txnid readers free_root [] fuel
      w1 mc1 mn ga gm mpa rpa q nn newindx s sep (Some (c, copy)) false) w mc nn leaf p mpa newindx mp news held (g :: up) h.
Proof.
  unfold sep in *. intros Hroom. pose proof Hcl as []. destruct parent_facts as (Hk & _ & _). destruct cl_same0 as (Sr & Sc & Se).
  destruct (split_here_ok file me_flags me_map me_psize me_maxpg os_malloc junk mem_ok mt_txnid readers free_root recs fuel Hfuel w0 C
    leaf p mpa q rpa x ga k newindx mp rp gm nn (kz_even _ _ _ _ Hz) w1 mc1 mn _ held c s 31 copy false cl_ready0 cl_sibling0 cl_planned0 Hroom) as
    (w' & mc' & gm' & -> & Hg' & Hh & Hx' & Px' & Hi & K4 & R4 & E4 & Cs & Wc & Sn & Tp & At); [by rewrite Sc|lia|].
  destruct cl_sep0 as [Hv H6]. pose proof (rd_px _ _ _ _ _ _ _ _ _ _ _ _ _ _ _ _ _ _ _ _ _ _ _ _ cl_ready0) as Px.
  destruct Hpath as (_ & _ & _ & Fx & _).
  right. exists w', mc', q, rpa, s, [], H, copy. split; [done|]. split; auto.
  - intros y a m (Hyp & Hyn & Hyq & _)%not_divided Ho. apply K4, cl_kept0; auto. split; [done|]. split; [done|]. intros ->. apply Hyn. by left.
  - rewrite app_nil_r. cbn [numbers fmap list_fmap]. constructor.
    + exists ga, gm', false. split; [done|]. split; [done|].
      apply (first_key_inserted D gm gm' (k + 1) q sep); auto; try lia; try apply Px; apply Px'.
    + apply Forall_forall. intros y Hy. apply list_elem_of_fmap in Hy as (f & -> & Hf).
      destruct (on_path_in w1 mn up f cl_path0 Hf) as (a & Ho & Pf & Ff). exists a, (fr_page f), false. split; [|done].
      apply K4; [|done]. apply up_kept. by apply list_elem_of_fmap_2.
  - intros lft rgt Hho. assert (0 < me_psize) as H0 by lia. apply (plug_room _ _ H0 md_cmp D ord H (w_root w0) Hord HB w' g up h p q sep lft rgt Hho) with (ga := ga) (m' := gm'); auto.
    + by apply HD.
    + by rewrite R4, Sr.
    + apply Px.
    + intros f Hf. destruct (on_path_in w1 mn up f cl_path0 Hf) as (a & Ho & _). exists a.
      apply K4; [|done]. apply up_kept. by apply list_elem_of_fmap_2.
  - congruence.
  - by apply (wide_weaken 31).
  - destruct (rd_top _ _ _ _ _ _ _ _ _ _ _ _ _ _ _ _ _ _ _ _ _ _ _ _ cl_ready0) as [_ Hs1]. rewrite Sn, Tp, Hs1, cl_top0. lia.
Qed.
(** It is split in turn. *)
Hypothesis IH : forall w mc nn leaf p mpa newindx mp news held, splitting w mc nn leaf p mpa newindx mp news held up (S h) ->
  split_result (page_split levels w mc nn) w mc nn leaf p mpa newindx mp news held up (S h).
Hypothesis Hfull : p_upper gm - p_lower gm < mdb_branch_size (Some sep).
Let nnp := NewNode sep None q 0.
Let mnp := set_height mn (wc_snum mn - 1).

Lemma parent_page : page_of me_psize false x gm /\ first_key_ok D gm /\ D sep /\ val_ok sep /\ 1 <= k + 1 <= p_num gm /\
  (forall j, 1 <= j < p_num gm -> D (n_key gm j)) /\ wc_top mnp = zlen up /\ wc_snum mnp = zlen up + 1.
Proof.
  pose proof Hcl as [Hr [_ [Tm Sm] _ _]]. destruct parent_facts as (Hk & HDk & _).
  destruct Hpath as (_ & _ & Px & Fx & _). destruct Htop as (Ht & Hsn & _). rewrite zlen_cons in Ht, Hsn.
  pose proof (proj2 (rd_top _ _ _ _ _ _ _ _ _ _ _ _ _ _ _ _ _ _ _ _ _ _ _ _ Hr)) as Hs1.
  split; [done|]. split; [done|]. split; [by apply HD|]. split; [by apply cl_sep0|]. split; [lia|]. split; [done|].
  unfold mnp, set_height. cbn [wc_top wc_snum]. rewrite Sm, Hs1, cl_top0. lia.
Qed.

Lemma parent_splitting : splitting w1 mnp nnp false x ga (k + 1) gm (q :: news) (c :: held) up (S h).
Proof.
  pose proof Hcl as [Hr [Wm [Tm Sm] [Pp' Pk'] _]]. destruct parent_facts as (Hk & HDk & Hho).
  destruct parent_page as (Px & Fx & Dsep & Vsep & Hidx & _ & Hmt & Hms). destruct Htop as (Ht & Hsn & H31). rewrite zlen_cons in Ht, Hsn, H31.
  destruct cl_same0 as (Sr & Sc & Se). split; auto; try apply Hr.
  - intros y Hy. apply HpC. by right.
  - by apply NoDup_cons in Hnd as [_ Hn].
  - unfold at_top. rewrite Hmt. unfold mnp, set_height. cbn [wc_pg wc_ki]. replace (zlen up) with (wc_top mc1 - 1) by lia. by split.
  - apply wide_height; [done|]. rewrite Sm. pose proof (rd_top _ _ _ _ _ _ _ _ _ _ _ _ _ _ _ _ _ _ _ _ _ _ _ _ Hr). lia.
  - by apply (on_path_kept w1 w1 mn).
  - split_and!; auto. lia.
  - congruence.
  - apply (branch_splittable D me_psize kmin kmax Hz); auto; apply Px.
  - intros s' Hs'. destruct (new_kids_at D gm sep (k + 1) q (po_wf _ _ _ _ Px) HDk (conj Dsep Vsep) Hidx s' ltac:(lia)) as (_ & _ & Hd).
    apply Hd. lia.
  - by rewrite Sc.
Qed.

(** The halves of the parent. *)
Lemma parent_halves (w2 : wtxn) (x' ga' s' : Z) (copy' : list Z) : planned me_psize gm copy' nnp (k + 1) s' ->
  halves me_psize w2 false x ga x' ga' (all_raw gm nnp (k + 1)) s' ->
  exists gl gr, own_at w2 x ga gl /\ page_of me_psize false x gl /\ own_at w2 x' ga' gr /\ page_of me_psize false x' gr /\
    kids gl = unkey (take (Z.to_nat s') (more_kids g q sep)) /\ kids gr = unkey (drop (Z.to_nat s') (more_kids g q sep)) /\
    first_key_ok D gl /\ first_key_ok D gr /\ p_num gl = s' /\ 2 <= s' <= p_num gm - 1 /\
    exists p', more_kids g q sep !! Z.to_nat s' = Some (nn_key (all_node gm nnp (k + 1) s'), p') /\ D (nn_key (all_node gm nnp (k + 1) s')).
Proof.
  intros Hpl [(gl & Ol & Pl & Rl) (gr & Or & Pr & Rr)]. destruct parent_page as (Px & Fx & Dsep & Vsep & Hidx & HDk & _).
  pose proof (cl_num _ _ _ _ _ _ _ _ _ _ Hcl) as Hq. pose proof (po_wf _ _ _ _ Px) as Wx.
  pose proof (branch_halves D me_psize kmin kmax Hz gm sep (k + 1) q Wx (po_len _ _ _ _ Px) (po_leaf _ _ _ _ Px) Fx HDk (conj Dsep Vsep) Hidx Hfull copy' s' Hpl) as Hs'.
  destruct (half_kids D gm sep (k + 1) q Wx (po_leaf _ _ _ _ Px) (conj Dsep Vsep) gl _ (or_introl (ex_intro _ _ eq_refl)) (po_wf _ _ _ _ Pl) Rl) as [Kl Fl].
  destruct (half_kids D gm sep (k + 1) q Wx (po_leaf _ _ _ _ Px) (conj Dsep Vsep) gr _ (or_intror (ex_intro _ _ eq_refl)) (po_wf _ _ _ _ Pr) Rr) as [Kr Fr].
  pose proof (all_kids D me_psize kmin kmax Hz gm sep (k + 1) q (po_leaf _ _ _ _ Px) (conj Dsep Vsep) Hq) as Ek.
  change (new_kids gm sep (k + 1) q) with (more_kids g q sep) in Ek. rewrite fmap_take, Ek in Kl. rewrite fmap_drop, Ek in Kr.
  destruct (new_kids_at D gm sep (k + 1) q Wx HDk (conj Dsep Vsep) Hidx s' ltac:(lia)) as (p' & El & Hd).
  exists gl, gr. split_and!; try done; try lia; [|exists p'; split; [exact El|apply Hd; lia]].
  rewrite <- (kids_length gl (po_wf _ _ _ _ Pl)), Kl. pose proof (lookup_lt_Some _ _ _ El) as Hlt.
  change (new_kids gm sep (k + 1) q) with (more_kids g q sep) in Hlt.
  assert (length (unkey (take (Z.to_nat s') (more_kids g q sep))) = Z.to_nat s') as E; [|unfold zlen; rewrite E; lia].
  assert (forall l, length (unkey l) = length l) as -> by (by intros []). rewrite length_take. lia.
Qed.

Lemma inner_full : split_result (split_up file me_flags me_map me_psize me_maxpg os_malloc junk mem_ok mt_txnid readers free_root [] fuel
      (page_split levels) w1 mc1 mn mpa rpa q nn newindx s sep (Some (c, copy)) false) w mc nn leaf p mpa newindx mp news held (g :: up) h.
Proof.
  destruct (IH _ _ _ _ _ _ _ _ _ _ parent_splitting) as [(rc & w2 & mn2 & E & Hrc)|(w2 & mn2 & x' & ga' & s' & more & H' & copy' & E & Hd)].
  { left. unfold Split.split_up. fold mnp nnp. rewrite E. cbn [mbind option_bind]. rewrite (no_room_nz _ Hrc). by eexists _, _, _. }
  pose proof Hcl as []. pose proof Hd as []. destruct (parent_halves w2 x' ga' s' copy' dv_planned0 dv_halves0) as
    (gl & gr & Ol & Pl & Or & Pr & Kl & Kr & Fl & Fr & Nl & Hs' & p' & El & Dsep').
  destruct parent_page as (_ & _ & Dsep & Vsep & _ & _ & Hmt & _). destruct Htop as (Ht & Hsn & H31). rewrite zlen_cons in Ht.
  assert (forall y, y ∈ x' :: more -> (y ∉ C) /\ y <> q) as Hnew.
  { intros y Hy. split.
    - intros Hc. apply (old_not_new w2 _ _ y dv_grown0 Hc). apply elem_of_app. apply elem_of_cons in Hy as [->|Hy]; [right; by left|by left].
    - intros ->. pose proof (news_nodup w2 _ _ dv_grown0) as Hn. apply NoDup_app in Hn as (_ & Hdis & Hn). apply NoDup_cons in Hn as [Hn _].
      apply elem_of_cons in Hy as [->|Hy]; [apply Hn; by left|]. apply (Hdis q Hy). right. by left. }
  assert (forall y, y ∈ C -> y ∉ numbers (g :: up) -> y ∉ x :: numbers up ++ x' :: more) as Hold.
  { intros y Hc Hn. change (y ∉ numbers (g :: up) ++ x' :: more). rewrite not_elem_of_app. split; [done|]. intros Hy. by destruct (Hnew y Hy) as [Hc' _]. }
  assert (p ∈ C) as HpC' by (apply HpC; by left).
  assert (p ∉ numbers (g :: up)) as Hpn by (by apply NoDup_cons in Hnd as [Hn _]).
  assert (forall y, y ∈ numbers up -> y <> p /\ y <> q) as Hup by (intros y Hy; destruct (up_kept y Hy) as (? & ? & _); done).
  assert (q ∉ numbers (g :: up)) as Hqn.
  { intros Hy. apply (old_not_new w1 _ _ q (rd_grown _ _ _ _ _ _ _ _ _ _ _ _ _ _ _ _ _ _ _ _ _ _ _ _ cl_ready0)); [apply HpC; by right|by left]. }
  assert (own_at w2 p mpa mp) as Op2 by (apply dv_kept0; [by apply Hold|apply cl_ready0]).
  assert (own_at w2 q rpa rp) as Oq2.
  { apply dv_kept0; [|apply cl_ready0]. change (q ∉ numbers (g :: up) ++ x' :: more). rewrite not_elem_of_app. split; [done|]. intros Hy. by destruct (Hnew q Hy) as [_ Hq']. }
  destruct (split_up_ok file me_flags me_map me_psize me_maxpg os_malloc junk mem_ok mt_txnid readers free_root recs fuel Hfuel w0 C
    leaf p mpa q rpa x ga k newindx mp rp gm nn (page_split levels) w1 w2 mc1 mn mn2 (q :: news) (more ++ x' :: q :: news) held c s x' ga' s' copy gl gr
    cl_ready0 cl_sibling0 cl_planned0 E dv_grown0 Op2 Oq2) as
    (w' & mc' & Eup & G2 & Hh & K2 & Sr & Se & Sc & Wc & Sn & St & Sa); try done.
  { intros y Hy. apply elem_of_app. right. by right. } { apply Pl. } { apply Pr. }
  { intros Ep. destruct (Hnew x') as [Hc' _]; [by left|]. by rewrite Ep in Hc'. } { destruct (Hnew x') as [_ Hq']; [by left|done]. }
  { rewrite cl_top0, Ht. rewrite Hmt in dv_stack0. lia. } { apply dv_stack0. }
  assert (x <> p /\ x <> q) as Hx.
  { split; intros Ex; [apply Hpn|apply Hqn]; rewrite <- Ex; by left. }
  fold sep in Eup. rewrite Eup. right. exists w', mc', q, rpa, s, (x' :: more), H', copy. split; [done|]. split; auto.
  - apply (grown_perm w' (more ++ x' :: q :: news)); [solve_Permutation|done].
  - intros y a m (Hyp & Hyn & Hyq & Hym)%not_divided Ho. apply K2; [done|]. apply dv_kept0; [|by apply cl_kept0].
    change (y ∉ numbers (g :: up) ++ x' :: more). by rewrite not_elem_of_app.
  - change (Forall (own_state w') (x :: numbers up ++ x' :: more)). constructor; [|apply Forall_app in dv_owns0 as [Ou Om]; apply Forall_app; split; [|constructor]].
    + exists ga, gl, false. split; [by apply K2|done].
    + apply Forall_forall. intros y Hy. rewrite Forall_forall in Ou. apply (own_state_kept w2 w' y (Ou y Hy)). intros a m Ho. apply K2; [by apply Hup|done].
    + exists ga', gr, false. split; [|done]. apply K2; [|done]. destruct (Hnew x') as [Hc ?]; [by left|]. split; [|done]. intros Ep. by rewrite Ep in Hc.
    + apply Forall_forall. intros y Hy. rewrite Forall_forall in Om. apply (own_state_kept w2 w' y (Om y Hy)). intros a m Ho. apply K2; [|done].
      destruct (Hnew y) as [Hc ?]; [by right|]. split; [|done]. intros Ep. by rewrite Ep in Hc.
  - intros lft rgt Hho. assert (0 < me_psize) as Hp0 by lia.
    apply (plug_full _ _ Hp0 md_cmp D ord H (w_root w0) Hord HB w' g up h p q sep lft rgt Hho Dsep ga x' ga' s' gl gr (nn_key (all_node gm nnp (k + 1) s')) p' more H'); try done.
    + by apply K2.
    + apply K2; [|done]. destruct (Hnew x') as [Hc ?]; [by left|]. split; [|done]. intros Ep. by rewrite Ep in Hc.
    + intros lft' rgt' Hho'. apply (plugs_kept w2 w'); [by apply dv_plugs0|done|]. intros y a m Hy Ho. apply K2; [|done].
      destruct Hy as [Hy|Hy]; [by apply Hup|]. destruct (Hnew y) as [Hc ?]; [by right|]. split; [|done]. intros Ep. by rewrite Ep in Hc.
  - rewrite Se, dv_entries0. by destruct cl_same0 as (_ & _ & ->).
  - split; [done|]. rewrite St. destruct dv_stack0 as [_ Hs2]. rewrite Hmt in Hs2. lia.
Qed.
End Parent.
End Inner.

(** By induction on the path. *)
Lemma page_split_ok (up : list frame) : forall (levels : nat) (w : wtxn) (mc : wcursor) (nn : new_node) (leaf : bool) (p mpa newindx : Z)
    (mp news held : list Z) (h : nat), (length up < levels)%nat -> splitting w mc nn leaf p mpa newindx mp news held up h ->
  split_result (page_split levels w mc nn) w mc nn leaf p mpa newindx mp news held up h.
Proof.
  induction up as [|g up IH]; intros [|levels] w mc nn leaf p mpa newindx mp news held h Hl [Hg Hp Pp HpC Hnd Hat Hw Hpath Ht Hr Hsp HD Hcs Hho];
    cbn [length] in Hl; try lia.
  - destruct Hho as (lft & rgt & -> & _). change (zlen (@nil frame)) with 0 in Ht.
    apply root_divided; auto; [apply HpC; by left|lia].
  - destruct (split_front levels w mc nn leaf p mpa newindx mp news held g up h Hg Hp Pp HpC Hnd Hat Hw Hpath Ht Hsp Hho) as
      [?|(w1 & mc1 & mn & ga & q & rpa & c & s & rp & copy & -> & Hcl)]; [by left|].
    destruct (Z.ltb_spec (p_upper (fr_page g) - p_lower (fr_page g)) (mdb_branch_size (Some (nn_key (all_node mp nn newindx s))))).
    + eapply inner_full; eauto. intros. apply IH; [lia|done].
    + eapply inner_room; eauto.
Qed.
End Inv.
