(* ===== verification/SplitLeaf.v ===== *)
(** * A leaf that is divided ([mdb_page_split], [src/LegacyDatabase/mdb.c])

    Sizes of keys and values with which the halves of a leaf always fit
    ([item_sizes]), and the items of the two halves. *)
From S2P Require Import Prelude.
From S2P Require Import Bytes.
From S2P Require Import Page.
From S2P Require Import PageSpec.
From S2P Require Import NodeOps.
From S2P Require Import Cmp.
From S2P Require Import NodeSearch.
From S2P Require Import Cursor.
From S2P Require Import PageList.
From S2P Require Import Tree.
From S2P Require Import CursorPath.
From S2P Require Import CursorSim.
From S2P Require Import PageSplit.
From S2P Require Import Cow.
From S2P Require Import TouchInv.
From S2P Require Import LeafItems.
From S2P Require Import Put.
From S2P Require Import Split.
From S2P Require Import SplitSteps.
From S2P Require Import SplitSizes.
From Stdlib Require Import ZArith Lia Sorted.
From stdpp Require Import base numbers option list sorting.
Open Scope Z_scope.

Section Sizes.
Context (D : MDB_val -> Prop) (me_psize kmin kmax dmin dmax : Z).

(** The room that the node of an item takes, with its slot: a value that is
    on overflow pages takes eight bytes. *)
Definition leaf_lo : Z := EVEN (8 + kmin + Z.min dmin 8) + 2.
Definition leaf_hi : Z := EVEN (8 + kmax + Z.max dmax 8) + 2.

Record item_sizes : Prop := {
  iz_keys : key_sizes D me_psize kmin kmax;
  iz_data : 0 <= dmin <= dmax;
  iz_max : 8 + kmax + Z.max dmax 8 <= nodemax me_psize;
  iz_count : count_fits (me_psize - PAGEHDRSZ) leaf_lo leaf_hi
}.
Hypothesis Hz : item_sizes.

Definition item_sized (e : MDB_val * MDB_val) : Prop := dmin <= mv_size e.2 <= dmax.

Lemma nodemax_high : 2 * nodemax me_psize <= me_psize - PAGEHDRSZ - 4.
Proof.
  unfold nodemax, MDB_MINKEYS. set (x := (me_psize - PAGEHDRSZ) / 2). change (-2) with (Z.lnot (Z.ones 1)).
  rewrite <- Z.ldiff_land, Z.ldiff_ones_r, Z.shiftl_mul_pow2, Z.shiftr_div_pow2 by lia. change (2 ^ 1) with 2.
  pose proof (Z.div_mod x 2). pose proof (Z.mod_pos_bound x 2). pose proof (Z.div_mod (me_psize - PAGEHDRSZ) 2).
  pose proof (Z.mod_pos_bound (me_psize - PAGEHDRSZ) 2). lia.
Qed.

(** ** A leaf without room *)

Section Leaf.
Variable get : Z -> option (list Z).
Context (md_cmp : MDB_cmp_func) (ord : MDB_val -> MDB_val -> Z).
Variables (m : list Z) (l1 l2 : list (MDB_val * MDB_val)) (key data : MDB_val) (nflags : Z).
Hypothesis Hli : leaf_items get md_cmp D ord m (l1 ++ l2).
Hypothesis Hlen : zlen m = me_psize.
Hypothesis Hsized : Forall item_sized (l1 ++ l2).
Hypothesis Dk : D key.
Hypothesis Hkey : val_ok key.
Hypothesis Hdata : val_ok data.
Hypothesis Hnew : dmin <= mv_size data <= dmax.
Hypothesis Hfl : nflags = 0 \/ nflags = MDB_SPLIT_REPLACE.
Hypothesis Hfull : p_upper m - p_lower m < mdb_leaf_size (nodemax me_psize) key data.
Let nn := NewNode key (Some data) P_INVALID nflags.
Let idx := zlen l1.
Let Hwf := li_wf _ _ _ _ _ _ Hli.
Let Hl := li_leaf _ _ _ _ _ _ Hli.

Lemma leaf_count : p_num m = zlen (l1 ++ l2).
Proof. rewrite <- (zlen_p_raw m Hwf). unfold zlen. by rewrite (Forall2_length _ _ _ (li_raw _ _ _ _ _ _ Hli)). Qed.

Lemma item_at (j : Z) : 0 <= j < p_num m -> exists e, (l1 ++ l2) !! Z.to_nat j = Some e /\ n_key m j = e.1 /\
  8 + kmin + Z.min dmin 8 <= n_raw m j <= 8 + kmax + Z.max dmax 8 /\ D e.1.
Proof.
  intros Hj. pose proof leaf_count as Hc. destruct (lookup_lt_is_Some_2 (l1 ++ l2) (Z.to_nat j)) as [e He]; [unfold zlen in Hc; lia|].
  exists e. split; [done|]. destruct (Forall2_lookup_r _ _ _ _ _ (li_raw _ _ _ _ _ _ Hli) He) as (r & Hr & _ & Ek & Ed).
  destruct (lookup_p_raw m _ r Hwf Hr) as [_ ->]. rewrite Z2Nat.id in Ek, Ed by lia.
  destruct (raw_fields m j Hwf Hl Hj) as (F1 & F2 & F3 & F4). rewrite F1 in Ek. split; [done|].
  destruct (n_raw_eq m j Hwf Hj) as (En & _). rewrite Hl in En.
  assert (mv_size (n_key m j) = g16 m (p_ptr m j + 6)) as Es by done.
  pose proof (proj1 (Forall_forall _ _) (li_dom _ _ _ _ _ _ Hli) e (list_elem_of_lookup_2 _ _ _ He)) as De.
  pose proof (proj1 (Forall_forall _ _) Hsized e (list_elem_of_lookup_2 _ _ _ He)) as Se. unfold item_sized in Se.
  pose proof (kz_dom _ _ _ _ (iz_keys Hz) _ De) as Hk. rewrite <- Ek, Es in Hk. split; [|done].
  unfold raw_data in Ed. rewrite F2 in Ed. destruct (F_ISSET (n_flags m j) F_BIGDATA); [lia|].
  injection Ed as Ed. rewrite <- Ed, F3 in Se. cbn [mv_size] in Se. lia.
Qed.

Lemma new_image : image true nn = leaf_node key (mv_size data) nflags (mv_data data) /\ zlen (image true nn) = 8 + mv_size key + mv_size data.
Proof.
  assert (image true nn = leaf_node key (mv_size data) nflags (mv_data data)) as E by (unfold image, nn; cbn; by destruct Hfl as [->| ->]).
  split; [done|]. rewrite E. destruct Hkey as [Hs _], Hdata as [Hd _]. unfold leaf_node, node_hdr. rewrite !zlen_app, !zlen_le_bytes. lia.
Qed.

Lemma new_sizes : 0 <= mv_size key /\ kmin <= mv_size key <= kmax /\ mv_size data = zlen (mv_data data) /\ mv_size key < 65536 /\ mv_size data < 65536 /\
  8 + mv_size key + mv_size data <= nodemax me_psize.
Proof.
  pose proof (kz_dom _ _ _ _ (iz_keys Hz) _ Dk). pose proof (kz_min _ _ _ _ (iz_keys Hz)). pose proof (iz_max Hz).
  pose proof (wf_psize _ Hwf) as Hp. destruct Hdata as [Hd _].
  pose proof nodemax_high. unfold MAX_PAGESIZE, PAGEHDRSZ in *. lia.
Qed.

Lemma leaf_cells : Forall (fun x => 0 <= x <= leaf_hi) (all_cells m nn idx) /\ leaf_lo * p_num m <= me_psize - PAGEHDRSZ.
Proof.
  pose proof (zlen_p_raw m Hwf) as Hzr. destruct new_image as [_ Hi]. destruct new_sizes as (Hk0 & Hkk & Hds & _).
  pose proof (iz_data Hz) as Hdm. pose proof (kz_min _ _ _ _ (iz_keys Hz)) as Hkm.
  assert (Forall (fun x => leaf_lo <= x <= leaf_hi) (cell <$> p_raw m)) as Hall.
  { apply Forall_forall. intros x (r & -> & Hr)%list_elem_of_fmap. apply list_elem_of_lookup in Hr as [i Hr].
    destruct (lookup_p_raw m i r Hwf Hr) as [Hj ->]. destruct (item_at _ Hj) as (e & _ & _ & Hb & _).
    unfold cell, leaf_lo, leaf_hi. rewrite (proj2 (proj2 (zn_p_raw m _ Hwf Hj))).
    pose proof (EVEN_mono _ _ (proj1 Hb)). pose proof (EVEN_mono _ _ (proj2 Hb)). lia. }
  assert (0 < leaf_lo) as Hlo by (unfold leaf_lo; pose proof (EVEN_bounds (8 + kmin + Z.min dmin 8)); lia).
  split.
  - unfold all_cells, all_raw. rewrite with_new_fmap, Hl. unfold with_new. rewrite !Forall_app.
    assert (Forall (fun x => 0 <= x <= leaf_hi) (cell <$> p_raw m)) as Hall' by (apply (Forall_impl _ _ _ Hall); lia).
    split; [by apply Forall_take|]. split; [|by apply Forall_drop]. constructor; [|done]. unfold cell, leaf_hi. rewrite Hi. pose proof (EVEN_bounds (8 + mv_size key + mv_size data)). pose proof (EVEN_mono (8 + mv_size key + mv_size data) (8 + kmax + Z.max dmax 8)). lia.
  - pose proof (cells_sum m Hwf) as Hsum. pose proof (wf_upper _ Hwf). unfold PAGEHDRSZ.
    assert (leaf_lo * zlen (p_raw m) <= sumZ (cell <$> p_raw m)) as Ht; [|lia]. clear -Hall.
    induction (p_raw m) as [|r l IH]; cbn [fmap list_fmap sumZ] in *; [change (zlen (@nil (list Z))) with 0; lia|].
    apply Forall_cons in Hall as [Hr Hall]. specialize (IH Hall). rewrite zlen_cons. lia.
Qed.

Lemma leaf_splittable : splittable me_psize m nn idx.
Proof.
  destruct new_image as [_ Hi]. destruct new_sizes as (Hk0 & Hkk & Hds & Hk6 & Hd6 & Hmx). pose proof (zlen_p_raw m Hwf) as Hzr.
  pose proof leaf_count as Hc. rewrite zlen_app in Hc. pose proof (zlen_nonneg l1). pose proof (zlen_nonneg l2).
  pose proof (kz_min _ _ _ _ (iz_keys Hz)) as Hkm. pose proof (iz_data Hz) as Hdm.
  split; auto.
  - intros j Hj. destruct (item_at j Hj) as (e & _ & _ & Hb & _). pose proof (iz_max Hz). lia.
  - rewrite Hl. split; [done|done|by rewrite Hi|]. intros _. exists data. cbn [nn_data nn nn_flags]. destruct Hdata as [_ Hb].
    split; [done|]. split; [done|]. split; [lia|]. by destruct Hfl as [->| ->].
  - cbn [nn nn_flags]. by destruct Hfl as [->| ->].
  - unfold idx. lia.
  - rewrite Hl. unfold cell. rewrite Hi. unfold mdb_leaf_size, LEAFSIZE, NODESIZE in Hfull. rewrite (proj2 (Z.ltb_ge _ _)) in Hfull by lia.
    replace (8 + mv_size key + mv_size data + 2) with (8 + mv_size key + mv_size data + 1 * 2) in Hfull by lia.
    rewrite EVEN_eq in Hfull |- *. replace (8 + mv_size key + mv_size data + 1 * 2 + 1) with (8 + mv_size key + mv_size data + 1 + 1 * 2) in Hfull by lia.
    rewrite Z.div_add in Hfull by lia. lia.
  - pose proof leaf_cells as (Hall & Hlow). unfold leaf_lo, leaf_hi in *.
    pose proof (EVEN_bounds (8 + kmin + Z.min dmin 8)). pose proof (EVEN_bounds (8 + kmax + Z.max dmax 8)).
    destruct (count_ok (me_psize - PAGEHDRSZ) (EVEN (8 + kmin + Z.min dmin 8) + 2) (EVEN (8 + kmax + Z.max dmax 8) + 2) (p_num m) (all_cells m nn idx))
      as [Hn|]; auto; try lia.
    + destruct (decide (p_num m = 0)) as [E0|]; [|lia]. exfalso. assert (p_raw m = []) as Er by (destruct (p_raw m) as [|r rs]; [done|rewrite zlen_cons in Hzr; pose proof (zlen_nonneg rs); lia]).
      pose proof (cells_sum m Hwf) as Hsum. rewrite Er in Hsum. cbn in Hsum. pose proof nodemax_high. unfold PAGEHDRSZ in *.
      unfold mdb_leaf_size, LEAFSIZE, NODESIZE in Hfull. rewrite (proj2 (Z.ltb_ge _ _)) in Hfull by lia.
      pose proof (EVEN_bounds (8 + mv_size key + mv_size data + 2)). lia.
    + unfold all_cells, all_raw. rewrite zlen_fmap, zlen_with_new; unfold idx; lia.
    + exact (iz_count Hz).
    + left. unfold searched. by rewrite (proj2 (Z.ltb_lt (p_num m) 20)) by lia.
Qed.
(** ** The items of the halves *)

Hypothesis Hlt : Forall (fun x => ord x.1 key < 0) l1.
Hypothesis Hgt : Forall (fun x => ord key x.1 < 0) l2.
Let items' := l1 ++ (key, data) :: l2.

Lemma all_entries : Forall2 (raw_entry get) (all_raw m nn idx) items'.
Proof.
  unfold all_raw. rewrite Hl, (proj1 new_image). apply with_new_split; [apply Hli|].
  destruct new_sizes as (_ & _ & Hds & Hk6 & Hd6 & _).
  apply (small_entry get key data nflags Hkey Hk6 Hds); [lia|]. by destruct Hfl as [->| ->].
Qed.

Lemma items_sorted : StronglySorted (key_lt D ord) items' /\ Forall (fun e => D e.1) items'.
Proof.
  pose proof (li_dom _ _ _ _ _ _ Hli) as HD. apply Forall_app in HD as [HD1 HD2]. split.
  - apply sorted_mid; [apply Hli| |]; apply Forall_forall; intros x Hx; rewrite Forall_forall in Hlt, Hgt, HD1, HD2; split_and!; auto.
  - apply Forall_app. split; [done|]. by constructor.
Qed.

Lemma half_items (m' : list Z) (rs : list (list Z)) (es : list (MDB_val * MDB_val)) (k : nat) :
  rs = take k (all_raw m nn idx) /\ es = take k items' \/ rs = drop k (all_raw m nn idx) /\ es = drop k items' ->
  page_wf m' -> p_leaf m' = true -> p_branch m' = false -> p_raw m' = rs -> leaf_items get md_cmp D ord m' es.
Proof.
  intros Hre Hwf' Hl' Hb' Er. destruct items_sorted as [Hs Hd]. pose proof all_entries as Ha.
  split; auto; [apply Hli| | |].
  - destruct Hre as [[_ ->]|[_ ->]]; [by apply Forall_take|by apply Forall_drop].
  - rewrite <- (take_drop k items') in Hs. apply StronglySorted_app in Hs as (_ & H1 & H2). by destruct Hre as [[_ ->]|[_ ->]].
  - rewrite Er. destruct Hre as [[-> ->]|[-> ->]]; [by apply Forall2_take|by apply Forall2_drop].
Qed.

Lemma half_pages (ml mr : list Z) (k : nat) : page_wf ml -> p_leaf ml = true -> p_raw ml = take k (all_raw m nn idx) ->
  page_wf mr -> p_leaf mr = true -> p_raw mr = drop k (all_raw m nn idx) ->
  leaf_pages me_psize ml ++ leaf_pages me_psize mr = leaf_pages me_psize m.
Proof.
  intros Wl Ll El Wr Lr Er. rewrite !leaf_pages_raw, El, Er by done. rewrite <- concat_app, <- fmap_app, take_drop.
  unfold all_raw. rewrite pages_with_new; [done|]. rewrite Hl, (proj1 new_image). destruct new_sizes as (_ & _ & Hds & Hk6 & Hd6 & _).
  apply (small_entry get key data nflags Hkey Hk6 Hds); [lia|]. by destruct Hfl as [->| ->].
Qed.

(** The key of the first node on the right. *)
Lemma node_key_at (s : Z) (copy : list Z) : zlen copy = me_psize -> Forall is_byte copy -> 0 <= s <= p_num m ->
  exists d, items' !! Z.to_nat s = Some (nn_key (all_node m nn idx s), d).
Proof.
  intros Hc Hb Hs. pose proof (split_input_of _ _ copy _ _ leaf_splittable Hc Hb) as Hin.
  destruct (all_image me_psize m copy nn idx Hin s Hs) as [Ei Ha]. pose proof (zlen_all me_psize m copy nn idx Hin) as Hz1.
  destruct (lookup_lt_is_Some_2 (all_raw m nn idx) (Z.to_nat s)) as [r Hr]; [unfold zlen in Hz1; lia|].
  destruct (Forall2_lookup_l _ _ _ _ _ all_entries Hr) as ([k d] & He & _ & Ek & _). exists d. rewrite He. cbn [fst] in Ek.
  assert (zn (all_raw m nn idx) s = r) as Ez by (unfold zn; rewrite (proj2 (Z.leb_le _ _)) by lia; by apply list_lookup_total_correct).
  rewrite <- Ek, <- Ez, Ei, Hl. unfold image. rewrite new_node_key; [done|apply Ha|apply Ha|]. rewrite Hl in Ha.
  destruct (ad_data _ _ _ Ha eq_refl) as (d' & -> & _ & Hd' & _). exact Hd'.
Qed.

Lemma half_order (s : Z) (sep d : MDB_val) : order_laws D ord -> 0 <= s -> items' !! Z.to_nat s = Some (sep, d) ->
  D sep /\ Forall (fun e => ord e.1 sep < 0) (take (Z.to_nat s) items') /\ Forall (fun e => ord sep e.1 <= 0) (drop (Z.to_nat s) items').
Proof.
  intros O Hs He. destruct items_sorted as [Hso Hd]. pose proof (proj1 (Forall_forall _ _) Hd _ (list_elem_of_lookup_2 _ _ _ He)) as Dsep.
  cbn [fst] in Dsep. split; [done|].
  rewrite (drop_S _ _ _ He). pose proof (take_drop_middle _ _ _ He) as Em. rewrite <- Em in Hso.
  apply sorted_sides in Hso as [H1 H2]. split.
  - apply (Forall_impl _ _ _ H1). intros e He'. apply He'.
  - constructor; [cbn; rewrite (proj2 (ol_eq _ _ O sep sep Dsep Dsep) eq_refl); lia|]. apply (Forall_impl _ _ _ H2). intros e He'. cbn. apply Z.lt_le_incl, He'.
Qed.
End Leaf.
End Sizes.
