(* ===== verification/PutSplit.v ===== *)
(** * [mdb_put] with page splits

    [put_with_split] of [Split.v] ([mdb_put], [src/LegacyDatabase/mdb.c]):
    when the leaf has no room, the result of the split ([SplitInv.v]) is a
    tree with the new item, and the invariant of the transaction holds again
    ([put_split_correct]). *)
From S2P Require Import Prelude.
From S2P Require Import Bytes.
From S2P Require Import Midl.
From S2P Require Import Page.
From S2P Require Import PageSpec.
From S2P Require Import NodeOps.
From S2P Require Import Cmp.
From S2P Require Import NodeSearch.
From S2P Require Import Cursor.
From S2P Require Import PageList.
From S2P Require Import Tree.
From S2P Require Import CursorPath.
From S2P Require Import CursorSim.
From S2P Require Import PageAlloc.
From S2P Require Import FreeDb.
From S2P Require Import PageSplit.
From S2P Require Import Cow.
From S2P Require Import Touch.
From S2P Require Import TouchInv.
From S2P Require Import TouchSteps.
From S2P Require Import CursorTouch.
From S2P Require Import LeafItems.
From S2P Require Import Put.
From S2P Require Import PutInv.
From S2P Require Import PutFind.
From S2P Require Import PutLeaf.
From S2P Require Import PutCorrect.
From S2P Require Import Split.
From S2P Require Import Forest.
From S2P Require Import Grow.
From S2P Require Import SplitSteps.
From S2P Require Import SplitSizes.
From S2P Require Import SplitPlug.
From S2P Require Import SplitInv.
From S2P Require Import SplitLeaf.
From Stdlib Require Import ZArith Lia Sorted.
From stdpp Require Import base numbers option list gmap.
Open Scope Z_scope.

Section Put.
Variable file : Z -> option (list Z).
Variables (me_flags me_map me_psize me_maxpg : Z).
Variable os_malloc : gmap Z (list Z) -> Z -> option (Z * list Z).
Variables (junk : nat -> Z) (mem_ok : Z -> bool) (need_ok : bool).
Variables (mt_txnid : Z) (readers : option (list MDB_reader * Z)).
Hypothesis Hwm : Z.land me_flags MDB_WRITEMAP = 0.
Hypothesis Hps : 16 <= me_psize <= MAX_PAGESIZE.
Hypothesis Hmax : me_maxpg <= 2 ^ 31.
Hypothesis Hmalloc : forall mem sz a b, os_malloc mem sz = Some (a, b) -> mem !! a = None /\ zlen b = sz /\ Forall is_byte b.
Abbreviation seen := (view file me_flags []).
Abbreviation place := (locate me_flags []).
Context (md_cmp : MDB_cmp_func) (D : MDB_val -> Prop) (ord : MDB_val -> MDB_val -> Z) (H : nat).
Variables (free_root : Z) (rootf : list Z) (hf : nat) (esf : list (MDB_val * MDB_val)) (recs : list free_rec).
Variables (fuel : nat) (main_depth : Z).
Hypothesis Hfuel : (length recs < fuel)%nat.
Hypothesis HH : (H < 31)%nat.
Abbreviation items := (list (MDB_val * MDB_val)).
Abbreviation inv := (cow_inv file me_flags me_psize me_maxpg readers mt_txnid md_cmp D ord).
Abbreviation inv_at H es w := (inv H es free_root rootf hf esf recs w).
Abbreviation all H := (all_pages file me_flags me_psize H free_root hf esf recs).
Abbreviation pages := (sub_pages (leaf_pages me_psize)).
Abbreviation at_path es lft cur rgt := (at_path file me_flags me_psize me_maxpg mt_txnid readers md_cmp D ord H es free_root rootf hf esf recs
  0 lft cur rgt).
Abbreviation at_leaf := (at_leaf file me_flags me_psize me_maxpg mt_txnid readers md_cmp D ord H free_root rootf hf esf recs).

(** ** The state of the split *)

Section Path.
Variables (w w1 : wtxn) (es : items) (key : MDB_val) (mc : wcursor) (f : frame) (up : list frame) (lft cur rgt : items) (a : Z).
Hypothesis Hal : at_leaf w es key w1 mc f up lft cur rgt a.
Let Hap := al_path _ _ _ _ _ _ _ _ _ _ _ _ _ _ _ _ _ _ _ _ _ _ _ _ _ _ Hal.
Let Hinv := ap_inv _ _ _ _ _ _ _ _ _ _ _ _ _ _ _ _ _ _ _ _ _ _ _ _ Hap.
Let Hw := ap_whole _ _ _ _ _ _ _ _ _ _ _ _ _ _ _ _ _ _ _ _ _ _ _ _ Hap.
Let Hl := ci_lists _ _ _ _ _ _ _ _ _ _ _ _ _ _ _ _ _ Hinv.
Definition path_pages : list Z := numbers (f :: up).

Lemma path_in (x : Z) : x ∈ path_pages -> x ∈ pages (seen w1) H (w_root w1).
Proof. intros (g & -> & Hg)%list_elem_of_fmap. by eapply (whole_in md_cmp D ord). Qed.

Lemma path_nodup : NoDup path_pages.
Proof.
  eapply (whole_nodup md_cmp D ord me_psize); [exact Hw|].
  pose proof (ci_unique _ _ _ _ _ _ _ _ _ _ _ _ _ _ _ _ _ Hinv) as Hnd. unfold all_pages in Hnd. by apply NoDup_app in Hnd as [Hnd _].
Qed.

(** The pages of the path are the transaction's own. *)
Lemma path_own (g : frame) : g ∈ f :: up -> exists b, own_at w1 (fr_pgno g) b (fr_page g) /\ place w1 (fr_pgno g) = Some (Heap b) /\
  page_wf (fr_page g) /\ zlen (fr_page g) = me_psize /\ pgno_of (fr_page g) = fr_pgno g /\ p_dirty (fr_page g) = true /\
  F_ISSET (p_flags (fr_page g)) P_OVERFLOW = false /\ first_key_ok D (fr_page g).
Proof.
  intros Hg. pose proof (al_own _ _ _ _ _ _ _ _ _ _ _ _ _ _ _ _ _ _ _ _ _ _ _ _ _ _ Hal) as Hall. rewrite Forall_forall in Hall.
  destruct (Hall g Hg) as [Hd (b & Hb & Hm)]. destruct (whole_get md_cmp D ord _ H _ g _ _ _ _ _ Hw Hg) as [Hs _].
  pose proof (whole_in md_cmp D ord (fun _ => []) _ H _ g _ _ _ _ _ Hw Hg) as Hin.
  pose proof (ci_pages _ _ _ _ _ _ _ _ _ _ _ _ _ _ _ _ _ Hinv) as Hst. rewrite Forall_forall in Hst.
  destruct (Hst _ Hin) as (m & Em & Hlen & Hno & Hov & Hdir & Hf). assert (m = fr_page g) as -> by congruence.
  pose proof (path_in _ (list_elem_of_fmap_2 fr_pgno _ _ Hg)) as Hin'.
  assert (1 < fr_pgno g < next_of w1) as Hr.
  { apply (ci_below _ _ _ _ _ _ _ _ _ _ _ _ _ _ _ _ _ Hinv). unfold all_pages. rewrite !elem_of_app. by left. }
  pose proof (lo_next Hl) as Hn. exists b. split_and!; auto; [|by eapply (whole_page md_cmp D ord)].
  split; [|done]. rewrite (locate_ok me_flags me_psize me_maxpg Hwm w1 _ Hl) in Hb by lia.
  destruct (decide _); [done|]. destruct (find_dirty _ _) as [e|] eqn:Ed; [|by destruct (decide _)]. injection Hb as <-.
  apply (find_dirty_elem me_psize me_maxpg w1 e _ Hl) in Ed as [He Hmid]. destruct e as [i q]. cbn in *. by subst.
Qed.

Lemma path_leaf : page_of me_psize true (fr_pgno f) (fr_page f) /\ leaf_items (seen w1) md_cmp D ord (fr_page f) cur /\ own_at w1 (fr_pgno f) a (fr_page f).
Proof.
  destruct (path_own f ltac:(by left)) as (b & Ho & Hpl & Hwf & Hlen & Hno & Hd & Hov & _).
  destruct Hw as (_ & _ & _ & Ht & _). pose proof Ht as (_ & Hlf & Hbr & _). split; [by split|]. split; [by apply leaf_tree_items|].
  assert (b = a) as ->; [|done]. destruct (al_stack _ _ _ _ _ _ _ _ _ _ _ _ _ _ _ _ _ _ _ _ _ _ _ _ _ _ Hal) as (Htop & _).
  destruct (ap_stack _ _ _ _ _ _ _ _ _ _ _ _ _ _ _ _ _ _ _ _ _ _ _ _ Hap) as (Hpg & _).
  pose proof (al_block _ _ _ _ _ _ _ _ _ _ _ _ _ _ _ _ _ _ _ _ _ _ _ _ _ _ Hal) as Hb. unfold top_block in Hb.
  rewrite Htop, Hpg, Hpl in Hb. cbn [mbind option_bind] in Hb. destruct Ho as [_ Hm]. rewrite Hm in Hb. cbn [mbind option_bind] in Hb. by injection Hb.
Qed.

Lemma path_branch (g : frame) : g ∈ up -> page_of me_psize false (fr_pgno g) (fr_page g).
Proof.
  intros Hg. destruct (path_own g ltac:(by right)) as (b & Ho & Hpl & Hwf & Hlen & Hno & Hd & Hov & _).
  destruct Hw as (Hh & _). clear -Hg Hh Hwf Hlen Hno Hd Hov. revert Hg Hh. generalize 0%nat (fr_pgno f) lft rgt.
  induction up as [|g' l IH]; intros h p lf rg Hg Hh; [by apply elem_of_nil in Hg|].
  destruct Hh as (ls & rs & lft' & rgt' & _ & _ & _ & _ & Hb & _ & _ & _ & _ & Hh). apply elem_of_cons in Hg as [->|Hg]; [|by eapply IH].
  split; auto; apply Hb.
Qed.
(** The leaf [mp] to divide, without the item at the key. *)
Record full_leaf (data : MDB_val) (nflags : Z) (ws : wtxn) (mp : list Z) (l1 l2 : items) : Prop := {
  fl_grown : grown me_psize me_maxpg readers mt_txnid recs w1 path_pages ws [] [];
  fl_own : own_at ws (fr_pgno f) a mp;
  fl_kept : kept w1 ws (fun y => y <> fr_pgno f);
  fl_same : same_db w1 ws;
  fl_change : leaf_change (seen w1) md_cmp D ord me_psize (fr_page f) mp (l1 ++ l2);
  fl_index : fr_ki f = zlen l1;
  fl_lt : Forall (fun x => ord x.1 key < 0) l1;
  fl_gt : Forall (fun x => ord key x.1 < 0) l2;
  fl_items : put_items ord key data es = lft ++ (l1 ++ (key, data) :: l2) ++ rgt;
  fl_in : Forall (in_frames D ord up) (l1 ++ (key, data) :: l2);
  fl_flags : nflags = 0 \/ nflags = MDB_SPLIT_REPLACE;
  fl_count : zlen (put_items ord key data es) = zlen es + (if nflags =? 0 then 1 else 0);
  fl_room : p_upper mp - p_lower mp < mdb_leaf_size (nodemax me_psize) key data;
  fl_old : forall e, e ∈ l1 ++ l2 -> e ∈ es
}.

Lemma full_leaf_ok (data : MDB_val) (nflags : Z) (ws : wtxn) : D key ->
  ((nflags = 0 /\ ws = w1 /\ (forall d, (key, d) ∉ es) /\
      p_upper (fr_page f) - p_lower (fr_page f) < mdb_leaf_size (nodemax me_psize) key data) \/
   exists m1 l1 l2 d, nflags = MDB_SPLIT_REPLACE /\ ws = set_mem w1 a m1 /\ cur = l1 ++ (key, d) :: l2 /\ zlen l1 = fr_ki f /\
     leaf_change (seen w1) md_cmp D ord me_psize (fr_page f) m1 (l1 ++ l2) /\ p_upper m1 - p_lower m1 < mdb_leaf_size (nodemax me_psize) key data) ->
  exists mp l1 l2, full_leaf data nflags ws mp l1 l2.
Proof.
  intros Dk Hcase. destruct path_leaf as (Pf & Hli & Ho). destruct (al_place _ _ _ _ _ _ _ _ _ _ _ _ _ _ _ _ _ _ _ _ _ _ _ _ _ _ Hal) as [Hki Hsp].
  pose proof (al_items _ _ _ _ _ _ _ _ _ _ _ _ _ _ _ _ _ _ _ _ _ _ _ _ _ _ Hal) as Ees.
  pose proof Hw as (_ & _ & _ & Ht & _ & Hin). pose proof Ht as (_ & _ & _ & Hpo & _).
  pose proof (page_order_laws md_cmp D ord _ Hpo) as O.
  pose proof (ap_keys _ _ _ _ _ _ _ _ _ _ _ _ _ _ _ _ _ _ _ _ _ _ _ _ Hap) as Hk. apply Forall_cons in Hk as [Hk _]. cbn [tail] in Hk.
  assert (grown me_psize me_maxpg readers mt_txnid recs w1 path_pages w1 [] []) as Gs by (eapply grown_start; eauto).
  destruct Hcase as [(-> & -> & Hno & Hroom)|(m1 & l1 & l2 & d & -> & -> & Ecur & Ez & Hch & Hroom)].
  - exists (fr_page f), (take (Z.to_nat (fr_ki f)) cur), (drop (Z.to_nat (fr_ki f)) cur).
    assert (es = (lft ++ take (Z.to_nat (fr_ki f)) cur) ++ (drop (Z.to_nat (fr_ki f)) cur ++ rgt)) as Ees'.
    { rewrite <- app_assoc, (app_assoc (take _ _)), take_drop. done. }
    destruct Hsp as [Hs1 Hs2].
    destruct (put_items_new D ord key data _ _ O Dk Hs1 Hs2) as (E & Hlt & Hgt); [by rewrite <- Ees'|]. rewrite <- Ees' in E.
    apply Forall_app in Hlt as [_ Hlt]. apply Forall_app in Hgt as [Hgt _].
    split; auto; try done.
    + by intros x b m _.
    + rewrite take_drop. by split.
    + unfold zlen in *. rewrite length_take. lia.
    + rewrite E. by rewrite <- !app_assoc.
    + rewrite <- (take_drop (Z.to_nat (fr_ki f)) cur) in Hin. apply Forall_app in Hin as [Hi1 Hi2]. apply Forall_app. split; [done|]. by constructor.
    + rewrite E, Ees'. rewrite !zlen_app, zlen_cons, zlen_app. cbn. lia.
    + intros e He. rewrite take_drop in He. rewrite Ees, !elem_of_app. tauto.
  - exists m1, l1, l2. assert (es = (lft ++ l1) ++ (key, d) :: (l2 ++ rgt)) as Ees' by (rewrite Ees, Ecur, <- !app_assoc; done).
    assert (StronglySorted (key_lt D ord) es) as Hso.
    { destruct (ci_tree _ _ _ _ _ _ _ _ _ _ _ _ _ _ _ _ _ Hinv) as (root & _ & Hrt). by eapply tree_sorted. }
    pose proof Hso as Hso2. rewrite Ees' in Hso2. pose proof (put_items_old D ord key data d _ _ O Dk Hso2) as E. rewrite <- Ees' in E.
    apply sorted_sides in Hso2 as [Hlt Hgt]. apply Forall_app in Hlt as [_ Hlt]. apply Forall_app in Hgt as [Hgt _].
    destruct (grown_write me_psize me_maxpg readers mt_txnid recs w1 path_pages w1 [] [] Gs (fr_pgno f) a (fr_page f) m1) as (G1 & O1 & K1); auto.
    { left. by left. } { rewrite (lc_len _ _ _ _ _ _ _ _ Hch). apply Pf. } { apply (wf_bytes _ (li_wf _ _ _ _ _ _ (lc_items _ _ _ _ _ _ _ _ Hch))). }
    { assert (page_of me_psize true (fr_pgno f) m1) as Pm; [|by rewrite (po_pgno _ _ _ _ Pm), (po_pgno _ _ _ _ Pf)].
      apply (page_of_head _ _ _ (fr_page f)); [done|apply Hch|apply Hch|apply Hch]. }
    split; auto; try done.
    + apply (Forall_impl _ _ _ Hlt). intros x Hx. apply Hx.
    + apply (Forall_impl _ _ _ Hgt). intros x Hx. apply Hx.
    + rewrite E. by rewrite <- !app_assoc.
    + rewrite Ecur in Hin. apply Forall_app in Hin as [Hi1 Hi2]. apply Forall_cons in Hi2 as [_ Hi2]. apply Forall_app. split; [done|]. by constructor.
    + rewrite E, Ees'. rewrite !zlen_app, !zlen_cons. cbn. lia.
    + intros e He. rewrite Ees, Ecur, !elem_of_app, elem_of_cons. apply elem_of_app in He. tauto.
Qed.
(** ** The split and its result *)

Section Sized.
Variables (kmin kmax dmin dmax : Z).
Hypothesis Hz : item_sizes D me_psize kmin kmax dmin dmax.
Hypothesis HB : branch_order md_cmp D ord.
Hypothesis Hsized : Forall (item_sized dmin dmax) es.
Variables (data : MDB_val) (nflags : Z) (ws : wtxn) (mp : list Z) (l1 l2 : items).
Hypothesis Hfull : full_leaf data nflags ws mp l1 l2.
Hypothesis Dk : D key.
Hypothesis Hkey : val_ok key.
Hypothesis Hdata : val_ok data.
Hypothesis Hnew : dmin <= mv_size data <= dmax.
Hypothesis Hcs : Forall (wide 31) (w_cursors w).
Let nn := NewNode key (Some data) P_INVALID nflags.
Let items' := l1 ++ (key, data) :: l2.
Let Hli := lc_items _ _ _ _ _ _ _ _ (fl_change _ _ _ _ _ _ Hfull).

Lemma full_page : page_of me_psize true (fr_pgno f) mp.
Proof.
  pose proof (fl_change _ _ _ _ _ _ Hfull) as Hch. apply (page_of_head _ _ _ (fr_page f)); [apply path_leaf|apply Hli|apply Hch|apply Hch].
Qed.

Lemma leaf_sized : Forall (item_sized dmin dmax) (l1 ++ l2).
Proof.
  apply Forall_forall. intros e He. rewrite Forall_forall in Hsized. apply Hsized. by apply (fl_old _ _ _ _ _ _ Hfull).
Qed.

Lemma full_order : order_laws D ord.
Proof. pose proof Hw as (_ & _ & _ & (_ & _ & _ & Hpo & _) & _). exact (page_order_laws md_cmp D ord _ Hpo). Qed.

Lemma up_short : zlen up < 31.
Proof.
  destruct Hw as (Hh & _). clear -Hh HH. assert (forall l h p lf rg, hole md_cmp D ord (seen w1) H (w_root w1) l h p lf rg -> (length l + h = H)%nat) as Hlen.
  { induction l as [|g l IH]; intros h p lf rg Hl; [by destruct Hl as (-> & _)|].
    destruct Hl as (ls & rs & lft' & rgt' & _ & _ & _ & _ & _ & _ & _ & _ & _ & Hl). apply IH in Hl. cbn [length]. lia. }
  apply Hlen in Hh. unfold zlen. lia.
Qed.

Lemma leaf_splitting : splitting file me_flags me_psize me_maxpg mt_txnid readers md_cmp D ord H recs w1 path_pages
  ws mc nn true (fr_pgno f) a (zlen l1) mp [] [] up 0.
Proof.
  pose proof Hfull as [Fg Fo Fk (Fr & Fc & _) Fch Fi Flt Fgt Fit Fin Ff Fcnt Froom _].
  destruct (al_stack _ _ _ _ _ _ _ _ _ _ _ _ _ _ _ _ _ _ _ _ _ _ _ _ _ _ Hal) as (Ht & H32 & Hp & Hk).
  pose proof (ap_snum _ _ _ _ _ _ _ _ _ _ _ _ _ _ _ _ _ _ _ _ _ _ _ _ Hap) as Hsn. rewrite zlen_cons in Hsn. pose proof up_short as H31.
  destruct (ap_stack _ _ _ _ _ _ _ _ _ _ _ _ _ _ _ _ _ _ _ _ _ _ _ _ Hap) as (Hpg & Hki & Hst).
  destruct (path_own f ltac:(by left)) as (b & Hob & Hpl & _). destruct path_leaf as (_ & _ & Ho).
  assert (a = b) as <-.
  { apply (own_fun me_psize me_maxpg w1 (fr_pgno f) (fr_pgno f) a b (fr_page f) (fr_page f) Hl Ho Hob). done. }
  split; auto.
  - apply full_page.
  - apply path_nodup.
  - unfold at_top. rewrite Ht. by rewrite Hpg, Hpl, Hki, Fi.
  - split; lia.
  - pose proof path_nodup as Hnd. apply NoDup_cons in Hnd as [Hnd _]. pose proof path_own as Hpo. pose proof path_branch as Hpb.
    clear -Hst Hnd Fk Hpo Hpb. cbn [numbers fmap list_fmap] in Hnd. fold (numbers up) in Hnd.
    assert (forall g, g ∈ up -> exists b, own_at w1 (fr_pgno g) b (fr_page g) /\ place w1 (fr_pgno g) = Some (Heap b) /\ first_key_ok D (fr_page g)) as Hpo'.
    { intros g Hg. destruct (Hpo g ltac:(by right)) as (b & ? & ? & _ & _ & _ & _ & _ & ?). by exists b. }
    clear Hpo. induction up as [|g l IH]; [done|]. destruct Hst as (Hg1 & Hg2 & Hst). cbn [numbers fmap list_fmap] in Hnd. apply not_elem_of_cons in Hnd as [Hne Hnd].
    destruct (Hpo' g ltac:(by left)) as (b & Hob & Hpl & Hfk). cbn [on_path]. split; [exists b; split; [apply Fk; [congruence|done]|by rewrite Hg1, Hpl]|].
    split; [done|]. split; [apply Hpb; by left|]. split; [done|].
    apply IH; auto; intros g' Hg'; [apply Hpb|apply Hpo']; by right.
  - lia.
  - apply (leaf_splittable D me_psize kmin kmax dmin dmax Hz (seen w1) md_cmp ord mp l1 l2 key data nflags Hli); auto; [apply full_page|apply leaf_sized].
  - intros s Hs. destruct (node_key_at D me_psize kmin kmax dmin dmax Hz (seen w1) md_cmp ord mp l1 l2 key data nflags Hli (po_len _ _ _ _ full_page)
      leaf_sized Dk Hkey Hdata Hnew Ff Froom s mp (po_len _ _ _ _ full_page) (wf_bytes _ (li_wf _ _ _ _ _ _ Hli)) ltac:(lia)) as (d & He).
    eapply (half_order D (seen w1) md_cmp ord mp l1 l2 key data Hli Dk Flt Fgt s _ d full_order); [lia|exact He].
  - rewrite Fc. pose proof (al_cursors _ _ _ _ _ _ _ _ _ _ _ _ _ _ _ _ _ _ _ _ _ _ _ _ _ _ Hal) as Hf2. clear -Hf2 Hcs.
    induction Hf2 as [|m2 m2' l l' (E1 & E2 & E3) _ IH]; [done|]. apply Forall_cons in Hcs as [[] Hc]. constructor; [|by apply IH].
    split; [by rewrite E3|by rewrite E2|by rewrite E1].
  - exists lft, rgt. apply Hw.
Qed.
(** What is left of the old tree. *)
Lemma old_pages : forall leafp, Permutation (sub_pages leafp (seen w1) H (w_root w1))
  (numbers up ++ sides leafp (seen w1) up 0 ++ fr_pgno f :: leafp (fr_page f)).
Proof. destruct (whole_tree md_cmp D ord _ _ _ _ _ _ _ _ _ Hw) as (root & _ & _ & _ & Hp). exact Hp. Qed.

Lemma pages_nodup (leafp : list Z -> list Z) : leafp = leaf_pages me_psize \/ leafp = (fun _ => []) ->
  NoDup (sub_pages leafp (seen w1) H (w_root w1)).
Proof.
  pose proof (ci_unique _ _ _ _ _ _ _ _ _ _ _ _ _ _ _ _ _ Hinv) as Hnd. unfold all_pages in Hnd. apply NoDup_app in Hnd as [Hnd _].
  intros [->| ->]; [done|].
  assert (sub_pages (fun _ => []) (seen w1) H (w_root w1) ⊆+ pages (seen w1) H (w_root w1)) as Hsub.
  { unfold sub_pages. apply submseteq_skip. destruct (seen w1 (w_root w1)); [apply node_pages_sub|done]. }
  apply submseteq_Permutation in Hsub as (k & Hk). rewrite Hk in Hnd. by apply NoDup_app in Hnd as [Hnd _].
Qed.

Lemma side_not_path (leafp : list Z -> list Z) (y : Z) : leafp = leaf_pages me_psize \/ leafp = (fun _ => []) ->
  y ∈ sides leafp (seen w1) up 0 \/ y ∈ leafp (fr_page f) -> (y ∉ path_pages) /\ y ∈ sub_pages leafp (seen w1) H (w_root w1).
Proof.
  intros Hlp Hy. pose proof (pages_nodup leafp Hlp) as Hnd. rewrite (old_pages leafp) in Hnd |- *. split; [|rewrite !elem_of_app, elem_of_cons; tauto].
  apply NoDup_app in Hnd as (_ & Hd & Hnd). apply NoDup_app in Hnd as (_ & Hd2 & Hnd). apply NoDup_cons in Hnd as [Hn _].
  intros Hp. change (y ∈ fr_pgno f :: numbers up) in Hp. apply elem_of_cons in Hp as [->|Hp].
  - destruct Hy as [Hy|Hy]; [|done]. apply (Hd2 _ Hy). by left.
  - apply (Hd y Hp). rewrite elem_of_app, elem_of_cons. tauto.
Qed.

Section Divided.
Variables (w' : wtxn) (mc' : wcursor) (q rpa s : Z) (more : list Z) (H' : nat) (copy : list Z).
Hypothesis Hd : divided file me_flags me_psize me_maxpg mt_txnid readers md_cmp D ord H recs w1 path_pages
  ws mc nn true (fr_pgno f) a (zlen l1) mp [] [] up 0 w' mc' q rpa s more H' copy.
Let Hg := dv_grown _ _ _ _ _ _ _ _ _ _ _ _ _ _ _ _ _ _ _ _ _ _ _ _ _ _ _ _ _ _ _ _ _ Hd.

Lemma same_side (y : Z) : (y ∉ path_pages) -> y ∈ pages (seen w1) H (w_root w1) -> seen w' y = seen w1 y.
Proof.
  intros Hn Hy. eapply (grown_used file me_flags me_psize me_maxpg readers mt_txnid); eauto using path_in.
Qed.

(** The halves of the leaf. *)
Lemma leaf_halves : exists ml mr c1 c2 sep, items' = c1 ++ c2 /\ sep = nn_key (all_node mp nn (zlen l1) s) /\
  own_at w' (fr_pgno f) a ml /\ page_of me_psize true (fr_pgno f) ml /\ own_at w' q rpa mr /\ page_of me_psize true q mr /\
  subtree md_cmp D ord (seen w') 0 (fr_pgno f) c1 /\ subtree md_cmp D ord (seen w') 0 q c2 /\
  Forall (fun e => ord e.1 sep < 0) c1 /\ Forall (fun e => ord sep e.1 <= 0) c2 /\
  leaf_pages me_psize ml ++ leaf_pages me_psize mr = leaf_pages me_psize (fr_page f).
Proof.
  pose proof Hfull as [Fg Fo Fk _ Fch Fi Flt Fgt Fit Fin Ff Fcnt Froom _]. pose proof full_page as Pm. pose proof leaf_sized as Hls.
  destruct (dv_halves _ _ _ _ _ _ _ _ _ _ _ _ _ _ _ _ _ _ _ _ _ _ _ _ _ _ _ _ _ _ _ _ _ Hd) as [(ml & Ol & Pl & Rl) (mr & Or & Pr & Rr)]. cbn [unkeyed] in Rl, Rr.
  pose proof (dv_planned _ _ _ _ _ _ _ _ _ _ _ _ _ _ _ _ _ _ _ _ _ _ _ _ _ _ _ _ _ _ _ _ _ Hd) as Hpl.
  assert (splittable me_psize mp nn (zlen l1)) as Hsb by (by eapply (leaf_splittable D me_psize kmin kmax dmin dmax Hz (seen w1) md_cmp ord); eauto; apply Pm).
  pose proof (split_input_of _ _ _ _ _ Hsb (po_len _ _ _ _ Pm) (wf_bytes _ (po_wf _ _ _ _ Pm))) as Hin.
  pose proof (s_range me_psize mp mp nn (zlen l1) s Hin (pl_fits _ _ _ _ _ _ Hpl)) as Hs.
  destruct (node_key_at D me_psize kmin kmax dmin dmax Hz (seen w1) md_cmp ord mp l1 l2 key data nflags Hli (po_len _ _ _ _ Pm)
      Hls Dk Hkey Hdata Hnew Ff Froom s mp (po_len _ _ _ _ Pm) (wf_bytes _ (po_wf _ _ _ _ Pm)) ltac:(lia)) as (d & He). fold nn in He.
  destruct (half_order D (seen w1) md_cmp ord mp l1 l2 key data Hli Dk Flt Fgt s _ d full_order ltac:(lia) He) as (_ & H1 & H2).
  pose proof (half_pages D me_psize kmin kmax dmin dmax Hz (seen w1) md_cmp ord mp l1 l2 key data nflags Hli (po_len _ _ _ _ Pm) Dk Hkey Hdata Hnew Ff
    ml mr (Z.to_nat s) (po_wf _ _ _ _ Pl) (po_leaf _ _ _ _ Pl) Rl (po_wf _ _ _ _ Pr) (po_leaf _ _ _ _ Pr) Rr) as Hpg.
  rewrite (lc_pages _ _ _ _ _ _ _ _ Fch) in Hpg.
  assert (forall m' rs es' x b, (rs = take (Z.to_nat s) (all_raw mp nn (zlen l1)) /\ es' = take (Z.to_nat s) items' \/
      rs = drop (Z.to_nat s) (all_raw mp nn (zlen l1)) /\ es' = drop (Z.to_nat s) items') -> p_raw m' = rs -> own_at w' x b m' ->
      page_of me_psize true x m' -> 0 <= x < 2 ^ 63 -> es' <> [] -> (forall y, y ∈ leaf_pages me_psize m' -> y ∈ leaf_pages me_psize (fr_page f)) ->
      subtree md_cmp D ord (seen w') 0 x es') as Hsub.
  { intros m' rs es' x b Hre Er Ho Pm' Hx Hne Hsubp. exists m'. split; [|split; [by eapply page_not_nil|split; [done|]]].
    - apply (own_seen file me_flags me_psize me_maxpg Hwm w' x b m' (gr_lists _ _ _ _ _ _ _ _ _ _ Hg) Hx Ho).
    - assert (leaf_items (seen w1) md_cmp D ord m' es') as Hi.
      { eapply (half_items D me_psize kmin kmax dmin dmax Hz (seen w1) md_cmp ord mp l1 l2 key data nflags Hli (po_len _ _ _ _ Pm) Dk Hkey Hdata Hnew Ff Flt Fgt
          m' rs es' (Z.to_nat s) Hre); try apply Pm'. done. }
      apply leaf_items_tree in Hi. assert (0 < me_psize) as Hp0 by lia.
      destruct (tree_frame md_cmp D ord me_psize Hp0 (seen w1) (seen w') 0 m' es' Hi) as [Ht _]; [|exact Ht].
      intros y Hy. cbn [gen_pages] in Hy. destruct (side_not_path (leaf_pages me_psize) y (or_introl eq_refl) (or_intror (Hsubp y Hy))) as [Hy1 Hy2].
      by apply same_side. }
  assert (length items' = S (Z.to_nat (p_num mp))) as Hlen.
  { pose proof (leaf_count D (seen w1) md_cmp ord mp l1 l2 Hli) as Hc. unfold items', zlen in *. rewrite length_app in *. cbn [length] in *. lia. }
  exists ml, mr, (take (Z.to_nat s) items'), (drop (Z.to_nat s) items'), (nn_key (all_node mp nn (zlen l1) s)).
  rewrite take_drop. split; [done|]. split; [done|]. split; [done|]. split; [done|]. split; [done|]. split; [done|].
  assert (forall x b m, x ∈ path_pages \/ x ∈ more ++ [q] -> own_at w' x b m -> 0 <= x < 2 ^ 63) as Hrange.
  { intros x b m Hx Ho. pose proof (lo_next (gr_lists _ _ _ _ _ _ _ _ _ _ Hg)).
    pose proof (own_used _ _ _ _ _ _ _ _ _ _ _ _ _ _ _ _ _ _ Hinv path_in w' _ _ Hg x b m Hx Ho). lia. }
  split; [|split; [|by split]].
  - eapply Hsub; eauto.
    + eapply Hrange; [|exact Ol]. left. by left.
    + intros E. apply (f_equal length) in E. rewrite length_take in E. cbn [length] in E. lia.
    + intros y Hy. rewrite <- Hpg. apply elem_of_app. by left.
  - eapply Hsub; eauto.
    + eapply Hrange; [|exact Or]. right. apply elem_of_app. right. by left.
    + intros E. apply (f_equal length) in E. rewrite length_drop in E. cbn [length] in E. lia.
    + intros y Hy. rewrite <- Hpg. apply elem_of_app. by right.
Qed.
(** A page of the transaction's own. *)
Lemma own_page_state (x : Z) : x ∈ path_pages \/ x ∈ more ++ [q] -> own_state me_psize D w' x -> page_state file me_flags me_psize D w' x.
Proof.
  intros Hx (b & m & leaf & Ho & Pm & Hf). pose proof (gr_lists _ _ _ _ _ _ _ _ _ _ Hg) as Hl'. pose proof (lo_next Hl') as Hn.
  pose proof (own_used _ _ _ _ _ _ _ _ _ _ _ _ _ _ _ _ _ _ Hinv path_in w' _ _ Hg x b m Hx Ho) as Hr.
  exists m. split; [apply (own_seen file me_flags me_psize me_maxpg Hwm w' x b m Hl' ltac:(lia) Ho)|].
  split; [apply Pm|]. split; [apply Pm|]. split; [apply Pm|]. split; [|done]. split; [intros _|intros _; apply Pm].
  destruct Ho as [Hdi _]. by rewrite (proj2 (find_dirty_elem me_psize me_maxpg w' (ID2 x b) x Hl') (conj Hdi eq_refl)).
Qed.

(** A page beside the path. *)
Lemma side_page_state (x : Z) : x ∈ sides (fun _ => []) (seen w1) up 0 -> page_state file me_flags me_psize D w' x.
Proof.
  intros Hx. destruct (side_not_path (fun _ => []) x (or_intror eq_refl) (or_introl Hx)) as [Hn Hin].
  pose proof (ci_pages _ _ _ _ _ _ _ _ _ _ _ _ _ _ _ _ _ Hinv) as Hst. rewrite Forall_forall in Hst.
  destruct (Hst _ Hin) as (m & Em & H1 & H2 & H3 & H4 & H5).
  assert (x ∈ pages (seen w1) H (w_root w1)) as Hin'.
  { refine (elem_of_submseteq _ _ _ Hin _). unfold sub_pages. apply submseteq_skip. destruct (seen w1 (w_root w1)); [apply node_pages_sub|done]. }
  exists m. rewrite (same_side x Hn Hin'). split_and!; try done.
  destruct (used_not_new _ _ _ _ _ _ _ _ _ _ _ _ _ _ _ _ _ _ Hinv w' _ _ Hg x (or_introl Hin')) as [Hno _].
  assert (x ∉ more ++ [q]) as Hno' by (intros Hx'; apply Hno, elem_of_app; by left).
  by rewrite (grown_find _ _ _ _ _ _ _ _ _ _ _ _ _ _ _ _ _ _ Hinv w' _ _ Hg x Hno').
Qed.

Lemma divided_ok : inv_at H' (put_items ord key data es) w' /\ next_of w1 <= next_of w' /\
  Permutation (all H' w') (seqZ (next_of w1) (next_of w' - next_of w1) ++ all H w1).
Proof.
  destruct leaf_halves as (ml & mr & c1 & c2 & sep & Eit & Es & Ol & Pl & Or & Pr & S1 & S2 & Hlt & Hge & Hpg).
  pose proof (gr_lists _ _ _ _ _ _ _ _ _ _ Hg) as Hl'. pose proof (lo_next Hl') as Hn.
  assert (forall x b m, x ∈ path_pages \/ x ∈ more ++ [q] -> own_at w' x b m -> seen w' x = Some m) as Hseen.
  { intros x b m Hx Ho. pose proof (own_used _ _ _ _ _ _ _ _ _ _ _ _ _ _ _ _ _ _ Hinv path_in w' _ _ Hg x b m Hx Ho) as Hr.
    apply (own_seen file me_flags me_psize me_maxpg Hwm w' x b m Hl' ltac:(lia) Ho). }
  assert (Forall (fun e => D e.1) (c1 ++ c2)) as HDc.
  { rewrite <- Eit. eapply (items_sorted D (seen w1) md_cmp ord mp l1 l2 key data Hli Dk); apply Hfull. }
  destruct (dv_plugs _ _ _ _ _ _ _ _ _ _ _ _ _ _ _ _ _ _ _ _ _ _ _ _ _ _ _ _ _ _ _ _ _ Hd lft rgt (proj1 Hw) (seen w') c1 c2) as (root & Hroot & Ht & Hperm); auto.
  { intros y Hy. destruct (side_not_path (leaf_pages me_psize) y (or_introl eq_refl) (or_introl Hy)) as [Hy1 Hy2]. by apply same_side. }
  { intros y b m Hy Ho. apply (Hseen y b m); [|done]. destruct Hy as [Hy|Hy]; [left; by right|right; apply elem_of_app; by left]. }
  { rewrite <- Eit. apply Hfull. } { by rewrite <- Es. } { by rewrite <- Es. }
  assert (put_items ord key data es = lft ++ c1 ++ c2 ++ rgt) as Eput.
  { rewrite (fl_items _ _ _ _ _ _ Hfull). fold items'. rewrite Eit, <- app_assoc. done. }
  assert (forall leafp, sub_pages leafp (seen w') 0 (fr_pgno f) = fr_pgno f :: leafp ml /\ sub_pages leafp (seen w') 0 q = q :: leafp mr) as Hleafs.
  { intros leafp. unfold sub_pages. rewrite (Hseen (fr_pgno f) a ml); [|left; by left|done].
    rewrite (Hseen q rpa mr); [done|right; apply elem_of_app; right; by left|done]. }
  eapply (grown_inv file me_flags me_psize me_maxpg readers mt_txnid Hwm ltac:(lia) Hmax md_cmp D ord H es free_root rootf hf esf recs w1 path_pages Hinv path_in w' (more ++ [q]) H').
  - exact Hg.
  - exists root. by rewrite Eput.
  - rewrite (Hperm (leaf_pages me_psize)), (old_pages (leaf_pages me_psize)), (proj1 (Hleafs _)), (proj2 (Hleafs _)), <- Hpg. solve_Permutation.
  - rewrite (Hperm (fun _ => [])), (proj1 (Hleafs _)), (proj2 (Hleafs _)).
    pose proof (dv_owns _ _ _ _ _ _ _ _ _ _ _ _ _ _ _ _ _ _ _ _ _ _ _ _ _ _ _ _ _ _ _ _ _ Hd) as Hown. apply Forall_app in Hown as [Hou Hom].
    rewrite Forall_forall in Hou, Hom. repeat (apply Forall_app; split).
    + apply Forall_forall. intros x Hx. apply own_page_state; [right; apply elem_of_app; by left|by apply Hom].
    + apply Forall_forall. intros x Hx. apply own_page_state; [left; by right|by apply Hou].
    + apply Forall_forall. apply side_page_state.
    + constructor; [|done]. apply own_page_state; [left; by left|]. exists a, ml, true. split; [done|]. split; [done|]. intros E. by rewrite (po_leaf _ _ _ _ Pl) in E.
    + constructor; [|done]. apply own_page_state; [right; apply elem_of_app; right; by left|]. exists rpa, mr, true. split; [done|]. split; [done|]. intros E. by rewrite (po_leaf _ _ _ _ Pr) in E.
Qed.
End Divided.
End Sized.
End Path.
(** ** mdb_put *)

Section Final.
Variables (kmin kmax dmin dmax : Z).
Hypothesis Hz : item_sizes D me_psize kmin kmax dmin dmax.
Hypothesis HB : branch_order md_cmp D ord.

(** What [put_with_split] may do; [H'] is the new height. *)
Definition put_split_correct (w : wtxn) (es : items) (key data : MDB_val) (flags : Z) (r : put_result) : Prop :=
  match r with
  | PutDone rc out w' _ =>
      (rc = MDB_SUCCESS /\ out = None /\ (flags = MDB_NOOVERWRITE -> forall d, (key, d) ∉ es) /\
         (exists H', (H <= H' <= S H)%nat /\ inv_at H' (put_items ord key data es) w' /\ next_of w <= next_of w' /\
            Permutation (all H' w') (seqZ (next_of w) (next_of w' - next_of w) ++ all H w)) /\
         md_entries (w_db w') = zlen (put_items ord key data es)) \/
      (rc = MDB_KEYEXIST /\ flags = MDB_NOOVERWRITE /\ w' = w /\ exists d, out = Some d /\ (key, d) ∈ es) \/
      failed rc w'
  | PutSpill w' _ => w' = w /\ room_left me_psize main_depth w key data = false
  | PutSplit _ _ _ => False
  end.

Section State.
Variables (w : wtxn) (es : items) (key data : MDB_val) (flags : Z).
Hypothesis Hcs : Forall (wide 31) (w_cursors w).
Hypothesis Hent : md_entries (w_db w) = zlen es /\ zlen es + 1 < 2 ^ 64.
Hypothesis Dk : D key.
Hypothesis Hkey : val_ok key.
Hypothesis Hdata : val_ok data.
Hypothesis Hnew : dmin <= mv_size data <= dmax.
Hypothesis Hsized : Forall (item_sized dmin dmax) es.

Lemma inv_entries (H' : nat) (l : items) (w' : wtxn) (d : MDB_db) : inv_at H' l w' -> inv_at H' l (set_db w' d).
Proof. intros [[] ? ? ? ? ? ? ? ?]. split; try assumption. by split. Qed.

Lemma failed_error (rc : Z) (w' : wtxn) : no_room rc -> failed rc (txn_error w').
Proof. intros Hrc. split; [done|]. apply txn_error_set. Qed.

(** The split and what follows it. *)
Lemma finish_split_ok (w' : wtxn) (mc' : wcursor) (nflags : Z) :
  needs_split file me_flags me_psize me_maxpg mt_txnid readers md_cmp D ord H free_root rootf hf esf recs (nodemax me_psize) w es key data flags w' mc' nflags ->
  exists r, finish_put file me_flags me_map me_psize me_maxpg os_malloc junk mem_ok mt_txnid readers free_root [] fuel key data (PutSplit w' mc' nflags) =
    Some r /\ put_split_correct w es key data flags r.
Proof.
  intros (w1 & f & up & lft & cur & rgt & a & Hal & Hcase). unfold finish_put.
  assert (flags = MDB_NOOVERWRITE -> forall d, (key, d) ∉ es) as Hover.
  { intros Hf. destruct Hcase as [(_ & _ & Hno & _)|(m1 & l1 & l2 & d & H0 & _)]; [done|]. by rewrite Hf in H0. }
  assert (let m := fr_page f in (nflags = 0 /\ w' = w1 /\ (forall d, (key, d) ∉ es) /\ p_upper m - p_lower m < mdb_leaf_size (nodemax me_psize) key data) \/
    exists m1 l1 l2 d, nflags = MDB_SPLIT_REPLACE /\ w' = set_mem w1 a m1 /\ cur = l1 ++ (key, d) :: l2 /\ zlen l1 = fr_ki f /\
      leaf_change (seen w1) md_cmp D ord me_psize m m1 (l1 ++ l2) /\ p_upper m1 - p_lower m1 < mdb_leaf_size (nodemax me_psize) key data) as Hcase'.
  { destruct Hcase as [Hc|(m1 & l1 & l2 & d & _ & Hc)]; [by left|right]. by exists m1, l1, l2, d. }
  destruct (full_leaf_ok w w1 es key mc' f up lft cur rgt a Hal data nflags w' Dk Hcase') as (mp & l1 & l2 & Hfull).
  pose proof (leaf_splitting w w1 es key mc' f up lft cur rgt a Hal kmin kmax dmin dmax Hz Hsized data nflags w' mp l1 l2 Hfull Dk Hkey Hdata Hnew Hcs) as Hst.
  pose proof (al_path _ _ _ _ _ _ _ _ _ _ _ _ _ _ _ _ _ _ _ _ _ _ _ _ _ _ Hal) as Hap.
  pose proof (ap_snum _ _ _ _ _ _ _ _ _ _ _ _ _ _ _ _ _ _ _ _ _ _ _ _ Hap) as Hsn.
  pose proof (full_order w w1 es key mc' f up lft cur rgt a Hal) as O.
  destruct (page_split_ok file me_flags me_map me_psize me_maxpg os_malloc junk mem_ok mt_txnid readers Hwm Hps Hmax Hmalloc md_cmp D ord H es
    free_root rootf hf esf recs fuel Hfuel w1 (path_pages f up) kmin kmax (ap_inv _ _ _ _ _ _ _ _ _ _ _ _ _ _ _ _ _ _ _ _ _ _ _ _ Hap)
    (path_in w w1 es key mc' f up lft cur rgt a Hal) O HB (iz_keys _ _ _ _ _ _ Hz) up (Z.to_nat (wc_snum mc')) _ _ _ _ _ _ _ _ _ _ _ ltac:(rewrite zlen_cons in Hsn; unfold zlen in Hsn; lia) Hst) as
    [(rc & w2 & mc2 & E & Hrc)|(w2 & mc2 & q & rpa & s & more & H' & copy & E & Hd)]; rewrite E; cbn [mbind option_bind].
  - rewrite (no_room_nz _ Hrc). eexists. split; [reflexivity|]. right. right. by apply failed_error.
  - change (nz MDB_SUCCESS) with false. cbv iota.
    destruct (divided_ok w w1 es key mc' f up lft cur rgt a Hal kmin kmax dmin dmax Hz Hsized data nflags w' mp l1 l2 Hfull Dk Hkey Hdata Hnew _ _ _ _ _ _ _ _ Hd) as (Hi & Hn & Hp).
    pose proof (al_accounts _ _ _ _ _ _ _ _ _ _ _ _ _ _ _ _ _ _ _ _ _ _ _ _ _ _ Hal) as [Hn1 Hp1].
    assert (next_of w <= next_of w2 /\ Permutation (all H' w2) (seqZ (next_of w) (next_of w2 - next_of w) ++ all H w)) as [Hn2 Hp2].
    { split; [lia|]. rewrite Hp, Hp1, app_assoc. f_equiv. rewrite Permutation_app_comm.
      replace (next_of w1) with (next_of w + (next_of w1 - next_of w)) at 2 by lia. rewrite <- seqZ_app by lia. f_equiv. f_equal. lia. }
    assert (md_entries (w_db w2) = zlen es) as Ee.
    { rewrite (dv_entries _ _ _ _ _ _ _ _ _ _ _ _ _ _ _ _ _ _ _ _ _ _ _ _ _ _ _ _ _ _ _ _ _ Hd). destruct (fl_same _ _ _ _ _ _ _ _ _ _ _ _ _ _ Hfull) as (_ & _ & ->).
      by rewrite (al_db _ _ _ _ _ _ _ _ _ _ _ _ _ _ _ _ _ _ _ _ _ _ _ _ _ _ Hal), (proj1 Hent). }
    pose proof (fl_count _ _ _ _ _ _ _ _ _ _ _ _ _ _ Hfull) as Hc. pose proof (zlen_nonneg es).
    destruct (fl_flags _ _ _ _ _ _ _ _ _ _ _ _ _ _ Hfull) as [->| ->].
    + change (nz (Z.land 0 MDB_SPLIT_REPLACE)) with false. cbn [negb]. eexists. split; [reflexivity|]. left. split_and!; try done.
      * exists H'. split; [apply Hd|]. split; [by apply inv_entries|]. by split.
      * cbn [set_db w_db set_entries md_entries]. rewrite Ee, Hc, uwrap_small by lia. done.
    + change (nz (Z.land MDB_SPLIT_REPLACE MDB_SPLIT_REPLACE)) with true. cbn [negb]. eexists. split; [reflexivity|]. left. split_and!; try done.
      * exists H'. split; [apply Hd|]. by split_and!.
      * rewrite Ee, Hc. change (MDB_SPLIT_REPLACE =? 0) with false. cbv iota. lia.
Qed.
Hypothesis Hinv : inv_at H es w.
Hypothesis Hes : es <> [].
Hypothesis Hks : 0 < mv_size key <= ENV_MAXKEY.
Hypothesis Hflags : flags = 0 \/ flags = MDB_NOOVERWRITE.
Hypothesis Hbig : flags = 0 -> value_in_page file me_flags H w key.

Lemma put_with_split_ok : exists r, put_with_split file me_flags me_map me_psize me_maxpg os_malloc junk mem_ok need_ok mt_txnid readers free_root [] fuel
    md_cmp main_depth true w key data flags = Some r /\ put_split_correct w es key data flags r.
Proof.
  pose proof (kz_dom _ _ _ _ (iz_keys _ _ _ _ _ _ Hz) _ Dk) as Hkk. pose proof (iz_max _ _ _ _ _ _ Hz) as Hm. pose proof (nodemax_high me_psize) as Hn.
  unfold MAX_PAGESIZE, PAGEHDRSZ in *. unfold put_with_split.
  destruct (put_ok file me_flags me_map me_psize me_maxpg os_malloc junk mem_ok need_ok mt_txnid readers Hwm ltac:(lia) Hmax Hmalloc md_cmp D ord H
    free_root rootf hf esf recs fuel (nodemax me_psize) main_depth Hfuel ltac:(lia) w es key data flags Hinv Hes) as (r & E & Hr); auto.
  { apply (Forall_impl _ _ _ Hcs). by intros m2 []. }
  { unfold MAXDATASIZE. lia. } { unfold LEAFSIZE, NODESIZE. lia. }
  rewrite E. cbn [mbind option_bind]. destruct r as [rc out w' mc'|w' mc'|w' mc' nflags].
  - eexists. split; [reflexivity|]. destruct Hr as [(H1 & H2 & H3 & H4 & [H5 H6] & H7)|Hr]; [left|by right].
    split_and!; auto. exists H. by split_and!; auto.
  - eexists. by split; [reflexivity|].
  - by apply finish_split_ok.
Qed.
End State.
End Final.
End Put.

(** C1: [mdb_put] with [mdb_page_split], for a tree of any height below 31 and
    with cursors anywhere in it.  Keys and values have sizes of which every
    half of a full page fits ([item_sizes]: five branch nodes fit in a page,
    and there is no leaf of more than 18 nodes or the sizes are close
    together).  The call returns, and does one of these.  It succeeds: the items
    are the old ones with the value at the key, in a tree of the same height or
    one more (when the root is divided), the invariant of the transaction
    holds, every page of before is still accounted for and the new ones are
    at the end of the map, and [md_entries] is the number of items.  It returns
    [MDB_KEYEXIST] and changes nothing.  It fails for want of memory, room in
    the dirty list or pages, and the transaction is marked as failed.  Or it
    comes to the call of [mdb_page_spill] with nothing changed.  It never stops
    inside a split. *)
Theorem mdb_put_split_correct (file : Z -> option (list Z)) (me_flags me_map me_psize me_maxpg : Z)
    (os_malloc : gmap Z (list Z) -> Z -> option (Z * list Z)) (junk : nat -> Z) (mem_ok : Z -> bool) (need_ok : bool)
    (mt_txnid : Z) (readers : option (list MDB_reader * Z))
    (md_cmp : MDB_cmp_func) (D : MDB_val -> Prop) (ord : MDB_val -> MDB_val -> Z) (H : nat)
    (free_root : Z) (rootf : list Z) (hf : nat) (esf : list (MDB_val * MDB_val)) (recs : list free_rec) (fuel : nat)
    (main_depth kmin kmax dmin dmax : Z) (w : wtxn) (es : list (MDB_val * MDB_val)) (key data : MDB_val) (flags : Z) :
  Z.land me_flags MDB_WRITEMAP = 0 -> 16 <= me_psize <= MAX_PAGESIZE -> me_maxpg <= 2 ^ 31 ->
  (forall mem sz a b, os_malloc mem sz = Some (a, b) -> mem !! a = None /\ zlen b = sz /\ Forall is_byte b) ->
  (length recs < fuel)%nat -> (H < 31)%nat ->
  item_sizes D me_psize kmin kmax dmin dmax -> branch_order md_cmp D ord ->
  cow_inv file me_flags me_psize me_maxpg readers mt_txnid md_cmp D ord H es free_root rootf hf esf recs w -> es <> [] ->
  Forall (wide 31) (w_cursors w) -> md_entries (w_db w) = zlen es /\ zlen es + 1 < 2 ^ 64 ->
  Forall (item_sized dmin dmax) es ->
  D key -> val_ok key -> 0 < mv_size key <= ENV_MAXKEY -> val_ok data -> dmin <= mv_size data <= dmax ->
  flags = 0 \/ flags = MDB_NOOVERWRITE -> (flags = 0 -> value_in_page file me_flags H w key) ->
  exists r, put_with_split file me_flags me_map me_psize me_maxpg os_malloc junk mem_ok need_ok mt_txnid readers free_root [] fuel
      md_cmp main_depth true w key data flags = Some r /\
    put_split_correct file me_flags me_psize me_maxpg mt_txnid readers md_cmp D ord H free_root rootf hf esf recs
      main_depth w es key data flags r.
Proof. intros. by eapply put_with_split_ok. Qed.

(** C2: what such an [mdb_put] wrote is what [mdb_get] reads, across splits:
    after success under the hypotheses of [mdb_put_split_correct],
    [mdb_get] in the same transaction returns the new value for its key, and for every
    other key what it would have returned before. *)
Theorem mdb_put_split_get (file : Z -> option (list Z)) (me_flags me_map me_psize me_maxpg : Z)
    (os_malloc : gmap Z (list Z) -> Z -> option (Z * list Z)) (junk : nat -> Z) (mem_ok : Z -> bool) (need_ok : bool)
    (mt_txnid : Z) (readers : option (list MDB_reader * Z))
    (md_cmp : MDB_cmp_func) (D : MDB_val -> Prop) (ord : MDB_val -> MDB_val -> Z) (H : nat)
    (free_root : Z) (rootf : list Z) (hf : nat) (esf : list (MDB_val * MDB_val)) (recs : list free_rec) (fuel : nat)
    (main_depth kmin kmax dmin dmax : Z) (w w' : wtxn) (es : list (MDB_val * MDB_val)) (key data k : MDB_val) (flags : Z)
    (out : option MDB_val) (mc' : wcursor) :
  Z.land me_flags MDB_WRITEMAP = 0 -> 16 <= me_psize <= MAX_PAGESIZE -> me_maxpg <= 2 ^ 31 ->
  (forall mem sz a b, os_malloc mem sz = Some (a, b) -> mem !! a = None /\ zlen b = sz /\ Forall is_byte b) ->
  (length recs < fuel)%nat -> (H < 31)%nat ->
  item_sizes D me_psize kmin kmax dmin dmax -> branch_order md_cmp D ord ->
  cow_inv file me_flags me_psize me_maxpg readers mt_txnid md_cmp D ord H es free_root rootf hf esf recs w -> es <> [] ->
  Forall (wide 31) (w_cursors w) -> md_entries (w_db w) = zlen es /\ zlen es + 1 < 2 ^ 64 ->
  Forall (item_sized dmin dmax) es ->
  D key -> val_ok key -> 0 < mv_size key <= ENV_MAXKEY -> val_ok data -> dmin <= mv_size data <= dmax ->
  flags = 0 \/ flags = MDB_NOOVERWRITE -> (flags = 0 -> value_in_page file me_flags H w key) ->
  put_with_split file me_flags me_map me_psize me_maxpg os_malloc junk mem_ok need_ok mt_txnid readers free_root [] fuel
    md_cmp main_depth true w key data flags = Some (PutDone MDB_SUCCESS out w' mc') ->
  D k -> 0 < mv_size k ->
  exists r, mdb_get (view file me_flags [] w') md_cmp 0 (w_root w') (a_mt_flags (w_alloc w')) k = Some r /\
    if decide (k = key) then o_rc r = MDB_SUCCESS /\ o_data r = Some data
    else (forall d, (k, d) ∈ es -> o_rc r = MDB_SUCCESS /\ o_data r = Some d) /\ ((forall d, (k, d) ∉ es) -> o_rc r = MDB_NOTFOUND).
Proof.
  intros Hwm Hps Hmax Hmalloc Hfuel HH Hz HB Hinv Hes Hcs Hent Hsized Dk Hkey Hks Hdata Hnew Hflags Hbig Hput Dk' Hk.
  destruct (put_with_split_ok file me_flags me_map me_psize me_maxpg os_malloc junk mem_ok need_ok mt_txnid readers Hwm Hps Hmax Hmalloc
    md_cmp D ord H free_root rootf hf esf recs fuel main_depth Hfuel HH kmin kmax dmin dmax Hz HB w es key data flags) as (r & E & Hr); auto.
  rewrite Hput in E. injection E as <-. destruct Hr as [(_ & _ & _ & (H' & HH' & Hi & _) & _)|[(E & _)|[[E|[E|E]] _]]]; try done.
  apply (get_after_put file me_flags me_psize me_maxpg mt_txnid readers Hmax md_cmp D ord H' free_root rootf hf esf recs
    ltac:(lia) es key data Dk w' k Hi Dk' Hk).
Qed.

(** ** An example: a leaf that is full *)

(** Short strings. *)
Definition brief (v : MDB_val) : Prop := short v /\ 0 <= mv_size v <= 12.

Lemma brief_memn : KeyOrder mdb_cmp_memn brief.
Proof.
  refine {| ko_ord := lex_ord |}.
  - intros a b [Ha _] [Hb _]. by apply (ko_run (KeyOrder := cmp_memn_order)).
  - intros a b [Ha _] [Hb _]. by apply (ko_eq (KeyOrder := cmp_memn_order)).
  - intros a b [Ha _] [Hb _]. by apply (ko_anti (KeyOrder := cmp_memn_order)).
  - intros a b c [Ha _] [Hb _] [Hc _]. by apply (ko_trans (KeyOrder := cmp_memn_order)).
Defined.

Lemma brief_branch : branch_order cmp_memn brief lex_ord.
Proof.
  intros m Hwf Hb _ _. exists cmp_memn, brief_memn. split; [|done].
  unfold eff_cmp. by rewrite IS_BRANCH_ok by done.
Qed.

Lemma brief_sizes : item_sizes brief 128 0 12 0 20.
Proof.
  split; [split|..].
  - by intros k [_ ?].
  - lia.
  - closed.
  - left. closed.
  - reflexivity.
  - closed.
  - lia.
  - closed.
  - left. closed.
Qed.

(** A leaf with four items of 24 bytes. *)
Definition data15 (b : Z) : MDB_val := Val 15 (replicate 15 b).
Definition items4 : list (MDB_val * MDB_val) := (fun b => (Val 1 [b], data15 b)) <$> [10; 20; 30; 40].
Definition full7 : list Z := Eval vm_compute in
  foldl (fun m '(k, d) => match mdb_node_add 0 54 128 (fun _ => inl 0) m (p_num m) (Some k) (Some d) 0 0 with
                          | Some (AddOk m _) => m | _ => [] end)
    (le_bytes 8 7 ++ le_bytes 2 0 ++ le_bytes 2 2 ++ le_bytes 2 16 ++ le_bytes 2 128 ++ replicate 112 0) items4.
Definition file1 (pgno : Z) : option (list Z) := if pgno =? 7 then Some full7 else free_map pgno.

(** A cursor is on the third item. *)
Definition cur7 : wcursor := WCur 1 0 (Some (Mapped 7) :: replicate 31 None) (2 :: replicate 31 0) C_INITIALIZED.
Definition txn1 : wtxn := WTxn ∅ [] alloc0 (Midl 10 (replicate 11 0)) None 7 [cur7] (Db 1 0 1 0 4).
Abbreviation seen1 := (view file1 0 [] txn1).

Lemma dirty1 : dirty_of txn1 = [].
Proof. by apply dirty_of_0. Qed.

Lemma lists1 : lists_ok 128 100 txn1.
Proof.
  pose proof dirty1 as Hd. split; rewrite ?Hd.
  - done.
  - intros sl [=].
  - intros x Hx. by apply elem_of_nil in Hx.
  - exact no_dirty_wf.
  - done.
  - intros e He. by apply elem_of_nil in He.
  - intros e He. by apply elem_of_nil in He.
  - constructor.
  - intros a Ha. by apply elem_of_nil in Ha.
  - intros a Ha. by apply elem_of_nil in Ha.
  - change (next_of txn1) with 20. lia.
  - closed.
Qed.

Lemma seen1_file (x : Z) : 0 <= x < 20 -> seen1 x = file1 x /\ find_dirty (a_dirty (w_alloc txn1)) x = None.
Proof.
  intros Hx. assert (find_dirty (a_dirty (w_alloc txn1)) x = None) as Hf.
  { apply (find_dirty_none 128 100 txn1 x lists1). rewrite dirty1. intros e He. by apply elem_of_nil in He. }
  split; [|done]. unfold view. rewrite (locate_ok 0 128 100 eq_refl txn1 x lists1) by lia. rewrite decide_False by apply not_elem_of_nil.
  rewrite Hf. change (next_of txn1) with 20. by rewrite decide_True by lia.
Qed.

Lemma seen1_pages : seen1 7 = Some full7 /\ seen1 2 = Some free_root.
Proof. split; (match goal with |- view _ _ _ _ ?x = _ => rewrite (proj1 (seen1_file x ltac:(lia))) end); reflexivity. Qed.

Lemma order7 : page_order cmp_memn brief lex_ord full7.
Proof.
  destruct (memn_order full7) as (c & KO & E & Ho & Hs); [done|reflexivity|]. exists cmp_memn, brief_memn. split; [done|]. split; [done|].
  split.
  - intros j Hj. split; [by apply Hs|]. change (p_num full7) with 4 in Hj. change (first_key full7) with 0 in Hj.
    assert (j = 0 \/ j = 1 \/ j = 2 \/ j = 3) as [->|[->|[->| ->]]] by lia; closed.
  - intros j j' Hj Hjj Hj'. change (lex_ord (n_key full7 j) (n_key full7 j') < 0). rewrite <- Ho. by apply Hs.
Qed.

Lemma tree7 (get : Z -> option (list Z)) : tree get cmp_memn brief lex_ord 0 full7 items4.
Proof.
  split_and!; try reflexivity; [apply page_wfb_sound; reflexivity|apply order7|].
  intros k Hk. change (p_num full7) with 4 in Hk. assert (k = 0 \/ k = 1 \/ k = 2 \/ k = 3) as [->|[->|[->| ->]]] by lia; by split.
Qed.

Lemma all_pages1 : all_pages file1 0 128 0 2 0 free_items free_recs txn1 = [7; 2; 12; 11; 9].
Proof.
  unfold all_pages. change (w_root txn1) with 7. unfold free_db_pages, pool, reusable. change (w_alloc txn1) with alloc0.
  rewrite alloc0_free. unfold sub_pages. destruct seen1_pages as (-> & ->). reflexivity.
Qed.

Lemma pages1 : sub_pages (fun _ => []) seen1 0 7 = [7].
Proof. unfold sub_pages. by rewrite (proj1 seen1_pages). Qed.

Lemma cow1 : cow_inv file1 0 128 100 readers6 8 cmp_memn brief lex_ord 0 items4 2 free_root 0 free_items free_recs txn1.
Proof.
  destruct seen1_pages as (E7 & E2). split; rewrite ?all_pages1.
  - exact lists1.
  - apply alloc0_input.
  - exists full7. split; [exact E7|]. apply tree7.
  - change (w_root txn1) with 7. rewrite pages1. apply Forall_cons. split; [|by apply Forall_nil].
    exists full7. split; [exact E7|]. do 3 (split; [reflexivity|]). split; [|intros [=]].
    rewrite (proj2 (seen1_file 7 ltac:(lia))). split; [intros [=]|done].
  - destruct free_tree as [[? ?]|[_ Hn Ht Hne Hh]]; [done|]. right. split; auto.
    apply (tree_frame cmp_cint (sized 8) num_ord 128 ltac:(lia) free_map seen1 0 free_root free_items Ht).
    intros p Hp. change (tree_pages 128 free_map 0 free_root) with (@nil Z) in Hp. by apply elem_of_nil in Hp.
  - exact free_rec_items.
  - apply (bool_decide_unpack _). reflexivity.
  - intros x Hx. change (next_of txn1) with 20. assert (Forall (fun x => 1 < x < 20) [7; 2; 12; 11; 9]) as Hall by (repeat constructor; lia).
    by apply (proj1 (Forall_forall _ _) Hall).
  - intros x Hx. by apply elem_of_nil in Hx.
Qed.

Lemma txn1_in_page (key : MDB_val) : value_in_page file1 0 0 txn1 key.
Proof.
  intros x m k Hx Hm Hl Hk _. change (w_root txn1) with 7 in Hx. rewrite pages1 in Hx. apply list_elem_of_singleton in Hx as ->.
  rewrite (proj1 seen1_pages) in Hm. injection Hm as <-. change (p_num full7) with 4 in Hk.
  assert (k = 0 \/ k = 1 \/ k = 2 \/ k = 3) as [->|[->|[->| ->]]] by lia; reflexivity.
Qed.

Abbreviation put1 := (put_with_split file1 0 0 128 100 malloc0 (fun _ => 0) (fun _ => true) true 8 readers6 2 [] 3 cmp_memn 0 true txn1).

Lemma put_split_witness : exists r, put1 (Val 1 [25]) (data15 1) 0 = Some r /\
  put_split_correct file1 0 128 100 8 readers6 cmp_memn brief lex_ord 0 2 free_root 0 free_items free_recs 0 txn1 items4
    (Val 1 [25]) (data15 1) 0 r.
Proof.
  apply (mdb_put_split_correct file1 0 0 128 100 malloc0 (fun _ => 0) (fun _ => true) true 8 readers6 cmp_memn brief lex_ord 0
    2 free_root 0 free_items free_recs 3 0 0 12 0 20 txn1 items4 (Val 1 [25]) (data15 1) 0).
  - reflexivity.
  - closed.
  - lia.
  - exact malloc0_ok.
  - apply Nat.ltb_lt. reflexivity.
  - apply Nat.ltb_lt. reflexivity.
  - exact brief_sizes.
  - exact brief_branch.
  - exact cow1.
  - done.
  - apply Forall_cons. split; [|by apply Forall_nil]. split; closed.
  - split; [reflexivity|closed].
  - repeat (apply Forall_cons; split; [split; closed|]). by apply Forall_nil.
  - split; [apply shortb_sound; reflexivity|closed].
  - apply val_ok_dec. reflexivity.
  - closed.
  - apply val_ok_dec. reflexivity.
  - closed.
  - by left.
  - intros _. apply txn1_in_page.
Defined.

Lemma put1_done : done_ok (put1 (Val 1 [25]) (data15 1) 0) = true.
Proof. vm_compute. reflexivity. Qed.

Lemma put_split_get_witness : exists w' mc', put1 (Val 1 [25]) (data15 1) 0 = Some (PutDone MDB_SUCCESS None w' mc') /\
  exists r, mdb_get (view file1 0 [] w') cmp_memn 0 (w_root w') (a_mt_flags (w_alloc w')) (Val 1 [30]) = Some r /\
    if decide (Val 1 [30] = Val 1 [25]) then o_rc r = MDB_SUCCESS /\ o_data r = Some (data15 1)
    else (forall d, (Val 1 [30], d) ∈ items4 -> o_rc r = MDB_SUCCESS /\ o_data r = Some d) /\
      ((forall d, (Val 1 [30], d) ∉ items4) -> o_rc r = MDB_NOTFOUND).
Proof.
  destruct (done_ok_out _ put1_done) as (w' & mc' & E). exists w', mc'. split; [exact E|].
  apply (mdb_put_split_get file1 0 0 128 100 malloc0 (fun _ => 0) (fun _ => true) true 8 readers6 cmp_memn brief lex_ord 0
    2 free_root 0 free_items free_recs 3 0 0 12 0 20 txn1 w' items4 (Val 1 [25]) (data15 1) (Val 1 [30]) 0 None mc').
  - reflexivity.
  - closed.
  - lia.
  - exact malloc0_ok.
  - apply Nat.ltb_lt. reflexivity.
  - apply Nat.ltb_lt. reflexivity.
  - exact brief_sizes.
  - exact brief_branch.
  - exact cow1.
  - done.
  - apply Forall_cons. split; [|by apply Forall_nil]. split; closed.
  - split; [reflexivity|closed].
  - repeat (apply Forall_cons; split; [split; closed|]). by apply Forall_nil.
  - split; [apply shortb_sound; reflexivity|closed].
  - apply val_ok_dec. reflexivity.
  - closed.
  - apply val_ok_dec. reflexivity.
  - closed.
  - by left.
  - intros _. apply txn1_in_page.
  - exact E.
  - split; [apply shortb_sound; reflexivity|closed].
  - closed.
Defined.

(** The leaf is copied to page 11; the upper half goes to page 12 and the new
    root is page 9.  The
    new item is the last of the first leaf, and the other cursor is still on
    its item, the first of the second leaf. *)
Example put_split_example : option_map (fun r => match r with
    | PutDone rc out w mc => (rc, out, (w_root w, md_entries (w_db w)), (midl_ids (cells (w_free_pgs w)), mid <$> dirty_of w),
        (take 2 (wc_ki mc), (fun m2 => (take 2 (wc_pg m2), take 2 (wc_ki m2))) <$> w_cursors w))
    | _ => (1, None, (0, 0), ([], []), ([], []))
    end) (put1 (Val 1 [25]) (data15 1) 0) =
  Some (MDB_SUCCESS, None, (9, 5), ([7], [9; 11; 12]), ([0; 2], [([Some (Heap 2); Some (Heap 1)], [1; 0])])).
Proof. vm_compute. reflexivity. Qed.
