(* ===== verification/Merge.v ===== *)
(** * Merging two pages ([mdb_page_merge], [src/LegacyDatabase/mdb.c])

    What [mdb_page_merge] does to the pages: the nodes of the source page are
    added at the end of the destination page, the first node of a branch page
    with the lowest key below it in place of its own; the parent loses the
    source page's node, and its first node never has a key.  The choice of
    [mdb_rebalance] between moving one node and merging is part of the file
    because it is what makes the merge fit.  The function works on the three
    pages as they are after [mdb_page_touch]; the lowest key below the source
    page, which the code finds with [mdb_page_search_lowest], is an argument.
    Giving the source page back ([mdb_page_loose]), the page counters of the
    database, the other cursors of the transaction and the call of
    [mdb_rebalance] for the parent are not modelled. *)
From S2P Require Import Prelude.
From S2P Require Import Bytes.
From S2P Require Import Page.
From S2P Require Import PageSpec.
From S2P Require Import NodeOps.
From S2P Require Import NodeDel.
From S2P Require Import Cmp.
From S2P Require Import NodeSearch.
From S2P Require Import Cursor.
From S2P Require Import Tree.
From S2P Require Import PageSplit.
From S2P Require Import Leaf2.
From S2P Require Import UpdateKey.
From Stdlib Require Import ZArith Lia.
From stdpp Require Import base numbers option list.
Open Scope Z_scope.

Definition FILL_THRESHOLD : Z := 250.
Definition MDB_MAXKEYSIZE : Z := 511.

(** The two pages after the merge, destination and parent; a parent that has
    to be split with a new node; or an error of [mdb_node_add], with the
    destination as it was left. *)
Inductive merge_outcome :=
  | Merged (pdst pp : list Z)
  | MergeSplit (pdst pp : list Z) (pgno : Z)
  | MergeFailed (rc : Z) (pdst : list Z).

(** ** Whether to merge *)

(** [1000L * (me_psize - PAGEHDRSZ - SIZELEFT(p)) / (me_psize - PAGEHDRSZ)],
    in unsigned arithmetic of 64 bits. *)
Definition PAGEFILL (me_psize : Z) (mp : list Z) : option Z :=
  left ← SIZELEFT mp;
  Some (u64 (1000 * u64 (me_psize - PAGEHDRSZ - left)) / (me_psize - PAGEHDRSZ)).

(** [minkeys = 1 + (IS_BRANCH(mp))]: the macro is 0 or 1. *)
Definition min_keys (mp : list Z) : option Z := b ← IS_BRANCH mp; Some (1 + Z.b2z b).

(** No need to rebalance page [mp]. *)
Definition well_filled (me_psize : Z) (mp : list Z) : option bool :=
  minkeys ← min_keys mp;
  fill ← PAGEFILL me_psize mp;
  n ← NUMKEYS mp;
  Some ((FILL_THRESHOLD <=? fill) && (minkeys <=? n)).

(** Neighbour [mp] can give up a node; otherwise the two pages are merged. *)
Definition can_give (me_psize : Z) (mp : list Z) : option bool :=
  minkeys ← min_keys mp;
  fill ← PAGEFILL me_psize mp;
  n ← NUMKEYS mp;
  Some ((FILL_THRESHOLD <=? fill) && (minkeys <? n)).

Section Merge.
Variables (md_pad me_psize : Z).
Variable page_new : Z -> Z + (Z * list Z).
Let node_add := mdb_node_add md_pad (nodemax me_psize) me_psize page_new.

(** Node [i] of [psrc] as it is added to the destination; [lowest] is the
    lowest key below the page, which [mdb_page_search_lowest] finds. *)
Definition merge_node (psrc : list Z) (lowest : option MDB_val) (i : Z) : option new_node :=
  o ← mp_ptr psrc i;
  leaf ← IS_LEAF psrc;
  branch ← IS_BRANCH psrc;
  key ← (if (i =? 0) && branch then lowest else key_at psrc o);
  data ← (if leaf : bool then d ← node_data psrc o; Some (Some d) else Some None);
  pgno ← NODEPGNO psrc o;
  fl ← get16 psrc (o + 4);
  Some (NewNode key data pgno fl).

(** [for (i = 0; i < NUMKEYS(psrc); i++, j++)]; [n] is the number of nodes left. *)
Fixpoint merge_loop (n : nat) (psrc : list Z) (lowest : option MDB_val) (pdst : list Z) (i j : Z)
  : option (Z * list Z) :=
  match n with
  | O => Some (MDB_SUCCESS, pdst)
  | S n =>
    nn ← merge_node psrc lowest i;
    r ← node_add pdst j (Some (nn_key nn)) (nn_data nn) (nn_pgno nn) (nn_flags nn);
    match r with
    | AddFail rc _ => Some (rc, pdst)
    | AddOk pdst _ => merge_loop n psrc lowest pdst (i + 1) (j + 1)
    end
  end.

(** The same for fixed-size keys; the next one is at offset [k] of the page. *)
Fixpoint merge_leaf2 (n : nat) (psrc pdst : list Z) (k j : Z) : option (Z * list Z) :=
  match n with
  | O => Some (MDB_SUCCESS, pdst)
  | S n =>
    bs ← bread psrc k md_pad;
    r ← node_add pdst j (Some (Val md_pad bs)) None 0 0;
    match r with
    | AddFail rc _ => Some (rc, pdst)
    | AddOk pdst _ => merge_leaf2 n psrc pdst (k + md_pad) (j + 1)
    end
  end.

Definition move_all (psrc pdst : list Z) (lowest : option MDB_val) : option (Z * list Z) :=
  nkeys ← NUMKEYS pdst;
  n ← NUMKEYS psrc;
  leaf2 ← IS_LEAF2 psrc;
  if leaf2 : bool then merge_leaf2 (Z.to_nat n) psrc pdst PAGEHDRSZ nkeys
  else merge_loop (Z.to_nat n) psrc lowest pdst 0 nkeys.

(** The parent [pp] loses the node of the source page, at index [ki]. *)
Definition unlink_src (pp : list Z) (ki : Z) : option update_result :=
  pp ← mdb_node_del pp ki 0;
  if ki =? 0 then mdb_update_key pp ki (Val 0 []) else Some (Updated pp).

Definition merge_pages (psrc pdst pp : list Z) (ki : Z) (lowest : option MDB_val) : option merge_outcome :=
  '(rc, pdst) ← move_all psrc pdst lowest;
  if nz rc then Some (MergeFailed rc pdst)
  else
  r ← unlink_src pp ki;
  match r with
  | Updated pp => Some (Merged pdst pp)
  | SplitReplace pp pgno => Some (MergeSplit pdst pp pgno)
  end.
End Merge.

(** ** The nodes of the source page *)

(** The nodes of [psrc] as they arrive in the destination. *)
Definition merge_raw (psrc : list Z) (lowest : MDB_val) : list (list Z) :=
  if p_leaf psrc then p_raw psrc
  else match p_raw psrc with [] => [] | _ :: l => branch_node (Some lowest) (n_pgno psrc 0) :: l end.

Definition merge_nn (psrc : list Z) (lowest : MDB_val) (k : Z) : new_node :=
  NewNode (if (k =? 0) && negb (p_leaf psrc) then lowest else n_key psrc k)
    (nn_data (p_node psrc k)) (n_pgno psrc k) (n_flags psrc k).

Lemma zlen_merge_raw (psrc : list Z) (lowest : MDB_val) : page_wf psrc -> zlen (merge_raw psrc lowest) = p_num psrc.
Proof.
  intros Hwf. pose proof (zlen_p_raw psrc Hwf) as Hz. unfold merge_raw. destruct (p_leaf psrc); [done|].
  by destruct (p_raw psrc) as [|x l]; [|rewrite zlen_cons in *].
Qed.

Section Source.
Variables (me_nodemax : Z) (psrc : list Z) (lo : option MDB_val) (lowest : MDB_val).
Hypothesis Hwf : page_wf psrc.
Hypothesis Hbr : p_branch psrc = negb (p_leaf psrc).
Hypothesis Hsmall : nodes_small me_nodemax psrc.
Hypothesis Hlo : p_leaf psrc = false -> lo = Some lowest.
Hypothesis Hlow : p_leaf psrc = false -> val_ok lowest /\ mv_size lowest < 65536 /\ 8 + mv_size lowest <= me_nodemax.

Lemma merge_node_ok (k : Z) : 0 <= k < p_num psrc -> merge_node psrc lo k = Some (merge_nn psrc lowest k).
Proof.
  intros Hk. pose proof (old_node_ok psrc k Hwf Hk) as Hold. destruct (n_key_in psrc k Hwf Hk) as (Hp & Hh & Hks).
  unfold merge_node. rewrite (mp_ptr_ok psrc) by done. rewrite (IS_LEAF_ok psrc), IS_BRANCH_ok, Hbr by done.
  cbn [mbind option_bind]. rewrite NODEPGNO_ok, get16_in by (done || lia). cbn [mbind option_bind].
  unfold old_node in Hold. unfold merge_nn. 
  destruct (key_at psrc (p_ptr psrc k)) as [ky|]; [|done]. cbn [mbind option_bind] in Hold.
  rewrite get16_in in Hold by lia. cbn [mbind option_bind] in Hold. fold (n_flags psrc k) in Hold |- *.
  destruct (p_leaf psrc) eqn:Hl; cbn [negb]; rewrite ?andb_false_r, ?andb_true_r.
  - destruct (node_data psrc (p_ptr psrc k)) as [d|]; [|done]. cbn [mbind option_bind] in *.
    unfold p_node in *. rewrite Hl in *. injection Hold as -> ->. done.
  - rewrite NODEPGNO_ok in Hold by done. cbn [mbind option_bind] in *. unfold p_node in *. rewrite Hl in *.
    injection Hold as ->. destruct (k =? 0); [by rewrite Hlo|done].
Qed.

Lemma merge_image (k : Z) : 0 <= k < p_num psrc ->
  addable me_nodemax (p_leaf psrc) (merge_nn psrc lowest k) /\
  image (p_leaf psrc) (merge_nn psrc lowest k) = zn (merge_raw psrc lowest) k.
Proof.
  intros Hk. pose proof (node_addable me_nodemax psrc k Hwf Hk (Hsmall k Hk)) as Ha.
  destruct (zn_p_raw psrc k Hwf Hk) as (_ & Ez & _). pose proof (zlen_p_raw psrc Hwf) as Hz.
  unfold merge_raw, merge_nn in *. destruct (p_leaf psrc) eqn:Hl; cbn [negb]; rewrite ?andb_false_r, ?andb_true_r.
  - rewrite Ez. split; [|done]. destruct Ha as [H1 H2 H3 H4]. split; auto.
  - destruct (p_raw psrc) as [|x l] eqn:Er; [unfold zlen in Hz; cbn in Hz; lia|].
    destruct (Z.eqb_spec k 0) as [->|Hne].
    + destruct (Hlow eq_refl) as (Hv & Hs & Hm). split; [|done]. destruct Ha as [_ _ _ H4]. split; auto.
      cbn [image nn_key nn_pgno]. unfold branch_node. rewrite !zlen_app, !zlen_le_bytes. destruct Hv as [Hv _]. lia.
    + rewrite (zn_app_r [x] l k) in Ez by (change (zlen [x]) with 1; lia).
      rewrite (zn_app_r [branch_node (Some lowest) (n_pgno psrc 0)] l k) by (change (zlen [_]) with 1; lia).
      change (zlen [_]) with 1 in *. rewrite Ez. split.
      * destruct Ha as [H1 H2 H3 H4]. split; auto.
      * unfold p_node. rewrite Hl. done.
Qed.
End Source.

(** ** The loop *)

Section Loop.
Variables (md_pad me_psize : Z) (page_new : Z -> Z + (Z * list Z)) (psrc : list Z)
  (lo : option MDB_val) (lowest : MDB_val).
Hypothesis Hwf : page_wf psrc.
Hypothesis Hbr : p_branch psrc = negb (p_leaf psrc).
Hypothesis Hsmall : nodes_small (nodemax me_psize) psrc.
Hypothesis Hlo : p_leaf psrc = false -> lo = Some lowest.
Hypothesis Hlow : p_leaf psrc = false ->
  val_ok lowest /\ mv_size lowest < 65536 /\ 8 + mv_size lowest <= nodemax me_psize.

(** The nodes from index [i] on are added at the end of the destination. *)
Lemma merge_loop_ok (n : nat) : forall pdst i, 0 <= i -> i + Z.of_nat n = p_num psrc ->
  page_wf pdst -> p_leaf pdst = p_leaf psrc ->
  sumZ (cell <$> drop (Z.to_nat i) (merge_raw psrc lowest)) <= p_upper pdst - p_lower pdst ->
  exists pdst', merge_loop md_pad me_psize page_new n psrc lo pdst i (p_num pdst) = Some (MDB_SUCCESS, pdst') /\
    page_wf pdst' /\ zlen pdst' = zlen pdst /\ slice pdst' 0 12 = slice pdst 0 12 /\
    p_raw pdst' = p_raw pdst ++ drop (Z.to_nat i) (merge_raw psrc lowest).
Proof.
  pose proof (zlen_merge_raw psrc lowest Hwf) as Hz.
  induction n as [|n IH]; intros pdst i Hi Hn Hd Hl Hroom; cbn [merge_loop].
  { exists pdst. split_and!; auto. rewrite drop_ge by (unfold zlen in Hz; lia). by rewrite app_nil_r. }
  rewrite (merge_node_ok (nodemax me_psize) psrc lo lowest Hwf Hbr Hlo Hlow) by lia. cbn [mbind option_bind].
  destruct (merge_image (nodemax me_psize) psrc lo lowest Hwf Hbr Hsmall Hlo Hlow i ltac:(lia)) as [Ha Ei].
  pose proof (aget_in (merge_raw psrc lowest) i ltac:(lia)) as Eg. unfold aget in Eg.
  rewrite (proj2 (Z.leb_le 0 i)) in Eg by lia. rewrite (drop_S _ _ _ Eg) in Hroom |- *. rewrite fmap_cons in Hroom. cbn [sumZ] in Hroom.
  replace (S (Z.to_nat i)) with (Z.to_nat (i + 1)) in * by lia.
  assert (0 <= sumZ (cell <$> drop (Z.to_nat (i + 1)) (merge_raw psrc lowest))) as Hpos.
  { apply sumZ_nonneg, Forall_fmap, Forall_true. intros x. unfold compose, cell. pose proof (zlen_nonneg x).
    pose proof (EVEN_bounds (zlen x)). lia. }
  rewrite <- Hl in Ha, Ei. unfold cell at 1 in Hroom. rewrite <- Ei in Hroom.
  destruct (add_last md_pad me_psize page_new pdst _ Hd Ha) as (m1 & -> & Hins); [lia|]. cbn [mbind option_bind].
  destruct (image_hdr _ _ _ Ha) as [H8 Hh].
  destruct (inserted_last pdst m1 _ Hd Hins H8 Hh) as (Er & En & El). rewrite <- En.
  destruct (IH m1 (i + 1)) as (m2 & -> & W2 & L2 & S2 & R2); try lia.
  - apply Hins.
  - congruence.
  - rewrite (in_upper _ _ _ _ Hins), (in_lower _ _ _ _ Hins). lia.
  - exists m2. split_and!; auto.
    + by rewrite L2, (in_len _ _ _ _ Hins).
    + by rewrite S2, (in_head _ _ _ _ Hins).
    + rewrite R2, Er, <- app_assoc, Ei. done.
Qed.
End Loop.

(** ** The parent *)

Lemma unlink_src_ok (pp : list Z) (ki : Z) : page_wf pp -> p_leaf pp = false -> 0 <= ki < p_num pp -> 1 < p_num pp ->
  exists pp', unlink_src pp ki = Some (Updated pp') /\ page_wf pp' /\ slice pp' 0 12 = slice pp 0 12 /\
    zlen pp' = zlen pp /\
    p_raw pp' = if ki =? 0 then branch_node (Some (Val 0 [])) (n_pgno pp 1) :: drop 2 (p_raw pp)
                else take (Z.to_nat ki) (p_raw pp) ++ drop (Z.to_nat (ki + 1)) (p_raw pp).
Proof.
  intros Hwf Hl Hk Hn. destruct (node_del_effect pp ki 0 Hwf Hk) as (m1 & E1 & Hdel).
  pose proof (del_wf pp m1 ki Hwf Hdel) as W1. pose proof (wf_psize _ Hwf).
  pose proof (pd_len _ _ _ Hdel) as L1.
  assert (slice m1 0 12 = slice pp 0 12) as S1.
  { apply slice_ext; try lia. intros i Hi. apply (pd_head _ _ _ Hdel). lia. }
  assert (p_leaf m1 = false) as Hl1 by (unfold p_leaf; rewrite (del_flags pp m1 ki Hwf Hdel); done).
  assert (p_raw m1 = take (Z.to_nat ki) (p_raw pp) ++ drop (Z.to_nat (ki + 1)) (p_raw pp)) as R1.
  { unfold p_raw. rewrite Hl1, Hl, (del_nodes pp m1 ki Hwf Hdel). by rewrite fmap_app, fmap_take, fmap_drop. }
  unfold unlink_src. rewrite E1. cbn [mbind option_bind].
  destruct (Z.eqb_spec ki 0) as [->|Hne]; [|exists m1; split_and!; auto].
  assert (val_ok (Val 0 [])) as Hv by (split; [done|constructor]).
  pose proof (del_num pp m1 0 Hwf Hdel) as N1.
  assert (EVEN 0 - EVEN (g16 m1 (p_ptr m1 0 + 6)) <= 0) as Hdelta.
  { pose proof (g16_range m1 (p_ptr m1 0 + 6) (wf_bytes _ W1)). pose proof (EVEN_bounds (g16 m1 (p_ptr m1 0 + 6))).
    change (EVEN 0) with 0. destruct (n_key_in m1 0 W1); lia. }
  pose proof (wf_upper _ W1).
  destruct (update_key_ok m1 0 (Val 0 []) W1 Hl1) as (m2 & E2 & Hpk); auto; cbn [mv_size]; try lia.
  exists m2. rewrite E2. pose proof (pk_len _ _ _ _ _ Hpk) as L2. split_and!; auto; try lia.
  - by apply (pk_wf m1 m2 0 _ _ W1 Hl1 Hpk).
  - rewrite <- S1. apply slice_ext; try lia. intros i Hi. apply (pk_head _ _ _ _ _ Hpk). lia.
  - rewrite (pk_raw m1 m2 0 _ _ W1 Hl1 Hpk), R1. change (Z.to_nat 0) with O. cbn [take app].
    change (Z.to_nat (0 + 1)) with 1%nat. change (take 0 (p_raw pp) ++ drop 1 (p_raw pp)) with (drop 1 (p_raw pp)). rewrite drop_drop. f_equal. cbn [mv_data].
    rewrite (n_pgno_raw m1 0 W1) by lia. rewrite R1, n_pgno_raw by (done || lia).
    change (take (Z.to_nat 0) (p_raw pp) ++ drop (Z.to_nat (0 + 1)) (p_raw pp)) with (drop (Z.to_nat 1) (p_raw pp)).
    by rewrite zn_drop by lia.
Qed.

(** ** Pages of fixed-size keys *)

Lemma slice_next (m : list Z) (o n k : Z) : 0 <= o -> 0 <= n -> 0 <= k -> o + n + k <= zlen m ->
  slice m o (n + k) = slice m o n ++ slice m (o + n) k.
Proof. intros. by rewrite slice_app by lia. Qed.

Lemma key_insert_last (ks : Z) (keys key : list Z) (i : Z) : zlen keys = i * ks -> 0 <= i * ks ->
  key_insert ks keys i key = keys ++ key.
Proof.
  intros Hk Hi. unfold key_insert. rewrite <- Hk. rewrite take_ge, drop_ge by (unfold zlen; lia). by rewrite app_nil_r.
Qed.

Lemma merge_leaf2_ok (ks me_psize : Z) (page_new : Z -> Z + (Z * list Z)) (psrc skeys : list Z) (n : nat) :
  leaf2 ks psrc skeys -> forall pdst dkeys i, leaf2 ks pdst dkeys -> 0 <= i -> i + Z.of_nat n = p_num psrc ->
  16 + (p_num pdst + Z.of_nat n) * ks <= zlen pdst ->
  exists pdst', merge_leaf2 ks me_psize page_new n psrc pdst (16 + i * ks) (p_num pdst) = Some (MDB_SUCCESS, pdst') /\
    leaf2 ks pdst' (dkeys ++ drop (Z.to_nat (i * ks)) skeys).
Proof.
  intros Hs. pose proof (leaf2_len _ _ _ Hs) as Hsl. pose proof Hs as [Hsb _ _ Hks2 Hsn _ _ Hsr Hsk].
  induction n as [|n IH]; intros pdst dkeys i Hd Hi Hn Hroom; cbn [merge_leaf2].
  { exists pdst. split; [done|]. rewrite drop_ge, app_nil_r; [done|]. unfold zlen in Hsl.
    replace i with (p_num psrc) by lia. lia. }
  pose proof (leaf2_len _ _ _ Hd) as Hdl. pose proof Hd as [_ _ _ _ Hdn _ _ _ _].
  assert (16 + i * ks + ks <= zlen psrc) as Hin by nia. assert (0 <= i * ks) by nia.
  rewrite bread_in by lia. cbn [mbind option_bind].
  set (bs := slice psrc (16 + i * ks) ks). assert (zlen bs = ks) as Hbs by (apply zlen_slice; lia).
  destruct (node_add_leaf2_ok (nodemax me_psize) me_psize page_new ks pdst dkeys (p_num pdst) (Val ks bs) None 0 0)
    as (m1 & -> & H1 & N1 & L1); auto; try (cbn [mv_data]; lia); try nia.
  { cbn [mv_data]. by apply slice_bytes. }
  cbn [mbind option_bind]. cbn [mv_data] in H1.
  assert (slice bs 0 ks = bs) as Eb by (rewrite <- Hbs; apply slice_all).
  rewrite Eb, key_insert_last in H1 by (done || nia).
  rewrite <- N1. destruct (IH m1 (dkeys ++ bs) (i + 1) H1) as (m2 & E2 & H2); try lia.
  exists m2. replace (16 + i * ks + ks) with (16 + (i + 1) * ks) by lia. split; [done|].
  rewrite <- app_assoc in H2. replace (drop (Z.to_nat (i * ks)) skeys) with (bs ++ drop (Z.to_nat ((i + 1) * ks)) skeys); [done|].
  symmetry. apply zlist_eq; [arr; nia|]. intros k Hk. rewrite zlen_drop in Hk by nia. rewrite zn_drop by lia.
  destruct (Z.ltb_spec k ks).
  - rewrite zn_app_l by lia. unfold bs. rewrite zn_slice by lia. rewrite <- (leaf2_area ks psrc) by (auto; nia). f_equal. lia.
  - rewrite zn_app_r, zn_drop by (nia || lia). f_equal. lia.
Qed.

(** ** What the fill level says *)

(** [used] bytes of the page are taken. *)
Lemma fill_level (me_psize used x : Z) : 4096 <= me_psize <= MAX_PAGESIZE -> 0 <= used <= me_psize - 16 ->
  x = u64 (1000 * u64 (me_psize - PAGEHDRSZ - (me_psize - 16 - used))) / (me_psize - PAGEHDRSZ) ->
  (FILL_THRESHOLD <=? x) = false <-> 4 * used < me_psize - 16.
Proof.
  unfold MAX_PAGESIZE, PAGEHDRSZ, FILL_THRESHOLD. intros Hp Hu ->.
  replace (me_psize - 16 - (me_psize - 16 - used)) with used by lia.
  rewrite (uwrap_small 64 used), uwrap_small by lia.
  pose proof (Z.div_mod (1000 * used) (me_psize - 16)). pose proof (Z.mod_pos_bound (1000 * used) (me_psize - 16)).
  rewrite Z.leb_gt. split; intros; nia.
Qed.

(** How full the two pages are that [mdb_rebalance] merges: [lim n] is the
    space that [n] nodes take at most. *)
Lemma poor_pages (me_psize : Z) (m : list Z) (k used n : Z) : 4096 <= me_psize <= MAX_PAGESIZE -> 0 <= used <= me_psize - 16 ->
  SIZELEFT m = Some (me_psize - 16 - used) -> min_keys m = Some k -> NUMKEYS m = Some n ->
  (well_filled me_psize m = Some false -> 4 * used < me_psize - 16 \/ n < k) /\
  (can_give me_psize m = Some false -> 4 * used < me_psize - 16 \/ n <= k).
Proof.
  intros Hp Hu Hs Hk Hn. unfold well_filled, can_give, PAGEFILL. rewrite Hs, Hk, Hn. cbn [mbind option_bind].
  pose proof (fill_level me_psize used _ Hp Hu eq_refl) as Hf.
  split; intros [= [Hx|Hx]%andb_false_iff]; rewrite ?Hf, ?Z.leb_gt, ?Z.ltb_ge in Hx; lia.
Qed.

(** ** Merging after the decision to rebalance *)

(** A page of nodes of a tree with pages of [me_psize] bytes: the nodes have
    the sizes the library allows, keys the length it allows. *)
Record tree_page (me_psize : Z) (m : list Z) : Prop := {
  tp_wf : page_wf m;
  tp_size : zlen m = me_psize;
  tp_branch : p_branch m = negb (p_leaf m);
  tp_small : nodes_small (nodemax me_psize) m;
  tp_keys k : p_leaf m = false -> 0 <= k < p_num m -> n_raw m k <= 8 + MDB_MAXKEYSIZE
}.

Definition used (m : list Z) : Z := sumZ (cell <$> p_raw m).

Lemma cell_pos (x : list Z) : 0 <= cell x.
Proof. unfold cell. pose proof (zlen_nonneg x). pose proof (EVEN_bounds (zlen x)). lia. Qed.

Lemma sum_cells_pos (l : list (list Z)) : 0 <= sumZ (cell <$> l).
Proof. apply sumZ_nonneg, Forall_fmap, Forall_true. apply cell_pos. Qed.

Lemma sum_bound (l : list Z) (b : Z) : Forall (fun x => x <= b) l -> sumZ l <= zlen l * b.
Proof.
  induction 1 as [|x l Hx _ IH]; [done|]. cbn [sumZ]. rewrite zlen_cons. lia.
Qed.

Lemma used_bounds (me_psize : Z) (m : list Z) : tree_page me_psize m ->
  SIZELEFT m = Some (me_psize - 16 - used m) /\ 0 <= used m <= me_psize - 16 /\
  min_keys m = Some (if p_leaf m then 1 else 2) /\
  used m <= p_num m * (if p_leaf m then (me_psize - 16) / 2 else 522).
Proof.
  intros [Hwf Hsz Hbr Hsm Hk]. pose proof (cells_sum m Hwf) as Hc. fold (used m) in Hc.
  pose proof (wf_upper _ Hwf). pose proof (sum_cells_pos (p_raw m)) as Hp. fold (used m) in Hp.
  split_and!; try lia.
  - rewrite (SIZELEFT_ok m) by done. f_equal. lia.
  - unfold min_keys. rewrite IS_BRANCH_ok, Hbr by done. by destruct (p_leaf m).
  - rewrite <- (zlen_p_raw m Hwf). unfold used.
    rewrite <- (zlen_fmap cell (p_raw m)). apply sum_bound, Forall_fmap, Forall_forall.
    intros x (k & Hi & <-)%elem_zn. rewrite zlen_p_raw in Hi by done. unfold compose, cell.
    destruct (zn_p_raw m k Hwf Hi) as (_ & _ & ->). destruct (p_leaf m) eqn:Hl.
    + pose proof (nodemax_half me_psize (n_raw m k) (Hsm k Hi)). apply Z.div_le_lower_bound; lia.
    + pose proof (Hk k eq_refl Hi) as Hkk. unfold MDB_MAXKEYSIZE in Hkk. rewrite EVEN_eq.
      assert ((n_raw m k + 1) / 2 < 261); [apply Z.div_lt_upper_bound; lia|lia].
Qed.

(** The pages fit together. *)
Lemma merge_fits (me_psize : Z) (a b psrc pdst : list Z) (lowest : MDB_val) :
  4096 <= me_psize <= MAX_PAGESIZE -> tree_page me_psize a -> tree_page me_psize b -> p_leaf a = p_leaf b ->
  well_filled me_psize a = Some false -> can_give me_psize b = Some false ->
  val_ok lowest -> mv_size lowest <= MDB_MAXKEYSIZE ->
  (psrc, pdst) = (a, b) \/ (psrc, pdst) = (b, a) ->
  sumZ (cell <$> merge_raw psrc lowest) <= p_upper pdst - p_lower pdst.
Proof.
  intros Hp Ha Hb Hl Hfa Hfb [Hv _] Hls Hab. pose proof (zlen_nonneg (mv_data lowest)).
  destruct (used_bounds me_psize a Ha) as (Sa & Ua & Ka & Ba), (used_bounds me_psize b Hb) as (Sb & Ub & Kb & Bb).
  destruct (poor_pages me_psize a _ (used a) (p_num a) Hp Ua Sa Ka (NUMKEYS_ok a (tp_wf _ _ Ha))) as [Pa _].
  destruct (poor_pages me_psize b _ (used b) (p_num b) Hp Ub Sb Kb (NUMKEYS_ok b (tp_wf _ _ Hb))) as [_ Pb].
  specialize (Pa Hfa). specialize (Pb Hfb). rewrite <- Hl in *.
  pose proof (wf_num _ (tp_wf _ _ Ha)). pose proof (wf_num _ (tp_wf _ _ Hb)).
  assert (cell (branch_node (Some lowest) (n_pgno psrc 0)) <= 522) as Hcl.
  { unfold cell, branch_node. autorewrite with arr. unfold MDB_MAXKEYSIZE in Hls. rewrite EVEN_eq.
    assert ((Z.of_nat 6 + (Z.of_nat 2 + zlen (mv_data lowest)) + 1) / 2 < 261); [apply Z.div_lt_upper_bound; lia|lia]. }
  assert (sumZ (cell <$> merge_raw psrc lowest) <= used psrc + if p_leaf psrc then 0 else 522) as Hm.
  { unfold merge_raw, used. destruct (p_leaf psrc); [lia|]. destruct (p_raw psrc) as [|x l]; [cbn; lia|].
    rewrite !fmap_cons. cbn [sumZ]. pose proof (cell_pos x). lia. }
  assert (used a + used b + (if p_leaf a then 0 else 522) <= me_psize - 16) as Hsum.
  { pose proof (Z.mul_div_le (me_psize - 16) 2). set (h := (me_psize - 16) / 2) in *.
    assert (0 <= h) by (apply Z.div_pos; lia). unfold MAX_PAGESIZE in Hp. destruct (p_leaf a); nia. }
  pose proof (cells_sum a (tp_wf _ _ Ha)). pose proof (cells_sum b (tp_wf _ _ Hb)).
  pose proof (tp_size _ _ Ha). pose proof (tp_size _ _ Hb). unfold used in *.
  destruct Hab as [[= -> ->]|[= -> ->]]; [|rewrite <- Hl in Hm]; lia.
Qed.

(** C7: when [mdb_rebalance] decides to merge a page that is not filled well
    with a neighbour that cannot give a node, in either direction,
    [mdb_page_merge] does not run out of space: the destination holds its
    nodes and then those of the source page, in order (the first node of a
    branch page with the lowest key below it), the parent lost the node of the
    source page and its first node has no key, and both stay well formed. *)
Theorem rebalance_merge_correct (md_pad me_psize : Z) (page_new : Z -> Z + (Z * list Z)) (a b psrc pdst pp : list Z)
    (ki : Z) (lowest : MDB_val) :
  4096 <= me_psize <= MAX_PAGESIZE -> tree_page me_psize a -> tree_page me_psize b -> p_leaf a = p_leaf b ->
  well_filled me_psize a = Some false -> can_give me_psize b = Some false ->
  (psrc, pdst) = (a, b) \/ (psrc, pdst) = (b, a) ->
  page_wf pp -> p_leaf pp = false -> 1 < p_num pp -> 0 <= ki < p_num pp ->
  val_ok lowest -> mv_size lowest <= MDB_MAXKEYSIZE ->
  exists pdst' pp',
    merge_pages md_pad me_psize page_new psrc pdst pp ki (if p_leaf psrc then None else Some lowest) =
      Some (Merged pdst' pp') /\
    page_wf pdst' /\ slice pdst' 0 12 = slice pdst 0 12 /\ p_raw pdst' = p_raw pdst ++ merge_raw psrc lowest /\
    page_wf pp' /\ slice pp' 0 12 = slice pp 0 12 /\
    p_raw pp' = if ki =? 0 then branch_node (Some (Val 0 [])) (n_pgno pp 1) :: drop 2 (p_raw pp)
                else take (Z.to_nat ki) (p_raw pp) ++ drop (Z.to_nat (ki + 1)) (p_raw pp).
Proof.
  intros Hp Ha Hb Hl Hfa Hfb Hab Wp Lp Np Hki Hv Hls.
  pose proof (merge_fits me_psize a b psrc pdst lowest Hp Ha Hb Hl Hfa Hfb Hv Hls Hab) as Hfit.
  assert (tree_page me_psize psrc /\ tree_page me_psize pdst /\ p_leaf pdst = p_leaf psrc) as (Hs & Hd & Hlf)
    by (destruct Hab as [[= -> ->]|[= -> ->]]; auto).
  destruct Hs as [Ws _ Bs Ss _], Hd as [Wd _ _ _ _].
  destruct (merge_loop_ok md_pad me_psize page_new psrc (if p_leaf psrc then None else Some lowest) lowest Ws Bs Ss)
    with (n := Z.to_nat (p_num psrc)) (pdst := pdst) (i := 0) as (d' & E & W & _ & S & R); auto.
  - by intros ->.
  - intros _. unfold MDB_MAXKEYSIZE in Hls. split_and!; auto; [lia|]. unfold nodemax, PAGEHDRSZ, MDB_MINKEYS.
    assert (2040 <= (me_psize - 16) / 2) by (apply Z.div_le_lower_bound; lia).
    change (-2) with (Z.lnot (Z.ones 1)). rewrite <- Z.ldiff_land, Z.ldiff_ones_r, Z.shiftl_mul_pow2, Z.shiftr_div_pow2 by lia.
    change (2 ^ 1) with 2. pose proof (Z.div_mod ((me_psize - 16) / 2) 2). pose proof (Z.mod_pos_bound ((me_psize - 16) / 2) 2). lia.
  - lia.
  - pose proof (wf_num _ Ws). lia.
  - destruct (unlink_src_ok pp ki Wp Lp Hki Np) as (pp' & Eu & Wu & Su & _ & Ru).
    exists d', pp'. unfold merge_pages, move_all. rewrite (NUMKEYS_ok pdst), (NUMKEYS_ok psrc), (IS_LEAF2_ok psrc) by done.
    cbn [mbind option_bind]. rewrite E. cbn [mbind option_bind]. change (nz MDB_SUCCESS) with false. cbv iota.
    rewrite Eu. cbn [mbind option_bind]. split_and!; auto.
Qed.

(** The same for pages of fixed-size keys. *)
Lemma rebalance_merge_leaf2 (ks me_psize : Z) (page_new : Z -> Z + (Z * list Z)) (a b psrc pdst pp akeys bkeys : list Z)
    (skeys dkeys : list Z) (ki : Z) :
  4096 <= me_psize <= MAX_PAGESIZE -> ks <= MDB_MAXKEYSIZE ->
  leaf2 ks a akeys -> leaf2 ks b bkeys -> zlen a = me_psize -> zlen b = me_psize ->
  p_branch a = false -> p_branch b = false ->
  well_filled me_psize a = Some false -> can_give me_psize b = Some false ->
  (psrc, skeys, pdst, dkeys) = (a, akeys, b, bkeys) \/ (psrc, skeys, pdst, dkeys) = (b, bkeys, a, akeys) ->
  page_wf pp -> p_leaf pp = false -> 1 < p_num pp -> 0 <= ki < p_num pp ->
  exists pdst' pp', merge_pages ks me_psize page_new psrc pdst pp ki None = Some (Merged pdst' pp') /\
    leaf2 ks pdst' (dkeys ++ skeys) /\ page_wf pp' /\ slice pp' 0 12 = slice pp 0 12 /\
    p_raw pp' = if ki =? 0 then branch_node (Some (Val 0 [])) (n_pgno pp 1) :: drop 2 (p_raw pp)
                else take (Z.to_nat ki) (p_raw pp) ++ drop (Z.to_nat (ki + 1)) (p_raw pp).
Proof.
  intros Hp Hks Ha Hb La Lb Ba Bb Hfa Hfb Hab Wp Lp Np Hki.
  assert (forall m keys, leaf2 ks m keys -> zlen m = me_psize -> p_branch m = false -> 
    SIZELEFT m = Some (me_psize - 16 - p_num m * ks) /\ min_keys m = Some 1 /\ NUMKEYS m = Some (p_num m) /\
    0 <= p_num m * ks <= me_psize - 16) as Hrd.
  { intros m keys Hm Lm Bm. destruct (leaf2_reads _ _ _ Hm) as (En & Elo & Eup & _ & Hlu & Hlo). destruct Hm.
    unfold SIZELEFT, min_keys, IS_BRANCH. rewrite Elo, Eup, En. cbn [mbind option_bind].
    unfold mp_flags. rewrite get16_in by lia. cbn [mbind option_bind]. fold (p_flags m).
    change (F_ISSET (p_flags m) P_BRANCH) with (p_branch m). rewrite Bm. split_and!; auto; try nia.
    rewrite uwrap_small by lia. f_equal. lia. }
  destruct (Hrd a akeys Ha La Ba) as (Sa & Ka & Na & Ua), (Hrd b bkeys Hb Lb Bb) as (Sb & Kb & Nb & Ub).
  destruct (poor_pages me_psize a _ _ (p_num a) Hp Ua Sa Ka Na) as [Pa _].
  destruct (poor_pages me_psize b _ _ (p_num b) Hp Ub Sb Kb Nb) as [_ Pb].
  specialize (Pa Hfa). specialize (Pb Hfb). unfold MDB_MAXKEYSIZE in Hks.
  pose proof Ha as [_ _ _ ? Hna _ _ _ _]. pose proof Hb as [_ _ _ ? Hnb _ _ _ _].
  assert (16 + (p_num a + p_num b) * ks <= me_psize) as Hfit by nia.
  assert (leaf2 ks psrc skeys /\ leaf2 ks pdst dkeys /\ 16 + (p_num pdst + p_num psrc) * ks <= zlen pdst /\
    0 <= p_num psrc /\ NUMKEYS psrc = Some (p_num psrc) /\ NUMKEYS pdst = Some (p_num pdst)) as (Hs & Hd & Hr & Hn & Es & Ed).
  { destruct Hab as [[= -> -> -> ->]|[= -> -> -> ->]]; split_and!; auto; lia. }
  destruct (merge_leaf2_ok ks me_psize page_new psrc skeys (Z.to_nat (p_num psrc)) Hs pdst dkeys 0 Hd) as (d' & E & R);
    try lia.
  destruct (unlink_src_ok pp ki Wp Lp Hki Np) as (pp' & Eu & Wu & Su & _ & Ru).
  destruct (leaf2_reads _ _ _ Hs) as (_ & _ & _ & El2 & _).
  exists d', pp'. unfold merge_pages, move_all. rewrite Ed, Es, El2. cbn [mbind option_bind].
  change (16 + 0 * ks) with PAGEHDRSZ in E. rewrite E. cbn [mbind option_bind]. change (nz MDB_SUCCESS) with false. cbv iota.
  rewrite Eu. cbn [mbind option_bind]. split_and!; auto.
Qed.

(** ** Witnesses *)

Definition tree_pageb (me_psize : Z) (m : list Z) : bool :=
  page_wfb m && (zlen m =? me_psize) && Bool.eqb (p_branch m) (negb (p_leaf m)) &&
  forallb (fun k => (n_raw m k <=? nodemax me_psize) && (p_leaf m || (n_raw m k <=? 8 + MDB_MAXKEYSIZE))) (seqZ 0 (p_num m)).

Lemma tree_pageb_sound (me_psize : Z) (m : list Z) : tree_pageb me_psize m = true -> tree_page me_psize m.
Proof.
  unfold tree_pageb. intros [[[H1 H2]%andb_prop H3]%andb_prop H4]%andb_prop.
  assert (forall k, 0 <= k < p_num m -> n_raw m k <= nodemax me_psize /\ (p_leaf m = false -> n_raw m k <= 8 + MDB_MAXKEYSIZE)) as Hk.
  { intros k Hk. pose proof (forallb_seqZ _ _ _ H4 Hk) as [Ha Hb]%andb_prop. split; [lia|]. intros Hl. rewrite Hl in Hb. cbn in Hb. lia. }
  split; [by apply page_wfb_sound|lia|by apply eqb_prop|intros k Hi; by apply Hk|intros k Hl Hi; by apply Hk].
Qed.

(** A branch page of 4096 bytes with one-byte keys. *)
Definition branch4096 (pgno : Z) (children : list (list Z * Z)) : list Z :=
  foldl (fun m '(k, child) =>
    match mdb_node_add 0 (nodemax 4096) 4096 no_page m (p_num m) (Some (Val (zlen k) k)) None child 0 with
    | Some (AddOk m _) => m | _ => [] end) (page4096 pgno 17) children.

(** The children 5 and 6 of [parent4096]. *)
Definition poor5 : list Z := branch4096 5 [([], 21)].
Definition poor6 : list Z := branch4096 6 [([], 31); ([70], 32)].

Lemma rebalance_merge_witness : exists pdst' pp',
  merge_pages 0 4096 no_page poor6 poor5 parent4096 1 (Some (Val 1 [50])) = Some (Merged pdst' pp') /\
  page_wf pdst' /\ slice pdst' 0 12 = slice poor5 0 12 /\
  p_raw pdst' = [branch_node (Some (Val 0 [])) 21; branch_node (Some (Val 1 [50])) 31; branch_node (Some (Val 1 [70])) 32] /\
  page_wf pp' /\ slice pp' 0 12 = slice parent4096 0 12 /\ p_raw pp' = [branch_node (Some (Val 0 [])) 5].
Proof.
  apply (rebalance_merge_correct 0 4096 no_page poor5 poor6 poor6 poor5 parent4096 1 (Val 1 [50]));
    try (vm_compute; split; congruence); try (vm_compute; congruence); try (vm_compute; reflexivity).
  - apply tree_pageb_sound. vm_compute. reflexivity.
  - apply tree_pageb_sound. vm_compute. reflexivity.
  - by right.
  - apply page_wfb_sound. vm_compute. reflexivity.
  - apply val_ok_dec. vm_compute. reflexivity.
Defined.

(** A page of 4096 bytes with four-byte keys. *)
Definition keys4096 (pgno n : Z) (keys : list Z) : list Z :=
  le_bytes 8 pgno ++ le_bytes 2 0 ++ le_bytes 2 0x22 ++ le_bytes 2 (16 + 2 * n) ++ le_bytes 2 (4096 - 2 * n) ++
  keys ++ replicate (Z.to_nat (4080 - 4 * n)) 0.

Lemma keys4096_leaf2 (pgno n : Z) (keys : list Z) :
  forallb (fun x => (0 <=? x) && (x <? 256)) (keys4096 pgno n keys) && (zlen (keys4096 pgno n keys) =? 4096) &&
  p_leaf2 (keys4096 pgno n keys) && (p_num (keys4096 pgno n keys) =? n) && (p_lower (keys4096 pgno n keys) =? 16 + 2 * n) &&
  (p_upper (keys4096 pgno n keys) =? 4096 - 2 * n) && (0 <=? n) && (n <=? 1000) &&
  bool_decide (slice (keys4096 pgno n keys) 16 (n * 4) = keys) = true -> leaf2 4 (keys4096 pgno n keys) keys.
Proof.
  set (m := keys4096 pgno n keys). 
  intros [[[[[[[[H1 H2]%andb_prop H3]%andb_prop H4]%andb_prop H5]%andb_prop H6]%andb_prop H7]%andb_prop H8]%andb_prop H9%bool_decide_eq_true]%andb_prop.
  split; try lia; auto.
  - apply Forall_forall. intros x Hx%list_elem_of_In. rewrite forallb_forall in H1. specialize (H1 x Hx). unfold is_byte. lia.
  - unfold MAX_PAGESIZE. lia.
  - assert (p_num m = n) as -> by lia. done.
Qed.

Lemma rebalance_merge_leaf2_witness : exists pdst' pp',
  merge_pages 4 4096 no_page (keys4096 6 1 [9; 0; 0; 0]) (keys4096 5 2 [1; 0; 0; 0; 2; 0; 0; 0]) parent4096 1 None =
    Some (Merged pdst' pp') /\
  leaf2 4 pdst' [1; 0; 0; 0; 2; 0; 0; 0; 9; 0; 0; 0] /\ page_wf pp' /\ slice pp' 0 12 = slice parent4096 0 12 /\
  p_raw pp' = [branch_node (Some (Val 0 [])) 5].
Proof.
  apply (rebalance_merge_leaf2 4 4096 no_page (keys4096 6 1 [9; 0; 0; 0]) (keys4096 5 2 [1; 0; 0; 0; 2; 0; 0; 0])
    (keys4096 6 1 [9; 0; 0; 0]) (keys4096 5 2 [1; 0; 0; 0; 2; 0; 0; 0]) parent4096 [9; 0; 0; 0] [1; 0; 0; 0; 2; 0; 0; 0]
    [9; 0; 0; 0] [1; 0; 0; 0; 2; 0; 0; 0] 1); try (vm_compute; split; congruence); try (vm_compute; congruence);
    try (vm_compute; reflexivity).
  - apply keys4096_leaf2. vm_compute. reflexivity.
  - apply keys4096_leaf2. vm_compute. reflexivity.
  - by left.
  - apply page_wfb_sound. vm_compute. reflexivity.
Defined.
