(* ===== verification/RingBuffer.v ===== *)
(** * The audio ring buffer
    ([src/submodules/libtgvoip/webrtc_dsp/webrtc/common_audio/ring_buffer.c])

    The buffer refines a bounded first-in first-out queue of bytes: writing
    appends, reading takes from the front, and moving the read position drops
    from the front or gives back what was read last. *)
From S2P Require Import Prelude.
From S2P Require Import Bytes.
From Stdlib Require Import ZArith Lia.
From stdpp Require Import base numbers option list.
Open Scope Z_scope.

(** ** The code *)

Inductive Wrap := SAME_WRAP | DIFF_WRAP.

Record RingBuffer := RB {
  read_pos : Z;
  write_pos : Z;
  element_count : Z;
  element_size : Z;
  rw_wrap : Wrap;
  data : list Z
}.

Definition WebRtc_available_read (self : RingBuffer) : Z :=
  match rw_wrap self with
  | SAME_WRAP => u64 (write_pos self - read_pos self)
  | DIFF_WRAP => u64 (element_count self - read_pos self + write_pos self)
  end.

Definition WebRtc_available_write (self : RingBuffer) : Z :=
  u64 (element_count self - WebRtc_available_read self).

Definition WebRtc_InitBuffer (self : RingBuffer) : RingBuffer :=
  RB 0 0 (element_count self) (element_size self) SAME_WRAP
    (replicate (Z.to_nat (u64 (element_count self * element_size self))) 0).

(** [malloc] gives a block with arbitrary content: [None] when it fails. *)
Definition WebRtc_CreateBuffer (malloc : Z -> option (list Z)) (element_count element_size : Z)
  : option RingBuffer :=
  if (element_count =? 0) || (element_size =? 0) then None
  else
    block ← malloc (u64 (element_count * element_size));
    Some (WebRtc_InitBuffer (RB 0 0 element_count element_size SAME_WRAP block)).

(** Offset and size of the two regions, and the number of elements. *)
Definition GetBufferReadRegions (buf : RingBuffer) (count : Z) : Z * Z * Z * Z * Z :=
  let readable_elements := WebRtc_available_read buf in
  let read_elements := if readable_elements <? count then readable_elements else count in
  let margin := u64 (element_count buf - read_pos buf) in
  if margin <? read_elements then
    (read_elements, u64 (read_pos buf * element_size buf), u64 (margin * element_size buf),
     0, u64 (u64 (read_elements - margin) * element_size buf))
  else
    (read_elements, u64 (read_pos buf * element_size buf), u64 (read_elements * element_size buf), 0, 0).

Definition WebRtc_MoveReadPtr (self : RingBuffer) (count : Z) : option (Z * RingBuffer) :=
  let free_elements := s32 (WebRtc_available_write self) in
  let readable_elements := s32 (WebRtc_available_read self) in
  let pos := s32 (read_pos self) in
  let count := if readable_elements <? count then readable_elements else count in
  least ← int_add 0 (- free_elements);
  let count := if count <? least then least else count in
  pos ← int_add pos count;
  '(pos, wrap) ← (if s32 (element_count self) <? pos then
                    pos ← int_add pos (- s32 (element_count self)); Some (pos, SAME_WRAP)
                  else Some (pos, rw_wrap self));
  '(pos, wrap) ← (if pos <? 0 then pos ← int_add pos (s32 (element_count self)); Some (pos, DIFF_WRAP)
                  else Some (pos, wrap));
  Some (count, RB (u64 pos) (write_pos self) (element_count self) (element_size self) wrap (data self)).

(** Where the data is after a read: in the ring buffer at an offset, or in
    the caller's block. *)
Inductive location := InRing (ofs : Z) | InData.

(** Result: elements read, the caller's block, [*data_ptr] if one was given,
    and the buffer. *)
Definition WebRtc_ReadBuffer (self : RingBuffer) (has_ptr : bool) (dst : list Z) (count : Z)
  : option (Z * list Z * option location * RingBuffer) :=
  let '(read_count, o1, n1, o2, n2) := GetBufferReadRegions self count in
  '(dst, loc) ← (if 0 <? n2 then
                   b1 ← bread (data self) o1 n1; dst ← bwrite dst 0 b1;
                   b2 ← bread (data self) o2 n2; dst ← bwrite dst n1 b2;
                   Some (dst, InData)
                 else if negb has_ptr then
                   b1 ← bread (data self) o1 n1; dst ← bwrite dst 0 b1; Some (dst, InRing o1)
                 else Some (dst, InRing o1));
  '(_, self) ← WebRtc_MoveReadPtr self (s32 read_count);
  Some (read_count, dst, if has_ptr then Some loc else None, self).

Definition WebRtc_WriteBuffer (self : RingBuffer) (src : list Z) (count : Z)
  : option (Z * RingBuffer) :=
  let free_elements := WebRtc_available_write self in
  let write_elements := if free_elements <? count then free_elements else count in
  let n := write_elements in
  let margin := u64 (element_count self - write_pos self) in
  '(d, wp, n, wrap) ← (if margin <? write_elements then
      b ← bread src 0 (u64 (margin * element_size self));
      d ← bwrite (data self) (u64 (write_pos self * element_size self)) b;
      Some (d, 0, u64 (n - margin), DIFF_WRAP)
    else Some (data self, write_pos self, n, rw_wrap self));
  b ← bread src (u64 (u64 (write_elements - n) * element_size self)) (u64 (n * element_size self));
  d ← bwrite d (u64 (wp * element_size self)) b;
  Some (write_elements, RB (read_pos self) (u64 (wp + n)) (element_count self) (element_size self) wrap d).

(** ** The abstract queue *)

Definition content (b : RingBuffer) : list Z :=
  let es := element_size b in
  match rw_wrap b with
  | SAME_WRAP => slice (data b) (read_pos b * es) ((write_pos b - read_pos b) * es)
  | DIFF_WRAP => slice (data b) (read_pos b * es) ((element_count b - read_pos b) * es) ++
                 slice (data b) 0 (write_pos b * es)
  end.

(** Elements in the buffer. *)
Definition avail (b : RingBuffer) : Z :=
  match rw_wrap b with
  | SAME_WRAP => write_pos b - read_pos b
  | DIFF_WRAP => element_count b - read_pos b + write_pos b
  end.

(** [MoveReadPtr] computes with [int]s up to twice the element count. *)
Record rb_wf (b : RingBuffer) : Prop := {
  wf_size : 0 < element_size b;
  wf_count : 0 < element_count b < 2 ^ 30;
  wf_mem : element_count b * element_size b < 2 ^ 63;
  wf_data : zlen (data b) = element_count b * element_size b;
  wf_read : 0 <= read_pos b <= element_count b;
  wf_write : 0 <= write_pos b <= element_count b;
  wf_wrap : match rw_wrap b with
            | SAME_WRAP => read_pos b <= write_pos b
            | DIFF_WRAP => write_pos b <= read_pos b
            end
}.

(** Byte positions. *)
Definition cap (b : RingBuffer) : Z := element_count b * element_size b.
Definition rofs (b : RingBuffer) : Z := read_pos b * element_size b.
Definition wofs (b : RingBuffer) : Z := write_pos b * element_size b.
Definition abytes (b : RingBuffer) : Z := avail b * element_size b.

(** Position of byte [i] of the content. *)
Definition ring (b : RingBuffer) (i : Z) : Z :=
  if rofs b + i <? cap b then rofs b + i else rofs b + i - cap b.

Section Ring.
Variable b : RingBuffer.
Hypothesis Hwf : rb_wf b.

Lemma avail_bounds : 0 <= avail b <= element_count b.
Proof. destruct Hwf. unfold avail. destruct (rw_wrap b); lia. Qed.

Lemma available_read_ok : WebRtc_available_read b = avail b.
Proof.
  pose proof avail_bounds as Ha. destruct Hwf. unfold WebRtc_available_read, avail in *.
  destruct (rw_wrap b); apply uwrap_small; lia.
Qed.

(** Products of element numbers and the size do not wrap. *)
Lemma bytes_ok (n : Z) : 0 <= n <= element_count b -> u64 (n * element_size b) = n * element_size b.
Proof. destruct Hwf. intros Hn. apply uwrap_small. nia. Qed.

Lemma available_write_ok : WebRtc_available_write b = element_count b - avail b.
Proof.
  pose proof avail_bounds. destruct Hwf. unfold WebRtc_available_write.
  rewrite available_read_ok. apply uwrap_small. lia.
Qed.

(** The linear facts about byte positions. *)
Lemma ring_bytes : 0 <= rofs b <= cap b /\ 0 <= wofs b <= cap b /\ 0 <= abytes b <= cap b /\
  zlen (data b) = cap b /\
  match rw_wrap b with
  | SAME_WRAP => abytes b = wofs b - rofs b
  | DIFF_WRAP => abytes b = cap b - rofs b + wofs b
  end.
Proof.
  pose proof avail_bounds. destruct Hwf. unfold rofs, wofs, cap, abytes, avail in *.
  destruct (rw_wrap b); split_and!; nia.
Qed.

Lemma content_bytes : content b =
  match rw_wrap b with
  | SAME_WRAP => slice (data b) (rofs b) (wofs b - rofs b)
  | DIFF_WRAP => slice (data b) (rofs b) (cap b - rofs b) ++ slice (data b) 0 (wofs b)
  end.
Proof. unfold content, rofs, wofs, cap. destruct (rw_wrap b); repeat f_equal; lia. Qed.

Lemma zlen_content : zlen (content b) = abytes b.
Proof.
  pose proof ring_bytes as (? & ? & ? & ? & Hw). rewrite content_bytes.
  destruct (rw_wrap b); [|rewrite zlen_app]; rewrite !zlen_slice by lia; lia.
Qed.

Lemma zn_content (i : Z) : 0 <= i < abytes b -> zn (content b) i = zn (data b) (ring b i).
Proof.
  intros Hi. pose proof ring_bytes as (? & ? & ? & ? & Hw). rewrite content_bytes. unfold ring.
  destruct (rw_wrap b).
  - rewrite zn_slice by lia. rewrite (proj2 (Z.ltb_lt _ _)) by lia. done.
  - destruct (Z.ltb_spec (rofs b + i) (cap b)).
    + rewrite zn_app_l, zn_slice by (rewrite ?zlen_slice; lia). done.
    + rewrite zn_app_r, zlen_slice, zn_slice by (rewrite ?zlen_slice; lia). f_equal. lia.
Qed.
End Ring.

(** ** Moving the read position *)

(** [MoveReadPtr] moves by [k] clamped to the data and the space there is. *)
Definition clamp (b : RingBuffer) (k : Z) : Z := Z.max (avail b - element_count b) (Z.min (avail b) k).

Record moved (b b' : RingBuffer) (k : Z) : Prop := {
  mv_wf : rb_wf b';
  mv_write : write_pos b' = write_pos b;
  mv_count : element_count b' = element_count b;
  mv_esize : element_size b' = element_size b;
  mv_data : data b' = data b;
  mv_avail : avail b' = avail b - k;
  mv_read : read_pos b' = read_pos b + k \/ read_pos b' = read_pos b + k - element_count b \/
            read_pos b' = read_pos b + k + element_count b
}.

Lemma move_ok (b : RingBuffer) (k : Z) : rb_wf b -> - 2 ^ 31 <= k < 2 ^ 31 ->
  exists b', WebRtc_MoveReadPtr b k = Some (clamp b k, b') /\ moved b b' (clamp b k).
Proof.
  intros Hwf Hk. pose proof (avail_bounds b Hwf) as Ha. unfold WebRtc_MoveReadPtr.
  rewrite available_read_ok, available_write_ok by done. pose proof Hwf as [].
  rewrite !(swrap_small 32 (element_count b)), (swrap_small 32 (avail b)),
    (swrap_small 32 (element_count b - avail b)), (swrap_small 32 (read_pos b)) by lia.
  rewrite (int_add_in 0) by lia. cbn [mbind option_bind].
  change (0 + - (element_count b - avail b)) with (- (element_count b - avail b)).
  set (k1 := if avail b <? k then avail b else k).
  set (k2 := if k1 <? - (element_count b - avail b) then - (element_count b - avail b) else k1).
  assert (k2 = clamp b k) as ->.
  { unfold k2, k1, clamp. destruct (Z.ltb_spec (avail b) k); [destruct (Z.ltb_spec (avail b) (- (element_count b - avail b)))|
      destruct (Z.ltb_spec k (- (element_count b - avail b)))]; lia. }
  assert (avail b - element_count b <= clamp b k <= avail b) as Hc by (unfold clamp; lia).
  set (c := clamp b k) in *. unfold avail in Ha, Hc.
  assert (- element_count b <= c <= element_count b) by (destruct (rw_wrap b); lia).
  rewrite (int_add_in (read_pos b)) by lia. cbn [mbind option_bind].
  destruct (Z.ltb_spec (element_count b) (read_pos b + c)).
  - rewrite int_add_in by lia. cbn [mbind option_bind]. rewrite (proj2 (Z.ltb_ge _ _)) by lia. cbn [mbind option_bind]. eexists. split; [done|].
    rewrite uwrap_small by lia.
    destruct (rw_wrap b) eqn:Hw; [lia|].
    split; cbn; try lia; try (split; cbn; auto; lia); unfold avail; cbn; rewrite ?Hw; lia.
  - cbn [mbind option_bind]. destruct (Z.ltb_spec (read_pos b + c) 0).
    + rewrite int_add_in by lia. cbn [mbind option_bind]. eexists. split; [done|]. rewrite uwrap_small by lia.
      destruct (rw_wrap b) eqn:Hw; [|lia].
      split; cbn; try lia; try (split; cbn; auto; lia); unfold avail; cbn; rewrite ?Hw; lia.
    + cbn [mbind option_bind]. eexists. split; [done|]. rewrite uwrap_small by lia.
      split; cbn; try lia; try (split; cbn; auto; destruct (rw_wrap b); lia);
        unfold avail; cbn; destruct (rw_wrap b); lia.
Qed.

(** A move forward drops bytes from the front of the content. *)
Lemma moved_drop (b b' : RingBuffer) (k : Z) : rb_wf b -> moved b b' k -> 0 <= k ->
  content b' = drop (Z.to_nat (k * element_size b)) (content b).
Proof.
  intros Hwf [Hwf' H1 H2 H3 H4 H5 H6] Hk.
  pose proof (ring_bytes b Hwf) as (? & ? & ? & Hd & ?).
  pose proof (ring_bytes b' Hwf') as (? & ? & ? & Hd' & ?).
  pose proof (avail_bounds b' Hwf'). pose proof (wf_size b Hwf).
  assert (abytes b' = abytes b - k * element_size b) by (unfold abytes; rewrite H3, H5; lia).
  assert (cap b' = cap b) as Hcap by (unfold cap; congruence).
  apply zlist_eq.
  - rewrite zlen_drop; rewrite ?zlen_content by done; nia.
  - intros i Hi. rewrite zlen_content in Hi by done. rewrite zn_drop by nia.
    rewrite !zn_content by (auto; nia). rewrite H4. unfold ring. rewrite Hcap. f_equal.
    assert (rofs b' = rofs b + k * element_size b \/ rofs b' = rofs b + k * element_size b - cap b \/
            rofs b' = rofs b + k * element_size b + cap b) as Hr.
    { unfold rofs, cap. rewrite H3. destruct H6 as [-> |[-> | ->]]; lia. }
    destruct (Z.ltb_spec (rofs b' + i) (cap b)),
      (Z.ltb_spec (rofs b + (k * element_size b + i)) (cap b)); nia.
Qed.

(** Moving back undoes moving forward. *)
Lemma moved_inv (b b' : RingBuffer) (k : Z) : rb_wf b -> moved b b' k -> moved b' b (- k).
Proof.
  intros Hwf [Hwf' H1 H2 H3 H4 H5 H6]. split; auto; try lia.
Qed.

(** ** Reading and writing *)

Lemma bwrite_in_upd (m : list Z) (o : Z) (bs : list Z) : 0 <= o -> o + zlen bs <= zlen m ->
  exists m', bwrite m o bs = Some m' /\ zlen m' = zlen m /\
    (forall i, zn m' i = if (o <=? i) && (i <? o + zlen bs) then zn bs (i - o) else zn m i).
Proof.
  intros. rewrite bwrite_in by lia. eexists. split; [done|]. rewrite zlen_splice by lia.
  split; [done|]. intros i. by rewrite zn_splice by lia.
Qed.

(** The stores of a write that wraps around, and of one that does not. *)
Lemma wrap_store (d src : list Z) (C W N : Z) :
  zlen d = C -> 0 <= W <= C -> C - W < N <= C -> N <= zlen src ->
  exists d1 d2, bwrite d W (slice src 0 (C - W)) = Some d1 /\
    bwrite d1 0 (slice src (C - W) (N - (C - W))) = Some d2 /\ zlen d2 = C /\
    forall x, 0 <= x < C -> zn d2 x =
      if x <? N - (C - W) then zn src (x + (C - W))
      else if W <=? x then zn src (x - W) else zn d x.
Proof.
  intros Hd HW HN Hs.
  pose proof (zlen_slice src 0 (C - W)) as Z1. pose proof (zlen_slice src (C - W) (N - (C - W))) as Z2.
  destruct (bwrite_in_upd d W (slice src 0 (C - W))) as (d1 & E1 & L1 & G1); try lia.
  destruct (bwrite_in_upd d1 0 (slice src (C - W) (N - (C - W)))) as (d2 & E2 & L2 & G2); try lia.
  exists d1, d2. split_and!; auto; try lia. intros x Hx. rewrite G2, G1, Z1, Z2 by lia.
  destruct (Z.ltb_spec x (N - (C - W))).
  - rewrite (proj2 (Z.leb_le 0 x)), (proj2 (Z.ltb_lt x _)) by lia. cbn [andb].
    rewrite zn_slice by lia. f_equal. lia.
  - rewrite (proj2 (Z.ltb_ge x (0 + (N - (C - W))))), andb_false_r by lia.
    destruct (Z.leb_spec W x); [|done]. rewrite (proj2 (Z.ltb_lt x _)) by lia. cbn [andb].
    rewrite zn_slice by lia. f_equal.
Qed.

Lemma flat_store (d src : list Z) (C W N : Z) :
  zlen d = C -> 0 <= W -> 0 <= N <= C - W -> N <= zlen src ->
  exists d', bwrite d W (slice src 0 N) = Some d' /\ zlen d' = C /\
    forall x, 0 <= x < C -> zn d' x =
      if (W <=? x) && (x <? W + N) then zn src (x - W) else zn d x.
Proof.
  intros Hd HW HN Hs. pose proof (zlen_slice src 0 N) as Z1.
  destruct (bwrite_in_upd d W (slice src 0 N)) as (d1 & E1 & L1 & G1); try lia.
  exists d1. split_and!; auto; try lia. intros x Hx. rewrite G1, Z1 by lia.
  destruct (Z.leb_spec W x), (Z.ltb_spec x (W + N)); cbn [andb]; auto.
  rewrite zn_slice by lia. f_equal.
Qed.

(** What a write does to the state. *)
Record written (b b' : RingBuffer) (src : list Z) (n : Z) : Prop := {
  wr_wf : rb_wf b';
  wr_read : read_pos b' = read_pos b;
  wr_count : element_count b' = element_count b;
  wr_esize : element_size b' = element_size b;
  wr_avail : avail b' = avail b + n;
  wr_data : forall i, 0 <= i < abytes b + n * element_size b ->
    zn (data b') (ring b i) =
    if i <? abytes b then zn (data b) (ring b i) else zn src (i - abytes b)
}.

Lemma write_ok (b : RingBuffer) (src : list Z) (count : Z) :
  let n := Z.min (element_count b - avail b) count in
  rb_wf b -> 0 <= count -> n * element_size b <= zlen src ->
  exists b', WebRtc_WriteBuffer b src count = Some (n, b') /\ written b b' src n.
Proof.
  intros n Hwf Hc Hsrc. pose proof (avail_bounds b Hwf).
  pose proof (ring_bytes b Hwf) as (R1 & R2 & R3 & R4 & R5).
  pose proof Hwf as [W1 W2 W3 W4 W5 W6 W7]. unfold WebRtc_WriteBuffer. rewrite available_write_ok by done.
  replace (if element_count b - avail b <? count then element_count b - avail b else count) with n
    by (unfold n; destruct (Z.ltb_spec (element_count b - avail b) count); lia).
  assert (0 <= n <= element_count b - avail b) as Hn by (unfold n; lia).
  clearbody n. rewrite uwrap_small by lia.
  assert (0 <= n * element_size b <= cap b - abytes b) as HN by (unfold abytes, cap; nia).
  destruct (Z.ltb_spec (element_count b - write_pos b) n) as [Hlt|Hge].
  - destruct (rw_wrap b) eqn:Hw; [|unfold avail in *; rewrite Hw in *; lia].
    assert (cap b - wofs b < n * element_size b) by (unfold cap, wofs; nia).
    destruct (wrap_store (data b) src (cap b) (wofs b) (n * element_size b))
      as (d1 & d2 & E1 & E2 & L2 & G2); try lia.
    cbn [mbind option_bind].
    rewrite (uwrap_small 64 (n - (element_count b - write_pos b))) by lia.
    rewrite (bytes_ok b Hwf (write_pos b)), (bytes_ok b Hwf (element_count b - write_pos b)) by lia.
    replace ((element_count b - write_pos b) * element_size b) with (cap b - wofs b)
      by (unfold cap, wofs; lia).
    rewrite bread_in by lia. cbn [mbind option_bind]. fold (wofs b). rewrite E1. cbn [mbind option_bind].
    rewrite (uwrap_small 64 (n - (n - (element_count b - write_pos b)))) by lia.
    rewrite (uwrap_small 64 (0 + (n - (element_count b - write_pos b)))), !(bytes_ok b Hwf) by lia.
    replace ((n - (n - (element_count b - write_pos b))) * element_size b) with (cap b - wofs b)
      by (unfold cap, wofs; lia).
    replace ((n - (element_count b - write_pos b)) * element_size b)
      with (n * element_size b - (cap b - wofs b)) by (unfold cap, wofs; lia).
    rewrite bread_in by lia. cbn [mbind option_bind]. change (0 * element_size b) with 0. rewrite E2.
    cbn [mbind option_bind]. eexists. split; [done|]. unfold avail in *. rewrite Hw in *.
    split; cbn; try (unfold avail; cbn; rewrite ?Hw; lia); [split; cbn; auto; unfold cap in *; lia|].
    intros i Hi. unfold ring. destruct (Z.ltb_spec (rofs b + i) (cap b)); rewrite G2 by lia.
    + destruct (Z.ltb_spec i (abytes b)), (Z.ltb_spec (rofs b + i) (n * element_size b - (cap b - wofs b))),
        (Z.leb_spec (wofs b) (rofs b + i)); try lia; f_equal; lia.
    + rewrite (proj2 (Z.ltb_lt _ _)), (proj2 (Z.ltb_ge _ _)) by lia. f_equal. lia.
  - assert (n * element_size b <= cap b - wofs b) by (unfold cap, wofs; nia).
    destruct (flat_store (data b) src (cap b) (wofs b) (n * element_size b)) as (d1 & E1 & L1 & G1); try lia.
    cbn [mbind option_bind]. rewrite Z.sub_diag, (uwrap_small 64 0), (uwrap_small 64 (write_pos b + n)), !(bytes_ok b Hwf) by lia.
    change (0 * element_size b) with 0. rewrite bread_in by lia. cbn [mbind option_bind]. fold (wofs b). rewrite E1.
    cbn [mbind option_bind]. eexists. split; [done|].
    split; cbn; try (unfold avail in *; cbn; destruct (rw_wrap b); lia).
    + split; cbn; auto; try (unfold cap in *; lia). unfold avail in *. destruct (rw_wrap b); lia.
    + intros i Hi. unfold ring. unfold abytes, avail in *.
      destruct (rw_wrap b); destruct (Z.ltb_spec (rofs b + i) (cap b)); rewrite G1 by lia;
        match goal with |- context [(?a <=? ?x) && (?x <? ?c)] =>
          destruct (Z.leb_spec a x), (Z.ltb_spec x c) end; cbn [andb];
        match goal with |- context [i <? ?y] => destruct (Z.ltb_spec i y) end; try lia; f_equal; lia.
Qed.

Lemma written_content (b b' : RingBuffer) (src : list Z) (n : Z) :
  rb_wf b -> written b b' src n -> 0 <= n -> n * element_size b <= zlen src ->
  content b' = content b ++ slice src 0 (n * element_size b).
Proof.
  intros Hwf [Hwf' H1 H2 H3 H4 H5] Hn Hsrc.
  pose proof (ring_bytes b Hwf) as (? & ? & ? & ? & _). pose proof (wf_size b Hwf).
  assert (abytes b' = abytes b + n * element_size b) as Ha by (unfold abytes; rewrite H3, H4; lia).
  assert (0 <= n * element_size b) by nia.
  apply zlist_eq.
  - rewrite zlen_app, !zlen_content, zlen_slice by (done || lia). lia.
  - intros i Hi. rewrite zlen_content in Hi by done. rewrite zn_content by done.
    assert (ring b' i = ring b i) as -> by (unfold ring, rofs, cap; by rewrite H1, H2, H3).
    rewrite H5 by lia. destruct (Z.ltb_spec i (abytes b)).
    + rewrite zn_app_l, zn_content by (rewrite ?zlen_content; done || lia). done.
    + rewrite zn_app_r, zlen_content, zn_slice by (rewrite ?zlen_content; done || lia). done.
Qed.

(** The bytes a read leaves at the place it reports. *)
Definition bytes_at (loc : location) (ring_data dst : list Z) (n : Z) : list Z :=
  match loc with InRing o => slice ring_data o n | InData => slice dst 0 n end.

Lemma take_content (b : RingBuffer) (n : Z) : rb_wf b -> 0 <= n <= avail b ->
  take (Z.to_nat (n * element_size b)) (content b) =
  if element_count b - read_pos b <? n
  then slice (data b) (rofs b) (cap b - rofs b) ++ slice (data b) 0 (n * element_size b - (cap b - rofs b))
  else slice (data b) (rofs b) (n * element_size b).
Proof.
  intros Hwf Hn. pose proof (ring_bytes b Hwf) as (? & ? & ? & ? & _). pose proof Hwf as [].
  assert (0 <= n * element_size b <= abytes b) by (unfold abytes; nia).
  assert (cap b - rofs b = (element_count b - read_pos b) * element_size b) as Hm by (unfold cap, rofs; lia).
  assert (zlen (take (Z.to_nat (n * element_size b)) (content b)) = n * element_size b) as Hlen
    by (apply zlen_take; rewrite zlen_content by done; lia).
  destruct (Z.ltb_spec (element_count b - read_pos b) n).
  - assert (cap b - rofs b < n * element_size b) by nia. apply zlist_eq.
    + rewrite zlen_app, !zlen_slice by lia. lia.
    + intros i Hi. rewrite zn_take, zn_content by (done || lia). unfold ring.
      destruct (Z.ltb_spec (rofs b + i) (cap b)).
      * rewrite zn_app_l, zn_slice by (rewrite ?zlen_slice; lia). done.
      * rewrite zn_app_r, zlen_slice, zn_slice by (rewrite ?zlen_slice; lia). f_equal. lia.
  - assert (n * element_size b <= cap b - rofs b) by nia. apply zlist_eq.
    + rewrite zlen_slice by lia. lia.
    + intros i Hi. rewrite zn_take, zn_content, zn_slice by (done || lia). unfold ring.
      by rewrite (proj2 (Z.ltb_lt _ _)) by lia.
Qed.

Lemma read_ok (b : RingBuffer) (has_ptr : bool) (dst : list Z) (count : Z) :
  let n := Z.min (avail b) count in
  rb_wf b -> 0 <= count -> n * element_size b <= zlen dst ->
  exists dst' loc b', WebRtc_ReadBuffer b has_ptr dst count =
      Some (n, dst', if has_ptr then Some loc else None, b') /\
    moved b b' n /\ zlen dst' = zlen dst /\
    bytes_at loc (data b) dst' (n * element_size b) = take (Z.to_nat (n * element_size b)) (content b) /\
    (has_ptr = false -> slice dst' 0 (n * element_size b) = take (Z.to_nat (n * element_size b)) (content b)).
Proof.
  intros n Hwf Hc Hdst. pose proof (avail_bounds b Hwf).
  pose proof (ring_bytes b Hwf) as (R1 & R2 & R3 & R4 & _). pose proof Hwf as [W1 W2 W3 W4 W5 W6 W7].
  unfold WebRtc_ReadBuffer, GetBufferReadRegions. rewrite available_read_ok by done.
  replace (if avail b <? count then avail b else count) with n
    by (unfold n; destruct (Z.ltb_spec (avail b) count); lia).
  assert (0 <= n <= avail b) as Hn by (unfold n; lia). clearbody n.
  rewrite uwrap_small by lia. rewrite take_content by done.
  destruct (move_ok b n Hwf ltac:(lia)) as (b' & Em & Hm).
  replace (clamp b n) with n in * by (unfold clamp; lia).
  assert (cap b - rofs b = (element_count b - read_pos b) * element_size b) as Hcr by (unfold cap, rofs; lia).
  assert (0 <= n * element_size b <= abytes b) by (unfold abytes; nia).
  rewrite !(bytes_ok b Hwf (read_pos b)), (bytes_ok b Hwf n) by lia.
  fold (rofs b). destruct (Z.ltb_spec (element_count b - read_pos b) n) as [Hlt|Hge];
    [rewrite (uwrap_small 64 (n - (element_count b - read_pos b))), !(bytes_ok b Hwf) by lia|];
    cbv beta iota zeta; rewrite (swrap_small 32 n), Em by (change (2 ^ (32 - 1)) with (2 ^ 31); lia).
  - assert (cap b - rofs b < n * element_size b) by nia.
    replace ((n - (element_count b - read_pos b)) * element_size b)
      with (n * element_size b - (cap b - rofs b)) by lia.
    rewrite <- Hcr. rewrite (proj2 (Z.ltb_lt 0 _)), !bread_in by lia. cbn [mbind option_bind].
    set (s1 := slice (data b) (rofs b) (cap b - rofs b)).
    set (s2 := slice (data b) 0 (n * element_size b - (cap b - rofs b))).
    assert (zlen s1 = cap b - rofs b) as L1 by (apply zlen_slice; lia).
    assert (zlen s2 = n * element_size b - (cap b - rofs b)) as L2 by (apply zlen_slice; lia).
    destruct (bwrite_upd dst 0 s1) as (d1 & -> & U1); try lia. cbn [mbind option_bind].
    pose proof (u_len _ _ _ _ U1).
    destruct (bwrite_upd d1 (cap b - rofs b) s2) as (d2 & -> & U2); try lia. cbn [mbind option_bind].
    assert (upd dst 0 (s1 ++ s2) d2) as U by (eapply upd_post; [exact U1|exact U2|lia]).
    pose proof (u_new _ _ _ _ U) as Hnew. rewrite zlen_app in Hnew.
    replace (zlen s1 + zlen s2) with (n * element_size b) in Hnew by lia.
    exists d2, InData, b'. split_and!; auto. apply (u_len _ _ _ _ U).
  - change (0 <? 0) with false. cbv iota. destruct has_ptr; cbn [negb].
    + exists dst, (InRing (rofs b)), b'. split_and!; auto; done.
    + assert (n * element_size b <= cap b - rofs b) by nia. rewrite bread_in by lia.
      pose proof (zlen_slice (data b) (rofs b) (n * element_size b)) as L.
      cbn [mbind option_bind]. mstep d1 U1. exists d1, (InRing (rofs b)), b'. split_and!; auto; [apply (u_len _ _ _ _ U1)|].
      intros _. pose proof (u_new _ _ _ _ U1) as Hnew. by rewrite L in Hnew by lia.
Qed.

(** ** Refinement of a bounded queue *)

Inductive rb_op := Write (src : list Z) (count : Z) | Read (count : Z) | Move (k : Z).

(** The code, with a fresh block for the data read; the result is the
    number of elements and the bytes given back. *)
Definition rb_step (b : RingBuffer) (op : rb_op) : option (Z * list Z * RingBuffer) :=
  match op with
  | Write src count => '(n, b) ← WebRtc_WriteBuffer b src count; Some (n, [], b)
  | Read count =>
    '(n, dst, _, b') ← WebRtc_ReadBuffer b false (replicate (Z.to_nat (count * element_size b)) 0) count;
    Some (n, slice dst 0 (n * element_size b), b')
  | Move k => '(n, b) ← WebRtc_MoveReadPtr b k; Some (n, [], b)
  end.

(** The queue: [cnt] elements of [es] bytes at most. *)
Definition q_step (cnt es : Z) (q : list Z) (op : rb_op) : Z * list Z * list Z :=
  let size := zlen q / es in
  match op with
  | Write src count => let n := Z.min (cnt - size) count in (n, [], q ++ slice src 0 (n * es))
  | Read count =>
    let n := Z.min size count in
    (n, take (Z.to_nat (n * es)) q, drop (Z.to_nat (n * es)) q)
  | Move k => let n := Z.min size k in (n, [], drop (Z.to_nat (n * es)) q)
  end.

Fixpoint rb_run (b : RingBuffer) (ops : list rb_op) : option (list (Z * list Z) * RingBuffer) :=
  match ops with
  | [] => Some ([], b)
  | op :: ops =>
    '(n, bs, b) ← rb_step b op; '(outs, b) ← rb_run b ops; Some ((n, bs) :: outs, b)
  end.

Fixpoint q_run (cnt es : Z) (q : list Z) (ops : list rb_op) : list (Z * list Z) * list Z :=
  match ops with
  | [] => ([], q)
  | op :: ops =>
    let '(n, bs, q) := q_step cnt es q op in
    let '(outs, q) := q_run cnt es q ops in ((n, bs) :: outs, q)
  end.

(** Arguments as the callers pass them: the source block holds the elements. *)
Definition op_ok (es : Z) (op : rb_op) : Prop :=
  match op with
  | Write src count => 0 <= count /\ count * es <= zlen src
  | Read count => 0 <= count
  | Move k => 0 <= k < 2 ^ 31
  end.

Lemma content_size (b : RingBuffer) : rb_wf b -> zlen (content b) / element_size b = avail b.
Proof.
  intros Hwf. rewrite zlen_content by done. unfold abytes. apply Z.div_mul. pose proof (wf_size b Hwf). lia.
Qed.

Lemma rb_step_ok (b : RingBuffer) (op : rb_op) : rb_wf b -> op_ok (element_size b) op ->
  exists n bs b', rb_step b op = Some (n, bs, b') /\ rb_wf b' /\
    element_count b' = element_count b /\ element_size b' = element_size b /\
    q_step (element_count b) (element_size b) (content b) op = (n, bs, content b').
Proof.
  intros Hwf Hop. pose proof (avail_bounds b Hwf). pose proof (wf_size b Hwf).
  destruct op as [src count|count|k]; cbn [rb_step q_step op_ok] in *; rewrite content_size by done.
  - destruct Hop as [Hc Hs].
    destruct (write_ok b src count Hwf Hc) as (b' & -> & Hwr); [nia|].
    cbn [mbind option_bind]. eexists _, [], b'. split; [done|]. pose proof Hwr as [].
    split_and!; auto. rewrite (written_content b b' src _ Hwf Hwr); [done|lia|nia].
  - destruct (read_ok b false (replicate (Z.to_nat (count * element_size b)) 0) count Hwf Hop)
      as (dst & loc & b' & -> & Hmv & _ & _ & Hbs).
    { unfold zlen. rewrite length_replicate. nia. }
    cbn [mbind option_bind]. eexists _, _, b'. split; [done|].
    pose proof Hmv as []. split_and!; auto. rewrite Hbs by done.
    rewrite (moved_drop b b' _ Hwf Hmv) by lia. done.
  - destruct (move_ok b k Hwf ltac:(lia)) as (b' & -> & Hmv).
    replace (clamp b k) with (Z.min (avail b) k) in * by (unfold clamp; lia).
    exists (Z.min (avail b) k), [], b'. pose proof Hmv as []. split_and!; auto.
    rewrite (moved_drop b b' (Z.min (avail b) k)) by (auto; lia). done.
Qed.

(** C15: any sequence of writes, reads and forward moves of the read position
    on a well-formed ring buffer behaves as on a first-in first-out queue that
    holds at most [element_count] elements: the same numbers of elements are
    accepted, delivered and skipped, the same bytes are delivered, and the
    buffer holds the queue's content at the end; no access is outside of the
    buffer. *)
Theorem ring_buffer_is_queue (b : RingBuffer) (ops : list rb_op) :
  rb_wf b -> Forall (op_ok (element_size b)) ops ->
  exists outs b', rb_run b ops = Some (outs, b') /\ rb_wf b' /\
    q_run (element_count b) (element_size b) (content b) ops = (outs, content b').
Proof.
  intros Hwf Hops. remember (element_size b) as es eqn:Hes. remember (element_count b) as cnt eqn:Hcnt.
  revert b Hwf Hes Hcnt. induction Hops as [|op ops Hop _ IH]; intros b Hwf -> ->; cbn [rb_run q_run].
  - exists [], b. auto.
  - destruct (rb_step_ok b op Hwf Hop) as (n & bs & b' & -> & Hwf' & Hc & He & ->).
    cbn [mbind option_bind]. destruct (IH b' Hwf' (eq_sym He) (eq_sym Hc)) as (outs & b'' & -> & Hwf'' & ->).
    cbn [mbind option_bind]. exists ((n, bs) :: outs), b''. auto.
Qed.

(** A read without copying ([data_ptr] given) reports a place, in the ring
    buffer or in the caller's block, that holds exactly the bytes at the front
    of the queue; those bytes leave the queue. *)
Lemma read_in_place (b : RingBuffer) (dst : list Z) (count : Z) :
  let n := Z.min (avail b) count in
  rb_wf b -> 0 <= count -> n * element_size b <= zlen dst ->
  exists dst' loc b', WebRtc_ReadBuffer b true dst count = Some (n, dst', Some loc, b') /\
    rb_wf b' /\
    bytes_at loc (data b') dst' (n * element_size b) = take (Z.to_nat (n * element_size b)) (content b) /\
    content b' = drop (Z.to_nat (n * element_size b)) (content b).
Proof.
  intros n Hwf Hc Hd. destruct (read_ok b true dst count Hwf Hc Hd) as (dst' & loc & b' & E & Hm & _ & Hb & _).
  exists dst', loc, b'. pose proof Hm as []. split_and!; auto; [by rewrite mv_data0|].
  pose proof (avail_bounds b Hwf). apply moved_drop; auto. unfold n. lia.
Qed.

(** Moving the read position back by at most the free space gives back
    exactly that many elements in front of the content, which stays behind
    them; moving further is clamped to the free space. *)
Lemma move_back (b : RingBuffer) (k : Z) :
  rb_wf b -> - 2 ^ 31 <= k <= 0 ->
  let n := Z.min (- k) (element_count b - avail b) in
  exists b' given, WebRtc_MoveReadPtr b k = Some (- n, b') /\ rb_wf b' /\
    content b' = given ++ content b /\ zlen given = n * element_size b.
Proof.
  intros Hwf Hk n. destruct (move_ok b k Hwf ltac:(lia)) as (b' & E & Hm).
  pose proof (avail_bounds b Hwf). pose proof (wf_size b Hwf).
  replace (clamp b k) with (- n) in * by (unfold clamp, n; lia).
  pose proof (moved_inv _ _ _ Hwf Hm) as Hi. rewrite Z.opp_involutive in Hi. pose proof Hm as [].
  pose proof (moved_drop _ _ _ mv_wf0 Hi ltac:(unfold n; lia)) as Hd. rewrite mv_esize0 in Hd.
  exists b', (take (Z.to_nat (n * element_size b)) (content b')). split_and!; auto.
  - rewrite Hd. by rewrite take_drop.
  - apply zlen_take. rewrite zlen_content by done. unfold abytes. rewrite mv_avail0, mv_esize0.
    unfold n in *. nia.
Qed.

(** A created buffer is well formed and empty, and creation fails exactly
    for empty sizes or when the allocation fails. *)
Lemma create_buffer (malloc : Z -> option (list Z)) (count size : Z) :
  0 <= count < 2 ^ 30 -> 0 <= size -> count * size < 2 ^ 63 ->
  match WebRtc_CreateBuffer malloc count size with
  | None => count = 0 \/ size = 0 \/ malloc (count * size) = None
  | Some b => rb_wf b /\ content b = [] /\ WebRtc_available_write b = count /\ element_size b = size
  end.
Proof.
  intros Hc Hs Hm. unfold WebRtc_CreateBuffer. rewrite uwrap_small by nia.
  destruct (Z.eqb_spec count 0); cbn [orb]; [by left|].
  destruct (Z.eqb_spec size 0); [by right; left|].
  destruct (malloc (count * size)) as [blk|]; cbn [mbind option_bind]; [|by right; right].
  assert (rb_wf (WebRtc_InitBuffer (RB 0 0 count size SAME_WRAP blk))) as Hwf.
  { unfold WebRtc_InitBuffer. cbn [element_count element_size].
    split; cbn [read_pos write_pos element_count element_size rw_wrap data]; try lia.
    unfold zlen. rewrite length_replicate, uwrap_small by nia. nia. }
  split_and!; auto. rewrite available_write_ok by done. unfold avail. cbn. lia.
Qed.

(** ** Witnesses *)

Definition rb4 : RingBuffer := RB 3 1 4 2 DIFF_WRAP [1; 2; 3; 4; 5; 6; 7; 8].

Lemma rb4_wf : rb_wf rb4.
Proof. split; closed. Qed.

Lemma ring_buffer_witness : exists outs b',
  rb_run rb4 [Read 1; Write [11; 12; 13; 14; 15; 16; 17; 18] 4; Read 9] = Some (outs, b') /\ rb_wf b' /\
  q_run 4 2 (content rb4) [Read 1; Write [11; 12; 13; 14; 15; 16; 17; 18] 4; Read 9] = (outs, content b').
Proof.
  apply (ring_buffer_is_queue rb4 [Read 1; Write [11; 12; 13; 14; 15; 16; 17; 18] 4; Read 9]);
    [apply rb4_wf|]. repeat constructor; closed.
Defined.

Lemma read_in_place_witness : exists dst' loc b',
  WebRtc_ReadBuffer rb4 true [0; 0; 0; 0] 2 = Some (2, dst', Some loc, b') /\ rb_wf b' /\
  bytes_at loc (data b') dst' 4 = take (Z.to_nat 4) (content rb4) /\
  content b' = drop (Z.to_nat 4) (content rb4).
Proof. apply (read_in_place rb4 [0; 0; 0; 0] 2); [apply rb4_wf|closed|closed]. Defined.

Lemma move_back_witness : exists b' given, WebRtc_MoveReadPtr rb4 (-3) = Some (-2, b') /\ rb_wf b' /\
  content b' = given ++ content rb4 /\ zlen given = 4.
Proof. apply (move_back rb4 (-3)); [apply rb4_wf|closed]. Defined.

Lemma create_buffer_witness :
  match WebRtc_CreateBuffer (fun n => Some (replicate (Z.to_nat n) 9)) 4 2 with
  | None => 4 = 0 \/ 2 = 0 \/ Some (replicate (Z.to_nat (4 * 2)) 9) = None
  | Some b => rb_wf b /\ content b = [] /\ WebRtc_available_write b = 4 /\ element_size b = 2
  end.
Proof. apply (create_buffer (fun n => Some (replicate (Z.to_nat n) 9)) 4 2); closed. Defined.
