(* ===== verification/SplArith.v ===== *)
(** * Fixed-point arithmetic of the signal processing library

    [spl_inl.h], [spl_inl.c], [spl_sqrt_floor.c] and [division_operations.c]
    under
    [src/submodules/libtgvoip/webrtc_dsp/webrtc/common_audio/signal_processing/].
    A left shift of a signed integer keeps the low 32 bits, as on the
    targets. *)
From S2P Require Import Prelude.
From Stdlib Require Import ZArith Lia.
From stdpp Require Import base numbers option list.
Open Scope Z_scope.

(** ** Counting leading zeros *)

Definition kWebRtcSpl_CountLeadingZeros32_Table : list Z :=
  [32; 8;  17; -1; -1; 14; -1; -1; -1; 20; -1; -1; -1; 28; -1; 18;
   -1; -1; -1; -1; -1; -1; -1; -1; -1; -1; -1; -1; 0;  26; 25; 24;
   4;  11; 23; 31; 3;  7;  10; 16; 22; 30; -1; -1; 2;  6;  13; 9;
   -1; 15; -1; 21; -1; 29; 19; -1; -1; -1; -1; -1; 1;  27; 5;  12].

(** [n |= n >> s] *)
Definition smear (n s : Z) : Z := Z.lor n (Z.shiftr n s).

Definition WebRtcSpl_CountLeadingZeros32_NotBuiltin (n : Z) : option Z :=
  let n := smear n 1 in
  let n := smear n 2 in
  let n := smear n 4 in
  let n := smear n 8 in
  let n := smear n 16 in
  aget kWebRtcSpl_CountLeadingZeros32_Table (Z.shiftr (u32 (n * 0x8c0b2891)) 26).

Definition WebRtcSpl_CountLeadingZeros64_NotBuiltin (n : Z) : option Z :=
  let leading_zeros := if Z.shiftr n 32 =? 0 then 32 else 0 in
  z ← WebRtcSpl_CountLeadingZeros32_NotBuiltin (u32 (Z.shiftr n (32 - leading_zeros)));
  Some (leading_zeros + z).

(** [__builtin_clz] of a positive number. *)
Definition builtin_clz (w n : Z) : Z := w - 1 - Z.log2 n.

Definition WebRtcSpl_CountLeadingZeros32 (n : Z) : Z := if n =? 0 then 32 else builtin_clz 32 n.
Definition WebRtcSpl_CountLeadingZeros64 (n : Z) : Z := if n =? 0 then 64 else builtin_clz 64 n.

(** ** Saturation and normalisation *)

Definition INT32_MAX : Z := 2 ^ 31 - 1.
Definition INT32_MIN : Z := - 2 ^ 31.

Definition WebRtcSpl_SatW32ToW16 (value32 : Z) : Z :=
  if 32767 <? value32 then 32767 else if value32 <? -32768 then -32768 else s16 value32.

Definition WebRtcSpl_AddSatW32 (a b : Z) : Z :=
  let sum := s32 (u32 (u32 a + u32 b)) in
  if Bool.eqb (a <? 0) (b <? 0) && negb (Bool.eqb (a <? 0) (sum <? 0)) then
    if sum <? 0 then INT32_MAX else INT32_MIN
  else sum.

Definition WebRtcSpl_SubSatW32 (a b : Z) : Z :=
  let diff := s32 (u32 (u32 a - u32 b)) in
  if negb (Bool.eqb (a <? 0) (b <? 0)) && negb (Bool.eqb (a <? 0) (diff <? 0)) then
    if diff <? 0 then INT32_MAX else INT32_MIN
  else diff.

Definition WebRtcSpl_AddSatW16 (a b : Z) : Z := WebRtcSpl_SatW32ToW16 (a + b).
Definition WebRtcSpl_SubSatW16 (a b : Z) : Z := WebRtcSpl_SatW32ToW16 (a - b).

Definition WebRtcSpl_GetSizeInBits (n : Z) : Z := 32 - WebRtcSpl_CountLeadingZeros32 n.

Definition WebRtcSpl_NormW32 (a : Z) : Z :=
  if a =? 0 then 0 else WebRtcSpl_CountLeadingZeros32 (if a <? 0 then Z.lnot a else a) - 1.

Definition WebRtcSpl_NormU32 (a : Z) : Z :=
  if a =? 0 then 0 else WebRtcSpl_CountLeadingZeros32 a.

Definition WebRtcSpl_NormW16 (a : Z) : Z :=
  if a =? 0 then 0 else WebRtcSpl_CountLeadingZeros32 (if a <? 0 then Z.lnot a else a) - 17.

(** ** Square root *)

(** [WEBRTC_SPL_SQRT_ITER(N)] on [(value, root)]. *)
Definition WEBRTC_SPL_SQRT_ITER (N : Z) (st : Z * Z) : option (Z * Z) :=
  let '(value, root) := st in
  try1 ← int_add root (Z.shiftl 1 N);
  t ← int_shl try1 N;
  if t <=? value then value ← int_add value (- t); Some (value, Z.lor root (Z.shiftl 2 N))
  else Some (value, root).

(** The macro for each of the numbers. *)
Fixpoint sqrt_iters (l : list Z) (st : Z * Z) : option (Z * Z) :=
  match l with [] => Some st | N :: l => st ← WEBRTC_SPL_SQRT_ITER N st; sqrt_iters l st end.

Definition WebRtcSpl_SqrtFloor (value : Z) : option Z :=
  '(_, root) ← sqrt_iters [15; 14; 13; 12; 11; 10; 9; 8; 7; 6; 5; 4; 3; 2; 1; 0] (value, 0);
  Some (Z.shiftr root 1).

(** ** Divisions *)

Definition WebRtcSpl_DivU32U16 (num den : Z) : Z :=
  if negb (den =? 0) then num / den else 0xFFFFFFFF.

Definition WebRtcSpl_DivW32W16 (num den : Z) : Z :=
  if negb (den =? 0) then s32 (Z.quot num den) else 0x7FFFFFFF.

Definition WebRtcSpl_DivW32W16ResW16 (num den : Z) : Z :=
  if negb (den =? 0) then s16 (s32 (Z.quot num den)) else 0x7FFF.

(** [while (k--) { ... }] *)
Fixpoint div_q31_loop (k : nat) (L_num L_den div : Z) : Z :=
  match k with
  | O => div
  | S k =>
    let div := s32 (Z.shiftl div 1) in
    let L_num := s32 (Z.shiftl L_num 1) in
    if L_den <=? L_num then div_q31_loop k (L_num - L_den) L_den (div + 1)
    else div_q31_loop k L_num L_den div
  end.

Definition WebRtcSpl_DivResultInQ31 (num den : Z) : Z :=
  if num =? 0 then 0
  else
    let L_num := if num <? 0 then s32 (- num) else num in
    let L_den := if den <? 0 then s32 (- den) else den in
    let div := div_q31_loop 31 L_num L_den 0 in
    if xorb (num <? 0) (den <? 0) then - div else div.

Definition WebRtcSpl_DivW32HiLow (num den_hi den_low : Z) : Z :=
  let approx := s16 (WebRtcSpl_DivW32W16 0x1FFFFFFF den_hi) in
  let tmpW32 := s32 (Z.shiftl (den_hi * approx) 1 + Z.shiftl (Z.shiftr (den_low * approx) 15) 1) in
  let tmpW32 := s32 (0x7fffffff - tmpW32) in
  let tmp_hi := s16 (Z.shiftr tmpW32 16) in
  let tmp_low := s16 (Z.shiftr (tmpW32 - Z.shiftl tmp_hi 16) 1) in
  let tmpW32 := s32 (Z.shiftl (tmp_hi * approx + Z.shiftr (tmp_low * approx) 15) 1) in
  let tmp_hi := s16 (Z.shiftr tmpW32 16) in
  let tmp_low := s16 (Z.shiftr (tmpW32 - Z.shiftl tmp_hi 16) 1) in
  let num_hi := s16 (Z.shiftr num 16) in
  let num_low := s16 (Z.shiftr (num - Z.shiftl num_hi 16) 1) in
  let tmpW32 := s32 (num_hi * tmp_hi + Z.shiftr (num_hi * tmp_low) 15 + Z.shiftr (num_low * tmp_hi) 15) in
  s32 (Z.shiftl tmpW32 3).

(** ** Leading zeros: the table look-up is exact *)

(** Bit [i] of a smeared number tells whether one of the bits [i .. i + w]
    of the original is set. *)
Definition smeared (n n' w : Z) : Prop :=
  forall i, 0 <= i -> Z.testbit n' i = true <-> exists j, i <= j <= i + w /\ Z.testbit n j = true.

Lemma smear_step (n n' w s : Z) : 0 <= w -> 0 < s <= w + 1 -> smeared n n' w ->
  smeared n (smear n' s) (w + s).
Proof.
  intros Hw Hs Hn i Hi. unfold smear. rewrite Z.lor_spec, Z.shiftr_spec, orb_true_iff by lia.
  rewrite (Hn i ltac:(lia)), (Hn (i + s) ltac:(lia)).
  split.
  - intros [(j & Hj & Hb)|(j & Hj & Hb)]; exists j; split; auto; lia.
  - intros (j & Hj & Hb). destruct (Z.le_gt_cases j (i + w)); [left|right]; exists j; split; auto; lia.
Qed.

Lemma smeared_0 (n : Z) : smeared n n 0.
Proof.
  intros i Hi. split; [intros Hb; exists i; split; [lia|done]|].
  intros (j & Hj & Hb). by replace i with j by lia.
Qed.

(** Number of significant bits. *)
Definition bits (n : Z) : Z := if n =? 0 then 0 else Z.log2 n + 1.

Lemma bits_range (n w : Z) : 0 <= w -> 0 <= n < 2 ^ w -> 0 <= bits n <= w.
Proof.
  intros Hw Hn. unfold bits. destruct (Z.eqb_spec n 0); [lia|]. pose proof (Z.log2_nonneg n).
  assert (Z.log2 n < w) by (apply Z.log2_lt_pow2; lia). lia.
Qed.

Lemma smeared_ones (n n' : Z) : 0 <= n < 2 ^ 32 -> smeared n n' 31 -> n' = Z.ones (bits n).
Proof.
  intros Hn Hs. apply Z.bits_inj'. intros i Hi. pose proof (bits_range n 32 ltac:(lia) Hn) as Hb.
  apply eq_true_iff_eq. rewrite (Hs i Hi), Z.testbit_ones_nonneg, Z.ltb_lt by lia. unfold bits in *.
  destruct (Z.eqb_spec n 0) as [->|Hne].
  - split; [|lia]. intros (j & _ & Hj). by rewrite Z.bits_0 in Hj.
  - split.
    + intros (j & Hj & Hbit). destruct (Z.le_gt_cases j (Z.log2 n)); [lia|].
      rewrite Z.bits_above_log2 in Hbit by lia. done.
    + intros Hlt. exists (Z.log2 n). split; [lia|]. apply Z.bit_log2. lia.
Qed.

Lemma clz_table (k : Z) : 0 <= k <= 32 ->
  aget kWebRtcSpl_CountLeadingZeros32_Table (Z.shiftr (u32 (Z.ones k * 0x8c0b2891)) 26) = Some (32 - k).
Proof.
  intros Hk. assert (forallb (fun k => bool_decide
    (aget kWebRtcSpl_CountLeadingZeros32_Table (Z.shiftr (u32 (Z.ones k * 0x8c0b2891)) 26) =
     Some (32 - k))) (seqZ 0 33) = true) as Hall by (vm_compute; reflexivity).
  rewrite forallb_forall in Hall. assert (In k (seqZ 0 33)) as Hin by (apply list_elem_of_In, elem_of_seqZ; lia).
  specialize (Hall k Hin). cbv beta in Hall. by apply bool_decide_eq_true_1 in Hall.
Qed.

Lemma clz32_bits (n : Z) : WebRtcSpl_CountLeadingZeros32 n = 32 - bits n.
Proof.
  unfold WebRtcSpl_CountLeadingZeros32, builtin_clz, bits. destruct (n =? 0); lia.
Qed.

Lemma clz32_notbuiltin_bits (n : Z) : 0 <= n < 2 ^ 32 ->
  WebRtcSpl_CountLeadingZeros32_NotBuiltin n = Some (32 - bits n).
Proof.
  intros Hn. unfold WebRtcSpl_CountLeadingZeros32_NotBuiltin.
  assert (smeared n (smear (smear (smear (smear (smear n 1) 2) 4) 8) 16) 31) as Hs.
  { apply (smear_step n _ 15 16); [lia..|]. apply (smear_step n _ 7 8); [lia..|].
    apply (smear_step n _ 3 4); [lia..|]. apply (smear_step n _ 1 2); [lia..|].
    apply (smear_step n _ 0 1); [lia..|]. apply smeared_0. }
  rewrite (smeared_ones n _ Hn Hs). apply clz_table, bits_range; lia.
Qed.

(** The portable leading-zero counts (bit smearing, multiplication and a
    64-entry table) agree with the compiler built-ins on every 32-bit and
    every 64-bit number. *)
Lemma clz_notbuiltin_correct (n : Z) :
  (0 <= n < 2 ^ 32 ->
   WebRtcSpl_CountLeadingZeros32_NotBuiltin n = Some (WebRtcSpl_CountLeadingZeros32 n)) /\
  (0 <= n < 2 ^ 64 ->
   WebRtcSpl_CountLeadingZeros64_NotBuiltin n = Some (WebRtcSpl_CountLeadingZeros64 n)).
Proof.
  split; intros Hn; [by rewrite clz32_bits, clz32_notbuiltin_bits|].
  unfold WebRtcSpl_CountLeadingZeros64_NotBuiltin. rewrite (Z.shiftr_div_pow2 n 32) by lia.
  pose proof (Z.div_mod n (2 ^ 32)). pose proof (Z.mod_pos_bound n (2 ^ 32)).
  assert (0 <= n / 2 ^ 32 < 2 ^ 32) by (split; [apply Z.div_pos; lia|apply Z.div_lt_upper_bound; lia]).
  unfold WebRtcSpl_CountLeadingZeros64, builtin_clz.
  destruct (Z.eqb_spec (n / 2 ^ 32) 0) as [Hz|Hnz].
  - change (32 - 32) with 0. rewrite Z.shiftr_0_r, uwrap_small, clz32_notbuiltin_bits by lia. cbn [mbind option_bind].
    unfold bits. destruct (n =? 0); f_equal; lia.
  - change (32 - 0) with 32. rewrite Z.shiftr_div_pow2, uwrap_small, clz32_notbuiltin_bits by lia. cbn [mbind option_bind]. f_equal.
    assert (n <> 0) by (intros ->; done). unfold bits.
    rewrite (proj2 (Z.eqb_neq _ _)), (proj2 (Z.eqb_neq _ _)) by lia.
    replace (Z.log2 (n / 2 ^ 32)) with (Z.log2 n - 32); [lia|].
    rewrite <- Z.shiftr_div_pow2, Z.log2_shiftr by lia.
    assert (32 <= Z.log2 n) by (apply Z.log2_le_pow2; lia). lia.
Qed.

(** ** Saturation *)

Definition int32 (x : Z) : Prop := - 2 ^ 31 <= x < 2 ^ 31.
Definition int16 (x : Z) : Prop := - 2 ^ 15 <= x < 2 ^ 15.
Definition clamp32 (x : Z) : Z := Z.max INT32_MIN (Z.min INT32_MAX x).
Definition clamp16 (x : Z) : Z := Z.max (-32768) (Z.min 32767 x).

Lemma sat16_clamp (x : Z) : WebRtcSpl_SatW32ToW16 x = clamp16 x.
Proof.
  unfold WebRtcSpl_SatW32ToW16, clamp16. destruct (Z.ltb_spec 32767 x); [lia|].
  destruct (Z.ltb_spec x (-32768)); [lia|]. rewrite swrap_small by lia. lia.
Qed.

(** Two's complement reduction of a sum or difference of two [int32]s. *)
Lemma s32_cases (x : Z) : - 2 ^ 32 <= x < 2 ^ 32 ->
  (- 2 ^ 31 <= x < 2 ^ 31 /\ s32 x = x) \/ (2 ^ 31 <= x /\ s32 x = x - 2 ^ 32) \/ (x < - 2 ^ 31 /\ s32 x = x + 2 ^ 32).
Proof.
  intros Hx. unfold swrap. change (2 ^ (32 - 1)) with (2 ^ 31).
  destruct (Z.lt_ge_cases x (- 2 ^ 31)); [right; right|destruct (Z.lt_ge_cases x (2 ^ 31)); [left|right; left]].
  - split; [done|]. rewrite <- (Z.mod_unique (x + 2 ^ 31) (2 ^ 32) (-1) (x + 2 ^ 31 + 2 ^ 32)) by lia. lia.
  - split; [lia|]. rewrite Z.mod_small by lia. lia.
  - split; [done|]. rewrite <- (Z.mod_unique (x + 2 ^ 31) (2 ^ 32) 1 (x + 2 ^ 31 - 2 ^ 32)) by lia. lia.
Qed.

Lemma s32_u32 (x : Z) : s32 (u32 x) = s32 x.
Proof.
  unfold swrap, uwrap. change (2 ^ (32 - 1)) with (2 ^ 31).
  by rewrite Z.add_mod_idemp_l by lia.
Qed.

Lemma s32_add (a b : Z) : s32 (u32 (u32 a + u32 b)) = s32 (a + b).
Proof. rewrite s32_u32. unfold swrap, uwrap. f_equal. rewrite <- (Z.add_mod_idemp_l (_ + _)) by lia.
  rewrite <- Z.add_mod by lia. by rewrite Z.add_mod_idemp_l by lia. Qed.

Lemma s32_sub (a b : Z) : s32 (u32 (u32 a - u32 b)) = s32 (a - b).
Proof. rewrite s32_u32. unfold swrap, uwrap. f_equal. rewrite <- (Z.add_mod_idemp_l (_ - _)) by lia.
  rewrite <- Zminus_mod. by rewrite Z.add_mod_idemp_l by lia. Qed.

(** The saturating additions and subtractions give the exact result
    clamped to the range of the type, for all arguments of the type. *)
Lemma saturating_arithmetic (a b : Z) :
  int32 a -> int32 b ->
  WebRtcSpl_AddSatW32 a b = clamp32 (a + b) /\ WebRtcSpl_SubSatW32 a b = clamp32 (a - b) /\
  WebRtcSpl_AddSatW16 a b = clamp16 (a + b) /\ WebRtcSpl_SubSatW16 a b = clamp16 (a - b).
Proof.
  unfold int32. intros Ha Hb. split; [|split; [|split; apply sat16_clamp]].
  - unfold WebRtcSpl_AddSatW32. rewrite s32_add. unfold clamp32, INT32_MAX, INT32_MIN.
    pose proof (s32_cases (a + b) ltac:(lia)) as Hs. set (s := s32 (a + b)) in *.
    destruct (Z.ltb_spec a 0), (Z.ltb_spec b 0), (Z.ltb_spec s 0); cbn [Bool.eqb negb andb]; lia.
  - unfold WebRtcSpl_SubSatW32. rewrite s32_sub. unfold clamp32, INT32_MAX, INT32_MIN.
    pose proof (s32_cases (a - b) ltac:(lia)) as Hs. set (s := s32 (a - b)) in *.
    destruct (Z.ltb_spec a 0), (Z.ltb_spec b 0), (Z.ltb_spec s 0); cbn [Bool.eqb negb andb]; lia.
Qed.

Lemma saturating_witness :
  WebRtcSpl_AddSatW32 2147483647 1 = clamp32 (2147483647 + 1) /\
  WebRtcSpl_SubSatW32 2147483647 1 = clamp32 (2147483647 - 1) /\
  WebRtcSpl_AddSatW16 2147483647 1 = clamp16 (2147483647 + 1) /\
  WebRtcSpl_SubSatW16 2147483647 1 = clamp16 (2147483647 - 1).
Proof. apply (saturating_arithmetic 2147483647 1); closed. Defined.

(** ** Normalisation *)

Lemma bits_spec (n : Z) : 0 <= n -> n < 2 ^ bits n /\ (n <> 0 -> 2 ^ (bits n - 1) <= n).
Proof.
  intros Hn. unfold bits. destruct (Z.eqb_spec n 0) as [->|]; [done|].
  pose proof (Z.log2_spec n ltac:(lia)). split; [replace (Z.log2 n + 1) with (Z.succ (Z.log2 n)) by lia; lia|].
  intros _. replace (Z.log2 n + 1 - 1) with (Z.log2 n) by lia. lia.
Qed.

(** The norm of a [w]-bit signed number. *)
Lemma norm_spec (w a : Z) : 0 < w -> - 2 ^ (w - 1) <= a < 2 ^ (w - 1) -> a <> 0 ->
  let k := w - 1 - bits (if a <? 0 then Z.lnot a else a) in
  0 <= k /\ - 2 ^ (w - 1) <= a * 2 ^ k < 2 ^ (w - 1) /\
  ~ (- 2 ^ (w - 1) <= a * 2 ^ (k + 1) < 2 ^ (w - 1)).
Proof.
  intros Hw Ha Hne k. set (n := if a <? 0 then Z.lnot a else a) in *.
  assert (0 <= n < 2 ^ (w - 1) /\ (a < 0 -> n = - a - 1) /\ (0 < a -> n = a)) as (Hn & Hneg & Hpos).
  { unfold n. destruct (Z.ltb_spec a 0); rewrite ?Z.lnot_eq_pred_opp; lia. }
  pose proof (bits_range n (w - 1) ltac:(lia) Hn). destruct (bits_spec n ltac:(lia)) as [Hhi Hlo].
  assert (2 ^ (w - 1) = 2 ^ bits n * 2 ^ k) as Hp by (unfold k; rewrite <- Z.pow_add_r by lia; f_equal; lia).
  assert (0 < 2 ^ k) by (apply Z.pow_pos_nonneg; unfold k; lia).
  split; [unfold k; lia|]. rewrite (Z.pow_add_r 2 k 1) by (unfold k; lia). change (2 ^ 1) with 2.
  destruct (Z.lt_ge_cases a 0) as [Hneg'|Hpos'].
  - rewrite Hneg in * by lia. split; [nia|]. intros [Hc _].
    destruct (decide (a = -1)) as [->|].
    + change (bits (- -1 - 1)) with 0 in *. change (2 ^ 0) with 1 in *. lia.
    + assert (2 ^ bits (- a - 1) = 2 * 2 ^ (bits (- a - 1) - 1)) as H2
        by (rewrite <- Z.pow_succ_r by (unfold bits in *; destruct (Z.eqb_spec (- a - 1) 0); [lia|]; pose proof (Z.log2_nonneg (- a - 1)); lia); f_equal; lia).
      specialize (Hlo ltac:(lia)). nia.
  - rewrite Hpos in * by lia. split; [nia|]. intros [_ Hc].
    assert (2 ^ bits a = 2 * 2 ^ (bits a - 1)) as H2
      by (rewrite <- Z.pow_succ_r by (unfold bits in *; destruct (Z.eqb_spec a 0); [lia|]; pose proof (Z.log2_nonneg a); lia); f_equal; lia).
    specialize (Hlo ltac:(lia)). nia.
Qed.

(** The norm of a nonzero 32-bit number is the largest shift to the left
    that does not overflow; the same for 16-bit numbers. *)
Lemma norm_correct (a : Z) :
  a <> 0 ->
  (int32 a -> let k := WebRtcSpl_NormW32 a in
     0 <= k /\ int32 (a * 2 ^ k) /\ ~ int32 (a * 2 ^ (k + 1))) /\
  (int16 a -> let k := WebRtcSpl_NormW16 a in
     0 <= k /\ int16 (a * 2 ^ k) /\ ~ int16 (a * 2 ^ (k + 1))).
Proof.
  intros Hne. split; intros Ha k; unfold k, WebRtcSpl_NormW32, WebRtcSpl_NormW16;
    rewrite (proj2 (Z.eqb_neq _ _)), clz32_bits by done.
  - pose proof (norm_spec 32 a ltac:(lia) Ha Hne) as Hn. cbv zeta in Hn.
    set (n := if a <? 0 then Z.lnot a else a) in *.
    replace (32 - bits n - 1) with (32 - 1 - bits n) by lia. exact Hn.
  - pose proof (norm_spec 16 a ltac:(lia) Ha Hne) as Hn. cbv zeta in Hn.
    set (n := if a <? 0 then Z.lnot a else a) in *.
    replace (32 - bits n - 17) with (16 - 1 - bits n) by lia. exact Hn.
Qed.

Lemma norm_witness :
  (int32 (-5) -> let k := WebRtcSpl_NormW32 (-5) in
     0 <= k /\ int32 (-5 * 2 ^ k) /\ ~ int32 (-5 * 2 ^ (k + 1))) /\
  (int16 (-5) -> let k := WebRtcSpl_NormW16 (-5) in
     0 <= k /\ int16 (-5 * 2 ^ k) /\ ~ int16 (-5 * 2 ^ (k + 1))).
Proof. apply (norm_correct (-5)). lia. Defined.

(** ** Square root *)

(** After the bits from [N] up are decided: [root = 2 g] for the largest
    multiple [g] of [2^N] with [g^2 <= V], and [value] is the remainder. *)
Definition sqrt_inv (V N : Z) (st : Z * Z) : Prop :=
  exists q, st = (V - (q * 2 ^ N) ^ 2, 2 * (q * 2 ^ N)) /\ 0 <= q /\
    (q * 2 ^ N) ^ 2 <= V < ((q + 1) * 2 ^ N) ^ 2.

Lemma lor_add_pow2 (q N : Z) : 0 <= N -> 0 <= q ->
  Z.lor (2 * (q * 2 ^ (N + 1))) (Z.shiftl 2 N) = 2 * ((2 * q + 1) * 2 ^ N).
Proof.
  intros HN Hq. rewrite Z.shiftl_mul_pow2, Z.pow_add_r, Z.lor_comm by lia. change (2 ^ 1) with 2.
  assert (0 < 2 ^ N) by (apply Z.pow_pos_nonneg; lia).
  assert (2 ^ (N + 2) = 4 * 2 ^ N) as HP by (rewrite Z.pow_add_r by lia; lia).
  replace (2 * (q * (2 ^ N * 2))) with (Z.shiftl q (N + 2)) by (rewrite Z.shiftl_mul_pow2 by lia; lia).
  rewrite lor_shift by lia. lia.
Qed.

Lemma sqrt_step (V N : Z) (st : Z * Z) : 0 <= V < 2 ^ 31 -> 0 <= N <= 15 ->
  sqrt_inv V (N + 1) st -> exists st', WEBRTC_SPL_SQRT_ITER N st = Some st' /\ sqrt_inv V N st'.
Proof.
  intros HV HN (q & -> & Hq & Hlo & Hhi). unfold WEBRTC_SPL_SQRT_ITER.
  rewrite !Z.shiftl_mul_pow2 by lia. set (P := 2 ^ N).
  assert (2 ^ (N + 1) = 2 * P) as HP by (unfold P; rewrite Z.pow_add_r by lia; lia).
  assert (1 <= P <= 2 ^ 15) as HPr
    by (unfold P; split; [change 1 with (2 ^ 0)|]; apply Z.pow_le_mono_r; lia).
  rewrite HP in *. set (g := q * (2 * P)) in *.
  assert (0 <= g) by (unfold g; nia).
  assert (g < 46341) by (apply Z.nle_gt; intros Hg; pose proof (Z.pow_le_mono_l 46341 g 2 ltac:(lia)); change (46341 ^ 2) with 2147488281 in *; lia).
  rewrite int_add_in by lia. cbn [mbind option_bind]. unfold int_shl. fold P.
  assert ((2 * g + 1 * P) * P = (g + P) ^ 2 - g ^ 2) as Ht by lia.
  assert (2 * g + P <= 100874 /\ P <= 8192 \/ 2 * g + P <= 81920 /\ P <= 16384 \/
          2 * g + P <= 32768 /\ P <= 32768) as HgP.
  { destruct (Z.le_gt_cases N 13).
    - left. assert (P <= 2 ^ 13) by (apply Z.pow_le_mono_r; lia). lia.
    - right. assert (N = 14 \/ N = 15) as HN' by lia. unfold g, P in *. destruct HN' as [-> | ->];
        [change (2 ^ 14) with 16384 in *|change (2 ^ 15) with 32768 in *]; lia. }
  assert (0 <= (2 * g + 1 * P) * P < 2 ^ 31) as Htr.
  { split; [apply Z.mul_nonneg_nonneg; lia|].
    destruct HgP as [[? ?]|[[? ?]|[? ?]]];
      [apply (Z.le_lt_trans _ (100874 * 8192))|apply (Z.le_lt_trans _ (81920 * 16384))|
       apply (Z.le_lt_trans _ (32768 * 32768))]; try lia; apply Z.mul_le_mono_nonneg; lia. }
  rewrite int_mul_in by lia. cbn [mbind option_bind].
  destruct (Z.leb_spec ((2 * g + 1 * P) * P) (V - g ^ 2)).
  - rewrite int_add_in by nia. cbn [mbind option_bind]. eexists. split; [done|]. exists (2 * q + 1). fold P.
    split; [|split; [lia|]].
    + f_equal; [unfold g; lia|]. pose proof (lor_add_pow2 q N ltac:(lia) Hq) as HL.
      rewrite Z.shiftl_mul_pow2, HP in HL by lia. exact HL.
    + replace ((2 * q + 1) * P) with (g + P) by (unfold g; lia).
      replace ((2 * q + 1 + 1) * P) with ((q + 1) * (2 * P)) by lia. lia.
  - eexists. split; [done|]. exists (2 * q). fold P. replace (2 * q * P) with g by (unfold g; lia).
    split; [done|]. split; [lia|]. replace ((2 * q + 1) * P) with (g + P) by (unfold g; lia). lia.
Qed.

(** The steps down to bit zero. *)
Lemma sqrt_down (V : Z) (n : nat) : 0 <= V < 2 ^ 31 -> (n <= 16)%nat -> forall st, sqrt_inv V (Z.of_nat n) st ->
  exists st', sqrt_iters (rev (seqZ 0 (Z.of_nat n))) st = Some st' /\ sqrt_inv V 0 st'.
Proof.
  intros HV. induction n as [|n IH]; intros Hn st Hst; [by exists st|].
  replace (Z.of_nat (S n)) with (Z.of_nat n + 1) in * by lia.
  rewrite seqZ_app, rev_app_distr by lia. cbn [seqZ seq Z.to_nat fmap list_fmap rev app sqrt_iters Pos.to_nat Pos.iter_op].
  destruct (sqrt_step V (Z.of_nat n) st HV ltac:(lia) Hst) as (st1 & E & H1).
  change (seqZ (0 + Z.of_nat n) 1) with [0 + (0 + Z.of_nat n)]. cbn [rev app sqrt_iters].
  replace (0 + (0 + Z.of_nat n)) with (Z.of_nat n) by lia. rewrite E. cbn [mbind option_bind]. apply IH; [lia|done].
Qed.

(** A negative number is less than every number it is compared with. *)
Lemma sqrt_negative (V : Z) (l : list Z) : V < 0 -> Forall (fun N => 0 <= N <= 15) l -> sqrt_iters l (V, 0) = Some (V, 0).
Proof.
  intros HV. induction 1 as [|N l HN _ IH]; [done|]. cbn [sqrt_iters]. unfold WEBRTC_SPL_SQRT_ITER, int_shl.
  rewrite Z.shiftl_1_l. assert (0 < 2 ^ N <= 2 ^ 15) by (split; [apply Z.pow_pos_nonneg; lia|apply Z.pow_le_mono_r; lia]).
  rewrite int_add_in by lia. cbn [mbind option_bind]. rewrite int_mul_in by nia. cbn [mbind option_bind].
  rewrite (proj2 (Z.leb_gt _ _)) by nia. cbn [mbind option_bind]. exact IH.
Qed.

(** C33: for every [int32_t] no addition, subtraction or shift of the integer
    square root routine overflows, and it returns the exact floor of the
    square root; 0, as its comment says, when the number is negative. *)
Theorem sqrt_floor_correct (value : Z) : int32 value ->
  WebRtcSpl_SqrtFloor value = Some (if value <? 0 then 0 else Z.sqrt value).
Proof.
  unfold int32. intros HV. unfold WebRtcSpl_SqrtFloor. destruct (Z.ltb_spec value 0).
  - rewrite sqrt_negative; [done|lia|]. repeat (apply Forall_cons; split; [lia|]). by apply Forall_nil.
  - destruct (sqrt_down value 16 ltac:(lia) ltac:(lia) (value, 0)) as (st & E & q & -> & Hq & Hlo & Hhi).
    { exists 0. split; [f_equal; lia|split; [lia|]]. change (2 ^ Z.of_nat 16) with 65536. lia. }
    change (rev (seqZ 0 (Z.of_nat 16))) with [15; 14; 13; 12; 11; 10; 9; 8; 7; 6; 5; 4; 3; 2; 1; 0] in E. rewrite E. cbn [mbind option_bind].
    change (2 ^ 0) with 1 in *. rewrite !Z.mul_1_r in *.
    rewrite Z.shiftr_div_pow2 by lia. change (2 ^ 1) with 2. rewrite Z.mul_comm, Z.div_mul by lia.
    f_equal. symmetry. apply Z.sqrt_unique. unfold Z.succ. lia.
Qed.

Lemma sqrt_floor_witness : WebRtcSpl_SqrtFloor 2147483647 = Some (if 2147483647 <? 0 then 0 else Z.sqrt 2147483647).
Proof. apply (sqrt_floor_correct 2147483647). closed. Defined.

(** ** Division in Q31 *)

Lemma div_q31_loop_ok (k : nat) (n d q : Z) :
  0 <= n < d -> d <= 2 ^ 30 -> 0 <= q -> (q + 1) * 2 ^ Z.of_nat k <= 2 ^ 31 ->
  div_q31_loop k n d q = q * 2 ^ Z.of_nat k + n * 2 ^ Z.of_nat k / d.
Proof.
  revert n q. induction k as [|k IH]; intros n q Hn Hd Hq Hb.
  - change (2 ^ Z.of_nat 0) with 1. rewrite !Z.mul_1_r, Z.div_small by lia. cbn. lia.
  - cbn [div_q31_loop]. rewrite Nat2Z.inj_succ, Z.pow_succ_r in * by lia.
    set (P := 2 ^ Z.of_nat k) in *. assert (0 < P) by (apply Z.pow_pos_nonneg; lia).
    rewrite !Z.shiftl_mul_pow2 by lia. change (2 ^ 1) with 2.
    rewrite !swrap_small by (change (2 ^ (32 - 1)) with (2 ^ 31); nia).
    destruct (Z.leb_spec d (n * 2)).
    + rewrite IH by nia. replace (n * (2 * P)) with ((n * 2 - d) * P + P * d) by lia.
      rewrite Z.div_add by lia. lia.
    + rewrite IH by nia. replace (n * (2 * P)) with (n * 2 * P) by lia. lia.
Qed.

(** For a proper fraction with a denominator of at most [2^30] in absolute
    value, the division in Q31 returns the quotient [|num| * 2^31 / |den|]
    rounded towards zero, with the sign of the exact quotient. *)
Lemma div_q31_correct (num den : Z) :
  Z.abs num < Z.abs den <= 2 ^ 30 ->
  WebRtcSpl_DivResultInQ31 num den = Z.quot (num * 2 ^ 31) den.
Proof.
  intros Hd. unfold WebRtcSpl_DivResultInQ31. destruct (Z.eqb_spec num 0) as [->|Hne].
  { cbn. by rewrite Z.quot_0_l by lia. }
  replace (if num <? 0 then s32 (- num) else num) with (Z.abs num)
    by (destruct (Z.ltb_spec num 0); rewrite ?swrap_small by (change (2 ^ (32 - 1)) with (2 ^ 31); lia); lia).
  replace (if den <? 0 then s32 (- den) else den) with (Z.abs den)
    by (destruct (Z.ltb_spec den 0); rewrite ?swrap_small by (change (2 ^ (32 - 1)) with (2 ^ 31); lia); lia).
  rewrite div_q31_loop_ok by (change (2 ^ Z.of_nat 31) with (2 ^ 31); lia).
  change (2 ^ Z.of_nat 31) with (2 ^ 31). rewrite Z.mul_0_l, Z.add_0_l.
  rewrite <- Z.quot_div_nonneg by lia.
  destruct (Z.ltb_spec num 0), (Z.ltb_spec den 0); cbn [xorb].
  - rewrite (Z.abs_neq num), (Z.abs_neq den), Z.mul_opp_l, Z.quot_opp_opp by lia. done.
  - rewrite (Z.abs_neq num), (Z.abs_eq den), Z.mul_opp_l, Z.quot_opp_l by lia. lia.
  - rewrite (Z.abs_eq num), (Z.abs_neq den), Z.quot_opp_r by lia. lia.
  - rewrite (Z.abs_eq num), (Z.abs_eq den) by lia. done.
Qed.

Lemma div_q31_witness : WebRtcSpl_DivResultInQ31 (-3) 7 = Z.quot (-3 * 2 ^ 31) 7.
Proof. apply (div_q31_correct (-3) 7). closed. Defined.
