(* ===== verification/SplVector.v ===== *)
(** * Vector operations of the signal processing library

    [min_max_operations.c], [copy_set_operations.c],
    [vector_scaling_operations.c], [ilbc_specific_functions.c],
    [get_scaling_square.c], [energy.c], [dot_product_with_scale.c],
    [cross_correlation.c] and [auto_correlation.c] of the same directory.
    A vector is a list; a pointer into a longer block is the block and an
    offset.  Overflow of an [int] addition is [None]. *)
From S2P Require Import Prelude.
From S2P Require Import Bytes.
From S2P Require Import SplArith.
From Stdlib Require Import ZArith Lia.
From stdpp Require Import base numbers option list.
Open Scope Z_scope.

(** The sum of [int]s in the order the code adds them. *)
Fixpoint isum (acc : Z) (xs : list Z) : option Z :=
  match xs with [] => Some acc | x :: xs => acc ← int_add acc x; isum acc xs end.

(** ** Minimum and maximum *)

Definition WEBRTC_SPL_WORD16_MAX : Z := 32767.
Definition WEBRTC_SPL_WORD16_MIN : Z := -32768.
Definition WEBRTC_SPL_WORD32_MAX : Z := 2147483647.
Definition WEBRTC_SPL_WORD32_MIN : Z := -2147483648.

(** [abs] of an [int]: undefined for the smallest one. *)
Definition iabs (x : Z) : option Z := if x =? INT32_MIN then None else Some (Z.abs x).

(** The loop [for (i = 0; i < length; i++) if (v[i] > best) best = v[i]]. *)
Definition scan (better : Z -> Z -> bool) (best : Z) (xs : list Z) : Z :=
  fold_left (fun best x => if better x best then x else best) xs best.

(** The same loop keeping the index of the best element. *)
Fixpoint scan_index (better : Z -> Z -> bool) (xs : list Z) (i index best : Z) : Z :=
  match xs with
  | [] => index
  | x :: xs => if better x best then scan_index better xs (i + 1) i x
               else scan_index better xs (i + 1) index best
  end.

Definition WebRtcSpl_MaxAbsValueW16C (vector : list Z) (length : Z) : option Z :=
  xs ← bread vector 0 length;
  let maximum := scan Z.gtb 0 (Z.abs <$> xs) in
  Some (s16 (if WEBRTC_SPL_WORD16_MAX <? maximum then WEBRTC_SPL_WORD16_MAX else maximum)).

Definition WebRtcSpl_MaxAbsValueW32C (vector : list Z) (length : Z) : option Z :=
  xs ← bread vector 0 length;
  xs ← mapM iabs xs;
  let maximum := scan Z.gtb 0 xs in
  Some (Z.min maximum WEBRTC_SPL_WORD32_MAX).

Definition WebRtcSpl_MaxValueW16C (vector : list Z) (length : Z) : option Z :=
  xs ← bread vector 0 length; Some (scan Z.gtb WEBRTC_SPL_WORD16_MIN xs).
Definition WebRtcSpl_MaxValueW32C (vector : list Z) (length : Z) : option Z :=
  xs ← bread vector 0 length; Some (scan Z.gtb WEBRTC_SPL_WORD32_MIN xs).
Definition WebRtcSpl_MinValueW16C (vector : list Z) (length : Z) : option Z :=
  xs ← bread vector 0 length; Some (scan Z.ltb WEBRTC_SPL_WORD16_MAX xs).
Definition WebRtcSpl_MinValueW32C (vector : list Z) (length : Z) : option Z :=
  xs ← bread vector 0 length; Some (scan Z.ltb WEBRTC_SPL_WORD32_MAX xs).

Definition WebRtcSpl_MaxAbsIndexW16 (vector : list Z) (length : Z) : option Z :=
  xs ← bread vector 0 length; Some (scan_index Z.gtb (Z.abs <$> xs) 0 0 0).
Definition WebRtcSpl_MaxIndexW16 (vector : list Z) (length : Z) : option Z :=
  xs ← bread vector 0 length; Some (scan_index Z.gtb xs 0 0 WEBRTC_SPL_WORD16_MIN).
Definition WebRtcSpl_MaxIndexW32 (vector : list Z) (length : Z) : option Z :=
  xs ← bread vector 0 length; Some (scan_index Z.gtb xs 0 0 WEBRTC_SPL_WORD32_MIN).
Definition WebRtcSpl_MinIndexW16 (vector : list Z) (length : Z) : option Z :=
  xs ← bread vector 0 length; Some (scan_index Z.ltb xs 0 0 WEBRTC_SPL_WORD16_MAX).
Definition WebRtcSpl_MinIndexW32 (vector : list Z) (length : Z) : option Z :=
  xs ← bread vector 0 length; Some (scan_index Z.ltb xs 0 0 WEBRTC_SPL_WORD32_MAX).

(** ** Copy and set *)

Definition WebRtcSpl_MemSetW16 (ptr : list Z) (set_value length : Z) : option (list Z) :=
  bwrite ptr 0 (replicate (Z.to_nat length) set_value).
Definition WebRtcSpl_MemSetW32 (ptr : list Z) (set_value length : Z) : option (list Z) :=
  bwrite ptr 0 (replicate (Z.to_nat length) set_value).
Definition WebRtcSpl_ZerosArrayW16 (vector : list Z) (length : Z) : option (list Z) :=
  WebRtcSpl_MemSetW16 vector 0 length.
Definition WebRtcSpl_ZerosArrayW32 (vector : list Z) (length : Z) : option (list Z) :=
  WebRtcSpl_MemSetW32 vector 0 length.

(** [for (j = 0; j < length; j++) *destPtr-- = *sourcePtr++], [destPtr]
    starting at offset [p] of the block [dest]. *)
Fixpoint reversed_copy (dest : list Z) (p : Z) (src : list Z) : option (list Z) :=
  match src with
  | [] => Some dest
  | x :: src => dest ← aset dest p x; reversed_copy dest (p - 1) src
  end.

Definition WebRtcSpl_MemCpyReversedOrder (dest : list Z) (p : Z) (source : list Z) (length : Z)
  : option (list Z) :=
  src ← bread source 0 length; reversed_copy dest p src.

Definition WebRtcSpl_CopyFromEndW16 (vector_in : list Z) (length samples : Z) (vector_out : list Z)
  : option (list Z) :=
  src ← bread vector_in (length - samples) samples; bwrite vector_out 0 src.

(** ** Scaling *)

(** [out[i] = f(in[i])] for [i < length]. *)
Definition map_vec (f : Z -> Z) (out inp : list Z) (length : Z) : option (list Z) :=
  xs ← bread inp 0 length; bwrite out 0 (f <$> xs).

(** [out[i] = f(in1[i], in2[i])] for [i < length]. *)
Definition map2_vec (f : Z -> Z -> Z) (out in1 in2 : list Z) (length : Z) : option (list Z) :=
  xs ← bread in1 0 length; ys ← bread in2 0 length; bwrite out 0 (zip_with f xs ys).

Definition WebRtcSpl_VectorBitShiftW16 (res : list Z) (length : Z) (inp : list Z) (right_shifts : Z) :=
  map_vec (fun x => if 0 <? right_shifts then s16 (Z.shiftr x right_shifts)
                    else s16 (s32 (Z.shiftl x (- right_shifts)))) res inp length.

Definition WebRtcSpl_VectorBitShiftW32 (res : list Z) (length : Z) (inp : list Z) (right_shifts : Z) :=
  map_vec (fun x => if 0 <? right_shifts then Z.shiftr x right_shifts
                    else s32 (Z.shiftl x (- right_shifts))) res inp length.

Definition WebRtcSpl_VectorBitShiftW32ToW16 (out : list Z) (length : Z) (inp : list Z) (right_shifts : Z) :=
  map_vec (fun x => WebRtcSpl_SatW32ToW16
             (if 0 <=? right_shifts then Z.shiftr x right_shifts
              else s32 (Z.shiftl x (- right_shifts)))) out inp length.

Definition WebRtcSpl_ScaleVector (in_vector out_vector : list Z) (gain length right_shifts : Z) :=
  map_vec (fun x => s16 (Z.shiftr (x * gain) right_shifts)) out_vector in_vector length.

Definition WebRtcSpl_ScaleVectorWithSat (in_vector out_vector : list Z) (gain length right_shifts : Z) :=
  map_vec (fun x => WebRtcSpl_SatW32ToW16 (Z.shiftr (x * gain) right_shifts)) out_vector in_vector length.

Definition WebRtcSpl_ScaleAndAddVectors (in1 : list Z) (gain1 shift1 : Z) (in2 : list Z)
    (gain2 shift2 : Z) (out : list Z) (length : Z) :=
  map2_vec (fun x y => s16 (s16 (Z.shiftr (gain1 * x) shift1) + s16 (Z.shiftr (gain2 * y) shift2)))
    out in1 in2 length.

(** The vectors are not [NULL]; the result is the return value and the
    output vector.  The shift of 1 by [right_shifts] comes first and is
    undefined outside of 0 .. 31. *)
Definition WebRtcSpl_ScaleAndAddVectorsWithRoundC (in1 : list Z) (scale1 : Z) (in2 : list Z)
    (scale2 right_shifts : Z) (out : list Z) (length : Z) : option (Z * list Z) :=
  if (right_shifts <? 0) || (31 <? right_shifts) then None
  else
    let round_value := Z.shiftr (s32 (Z.shiftl 1 right_shifts)) 1 in
    if (length =? 0) || (right_shifts <? 0) then Some (-1, out)
    else
    out ← map2_vec (fun x y => s16 (Z.shiftr (x * scale1 + y * scale2 + round_value) right_shifts))
            out in1 in2 length;
    Some (0, out).

(** [winptr] starts at offset [w] and moves down. *)
Definition WebRtcSpl_ReverseOrderMultArrayElements (out inp win : list Z) (w length right_shifts : Z) :=
  ws ← bread win (w - length + 1) length;
  map2_vec (fun x y => s16 (Z.shiftr (x * y) right_shifts)) out inp (reverse ws) length.

Definition WebRtcSpl_ElementwiseVectorMult (out inp win : list Z) (length right_shifts : Z) :=
  map2_vec (fun x y => s16 (Z.shiftr (x * y) right_shifts)) out inp win length.

Definition WebRtcSpl_AddVectorsAndShift (out in1 in2 : list Z) (length right_shifts : Z) :=
  map2_vec (fun x y => s16 (Z.shiftr (x + y) right_shifts)) out in1 in2 length.

Definition WebRtcSpl_AddAffineVectorToVector (out inp : list Z) (gain add_constant right_shifts length : Z) :=
  map2_vec (fun o x => s16 (o + s16 (Z.shiftr (s32 (x * gain + add_constant)) right_shifts)))
    out out inp length.

Definition WebRtcSpl_AffineTransformVector (out inp : list Z) (gain add_constant right_shifts length : Z) :=
  map_vec (fun x => s16 (Z.shiftr (s32 (x * gain + add_constant)) right_shifts)) out inp length.

(** ** Sums of products *)

Definition scaling_smax (xs : list Z) : Z :=
  fold_left (fun smax x => let sabs := s16 (if 0 <? x then x else - x) in
                           if smax <? sabs then sabs else smax) xs (-1).

Definition WebRtcSpl_GetScalingSquare (in_vector : list Z) (in_vector_length times : Z) : option Z :=
  let nbits := WebRtcSpl_GetSizeInBits (u32 times) in
  xs ← bread in_vector 0 in_vector_length;
  let smax := scaling_smax xs in
  let t := WebRtcSpl_NormW32 (smax * smax) in
  Some (if smax =? 0 then 0 else if nbits <? t then 0 else nbits - t).

(** Result: the energy and the scale factor. *)
Definition WebRtcSpl_Energy (vector : list Z) (vector_length : Z) : option (Z * Z) :=
  scaling ← WebRtcSpl_GetScalingSquare vector vector_length vector_length;
  xs ← bread vector 0 vector_length;
  en ← isum 0 ((fun x => Z.shiftr (x * x) scaling) <$> xs);
  Some (en, scaling).

(** One term: [(v1[i] * v2[i]) >> scaling]. *)
Definition term (v1 v2 : list Z) (o2 scaling i : Z) : option Z :=
  x ← aget v1 i; y ← aget v2 (o2 + i); Some (Z.shiftr (x * y) scaling).

(** [for (; i + 3 < length; i += 4)] with the body unrolled four times; the
    result is the sum and [i]. *)
Fixpoint unrolled (fuel : nat) (v1 v2 : list Z) (o2 scaling length i sum : Z) : option (Z * Z) :=
  if i + 3 <? length then
    match fuel with
    | O => None
    | S fuel =>
      t ← term v1 v2 o2 scaling (i + 0); sum ← int_add sum t;
      t ← term v1 v2 o2 scaling (i + 1); sum ← int_add sum t;
      t ← term v1 v2 o2 scaling (i + 2); sum ← int_add sum t;
      t ← term v1 v2 o2 scaling (i + 3); sum ← int_add sum t;
      unrolled fuel v1 v2 o2 scaling length (i + 4) sum
    end
  else Some (sum, i).

(** [for (; i < length; i++)] *)
Fixpoint plain (fuel : nat) (v1 v2 : list Z) (o2 scaling length i sum : Z) : option Z :=
  if i <? length then
    match fuel with
    | O => None
    | S fuel =>
      t ← term v1 v2 o2 scaling i; sum ← int_add sum t;
      plain fuel v1 v2 o2 scaling length (i + 1) sum
    end
  else Some sum.

Definition WebRtcSpl_DotProductWithScale (vector1 vector2 : list Z) (length scaling : Z) : option Z :=
  '(sum, i) ← unrolled (Z.to_nat length) vector1 vector2 0 scaling length 0 0;
  plain (Z.to_nat length) vector1 vector2 0 scaling length i sum.

(** [seq2] starts at offset [o2] of its block. *)
Fixpoint cross_loop (n : nat) (seq1 seq2 : list Z) (o2 dim_seq right_shifts step : Z) : option (list Z) :=
  match n with
  | O => Some []
  | S n =>
    corr ← plain (Z.to_nat dim_seq) seq1 seq2 o2 right_shifts dim_seq 0 0;
    rest ← cross_loop n seq1 seq2 (o2 + step) dim_seq right_shifts step;
    Some (corr :: rest)
  end.

Definition WebRtcSpl_CrossCorrelationC (cross_correlation seq1 seq2 : list Z)
    (o2 dim_seq dim_cross_correlation right_shifts step_seq2 : Z) : option (list Z) :=
  r ← cross_loop (Z.to_nat dim_cross_correlation) seq1 seq2 o2 dim_seq right_shifts step_seq2;
  bwrite cross_correlation 0 r.

Definition auto_scaling (smax in_vector_length : Z) : Z :=
  if smax =? 0 then 0
  else
    let nbits := WebRtcSpl_GetSizeInBits (u32 in_vector_length) in
    let t := WebRtcSpl_NormW32 (smax * smax) in
    if nbits <? t then 0 else nbits - t.

(** The sums for lags [i .. order]. *)
Fixpoint auto_loop (n : nat) (v : list Z) (length scaling i : Z) : option (list Z) :=
  match n with
  | O => Some []
  | S n =>
    '(sum, j) ← unrolled (Z.to_nat length) v v i scaling (length - i) 0 0;
    sum ← plain (Z.to_nat length) v v i scaling (length - i) j sum;
    rest ← auto_loop n v length scaling (i + 1);
    Some (sum :: rest)
  end.

(** Result: the return value, the correlations and the scale. *)
Definition WebRtcSpl_AutoCorrelation (in_vector : list Z) (in_vector_length order : Z) (result : list Z)
  : option (Z * list Z * Z) :=
  if in_vector_length <? order then None
  else
  smax ← WebRtcSpl_MaxAbsValueW16C in_vector in_vector_length;
  let scaling := auto_scaling smax in_vector_length in
  r ← auto_loop (Z.to_nat (order + 1)) in_vector in_vector_length scaling 0;
  result ← bwrite result 0 r;
  Some (order + 1, result, scaling).

(** ** Minimum and maximum: the loops find the extreme *)

Section Scan.
Variable better : Z -> Z -> bool.
(** [better x y] is a strict order and [worse x y] its complement. *)
Variable le : Z -> Z -> Prop.
Hypothesis Hbetter : forall x y, if better x y then le y x else le x y.
Hypothesis Htrans : forall x y z, le x y -> le y z -> le x z.
Hypothesis Hrefl : forall x, le x x.

Lemma scan_ok (xs : list Z) (best : Z) :
  (scan better best xs = best \/ scan better best xs ∈ xs) /\
  le best (scan better best xs) /\ Forall (fun x => le x (scan better best xs)) xs.
Proof.
  revert best. induction xs as [|x xs IH]; intros best; unfold scan in *; cbn [fold_left].
  - split_and!; auto.
  - pose proof (Hbetter x best) as Hb. destruct (better x best).
    + destruct (IH x) as (H1 & H2 & H3). split_and!; eauto.
      right. apply elem_of_cons. destruct H1; auto.
    + destruct (IH best) as (H1 & H2 & H3). split_and!; eauto.
      rewrite elem_of_cons. destruct H1; auto.
Qed.

Hypothesis Hstrict : forall x y z, better x y = true -> le z y -> better x z = true.

(** State of the index loop after the prefix [ys]: [best] is reached first
    at [index], or nothing was better than the start value [init]. *)
Definition index_inv (init : Z) (ys : list Z) (index best : Z) : Prop :=
  Forall (fun y => le y best) ys /\
  ((0 <= index < zlen ys /\ zn ys index = best /\
    forall j, 0 <= j < index -> better best (zn ys j) = true) \/
   (index = 0 /\ best = init)).

Lemma scan_index_inv (init : Z) (xs ys : list Z) (index best : Z) :
  index_inv init ys index best ->
  exists best', index_inv init (ys ++ xs) (scan_index better xs (zlen ys) index best) best'.
Proof.
  revert ys index best. induction xs as [|x xs IH]; intros ys index best (Hall & Hi); cbn [scan_index].
  - exists best. rewrite app_nil_r. by split.
  - replace (ys ++ x :: xs) with ((ys ++ [x]) ++ xs) by by rewrite <- app_assoc.
    assert (zlen (ys ++ [x]) = zlen ys + 1) as Hl by (arr; lia). rewrite <- Hl.
    assert (zn (ys ++ [x]) (zlen ys) = x) as Hz by (rewrite zn_app_r, Z.sub_diag by lia; done).
    pose proof (zlen_nonneg ys). pose proof (Hbetter x best) as Hb.
    destruct (better x best) eqn:Eb; apply IH.
    + split; [apply Forall_app; split; [|by constructor]; eapply Forall_impl; [exact Hall|]; intros y Hy; exact (Htrans _ _ _ Hy Hb)|].
      left. split_and!; [lia..|done|].
      intros j Hj. rewrite zn_app_l by lia. apply (Hstrict _ best); [done|].
      eapply (proj1 (Forall_forall _ _) Hall). apply zn_elem. lia.
    + split; [apply Forall_app; split; [done|by constructor]|].
      destruct Hi as [(Hr & Hzi & Hf)|[? ?]]; [left|by right].
      split_and!; [lia..|by rewrite zn_app_l by lia|].
      intros j Hj. rewrite zn_app_l by lia. auto.
Qed.

Lemma scan_index_ok (init : Z) (xs : list Z) : xs <> [] -> Forall (le init) xs ->
  let r := scan_index better xs 0 0 init in
  0 <= r < zlen xs /\ Forall (fun y => le y (zn xs r)) xs /\
  forall j, 0 <= j < r -> better (zn xs r) (zn xs j) = true.
Proof.
  intros Hne Hworst r.
  destruct (scan_index_inv init xs [] 0 init) as (best & Hall & Hi).
  { split; [constructor|by right]. }
  cbn [app] in *. change (zlen []) with 0 in Hi. fold r in Hi. destruct Hi as [(Hr & Hz & Hf)|[Hr ->]].
  - rewrite Hz. auto.
  - rewrite Hr. assert (0 < zlen xs) by (destruct xs; [done|]; rewrite zlen_cons; pose proof (zlen_nonneg xs); lia).
    split_and!; try lia. eapply Forall_impl; [exact Hall|]. intros y Hy. eapply Htrans; [exact Hy|].
    eapply (proj1 (Forall_forall _ _) Hworst). apply zn_elem. lia.
Qed.
End Scan.

Lemma gtb_better (x y : Z) : if Z.gtb x y then y <= x else x <= y.
Proof. rewrite Z.gtb_ltb. destruct (Z.ltb_spec y x); lia. Qed.
Lemma ltb_better (x y : Z) : if Z.ltb x y then y >= x else x >= y.
Proof. destruct (Z.ltb_spec x y); lia. Qed.

Definition scan_gtb := scan_ok Z.gtb Z.le gtb_better Z.le_trans Z.le_refl.
Definition scan_ltb := scan_ok Z.ltb Z.ge ltb_better Zge_trans (fun x => Z.le_ge _ _ (Z.le_refl x)).

Definition is_max (m : Z) (xs : list Z) : Prop := m ∈ xs /\ Forall (fun x => x <= m) xs.
Definition is_min (m : Z) (xs : list Z) : Prop := m ∈ xs /\ Forall (fun x => m <= x) xs.

Lemma scan_is_max (init : Z) (xs : list Z) : xs <> [] -> Forall (fun x => init <= x) xs ->
  is_max (scan Z.gtb init xs) xs.
Proof.
  intros Hne Hw. destruct (scan_gtb xs init) as (Hin & Hle & Hall). split; [|done].
  destruct Hin as [Heq|]; [|done]. destruct xs as [|x xs]; [done|].
  assert (scan Z.gtb init (x :: xs) = x) as ->; [|apply list_elem_of_here].
  pose proof (Forall_inv Hw). pose proof (Forall_inv Hall). cbv beta in *. lia.
Qed.

Lemma scan_is_min (init : Z) (xs : list Z) : xs <> [] -> Forall (fun x => x <= init) xs ->
  is_min (scan Z.ltb init xs) xs.
Proof.
  intros Hne Hw. destruct (scan_ltb xs init) as (Hin & Hle & Hall). split.
  - destruct Hin as [Heq|]; [|done]. destruct xs as [|x xs]; [done|].
    assert (scan Z.ltb init (x :: xs) = x) as ->; [|apply list_elem_of_here].
    pose proof (Forall_inv Hw). pose proof (Forall_inv Hall). cbv beta in *. lia.
  - eapply Forall_impl; [exact Hall|]. intros x Hx. cbv beta in *. lia.
Qed.

Lemma bread_all (xs : list Z) : bread xs 0 (zlen xs) = Some xs.
Proof. pose proof (zlen_nonneg xs). rewrite bread_in by lia. by rewrite slice_all. Qed.

Lemma max_abs_ok (xs : list Z) : xs <> [] -> Forall int16 xs ->
  exists ab, WebRtcSpl_MaxAbsValueW16C xs (zlen xs) = Some (Z.min ab 32767) /\ is_max ab (Z.abs <$> xs).
Proof.
  intros Hne H16. unfold WebRtcSpl_MaxAbsValueW16C. rewrite bread_all. cbn [mbind option_bind].
  exists (scan Z.gtb 0 (Z.abs <$> xs)).
  assert (is_max (scan Z.gtb 0 (Z.abs <$> xs)) (Z.abs <$> xs)) as Ha.
  { apply scan_is_max; [by destruct xs|]. apply Forall_fmap, Forall_true. intros; cbn; lia. }
  split; [|done]. f_equal. set (m := scan Z.gtb 0 (Z.abs <$> xs)) in *. destruct Ha as [Hin _].
  apply list_elem_of_fmap in Hin as (x & -> & _). unfold WEBRTC_SPL_WORD16_MAX.
  rewrite swrap_small by (change (2 ^ (16 - 1)) with 32768; destruct (Z.ltb_spec 32767 (Z.abs x)); lia).
  destruct (Z.ltb_spec 32767 (Z.abs x)); lia.
Qed.

(** On a non-empty vector of 16-bit samples the maximum and minimum
    functions return the greatest and the least sample, and the maximum
    absolute value function the greatest magnitude, except that 32768 is
    reported as 32767. *)
Lemma min_max_w16 (xs : list Z) : xs <> [] -> Forall int16 xs ->
  exists hi lo ab,
    WebRtcSpl_MaxValueW16C xs (zlen xs) = Some hi /\ is_max hi xs /\
    WebRtcSpl_MinValueW16C xs (zlen xs) = Some lo /\ is_min lo xs /\
    WebRtcSpl_MaxAbsValueW16C xs (zlen xs) = Some (Z.min ab 32767) /\ is_max ab (Z.abs <$> xs).
Proof.
  intros Hne H16. destruct (max_abs_ok xs Hne H16) as (ab & Hab & Hmax).
  unfold WebRtcSpl_MaxValueW16C, WebRtcSpl_MinValueW16C. rewrite bread_all. cbn [mbind option_bind].
  exists (scan Z.gtb WEBRTC_SPL_WORD16_MIN xs), (scan Z.ltb WEBRTC_SPL_WORD16_MAX xs), ab.
  split_and!; auto; [apply scan_is_max|apply scan_is_min]; try done; eapply Forall_impl; [exact H16| |exact H16|];
    unfold int16, WEBRTC_SPL_WORD16_MIN, WEBRTC_SPL_WORD16_MAX; intros; cbv beta in *; lia.
Qed.

Lemma min_max_witness : exists hi lo ab,
  WebRtcSpl_MaxValueW16C [3; -32768; 7] 3 = Some hi /\ is_max hi [3; -32768; 7] /\
  WebRtcSpl_MinValueW16C [3; -32768; 7] 3 = Some lo /\ is_min lo [3; -32768; 7] /\
  WebRtcSpl_MaxAbsValueW16C [3; -32768; 7] 3 = Some (Z.min ab 32767) /\
  is_max ab (Z.abs <$> [3; -32768; 7]).
Proof. apply (min_max_w16 [3; -32768; 7]); [done|]. repeat constructor; closed. Defined.

Lemma max_index (init : Z) (xs : list Z) : xs <> [] -> Forall (fun x => init <= x) xs ->
  let i := scan_index Z.gtb xs 0 0 init in
  0 <= i < zlen xs /\
  forall p, 0 <= p < zlen xs -> zn xs p <= zn xs i /\ (p < i -> zn xs p < zn xs i).
Proof.
  intros Hne Hw i. unfold i.
  destruct (scan_index_ok Z.gtb Z.le gtb_better Z.le_trans Z.le_refl) with (init := init) (xs := xs)
    as (H1 & H2 & H3); auto.
  { intros x y z. rewrite !Z.gtb_ltb, !Z.ltb_lt. lia. }
  split; [done|]. intros p Hp. split; [apply (proj1 (Forall_forall _ _) H2), zn_elem; lia|].
  intros Hlt. specialize (H3 p ltac:(lia)). rewrite Z.gtb_ltb, Z.ltb_lt in H3. lia.
Qed.

Lemma min_index (init : Z) (xs : list Z) : xs <> [] -> Forall (fun x => x <= init) xs ->
  let i := scan_index Z.ltb xs 0 0 init in
  0 <= i < zlen xs /\
  forall p, 0 <= p < zlen xs -> zn xs i <= zn xs p /\ (p < i -> zn xs i < zn xs p).
Proof.
  intros Hne Hw i. unfold i.
  destruct (scan_index_ok Z.ltb Z.ge ltb_better Zge_trans (fun x => Z.le_ge _ _ (Z.le_refl x)))
    with (init := init) (xs := xs) as (H1 & H2 & H3); auto.
  { intros x y z. rewrite !Z.ltb_lt. lia. }
  { eapply Forall_impl; [exact Hw|]. intros; cbv beta in *; lia. }
  split; [done|]. intros p Hp. split; [apply Z.ge_le, (proj1 (Forall_forall _ _) H2), zn_elem; lia|].
  intros Hlt. specialize (H3 p ltac:(lia)). rewrite Z.ltb_lt in H3. lia.
Qed.

(** The index functions return the first position of the greatest
    respectively least sample, and of the greatest magnitude, of a non-empty
    vector of 16-bit samples. *)
Lemma min_max_index_w16 (xs : list Z) : xs <> [] -> Forall int16 xs ->
  exists i j k,
    WebRtcSpl_MaxIndexW16 xs (zlen xs) = Some i /\ 0 <= i < zlen xs /\
    (forall p, 0 <= p < zlen xs -> zn xs p <= zn xs i /\ (p < i -> zn xs p < zn xs i)) /\
    WebRtcSpl_MinIndexW16 xs (zlen xs) = Some j /\ 0 <= j < zlen xs /\
    (forall p, 0 <= p < zlen xs -> zn xs j <= zn xs p /\ (p < j -> zn xs j < zn xs p)) /\
    WebRtcSpl_MaxAbsIndexW16 xs (zlen xs) = Some k /\ 0 <= k < zlen xs /\
    (forall p, 0 <= p < zlen xs -> Z.abs (zn xs p) <= Z.abs (zn xs k) /\
                                   (p < k -> Z.abs (zn xs p) < Z.abs (zn xs k))).
Proof.
  intros Hne H16. unfold WebRtcSpl_MaxIndexW16, WebRtcSpl_MinIndexW16, WebRtcSpl_MaxAbsIndexW16.
  rewrite bread_all. cbn [mbind option_bind].
  destruct (max_index WEBRTC_SPL_WORD16_MIN xs Hne) as [HM1 HM2].
  { eapply Forall_impl; [exact H16|]. unfold int16, WEBRTC_SPL_WORD16_MIN. intros; cbv beta in *; lia. }
  destruct (min_index WEBRTC_SPL_WORD16_MAX xs Hne) as [Hm1 Hm2].
  { eapply Forall_impl; [exact H16|]. unfold int16, WEBRTC_SPL_WORD16_MAX. intros; cbv beta in *; lia. }
  destruct (max_index 0 (Z.abs <$> xs)) as [HA1 HA2]; [by destruct xs| |].
  { apply Forall_fmap, Forall_true. intros; cbn; lia. }
  assert (zlen (Z.abs <$> xs) = zlen xs) as Hl by (unfold zlen; by rewrite length_fmap).
  rewrite Hl in *. eexists _, _, _. split_and!; try done; try lia.
  intros p Hp. specialize (HA2 p Hp). by rewrite !zn_fmap in HA2 by lia.
Qed.

Lemma min_max_index_witness : exists i j k,
  WebRtcSpl_MaxIndexW16 [3; 7; -8; 7] 4 = Some i /\ 0 <= i < 4 /\
  (forall p, 0 <= p < 4 -> zn [3; 7; -8; 7] p <= zn [3; 7; -8; 7] i /\
                           (p < i -> zn [3; 7; -8; 7] p < zn [3; 7; -8; 7] i)) /\
  WebRtcSpl_MinIndexW16 [3; 7; -8; 7] 4 = Some j /\ 0 <= j < 4 /\
  (forall p, 0 <= p < 4 -> zn [3; 7; -8; 7] j <= zn [3; 7; -8; 7] p /\
                           (p < j -> zn [3; 7; -8; 7] j < zn [3; 7; -8; 7] p)) /\
  WebRtcSpl_MaxAbsIndexW16 [3; 7; -8; 7] 4 = Some k /\ 0 <= k < 4 /\
  (forall p, 0 <= p < 4 -> Z.abs (zn [3; 7; -8; 7] p) <= Z.abs (zn [3; 7; -8; 7] k) /\
                           (p < k -> Z.abs (zn [3; 7; -8; 7] p) < Z.abs (zn [3; 7; -8; 7] k))).
Proof. apply (min_max_index_w16 [3; 7; -8; 7]); [done|]. repeat constructor; closed. Defined.

(** ** Sums of products *)

Fixpoint zsum (xs : list Z) : Z := match xs with [] => 0 | x :: xs => x + zsum xs end.

(** A sum of terms bounded by [b] does not overflow. *)
Lemma isum_ok (b : Z) (xs : list Z) (acc : Z) : 0 <= b ->
  Forall (fun x => - b <= x <= b) xs -> Z.abs acc + zlen xs * b < 2 ^ 31 ->
  isum acc xs = Some (acc + zsum xs).
Proof.
  intros Hb0 Hall. revert acc. induction Hall as [|x xs Hx _ IH]; intros acc Hb; cbn [isum zsum].
  - by rewrite Z.add_0_r.
  - rewrite zlen_cons in Hb. pose proof (zlen_nonneg xs).
    rewrite int_add_in by nia. cbn [mbind option_bind]. rewrite IH by nia. f_equal. lia.
Qed.

(** The terms of a loop, and the loops as sums over them. *)
Definition terms (v1 v2 : list Z) (o2 scaling i n : Z) : option (list Z) :=
  mapM (term v1 v2 o2 scaling) (seqZ i n).

Lemma terms_cons (v1 v2 : list Z) (o2 scaling i n : Z) : 0 < n ->
  terms v1 v2 o2 scaling i n =
  (t ← term v1 v2 o2 scaling i; ts ← terms v1 v2 o2 scaling (i + 1) (n - 1); Some (t :: ts)).
Proof.
  intros Hn. unfold terms. rewrite seqZ_cons by lia. unfold Z.succ, Z.pred.
  replace (n + -1) with (n - 1) by lia. done.
Qed.

Lemma plain_sum (fuel : nat) (v1 v2 : list Z) (o2 scaling length i sum : Z) :
  length - i <= Z.of_nat fuel ->
  plain fuel v1 v2 o2 scaling length i sum =
  (ts ← terms v1 v2 o2 scaling i (length - i); isum sum ts).
Proof.
  revert i sum. induction fuel as [|fuel IH]; intros i sum Hf; cbn [plain];
    destruct (Z.ltb_spec i length); try lia.
  2: { rewrite terms_cons by lia. destruct (term v1 v2 o2 scaling i) as [t|]; [|done].
       cbn [mbind option_bind]. replace (length - i - 1) with (length - (i + 1)) by lia.
       destruct (int_add sum t) as [sum'|] eqn:Es; cbn [mbind option_bind].
       - rewrite IH by lia. destruct (terms _ _ _ _ _ _); [|done]. cbn [mbind option_bind isum]. by rewrite Es.
       - destruct (terms _ _ _ _ _ _); [|done]. cbn [mbind option_bind isum]. by rewrite Es. }
  all: unfold terms; rewrite seqZ_nil by lia; done.
Qed.

(** Four plain steps make one unrolled step. *)
Lemma unrolled_plain (fuel fuel' : nat) (v1 v2 : list Z) (o2 scaling length i sum : Z) :
  length - i <= Z.of_nat fuel -> length - i <= Z.of_nat fuel' ->
  ('(s, j) ← unrolled fuel v1 v2 o2 scaling length i sum;
   plain fuel' v1 v2 o2 scaling length j s) =
  (ts ← terms v1 v2 o2 scaling i (length - i); isum sum ts).
Proof.
  revert i sum. induction fuel as [|fuel IH]; intros i sum Hf Hf'; cbn [unrolled];
    destruct (Z.ltb_spec (i + 3) length); try lia;
    try (cbn [mbind option_bind]; apply plain_sum; lia).
  rewrite Z.add_0_r. rewrite !terms_cons by lia.
  replace (length - i - 1 - 1 - 1 - 1) with (length - (i + 4)) by lia.
  replace (i + 1 + 1) with (i + 2) by lia. replace (i + 2 + 1) with (i + 3) by lia.
  replace (i + 3 + 1) with (i + 4) by lia.
  destruct (term v1 v2 o2 scaling i) as [t0|]; [|done]. cbn [mbind option_bind].
  destruct (term v1 v2 o2 scaling (i + 1)) as [t1|]; [|by destruct (int_add sum t0)]. cbn [mbind option_bind].
  destruct (term v1 v2 o2 scaling (i + 2)) as [t2|];
    [|by destruct (int_add sum t0) as [?|]; [|done]; cbn [mbind option_bind]; destruct (int_add _ t1)].
  cbn [mbind option_bind].
  destruct (term v1 v2 o2 scaling (i + 3)) as [t3|];
    [|by destruct (int_add sum t0) as [?|]; [|done]; cbn [mbind option_bind];
         destruct (int_add _ t1) as [?|]; [|done]; cbn [mbind option_bind]; destruct (int_add _ t2)].
  cbn [mbind option_bind].
  destruct (terms v1 v2 o2 scaling (i + 4) (length - (i + 4))) as [ts|] eqn:Et; cbn [mbind option_bind isum];
    (destruct (int_add sum t0) as [s0|]; [|done]); cbn [mbind option_bind];
    (destruct (int_add s0 t1) as [s1|]; [|done]); cbn [mbind option_bind];
    (destruct (int_add s1 t2) as [s2|]; [|done]); cbn [mbind option_bind];
    (destruct (int_add s2 t3) as [s3|]; [|done]); cbn [mbind option_bind];
    rewrite IH, Et by lia; done.
Qed.

(** The dot product computed with the loop unrolled four times is the
    plain left-to-right sum of the scaled products, for every length; both
    are undefined together when a partial sum overflows or a vector is too
    short. *)
Lemma dot_product_unrolled (vector1 vector2 : list Z) (length scaling : Z) : 0 <= length ->
  WebRtcSpl_DotProductWithScale vector1 vector2 length scaling =
  (ts ← mapM (fun i => x ← aget vector1 i; y ← aget vector2 i; Some (Z.shiftr (x * y) scaling))
          (seqZ 0 length);
   isum 0 ts).
Proof.
  intros Hl. unfold WebRtcSpl_DotProductWithScale. rewrite unrolled_plain by lia.
  rewrite Z.sub_0_r. unfold terms. done.
Qed.

Lemma dot_product_witness :
  WebRtcSpl_DotProductWithScale [1; 2; 3; 4; 5; 6] [7; 8; 9; 10; 11; 12] 6 1 =
  (ts ← mapM (fun i => x ← aget [1; 2; 3; 4; 5; 6] i; y ← aget [7; 8; 9; 10; 11; 12] i;
                       Some (Z.shiftr (x * y) 1)) (seqZ 0 6);
   isum 0 ts).
Proof. apply (dot_product_unrolled [1; 2; 3; 4; 5; 6] [7; 8; 9; 10; 11; 12] 6 1). lia. Defined.

(** *** The scaling prevents overflow *)

Lemma shiftr_bound (p e s : Z) : 0 <= s <= e -> Z.abs p <= 2 ^ e -> Z.abs (Z.shiftr p s) <= 2 ^ (e - s).
Proof.
  intros Hs Hp. rewrite Z.shiftr_div_pow2 by lia.
  assert (2 ^ e = 2 ^ (e - s) * 2 ^ s) as He by (rewrite <- Z.pow_add_r by lia; f_equal; lia).
  assert (0 < 2 ^ s) by (apply Z.pow_pos_nonneg; lia). apply Z.abs_le. split.
  - apply Z.div_le_lower_bound; lia.
  - apply Z.div_le_upper_bound; lia.
Qed.

Lemma pow2_le (a b : Z) : 0 <= a <= b -> 2 ^ a <= 2 ^ b.
Proof. intros. apply Z.pow_le_mono_r; lia. Qed.

(** [n] terms of magnitude at most [2 ^ bits (smax^2)], scaled down. *)
Lemma auto_scaling_ok (smax n : Z) : 0 < smax <= 32768 -> 0 < n < 2 ^ 31 ->
  exists b, 0 <= b /\ n * b < 2 ^ 31 /\ 0 <= auto_scaling smax n /\
    forall p, Z.abs p <= 2 ^ bits (smax * smax) -> Z.abs (Z.shiftr p (auto_scaling smax n)) <= b.
Proof.
  intros Hs Hn. unfold auto_scaling. rewrite (proj2 (Z.eqb_neq _ _)) by lia.
  assert (0 < smax * smax < 2 ^ 31) as Hsq by nia. set (q := smax * smax) in *.
  unfold WebRtcSpl_GetSizeInBits, WebRtcSpl_NormW32.
  rewrite (proj2 (Z.eqb_neq q 0)), (proj2 (Z.ltb_ge q 0)), !clz32_bits, uwrap_small by lia.
  pose proof (bits_range q 31 ltac:(lia) ltac:(lia)) as Hq. pose proof (bits_range n 31 ltac:(lia) ltac:(lia)) as Hb.
  destruct (bits_spec n ltac:(lia)) as [Hnb _].
  replace (32 - (32 - bits n)) with (bits n) by lia. replace (32 - bits q - 1) with (31 - bits q) by lia.
  destruct (Z.ltb_spec (bits n) (31 - bits q)) as [Hlt|Hge].
  - exists (2 ^ bits q). assert (0 < 2 ^ bits q) by (apply Z.pow_pos_nonneg; lia).
    assert (2 ^ bits n * 2 ^ bits q <= 2 ^ 30) as Hle by (rewrite <- Z.pow_add_r by lia; apply pow2_le; lia).
    split_and!; try lia; [nia|]. intros p Hp. by rewrite Z.shiftr_0_r.
  - exists (2 ^ (31 - bits n)). assert (0 < 2 ^ (31 - bits n)) by (apply Z.pow_pos_nonneg; lia).
    assert (2 ^ bits n * 2 ^ (31 - bits n) = 2 ^ 31) as He by (rewrite <- Z.pow_add_r by lia; f_equal; lia).
    split_and!; try lia; [nia|]. intros p Hp.
    replace (31 - bits n) with (bits q - (bits n - (31 - bits q))) by lia. apply shiftr_bound; [lia|done].
Qed.

(** The correlation at lag [i]. *)
Definition acorr (xs : list Z) (scaling i : Z) : Z :=
  zsum ((fun j => Z.shiftr (zn xs j * zn xs (i + j)) scaling) <$> seqZ 0 (zlen xs - i)).

Lemma terms_some (xs : list Z) (scaling i : Z) : 0 <= i <= zlen xs ->
  terms xs xs i scaling 0 (zlen xs - i) =
  Some ((fun j => Z.shiftr (zn xs j * zn xs (i + j)) scaling) <$> seqZ 0 (zlen xs - i)).
Proof.
  intros Hi. unfold terms. apply mapM_Some_2. apply Forall2_fmap_r, Forall_Forall2_diag.
  apply Forall_forall. intros j Hj%elem_of_seqZ. unfold term. rewrite !aget_in by lia. done.
Qed.

Lemma auto_loop_ok (n : nat) (xs : list Z) (scaling b i : Z) :
  0 <= i -> i + Z.of_nat n <= zlen xs + 1 -> 0 <= b -> zlen xs * b < 2 ^ 31 ->
  (forall j k, 0 <= j < zlen xs -> 0 <= k < zlen xs -> Z.abs (Z.shiftr (zn xs j * zn xs k) scaling) <= b) ->
  auto_loop n xs (zlen xs) scaling i = Some (acorr xs scaling <$> seqZ i (Z.of_nat n)).
Proof.
  intros Hi Hn Hb0 Hb Hall. revert i Hi Hn. induction n as [|n IH]; intros i Hi Hn; [done|].
  cbn [auto_loop]. 
  assert (('(sum, j) ← unrolled (Z.to_nat (zlen xs)) xs xs i scaling (zlen xs - i) 0 0;
           plain (Z.to_nat (zlen xs)) xs xs i scaling (zlen xs - i) j sum) = Some (acorr xs scaling i)) as Hs.
  { rewrite unrolled_plain by (pose proof (zlen_nonneg xs); lia). rewrite Z.sub_0_r, terms_some by lia.
    cbn [mbind option_bind]. unfold acorr. rewrite (isum_ok b); [done|done| |].
    - apply Forall_fmap, Forall_forall. intros j Hj%elem_of_seqZ. cbn.
      pose proof (Hall j (i + j) ltac:(lia) ltac:(lia)). lia.
    - unfold zlen at 1. rewrite length_fmap, length_seqZ. nia. }
  destruct (unrolled _ _ _ _ _ _ _ _) as [[sum j]|]; [|done]. cbn [mbind option_bind] in *.
  rewrite Hs. cbn [mbind option_bind]. rewrite IH by lia. cbn [mbind option_bind].
  rewrite (seqZ_cons i (Z.of_nat (S n))) by lia. cbn [fmap list_fmap]. unfold Z.succ, Z.pred.
  do 3 f_equal. f_equal. lia.
Qed.

(** The products of a vector's samples in terms of its saturated maximum. *)
Lemma product_bound (xs : list Z) (ab j k : Z) : Forall int16 xs -> is_max ab (Z.abs <$> xs) ->
  0 <= j < zlen xs -> 0 <= k < zlen xs -> 0 < ab ->
  Z.abs (zn xs j * zn xs k) <= 2 ^ bits (Z.min ab 32767 * Z.min ab 32767).
Proof.
  intros H16 [_ Hmax] Hj Hk Hab. rewrite Z.abs_mul.
  assert (forall p, 0 <= p < zlen xs -> Z.abs (zn xs p) <= ab /\ Z.abs (zn xs p) <= 32768) as Hb.
  { intros p Hp. pose proof (proj1 (Forall_forall _ _) H16 (zn xs p) (zn_elem xs p Hp)) as Hi.
    unfold int16 in Hi. split; [|lia]. apply (proj1 (Forall_forall _ _) Hmax).
    apply list_elem_of_fmap. exists (zn xs p). split; [done|by apply zn_elem]. }
  destruct (Hb j Hj) as [H1 H2], (Hb k Hk) as [H3 H4].
  destruct (Z.le_gt_cases ab 32767) as [Hle|Hgt].
  - rewrite Z.min_l by lia. destruct (bits_spec (ab * ab) ltac:(nia)) as [Hs _]. nia.
  - rewrite Z.min_r by lia. change (2 ^ bits (32767 * 32767)) with (2 ^ 30). nia.
Qed.

(** C34: the autocorrelation of any non-empty vector of fewer than [2^31]
    16-bit samples never overflows: the scaling it derives from the samples
    makes every partial sum of every lag fit in 32 bits, and the result is the
    exact list of scaled correlations. *)
Theorem auto_correlation_no_overflow (xs : list Z) (order : Z) (result : list Z) :
  Forall int16 xs -> 0 < zlen xs < 2 ^ 31 -> 0 <= order <= zlen xs -> order + 1 <= zlen result ->
  exists scaling result', WebRtcSpl_AutoCorrelation xs (zlen xs) order result =
      Some (order + 1, result', scaling) /\ 0 <= scaling /\
    upd result 0 (acorr xs scaling <$> seqZ 0 (order + 1)) result'.
Proof.
  intros H16 Hlen Ho Hr. unfold WebRtcSpl_AutoCorrelation.
  rewrite (proj2 (Z.ltb_ge _ _)) by lia.
  destruct (max_abs_ok xs) as (ab & -> & Hmax);
    [intros ->; change (zlen (@nil Z)) with 0 in Hlen; lia|done|]. cbn [mbind option_bind].
  assert (exists b, 0 <= b /\ zlen xs * b < 2 ^ 31 /\ 0 <= auto_scaling (Z.min ab 32767) (zlen xs) /\
    forall j k, 0 <= j < zlen xs -> 0 <= k < zlen xs ->
      Z.abs (Z.shiftr (zn xs j * zn xs k) (auto_scaling (Z.min ab 32767) (zlen xs))) <= b)
    as (b & Hb0 & Hb & Hs & Hall).
  { pose proof Hmax as [Hin Hle]. apply list_elem_of_fmap in Hin as (x & Hx & _).
    destruct (decide (ab = 0)) as [->|].
    - exists 0. split_and!; try lia; [done|]. intros j k Hj Hk.
      assert (zn xs j = 0) as ->.
      { assert (Z.abs (zn xs j) <= 0); [|lia]. apply (proj1 (Forall_forall _ _) Hle).
        apply list_elem_of_fmap. exists (zn xs j). split; [done|by apply zn_elem]. }
      cbn. rewrite Z.shiftr_0_l. done.
    - destruct (auto_scaling_ok (Z.min ab 32767) (zlen xs)) as (b & ? & ? & ? & Hbd); try lia.
      exists b. split_and!; auto. intros j k Hj Hk. apply Hbd, product_bound; auto; lia. }
  rewrite (auto_loop_ok _ xs _ b) by (auto; lia). cbn [mbind option_bind].
  rewrite Z2Nat.id by lia.
  destruct (bwrite_upd result 0 (acorr xs (auto_scaling (Z.min ab 32767) (zlen xs)) <$> seqZ 0 (order + 1)))
    as (r' & -> & U); [lia| |].
  { unfold zlen at 1. rewrite length_fmap, length_seqZ. lia. }
  cbn [mbind option_bind]. eauto.
Qed.

Lemma auto_correlation_witness : exists scaling result',
  WebRtcSpl_AutoCorrelation [-32768; 5; -32768; 7; 9] 5 2 [0; 0; 0; 0] = Some (3, result', scaling) /\
  0 <= scaling /\
  upd [0; 0; 0; 0] 0 (acorr [-32768; 5; -32768; 7; 9] scaling <$> seqZ 0 3) result'.
Proof.
  apply (auto_correlation_no_overflow [-32768; 5; -32768; 7; 9] 2 [0; 0; 0; 0]); try closed.
  repeat constructor; closed.
Defined.

(** *** Energy *)

Lemma scaling_smax_ok (xs : list Z) (m : Z) : Forall (fun x => -32767 <= x <= 32767) xs -> -1 <= m ->
  let r := fold_left (fun smax x => let sabs := s16 (if 0 <? x then x else - x) in
                                    if smax <? sabs then sabs else smax) xs m in
  m <= r <= Z.max m 32767 /\ Forall (fun x => Z.abs x <= r) xs.
Proof.
  intros Hall. revert m. induction Hall as [|x xs Hx _ IH]; intros m Hm; cbn [fold_left]; [split; [lia|constructor]|].
  assert (s16 (if 0 <? x then x else - x) = Z.abs x) as ->.
  { rewrite swrap_small by (change (2 ^ (16 - 1)) with 32768; destruct (Z.ltb_spec 0 x); lia).
    destruct (Z.ltb_spec 0 x); lia. }
  cbv zeta. destruct (Z.ltb_spec m (Z.abs x)).
  - destruct (IH (Z.abs x) ltac:(lia)) as [H1 H2]. cbv zeta in H1, H2. split; [lia|]. constructor; [lia|done].
  - destruct (IH m Hm) as [H1 H2]. cbv zeta in H1, H2. split; [lia|]. constructor; [lia|done].
Qed.

(** The energy of a non-empty vector of samples other than -32768 (and
    fewer than [2^31] of them) is the exact sum of the scaled squares, without
    overflow. *)
Lemma energy_no_overflow (xs : list Z) :
  Forall (fun x => -32767 <= x <= 32767) xs -> 0 < zlen xs < 2 ^ 31 ->
  exists scaling, WebRtcSpl_Energy xs (zlen xs) =
    Some (zsum ((fun x => Z.shiftr (x * x) scaling) <$> xs), scaling).
Proof.
  intros Hall Hlen. unfold WebRtcSpl_Energy, WebRtcSpl_GetScalingSquare.
  rewrite bread_all. cbn [mbind option_bind].
  pose proof (scaling_smax_ok xs (-1) Hall ltac:(lia)) as HS.
  change (-1 <= scaling_smax xs <= Z.max (-1) 32767 /\ Forall (fun x => Z.abs x <= scaling_smax xs) xs) in HS.
  destruct HS as [H1 H2].
  set (smax := scaling_smax xs) in *. fold (auto_scaling smax (zlen xs)).
  exists (auto_scaling smax (zlen xs)).
  assert (0 <= smax).
  { pose proof (zn_elem xs 0 ltac:(lia)) as Hx. apply (proj1 (Forall_forall _ _) H2) in Hx. cbv beta in Hx. lia. }
  assert (exists b, 0 <= b /\ zlen xs * b < 2 ^ 31 /\
    Forall (fun x => - b <= x <= b) ((fun x => Z.shiftr (x * x) (auto_scaling smax (zlen xs))) <$> xs))
    as (b & Hb0 & Hb & Hbd).
  { destruct (decide (smax = 0)) as [E|].
    - exists 0. split_and!; try lia. apply Forall_fmap. eapply Forall_impl; [exact H2|].
      intros x Hx. cbn. assert (x = 0) as -> by (cbv beta in Hx; lia). rewrite Z.shiftr_0_l. lia.
    - destruct (auto_scaling_ok smax (zlen xs)) as (b & ? & ? & _ & Hbd); try lia.
      exists b. split_and!; auto. apply Forall_fmap. eapply Forall_impl; [exact H2|].
      intros x Hx. cbn. destruct (bits_spec (smax * smax) ltac:(nia)) as [Hs _]. cbv beta in Hx.
      assert (Z.abs (x * x) <= 2 ^ bits (smax * smax)) as Hp by (rewrite Z.abs_mul; nia).
      specialize (Hbd _ Hp). lia. }
  rewrite (isum_ok b); [done|done|done|]. unfold zlen at 1. rewrite length_fmap. fold (zlen xs). lia.
Qed.

Lemma energy_witness : exists scaling, WebRtcSpl_Energy [30000; -32767; 5] 3 =
  Some (zsum ((fun x => Z.shiftr (x * x) scaling) <$> [30000; -32767; 5]), scaling).
Proof. apply (energy_no_overflow [30000; -32767; 5]); [repeat constructor; closed|closed]. Defined.

Lemma smax_minus_32768 (n : nat) : scaling_smax (replicate n (-32768)) = -1.
Proof. unfold scaling_smax. induction n; [done|]. cbn [replicate fold_left]. done. Qed.

(** The documented promise of [WebRtcSpl_GetScalingSquare] fails for the
    sample -32768: its 16-bit absolute value wraps around, so the scaling of
    a vector of two or more such samples is 0 and [WebRtcSpl_Energy] adds
    their squares with a signed overflow. *)
Lemma energy_overflow_at_minimum (n : nat) : 2 <= Z.of_nat n < 2 ^ 29 ->
  WebRtcSpl_GetScalingSquare (replicate n (-32768)) (Z.of_nat n) (Z.of_nat n) = Some 0 /\
  WebRtcSpl_Energy (replicate n (-32768)) (Z.of_nat n) = None.
Proof.
  intros Hn.
  assert (zlen (replicate n (-32768)) = Z.of_nat n) as Hl by (unfold zlen; by rewrite length_replicate).
  assert (WebRtcSpl_GetScalingSquare (replicate n (-32768)) (Z.of_nat n) (Z.of_nat n) = Some 0) as E.
  { unfold WebRtcSpl_GetScalingSquare. rewrite <- Hl, bread_all. cbn [mbind option_bind].
    rewrite smax_minus_32768, Hl. unfold WebRtcSpl_GetSizeInBits. rewrite clz32_bits, uwrap_small by lia.
    pose proof (bits_range (Z.of_nat n) 29 ltac:(lia) ltac:(lia)).
    change (WebRtcSpl_NormW32 (-1 * -1)) with 30. change (-1 =? 0) with false. cbv iota.
    by rewrite (proj2 (Z.ltb_lt _ _)) by lia. }
  split; [exact E|]. unfold WebRtcSpl_Energy. rewrite E. cbn [mbind option_bind].
  rewrite <- Hl, bread_all. cbn [mbind option_bind].
  destruct n as [|[|n]]; [lia..|]. done.
Qed.

Lemma energy_overflow_witness :
  WebRtcSpl_GetScalingSquare (replicate 2 (-32768)) 2 2 = Some 0 /\
  WebRtcSpl_Energy (replicate 2 (-32768)) 2 = None.
Proof. apply (energy_overflow_at_minimum 2). closed. Defined.
