(* ===== verification/SplRandom.v ===== *)
(** * Random numbers and the Hanning window

    [randomization_functions.c] and [get_hanning_window.c] of
    [src/submodules/libtgvoip/webrtc_dsp/webrtc/common_audio/signal_processing].
    A seed is passed in and out; [None] is an access outside of a table. *)
From S2P Require Import Prelude.
From S2P Require Import Bytes.
From S2P Require Import SplArith.
From S2P Require Import SplVector.
From Stdlib Require Import ZArith Lia.
From stdpp Require Import base numbers option list.
Open Scope Z_scope.

(** ** randomization_functions.c *)

Definition kMaxSeedUsed : Z := 0x80000000.

Definition kRandNTable : list Z :=
  [9178; -7260; 40; 10189; 4894; -3531; -13779; 14764; -4008; -8884; -8990; 1008; 7368; 5184; 3251;
   -5817; -9786; 5963; 1770; 8066; -7135; 10772; -2298; 1361; 6484; 2241; -8633; 792; 199; -3344; 6553;
   -10079; -15040; 95; 11608; -12469; 14161; -4176; 2476; 6403; 13685; -16005; 6646; 2239; 10916;
   -3004; -602; -3141; 2142; 14144; -5829; 5305; 8209; 4713; 2697; -5112; 16092; -1210; -2891; -6631;
   -5360; -11878; -6781; -2739; -6392; 536; 10923; 10872; 5059; -4748; -7770; 5477; 38; -1025; -2892;
   1638; 6304; 14375; -11028; 1553; -1565; 10762; -393; 4040; 5257; 12310; 6554; -4799; 4899; -6354;
   1603; -1048; -2220; 8247; -186; -8944; -12004; 2332; 4801; -4933; 6371; 131; 8614; -5927; -8287;
   -22760; 4033; -15162; 3385; 3246; 3153; -5250; 3766; 784; 6494; -62; 3531; -1582; 15572; 662; -3952;
   -330; -3196; 669; 7236; -2678; -6569; 23319; -8645; -741; 14830; -15976; 4903; 315; -11342; 10311;
   1858; -7777; 2145; 5436; 5677; -113; -10033; 826; -1353; 17210; 7768; 986; -1471; 8291; -4982; 8207;
   -14911; -6255; -2449; -11881; -7059; -11703; -4338; 8025; 7538; -2823; -12490; 9470; -1613; -2529;
   -10092; -7807; 9480; 6970; -12844; 5123; 3532; 4816; 4803; -8455; -5045; 14032; -4378; -1643; 5756;
   -11041; -2732; -16618; -6430; -18375; -3320; 6098; 5131; -4269; -8840; 2482; -7048; 1547; -21890;
   -6505; -7414; -424; -11722; 7955; 1653; -17299; 1823; 473; -9232; 3337; 1111; 873; 4018; -8982;
   9889; 3531; -11763; -3799; 7373; -4539; 3231; 7054; -8537; 7616; 6244; 16635; 447; -2915; 13967;
   705; -2669; -1520; -1771; -16188; 5956; 5117; 6371; -9936; -1448; 2480; 5128; 7550; -8130; 5236;
   8213; -6443; 7707; -1950; -13811; 7218; 7031; -3883; 67; 5731; -2874; 13480; -3743; 9298; -3280;
   3552; -4425; -18; -3785; -9988; -5357; 5477; -11794; 2117; 1416; -9935; 3376; 802; -5079; -8243;
   12652; 66; 3653; -2368; 6781; -21895; -7227; 2487; 7839; -385; 6646; -7016; -4658; 5531; -1705; 834;
   129; 3694; -1343; 2238; -22640; -6417; -11139; 11301; -2945; -3494; -5626; 185; -3615; -2041; -7972;
   -3106; -60; -23497; -1566; 17064; 3519; 2518; 304; -6805; -10269; 2105; 1936; -426; -736; -8122;
   -1467; 4238; -6939; -13309; 360; 7402; -7970; 12576; 3287; 12194; -6289; -16006; 9171; 4042; -9193;
   9123; -2512; 6388; -4734; -8739; 1028; -5406; -1696; 5889; -666; -4736; 4971; 3565; 9362; -6292;
   3876; -3652; -19666; 7523; -4061; 391; -11773; 7502; -3763; 4929; -9478; 13278; 2805; 4496; 7814;
   16419; 12455; -14773; 2127; -2746; 3763; 4847; 3698; 6978; 4751; -6957; -3581; -45; 6252; 1513;
   -4797; -7925; 11270; 16188; -2359; -5269; 9376; -10777; 7262; 20031; -6515; -2208; -5353; 8085;
   -1341; -1303; 7333; 5576; 3625; 5763; -7931; 9833; -3371; -10305; 6534; -13539; -9971; 997; 8464;
   -4064; -1495; 1857; 13624; 5458; 9490; -11086; -4524; 12022; -550; -198; 408; -8455; -7068; 10289;
   9712; -3366; 9028; -7621; -5243; 2362; 6909; 4672; -4933; -1799; 4709; -4563; -62; -566; 1624;
   -7010; 14730; -17791; -3697; -2344; -1741; 7099; -9509; -6855; -1989; 3495; -2289; 2031; 12784; 891;
   14189; -3963; -5683; 421; -12575; 1724; -12682; -5970; -8169; 3143; -1824; -5488; -5130; 8536;
   12799; 794; 5738; 3459; -11689; -258; -3738; -3775; -8742; 2333; 8312; -9383; 10331; 13119; 8398;
   10644; -19433; -6446; -16277; -11793; 16284; 9345; 15222; 15834; 2009; -7349; 130; -14547; 338;
   -5998; 3337; 21492; 2406; 7703; -951; 11196; -564; 3406; 2217; 4806; 2374; -5797; 11839; 8940;
   -11874; 18213; 2855; 10492].

(** [seed[0]] is an [uint32_t]: the product and the sum wrap. *)
Definition IncreaseSeed (seed : Z) : Z :=
  Z.land (u32 (u32 (seed * 69069) + 1)) (kMaxSeedUsed - 1).

(** Result: the value and the new seed. *)
Definition WebRtcSpl_RandU (seed : Z) : Z * Z :=
  let seed := IncreaseSeed seed in (s16 (Z.shiftr seed 16), seed).

Definition WebRtcSpl_RandN (seed : Z) : option (Z * Z) :=
  let seed := IncreaseSeed seed in
  x ← aget kRandNTable (Z.shiftr seed 23); Some (x, seed).

Fixpoint rand_loop (n : nat) (vector : list Z) (i seed : Z) : option (list Z * Z) :=
  match n with
  | O => Some (vector, seed)
  | S n => let '(x, seed) := WebRtcSpl_RandU seed in
           vector ← aset vector i x; rand_loop n vector (i + 1) seed
  end.

Definition WebRtcSpl_RandUArray (vector : list Z) (vector_length seed : Z) : option (Z * list Z * Z) :=
  '(vector, seed) ← rand_loop (Z.to_nat vector_length) vector 0 seed;
  Some (vector_length, vector, seed).

(** ** get_hanning_window.c *)

Definition kHanningTable : list Z :=
  [1; 2; 6; 10; 15; 22; 30; 39; 50; 62; 75; 89; 104; 121; 138; 157; 178; 199; 222; 246; 271; 297; 324;
   353; 383; 413; 446; 479; 513; 549; 586; 624; 663; 703; 744; 787; 830; 875; 920; 967; 1015; 1064;
   1114; 1165; 1218; 1271; 1325; 1381; 1437; 1494; 1553; 1612; 1673; 1734; 1796; 1859; 1924; 1989;
   2055; 2122; 2190; 2259; 2329; 2399; 2471; 2543; 2617; 2691; 2765; 2841; 2918; 2995; 3073; 3152;
   3232; 3312; 3393; 3475; 3558; 3641; 3725; 3809; 3895; 3980; 4067; 4154; 4242; 4330; 4419; 4509;
   4599; 4689; 4781; 4872; 4964; 5057; 5150; 5244; 5338; 5432; 5527; 5622; 5718; 5814; 5910; 6007;
   6104; 6202; 6299; 6397; 6495; 6594; 6693; 6791; 6891; 6990; 7090; 7189; 7289; 7389; 7489; 7589;
   7690; 7790; 7890; 7991; 8091; 8192; 8293; 8393; 8494; 8594; 8694; 8795; 8895; 8995; 9095; 9195;
   9294; 9394; 9493; 9593; 9691; 9790; 9889; 9987; 10085; 10182; 10280; 10377; 10474; 10570; 10666;
   10762; 10857; 10952; 11046; 11140; 11234; 11327; 11420; 11512; 11603; 11695; 11785; 11875; 11965;
   12054; 12142; 12230; 12317; 12404; 12489; 12575; 12659; 12743; 12826; 12909; 12991; 13072; 13152;
   13232; 13311; 13389; 13466; 13543; 13619; 13693; 13767; 13841; 13913; 13985; 14055; 14125; 14194;
   14262; 14329; 14395; 14460; 14525; 14588; 14650; 14711; 14772; 14831; 14890; 14947; 15003; 15059;
   15113; 15166; 15219; 15270; 15320; 15369; 15417; 15464; 15509; 15554; 15597; 15640; 15681; 15721;
   15760; 15798; 15835; 15871; 15905; 15938; 15971; 16001; 16031; 16060; 16087; 16113; 16138; 16162;
   16185; 16206; 16227; 16246; 16263; 16280; 16295; 16309; 16322; 16334; 16345; 16354; 16362; 16369;
   16374; 16378; 16382; 16383; 16384].

Fixpoint hanning_loop (n : nat) (v : list Z) (jj index factor : Z) : option (list Z) :=
  match n with
  | O => Some v
  | S n =>
    index ← int_add index factor;
    x ← aget kHanningTable (Z.shiftr index 22);
    v ← aset v jj x;
    hanning_loop n v (jj + 1) index factor
  end.

Definition WebRtcSpl_GetHanningWindow (v : list Z) (size : Z) : option (list Z) :=
  let factor := WebRtcSpl_DivW32W16 0x40000000 (s16 size) in
  let index := if size <? 513 then - 0x200000 else - 0x100000 in
  hanning_loop (Z.to_nat size) v 0 index factor.

(** ** The generator *)

Lemma IncreaseSeed_mod (seed : Z) : IncreaseSeed seed = (69069 * seed + 1) mod 2 ^ 31.
Proof.
  unfold IncreaseSeed, kMaxSeedUsed, uwrap.
  change (0x80000000 - 1) with (Z.ones 31). rewrite Z.land_ones by lia.
  rewrite Zplus_mod_idemp_l, Z.mod_mod_divide by (exists 2; reflexivity).
  f_equal. lia.
Qed.

Lemma IncreaseSeed_range (seed : Z) : 0 <= IncreaseSeed seed < 2 ^ 31.
Proof. rewrite IncreaseSeed_mod. apply Z.mod_pos_bound. lia. Qed.

(** An odd factor does not matter. *)
Lemma pow2_odd (e x y : Z) : 0 <= e -> (2 ^ e | (1 + 2 * x) * y) <-> (2 ^ e | y).
Proof.
  intros He. split; [|apply Z.divide_mul_r]. revert y. pattern e. revert e He.
  apply natlike_ind; [intros y _; apply Z.divide_1_l|]. intros e He IH y Hd.
  rewrite Z.pow_succ_r in * by done.
  assert (exists y', y = 2 * y') as [y' ->].
  { destruct Hd as [z Hz]. exists (z * 2 ^ e - x * y). lia. }
  replace ((1 + 2 * x) * (2 * y')) with (2 * ((1 + 2 * x) * y')) in Hd by lia.
  rewrite Z.mul_divide_cancel_l in * by lia. auto.
Qed.

Lemma mod_fix (x y n : Z) : 0 <= x < n -> (x + y) mod n = x <-> (n | y).
Proof.
  intros Hx. rewrite <- Z.mod_divide by lia. split; intros E.
  - replace y with (x + y - x) by lia. by rewrite <- Zminus_mod_idemp_l, E, Z.sub_diag.
  - rewrite <- Zplus_mod_idemp_r, E, Z.add_0_r. by apply Z.mod_small.
Qed.

Section Period.
Abbreviation a := 69069.

(** [1 + a + ... + a^(k-1)] *)
Fixpoint geo (k : nat) : Z := match k with O => 0 | S k => a * geo k + 1 end.

Lemma geo_pow (k : nat) : a ^ Z.of_nat k = 1 + (a - 1) * geo k.
Proof.
  induction k; [done|]. rewrite Nat2Z.inj_succ, Z.pow_succ_r, IHk by lia. cbn [geo]. lia.
Qed.

Lemma geo_add (j k : nat) : geo (j + k) = a ^ Z.of_nat k * geo j + geo k.
Proof.
  induction k.
  - rewrite Nat.add_0_r. cbn [geo]. change (a ^ Z.of_nat 0) with 1. lia.
  - rewrite Nat.add_succ_r, Nat2Z.inj_succ, Z.pow_succ_r by lia. cbn [geo]. rewrite IHk. lia.
Qed.

Lemma geo_parity (k : nat) : Z.even (geo k) = Nat.even k.
Proof.
  induction k; [done|]. cbn [geo]. rewrite Nat.even_succ, <- Nat.negb_even, <- IHk.
  rewrite Z.even_add, Z.even_mul. by destruct (Z.even (geo k)).
Qed.

(** A power of two divides the sum only if it divides the number of terms. *)
Lemma geo_divide (e : nat) : forall k, (2 ^ Z.of_nat e | geo k) <-> (2 ^ Z.of_nat e | Z.of_nat k).
Proof.
  induction e as [|e IH]; intros k.
  { change (2 ^ Z.of_nat 0) with 1. split; intros _; apply Z.divide_1_l. }
  rewrite Nat2Z.inj_succ, Z.pow_succ_r by lia. destruct (Nat.Even_or_Odd k) as [[j ->]|[j ->]].
  - replace (2 * j)%nat with (j + j)%nat by lia. rewrite geo_add, geo_pow.
    replace ((1 + (a - 1) * geo j) * geo j + geo j) with (2 * ((1 + 34534 * geo j) * geo j)) by lia.
    replace (Z.of_nat (j + j)) with (2 * Z.of_nat j) by lia.
    rewrite !Z.mul_divide_cancel_l, <- IH by lia.
    replace (1 + 34534 * geo j) with (1 + 2 * (17267 * geo j)) by lia. apply pow2_odd. lia.
  - assert (forall x, Z.even x = false -> ~ (2 * 2 ^ Z.of_nat e | x)) as Hodd.
    { intros x Hx [y ->]. rewrite Z.mul_comm, <- Z.mul_assoc, Z.even_mul in Hx. done. }
    split; intros Hd; exfalso; revert Hd; apply Hodd.
    + rewrite geo_parity. replace (2 * j + 1)%nat with (S (2 * j)) by lia.
      rewrite Nat.even_succ, <- Nat.negb_even, Nat.even_mul. done.
    + replace (Z.of_nat (2 * j + 1)) with (1 + 2 * Z.of_nat j) by lia. by rewrite Z.even_add_mul_2.
Qed.

Lemma seeds_closed (k : nat) (seed : Z) : 0 <= seed < 2 ^ 31 ->
  Nat.iter k IncreaseSeed seed = (a ^ Z.of_nat k * seed + geo k) mod 2 ^ 31.
Proof.
  intros Hs. induction k as [|k IH].
  - change (Nat.iter 0 IncreaseSeed seed) with seed. cbn [geo]. change (a ^ Z.of_nat 0) with 1. rewrite Z.mod_small; lia.
  - change (Nat.iter (S k) IncreaseSeed seed) with (IncreaseSeed (Nat.iter k IncreaseSeed seed)).
    cbn [geo].
    rewrite IncreaseSeed_mod, IH, Nat2Z.inj_succ, Z.pow_succ_r by lia.
    rewrite <- Zplus_mod_idemp_l, Zmult_mod_idemp_r, Zplus_mod_idemp_l. f_equal. lia.
Qed.
End Period.

(** The random generator of the signal processing library has full
    period: starting from any seed below [2^31], the seed comes back after
    [k] calls exactly when [k] is a multiple of [2^31]. *)
Lemma rand_full_period (seed : Z) (k : nat) : 0 <= seed < 2 ^ 31 ->
  Nat.iter k IncreaseSeed seed = seed <-> (2 ^ 31 | Z.of_nat k).
Proof.
  intros Hs. rewrite seeds_closed, geo_pow by done.
  replace ((1 + (69069 - 1) * geo k) * seed + geo k) with (seed + (1 + 2 * (34534 * seed)) * geo k) by lia.
  change 31 with (Z.of_nat 31). rewrite <- geo_divide. change (Z.of_nat 31) with 31.
  rewrite mod_fix by done. apply pow2_odd. lia.
Qed.

Lemma rand_full_period_witness : Nat.iter 3 IncreaseSeed 777 = 777 <-> (2 ^ 31 | Z.of_nat 3).
Proof. apply (rand_full_period 777 3). lia. Defined.

(** ** The values drawn *)

Lemma RandU_ok (seed : Z) : exists u, WebRtcSpl_RandU seed = (u, IncreaseSeed seed) /\ 0 <= u < 2 ^ 15.
Proof.
  pose proof (IncreaseSeed_range seed) as Hs. unfold WebRtcSpl_RandU.
  assert (0 <= Z.shiftr (IncreaseSeed seed) 16 < 2 ^ 15) as Hu.
  { rewrite Z.shiftr_div_pow2 by lia. split; [apply Z.div_pos; lia|apply Z.div_lt_upper_bound; lia]. }
  rewrite swrap_small by lia. eauto.
Qed.

(** The [k]th value drawn from [seed]. *)
Definition rand_u (seed k : Z) : Z := (WebRtcSpl_RandU (Nat.iter (Z.to_nat k) IncreaseSeed seed)).1.

Lemma iter_step {A} (f : A -> A) (n : nat) (x : A) : Nat.iter (S n) f x = Nat.iter n f (f x).
Proof. induction n; [done|]. change (Nat.iter (S (S n)) f x) with (f (Nat.iter (S n) f x)). by rewrite IHn. Qed.

Lemma rand_loop_ok (n : nat) : forall (v : list Z) (i seed : Z), 0 <= i -> i + Z.of_nat n <= zlen v ->
  exists v', rand_loop n v i seed = Some (v', Nat.iter n IncreaseSeed seed) /\
    upd v i (rand_u seed <$> seqZ 0 (Z.of_nat n)) v'.
Proof.
  induction n as [|n IH]; intros v i seed Hi Hl.
  { exists v. split; [done|]. apply upd_nil. lia. }
  rewrite fmap_seqZ_S. cbn [rand_loop].
  destruct (RandU_ok seed) as (u & E & _). rewrite E.
  destruct (aset_upd v i u ltac:(lia)) as (v1 & -> & U1). cbn [mbind option_bind].
  destruct (IH v1 (i + 1) (IncreaseSeed seed) ltac:(lia)) as (v' & -> & U2).
  { rewrite (u_len _ _ _ _ U1). lia. }
  exists v'. rewrite iter_step. split; [done|].
  assert (rand_u seed 0 = u) as -> by (unfold rand_u; change (Nat.iter (Z.to_nat 0) IncreaseSeed seed) with seed; by rewrite E).
  apply (upd_cons v v1); [done|].
  erewrite list_fmap_ext; [exact U2|]. intros j k Hk. apply lookup_seqZ in Hk as [-> Hk].
  unfold rand_u. by rewrite Z.add_1_r, Z2Nat.inj_succ, iter_step by lia.
Qed.

(** The random functions draw from the generator's seed: [RandU] gives a
    value in [0 .. 32767], [RandN] stays inside the first half of its table,
    and [RandUArray] stores the values of successive calls of [RandU] and
    nothing else. *)
Lemma rand_values (vector : list Z) (n seed : Z) : 0 <= n <= zlen vector ->
  (exists u, WebRtcSpl_RandU seed = (u, IncreaseSeed seed) /\ 0 <= u < 2 ^ 15) /\
  (exists x, WebRtcSpl_RandN seed = Some (x, IncreaseSeed seed) /\ x ∈ take 256 kRandNTable) /\
  (exists vector', WebRtcSpl_RandUArray vector n seed =
       Some (n, vector', Nat.iter (Z.to_nat n) IncreaseSeed seed) /\
     upd vector 0 (rand_u seed <$> seqZ 0 n) vector').
Proof.
  intros Hn. split; [apply RandU_ok|]. split.
  - pose proof (IncreaseSeed_range seed) as Hs. unfold WebRtcSpl_RandN.
    set (k := Z.shiftr (IncreaseSeed seed) 23).
    assert (0 <= k < 256) as Hk.
    { unfold k. rewrite Z.shiftr_div_pow2 by lia. split; [apply Z.div_pos; lia|apply Z.div_lt_upper_bound; lia]. }
    rewrite aget_in by (change (zlen kRandNTable) with 512; lia). cbn [mbind option_bind].
    eexists. split; [done|]. change 256%nat with (Z.to_nat 256). rewrite <- (zn_take _ 256) by lia.
    apply zn_elem. rewrite zlen_take by (change (zlen kRandNTable) with 512; lia). lia.
  - unfold WebRtcSpl_RandUArray. destruct (rand_loop_ok (Z.to_nat n) vector 0 seed) as (v' & -> & U); [lia..|].
    rewrite Z2Nat.id in U by lia. exists v'. done.
Qed.

Lemma rand_values_witness :
  (exists u, WebRtcSpl_RandU 777 = (u, IncreaseSeed 777) /\ 0 <= u < 2 ^ 15) /\
  (exists x, WebRtcSpl_RandN 777 = Some (x, IncreaseSeed 777) /\ x ∈ take 256 kRandNTable) /\
  (exists vector', WebRtcSpl_RandUArray [0; 0; 9] 2 777 =
       Some (2, vector', Nat.iter (Z.to_nat 2) IncreaseSeed 777) /\
     upd [0; 0; 9] 0 (rand_u 777 <$> seqZ 0 2) vector').
Proof. apply (rand_values [0; 0; 9] 2 777). closed. Defined.

(** ** The Hanning window *)

Lemma hanning_factor (size : Z) : 1 <= size < 32768 ->
  WebRtcSpl_DivW32W16 0x40000000 (s16 size) = 2 ^ 30 / size.
Proof.
  intros Hs. unfold WebRtcSpl_DivW32W16. rewrite (swrap_small 16) by lia.
  rewrite (proj2 (Z.eqb_neq _ _)) by lia. cbn [negb]. rewrite Z.quot_div_nonneg by lia.
  apply swrap_small; [lia|]. change 0x40000000 with (2 ^ 30).
  pose proof (Z.div_le_upper_bound (2 ^ 30) size (2 ^ 30) ltac:(lia) ltac:(nia)).
  pose proof (Z.div_pos (2 ^ 30) size). lia.
Qed.

Definition hann (index : Z) : Z := zn kHanningTable (Z.shiftr index 22).

Lemma hann_index (index : Z) : 0 <= index < 2 ^ 30 ->
  aget kHanningTable (Z.shiftr index 22) = Some (hann index) /\ 0 <= Z.shiftr index 22 < 256.
Proof.
  intros Hi.
  assert (0 <= Z.shiftr index 22 < 256) as Hk.
  { rewrite Z.shiftr_div_pow2 by lia. split; [apply Z.div_pos; lia|apply Z.div_lt_upper_bound; lia]. }
  split; [|done]. apply aget_in. change (zlen kHanningTable) with 256. lia.
Qed.

Lemma hanning_loop_ok (factor : Z) (n : nat) : forall (v : list Z) (jj index : Z),
  0 <= jj -> jj + Z.of_nat n <= zlen v ->
  (forall k, 1 <= k <= Z.of_nat n -> 0 <= index + k * factor < 2 ^ 30) ->
  exists v', hanning_loop n v jj index factor = Some v' /\
    upd v jj ((fun k => hann (index + (k + 1) * factor)) <$> seqZ 0 (Z.of_nat n)) v'.
Proof.
  induction n as [|n IH]; intros v jj index Hj Hl Hr.
  { exists v. split; [done|]. apply upd_nil. lia. }
  rewrite fmap_seqZ_S. cbn [hanning_loop].
  pose proof (Hr 1 ltac:(lia)) as H1. rewrite int_add_in by lia. cbn [mbind option_bind].
  destruct (hann_index (index + factor) ltac:(lia)) as [-> _]. cbn [mbind option_bind].
  destruct (aset_upd v jj (hann (index + factor)) ltac:(lia)) as (v1 & -> & U1). cbn [mbind option_bind].
  destruct (IH v1 (jj + 1) (index + factor) ltac:(lia)) as (v' & -> & U2).
  { rewrite (u_len _ _ _ _ U1). lia. }
  { intros k Hk. specialize (Hr (k + 1) ltac:(lia)). lia. }
  exists v'. split; [done|]. replace (index + (0 + 1) * factor) with (index + factor) by lia.
  apply (upd_cons v v1); [done|].
  erewrite list_fmap_ext; [exact U2|]. intros j k _. cbv beta. f_equal. lia.
Qed.

Lemma hann_table_sorted :
  forallb (fun k => zn kHanningTable k <=? zn kHanningTable (k + 1)) (seqZ 0 255) = true.
Proof. vm_compute. reflexivity. Qed.

Lemma hann_table_mono (i j : Z) : 0 <= i -> i <= j -> j < 256 -> zn kHanningTable i <= zn kHanningTable j.
Proof.
  intros Hi Hij. pattern j. revert j Hij. apply Zlt_lower_bound_ind. intros j IH Hj Hlt.
  destruct (decide (j = i)) as [->|]; [lia|]. specialize (IH (j - 1) ltac:(lia) ltac:(lia)).
  pose proof (proj1 (forallb_forall _ _) hann_table_sorted (j - 1)) as Hs. cbv beta in Hs.
  rewrite <- list_elem_of_In, elem_of_seqZ in Hs. replace (j - 1 + 1) with j in Hs by lia.
  apply Z.leb_le in Hs; lia.
Qed.

Lemma hann_mono (a b : Z) : 0 <= a -> a <= b -> b < 2 ^ 30 -> hann a <= hann b.
Proof.
  intros Ha Hab Hb. destruct (hann_index a ltac:(lia)) as [_ Ia]. destruct (hann_index b ltac:(lia)) as [_ Ib].
  apply hann_table_mono; [lia| |lia]. rewrite !Z.shiftr_div_pow2 by lia. apply Z.div_le_mono; lia.
Qed.

(** The table index of sample [jj], scaled by [2^22]. *)
Definition hann_pos (size jj : Z) : Z :=
  (if size <? 513 then - 0x200000 else - 0x100000) + (jj + 1) * (2 ^ 30 / size).

Lemma hann_pos_range (size jj : Z) : 1 <= size <= 1024 -> 0 <= jj < size -> 0 <= hann_pos size jj < 2 ^ 30.
Proof.
  intros Hs Hj. unfold hann_pos. pose proof (Z.mul_div_le (2 ^ 30) size ltac:(lia)).
  assert (size <= 512 -> 2 ^ 21 <= 2 ^ 30 / size) by (intros; apply Z.div_le_lower_bound; lia).
  assert (2 ^ 20 <= 2 ^ 30 / size) by (apply Z.div_le_lower_bound; lia).
  destruct (Z.ltb_spec size 513); nia.
Qed.

(** For every size from 1 to 1024 the Hanning window is computed inside
    its table, and the samples rise to the table's peak of 16384 at the end
    (nothing else of the output array changes). *)
Lemma hanning_window (v : list Z) (size : Z) : 1 <= size <= 1024 -> size <= zlen v ->
  exists v', WebRtcSpl_GetHanningWindow v size = Some v' /\
    upd v 0 ((fun jj => hann (hann_pos size jj)) <$> seqZ 0 size) v' /\
    (forall i j, 0 <= i <= j -> j < size -> 1 <= hann (hann_pos size i) <= hann (hann_pos size j)) /\
    hann (hann_pos size (size - 1)) = 16384.
Proof.
  intros Hs Hl. unfold WebRtcSpl_GetHanningWindow. rewrite hanning_factor by lia.
  destruct (hanning_loop_ok (2 ^ 30 / size) (Z.to_nat size) v 0
    (if size <? 513 then - 0x200000 else - 0x100000)) as (v' & -> & U); try lia.
  { intros k Hk. pose proof (hann_pos_range size (k - 1) Hs ltac:(lia)) as H. unfold hann_pos in H.
    replace (k - 1 + 1) with k in H by lia. exact H. }
  rewrite Z2Nat.id in U by lia. exists v'. split_and!; [done|exact U| |].
  - intros i j Hi Hj. pose proof (hann_pos_range size i Hs ltac:(lia)). pose proof (hann_pos_range size j Hs ltac:(lia)).
    assert (0 <= 2 ^ 30 / size) by (apply Z.div_pos; lia). split.
    + transitivity (hann 0); [done|]. apply hann_mono; lia.
    + apply hann_mono; try lia. unfold hann_pos. nia.
  - pose proof (hann_pos_range size (size - 1) Hs ltac:(lia)) as H.
    assert (255 * 2 ^ 22 <= hann_pos size (size - 1)) as H1.
    { unfold hann_pos. replace (size - 1 + 1) with size by lia.
      pose proof (Z.mul_succ_div_gt (2 ^ 30) size ltac:(lia)). destruct (Z.ltb_spec size 513); lia. }
    assert (Z.shiftr (hann_pos size (size - 1)) 22 = 255) as E.
    { rewrite Z.shiftr_div_pow2 by lia. symmetry.
      apply (Z.div_unique _ _ _ (hann_pos size (size - 1) - 255 * 2 ^ 22)); lia. }
    unfold hann. by rewrite E.
Qed.

Lemma hanning_window_witness : exists v', WebRtcSpl_GetHanningWindow [7; 7; 7; 7] 3 = Some v' /\
    upd [7; 7; 7; 7] 0 ((fun jj => hann (hann_pos 3 jj)) <$> seqZ 0 3) v' /\
    (forall i j, 0 <= i <= j -> j < 3 -> 1 <= hann (hann_pos 3 i) <= hann (hann_pos 3 j)) /\
    hann (hann_pos 3 (3 - 1)) = 16384.
Proof. apply (hanning_window [7; 7; 7; 7] 3); [lia|closed]. Defined.

(** Above 1024 the first table index is negative. *)
Lemma hanning_out_of_table (v : list Z) (size : Z) : 1024 < size < 32768 ->
  WebRtcSpl_GetHanningWindow v size = None.
Proof.
  intros Hs. unfold WebRtcSpl_GetHanningWindow. rewrite hanning_factor by lia.
  rewrite (proj2 (Z.ltb_ge _ _)) by lia.
  assert (0 <= 2 ^ 30 / size < 2 ^ 20) as Hf.
  { split; [apply Z.div_pos; lia|apply Z.div_lt_upper_bound; lia]. }
  replace (Z.to_nat size) with (S (Z.to_nat (size - 1))) by lia. cbn [hanning_loop].
  rewrite int_add_in by lia. cbn [mbind option_bind].
  assert (Z.shiftr (- 0x100000 + 2 ^ 30 / size) 22 = -1) as ->; [|done].
  rewrite Z.shiftr_div_pow2 by lia. symmetry.
  apply (Z.div_unique _ _ _ (- 0x100000 + 2 ^ 30 / size + 2 ^ 22)); lia.
Qed.
