(* ===== verification/SplBitRev.v ===== *)
(** * Bit-reversed reordering for the fixed-point FFT

    [complex_bit_reverse.c] of
    [src/submodules/libtgvoip/webrtc_dsp/webrtc/common_audio/signal_processing].
    The code moves the 16-bit real and imaginary parts as one 32-bit word, so
    the data is a list of pairs.  [None] is an access outside of the data or
    a shift outside of the width of an [int]. *)
From S2P Require Import Prelude.
From Stdlib Require Import ZArith Lia.
From stdpp Require Import base numbers option list.
Open Scope Z_scope.

Definition index_7 : list Z :=
  [1; 64; 2; 32; 3; 96; 4; 16; 5; 80; 6; 48; 7; 112; 9; 72; 10; 40; 11; 104; 12; 24; 13; 88; 14; 56;
   15; 120; 17; 68; 18; 36; 19; 100; 21; 84; 22; 52; 23; 116; 25; 76; 26; 44; 27; 108; 29; 92; 30; 60;
   31; 124; 33; 66; 35; 98; 37; 82; 38; 50; 39; 114; 41; 74; 43; 106; 45; 90; 46; 58; 47; 122; 49; 70;
   51; 102; 53; 86; 55; 118; 57; 78; 59; 110; 61; 94; 63; 126; 67; 97; 69; 81; 71; 113; 75; 105; 77;
   89; 79; 121; 83; 101; 87; 117; 91; 109; 95; 125; 103; 115; 111; 123].

Definition index_8 : list Z :=
  [1; 128; 2; 64; 3; 192; 4; 32; 5; 160; 6; 96; 7; 224; 8; 16; 9; 144; 10; 80; 11; 208; 12; 48; 13;
   176; 14; 112; 15; 240; 17; 136; 18; 72; 19; 200; 20; 40; 21; 168; 22; 104; 23; 232; 25; 152; 26; 88;
   27; 216; 28; 56; 29; 184; 30; 120; 31; 248; 33; 132; 34; 68; 35; 196; 37; 164; 38; 100; 39; 228; 41;
   148; 42; 84; 43; 212; 44; 52; 45; 180; 46; 116; 47; 244; 49; 140; 50; 76; 51; 204; 53; 172; 54; 108;
   55; 236; 57; 156; 58; 92; 59; 220; 61; 188; 62; 124; 63; 252; 65; 130; 67; 194; 69; 162; 70; 98; 71;
   226; 73; 146; 74; 82; 75; 210; 77; 178; 78; 114; 79; 242; 81; 138; 83; 202; 85; 170; 86; 106; 87;
   234; 89; 154; 91; 218; 93; 186; 94; 122; 95; 250; 97; 134; 99; 198; 101; 166; 103; 230; 105; 150;
   107; 214; 109; 182; 110; 118; 111; 246; 113; 142; 115; 206; 117; 174; 119; 238; 121; 158; 123; 222;
   125; 190; 127; 254; 131; 193; 133; 161; 135; 225; 137; 145; 139; 209; 141; 177; 143; 241; 147; 201;
   149; 169; 151; 233; 155; 217; 157; 185; 159; 249; 163; 197; 167; 229; 171; 213; 173; 181; 175; 245;
   179; 205; 183; 237; 187; 221; 191; 253; 199; 227; 203; 211; 207; 243; 215; 235; 223; 251; 239; 247].

(** [temp = p[i]; p[i] = p[j]; p[j] = temp;] *)
Definition swap (p : list (Z * Z)) (i j : Z) : option (list (Z * Z)) :=
  temp ← aget p i;
  y ← aget p j;
  p ← aset p i y;
  aset p j temp.

(** [for (m = 0; m < length; m += 2)] over the table. *)
Fixpoint table_loop (index : list Z) (p : list (Z * Z)) : option (list (Z * Z)) :=
  match index with
  | i :: j :: index => p ← swap p i j; table_loop index p
  | _ => Some p
  end.

(** [do { l >>= 1; } while (l > nn - mr);] *)
Fixpoint find_l (fuel : nat) (l nn mr : Z) : option Z :=
  match fuel with
  | O => None
  | S fuel => let l := Z.shiftr l 1 in if nn - mr <? l then find_l fuel l nn mr else Some l
  end.

(** [for (m = 1; m <= nn; ++m)]; [k] is the number of rounds left. *)
Fixpoint reverse_loop (k : nat) (p : list (Z * Z)) (m mr n nn : Z) : option (list (Z * Z)) :=
  match k with
  | O => Some p
  | S k =>
    l ← find_l 32 n nn mr;
    let mr := Z.land mr (l - 1) + l in
    p ← (if mr <=? m then Some p else swap p m mr);
    reverse_loop k p (m + 1) mr n nn
  end.

Definition WebRtcSpl_ComplexBitReverse (complex_data : list (Z * Z)) (stages : Z) : option (list (Z * Z)) :=
  if (stages =? 7) || (stages =? 8) then
    table_loop (if stages =? 8 then index_8 else index_7) complex_data
  else if (0 <=? stages) && (stages <=? 30) then
    let n := Z.shiftl 1 stages in
    let nn := n - 1 in
    reverse_loop (Z.to_nat nn) complex_data 1 0 n nn
  else None.

(** ** The bit reversal of an [s]-bit number *)

Fixpoint rev (s : nat) (i : Z) : Z :=
  match s with O => 0 | S s => 2 ^ Z.of_nat s * (i mod 2) + rev s (i / 2) end.

Lemma pow2_S (s : nat) : 2 ^ Z.of_nat (S s) = 2 * 2 ^ Z.of_nat s.
Proof. rewrite Nat2Z.inj_succ, Z.pow_succ_r by lia. done. Qed.

Lemma pow2_pos (s : nat) : 0 < 2 ^ Z.of_nat s.
Proof. apply Z.pow_pos_nonneg; lia. Qed.

Lemma rev_range (s : nat) : forall i, 0 <= rev s i < 2 ^ Z.of_nat s.
Proof.
  induction s as [|s IH]; intros i; cbn [rev]; [done|]. specialize (IH (i / 2)). rewrite pow2_S.
  pose proof (Z.mod_pos_bound i 2 ltac:(lia)). nia.
Qed.

Lemma rev_0 (s : nat) : rev s 0 = 0.
Proof. induction s as [|s IH]; [done|]. cbn [rev]. change (0 mod 2) with 0. change (0 / 2) with 0. lia. Qed.

(** The highest bit becomes the lowest. *)
Lemma rev_top (s : nat) : forall b r, 0 <= b <= 1 -> 0 <= r < 2 ^ Z.of_nat s ->
  rev (S s) (2 ^ Z.of_nat s * b + r) = 2 * rev s r + b.
Proof.
  induction s as [|s IH]; intros b r Hb Hr.
  - change (2 ^ Z.of_nat 0) with 1 in *. cbn [rev]. change (2 ^ Z.of_nat 0) with 1.
    assert (r = 0) as -> by lia. rewrite Z.mod_small; lia.
  - rewrite pow2_S in *. replace (2 * 2 ^ Z.of_nat s * b + r) with (r + (2 ^ Z.of_nat s * b) * 2) by lia.
    change (rev (S (S s)) ?x) with (2 ^ Z.of_nat (S s) * (x mod 2) + rev (S s) (x / 2)).
    change (rev (S s) r) with (2 ^ Z.of_nat s * (r mod 2) + rev s (r / 2)).
    rewrite Z.mod_add, Z.div_add, pow2_S by lia.
    replace (r / 2 + 2 ^ Z.of_nat s * b) with (2 ^ Z.of_nat s * b + r / 2) by lia.
    rewrite IH; [lia|done|]. split; [apply Z.div_pos; lia|apply Z.div_lt_upper_bound; lia].
Qed.

Lemma rev_rev (s : nat) : forall i, 0 <= i < 2 ^ Z.of_nat s -> rev s (rev s i) = i.
Proof.
  induction s as [|s IH]; intros i Hi.
  { change (2 ^ Z.of_nat 0) with 1 in Hi. cbn [rev]. lia. }
  rewrite pow2_S in Hi. pose proof (Z.mod_pos_bound i 2 ltac:(lia)).
  change (rev (S s) i) with (2 ^ Z.of_nat s * (i mod 2) + rev s (i / 2)).
  rewrite rev_top, IH; [|split; [apply Z.div_pos; lia|apply Z.div_lt_upper_bound; lia]|lia|apply rev_range].
  pose proof (Z.div_mod i 2). lia.
Qed.

(** Halving down to the highest clear bit of [mr] increments the reversed
    counter. *)
Lemma find_l_ok (s : nat) : forall fuel m nn mr, (s <= fuel)%nat -> 0 <= m -> m + 1 < 2 ^ Z.of_nat s ->
  nn - mr = 2 ^ Z.of_nat s - 1 - rev s m ->
  exists j, 0 <= j < Z.of_nat s /\ find_l fuel (2 ^ Z.of_nat s) nn mr = Some (2 ^ j) /\
    Z.land (rev s m) (2 ^ j - 1) + 2 ^ j = rev s (m + 1).
Proof.
  induction s as [|s IH]; intros fuel m nn mr Hf Hm Hlt Hd.
  { change (2 ^ Z.of_nat 0) with 1 in Hlt. lia. }
  destruct fuel as [|fuel]; [lia|]. cbn [find_l]. rewrite pow2_S in *.
  assert (Z.shiftr (2 * 2 ^ Z.of_nat s) 1 = 2 ^ Z.of_nat s) as ->.
  { rewrite Z.shiftr_div_pow2 by lia. change (2 ^ 1) with 2. rewrite Z.mul_comm. apply Z.div_mul. lia. }
  pose proof (rev_range s (m / 2)) as Hr. pose proof (pow2_pos s) as Hp. cbn [rev] in *.
  pose proof (Z.mod_pos_bound m 2 ltac:(lia)) as Hb. pose proof (Z.div_mod m 2 ltac:(lia)) as Hdm.
  destruct (decide (m mod 2 = 0)) as [E|E].
  - rewrite E in *. exists (Z.of_nat s). split; [lia|]. rewrite (proj2 (Z.ltb_ge _ _)) by lia. split; [done|].
    replace (2 ^ Z.of_nat s - 1) with (Z.ones (Z.of_nat s)) by (rewrite Z.ones_equiv; lia).
    assert ((m + 1) mod 2 = 1 /\ (m + 1) / 2 = m / 2) as [-> ->].
    { split; [symmetry; apply (Z.mod_unique _ _ (m / 2)); lia|symmetry; apply (Z.div_unique _ _ _ 1); lia]. }
    rewrite Z.land_ones, Z.mod_small by lia. lia.
  - assert (m mod 2 = 1) as E1 by lia. rewrite E1 in *.
    rewrite (proj2 (Z.ltb_lt _ _)) by lia.
    destruct (IH fuel (m / 2) nn mr) as (j & Hj & -> & Hl); [lia| |lia|lia|].
    { apply Z.div_pos; lia. }
    exists j. split; [lia|]. split; [done|].
    assert ((m + 1) mod 2 = 0 /\ (m + 1) / 2 = m / 2 + 1) as [-> ->].
    { split; [symmetry; apply (Z.mod_unique _ _ (m / 2 + 1)); lia|symmetry; apply (Z.div_unique _ _ _ 0); lia]. }
    rewrite Z.mul_0_r, Z.add_0_l, <- Hl. f_equal.
    replace (2 ^ j - 1) with (Z.ones j) by (rewrite Z.ones_equiv; lia).
    rewrite !Z.land_ones by lia. replace (Z.of_nat s) with (j + (Z.of_nat s - j)) by lia.
    rewrite Z.pow_add_r, Z.mul_1_r, Z.add_comm, Z.mul_comm, Z.mod_add; lia.
Qed.

(** ** The swaps *)

Fixpoint swaps (ps : list (Z * Z)) (p : list (Z * Z)) : option (list (Z * Z)) :=
  match ps with [] => Some p | ij :: ps => p ← swap p ij.1 ij.2; swaps ps p end.

(** The pairs to swap, from index [m] on. *)
Fixpoint rev_pairs (s : nat) (k : nat) (m : Z) : list (Z * Z) :=
  match k with
  | O => []
  | S k => (if m <? rev s m then [(m, rev s m)] else []) ++ rev_pairs s k (m + 1)
  end.

Fixpoint pairs (index : list Z) : list (Z * Z) :=
  match index with i :: j :: index => (i, j) :: pairs index | _ => [] end.

Lemma table_loop_swaps (index : list Z) : forall p, table_loop index p = swaps (pairs index) p.
Proof.
  enough (forall n index p, (length index <= n)%nat -> table_loop index p = swaps (pairs index) p) as H
    by (intros p; by apply (H (length index))).
  clear index. induction n as [|n IH]; intros index p Hn; (destruct index as [|i [|j index]]; [done..|]);
    cbn [length table_loop pairs swaps fst snd] in *; [lia|].
  destruct (swap p i j); [|done]. cbn [mbind option_bind]. apply IH. lia.
Qed.

(** The two tables are the bit reversals of 7 and 8 bits. *)
Lemma index_7_pairs : pairs index_7 = rev_pairs 7 127 1.
Proof. vm_compute. reflexivity. Qed.
Lemma index_8_pairs : pairs index_8 = rev_pairs 8 255 1.
Proof. vm_compute. reflexivity. Qed.

Lemma reverse_loop_swaps (s : nat) : (s <= 30)%nat -> forall k p m, 1 <= m ->
  m + Z.of_nat k = 2 ^ Z.of_nat s ->
  reverse_loop k p m (rev s (m - 1)) (2 ^ Z.of_nat s) (2 ^ Z.of_nat s - 1) = swaps (rev_pairs s k m) p.
Proof.
  intros Hs k. induction k as [|k IH]; intros p m Hm Hk; [done|]. cbn [reverse_loop rev_pairs].
  destruct (find_l_ok s 32 (m - 1) (2 ^ Z.of_nat s - 1) (rev s (m - 1))) as (j & Hj & -> & Hl); [lia..|].
  cbn [mbind option_bind]. replace (m - 1 + 1) with m in Hl by lia. rewrite Hl.
  destruct (Z.leb_spec (rev s m) m), (Z.ltb_spec m (rev s m)); try lia; cbn [app swaps fst snd].
  - cbn [mbind option_bind]. rewrite <- (IH p (m + 1)) by lia. by replace (m + 1 - 1) with m by lia.
  - destruct (swap p m (rev s m)) as [p'|]; [|done]. cbn [mbind option_bind].
    rewrite <- (IH p' (m + 1)) by lia. by replace (m + 1 - 1) with m by lia.
Qed.

Lemma swap_ok (p : list (Z * Z)) (i j : Z) : 0 <= i < zlen p -> 0 <= j < zlen p -> i <> j ->
  exists p', swap p i j = Some p' /\ zlen p' = zlen p /\ zn p' i = zn p j /\ zn p' j = zn p i /\
    forall k, k <> i -> k <> j -> zn p' k = zn p k.
Proof.
  intros Hi Hj Hij. unfold swap. rewrite !aget_in by done. cbn [mbind option_bind].
  rewrite aset_in by done. cbn [mbind option_bind]. rewrite aset_in by (by rewrite zlen_zset).
  eexists. split; [done|]. rewrite !zlen_zset. split_and!; [done| | |].
  - rewrite zn_zset_ne, zn_zset_eq by (rewrite ?zlen_zset; lia). done.
  - by rewrite zn_zset_eq by (rewrite ?zlen_zset; lia).
  - intros k Hki Hkj. rewrite !zn_zset_ne by lia. done.
Qed.

(** The data after the swaps of all indices below [m]: element [i] is in
    place when [i] or its reversal is below [m]. *)
Definition half_reversed (s : nat) (data p : list (Z * Z)) (m : Z) : Prop :=
  zlen p = zlen data /\ forall i, 0 <= i < 2 ^ Z.of_nat s ->
    zn p i = if Z.min i (rev s i) <? m then zn data (rev s i) else zn data i.

Lemma half_reversed_step (s : nat) (data p : list (Z * Z)) (m : Z) :
  2 ^ Z.of_nat s <= zlen data -> 0 <= m < 2 ^ Z.of_nat s -> half_reversed s data p m ->
  exists p', swaps (if m <? rev s m then [(m, rev s m)] else []) p = Some p' /\
    half_reversed s data p' (m + 1).
Proof.
  intros Hlen Hm [Hl Hp]. pose proof (rev_range s m) as Hr. pose proof (rev_rev s m Hm) as Hrr.
  destruct (Z.ltb_spec m (rev s m)) as [Hlt|Hge].
  - destruct (swap_ok p m (rev s m)) as (p' & E & Hl' & H1 & H2 & H3); [lia..|].
    exists p'. cbn [swaps fst snd]. rewrite E. split; [done|]. split; [lia|]. intros i Hi.
    destruct (decide (i = m)) as [->|Hne1].
    { rewrite H1, Hp by lia. rewrite Hrr, (proj2 (Z.ltb_ge _ _)), (proj2 (Z.ltb_lt _ _)) by lia. done. }
    destruct (decide (i = rev s m)) as [->|Hne2].
    { rewrite H2, Hp by lia. rewrite Hrr, (proj2 (Z.ltb_ge _ _)), (proj2 (Z.ltb_lt _ _)) by lia. done. }
    rewrite H3, Hp by done. pose proof (rev_rev s i ltac:(lia)) as Hi2.
    assert (rev s i <> m) by congruence.
    destruct (Z.ltb_spec (Z.min i (rev s i)) m), (Z.ltb_spec (Z.min i (rev s i)) (m + 1)); done || lia.
  - exists p. split; [done|]. split; [done|]. intros i Hi. rewrite Hp by done.
    pose proof (rev_rev s i ltac:(lia)) as Hi2.
    destruct (Z.ltb_spec (Z.min i (rev s i)) m), (Z.ltb_spec (Z.min i (rev s i)) (m + 1)); try done; try lia.
    assert (i = rev s i) as <-; [|done].
    destruct (decide (i = m)) as [->|]; [lia|]. assert (rev s i = m) as Hm' by lia. rewrite Hm' in *. lia.
Qed.

Lemma swaps_app (ps qs p : list (Z * Z)) : swaps (ps ++ qs) p = (p ← swaps ps p; swaps qs p).
Proof.
  revert p. induction ps as [|ij ps IH]; intros p; [done|]. cbn [app swaps].
  destruct (swap p ij.1 ij.2); [|done]. apply IH.
Qed.

Lemma rev_pairs_ok (s : nat) (data : list (Z * Z)) : 2 ^ Z.of_nat s <= zlen data -> forall k p m, 0 <= m ->
  m + Z.of_nat k = 2 ^ Z.of_nat s -> half_reversed s data p m ->
  exists p', swaps (rev_pairs s k m) p = Some p' /\ half_reversed s data p' (2 ^ Z.of_nat s).
Proof.
  intros Hlen k. induction k as [|k IH]; intros p m Hm Hk Hp.
  { exists p. split; [done|]. by replace (2 ^ Z.of_nat s) with m by lia. }
  cbn [rev_pairs]. rewrite swaps_app.
  destruct (half_reversed_step s data p m Hlen ltac:(lia) Hp) as (p1 & -> & Hp1). cbn [mbind option_bind].
  apply (IH p1 (m + 1)); [lia..|done].
Qed.

(** For every number of stages from 0 to 30, by table or by loop,
    [WebRtcSpl_ComplexBitReverse] moves the element at the bit-reversed index
    to each index, without leaving the array. *)
Lemma complex_bit_reverse (data : list (Z * Z)) (s : nat) :
  (s <= 30)%nat -> 2 ^ Z.of_nat s <= zlen data ->
  exists data', WebRtcSpl_ComplexBitReverse data (Z.of_nat s) = Some data' /\
    zlen data' = zlen data /\ forall i, 0 <= i < 2 ^ Z.of_nat s -> zn data' i = zn data (rev s i).
Proof.
  intros Hs Hlen. pose proof (pow2_pos s) as Hpos.
  destruct (rev_pairs_ok s data Hlen (Z.to_nat (2 ^ Z.of_nat s - 1)) data 1) as (p' & E & Hl & Hp); [lia..| |].
  { split; [done|]. intros i Hi. pose proof (rev_range s i). pose proof (rev_rev s i ltac:(lia)) as Hi2.
    destruct (Z.ltb_spec (Z.min i (rev s i)) 1); [|done].
    destruct (decide (i = 0)) as [->|]; [by rewrite rev_0|]. assert (rev s i = 0) as Hz by lia.
    rewrite Hz, rev_0 in Hi2. lia. }
  exists p'. split; [|split; [done|]].
  - unfold WebRtcSpl_ComplexBitReverse.
    destruct (Z.eqb_spec (Z.of_nat s) 7) as [H7|H7]; [|destruct (Z.eqb_spec (Z.of_nat s) 8) as [H8|H8]].
    + assert (s = 7%nat) as -> by lia. cbn [orb]. change (Z.of_nat 7 =? 8) with false. cbv iota.
      by rewrite table_loop_swaps, index_7_pairs.
    + assert (s = 8%nat) as -> by lia. cbn [orb]. by rewrite table_loop_swaps, index_8_pairs.
    + cbn [orb]. rewrite (proj2 (Z.leb_le _ _)), (proj2 (Z.leb_le _ _)) by lia. cbn [andb].
      rewrite Z.shiftl_1_l, <- E, <- (reverse_loop_swaps s Hs) by lia.
      change (1 - 1) with 0. by rewrite rev_0.
  - intros i Hi. rewrite Hp by done. by rewrite (proj2 (Z.ltb_lt _ _)) by (pose proof (rev_range s i); lia).
Qed.

Lemma complex_bit_reverse_witness :
  exists data', WebRtcSpl_ComplexBitReverse [(0, 1); (2, 3); (4, 5); (6, 7)] 2 = Some data' /\
    zlen data' = 4 /\
    forall i, 0 <= i < 4 -> zn data' i = zn [(0, 1); (2, 3); (4, 5); (6, 7)] (rev 2 i).
Proof. apply (complex_bit_reverse [(0, 1); (2, 3); (4, 5); (6, 7)] 2); [lia|done]. Defined.
