(* ===== verification/SplFft.v ===== *)
(** * The fixed-point FFT

    [complex_fft.c], [complex_fft_tables.h] and [real_fft.c] of
    [src/submodules/libtgvoip/webrtc_dsp/webrtc/common_audio/signal_processing],
    the generic C variants.  The transforms work in place on an array of
    16-bit real and imaginary parts, in bit-reversed order.  [None] is an
    access outside of an array, an overflow of an [int] or a shift outside of
    its width; a value stored in an [int16_t] wraps around. *)
From S2P Require Import Prelude.
From S2P Require Import Bytes.
From S2P Require Import SplArith.
From S2P Require Import SplVector.
From Stdlib Require Import ZArith Lia.
From stdpp Require Import base numbers option list.
From S2P Require Import SplBitRev.
Open Scope Z_scope.

Definition kSinTable1024 : list Z :=
  [0; 201; 402; 603; 804; 1005; 1206; 1406; 1607; 1808; 2009; 2209; 2410; 2610; 2811; 3011; 3211; 3411; 3611;
   3811; 4011; 4210; 4409; 4608; 4807; 5006; 5205; 5403; 5601; 5799; 5997; 6195; 6392; 6589; 6786; 6982; 7179;
   7375; 7571; 7766; 7961; 8156; 8351; 8545; 8739; 8932; 9126; 9319; 9511; 9703; 9895; 10087; 10278; 10469;
   10659; 10849; 11038; 11227; 11416; 11604; 11792; 11980; 12166; 12353; 12539; 12724; 12909; 13094; 13278;
   13462; 13645; 13827; 14009; 14191; 14372; 14552; 14732; 14911; 15090; 15268; 15446; 15623; 15799; 15975;
   16150; 16325; 16499; 16672; 16845; 17017; 17189; 17360; 17530; 17699; 17868; 18036; 18204; 18371; 18537;
   18702; 18867; 19031; 19194; 19357; 19519; 19680; 19840; 20000; 20159; 20317; 20474; 20631; 20787; 20942;
   21096; 21249; 21402; 21554; 21705; 21855; 22004; 22153; 22301; 22448; 22594; 22739; 22883; 23027; 23169;
   23311; 23452; 23592; 23731; 23869; 24006; 24143; 24278; 24413; 24546; 24679; 24811; 24942; 25072; 25201;
   25329; 25456; 25582; 25707; 25831; 25954; 26077; 26198; 26318; 26437; 26556; 26673; 26789; 26905; 27019;
   27132; 27244; 27355; 27466; 27575; 27683; 27790; 27896; 28001; 28105; 28208; 28309; 28410; 28510; 28608;
   28706; 28802; 28897; 28992; 29085; 29177; 29268; 29358; 29446; 29534; 29621; 29706; 29790; 29873; 29955;
   30036; 30116; 30195; 30272; 30349; 30424; 30498; 30571; 30643; 30713; 30783; 30851; 30918; 30984; 31049;
   31113; 31175; 31236; 31297; 31356; 31413; 31470; 31525; 31580; 31633; 31684; 31735; 31785; 31833; 31880;
   31926; 31970; 32014; 32056; 32097; 32137; 32176; 32213; 32249; 32284; 32318; 32350; 32382; 32412; 32441;
   32468; 32495; 32520; 32544; 32567; 32588; 32609; 32628; 32646; 32662; 32678; 32692; 32705; 32717; 32727;
   32736; 32744; 32751; 32757; 32761; 32764; 32766; 32767; 32766; 32764; 32761; 32757; 32751; 32744; 32736;
   32727; 32717; 32705; 32692; 32678; 32662; 32646; 32628; 32609; 32588; 32567; 32544; 32520; 32495; 32468;
   32441; 32412; 32382; 32350; 32318; 32284; 32249; 32213; 32176; 32137; 32097; 32056; 32014; 31970; 31926;
   31880; 31833; 31785; 31735; 31684; 31633; 31580; 31525; 31470; 31413; 31356; 31297; 31236; 31175; 31113;
   31049; 30984; 30918; 30851; 30783; 30713; 30643; 30571; 30498; 30424; 30349; 30272; 30195; 30116; 30036;
   29955; 29873; 29790; 29706; 29621; 29534; 29446; 29358; 29268; 29177; 29085; 28992; 28897; 28802; 28706;
   28608; 28510; 28410; 28309; 28208; 28105; 28001; 27896; 27790; 27683; 27575; 27466; 27355; 27244; 27132;
   27019; 26905; 26789; 26673; 26556; 26437; 26318; 26198; 26077; 25954; 25831; 25707; 25582; 25456; 25329;
   25201; 25072; 24942; 24811; 24679; 24546; 24413; 24278; 24143; 24006; 23869; 23731; 23592; 23452; 23311;
   23169; 23027; 22883; 22739; 22594; 22448; 22301; 22153; 22004; 21855; 21705; 21554; 21402; 21249; 21096;
   20942; 20787; 20631; 20474; 20317; 20159; 20000; 19840; 19680; 19519; 19357; 19194; 19031; 18867; 18702;
   18537; 18371; 18204; 18036; 17868; 17699; 17530; 17360; 17189; 17017; 16845; 16672; 16499; 16325; 16150;
   15975; 15799; 15623; 15446; 15268; 15090; 14911; 14732; 14552; 14372; 14191; 14009; 13827; 13645; 13462;
   13278; 13094; 12909; 12724; 12539; 12353; 12166; 11980; 11792; 11604; 11416; 11227; 11038; 10849; 10659;
   10469; 10278; 10087; 9895; 9703; 9511; 9319; 9126; 8932; 8739; 8545; 8351; 8156; 7961; 7766; 7571; 7375;
   7179; 6982; 6786; 6589; 6392; 6195; 5997; 5799; 5601; 5403; 5205; 5006; 4807; 4608; 4409; 4210; 4011; 3811;
   3611; 3411; 3211; 3011; 2811; 2610; 2410; 2209; 2009; 1808; 1607; 1406; 1206; 1005; 804; 603; 402; 201; 0;
   -201; -402; -603; -804; -1005; -1206; -1406; -1607; -1808; -2009; -2209; -2410; -2610; -2811; -3011; -3211;
   -3411; -3611; -3811; -4011; -4210; -4409; -4608; -4807; -5006; -5205; -5403; -5601; -5799; -5997; -6195;
   -6392; -6589; -6786; -6982; -7179; -7375; -7571; -7766; -7961; -8156; -8351; -8545; -8739; -8932; -9126;
   -9319; -9511; -9703; -9895; -10087; -10278; -10469; -10659; -10849; -11038; -11227; -11416; -11604; -11792;
   -11980; -12166; -12353; -12539; -12724; -12909; -13094; -13278; -13462; -13645; -13827; -14009; -14191;
   -14372; -14552; -14732; -14911; -15090; -15268; -15446; -15623; -15799; -15975; -16150; -16325; -16499;
   -16672; -16845; -17017; -17189; -17360; -17530; -17699; -17868; -18036; -18204; -18371; -18537; -18702;
   -18867; -19031; -19194; -19357; -19519; -19680; -19840; -20000; -20159; -20317; -20474; -20631; -20787;
   -20942; -21096; -21249; -21402; -21554; -21705; -21855; -22004; -22153; -22301; -22448; -22594; -22739;
   -22883; -23027; -23169; -23311; -23452; -23592; -23731; -23869; -24006; -24143; -24278; -24413; -24546;
   -24679; -24811; -24942; -25072; -25201; -25329; -25456; -25582; -25707; -25831; -25954; -26077; -26198;
   -26318; -26437; -26556; -26673; -26789; -26905; -27019; -27132; -27244; -27355; -27466; -27575; -27683;
   -27790; -27896; -28001; -28105; -28208; -28309; -28410; -28510; -28608; -28706; -28802; -28897; -28992;
   -29085; -29177; -29268; -29358; -29446; -29534; -29621; -29706; -29790; -29873; -29955; -30036; -30116;
   -30195; -30272; -30349; -30424; -30498; -30571; -30643; -30713; -30783; -30851; -30918; -30984; -31049;
   -31113; -31175; -31236; -31297; -31356; -31413; -31470; -31525; -31580; -31633; -31684; -31735; -31785;
   -31833; -31880; -31926; -31970; -32014; -32056; -32097; -32137; -32176; -32213; -32249; -32284; -32318;
   -32350; -32382; -32412; -32441; -32468; -32495; -32520; -32544; -32567; -32588; -32609; -32628; -32646;
   -32662; -32678; -32692; -32705; -32717; -32727; -32736; -32744; -32751; -32757; -32761; -32764; -32766;
   -32767; -32766; -32764; -32761; -32757; -32751; -32744; -32736; -32727; -32717; -32705; -32692; -32678;
   -32662; -32646; -32628; -32609; -32588; -32567; -32544; -32520; -32495; -32468; -32441; -32412; -32382;
   -32350; -32318; -32284; -32249; -32213; -32176; -32137; -32097; -32056; -32014; -31970; -31926; -31880;
   -31833; -31785; -31735; -31684; -31633; -31580; -31525; -31470; -31413; -31356; -31297; -31236; -31175;
   -31113; -31049; -30984; -30918; -30851; -30783; -30713; -30643; -30571; -30498; -30424; -30349; -30272;
   -30195; -30116; -30036; -29955; -29873; -29790; -29706; -29621; -29534; -29446; -29358; -29268; -29177;
   -29085; -28992; -28897; -28802; -28706; -28608; -28510; -28410; -28309; -28208; -28105; -28001; -27896;
   -27790; -27683; -27575; -27466; -27355; -27244; -27132; -27019; -26905; -26789; -26673; -26556; -26437;
   -26318; -26198; -26077; -25954; -25831; -25707; -25582; -25456; -25329; -25201; -25072; -24942; -24811;
   -24679; -24546; -24413; -24278; -24143; -24006; -23869; -23731; -23592; -23452; -23311; -23169; -23027;
   -22883; -22739; -22594; -22448; -22301; -22153; -22004; -21855; -21705; -21554; -21402; -21249; -21096;
   -20942; -20787; -20631; -20474; -20317; -20159; -20000; -19840; -19680; -19519; -19357; -19194; -19031;
   -18867; -18702; -18537; -18371; -18204; -18036; -17868; -17699; -17530; -17360; -17189; -17017; -16845;
   -16672; -16499; -16325; -16150; -15975; -15799; -15623; -15446; -15268; -15090; -14911; -14732; -14552;
   -14372; -14191; -14009; -13827; -13645; -13462; -13278; -13094; -12909; -12724; -12539; -12353; -12166;
   -11980; -11792; -11604; -11416; -11227; -11038; -10849; -10659; -10469; -10278; -10087; -9895; -9703; -9511;
   -9319; -9126; -8932; -8739; -8545; -8351; -8156; -7961; -7766; -7571; -7375; -7179; -6982; -6786; -6589;
   -6392; -6195; -5997; -5799; -5601; -5403; -5205; -5006; -4807; -4608; -4409; -4210; -4011; -3811; -3611;
   -3411; -3211; -3011; -2811; -2610; -2410; -2209; -2009; -1808; -1607; -1406; -1206; -1005; -804; -603; -402;
   -201].

Definition CFFTSFT : Z := 14.
Definition CFFTRND : Z := 1.
Definition CFFTRND2 : Z := 16384.
Definition CIFFTSFT : Z := 14.
Definition CIFFTRND : Z := 1.

(** ** One butterfly *)

(** [frfi[2 * j]] and [frfi[2 * j + 1]]. *)
Definition get_c (frfi : list Z) (j : Z) : option (Z * Z) :=
  re ← aget frfi (2 * j);
  im ← aget frfi (2 * j + 1);
  Some (re, im).
Definition set_c (frfi : list Z) (j : Z) (x : Z * Z) : option (list Z) :=
  frfi ← aset frfi (2 * j) (s16 x.1);
  aset frfi (2 * j + 1) (s16 x.2).

(** [tr32] and [ti32]: the product with the twiddle factor. *)
Definition rotate (mode sft rnd : Z) (w x : Z * Z) : option (Z * Z) :=
  let '(wr, wi) := w in
  tr32 ← int_add (wr * x.1) (- (wi * x.2));
  ti32 ← int_add (wr * x.2) (wi * x.1);
  if mode =? 0 then Some (Z.shiftr tr32 15, Z.shiftr ti32 15)
  else
    tr32 ← int_add tr32 rnd;
    ti32 ← int_add ti32 rnd;
    Some (Z.shiftr tr32 (15 - sft), Z.shiftr ti32 (15 - sft)).

(** [(q + t) >> shift], or with [sft] more bits and rounding. *)
Definition scale_sum (mode sft round2 shift q t : Z) : option Z :=
  if mode =? 0 then s ← int_add q t; Some (Z.shiftr s shift)
  else s ← int_add (q * 2 ^ sft) t; s ← int_add s round2; Some (Z.shiftr s (shift + sft)).

(** The body of the innermost loop, on the elements [i] and [j = i + l]. *)
Definition butterfly (mode sft rnd round2 shift : Z) (w : Z * Z) (frfi : list Z) (i j : Z) : option (list Z) :=
  x ← get_c frfi j;
  '(tr, ti) ← rotate mode sft rnd w x;
  '(qr, qi) ← get_c frfi i;
  ar ← scale_sum mode sft round2 shift qr (- tr);
  ai ← scale_sum mode sft round2 shift qi (- ti);
  frfi ← set_c frfi j (ar, ai);
  br ← scale_sum mode sft round2 shift qr tr;
  bi ← scale_sum mode sft round2 shift qi ti;
  set_c frfi i (br, bi).

(** ** The loops *)

(** [for (i = m; i < n; i += istep)] *)
Fixpoint i_loop (fuel : nat) (bf : list Z -> Z -> Z -> option (list Z)) (frfi : list Z) (i n istep l : Z)
  : option (list Z) :=
  if n <=? i then Some frfi
  else
  match fuel with
  | O => None
  | S fuel => frfi ← bf frfi i (i + l); i_loop fuel bf frfi (i + istep) n istep l
  end.

(** The twiddle factor of [m]; [sgn] is -1 in the forward transform. *)
Definition twiddle (sgn m k : Z) : option (Z * Z) :=
  let j := Z.shiftl m k in
  wr ← aget kSinTable1024 (j + 256);
  wi ← aget kSinTable1024 j;
  Some (wr, s16 (sgn * wi)).

(** [for (m = 0; m < l; ++m)]; [c] is [l - m]. *)
Fixpoint m_loop (c : nat) (sgn mode sft rnd round2 shift : Z) (frfi : list Z) (m n istep l k : Z)
  : option (list Z) :=
  match c with
  | O => Some frfi
  | S c =>
    w ← twiddle sgn m k;
    frfi ← i_loop (Z.to_nat n) (butterfly mode sft rnd round2 shift w) frfi m n istep l;
    m_loop c sgn mode sft rnd round2 shift frfi (m + 1) n istep l k
  end.

(** [while (l < n)] *)
Fixpoint fft_loop (fuel : nat) (mode : Z) (frfi : list Z) (l n k : Z) : option (list Z) :=
  if n <=? l then Some frfi
  else
  match fuel with
  | O => None
  | S fuel =>
    let istep := 2 * l in
    frfi ← m_loop (Z.to_nat l) (-1) mode CFFTSFT CFFTRND CFFTRND2 1 frfi 0 n istep l k;
    fft_loop fuel mode frfi istep n (k - 1)
  end.

(** The result and the transformed array. *)
Definition WebRtcSpl_ComplexFFT (frfi : list Z) (stages mode : Z) : option (Z * list Z) :=
  if (0 <=? stages) && (stages <=? 30) then
    let n := Z.shiftl 1 stages in
    if 1024 <? n then Some (-1, frfi)
    else frfi ← fft_loop 10 mode frfi 1 n (10 - 1); Some (0, frfi)
  else None.

(** [shift] for the largest magnitude. *)
Definition ifft_shift (tmp32 : Z) : Z :=
  (if 13573 <? tmp32 then 1 else 0) + (if 27146 <? tmp32 then 1 else 0).

Fixpoint ifft_loop (fuel : nat) (mode : Z) (frfi : list Z) (scale l n k : Z) : option (Z * list Z) :=
  if n <=? l then Some (scale, frfi)
  else
  match fuel with
  | O => None
  | S fuel =>
    tmp32 ← WebRtcSpl_MaxAbsValueW16C frfi (2 * n);
    let shift := ifft_shift tmp32 in
    let round2 := Z.shiftl 8192 shift in
    let istep := 2 * l in
    frfi ← m_loop (Z.to_nat l) 1 mode CIFFTSFT CIFFTRND round2 shift frfi 0 n istep l k;
    ifft_loop fuel mode frfi (scale + shift) istep n (k - 1)
  end.

Definition WebRtcSpl_ComplexIFFT (frfi : list Z) (stages mode : Z) : option (Z * list Z) :=
  if (0 <=? stages) && (stages <=? 30) then
    let n := Z.shiftl 1 stages in
    if 1024 <? n then Some (-1, frfi) else ifft_loop 10 mode frfi 0 1 n (10 - 1)
  else None.

(** ** Transforms of real signals *)

Record RealFFT := MkRealFFT { order : Z }.
Definition kMaxFFTOrder : Z := 10.

Definition WebRtcSpl_CreateRealFFT (mem_ok : bool) (order : Z) : option RealFFT :=
  if (kMaxFFTOrder <? order) || (order <? 0) then None
  else if mem_ok then Some (MkRealFFT order) else None.

(** The array of 16-bit cells as 32-bit words of two cells, and back. *)
Fixpoint words (l : list Z) : list (Z * Z) :=
  match l with re :: im :: l => (re, im) :: words l | _ => [] end.
Fixpoint cells (ws : list (Z * Z)) : list Z :=
  match ws with [] => [] | (re, im) :: ws => re :: im :: cells ws end.

(** [for (i = 0, j = 0; i < n; i += 1, j += 2)]; [c] is [n - i]. *)
Fixpoint insert_zeros (c : nat) (real_data_in complex_buffer : list Z) (i j : Z) : option (list Z) :=
  match c with
  | O => Some complex_buffer
  | S c =>
    x ← aget real_data_in i;
    complex_buffer ← aset complex_buffer j x;
    complex_buffer ← aset complex_buffer (j + 1) 0;
    insert_zeros c real_data_in complex_buffer (i + 1) (j + 2)
  end.

(** [complex_buffer] is the contents of the local array before. *)
Definition WebRtcSpl_RealForwardFFT (self : RealFFT) (real_data_in complex_data_out complex_buffer : list Z)
  : option (Z * list Z) :=
  let n := Z.shiftl 1 (order self) in
  complex_buffer ← insert_zeros (Z.to_nat n) real_data_in complex_buffer 0 0;
  ws ← WebRtcSpl_ComplexBitReverse (words complex_buffer) (order self);
  '(result, complex_buffer) ← WebRtcSpl_ComplexFFT (cells ws) (order self) 1;
  bs ← bread complex_buffer 0 (n + 2);
  complex_data_out ← bwrite complex_data_out 0 bs;
  Some (result, complex_data_out).

(** [for (i = n + 2; i < 2 * n; i += 2)]: the conjugate half. *)
Fixpoint mirror (fuel : nat) (complex_data_in complex_buffer : list Z) (i n : Z) : option (list Z) :=
  if 2 * n <=? i then Some complex_buffer
  else
  match fuel with
  | O => None
  | S fuel =>
    re ← aget complex_data_in (2 * n - i);
    complex_buffer ← aset complex_buffer i re;
    im ← aget complex_data_in (2 * n - i + 1);
    complex_buffer ← aset complex_buffer (i + 1) (s16 (- im));
    mirror fuel complex_data_in complex_buffer (i + 2) n
  end.

(** [for (i = 0, j = 0; i < n; i += 1, j += 2) real_data_out[i] = complex_buffer[j];] *)
Fixpoint strip (c : nat) (complex_buffer real_data_out : list Z) (i j : Z) : option (list Z) :=
  match c with
  | O => Some real_data_out
  | S c =>
    x ← aget complex_buffer j;
    real_data_out ← aset real_data_out i x;
    strip c complex_buffer real_data_out (i + 1) (j + 2)
  end.

Definition WebRtcSpl_RealInverseFFT (self : RealFFT) (complex_data_in real_data_out complex_buffer : list Z)
  : option (Z * list Z) :=
  let n := Z.shiftl 1 (order self) in
  bs ← bread complex_data_in 0 (n + 2);
  complex_buffer ← bwrite complex_buffer 0 bs;
  complex_buffer ← mirror (Z.to_nat n) complex_data_in complex_buffer (n + 2) n;
  ws ← WebRtcSpl_ComplexBitReverse (words complex_buffer) (order self);
  '(result, complex_buffer) ← WebRtcSpl_ComplexIFFT (cells ws) (order self) 1;
  real_data_out ← strip (Z.to_nat n) complex_buffer real_data_out 0 0;
  Some (result, real_data_out).

(** ** Exact arithmetic *)

(** The element [p] of the array. *)
Definition cx (frfi : list Z) (p : Z) : Z * Z := (zn frfi (2 * p), zn frfi (2 * p + 1)).
Definition int16c (x : Z * Z) : Prop := int16 x.1 /\ int16 x.2.

(** The twiddle factor. *)
Definition tw (sgn m k : Z) : Z * Z :=
  (zn kSinTable1024 (m * 2 ^ k + 256), sgn * zn kSinTable1024 (m * 2 ^ k)).

Definition cmul (w x : Z * Z) : Z * Z := (w.1 * x.1 - w.2 * x.2, w.1 * x.2 + w.2 * x.1).

(** Sum and difference of [q] and the rotated [x], divided by [2^shift]. *)
Definition rounded (mode p : Z) : Z := if mode =? 0 then p / 2 ^ 15 else (p + 1) / 2.
Definition scaled (mode shift q t : Z) : Z :=
  if mode =? 0 then (q + t) / 2 ^ shift else (q * 2 ^ 14 + t + 8192 * 2 ^ shift) / 2 ^ (shift + 14).
Definition plus_c (mode shift : Z) (w q x : Z * Z) : Z * Z :=
  let t := cmul w x in
  (scaled mode shift q.1 (rounded mode t.1), scaled mode shift q.2 (rounded mode t.2)).
Definition minus_c (mode shift : Z) (w q x : Z * Z) : Z * Z :=
  let t := cmul w x in
  (scaled mode shift q.1 (- rounded mode t.1), scaled mode shift q.2 (- rounded mode t.2)).

(** The transform of [2^s] elements [x], by decimation in time: element [k]
    combines the transforms of the even and of the odd elements. *)
Fixpoint dft (sgn mode : Z) (shift : nat -> Z) (s : nat) (x : Z -> Z * Z) (k : Z) : Z * Z :=
  match s with
  | O => x 0
  | S s =>
    let l := 2 ^ Z.of_nat s in
    let r := if k <? l then k else k - l in
    let a := dft sgn mode shift s (fun i => x (2 * i)) r in
    let b := dft sgn mode shift s (fun i => x (2 * i + 1)) r in
    (if k <? l then plus_c else minus_c) mode (shift s) (tw sgn r (9 - Z.of_nat s)) a b
  end.

Lemma dft_ext (sgn mode : Z) (sh1 sh2 : nat -> Z) (s : nat) : forall x y k,
  (forall t, (t < s)%nat -> sh1 t = sh2 t) -> (forall i, 0 <= i < 2 ^ Z.of_nat s -> x i = y i) ->
  dft sgn mode sh1 s x k = dft sgn mode sh2 s y k.
Proof.
  induction s as [|s IH]; intros x y k Es E; cbn [dft]; [apply E; done|]. rewrite pow2_S in E.
  rewrite (IH (fun i => x (2 * i)) (fun i => y (2 * i))), (IH (fun i => x (2 * i + 1)) (fun i => y (2 * i + 1))), Es;
    try done; try lia; intros; (apply Es || apply E); lia.
Qed.

(** ** The table *)

Definition tw_okb (j : Z) : bool :=
  let wr := zn kSinTable1024 (j + 256) in let wi := zn kSinTable1024 j in
  (wr * wr + wi * wi <=? 2 ^ 30) && (Z.abs wr + Z.abs wi <=? 46338) && (Z.abs wi <=? 32767).

Lemma table_ok : zlen kSinTable1024 = 1024 /\ forallb tw_okb (seqZ 0 512) = true.
Proof. split; vm_compute; reflexivity. Qed.

(** What the transforms need of a twiddle factor. *)
Record tw_spec (w : Z * Z) : Prop := {
  tw_norm : w.1 * w.1 + w.2 * w.2 <= 2 ^ 30;
  tw_sum : Z.abs w.1 + Z.abs w.2 <= 46338
}.

Lemma twiddle_ok (sgn m : Z) (s : nat) : sgn = 1 \/ sgn = -1 -> (s <= 9)%nat -> 0 <= m < 2 ^ Z.of_nat s ->
  twiddle sgn m (9 - Z.of_nat s) = Some (tw sgn m (9 - Z.of_nat s)) /\ tw_spec (tw sgn m (9 - Z.of_nat s)).
Proof.
  intros Hs Hs9 Hm. destruct table_ok as [Hz Hf].
  assert (0 < 2 ^ (9 - Z.of_nat s)) as Hp by (apply Z.pow_pos_nonneg; lia).
  assert (2 ^ Z.of_nat s * 2 ^ (9 - Z.of_nat s) = 512) as Hpp by (rewrite <- Z.pow_add_r by lia; by replace (Z.of_nat s + (9 - Z.of_nat s)) with 9 by lia).
  assert (0 <= m * 2 ^ (9 - Z.of_nat s) < 512) as Hj by nia.
  unfold twiddle, tw. rewrite Z.shiftl_mul_pow2 by lia. set (j := m * 2 ^ (9 - Z.of_nat s)) in *.
  rewrite !aget_in by lia. cbn [mbind option_bind].
  rewrite forallb_forall in Hf. specialize (Hf j). rewrite <- list_elem_of_In, elem_of_seqZ in Hf.
  specialize (Hf ltac:(lia)). unfold tw_okb in Hf. rewrite !andb_true_iff, !Z.leb_le in Hf. destruct Hf as [[H1 H2] H3].
  split; [|split; cbn [fst snd]; destruct Hs as [-> | ->]; nia].
  rewrite swrap_small; [done|lia|]. change (2 ^ (16 - 1)) with 32768. destruct Hs as [-> | ->]; lia.
Qed.

(** ** A butterfly *)

Lemma rounded_bound (mode p : Z) : - (46338 * 32768) <= p <= 46338 * 32768 ->
  - (46338 * 16384) <= rounded mode p <= 46338 * 16384 + 1.
Proof.
  intros Hp. unfold rounded. change (2 ^ 15) with 32768. destruct (mode =? 0).
  - pose proof (Z.div_mod p 32768 ltac:(lia)). pose proof (Z.mod_pos_bound p 32768 ltac:(lia)). lia.
  - pose proof (Z.div_mod (p + 1) 2 ltac:(lia)). pose proof (Z.mod_pos_bound (p + 1) 2 ltac:(lia)). lia.
Qed.

Lemma cmul_bound (w x : Z * Z) : tw_spec w -> int16c x ->
  - (46338 * 32768) <= (cmul w x).1 <= 46338 * 32768 /\ - (46338 * 32768) <= (cmul w x).2 <= 46338 * 32768.
Proof. intros [_ Hs] [H1 H2]. unfold int16 in *. unfold cmul. cbn [fst snd]. split; nia. Qed.

Lemma rotate_ok (mode : Z) (w x : Z * Z) : tw_spec w -> int16c x ->
  rotate mode 14 1 w x = Some (rounded mode (cmul w x).1, rounded mode (cmul w x).2).
Proof.
  intros Hw Hx. destruct (cmul_bound w x Hw Hx) as [B1 B2]. destruct w as [wr wi]. unfold rotate, rounded, cmul in *.
  cbn [fst snd] in *. rewrite (int_add_in (wr * x.1)) by lia. cbn [mbind option_bind].
  rewrite (int_add_in (wr * x.2)) by lia. cbn [mbind option_bind]. rewrite Z.add_opp_r. destruct (mode =? 0).
  - by rewrite !Z.shiftr_div_pow2 by lia.
  - rewrite !int_add_in by lia. cbn [mbind option_bind]. by rewrite !Z.shiftr_div_pow2 by lia.
Qed.

Lemma scale_sum_ok (mode shift q t : Z) : 0 <= shift <= 2 -> int16 q -> - (46338 * 16384 + 1) <= t <= 46338 * 16384 + 1 ->
  scale_sum mode 14 (8192 * 2 ^ shift) shift q t = Some (scaled mode shift q t).
Proof.
  intros Hs Hq Ht. unfold int16 in Hq. unfold scale_sum, scaled. assert (0 < 2 ^ shift <= 4).
  { split; [apply Z.pow_pos_nonneg; lia|]. change 4 with (2 ^ 2). apply Z.pow_le_mono_r; lia. }
  change (2 ^ 14) with 16384. destruct (mode =? 0).
  - rewrite int_add_in by lia. cbn [mbind option_bind]. by rewrite Z.shiftr_div_pow2 by lia.
  - rewrite int_add_in by lia. cbn [mbind option_bind]. rewrite int_add_in by lia. cbn [mbind option_bind].
    by rewrite Z.shiftr_div_pow2 by lia.
Qed.

Lemma get_c_ok (g : list Z) (p : Z) : 0 <= p -> 2 * p + 1 < zlen g -> get_c g p = Some (cx g p).
Proof. intros. unfold get_c, cx. by rewrite !aget_in by lia. Qed.

Lemma set_c_ok (g : list Z) (p : Z) (x : Z * Z) : 0 <= p -> 2 * p + 1 < zlen g -> int16c x ->
  exists g', set_c g p x = Some g' /\ zlen g' = zlen g /\ cx g' p = x /\ forall r, 0 <= r -> r <> p -> cx g' r = cx g r.
Proof.
  intros Hp Hl [H1 H2]. unfold int16 in *. unfold set_c, cx. rewrite !swrap_small by (change (2 ^ (16 - 1)) with 32768; lia).
  rewrite aset_in by lia. cbn [mbind option_bind]. rewrite aset_in by (rewrite zlen_zset; lia).
  eexists. split; [done|]. rewrite !zlen_zset. split; [done|]. split.
  - rewrite zn_zset_eq by (rewrite zlen_zset; lia). rewrite zn_zset_ne, zn_zset_eq by lia. by destruct x.
  - intros r Hr Hne. by rewrite !zn_zset_ne by lia.
Qed.

Lemma butterfly_ok (mode shift : Z) (w : Z * Z) (g : list Z) (i j : Z) : tw_spec w -> 0 <= shift <= 2 ->
  0 <= i -> 0 <= j -> i <> j -> 2 * i + 1 < zlen g -> 2 * j + 1 < zlen g -> int16c (cx g i) -> int16c (cx g j) ->
  int16c (plus_c mode shift w (cx g i) (cx g j)) -> int16c (minus_c mode shift w (cx g i) (cx g j)) ->
  exists g', butterfly mode 14 1 (8192 * 2 ^ shift) shift w g i j = Some g' /\ zlen g' = zlen g /\
    cx g' i = plus_c mode shift w (cx g i) (cx g j) /\ cx g' j = minus_c mode shift w (cx g i) (cx g j) /\
    forall r, 0 <= r -> r <> i -> r <> j -> cx g' r = cx g r.
Proof.
  intros Hw Hs Hi Hj Hij Hil Hjl Hxi Hxj Hp Hm. unfold butterfly. rewrite (get_c_ok g j) by lia. cbn [mbind option_bind].
  rewrite rotate_ok by done. cbn [mbind option_bind]. rewrite (get_c_ok g i) by lia. cbn [mbind option_bind].
  destruct (cmul_bound w _ Hw Hxj) as [B1 B2]. pose proof (rounded_bound mode _ B1). pose proof (rounded_bound mode _ B2).
  unfold plus_c, minus_c in *. destruct (cx g i) as [qr qi]. cbn [fst snd] in *. destruct Hxi as [Hqr Hqi].
  rewrite !scale_sum_ok by (done || lia). cbn [mbind option_bind].
  destruct (set_c_ok g j _ Hj Hjl Hm) as (g1 & -> & Hl1 & E1 & O1). cbn [mbind option_bind].
  destruct (set_c_ok g1 i _ Hi ltac:(lia) Hp) as (g2 & -> & Hl2 & E2 & O2).
  exists g2. split_and!; [done|lia|done| |].
  - by rewrite O2 by lia.
  - intros r Hr H1 H2. by rewrite O2, O1 by lia.
Qed.

(** ** One stage *)

Section Stage.
Variables (sgn mode shift : Z) (s : nat) (n len : Z).
Hypothesis Hlen : 2 * n <= len.
Hypothesis Hsgn : sgn = 1 \/ sgn = -1.
Hypothesis Hshift : 0 <= shift <= 2.
Hypothesis Hs : (s <= 9)%nat.
Let l := 2 ^ Z.of_nat s.
Let w (m : Z) := tw sgn m (9 - Z.of_nat s).
Hypothesis Hn : exists b, n = b * (2 * l).
(** The array before the stage. *)
Variable f : Z -> Z * Z.
Hypothesis Hf : forall p, 0 <= p < n -> int16c (f p).

(** Element [p] after the stage. *)
Definition stage_ref (p : Z) : Z * Z :=
  let r := p mod (2 * l) in
  if r <? l then plus_c mode shift (w r) (f p) (f (p + l)) else minus_c mode shift (w (r - l)) (f (p - l)) (f p).
Hypothesis Hfit : forall p, 0 <= p < n -> int16c (stage_ref p).

Lemma l_pos : 0 < l.
Proof. apply pow2_pos. Qed.

(** The array when the pairs of the indices below [m], and of [m] below [i],
    are done. *)
Definition handled (m i p : Z) : bool := (p mod l <? m) || ((p mod l =? m) && (p <? i)).
Definition between (m i : Z) (g : list Z) : Prop :=
  zlen g = len /\ forall p, 0 <= p < n -> cx g p = if handled m i p then stage_ref p else f p.

(** The pair of [i]. *)
Lemma pair_facts (m q : Z) : 0 <= m < l -> 0 <= q -> m + q * (2 * l) < n ->
  let i := m + q * (2 * l) in
  i + l < n /\ i mod l = m /\ (i + l) mod l = m /\ i mod (2 * l) = m /\ (i + l) mod (2 * l) = m + l.
Proof.
  intros Hm Hq Hi i. destruct Hn as [b Hb]. pose proof l_pos. unfold i.
  split_and!.
  - assert (q < b) by nia. nia.
  - replace (m + q * (2 * l)) with (m + (2 * q) * l) by lia. rewrite Z.mod_add, Z.mod_small by lia. done.
  - replace (m + q * (2 * l) + l) with (m + (2 * q + 1) * l) by lia. rewrite Z.mod_add, Z.mod_small by lia. done.
  - rewrite Z.mod_add, Z.mod_small by lia. done.
  - replace (m + q * (2 * l) + l) with (m + l + q * (2 * l)) by lia. rewrite Z.mod_add, Z.mod_small by lia. done.
Qed.

(** Only the pair of [i] is handled in the round of [i]. *)
Lemma handled_step (m i p : Z) : i mod l = m -> 0 <= m < l -> p <> i -> p <> i + l ->
  handled m (i + 2 * l) p = handled m i p.
Proof.
  intros Him Hm Hpi Hpl. pose proof l_pos. unfold handled. f_equal.
  destruct (Z.eqb_spec (p mod l) m) as [Hpm|]; [|done]. cbn [andb].
  pose proof (Z.div_mod p l ltac:(lia)) as Dp. pose proof (Z.div_mod i l ltac:(lia)) as Di. rewrite Hpm in Dp. rewrite Him in Di.
  destruct (Z.ltb_spec p (i + 2 * l)), (Z.ltb_spec p i); try done; try lia. exfalso.
  assert (p / l = i / l \/ p / l = i / l + 1) as [E | E] by nia; rewrite E in Dp; lia.
Qed.

Lemma i_loop_ok (m : Z) (fuel : nat) : forall q g, 0 <= m < l -> 0 <= q -> n - (m + q * (2 * l)) <= Z.of_nat fuel ->
  between m (m + q * (2 * l)) g ->
  exists g', i_loop fuel (butterfly mode 14 1 (8192 * 2 ^ shift) shift (w m)) g (m + q * (2 * l)) n (2 * l) l = Some g' /\
    between (m + 1) (m + 1) g'.
Proof.
  pose proof l_pos as Hl. induction fuel as [|fuel IH]; intros q g Hm Hq Hfu Hg; cbn [i_loop].
  all: destruct (Z.leb_spec n (m + q * (2 * l))) as [Hle|Hlt]; [|try lia].
  1,2: exists g; split; [done|]; destruct Hg as [Hgl Hg]; split; [done|]; intros p Hp; rewrite Hg by done;
    replace (handled (m + 1) (m + 1) p) with (handled m (m + q * (2 * l)) p); [done|];
    unfold handled; pose proof (Z.mod_le p l ltac:(lia) Hl);
    rewrite (proj2 (Z.ltb_lt p (m + q * (2 * l)))) by lia;
    destruct (Z.ltb_spec (p mod l) m), (Z.eqb_spec (p mod l) m), (Z.ltb_spec (p mod l) (m + 1)), (Z.eqb_spec (p mod l) (m + 1)),
      (Z.ltb_spec p (m + 1)); cbn; done || lia.
  destruct (pair_facts m q Hm Hq Hlt) as (Hil & Ei & Eil & Ri & Ril). set (i := m + q * (2 * l)) in *.
  assert (0 <= i) by (unfold i; nia). destruct Hg as [Hgl Hg].
  assert (handled m i i = false /\ handled m i (i + l) = false) as [H1 H2].
  { unfold handled. rewrite Ei, Eil, Z.eqb_refl, !(proj2 (Z.ltb_ge _ _)) by lia. done. }
  assert (cx g i = f i /\ cx g (i + l) = f (i + l)) as [C1 C2] by (rewrite !Hg by lia; by rewrite H1, H2).
  assert (stage_ref i = plus_c mode shift (w m) (f i) (f (i + l))) as S1
    by (unfold stage_ref; rewrite Ri; by rewrite (proj2 (Z.ltb_lt _ _)) by lia).
  assert (stage_ref (i + l) = minus_c mode shift (w m) (f i) (f (i + l))) as S2.
  { unfold stage_ref. rewrite Ril. rewrite (proj2 (Z.ltb_ge _ _)) by lia. by replace (m + l - l) with m by lia; replace (i + l - l) with i by lia. }
  destruct (butterfly_ok mode shift (w m) g i (i + l)) as (g1 & -> & Hl1 & P1 & M1 & O1); try lia.
  { apply (twiddle_ok sgn m s); auto. }
  1,2: rewrite ?C1, ?C2; apply Hf; lia.
  { rewrite C1, C2, <- S1. apply Hfit. lia. } { rewrite C1, C2, <- S2. apply Hfit. lia. }
  cbn [mbind option_bind]. replace (i + 2 * l) with (m + (q + 1) * (2 * l)) by (unfold i; lia).
  apply IH; [lia..|]. replace (m + (q + 1) * (2 * l)) with (i + 2 * l) by (unfold i; lia).
  split; [lia|]. intros p Hp. rewrite C1, C2, <- S1 in P1. rewrite C1, C2, <- S2 in M1.
  destruct (decide (p = i)) as [->|Hpi].
  { unfold handled. rewrite Ei, Z.eqb_refl, (proj2 (Z.ltb_lt i (i + 2 * l))) by lia. by rewrite orb_true_r. }
  destruct (decide (p = i + l)) as [->|Hpl].
  { unfold handled. rewrite Eil, Z.eqb_refl, (proj2 (Z.ltb_lt (i + l) (i + 2 * l))) by lia. by rewrite orb_true_r. }
  rewrite handled_step by done. rewrite O1 by lia. by apply Hg.
Qed.

Lemma m_loop_ok (c : nat) : forall m g, m + Z.of_nat c = l -> 0 <= m -> between m m g ->
  exists g', m_loop c sgn mode 14 1 (8192 * 2 ^ shift) shift g m n (2 * l) l (9 - Z.of_nat s) = Some g' /\
    zlen g' = len /\ forall p, 0 <= p < n -> cx g' p = stage_ref p.
Proof.
  pose proof l_pos as Hl. induction c as [|c IH]; intros m g Hm Hm0 Hg; cbn [m_loop].
  - exists g. split; [done|]. destruct Hg as [Hgl Hg]. split; [done|]. intros p Hp. rewrite Hg by done.
    unfold handled. rewrite (proj2 (Z.ltb_lt _ _)); [done|]. pose proof (Z.mod_pos_bound p l Hl). lia.
  - destruct (twiddle_ok sgn m s Hsgn Hs ltac:(unfold l in *; lia)) as [-> _]. cbn [mbind option_bind].
    destruct (i_loop_ok m (Z.to_nat n) 0 g) as (g1 & E & Hg1); [lia|lia|lia| |].
    { by replace (m + 0 * (2 * l)) with m by lia. }
    replace (m + 0 * (2 * l)) with m in E by lia. unfold w in E. rewrite E. cbn [mbind option_bind].
    apply IH; [lia..|done].
Qed.
End Stage.

(** ** The stages add up to the transform *)

(** Element [p] after [s] stages: of the transform of its block of [2^s]
    elements. *)
Definition partial (sgn mode : Z) (shift : nat -> Z) (y : Z -> Z * Z) (s : nat) (p : Z) : Z * Z :=
  let l := 2 ^ Z.of_nat s in
  dft sgn mode shift s (fun i => y (p - p mod l + rev s i)) (p mod l).

Lemma rev_even (s : nat) (i : Z) : rev (S s) (2 * i) = rev s i.
Proof.
  cbn [rev]. replace (2 * i) with (0 + i * 2) by lia. rewrite Z.mod_add, Z.div_add by lia.
  change (0 mod 2) with 0. change (0 / 2) with 0. by rewrite Z.mul_0_r, !Z.add_0_l.
Qed.
Lemma rev_odd (s : nat) (i : Z) : rev (S s) (2 * i + 1) = 2 ^ Z.of_nat s + rev s i.
Proof.
  cbn [rev]. replace (2 * i + 1) with (1 + i * 2) by lia. rewrite Z.mod_add, Z.div_add by lia.
  change (1 mod 2) with 1. change (1 / 2) with 0. by rewrite Z.mul_1_r, !Z.add_0_l.
Qed.

Lemma partial_step (sgn mode : Z) (shift : nat -> Z) (y : Z -> Z * Z) (s : nat) (p : Z) :
  stage_ref sgn mode (shift s) s (partial sgn mode shift y s) p = partial sgn mode shift y (S s) p.
Proof.
  unfold stage_ref, partial. rewrite pow2_S. set (l := 2 ^ Z.of_nat s). assert (0 < l) as Hl by apply pow2_pos.
  pose proof (Z.div_mod p (2 * l) ltac:(lia)) as Dp. pose proof (Z.mod_pos_bound p (2 * l) ltac:(lia)) as Br.
  set (r := p mod (2 * l)) in *. set (b := p / (2 * l)) in *.
  cbn [dft]. fold l. destruct (Z.ltb_spec r l) as [Hr|Hr].
  - assert (p mod l = r) as E1 by (symmetry; apply (Z.mod_unique _ _ (2 * b)); lia).
    assert ((p + l) mod l = r) as E2 by (symmetry; apply (Z.mod_unique _ _ (2 * b + 1)); lia).
    rewrite E1, E2. f_equal; apply dft_ext; try done; intros i _.
    + by rewrite rev_even.
    + rewrite rev_odd. fold l. f_equal. lia.
  - assert (p mod l = r - l) as E1 by (symmetry; apply (Z.mod_unique _ _ (2 * b + 1)); lia).
    assert ((p - l) mod l = r - l) as E2 by (symmetry; apply (Z.mod_unique _ _ (2 * b)); lia).
    rewrite E1, E2. f_equal; apply dft_ext; try done; intros i _.
    + rewrite rev_even. f_equal. lia.
    + rewrite rev_odd. fold l. f_equal. lia.
Qed.

Lemma stage_ref_ext (sgn mode shift : Z) (s : nat) (n : Z) (f g : Z -> Z * Z) (p : Z) :
  (exists b, n = b * (2 * 2 ^ Z.of_nat s)) -> (forall q, 0 <= q < n -> f q = g q) -> 0 <= p < n ->
  stage_ref sgn mode shift s f p = stage_ref sgn mode shift s g p.
Proof.
  intros [b Hb] E Hp. unfold stage_ref. set (l := 2 ^ Z.of_nat s) in *. assert (0 < l) as Hl by apply pow2_pos.
  pose proof (Z.div_mod p (2 * l) ltac:(lia)) as Dp. pose proof (Z.mod_pos_bound p (2 * l) ltac:(lia)) as Br.
  assert (0 <= p / (2 * l) < b) by nia.
  destruct (Z.ltb_spec (p mod (2 * l)) l); rewrite !E by nia; done.
Qed.

(** One stage of either transform. *)
Lemma stage_ok (sgn mode : Z) (shift : nat -> Z) (y : Z -> Z * Z) (s S' : nat) (g : list Z) :
  sgn = 1 \/ sgn = -1 -> 0 <= shift s <= 2 -> (s < S')%nat -> (S' <= 10)%nat ->
  let n := 2 ^ Z.of_nat S' in
  2 * n <= zlen g -> (forall p, 0 <= p < n -> cx g p = partial sgn mode shift y s p /\ int16c (cx g p)) ->
  (forall p, 0 <= p < n -> int16c (stage_ref sgn mode (shift s) s (cx g) p)) ->
  exists g', m_loop (Z.to_nat (2 ^ Z.of_nat s)) sgn mode 14 1 (8192 * 2 ^ shift s) (shift s) g 0 n
      (2 * 2 ^ Z.of_nat s) (2 ^ Z.of_nat s) (9 - Z.of_nat s) = Some g' /\ zlen g' = zlen g /\
    forall p, 0 <= p < n -> cx g' p = partial sgn mode shift y (S s) p /\
      cx g' p = stage_ref sgn mode (shift s) s (cx g) p /\ int16c (cx g' p).
Proof.
  intros Hsgn Hsh Hs HS n Hl Hg Hfit. pose proof (pow2_pos s).
  assert (exists b, n = b * (2 * 2 ^ Z.of_nat s)) as Hb.
  { exists (2 ^ (Z.of_nat S' - Z.of_nat s - 1)). unfold n. rewrite <- Z.pow_succ_r, <- Z.pow_add_r by lia. f_equal. lia. }
  destruct (m_loop_ok sgn mode (shift s) s n (zlen g) Hl Hsgn Hsh ltac:(lia) Hb (cx g) (fun p Hp => proj2 (Hg p Hp)) Hfit
    (Z.to_nat (2 ^ Z.of_nat s)) 0 g) as (g' & E & Hl' & Hg'); [lia|lia| |].
  { split; [done|]. intros p Hp. unfold handled. pose proof (Z.mod_pos_bound p (2 ^ Z.of_nat s) ltac:(lia)).
    rewrite (proj2 (Z.ltb_ge _ _)), (proj2 (Z.ltb_ge p 0)), andb_false_r by lia. done. }
  exists g'. split_and!; auto. intros p Hp. rewrite Hg' by done. split_and!; auto.
  rewrite <- partial_step. apply (stage_ref_ext _ _ _ _ n); auto. intros q Hq. by apply Hg.
Qed.

(** ** Forward: the magnitudes *)

Definition norm2 (x : Z * Z) : Z := x.1 * x.1 + x.2 * x.2.

Lemma norm2_cmul (w x : Z * Z) : norm2 (cmul w x) = norm2 w * norm2 x.
Proof. unfold norm2, cmul. cbn [fst snd]. ring. Qed.

Lemma norm2_add (A B a1 a2 b1 b2 : Z) : 0 <= A -> 0 <= B -> a1 * a1 + a2 * a2 <= A * A -> b1 * b1 + b2 * b2 <= B * B ->
  (a1 + b1) * (a1 + b1) + (a2 + b2) * (a2 + b2) <= (A + B) * (A + B).
Proof.
  intros HA HB Ha Hb. enough (a1 * b1 + a2 * b2 <= A * B) by lia.
  assert ((a1 * b1 + a2 * b2) * (a1 * b1 + a2 * b2) <= (A * B) * (A * B)) as H.
  { pose proof (Z.square_nonneg (a1 * b2 - a2 * b1)).
    assert ((a1 * a1 + a2 * a2) * (b1 * b1 + b2 * b2) <= (A * A) * (B * B)) by (apply Z.mul_le_mono_nonneg; nia). lia. }
  nia.
Qed.

Lemma norm2_err (A D u1 u2 e1 e2 : Z) : 0 <= A -> 0 <= D -> u1 * u1 + u2 * u2 <= A * A -> - D <= e1 <= D -> - D <= e2 <= D ->
  (u1 + e1) * (u1 + e1) + (u2 + e2) * (u2 + e2) <= (A + 2 * D) * (A + 2 * D).
Proof.
  intros HA HD Hu H1 H2. apply (norm2_add A (2 * D)); try lia.
  assert (e1 * e1 <= D * D /\ e2 * e2 <= D * D) by nia. lia.
Qed.

(** The rounding error of one component, in units of [2^-16]. *)
Lemma half_sum (mode q p : Z) :
  - 65536 <= 65536 * scaled mode 1 q (rounded mode p) - (32768 * q + p) <= 65536 /\
  - 65536 <= 65536 * scaled mode 1 q (- rounded mode p) - (32768 * q - p) <= 65536.
Proof.
  unfold scaled, rounded. change (2 ^ 15) with 32768. change (2 ^ 14) with 16384. change (2 ^ 1) with 2.
  change (2 ^ (1 + 14)) with 32768. destruct (mode =? 0).
  - pose proof (Z.div_mod p 32768 ltac:(lia)). pose proof (Z.mod_pos_bound p 32768 ltac:(lia)).
    set (t := p / 32768) in *.
    pose proof (Z.div_mod (q + t) 2 ltac:(lia)). pose proof (Z.mod_pos_bound (q + t) 2 ltac:(lia)).
    pose proof (Z.div_mod (q + - t) 2 ltac:(lia)). pose proof (Z.mod_pos_bound (q + - t) 2 ltac:(lia)). lia.
  - pose proof (Z.div_mod (p + 1) 2 ltac:(lia)). pose proof (Z.mod_pos_bound (p + 1) 2 ltac:(lia)).
    set (t := (p + 1) / 2) in *. set (u := q * 16384 + t + 8192 * 2). set (v := q * 16384 + - t + 8192 * 2).
    pose proof (Z.div_mod u 32768 ltac:(lia)). pose proof (Z.mod_pos_bound u 32768 ltac:(lia)).
    pose proof (Z.div_mod v 32768 ltac:(lia)). pose proof (Z.mod_pos_bound v 32768 ltac:(lia)). lia.
Qed.

(** Halving the sum keeps the magnitude, but for the rounding. *)
Lemma norm2_round (R u1 u2 o1 o2 : Z) : 0 <= R -> u1 * u1 + u2 * u2 <= (65536 * R) * (65536 * R) ->
  - 65536 <= 65536 * o1 - u1 <= 65536 -> - 65536 <= 65536 * o2 - u2 <= 65536 -> norm2 (o1, o2) <= (R + 2) * (R + 2).
Proof.
  intros HR Hu H1 H2. unfold norm2. cbn [fst snd].
  pose proof (norm2_err (65536 * R) 65536 u1 u2 (65536 * o1 - u1) (65536 * o2 - u2) ltac:(lia) ltac:(lia) Hu H1 H2).
  lia.
Qed.

Lemma butterfly_norm (mode R : Z) (w q x : Z * Z) : tw_spec w -> 0 <= R -> norm2 q <= R * R -> norm2 x <= R * R ->
  norm2 (plus_c mode 1 w q x) <= (R + 2) * (R + 2) /\ norm2 (minus_c mode 1 w q x) <= (R + 2) * (R + 2).
Proof.
  intros [Hw _] HR Hq Hx. unfold plus_c, minus_c.
  assert (norm2 (cmul w x) <= (32768 * R) * (32768 * R)) as Ht.
  { rewrite norm2_cmul. change (2 ^ 30) with (32768 * 32768) in Hw. fold (norm2 w) in Hw.
    assert (0 <= norm2 w /\ 0 <= norm2 x) by (unfold norm2; nia). nia. }
  destruct (cmul w x) as [t1 t2]. destruct q as [q1 q2]. unfold norm2 in Hq, Ht. cbn [fst snd] in *.
  pose proof (half_sum mode q1 t1) as [P1 M1]. pose proof (half_sum mode q2 t2) as [P2 M2].
  assert ((32768 * q1) * (32768 * q1) + (32768 * q2) * (32768 * q2) <= (32768 * R) * (32768 * R)) as Hq' by lia.
  split.
  - apply (norm2_round R (32768 * q1 + t1) (32768 * q2 + t2)); try lia.
    pose proof (norm2_add (32768 * R) (32768 * R) _ _ t1 t2 ltac:(lia) ltac:(lia) Hq' Ht). lia.
  - apply (norm2_round R (32768 * q1 - t1) (32768 * q2 - t2)); try lia.
    pose proof (norm2_add (32768 * R) (32768 * R) _ _ (- t1) (- t2) ltac:(lia) ltac:(lia) Hq' ltac:(lia)). lia.
Qed.

Lemma norm2_int16 (R : Z) (x : Z * Z) : 0 <= R <= 32767 -> norm2 x <= R * R -> int16c x.
Proof. intros HR Hx. unfold norm2 in Hx. split; unfold int16; nia. Qed.

(** A stage of the forward transform. *)
Lemma stage_norm (sgn mode R : Z) (s : nat) (n : Z) (f : Z -> Z * Z) : sgn = 1 \/ sgn = -1 -> (s <= 9)%nat ->
  (exists b, n = b * (2 * 2 ^ Z.of_nat s)) -> 0 <= R -> (forall p, 0 <= p < n -> norm2 (f p) <= R * R) ->
  forall p, 0 <= p < n -> norm2 (stage_ref sgn mode 1 s f p) <= (R + 2) * (R + 2).
Proof.
  intros Hsgn Hs [b Hb] HR Hf p Hp. unfold stage_ref. set (l := 2 ^ Z.of_nat s) in *. assert (0 < l) as Hl by apply pow2_pos.
  pose proof (Z.div_mod p (2 * l) ltac:(lia)) as Dp. pose proof (Z.mod_pos_bound p (2 * l) ltac:(lia)) as Br.
  assert (0 <= p / (2 * l) < b) by nia.
  destruct (Z.ltb_spec (p mod (2 * l)) l); apply butterfly_norm; auto; try (apply Hf; nia);
    apply (twiddle_ok sgn _ s); auto; fold l; lia.
Qed.

Lemma fft_loop_ok (mode R : Z) (y : Z -> Z * Z) (S' : nat) (fuel : nat) : forall (s : nat) (g : list Z),
  (S' <= 10)%nat -> 0 <= R -> R + 2 * Z.of_nat S' <= 32767 -> (s + fuel = 10)%nat -> (s <= S')%nat ->
  let n := 2 ^ Z.of_nat S' in
  2 * n <= zlen g ->
  (forall p, 0 <= p < n -> cx g p = partial (-1) mode (fun _ => 1) y s p /\
    norm2 (cx g p) <= (R + 2 * Z.of_nat s) * (R + 2 * Z.of_nat s)) ->
  exists g', fft_loop fuel mode g (2 ^ Z.of_nat s) n (9 - Z.of_nat s) = Some g' /\ zlen g' = zlen g /\
    forall p, 0 <= p < n -> cx g' p = partial (-1) mode (fun _ => 1) y S' p /\
      norm2 (cx g' p) <= (R + 2 * Z.of_nat S') * (R + 2 * Z.of_nat S').
Proof.
  induction fuel as [|fuel IH]; intros s g HS HR HRS Hf Hs n Hl Hg; cbn [fft_loop].
  all: destruct (decide (s = S')) as [->|Hne]; [unfold n; rewrite Z.leb_refl; by exists g|].
  { lia. }
  assert (2 ^ Z.of_nat s < n) by (apply Z.pow_lt_mono_r; lia). rewrite (proj2 (Z.leb_gt _ _)) by lia.
  assert (exists b, n = b * (2 * 2 ^ Z.of_nat s)) as Hb.
  { exists (2 ^ (Z.of_nat S' - Z.of_nat s - 1)). unfold n. rewrite <- Z.pow_succ_r, <- Z.pow_add_r by lia. f_equal. lia. }
  assert (forall p, 0 <= p < n -> norm2 (stage_ref (-1) mode 1 s (cx g) p) <= (R + 2 * Z.of_nat (S s)) * (R + 2 * Z.of_nat (S s)))
    as Hnorm.
  { intros p Hp. replace (R + 2 * Z.of_nat (S s)) with (R + 2 * Z.of_nat s + 2) by lia.
    apply (stage_norm _ _ _ _ n); auto; try lia. intros q Hq. by apply Hg. }
  destruct (stage_ok (-1) mode (fun _ => 1) y s S' g) as (g1 & E & Hl1 & Hg1); auto; try lia.
  { intros p Hp. split; [by apply Hg|]. apply (norm2_int16 (R + 2 * Z.of_nat s)); [lia|by apply Hg]. }
  { intros p Hp. apply (norm2_int16 (R + 2 * Z.of_nat (S s))); [lia|by apply Hnorm]. }
  change (8192 * 2 ^ 1) with CFFTRND2 in E. change 14 with CFFTSFT in E. change (m_loop _ (-1) mode CFFTSFT 1) with (m_loop (Z.to_nat (2 ^ Z.of_nat s)) (-1) mode CFFTSFT CFFTRND) in E.
  fold n in E. rewrite E. cbn [mbind option_bind]. rewrite <- pow2_S. replace (9 - Z.of_nat s - 1) with (9 - Z.of_nat (S s)) by lia.
  rewrite <- Hl1. apply IH; auto; try lia. intros p Hp. destruct (Hg1 p Hp) as (Ep & En & _). split; [done|]. rewrite En. by apply Hnorm.
Qed.

Lemma partial_0 (sgn mode : Z) (shift : nat -> Z) (y : Z -> Z * Z) (p : Z) : partial sgn mode shift y 0 p = y p.
Proof. unfold partial. cbn [dft rev]. change (2 ^ Z.of_nat 0) with 1. rewrite Z.mod_1_r. f_equal. lia. Qed.

Lemma partial_all (sgn mode : Z) (shift : nat -> Z) (y : Z -> Z * Z) (s : nat) (p : Z) : 0 <= p < 2 ^ Z.of_nat s ->
  partial sgn mode shift y s p = dft sgn mode shift s (fun i => y (rev s i)) p.
Proof. intros Hp. unfold partial. rewrite Z.mod_small by done. apply dft_ext; [done|]. intros i _. f_equal. lia. Qed.

(** The number of elements. *)
Lemma stages_n (s : nat) : (s <= 10)%nat ->
  (0 <=? Z.of_nat s) && (Z.of_nat s <=? 30) = true /\ Z.shiftl 1 (Z.of_nat s) = 2 ^ Z.of_nat s /\
  (1024 <? 2 ^ Z.of_nat s) = false.
Proof.
  intros Hs. rewrite (proj2 (Z.leb_le _ _)), (proj2 (Z.leb_le _ _)), Z.shiftl_1_l by lia. split_and!; auto.
  apply Z.ltb_ge. change 1024 with (2 ^ 10). apply Z.pow_le_mono_r; lia.
Qed.

Lemma complex_fft_ok (frfi : list Z) (s : nat) (mode R : Z) : (s <= 10)%nat -> 2 * 2 ^ Z.of_nat s <= zlen frfi ->
  0 <= R -> R + 2 * Z.of_nat s <= 32767 -> (forall p, 0 <= p < 2 ^ Z.of_nat s -> norm2 (cx frfi p) <= R * R) ->
  exists out, WebRtcSpl_ComplexFFT frfi (Z.of_nat s) mode = Some (0, out) /\ zlen out = zlen frfi /\
    forall k, 0 <= k < 2 ^ Z.of_nat s ->
      cx out k = dft (-1) mode (fun _ => 1) s (fun i => cx frfi (rev s i)) k /\
      norm2 (cx out k) <= (R + 2 * Z.of_nat s) * (R + 2 * Z.of_nat s).
Proof.
  intros Hs Hl HR HRs Hx. destruct (stages_n s Hs) as (E1 & E2 & E3). unfold WebRtcSpl_ComplexFFT. rewrite E1, E2, E3.
  destruct (fft_loop_ok mode R (cx frfi) s 10 0 frfi) as (out & E & Hlo & Ho); auto; try lia.
  { intros p Hp. rewrite partial_0. split; [done|]. rewrite Z.mul_0_r, Z.add_0_r. auto. }
  change (2 ^ Z.of_nat 0) with 1 in E. change (9 - Z.of_nat 0) with (10 - 1) in E. rewrite E. cbn [mbind option_bind].
  exists out. split_and!; auto. intros k Hk. destruct (Ho k Hk) as [-> Hn]. split; [by apply partial_all|done].
Qed.

(** ** Inverse: the scaling *)

(** The shift for magnitudes up to [M] leaves room for a sum. *)
Lemma shift_fits (mode M q p : Z) : 0 <= M <= 32768 -> - M <= q <= M -> - (46338 * M) <= p <= 46338 * M ->
  let shift := ifft_shift (Z.min M 32767) in
  int16 (scaled mode shift q (rounded mode p)) /\ int16 (scaled mode shift q (- rounded mode p)).
Proof.
  intros HM Hq Hp. cbv zeta. unfold ifft_shift.
  assert (exists sh D, (if 13573 <? Z.min M 32767 then 1 else 0) + (if 27146 <? Z.min M 32767 then 1 else 0) = sh /\
    ((sh = 0 /\ D = 1 /\ M <= 13573) \/ (sh = 1 /\ D = 2 /\ M <= 27146) \/ (sh = 2 /\ D = 4)) /\ 2 ^ sh = D) as (sh & D & -> & H & HD).
  { destruct (Z.ltb_spec 13573 (Z.min M 32767)), (Z.ltb_spec 27146 (Z.min M 32767)); cbn [Z.add];
      eexists _, _; (split; [reflexivity|split; [|reflexivity]]); cbn; lia. }
  unfold int16, scaled, rounded. rewrite Z.pow_add_r by lia. rewrite HD. change (2 ^ 15) with 32768. change (2 ^ 14) with 16384.
  destruct (mode =? 0).
  - pose proof (Z.div_mod p 32768 ltac:(lia)). pose proof (Z.mod_pos_bound p 32768 ltac:(lia)).
    set (t := p / 32768) in *.
    pose proof (Z.div_mod (q + t) D ltac:(lia)). pose proof (Z.mod_pos_bound (q + t) D ltac:(lia)).
    pose proof (Z.div_mod (q + - t) D ltac:(lia)). pose proof (Z.mod_pos_bound (q + - t) D ltac:(lia)).
    destruct H as [(-> & -> & ?)|[(-> & -> & ?)|(-> & ->)]]; lia.
  - pose proof (Z.div_mod (p + 1) 2 ltac:(lia)). pose proof (Z.mod_pos_bound (p + 1) 2 ltac:(lia)).
    set (t := (p + 1) / 2) in *. set (u := q * 16384 + t + 8192 * D). set (v := q * 16384 + - t + 8192 * D).
    pose proof (Z.div_mod u (D * 16384) ltac:(lia)). pose proof (Z.mod_pos_bound u (D * 16384) ltac:(lia)).
    pose proof (Z.div_mod v (D * 16384) ltac:(lia)). pose proof (Z.mod_pos_bound v (D * 16384) ltac:(lia)).
    destruct H as [(-> & -> & ?)|[(-> & -> & ?)|(-> & ->)]]; lia.
Qed.

(** What [WebRtcSpl_MaxAbsValueW16] says of the elements. *)
Lemma max_abs_cx (g : list Z) (n : Z) : 0 < n -> 2 * n <= zlen g -> (forall p, 0 <= p < n -> int16c (cx g p)) ->
  exists M, WebRtcSpl_MaxAbsValueW16C g (2 * n) = Some (Z.min M 32767) /\ 0 <= M <= 32768 /\
    forall p, 0 <= p < n -> - M <= (cx g p).1 <= M /\ - M <= (cx g p).2 <= M.
Proof.
  intros Hn Hl H16. assert (zlen (slice g 0 (2 * n)) = 2 * n) as Hz by (apply zlen_slice; lia).
  assert (forall i, 0 <= i < 2 * n -> int16 (zn g i)) as Hi.
  { intros i Hi. pose proof (Z.div_mod i 2 ltac:(lia)). pose proof (Z.mod_pos_bound i 2 ltac:(lia)).
    destruct (H16 (i / 2) ltac:(lia)) as [H1 H2]. unfold cx in *. cbn [fst snd] in *.
    destruct (decide (i mod 2 = 0)); [replace i with (2 * (i / 2)) by lia|replace i with (2 * (i / 2) + 1) by lia]; done. }
  destruct (max_abs_ok (slice g 0 (2 * n))) as (M & E & Hin & Hmax).
  { intros Hnil. rewrite Hnil in Hz. change (zlen []) with 0 in Hz. lia. }
  { apply Forall_forall. intros x Hx. apply elem_zn in Hx as (i & Hi' & <-). rewrite zn_slice by lia. apply Hi. lia. }
  assert (forall i, 0 <= i < 2 * n -> Z.abs (zn g i) <= M) as HM.
  { intros i Hi'. rewrite Forall_forall in Hmax. apply (Hmax (Z.abs (zn g i))). apply list_elem_of_fmap. exists (zn g i). split; [done|].
    replace (zn g i) with (zn (slice g 0 (2 * n)) i) by (by rewrite zn_slice by lia). apply zn_elem. lia. }
  exists M. split; [|split].
  - rewrite <- E. unfold WebRtcSpl_MaxAbsValueW16C. rewrite bread_all, bread_in by lia. done.
  - apply list_elem_of_fmap in Hin as (x & -> & Hx). apply elem_zn in Hx as (i & Hi' & <-). rewrite zn_slice by lia.
    specialize (Hi i ltac:(lia)). unfold int16 in Hi. change (0 + i) with i. lia.
  - intros p Hp. unfold cx. cbn [fst snd]. pose proof (HM (2 * p) ltac:(lia)). pose proof (HM (2 * p + 1) ltac:(lia)). lia.
Qed.

Lemma butterfly_fits (mode M : Z) (w q x : Z * Z) : tw_spec w -> 0 <= M <= 32768 ->
  (- M <= q.1 <= M /\ - M <= q.2 <= M) -> (- M <= x.1 <= M /\ - M <= x.2 <= M) ->
  let shift := ifft_shift (Z.min M 32767) in int16c (plus_c mode shift w q x) /\ int16c (minus_c mode shift w q x).
Proof.
  intros [_ Hs] HM [Hq1 Hq2] [Hx1 Hx2] shift.
  assert (- (46338 * M) <= (cmul w x).1 <= 46338 * M /\ - (46338 * M) <= (cmul w x).2 <= 46338 * M) as [P1 P2].
  { unfold cmul. cbn [fst snd]. split; nia. }
  destruct (shift_fits mode M q.1 _ HM Hq1 P1) as [A1 B1]. destruct (shift_fits mode M q.2 _ HM Hq2 P2) as [A2 B2].
  unfold plus_c, minus_c. split; split; done.
Qed.

Lemma stage_fits (mode M : Z) (s : nat) (n : Z) (f : Z -> Z * Z) : (s <= 9)%nat -> 0 <= M <= 32768 ->
  (exists b, n = b * (2 * 2 ^ Z.of_nat s)) ->
  (forall p, 0 <= p < n -> - M <= (f p).1 <= M /\ - M <= (f p).2 <= M) ->
  forall p, 0 <= p < n -> int16c (stage_ref 1 mode (ifft_shift (Z.min M 32767)) s f p).
Proof.
  intros Hs HM [b Hb] Hf p Hp. unfold stage_ref. set (l := 2 ^ Z.of_nat s) in *. assert (0 < l) as Hl by apply pow2_pos.
  pose proof (Z.div_mod p (2 * l) ltac:(lia)) as Dp. pose proof (Z.mod_pos_bound p (2 * l) ltac:(lia)) as Br.
  assert (0 <= p / (2 * l) < b) by nia.
  destruct (Z.ltb_spec (p mod (2 * l)) l); apply butterfly_fits; auto; try (apply Hf; nia);
    apply (twiddle_ok 1 _ s); auto; fold l; lia.
Qed.

(** The shifts of the stages, from a list. *)
Definition shifts (shs : list Z) (t : nat) : Z := zn shs (Z.of_nat t).

Lemma shifts_app (shs : list Z) (x : Z) (t : nat) : Z.of_nat t < zlen shs -> shifts (shs ++ [x]) t = shifts shs t.
Proof. intros Ht. apply zn_app_l. lia. Qed.

Definition total (shs : list Z) : Z := foldr Z.add 0 shs.

Lemma total_app (shs : list Z) (x : Z) : total (shs ++ [x]) = total shs + x.
Proof. unfold total. induction shs as [|a shs IH]; cbn [app foldr]; lia. Qed.

Lemma ifft_shift_range (M : Z) : 0 <= ifft_shift M <= 2.
Proof. unfold ifft_shift. destruct (13573 <? M), (27146 <? M); lia. Qed.

(** The array [g] after [s] stages with the shifts [shs]. *)
Record ifft_inv (mode : Z) (y : Z -> Z * Z) (n : Z) (s : nat) (shs g : list Z) : Prop := {
  iv_num : zlen shs = Z.of_nat s;
  iv_shifts : Forall (fun x => 0 <= x <= 2) shs;
  iv_len : 2 * n <= zlen g;
  iv_data : forall p, 0 <= p < n -> cx g p = partial 1 mode (shifts shs) y s p /\ int16c (cx g p)
}.

Lemma ifft_loop_ok (mode : Z) (y : Z -> Z * Z) (S' : nat) (fuel : nat) : forall (s : nat) (shs : list Z) (g : list Z),
  (S' <= 10)%nat -> (s + fuel = 10)%nat -> (s <= S')%nat -> let n := 2 ^ Z.of_nat S' in ifft_inv mode y n s shs g ->
  exists g' shs', ifft_loop fuel mode g (total shs) (2 ^ Z.of_nat s) n (9 - Z.of_nat s) = Some (total shs', g') /\
    zlen g' = zlen g /\ ifft_inv mode y n S' shs' g'.
Proof.
  induction fuel as [|fuel IH]; intros s shs g HS Hf Hs n Hinv; cbn [ifft_loop].
  all: destruct (decide (s = S')) as [->|Hne]; [unfold n; rewrite Z.leb_refl; by exists g, shs|].
  { lia. }
  assert (2 ^ Z.of_nat s < n) as Hlt by (apply Z.pow_lt_mono_r; lia). pose proof (pow2_pos s) as Hp0.
  rewrite (proj2 (Z.leb_gt _ _)) by lia.
  assert (exists b, n = b * (2 * 2 ^ Z.of_nat s)) as Hb.
  { exists (2 ^ (Z.of_nat S' - Z.of_nat s - 1)). unfold n. rewrite <- Z.pow_succ_r, <- Z.pow_add_r by lia. f_equal. lia. }
  destruct Hinv as [Hnum Hshs Hl Hg].
  destruct (max_abs_cx g n ltac:(lia) Hl (fun p Hp => proj2 (Hg p Hp))) as (M & -> & HM & Hmax). cbn [mbind option_bind].
  set (sh := ifft_shift (Z.min M 32767)). pose proof (ifft_shift_range (Z.min M 32767)) as Hsh. fold sh in Hsh.
  assert (shifts (shs ++ [sh]) s = sh) as Esh by (unfold shifts; rewrite zn_app_r, <- Hnum, Z.sub_diag by lia; done).
  destruct (stage_ok 1 mode (shifts (shs ++ [sh])) y s S' g) as (g1 & E & Hl1 & Hg1); auto; rewrite ?Esh; try lia.
  { intros p Hp. destruct (Hg p Hp) as [-> H16]. split; [|done]. apply dft_ext; [|done].
    intros t Ht. symmetry. apply shifts_app. lia. }
  { apply (stage_fits mode M s n); auto; lia. }
  rewrite Esh in *. rewrite Z.shiftl_mul_pow2 by lia. unfold CIFFTSFT, CIFFTRND. fold n in E. rewrite E. cbn [mbind option_bind].
  rewrite <- pow2_S, <- total_app. replace (9 - Z.of_nat s - 1) with (9 - Z.of_nat (S s)) by lia. rewrite <- Hl1.
  apply IH; auto; [lia..|]. split.
  - rewrite zlen_app, zlen_cons, zlen_nil. lia.
  - apply Forall_app. split; [done|]. by constructor.
  - fold n. lia.
  - intros p Hp. destruct (Hg1 p Hp) as (? & _ & ?). done.
Qed.

Lemma complex_ifft_ok (frfi : list Z) (s : nat) (mode : Z) : (s <= 10)%nat -> 2 * 2 ^ Z.of_nat s <= zlen frfi ->
  (forall p, 0 <= p < 2 ^ Z.of_nat s -> int16c (cx frfi p)) ->
  exists out shs, WebRtcSpl_ComplexIFFT frfi (Z.of_nat s) mode = Some (total shs, out) /\ zlen out = zlen frfi /\
    zlen shs = Z.of_nat s /\ Forall (fun x => 0 <= x <= 2) shs /\
    forall k, 0 <= k < 2 ^ Z.of_nat s -> int16c (cx out k) /\
      cx out k = dft 1 mode (shifts shs) s (fun i => cx frfi (rev s i)) k.
Proof.
  intros Hs Hl H16. destruct (stages_n s Hs) as (E1 & E2 & E3). unfold WebRtcSpl_ComplexIFFT. rewrite E1, E2, E3.
  destruct (ifft_loop_ok mode (cx frfi) s 10 0 [] frfi) as (out & shs & E & Hlo & [? ? _ Ho]); auto; try lia.
  { split; auto. intros p Hp. rewrite partial_0. auto. }
  change (2 ^ Z.of_nat 0) with 1 in E. change (9 - Z.of_nat 0) with (10 - 1) in E. change (total []) with 0 in E. rewrite E.
  exists out, shs. split_and!; auto. intros k Hk. destruct (Ho k Hk) as [E4 ?]. split; [done|]. rewrite E4. by apply partial_all.
Qed.

(** ** Real signals *)

Lemma words_ok (n : nat) : forall l, (length l <= n)%nat -> 2 * zlen (words l) <= zlen l < 2 * zlen (words l) + 2 /\
  forall p, 0 <= p < zlen (words l) -> zn (words l) p = cx l p.
Proof.
  induction n as [|n IH]; intros l Hn; (destruct l as [|a [|b l]];
    [split; [done|intros p Hp; change (zlen (words _)) with 0 in Hp; lia]..|]); [cbn [length] in Hn; lia|].
  cbn [words]. destruct (IH l) as [Hl Hp]; [cbn [length] in Hn; lia|]. rewrite !zlen_cons. split; [lia|].
  intros p Hp'. destruct (decide (p = 0)) as [->|]; [done|]. specialize (Hp (p - 1) ltac:(lia)). unfold cx in *.
  change ((a, b) :: words l) with ([(a, b)] ++ words l). change (a :: b :: l) with ([a; b] ++ l).
  rewrite !zn_app_r by (rewrite ?zlen_cons, ?zlen_nil; lia). change (zlen [(a, b)]) with 1. change (zlen [a; b]) with 2. rewrite Hp.
  f_equal; f_equal; lia.
Qed.

Lemma cells_ok (ws : list (Z * Z)) : zlen (cells ws) = 2 * zlen ws /\ forall p, 0 <= p < zlen ws -> cx (cells ws) p = zn ws p.
Proof.
  induction ws as [|[a b] ws [Hl IH]]; [split; [done|]; intros p Hp; change (zlen []) with 0 in Hp; lia|]. cbn [cells]. rewrite !zlen_cons. split; [lia|].
  intros p Hp. destruct (decide (p = 0)) as [->|]; [done|]. specialize (IH (p - 1) ltac:(lia)). unfold cx in *.
  change ((a, b) :: ws) with ([(a, b)] ++ ws). change (a :: b :: cells ws) with ([a; b] ++ cells ws).
  rewrite !zn_app_r by (rewrite ?zlen_cons, ?zlen_nil; lia). change (zlen [(a, b)]) with 1. change (zlen [a; b]) with 2. rewrite <- IH.
  f_equal; f_equal; lia.
Qed.

(** The bit reversal on cells. *)
Lemma bit_reverse_cells (s : nat) (g : list Z) : (s <= 10)%nat -> 2 * 2 ^ Z.of_nat s <= zlen g ->
  exists ws, WebRtcSpl_ComplexBitReverse (words g) (Z.of_nat s) = Some ws /\ 2 * 2 ^ Z.of_nat s <= zlen (cells ws) /\
    forall p, 0 <= p < 2 ^ Z.of_nat s -> cx (cells ws) p = cx g (rev s p).
Proof.
  intros Hs Hl. destruct (words_ok (length g) g) as [Hw Hp]; [lia|].
  destruct (complex_bit_reverse (words g) s) as (ws & E & Hlw & Hrev); [lia..|]. exists ws. split; [done|].
  destruct (cells_ok ws) as [Hlc Hc]. split; [lia|]. intros p Hpr. rewrite Hc, Hrev by lia. apply Hp.
  pose proof (rev_range s p). lia.
Qed.

Lemma insert_zeros_ok (xs : list Z) (c : nat) : forall g i, 0 <= i -> i + Z.of_nat c <= zlen xs -> 2 * (i + Z.of_nat c) <= zlen g ->
  exists g', insert_zeros c xs g i (2 * i) = Some g' /\ zlen g' = zlen g /\
    forall p, 0 <= p -> cx g' p = if (i <=? p) && (p <? i + Z.of_nat c) then (zn xs p, 0) else cx g p.
Proof.
  induction c as [|c IH]; intros g i Hi Hx Hg; cbn [insert_zeros].
  - exists g. split_and!; auto. intros p Hp. destruct (Z.leb_spec i p), (Z.ltb_spec p (i + Z.of_nat 0)); cbn [andb]; done || lia.
  - rewrite aget_in by lia. cbn [mbind option_bind]. rewrite aset_in by lia. cbn [mbind option_bind].
    rewrite aset_in by (rewrite zlen_zset; lia). cbn [mbind option_bind]. replace (2 * i + 2) with (2 * (i + 1)) by lia.
    destruct (IH (zset (zset g (2 * i) (zn xs i)) (2 * i + 1) 0) (i + 1)) as (g' & -> & Hl & Hp); rewrite ?zlen_zset in *; try lia.
    exists g'. split_and!; auto. intros p Hp0. rewrite Hp by done. unfold cx.
    destruct (Z.leb_spec i p), (Z.leb_spec (i + 1) p), (Z.ltb_spec p (i + 1 + Z.of_nat c)), (Z.ltb_spec p (i + Z.of_nat (S c)));
      cbn [andb]; try lia; try done; try (by rewrite !zn_zset_ne by lia).
    assert (p = i) as -> by lia. rewrite zn_zset_eq by (rewrite zlen_zset; lia). by rewrite zn_zset_ne, zn_zset_eq by lia.
Qed.

(** C21: for a real signal of [2^order] samples, of magnitude at most
    [32767 - 2 * order], [WebRtcSpl_RealForwardFFT] stores the first half of
    the discrete Fourier transform of the signal, scaled by [1/2] in each
    stage, without any overflow: the cells it stores are those of the
    decimation in time in exact arithmetic. *)
Theorem real_forward_correct (s : nat) (xs out buf : list Z) : (1 <= s <= 10)%nat ->
  let n := 2 ^ Z.of_nat s in
  n <= zlen xs -> n + 2 <= zlen out -> zlen buf = 2 * 2 ^ kMaxFFTOrder ->
  (forall i, 0 <= i < n -> Z.abs (zn xs i) <= 32767 - 2 * Z.of_nat s) ->
  exists out', WebRtcSpl_RealForwardFFT (MkRealFFT (Z.of_nat s)) xs out buf = Some (0, out') /\
    zlen out' = zlen out /\ (forall i, n + 2 <= i < zlen out -> zn out' i = zn out i) /\
    forall k, 0 <= k <= n / 2 -> cx out' k = dft (-1) 1 (fun _ => 1) s (fun i => (zn xs i, 0)) k.
Proof.
  intros Hs n Hx Ho Hb Hmag. unfold kMaxFFTOrder in Hb. change (2 ^ 10) with 1024 in Hb.
  assert (0 < n <= 1024) as Hn by (split; [apply pow2_pos|change 1024 with (2 ^ 10); apply Z.pow_le_mono_r; lia]).
  assert (n = 2 * 2 ^ (Z.of_nat s - 1)) as Hn2 by (unfold n; rewrite <- Z.pow_succ_r by lia; f_equal; lia).
  assert (n / 2 = 2 ^ (Z.of_nat s - 1)) as Hn3 by (rewrite Hn2, Z.mul_comm; apply Z.div_mul; lia).
  assert (0 < 2 ^ (Z.of_nat s - 1)) by (apply Z.pow_pos_nonneg; lia).
  unfold WebRtcSpl_RealForwardFFT. cbn [order]. rewrite Z.shiftl_1_l. fold n.
  destruct (insert_zeros_ok xs (Z.to_nat n) buf 0) as (g & E & Hg & Hz); [lia..|]. change (2 * 0) with 0 in E.
  rewrite E. cbn [mbind option_bind].
  destruct (bit_reverse_cells s g) as (ws & -> & Hlw & Hw); [lia|unfold n in *; lia|]. cbn [mbind option_bind].
  assert (forall p, 0 <= p < n -> cx (cells ws) p = (zn xs (rev s p), 0)) as Hcx.
  { intros p Hp. pose proof (rev_range s p). rewrite Hw, Hz by lia. by rewrite (proj2 (Z.leb_le _ _)), (proj2 (Z.ltb_lt _ _)) by lia. }
  destruct (complex_fft_ok (cells ws) s 1 (32767 - 2 * Z.of_nat s)) as (o & -> & Hlo & Hfft); [lia..| |].
  { intros p Hp. rewrite Hcx by done. unfold norm2. cbn [fst snd]. pose proof (rev_range s p). pose proof (Hmag (rev s p) ltac:(lia)). nia. }
  cbn [mbind option_bind]. rewrite bread_in by (fold n in Hlw; lia). cbn [mbind option_bind].
  assert (zlen (slice o 0 (n + 2)) = n + 2) as Hsl by (apply zlen_slice; fold n in Hlw; lia).
  rewrite bwrite_in by lia. cbn [mbind option_bind]. eexists. split; [done|].
  rewrite zlen_splice by lia. split; [done|]. split.
  - intros i Hi. rewrite zn_splice by lia. rewrite (proj2 (Z.ltb_ge i (0 + zlen (slice o 0 (n + 2))))) by lia. by rewrite andb_false_r.
  - intros k Hk. transitivity (cx o k).
    { unfold cx. f_equal; rewrite zn_splice by lia; rewrite (proj2 (Z.leb_le 0 _)), (proj2 (Z.ltb_lt _ (0 + zlen _))) by lia; cbn [andb];
        rewrite zn_slice by lia; f_equal; lia. }
    destruct (decide (k < n)); [|lia]. destruct (Hfft k ltac:(fold n; lia)) as [-> _]. apply dft_ext; [done|].
    intros i Hi. pose proof (rev_range s i). rewrite Hcx by (fold n; lia). by rewrite rev_rev.
Qed.

(** Element [i] of the spectrum whose first half is [c]. *)
Definition spectrum (n : Z) (c : list Z) (i : Z) : Z * Z :=
  if i <=? n / 2 then cx c i else ((cx c (n - i)).1, s16 (- (cx c (n - i)).2)).

Lemma mirror_ok (c : list Z) (n : Z) (fuel : nat) : forall g q, 0 < q <= n -> n - q <= Z.of_nat fuel ->
  2 * (n - q) + 2 <= zlen c -> 2 * n <= zlen g ->
  exists g', mirror fuel c g (2 * q) n = Some g' /\ zlen g' = zlen g /\
    forall p, 0 <= p -> cx g' p = if (q <=? p) && (p <? n) then ((cx c (n - p)).1, s16 (- (cx c (n - p)).2)) else cx g p.
Proof.
  induction fuel as [|fuel IH]; intros g q Hq Hf Hc Hg; cbn [mirror].
  all: destruct (Z.leb_spec (2 * n) (2 * q)); [|try lia].
  1,2: exists g; split_and!; auto; intros p Hp; destruct (Z.leb_spec q p), (Z.ltb_spec p n); cbn [andb]; done || lia.
  rewrite !(aget_in c) by lia. cbn [mbind option_bind]. rewrite aset_in by lia. cbn [mbind option_bind].
  rewrite aset_in by (rewrite zlen_zset; lia). cbn [mbind option_bind].
  replace (2 * q + 2) with (2 * (q + 1)) by lia.
  edestruct (IH (zset (zset g (2 * q) (zn c (2 * n - 2 * q))) (2 * q + 1) (s16 (- zn c (2 * n - 2 * q + 1)))) (q + 1))
    as (g' & -> & Hl & Hp); rewrite ?zlen_zset in *; try lia.
  exists g'. split_and!; auto. intros p Hp0. rewrite Hp by done. unfold cx.
  destruct (Z.leb_spec q p), (Z.leb_spec (q + 1) p), (Z.ltb_spec p n); cbn [andb fst snd]; try lia; try done;
    try (by rewrite !zn_zset_ne by lia).
  assert (p = q) as -> by lia. rewrite zn_zset_eq by (rewrite zlen_zset; lia). rewrite zn_zset_ne, zn_zset_eq by lia.
  f_equal; [|f_equal; f_equal]; f_equal; lia.
Qed.

Lemma strip_ok (g : list Z) (c : nat) : forall out i, 0 <= i -> i + Z.of_nat c <= zlen out -> 2 * (i + Z.of_nat c) <= zlen g ->
  exists out', strip c g out i (2 * i) = Some out' /\ zlen out' = zlen out /\
    forall p, 0 <= p -> zn out' p = if (i <=? p) && (p <? i + Z.of_nat c) then (cx g p).1 else zn out p.
Proof.
  induction c as [|c IH]; intros out i Hi Ho Hg; cbn [strip].
  - exists out. split_and!; auto. intros p Hp. destruct (Z.leb_spec i p), (Z.ltb_spec p (i + Z.of_nat 0)); cbn [andb]; done || lia.
  - rewrite aget_in by lia. cbn [mbind option_bind]. rewrite aset_in by lia. cbn [mbind option_bind].
    replace (2 * i + 2) with (2 * (i + 1)) by lia.
    destruct (IH (zset out i (zn g (2 * i))) (i + 1)) as (o' & -> & Hl & Hp); rewrite ?zlen_zset in *; try lia.
    exists o'. split_and!; auto. intros p Hp0. rewrite Hp by done. unfold cx. cbn [fst].
    destruct (Z.leb_spec i p), (Z.leb_spec (i + 1) p), (Z.ltb_spec p (i + 1 + Z.of_nat c)), (Z.ltb_spec p (i + Z.of_nat (S c)));
      cbn [andb]; try lia; try done; try (by rewrite zn_zset_ne by lia).
    assert (p = i) as -> by lia. by rewrite zn_zset_eq by lia.
Qed.

(** [WebRtcSpl_RealInverseFFT] completes the half spectrum by conjugate
    symmetry and stores the real part of its inverse transform, for every
    input of 16-bit values without an overflow; the result tells the scaling
    of the stages. *)
Lemma real_inverse_correct (s : nat) (c out buf : list Z) : (1 <= s <= 10)%nat ->
  let n := 2 ^ Z.of_nat s in
  n + 2 <= zlen c -> Forall int16 c -> n <= zlen out -> zlen buf = 2 * 2 ^ kMaxFFTOrder ->
  exists out' shs, WebRtcSpl_RealInverseFFT (MkRealFFT (Z.of_nat s)) c out buf = Some (total shs, out') /\
    zlen out' = zlen out /\ zlen shs = Z.of_nat s /\ Forall (fun x => 0 <= x <= 2) shs /\
    forall i, 0 <= i < n -> zn out' i = (dft 1 1 (shifts shs) s (spectrum n c) i).1.
Proof.
  intros Hs n Hc H16 Ho Hb. unfold kMaxFFTOrder in Hb. change (2 ^ 10) with 1024 in Hb.
  assert (0 < n <= 1024) as Hn by (split; [apply pow2_pos|change 1024 with (2 ^ 10); apply Z.pow_le_mono_r; lia]).
  assert (n = 2 * 2 ^ (Z.of_nat s - 1)) as Hn2 by (unfold n; rewrite <- Z.pow_succ_r by lia; f_equal; lia).
  assert (n / 2 = 2 ^ (Z.of_nat s - 1)) as Hn3 by (rewrite Hn2, Z.mul_comm; apply Z.div_mul; lia).
  assert (0 < 2 ^ (Z.of_nat s - 1)) by (apply Z.pow_pos_nonneg; lia).
  assert (forall i, 0 <= i < zlen c -> int16 (zn c i)) as Hci.
  { intros i Hi. rewrite Forall_forall in H16. by apply H16, zn_elem. }
  unfold WebRtcSpl_RealInverseFFT. cbn [order]. rewrite Z.shiftl_1_l. fold n.
  rewrite bread_in by lia. cbn [mbind option_bind].
  assert (zlen (slice c 0 (n + 2)) = n + 2) as Hsl by (apply zlen_slice; lia).
  rewrite bwrite_in by lia. cbn [mbind option_bind]. set (g0 := splice buf 0 (slice c 0 (n + 2))).
  assert (zlen g0 = zlen buf) as Hg0 by (apply zlen_splice; lia).
  assert (forall p, 0 <= p <= n / 2 -> cx g0 p = cx c p) as Hlow.
  { intros p Hp. unfold cx, g0. f_equal; rewrite zn_splice by lia;
      rewrite (proj2 (Z.leb_le 0 _)), (proj2 (Z.ltb_lt _ (0 + zlen _))) by lia; cbn [andb]; rewrite zn_slice by lia; f_equal; lia. }
  destruct (mirror_ok c n (Z.to_nat n) g0 (n / 2 + 1)) as (g & E & Hg & Hz); [lia..|].
  replace (2 * (n / 2 + 1)) with (n + 2) in E by lia. rewrite E. cbn [mbind option_bind].
  destruct (bit_reverse_cells s g) as (ws & -> & Hlw & Hw); [lia|unfold n in *; lia|]. cbn [mbind option_bind].
  assert (forall p, 0 <= p < n -> cx g p = spectrum n c p /\ int16c (spectrum n c p)) as Hcx.
  { intros p Hp. rewrite Hz by lia. unfold spectrum.
    destruct (Z.leb_spec (n / 2 + 1) p), (Z.leb_spec p (n / 2)); try lia.
    - rewrite (proj2 (Z.ltb_lt _ _)) by lia. cbn [andb]. split; [done|]. split; cbn [fst snd cx]; [apply Hci; lia|].
      unfold int16. pose proof (swrap_range 16 (- (zn c (2 * (n - p) + 1)))). change (2 ^ (16 - 1)) with 32768 in *. lia.
    - cbn [andb]. split; [apply Hlow; lia|]. split; cbn [fst snd cx]; apply Hci; lia. }
  destruct (complex_ifft_ok (cells ws) s 1) as (o & shs & -> & Hlo & Hls & Hfs & Hfft); [lia..| |].
  { intros p Hp. pose proof (rev_range s p). rewrite Hw by done. destruct (Hcx (rev s p) ltac:(lia)) as [-> ?]. done. }
  cbn [mbind option_bind]. destruct (strip_ok o (Z.to_nat n) out 0) as (out' & Es & Hlo' & Hst); [lia..|fold n in Hlw; lia|].
  change (2 * 0) with 0 in Es. rewrite Es. cbn [mbind option_bind]. exists out', shs. split_and!; auto.
  intros i Hi. rewrite Hst, (proj2 (Z.leb_le 0 i)), (proj2 (Z.ltb_lt i _)) by lia. cbn [andb]. f_equal.
  destruct (Hfft i Hi) as [_ ->]. apply dft_ext; [done|]. intros j Hj. pose proof (rev_range s j).
  rewrite Hw by (fold n; lia). rewrite rev_rev by done. apply Hcx. done.
Qed.

(** C20: [WebRtcSpl_ComplexIFFT] never overflows: for every input of 16-bit
    samples and every number of stages up to ten, in both modes, it gives the
    inverse transform of the bit-reversed input by decimation in time, in
    exact arithmetic with the rounding of each stage; every value it stores
    fits, because each stage is scaled by the largest magnitude before it.
    The result is the number of bits by which the stages scaled it. *)
Theorem complex_ifft_correct (frfi : list Z) (s : nat) (mode : Z) : (s <= 10)%nat -> 2 * 2 ^ Z.of_nat s <= zlen frfi ->
  (forall p, 0 <= p < 2 ^ Z.of_nat s -> int16c (cx frfi p)) ->
  exists out shs, WebRtcSpl_ComplexIFFT frfi (Z.of_nat s) mode = Some (total shs, out) /\ zlen out = zlen frfi /\
    zlen shs = Z.of_nat s /\ Forall (fun x => 0 <= x <= 2) shs /\
    forall k, 0 <= k < 2 ^ Z.of_nat s -> int16c (cx out k) /\
      cx out k = dft 1 mode (shifts shs) s (fun i => cx frfi (rev s i)) k.
Proof. exact (complex_ifft_ok frfi s mode). Qed.

(** An impulse has a flat spectrum, scaled by one half in each stage. *)
Example fft_impulse :
  WebRtcSpl_RealForwardFFT (MkRealFFT 3) [8000; 0; 0; 0; 0; 0; 0; 0] (replicate 10 7) (replicate 2048 5) =
  Some (0, [1000; 0; 1000; 0; 1000; 0; 1000; 0; 1000; 0]).
Proof. vm_compute. reflexivity. Qed.

Lemma real_forward_witness :
  exists out', WebRtcSpl_RealForwardFFT (MkRealFFT 1) [100; -50] [9; 9; 9; 9; 9] (replicate 2048 5) = Some (0, out') /\
    zlen out' = 5 /\ (forall i, 2 + 2 <= i < 5 -> zn out' i = zn [9; 9; 9; 9; 9] i) /\
    forall k, 0 <= k <= 2 / 2 -> cx out' k = dft (-1) 1 (fun _ => 1) 1 (fun i => (zn [100; -50] i, 0)) k.
Proof.
  apply (real_forward_correct 1 [100; -50] [9; 9; 9; 9; 9] (replicate 2048 5)); try (vm_compute; intuition congruence).
  - lia.
  - intros i Hi. change (2 ^ Z.of_nat 1) with 2 in Hi. assert (i = 0 \/ i = 1) as [-> | ->] by lia; closed.
Defined.

Lemma complex_ifft_witness :
  exists out shs, WebRtcSpl_ComplexIFFT [32767; -32768; -32768; 5] 1 1 = Some (total shs, out) /\ zlen out = 4 /\
    zlen shs = 1 /\ Forall (fun x => 0 <= x <= 2) shs /\
    forall k, 0 <= k < 2 -> int16c (cx out k) /\
      cx out k = dft 1 1 (shifts shs) 1 (fun i => cx [32767; -32768; -32768; 5] (rev 1 i)) k.
Proof.
  apply (complex_ifft_correct [32767; -32768; -32768; 5] 1 1).
  - lia.
  - closed.
  - intros p Hp. change (2 ^ Z.of_nat 1) with 2 in Hp. assert (p = 0 \/ p = 1) as [-> | ->] by lia; split; closed.
Defined.
