(* ===== verification/SplFilter.v ===== *)
(** * Digital filters in fixed point

    [downsample_fast.c], [filter_ma_fast_q12.c], [filter_ar_fast_q12.c] and
    [filter_ar.c] of
    [src/submodules/libtgvoip/webrtc_dsp/webrtc/common_audio/signal_processing].
    A pointer into an array is the array and an offset, since the filters
    read samples before the pointer they are given.  [None] is an access
    outside of an array, an overflow of an [int] or a failed check. *)
From S2P Require Import Prelude.
From S2P Require Import Bytes.
From S2P Require Import SplArith.
From S2P Require Import SplVector.
From Stdlib Require Import ZArith Lia.
From stdpp Require Import base numbers option list.
Open Scope Z_scope.

(** [for (...; j < length; j++) acc += b[j] * x[i - j]], [n] rounds. *)
Fixpoint mac (n : nat) (acc : Z) (b x : list Z) (i j : Z) : option Z :=
  match n with
  | O => Some acc
  | S n =>
    c ← aget b j; d ← aget x (i - j);
    acc ← int_add acc (c * d);
    mac n acc b x i (j + 1)
  end.

(** ** downsample_fast.c *)

(** [for (i = delay; i < endpos; i += factor)].  Each round stores one sample,
    so the rounds are bounded by the size of the output array. *)
Fixpoint downsample_loop (fuel : nat) (x : list Z) (p : Z) (out : list Z) (pos : Z) (coefficients : list Z)
    (coefficients_length factor endpos i : Z) : option (list Z * Z) :=
  if i <? endpos then
    match fuel with
    | O => None
    | S fuel =>
      out_s32 ← mac (Z.to_nat coefficients_length) 2048 coefficients x (p + i) 0;
      out ← aset out pos (WebRtcSpl_SatW32ToW16 (Z.shiftr out_s32 12));
      downsample_loop fuel x p out (pos + 1) coefficients coefficients_length factor endpos (u64 (i + factor))
    end
  else Some (out, pos).

(** [x] with offset [p] is [data_in]. *)
Definition WebRtcSpl_DownsampleFastC (x : list Z) (p data_in_length : Z) (data_out : list Z)
    (data_out_length : Z) (coefficients : list Z) (coefficients_length factor delay : Z)
  : option (Z * list Z) :=
  let endpos := u64 (delay + factor * (data_out_length - 1) + 1) in
  if (data_out_length =? 0) || (coefficients_length =? 0) || (data_in_length <? endpos) then
    Some (-1, data_out)
  else
  '(out, pos) ← downsample_loop (S (length data_out)) x p data_out 0 coefficients coefficients_length
                  factor endpos delay;
  if negb (pos =? data_out_length) then None else Some (0, out).

(** ** filter_ma_fast_q12.c *)

Definition WEBRTC_SPL_SAT (a b c : Z) : Z := if a <? b then a else if b <? c then c else b.

Fixpoint ma_loop (n : nat) (x : list Z) (p : Z) (out : list Z) (B : list Z) (B_length i : Z) : option (list Z) :=
  match n with
  | O => Some out
  | S n =>
    o ← mac (Z.to_nat B_length) 0 B x (p + i) 0;
    let o := WEBRTC_SPL_SAT 134215679 o (-134217728) in
    out ← aset out i (s16 (Z.shiftr (o + 2048) 12));
    ma_loop n x p out B B_length (i + 1)
  end.

Definition WebRtcSpl_FilterMAFastQ12 (x : list Z) (p : Z) (out B : list Z) (B_length length : Z)
  : option (list Z) :=
  ma_loop (Z.to_nat length) x p out B B_length 0.

(** ** filter_ar_fast_q12.c *)

(** [for (j = coefficients_length - 1; j > 0; j--) sum += ...] *)
Fixpoint ar_sum (n : nat) (sum : Z) (coefficients out : list Z) (i : Z) : option Z :=
  match n with
  | O => Some sum
  | S n' =>
    c ← aget coefficients (Z.of_nat n); d ← aget out (i - Z.of_nat n);
    sum ← int_add sum (c * d);
    ar_sum n' sum coefficients out i
  end.

(** [out] with offset [q] is [data_out]. *)
Fixpoint ar_loop (n : nat) (data_in out : list Z) (q : Z) (coefficients : list Z)
    (coefficients_length i : Z) : option (list Z) :=
  match n with
  | O => Some out
  | S n =>
    sum ← ar_sum (Z.to_nat (coefficients_length - 1)) 0 coefficients out (q + i);
    c ← aget coefficients 0; d ← aget data_in i;
    output ← int_add (c * d) (- sum);
    let output := WEBRTC_SPL_SAT 134215679 output (-134217728) in
    out ← aset out (q + i) (s16 (Z.shiftr (output + 2048) 12));
    ar_loop n data_in out q coefficients coefficients_length (i + 1)
  end.

Definition WebRtcSpl_FilterARFastQ12 (data_in out : list Z) (q : Z) (coefficients : list Z)
    (coefficients_length data_length : Z) : option (list Z) :=
  if (data_length <=? 0) || (coefficients_length <=? 1) then None
  else ar_loop (Z.to_nat data_length) data_in out q coefficients coefficients_length 0.

(** ** filter_ar.c *)

(** One of the two inner loops: [n] rounds with [a_ptr] at index [ai] and the
    two sample pointers, in arrays [h] and [hl], at index [k]. *)
Fixpoint ar_taps (n : nat) (a h hl : list Z) (ai k o oLOW : Z) : option (Z * Z * Z) :=
  match n with
  | O => Some (ai, o, oLOW)
  | S n =>
    c ← aget a ai; d ← aget h k; dl ← aget hl k;
    o ← int_add o (- (c * d));
    oLOW ← int_add oLOW (- (c * dl));
    ar_taps n a h hl (ai + 1) (k - 1) o oLOW
  end.

Fixpoint filter_ar_loop (n : nat) (a : list Z) (a_length : Z) (x state state_low : list Z) (state_length i : Z)
    (filtered filtered_low : list Z) : option (list Z * list Z) :=
  match n with
  | O => Some (filtered, filtered_low)
  | S n =>
    xi ← aget x i;
    let stop := if i <? a_length then i + 1 else a_length in
    '(ai, o, oLOW) ← ar_taps (Z.to_nat (stop - 1)) a filtered filtered_low 1 (i - 1) (xi * 2 ^ 12) 0;
    '(_, o, oLOW) ← ar_taps (Z.to_nat (a_length - (i + 1))) a state state_low ai (state_length - 1) o oLOW;
    o ← int_add o (Z.shiftr oLOW 12);
    r ← int_add o 2048;
    let f := s16 (Z.shiftr r 12) in
    filtered ← aset filtered i f;
    l ← int_add o (- (f * 2 ^ 12));
    filtered_low ← aset filtered_low i (s16 l);
    filter_ar_loop n a a_length x state state_low state_length (i + 1) filtered filtered_low
  end.

(** [for (i = 0; i < n; i++) v[i] = v[i + d]] *)
Fixpoint shift_down (n : nat) (v : list Z) (i d : Z) : option (list Z) :=
  match n with
  | O => Some v
  | S n => y ← aget v (i + d); v ← aset v i y; shift_down n v (i + 1) d
  end.

(** The last loop: both stores go to [state]. *)
Fixpoint save_loop (n : nat) (state : list Z) (base i : Z) (filtered filtered_low : list Z) : option (list Z) :=
  match n with
  | O => Some state
  | S n =>
    y ← aget filtered i; state ← aset state (base + i) y;
    y ← aget filtered_low i; state ← aset state (base + i) y;
    save_loop n state base (i + 1) filtered filtered_low
  end.

(** Result: the return value, [state], [state_low], [filtered] and
    [filtered_low]. *)
Definition WebRtcSpl_FilterAR (a : list Z) (a_length : Z) (x : list Z) (x_length : Z)
    (state : list Z) (state_length : Z) (state_low filtered filtered_low : list Z)
  : option (Z * list Z * list Z * list Z * list Z) :=
  '(filtered, filtered_low) ← filter_ar_loop (Z.to_nat x_length) a a_length x state state_low state_length 0
                                filtered filtered_low;
  if state_length <=? x_length then
    state ← WebRtcSpl_CopyFromEndW16 filtered x_length (a_length - 1) state;
    state_low ← WebRtcSpl_CopyFromEndW16 filtered_low x_length (a_length - 1) state_low;
    Some (x_length, state, state_low, filtered, filtered_low)
  else
    state ← shift_down (Z.to_nat (state_length - x_length)) state 0 x_length;
    state_low ← shift_down (Z.to_nat (state_length - x_length)) state_low 0 x_length;
    state ← save_loop (Z.to_nat x_length) state (state_length - x_length) 0 filtered filtered_low;
    Some (x_length, state, state_low, filtered, filtered_low).

(** ** Sums of products as convolutions *)

Definition conv (b x : list Z) (i j n : Z) : Z :=
  zsum ((fun k => zn b k * zn x (i - k)) <$> seqZ j n).
Definition fir (b x : list Z) (i : Z) : Z := conv b x i 0 (zlen b).

Definition wsum (b : list Z) (j n : Z) : Z := zsum ((fun k => Z.abs (zn b k)) <$> seqZ j n).
(** The sum of the magnitudes of the coefficients. *)
Definition weight (b : list Z) : Z := wsum b 0 (zlen b).

Lemma seqZ_next (j : Z) (n : nat) : seqZ j (Z.of_nat (S n)) = j :: seqZ (j + 1) (Z.of_nat n).
Proof. rewrite seqZ_cons by lia. unfold Z.succ, Z.pred. f_equal. f_equal. lia. Qed.

Lemma wsum_nonneg (b : list Z) (n : nat) : forall j, 0 <= wsum b j (Z.of_nat n).
Proof.
  induction n as [|n IH]; intros j; [done|]. unfold wsum in *. rewrite seqZ_next. cbn [fmap list_fmap zsum].
  specialize (IH (j + 1)). lia.
Qed.

Lemma int16_zn (x : list Z) (i : Z) : Forall int16 x -> 0 <= i < zlen x -> -32768 <= zn x i <= 32767.
Proof.
  intros H16 Hi. pose proof (proj1 (Forall_forall _ _) H16 _ (zn_elem x i Hi)) as H. unfold int16 in H. lia.
Qed.

Lemma mac_ok (b x : list Z) (i : Z) (n : nat) : Forall int16 x -> i < zlen x -> forall acc j,
  0 <= j -> j + Z.of_nat n <= zlen b -> j + Z.of_nat n - 1 <= i ->
  Z.abs acc + 32768 * wsum b j (Z.of_nat n) < 2 ^ 31 ->
  mac n acc b x i j = Some (acc + conv b x i j (Z.of_nat n)).
Proof.
  intros H16 Hi. induction n as [|n IH]; intros acc j Hj Hb Hx Hw.
  { change (conv b x i j (Z.of_nat 0)) with 0. by rewrite Z.add_0_r. }
  unfold conv, wsum in *. rewrite seqZ_next in *. cbn [fmap list_fmap zsum mac] in *.
  rewrite !aget_in by lia. cbn [mbind option_bind].
  pose proof (int16_zn x (i - j) H16 ltac:(lia)) as Hd.
  pose proof (wsum_nonneg b n (j + 1)) as Hn. unfold wsum in Hn.
  assert (Z.abs (zn b j * zn x (i - j)) <= 32768 * Z.abs (zn b j)) as Hp by (rewrite Z.abs_mul; nia).
  rewrite int_add_in by lia. cbn [mbind option_bind]. rewrite IH by lia. f_equal. lia.
Qed.

Lemma fir_mac (b x : list Z) (acc i : Z) : Forall int16 x -> zlen b - 1 <= i < zlen x ->
  Z.abs acc + 32768 * weight b < 2 ^ 31 ->
  mac (Z.to_nat (zlen b)) acc b x i 0 = Some (acc + fir b x i).
Proof.
  intros H16 Hi Hw. pose proof (zlen_nonneg b). unfold weight in Hw.
  rewrite mac_ok by (rewrite ?Z2Nat.id by lia; auto; lia). by rewrite Z2Nat.id by lia.
Qed.

Lemma upd_cons_seq (m m1 m2 : list Z) (o : Z) (n : nat) (f : Z -> Z) (k : Z) :
  upd m o [f k] m1 -> upd m1 (o + 1) (f <$> seqZ (k + 1) (Z.of_nat n)) m2 ->
  upd m o (f <$> seqZ k (Z.of_nat (S n))) m2.
Proof. intros U1 U2. rewrite seqZ_next. cbn [fmap list_fmap]. by apply (upd_cons m m1). Qed.

(** ** Downsampling *)

(** Output sample [k]: the filtered input at [delay + k * factor]. *)
Definition down_sample (x : list Z) (p : Z) (b : list Z) (factor delay k : Z) : Z :=
  clamp16 (Z.shiftr (2048 + fir b x (p + delay + k * factor)) 12).

Lemma downsample_loop_ok (x : list Z) (p : Z) (b : list Z) (factor delay L : Z) :
  Forall int16 x -> weight b <= 65535 -> 1 <= factor -> 0 <= p -> 0 <= delay -> zlen b - 1 <= p + delay ->
  p + delay + factor * (L - 1) < zlen x -> delay + factor * L < 2 ^ 64 ->
  forall n fuel out k, (n <= fuel)%nat -> 0 <= k -> k + Z.of_nat n = L -> L <= zlen out ->
  exists out', downsample_loop fuel x p out k b (zlen b) factor (delay + factor * (L - 1) + 1) (delay + factor * k)
      = Some (out', L) /\ upd out k (down_sample x p b factor delay <$> seqZ k (Z.of_nat n)) out'.
Proof.
  intros H16 Hw Hf Hp Hdl Hb Hx H64 n. induction n as [|n IH]; intros fuel out k Hfu Hk HL Ho.
  - exists out. split; [|apply upd_nil; lia]. assert (k = L) as -> by lia.
    destruct fuel; cbn [downsample_loop]; by rewrite (proj2 (Z.ltb_ge _ _)) by lia.
  - destruct fuel as [|fuel]; [lia|]. cbn [downsample_loop]. rewrite (proj2 (Z.ltb_lt _ _)) by nia.
    rewrite fir_mac by (auto; nia). cbn [mbind option_bind]. rewrite sat16_clamp.
    replace (p + (delay + factor * k)) with (p + delay + k * factor) by lia.
    change (clamp16 _) with (down_sample x p b factor delay k).
    destruct (aset_upd out k (down_sample x p b factor delay k) ltac:(lia)) as (o1 & -> & U1).
    cbn [mbind option_bind]. rewrite uwrap_small by nia.
    replace (delay + factor * k + factor) with (delay + factor * (k + 1)) by lia.
    destruct (IH fuel o1 (k + 1)) as (out' & -> & U2); [lia..|rewrite (u_len _ _ _ _ U1); lia|].
    exists out'. split; [done|]. by apply (upd_cons_seq out o1).
Qed.

(** [WebRtcSpl_DownsampleFastC] reports an error and changes nothing when
    the input is too short for the requested output; otherwise every output
    sample is the rounded, saturated Q12 convolution of the coefficients with
    the input around the decimated position, without overflow if the
    magnitudes of the coefficients add up to at most 65535. *)
Lemma downsample_correct (x : list Z) (p data_in_length : Z) (data_out : list Z) (L : Z)
    (b : list Z) (factor delay : Z) :
  Forall int16 x -> weight b <= 65535 -> 0 < zlen b -> 1 <= factor -> 0 <= p -> 0 <= delay ->
  zlen b - 1 <= p + delay -> p + data_in_length <= zlen x -> 0 < L <= zlen data_out ->
  delay + factor * L < 2 ^ 64 ->
  if data_in_length <? delay + factor * (L - 1) + 1 then
    WebRtcSpl_DownsampleFastC x p data_in_length data_out L b (zlen b) factor delay = Some (-1, data_out)
  else exists out, WebRtcSpl_DownsampleFastC x p data_in_length data_out L b (zlen b) factor delay = Some (0, out) /\
    upd data_out 0 (down_sample x p b factor delay <$> seqZ 0 L) out.
Proof.
  intros H16 Hw Hb Hf Hp Hd Hbd Hlen HL H64. unfold WebRtcSpl_DownsampleFastC.
  rewrite uwrap_small, (proj2 (Z.eqb_neq L 0)), (proj2 (Z.eqb_neq (zlen b) 0)) by nia. cbn [orb].
  destruct (Z.ltb_spec data_in_length (delay + factor * (L - 1) + 1)); [done|].
  destruct (downsample_loop_ok x p b factor delay L H16 Hw Hf Hp Hd Hbd ltac:(lia) H64
    (Z.to_nat L) (S (length data_out)) data_out 0) as (out & E & U); [unfold zlen in HL; lia|lia..|].
  rewrite Z.mul_0_r, Z.add_0_r in E. rewrite E. cbn [mbind option_bind]. rewrite Z.eqb_refl.
  rewrite Z2Nat.id in U by lia. exists out. done.
Qed.

Lemma downsample_witness :
  exists out, WebRtcSpl_DownsampleFastC [1; 2; 3; 4; 5; 6; 7] 0 7 [0; 0; 0; 9] 3 [2048; 2048] 2 2 1 = Some (0, out) /\
    upd [0; 0; 0; 9] 0 (down_sample [1; 2; 3; 4; 5; 6; 7] 0 [2048; 2048] 2 1 <$> seqZ 0 3) out.
Proof.
  apply (downsample_correct [1; 2; 3; 4; 5; 6; 7] 0 7 [0; 0; 0; 9] 3 [2048; 2048] 2 1); try closed.
  repeat constructor; closed.
Defined.

(** ** Rounding and saturation of a Q12 sum *)

Definition q12 (v : Z) : Z := clamp16 (Z.shiftr (v + 2048) 12).

(** Saturating before the shift is saturating after it. *)
Lemma sat_q12 (o : Z) : s16 (Z.shiftr (WEBRTC_SPL_SAT 134215679 o (-134217728) + 2048) 12) = q12 o.
Proof.
  unfold q12, clamp16, WEBRTC_SPL_SAT. rewrite !Z.shiftr_div_pow2 by lia. change (2 ^ 12) with 4096.
  pose proof (Z.div_mod (o + 2048) 4096 ltac:(lia)). pose proof (Z.mod_pos_bound (o + 2048) 4096 ltac:(lia)).
  destruct (Z.ltb_spec 134215679 o).
  { change (s16 ((134215679 + 2048) / 4096)) with 32767. lia. }
  destruct (Z.ltb_spec o (-134217728)).
  { change (s16 ((-134217728 + 2048) / 4096)) with (-32768). lia. }
  rewrite swrap_small by lia. lia.
Qed.

Lemma q12_int16 (o : Z) : int16 (q12 o).
Proof. unfold q12, clamp16, int16. lia. Qed.

(** ** The moving-average filter *)

Lemma ma_loop_ok (x : list Z) (p : Z) (B : list Z) :
  Forall int16 x -> weight B <= 65535 -> forall n out i, 0 <= i -> i + Z.of_nat n <= zlen out ->
  zlen B - 1 <= p + i -> p + i + Z.of_nat n <= zlen x ->
  exists out', ma_loop n x p out B (zlen B) i = Some out' /\
    upd out i ((fun k => q12 (fir B x (p + k))) <$> seqZ i (Z.of_nat n)) out'.
Proof.
  intros H16 Hw n. induction n as [|n IH]; intros out i Hi Ho Hb Hx.
  { exists out. split; [done|apply upd_nil; lia]. }
  cbn [ma_loop]. rewrite fir_mac by (auto; lia). cbn [mbind option_bind]. rewrite sat_q12, Z.add_0_l.
  destruct (aset_upd out i (q12 (fir B x (p + i))) ltac:(lia)) as (o1 & -> & U1). cbn [mbind option_bind].
  destruct (IH o1 (i + 1)) as (out' & -> & U2); [lia|rewrite (u_len _ _ _ _ U1); lia|lia..|].
  exists out'. split; [done|]. by apply (upd_cons_seq out o1 out' i n (fun k => q12 (fir B x (p + k)))).
Qed.

(** Every output sample of [WebRtcSpl_FilterMAFastQ12] is the rounded,
    saturated Q12 convolution of the coefficients with the input ending at
    that sample. *)
Lemma filter_ma_correct (x : list Z) (p : Z) (out B : list Z) (length : Z) :
  Forall int16 x -> weight B <= 65535 -> 0 <= length <= zlen out -> zlen B - 1 <= p -> p + length <= zlen x ->
  exists out', WebRtcSpl_FilterMAFastQ12 x p out B (zlen B) length = Some out' /\
    upd out 0 ((fun k => q12 (fir B x (p + k))) <$> seqZ 0 length) out'.
Proof.
  intros H16 Hw Hl Hb Hx. unfold WebRtcSpl_FilterMAFastQ12.
  destruct (ma_loop_ok x p B H16 Hw (Z.to_nat length) out 0) as (out' & E & U); [lia..|].
  rewrite Z2Nat.id in U by lia. eauto.
Qed.

Lemma filter_ma_witness : exists out', WebRtcSpl_FilterMAFastQ12 [5; 6; 7; 8] 1 [0; 0; 0; 9] [4096; -4096] 2 3 = Some out' /\
    upd [0; 0; 0; 9] 0 ((fun k => q12 (fir [4096; -4096] [5; 6; 7; 8] (1 + k))) <$> seqZ 0 3) out'.
Proof.
  apply (filter_ma_correct [5; 6; 7; 8] 1 [0; 0; 0; 9] [4096; -4096] 3); try closed.
  repeat constructor; closed.
Defined.

(** ** The auto-regressive filter *)

Lemma zsum_app (xs ys : list Z) : zsum (xs ++ ys) = zsum xs + zsum ys.
Proof. induction xs as [|x xs IH]; cbn [app zsum]; lia. Qed.

Lemma conv_last (b x : list Z) (i j : Z) (n : nat) :
  conv b x i j (Z.of_nat (S n)) = conv b x i j (Z.of_nat n) + zn b (j + Z.of_nat n) * zn x (i - (j + Z.of_nat n)).
Proof. unfold conv. rewrite seqZ_S, fmap_app, zsum_app. cbn [fmap list_fmap zsum]. lia. Qed.

Lemma wsum_last (b : list Z) (j : Z) (n : nat) :
  wsum b j (Z.of_nat (S n)) = wsum b j (Z.of_nat n) + Z.abs (zn b (j + Z.of_nat n)).
Proof. unfold wsum. rewrite seqZ_S, fmap_app, zsum_app. cbn [fmap list_fmap zsum]. lia. Qed.

Lemma conv_ext (b x x' : list Z) (i j n : Z) :
  (forall k, j <= k < j + n -> zn x (i - k) = zn x' (i - k)) -> conv b x i j n = conv b x' i j n.
Proof.
  intros H. unfold conv. f_equal. apply list_fmap_ext. intros m k Hk. apply lookup_seqZ in Hk as [-> ?].
  cbv beta. by rewrite H by lia.
Qed.

Lemma conv_bound (b x : list Z) (i j : Z) (n : nat) : Forall int16 x ->
  (forall k, j <= k < j + Z.of_nat n -> 0 <= i - k < zlen x) ->
  Z.abs (conv b x i j (Z.of_nat n)) <= 32768 * wsum b j (Z.of_nat n).
Proof.
  intros H16. induction n as [|n IH]; intros Hx; [done|]. rewrite conv_last, wsum_last.
  specialize (IH ltac:(intros k Hk; apply Hx; lia)).
  pose proof (int16_zn x _ H16 (Hx (j + Z.of_nat n) ltac:(lia))) as Hd.
  assert (Z.abs (zn b (j + Z.of_nat n) * zn x (i - (j + Z.of_nat n))) <= 32768 * Z.abs (zn b (j + Z.of_nat n)))
    by (rewrite Z.abs_mul; nia). lia.
Qed.

Lemma ar_sum_ok (c x : list Z) (i : Z) (n : nat) : Forall int16 x -> i - 1 < zlen x -> forall sum,
  Z.of_nat n < zlen c -> Z.of_nat n <= i -> Z.abs sum + 32768 * wsum c 1 (Z.of_nat n) < 2 ^ 31 ->
  ar_sum n sum c x i = Some (sum + conv c x i 1 (Z.of_nat n)).
Proof.
  intros H16 Hi. induction n as [|n IH]; intros sum Hc Hx Hw.
  { change (conv c x i 1 (Z.of_nat 0)) with 0. by rewrite Z.add_0_r. }
  cbn [ar_sum]. rewrite conv_last. rewrite wsum_last in Hw. pose proof (wsum_nonneg c n 1).
  replace (1 + Z.of_nat n) with (Z.of_nat (S n)) in * by lia.
  rewrite !aget_in by lia. cbn [mbind option_bind].
  pose proof (int16_zn x (i - Z.of_nat (S n)) H16 ltac:(lia)) as Hd.
  assert (Z.abs (zn c (Z.of_nat (S n)) * zn x (i - Z.of_nat (S n))) <= 32768 * Z.abs (zn c (Z.of_nat (S n)))) as Hp
    by (rewrite Z.abs_mul; nia).
  rewrite int_add_in by lia. cbn [mbind option_bind]. rewrite IH by lia. f_equal. lia.
Qed.

(** The difference equation of sample [k]. *)
Definition ar_eq (data_in c : list Z) (q : Z) (out : list Z) (k : Z) : Prop :=
  zn out (q + k) = q12 (zn c 0 * zn data_in k - conv c out (q + k) 1 (zlen c - 1)).

Lemma ar_loop_ok (data_in c : list Z) (q : Z) : Forall int16 data_in -> 1 < zlen c -> weight c <= 65535 ->
  zlen c - 1 <= q -> forall n out i, Forall int16 out -> 0 <= i -> i + Z.of_nat n <= zlen data_in ->
  q + i + Z.of_nat n <= zlen out ->
  exists out', ar_loop n data_in out q c (zlen c) i = Some out' /\ zlen out' = zlen out /\
    (forall k, k < q + i \/ q + i + Z.of_nat n <= k -> zn out' k = zn out k) /\
    (forall k, i <= k < i + Z.of_nat n -> ar_eq data_in c q out' k).
Proof.
  intros Hin Hc Hw Hq n. induction n as [|n IH]; intros out i H16 Hi Hd Ho.
  { exists out. split_and!; try done. intros k Hk. lia. }
  cbn [ar_loop]. unfold weight in Hw.
  assert (wsum c 0 (zlen c) = Z.abs (zn c 0) + wsum c 1 (zlen c - 1)) as Hsplit.
  { unfold wsum. rewrite (seqZ_cons 0) by lia. cbn [fmap list_fmap zsum]. unfold Z.succ, Z.pred.
    by replace (zlen c + -1) with (zlen c - 1) by lia. }
  pose proof (wsum_nonneg c (Z.to_nat (zlen c - 1)) 1) as Hwn. rewrite Z2Nat.id in Hwn by lia.
  rewrite ar_sum_ok by (rewrite ?Z2Nat.id by lia; auto; lia). rewrite Z2Nat.id by lia.
  cbn [mbind option_bind]. rewrite !aget_in by lia. cbn [mbind option_bind]. rewrite Z.add_0_l.
  pose proof (conv_bound c out (q + i) 1 (Z.to_nat (zlen c - 1)) H16) as Hb. rewrite Z2Nat.id in Hb by lia.
  specialize (Hb ltac:(intros k Hk; lia)). pose proof (int16_zn data_in i Hin ltac:(lia)).
  assert (Z.abs (zn c 0 * zn data_in i) <= 32768 * Z.abs (zn c 0)) by (rewrite Z.abs_mul; nia).
  rewrite int_add_in by lia. cbn [mbind option_bind]. rewrite sat_q12, Z.add_opp_r.
  set (v := q12 _). rewrite aset_in by lia. cbn [mbind option_bind].
  destruct (IH (zset out (q + i) v) (i + 1)) as (out' & -> & Hl & Hold & Heq);
    [apply Forall_insert; [done|apply q12_int16]|lia|lia|rewrite zlen_zset; lia|].
  rewrite zlen_zset in Hl. exists out'. split_and!; [done|done| |].
  - intros k Hk. rewrite Hold, zn_zset_ne by lia. done.
  - intros k Hk. destruct (decide (k = i)) as [->|]; [|apply Heq; lia].
    unfold ar_eq. rewrite Hold, zn_zset_eq by lia. unfold v. f_equal. f_equal.
    apply conv_ext. intros j Hj. rewrite Hold, zn_zset_ne by lia. done.
Qed.

(** C39: [WebRtcSpl_FilterARFastQ12] solves the auto-regressive difference
    equation: each output sample is the rounded, saturated difference of the
    scaled input and the weighted earlier outputs, where the samples before
    the output pointer are the filter's history and stay unchanged. *)
Theorem filter_ar_fast_correct (data_in out c : list Z) (q data_length : Z) :
  Forall int16 data_in -> Forall int16 out -> 1 < zlen c -> weight c <= 65535 -> zlen c - 1 <= q ->
  0 < data_length <= zlen data_in -> q + data_length <= zlen out ->
  exists out', WebRtcSpl_FilterARFastQ12 data_in out q c (zlen c) data_length = Some out' /\
    zlen out' = zlen out /\
    (forall k, k < q \/ q + data_length <= k -> zn out' k = zn out k) /\
    (forall k, 0 <= k < data_length -> ar_eq data_in c q out' k).
Proof.
  intros Hin Hout Hc Hw Hq Hd Ho. unfold WebRtcSpl_FilterARFastQ12.
  rewrite (proj2 (Z.leb_gt data_length 0)), (proj2 (Z.leb_gt (zlen c) 1)) by lia. cbn [orb].
  destruct (ar_loop_ok data_in c q Hin Hc Hw Hq (Z.to_nat data_length) out 0) as (out' & E & Hl & Hold & Heq); auto;
    [lia..|].
  exists out'. rewrite Z2Nat.id, Z.add_0_r in * by lia. auto.
Qed.

Lemma filter_ar_fast_witness :
  exists out', WebRtcSpl_FilterARFastQ12 [100; 200; 300] [7; 0; 0; 0] 1 [4096; 2048] 2 3 = Some out' /\
    zlen out' = 4 /\ (forall k, k < 1 \/ 1 + 3 <= k -> zn out' k = zn [7; 0; 0; 0] k) /\
    (forall k, 0 <= k < 3 -> ar_eq [100; 200; 300] [4096; 2048] 1 out' k).
Proof.
  apply (filter_ar_fast_correct [100; 200; 300] [7; 0; 0; 0] [4096; 2048] 1 3); try closed;
    repeat constructor; closed.
Defined.

(** ** The filter with a saved state *)

Lemma wsum_split (b : list Z) (j : Z) (n m : nat) :
  wsum b j (Z.of_nat n + Z.of_nat m) = wsum b j (Z.of_nat n) + wsum b (j + Z.of_nat n) (Z.of_nat m).
Proof. unfold wsum. rewrite seqZ_app, fmap_app, zsum_app by lia. done. Qed.

(** The inner loops run inside the arrays and their sums stay bounded. *)
Lemma ar_taps_ok (a h hl : list Z) (n : nat) : Forall int16 h -> Forall int16 hl -> forall ai k o ol,
  0 <= ai -> ai + Z.of_nat n <= zlen a -> Z.of_nat n <= k + 1 -> k < zlen h -> k < zlen hl ->
  Z.abs o + 32768 * wsum a ai (Z.of_nat n) < 2 ^ 31 -> Z.abs ol + 32768 * wsum a ai (Z.of_nat n) < 2 ^ 31 ->
  exists o' ol', ar_taps n a h hl ai k o ol = Some (ai + Z.of_nat n, o', ol') /\
    Z.abs o' <= Z.abs o + 32768 * wsum a ai (Z.of_nat n) /\ Z.abs ol' <= Z.abs ol + 32768 * wsum a ai (Z.of_nat n).
Proof.
  intros Hh Hhl. induction n as [|n IH]; intros ai k o ol Hai Ha Hk Hkh Hkl Ho Hol.
  { exists o, ol. change (wsum a ai (Z.of_nat 0)) with 0. cbn [ar_taps]. rewrite Z.add_0_r. split; [done|lia]. }
  cbn [ar_taps]. rewrite !aget_in by lia. cbn [mbind option_bind].
  assert (wsum a ai (Z.of_nat (S n)) = Z.abs (zn a ai) + wsum a (ai + 1) (Z.of_nat n)) as Hs.
  { unfold wsum. rewrite seqZ_next. done. }
  rewrite Hs in *. pose proof (wsum_nonneg a n (ai + 1)).
  pose proof (int16_zn h k Hh ltac:(lia)). pose proof (int16_zn hl k Hhl ltac:(lia)).
  assert (Z.abs (zn a ai * zn h k) <= 32768 * Z.abs (zn a ai)) by (rewrite Z.abs_mul; nia).
  assert (Z.abs (zn a ai * zn hl k) <= 32768 * Z.abs (zn a ai)) by (rewrite Z.abs_mul; nia).
  rewrite int_add_in by lia. cbn [mbind option_bind]. rewrite int_add_in by lia. cbn [mbind option_bind].
  destruct (IH (ai + 1) (k - 1) (o + - (zn a ai * zn h k)) (ol + - (zn a ai * zn hl k)))
    as (o' & ol' & -> & ? & ?); [lia..|].
  exists o', ol'. split; [do 3 f_equal; lia|]. lia.
Qed.

Lemma s16_int16 (x : Z) : int16 (s16 x).
Proof. unfold int16. pose proof (swrap_range 16 x). change (2 ^ (16 - 1)) with (2 ^ 15) in *. lia. Qed.

Lemma filter_ar_loop_ok (a x state state_low : list Z) (sl : Z) :
  Forall int16 x -> Forall int16 state -> Forall int16 state_low -> 0 < zlen a -> wsum a 1 (zlen a - 1) <= 32767 ->
  zlen a - 1 <= sl -> sl <= zlen state -> sl <= zlen state_low ->
  forall n i f fl, 0 <= i -> i + Z.of_nat n <= zlen x -> i + Z.of_nat n <= zlen f -> i + Z.of_nat n <= zlen fl ->
  Forall int16 f -> Forall int16 fl ->
  exists f' fl', filter_ar_loop n a (zlen a) x state state_low sl i f fl = Some (f', fl') /\
    zlen f' = zlen f /\ zlen fl' = zlen fl.
Proof.
  intros Hx Hs Hsl Ha Hw Hal Hl1 Hl2 n. induction n as [|n IH]; intros i f fl Hi Hix Hif Hifl Hf Hfl.
  { exists f, fl. done. }
  cbn [filter_ar_loop]. rewrite aget_in by lia. cbn [mbind option_bind].
  set (stop := if i <? zlen a then i + 1 else zlen a).
  assert (1 <= stop <= zlen a /\ stop - 1 <= i /\ (zlen a <= i /\ stop = zlen a \/ stop = i + 1)) as (Hst & Hst' & Hst2).
  { unfold stop. destruct (Z.ltb_spec i (zlen a)); lia. }
  set (n2 := Z.to_nat (zlen a - (i + 1))).
  assert (stop + Z.of_nat n2 = zlen a) as Hn2 by (unfold n2; lia).
  pose proof (wsum_split a 1 (Z.to_nat (stop - 1)) n2) as Hsplit. rewrite Z2Nat.id in Hsplit by lia.
  replace (stop - 1 + Z.of_nat n2) with (zlen a - 1) in Hsplit by lia.
  replace (1 + (stop - 1)) with stop in Hsplit by lia.
  pose proof (wsum_nonneg a (Z.to_nat (stop - 1)) 1) as H1. rewrite Z2Nat.id in H1 by lia.
  pose proof (wsum_nonneg a n2 stop) as H2. pose proof (int16_zn x i Hx ltac:(lia)) as Hxi.
  destruct (ar_taps_ok a f fl (Z.to_nat (stop - 1)) Hf Hfl 1 (i - 1) (zn x i * 2 ^ 12) 0)
    as (o1 & ol1 & -> & Ho1 & Hol1); rewrite ?Z2Nat.id in * by lia; try lia.
  cbn [mbind option_bind]. replace (1 + (stop - 1)) with stop by lia.
  destruct (ar_taps_ok a state state_low n2 Hs Hsl stop (sl - 1) o1 ol1) as (o2 & ol2 & -> & Ho2 & Hol2); try lia.
  cbn [mbind option_bind]. pose proof (shiftr_bound ol2 31 12 ltac:(lia) ltac:(lia)) as Hsh.
  change (2 ^ (31 - 12)) with 524288 in Hsh.
  rewrite int_add_in by lia. cbn [mbind option_bind]. rewrite int_add_in by lia. cbn [mbind option_bind].
  set (y := s16 _). pose proof (s16_int16 (Z.shiftr (o2 + Z.shiftr ol2 12 + 2048) 12)) as Hy.
  fold y in Hy. unfold int16 in Hy. rewrite aset_in by lia. cbn [mbind option_bind].
  rewrite int_add_in by lia. cbn [mbind option_bind]. rewrite aset_in by lia. cbn [mbind option_bind].
  destruct (IH (i + 1) (zset f i y) (zset fl i (s16 (o2 + Z.shiftr ol2 12 + - (y * 2 ^ 12)))))
    as (f' & fl' & -> & Hlf & Hlfl); rewrite ?zlen_zset in *; try lia.
  { apply Forall_insert; [done|]. unfold int16. lia. }
  { apply Forall_insert; [done|apply s16_int16]. }
  exists f', fl'. done.
Qed.

Lemma shift_down_ok (n : nat) : forall (v : list Z) (i d : Z), 0 <= i -> 0 <= d -> i + Z.of_nat n + d <= zlen v ->
  exists v', shift_down n v i d = Some v' /\ zlen v' = zlen v /\
    (forall k, i <= k < i + Z.of_nat n -> zn v' k = zn v (k + d)) /\
    (forall k, k < i \/ i + Z.of_nat n <= k -> zn v' k = zn v k).
Proof.
  induction n as [|n IH]; intros v i d Hi Hd Hl.
  { exists v. split_and!; try done. intros k Hk. lia. }
  cbn [shift_down]. rewrite aget_in by lia. cbn [mbind option_bind]. rewrite aset_in by lia.
  cbn [mbind option_bind].
  destruct (IH (zset v i (zn v (i + d))) (i + 1) d) as (v' & -> & Hl' & H1 & H2); [lia..|rewrite zlen_zset; lia|].
  rewrite zlen_zset in Hl'. exists v'. split_and!; [done|done| |].
  - intros k Hk. destruct (decide (k = i)) as [->|].
    + by rewrite H2, zn_zset_eq by lia.
    + rewrite H1 by lia. destruct (decide (d = 0)) as [->|]; [|by rewrite zn_zset_ne by lia].
      rewrite !Z.add_0_r. by rewrite zn_zset_ne by lia.
  - intros k Hk. by rewrite H2, zn_zset_ne by lia.
Qed.

Lemma save_loop_ok (f fl : list Z) (base : Z) (n : nat) : forall (v : list Z) (i : Z), 0 <= i -> 0 <= base ->
  i + Z.of_nat n <= zlen f -> i + Z.of_nat n <= zlen fl -> base + i + Z.of_nat n <= zlen v ->
  exists v', save_loop n v base i f fl = Some v' /\ zlen v' = zlen v /\
    (forall k, i <= k < i + Z.of_nat n -> zn v' (base + k) = zn fl k) /\
    (forall k, k < base + i \/ base + i + Z.of_nat n <= k -> zn v' k = zn v k).
Proof.
  induction n as [|n IH]; intros v i Hi Hb Hf Hfl Hv.
  { exists v. split_and!; try done. intros k Hk. lia. }
  cbn [save_loop]. rewrite (aget_in f) by lia. cbn [mbind option_bind]. rewrite aset_in by lia.
  cbn [mbind option_bind]. rewrite aget_in by lia. cbn [mbind option_bind].
  rewrite aset_in by (rewrite zlen_zset; lia). cbn [mbind option_bind]. rewrite zset_zset_eq.
  destruct (IH (zset v (base + i) (zn fl i)) (i + 1)) as (v' & -> & Hl & H1 & H2); [lia..|rewrite zlen_zset; lia|].
  rewrite zlen_zset in Hl. exists v'. split_and!; [done|done| |].
  - intros k Hk. destruct (decide (k = i)) as [->|]; [|apply H1; lia]. by rewrite H2, zn_zset_eq by lia.
  - intros k Hk. by rewrite H2, zn_zset_ne by lia.
Qed.

(** C40: on a block shorter than the filter's memory [WebRtcSpl_FilterAR]
    saves a wrong state: the newest entries of [state] are the low parts of
    the output instead of the output, and the newest entries of [state_low]
    are left as they were. *)
Theorem filter_ar_short_block (a x state state_low filtered filtered_low : list Z) (x_length sl : Z) :
  Forall int16 x -> Forall int16 state -> Forall int16 state_low -> Forall int16 filtered ->
  Forall int16 filtered_low -> 0 < zlen a -> wsum a 1 (zlen a - 1) <= 32767 -> zlen a - 1 <= sl ->
  sl <= zlen state -> sl <= zlen state_low -> 0 < x_length < sl -> x_length <= zlen x ->
  x_length <= zlen filtered -> x_length <= zlen filtered_low ->
  exists state' state_low' f' fl',
    WebRtcSpl_FilterAR a (zlen a) x x_length state sl state_low filtered filtered_low =
      Some (x_length, state', state_low', f', fl') /\
    (forall k, 0 <= k < sl - x_length ->
       zn state' k = zn state (k + x_length) /\ zn state_low' k = zn state_low (k + x_length)) /\
    (forall i, 0 <= i < x_length ->
       zn state' (sl - x_length + i) = zn fl' i /\
       zn state_low' (sl - x_length + i) = zn state_low (sl - x_length + i)).
Proof.
  intros Hx Hs Hsl Hf Hfl Ha Hw Hal Hl1 Hl2 Hxl Hxx Hxf Hxfl. unfold WebRtcSpl_FilterAR.
  destruct (filter_ar_loop_ok a x state state_low sl Hx Hs Hsl Ha Hw Hal Hl1 Hl2 (Z.to_nat x_length) 0
    filtered filtered_low) as (f' & fl' & -> & Hf' & Hfl'); auto; try lia.
  cbn [mbind option_bind]. rewrite (proj2 (Z.leb_gt _ _)) by lia.
  destruct (shift_down_ok (Z.to_nat (sl - x_length)) state 0 x_length) as (s1 & -> & Hs1 & Hs1a & Hs1b); [lia..|].
  cbn [mbind option_bind].
  destruct (shift_down_ok (Z.to_nat (sl - x_length)) state_low 0 x_length) as (s2 & -> & Hs2 & Hs2a & Hs2b); [lia..|].
  cbn [mbind option_bind].
  destruct (save_loop_ok f' fl' (sl - x_length) (Z.to_nat x_length) s1 0) as (s3 & -> & Hs3 & Hs3a & Hs3b); [lia..|].
  cbn [mbind option_bind]. exists s3, s2, f', fl'. split; [done|]. split.
  - intros k Hk. rewrite Hs3b, Hs1a, Hs2a by lia. done.
  - intros i Hi. rewrite Hs3a, Hs2b by lia. done.
Qed.

Lemma filter_ar_short_block_witness :
  exists state' state_low' f' fl',
    WebRtcSpl_FilterAR [4096; -300] 2 [1000] 1 [5; 6] 2 [7; 8] [0] [0] = Some (1, state', state_low', f', fl') /\
    (forall k, 0 <= k < 2 - 1 -> zn state' k = zn [5; 6] (k + 1) /\ zn state_low' k = zn [7; 8] (k + 1)) /\
    (forall i, 0 <= i < 1 -> zn state' (2 - 1 + i) = zn fl' i /\ zn state_low' (2 - 1 + i) = zn [7; 8] (2 - 1 + i)).
Proof.
  apply (filter_ar_short_block [4096; -300] [1000] [5; 6] [7; 8] [0] [0] 1 2); try closed;
    repeat constructor; closed.
Defined.

(** The output sample is 1000, the state keeps 1800. *)
Example filter_ar_short_block_run :
  option_map (fun r => (r.1.1.1.2, r.1.2)) (WebRtcSpl_FilterAR [4096; -300] 2 [1000] 1 [5; 6] 2 [7; 8] [0] [0])
  = Some ([6; 1800], [1000]).
Proof. vm_compute. reflexivity. Qed.
