(* ===== verification/SplResample.v ===== *)
(** * Resampling by a factor of two

    [resample_by_2.c] of
    [src/submodules/libtgvoip/webrtc_dsp/webrtc/common_audio/signal_processing],
    the generic C variant of the multiply-accumulate macros.  Two chains of
    three first-order all-pass sections filter the signal; their state is
    kept by the caller between blocks.  [None] is an overflow of an [int] or
    an access outside of an array. *)
From S2P Require Import Prelude.
From S2P Require Import Bytes.
From S2P Require Import SplArith.
From S2P Require Import SplVector.
From S2P Require Import SplFilter.
From Stdlib Require Import ZArith Lia.
From stdpp Require Import base numbers option list.
Open Scope Z_scope.

Definition kResampleAllpass1 : Z * Z * Z := (3284, 24441, 49528).
Definition kResampleAllpass2 : Z * Z * Z := (12199, 37471, 60255).

(** [C + (B >> 16) * A + (((uint32_t)(0x0000FFFF & B) * A) >> 16)]: the first
    sum is an [int], the second one unsigned. *)
Definition WEBRTC_SPL_SCALEDIFF32 (A B C : Z) : option Z :=
  t ← int_add C (Z.shiftr B 16 * A);
  Some (s32 (u32 (u32 t + Z.shiftr (u32 (Z.land 0x0000FFFF B * A)) 16))).

(** The state of one chain: [state0 .. state3] or [state4 .. state7]. *)
Record chain := Chain { z0 : Z; z1 : Z; z2 : Z; z3 : Z }.

(** One sample through a chain with coefficients [k]. *)
Definition allpass (k : Z * Z * Z) (st : chain) (in32 : Z) : option chain :=
  let '(c0, c1, c2) := k in
  diff ← int_add in32 (- z1 st);
  tmp1 ← WEBRTC_SPL_SCALEDIFF32 c0 diff (z0 st);
  diff ← int_add tmp1 (- z2 st);
  tmp2 ← WEBRTC_SPL_SCALEDIFF32 c1 diff (z1 st);
  diff ← int_add tmp2 (- z3 st);
  s3 ← WEBRTC_SPL_SCALEDIFF32 c2 diff (z2 st);
  Some (Chain in32 tmp1 tmp2 s3).

(** ** WebRtcSpl_DownsampleBy2 *)

Fixpoint down_loop (n : nat) (inp : list Z) (i : Z) (out : list Z) (o : Z) (lo up : chain)
  : option (list Z * chain * chain) :=
  match n with
  | O => Some (out, lo, up)
  | S n =>
    x ← aget inp i;
    lo ← allpass kResampleAllpass2 lo (x * 2 ^ 10);
    x ← aget inp (i + 1);
    up ← allpass kResampleAllpass1 up (x * 2 ^ 10);
    s ← int_add (z3 lo) (z3 up);
    s ← int_add s 1024;
    out ← aset out o (WebRtcSpl_SatW32ToW16 (Z.shiftr s 11));
    down_loop n inp (i + 2) out (o + 1) lo up
  end.

(** The two chains as the caller's [filtState] of eight cells. *)
Definition load (filtState : list Z) : option (chain * chain) :=
  match filtState with
  | s0 :: s1 :: s2 :: s3 :: s4 :: s5 :: s6 :: s7 :: _ => Some (Chain s0 s1 s2 s3, Chain s4 s5 s6 s7)
  | _ => None
  end.
Definition store (filtState : list Z) (lo up : chain) : list Z :=
  [z0 lo; z1 lo; z2 lo; z3 lo; z0 up; z1 up; z2 up; z3 up] ++ drop 8 filtState.

Definition WebRtcSpl_DownsampleBy2 (inp : list Z) (len : Z) (out filtState : list Z)
  : option (list Z * list Z) :=
  '(lo, up) ← load filtState;
  '(out, lo, up) ← down_loop (Z.to_nat (Z.shiftr len 1)) inp 0 out 0 lo up;
  Some (out, store filtState lo up).

(** ** WebRtcSpl_UpsampleBy2 *)

Fixpoint up_loop (n : nat) (inp : list Z) (i : Z) (out : list Z) (o : Z) (lo up : chain)
  : option (list Z * chain * chain) :=
  match n with
  | O => Some (out, lo, up)
  | S n =>
    x ← aget inp i;
    lo ← allpass kResampleAllpass1 lo (x * 2 ^ 10);
    s ← int_add (z3 lo) 512;
    out ← aset out o (WebRtcSpl_SatW32ToW16 (Z.shiftr s 10));
    up ← allpass kResampleAllpass2 up (x * 2 ^ 10);
    s ← int_add (z3 up) 512;
    out ← aset out (o + 1) (WebRtcSpl_SatW32ToW16 (Z.shiftr s 10));
    up_loop n inp (i + 1) out (o + 2) lo up
  end.

Definition WebRtcSpl_UpsampleBy2 (inp : list Z) (len : Z) (out filtState : list Z)
  : option (list Z * list Z) :=
  '(lo, up) ← load filtState;
  '(out, lo, up) ← up_loop (Z.to_nat len) inp 0 out 0 lo up;
  Some (out, store filtState lo up).

(** ** Exact arithmetic

    The same filters over unbounded integers. *)

Definition section (c x s0 s1 : Z) : Z := s0 + (c * (x - s1)) / 65536.

Definition allpass_ref (k : Z * Z * Z) (st : chain) (x : Z) : chain :=
  let '(c0, c1, c2) := k in
  let t1 := section c0 x (z0 st) (z1 st) in
  let t2 := section c1 t1 (z1 st) (z2 st) in
  Chain x t1 t2 (section c2 t2 (z2 st) (z3 st)).

Lemma scalediff_ok (A B C : Z) : 0 <= A < 65536 -> - 2 ^ 31 <= B < 2 ^ 31 ->
  - 2 ^ 31 + 65536 <= C + (A * B) / 65536 < 2 ^ 31 ->
  WEBRTC_SPL_SCALEDIFF32 A B C = Some (C + (A * B) / 65536).
Proof.
  intros HA HB Hr. unfold WEBRTC_SPL_SCALEDIFF32. rewrite !Z.shiftr_div_pow2 by lia.
  change (2 ^ 16) with 65536 in *. rewrite (Z.land_comm 0xFFFF). change 0xFFFF with (Z.ones 16).
  rewrite Z.land_ones by lia. change (2 ^ 16) with 65536.
  pose proof (Z.div_mod B 65536 ltac:(lia)) as HB'. pose proof (Z.mod_pos_bound B 65536 ltac:(lia)) as Hl.
  assert ((A * B) / 65536 = B / 65536 * A + (B mod 65536 * A) / 65536) as E.
  { rewrite HB' at 1. replace (A * (65536 * (B / 65536) + B mod 65536)) with (B / 65536 * A * 65536 + B mod 65536 * A) by lia.
    apply Z.div_add_l. lia. }
  assert (0 <= B mod 65536 * A < 65536 * 65536) as Hp by nia.
  assert (0 <= (B mod 65536 * A) / 65536 < 65536) as Hq
    by (split; [apply Z.div_pos; lia|apply Z.div_lt_upper_bound; lia]).
  rewrite int_add_in by lia. cbn [mbind option_bind]. rewrite (uwrap_small 32 (_ * A)) by lia. f_equal.
  rewrite s32_u32. unfold swrap, uwrap. change (2 ^ (32 - 1)) with (2 ^ 31).
  rewrite <- Z.add_assoc, Zplus_mod_idemp_l, Z.add_assoc.
  rewrite Z.mod_small by lia. lia.
Qed.

(** ** Stability

    [W = 65536 * s0 - c * s1] is the memory of a section whose last input and
    output are [s0] and [s1].  When the inputs are bounded by [M], [W] stays
    within [(65536 + c) * M + e] and the output within [M']. *)
Record sec_inv (c M e s0 s1 : Z) : Prop := {
  si_in : - M <= s0 <= M;
  si_mem : - ((65536 + c) * M + e) <= 65536 * s0 - c * s1 <= (65536 + c) * M + e
}.

Lemma section_ok (c M e M' x s0 s1 : Z) : 0 < c < 65536 -> c * (e + 65536) <= 65536 * e ->
  (65536 + 2 * c) * M + e + 65536 <= 65536 * M' -> - M <= x <= M -> sec_inv c M e s0 s1 ->
  - M' <= section c x s0 s1 <= M' /\ sec_inv c M e x (section c x s0 s1).
Proof.
  intros Hc He HM' Hx [H0 HW]. unfold section. set (W := 65536 * s0 - c * s1) in *.
  pose proof (Z.div_mod (c * (x - s1)) 65536 ltac:(lia)) as Hd.
  pose proof (Z.mod_pos_bound (c * (x - s1)) 65536 ltac:(lia)) as Hr.
  set (r := (c * (x - s1)) mod 65536) in *. set (q := c * (x - s1) / 65536) in *.
  assert (65536 * (s0 + q) = W + c * x - r) as Hy by (unfold W; lia).
  assert (- (c * M) <= c * x <= c * M) as Hcx by nia.
  split; [lia|]. split; [done|].
  assert (65536 * (65536 * x - c * (s0 + q)) = (65536 * 65536 - c * c) * x - c * W + c * r) as E.
  { replace (65536 * (65536 * x - c * (s0 + q))) with (65536 * 65536 * x - c * (65536 * (s0 + q))) by lia.
    rewrite Hy. lia. }
  assert (- ((65536 * 65536 - c * c) * M) <= (65536 * 65536 - c * c) * x <= (65536 * 65536 - c * c) * M) by nia.
  assert (- (c * ((65536 + c) * M + e)) <= c * W <= c * ((65536 + c) * M + e)) by nia.
  assert (0 <= c * r <= c * 65536) by nia. lia.
Qed.

(** Bounds of a chain: coefficient, input bound and rounding error of each
    section, and the bound of the output. *)
Record bounds := Bounds { b_c0 : Z; b_m0 : Z; b_e0 : Z; b_c1 : Z; b_m1 : Z; b_e1 : Z; b_c2 : Z; b_m2 : Z; b_e2 : Z; b_m3 : Z }.

Definition sec_okb (c M e M' : Z) : bool :=
  (0 <? c) && (c <? 65536) && (c * (e + 65536) <=? 65536 * e) && ((65536 + 2 * c) * M + e + 65536 <=? 65536 * M') &&
  (0 <=? M) && (M + M' <? 2 ^ 31 - 65536).
Definition bounds_okb (b : bounds) : bool :=
  sec_okb (b_c0 b) (b_m0 b) (b_e0 b) (b_m1 b) && sec_okb (b_c1 b) (b_m1 b) (b_e1 b) (b_m2 b) &&
  sec_okb (b_c2 b) (b_m2 b) (b_e2 b) (b_m3 b).

Record chain_inv (b : bounds) (st : chain) : Prop := {
  ci_0 : sec_inv (b_c0 b) (b_m0 b) (b_e0 b) (z0 st) (z1 st);
  ci_1 : sec_inv (b_c1 b) (b_m1 b) (b_e1 b) (z1 st) (z2 st);
  ci_2 : sec_inv (b_c2 b) (b_m2 b) (b_e2 b) (z2 st) (z3 st);
  ci_3 : - b_m3 b <= z3 st <= b_m3 b
}.

(** One section in the machine's arithmetic. *)
Lemma section_step (c M e M' x s0 s1 : Z) (A : Type) (K : Z -> option A) : sec_okb c M e M' = true ->
  - M <= x <= M -> sec_inv c M e s0 s1 -> - M' <= s1 <= M' ->
  (diff ← int_add x (- s1); t ← WEBRTC_SPL_SCALEDIFF32 c diff s0; K t) = K (section c x s0 s1) /\
  - M' <= section c x s0 s1 <= M' /\ sec_inv c M e x (section c x s0 s1).
Proof.
  intros Hok Hx Hinv Hs1. unfold sec_okb in Hok.
  destruct (section_ok c M e M' x s0 s1) as [Hy Hinv']; [lia..|done|].
  split; [|done]. pose proof (si_in _ _ _ _ _ Hinv).
  rewrite int_add_in by lia. cbn [mbind option_bind]. rewrite Z.add_opp_r.
  rewrite scalediff_ok; [done|lia|lia|]. unfold section in Hy. lia.
Qed.

Lemma allpass_ok (b : bounds) (st : chain) (x : Z) : bounds_okb b = true -> chain_inv b st ->
  - b_m0 b <= x <= b_m0 b ->
  allpass (b_c0 b, b_c1 b, b_c2 b) st x = Some (allpass_ref (b_c0 b, b_c1 b, b_c2 b) st x) /\
  chain_inv b (allpass_ref (b_c0 b, b_c1 b, b_c2 b) st x).
Proof.
  intros Hok [H0 H1 H2 H3] Hx. unfold bounds_okb in Hok. rewrite !andb_true_iff in Hok. destruct Hok as [[O0 O1] O2].
  unfold allpass, allpass_ref.
  destruct (section_step _ _ _ _ x (z0 st) (z1 st) chain (fun tmp1 =>
    diff ← int_add tmp1 (- z2 st); tmp2 ← WEBRTC_SPL_SCALEDIFF32 (b_c1 b) diff (z1 st);
    diff ← int_add tmp2 (- z3 st); s3 ← WEBRTC_SPL_SCALEDIFF32 (b_c2 b) diff (z2 st);
    Some (Chain x tmp1 tmp2 s3)) O0 Hx H0 (si_in _ _ _ _ _ H1)) as (-> & Hy1 & I1).
  set (t1 := section (b_c0 b) x (z0 st) (z1 st)) in *.
  destruct (section_step _ _ _ _ t1 (z1 st) (z2 st) chain (fun tmp2 =>
    diff ← int_add tmp2 (- z3 st); s3 ← WEBRTC_SPL_SCALEDIFF32 (b_c2 b) diff (z2 st);
    Some (Chain x t1 tmp2 s3)) O1 Hy1 H1 (si_in _ _ _ _ _ H2)) as (-> & Hy2 & I2).
  set (t2 := section (b_c1 b) t1 (z1 st) (z2 st)) in *.
  destruct (section_step _ _ _ _ t2 (z2 st) (z3 st) chain (fun s3 => Some (Chain x t1 t2 s3)) O2 Hy2 H2 H3)
    as (-> & Hy3 & I3).
  split; [done|]. split; done.
Qed.

(** The bounds of the two chains, for 16-bit samples scaled by [2^10]. *)
Definition bounds1 : bounds := Bounds 3284 33554432 3458 24441 36917250 38978 49528 64453095 202766 161872316.
Definition bounds2 : bounds := Bounds 12199 33554432 14990 37471 46046210 87501 60255 98701167 747751 280196505.

Lemma allpass1_ok (st : chain) (x : Z) : chain_inv bounds1 st -> int16 x ->
  allpass kResampleAllpass1 st (x * 2 ^ 10) = Some (allpass_ref kResampleAllpass1 st (x * 2 ^ 10)) /\
  chain_inv bounds1 (allpass_ref kResampleAllpass1 st (x * 2 ^ 10)).
Proof. intros Hi Hx. unfold int16 in Hx. apply (allpass_ok bounds1); [reflexivity|done|cbn [bounds1 b_m0]; lia]. Qed.

Lemma allpass2_ok (st : chain) (x : Z) : chain_inv bounds2 st -> int16 x ->
  allpass kResampleAllpass2 st (x * 2 ^ 10) = Some (allpass_ref kResampleAllpass2 st (x * 2 ^ 10)) /\
  chain_inv bounds2 (allpass_ref kResampleAllpass2 st (x * 2 ^ 10)).
Proof. intros Hi Hx. unfold int16 in Hx. apply (allpass_ok bounds2); [reflexivity|done|cbn [bounds2 b_m0]; lia]. Qed.

Lemma chain_inv_zero (b : bounds) : bounds_okb b = true -> chain_inv b (Chain 0 0 0 0).
Proof.
  unfold bounds_okb, sec_okb. intros H. destruct b as [c0 m0 e0 c1 m1 e1 c2 m2 e2 m3]. cbn in H.
  assert (forall c M e, 0 <= M -> 0 <= c -> 0 <= e -> sec_inv c M e 0 0) as Hz by (intros; split; nia).
  split; cbn; try apply Hz; nia.
Qed.

(** ** The resamplers in exact arithmetic *)

Fixpoint down_ref (lo up : chain) (xs : list Z) : list Z * chain * chain :=
  match xs with
  | x :: y :: xs =>
    let lo := allpass_ref kResampleAllpass2 lo (x * 2 ^ 10) in
    let up := allpass_ref kResampleAllpass1 up (y * 2 ^ 10) in
    let '(out, lo', up') := down_ref lo up xs in
    (clamp16 (Z.shiftr (z3 lo + z3 up + 1024) 11) :: out, lo', up')
  | _ => ([], lo, up)
  end.

Fixpoint up_ref (lo up : chain) (xs : list Z) : list Z * chain * chain :=
  match xs with
  | x :: xs =>
    let lo := allpass_ref kResampleAllpass1 lo (x * 2 ^ 10) in
    let up := allpass_ref kResampleAllpass2 up (x * 2 ^ 10) in
    let '(out, lo', up') := up_ref lo up xs in
    (clamp16 (Z.shiftr (z3 lo + 512) 10) :: clamp16 (Z.shiftr (z3 up + 512) 10) :: out, lo', up')
  | [] => ([], lo, up)
  end.

Lemma drop_cons_inv {A} (l : list A) (i : Z) (x : A) (xs : list A) : 0 <= i -> drop (Z.to_nat i) l = x :: xs ->
  aget l i = Some x /\ drop (Z.to_nat (i + 1)) l = xs.
Proof.
  intros Hi E. unfold aget. rewrite (proj2 (Z.leb_le 0 i)) by lia. split.
  - rewrite <- (Nat.add_0_r (Z.to_nat i)), <- lookup_drop, E. done.
  - replace (Z.to_nat (i + 1)) with (Z.to_nat i + 1)%nat by lia. by rewrite <- drop_drop, E.
Qed.

Lemma down_loop_ok (inp : list Z) (n : nat) : forall (xs : list Z) (i : Z) (out : list Z) (o : Z) (lo up : chain),
  0 <= i -> drop (Z.to_nat i) inp = xs -> Z.of_nat n = zlen xs / 2 -> Forall int16 xs ->
  chain_inv bounds2 lo -> chain_inv bounds1 up -> 0 <= o -> o + Z.of_nat n <= zlen out ->
  exists out' lo' up' os, down_ref lo up xs = (os, lo', up') /\
    down_loop n inp i out o lo up = Some (out', lo', up') /\ zlen os = Z.of_nat n /\ upd out o os out' /\
    chain_inv bounds2 lo' /\ chain_inv bounds1 up'.
Proof.
  induction n as [|n IH]; intros xs i out o lo up Hi Hd Hn H16 Hlo Hup Ho Hout.
  - exists out, lo, up, []. split; [|split_and!; try done; apply upd_nil; lia].
    destruct xs as [|x [|y xs]]; [done..|]. exfalso. rewrite !zlen_cons in Hn. pose proof (zlen_nonneg xs).
    assert (1 <= (1 + (1 + zlen xs)) / 2) by (apply Z.div_le_lower_bound; lia). lia.
  - destruct xs as [|x [|y xs]]; [done..|]. cbn [down_loop down_ref].
    destruct (drop_cons_inv _ _ _ _ Hi Hd) as [-> Hd1].
    destruct (drop_cons_inv inp (i + 1) y xs ltac:(lia) Hd1) as [-> Hd2]. cbn [mbind option_bind].
    inversion H16 as [|? ? Hx H16']; subst. inversion H16' as [|? ? Hy H16'']; subst.
    destruct (allpass2_ok lo x Hlo Hx) as [-> Hlo1]. cbn [mbind option_bind].
    destruct (allpass1_ok up y Hup Hy) as [-> Hup1]. cbn [mbind option_bind].
    set (lo1 := allpass_ref kResampleAllpass2 lo (x * 2 ^ 10)) in *.
    set (up1 := allpass_ref kResampleAllpass1 up (y * 2 ^ 10)) in *.
    pose proof (ci_3 _ _ Hlo1) as B1. pose proof (ci_3 _ _ Hup1) as B2. cbn [bounds1 bounds2 b_m3] in B1, B2.
    rewrite int_add_in by lia. cbn [mbind option_bind]. rewrite int_add_in by lia. cbn [mbind option_bind].
    rewrite sat16_clamp.
    destruct (aset_upd out o (clamp16 (Z.shiftr (z3 lo1 + z3 up1 + 1024) 11)) ltac:(lia)) as (o1 & -> & U1).
    cbn [mbind option_bind]. replace (i + 1 + 1) with (i + 2) in Hn, H16'' |- * by lia.
    destruct (IH (drop (Z.to_nat (i + 2)) inp) (i + 2) o1 (o + 1) lo1 up1)
      as (out' & lo' & up' & os & -> & -> & Hlos & U2 & ? & ?); auto; try lia.
    { rewrite !zlen_cons in Hn. replace (1 + (1 + zlen (drop (Z.to_nat (i + 2)) inp)))
        with (zlen (drop (Z.to_nat (i + 2)) inp) + 1 * 2) in Hn by lia. rewrite Z.div_add in Hn; lia. }
    { rewrite (u_len _ _ _ _ U1). lia. }
    eexists out', lo', up', _. split_and!; [done|done|rewrite zlen_cons; lia|by apply (upd_cons out o1)|done|done].
Qed.

Lemma up_loop_ok (inp : list Z) (n : nat) : forall (xs : list Z) (i : Z) (out : list Z) (o : Z) (lo up : chain),
  0 <= i -> drop (Z.to_nat i) inp = xs -> Z.of_nat n = zlen xs -> Forall int16 xs ->
  chain_inv bounds1 lo -> chain_inv bounds2 up -> 0 <= o -> o + 2 * Z.of_nat n <= zlen out ->
  exists out' lo' up' os, up_ref lo up xs = (os, lo', up') /\
    up_loop n inp i out o lo up = Some (out', lo', up') /\ zlen os = 2 * Z.of_nat n /\ upd out o os out' /\
    chain_inv bounds1 lo' /\ chain_inv bounds2 up'.
Proof.
  induction n as [|n IH]; intros xs i out o lo up Hi Hd Hn H16 Hlo Hup Ho Hout.
  - exists out, lo, up, []. split; [|split_and!; try done; apply upd_nil; lia].
    destruct xs as [|x xs]; [done|]. rewrite zlen_cons in Hn. pose proof (zlen_nonneg xs). lia.
  - destruct xs as [|x xs]; [done|]. cbn [up_loop up_ref].
    destruct (drop_cons_inv _ _ _ _ Hi Hd) as [-> Hd1]. cbn [mbind option_bind].
    inversion H16 as [|? ? Hx H16']; subst.
    destruct (allpass1_ok lo x Hlo Hx) as [-> Hlo1]. cbn [mbind option_bind].
    set (lo1 := allpass_ref kResampleAllpass1 lo (x * 2 ^ 10)) in *.
    pose proof (ci_3 _ _ Hlo1) as B1. cbn [bounds1 b_m3] in B1.
    rewrite int_add_in by lia. cbn [mbind option_bind]. rewrite sat16_clamp.
    destruct (aset_upd out o (clamp16 (Z.shiftr (z3 lo1 + 512) 10)) ltac:(lia)) as (o1 & -> & U1).
    cbn [mbind option_bind]. pose proof (u_len _ _ _ _ U1) as Hl1.
    destruct (allpass2_ok up x Hup Hx) as [-> Hup1]. cbn [mbind option_bind].
    set (up1 := allpass_ref kResampleAllpass2 up (x * 2 ^ 10)) in *.
    pose proof (ci_3 _ _ Hup1) as B2. cbn [bounds2 b_m3] in B2.
    rewrite int_add_in by lia. cbn [mbind option_bind]. rewrite sat16_clamp.
    destruct (aset_upd o1 (o + 1) (clamp16 (Z.shiftr (z3 up1 + 512) 10)) ltac:(lia)) as (o2 & -> & U2).
    cbn [mbind option_bind]. pose proof (u_len _ _ _ _ U2) as Hl2. rewrite zlen_cons in Hn.
    destruct (IH (drop (Z.to_nat (i + 1)) inp) (i + 1) o2 (o + 2) lo1 up1)
      as (out' & lo' & up' & os & -> & -> & Hlos & U3 & ? & ?); auto; try lia.
    eexists out', lo', up', _. split_and!; [done|done|rewrite !zlen_cons; lia| |done|done].
    apply (upd_cons out o1); [done|]. apply (upd_cons o1 o2); [done|]. by replace (o + 1 + 1) with (o + 2) by lia.
Qed.

(** C18: from a reset state, or any state an earlier block left, the
    downsampler and the upsampler run over any block of 16-bit samples
    without an overflow: they compute the all-pass filters of exact integer
    arithmetic, store the rounded and saturated outputs and nothing else, and
    leave a state of the same kind.  The state is the filters' whole memory. *)
Theorem resample_by_2_stable (inp out : list Z) (lo up : chain) (ext : list Z) :
  Forall int16 inp -> zlen inp < 2 ^ 31 ->
  (chain_inv bounds2 lo -> chain_inv bounds1 up -> zlen inp / 2 <= zlen out ->
   exists out' lo' up' os, down_ref lo up inp = (os, lo', up') /\
     WebRtcSpl_DownsampleBy2 inp (zlen inp) out (store ext lo up) = Some (out', store ext lo' up') /\
     zlen os = zlen inp / 2 /\ upd out 0 os out' /\ chain_inv bounds2 lo' /\ chain_inv bounds1 up') /\
  (chain_inv bounds1 lo -> chain_inv bounds2 up -> 2 * zlen inp <= zlen out ->
   exists out' lo' up' os, up_ref lo up inp = (os, lo', up') /\
     WebRtcSpl_UpsampleBy2 inp (zlen inp) out (store ext lo up) = Some (out', store ext lo' up') /\
     zlen os = 2 * zlen inp /\ upd out 0 os out' /\ chain_inv bounds1 lo' /\ chain_inv bounds2 up').
Proof.
  intros H16 Hlen. pose proof (zlen_nonneg inp).
  assert (load (store ext lo up) = Some (lo, up)) as Hload by (by destruct lo, up).
  assert (forall a b, store (store ext lo up) a b = store ext a b) as Hstore by done.
  split; intros Hlo Hup Hout.
  - unfold WebRtcSpl_DownsampleBy2. rewrite Hload. cbn [mbind option_bind].
    rewrite Z.shiftr_div_pow2 by lia. change (2 ^ 1) with 2.
    assert (0 <= zlen inp / 2) by (apply Z.div_pos; lia).
    destruct (down_loop_ok inp (Z.to_nat (zlen inp / 2)) inp 0 out 0 lo up)
      as (out' & lo' & up' & os & E & -> & Hos & U & ? & ?); auto; try lia.
    cbn [mbind option_bind]. rewrite Hstore. exists out', lo', up', os. split_and!; auto; lia.
  - unfold WebRtcSpl_UpsampleBy2. rewrite Hload. cbn [mbind option_bind].
    destruct (up_loop_ok inp (Z.to_nat (zlen inp)) inp 0 out 0 lo up)
      as (out' & lo' & up' & os & E & -> & Hos & U & ? & ?); auto; try lia.
    cbn [mbind option_bind]. rewrite Hstore. exists out', lo', up', os. split_and!; auto; lia.
Qed.

Lemma resample_by_2_witness :
  exists out' lo' up' os, down_ref (Chain 0 0 0 0) (Chain 0 0 0 0) [1000; -32768; 32767; 5] = (os, lo', up') /\
    WebRtcSpl_DownsampleBy2 [1000; -32768; 32767; 5] 4 [9; 9; 9] [0; 0; 0; 0; 0; 0; 0; 0] =
      Some (out', store [] lo' up') /\
    zlen os = 2 /\ upd [9; 9; 9] 0 os out' /\ chain_inv bounds2 lo' /\ chain_inv bounds1 up'.
Proof.
  destruct (resample_by_2_stable [1000; -32768; 32767; 5] [9; 9; 9] (Chain 0 0 0 0) (Chain 0 0 0 0) [])
    as [Hdown _]; [repeat constructor; closed|reflexivity|].
  apply Hdown; [apply chain_inv_zero; reflexivity|apply chain_inv_zero; reflexivity|closed].
Defined.

(** Filtering in blocks is filtering the whole signal: blocks of even length
    can be cut anywhere. *)
Lemma down_ref_app (xs : list Z) : forall n lo up ys, length xs = (2 * n)%nat ->
  down_ref lo up (xs ++ ys) =
    let '(o1, lo1, up1) := down_ref lo up xs in
    let '(o2, lo2, up2) := down_ref lo1 up1 ys in (o1 ++ o2, lo2, up2).
Proof.
  enough (forall n xs lo up ys, length xs = (2 * n)%nat ->
    down_ref lo up (xs ++ ys) =
      let '(o1, lo1, up1) := down_ref lo up xs in
      let '(o2, lo2, up2) := down_ref lo1 up1 ys in (o1 ++ o2, lo2, up2)) by eauto.
  clear. induction n as [|n IH]; intros xs lo up ys Hn; (destruct xs as [|x [|y xs]]; cbn [length] in Hn; try lia).
  - cbn [app down_ref]. by destruct (down_ref lo up ys) as [[]].
  - cbn [app down_ref]. rewrite (IH xs) by lia.
    destruct (down_ref _ _ xs) as [[o1 lo1] up1]. by destruct (down_ref lo1 up1 ys) as [[o2 lo2] up2].
Qed.

Lemma up_ref_app (xs : list Z) : forall lo up ys,
  up_ref lo up (xs ++ ys) =
    let '(o1, lo1, up1) := up_ref lo up xs in
    let '(o2, lo2, up2) := up_ref lo1 up1 ys in (o1 ++ o2, lo2, up2).
Proof.
  induction xs as [|x xs IH]; intros lo up ys; cbn [app up_ref].
  - by destruct (up_ref lo up ys) as [[]].
  - rewrite IH. destruct (up_ref _ _ xs) as [[o1 lo1] up1]. by destruct (up_ref lo1 up1 ys) as [[o2 lo2] up2].
Qed.
