(* ===== verification/SplBy2.v ===== *)
(** * Resampling by two in 32-bit precision

    [resample_by_2_internal.c] of
    [src/submodules/libtgvoip/webrtc_dsp/webrtc/common_audio/signal_processing]:
    the decimators, interpolators and lowpass filters the 48 kHz resamplers
    are made of.  Every function runs chains of three all-pass sections over
    the even or odd samples, on samples shifted left by 15 bits.  [None] is an
    overflow of an [int] or an access outside of an array. *)
From S2P Require Import Prelude.
From S2P Require Import Bytes.
From S2P Require Import SplArith.
From S2P Require Import SplVector.
From S2P Require Import SplFilter.
From S2P Require Import SplResample.
From Stdlib Require Import ZArith Lia.
From stdpp Require Import base numbers option list.
Open Scope Z_scope.

Definition kResampleAllpass (row : Z) : Z * Z * Z :=
  if row =? 0 then (821, 6110, 12382) else (3050, 9368, 15063).

(** [diff = tmp - s; diff = (diff + (1 << 13)) >> 14;] *)
Definition scale_round (tmp s : Z) : option Z :=
  diff ← int_add tmp (- s);
  diff ← int_add diff (2 ^ 13);
  Some (Z.shiftr diff 14).

(** [diff = tmp - s; diff = diff >> 14; if (diff < 0) diff += 1;] *)
Definition scale_trunc (tmp s : Z) : option Z :=
  diff ← int_add tmp (- s);
  let diff := Z.shiftr diff 14 in
  Some (if diff <? 0 then diff + 1 else diff).

(** One sample through a chain: [state[0] .. state[3]] and the like. *)
Definition by2_allpass (k : Z * Z * Z) (st : chain) (tmp0 : Z) : option chain :=
  let '(c0, c1, c2) := k in
  diff ← scale_round tmp0 (z1 st);
  p ← int_mul diff c0; tmp1 ← int_add (z0 st) p;
  diff ← scale_trunc tmp1 (z2 st);
  p ← int_mul diff c1; tmp2 ← int_add (z1 st) p;
  diff ← scale_trunc tmp2 (z3 st);
  p ← int_mul diff c2; s3 ← int_add (z2 st) p;
  Some (Chain tmp0 tmp1 tmp2 s3).

(** [for (i = 0; i < len; i++)]: [rd] gives the sample [tmp0], [wr] stores the
    result; [buf] is the array written, [c] is [len - i]. *)
Fixpoint ap_loop (c : nat) (k : Z * Z * Z) (rd : list Z -> Z -> option Z)
    (wr : list Z -> Z -> chain -> option (list Z)) (st : chain) (buf : list Z) (i : Z) : option (chain * list Z) :=
  match c with
  | O => Some (st, buf)
  | S c =>
    tmp0 ← rd buf i;
    st ← by2_allpass k st tmp0;
    buf ← wr buf i st;
    ap_loop c k rd wr st buf (i + 1)
  end.

(** The loop with a delayed sample: [tmp0] is read after the filter. *)
Fixpoint delay_loop (c : nat) (k : Z * Z * Z) (rd : Z -> option Z)
    (wr : list Z -> Z -> chain -> option (list Z)) (st : chain) (tmp0 : Z) (buf : list Z) (i : Z)
  : option (chain * list Z) :=
  match c with
  | O => Some (st, buf)
  | S c =>
    st ← by2_allpass k st tmp0;
    buf ← wr buf i st;
    tmp0 ← rd i;
    delay_loop c k rd wr st tmp0 buf (i + 1)
  end.

(** [((int32_t)in[i] << 15) + (1 << 14)] *)
Definition short_in (inp : list Z) (i : Z) : option Z := x ← aget inp i; int_add (x * 2 ^ 15) (2 ^ 14).

(** The saturation of the [ToShort] functions. *)
Definition saturate (tmp : Z) : Z :=
  let tmp := if 0x7FFF <? tmp then 0x7FFF else tmp in
  if tmp <? -32768 then -32768 else tmp.

(** ** Decimators *)

(** [for (i = 0; i < len; i += 2)] *)
Fixpoint combine_loop (fuel : nat) (inp out : list Z) (i len : Z) : option (list Z) :=
  if len <=? i then Some out
  else
  match fuel with
  | O => None
  | S fuel =>
    a ← aget inp (2 * i); b ← aget inp (2 * i + 1); s ← int_add a b;
    let tmp0 := Z.shiftr s 15 in
    a ← aget inp (2 * i + 2); b ← aget inp (2 * i + 3); s ← int_add a b;
    let tmp1 := Z.shiftr s 15 in
    out ← aset out i (s16 (saturate tmp0));
    out ← aset out (i + 1) (s16 (saturate tmp1));
    combine_loop fuel inp out (i + 2) len
  end.

(** The input is overwritten: the result is [in], [out] and [state]. *)
Definition WebRtcSpl_DownBy2IntToShort (inp : list Z) (len : Z) (out state : list Z)
  : option (list Z * list Z * list Z) :=
  let len := Z.shiftr len 1 in
  '(lo, up) ← load state;
  '(lo, inp) ← ap_loop (Z.to_nat len) (kResampleAllpass 1) (fun buf i => aget buf (2 * i))
                 (fun buf i st => aset buf (2 * i) (Z.shiftr (z3 st) 1)) lo inp 0;
  '(up, inp) ← ap_loop (Z.to_nat len) (kResampleAllpass 0) (fun buf i => aget buf (1 + 2 * i))
                 (fun buf i st => aset buf (1 + 2 * i) (Z.shiftr (z3 st) 1)) up inp 0;
  out ← combine_loop (Z.to_nat len) inp out 0 len;
  Some (inp, out, store state lo up).

Definition WebRtcSpl_DownBy2ShortToInt (inp : list Z) (len : Z) (out state : list Z) : option (list Z * list Z) :=
  let len := Z.shiftr len 1 in
  '(lo, up) ← load state;
  '(lo, out) ← ap_loop (Z.to_nat len) (kResampleAllpass 1) (fun _ i => short_in inp (2 * i))
                 (fun buf i st => aset buf i (Z.shiftr (z3 st) 1)) lo out 0;
  '(up, out) ← ap_loop (Z.to_nat len) (kResampleAllpass 0) (fun _ i => short_in inp (1 + 2 * i))
                 (fun buf i st => y ← aget buf i; s ← int_add y (Z.shiftr (z3 st) 1); aset buf i s) up out 0;
  Some (out, store state lo up).

(** ** Interpolators *)

(** The common form: [rd] reads the input, [fin] scales the output. *)
Definition up_by_2 (rd : Z -> option Z) (fin : Z -> Z) (len : Z) (out state : list Z) : option (list Z * list Z) :=
  '(lo, up) ← load state;
  '(up, out) ← ap_loop (Z.to_nat len) (kResampleAllpass 0) (fun _ i => rd i)
                 (fun buf i st => aset buf (2 * i) (fin (z3 st))) up out 0;
  '(lo, out) ← ap_loop (Z.to_nat len) (kResampleAllpass 1) (fun _ i => rd i)
                 (fun buf i st => aset buf (1 + 2 * i) (fin (z3 st))) lo out 0;
  Some (out, store state lo up).

Definition WebRtcSpl_UpBy2ShortToInt (inp : list Z) (len : Z) (out state : list Z) : option (list Z * list Z) :=
  up_by_2 (short_in inp) (fun s => Z.shiftr s 15) len out state.
Definition WebRtcSpl_UpBy2IntToInt (inp : list Z) (len : Z) (out state : list Z) : option (list Z * list Z) :=
  up_by_2 (aget inp) (fun s => s) len out state.
Definition WebRtcSpl_UpBy2IntToShort (inp : list Z) (len : Z) (out state : list Z) : option (list Z * list Z) :=
  up_by_2 (aget inp) (fun s => s16 (saturate (Z.shiftr s 15))) len out state.

(** ** Lowpass filters *)

(** The sixteen cells of the state: four chains. *)
Definition load16 (state : list Z) : option (chain * chain * chain * chain) :=
  '(a, b) ← load state;
  '(c, d) ← load (drop 8 state);
  Some (a, b, c, d).
Definition store16 (state : list Z) (a b c d : chain) : list Z := 
  take 8 (store state a b) ++ store (drop 8 state) c d.

Definition lp_by_2 (rd : Z -> option Z) (len : Z) (out state : list Z) : option (list Z * list Z) :=
  let len := Z.shiftr len 1 in
  '(a, b, c, d) ← load16 state;
  '(a, out) ← delay_loop (Z.to_nat len) (kResampleAllpass 1) (fun i => rd (1 + 2 * i))
                (fun buf i st => aset buf (2 * i) (Z.shiftr (z3 st) 1)) a (z0 d) out 0;
  '(b, out) ← ap_loop (Z.to_nat len) (kResampleAllpass 0) (fun _ i => rd (2 * i))
                (fun buf i st => y ← aget buf (2 * i); s ← int_add y (Z.shiftr (z3 st) 1);
                                 aset buf (2 * i) (Z.shiftr s 15)) b out 0;
  '(c, out) ← ap_loop (Z.to_nat len) (kResampleAllpass 1) (fun _ i => rd (2 * i))
                (fun buf i st => aset buf (1 + 2 * i) (Z.shiftr (z3 st) 1)) c out 0;
  '(d, out) ← ap_loop (Z.to_nat len) (kResampleAllpass 0) (fun _ i => rd (1 + 2 * i))
                (fun buf i st => y ← aget buf (1 + 2 * i); s ← int_add y (Z.shiftr (z3 st) 1);
                                 aset buf (1 + 2 * i) (Z.shiftr s 15)) d out 0;
  Some (out, store16 state a b c d).

Definition WebRtcSpl_LPBy2ShortToInt (inp : list Z) (len : Z) (out state : list Z) : option (list Z * list Z) :=
  lp_by_2 (short_in inp) len out state.
Definition WebRtcSpl_LPBy2IntToInt (inp : list Z) (len : Z) (out state : list Z) : option (list Z * list Z) :=
  lp_by_2 (aget inp) len out state.

(** ** Exact arithmetic *)

Definition round14 (d : Z) : Z := (d + 2 ^ 13) / 2 ^ 14.
Definition trunc14 (d : Z) : Z := if d / 2 ^ 14 <? 0 then d / 2 ^ 14 + 1 else d / 2 ^ 14.

Definition by2_ref (k : Z * Z * Z) (st : chain) (x : Z) : chain :=
  let '(c0, c1, c2) := k in
  let t1 := z0 st + round14 (x - z1 st) * c0 in
  let t2 := z1 st + trunc14 (t1 - z2 st) * c1 in
  Chain x t1 t2 (z2 st + trunc14 (t2 - z3 st) * c2).

(** The chain after the first [n] of the samples [x]. *)
Fixpoint chain_at (k : Z * Z * Z) (st : chain) (x : Z -> Z) (n : nat) : chain :=
  match n with O => st | S n => by2_ref k (chain_at k st x n) (x (Z.of_nat n)) end.

Lemma round14_err (d : Z) : - 16384 <= 16384 * round14 d - d <= 16384.
Proof.
  unfold round14. change (2 ^ 13) with 8192. change (2 ^ 14) with 16384.
  pose proof (Z.div_mod (d + 8192) 16384 ltac:(lia)). pose proof (Z.mod_pos_bound (d + 8192) 16384 ltac:(lia)). lia.
Qed.
Lemma trunc14_err (d : Z) : - 16384 <= 16384 * trunc14 d - d <= 16384.
Proof.
  unfold trunc14. change (2 ^ 14) with 16384.
  pose proof (Z.div_mod d 16384 ltac:(lia)). pose proof (Z.mod_pos_bound d 16384 ltac:(lia)).
  destruct (Z.ltb_spec (d / 16384) 0); lia.
Qed.

(** ** Stability

    As for the sections of [SplResample], with 14 fractional bits: the
    memory [16384 * s0 - c * s1] of a section stays bounded. *)
Record sec14 (c M e s0 s1 : Z) : Prop := {
  s14_in : - M <= s0 <= M;
  s14_mem : - ((16384 + c) * M + e) <= 16384 * s0 - c * s1 <= (16384 + c) * M + e
}.

Definition sec14_okb (c M e M' : Z) : bool :=
  (0 <? c) && (c <? 16384) && (16384 * c * c <=? (16384 - c) * e) && ((16384 + 2 * c) * M + e + 16384 * c <=? 16384 * M') &&
  (0 <=? M) && (M + M' + 8192 <? 2 ^ 31).

Lemma sec14_ok (c M e M' x s0 s1 q : Z) : sec14_okb c M e M' = true -> - M <= x <= M -> sec14 c M e s0 s1 ->
  - 16384 <= 16384 * q - (x - s1) <= 16384 ->
  - M' <= s0 + q * c <= M' /\ sec14 c M e x (s0 + q * c).
Proof.
  intros Hok Hx [H0 HW] Hq. unfold sec14_okb in Hok. rewrite !andb_true_iff, !Z.leb_le, !Z.ltb_lt in Hok.
  destruct Hok as [[[[[Hc0 Hc1] He] HM'] HM] _]. set (W := 16384 * s0 - c * s1) in *.
  set (r := c * (16384 * q - (x - s1))).
  assert (- (16384 * c) <= r <= 16384 * c) as Hr by (unfold r; nia).
  assert (16384 * (s0 + q * c) = W + c * x + r) as Hy by (unfold W, r; lia).
  assert (- (c * M) <= c * x <= c * M) as Hcx by nia.
  split; [lia|]. split; [done|].
  assert (16384 * (16384 * x - c * (s0 + q * c)) = (16384 * 16384 - c * c) * x - c * W - c * r) as E.
  { replace (16384 * (16384 * x - c * (s0 + q * c))) with (16384 * 16384 * x - c * (16384 * (s0 + q * c))) by lia.
    rewrite Hy. lia. }
  assert (- ((16384 * 16384 - c * c) * M) <= (16384 * 16384 - c * c) * x <= (16384 * 16384 - c * c) * M) by nia.
  assert (- (c * ((16384 + c) * M + e)) <= c * W <= c * ((16384 + c) * M + e)) by nia.
  assert (- (16384 * c * c) <= c * r <= 16384 * c * c) by nia. lia.
Qed.

Definition by2_okb (b : bounds) : bool :=
  sec14_okb (b_c0 b) (b_m0 b) (b_e0 b) (b_m1 b) && sec14_okb (b_c1 b) (b_m1 b) (b_e1 b) (b_m2 b) &&
  sec14_okb (b_c2 b) (b_m2 b) (b_e2 b) (b_m3 b).

Record by2_inv (b : bounds) (st : chain) : Prop := {
  bi_0 : sec14 (b_c0 b) (b_m0 b) (b_e0 b) (z0 st) (z1 st);
  bi_1 : sec14 (b_c1 b) (b_m1 b) (b_e1 b) (z1 st) (z2 st);
  bi_2 : sec14 (b_c2 b) (b_m2 b) (b_e2 b) (z2 st) (z3 st);
  bi_3 : - b_m3 b <= z3 st <= b_m3 b
}.

Lemma scale_ok (x s : Z) : - (2 ^ 31 - 8192) <= x - s <= 2 ^ 31 - 8193 ->
  scale_round x s = Some (round14 (x - s)) /\ scale_trunc x s = Some (trunc14 (x - s)).
Proof.
  intros H. unfold scale_round, scale_trunc. rewrite int_add_in by lia. cbn [mbind option_bind]. rewrite Z.add_opp_r.
  rewrite int_add_in by lia. cbn [mbind option_bind]. rewrite !Z.shiftr_div_pow2 by lia. done.
Qed.

(** One section in the machine's arithmetic. *)
Lemma sec14_step (c M e M' x s0 s1 q : Z) (A : Type) (K : Z -> option A) : sec14_okb c M e M' = true ->
  - M <= x <= M -> sec14 c M e s0 s1 -> - M' <= s1 <= M' -> - 16384 <= 16384 * q - (x - s1) <= 16384 ->
  (p ← int_mul q c; t ← int_add s0 p; K t) = K (s0 + q * c) /\
  - M' <= s0 + q * c <= M' /\ sec14 c M e x (s0 + q * c).
Proof.
  intros Hok Hx Hinv Hs1 Hq. destruct (sec14_ok c M e M' x s0 s1 q Hok Hx Hinv Hq) as [Hy Hinv'].
  split; [|done]. unfold sec14_okb in Hok. rewrite !andb_true_iff, !Z.leb_le, !Z.ltb_lt in Hok.
  destruct Hok as [[[[[Hc0 Hc1] _] _] _] Hsum]. destruct Hinv as [Hs0 _].
  assert (- 131073 <= q <= 131073) by lia.
  rewrite int_mul_in by nia. cbn [mbind option_bind]. rewrite int_add_in by lia. done.
Qed.

Lemma by2_allpass_ok (b : bounds) (st : chain) (x : Z) : by2_okb b = true -> by2_inv b st -> - b_m0 b <= x <= b_m0 b ->
  let k := (b_c0 b, b_c1 b, b_c2 b) in by2_allpass k st x = Some (by2_ref k st x) /\ by2_inv b (by2_ref k st x).
Proof.
  intros Hok [H0 H1 H2 H3] Hx. unfold by2_okb in Hok. rewrite !andb_true_iff in Hok. destruct Hok as [[O0 O1] O2].
  assert (forall c M e M' t s, sec14_okb c M e M' = true -> - M <= t <= M -> - M' <= s <= M' ->
    scale_round t s = Some (round14 (t - s)) /\ scale_trunc t s = Some (trunc14 (t - s))) as Hsc.
  { intros c M e M' t s Hok Ht Hs. unfold sec14_okb in Hok. rewrite !andb_true_iff, !Z.ltb_lt in Hok. apply scale_ok. lia. }
  cbv zeta. unfold by2_allpass, by2_ref.
  destruct (Hsc _ _ _ _ x (z1 st) O0 Hx (s14_in _ _ _ _ _ H1)) as [-> _]. cbn [mbind option_bind].
  destruct (sec14_step _ _ _ _ x (z0 st) (z1 st) (round14 (x - z1 st)) chain (fun tmp1 =>
    diff ← scale_trunc tmp1 (z2 st); p ← int_mul diff (b_c1 b); tmp2 ← int_add (z1 st) p;
    diff ← scale_trunc tmp2 (z3 st); p ← int_mul diff (b_c2 b); s3 ← int_add (z2 st) p;
    Some (Chain x tmp1 tmp2 s3)) O0 Hx H0 (s14_in _ _ _ _ _ H1) (round14_err _)) as (-> & Hy1 & I1).
  set (t1 := z0 st + round14 (x - z1 st) * b_c0 b) in *.
  destruct (Hsc _ _ _ _ t1 (z2 st) O1 Hy1 (s14_in _ _ _ _ _ H2)) as [_ ->]. cbn [mbind option_bind].
  destruct (sec14_step _ _ _ _ t1 (z1 st) (z2 st) (trunc14 (t1 - z2 st)) chain (fun tmp2 =>
    diff ← scale_trunc tmp2 (z3 st); p ← int_mul diff (b_c2 b); s3 ← int_add (z2 st) p;
    Some (Chain x t1 tmp2 s3)) O1 Hy1 H1 (s14_in _ _ _ _ _ H2) (trunc14_err _)) as (-> & Hy2 & I2).
  set (t2 := z1 st + trunc14 (t1 - z2 st) * b_c1 b) in *.
  destruct (Hsc _ _ _ _ t2 (z3 st) O2 Hy2 H3) as [_ ->]. cbn [mbind option_bind].
  destruct (sec14_step _ _ _ _ t2 (z2 st) (z3 st) (trunc14 (t2 - z3 st)) chain (fun s3 => Some (Chain x t1 t2 s3))
    O2 Hy2 H2 H3 (trunc14_err _)) as (-> & Hy3 & I3).
  split; [done|]. split; done.
Qed.

(** The bounds of the two chains for inputs up to [5802 << 15]. *)
Definition bounds_up : bounds := Bounds 821 190136320 709599 6110 209192595 59533690 12382 365228554 627660003 917312932.
Definition bounds_lo : bounds := Bounds 3050 190136320 11430341 9368 260930568 204938769 15063 559340819 2814103549 1588012842.

Definition row_bounds (row : Z) : bounds := if row =? 0 then bounds_up else bounds_lo.

Lemma row_ok (row : Z) : by2_okb (row_bounds row) = true /\
  kResampleAllpass row = (b_c0 (row_bounds row), b_c1 (row_bounds row), b_c2 (row_bounds row)) /\
  b_m0 (row_bounds row) = 190136320 /\ b_m3 (row_bounds row) < 2 ^ 31 - 65536.
Proof. unfold row_bounds, kResampleAllpass. destruct (row =? 0); vm_compute; intuition congruence. Qed.

(** ** The loops *)

Section Loop.
Variables (row : Z) (x : Z -> Z) (n : nat) (st0 : chain).
Let k := kResampleAllpass row.
Let b := row_bounds row.
Hypothesis Hst : by2_inv b st0.
Hypothesis Hx : forall i, 0 <= i < Z.of_nat n -> - 190136320 <= x i <= 190136320.

Lemma chain_at_ok (i : nat) : (i < n)%nat ->
  by2_allpass k (chain_at k st0 x i) (x (Z.of_nat i)) = Some (chain_at k st0 x (S i)) /\
  by2_inv b (chain_at k st0 x i) /\ by2_inv b (chain_at k st0 x (S i)).
Proof.
  destruct (row_ok row) as (Hok & Hk & Hm & _). induction i as [|i IH]; intros Hi.
  - destruct (by2_allpass_ok b st0 (x (Z.of_nat 0)) Hok Hst) as [E I]; [fold b in Hm; rewrite Hm; apply Hx; lia|].
    fold b in Hk. rewrite <- Hk in E, I. done.
  - destruct IH as (_ & _ & I); [lia|].
    destruct (by2_allpass_ok b (chain_at k st0 x (S i)) (x (Z.of_nat (S i))) Hok I) as [E I'];
      [fold b in Hm; rewrite Hm; apply Hx; lia|].
    fold b in Hk. rewrite <- Hk in E, I'. done.
Qed.

Lemma chain_at_inv (i : nat) : (i <= n)%nat -> by2_inv b (chain_at k st0 x i).
Proof. intros Hi. destruct i as [|i]; [done|]. by apply (chain_at_ok i). Qed.

Variables (rd : list Z -> Z -> option Z) (wr : list Z -> Z -> chain -> option (list Z)) (P : Z -> list Z -> Prop).
Hypothesis Hrd : forall (i : nat) buf, (i < n)%nat -> P (Z.of_nat i) buf -> rd buf (Z.of_nat i) = Some (x (Z.of_nat i)).
Hypothesis Hwr : forall (i : nat) buf, (i < n)%nat -> P (Z.of_nat i) buf ->
  exists buf', wr buf (Z.of_nat i) (chain_at k st0 x (S i)) = Some buf' /\ P (Z.of_nat (S i)) buf'.

Lemma ap_loop_ok (c : nat) : forall i buf, (i + c = n)%nat -> P (Z.of_nat i) buf ->
  exists buf', ap_loop c k rd wr (chain_at k st0 x i) buf (Z.of_nat i) = Some (chain_at k st0 x n, buf') /\ P (Z.of_nat n) buf'.
Proof.
  induction c as [|c IH]; intros i buf Hi HP; cbn [ap_loop].
  - assert (i = n) as -> by lia. by exists buf.
  - rewrite (Hrd i buf) by (done || lia). cbn [mbind option_bind].
    destruct (chain_at_ok i) as [-> _]; [lia|]. cbn [mbind option_bind].
    destruct (Hwr i buf) as (buf' & -> & HP'); [lia|done|]. cbn [mbind option_bind].
    replace (Z.of_nat i + 1) with (Z.of_nat (S i)) by lia. apply IH; [lia|done].
Qed.
End Loop.

(** ** Filling an array *)

(** [buf] is [buf0] with [val m] at [pos m] for the [m] below [i]. *)
Record filled (buf0 : list Z) (pos val : Z -> Z) (i : Z) (buf : list Z) : Prop := {
  fl_len : zlen buf = zlen buf0;
  fl_new : forall m, 0 <= m < i -> zn buf (pos m) = val m;
  fl_old : forall j, 0 <= j -> (forall m, 0 <= m < i -> j <> pos m) -> zn buf j = zn buf0 j
}.

Section Fill.
Variables (buf0 : list Z) (pos val : Z -> Z) (n : Z).
Hypothesis Hpos : forall m, 0 <= m < n -> 0 <= pos m < zlen buf0.
Hypothesis Hinj : forall m i, 0 <= m < i -> i < n -> pos m <> pos i.

Lemma filled_0 : filled buf0 pos val 0 buf0.
Proof. split; [done|lia|done]. Qed.

Lemma filled_step (i : Z) (buf : list Z) : 0 <= i < n -> filled buf0 pos val i buf ->
  aget buf (pos i) = Some (zn buf0 (pos i)) /\
  exists buf', aset buf (pos i) (val i) = Some buf' /\ filled buf0 pos val (i + 1) buf'.
Proof.
  intros Hi [Hl Hnew Hold]. pose proof (Hpos i Hi) as Hp. split.
  - rewrite aget_in by lia. f_equal. apply Hold; [lia|]. intros m Hm E. symmetry in E. revert E. apply Hinj; lia.
  - rewrite aset_in by lia. eexists. split; [done|]. split.
    + by rewrite zlen_zset.
    + intros m Hm. destruct (decide (m = i)) as [->|]; [by rewrite zn_zset_eq by lia|].
      rewrite zn_zset_ne; [apply Hnew; lia|lia|]. apply not_eq_sym, Hinj; lia.
    + intros j Hj Hne. rewrite zn_zset_ne; [|lia|apply not_eq_sym, Hne; lia]. apply Hold; [done|]. intros m Hm. apply Hne. lia.
Qed.
End Fill.

(** Sample [i] of a chain's output. *)
Definition tap (row : Z) (st : chain) (x : Z -> Z) (i : Z) : Z :=
  z3 (chain_at (kResampleAllpass row) st x (S (Z.to_nat i))).

Lemma tap_at (row : Z) (st : chain) (x : Z -> Z) (i : nat) :
  z3 (chain_at (kResampleAllpass row) st x (S i)) = tap row st x (Z.of_nat i).
Proof. unfold tap. by rewrite Nat2Z.id. Qed.

(** A loop that stores [f] of each output at [pos]. *)
Lemma fill_loop (row : Z) (x : Z -> Z) (n : nat) (st : chain) (buf : list Z) (pos : Z -> Z) (f : Z -> Z -> Z)
    (rd : list Z -> Z -> option Z) (wr : list Z -> Z -> chain -> option (list Z)) :
  by2_inv (row_bounds row) st -> (forall i, 0 <= i < Z.of_nat n -> - 190136320 <= x i <= 190136320) ->
  (forall m, 0 <= m < Z.of_nat n -> 0 <= pos m < zlen buf) ->
  (forall m i, 0 <= m < i -> i < Z.of_nat n -> pos m <> pos i) ->
  let val i := f (zn buf (pos i)) (tap row st x i) in
  (forall i b, 0 <= i < Z.of_nat n -> filled buf pos val i b -> rd b i = Some (x i)) ->
  (forall i b s, 0 <= i < Z.of_nat n -> - b_m3 (row_bounds row) <= z3 s <= b_m3 (row_bounds row) ->
    aget b (pos i) = Some (zn buf (pos i)) -> wr b i s = aset b (pos i) (f (zn buf (pos i)) (z3 s))) ->
  exists buf', ap_loop n (kResampleAllpass row) rd wr st buf 0 = Some (chain_at (kResampleAllpass row) st x n, buf') /\
    filled buf pos val (Z.of_nat n) buf' /\ by2_inv (row_bounds row) (chain_at (kResampleAllpass row) st x n).
Proof.
  intros Hst Hx Hpos Hinj val Hrd Hwr.
  destruct (ap_loop_ok row x n st Hst Hx rd wr (filled buf pos val)) with (c := n) (i := 0%nat) (buf := buf)
    as (buf' & E & HP); auto.
  - intros i b Hi HP. apply Hrd; [lia|done].
  - intros i b Hi HP. destruct (filled_step buf pos val (Z.of_nat n) Hpos Hinj (Z.of_nat i) b ltac:(lia) HP) as [Hg (b' & Eb & HP')].
    exists b'. rewrite Hwr; [|lia| |done].
    + unfold val in Eb. rewrite <- tap_at in Eb. rewrite Eb. split; [done|]. by replace (Z.of_nat (S i)) with (Z.of_nat i + 1) by lia.
    + apply (chain_at_inv row x n st Hst Hx (S i)). lia.
  - apply filled_0.
  - exists buf'. split_and!; auto. by apply (chain_at_inv row x n st Hst Hx n).
Qed.

(** The two chains of a state of eight cells, within their bounds. *)
Definition by2_state (state : list Z) (lo up : chain) : Prop :=
  load state = Some (lo, up) /\ by2_inv bounds_lo lo /\ by2_inv bounds_up up.

Lemma store_state (state : list Z) (lo up lo' up' : chain) : by2_state state lo up -> by2_inv bounds_lo lo' ->
  by2_inv bounds_up up' -> by2_state (store state lo' up') lo' up'.
Proof. intros _ H1 H2. split_and!; auto. by destruct lo', up'. Qed.

(** The samples of an array, shifted. *)
Definition short_x (inp : list Z) (i : Z) : Z := zn inp i * 2 ^ 15 + 2 ^ 14.

Lemma short_in_ok (inp : list Z) (i : Z) : 0 <= i < zlen inp -> Z.abs (zn inp i) <= 5802 ->
  short_in inp i = Some (short_x inp i) /\ - 190136320 <= short_x inp i <= 190136320.
Proof.
  intros Hi Ha. unfold short_in, short_x. rewrite aget_in by done. cbn [mbind option_bind]. rewrite int_add_in by lia.
  split; [done|]. change (2 ^ 15) with 32768. change (2 ^ 14) with 16384. lia.
Qed.

Lemma tap_bound (row : Z) (x : Z -> Z) (n i : Z) (st : chain) : by2_inv (row_bounds row) st ->
  (forall i, 0 <= i < n -> - 190136320 <= x i <= 190136320) -> 0 <= i < n ->
  - b_m3 (row_bounds row) <= tap row st x i <= b_m3 (row_bounds row).
Proof.
  intros Hst Hx Hi. apply (chain_at_inv row x (Z.to_nat n) st Hst); [|lia]. intros j Hj. apply Hx. lia.
Qed.

(** The sum of two halved outputs is an [int]. *)
Lemma half_sum_in (a b : Z) : - b_m3 bounds_lo <= a <= b_m3 bounds_lo -> - b_m3 bounds_up <= b <= b_m3 bounds_up ->
  int_add (Z.shiftr a 1) (Z.shiftr b 1) = Some (Z.shiftr a 1 + Z.shiftr b 1).
Proof.
  intros Ha Hb. cbn [bounds_lo bounds_up b_m3] in *. rewrite !Z.shiftr_div_pow2 by lia. change (2 ^ 1) with 2.
  pose proof (Z.div_mod a 2 ltac:(lia)). pose proof (Z.mod_pos_bound a 2 ltac:(lia)).
  pose proof (Z.div_mod b 2 ltac:(lia)). pose proof (Z.mod_pos_bound b 2 ltac:(lia)). apply int_add_in. lia.
Qed.

(** ** Interpolation *)

Lemma up_by_2_ok (rd : Z -> option Z) (x : Z -> Z) (fin : Z -> Z) (n : nat) (out state : list Z) (lo up : chain) :
  by2_state state lo up -> 2 * Z.of_nat n <= zlen out ->
  (forall i, 0 <= i < Z.of_nat n -> rd i = Some (x i) /\ - 190136320 <= x i <= 190136320) ->
  exists out' lo' up', up_by_2 rd fin (Z.of_nat n) out state = Some (out', store state lo' up') /\
    zlen out' = zlen out /\ by2_state (store state lo' up') lo' up' /\
    (forall i, 0 <= i < Z.of_nat n -> zn out' (2 * i) = fin (tap 0 up x i) /\ zn out' (1 + 2 * i) = fin (tap 1 lo x i)) /\
    (forall j, 2 * Z.of_nat n <= j -> zn out' j = zn out j).
Proof.
  intros Hst Hout Hrd. destruct Hst as (Hload & Hlo & Hup) eqn:E0. unfold up_by_2. rewrite Hload. cbn [mbind option_bind].
  rewrite Nat2Z.id.
  destruct (fill_loop 0 x n up out (fun i => 2 * i) (fun _ s => fin s) (fun _ i => rd i)
    (fun buf i st => aset buf (2 * i) (fin (z3 st)))) as (o1 & -> & F1 & I1); auto; try lia.
  { intros i Hi. by apply Hrd. }
  { intros i b' Hi _. by apply Hrd. }
  cbn [mbind option_bind]. pose proof (fl_len _ _ _ _ _ F1) as Hl1.
  destruct (fill_loop 1 x n lo o1 (fun i => 1 + 2 * i) (fun _ s => fin s) (fun _ i => rd i)
    (fun buf i st => aset buf (1 + 2 * i) (fin (z3 st)))) as (o2 & -> & F2 & I2); auto; try lia.
  { intros i Hi. by apply Hrd. }
  { intros i b' Hi _. by apply Hrd. }
  cbn [mbind option_bind]. eexists o2, _, _. split; [done|]. pose proof (fl_len _ _ _ _ _ F2) as Hl2.
  split; [lia|]. split; [by apply (store_state _ lo up)|]. split.
  - intros i Hi. split; [|by apply F2]. rewrite (fl_old _ _ _ _ _ F2) by lia. by apply F1.
  - intros j Hj. rewrite (fl_old _ _ _ _ _ F2), (fl_old _ _ _ _ _ F1) by lia. done.
Qed.

(** ** Decimation *)

Lemma down_short_to_int_ok (inp : list Z) (n : nat) (out state : list Z) (lo up : chain) :
  by2_state state lo up -> 2 * Z.of_nat n <= zlen inp < 2 * Z.of_nat n + 2 -> Z.of_nat n <= zlen out ->
  (forall i, 0 <= i < zlen inp -> Z.abs (zn inp i) <= 5802) ->
  exists out' lo' up', WebRtcSpl_DownBy2ShortToInt inp (zlen inp) out state = Some (out', store state lo' up') /\
    zlen out' = zlen out /\ by2_state (store state lo' up') lo' up' /\
    (forall i, 0 <= i < Z.of_nat n -> zn out' i =
      Z.shiftr (tap 1 lo (fun i => short_x inp (2 * i)) i) 1 + Z.shiftr (tap 0 up (fun i => short_x inp (1 + 2 * i)) i) 1) /\
    (forall j, Z.of_nat n <= j -> zn out' j = zn out j).
Proof.
  intros Hst Hlen Hout Hx. destruct Hst as (Hload & Hlo & Hup) eqn:E0. unfold WebRtcSpl_DownBy2ShortToInt.
  assert (Z.shiftr (zlen inp) 1 = Z.of_nat n) as ->.
  { rewrite Z.shiftr_div_pow2 by lia. change (2 ^ 1) with 2. symmetry. apply (Z.div_unique _ _ _ (zlen inp - 2 * Z.of_nat n)); lia. }
  cbv zeta. rewrite Hload. cbn [mbind option_bind]. rewrite Nat2Z.id.
  assert (forall j, 0 <= j < 2 * Z.of_nat n -> short_in inp j = Some (short_x inp j) /\ - 190136320 <= short_x inp j <= 190136320) as Hin.
  { intros j Hj. apply short_in_ok; [lia|apply Hx; lia]. }
  destruct (fill_loop 1 (fun i => short_x inp (2 * i)) n lo out (fun i => i) (fun _ s => Z.shiftr s 1) (fun _ i => short_in inp (2 * i))
    (fun buf i st => aset buf i (Z.shiftr (z3 st) 1))) as (o1 & -> & F1 & I1); auto; try lia.
  { intros i Hi. apply Hin. lia. }
  { intros i b' Hi _. apply Hin. lia. }
  cbn [mbind option_bind]. pose proof (fl_len _ _ _ _ _ F1) as Hl1.
  destruct (fill_loop 0 (fun i => short_x inp (1 + 2 * i)) n up o1 (fun i => i) (fun y s => y + Z.shiftr s 1)
    (fun _ i => short_in inp (1 + 2 * i))
    (fun buf i st => y ← aget buf i; s ← int_add y (Z.shiftr (z3 st) 1); aset buf i s)) as (o2 & -> & F2 & I2); auto; try lia.
  { intros i Hi. apply Hin. lia. }
  { intros i b' Hi _. apply Hin. lia. }
  { intros i b' s Hi Hz ->. cbn [mbind option_bind]. rewrite (fl_new _ _ _ _ _ F1) by lia.
    rewrite half_sum_in; [done| |done]. apply (tap_bound 1 _ (Z.of_nat n)); auto. intros j Hj. apply Hin. lia. }
  cbn [mbind option_bind]. eexists o2, _, _. split; [done|]. pose proof (fl_len _ _ _ _ _ F2) as Hl2.
  split; [lia|]. split; [by apply (store_state _ lo up)|]. split.
  - intros i Hi. rewrite (fl_new _ _ _ _ _ F2), (fl_new _ _ _ _ _ F1) by lia. done.
  - intros j Hj. rewrite (fl_old _ _ _ _ _ F2), (fl_old _ _ _ _ _ F1) by lia. done.
Qed.

Lemma saturate_clamp (x : Z) : s16 (saturate x) = clamp16 x.
Proof.
  unfold saturate, clamp16. rewrite swrap_small; [|lia|].
  - destruct (Z.ltb_spec 0x7FFF x); [rewrite (proj2 (Z.ltb_ge _ _)) by lia|destruct (Z.ltb_spec x (-32768))]; lia.
  - change (2 ^ (16 - 1)) with 32768.
    destruct (Z.ltb_spec 0x7FFF x); [rewrite (proj2 (Z.ltb_ge _ _)) by lia|destruct (Z.ltb_spec x (-32768))]; lia.
Qed.

Lemma combine_loop_ok (inp : list Z) (v : Z -> Z) (len : Z) (fuel : nat) : forall (out : list Z) (i : Z),
  0 <= i <= len -> (exists d, len - i = 2 * d) -> len - i <= Z.of_nat fuel -> 2 * len <= zlen inp -> len <= zlen out ->
  (forall j, 0 <= j < len -> int_add (zn inp (2 * j)) (zn inp (2 * j + 1)) = Some (v j)) ->
  exists out', combine_loop fuel inp out i len = Some out' /\ zlen out' = zlen out /\
    forall j, 0 <= j -> zn out' j = if (i <=? j) && (j <? len) then clamp16 (Z.shiftr (v j) 15) else zn out j.
Proof.
  induction fuel as [|fuel IH]; intros out i Hi Hd Hf Hin Hout Hv; cbn [combine_loop].
  all: destruct (Z.leb_spec len i); [|try lia].
  1,2: exists out; split_and!; auto; intros j Hj; destruct (Z.leb_spec i j), (Z.ltb_spec j len); cbn [andb]; done || lia.
  destruct Hd as [d Hd]. rewrite !(aget_in inp) by lia. cbn [mbind option_bind].
  rewrite (Hv i) by lia. cbn [mbind option_bind].
  replace (2 * i + 2) with (2 * (i + 1)) by lia. replace (2 * i + 3) with (2 * (i + 1) + 1) by lia.
  rewrite (Hv (i + 1)) by lia. cbn [mbind option_bind]. rewrite !saturate_clamp.
  rewrite aset_in by lia. cbn [mbind option_bind]. rewrite aset_in by (rewrite zlen_zset; lia). cbn [mbind option_bind].
  destruct (IH (zset (zset out i (clamp16 (Z.shiftr (v i) 15))) (i + 1) (clamp16 (Z.shiftr (v (i + 1)) 15))) (i + 2))
    as (out' & -> & Hl & Hj); rewrite ?zlen_zset in *; try lia; auto.
  { exists (d - 1). lia. }
  exists out'. split_and!; auto. intros j Hj0. rewrite Hj by done.
  destruct (Z.leb_spec i j), (Z.leb_spec (i + 2) j), (Z.ltb_spec j len); cbn [andb]; try lia; try done;
    try (by rewrite !zn_zset_ne by lia).
  assert (j = i \/ j = i + 1) as [-> | ->] by lia.
  - by rewrite zn_zset_ne, zn_zset_eq by lia.
  - by rewrite zn_zset_eq by (rewrite zlen_zset; lia).
Qed.

Lemma down_int_to_short_ok (inp : list Z) (n : nat) (out state : list Z) (lo up : chain) :
  by2_state state lo up -> zlen inp = 4 * Z.of_nat n -> 2 * Z.of_nat n <= zlen out ->
  (forall i, 0 <= i < zlen inp -> - 190136320 <= zn inp i <= 190136320) ->
  exists inp' out' lo' up', WebRtcSpl_DownBy2IntToShort inp (zlen inp) out state = Some (inp', out', store state lo' up') /\
    zlen out' = zlen out /\ by2_state (store state lo' up') lo' up' /\
    (forall i, 0 <= i < 2 * Z.of_nat n -> zn out' i = clamp16 (Z.shiftr
      (Z.shiftr (tap 1 lo (fun i => zn inp (2 * i)) i) 1 + Z.shiftr (tap 0 up (fun i => zn inp (1 + 2 * i)) i) 1) 15)) /\
    (forall j, 2 * Z.of_nat n <= j -> zn out' j = zn out j).
Proof.
  intros Hst Hlen Hout Hx. destruct Hst as (Hload & Hlo & Hup) eqn:E0. unfold WebRtcSpl_DownBy2IntToShort.
  assert (Z.shiftr (zlen inp) 1 = Z.of_nat (2 * n)) as ->.
  { rewrite Z.shiftr_div_pow2 by lia. change (2 ^ 1) with 2. symmetry. apply (Z.div_unique _ _ _ 0); lia. }
  cbv zeta. rewrite Hload. cbn [mbind option_bind]. rewrite Nat2Z.id. set (N := (2 * n)%nat) in *.
  destruct (fill_loop 1 (fun i => zn inp (2 * i)) N lo inp (fun i => 2 * i) (fun _ s => Z.shiftr s 1) (fun buf i => aget buf (2 * i))
    (fun buf i st => aset buf (2 * i) (Z.shiftr (z3 st) 1))) as (i1 & -> & F1 & I1); auto; try lia.
  { intros i Hi. apply Hx. lia. }
  { intros i b' Hi F. pose proof (fl_len _ _ _ _ _ F). rewrite aget_in by lia. f_equal. apply F; lia. }
  cbn [mbind option_bind]. pose proof (fl_len _ _ _ _ _ F1) as Hl1.
  assert (forall i, 0 <= i -> zn i1 (1 + 2 * i) = zn inp (1 + 2 * i)) as Hodd by (intros; apply F1; lia).
  destruct (fill_loop 0 (fun i => zn inp (1 + 2 * i)) N up i1 (fun i => 1 + 2 * i) (fun _ s => Z.shiftr s 1)
    (fun buf i => aget buf (1 + 2 * i)) (fun buf i st => aset buf (1 + 2 * i) (Z.shiftr (z3 st) 1)))
    as (i2 & -> & F2 & I2); auto; try lia.
  { intros i Hi. apply Hx. lia. }
  { intros i b' Hi F. pose proof (fl_len _ _ _ _ _ F). rewrite aget_in by lia. f_equal. rewrite <- Hodd by lia. apply F; lia. }
  cbn [mbind option_bind]. pose proof (fl_len _ _ _ _ _ F2) as Hl2.
  destruct (combine_loop_ok i2 (fun i => Z.shiftr (tap 1 lo (fun i => zn inp (2 * i)) i) 1 +
    Z.shiftr (tap 0 up (fun i => zn inp (1 + 2 * i)) i) 1) (Z.of_nat N) N out 0) as (o & -> & Hlo' & Ho); try lia.
  { exists (Z.of_nat n). lia. }
  { intros j Hj. replace (2 * j + 1) with (1 + 2 * j) by lia.
    rewrite (fl_old _ _ _ _ _ F2 (2 * j)), (fl_new _ _ _ _ _ F1), (fl_new _ _ _ _ _ F2) by lia.
    apply half_sum_in; [apply (tap_bound 1 _ (Z.of_nat N))|apply (tap_bound 0 _ (Z.of_nat N))]; auto; intros; apply Hx; lia. }
  cbn [mbind option_bind]. eexists i2, o, _, _. split; [done|]. split; [done|]. split; [by apply (store_state _ lo up)|]. split.
  - intros i Hi. rewrite Ho, (proj2 (Z.leb_le _ _)), (proj2 (Z.ltb_lt _ _)) by lia. done.
  - intros j Hj. rewrite Ho, (proj2 (Z.ltb_ge j _)), andb_false_r by lia. done.
Qed.

(** ** Lowpass *)

Lemma ap_loop_ext (c : nat) (k : Z * Z * Z) (rd rd' : list Z -> Z -> option Z) (wr : list Z -> Z -> chain -> option (list Z)) :
  forall st buf i, (forall b j, i <= j -> rd b j = rd' b j) -> ap_loop c k rd wr st buf i = ap_loop c k rd' wr st buf i.
Proof.
  induction c as [|c IH]; intros st buf i E; cbn [ap_loop]; [done|]. rewrite (E buf i) by lia.
  destruct (rd' buf i); [|done]. cbn [mbind option_bind]. destruct (by2_allpass _ _ _); [|done]. cbn [mbind option_bind].
  destruct (wr _ _ _); [|done]. cbn [mbind option_bind]. apply IH. intros b' j Hj. apply E. lia.
Qed.

(** The samples [x] behind a first sample. *)
Definition delayed (tmp0 : Z) (x : Z -> Z) (i0 i : Z) : Z := if i =? i0 then tmp0 else x (i - 1).

Lemma delay_loop_ap (c : nat) (k : Z * Z * Z) (rd : Z -> option Z) (x : Z -> Z) (wr : list Z -> Z -> chain -> option (list Z)) :
  forall st tmp0 buf i, (forall j, i <= j < i + Z.of_nat c -> rd j = Some (x j)) ->
  delay_loop c k rd wr st tmp0 buf i = ap_loop c k (fun _ j => Some (delayed tmp0 x i j)) wr st buf i.
Proof.
  induction c as [|c IH]; intros st tmp0 buf i E; cbn [delay_loop ap_loop]; [done|].
  replace (delayed tmp0 x i i) with tmp0 by (unfold delayed; by rewrite Z.eqb_refl). cbn [mbind option_bind].
  destruct (by2_allpass _ _ _); [|done]. cbn [mbind option_bind]. destruct (wr _ _ _); [|done]. cbn [mbind option_bind].
  rewrite (E i) by lia. cbn [mbind option_bind]. rewrite IH by (intros; apply E; lia).
  apply ap_loop_ext. intros _ j Hj. unfold delayed. rewrite (proj2 (Z.eqb_neq j i)) by lia.
  destruct (Z.eqb_spec j (i + 1)) as [->|]; [|done]. f_equal. f_equal. lia.
Qed.

(** The four chains of a state of sixteen cells, within their bounds. *)
Definition lp_state (state : list Z) (a b c d : chain) : Prop :=
  load16 state = Some (a, b, c, d) /\
  by2_inv bounds_lo a /\ by2_inv bounds_up b /\ by2_inv bounds_lo c /\ by2_inv bounds_up d.

Lemma store16_state (state : list Z) (a b c d : chain) : by2_inv bounds_lo a -> by2_inv bounds_up b ->
  by2_inv bounds_lo c -> by2_inv bounds_up d -> lp_state (store16 state a b c d) a b c d.
Proof. intros. split_and!; auto. by destruct a, b, c, d. Qed.

Lemma lp_by_2_ok (rd : Z -> option Z) (x : Z -> Z) (len : Z) (n : nat) (out state : list Z) (a b c d : chain) :
  lp_state state a b c d -> len = 2 * Z.of_nat n -> len <= zlen out ->
  (forall i, 0 <= i < len -> rd i = Some (x i) /\ - 190136320 <= x i <= 190136320) ->
  exists out' a' b' c' d', lp_by_2 rd len out state = Some (out', store16 state a' b' c' d') /\
    zlen out' = zlen out /\ lp_state (store16 state a' b' c' d') a' b' c' d' /\
    (forall i, 0 <= i < Z.of_nat n ->
      zn out' (2 * i) = Z.shiftr (Z.shiftr (tap 1 a (delayed (z0 d) (fun i => x (1 + 2 * i)) 0) i) 1 +
                                  Z.shiftr (tap 0 b (fun i => x (2 * i)) i) 1) 15 /\
      zn out' (1 + 2 * i) = Z.shiftr (Z.shiftr (tap 1 c (fun i => x (2 * i)) i) 1 +
                                      Z.shiftr (tap 0 d (fun i => x (1 + 2 * i)) i) 1) 15) /\
    (forall j, len <= j -> zn out' j = zn out j).
Proof.
  intros (Hload & Ha & Hb & Hc & Hd) Hlen Hout Hrd. unfold lp_by_2.
  assert (Z.shiftr len 1 = Z.of_nat n) as ->.
  { rewrite Z.shiftr_div_pow2 by lia. change (2 ^ 1) with 2. symmetry. apply (Z.div_unique _ _ _ 0); lia. }
  cbv zeta. rewrite Hload. cbn [mbind option_bind]. rewrite Nat2Z.id.
  set (ev := fun i => x (2 * i)). set (od := fun i => x (1 + 2 * i)). set (dl := delayed (z0 d) od 0).
  assert (forall i, 0 <= i < Z.of_nat n -> - 190136320 <= ev i <= 190136320) as Hev by (intros; apply Hrd; lia).
  assert (forall i, 0 <= i < Z.of_nat n -> - 190136320 <= od i <= 190136320) as Hod by (intros; apply Hrd; lia).
  assert (forall i, 0 <= i < Z.of_nat n -> - 190136320 <= dl i <= 190136320) as Hdl.
  { intros i Hi. unfold dl, delayed. destruct (Z.eqb_spec i 0); [|apply Hod; lia].
    pose proof (s14_in _ _ _ _ _ (bi_0 _ _ Hd)) as B. exact B. }
  rewrite (delay_loop_ap n _ _ od) by (intros; apply Hrd; lia). fold dl.
  destruct (fill_loop 1 dl n a out (fun i => 2 * i) (fun _ s => Z.shiftr s 1) (fun _ i => Some (dl i))
    (fun buf i st => aset buf (2 * i) (Z.shiftr (z3 st) 1))) as (o1 & -> & F1 & I1); auto; try lia.
  cbn [mbind option_bind]. pose proof (fl_len _ _ _ _ _ F1) as Hl1.
  destruct (fill_loop 0 ev n b o1 (fun i => 2 * i) (fun y s => Z.shiftr (y + Z.shiftr s 1) 15) (fun _ i => rd (2 * i))
    (fun buf i st => y ← aget buf (2 * i); s ← int_add y (Z.shiftr (z3 st) 1); aset buf (2 * i) (Z.shiftr s 15)))
    as (o2 & -> & F2 & I2); auto; try lia.
  { intros i b' Hi _. apply Hrd. lia. }
  { intros i b' s Hi Hz ->. cbn [mbind option_bind]. rewrite (fl_new _ _ _ _ _ F1) by lia.
    rewrite half_sum_in; [done| |done]. by apply (tap_bound 1 _ (Z.of_nat n)). }
  cbn [mbind option_bind]. pose proof (fl_len _ _ _ _ _ F2) as Hl2.
  destruct (fill_loop 1 ev n c o2 (fun i => 1 + 2 * i) (fun _ s => Z.shiftr s 1) (fun _ i => rd (2 * i))
    (fun buf i st => aset buf (1 + 2 * i) (Z.shiftr (z3 st) 1))) as (o3 & -> & F3 & I3); auto; try lia.
  { intros i b' Hi _. apply Hrd. lia. }
  cbn [mbind option_bind]. pose proof (fl_len _ _ _ _ _ F3) as Hl3.
  destruct (fill_loop 0 od n d o3 (fun i => 1 + 2 * i) (fun y s => Z.shiftr (y + Z.shiftr s 1) 15) (fun _ i => rd (1 + 2 * i))
    (fun buf i st => y ← aget buf (1 + 2 * i); s ← int_add y (Z.shiftr (z3 st) 1); aset buf (1 + 2 * i) (Z.shiftr s 15)))
    as (o4 & -> & F4 & I4); auto; try lia.
  { intros i b' Hi _. apply Hrd. lia. }
  { intros i b' s Hi Hz ->. cbn [mbind option_bind]. rewrite (fl_new _ _ _ _ _ F3) by lia.
    rewrite half_sum_in; [done| |done]. by apply (tap_bound 1 _ (Z.of_nat n)). }
  cbn [mbind option_bind]. pose proof (fl_len _ _ _ _ _ F4) as Hl4.
  eexists o4, _, _, _, _. split; [done|]. split; [lia|]. split; [by apply store16_state|]. split.
  - intros i Hi. split.
    + rewrite (fl_old _ _ _ _ _ F4), (fl_old _ _ _ _ _ F3), (fl_new _ _ _ _ _ F2), (fl_new _ _ _ _ _ F1) by lia. done.
    + rewrite (fl_new _ _ _ _ _ F4), (fl_new _ _ _ _ _ F3) by lia. done.
  - intros j Hj. rewrite (fl_old _ _ _ _ _ F4), (fl_old _ _ _ _ _ F3), (fl_old _ _ _ _ _ F2), (fl_old _ _ _ _ _ F1) by lia. done.
Qed.

(** C23: on samples of magnitude up to 5802 the decimator and the interpolator
    run without an overflow from a reset state and from every state an
    earlier block left: each output is what the all-pass chains give in exact
    arithmetic, the decimator averages the chains of the even and odd samples,
    the interpolator interleaves the two chains, nothing else is written, and
    the state left is of the same kind. *)
Theorem by2_stable (inp : list Z) (n : nat) (out state : list Z) (lo up : chain) :
  by2_state state lo up -> zlen inp = 2 * Z.of_nat n -> 2 * zlen inp <= zlen out ->
  (forall i, 0 <= i < zlen inp -> Z.abs (zn inp i) <= 5802) ->
  (exists out' lo' up', WebRtcSpl_DownBy2ShortToInt inp (zlen inp) out state = Some (out', store state lo' up') /\
    zlen out' = zlen out /\ by2_state (store state lo' up') lo' up' /\
    (forall i, 0 <= i < Z.of_nat n -> zn out' i =
      Z.shiftr (tap 1 lo (fun i => short_x inp (2 * i)) i) 1 + Z.shiftr (tap 0 up (fun i => short_x inp (1 + 2 * i)) i) 1) /\
    (forall j, Z.of_nat n <= j -> zn out' j = zn out j)) /\
  (exists out' lo' up', WebRtcSpl_UpBy2ShortToInt inp (zlen inp) out state = Some (out', store state lo' up') /\
    zlen out' = zlen out /\ by2_state (store state lo' up') lo' up' /\
    (forall i, 0 <= i < zlen inp -> zn out' (2 * i) = Z.shiftr (tap 0 up (short_x inp) i) 15 /\
      zn out' (1 + 2 * i) = Z.shiftr (tap 1 lo (short_x inp) i) 15) /\
    (forall j, 2 * zlen inp <= j -> zn out' j = zn out j)).
Proof.
  intros Hst Hlen Hout Hx. split; [apply down_short_to_int_ok; auto; lia|].
  destruct (up_by_2_ok (short_in inp) (short_x inp) (fun s => Z.shiftr s 15) (2 * n) out state lo up Hst)
    as (o & lo' & up' & E & H); [lia| |].
  - intros i Hi. apply short_in_ok; [lia|apply Hx; lia].
  - replace (Z.of_nat (2 * n)) with (zlen inp) in E, H by lia. exists o, lo', up'. split; [exact E|]. exact H.
Qed.

Lemma by2_reset : by2_state (replicate 8 0) (Chain 0 0 0 0) (Chain 0 0 0 0).
Proof. split; [done|]. split; split; try split; vm_compute; intuition congruence. Qed.

Lemma by2_witness : by2_state (replicate 8 0) (Chain 0 0 0 0) (Chain 0 0 0 0) /\
  exists out' lo' up', WebRtcSpl_UpBy2ShortToInt [5802; -5802] 2 (replicate 4 0) (replicate 8 0) =
      Some (out', store (replicate 8 0) lo' up').
Proof.
  split; [exact by2_reset|].
  destruct (by2_stable [5802; -5802] 1 (replicate 4 0) (replicate 8 0) (Chain 0 0 0 0) (Chain 0 0 0 0))
    as (_ & o & lo & up & E & _).
  - exact by2_reset.
  - reflexivity.
  - closed.
  - intros i Hi. assert (i = 0 \/ i = 1) as [-> | ->] by (change (zlen [5802; -5802]) with 2 in Hi; lia); closed.
  - exists o, lo, up. exact E.
Defined.

(** ** Full scale *)

(** The samples of 16-bit audio through a chain, as in the functions. *)
Definition sample (x : Z) : Z := x * 2 ^ 15 + 2 ^ 14.
Fixpoint chain_run (k : Z * Z * Z) (st : chain) (xs : list Z) : option chain :=
  match xs with [] => Some st | x :: xs => st ← by2_allpass k st (sample x); chain_run k st xs end.

(** The two chains after two samples of -32768. *)
Definition low1 : chain := Chain (-1073725440) (-1236397190) (-841477334) (-791316893).
Definition low0 : chain := Chain (-1073725440) (-1124833511) (-465801535) (-360626040).

Lemma low_run : chain_run (kResampleAllpass 1) (Chain 0 0 0 0) [-32768; -32768] = Some low1 /\
  chain_run (kResampleAllpass 0) (Chain 0 0 0 0) [-32768; -32768] = Some low0.
Proof. split; vm_compute; reflexivity. Qed.

Lemma gap_overflow (k : Z * Z * Z) (st : chain) (t : Z) : 2 ^ 31 <= t - z1 st -> by2_allpass k st t = None.
Proof.
  destruct k as [[c0 c1] c2]. intros. unfold by2_allpass, scale_round, int_add.
  by rewrite (proj2 (Z.ltb_ge (t + - z1 st) _)), andb_false_r by lia.
Qed.

(** The other steps of the chains stay in range, after those two samples. *)
Lemma low_ok (row : Z) (st : chain) (top : Z) : row = 1 /\ st = low1 /\ top = 27804 \/ row = 0 /\ st = low0 /\ top = 31209 ->
  forall x, -32768 <= x < top -> exists st', by2_allpass (kResampleAllpass row) st (sample x) = Some st' /\ int32 (z3 st').
Proof.
  intros Hrow x Hx. unfold sample.
  assert (forall d, -16384 <= 16384 * round14 d - d <= 16384 /\ -16384 <= 16384 * trunc14 d - d <= 16384) as Herr.
  { intros d. split; [apply round14_err|apply trunc14_err]. }
  set (t := x * 2 ^ 15 + 2 ^ 14). unfold by2_allpass, int32.
  destruct Hrow as [(-> & -> & ->)|(-> & -> & ->)]; cbn [kResampleAllpass low1 low0 z0 z1 z2 z3 Z.eqb];
    (match goal with |- context [scale_round ?a ?b] => rewrite (proj1 (scale_ok a b ltac:(lia))); pose proof (Herr (a - b)) end);
    cbn [mbind option_bind]; rewrite int_mul_in by lia; cbn [mbind option_bind]; rewrite int_add_in by lia; cbn [mbind option_bind];
    do 2 ((match goal with |- context [scale_trunc ?a ?b] => rewrite (proj2 (scale_ok a b ltac:(lia))); pose proof (Herr (a - b)) end);
      cbn [mbind option_bind]; rewrite int_mul_in by lia; cbn [mbind option_bind]; rewrite int_add_in by lia; cbn [mbind option_bind]);
    (eexists; split; [reflexivity|]; cbn [z3]; lia).
Qed.

Lemma ap_loop_app (a b : nat) (k : Z * Z * Z) (rd : list Z -> Z -> option Z) (wr : list Z -> Z -> chain -> option (list Z)) :
  forall st buf i, ap_loop (a + b) k rd wr st buf i =
    ('(st, buf) ← ap_loop a k rd wr st buf i; ap_loop b k rd wr st buf (i + Z.of_nat a)).
Proof.
  induction a as [|a IH]; intros st buf i; [cbn; by rewrite Z.add_0_r|]. cbn [ap_loop Nat.add].
  destruct (rd buf i) as [t|]; [|done]. cbn [mbind option_bind]. destruct (by2_allpass k st t) as [st1|]; [|done]. cbn [mbind option_bind].
  destruct (wr buf i st1) as [buf1|]; [|done]. cbn [mbind option_bind]. rewrite IH. by replace (i + 1 + Z.of_nat a) with (i + Z.of_nat (S a)) by lia.
Qed.

(** Three samples through a chain. *)
Lemma ap_loop_3 (k : Z * Z * Z) (rd : list Z -> Z -> option Z) (wr : list Z -> Z -> chain -> option (list Z)) (st : chain)
    (buf : list Z) (t0 t1 t2 : Z) : (forall b, rd b 0 = Some t0 /\ rd b 1 = Some t1 /\ rd b 2 = Some t2) ->
  ap_loop 3 k rd wr st buf 0 =
    (st ← by2_allpass k st t0; buf ← wr buf 0 st; st ← by2_allpass k st t1; buf ← wr buf 1 st;
     st ← by2_allpass k st t2; buf ← wr buf 2 st; Some (st, buf)).
Proof.
  intros Hrd. cbn [ap_loop]. rewrite (proj1 (Hrd buf)). cbn [mbind option_bind].
  destruct (by2_allpass k st t0) as [s1|]; [|done]. cbn [mbind option_bind]. destruct (wr buf 0 s1) as [b1|]; [|done]. cbn [mbind option_bind].
  change (0 + 1) with 1. rewrite (proj1 (proj2 (Hrd b1))). cbn [mbind option_bind].
  destruct (by2_allpass k s1 t1) as [s2|]; [|done]. cbn [mbind option_bind]. destruct (wr b1 1 s2) as [b2|]; [|done]. cbn [mbind option_bind].
  change (1 + 1) with 2. by rewrite (proj2 (proj2 (Hrd b2))).
Qed.

Definition zero : chain := Chain 0 0 0 0.
Definition reads (rd : list Z -> Z -> option Z) (t0 t1 t2 : Z) : Prop :=
  forall b, rd b 0 = Some t0 /\ rd b 1 = Some t1 /\ rd b 2 = Some t2.
(** The stores of three samples. *)
Definition stores (wr : list Z -> Z -> chain -> option (list Z)) (c1 c2 c3 : chain) (buf : list Z) : option (chain * list Z) :=
  buf ← wr buf 0 c1; buf ← wr buf 1 c2; buf ← wr buf 2 c3; Some (c3, buf).
Definition outputs (c1 c2 c3 : chain) : Prop := int32 (z3 c1) /\ int32 (z3 c2) /\ int32 (z3 c3).

Lemma low_loop (row : Z) (st : chain) (top : Z) : row = 1 /\ st = low1 /\ top = 27804 \/ row = 0 /\ st = low0 /\ top = 31209 ->
  forall x, int16 x ->
  if x <? top then
    exists c1 c2 c3, outputs c1 c2 c3 /\ forall rd wr buf, reads rd (sample (-32768)) (sample (-32768)) (sample x) ->
      ap_loop 3 (kResampleAllpass row) rd wr zero buf 0 = stores wr c1 c2 c3 buf
  else forall rd wr buf, reads rd (sample (-32768)) (sample (-32768)) (sample x) ->
      ap_loop 3 (kResampleAllpass row) rd wr zero buf 0 = None.
Proof.
  intros Hrow x Hx. unfold int16 in Hx.
  assert (exists c1, by2_allpass (kResampleAllpass row) zero (sample (-32768)) = Some c1 /\ int32 (z3 c1) /\
    by2_allpass (kResampleAllpass row) c1 (sample (-32768)) = Some st /\ int32 (z3 st)) as (c1 & E1 & B1 & E2 & B2).
  { destruct Hrow as [(-> & -> & _)|(-> & -> & _)]; (eexists; split; [vm_compute; reflexivity|]; split; [closed|]; split; [vm_compute; reflexivity|closed]). }
  destruct (Z.ltb_spec x top).
  - destruct (low_ok row st top Hrow x ltac:(lia)) as (c3 & E3 & B3). exists c1, st, c3. split; [done|].
    intros rd wr buf Hrd. rewrite (ap_loop_3 _ _ _ _ _ _ _ _ Hrd), E1. cbn [mbind option_bind]. rewrite E2. unfold stores.
    destruct (wr buf 0 c1) as [b1|]; [|done]. cbn [mbind option_bind]. destruct (wr b1 1 st) as [b2|]; [|done]. cbn [mbind option_bind].
    by rewrite E3.
  - intros rd wr buf Hrd. rewrite (ap_loop_3 _ _ _ _ _ _ _ _ Hrd), E1. cbn [mbind option_bind]. rewrite E2.
    destruct (wr buf 0 c1) as [b1|]; [|done]. cbn [mbind option_bind]. destruct (wr b1 1 st) as [b2|]; [|done]. cbn [mbind option_bind].
    rewrite gap_overflow; [done|]. unfold sample. destruct Hrow as [(-> & -> & ->)|(-> & -> & ->)]; cbn [low1 low0 z1]; lia.
Qed.

Lemma quiet_loop (row : Z) : row = 0 \/ row = 1 ->
  exists c1 c2 c3, outputs c1 c2 c3 /\ forall rd wr buf, reads rd (sample 0) (sample 0) (sample 0) ->
    ap_loop 3 (kResampleAllpass row) rd wr zero buf 0 = stores wr c1 c2 c3 buf.
Proof.
  intros Hrow.
  assert (exists c1 c2 c3, outputs c1 c2 c3 /\ by2_allpass (kResampleAllpass row) zero (sample 0) = Some c1 /\
    by2_allpass (kResampleAllpass row) c1 (sample 0) = Some c2 /\ by2_allpass (kResampleAllpass row) c2 (sample 0) = Some c3)
    as (c1 & c2 & c3 & B & E1 & E2 & E3).
  { destruct Hrow as [-> | ->]; (eexists; eexists; eexists; split; [|split; [vm_compute; reflexivity|split; [vm_compute; reflexivity|vm_compute; reflexivity]]];
      unfold outputs, int32; cbn [z3]; lia). }
  exists c1, c2, c3. split; [done|]. intros rd wr buf Hrd. rewrite (ap_loop_3 _ _ _ _ _ _ _ _ Hrd), E1. cbn [mbind option_bind]. unfold stores.
  destruct (wr buf 0 c1) as [b1|]; [|done]. cbn [mbind option_bind]. rewrite E2. cbn [mbind option_bind].
  destruct (wr b1 1 c2) as [b2|]; [|done]. cbn [mbind option_bind]. by rewrite E3.
Qed.

Lemma quiet_delay : exists c1 c2 c3, outputs c1 c2 c3 /\
  forall rd wr buf, rd 0 = Some (sample 0) /\ rd 1 = Some (sample 0) /\ rd 2 = Some (sample 0) ->
    delay_loop 3 (kResampleAllpass 1) rd wr zero 0 buf 0 = stores wr c1 c2 c3 buf.
Proof.
  assert (exists c1 c2 c3, outputs c1 c2 c3 /\ by2_allpass (kResampleAllpass 1) zero 0 = Some c1 /\
    by2_allpass (kResampleAllpass 1) c1 (sample 0) = Some c2 /\ by2_allpass (kResampleAllpass 1) c2 (sample 0) = Some c3)
    as (c1 & c2 & c3 & B & E1 & E2 & E3).
  { eexists; eexists; eexists; split; [|split; [vm_compute; reflexivity|split; [vm_compute; reflexivity|vm_compute; reflexivity]]];
      unfold outputs, int32; cbn [z3]; lia. }
  exists c1, c2, c3. split; [done|]. intros rd wr buf (H0 & H1 & H2). cbn [delay_loop]. rewrite E1. cbn [mbind option_bind]. unfold stores.
  destruct (wr buf 0 c1) as [b1|]; [|done]. cbn [mbind option_bind]. rewrite H0. cbn [mbind option_bind]. rewrite E2. cbn [mbind option_bind].
  change (0 + 1) with 1. destruct (wr b1 1 c2) as [b2|]; [|done]. cbn [mbind option_bind]. rewrite H1. cbn [mbind option_bind].
  rewrite E3. cbn [mbind option_bind]. change (1 + 1) with 2. destruct (wr b2 2 c3) as [b3|]; [|done]. cbn [mbind option_bind]. by rewrite H2.
Qed.

Lemma half32 (c : chain) : int32 (z3 c) -> - 2 ^ 30 <= Z.shiftr (z3 c) 1 < 2 ^ 30.
Proof.
  unfold int32. intros [H1 H2]. rewrite Z.shiftr_div_pow2 by lia. change (2 ^ 1) with 2. split.
  - apply Z.div_le_lower_bound; lia.
  - apply Z.div_lt_upper_bound; lia.
Qed.

(** Three stores at the cells [pos i] of an array of [n] cells. *)
Section Stores.
Variables (pos : Z -> Z) (n : Z).
Hypothesis Hpos : forall i, 0 <= i < 3 -> 0 <= pos i < n.
Hypothesis Hinj : forall i j, 0 <= i < 3 -> 0 <= j < 3 -> pos i = pos j -> i = j.

Definition halves (lo hi : Z) (b : list Z) : Prop := zlen b = n /\ forall j, lo <= j < hi -> - 2 ^ 30 <= zn b (pos j) < 2 ^ 30.

Lemma stores_ok (wr : list Z -> Z -> chain -> option (list Z)) (c1 c2 c3 : chain) (P : Z -> list Z -> Prop) (buf : list Z) :
  outputs c1 c2 c3 -> (forall i b c, 0 <= i < 3 -> P i b -> int32 (z3 c) -> exists b', wr b i c = Some b' /\ P (i + 1) b') -> P 0 buf ->
  exists b', stores wr c1 c2 c3 buf = Some (c3, b') /\ P 3 b'.
Proof.
  intros (B1 & B2 & B3) Hwr H0. unfold stores. destruct (Hwr 0 buf c1 ltac:(lia) H0 B1) as (b1 & -> & H1). cbn [mbind option_bind].
  destruct (Hwr 1 b1 c2 ltac:(lia) H1 B2) as (b2 & -> & H2). cbn [mbind option_bind].
  destruct (Hwr 2 b2 c3 ltac:(lia) H2 B3) as (b3 & -> & H3). by exists b3.
Qed.

Lemma fill_stores (c1 c2 c3 : chain) (buf : list Z) : outputs c1 c2 c3 -> zlen buf = n ->
  exists b', stores (fun b i c => aset b (pos i) (Z.shiftr (z3 c) 1)) c1 c2 c3 buf = Some (c3, b') /\ halves 0 3 b'.
Proof.
  intros Ho Hn. apply (stores_ok _ _ _ _ (fun i => halves 0 i) _ Ho); [|split; [done|lia]].
  intros i b c Hi [Hz Hb] Hc. pose proof (Hpos i Hi). rewrite aset_in by lia. eexists. split; [reflexivity|].
  split; [by rewrite zlen_zset|]. intros j Hj. destruct (decide (j = i)) as [->|Hne].
  - rewrite zn_zset_eq by lia. by apply half32.
  - rewrite zn_zset_ne; [apply Hb; lia|lia|]. intros E. apply Hne. symmetry. apply Hinj; lia.
Qed.

Lemma add_stores (f : Z -> Z) (c1 c2 c3 : chain) (buf : list Z) : outputs c1 c2 c3 -> halves 0 3 buf ->
  exists b', stores (fun b i c => y ← aget b (pos i); s ← int_add y (Z.shiftr (z3 c) 1); aset b (pos i) (f s)) c1 c2 c3 buf =
    Some (c3, b') /\ zlen b' = n.
Proof.
  intros Ho Hn. destruct (stores_ok (fun b i c => y ← aget b (pos i); s ← int_add y (Z.shiftr (z3 c) 1); aset b (pos i) (f s))
    c1 c2 c3 (fun i => halves i 3) buf Ho) as (b' & E & Hb); [|done|by exists b'; split; [|apply Hb]].
  intros i b c Hi [Hz Hb] Hc. pose proof (Hpos i Hi). pose proof (Hb i ltac:(lia)). pose proof (half32 c Hc).
  rewrite (aget_in b (pos i)) by lia. cbn [mbind option_bind]. rewrite int_add_in by lia. cbn [mbind option_bind]. rewrite aset_in by lia.
  eexists. split; [reflexivity|]. split; [by rewrite zlen_zset|]. intros j Hj.
  rewrite zn_zset_ne; [apply Hb; lia|lia|]. intros E. assert (i = j) by (apply Hinj; lia). lia.
Qed.

Lemma set_stores (f : chain -> Z) (c1 c2 c3 : chain) (buf : list Z) : outputs c1 c2 c3 -> zlen buf = n ->
  exists b', stores (fun b i c => aset b (pos i) (f c)) c1 c2 c3 buf = Some (c3, b') /\ zlen b' = n.
Proof.
  intros Ho Hn. apply (stores_ok _ _ _ _ (fun _ b => zlen b = n) _ Ho); [|done].
  intros i b c Hi Hz _. pose proof (Hpos i Hi). rewrite aset_in by lia. eexists. split; [reflexivity|]. by rewrite zlen_zset.
Qed.
End Stores.

Lemma sample_in (inp : list Z) (i x : Z) : aget inp i = Some x -> int16 x -> short_in inp i = Some (sample x).
Proof. unfold int16. intros E Hx. unfold short_in. rewrite E. cbn [mbind option_bind]. by rewrite int_add_in by lia. Qed.

(** Two samples of -32768 and [x] (in the even places, where a function reads
    the even and the odd samples apart), from a reset state. *)
Definition down3 (x : Z) := WebRtcSpl_DownBy2ShortToInt [-32768; 0; -32768; 0; x; 0] 6 (replicate 3 0) (replicate 8 0).
Definition up3 (x : Z) := WebRtcSpl_UpBy2ShortToInt [-32768; -32768; x] 3 (replicate 6 0) (replicate 8 0).
Definition lp3 (x : Z) := WebRtcSpl_LPBy2ShortToInt [-32768; 0; -32768; 0; x; 0] 6 (replicate 6 0) (replicate 16 0).

Section Third.
Variable x : Z.
Hypothesis Hx : int16 x.

Ltac read3 := intros b; split_and!; (apply sample_in; [reflexivity|unfold int16 in *; lia]).
Lemma even_reads : reads (fun _ i => short_in [-32768; 0; -32768; 0; x; 0] (2 * i)) (sample (-32768)) (sample (-32768)) (sample x).
Proof. read3. Qed.
Lemma odd_reads : reads (fun _ i => short_in [-32768; 0; -32768; 0; x; 0] (1 + 2 * i)) (sample 0) (sample 0) (sample 0).
Proof. read3. Qed.
Lemma all_reads : reads (fun _ i => short_in [-32768; -32768; x] i) (sample (-32768)) (sample (-32768)) (sample x).
Proof. read3. Qed.

Lemma down3_ok : down3 x = None <-> 27804 <= x.
Proof.
  unfold down3, WebRtcSpl_DownBy2ShortToInt.
  change (load (replicate 8 0)) with (Some (zero, zero)). cbn [mbind option_bind]. change (Z.to_nat (Z.shiftr 6 1)) with 3%nat.
  pose proof (low_loop 1 low1 27804 ltac:(by left) x Hx) as HL. destruct (Z.ltb_spec x 27804).
  - destruct HL as (c1 & c2 & c3 & Hc & HL). rewrite (HL _ _ _ even_reads).
    destruct (fill_stores (fun i => i) 3 ltac:(cbv beta; lia) ltac:(cbv beta; lia) c1 c2 c3 (replicate 3 0) Hc eq_refl) as (b & -> & Hb). cbn [mbind option_bind].
    destruct (quiet_loop 0 ltac:(by left)) as (d1 & d2 & d3 & Hd & HQ). rewrite (HQ _ _ _ odd_reads).
    destruct (add_stores (fun i => i) 3 ltac:(cbv beta; lia) ltac:(cbv beta; lia) (fun s => s) d1 d2 d3 b Hd Hb) as (b' & -> & _). split; [done|lia].
  - rewrite (HL _ _ _ even_reads). split; [lia|done].
Qed.

Lemma up3_ok : up3 x = None <-> 27804 <= x.
Proof.
  unfold up3, WebRtcSpl_UpBy2ShortToInt, up_by_2.
  change (load (replicate 8 0)) with (Some (zero, zero)). cbn [mbind option_bind]. change (Z.to_nat 3) with 3%nat.
  pose proof (low_loop 0 low0 31209 ltac:(by right) x Hx) as H0. pose proof (low_loop 1 low1 27804 ltac:(by left) x Hx) as H1.
  destruct (Z.ltb_spec x 31209).
  - destruct H0 as (c1 & c2 & c3 & Hc & HL). rewrite (HL _ _ _ all_reads).
    destruct (set_stores (fun i => 2 * i) 6 ltac:(cbv beta; lia) (fun c => Z.shiftr (z3 c) 15) c1 c2 c3 (replicate 6 0) Hc eq_refl)
      as (b & -> & Hb). cbn [mbind option_bind].
    destruct (Z.ltb_spec x 27804).
    + destruct H1 as (d1 & d2 & d3 & Hd & HL'). rewrite (HL' _ _ _ all_reads).
      destruct (set_stores (fun i => 1 + 2 * i) 6 ltac:(cbv beta; lia) (fun c => Z.shiftr (z3 c) 15) d1 d2 d3 b Hd Hb) as (b' & -> & _). split; [done|lia].
    + rewrite (H1 _ _ _ all_reads). split; [lia|done].
  - rewrite (H0 _ _ _ all_reads). split; [lia|done].
Qed.

Lemma lp3_ok : lp3 x = None <-> 27804 <= x.
Proof.
  unfold lp3, WebRtcSpl_LPBy2ShortToInt, lp_by_2.
  change (load16 (replicate 16 0)) with (Some (zero, zero, zero, zero)). cbn [mbind option_bind]. change (Z.to_nat (Z.shiftr 6 1)) with 3%nat.
  change (z0 zero) with 0.
  destruct quiet_delay as (a1 & a2 & a3 & Ha & HA).
  rewrite (HA (fun i => short_in [-32768; 0; -32768; 0; x; 0] (1 + 2 * i))) by apply (odd_reads []).
  destruct (fill_stores (fun i => 2 * i) 6 ltac:(cbv beta; lia) ltac:(cbv beta; lia) a1 a2 a3 (replicate 6 0) Ha eq_refl) as (b & -> & Hb). cbn [mbind option_bind].
  pose proof (low_loop 0 low0 31209 ltac:(by right) x Hx) as H0. pose proof (low_loop 1 low1 27804 ltac:(by left) x Hx) as H1.
  destruct (Z.ltb_spec x 31209).
  - destruct H0 as (c1 & c2 & c3 & Hc & HL). rewrite (HL _ _ _ even_reads).
    destruct (add_stores (fun i => 2 * i) 6 ltac:(cbv beta; lia) ltac:(cbv beta; lia) (fun s => Z.shiftr s 15) c1 c2 c3 b Hc Hb) as (b2 & -> & Hb2). cbn [mbind option_bind].
    destruct (Z.ltb_spec x 27804).
    + destruct H1 as (d1 & d2 & d3 & Hd & HL'). rewrite (HL' _ _ _ even_reads).
      destruct (fill_stores (fun i => 1 + 2 * i) 6 ltac:(cbv beta; lia) ltac:(cbv beta; lia) d1 d2 d3 b2 Hd Hb2) as (b3 & -> & Hb3). cbn [mbind option_bind].
      destruct (quiet_loop 0 ltac:(by left)) as (e1 & e2 & e3 & He & HQ). rewrite (HQ _ _ _ odd_reads).
      destruct (add_stores (fun i => 1 + 2 * i) 6 ltac:(cbv beta; lia) ltac:(cbv beta; lia) (fun s => Z.shiftr s 15) e1 e2 e3 b3 He Hb3) as (b4 & -> & _).
      split; [done|lia].
    + rewrite (H1 _ _ _ even_reads). split; [lia|done].
  - rewrite (H0 _ _ _ even_reads). split; [lia|done].
Qed.
End Third.

(** C24: on loud input the filters overflow: after two samples of -32768 from a
    reset state, a third sample [x] brings the difference that the chain takes
    first out of the range of an [int] exactly when [x] is at least 27804, and
    exactly then the decimator, the interpolator and the lowpass filter are
    undefined; full scale is 32767. *)
Theorem by2_full_scale_overflows (x : Z) : int16 x ->
  exists st, chain_run (kResampleAllpass 1) (Chain 0 0 0 0) [-32768; -32768] = Some st /\
    (2 ^ 31 <= sample x - z1 st <-> 27804 <= x) /\
    (WebRtcSpl_DownBy2ShortToInt [-32768; 0; -32768; 0; x; 0] 6 (replicate 3 0) (replicate 8 0) = None <-> 27804 <= x) /\
    (WebRtcSpl_UpBy2ShortToInt [-32768; -32768; x] 3 (replicate 6 0) (replicate 8 0) = None <-> 27804 <= x) /\
    (WebRtcSpl_LPBy2ShortToInt [-32768; 0; -32768; 0; x; 0] 6 (replicate 6 0) (replicate 16 0) = None <-> 27804 <= x).
Proof.
  intros Hx. exists low1. split; [apply low_run|]. split; [change (z1 low1) with (-1236397190); unfold sample; split; lia|].
  pose proof (down3_ok x Hx). pose proof (up3_ok x Hx). pose proof (lp3_ok x Hx). unfold down3, up3, lp3 in *.
  split; [assumption|]. split; assumption.
Qed.

Lemma by2_full_scale_witness : exists st, chain_run (kResampleAllpass 1) (Chain 0 0 0 0) [-32768; -32768] = Some st /\
  (2 ^ 31 <= sample 32767 - z1 st <-> 27804 <= 32767) /\
  (WebRtcSpl_DownBy2ShortToInt [-32768; 0; -32768; 0; 32767; 0] 6 (replicate 3 0) (replicate 8 0) = None <-> 27804 <= 32767) /\
  (WebRtcSpl_UpBy2ShortToInt [-32768; -32768; 32767] 3 (replicate 6 0) (replicate 8 0) = None <-> 27804 <= 32767) /\
  (WebRtcSpl_LPBy2ShortToInt [-32768; 0; -32768; 0; 32767; 0] 6 (replicate 6 0) (replicate 16 0) = None <-> 27804 <= 32767).
Proof. apply (by2_full_scale_overflows 32767). unfold int16. lia. Defined.
