(* ===== verification/Spl48.v ===== *)
(** * Fractional resampling and the 48 kHz resamplers

    [resample_fractional.c] and [resample_48khz.c] of
    [src/submodules/libtgvoip/webrtc_dsp/webrtc/common_audio/signal_processing].
    The fractional filters read and write the same scratch memory, at
    different offsets, so they are modelled on one array with the offsets of
    [In] and [Out].  [None] is an overflow of an [int] or an access outside of
    an array. *)
From S2P Require Import Prelude.
From S2P Require Import Bytes.
From S2P Require Import SplArith.
From S2P Require Import SplVector.
From S2P Require Import SplFilter.
From S2P Require Import SplResample.
From S2P Require Import SplBy2.
From Stdlib Require Import ZArith Lia.
From stdpp Require Import base numbers option list.
Open Scope Z_scope.

Definition kCoefficients48To32 : list (list Z) :=
  [[778; -2050; 1087; 23285; 12903; -3783; 441; 222];
   [222; 441; -3783; 12903; 23285; 1087; -2050; 778]].

Definition kCoefficients32To24 : list (list Z) :=
  [[767; -2362; 2434; 24406; 10620; -3838; 721; 90];
   [386; -381; -2646; 19062; 19062; -2646; -381; 386];
   [90; 721; -3838; 10620; 24406; 2434; -2362; 767]].

Definition kCoefficients44To32 : list (list Z) :=
  [[117; -669; 2245; -6183; 26267; 13529; -3245; 845; -138];
   [-101; 612; -2283; 8532; 29790; -5138; 1789; -524; 91];
   [50; -292; 1016; -3064; 32010; 3933; -1147; 315; -53];
   [-156; 974; -3863; 18603; 21691; -6246; 2353; -712; 126]].

(** [tmp += coefficients[t] * In[t * dir]] for all [t], with [o] the offset of
    [In[0]]. *)
Fixpoint dot_acc (cs : list Z) (mem : list Z) (o dir tmp : Z) : option Z :=
  match cs with
  | [] => Some tmp
  | c :: cs =>
    x ← aget mem o;
    p ← int_mul c x;
    tmp ← int_add tmp p;
    dot_acc cs mem (o + dir) dir tmp
  end.

(** The outputs of one block: row [e] of the coefficients at [In + e]. *)
Fixpoint frac_block (rows : list (list Z)) (mem : list Z) (In_ Out : Z) : option (list Z) :=
  match rows with
  | [] => Some mem
  | row :: rows =>
    tmp ← dot_acc row mem In_ 1 (2 ^ 14);
    mem ← aset mem Out tmp;
    frac_block rows mem (In_ + 1) (Out + 1)
  end.

(** [for (m = 0; m < K; m++)]; a block uses [step] inputs. *)
Fixpoint frac_loop (K : nat) (rows : list (list Z)) (step : Z) (mem : list Z) (In_ Out : Z) : option (list Z) :=
  match K with
  | O => Some mem
  | S K =>
    mem ← frac_block rows mem In_ Out;
    frac_loop K rows step mem (In_ + step) (Out + zlen rows)
  end.

Definition WebRtcSpl_Resample48khzTo32khz (mem : list Z) (In_ Out K : Z) : option (list Z) :=
  frac_loop (Z.to_nat K) kCoefficients48To32 3 mem In_ Out.
Definition WebRtcSpl_Resample32khzTo24khz (mem : list Z) (In_ Out K : Z) : option (list Z) :=
  frac_loop (Z.to_nat K) kCoefficients32To24 4 mem In_ Out.

(** Two inner products, forward from [in1] and backward from [in2]. *)
Definition WebRtcSpl_ResampDotProduct (mem : list Z) (in1 in2 : Z) (coef_ptr : list Z) (out1 out2 : Z)
  : option (list Z) :=
  tmp1 ← dot_acc (take 8 coef_ptr) mem in1 1 16384;
  tmp2 ← dot_acc (take 8 coef_ptr) mem in2 (-1) 16384;
  coef ← aget coef_ptr 8;
  x ← aget mem (in1 + 8); p ← int_mul coef x; s ← int_add tmp1 p;
  mem ← aset mem out1 s;
  x ← aget mem (in2 - 8); p ← int_mul coef x; s ← int_add tmp2 p;
  aset mem out2 s.

Fixpoint frac44_loop (K : nat) (mem : list Z) (In_ Out : Z) : option (list Z) :=
  match K with
  | O => Some mem
  | S K =>
    x ← aget mem (In_ + 3); p ← int_mul x (2 ^ 15); s ← int_add p (2 ^ 14);
    mem ← aset mem Out s;
    row ← aget kCoefficients44To32 3;
    tmp ← dot_acc row mem (In_ + 5) 1 (2 ^ 14);
    mem ← aset mem (Out + 4) tmp;
    row ← aget kCoefficients44To32 0;
    mem ← WebRtcSpl_ResampDotProduct mem In_ (In_ + 17) row (Out + 1) (Out + 7);
    row ← aget kCoefficients44To32 1;
    mem ← WebRtcSpl_ResampDotProduct mem (In_ + 2) (In_ + 15) row (Out + 2) (Out + 6);
    row ← aget kCoefficients44To32 2;
    mem ← WebRtcSpl_ResampDotProduct mem (In_ + 3) (In_ + 14) row (Out + 3) (Out + 5);
    frac44_loop K mem (In_ + 11) (Out + 8)
  end.
Definition WebRtcSpl_Resample44khzTo32khz (mem : list Z) (In_ Out K : Z) : option (list Z) :=
  frac44_loop (Z.to_nat K) mem In_ Out.

(** ** The 48 kHz resamplers *)

(** A call that writes through the pointer [mem + o]. *)
Definition at_ptr {A} (mem : list Z) (o : Z) (f : list Z -> option (list Z * A)) : option (list Z * A) :=
  if (0 <=? o) && (o <=? zlen mem) then
    '(sub, a) ← f (drop (Z.to_nat o) mem);
    Some (take (Z.to_nat o) mem ++ sub, a)
  else None.

(** [memcpy(mem + o, S, 8 cells); memcpy(S, mem + o', 8 cells);] *)
Definition exchange (mem : list Z) (o o' : Z) (S : list Z) : option (list Z * list Z) :=
  bs ← bread S 0 8;
  mem ← bwrite mem o bs;
  bs ← bread mem o' 8;
  S ← bwrite S 0 bs;
  Some (mem, S).

Record State48khzTo16khz := St48To16 { S_48_48 : list Z; S_48_32 : list Z; S_32_16 : list Z }.
Record State16khzTo48khz := St16To48 { S_16_32 : list Z; S_32_24 : list Z; S_24_48 : list Z }.
Record State48khzTo8khz := St48To8 { S_48_24 : list Z; S_24_24 : list Z; S_24_16 : list Z; S_16_8 : list Z }.
Record State8khzTo48khz := St8To48 { S_8_16 : list Z; S_16_12 : list Z; S_12_24 : list Z; S_24_48' : list Z }.

(** The results are [out], the state and the scratch memory. *)
Definition WebRtcSpl_Resample48khzTo16khz (inp out : list Z) (st : State48khzTo16khz) (tmpmem : list Z)
  : option (list Z * State48khzTo16khz * list Z) :=
  '(tmpmem, s1) ← at_ptr tmpmem 16 (fun o => WebRtcSpl_LPBy2ShortToInt inp 480 o (S_48_48 st));
  '(tmpmem, s2) ← exchange tmpmem 8 488 (S_48_32 st);
  tmpmem ← WebRtcSpl_Resample48khzTo32khz tmpmem 8 0 160;
  '(tmpmem, out, s3) ← WebRtcSpl_DownBy2IntToShort tmpmem 320 out (S_32_16 st);
  Some (out, St48To16 s1 s2 s3, tmpmem).

Definition WebRtcSpl_ResetResample48khzTo16khz (st : State48khzTo16khz) : option State48khzTo16khz :=
  s1 ← bwrite (S_48_48 st) 0 (replicate 16 0);
  s2 ← bwrite (S_48_32 st) 0 (replicate 8 0);
  s3 ← bwrite (S_32_16 st) 0 (replicate 8 0);
  Some (St48To16 s1 s2 s3).

Definition WebRtcSpl_Resample16khzTo48khz (inp out : list Z) (st : State16khzTo48khz) (tmpmem : list Z)
  : option (list Z * State16khzTo48khz * list Z) :=
  '(tmpmem, s1) ← at_ptr tmpmem 16 (fun o => WebRtcSpl_UpBy2ShortToInt inp 160 o (S_16_32 st));
  '(tmpmem, s2) ← exchange tmpmem 8 328 (S_32_24 st);
  tmpmem ← WebRtcSpl_Resample32khzTo24khz tmpmem 8 0 80;
  '(out, s3) ← WebRtcSpl_UpBy2IntToShort tmpmem 240 out (S_24_48 st);
  Some (out, St16To48 s1 s2 s3, tmpmem).

Definition WebRtcSpl_ResetResample16khzTo48khz (st : State16khzTo48khz) : option State16khzTo48khz :=
  s1 ← bwrite (S_16_32 st) 0 (replicate 8 0);
  s2 ← bwrite (S_32_24 st) 0 (replicate 8 0);
  s3 ← bwrite (S_24_48 st) 0 (replicate 8 0);
  Some (St16To48 s1 s2 s3).

(** The lowpass filter reads the cells from 256 on and writes those before. *)
Definition WebRtcSpl_Resample48khzTo8khz (inp out : list Z) (st : State48khzTo8khz) (tmpmem : list Z)
  : option (list Z * State48khzTo8khz * list Z) :=
  '(tmpmem, s1) ← at_ptr tmpmem 256 (fun o => WebRtcSpl_DownBy2ShortToInt inp 480 o (S_48_24 st));
  '(tmpmem, s2) ← at_ptr tmpmem 16 (fun o => WebRtcSpl_LPBy2IntToInt (drop 256 tmpmem) 240 o (S_24_24 st));
  '(tmpmem, s3) ← exchange tmpmem 8 248 (S_24_16 st);
  tmpmem ← WebRtcSpl_Resample48khzTo32khz tmpmem 8 0 80;
  '(tmpmem, out, s4) ← WebRtcSpl_DownBy2IntToShort tmpmem 160 out (S_16_8 st);
  Some (out, St48To8 s1 s2 s3 s4, tmpmem).

Definition WebRtcSpl_ResetResample48khzTo8khz (st : State48khzTo8khz) : option State48khzTo8khz :=
  s1 ← bwrite (S_48_24 st) 0 (replicate 8 0);
  s2 ← bwrite (S_24_24 st) 0 (replicate 16 0);
  s3 ← bwrite (S_24_16 st) 0 (replicate 8 0);
  s4 ← bwrite (S_16_8 st) 0 (replicate 8 0);
  Some (St48To8 s1 s2 s3 s4).

(** The interpolator reads the cells 240 to 359 and writes those before. *)
Definition WebRtcSpl_Resample8khzTo48khz (inp out : list Z) (st : State8khzTo48khz) (tmpmem : list Z)
  : option (list Z * State8khzTo48khz * list Z) :=
  '(tmpmem, s1) ← at_ptr tmpmem 264 (fun o => WebRtcSpl_UpBy2ShortToInt inp 80 o (S_8_16 st));
  '(tmpmem, s2) ← exchange tmpmem 256 416 (S_16_12 st);
  tmpmem ← WebRtcSpl_Resample32khzTo24khz tmpmem 256 240 40;
  '(tmpmem, s3) ← at_ptr tmpmem 0 (fun o => WebRtcSpl_UpBy2IntToInt (drop 240 tmpmem) 120 o (S_12_24 st));
  '(out, s4) ← WebRtcSpl_UpBy2IntToShort tmpmem 240 out (S_24_48' st);
  Some (out, St8To48 s1 s2 s3 s4, tmpmem).

Definition WebRtcSpl_ResetResample8khzTo48khz (st : State8khzTo48khz) : option State8khzTo48khz :=
  s1 ← bwrite (S_8_16 st) 0 (replicate 8 0);
  s2 ← bwrite (S_16_12 st) 0 (replicate 8 0);
  s3 ← bwrite (S_12_24 st) 0 (replicate 8 0);
  s4 ← bwrite (S_24_48' st) 0 (replicate 8 0);
  Some (St8To48 s1 s2 s3 s4).

(** ** The fractional filters in place *)

(** The inner product of [cs] with the samples from [o] on. *)
Fixpoint dot_ref (cs : list Z) (x : Z -> Z) (o dir : Z) : Z :=
  match cs with [] => 0 | c :: cs => c * x o + dot_ref cs x (o + dir) dir end.
Definition l1 (cs : list Z) : Z := foldr (fun c s => Z.abs c + s) 0 cs.

Lemma l1_nonneg (cs : list Z) : 0 <= l1 cs.
Proof. unfold l1. induction cs as [|c cs IH]; cbn [foldr]; lia. Qed.

Lemma dot_acc_ok (mem : list Z) (dir B : Z) (cs : list Z) : forall o tmp, 0 <= B ->
  (forall t, 0 <= t < zlen cs -> 0 <= o + dir * t < zlen mem /\ - B <= zn mem (o + dir * t) <= B) ->
  Z.abs tmp + l1 cs * B < 2 ^ 31 -> dot_acc cs mem o dir tmp = Some (tmp + dot_ref cs (zn mem) o dir).
Proof.
  induction cs as [|c cs IH]; intros o tmp HB Hx Hs; cbn [dot_acc dot_ref]; [f_equal; lia|].
  pose proof (l1_nonneg cs) as Hl. pose proof (zlen_nonneg cs). rewrite zlen_cons in Hx.
  change (l1 (c :: cs)) with (Z.abs c + l1 cs) in Hs. pose proof (Hx 0 ltac:(lia)) as [H0 H1].
  rewrite Z.mul_0_r, Z.add_0_r in H0, H1. rewrite aget_in by done. cbn [mbind option_bind].
  assert (Z.abs (c * zn mem o) <= Z.abs c * B) as Hc by (rewrite Z.abs_mul; apply Z.mul_le_mono_nonneg_l; lia).
  assert (0 <= l1 cs * B) by (apply Z.mul_nonneg_nonneg; lia). rewrite Z.mul_add_distr_r in Hs.
  rewrite int_mul_in by lia. cbn [mbind option_bind]. rewrite int_add_in by lia. cbn [mbind option_bind].
  rewrite IH; [f_equal; lia|done| |lia]. intros t Ht. replace (o + dir + dir * t) with (o + dir * (t + 1)) by lia. apply Hx. lia.
Qed.

Lemma dot_ref_ext (cs : list Z) (dir : Z) (x y : Z -> Z) : forall o, (forall t, 0 <= t < zlen cs -> x (o + dir * t) = y (o + dir * t)) ->
  dot_ref cs x o dir = dot_ref cs y o dir.
Proof.
  induction cs as [|c cs IH]; intros o E; cbn [dot_ref]; [done|]. rewrite zlen_cons in E. pose proof (zlen_nonneg cs). f_equal.
  - pose proof (E 0 ltac:(lia)) as E0. rewrite Z.mul_0_r, Z.add_0_r in E0. by rewrite E0.
  - apply IH. intros t Ht. replace (o + dir + dir * t) with (o + dir * (t + 1)) by lia. apply E. lia.
Qed.

Section Frac.
Variables (rows : list (list Z)) (step B : Z) (mem0 : list Z) (In0 Out0 : Z) (K : nat).
Hypothesis HB : 0 <= B.
Hypothesis Hrows : Forall (fun row => zlen row = 8 /\ 2 ^ 14 + l1 row * B < 2 ^ 31) rows.
Hypothesis Hstep : 0 < zlen rows <= step.
Hypothesis Hplace : 0 <= Out0 <= In0.
(** The samples of [K] blocks, with the seven after the last row. *)
Hypothesis Hsize : In0 + step * Z.of_nat K + 8 <= zlen mem0.
Hypothesis Hmem : forall j, In0 <= j < zlen mem0 -> - B <= zn mem0 j <= B.

(** Output [q] of the filter, from the memory before. *)
Definition frac_ref (q : Z) : Z :=
  2 ^ 14 + dot_ref (zn rows (q mod zlen rows)) (zn mem0) (In0 + step * (q / zlen rows) + q mod zlen rows) 1.

Let fill := filled mem0 (fun q => Out0 + q) frac_ref.

Lemma frac_block_ok (m : nat) (rs : list (list Z)) : forall e mem, (m < K)%nat -> 0 <= e <= zlen rows -> drop (Z.to_nat e) rows = rs ->
  fill (zlen rows * Z.of_nat m + e) mem ->
  exists mem', frac_block rs mem (In0 + step * Z.of_nat m + e) (Out0 + (zlen rows * Z.of_nat m + e)) = Some mem' /\
    fill (zlen rows * Z.of_nat (S m)) mem'.
Proof.
  induction rs as [|row rs IH]; intros e mem Hm He Hd Hf; cbn [frac_block].
  - exists mem. split; [done|].
    assert (e = zlen rows) as ->.
    { apply (f_equal zlen) in Hd. rewrite zlen_drop in Hd by lia. change (zlen []) with 0 in Hd. lia. }
    by replace (zlen rows * Z.of_nat (S m)) with (zlen rows * Z.of_nat m + zlen rows) by lia.
  - destruct (drop_cons_inv rows e row rs ltac:(lia) Hd) as [Hrow Hd']. pose proof (aget_lt _ _ _ Hrow) as Her.
    pose proof (aget_zn _ _ _ Hrow) as Ern. rewrite Forall_forall in Hrows.
    destruct (Hrows row) as [H8 Hl1]; [rewrite <- Ern; by apply zn_elem|].
    set (q := zlen rows * Z.of_nat m + e) in *. assert (0 <= q) by (unfold q; nia).
    assert (q / zlen rows = Z.of_nat m /\ q mod zlen rows = e) as [Eq Er].
    { unfold q. rewrite Z.mul_comm. split; [rewrite Z.div_add_l, Z.div_small by lia; lia|].
      rewrite Z.add_comm, Z.mod_add, Z.mod_small by lia. done. }
    assert (step * Z.of_nat m + step <= step * Z.of_nat K) by nia.
    assert (q <= step * Z.of_nat m + e) by (unfold q; nia).
    pose proof (fl_len _ _ _ _ _ Hf) as Hlen.
    assert (forall j, Out0 + q <= j -> zn mem j = zn mem0 j) as Hold by (intros j Hj; apply Hf; lia).
    rewrite (dot_acc_ok mem 1 B row); [|lia| |lia].
    2: { intros t Ht. rewrite Z.mul_1_l. split; [lia|]. rewrite Hold by lia. apply Hmem. lia. }
    cbn [mbind option_bind].
    assert (2 ^ 14 + dot_ref row (zn mem) (In0 + step * Z.of_nat m + e) 1 = frac_ref q) as ->.
    { unfold frac_ref. rewrite Eq, Er, Ern. f_equal. apply dot_ref_ext. intros t Ht. apply Hold. lia. }
    assert (forall m', 0 <= m' < q + 1 -> 0 <= Out0 + m' < zlen mem0) as Hpos by (intros; lia).
    destruct (filled_step mem0 (fun q => Out0 + q) frac_ref (q + 1) Hpos ltac:(cbv beta; lia) q mem ltac:(lia) Hf)
      as [_ (mem' & -> & Hf')]. cbn [mbind option_bind].
    replace (In0 + step * Z.of_nat m + e + 1) with (In0 + step * Z.of_nat m + (e + 1)) by lia.
    replace (Out0 + q + 1) with (Out0 + (zlen rows * Z.of_nat m + (e + 1))) by (unfold q; lia).
    apply (IH (e + 1) mem'); auto; [lia|]. by replace (zlen rows * Z.of_nat m + (e + 1)) with (q + 1) by (unfold q; lia).
Qed.

Lemma frac_loop_ok (k : nat) : forall m mem, (m + k = K)%nat -> fill (zlen rows * Z.of_nat m) mem ->
  exists mem', frac_loop k rows step mem (In0 + step * Z.of_nat m) (Out0 + zlen rows * Z.of_nat m) = Some mem' /\
    fill (zlen rows * Z.of_nat K) mem'.
Proof.
  induction k as [|k IH]; intros m mem Hm Hf; cbn [frac_loop].
  - exists mem. split; [done|]. by replace K with m by lia.
  - destruct (frac_block_ok m rows 0 mem) as (mem' & E & Hf'); [lia|lia|done|by rewrite Z.add_0_r|].
    rewrite !Z.add_0_r in E. rewrite E. cbn [mbind option_bind].
    replace (In0 + step * Z.of_nat m + step) with (In0 + step * Z.of_nat (S m)) by lia.
    replace (Out0 + zlen rows * Z.of_nat m + zlen rows) with (Out0 + zlen rows * Z.of_nat (S m)) by lia.
    apply IH; [lia|done].
Qed.

Lemma frac_in_place : exists mem', frac_loop K rows step mem0 In0 Out0 = Some mem' /\ fill (zlen rows * Z.of_nat K) mem'.
Proof.
  destruct (frac_loop_ok K 0 mem0) as (mem' & E & Hf); [done| |].
  - rewrite Z.mul_0_r. apply filled_0.
  - rewrite !Z.mul_0_r, !Z.add_0_r in E. by exists mem'.
Qed.
End Frac.

(** The fractional filters from 48 to 32 kHz and from 32 to 24 kHz may work
    in place: when the output starts at or before the input in the same
    memory, every output is the inner product of the samples that were there
    before the call, no other cell is written, and samples of magnitude up
    to 47000 cause no overflow. *)
Lemma fractional_in_place (mem : list Z) (In_ Out : Z) (K : nat) : 0 <= Out <= In_ ->
  (forall j, In_ <= j < zlen mem -> - 47000 <= zn mem j <= 47000) ->
  (In_ + 3 * Z.of_nat K + 8 <= zlen mem -> exists mem', WebRtcSpl_Resample48khzTo32khz mem In_ Out (Z.of_nat K) = Some mem' /\
    filled mem (fun q => Out + q) (frac_ref kCoefficients48To32 3 mem In_) (2 * Z.of_nat K) mem') /\
  (In_ + 4 * Z.of_nat K + 8 <= zlen mem -> exists mem', WebRtcSpl_Resample32khzTo24khz mem In_ Out (Z.of_nat K) = Some mem' /\
    filled mem (fun q => Out + q) (frac_ref kCoefficients32To24 4 mem In_) (3 * Z.of_nat K) mem').
Proof.
  intros Hp Hm. unfold WebRtcSpl_Resample48khzTo32khz, WebRtcSpl_Resample32khzTo24khz. rewrite Nat2Z.id.
  split; intros Hs.
  - apply (frac_in_place kCoefficients48To32 3 47000); auto; try lia; [|closed]. repeat constructor; closed.
  - apply (frac_in_place kCoefficients32To24 4 47000); auto; try lia; [|closed]. repeat constructor; closed.
Qed.

Lemma fractional_witness : exists mem',
  WebRtcSpl_Resample48khzTo32khz (replicate 14 1000) 2 0 1 = Some mem' /\
  filled (replicate 14 1000) (fun q => 0 + q) (frac_ref kCoefficients48To32 3 (replicate 14 1000) 2) 2 mem'.
Proof.
  apply (fractional_in_place (replicate 14 1000) 2 0 1); [lia| |closed].
  intros j Hj. assert (zn (replicate 14 1000) j = 1000) as ->; [|lia].
  apply aget_zn. unfold aget. rewrite (proj2 (Z.leb_le 0 j)) by lia. apply lookup_replicate_2.
  change (zlen (replicate 14 1000)) with 14 in Hj. lia.
Defined.

(** A constant signal passes the resampler from 48 to 16 kHz: after the
    transient the output is the constant, up to two units. *)
Example resample_48_16_constant :
  match WebRtcSpl_Resample48khzTo16khz (replicate 480 500) (replicate 160 0)
      (St48To16 (replicate 16 0) (replicate 8 0) (replicate 8 0)) (replicate 496 0) with
  | Some (out, _, _) => zlen out = 160 /\ forallb (fun x => Z.abs (x - 500) <=? 2) (drop 60 out) = true
  | None => False
  end.
Proof. vm_compute. split; reflexivity. Qed.
