(* ===== verification/Spl22.v ===== *)
(** * The 22 kHz resamplers

    [resample.c] of
    [src/submodules/libtgvoip/webrtc_dsp/webrtc/common_audio/signal_processing]:
    the filter from 32 to 22 kHz and the four resamplers between 22 kHz and 8
    or 16 kHz, composed of it, of the filters by two ([SplBy2]) and of the
    filter from 44 to 32 kHz ([Spl48]).  As in [Spl48.v], the filters work on
    one array with the offsets of [In] and [Out], and [None] is an overflow of
    an [int] or an access outside of an array.  The theorem is about the two
    filters whose blocks write their outputs from both ends: they may work in
    place if the output starts far enough before the input. *)
From S2P Require Import Prelude.
From S2P Require Import Bytes.
From S2P Require Import SplArith.
From S2P Require Import SplVector.
From S2P Require Import SplFilter.
From S2P Require Import SplResample.
From S2P Require Import SplBy2.
From S2P Require Import Spl48.
From Stdlib Require Import ZArith Lia.
From stdpp Require Import base numbers option list.
Open Scope Z_scope.

Definition kCoefficients32To22 : list (list Z) :=
  [[127; -712; 2359; -6333; 23456; 16775; -3695; 945; -154];
   [-39; 230; -830; 2785; 32366; -2324; 760; -218; 38];
   [117; -663; 2222; -6133; 26634; 13070; -3174; 831; -137];
   [-77; 457; -1677; 5958; 31175; -4136; 1405; -408; 71];
   [98; -560; 1900; -5406; 29240; 9423; -2480; 663; -110]].

(** ** 32 kHz to 22 kHz *)

(** The body is that of [WebRtcSpl_ResampDotProduct]. *)
Definition WebRtcSpl_DotProdIntToInt (mem : list Z) (in1 in2 : Z) (coef_ptr : list Z) (out1 out2 : Z) : option (list Z) :=
  WebRtcSpl_ResampDotProduct mem in1 in2 coef_ptr out1 out2.

Fixpoint int_to_int_loop (K : nat) (mem : list Z) (In_ Out : Z) : option (list Z) :=
  match K with
  | O => Some mem
  | S K =>
    x ← aget mem (In_ + 3); p ← int_mul x (2 ^ 15); s ← int_add p (2 ^ 14);
    mem ← aset mem Out s;
    row ← aget kCoefficients32To22 0;
    mem ← WebRtcSpl_DotProdIntToInt mem In_ (In_ + 22) row (Out + 1) (Out + 10);
    row ← aget kCoefficients32To22 1;
    mem ← WebRtcSpl_DotProdIntToInt mem (In_ + 2) (In_ + 20) row (Out + 2) (Out + 9);
    row ← aget kCoefficients32To22 2;
    mem ← WebRtcSpl_DotProdIntToInt mem (In_ + 3) (In_ + 19) row (Out + 3) (Out + 8);
    row ← aget kCoefficients32To22 3;
    mem ← WebRtcSpl_DotProdIntToInt mem (In_ + 5) (In_ + 17) row (Out + 4) (Out + 7);
    row ← aget kCoefficients32To22 4;
    mem ← WebRtcSpl_DotProdIntToInt mem (In_ + 6) (In_ + 16) row (Out + 5) (Out + 6);
    int_to_int_loop K mem (In_ + 16) (Out + 11)
  end.

Definition WebRtcSpl_32khzTo22khzIntToInt (mem : list Z) (In_ Out K : Z) : option (list Z) :=
  int_to_int_loop (Z.to_nat K) mem In_ Out.

(** [tmp >>= 15; if (tmp > 0x7FFF) tmp = 0x7FFF; if (tmp < 0xFFFF8000) tmp = 0xFFFF8000;] *)
Definition clip16 (tmp : Z) : Z :=
  let tmp := if 0x7FFF <? tmp then 0x7FFF else tmp in
  if tmp <? - 0x8000 then - 0x8000 else tmp.

Definition WebRtcSpl_DotProdIntToShort (inp : list Z) (in1 in2 : Z) (coef_ptr : list Z) (out : list Z) (out1 out2 : Z)
  : option (list Z) :=
  tmp1 ← dot_acc coef_ptr inp in1 1 16384;
  tmp2 ← dot_acc coef_ptr inp in2 (-1) 16384;
  out ← aset out out1 (clip16 (Z.shiftr tmp1 15));
  aset out out2 (clip16 (Z.shiftr tmp2 15)).

Fixpoint int_to_short_loop (K : nat) (inp : list Z) (In_ : Z) (out : list Z) (Out : Z) : option (list Z) :=
  match K with
  | O => Some out
  | S K =>
    tmp ← aget inp (In_ + 3);
    out ← aset out Out (clip16 tmp);
    row ← aget kCoefficients32To22 0;
    out ← WebRtcSpl_DotProdIntToShort inp In_ (In_ + 22) row out (Out + 1) (Out + 10);
    row ← aget kCoefficients32To22 1;
    out ← WebRtcSpl_DotProdIntToShort inp (In_ + 2) (In_ + 20) row out (Out + 2) (Out + 9);
    row ← aget kCoefficients32To22 2;
    out ← WebRtcSpl_DotProdIntToShort inp (In_ + 3) (In_ + 19) row out (Out + 3) (Out + 8);
    row ← aget kCoefficients32To22 3;
    out ← WebRtcSpl_DotProdIntToShort inp (In_ + 5) (In_ + 17) row out (Out + 4) (Out + 7);
    row ← aget kCoefficients32To22 4;
    out ← WebRtcSpl_DotProdIntToShort inp (In_ + 6) (In_ + 16) row out (Out + 5) (Out + 6);
    int_to_short_loop K inp (In_ + 16) out (Out + 11)
  end.

Definition WebRtcSpl_32khzTo22khzIntToShort (inp : list Z) (In_ : Z) (out : list Z) (Out K : Z) : option (list Z) :=
  int_to_short_loop (Z.to_nat K) inp In_ out Out.

(** ** 22 kHz to 16 kHz *)

Definition SUB_BLOCKS_22_16 : Z := 5.
Record State22khzTo16khz := St22To16 { S_22_44 : list Z; S_44_32 : list Z; S_32_16 : list Z }.

(** One pass of the loop: the samples at [in], the outputs at [out]. *)
Definition block_22_16 (inp out : list Z) (st : State22khzTo16khz) (tmpmem : list Z)
  : option (list Z * (State22khzTo16khz * list Z)) :=
  '(tmpmem, s1) ← at_ptr tmpmem 16 (fun o => WebRtcSpl_UpBy2ShortToInt inp (220 / SUB_BLOCKS_22_16) o (S_22_44 st));
  '(tmpmem, s2) ← exchange tmpmem 8 (440 / SUB_BLOCKS_22_16 + 8) (S_44_32 st);
  tmpmem ← WebRtcSpl_Resample44khzTo32khz tmpmem 8 0 (40 / SUB_BLOCKS_22_16);
  '(tmpmem, out, s3) ← WebRtcSpl_DownBy2IntToShort tmpmem (320 / SUB_BLOCKS_22_16) out (S_32_16 st);
  Some (out, (St22To16 s1 s2 s3, tmpmem)).

(** [for (k = 0; k < n; k++)]: [in] and [out] move on by [di] and [dout]. *)
Fixpoint sub_blocks {St} (n : nat) (block : list Z -> list Z -> St -> list Z -> option (list Z * (St * list Z)))
    (di dout : Z) (inp out : list Z) (i o : Z) (st : St) (tmpmem : list Z) : option (list Z * St * list Z) :=
  match n with
  | O => Some (out, st, tmpmem)
  | S n =>
    '(out, (st, tmpmem)) ← at_ptr out o (fun out => block (drop (Z.to_nat i) inp) out st tmpmem);
    sub_blocks n block di dout inp out (i + di) (o + dout) st tmpmem
  end.

(** The results are [out], the state and the scratch memory. *)
Definition WebRtcSpl_Resample22khzTo16khz (inp out : list Z) (st : State22khzTo16khz) (tmpmem : list Z)
  : option (list Z * State22khzTo16khz * list Z) :=
  sub_blocks (Z.to_nat SUB_BLOCKS_22_16) block_22_16 (220 / SUB_BLOCKS_22_16) (160 / SUB_BLOCKS_22_16) inp out 0 0 st tmpmem.

Definition WebRtcSpl_ResetResample22khzTo16khz (st : State22khzTo16khz) : option State22khzTo16khz :=
  s1 ← bwrite (S_22_44 st) 0 (replicate 8 0);
  s2 ← bwrite (S_44_32 st) 0 (replicate 8 0);
  s3 ← bwrite (S_32_16 st) 0 (replicate 8 0);
  Some (St22To16 s1 s2 s3).

(** ** 16 kHz to 22 kHz *)

Definition SUB_BLOCKS_16_22 : Z := 4.
Record State16khzTo22khz := St16To22 { S_16_32 : list Z; S_32_22 : list Z }.

Definition block_16_22 (inp out : list Z) (st : State16khzTo22khz) (tmpmem : list Z)
  : option (list Z * (State16khzTo22khz * list Z)) :=
  '(tmpmem, s1) ← at_ptr tmpmem 8 (fun o => WebRtcSpl_UpBy2ShortToInt inp (160 / SUB_BLOCKS_16_22) o (S_16_32 st));
  '(tmpmem, s2) ← exchange tmpmem 0 (320 / SUB_BLOCKS_16_22) (S_32_22 st);
  out ← WebRtcSpl_32khzTo22khzIntToShort tmpmem 0 out 0 (20 / SUB_BLOCKS_16_22);
  Some (out, (St16To22 s1 s2, tmpmem)).

Definition WebRtcSpl_Resample16khzTo22khz (inp out : list Z) (st : State16khzTo22khz) (tmpmem : list Z)
  : option (list Z * State16khzTo22khz * list Z) :=
  sub_blocks (Z.to_nat SUB_BLOCKS_16_22) block_16_22 (160 / SUB_BLOCKS_16_22) (220 / SUB_BLOCKS_16_22) inp out 0 0 st tmpmem.

Definition WebRtcSpl_ResetResample16khzTo22khz (st : State16khzTo22khz) : option State16khzTo22khz :=
  s1 ← bwrite (S_16_32 st) 0 (replicate 8 0);
  s2 ← bwrite (S_32_22 st) 0 (replicate 8 0);
  Some (St16To22 s1 s2).

(** ** 22 kHz to 8 kHz *)

Definition SUB_BLOCKS_22_8 : Z := 2.
Record State22khzTo8khz := St22To8 { S_22_22 : list Z; S_22_16 : list Z; S_16_8 : list Z }.

Definition block_22_8 (inp out : list Z) (st : State22khzTo8khz) (tmpmem : list Z)
  : option (list Z * (State22khzTo8khz * list Z)) :=
  '(tmpmem, s1) ← at_ptr tmpmem 16 (fun o => WebRtcSpl_LPBy2ShortToInt inp (220 / SUB_BLOCKS_22_8) o (S_22_22 st));
  '(tmpmem, s2) ← exchange tmpmem 8 (220 / SUB_BLOCKS_22_8 + 8) (S_22_16 st);
  tmpmem ← WebRtcSpl_Resample44khzTo32khz tmpmem 8 0 (20 / SUB_BLOCKS_22_8);
  '(tmpmem, out, s3) ← WebRtcSpl_DownBy2IntToShort tmpmem (160 / SUB_BLOCKS_22_8) out (S_16_8 st);
  Some (out, (St22To8 s1 s2 s3, tmpmem)).

Definition WebRtcSpl_Resample22khzTo8khz (inp out : list Z) (st : State22khzTo8khz) (tmpmem : list Z)
  : option (list Z * State22khzTo8khz * list Z) :=
  sub_blocks (Z.to_nat SUB_BLOCKS_22_8) block_22_8 (220 / SUB_BLOCKS_22_8) (80 / SUB_BLOCKS_22_8) inp out 0 0 st tmpmem.

Definition WebRtcSpl_ResetResample22khzTo8khz (st : State22khzTo8khz) : option State22khzTo8khz :=
  s1 ← bwrite (S_22_22 st) 0 (replicate 16 0);
  s2 ← bwrite (S_22_16 st) 0 (replicate 8 0);
  s3 ← bwrite (S_16_8 st) 0 (replicate 8 0);
  Some (St22To8 s1 s2 s3).

(** ** 8 kHz to 22 kHz *)

Definition SUB_BLOCKS_8_22 : Z := 2.
Record State8khzTo22khz := St8To22 { S_8_16 : list Z; S_16_11 : list Z; S_11_22 : list Z }.

Definition block_8_22 (inp out : list Z) (st : State8khzTo22khz) (tmpmem : list Z)
  : option (list Z * (State8khzTo22khz * list Z)) :=
  '(tmpmem, s1) ← at_ptr tmpmem 18 (fun o => WebRtcSpl_UpBy2ShortToInt inp (80 / SUB_BLOCKS_8_22) o (S_8_16 st));
  '(tmpmem, s2) ← exchange tmpmem 10 (160 / SUB_BLOCKS_8_22 + 10) (S_16_11 st);
  tmpmem ← WebRtcSpl_32khzTo22khzIntToInt tmpmem 10 0 (10 / SUB_BLOCKS_8_22);
  '(out, s3) ← WebRtcSpl_UpBy2IntToShort tmpmem (110 / SUB_BLOCKS_8_22) out (S_11_22 st);
  Some (out, (St8To22 s1 s2 s3, tmpmem)).

Definition WebRtcSpl_Resample8khzTo22khz (inp out : list Z) (st : State8khzTo22khz) (tmpmem : list Z)
  : option (list Z * State8khzTo22khz * list Z) :=
  sub_blocks (Z.to_nat SUB_BLOCKS_8_22) block_8_22 (80 / SUB_BLOCKS_8_22) (220 / SUB_BLOCKS_8_22) inp out 0 0 st tmpmem.

Definition WebRtcSpl_ResetResample8khzTo22khz (st : State8khzTo22khz) : option State8khzTo22khz :=
  s1 ← bwrite (S_8_16 st) 0 (replicate 8 0);
  s2 ← bwrite (S_16_11 st) 0 (replicate 8 0);
  s3 ← bwrite (S_11_22 st) 0 (replicate 8 0);
  Some (St8To22 s1 s2 s3).

(** A constant signal passes the four resamplers: after the transient of the
    first call, the second call gives the constant, up to three units. *)
Definition settles (bound c : Z) (out : list Z) : bool := forallb (fun x => Z.abs (x - c) <=? bound) out.

Example resample_22_16_constant :
  (r ← WebRtcSpl_Resample22khzTo16khz (replicate 220 500) (replicate 160 0) (St22To16 (replicate 8 0) (replicate 8 0) (replicate 8 0)) (replicate 104 0);
   let '(_, st, tmp) := r in
   r ← WebRtcSpl_Resample22khzTo16khz (replicate 220 500) (replicate 160 0) st tmp;
   Some (settles 3 500 r.1.1)) = Some true.
Proof. vm_compute. reflexivity. Qed.

Example resample_16_22_constant :
  (r ← WebRtcSpl_Resample16khzTo22khz (replicate 160 500) (replicate 220 0) (St16To22 (replicate 8 0) (replicate 8 0)) (replicate 88 0);
   let '(_, st, tmp) := r in
   r ← WebRtcSpl_Resample16khzTo22khz (replicate 160 500) (replicate 220 0) st tmp;
   Some (settles 3 500 r.1.1)) = Some true.
Proof. vm_compute. reflexivity. Qed.

Example resample_22_8_constant :
  (r ← WebRtcSpl_Resample22khzTo8khz (replicate 220 500) (replicate 80 0) (St22To8 (replicate 16 0) (replicate 8 0) (replicate 8 0)) (replicate 126 0);
   let '(_, st, tmp) := r in
   r ← WebRtcSpl_Resample22khzTo8khz (replicate 220 500) (replicate 80 0) st tmp;
   Some (settles 3 500 r.1.1)) = Some true.
Proof. vm_compute. reflexivity. Qed.

Example resample_8_22_constant :
  (r ← WebRtcSpl_Resample8khzTo22khz (replicate 80 500) (replicate 220 0) (St8To22 (replicate 8 0) (replicate 8 0) (replicate 8 0)) (replicate 98 0);
   let '(_, st, tmp) := r in
   r ← WebRtcSpl_Resample8khzTo22khz (replicate 80 500) (replicate 220 0) st tmp;
   Some (settles 3 500 r.1.1)) = Some true.
Proof. vm_compute. reflexivity. Qed.

(** ** Blocks that write from both ends *)

(** From [mem] to [mem'], the cells of [ws] are written and no others. *)
Record wrote (mem : list Z) (ws : list (Z * Z)) (mem' : list Z) : Prop := {
  wo_len : zlen mem' = zlen mem;
  wo_in o v : (o, v) ∈ ws -> zn mem' o = v;
  wo_out j : j ∉ ws.*1 -> zn mem' j = zn mem j
}.

Lemma wrote_nil (mem : list Z) : wrote mem [] mem.
Proof. split; [done| |done]. intros o v Hi. by apply elem_of_nil in Hi. Qed.

Lemma apart (P : Z -> Prop) (o : Z) (ws : list (Z * Z)) : Forall (fun w => P w.1) ws -> ~ P o -> o ∉ ws.*1.
Proof. intros Hf Ho (w & -> & Hw)%list_elem_of_fmap. by apply Ho, (proj1 (Forall_forall _ _) Hf w Hw). Qed.

Lemma wrote_step (mem : list Z) (ws : list (Z * Z)) (mem1 : list Z) (o v : Z) : wrote mem ws mem1 ->
  0 <= o < zlen mem -> Forall (fun w => w.1 <> o) ws -> exists mem2, aset mem1 o v = Some mem2 /\ wrote mem ((o, v) :: ws) mem2.
Proof.
  intros [H1 H2 H3] Ho Hf. assert (o ∉ ws.*1) as Hni by (apply (apart (fun x => x <> o)); auto).
  exists (zset mem1 o v). split; [apply aset_in; lia|]. split.
  - by rewrite zlen_zset.
  - intros o' v' [[= -> ->]|Hi]%elem_of_cons; [apply zn_zset_eq; lia|].
    rewrite zn_zset_ne; [by apply H2|lia|]. intros ->. apply Hni. apply list_elem_of_fmap. by exists (o', v').
  - intros j Hj. cbn [fmap list_fmap fst] in Hj. apply not_elem_of_cons in Hj as [Hne Hj].
    rewrite zn_zset_ne by (lia || congruence). by apply H3.
Qed.

(** An output: the coefficients, the offset of the first sample in the block
    and the direction; its value. *)
Definition output (x : Z -> Z) (base : Z) (o : list Z * Z * Z) : Z :=
  let '(row, off, dir) := o in 2 ^ 14 + dot_ref row x (base + off) dir.

(** The outputs of a block of 16 and of 11 samples, in the order of the cells. *)
Definition outputs (rows : list (list Z)) (offs : list (Z * Z * Z)) : list (list Z * Z * Z) :=
  ([2 ^ 15], 3, 1) :: ((fun '(row, off, dir) => (zn rows row, off, dir)) <$> offs).
Definition outputs22 : list (list Z * Z * Z) := outputs kCoefficients32To22
  [(0, 0, 1); (1, 2, 1); (2, 3, 1); (3, 5, 1); (4, 6, 1); (4, 16, -1); (3, 17, -1); (2, 19, -1); (1, 20, -1); (0, 22, -1)].
Definition outputs44 : list (list Z * Z * Z) := outputs kCoefficients44To32
  [(0, 0, 1); (1, 2, 1); (2, 3, 1); (3, 5, 1); (2, 14, -1); (1, 15, -1); (0, 17, -1)].

(** Output [q] of a filter, from the samples before. *)
Definition both_ref (outs : list (list Z * Z * Z)) (step : Z) (x : Z -> Z) (In0 q : Z) : Z :=
  output x (In0 + step * (q / zlen outs)) (zn outs (q mod zlen outs)).

Section Both.
Variables (B : Z) (mem mem1 : list Z) (ws : list (Z * Z)).
Hypothesis HB : 0 <= B.
Hypothesis Hw : wrote mem ws mem1.

(** An inner product of samples beyond the written cells. *)
Lemma product_ok (row : list Z) (lo o dir : Z) : Forall (fun w => w.1 < lo) ws -> 2 ^ 14 + l1 row * B < 2 ^ 31 ->
  (forall t, 0 <= t < zlen row -> lo <= o + dir * t /\ 0 <= o + dir * t < zlen mem /\ - B <= zn mem (o + dir * t) <= B) ->
  dot_acc row mem1 o dir (2 ^ 14) = Some (2 ^ 14 + dot_ref row (zn mem) o dir).
Proof.
  intros Hf Hl Hr. assert (forall t, 0 <= t < zlen row -> zn mem1 (o + dir * t) = zn mem (o + dir * t)) as E.
  { intros t Ht. apply (wo_out _ _ _ Hw). apply (apart (fun x => x < lo)); [done|]. destruct (Hr t Ht). lia. }
  rewrite (dot_acc_ok mem1 dir B row o (2 ^ 14)); [f_equal; f_equal; by apply dot_ref_ext|done| |lia].
  intros t Ht. rewrite (wo_len _ _ _ Hw), E by done. by apply Hr.
Qed.
End Both.

Lemma dot_acc_app (mem : list Z) (dir : Z) (a b : list Z) : forall o tmp,
  dot_acc (a ++ b) mem o dir tmp = (t ← dot_acc a mem o dir tmp; dot_acc b mem (o + dir * zlen a) dir t).
Proof.
  induction a as [|c a IH]; intros o tmp; cbn [dot_acc app].
  - cbn [mbind option_bind]. by rewrite zlen_nil, Z.mul_0_r, Z.add_0_r.
  - rewrite zlen_cons. destruct (aget mem o); [|done]. cbn [mbind option_bind]. destruct (int_mul c z); [|done]. cbn [mbind option_bind].
    destruct (int_add tmp z0); [|done]. cbn [mbind option_bind]. rewrite IH. by replace (o + dir + dir * zlen a) with (o + dir * (1 + zlen a)) by lia.
Qed.

Lemma last_product (mem : list Z) (row : list Z) (c o dir s : Z) : zlen row = 9 -> aget row 8 = Some c ->
  dot_acc row mem o dir (2 ^ 14) = Some s ->
  exists t, dot_acc (take 8 row) mem o dir (2 ^ 14) = Some t /\
    (x ← aget mem (o + dir * 8); p ← int_mul c x; int_add t p) = Some s.
Proof.
  intros Hl Hc E.
  assert (row = take 8 row ++ [c]) as Er.
  { rewrite <- (take_drop 8 row) at 1. f_equal. unfold aget in Hc. cbn in Hc. rewrite (drop_S row c 8) by done.
    f_equal. apply nil_length_inv. rewrite length_drop. unfold zlen in Hl. lia. }
  rewrite Er, dot_acc_app in E. destruct (dot_acc (take 8 row) mem o dir (2 ^ 14)) as [t|]; [|done]. exists t. split; [done|].
  cbn [mbind option_bind] in E. change 8%nat with (Z.to_nat 8) in E. rewrite zlen_take in E by lia. cbn [dot_acc] in E.
  destruct (aget mem (o + dir * 8)); [|done]. cbn [mbind option_bind] in *. destruct (int_mul c z); [|done]. cbn [mbind option_bind] in *.
  by destruct (int_add t z0).
Qed.

(** The two products of a pair of outputs. *)
Lemma pair_ok (B : Z) (mem mem1 : list Z) (ws : list (Z * Z)) (row : list Z) (in1 in2 out1 out2 : Z) : 0 <= B ->
  wrote mem ws mem1 -> zlen row = 9 -> 2 ^ 14 + l1 row * B < 2 ^ 31 ->
  0 <= in1 <= in2 - 8 -> in2 < zlen mem -> (forall j, in1 <= j <= in2 -> - B <= zn mem j <= B) ->
  Forall (fun w => w.1 < in1) ws -> 0 <= out1 < in1 -> out1 < out2 < zlen mem ->
  Forall (fun w => w.1 <> out1) ws -> Forall (fun w => w.1 <> out2) ws ->
  exists mem2, WebRtcSpl_ResampDotProduct mem1 in1 in2 row out1 out2 = Some mem2 /\
    wrote mem ((out2, 2 ^ 14 + dot_ref row (zn mem) in2 (-1)) :: (out1, 2 ^ 14 + dot_ref row (zn mem) in1 1) :: ws) mem2.
Proof.
  intros HB Hw Hr Hl H1 H2 Hx Hws Ho1 Ho2 Hd1 Hd2.
  assert (exists c, aget row 8 = Some c) as (c & Hc) by (eexists; apply aget_in; lia).
  destruct (last_product mem1 row c in1 1 _ Hr Hc (product_ok B mem mem1 ws HB Hw row in1 in1 1 Hws Hl ltac:(intros t Ht; split_and!; try lia; apply Hx; lia)))
    as (t1 & E1 & F1).
  destruct (last_product mem1 row c in2 (-1) _ Hr Hc (product_ok B mem mem1 ws HB Hw row in1 in2 (-1) Hws Hl ltac:(intros t Ht; split_and!; try lia; apply Hx; lia)))
    as (t2 & E2 & F2).
  unfold WebRtcSpl_ResampDotProduct. change 16384 with (2 ^ 14). rewrite E1, E2, Hc. cbn [mbind option_bind].
  replace (in1 + 1 * 8) with (in1 + 8) in F1 by lia. replace (in2 + -1 * 8) with (in2 - 8) in F2 by lia.
  destruct (aget mem1 (in1 + 8)) as [x1|]; [|done]. cbn [mbind option_bind] in *. destruct (int_mul c x1); [|done]. cbn [mbind option_bind] in *.
  rewrite F1. cbn [mbind option_bind]. destruct (wrote_step mem ws mem1 out1 (2 ^ 14 + dot_ref row (zn mem) in1 1) Hw ltac:(lia) Hd1) as (m2 & -> & Hw2).
  cbn [mbind option_bind].
  assert (aget m2 (in2 - 8) = aget mem1 (in2 - 8)) as ->.
  { rewrite !aget_in; [|rewrite (wo_len _ _ _ Hw); lia|rewrite (wo_len _ _ _ Hw2); lia]. f_equal.
    rewrite (wo_out _ _ _ Hw2), (wo_out _ _ _ Hw); [done| |].
    - apply (apart (fun x => x < in1)); [done|lia].
    - cbn [fmap list_fmap fst]. apply not_elem_of_cons. split; [lia|]. apply (apart (fun x => x < in1)); [done|lia]. }
  destruct (aget mem1 (in2 - 8)) as [x2|]; [|done]. cbn [mbind option_bind] in *. destruct (int_mul c x2); [|done]. cbn [mbind option_bind] in *.
  rewrite F2. cbn [mbind option_bind].
  apply (wrote_step mem _ m2 out2 (2 ^ 14 + dot_ref row (zn mem) in2 (-1)) Hw2); [lia|]. apply Forall_cons. split; [cbn; lia|done].
Qed.

(** The outputs of a block complete those before. *)
Lemma filled_block (mem0 mem mem' : list Z) (pos val : Z -> Z) (i n : Z) (ws : list (Z * Z)) :
  filled mem0 pos val i mem -> wrote mem ws mem' -> 0 <= i -> 0 <= n ->
  (forall a b, pos a = pos b -> a = b) -> 
  (forall r, 0 <= r < n -> (pos (i + r), val (i + r)) ∈ ws) -> (forall o, o ∈ ws.*1 -> exists r, 0 <= r < n /\ o = pos (i + r)) ->
  filled mem0 pos val (i + n) mem'.
Proof.
  intros [F1 F2 F3] [W1 W2 W3] Hi Hn Hinj Hin Hout. split.
  - by rewrite W1.
  - intros m Hm. destruct (decide (m < i)) as [Hlt|Hge].
    + rewrite W3; [apply F2; lia|]. intros (r & Hr & E%Hinj)%Hout. lia.
    + replace m with (i + (m - i)) by lia. apply W2, Hin. lia.
  - intros j Hj Hno. rewrite W3; [apply F3; [done|]; intros m Hm; apply Hno; lia|].
    intros (r & Hr & ->)%Hout. apply (Hno (i + r)); lia.
Qed.

(** The first output of a block is its sample in the scale of the others. *)
Lemma first_ok (mem : list Z) (In_ Out : Z) : 0 <= Out <= In_ -> In_ + 3 < zlen mem -> - 39000 <= zn mem (In_ + 3) <= 39000 ->
  let x := zn mem (In_ + 3) in
  aget mem (In_ + 3) = Some x /\ int_mul x (2 ^ 15) = Some (x * 2 ^ 15) /\ int_add (x * 2 ^ 15) (2 ^ 14) = Some (x * 2 ^ 15 + 2 ^ 14) /\
  exists mem1, aset mem Out (x * 2 ^ 15 + 2 ^ 14) = Some mem1 /\ wrote mem [(Out, output (zn mem) In_ ([2 ^ 15], 3, 1))] mem1.
Proof.
  intros H1 H2 Hx x. split_and!; [apply aget_in; lia|apply int_mul_in; lia|apply int_add_in; lia|].
  unfold output. cbn [dot_ref]. replace (2 ^ 14 + (2 ^ 15 * zn mem (In_ + 3) + 0)) with (x * 2 ^ 15 + 2 ^ 14) by lia.
  apply (wrote_step mem [] mem); [apply wrote_nil|lia|by apply Forall_nil].
Qed.

(** What a block writes, in any order. *)
Definition block_writes (outs : list (list Z * Z * Z)) (mem : list Z) (In_ Out : Z) (ws : list (Z * Z)) : Prop :=
  (forall r, 0 <= r < zlen outs -> (Out + r, output (zn mem) In_ (zn outs r)) ∈ ws) /\
  (forall o, o ∈ ws.*1 -> exists r, 0 <= r < zlen outs /\ o = Out + r).

(** The next pair of a block; [Hw] is what is written so far. *)
Ltac cells := repeat (first [by apply Forall_nil | apply Forall_cons; split; [cbn [fst]; lia|]]).
Ltac next_pair Hb :=
  match goal with Hw : wrote ?mem ?ws ?m1 |- context [WebRtcSpl_ResampDotProduct ?m1 ?a ?b ?row ?oa ?ob] =>
    let m2 := fresh "mem" in let Hw2 := fresh "Hw" in
    destruct (pair_ok 39000 mem m1 ws row a b oa ob ltac:(lia) Hw eq_refl ltac:(closed) ltac:(lia) ltac:(lia)
      ltac:(intros ? ?; apply Hb; lia) ltac:(cells) ltac:(lia) ltac:(lia) ltac:(cells) ltac:(cells)) as (m2 & -> & Hw2);
    clear Hw; cbn [mbind option_bind]
  end.

(** The writes of a block of [n] outputs, one by one. *)
Ltac block_cells outs n :=
  split;
  [ intros r Hr; change (zlen _) with n in Hr; assert (r ∈ seqZ 0 n) as Hin by (apply elem_of_seqZ; lia);
    let l := eval vm_compute in (seqZ 0 n) in change (seqZ 0 n) with l in Hin;
    repeat (apply elem_of_cons in Hin as [->|Hin];
      [match goal with |- context [zn outs ?k] => let o := eval vm_compute in (zn outs k) in change (zn outs k) with o end;
       rewrite !elem_of_cons; unfold output; rewrite ?Z.add_0_r; tauto|]);
    by apply elem_of_nil in Hin
  | intros o Ho; cbn [fmap list_fmap fst] in Ho; change (zlen _) with n;
    repeat (apply elem_of_cons in Ho as [->|Ho]; [first [by (exists 0; lia) | eexists; split; [|reflexivity]; lia]|]); by apply elem_of_nil in Ho ].

Section Block.
Variables (mem : list Z) (In_ Out : Z).
Hypothesis Hb : forall j, In_ <= j < zlen mem -> - 39000 <= zn mem j <= 39000.

Lemma int_to_int_block (K : nat) : 0 <= Out -> Out + 10 <= In_ -> In_ + 22 < zlen mem ->
  exists mem' ws, wrote mem ws mem' /\ block_writes outputs22 mem In_ Out ws /\
    int_to_int_loop (S K) mem In_ Out = int_to_int_loop K mem' (In_ + 16) (Out + 11).
Proof.
  intros H1 H2 H3. destruct (first_ok mem In_ Out ltac:(lia) ltac:(lia) ltac:(apply Hb; lia)) as (E1 & E2 & E3 & m1 & E4 & Hw).
  cbn [int_to_int_loop]. unfold WebRtcSpl_DotProdIntToInt. rewrite E1. cbn [mbind option_bind]. rewrite E2. cbn [mbind option_bind].
  rewrite E3. cbn [mbind option_bind]. rewrite E4. cbn [mbind option_bind].
  repeat match goal with |- context [aget kCoefficients32To22 ?k] => 
    let row := eval vm_compute in (zn kCoefficients32To22 k) in change (aget kCoefficients32To22 k) with (Some row) end.
  cbn [mbind option_bind].
  next_pair Hb. next_pair Hb. next_pair Hb. next_pair Hb. next_pair Hb.
  eexists _, _. split; [exact Hw0|]. split; [|reflexivity].
  block_cells outputs22 11.
Qed.

Lemma frac44_block (K : nat) : 0 <= Out -> Out + 6 <= In_ -> In_ + 17 < zlen mem ->
  exists mem' ws, wrote mem ws mem' /\ block_writes outputs44 mem In_ Out ws /\
    frac44_loop (S K) mem In_ Out = frac44_loop K mem' (In_ + 11) (Out + 8).
Proof.
  intros H1 H2 H3. destruct (first_ok mem In_ Out ltac:(lia) ltac:(lia) ltac:(apply Hb; lia)) as (E1 & E2 & E3 & m1 & E4 & Hw1).
  cbn [frac44_loop]. rewrite E1. cbn [mbind option_bind]. rewrite E2. cbn [mbind option_bind].
  rewrite E3. cbn [mbind option_bind]. rewrite E4. cbn [mbind option_bind].
  repeat match goal with |- context [aget kCoefficients44To32 ?k] =>
    let row := eval vm_compute in (zn kCoefficients44To32 k) in change (aget kCoefficients44To32 k) with (Some row) end.
  cbn [mbind option_bind].
  rewrite (product_ok 39000 mem m1 _ ltac:(lia) Hw1 _ (In_ + 5) (In_ + 5) 1); [|by cells|closed|].
  2: { intros t Ht. change (zlen _) with 9 in Ht. split_and!; try lia; apply Hb; lia. }
  cbn [mbind option_bind].
  match goal with |- context [aset m1 ?o ?v] => destruct (wrote_step mem _ m1 o v Hw1 ltac:(lia) ltac:(cells)) as (m2 & -> & Hw) end.
  cbn [mbind option_bind]. clear Hw1. next_pair Hb. next_pair Hb. next_pair Hb.
  eexists _, _. split; [eassumption|]. split; [|reflexivity]. block_cells outputs44 8.
Qed.
End Block.

(** ** The filters in place *)

Section Loop.
Variables (outs : list (list Z * Z * Z)) (step gap span : Z) (loop : nat -> list Z -> Z -> Z -> option (list Z)).
Hypothesis Hend : forall mem In_ Out, loop 0%nat mem In_ Out = Some mem.
Hypothesis Hblock : forall mem In_ Out, (forall j, In_ <= j < zlen mem -> - 39000 <= zn mem j <= 39000) -> forall K,
  0 <= Out -> Out + gap <= In_ -> In_ + span < zlen mem ->
  exists mem' ws, wrote mem ws mem' /\ block_writes outs mem In_ Out ws /\
    loop (S K) mem In_ Out = loop K mem' (In_ + step) (Out + zlen outs).
Hypothesis Hstep : 0 < zlen outs <= step.
Hypothesis Hreach : Forall (fun o => 0 <= o.1.2 /\ 0 <= o.1.2 + o.2 * (zlen o.1.1 - 1) /\ (o.2 = 1 \/ o.2 = -1)) outs.
Variables (mem0 : list Z) (In0 Out0 : Z) (K : nat).
Hypothesis Hplace : 0 <= Out0 /\ Out0 + gap <= In0 /\ 0 <= gap.
Hypothesis Hsize : 0 < Z.of_nat K -> In0 + step * (Z.of_nat K - 1) + span < zlen mem0.
Hypothesis Hmem : forall j, In0 <= j < zlen mem0 -> - 39000 <= zn mem0 j <= 39000.
Let fill := filled mem0 (fun q => Out0 + q) (both_ref outs step (zn mem0) In0).

(** The outputs before the samples of a block do not change them. *)
Lemma outputs_same (mem : list Z) (m r : Z) : 0 <= m -> 0 <= r < zlen outs -> fill (zlen outs * m) mem ->
  output (zn mem) (In0 + step * m) (zn outs r) = both_ref outs step (zn mem0) In0 (zlen outs * m + r).
Proof.
  intros Hm Hr Hf. unfold both_ref.
  assert ((zlen outs * m + r) / zlen outs = m /\ (zlen outs * m + r) mod zlen outs = r) as [-> ->].
  { rewrite Z.mul_comm. split; [rewrite Z.div_add_l, Z.div_small by lia; lia|]. rewrite Z.add_comm, Z.mod_add, Z.mod_small by lia. done. }
  pose proof (proj1 (Forall_forall _ _) Hreach (zn outs r) (zn_elem outs r Hr)) as Hx.
  destruct (zn outs r) as [[row off] dir]. cbn [fst snd] in Hx. unfold output. f_equal. apply dot_ref_ext. intros t Ht.
  assert (zlen outs * m <= step * m) by (apply Z.mul_le_mono_nonneg_r; lia).
  assert (0 <= zlen outs * m) by (apply Z.mul_nonneg_nonneg; lia).
  assert (0 <= off + dir * t) by (destruct Hx as (? & ? & [-> | ->]); lia).
  apply (fl_old _ _ _ _ _ Hf); [|intros q Hq]; lia.
Qed.

Lemma both_loop (k : nat) : forall m mem, (m + k = K)%nat -> fill (zlen outs * Z.of_nat m) mem ->
  exists mem', loop k mem (In0 + step * Z.of_nat m) (Out0 + zlen outs * Z.of_nat m) = Some mem' /\ fill (zlen outs * Z.of_nat K) mem'.
Proof.
  induction k as [|k IH]; intros m mem Hm Hf.
  - exists mem. rewrite Hend. split; [done|]. by replace K with m by lia.
  - pose proof (fl_len _ _ _ _ _ Hf) as Hlen.
    assert (zlen outs * Z.of_nat m <= step * Z.of_nat m) by (apply Z.mul_le_mono_nonneg_r; lia).
    assert (step * Z.of_nat m <= step * (Z.of_nat K - 1)) by (apply Z.mul_le_mono_nonneg_l; lia).
    assert (0 <= zlen outs * Z.of_nat m) by (apply Z.mul_nonneg_nonneg; lia).
    destruct (Hblock mem (In0 + step * Z.of_nat m) (Out0 + zlen outs * Z.of_nat m)) with (K := k) as (mem' & ws & Hw & [Hin Hout] & ->).
    + intros j Hj. assert (zn mem j = zn mem0 j) as ->; [|apply Hmem; lia]. apply (fl_old _ _ _ _ _ Hf); [lia|]. intros q Hq. lia.
    + lia.
    + lia.
    + rewrite Hlen. lia.
    + destruct (IH (S m) mem') as (mem2 & E & Hf2); [lia| |].
      * replace (zlen outs * Z.of_nat (S m)) with (zlen outs * Z.of_nat m + zlen outs) by lia.
        apply (filled_block mem0 mem mem' _ _ _ _ ws Hf Hw); [lia|lia|intros; lia| |].
        -- intros r Hr. rewrite <- (outputs_same mem) by (done || lia). rewrite Z.add_assoc. by apply Hin.
        -- intros o Ho. destruct (Hout o Ho) as (r & Hr & ->). exists r. split; [done|lia].
      * exists mem2. split; [|done]. rewrite <- E. f_equal; lia.
Qed.

Lemma both_in_place : exists mem', loop K mem0 In0 Out0 = Some mem' /\ fill (zlen outs * Z.of_nat K) mem'.
Proof.
  destruct (both_loop K 0 mem0) as (mem' & E & Hf); [done| |].
  - rewrite Z.mul_0_r. apply filled_0.
  - rewrite !Z.mul_0_r, !Z.add_0_r in E. by exists mem'.
Qed.
End Loop.

(** C38: the filters from 44 to 32 kHz and from 32 to 22 kHz, which write the
    outputs of a block from both ends, may work in place when the output
    starts at least 6 or 10 cells before the input in the same memory: every
    output is the inner product of the samples that were there before the
    call with the coefficients, forward or backward, no other cell is
    written, and samples of magnitude up to 39000 cause no overflow. *)
Theorem mirrored_in_place (mem : list Z) (In_ Out : Z) (K : nat) : 0 <= Out -> 0 < Z.of_nat K ->
  (forall j, In_ <= j < zlen mem -> - 39000 <= zn mem j <= 39000) ->
  (Out + 6 <= In_ -> In_ + 11 * (Z.of_nat K - 1) + 17 < zlen mem ->
    exists mem', WebRtcSpl_Resample44khzTo32khz mem In_ Out (Z.of_nat K) = Some mem' /\
      filled mem (fun q => Out + q) (both_ref outputs44 11 (zn mem) In_) (8 * Z.of_nat K) mem') /\
  (Out + 10 <= In_ -> In_ + 16 * (Z.of_nat K - 1) + 22 < zlen mem ->
    exists mem', WebRtcSpl_32khzTo22khzIntToInt mem In_ Out (Z.of_nat K) = Some mem' /\
      filled mem (fun q => Out + q) (both_ref outputs22 16 (zn mem) In_) (11 * Z.of_nat K) mem').
Proof.
  intros Ho HK Hm. unfold WebRtcSpl_Resample44khzTo32khz, WebRtcSpl_32khzTo22khzIntToInt. rewrite Nat2Z.id. split; intros Hp Hs.
  - apply (both_in_place outputs44 11 6 17 frac44_loop); try assumption; try lia; try reflexivity.
    + intros mem1 In1 Out1 Hb K1 ? ? ?. by apply frac44_block.
    + change (zlen outputs44) with 8. lia.
    + apply (bool_decide_unpack _). vm_compute. exact I.
  - apply (both_in_place outputs22 16 10 22 int_to_int_loop); try assumption; try lia; try reflexivity.
    + intros mem1 In1 Out1 Hb K1 ? ? ?. by apply int_to_int_block.
    + change (zlen outputs22) with 11. lia.
    + apply (bool_decide_unpack _). vm_compute. exact I.
Qed.

Lemma mirrored_witness : exists mem',
  WebRtcSpl_32khzTo22khzIntToInt (replicate 34 1000) 10 0 1 = Some mem' /\
  filled (replicate 34 1000) (fun q => 0 + q) (both_ref outputs22 16 (zn (replicate 34 1000)) 10) 11 mem'.
Proof.
  apply (mirrored_in_place (replicate 34 1000) 10 0 1); [lia|lia| |lia|].
  - intros j Hj. assert (zn (replicate 34 1000) j = 1000) as ->; [|lia].
    apply aget_zn. unfold aget. rewrite (proj2 (Z.leb_le 0 j)) by lia. apply lookup_replicate_2.
    change (zlen (replicate 34 1000)) with 34 in Hj. lia.
  - change (zlen (replicate 34 1000)) with 34. lia.
Defined.
