(* ===== verification/SplSqrt.v ===== *)
(** * Square roots by a polynomial

    [spl_sqrt.c] and [sqrt_of_one_minus_x_squared.c] of
    [src/submodules/libtgvoip/webrtc_dsp/webrtc/common_audio/signal_processing]:
    the argument is normalised, the square root taken by a polynomial of
    degree five in 16-bit fixed point, and the result shifted back.  [None] is
    an overflow of an [int].  The error bound is proved by evaluating the
    polynomial at every normalised 16-bit argument. *)
From S2P Require Import Prelude.
From S2P Require Import SplArith.
From S2P Require Import SplVector.
From S2P Require Import SplFilter.
From S2P Require Import SplResample.
From S2P Require Import SplBy2.
From Stdlib Require Import ZArith Lia.
From stdpp Require Import base numbers option list.
Open Scope Z_scope.

Definition WebRtcSpl_SqrtLocal (inp : Z) : option Z :=
  let B := Z.quot inp 2 in
  B ← int_add B (- 0x40000000);
  let x_half := s16 (Z.shiftr B 16) in
  B ← int_add B 0x40000000;
  B ← int_add B 0x40000000;
  sq ← int_mul x_half x_half;
  x2 ← int_mul sq 2;
  A ← int_mul x2 (-1);
  B ← int_add B (Z.shiftr A 1);
  let A := Z.shiftr A 16 in
  AA ← int_mul A A; A ← int_mul AA 2;
  let t16 := s16 (Z.shiftr A 16) in
  p ← int_mul (-20480) t16; p ← int_mul p 2;
  B ← int_add B p;
  A ← int_mul x_half t16; A ← int_mul A 2;
  let t16 := s16 (Z.shiftr A 16) in
  p ← int_mul 28672 t16; p ← int_mul p 2;
  B ← int_add B p;
  let t16 := s16 (Z.shiftr x2 16) in
  A ← int_mul x_half t16; A ← int_mul A 2;
  B ← int_add B (Z.shiftr A 1);
  int_add B 32768.

Definition k_sqrt_2 : Z := 23170.

(** The argument that is used: the magnitude, saturated. *)
Definition sqrt_arg (value : Z) : option Z :=
  if value <? 0 then if value =? INT32_MIN then Some INT32_MAX else int_mul value (-1) else Some value.

(** From the rounded 16-bit argument to the result before denormalisation. *)
Definition sqrt_mantissa (x_norm : Z) (even_shift : bool) : option Z :=
  A ← int_shl x_norm 16;
  A ← (if 0 <=? A then Some A else int_mul A (-1));
  A ← WebRtcSpl_SqrtLocal A;
  A ← (if even_shift then
         let t16 := s16 (Z.shiftr A 16) in
         A ← int_mul k_sqrt_2 t16; A ← int_mul A 2;
         A ← int_add A 32768;
         Some (Z.shiftr (Z.land A 0x7fff0000) 15)
       else Some (Z.shiftr A 16));
  Some (Z.land A 0x0000ffff).

(** The rounding of the normalised argument to 16 bits. *)
Definition sqrt_round (A : Z) : option Z :=
  A ← (if A <? INT32_MAX - 32767 then int_add A 32768 else Some INT32_MAX);
  Some (s16 (Z.shiftr A 16)).

Definition WebRtcSpl_Sqrt (value : Z) : option Z :=
  A ← sqrt_arg value;
  if A =? 0 then Some 0
  else
  let sh := WebRtcSpl_NormW32 A in
  A ← int_shl A sh;
  x_norm ← sqrt_round A;
  let nshift := Z.quot sh 2 in
  A ← sqrt_mantissa x_norm (2 * nshift =? sh);
  Some (Z.shiftr A nshift).

(** [for (m = 0; m < vector_length; m++)] *)
Fixpoint one_minus_loop (n : nat) (xQ15 : list Z) (m : Z) (yQ15 : list Z) : option (list Z) :=
  match n with
  | O => Some yQ15
  | S n =>
    tmp ← aget xQ15 m;
    sq ← int_mul tmp tmp;
    sq ← int_add 1073741823 (- sq);
    sq ← WebRtcSpl_Sqrt sq;
    yQ15 ← aset yQ15 m (s16 sq);
    one_minus_loop n xQ15 (m + 1) yQ15
  end.

Definition WebRtcSpl_SqrtOfOneMinusXSquared (xQ15 : list Z) (vector_length : Z) (yQ15 : list Z) : option (list Z) :=
  one_minus_loop (Z.to_nat vector_length) xQ15 0 yQ15.

(** ** The polynomial, at every argument *)

(** The terms of degree two to five, from [x_half]. *)
Definition sqrt_terms (h : Z) : Z :=
  let A := - (2 * (h * h)) in
  let A4 := Z.shiftr A 16 in
  let t4 := Z.shiftr (2 * (A4 * A4)) 16 in
  let t5 := Z.shiftr (2 * (h * t4)) 16 in
  let t2 := Z.shiftr (2 * (h * h)) 16 in
  Z.shiftr A 1 - 40960 * t4 + 57344 * t5 + Z.shiftr (2 * (h * t2)) 1.

(** The upper half of the root of [2 * (h + 16384) + b]. *)
Definition sqrt_high (h b : Z) : Z := 32768 + h + Z.shiftr (sqrt_terms h + 32768 * (1 + b)) 16.

Lemma sqrt_shiftr_bound (a k lo hi : Z) : 0 <= k -> lo * 2 ^ k <= a < (hi + 1) * 2 ^ k -> lo <= Z.shiftr a k <= hi.
Proof.
  intros Hk Ha. rewrite Z.shiftr_div_pow2 by done. pose proof (Z.pow_pos_nonneg 2 k ltac:(lia) Hk).
  pose proof (Z.div_le_lower_bound a (2 ^ k) lo). pose proof (Z.div_lt_upper_bound a (2 ^ k) (hi + 1)). lia.
Qed.

Lemma square_bound (a x : Z) : - a <= x < 0 -> 0 < x * x <= a * a.
Proof.
  intros Hx. assert (0 <= (a - x) * (a + x)) by (apply Z.mul_nonneg_nonneg; lia).
  assert (0 < - x * - x) by (apply Z.mul_pos_pos; lia). lia.
Qed.

Lemma sqrt_product_bound (a b x y : Z) : - a <= x <= 0 -> 0 <= y <= b -> - (a * b) <= x * y <= 0.
Proof.
  intros Hx Hy. assert (0 <= - x * y) by (apply Z.mul_nonneg_nonneg; lia).
  assert (- x * y <= a * b) by (apply Z.mul_le_mono_nonneg; lia). lia.
Qed.

Lemma s16_id (x : Z) : - 32768 <= x <= 32767 -> s16 x = x.
Proof. intros Hx. apply swrap_small; lia. Qed.

(** One product or sum, in range. *)
Ltac int_step :=
  match goal with
  | |- context [int_mul ?a ?b ≫= _] => rewrite (int_mul_in a b) by lia
  | |- context [int_add ?a ?b ≫= _] => rewrite (int_add_in a b) by lia
  end; cbn [mbind option_bind].

(** No step of the polynomial overflows. *)
Lemma sqrt_local_ok (h b : Z) : - 8192 <= h < 0 -> b = 0 \/ b = 1 ->
  WebRtcSpl_SqrtLocal ((2 * (h + 16384) + b) * 65536) = Some ((2 * (h + 16384) + b) * 32768 + 2 ^ 30 + sqrt_terms h + 32768).
Proof.
  intros Hh Hb. unfold WebRtcSpl_SqrtLocal, sqrt_terms.
  replace ((2 * (h + 16384) + b) * 65536) with ((2 * (h + 16384) + b) * 32768 * 2) by lia. rewrite Z.quot_mul by lia.
  set (y := (2 * (h + 16384) + b) * 32768). assert (2 ^ 29 <= y < 2 ^ 30) as Hy by (unfold y; lia).
  int_step.
  assert (Z.shiftr (y + - 0x40000000) 16 = h) as ->.
  { rewrite Z.shiftr_div_pow2 by lia. symmetry. apply Z.div_unique with (32768 * b); unfold y; lia. }
  rewrite (s16_id h) by lia. repeat (int_step).
  pose proof (square_bound 8192 h ltac:(lia)) as H2. int_step. int_step.
  int_step.
  replace (h * h * 2 * -1) with (- (2 * (h * h))) by lia. set (A := - (2 * (h * h))).
  pose proof (sqrt_shiftr_bound A 1 (- 2 ^ 26) (-1) ltac:(lia) ltac:(unfold A; lia)) as HA1.
  pose proof (sqrt_shiftr_bound A 16 (- 2048) (-1) ltac:(lia) ltac:(unfold A; lia)) as HA16.
  int_step. set (A4 := Z.shiftr A 16) in *.
  pose proof (square_bound 2048 A4 ltac:(lia)) as H4. int_step. int_step.
  replace (A4 * A4 * 2) with (2 * (A4 * A4)) by lia.
  pose proof (sqrt_shiftr_bound (2 * (A4 * A4)) 16 0 128 ltac:(lia) ltac:(lia)) as Ht4. set (t4 := Z.shiftr (2 * (A4 * A4)) 16) in *.
  rewrite (s16_id t4) by lia. int_step. int_step.
  int_step.
  pose proof (sqrt_product_bound 8192 128 h t4 ltac:(lia) ltac:(lia)) as H5. int_step. int_step.
  replace (h * t4 * 2) with (2 * (h * t4)) by lia.
  pose proof (sqrt_shiftr_bound (2 * (h * t4)) 16 (-32) 0 ltac:(lia) ltac:(lia)) as Ht5. set (t5 := Z.shiftr (2 * (h * t4)) 16) in *.
  rewrite (s16_id t5) by lia. int_step. int_step.
  int_step.
  replace (h * h * 2) with (2 * (h * h)) by lia.
  pose proof (sqrt_shiftr_bound (2 * (h * h)) 16 0 2048 ltac:(lia) ltac:(lia)) as Ht2. set (t2 := Z.shiftr (2 * (h * h)) 16) in *.
  rewrite (s16_id t2) by lia. pose proof (sqrt_product_bound 8192 2048 h t2 ltac:(lia) ltac:(lia)) as H3.
  int_step. int_step.
  replace (h * t2 * 2) with (2 * (h * t2)) by lia.
  pose proof (sqrt_shiftr_bound (2 * (h * t2)) 1 (- 2 ^ 24) 0 ltac:(lia) ltac:(lia)) as Ht3. 
  int_step. rewrite int_add_in by lia. f_equal. lia.
Qed.

(** The mantissa [a] for a normalised argument rounded to [x]: of the
    arguments that are rounded to [x], the least is exceeded by little and the
    greatest missed by little. *)
Definition close (x a2 : Z) : bool :=
  let lo := if x =? 16384 then 2 ^ 30 else Z.shiftl x 16 - 32768 in
  let hi := if x =? 32767 then 2 ^ 31 else Z.shiftl x 16 + 32768 in
  (a2 <=? lo + Z.shiftr lo 9) && (hi - Z.shiftr hi 12 + 64 <=? a2).

Definition high_okb (h b : Z) : bool :=
  let t := sqrt_high h b in
  let x := 2 * (h + 16384) + b in
  let e := Z.shiftr (k_sqrt_2 * t + 16384) 15 in
  (0 <? t) && (t <? 32768) && close x (Z.shiftl (t * t) 1) && close x (Z.shiftl (e * e) 2).

(** [f] holds at [n] arguments from [x] on. *)
Fixpoint all_from (f : Z -> bool) (n : nat) (x : Z) : bool :=
  match n with O => true | S n => f x && all_from f n (x + 1) end.

Lemma all_from_spec (f : Z -> bool) (n : nat) : forall x y, all_from f n x = true -> x <= y < x + Z.of_nat n -> f y = true.
Proof.
  induction n as [|n IH]; intros x y Ha Hy; [lia|]. cbn [all_from] in Ha. apply andb_true_iff in Ha as [H1 H2].
  destruct (decide (y = x)) as [->|]; [done|]. apply (IH (x + 1) y H2). lia.
Qed.

Lemma high_all (h b : Z) : - 8192 <= h < 0 -> b = 0 \/ b = 1 -> high_okb h b = true.
Proof.
  intros Hh Hb. enough (all_from (fun h => high_okb h 0 && high_okb h 1) (Z.to_nat 8192) (-8192) = true) as Ha.
  { pose proof (all_from_spec _ _ _ h Ha ltac:(lia)) as E. cbv beta in E. apply andb_true_iff in E as [E1 E2]. by destruct Hb as [->| ->]. }
  vm_compute. reflexivity.
Qed.

(** ** The mantissa *)

Lemma low16 (a : Z) : 0 <= a < 65536 -> Z.land a 0x0000ffff = a.
Proof. intros Ha. change 0x0000ffff with (Z.ones 16). rewrite Z.land_ones by lia. by apply Z.mod_small. Qed.

(** [A & 0x7fff0000] clears the lower half of a nonnegative number. *)
Lemma clear_low (A : Z) : 0 <= A < 2 ^ 31 -> Z.land A 0x7fff0000 = Z.shiftr A 16 * 65536.
Proof.
  intros HA. change 0x7fff0000 with (2 ^ 31 - 2 ^ 16). rewrite land_mask by lia. by rewrite Z.shiftr_div_pow2 by lia.
Qed.

Lemma sqrt_mantissa_ok (x : Z) (even_shift : bool) : 16384 <= x < 32768 ->
  exists a, sqrt_mantissa x even_shift = Some a /\ 0 <= a < 65536 /\ close x (if even_shift then a * a else 2 * (a * a)) = true.
Proof.
  intros Hx. set (h := x / 2 - 16384). set (b := x mod 2).
  assert (x = 2 * (h + 16384) + b /\ - 8192 <= h < 0 /\ (b = 0 \/ b = 1)) as (Ex & Hh & Hb).
  { pose proof (Z.div_mod x 2 ltac:(lia)). pose proof (Z.mod_pos_bound x 2 ltac:(lia)). unfold h, b. lia. }
  pose proof (high_all h b Hh Hb) as Hok. unfold high_okb in Hok. rewrite <- Ex in Hok. set (t := sqrt_high h b) in *.
  repeat apply andb_true_iff in Hok as [Hok ?Hc]. apply Z.ltb_lt in Hok. apply Z.ltb_lt in Hc1.
  unfold sqrt_mantissa, int_shl. change (2 ^ 16) with 65536. int_step. rewrite (proj2 (Z.leb_le _ _)) by lia. cbn [mbind option_bind].
  replace (x * 65536) with ((2 * (h + 16384) + b) * 65536) by lia. rewrite sqrt_local_ok by done. cbn [mbind option_bind].
  assert (Z.shiftr ((2 * (h + 16384) + b) * 32768 + 2 ^ 30 + sqrt_terms h + 32768) 16 = t) as ->.
  { unfold t, sqrt_high. rewrite !Z.shiftr_div_pow2 by lia. rewrite <- Z.div_add_l by lia. f_equal. lia. }
  destruct even_shift.
  - rewrite (s16_id t) by lia. unfold k_sqrt_2 in *. int_step. int_step. int_step. rewrite clear_low by lia.
    rewrite (Z.shiftr_div_pow2 _ 15), (Z.mul_comm _ 65536) by lia. change 65536 with (2 * 2 ^ 15) at 1.
    rewrite <- Z.mul_assoc, (Z.mul_comm 2), <- Z.mul_assoc, Z.mul_comm, Z.div_mul by lia.
    set (e := Z.shiftr (23170 * t + 16384) 15) in *.
    assert (Z.shiftr (23170 * t * 2 + 32768) 16 = e) as ->.
    { unfold e. rewrite !Z.shiftr_div_pow2 by lia. change (2 ^ 16) with (2 ^ 15 * 2). rewrite <- (Z.div_mul_cancel_r _ (2 ^ 15) 2) by lia. f_equal. lia. }
    pose proof (sqrt_shiftr_bound (23170 * t + 16384) 15 0 23170 ltac:(lia) ltac:(lia)). fold e in H.
    rewrite low16 by lia. exists (e * 2). split; [done|]. split; [lia|]. rewrite Z.shiftl_mul_pow2 in Hc by lia.
    by replace (e * 2 * (e * 2)) with (e * e * 2 ^ 2) by lia.
  - cbn [mbind option_bind]. rewrite low16 by lia. exists t. split; [done|]. split; [lia|]. rewrite Z.shiftl_mul_pow2 in Hc0 by lia.
    by replace (2 * (t * t)) with (t * t * 2 ^ 1) by lia.
Qed.

(** ** The square root *)

(** The magnitude, with the one number that has none replaced. *)
Definition magnitude (value : Z) : Z := Z.min INT32_MAX (Z.abs value).

Lemma sqrt_arg_ok (value : Z) : int32 value -> sqrt_arg value = Some (magnitude value).
Proof.
  intros Hv. unfold sqrt_arg, magnitude, int32, INT32_MAX, INT32_MIN in *. destruct (Z.ltb_spec value 0).
  - destruct (Z.eqb_spec value (- 2 ^ 31)) as [->|]; [done|]. rewrite int_mul_in by lia. f_equal. lia.
  - f_equal. lia.
Qed.

(** The rounding: [x] is the upper half of [A + 2^15], or the greatest number. *)
Lemma sqrt_round_ok (A : Z) : 2 ^ 30 <= A < 2 ^ 31 -> exists x, sqrt_round A = Some x /\ 16384 <= x < 32768 /\
  x * 65536 - 32768 <= A /\ (x <> 32767 -> A < x * 65536 + 32768).
Proof.
  intros HA. unfold sqrt_round, INT32_MAX. destruct (Z.ltb_spec A (2 ^ 31 - 1 - 32767)) as [Hlt|Hge].
  - rewrite int_add_in by lia. cbn [mbind option_bind].
    pose proof (sqrt_shiftr_bound (A + 32768) 16 16384 32767 ltac:(lia) ltac:(lia)) as Hb. rewrite s16_id by lia.
    eexists. split; [done|]. split; [lia|]. rewrite Z.shiftr_div_pow2 by lia.
    pose proof (Z.div_mod (A + 32768) (2 ^ 16) ltac:(lia)). pose proof (Z.mod_pos_bound (A + 32768) (2 ^ 16) ltac:(lia)). lia.
  - exists 32767. split; [reflexivity|]. lia.
Qed.

(** What [close] says of an argument that is rounded to [x]. *)
Lemma close_bounds (x A a2 : Z) : close x a2 = true -> 2 ^ 30 <= A < 2 ^ 31 -> x * 65536 - 32768 <= A ->
  (x <> 32767 -> A < x * 65536 + 32768) -> 1024 ^ 2 * a2 <= 1025 ^ 2 * A /\ 8191 ^ 2 * A <= 8192 ^ 2 * a2.
Proof.
  intros Hc HA Hlo Hhi. unfold close in Hc. apply andb_true_iff in Hc as [H1%Z.leb_le H2%Z.leb_le].
  rewrite !Z.shiftl_mul_pow2, !Z.shiftr_div_pow2 in * by lia. change (2 ^ 16) with 65536 in *. split.
  - set (lo := if x =? 16384 then 2 ^ 30 else x * 65536 - 32768) in *.
    assert (2 ^ 29 <= lo <= A) by (unfold lo; destruct (Z.eqb_spec x 16384); lia).
    pose proof (Z.div_mod lo (2 ^ 9) ltac:(lia)). pose proof (Z.mod_pos_bound lo (2 ^ 9) ltac:(lia)). lia.
  - set (hi := if x =? 32767 then 2 ^ 31 else x * 65536 + 32768) in *.
    assert (A <= hi < 2 ^ 32) by (unfold hi; destruct (Z.eqb_spec x 32767); lia).
    pose proof (Z.div_mod hi (2 ^ 12) ltac:(lia)). pose proof (Z.mod_pos_bound hi (2 ^ 12) ltac:(lia)). lia.
Qed.

(** The error, for the magnitude. *)
Lemma sqrt_bounds (value : Z) : int32 value ->
  exists r, WebRtcSpl_Sqrt value = Some r /\ 0 <= r <= 46400 /\
    (1024 * r) ^ 2 <= 1025 ^ 2 * magnitude value /\ 8191 ^ 2 * magnitude value <= (8192 * (r + 1)) ^ 2.
Proof.
  intros Hv. unfold WebRtcSpl_Sqrt. rewrite sqrt_arg_ok by done. cbn [mbind option_bind].
  assert (0 <= magnitude value < 2 ^ 31) as Hm by (unfold magnitude, INT32_MAX; lia). set (v := magnitude value) in *.
  destruct (Z.eqb_spec v 0) as [->|Hne]; [exists 0; repeat split; lia|].
  assert (int32 v) as Hv32 by (unfold int32; lia).
  destruct (proj1 (norm_correct v Hne) Hv32) as (Hk & Hn1 & Hn2). set (k := WebRtcSpl_NormW32 v) in *. unfold int32 in Hn1, Hn2.
  assert (0 < 2 ^ k) as Hp by (apply Z.pow_pos_nonneg; lia).
  assert (2 ^ 30 <= v * 2 ^ k < 2 ^ 31) as HA.
  { rewrite Z.pow_add_r in Hn2 by lia. change (2 ^ 1) with 2 in Hn2. assert (0 < v * 2 ^ k) by (apply Z.mul_pos_pos; lia). lia. }
  unfold int_shl. rewrite int_mul_in by lia. cbn [mbind option_bind].
  destruct (sqrt_round_ok _ HA) as (x & -> & Hx & Hlo & Hhi). cbn [mbind option_bind].
  set (n := Z.quot k 2). assert (0 <= n /\ (2 * n = k \/ 2 * n + 1 = k)) as [Hn Hkn].
  { unfold n. pose proof (Z.quot_rem' k 2). pose proof (Z.rem_bound_pos k 2 ltac:(lia) ltac:(lia)). lia. }
  destruct (sqrt_mantissa_ok x (2 * n =? k) Hx) as (a & -> & Ha & Hc). cbn [mbind option_bind].
  destruct (close_bounds x (v * 2 ^ k) _ Hc HA Hlo Hhi) as [Hup Hdown].
  assert (0 < 2 ^ n) as Hpn by (apply Z.pow_pos_nonneg; lia).
  assert (1024 ^ 2 * (a * a) <= 1025 ^ 2 * (v * (2 ^ n * 2 ^ n)) /\ 8191 ^ 2 * (v * (2 ^ n * 2 ^ n)) <= 8192 ^ 2 * (a * a)) as [Hu Hd].
  { rewrite <- Z.pow_add_r by lia. destruct (Z.eqb_spec (2 * n) k) as [E|E].
    - replace (n + n) with k by lia. done.
    - assert (2 ^ k = 2 ^ (n + n) * 2) as Ek by (replace k with (n + n + 1) by lia; by rewrite Z.pow_add_r by lia).
      rewrite Ek in Hup, Hdown. lia. }
  rewrite Z.shiftr_div_pow2 by lia. set (r := a / 2 ^ n).
  pose proof (Z.div_mod a (2 ^ n) ltac:(lia)) as Er. pose proof (Z.mod_pos_bound a (2 ^ n) Hpn) as Hr. fold r in Er.
  set (P := 2 ^ n) in *. assert (0 <= r) by (apply Z.div_pos; lia).
  exists r. split; [done|].
  assert ((1024 * r) ^ 2 <= 1025 ^ 2 * v) as Hup'.
  { apply Z.mul_le_mono_pos_r with (P * P); [apply Z.mul_pos_pos; lia|].
    assert (r * P * (r * P) <= a * a) by (apply Z.mul_le_mono_nonneg; nia). lia. }
  split_and!; [done| |done|].
  - destruct (Z.le_gt_cases r 46400); [done|]. assert (46401 * 46401 <= r * r) by (apply Z.mul_le_mono_nonneg; lia). lia.
  - apply Z.mul_le_mono_pos_r with (P * P); [apply Z.mul_pos_pos; lia|].
    assert (a * a <= (r + 1) * P * ((r + 1) * P)) by (apply Z.mul_le_mono_nonneg; nia). lia.
Qed.

Lemma small_roots : WebRtcSpl_Sqrt (-1) = Some 1 /\ WebRtcSpl_Sqrt (-2) = Some 1 /\ WebRtcSpl_Sqrt (-3) = Some 1.
Proof. repeat split; vm_compute; reflexivity. Qed.

(** C36: [WebRtcSpl_Sqrt] computes, without overflow for any 32-bit argument,
    the root of the magnitude (of [2^31 - 1] for the one number that has
    none) up to one part in 1024 above, and up to one part in 8192 and one unit
    below.  This is what the comment in the function says; the header of the
    library says that the result is 0 for a negative number, and it never
    is. *)
Theorem spl_sqrt_correct (value : Z) : int32 value ->
  exists r, WebRtcSpl_Sqrt value = Some r /\ 0 <= r <= 46400 /\
    (1024 * r) ^ 2 <= 1025 ^ 2 * magnitude value /\ 8191 ^ 2 * magnitude value <= (8192 * (r + 1)) ^ 2 /\
    (value < 0 -> 0 < r).
Proof.
  intros Hv. destruct (sqrt_bounds value Hv) as (r & E & Hr & Hu & Hl). exists r. split_and!; try done; try lia.
  intros Hneg. destruct (Z.lt_ge_cases value (-3)) as [H3|H3].
  - assert (4 <= magnitude value) by (unfold magnitude, INT32_MAX; lia). nia.
  - assert (value = -3 \/ value = -2 \/ value = -1) as Hc by lia. destruct small_roots as (S1 & S2 & S3).
    destruct Hc as [-> |[-> | ->]]; rewrite ?S1, ?S2, ?S3 in E; injection E as <-; lia.
Qed.

Lemma spl_sqrt_witness : exists r, WebRtcSpl_Sqrt 73632 = Some r /\ 0 <= r <= 46400 /\
  (1024 * r) ^ 2 <= 1025 ^ 2 * magnitude 73632 /\ 8191 ^ 2 * magnitude 73632 <= (8192 * (r + 1)) ^ 2 /\ (73632 < 0 -> 0 < r).
Proof. apply (spl_sqrt_correct 73632). unfold int32. lia. Defined.

(** The example of the comment in the code, and the extreme arguments. *)
Example spl_sqrt_examples : WebRtcSpl_Sqrt 8 = Some 2 /\ WebRtcSpl_Sqrt 73632 = Some 271 /\ WebRtcSpl_Sqrt 0 = Some 0 /\ WebRtcSpl_Sqrt (-100) = Some 10 /\
  WebRtcSpl_Sqrt (- 2 ^ 31) = Some 46338 /\ WebRtcSpl_SqrtOfOneMinusXSquared [0; 16384; 32767; -32768] 4 [0; 0; 0; 0] = Some [32767; 28378; 255; 1].
Proof. repeat split; vm_compute; reflexivity. Qed.
