(* ===== verification/SplLpc.v ===== *)
(** * Linear prediction

    [levinson_durbin.c], [auto_corr_to_refl_coef.c], [lpc_to_refl_coef.c] and
    [refl_coef_to_lpc.c] of
    [src/submodules/libtgvoip/webrtc_dsp/webrtc/common_audio/signal_processing]:
    prediction coefficients and reflection coefficients from
    autocorrelations, and from each other.  Arrays local to a function have
    the size the code gives them and arbitrary contents; [None] is an overflow
    of an [int] or an access outside of an array. *)
From S2P Require Import Prelude.
From S2P Require Import SplArith.
From S2P Require Import SplVector.
From S2P Require Import SplFilter.
From S2P Require Import SplResample.
From S2P Require Import SplBy2.
From S2P Require Import SplSqrt.
From Stdlib Require Import ZArith Lia.
From stdpp Require Import base numbers option list.
Open Scope Z_scope.

Definition WEBRTC_SPL_MAX_LPC_ORDER : Z := 14.
Definition SPL_LEVINSON_MAXORDER : Z := 20.
Definition SPL_LPC_TO_REFL_COEF_MAX_AR_MODEL_ORDER : Z := 50.

Definition WEBRTC_SPL_ABS_W16 (a : Z) : Z := if 0 <=? s16 a then s16 a else - s16 a.
Definition WEBRTC_SPL_ABS_W32 (a : Z) : option Z := if 0 <=? a then Some a else int_mul a (-1).

(** ** WebRtcSpl_ReflCoefToLpc *)

(** [for (i = 0; i < m; i++)]: [a[1+i]] plus the product of [a[m-i]] and
    [k[m]]; [n] is [m - i]. *)
Fixpoint step_up_loop (n : nat) (a any : list Z) (i m kv : Z) : option (list Z) :=
  match n with
  | O => Some any
  | S n =>
    x ← aget a (1 + i);
    y ← aget a (m - i);
    p ← int_mul y kv;
    any ← aset any (1 + i) (s16 (x + s16 (Z.shiftr p 15)));
    step_up_loop n a any (i + 1) m kv
  end.

(** [for (i = 0; i < (m + 2); i++) a[i] = any[i];] *)
Fixpoint copy_loop (n : nat) (a any : list Z) (i : Z) : option (list Z) :=
  match n with
  | O => Some a
  | S n => x ← aget any i; a ← aset a i x; copy_loop n a any (i + 1)
  end.

(** [for (m = 1; m < use_order; m++)]; [n] is [use_order - m]. *)
Fixpoint refl_to_lpc_loop (n : nat) (k a any : list Z) (m : Z) : option (list Z) :=
  match n with
  | O => Some a
  | S n =>
    kv ← aget k m;
    any ← aset any (m + 1) (Z.shiftr kv 3);
    any ← step_up_loop (Z.to_nat m) a any 0 m kv;
    a ← copy_loop (Z.to_nat (m + 2)) a any 0;
    refl_to_lpc_loop n k a any (m + 1)
  end.

(** [any] is the local array, of [WEBRTC_SPL_MAX_LPC_ORDER + 1] cells. *)
Definition WebRtcSpl_ReflCoefToLpc (any : list Z) (k : list Z) (use_order : Z) (a : list Z) : option (list Z) :=
  a ← aset a 0 4096;
  any ← aset any 0 4096;
  k0 ← aget k 0;
  a ← aset a 1 (Z.shiftr k0 3);
  refl_to_lpc_loop (Z.to_nat (use_order - 1)) k a any 1.

(** ** WebRtcSpl_LpcToReflCoef *)

(** [for (k = 1; k <= m; k++)]; [n] is [m - k + 1]. *)
Fixpoint step_down_loop (n : nat) (a16 tmp32 : list Z) (k m km inv : Z) : option (list Z) :=
  match n with
  | O => Some tmp32
  | S n =>
    x ← aget a16 k; s ← int_shl x 16;
    y ← aget a16 (m - k + 1); p ← int_mul km y; p ← int_shl p 1;
    t ← int_add s (- p);
    tmp32 ← aset tmp32 k (WebRtcSpl_DivW32W16 t inv);
    step_down_loop n a16 tmp32 (k + 1) m km inv
  end.

(** [for (k = 1; k < m; k++) a16[k] = (int16_t)(tmp32[k] >> 1);] *)
Fixpoint halve_loop (n : nat) (a16 tmp32 : list Z) (k : Z) : option (list Z) :=
  match n with
  | O => Some a16
  | S n => t ← aget tmp32 k; a16 ← aset a16 k (s16 (Z.shiftr t 1)); halve_loop n a16 tmp32 (k + 1)
  end.

(** [for (m = use_order - 1; m > 0; m--)] *)
Fixpoint lpc_to_refl_loop (m : nat) (a16 k16 tmp32 : list Z) : option (list Z * list Z) :=
  match m with
  | O => Some (a16, k16)
  | S m' =>
    let m := Z.of_nat (S m') in
    km ← aget k16 m;
    sq ← int_mul km km;
    inv32 ← int_add 1073741823 (- sq);
    let inv := s16 (Z.shiftr inv32 15) in
    tmp32 ← step_down_loop (S m') a16 tmp32 1 m km inv;
    a16 ← halve_loop m' a16 tmp32 1;
    t ← aget tmp32 m;
    let t := WEBRTC_SPL_SAT 8191 t (-8191) in
    tmp32 ← aset tmp32 m t;
    t ← int_shl t 2;
    k16 ← aset k16 (m - 1) (s16 t);
    lpc_to_refl_loop m' a16 k16 tmp32
  end.

(** [tmp32] is the local array. *)
Definition WebRtcSpl_LpcToReflCoef (tmp32 : list Z) (a16 : list Z) (use_order : Z) (k16 : list Z) : option (list Z * list Z) :=
  x ← aget a16 use_order;
  s ← int_shl x 3;
  k16 ← aset k16 (use_order - 1) (s16 s);
  lpc_to_refl_loop (Z.to_nat (use_order - 1)) a16 k16 tmp32.

(** ** WebRtcSpl_AutoCorrToReflCoef *)

(** [for (i = 1; i <= use_order; i++)]; [n] is [use_order - i + 1]. *)
Fixpoint acf_loop (n : nat) (R : list Z) (norm i : Z) (ACF P W : list Z) : option (list Z * list Z * list Z) :=
  match n with
  | O => Some (ACF, P, W)
  | S n =>
    r ← aget R i; s ← int_shl r norm;
    let x := s16 (Z.shiftr s 16) in
    ACF ← aset ACF i x;
    W ← aset W i x;
    P ← aset P i x;
    acf_loop n R norm (i + 1) ACF P W
  end.

(** [while (i--)]: one bit of the quotient, for the cell at [K]. *)
Fixpoint refl_div_loop (i : nat) (L_num L_den k : Z) : option Z :=
  match i with
  | O => Some k
  | S i =>
    let k := s16 (2 * k) in
    L_num ← int_shl L_num 1;
    if L_den <=? L_num then L_num ← int_add L_num (- L_den); refl_div_loop i L_num L_den (s16 (k + 1))
    else refl_div_loop i L_num L_den k
  end.

(** [for (i = n; i <= use_order; i++) K[..] = 0;] from cell [kp] on. *)
Fixpoint zero_loop (n : nat) (K : list Z) (kp : Z) : option (list Z) :=
  match n with O => Some K | S n => K ← aset K kp 0; zero_loop n K (kp + 1) end.

(** The rounded product of the Schur recursion. *)
Definition schur_term (x k : Z) : option Z :=
  p ← int_mul x k; p ← int_add p 16384; Some (s16 (Z.shiftr p 15)).

(** [for (i = 1; i <= use_order - n; i++)]: [pptr] is at [P + i], [wptr] at
    [W + i]. *)
Fixpoint schur_loop (c : nat) (P W : list Z) (i k : Z) : option (list Z * list Z) :=
  match c with
  | O => Some (P, W)
  | S c =>
    w ← aget W i; tmp ← schur_term w k;
    x ← aget P (i + 1);
    P ← aset P i (WebRtcSpl_AddSatW16 x tmp);
    x ← aget P (i + 1); tmp ← schur_term x k;
    w ← aget W i;
    W ← aset W i (WebRtcSpl_AddSatW16 w tmp);
    schur_loop c P W (i + 1) k
  end.

(** One reflection coefficient from [P]: the quotient with its sign. *)
Definition refl_coef (p0 p1 tmp : Z) : option Z :=
  if negb (tmp =? 0) then
    k ← refl_div_loop 15 tmp p0 0;
    Some (if 0 <? p1 then s16 (- k) else k)
  else Some 0.

(** [for (n = 1; n <= use_order; n++, K++)]; [c] is [use_order - n + 1]. *)
Fixpoint auto_corr_loop (c : nat) (P W K : list Z) (n use_order : Z) : option (list Z) :=
  match c with
  | O => Some K
  | S c =>
    p1 ← aget P 1; p0 ← aget P 0;
    let tmp := s16 (WEBRTC_SPL_ABS_W16 p1) in
    if p0 <? tmp then zero_loop (Z.to_nat (use_order - n + 1)) K (n - 1)
    else
    k ← refl_coef p0 p1 tmp;
    K ← aset K (n - 1) k;
    if n =? use_order then Some K
    else
    tmp ← schur_term p1 k;
    P ← aset P 0 (WebRtcSpl_AddSatW16 p0 tmp);
    '(P, W) ← schur_loop (Z.to_nat (use_order - n)) P W 1 k;
    auto_corr_loop c P W K (n + 1) use_order
  end.

(** [ACF], [P] and [W] are the local arrays, of [WEBRTC_SPL_MAX_LPC_ORDER]
    cells. *)
Definition WebRtcSpl_AutoCorrToReflCoef (ACF P W : list Z) (R : list Z) (use_order : Z) (K : list Z) : option (list Z) :=
  r0 ← aget R 0;
  let norm := WebRtcSpl_NormW32 r0 in
  s ← int_shl r0 norm;
  ACF ← aset ACF 0 (s16 (Z.shiftr s 16));
  P ← aset P 0 (s16 (Z.shiftr s 16));
  '(_, P, W) ← acf_loop (Z.to_nat use_order) R norm 1 ACF P W;
  auto_corr_loop (Z.to_nat use_order) P W K 1 use_order.

(** ** WebRtcSpl_LevinsonDurbin *)

(** A 32-bit number in two halves: [(int16_t)(x >> 16)] and
    [(int16_t)((x - ((int32_t)hi << 16)) >> 1)]; the number of two halves. *)
Definition hi_low (x : Z) : option (Z * Z) :=
  let hi := s16 (Z.shiftr x 16) in
  h ← int_shl hi 16;
  d ← int_add x (- h);
  Some (hi, s16 (Z.shiftr d 1)).
Definition from_hi_low (hi low : Z) : option Z := h ← int_shl hi 16; l ← int_shl low 1; int_add h l.

(** [(xh * yh + (xh * yl >> 15) + (xl * yh >> 15)) << 1] *)
Definition mul_hi_low (xh xl yh yl : Z) : option Z :=
  p ← int_mul xh yh; q ← int_mul xh yl; r ← int_mul xl yh;
  s ← int_add p (Z.shiftr q 15); s ← int_add s (Z.shiftr r 15);
  int_shl s 1.

(** [1 - K*K] in Q31, from the halves of [K]. *)
Definition one_minus_square (K_hi K_low : Z) : option Z :=
  p ← int_mul K_hi K_low; q ← int_mul K_hi K_hi;
  s ← int_add (Z.shiftr p 14) q; s ← int_shl s 1;
  s ← WEBRTC_SPL_ABS_W32 s;
  int_add 0x7fffffff (- s).

(** [Alpha * (1 - K*K)], normalised: the two halves and the shift. *)
Definition next_alpha (xh xl K_hi K_low : Z) : option (Z * Z * Z) :=
  t ← one_minus_square K_hi K_low;
  '(th, tl) ← hi_low t;
  t ← mul_hi_low xh xl th tl;
  let norm := WebRtcSpl_NormW32 t in
  t ← int_shl t norm;
  '(h, l) ← hi_low t;
  Some (h, l, norm).

(** [for (i = 0; i <= order; ++i)]: the halves of the normalised [R]. *)
Fixpoint halves_loop (n : nat) (R : list Z) (norm i : Z) (R_hi R_low : list Z) : option (list Z * list Z) :=
  match n with
  | O => Some (R_hi, R_low)
  | S n =>
    r ← aget R i; t ← int_shl r norm;
    '(h, l) ← hi_low t;
    R_hi ← aset R_hi i h; R_low ← aset R_low i l;
    halves_loop n R norm (i + 1) R_hi R_low
  end.

(** [for (j = 1; j < i; j++)]: the sum of [R[j] * A[i-j]]; [n] is [i - j]. *)
Fixpoint sum_loop (n : nat) (R_hi R_low A_hi A_low : list Z) (i j sum : Z) : option Z :=
  match n with
  | O => Some sum
  | S n =>
    rh ← aget R_hi j; rl ← aget R_low j; ah ← aget A_hi (i - j); al ← aget A_low (i - j);
    p ← int_mul rh ah; p ← int_shl p 1;
    q ← int_mul rh al; r ← int_mul rl ah;
    s ← int_add (Z.shiftr q 15) (Z.shiftr r 15); s ← int_shl s 1;
    s ← int_add p s;
    sum ← int_add sum s;
    sum_loop n R_hi R_low A_hi A_low i (j + 1) sum
  end.

(** [for (j = 1; j < i; j++)]: the coefficients of the next order. *)
Fixpoint upd_loop (n : nat) (A_hi A_low U_hi U_low : list Z) (i j K_hi K_low : Z) : option (list Z * list Z) :=
  match n with
  | O => Some (U_hi, U_low)
  | S n =>
    ah ← aget A_hi j; al ← aget A_low j; t ← from_hi_low ah al;
    bh ← aget A_hi (i - j); bl ← aget A_low (i - j);
    p ← mul_hi_low K_hi K_low bh bl;
    t ← int_add t p;
    '(h, l) ← hi_low t;
    U_hi ← aset U_hi j h; U_low ← aset U_low j l;
    upd_loop n A_hi A_low U_hi U_low i (j + 1) K_hi K_low
  end.

(** [for (j = 1; j <= i; j++)]: [A[j] = A_upd[j]]. *)
Fixpoint update_loop (n : nat) (A U : list Z) (j : Z) : option (list Z) :=
  match n with O => Some A | S n => x ← aget U j; A ← aset A j x; update_loop n A U (j + 1) end.

(** The reflection coefficient [-num / Alpha], with [Alpha]'s shift undone. *)
Definition levinson_k (num Alpha_hi Alpha_low Alpha_exp : Z) : option Z :=
  abs ← WEBRTC_SPL_ABS_W32 num;
  let t := WebRtcSpl_DivW32HiLow abs Alpha_hi Alpha_low in
  t ← (if 0 <? num then int_mul t (-1) else Some t);
  let norm := WebRtcSpl_NormW32 t in
  if (Alpha_exp <=? norm) || (t =? 0) then int_shl t Alpha_exp
  else if 0 <? t then Some 0x7fffffff else Some (- 0x80000000).

Record levinson := Levinson {
  lv_A_hi : list Z; lv_A_low : list Z; lv_U_hi : list Z; lv_U_low : list Z;
  lv_Alpha_hi : Z; lv_Alpha_low : Z; lv_Alpha_exp : Z; lv_K : list Z
}.

(** One pass of the loop over [i]: [inl] when the filter is unstable. *)
Definition levinson_step (R_hi R_low : list Z) (i : Z) (s : levinson) : option (list Z + levinson) :=
  t ← sum_loop (Z.to_nat (i - 1)) R_hi R_low (lv_A_hi s) (lv_A_low s) i 1 0;
  t ← int_shl t 4;
  rh ← aget R_hi i; rl ← aget R_low i; r ← from_hi_low rh rl;
  num ← int_add t r;
  k ← levinson_k num (lv_Alpha_hi s) (lv_Alpha_low s) (lv_Alpha_exp s);
  '(K_hi, K_low) ← hi_low k;
  K ← aset (lv_K s) (i - 1) K_hi;
  if 32750 <? WEBRTC_SPL_ABS_W16 K_hi then Some (inl K)
  else
  '(U_hi, U_low) ← upd_loop (Z.to_nat (i - 1)) (lv_A_hi s) (lv_A_low s) (lv_U_hi s) (lv_U_low s) i 1 K_hi K_low;
  '(kh, kl) ← hi_low (Z.shiftr k 4);
  U_hi ← aset U_hi i kh; U_low ← aset U_low i kl;
  '(ah, al, norm) ← next_alpha (lv_Alpha_hi s) (lv_Alpha_low s) K_hi K_low;
  A_hi ← update_loop (Z.to_nat i) (lv_A_hi s) U_hi 1;
  A_low ← update_loop (Z.to_nat i) (lv_A_low s) U_low 1;
  Some (inr (Levinson A_hi A_low U_hi U_low ah al (s16 (lv_Alpha_exp s + norm)) K)).

(** [for (i = 2; i <= order; i++)]; [n] is [order - i + 1]. *)
Fixpoint levinson_loop (n : nat) (R_hi R_low : list Z) (i : Z) (s : levinson) : option (list Z + levinson) :=
  match n with
  | O => Some (inr s)
  | S n =>
    r ← levinson_step R_hi R_low i s;
    match r with inl K => Some (inl K) | inr s => levinson_loop n R_hi R_low (i + 1) s end
  end.

(** [for (i = 1; i <= order; i++)]: the coefficients in Q12. *)
Fixpoint store_loop (n : nat) (A_hi A_low A : list Z) (i : Z) : option (list Z) :=
  match n with
  | O => Some A
  | S n =>
    h ← aget A_hi i; l ← aget A_low i; t ← from_hi_low h l;
    t ← int_shl t 1; t ← int_add t 32768;
    A ← aset A i (s16 (Z.shiftr t 16));
    store_loop n A_hi A_low A (i + 1)
  end.

(** [loc] is the contents of each local array, of
    [SPL_LEVINSON_MAXORDER + 1] cells.  The results are the return value, [A]
    and [K]. *)
Definition WebRtcSpl_LevinsonDurbin (loc : list Z) (R A K : list Z) (order : Z) : option (Z * list Z * list Z) :=
  r0 ← aget R 0;
  '(R_hi, R_low) ← halves_loop (Z.to_nat (order + 1)) R (WebRtcSpl_NormW32 r0) 0 loc loc;
  rh ← aget R_hi 1; rl ← aget R_low 1; t2 ← from_hi_low rh rl;
  t3 ← WEBRTC_SPL_ABS_W32 t2;
  r0h ← aget R_hi 0; r0l ← aget R_low 0;
  let t1 := WebRtcSpl_DivW32HiLow t3 r0h r0l in
  t1 ← (if 0 <? t2 then int_mul t1 (-1) else Some t1);
  '(K_hi, K_low) ← hi_low t1;
  K ← aset K 0 K_hi;
  '(ah, al) ← hi_low (Z.shiftr t1 4);
  A_hi ← aset loc 1 ah; A_low ← aset loc 1 al;
  '(xh, xl, norm) ← next_alpha r0h r0l K_hi K_low;
  r ← levinson_loop (Z.to_nat (order - 1)) R_hi R_low 2 (Levinson A_hi A_low loc loc xh xl norm K);
  match r with
  | inl K => Some (0, A, K)
  | inr s =>
    A ← aset A 0 4096;
    A ← store_loop (Z.to_nat order) (lv_A_hi s) (lv_A_low s) A 1;
    Some (1, A, lv_K s)
  end.

(** A first-order process: [R[i] = R[0] * 0.5^i]. *)
Example levinson_example :
  WebRtcSpl_LevinsonDurbin (replicate 21 0) [1000000; 500000; 250000; 125000] (replicate 4 0) (replicate 3 0) 3 =
  Some (1, [4096; -2048; 0; 0], [-16384; 0; 0]).
Proof. vm_compute. reflexivity. Qed.

(** ** Reflection coefficients to prediction coefficients *)

(** One order more: the coefficients [a_1 .. a_m], and the reflection
    coefficient. *)
Definition step_up (l : list Z) (k : Z) : list Z :=
  zip_with (fun x y => s16 (x + s16 (y * k / 2 ^ 15))) l (reverse l) ++ [Z.shiftr k 3].
Definition lpc_of (ks : list Z) : list Z := 4096 :: foldl step_up [] ks.

Lemma zlen_step_up (l : list Z) (k : Z) : zlen (step_up l k) = zlen l + 1.
Proof. unfold step_up, zlen. rewrite length_app, length_zip_with, length_reverse, Nat.min_id. cbn [length]. lia. Qed.

Lemma zn_reverse (l : list Z) (i : Z) : 0 <= i < zlen l -> zn (reverse l) i = zn l (zlen l - 1 - i).
Proof.
  intros Hi. apply aget_zn. unfold aget. rewrite (proj2 (Z.leb_le 0 i)) by lia. rewrite reverse_lookup by (unfold zlen in Hi; lia).
  pose proof (aget_in l (zlen l - 1 - i) ltac:(lia)) as E. unfold aget in E. rewrite (proj2 (Z.leb_le 0 _)) in E by lia.
  rewrite <- E. f_equal. unfold zlen in *. lia.
Qed.

Lemma zn_step_up (l : list Z) (k i : Z) : 0 <= i < zlen l ->
  zn (step_up l k) i = s16 (zn l i + s16 (zn l (zlen l - 1 - i) * k / 2 ^ 15)).
Proof.
  intros Hi. unfold step_up. rewrite zn_app_l by (unfold zlen in *; rewrite length_zip_with, length_reverse; lia).
  apply aget_zn. unfold aget. rewrite (proj2 (Z.leb_le 0 i)) by lia. rewrite lookup_zip_with.
  pose proof (aget_in l i Hi) as E1. pose proof (aget_in (reverse l) i ltac:(unfold zlen in *; rewrite length_reverse; lia)) as E2.
  unfold aget in E1, E2. rewrite (proj2 (Z.leb_le 0 i)) in E1, E2 by lia. rewrite E1, E2. cbn [mbind option_bind]. by rewrite zn_reverse.
Qed.

Lemma step_up_int16 (l : list Z) (k : Z) : int16 k -> Forall int16 (step_up l k).
Proof.
  intros Hk. unfold step_up. apply Forall_app. split.
  - apply Forall_forall. intros x Hx. apply elem_of_zip_with in Hx as (a & b & -> & _ & _). unfold int16. apply (swrap_range 16). lia.
  - apply Forall_cons. split; [|by apply Forall_nil]. unfold int16 in *. pose proof (sqrt_shiftr_bound k 3 (-4096) 4095 ltac:(lia) ltac:(lia)). lia.
Qed.

Section StepUp.
Variables (l : list Z) (rest : list Z) (kv : Z).
Hypothesis Hl : Forall int16 l.
Hypothesis Hk : int16 kv.
Let a := 4096 :: l ++ rest.
Let m := zlen l.

Lemma a_cell (i : Z) : 0 <= i < m -> aget a (1 + i) = Some (zn l i) /\ int16 (zn l i).
Proof.
  intros Hi. split.
  - rewrite aget_in by (unfold a; rewrite zlen_cons, zlen_app; pose proof (zlen_nonneg rest); lia).
    f_equal. unfold a. change (4096 :: l ++ rest) with ([4096] ++ l ++ rest). rewrite zn_app_r by (change (zlen [4096]) with 1; lia).
    change (zlen [4096]) with 1. rewrite zn_app_l by lia. f_equal. lia.
  - by apply (proj1 (Forall_forall _ _) Hl), zn_elem.
Qed.

Lemma step_up_loop_ok (n : nat) : forall any i, 0 <= i -> i + Z.of_nat n = m -> m + 1 <= zlen any ->
  exists any', step_up_loop n a any i m kv = Some any' /\ zlen any' = zlen any /\
    forall j, 0 <= j -> zn any' j = if (i + 1 <=? j) && (j <=? m) then zn (step_up l kv) (j - 1) else zn any j.
Proof.
  induction n as [|n IH]; intros any i Hi Hn Hlen; cbn [step_up_loop].
  - exists any. split; [done|]. split; [done|]. intros j Hj. destruct (Z.leb_spec (i + 1) j), (Z.leb_spec j m); cbn [andb]; try done. lia.
  - destruct (a_cell i ltac:(lia)) as [-> Hx]. cbn [mbind option_bind].
    destruct (a_cell (m - i - 1) ltac:(lia)) as [E Hy]. replace (1 + (m - i - 1)) with (m - i) in E by lia. rewrite E. cbn [mbind option_bind].
    unfold int16 in *. rewrite int_mul_in by nia. cbn [mbind option_bind]. rewrite aset_in by lia. cbn [mbind option_bind].
    destruct (IH (zset any (1 + i) (s16 (zn l i + s16 (Z.shiftr (zn l (m - i - 1) * kv) 15)))) (i + 1)) as (any' & -> & Hlen' & Hz);
      [lia|lia|by rewrite zlen_zset|]. exists any'. split; [done|]. split; [by rewrite Hlen', zlen_zset|]. intros j Hj. rewrite Hz by done.
    destruct (decide (j = i + 1)) as [->|Hne].
    + rewrite (proj2 (Z.leb_gt (i + 1 + 1) (i + 1))), (proj2 (Z.leb_le (i + 1) (i + 1))), (proj2 (Z.leb_le (i + 1) m)) by lia. cbn [andb].
      rewrite Z.add_comm, zn_zset_eq by lia. rewrite zn_step_up by (unfold m in *; lia). rewrite Z.shiftr_div_pow2 by lia.
      replace (i + 1 - 1) with i by lia. fold m. by replace (m - 1 - i) with (m - i - 1) by lia.
    + rewrite zn_zset_ne by lia. destruct (Z.leb_spec (i + 1 + 1) j), (Z.leb_spec (i + 1) j); cbn [andb]; try done; lia.
Qed.
End StepUp.

Lemma copy_loop_ok (n : nat) : forall a any i, 0 <= i -> i + Z.of_nat n <= zlen a -> i + Z.of_nat n <= zlen any ->
  exists a', copy_loop n a any i = Some a' /\ zlen a' = zlen a /\
    forall j, 0 <= j -> zn a' j = if (i <=? j) && (j <? i + Z.of_nat n) then zn any j else zn a j.
Proof.
  induction n as [|n IH]; intros a any i Hi Ha Hany; cbn [copy_loop].
  - exists a. split; [done|]. split; [done|]. intros j Hj. destruct (Z.leb_spec i j), (Z.ltb_spec j (i + Z.of_nat 0)); cbn [andb]; try done; lia.
  - rewrite aget_in by lia. cbn [mbind option_bind]. rewrite aset_in by lia. cbn [mbind option_bind].
    destruct (IH (zset a i (zn any i)) any (i + 1)) as (a' & -> & Hlen & Hz); [lia|rewrite zlen_zset; lia|lia|].
    exists a'. split; [done|]. split; [by rewrite Hlen, zlen_zset|]. intros j Hj. rewrite Hz by done.
    destruct (decide (j = i)) as [->|Hne].
    + rewrite (proj2 (Z.leb_gt (i + 1) i)), (proj2 (Z.leb_le i i)), (proj2 (Z.ltb_lt i (i + Z.of_nat (S n)))) by lia. cbn [andb]. by rewrite zn_zset_eq by lia.
    + rewrite zn_zset_ne by lia. destruct (Z.leb_spec (i + 1) j), (Z.leb_spec i j), (Z.ltb_spec j (i + 1 + Z.of_nat n)), (Z.ltb_spec j (i + Z.of_nat (S n)));
        cbn [andb]; try done; lia.
Qed.

Lemma refl_to_lpc_loop_ok (k : list Z) (n : nat) : forall l rest any, Forall int16 k -> Forall int16 l ->
  zlen l + Z.of_nat n <= zlen k -> zlen l + Z.of_nat n <= zlen l + zlen rest -> zlen l + Z.of_nat n + 1 <= zlen any -> zn any 0 = 4096 -> 
  exists a', refl_to_lpc_loop n k (4096 :: l ++ rest) any (zlen l) = Some a' /\
    a' = 4096 :: foldl step_up l (take n (drop (Z.to_nat (zlen l)) k)) ++ drop n rest.
Proof.
  induction n as [|n IH]; intros l rest any Hk Hl Hkl Hrest Hany H0; cbn [refl_to_lpc_loop].
  - eexists. split; [done|]. by rewrite take_0, drop_0.
  - set (m := zlen l) in *. pose proof (zlen_nonneg l). pose proof (zlen_nonneg rest).
    rewrite aget_in by lia. cbn [mbind option_bind]. set (kv := zn k m).
    assert (int16 kv) as Hkv by (apply (proj1 (Forall_forall _ _) Hk), zn_elem; lia).
    rewrite aset_in by lia. cbn [mbind option_bind]. set (any1 := zset any (m + 1) (Z.shiftr kv 3)).
    destruct (step_up_loop_ok l rest kv Hl Hkv (Z.to_nat m) any1 0) as (any2 & E2 & Hl2 & Hz2);
      [lia|unfold m in *; lia|unfold any1; rewrite zlen_zset; fold m; lia|]. fold m in E2, Hz2. rewrite E2. cbn [mbind option_bind].
    assert (zlen any1 = zlen any) as El1 by (unfold any1; by rewrite zlen_zset).
    assert (zlen (4096 :: l ++ rest) = 1 + m + zlen rest) as Ela by (rewrite zlen_cons, zlen_app; fold m; lia).
    destruct (copy_loop_ok (Z.to_nat (m + 2)) (4096 :: l ++ rest) any2 0) as (a' & -> & Hla & Hza); [lia|lia|lia|]. cbn [mbind option_bind].
    assert (a' = 4096 :: step_up l kv ++ drop 1 rest) as ->.
    { apply zlist_eq; [rewrite Hla, Ela, zlen_cons, zlen_app, zlen_step_up; change 1%nat with (Z.to_nat 1); rewrite zlen_drop by lia; fold m; lia|].
      intros j Hj. rewrite Hza by lia. rewrite Z2Nat.id by lia. change (4096 :: step_up l kv ++ drop 1 rest) with ([4096] ++ step_up l kv ++ drop 1 rest).
      pose proof (zlen_step_up l kv) as Hsl. fold m in Hsl.
      destruct (decide (j = 0)) as [->|Hj0].
      { rewrite (proj2 (Z.leb_le 0 0)), (proj2 (Z.ltb_lt 0 _)) by lia. cbn [andb]. rewrite Hz2 by lia.
        change (0 + 1 <=? 0) with false. cbn [andb]. unfold any1. rewrite zn_zset_ne by lia. rewrite H0. reflexivity. }
      rewrite zn_app_r by (change (zlen [4096]) with 1; lia). change (zlen [4096]) with 1. rewrite (proj2 (Z.leb_le 0 j)) by lia. cbn [andb].
      destruct (Z.ltb_spec j (0 + (m + 2))) as [Hlt|Hge].
      - rewrite zn_app_l by lia. rewrite Hz2 by lia. rewrite (proj2 (Z.leb_le (0 + 1) j)) by lia. cbn [andb].
        destruct (Z.leb_spec j m); [done|]. assert (j = m + 1) as -> by lia. unfold any1. rewrite zn_zset_eq by lia.
        unfold step_up. rewrite zn_app_r by (unfold zlen; rewrite length_zip_with, length_reverse; unfold m, zlen; lia).
        replace (m + 1 - 1 - zlen _) with 0; [done|]. unfold m, zlen. rewrite length_zip_with, length_reverse. lia.
      - rewrite zn_app_r by lia. change 1%nat with (Z.to_nat 1). rewrite zn_drop by lia.
        change (4096 :: l ++ rest) with ([4096] ++ l ++ rest). rewrite zn_app_r by (change (zlen [4096]) with 1; lia). change (zlen [4096]) with 1.
        rewrite zn_app_r by (fold m; lia). f_equal. fold m. lia. }
    replace (m + 1) with (zlen (step_up l kv)) by (rewrite zlen_step_up; fold m; lia).
    destruct (IH (step_up l kv) (drop 1 rest) any2) as (a2 & E & ->).
    + done.
    + by apply step_up_int16.
    + rewrite zlen_step_up. fold m. lia.
    + change 1%nat with (Z.to_nat 1). rewrite zlen_drop by lia. lia.
    + rewrite zlen_step_up, Hl2, El1. fold m. lia.
    + rewrite Hz2 by lia. change (0 + 1 <=? 0) with false. cbn [andb]. unfold any1. by rewrite zn_zset_ne by lia.
    + eexists. split; [exact E|]. rewrite drop_drop. f_equal. f_equal.
      * rewrite zlen_step_up. fold m. replace (Z.to_nat (m + 1)) with (S (Z.to_nat m)) by lia.
        assert (k !! Z.to_nat m = Some kv) as Ek.
        { pose proof (aget_in k m ltac:(lia)) as E'. unfold aget in E'. rewrite (proj2 (Z.leb_le 0 m)) in E' by lia. done. }
        rewrite (drop_S k kv (Z.to_nat m)) by done. reflexivity.
Qed.

(** C37: [WebRtcSpl_ReflCoefToLpc], with its two arrays that take turns,
    computes the step-up recursion in 16-bit arithmetic: from the order [m] to
    [m + 1] every coefficient gets the product of the new reflection
    coefficient and its mirror image added.  For every order up to
    [WEBRTC_SPL_MAX_LPC_ORDER] it stays inside its arrays, no product
    overflows, whatever the local array holds, and the rest of [a] is kept. *)
Theorem refl_to_lpc_correct (any k a : list Z) (use_order : Z) :
  1 <= use_order <= WEBRTC_SPL_MAX_LPC_ORDER -> zlen any = WEBRTC_SPL_MAX_LPC_ORDER + 1 -> Forall int16 k ->
  use_order <= zlen k -> use_order + 1 <= zlen a ->
  WebRtcSpl_ReflCoefToLpc any k use_order a = Some (lpc_of (take (Z.to_nat use_order) k) ++ drop (Z.to_nat (use_order + 1)) a).
Proof.
  unfold WEBRTC_SPL_MAX_LPC_ORDER. intros Ho Hany Hk Hkl Ha. destruct k as [|k0 k]; [rewrite zlen_nil in Hkl; lia|].
  destruct a as [|x0 [|x1 rest]]; [rewrite zlen_nil in Ha; lia|change (zlen [x0]) with 1 in Ha; lia|]. rewrite !zlen_cons in Ha. rewrite zlen_cons in Hkl.
  unfold WebRtcSpl_ReflCoefToLpc. rewrite (aset_in (x0 :: x1 :: rest)) by (rewrite !zlen_cons; pose proof (zlen_nonneg rest); lia).
  cbn [mbind option_bind]. rewrite (aset_in any) by lia. cbn [mbind option_bind].
  change (aget (k0 :: k) 0) with (Some k0). cbn [mbind option_bind].
  change (zset (x0 :: x1 :: rest) 0 4096) with (4096 :: x1 :: rest).
  rewrite aset_in by (rewrite !zlen_cons; pose proof (zlen_nonneg rest); lia). cbn [mbind option_bind].
  change (zset (4096 :: x1 :: rest) 1 (Z.shiftr k0 3)) with (4096 :: [Z.shiftr k0 3] ++ rest).
  apply Forall_cons in Hk as [Hk0 Hk].
  destruct (refl_to_lpc_loop_ok (k0 :: k) (Z.to_nat (use_order - 1)) [Z.shiftr k0 3] rest (zset any 0 4096)) as (a' & E & ->).
  - by apply Forall_cons.
  - apply (step_up_int16 [] k0 Hk0).
  - change (zlen [_]) with 1. rewrite zlen_cons. lia.
  - change (zlen [_]) with 1. lia.
  - change (zlen [_]) with 1. rewrite zlen_zset. lia.
  - by rewrite zn_zset_eq by lia.
  - change (zlen [Z.shiftr k0 3]) with 1 in E. rewrite E. unfold lpc_of. f_equal.
    replace (Z.to_nat use_order) with (S (Z.to_nat (use_order - 1))) by lia.
    replace (Z.to_nat (use_order + 1)) with (S (S (Z.to_nat (use_order - 1)))) by lia. reflexivity.
Qed.

Lemma refl_to_lpc_witness : WebRtcSpl_ReflCoefToLpc (replicate 15 7) [-16384; 8000; -3000; 100] 4 (replicate 6 9) =
  Some (lpc_of [-16384; 8000; -3000; 100] ++ [9]).
Proof.
  apply (refl_to_lpc_correct (replicate 15 7) [-16384; 8000; -3000; 100] (replicate 6 9) 4); [closed|reflexivity| |closed|closed].
  repeat (apply Forall_cons; split; [closed|]). by apply Forall_nil.
Defined.

(** The step-down recursion takes the coefficients back, up to rounding. *)
Example step_down_example :
  (a ← WebRtcSpl_ReflCoefToLpc (replicate 15 0) [-16384; 8000; -3000; 100] 4 (replicate 5 0);
   WebRtcSpl_LpcToReflCoef (replicate 50 0) a 4 (replicate 4 0)) =
  Some ([4096; -2549; 1232; -384; 12], [-16396; 7984; -3008; 96]).
Proof. vm_compute. reflexivity. Qed.

(** ** Autocorrelations to reflection coefficients *)

(** The quotient of a number by one that is not smaller. *)
Lemma refl_div_pos (tmp den : Z) (i : nat) : forall j num k, 0 < den <= 32767 -> 0 <= j -> j + Z.of_nat i = 15 ->
  0 <= k < 2 ^ j -> 0 <= num <= den -> tmp * 2 ^ j = k * den + num ->
  exists k', refl_div_loop i num den k = Some k' /\ 0 <= k' < 2 ^ 15 /\ k' * den <= tmp * 2 ^ 15 <= (k' + 1) * den.
Proof.
  induction i as [|i IH]; intros j num k Hd Hj Hi Hk Hn Hq; cbn [refl_div_loop].
  - replace j with 15 in * by lia. exists k. split; [done|]. split; [done|]. lia.
  - assert (2 ^ (j + 1) = 2 * 2 ^ j) as Hp by (rewrite Z.add_1_r, Z.pow_succ_r by lia; done).
    assert (2 ^ (j + 1) <= 2 ^ 15) by (apply Z.pow_le_mono_r; lia).
    unfold int_shl. rewrite int_mul_in by lia. cbn [mbind option_bind]. rewrite (s16_id (2 * k)) by lia.
    destruct (Z.leb_spec den (num * 2 ^ 1)).
    + rewrite int_add_in by lia. cbn [mbind option_bind]. rewrite s16_id by lia. apply (IH (j + 1)); lia.
    + apply (IH (j + 1)); lia.
Qed.

(** The magnitude of the least 16-bit number is negative as one. *)
Lemma refl_div_neg (den : Z) (i : nat) : forall j, - 32768 <= den -> 0 <= j -> j + Z.of_nat i = 15 ->
  refl_div_loop i (- 32768 * 2 ^ j) den 0 = Some 0.
Proof.
  induction i as [|i IH]; intros j Hd Hj Hi; cbn [refl_div_loop]; [done|].
  assert (2 ^ (j + 1) = 2 * 2 ^ j) as Hp by (rewrite Z.add_1_r, Z.pow_succ_r by lia; done).
  assert (2 ^ (j + 1) <= 2 ^ 15) by (apply Z.pow_le_mono_r; lia). assert (0 < 2 ^ j) by (apply Z.pow_pos_nonneg; lia).
  unfold int_shl. rewrite int_mul_in by lia. cbn [mbind option_bind]. change (s16 (2 * 0)) with 0.
  replace (- 32768 * 2 ^ j * 2 ^ 1) with (- 32768 * 2 ^ (j + 1)) by lia. rewrite (proj2 (Z.leb_gt _ _)) by lia. apply IH; lia.
Qed.

Definition refl_range (k : Z) : Prop := - 32767 <= k <= 32767.

Lemma refl_coef_ok (p0 p1 : Z) : int16 p0 -> int16 p1 ->
  let tmp := s16 (WEBRTC_SPL_ABS_W16 p1) in tmp <= p0 -> exists k, refl_coef p0 p1 tmp = Some k /\ refl_range k.
Proof.
  intros H0 H1 tmp Hle. unfold int16, refl_range, refl_coef in *. destruct (Z.eqb_spec tmp 0) as [E|E]; cbn [negb]; [exists 0; split; [done|lia]|].
  assert (WEBRTC_SPL_ABS_W16 p1 = Z.abs p1) as Ea.
  { unfold WEBRTC_SPL_ABS_W16. rewrite (s16_id p1) by lia. destruct (Z.leb_spec 0 p1); lia. }
  destruct (decide (p1 = - 32768)) as [->|Hne].
  - assert (tmp = - 32768) as -> by (unfold tmp; rewrite Ea; reflexivity).
    pose proof (refl_div_neg p0 15 0 ltac:(lia) ltac:(lia) ltac:(lia)) as E2. rewrite Z.mul_1_r in E2. rewrite E2.
    exists 0. split; [done|lia].
  - assert (tmp = Z.abs p1) as Et by (unfold tmp; rewrite Ea; apply s16_id; lia).
    destruct (refl_div_pos tmp p0 15 0 tmp 0) as (k & -> & Hk & _); [lia|lia|lia|lia|lia|lia|].
    cbn [mbind option_bind]. destruct (Z.ltb_spec 0 p1); [|exists k; split; [done|lia]].
    exists (s16 (- k)). split; [done|]. rewrite s16_id by lia. lia.
Qed.

Lemma schur_term_ok (x k : Z) : int16 x -> refl_range k -> exists t, schur_term x k = Some t.
Proof.
  unfold int16, refl_range. intros Hx Hk. unfold schur_term. rewrite int_mul_in by nia. cbn [mbind option_bind].
  rewrite int_add_in by nia. cbn [mbind option_bind]. by eexists.
Qed.

Lemma add_sat16 (a b : Z) : int16 (WebRtcSpl_AddSatW16 a b).
Proof. unfold WebRtcSpl_AddSatW16, int16. rewrite sat16_clamp. unfold clamp16. lia. Qed.

Lemma Forall_zset {A} (P : A -> Prop) (l : list A) (i : Z) (x : A) : Forall P l -> P x -> Forall P (zset l i x).
Proof. intros Hl Hx. by apply Forall_insert. Qed.

(** The arrays hold 16-bit numbers. *)
Definition shorts (n : Z) (l : list Z) : Prop := zlen l = n /\ Forall int16 l.

Lemma shorts_get (n : Z) (l : list Z) (i : Z) : shorts n l -> 0 <= i < n -> exists x, aget l i = Some x /\ int16 x.
Proof.
  intros [Hl Hf] Hi. exists (zn l i). split; [apply aget_in; lia|]. apply (proj1 (Forall_forall _ _) Hf), zn_elem. lia.
Qed.

Lemma shorts_set (n : Z) (l : list Z) (i x : Z) : shorts n l -> 0 <= i < n -> int16 x -> exists l', aset l i x = Some l' /\ shorts n l'.
Proof.
  intros [Hl Hf] Hi Hx. exists (zset l i x). split; [apply aset_in; lia|]. split; [by rewrite zlen_zset|by apply Forall_zset].
Qed.

Lemma schur_loop_ok (c : nat) : forall P W i k, shorts 14 P -> shorts 14 W -> refl_range k -> 0 <= i -> i + Z.of_nat c <= 13 ->
  exists P' W', schur_loop c P W i k = Some (P', W') /\ shorts 14 P' /\ shorts 14 W'.
Proof.
  induction c as [|c IH]; intros P W i k HP HW Hk Hi Hc; cbn [schur_loop]; [by exists P, W|].
  destruct (shorts_get 14 W i HW ltac:(lia)) as (w & Ew & Hw). rewrite Ew. cbn [mbind option_bind].
  destruct (schur_term_ok w k Hw Hk) as (t & ->). cbn [mbind option_bind].
  destruct (shorts_get 14 P (i + 1) HP ltac:(lia)) as (x & -> & Hx). cbn [mbind option_bind].
  destruct (shorts_set 14 P i (WebRtcSpl_AddSatW16 x t) HP ltac:(lia) (add_sat16 x t)) as (P1 & -> & HP1). cbn [mbind option_bind].
  destruct (shorts_get 14 P1 (i + 1) HP1 ltac:(lia)) as (y & -> & Hy). cbn [mbind option_bind].
  destruct (schur_term_ok y k Hy Hk) as (t2 & ->). cbn [mbind option_bind].
  destruct (shorts_set 14 W i (WebRtcSpl_AddSatW16 w t2) HW ltac:(lia) (add_sat16 w t2)) as (W1 & -> & HW1). cbn [mbind option_bind].
  apply IH; auto; lia.
Qed.

(** [K'] is [K] with reflection coefficients in the cells from [n] to [m]. *)
Definition coefs (K K' : list Z) (n m : Z) : Prop :=
  zlen K' = zlen K /\ (forall j, n <= j < m -> refl_range (zn K' j)) /\ forall j, 0 <= j -> ~ n <= j < m -> zn K' j = zn K j.

Lemma coefs_nil (K : list Z) (n : Z) : coefs K K n n.
Proof. split; [done|]. split; [lia|done]. Qed.

Lemma coefs_cons (K K' : list Z) (n m x : Z) : 0 <= n < m -> n < zlen K -> refl_range x -> coefs (zset K n x) K' (n + 1) m -> coefs K K' n m.
Proof.
  intros Hn Hm Hx (H1 & H2 & H3). rewrite zlen_zset in H1. split; [done|]. split.
  - intros j Hj. destruct (decide (j = n)) as [->|]; [|apply H2; lia]. rewrite H3 by lia. by rewrite zn_zset_eq by lia.
  - intros j Hj Hnot. rewrite H3 by lia. apply zn_zset_ne; lia.
Qed.

Lemma zero_loop_ok (n : nat) : forall K kp, 0 <= kp -> kp + Z.of_nat n <= zlen K ->
  exists K', zero_loop n K kp = Some K' /\ coefs K K' kp (kp + Z.of_nat n).
Proof.
  induction n as [|n IH]; intros K kp Hk Hl; cbn [zero_loop].
  - exists K. split; [done|]. rewrite Z.add_0_r. apply coefs_nil.
  - rewrite aset_in by lia. cbn [mbind option_bind]. destruct (IH (zset K kp 0) (kp + 1)) as (K' & -> & Hc); [lia|rewrite zlen_zset; lia|].
    exists K'. split; [done|]. apply (coefs_cons K K' kp _ 0); [lia|lia|unfold refl_range; lia|].
    by replace (kp + Z.of_nat (S n)) with (kp + 1 + Z.of_nat n) by lia.
Qed.

Lemma auto_corr_loop_ok (c : nat) : forall P W K n order, shorts 14 P -> shorts 14 W -> 1 <= n -> n + Z.of_nat c = order + 1 -> order <= 13 ->
  order <= zlen K -> exists K', auto_corr_loop c P W K n order = Some K' /\ coefs K K' (n - 1) order.
Proof.
  induction c as [|c IH]; intros P W K n order HP HW Hn Hc Ho HK; cbn [auto_corr_loop].
  - exists K. split; [done|]. replace order with (n - 1) by lia. apply coefs_nil.
  - destruct (shorts_get 14 P 1 HP ltac:(lia)) as (p1 & -> & H1). destruct (shorts_get 14 P 0 HP ltac:(lia)) as (p0 & -> & H0).
    cbn [mbind option_bind]. set (tmp := s16 (WEBRTC_SPL_ABS_W16 p1)). destruct (Z.ltb_spec p0 tmp) as [Hlt|Hge].
    + destruct (zero_loop_ok (Z.to_nat (order - n + 1)) K (n - 1)) as (K' & -> & Hz); [lia|lia|]. exists K'. split; [done|].
      by replace order with (n - 1 + Z.of_nat (Z.to_nat (order - n + 1))) by lia.
    + destruct (refl_coef_ok p0 p1 H0 H1 Hge) as (k & Ek & Hk). fold tmp in Ek. rewrite Ek. cbn [mbind option_bind].
      rewrite aset_in by lia. cbn [mbind option_bind]. destruct (Z.eqb_spec n order) as [->|Hne].
      * eexists. split; [done|]. apply (coefs_cons K _ (order - 1) order k); [lia|lia|done|].
        replace (order - 1 + 1) with order by lia. apply coefs_nil.
      * destruct (schur_term_ok p1 k H1 Hk) as (t & ->). cbn [mbind option_bind].
        destruct (shorts_set 14 P 0 (WebRtcSpl_AddSatW16 p0 t) HP ltac:(lia) (add_sat16 p0 t)) as (P1 & -> & HP1). cbn [mbind option_bind].
        destruct (schur_loop_ok (Z.to_nat (order - n)) P1 W 1 k HP1 HW Hk ltac:(lia) ltac:(lia)) as (P2 & W2 & -> & HP2 & HW2).
        cbn [mbind option_bind].
        destruct (IH P2 W2 (zset K (n - 1) k) (n + 1) order HP2 HW2) as (K' & -> & Hco); [lia|lia|lia|rewrite zlen_zset; lia|].
        exists K'. split; [done|]. apply (coefs_cons K K' (n - 1) order k); [lia|lia|done|]. by replace (n - 1 + 1) with (n + 1 - 1) by lia.
Qed.

Lemma acf_loop_ok (R : list Z) (norm : Z) (n : nat) : forall i ACF P W, 0 <= i -> i + Z.of_nat n <= 14 -> i + Z.of_nat n <= zlen R ->
  (forall j, 0 <= j < zlen R -> int32 (zn R j * 2 ^ norm)) -> shorts 14 ACF -> shorts 14 P -> shorts 14 W ->
  exists ACF' P' W', acf_loop n R norm i ACF P W = Some (ACF', P', W') /\ shorts 14 P' /\ shorts 14 W'.
Proof.
  induction n as [|n IH]; intros i ACF P W Hi Hn HR Hs HA HP HW; cbn [acf_loop]; [by exists ACF, P, W|].
  rewrite aget_in by lia. cbn [mbind option_bind]. pose proof (Hs i ltac:(lia)) as Hx. unfold int32 in Hx. unfold int_shl.
  rewrite int_mul_in by lia. cbn [mbind option_bind].
  assert (int16 (s16 (Z.shiftr (zn R i * 2 ^ norm) 16))) as H16 by (apply (swrap_range 16); lia).
  destruct (shorts_set 14 ACF i _ HA ltac:(lia) H16) as (A1 & -> & HA1). cbn [mbind option_bind].
  destruct (shorts_set 14 W i _ HW ltac:(lia) H16) as (W1 & -> & HW1). cbn [mbind option_bind].
  destruct (shorts_set 14 P i _ HP ltac:(lia) H16) as (P1 & -> & HP1). cbn [mbind option_bind].
  apply IH; auto; lia.
Qed.

(** One cell too many. *)
Lemma acf_loop_short (R : list Z) (norm : Z) (n : nat) : forall i ACF P W, 0 <= i < i + Z.of_nat n -> i + Z.of_nat n = 15 -> zlen ACF = 14 ->
  acf_loop n R norm i ACF P W = None.
Proof.
  induction n as [|n IH]; intros i ACF P W Hi Hn HA; [lia|]. cbn [acf_loop].
  destruct (aget R i); [|done]. cbn [mbind option_bind]. destruct (int_shl z norm); [|done]. cbn [mbind option_bind].
  destruct (decide (i = 14)) as [->|Hne].
  - by rewrite (proj2 (aset_None ACF 14 _)) by lia.
  - rewrite (aset_in ACF) by lia. cbn [mbind option_bind]. destruct (aset W i _); [|done]. cbn [mbind option_bind].
    destruct (aset P i _); [|done]. cbn [mbind option_bind]. apply IH; [lia|lia|by rewrite zlen_zset].
Qed.

(** C35: [WebRtcSpl_AutoCorrToReflCoef], for an autocorrelation whose values
    are not larger than the first one and an order below
    [WEBRTC_SPL_MAX_LPC_ORDER], stays inside its arrays, no operation
    overflows, and every reflection coefficient it stores is below one in
    magnitude (32767 in Q15); no other cell is written.  For the order
    [WEBRTC_SPL_MAX_LPC_ORDER] itself its local arrays are one cell short. *)
Theorem auto_corr_to_refl_bounded (ACF P W R K : list Z) (use_order : Z) :
  shorts WEBRTC_SPL_MAX_LPC_ORDER ACF -> shorts WEBRTC_SPL_MAX_LPC_ORDER P -> shorts WEBRTC_SPL_MAX_LPC_ORDER W ->
  1 <= use_order <= WEBRTC_SPL_MAX_LPC_ORDER -> use_order < zlen R -> use_order <= zlen K ->
  0 <= zn R 0 < 2 ^ 31 -> (forall j, 0 <= j < zlen R -> Z.abs (zn R j) <= zn R 0) ->
  if use_order =? WEBRTC_SPL_MAX_LPC_ORDER then WebRtcSpl_AutoCorrToReflCoef ACF P W R use_order K = None
  else exists K', WebRtcSpl_AutoCorrToReflCoef ACF P W R use_order K = Some K' /\ zlen K' = zlen K /\
    (forall j, 0 <= j < use_order -> - 32767 <= zn K' j <= 32767) /\ forall j, use_order <= j -> zn K' j = zn K j.
Proof.
  unfold WEBRTC_SPL_MAX_LPC_ORDER. intros HA HP HW Ho HR HK H0 Hmax.
  assert (forall j, 0 <= j < zlen R -> int32 (zn R j * 2 ^ WebRtcSpl_NormW32 (zn R 0))) as Hs.
  { intros j Hj. specialize (Hmax j Hj). unfold int32. destruct (decide (zn R 0 = 0)) as [E|E].
    - rewrite E in *. change (WebRtcSpl_NormW32 0) with 0. lia.
    - destruct (proj1 (norm_correct (zn R 0) E) ltac:(unfold int32; lia)) as (Hk & Hn & _). unfold int32 in Hn.
      set (p := 2 ^ WebRtcSpl_NormW32 (zn R 0)) in *. assert (0 < p) by (apply Z.pow_pos_nonneg; lia).
      assert (Z.abs (zn R j * p) <= zn R 0 * p) by (rewrite Z.abs_mul, (Z.abs_eq p) by lia; apply Z.mul_le_mono_nonneg_r; lia). lia. }
  unfold WebRtcSpl_AutoCorrToReflCoef. rewrite aget_in by lia. cbn [mbind option_bind].
  set (norm := WebRtcSpl_NormW32 (zn R 0)) in *. unfold int_shl at 1 2. pose proof (Hs 0 ltac:(lia)) as Hx. unfold int32 in Hx.
  rewrite !int_mul_in by lia. cbn [mbind option_bind].
  assert (int16 (s16 (Z.shiftr (zn R 0 * 2 ^ norm) 16))) as H16 by (apply (swrap_range 16); lia).
  destruct (shorts_set 14 ACF 0 _ HA ltac:(lia) H16) as (A1 & -> & HA1). cbn [mbind option_bind].
  destruct (shorts_set 14 P 0 _ HP ltac:(lia) H16) as (P1 & -> & HP1). cbn [mbind option_bind].
  destruct (Z.eqb_spec use_order 14) as [->|Hne].
  - rewrite (acf_loop_short R norm (Z.to_nat 14) 1 A1 P1 W); [done|lia|lia|apply HA1].
  - destruct (acf_loop_ok R norm (Z.to_nat use_order) 1 A1 P1 W) as (A2 & P2 & W2 & -> & HP2 & HW2); auto; try lia. cbn [mbind option_bind].
    destruct (auto_corr_loop_ok (Z.to_nat use_order) P2 W2 K 1 use_order HP2 HW2) as (K' & -> & Hl & Hin & Hout); try lia.
    exists K'. split; [done|]. split; [done|]. split; [exact Hin|]. intros j Hj. apply Hout; lia.
Qed.

Lemma auto_corr_witness : exists K', WebRtcSpl_AutoCorrToReflCoef (replicate 14 0) (replicate 14 0) (replicate 14 0) [100; 50; 25] 2 [7; 7; 7] = Some K' /\
  zlen K' = 3 /\ (forall j, 0 <= j < 2 -> - 32767 <= zn K' j <= 32767) /\ forall j, 2 <= j -> zn K' j = zn [7; 7; 7] j.
Proof.
  assert (shorts WEBRTC_SPL_MAX_LPC_ORDER (replicate 14 0)) as Hz.
  { split; [reflexivity|]. apply Forall_replicate. unfold int16. lia. }
  apply (auto_corr_to_refl_bounded (replicate 14 0) (replicate 14 0) (replicate 14 0) [100; 50; 25] [7; 7; 7] 2); auto; try closed.
  intros j Hj. change (zlen [100; 50; 25]) with 3 in Hj. assert (j = 0 \/ j = 1 \/ j = 2) as [->|[->| ->]] by lia; closed.
Defined.

(** The first coefficient is not tested for stability: a constant signal,
    whose filter has its pole on the unit circle, is reported as stable. *)
Example levinson_first_unchecked :
  WebRtcSpl_LevinsonDurbin (replicate 21 0) [1000; 1000; 1000] (replicate 3 0) (replicate 2 0) 2 = Some (1, [4096; -4096; 0], [-32768; 0]).
Proof. vm_compute. reflexivity. Qed.
