(* ===== verification/SplQmf.v ===== *)
(** * The two-band splitting filter

    [splitting_filter_impl.c] of
    [src/submodules/libtgvoip/webrtc_dsp/webrtc/common_audio/signal_processing]:
    analysis and synthesis by all-pass filtering the even and odd samples.
    [None] is an overflow of an [int], an access outside of an array or a
    failed check.  Of the local arrays only the cells in use are kept. *)
From S2P Require Import Prelude.
From S2P Require Import Bytes.
From S2P Require Import SplArith.
From S2P Require Import SplVector.
From S2P Require Import SplFilter.
From S2P Require Import SplResample.
From Stdlib Require Import ZArith Lia.
From stdpp Require Import base numbers option list.
Open Scope Z_scope.

Definition kMaxBandFrameLength : Z := 320.
Definition WebRtcSpl_kAllPassFilter1 : Z * Z * Z := (6418, 36982, 57261).
Definition WebRtcSpl_kAllPassFilter2 : Z * Z * Z := (21333, 49062, 63010).

(** One cascade over the samples [xs]; [pin] and [pout] are the previous
    input and output. *)
Fixpoint cascade (c : Z) (xs : list Z) (pin pout : Z) : option (list Z) :=
  match xs with
  | [] => Some []
  | x :: xs =>
    y ← WEBRTC_SPL_SCALEDIFF32 c (WebRtcSpl_SubSatW32 x pout) pin;
    ys ← cascade c xs x y;
    Some (y :: ys)
  end.

(** [filter_state]: the last input and output of each cascade. *)
Record qmf_state := Qmf { q0 : Z; q1 : Z; q2 : Z; q3 : Z; q4 : Z; q5 : Z }.

(** Result: [in_data] (overwritten by the second cascade), [out_data] and the
    state. *)
Definition WebRtcSpl_AllPassQMF (in_data : list Z) (data_length : Z) (out_data : list Z)
    (filter_coefficients : Z * Z * Z) (st : qmf_state) : option (list Z * list Z * qmf_state) :=
  let '(c0, c1, c2) := filter_coefficients in
  if data_length <=? 0 then None
  else
  xs ← bread in_data 0 data_length;
  y1 ← cascade c0 xs (q0 st) (q1 st);
  x' ← aget xs (data_length - 1); y1' ← aget y1 (data_length - 1);
  y2 ← cascade c1 y1 (q2 st) (q3 st);
  in_data ← bwrite in_data 0 y2;
  y2' ← aget y2 (data_length - 1);
  y3 ← cascade c2 y2 (q4 st) (q5 st);
  out_data ← bwrite out_data 0 y3;
  y3' ← aget y3 (data_length - 1);
  Some (in_data, out_data, Qmf x' y1' y1' y2' y2' y3').

(** [half_in1] and [half_in2]: the odd and the even samples in Q10. *)
Fixpoint split_samples (n : nat) (in_data : list Z) (k : Z) : option (list Z * list Z) :=
  match n with
  | O => Some ([], [])
  | S n =>
    e ← aget in_data k; o ← aget in_data (k + 1);
    '(h1, h2) ← split_samples n in_data (k + 2);
    Some (o * 2 ^ 10 :: h1, e * 2 ^ 10 :: h2)
  end.

Fixpoint bands (f1 f2 low high : list Z) (i : Z) : option (list Z * list Z) :=
  match f1, f2 with
  | a :: f1, b :: f2 =>
    s ← int_add a b; s ← int_add s 1024;
    low ← aset low i (WebRtcSpl_SatW32ToW16 (Z.shiftr s 11));
    d ← int_add a (- b); d ← int_add d 1024;
    high ← aset high i (WebRtcSpl_SatW32ToW16 (Z.shiftr d 11));
    bands f1 f2 low high (i + 1)
  | _, _ => Some (low, high)
  end.

Definition WebRtcSpl_AnalysisQMF (in_data : list Z) (in_data_length : Z) (low_band high_band : list Z)
    (filter_state1 filter_state2 : qmf_state) : option (list Z * list Z * qmf_state * qmf_state) :=
  let band_length := in_data_length / 2 in
  if negb (in_data_length mod 2 =? 0) || (kMaxBandFrameLength <? band_length) then None
  else
  '(half_in1, half_in2) ← split_samples (Z.to_nat band_length) in_data 0;
  '(_, filter1, st1) ← WebRtcSpl_AllPassQMF half_in1 band_length (replicate (Z.to_nat band_length) 0)
                         WebRtcSpl_kAllPassFilter1 filter_state1;
  '(_, filter2, st2) ← WebRtcSpl_AllPassQMF half_in2 band_length (replicate (Z.to_nat band_length) 0)
                         WebRtcSpl_kAllPassFilter2 filter_state2;
  '(low, high) ← bands filter1 filter2 low_band high_band 0;
  Some (low, high, st1, st2).

Fixpoint sum_diff (n : nat) (low high : list Z) (i : Z) : option (list Z * list Z) :=
  match n with
  | O => Some ([], [])
  | S n =>
    l ← aget low i; h ← aget high i;
    '(h1, h2) ← sum_diff n low high (i + 1);
    Some ((l + h) * 2 ^ 10 :: h1, (l - h) * 2 ^ 10 :: h2)
  end.

Fixpoint interleave (f1 f2 out : list Z) (k : Z) : option (list Z) :=
  match f1, f2 with
  | a :: f1, b :: f2 =>
    s ← int_add b 512;
    out ← aset out k (WebRtcSpl_SatW32ToW16 (Z.shiftr s 10));
    s ← int_add a 512;
    out ← aset out (k + 1) (WebRtcSpl_SatW32ToW16 (Z.shiftr s 10));
    interleave f1 f2 out (k + 2)
  | _, _ => Some out
  end.

Definition WebRtcSpl_SynthesisQMF (low_band high_band : list Z) (band_length : Z) (out_data : list Z)
    (filter_state1 filter_state2 : qmf_state) : option (list Z * qmf_state * qmf_state) :=
  if kMaxBandFrameLength <? band_length then None
  else
  '(half_in1, half_in2) ← sum_diff (Z.to_nat band_length) low_band high_band 0;
  '(_, filter1, st1) ← WebRtcSpl_AllPassQMF half_in1 band_length (replicate (Z.to_nat band_length) 0)
                         WebRtcSpl_kAllPassFilter2 filter_state1;
  '(_, filter2, st2) ← WebRtcSpl_AllPassQMF half_in2 band_length (replicate (Z.to_nat band_length) 0)
                         WebRtcSpl_kAllPassFilter1 filter_state2;
  out ← interleave filter1 filter2 out_data 0;
  Some (out, st1, st2).

(** ** Exact arithmetic *)

Fixpoint casc (c : Z) (xs : list Z) (pin pout : Z) : list Z :=
  match xs with [] => [] | x :: xs => let y := section c x pin pout in y :: casc c xs x y end.

Lemma zlen_casc (c : Z) (xs : list Z) : forall pin pout, zlen (casc c xs pin pout) = zlen xs.
Proof. induction xs as [|x xs IH]; intros pin pout; [done|]. cbn [casc]. by rewrite !zlen_cons, IH. Qed.

Definition within (M : Z) (x : Z) : Prop := - M <= x <= M.

(** A cascade stays within its bounds and does not saturate. *)
Lemma cascade_ok (c M e M' : Z) (xs : list Z) : sec_okb c M e M' = true -> Forall (within M) xs ->
  forall pin pout, sec_inv c M e pin pout -> within M' pout ->
  cascade c xs pin pout = Some (casc c xs pin pout) /\ Forall (within M') (casc c xs pin pout) /\
  (0 < zlen xs -> sec_inv c M e (zn xs (zlen xs - 1)) (zn (casc c xs pin pout) (zlen xs - 1))).
Proof.
  intros Hok Hall. induction Hall as [|x xs Hx Hxs IH]; intros pin pout Hinv Hpo; [split_and!; [done|constructor|done]|].
  cbn [cascade casc]. unfold within in *.
  destruct (section_step c M e M' x pin pout Z Some Hok Hx Hinv Hpo) as (E & Hy & Hinv').
  set (y := section c x pin pout) in *.
  assert (WEBRTC_SPL_SCALEDIFF32 c (WebRtcSpl_SubSatW32 x pout) pin = Some y) as ->.
  { unfold sec_okb in Hok. rewrite int_add_in in E by lia. cbn [mbind option_bind] in E.
    replace (WebRtcSpl_SubSatW32 x pout) with (x + - pout); [destruct (WEBRTC_SPL_SCALEDIFF32 _ _ _); done|].
    unfold WebRtcSpl_SubSatW32. rewrite s32_sub, Z.add_opp_r. rewrite swrap_small by lia.
    destruct (Z.ltb_spec x 0), (Z.ltb_spec pout 0), (Z.ltb_spec (x - pout) 0); cbn [Bool.eqb negb andb]; lia. }
  cbn [mbind option_bind]. destruct (IH x y Hinv' Hy) as (-> & Hb & Hlast). split_and!; [done|by constructor|].
  intros _. rewrite zlen_cons. replace (1 + zlen xs - 1) with (zlen xs) by lia.
  destruct (decide (zlen xs = 0)) as [Hz|Hz].
  - destruct xs; [done|]. rewrite zlen_cons in Hz. pose proof (zlen_nonneg xs). lia.
  - pose proof (zlen_nonneg xs). specialize (Hlast ltac:(lia)).
    change (x :: xs) with ([x] ++ xs). change (y :: casc c xs x y) with ([y] ++ casc c xs x y).
    rewrite !zn_app_r by (change (zlen [x]) with 1; change (zlen [y]) with 1; lia). exact Hlast.
Qed.

(** The three cascades, the bounds [b] of the sections. *)
Record qmf_inv (b : bounds) (st : qmf_state) : Prop := {
  qi_0 : sec_inv (b_c0 b) (b_m0 b) (b_e0 b) (q0 st) (q1 st); qi_y1 : within (b_m1 b) (q1 st);
  qi_1 : sec_inv (b_c1 b) (b_m1 b) (b_e1 b) (q2 st) (q3 st); qi_y2 : within (b_m2 b) (q3 st);
  qi_2 : sec_inv (b_c2 b) (b_m2 b) (b_e2 b) (q4 st) (q5 st); qi_y3 : within (b_m3 b) (q5 st)
}.

Definition allpass3 (k : Z * Z * Z) (st : qmf_state) (xs : list Z) : list Z * qmf_state :=
  let '(c0, c1, c2) := k in
  let n := zlen xs - 1 in
  let y1 := casc c0 xs (q0 st) (q1 st) in
  let y2 := casc c1 y1 (q2 st) (q3 st) in
  let y3 := casc c2 y2 (q4 st) (q5 st) in
  (y3, Qmf (zn xs n) (zn y1 n) (zn y1 n) (zn y2 n) (zn y2 n) (zn y3 n)).

Lemma within_last (M : Z) (xs : list Z) : Forall (within M) xs -> 0 < zlen xs -> within M (zn xs (zlen xs - 1)).
Proof. intros H Hz. apply (proj1 (Forall_forall _ _) H), zn_elem. lia. Qed.

Lemma AllPassQMF_ok (b : bounds) (xs out : list Z) (st : qmf_state) : bounds_okb b = true -> qmf_inv b st ->
  Forall (within (b_m0 b)) xs -> 0 < zlen xs -> zlen out = zlen xs ->
  exists in', let '(ys, st') := allpass3 (b_c0 b, b_c1 b, b_c2 b) st xs in
    WebRtcSpl_AllPassQMF xs (zlen xs) out (b_c0 b, b_c1 b, b_c2 b) st = Some (in', ys, st') /\
    zlen ys = zlen xs /\ Forall (within (b_m3 b)) ys /\ qmf_inv b st'.
Proof.
  intros Hok [I0 B1 I1 B2 I2 B3] Hxs Hn Hout. unfold bounds_okb in Hok. rewrite !andb_true_iff in Hok.
  destruct Hok as [[O0 O1] O2]. unfold WebRtcSpl_AllPassQMF, allpass3.
  rewrite (proj2 (Z.leb_gt _ _)), bread_all by lia. cbn [mbind option_bind].
  destruct (cascade_ok _ _ _ _ xs O0 Hxs _ _ I0 B1) as (-> & W1 & L1). cbn [mbind option_bind].
  set (y1 := casc (b_c0 b) xs (q0 st) (q1 st)) in *. assert (zlen y1 = zlen xs) as Z1 by apply zlen_casc.
  destruct (cascade_ok _ _ _ _ y1 O1 W1 _ _ I1 B2) as (-> & W2 & L2).
  set (y2 := casc (b_c1 b) y1 (q2 st) (q3 st)) in *. assert (zlen y2 = zlen xs) as Z2 by (unfold y2; by rewrite zlen_casc).
  destruct (cascade_ok _ _ _ _ y2 O2 W2 _ _ I2 B3) as (E3 & W3 & L3).
  set (y3 := casc (b_c2 b) y2 (q4 st) (q5 st)) in *. assert (zlen y3 = zlen xs) as Z3 by (unfold y3; by rewrite zlen_casc).
  rewrite !aget_in by lia. cbn [mbind option_bind]. rewrite bwrite_in by lia. cbn [mbind option_bind].
  rewrite aget_in by lia. cbn [mbind option_bind]. rewrite E3. cbn [mbind option_bind].
  rewrite bwrite_in by lia. cbn [mbind option_bind]. rewrite aget_in by lia. cbn [mbind option_bind].
  assert (splice out 0 y3 = y3) as ->.
  { unfold splice. cbn [take app Z.to_nat]. rewrite Z.add_0_l, drop_ge, app_nil_r by (unfold zlen in *; lia). done. }
  eexists. split; [done|]. split; [done|]. split; [done|].
  pose proof (within_last _ _ W1 ltac:(lia)) as V1. pose proof (within_last _ _ W2 ltac:(lia)) as V2.
  pose proof (within_last _ _ W3 ltac:(lia)) as V3. rewrite Z1, ?Z2, ?Z3 in *.
  split; cbn [q0 q1 q2 q3 q4 q5]; auto.
Qed.

(** The bounds for analysis (16-bit samples in Q10) and synthesis (sums of
    two of them). *)
Definition ana1 : bounds := Bounds 6418 33554432 7115 36982 40126466 84880 57261 85413241 453494 234670073.
Definition ana2 : bounds := Bounds 21333 33554432 31629 49062 55399426 195176 63010 138346410 1634768 404374491.
Definition syn1 : bounds := Bounds 6418 67108864 7115 36982 80252930 84880 57261 170826476 453494 469340121.
Definition syn2 : bounds := Bounds 21333 67108864 31629 49062 110798850 195176 63010 276692811 1634768 808748929.

Definition odd_q10 (xs : list Z) (n : Z) : list Z := (fun i => zn xs (2 * i + 1) * 2 ^ 10) <$> seqZ 0 n.
Definition even_q10 (xs : list Z) (n : Z) : list Z := (fun i => zn xs (2 * i) * 2 ^ 10) <$> seqZ 0 n.

Lemma split_samples_ok (xs : list Z) (n : nat) : forall k, 0 <= k -> k + 2 * Z.of_nat n <= zlen xs ->
  split_samples n xs k =
    Some ((fun i => zn xs (k + (2 * i + 1)) * 2 ^ 10) <$> seqZ 0 (Z.of_nat n),
          (fun i => zn xs (k + 2 * i) * 2 ^ 10) <$> seqZ 0 (Z.of_nat n)).
Proof.
  induction n as [|n IH]; intros k Hk Hl; [done|]. cbn [split_samples]. rewrite !aget_in by lia.
  cbn [mbind option_bind]. rewrite IH by lia. cbn [mbind option_bind]. rewrite !fmap_seqZ_S.
  replace (k + (2 * 0 + 1)) with (k + 1) by lia. replace (k + 2 * 0) with k by lia.
  f_equal. f_equal; f_equal; apply list_fmap_ext; intros j i _; cbv beta; f_equal; f_equal; lia.
Qed.

Lemma sum_diff_ok (low high : list Z) (n : nat) : forall i, 0 <= i -> i + Z.of_nat n <= zlen low ->
  i + Z.of_nat n <= zlen high ->
  sum_diff n low high i =
    Some ((fun j => (zn low (i + j) + zn high (i + j)) * 2 ^ 10) <$> seqZ 0 (Z.of_nat n),
          (fun j => (zn low (i + j) - zn high (i + j)) * 2 ^ 10) <$> seqZ 0 (Z.of_nat n)).
Proof.
  induction n as [|n IH]; intros i Hi Hl Hh; [done|]. cbn [sum_diff]. rewrite !aget_in by lia.
  cbn [mbind option_bind]. rewrite IH by lia. cbn [mbind option_bind]. rewrite !fmap_seqZ_S, Z.add_0_r.
  f_equal. f_equal; f_equal; apply list_fmap_ext; intros j k _; cbv beta; by replace (i + (k + 1)) with (i + 1 + k) by lia.
Qed.

Definition low_sample (a b : Z) : Z := clamp16 (Z.shiftr (a + b + 1024) 11).
Definition high_sample (a b : Z) : Z := clamp16 (Z.shiftr (a - b + 1024) 11).

Lemma bands_ok (f1 : list Z) : forall (f2 low high : list Z) (i : Z), length f1 = length f2 ->
  Forall (within 234670073) f1 -> Forall (within 404374491) f2 -> 0 <= i ->
  i + zlen f1 <= zlen low -> i + zlen f1 <= zlen high ->
  exists low' high', bands f1 f2 low high i = Some (low', high') /\
    upd low i (zip_with low_sample f1 f2) low' /\ upd high i (zip_with high_sample f1 f2) high'.
Proof.
  induction f1 as [|a f1 IH]; intros [|b f2] low high i Hlen H1 H2 Hi Hlow Hhigh; try done.
  { exists low, high. change (zlen (@nil Z)) with 0 in *. split_and!; [done|apply upd_nil; lia|apply upd_nil; lia]. }
  cbn [bands zip_with]. inversion H1 as [|? ? Ha H1']; subst. inversion H2 as [|? ? Hb H2']; subst.
  unfold within in Ha, Hb. rewrite zlen_cons in *. pose proof (zlen_nonneg f1).
  rewrite (int_add_in a b) by lia. cbn [mbind option_bind].
  rewrite (int_add_in (a + b)) by lia. cbn [mbind option_bind].
  rewrite sat16_clamp. change (clamp16 (Z.shiftr (a + b + 1024) 11)) with (low_sample a b).
  destruct (aset_upd low i (low_sample a b) ltac:(lia)) as (low1 & -> & U1). cbn [mbind option_bind].
  rewrite int_add_in by lia. cbn [mbind option_bind]. rewrite int_add_in by lia. cbn [mbind option_bind].
  rewrite sat16_clamp, Z.add_opp_r. change (clamp16 (Z.shiftr (a - b + 1024) 11)) with (high_sample a b).
  destruct (aset_upd high i (high_sample a b) ltac:(lia)) as (high1 & -> & V1). cbn [mbind option_bind].
  destruct (IH f2 low1 high1 (i + 1)) as (low' & high' & -> & U2 & V2); auto; try lia.
  { rewrite (u_len _ _ _ _ U1). lia. }
  { rewrite (u_len _ _ _ _ V1). lia. }
  exists low', high'. split_and!; [done|by apply (upd_cons low low1)|by apply (upd_cons high high1)].
Qed.

(** The samples of the synthesis output, two per pair. *)
Fixpoint mixed (f1 f2 : list Z) : list Z :=
  match f1, f2 with
  | a :: f1, b :: f2 =>
    clamp16 (Z.shiftr (b + 512) 10) :: clamp16 (Z.shiftr (a + 512) 10) :: mixed f1 f2
  | _, _ => []
  end.

Lemma interleave_ok (f1 : list Z) : forall (f2 out : list Z) (k : Z), length f1 = length f2 ->
  Forall (within 808748929) f1 -> Forall (within 469340121) f2 -> 0 <= k -> k + 2 * zlen f1 <= zlen out ->
  exists out', interleave f1 f2 out k = Some out' /\ upd out k (mixed f1 f2) out'.
Proof.
  induction f1 as [|a f1 IH]; intros [|b f2] out k Hlen H1 H2 Hk Hout; try done.
  { exists out. change (zlen (@nil Z)) with 0 in *. split; [done|apply upd_nil; lia]. }
  cbn [interleave mixed]. inversion H1 as [|? ? Ha H1']; subst. inversion H2 as [|? ? Hb H2']; subst.
  unfold within in Ha, Hb. rewrite zlen_cons in *. pose proof (zlen_nonneg f1).
  rewrite (int_add_in b) by lia. cbn [mbind option_bind]. rewrite sat16_clamp.
  destruct (aset_upd out k (clamp16 (Z.shiftr (b + 512) 10)) ltac:(lia)) as (o1 & -> & U1). cbn [mbind option_bind].
  pose proof (u_len _ _ _ _ U1) as L1. rewrite int_add_in by lia. cbn [mbind option_bind]. rewrite sat16_clamp.
  destruct (aset_upd o1 (k + 1) (clamp16 (Z.shiftr (a + 512) 10)) ltac:(lia)) as (o2 & -> & U2). cbn [mbind option_bind].
  pose proof (u_len _ _ _ _ U2) as L2. cbn [length] in Hlen.
  destruct (IH f2 o2 (k + 2)) as (out' & -> & U3); auto; try lia.
  exists out'. split; [done|]. apply (upd_cons out o1); [done|]. apply (upd_cons o1 o2); [done|].
  by replace (k + 1 + 1) with (k + 2) by lia.
Qed.

Lemma zlen_fmap_seqZ (f : Z -> Z) (n : Z) : 0 <= n -> zlen (f <$> seqZ 0 n) = n.
Proof. intros Hn. unfold zlen. rewrite length_fmap, length_seqZ. lia. Qed.

Lemma zlen_replicate (n : Z) (x : Z) : 0 <= n -> zlen (replicate (Z.to_nat n) x) = n.
Proof. intros Hn. unfold zlen. rewrite length_replicate. lia. Qed.

Lemma within_fmap (M : Z) (f : Z -> Z) (n : Z) : (forall i, 0 <= i < n -> within M (f i)) ->
  Forall (within M) (f <$> seqZ 0 n).
Proof.
  intros H. apply Forall_fmap, Forall_forall. intros i Hi. apply elem_of_seqZ in Hi. apply H. lia.
Qed.

Lemma analysis_ok (xs low high : list Z) (n : Z) (st1 st2 : qmf_state) :
  Forall int16 xs -> 0 < n <= kMaxBandFrameLength -> zlen xs = 2 * n -> n <= zlen low -> n <= zlen high ->
  qmf_inv ana1 st1 -> qmf_inv ana2 st2 ->
  exists f1 st1' f2 st2' low' high',
    allpass3 WebRtcSpl_kAllPassFilter1 st1 (odd_q10 xs n) = (f1, st1') /\
    allpass3 WebRtcSpl_kAllPassFilter2 st2 (even_q10 xs n) = (f2, st2') /\
    WebRtcSpl_AnalysisQMF xs (2 * n) low high st1 st2 = Some (low', high', st1', st2') /\
    upd low 0 (zip_with low_sample f1 f2) low' /\ upd high 0 (zip_with high_sample f1 f2) high' /\
    qmf_inv ana1 st1' /\ qmf_inv ana2 st2'.
Proof.
  intros H16 Hn Hxs Hlow Hhigh I1 I2. unfold kMaxBandFrameLength in Hn. unfold WebRtcSpl_AnalysisQMF, kMaxBandFrameLength.
  rewrite (Z.mul_comm 2 n), Z.mod_mul, Z.div_mul by lia. rewrite (proj2 (Z.ltb_ge 320 n)) by lia. cbn [Z.eqb negb orb].
  rewrite split_samples_ok by lia. rewrite Z2Nat.id by lia. cbn [mbind option_bind].
  change ((fun i => zn xs (0 + (2 * i + 1)) * 2 ^ 10) <$> seqZ 0 n) with (odd_q10 xs n).
  change ((fun i => zn xs (0 + 2 * i) * 2 ^ 10) <$> seqZ 0 n) with (even_q10 xs n).
  assert (zlen (odd_q10 xs n) = n) as L1 by (apply zlen_fmap_seqZ; lia).
  assert (zlen (even_q10 xs n) = n) as L2 by (apply zlen_fmap_seqZ; lia).
  destruct (AllPassQMF_ok ana1 (odd_q10 xs n) (replicate (Z.to_nat n) 0) st1) as (in1 & R1); auto; try lia.
  { apply within_fmap. intros i Hi. pose proof (int16_zn xs (2 * i + 1) H16 ltac:(lia)). unfold within. cbn [ana1 b_m0]. lia. }
  { rewrite zlen_replicate; lia. }
  destruct (AllPassQMF_ok ana2 (even_q10 xs n) (replicate (Z.to_nat n) 0) st2) as (in2 & R2); auto; try lia.
  { apply within_fmap. intros i Hi. pose proof (int16_zn xs (2 * i) H16 ltac:(lia)). unfold within. cbn [ana2 b_m0]. lia. }
  { rewrite zlen_replicate; lia. }
  rewrite L1 in R1. rewrite L2 in R2.
  change (b_c0 ana1, b_c1 ana1, b_c2 ana1) with WebRtcSpl_kAllPassFilter1 in R1.
  change (b_c0 ana2, b_c1 ana2, b_c2 ana2) with WebRtcSpl_kAllPassFilter2 in R2.
  destruct (allpass3 WebRtcSpl_kAllPassFilter1 st1 (odd_q10 xs n)) as [f1 st1'] eqn:E1.
  destruct (allpass3 WebRtcSpl_kAllPassFilter2 st2 (even_q10 xs n)) as [f2 st2'] eqn:E2.
  destruct R1 as (-> & Z1 & B1 & J1). destruct R2 as (-> & Z2 & B2 & J2). cbn [mbind option_bind].
  destruct (bands_ok f1 f2 low high 0) as (low' & high' & -> & U1 & U2); auto; try lia.
  { unfold zlen in *. lia. }
  cbn [mbind option_bind]. exists f1, st1', f2, st2', low', high'. split_and!; auto.
Qed.

Lemma synthesis_ok (low high out : list Z) (n : Z) (st1 st2 : qmf_state) :
  Forall int16 low -> Forall int16 high -> 0 < n <= kMaxBandFrameLength -> n <= zlen low -> n <= zlen high ->
  2 * n <= zlen out -> qmf_inv syn2 st1 -> qmf_inv syn1 st2 ->
  exists f1 st1' f2 st2' out',
    allpass3 WebRtcSpl_kAllPassFilter2 st1 ((fun j => (zn low j + zn high j) * 2 ^ 10) <$> seqZ 0 n) = (f1, st1') /\
    allpass3 WebRtcSpl_kAllPassFilter1 st2 ((fun j => (zn low j - zn high j) * 2 ^ 10) <$> seqZ 0 n) = (f2, st2') /\
    WebRtcSpl_SynthesisQMF low high n out st1 st2 = Some (out', st1', st2') /\
    upd out 0 (mixed f1 f2) out' /\ qmf_inv syn2 st1' /\ qmf_inv syn1 st2'.
Proof.
  intros Hl16 Hh16 Hn Hlow Hhigh Hout I1 I2. unfold kMaxBandFrameLength in Hn.
  unfold WebRtcSpl_SynthesisQMF, kMaxBandFrameLength. rewrite (proj2 (Z.ltb_ge 320 n)) by lia.
  rewrite sum_diff_ok by lia. rewrite Z2Nat.id by lia. cbn [mbind option_bind].
  change ((fun j => (zn low (0 + j) + zn high (0 + j)) * 2 ^ 10) <$> seqZ 0 n)
    with ((fun j => (zn low j + zn high j) * 2 ^ 10) <$> seqZ 0 n).
  change ((fun j => (zn low (0 + j) - zn high (0 + j)) * 2 ^ 10) <$> seqZ 0 n)
    with ((fun j => (zn low j - zn high j) * 2 ^ 10) <$> seqZ 0 n).
  set (s := (fun j => (zn low j + zn high j) * 2 ^ 10) <$> seqZ 0 n).
  set (d := (fun j => (zn low j - zn high j) * 2 ^ 10) <$> seqZ 0 n).
  assert (zlen s = n) as L1 by (apply zlen_fmap_seqZ; lia). assert (zlen d = n) as L2 by (apply zlen_fmap_seqZ; lia).
  destruct (AllPassQMF_ok syn2 s (replicate (Z.to_nat n) 0) st1) as (in1 & R1); auto; try lia.
  { apply within_fmap. intros i Hi. pose proof (int16_zn low i Hl16 ltac:(lia)). pose proof (int16_zn high i Hh16 ltac:(lia)).
    unfold within. cbn [syn2 b_m0]. lia. }
  { rewrite zlen_replicate; lia. }
  destruct (AllPassQMF_ok syn1 d (replicate (Z.to_nat n) 0) st2) as (in2 & R2); auto; try lia.
  { apply within_fmap. intros i Hi. pose proof (int16_zn low i Hl16 ltac:(lia)). pose proof (int16_zn high i Hh16 ltac:(lia)).
    unfold within. cbn [syn1 b_m0]. lia. }
  { rewrite zlen_replicate; lia. }
  rewrite L1 in R1. rewrite L2 in R2.
  change (b_c0 syn2, b_c1 syn2, b_c2 syn2) with WebRtcSpl_kAllPassFilter2 in R1.
  change (b_c0 syn1, b_c1 syn1, b_c2 syn1) with WebRtcSpl_kAllPassFilter1 in R2.
  destruct (allpass3 WebRtcSpl_kAllPassFilter2 st1 s) as [f1 st1'] eqn:E1.
  destruct (allpass3 WebRtcSpl_kAllPassFilter1 st2 d) as [f2 st2'] eqn:E2.
  destruct R1 as (-> & Z1 & B1 & J1). destruct R2 as (-> & Z2 & B2 & J2). cbn [mbind option_bind].
  destruct (interleave_ok f1 f2 out 0) as (out' & -> & U); auto; try lia.
  { unfold zlen in *. lia. }
  cbn [mbind option_bind]. exists f1, st1', f2, st2', out'. split_and!; auto.
Qed.

(** C19: the two-band analysis and synthesis filters run over frames of up to
    320 samples per band without an overflow, from a reset state or any state
    an earlier frame left: the bands are the rounded, saturated sums and
    differences of the exactly computed all-pass outputs of the odd and even
    samples, the synthesis output interleaves the all-pass outputs of the sum
    and difference of the bands, and the new states are of the same kind. *)
Theorem qmf_stable (xs low high out : list Z) (n : Z) (st1 st2 : qmf_state) :
  Forall int16 xs -> Forall int16 low -> Forall int16 high -> 0 < n <= kMaxBandFrameLength ->
  zlen xs = 2 * n -> n <= zlen low -> n <= zlen high -> 2 * n <= zlen out ->
  (qmf_inv ana1 st1 -> qmf_inv ana2 st2 -> exists f1 st1' f2 st2' low' high',
     allpass3 WebRtcSpl_kAllPassFilter1 st1 (odd_q10 xs n) = (f1, st1') /\
     allpass3 WebRtcSpl_kAllPassFilter2 st2 (even_q10 xs n) = (f2, st2') /\
     WebRtcSpl_AnalysisQMF xs (2 * n) low high st1 st2 = Some (low', high', st1', st2') /\
     upd low 0 (zip_with low_sample f1 f2) low' /\ upd high 0 (zip_with high_sample f1 f2) high' /\
     qmf_inv ana1 st1' /\ qmf_inv ana2 st2') /\
  (qmf_inv syn2 st1 -> qmf_inv syn1 st2 -> exists f1 st1' f2 st2' out',
     allpass3 WebRtcSpl_kAllPassFilter2 st1 ((fun j => (zn low j + zn high j) * 2 ^ 10) <$> seqZ 0 n) = (f1, st1') /\
     allpass3 WebRtcSpl_kAllPassFilter1 st2 ((fun j => (zn low j - zn high j) * 2 ^ 10) <$> seqZ 0 n) = (f2, st2') /\
     WebRtcSpl_SynthesisQMF low high n out st1 st2 = Some (out', st1', st2') /\
     upd out 0 (mixed f1 f2) out' /\ qmf_inv syn2 st1' /\ qmf_inv syn1 st2').
Proof.
  intros Hx Hl Hh Hn Hz Hzl Hzh Hzo. split; intros I1 I2.
  - by apply analysis_ok.
  - by apply synthesis_ok.
Qed.

Lemma qmf_inv_zero (b : bounds) : bounds_okb b = true -> qmf_inv b (Qmf 0 0 0 0 0 0).
Proof.
  intros H. pose proof (chain_inv_zero b H) as [I0 I1 I2 I3]. cbn [z0 z1 z2 z3] in *.
  unfold bounds_okb, sec_okb in H. pose proof (si_in _ _ _ _ _ I1). pose proof (si_in _ _ _ _ _ I2).
  split; cbn [q0 q1 q2 q3 q4 q5]; auto.
Qed.

Lemma qmf_witness : exists f1 st1' f2 st2' low' high',
  allpass3 WebRtcSpl_kAllPassFilter1 (Qmf 0 0 0 0 0 0) (odd_q10 [1000; -2000; 32767; -32768] 2) = (f1, st1') /\
  allpass3 WebRtcSpl_kAllPassFilter2 (Qmf 0 0 0 0 0 0) (even_q10 [1000; -2000; 32767; -32768] 2) = (f2, st2') /\
  WebRtcSpl_AnalysisQMF [1000; -2000; 32767; -32768] (2 * 2) [0; 0] [0; 0] (Qmf 0 0 0 0 0 0) (Qmf 0 0 0 0 0 0) =
    Some (low', high', st1', st2') /\
  upd [0; 0] 0 (zip_with low_sample f1 f2) low' /\ upd [0; 0] 0 (zip_with high_sample f1 f2) high' /\
  qmf_inv ana1 st1' /\ qmf_inv ana2 st2'.
Proof.
  destruct (qmf_stable [1000; -2000; 32767; -32768] [0; 0] [0; 0] [0; 0; 0; 0] 2 (Qmf 0 0 0 0 0 0) (Qmf 0 0 0 0 0 0))
    as [Hana _]; try closed; try (repeat constructor; closed).
  apply Hana; apply qmf_inv_zero; reflexivity.
Defined.
